(* ===== verification/_CoqProject ===== *)
-Q . S2P
Prelude.v
OAuthStore.v
OAuthStoreProps.v
OAuthDeviceProps.v
OAuthConsentProps.v
OAuthExamples.v
Postgres.v
PgOAuth.v
PgOAuthProps.v
GoStrings.v
GoXml.v
GoCrypto.v
GoAead.v
Secrets.v
Session.v
RateLimit.v
Cas.v
SessionExamples.v
Mfa.v
MfaExamples.v
Identity.v
IdentityProps.v
Passwords.v
IdentityExamples.v
Client.v
Authorize.v
GoUrl.v
ReturnTo.v
Federation.v
UserCodes.v
GoTime.v
ClientExamples.v
FederationExamples.v
Access.v
Administration.v
AuditLog.v
Http.v
JsonBodies.v
Server.v
HttpWp.v
Services.v
Providers.v
Tokens.v
TokensProps.v
Exchange.v
ServicesProps.v
Routes.v
Site.v
Browser.v
BrowserProps.v
AuthorizeEndpoint.v
AuthorizeProps.v
Device.v
CasEndpoints.v
CasProps.v
LogoutProps.v
CasSound.v
SignIn.v
SignInProps.v
SignInSound.v
Account.v
Registration.v
AccountProps.v
AdminAuth.v
AdminUsers.v
AdminAccess.v
AdminClients.v
AdminSystem.v
AdminRoutes.v
AdminProps.v
TokensExamples.v
AuthorizeExamples.v
CasExamples.v
SignInExamples.v
AccountExamples.v
AdminExamples.v
