(* ===== verification/Prelude.v ===== *)
(** * Certus: a verified model of the authentication centre

    Certus is an OAuth 2.1 / OpenID Connect / CAS authentication centre written in Go
    (module [certus], sources under [src/internal/] and [src/cmd/]). This library models
    its core as Rocq functions and proves what makes it correct. A model is a
    translation: the names are the code's, a record stands for a struct, an inductive
    type for an enumeration or an error, and every definition that stands for code
    carries the file and the lines it translates.

    ** Parts of the program and where they are modelled

    Shared vocabulary
    - [Prelude]: results ([Res], the code's [(value, error)]), time as nanoseconds,
      64-bit wrap-around, executions of a state machine ([run], [wins]), growing tables,
      iteration over a Go map ([MapRange]), tactics and hint databases.
    - [GoStrings], [GoCrypto], [GoAead], [GoUrl], [GoTime], [GoXml]: what the code uses of
      Go's standard library: strings, case folding, number and base64/hex coding, SHA-1,
      SHA-256, HMAC, AES-GCM, queries and their escapes, dates and times of RFC 3339,
      texts in XML, all executable and tested on published vectors.

    Components, each an in-memory state with one function per operation and, in the same
    file unless another is named, what its operations guarantee
    - [OAuthStore] ([oauth/store.go]): codes, access tokens, refresh token families,
      device authorizations, consents. Guarantees in [OAuthStoreProps],
      [OAuthDeviceProps], [OAuthConsentProps]; instances in [OAuthExamples].
    - [Session] ([session/]): sign-in sessions.
    - [RateLimit] ([ratelimit/]): attempts per subject in a bounded table.
    - [Cas] ([cas/ticket.go]): service, proxy and proxy-granting tickets.
    - [Secrets] ([secrets/keyring.go]): encryption of secrets at rest.
    - [Mfa] ([mfa/]): one-time passwords, recovery codes, trusted devices.
    - [Identity], [IdentityProps] ([identity/user.go],
      [memory_repository.go]): accounts, external identities, e-mailed tokens.
    - [Passwords] ([identity/password.go], [registration.go],
      [email_verification.go], [password_migration.go]).
    - [Client] ([client/client.go]): registration of applications.
    - [Authorize] ([oauth/authorize.go]): parsing of authorization requests.
    - [Access] ([access/]): roles, permissions, entitlements.
    - [Administration] ([administration/]): administrators.
    - [Federation] ([federation/source.go], [config.go]): directories
      and identity providers, with their encrypted secrets.
    - [AuditLog] ([audit/]): the event log and its pages.

    The repositories in PostgreSQL ([storage/postgres/])
    - [Postgres]: tables as lists of rows, the statements the repositories use, and
      machines that answer the same.
    - [PgOAuth] ([oauth_repository.go]): the grants, every method as a function on the
      tables. [PgOAuthProps] shows that it behaves as the repository in memory.

    The HTTP layer ([platform/http/])
    - [Http]: requests, replies, the state shared by all requests ([World]) and handlers
      as programs ([Prog]): trees of calls of the components. A component holds its
      mutex for one call, so a call is atomic and a handler is not. [runs] executes a
      handler with arbitrary interference before each call, [yields] with arbitrary
      answers, [exec] and [Exchange.alone] compute.
    - [HttpWp]: a weakest precondition that remembers the calls made.
    - [Server]: threads that arrive, interleave call by call and finish.
    - [Tokens] ([oauth.go], [device.go], [rate_limit.go]): the token, introspection,
      revocation and user information endpoints.
    - [Routes]: these endpoints running concurrently.
    - [Browser] ([auth.go], [audit.go], [rate_limit.go], [oidc_backchannel.go]): the
      session of a request, forged forms, attempts, signing out and its notifications.
    - [AuthorizeEndpoint], [AuthorizeProps] ([oauth.go], [consent.go]): the authorization
      endpoint, fresh authentication and consent.
    - [Device] ([device.go]) and [UserCodes]: the device grant on the user's side.
    - [CasEndpoints] ([cas.go]): signing in to services with tickets, validation, proxies
      and single logout, with the XML they write. [CasProps] and [CasSound] show what
      they guarantee, alone and concurrently; [LogoutProps] is about every logout.
    - [Services]: the methods of the password, registration, verification and
      second-factor services as requests run them, one repository call at a time;
      [ServicesProps] shows that alone each is the atomic function of its component.
    - [Providers] ([federation/ldap.go], [oidc.go]): the clients of directories and of
      identity providers, whose answers are calls to the outside.
    - [SignIn] ([auth.go], [mfa.go]): the login page, sign-in by password, directory or
      provider, second factors and trusted devices. [BrowserProps] holds what all
      handlers of browsers share, [SignInProps] the evidence a sign-in needs,
      [SignInSound] that every endpoint gathers it and that a right password opens a
      session, [SignInExamples] every way of signing in on the example site.
    - [JsonBodies] ([helpers.go]): JSON bodies decoded into structs, and values written.
    - [Account] ([account.go], [email_verification.go], [mfa.go]): the pages of the own
      account. [AccountProps] says what each change needs, and shows that every page asks
      for it and that a new password signs everyone else out.
    - [Registration] ([registration.go]): opening an account.
      [AccountExamples] evaluates both.
    - [AdminAuth] ([admin_auth.go], [audit.go]): who may administer, and the roles of
      administrators. [AdminUsers] ([admin_users.go] and others): accounts.
      [AdminAccess] ([access.go]), [AdminClients] ([admin_clients.go]): applications with
      their roles and permissions. [AdminSystem] ([admin_identity_sources.go], [audit.go],
      [signing_keys.go], [maintenance.go], [email.go]): the rest. [AdminRoutes]
      ([server.go]): their routes and permissions. [AdminProps] says what each change
      needs and shows that every endpoint asks for it; instances in [AdminExamples].
    - [ReturnTo] ([auth.go]): [url.Parse], [URL.String] and the addresses a sign-in may
      return to.
    - [Site]: an example site that the files of examples evaluate handlers on.

    ** What the theorems show

    - Single use: a code, a refresh token, a device code, a one-time password, a recovery
      code, a service ticket or a reset token is accepted at most once in every
      execution; for the grants of the token endpoint, however many requests present
      them concurrently ([Routes.grant_redeemed_once]).
    - Every access token was earned: [TokensProps.access_tokens_justified] (client
      authenticated, grant consumed, user, session and consent checked);
      [introspection_sound] and [userinfo_within_scope] for what is told about it;
      [Exchange.code_exchange_succeeds] for a correct request, which does obtain it.
    - Every code was authorized: [AuthorizeProps.codes_justified] (a session, an
      authentication as fresh as asked, a consent) and, for devices,
      [Device.device_grants_decided_by_users]. The browser is only sent to registered
      addresses ([redirects_registered]) or, after a sign-in, to pages of the site
      ([return_to_stays]).
    - CAS: every ticket is justified by the calls before it ([cas_tickets_justified]), a
      validation names the user of the ticket it consumed ([cas_validation_sound]), once
      ([cas_ticket_accepted_once]), and a service reads what was written
      ([cas_replies_read]).
    - Signing in: every session, and every challenge for a second factor, is justified by
      the checks before it ([sign_ins_justified]), a reply only opens sessions it created
      ([sign_in_opens_created]), and the right password does sign in
      ([password_sign_in_succeeds]). Services call by call refine their atomic functions
      ([services_refine]).
    - PostgreSQL: the grants in the database behave as those in memory, whatever is asked
      of them ([PgOAuthProps.pg_grants_refine]).
    - Accounts: a page changes only the account of its session, after the checks the change
      needs ([account_changes_owned]); a new password ends the other sessions and revokes
      their grants ([new_password_ends_the_rest]); a registration opens the account it
      creates and no other ([registrations_justified]).
    - Administration: every endpoint serves administrators with its permission, and every
      change is asked for by one who may make it ([admin_changes_authorized]).
    - A logout ends the session, its grants and its tickets and tells the applications
      ([logout_complete]).
    - Identity sources: [sources_valid], [source_secret_delivered],
      [archived_source_final], [rewrap_keeps_secrets].
    - User codes: drawing one ends ([user_code_terminates]) and any spelling of it is
      understood ([user_code_understood]).
    - Revocation: of a session, a user, a client, a consent, a token or a family is
      complete and permanent ([revocation_complete], [refresh_reuse_kills_family],
      [revocation_withdraws_approvals], [revocation_effective],
      [ended_sessions_stay_ended]).
    - Integrity of the tables: invariants preserved by every operation
      ([accounts_unique], [login_never_lost], [access_integrity], [super_admin_remains],
      [registered_clients_safe]) and the evolution of the grant store
      ([store_run_evolves]).
    - Refinement and equivalence with specifications: the consent table is a map to
      sets ([consent_refinement]), entitlements and administrator powers are their
      declarative definitions ([effective_exact], [administrator_powers]), password
      verification decides equality ([password_exact]).
    - Round trips ([secret_roundtrip], [session_token_opens_session],
      [authorization_request_roundtrip], where what is parsed is legal:
      [authorization_request_legal]) and bounds ([rate_window_exact],
      [rate_table_bounded], [poll_backoff], [verify_guesses_take_time]).
    - Defects of the code, as theorems about the model: [dotted_key_loses_secrets],
      [parallel_guesses_cost_one], [refresh_race_escapes_revocation],
      [parallel_deactivation_leaves_none].

    ** Parameters

    Code that is not in the repository is a parameter, with its documented behaviour as
    a named hypothesis where a theorem needs it, and a concrete instance in the files of
    examples: [UnicodeTables] (case tables beyond ASCII), [URLParser] (net/url),
    [MailParser] (net/mail), [Argon2] (the password hash), [HostParser]
    (the hosts [url.Parse] accepts), [PgServer] (how the database reads an identifier
    and orders texts), [MapRange] (the order of a
    range over a map), the bytes returned by each read of random bytes ([Entropy]),
    [LDAPFilter] (the escaping of a value in a filter), [QRCode] (the modules of a code),
    and
    [TokenSigner] (the JWT signer of [oidc/signer.go], not modelled yet).

    ** Bounds and fuel

    Definitions are structurally recursive. The only bounded iterations are those whose
    bound is the data (block counts of the hashes, digits of a 64-bit number, the length
    of a text); a handler is a finite tree of calls, so every execution of it ends
    ([Http.runs_total]). Machine integers wrap at 64 bits where the code multiplies
    (token lifetimes, lock delays); instants are unbounded.

    ** Not modelled

    - The database server: its statements are modelled as far as the repositories use
      them; transactions are taken to run one after the other, as their row locks order
      those that decide on the same row, and times to be whole microseconds. Of the
      repositories in [storage/postgres/] only those named above are modelled; the others
      implement the interfaces of the in-memory repositories that are modelled.
    - [oidc/signer.go], [mailer/]: RSA signatures, JSON, SMTP. The life cycle of signing
      keys is planned.
    - [metrics/], [observability/], [config/], [cmd/], [maintenance/], favicons, page
      templates, response headers other than those named in a [Body], logging.
    - Planned next: the status and the capabilities of clients, and the life cycle of
      signing keys.
*)
From stdpp Require Export prelude gmap strings list sorting.
From Stdlib Require Export ZArith Lia.

Declare Scope go_scope.
Delimit Scope go_scope with go.
Local Open Scope Z_scope.

(** ** Results: Go's [(value, error)] pairs *)

(** A call that returns [(value, nil)] is [Ok value]; one that returns an error
    is [Err e], the accompanying zero value being unobservable by callers that
    test the error first, as all callers in the repository do. *)
Inductive Res (E A : Type) : Type :=
| Ok (a : A)
| Err (e : E).
Arguments Ok {E A} a.
Arguments Err {E A} e.

Definition is_ok {E A} (r : Res E A) : bool :=
  match r with Ok _ => true | Err _ => false end.

Definition res_bind {E A B} (r : Res E A) (k : A → Res E B) : Res E B :=
  match r with Ok a => k a | Err e => Err e end.

Notation "'let!' x ':=' r 'in' k" := (res_bind r (λ x, k))
  (at level 10, x name, r at level 100, k at level 200) : go_scope.

(** [if cond { return err }] as a step of the same monad. *)
Definition guard_not {E} (P : Prop) `{Decision P} (e : E) : Res E unit :=
  if decide P then Err e else Ok ().

Lemma guard_not_ok {E} (P : Prop) `{Decision P} (e : E) :
  guard_not P e = Ok () ↔ ¬ P.
Proof. unfold guard_not; case_decide; naive_solver. Qed.

Lemma res_bind_ok {E A B} (r : Res E A) (k : A → Res E B) b :
  res_bind r k = Ok b ↔ ∃ a, r = Ok a ∧ k a = Ok b.
Proof. destruct r; naive_solver. Qed.

Lemma res_bind_guard {E B} (P : Prop) `{Decision P} (e : E) (k : unit → Res E B) b :
  res_bind (guard_not P e) k = Ok b ↔ ¬ P ∧ k () = Ok b.
Proof. unfold guard_not; case_decide; naive_solver. Qed.

#[global] Instance Res_eq_dec {E A} `{EqDecision E, EqDecision A} : EqDecision (Res E A).
Proof. solve_decision. Defined.

(** ** Time: [time.Time] and [time.Duration] *)

(** An instant is the number of nanoseconds since Go's zero time (year 1, UTC),
    so [IsZero] is equality with 0 and [UTC] is the identity. *)
Abbreviation Time := Z (only parsing).
Abbreviation Duration := Z (only parsing).

Definition time_zero : Time := 0.
Definition IsZero (t : Time) : bool := bool_decide (t = time_zero).
Definition After (t u : Time) : bool := bool_decide (u < t).
Definition Before (t u : Time) : bool := bool_decide (t < u).

Definition Second : Duration := 1000000000.
Definition Minute : Duration := 60 * Second.
Definition Hour : Duration := 60 * Minute.

(** Seconds between Go's zero time and the Unix epoch. *)
Definition unix_epoch : Z := 62135596800.
(** [t.Unix()]: the seconds field of a time is rounded towards minus infinity. *)
Definition Unix (t : Time) : Z := t / Second - unix_epoch.

(** ** Machine integers *)

Definition min_int64 : Z := - 2 ^ 63.
Definition max_int64 : Z := 2 ^ 63 - 1.
Definition wrap64 (z : Z) : Z := (z + 2 ^ 63) mod 2 ^ 64 - 2 ^ 63.
Definition in_int64 (z : Z) : Prop := min_int64 ≤ z ≤ max_int64.

Lemma wrap64_id z : in_int64 z → wrap64 z = z.
Proof.
  unfold in_int64, wrap64, min_int64, max_int64. intros H.
  rewrite Z.mod_small; lia.
Qed.

Lemma wrap64_in z : in_int64 (wrap64 z).
Proof.
  unfold in_int64, wrap64, min_int64, max_int64.
  pose proof (Z.mod_pos_bound (z + 2 ^ 63) (2 ^ 64)) as H. lia.
Qed.

(** ** Slices *)

(** [slices.Contains]. *)
Definition Contains {A} `{EqDecision A} (l : list A) (x : A) : bool := bool_decide (x ∈ l).

(** A nil-able slice: [None] is [nil]; ranging over it and [len] see [elems]. *)
Abbreviation slice A := (option (list A)) (only parsing).
Definition elems {A} (s : slice A) : list A := default [] s.
(** [append([]T(nil), s...)]: nil when [s] has no element. *)
Definition slice_copy {A} (l : list A) : slice A :=
  match l with [] => None | _ => Some l end.

Lemma elems_slice_copy {A} (l : list A) : elems (slice_copy l) = l.
Proof. by destruct l. Qed.

Lemma Contains_true {A} `{EqDecision A} (l : list A) x : Contains l x = true ↔ x ∈ l.
Proof. apply bool_decide_eq_true. Qed.
Lemma Contains_false {A} `{EqDecision A} (l : list A) x : Contains l x = false ↔ x ∉ l.
Proof. apply bool_decide_eq_false. Qed.

(** *** Tables that only grow

    [grows R l l']: every entry of [l] is still at its index in [l'], changed at
    most as [R] allows; entries may have been appended. *)
Definition grows {A} (R : relation A) (l l' : list A) : Prop :=
  ∀ i x, l !! i = Some x → ∃ y, l' !! i = Some y ∧ R x y.

Section Grows.
Context {A : Type} (R : relation A) `{!PreOrder R}.

#[global] Instance grows_preorder : PreOrder (grows R).
Proof.
  split.
  - intros l i x H. by exists x.
  - intros l1 l2 l3 H12 H23 i x H.
    destruct (H12 i x H) as (y & Hy & Rxy). destruct (H23 i y Hy) as (z & Hz & Ryz).
    exists z. split; [done|]. by etrans.
Qed.

Lemma grows_app l l2 : grows R l (l ++ l2).
Proof. intros i x H. exists x. split; [by apply lookup_app_l_Some|done]. Qed.

Lemma grows_insert l i x y : l !! i = Some x → R x y → grows R l (<[i:=y]> l).
Proof.
  intros Hi HR j z Hj. destruct (decide (i = j)) as [->|Hne].
  - exists y. split; [|by simplify_eq]. apply list_lookup_insert_eq. by eapply lookup_lt_Some.
  - exists z. by rewrite list_lookup_insert_ne.
Qed.

Lemma grows_fmap (f : A → A) l : (∀ x, R x (f x)) → grows R l (f <$> l).
Proof. intros Hf i x H. exists (f x). by rewrite list_lookup_fmap, H. Qed.

(** A search whose predicate [R] does not disturb finds the same index. *)
Lemma grows_list_find (P : A → Prop) `{∀ x, Decision (P x)} l l' i x :
  (∀ x y, R x y → P x ↔ P y) →
  grows R l l' → list_find P l = Some (i, x) →
  ∃ y, list_find P l' = Some (i, y) ∧ R x y.
Proof.
  intros HP Hg (Hi & Px & Hfirst)%list_find_Some.
  destruct (Hg i x Hi) as (y & Hy & Rxy). exists y. split; [|done].
  apply list_find_Some. split; [done|]. split; [by apply (HP x y Rxy)|].
  intros j z Hj Hlt. destruct (l !! j) as [w|] eqn:Ej.
  - destruct (Hg j w Ej) as (z' & Hz' & Rwz). simplify_eq.
    intros Pz. eapply Hfirst; [done..|]. by apply (HP w z Rwz).
  - apply lookup_lt_Some in Hi. apply lookup_ge_None in Ej. lia.
Qed.
End Grows.

Lemma list_find_lookup {A} (P : A → Prop) `{∀ x, Decision (P x)} l i x :
  list_find P l = Some (i, x) → l !! i = Some x ∧ P x.
Proof. intros (?&?&?)%list_find_Some. done. Qed.

Lemma list_find_None_elem {A} (P : A → Prop) `{∀ x, Decision (P x)} l x :
  list_find P l = None → x ∈ l → ¬ P x.
Proof. rewrite list_find_None, Forall_forall. auto. Qed.

Lemma elem_of_insert_or {A} (l : list A) i (x y : A) : y ∈ <[i:=x]> l → y = x ∨ y ∈ l.
Proof.
  intros [j Hj]%list_elem_of_lookup. destruct (decide (i = j)) as [->|Hne].
  - destruct (decide (j < length l)%nat) as [Hl|Hl].
    + rewrite list_lookup_insert_eq in Hj by done. naive_solver.
    + rewrite list_insert_ge in Hj by lia. right. apply list_elem_of_lookup. eauto.
  - rewrite list_lookup_insert_ne in Hj by done. right. apply list_elem_of_lookup. eauto.
Qed.

(** ** Executions of a component: a list of operations run from a state *)

Section Runs.
Context {St Op Resp : Type} (step : St → Op → St * Resp).

Fixpoint run (s : St) (ops : list Op) : St * list Resp :=
  match ops with
  | [] => (s, [])
  | o :: rest =>
      let r1 := step s o in
      let r2 := run r1.1 rest in
      (r2.1, r1.2 :: r2.2)
  end.

Lemma run_app s ops1 ops2 : (run s (ops1 ++ ops2)).1 = (run (run s ops1).1 ops2).1.
Proof. revert s. induction ops1 as [|o ops1 IH]; intros s; simpl; [done|apply IH]. Qed.

Lemma run_invariant (I : St → Prop) ops s :
  (∀ s o, I s → I (step s o).1) → I s → I (run s ops).1.
Proof. intros HI. revert s. induction ops; simpl; auto. Qed.

(** An invariant of the operations that satisfy [Q]. *)
Lemma run_invariant_ops (I : St → Prop) (Q : Op → Prop) ops s :
  (∀ s o, Q o → I s → I (step s o).1) → Forall Q ops → I s → I (run s ops).1.
Proof. intros HI HQ. revert s. induction HQ; simpl; auto. Qed.

(** Every operation of a run is allowed in the state it meets. *)
Fixpoint run_ok (ok : St → Op → Prop) (s : St) (ops : list Op) : Prop :=
  match ops with
  | [] => True
  | o :: rest => ok s o ∧ run_ok ok (step s o).1 rest
  end.

Lemma run_invariant_ok (I : St → Prop) (ok : St → Op → Prop) ops s :
  (∀ s o, ok s o → I s → I (step s o).1) → run_ok ok s ops → I s → I (run s ops).1.
Proof. intros HI. revert s. induction ops; simpl; [auto|]. intros s [? ?]. auto. Qed.

(** The same for a property of transitions that composes. *)
Lemma run_preorder (R : relation St) `{!PreOrder R} ops s :
  (∀ s o, R s (step s o).1) → R s (run s ops).1.
Proof.
  intros HR. revert s. induction ops as [|o ops IH]; intros s; simpl; [done|].
  etrans; [apply HR|apply IH].
Qed.

(** How many operations of a run end with a response that [win] accepts. *)
Fixpoint wins (win : Op → Resp → bool) (s : St) (ops : list Op) : nat :=
  match ops with
  | [] => 0
  | o :: rest =>
      let r1 := step s o in
      ((if win o r1.2 then 1 else 0) + wins win r1.1 rest)%nat
  end.

(** A resource that a win spends, that stays spent and that cannot be won once
    spent, is won at most once in any run of operations that satisfy [Q], from
    a state that satisfies the invariant [Inv]. *)
Section AtMostOnce.
Context (win : Op → Resp → bool) (spent Inv : St → Prop) (Q : Op → Prop).
Hypothesis inv_stays : ∀ s o, Q o → Inv s → Inv (step s o).1.
Hypothesis spent_stays : ∀ s o, Q o → spent s → spent (step s o).1.
Hypothesis spent_loses : ∀ s o, Q o → spent s → win o (step s o).2 = false.
Hypothesis win_spends : ∀ s o, Q o → Inv s → win o (step s o).2 = true → spent (step s o).1.

Lemma wins_spent ops s : Forall Q ops → spent s → wins win s ops = 0%nat.
Proof.
  intros HQ. revert s. induction HQ as [|o ops Ho _ IH]; intros s Hs; simpl; [done|].
  by rewrite spent_loses, IH by auto.
Qed.

Lemma wins_once_ops ops s : Forall Q ops → Inv s → (wins win s ops ≤ 1)%nat.
Proof.
  intros HQ. revert s. induction HQ as [|o ops Ho HQ IH]; intros s Hs; simpl; [lia|].
  destruct (win o (step s o).2) eqn:E; [|by apply IH, inv_stays].
  rewrite wins_spent by auto. lia.
Qed.
End AtMostOnce.

Lemma wins_at_most_once (win : Op → Resp → bool) (spent : St → Prop) ops s :
  (∀ s o, spent s → spent (step s o).1) →
  (∀ s o, spent s → win o (step s o).2 = false) →
  (∀ s o, win o (step s o).2 = true → spent (step s o).1) →
  (wins win s ops ≤ 1)%nat.
Proof.
  intros Hstay Hlose Hspend.
  apply (wins_once_ops win spent (λ _, True) (λ _, True)); auto. by apply Forall_true.
Qed.
End Runs.

(** ** Iterating over a Go map

    The order in which [for k, v := range m] visits a map is unspecified. A
    [MapRange] is one choice of order; every theorem about code that ranges over
    a map holds for every choice. *)
Class MapRange := {
  range : ∀ {V : Type}, gmap string V → list (string * V);
  range_perm : ∀ {V : Type} (m : gmap string V), range m ≡ₚ map_to_list m;
}.

(** One concrete order, to evaluate the model with. *)
Definition canonical_range : MapRange := {| range V m := map_to_list m; range_perm V m := reflexivity _ |}.

Section MapRangeLemmas.
Context `{MapRange} {V : Type}.
Implicit Types (m : gmap string V).

Lemma elem_of_range m k v : (k, v) ∈ range m ↔ m !! k = Some v.
Proof. by rewrite range_perm, elem_of_map_to_list. Qed.

Lemma range_NoDup m : NoDup (range m).*1.
Proof. rewrite range_perm. apply NoDup_fst_map_to_list. Qed.

Lemma length_range m : length (range m) = size m.
Proof. by rewrite range_perm, length_map_to_list. Qed.

(** A search over the entries of a map. *)
Lemma range_find m (P : string * V → Prop) `{∀ kv, Decision (P kv)} i k v :
  list_find P (range m) = Some (i, (k, v)) → m !! k = Some v ∧ P (k, v).
Proof.
  intros (Hat & HP)%list_find_lookup. split; [|done]. apply elem_of_range. by eapply list_elem_of_lookup_2.
Qed.

Lemma range_find_None m (P : string * V → Prop) `{∀ kv, Decision (P kv)} k v :
  list_find P (range m) = None → m !! k = Some v → ¬ P (k, v).
Proof. intros Hf Hk. eapply list_find_None_elem; [done|]. by apply elem_of_range. Qed.
End MapRangeLemmas.

(** [for k, v := range m { if cond { m[k] = f(v) } }] and
    [for k, v := range m { if cond { delete(m, k) } }]: each visits every entry of
    [m] once and changes only the entry visited, so the order does not matter. *)
Section MapLoops.
Context `{MapRange} {V : Type} (P : string * V → Prop) `{∀ kv, Decision (P kv)}.
Implicit Types (m : gmap string V) (l : list (string * V)).

Definition update_loop (f : V → V) m l : gmap string V :=
  foldl (λ m kv, if decide (P kv) then <[kv.1 := f kv.2]> m else m) m l.
Definition delete_loop m l : gmap string V :=
  foldl (λ m kv, if decide (P kv) then delete kv.1 m else m) m l.
Definition range_update (f : V → V) m : gmap string V := update_loop f m (range m).
Definition range_delete m : gmap string V := delete_loop m (range m).

Lemma update_loop_lookup f l m k :
  NoDup l.*1 →
  update_loop f m l !! k =
    match list_to_map (M := gmap string V) l !! k with
    | Some v => if decide (P (k, v)) then Some (f v) else m !! k
    | None => m !! k
    end.
Proof.
  unfold update_loop. revert m. induction l as [|[k' v'] l IH]; intros m; simpl; [done|].
  intros [Hk Hnd]%NoDup_cons. rewrite IH by done. destruct (decide (k = k')) as [->|Hne].
  - rewrite (not_elem_of_list_to_map_1 (M := gmap string) l k') by done.
    rewrite lookup_insert_eq. case_decide; [apply lookup_insert_eq|done].
  - rewrite (lookup_insert_ne (list_to_map l)) by done.
    case_match; repeat case_decide; rewrite ?lookup_insert_ne by done; done.
Qed.

Lemma delete_loop_lookup l m k :
  NoDup l.*1 →
  delete_loop m l !! k =
    match list_to_map (M := gmap string V) l !! k with
    | Some v => if decide (P (k, v)) then None else m !! k
    | None => m !! k
    end.
Proof.
  unfold delete_loop. revert m. induction l as [|[k' v'] l IH]; intros m; simpl; [done|].
  intros [Hk Hnd]%NoDup_cons. rewrite IH by done. destruct (decide (k = k')) as [->|Hne].
  - rewrite (not_elem_of_list_to_map_1 (M := gmap string) l k') by done.
    rewrite lookup_insert_eq. case_decide; [apply lookup_delete_eq|done].
  - rewrite (lookup_insert_ne (list_to_map l)) by done.
    case_match; repeat case_decide; rewrite ?lookup_delete_ne by done; done.
Qed.

Lemma list_to_map_range m : list_to_map (range m) = m.
Proof.
  rewrite <-(list_to_map_to_list m) at 2. apply list_to_map_proper; [|apply range_perm].
  apply range_NoDup.
Qed.

Lemma range_update_lookup f m k :
  range_update f m !! k = (λ v, if decide (P (k, v)) then f v else v) <$> m !! k.
Proof.
  unfold range_update. rewrite update_loop_lookup by apply range_NoDup.
  rewrite list_to_map_range. destruct (m !! k); simpl; [by case_decide|done].
Qed.

Lemma range_delete_lookup m k v :
  range_delete m !! k = Some v ↔ m !! k = Some v ∧ ¬ P (k, v).
Proof.
  unfold range_delete. rewrite delete_loop_lookup by apply range_NoDup.
  rewrite list_to_map_range. destruct (m !! k) as [w|] eqn:E; [|naive_solver].
  case_decide; rewrite ?E; naive_solver.
Qed.

Lemma range_delete_None m k : m !! k = None → range_delete m !! k = None.
Proof.
  intros Hk. destruct (range_delete m !! k) as [v|] eqn:E; [|done].
  apply range_delete_lookup in E as [E _]. congruence.
Qed.

Lemma range_update_perm f m :
  range (range_update f m) ≡ₚ (λ kv, (kv.1, if decide (P kv) then f kv.2 else kv.2)) <$> range m.
Proof.
  apply NoDup_Permutation.
  - eapply NoDup_fmap_1, range_NoDup.
  - eapply (NoDup_fmap_1 fst). rewrite <-list_fmap_compose. simpl. apply range_NoDup.
  - intros [k v]. rewrite elem_of_range, range_update_lookup, list_elem_of_fmap. split.
    + intros (w & Hw & ->)%fmap_Some. exists (k, w). split; [done|]. by apply elem_of_range.
    + intros ([k' w] & Heq & Hw%elem_of_range). simplify_eq/=. by rewrite Hw.
Qed.

Lemma range_delete_perm m : range (range_delete m) ≡ₚ filter (λ kv, ¬ P kv) (range m).
Proof.
  apply NoDup_Permutation.
  - eapply NoDup_fmap_1, range_NoDup.
  - apply NoDup_filter. eapply NoDup_fmap_1, range_NoDup.
  - intros [k v]. rewrite elem_of_range, range_delete_lookup, list_elem_of_filter, elem_of_range. naive_solver.
Qed.
End MapLoops.

(** ** Automation *)

(** Split an operation into its branches: every [if] and [match] of the goal and
    of the hypotheses, keeping equations. *)
Ltac branches := repeat first [progress simplify_eq/= | case_decide | case_match].

(** Turn the results of searches into lookups and the facts found. *)
Ltac found :=
  repeat match goal with
  | H : list_find _ _ = Some (_, _) |- _ =>
      let Hl := fresh "Hat" in let Hp := fresh "Hfound" in
      pose proof (list_find_lookup _ _ _ _ H) as [Hl Hp]; revert H
  end; intros.

Lemma After_true t u : After t u = true ↔ u < t.
Proof. apply bool_decide_eq_true. Qed.
Lemma After_false t u : After t u = false ↔ t ≤ u.
Proof. unfold After. rewrite bool_decide_eq_false. lia. Qed.
Lemma Before_true t u : Before t u = true ↔ t < u.
Proof. apply bool_decide_eq_true. Qed.
Lemma Before_false t u : Before t u = false ↔ u ≤ t.
Proof. unfold Before. rewrite bool_decide_eq_false. lia. Qed.
Lemma IsZero_true t : IsZero t = true ↔ t = 0.
Proof. apply bool_decide_eq_true. Qed.
Lemma IsZero_false t : IsZero t = false ↔ t ≠ 0.
Proof. apply bool_decide_eq_false. Qed.

Create HintDb go.
#[export] Hint Rewrite After_true After_false Before_true Before_false IsZero_true IsZero_false
  negb_true_iff negb_false_iff andb_true_iff orb_true_iff andb_false_iff orb_false_iff
  bool_decide_eq_true bool_decide_eq_false @Contains_true @Contains_false : go.

(** Read every boolean test of the context and the goal as a proposition. *)
Ltac reflect := autorewrite with go in *.

(** An option that, once set, stays set. *)
Definition sticky {A} (o o' : option A) : Prop := o ≠ None → o' ≠ None.
#[global] Instance sticky_preorder {A} : PreOrder (@sticky A).
Proof. split; unfold sticky; naive_solver. Qed.
#[export] Hint Unfold sticky : go.

(** Guards written as disjunctions of inequalities, once passed, give equalities. *)
Ltac passed_guards :=
  repeat match goal with
  | H : ¬ (_ ∨ _) |- _ => apply Decidable.not_or in H; destruct H
  | H : ¬ (_ ≠ _) |- _ => apply dec_stable in H
  end.

(** Prove a closed decidable proposition by evaluating its decision. *)
Ltac decided := refine (bool_decide_unpack _ _); vm_compute; exact I.
