(* ===== verification/OAuthStore.v ===== *)
(** The OAuth grant store of [internal/oauth/store.go]: authorization codes,
    access tokens, refresh token families, device authorizations, OIDC client
    sessions and consents, with the in-memory repository's operations. This file
    holds the data and the operations; [OAuthStoreProps] holds what they
    guarantee.

    Each operation takes the mutex for its whole body, so it is one atomic
    function from a repository to a repository and a result. Byte slices and
    strings are Rocq strings, that is, byte sequences. Results are fresh copies
    in the code ([cloneBytes], [append(nil, ...)]), hence plain values here. *)
From S2P Require Import Prelude.
Local Open Scope Z_scope.

(** [internal/oauth/store.go:12-22] errors *)
Inductive oauthError :=
| ErrGrantNotFound
| ErrGrantExpired
| ErrGrantConsumed
| ErrRefreshReuse
| ErrAuthorizationPending
| ErrSlowDown
| ErrAccessDenied
| ErrConsentNotFound
| ErrInvalidScope.

#[global] Instance oauthError_eq_dec : EqDecision oauthError.
Proof. solve_decision. Defined.

(** ** Data *)

(** [internal/oauth/store.go:24-38] AuthorizationCode *)
Record AuthorizationCode := {
  ac_Hash : string;
  ac_ClientID : string;
  ac_UserID : string;
  ac_SessionID : string;
  ac_RedirectURI : string;
  ac_Scope : list string;
  ac_Nonce : string;
  ac_CodeChallenge : string;
  ac_AuthenticatedAt : Time;
  ac_AuthMethods : list string;
  ac_AssuranceLevel : string;
  ac_CreatedAt : Time;
  ac_ExpiresAt : Time;
}.

(** [internal/oauth/store.go:40-49] AccessToken *)
Record AccessToken := {
  at_Hash : string;
  at_ClientID : string;
  at_UserID : string;
  at_SessionID : string;
  at_FamilyID : string;
  at_Scope : list string;
  at_IssuedAt : Time;
  at_ExpiresAt : Time;
}.

(** [internal/oauth/store.go:51-60] RefreshToken: [Scope] may be nil, which
    [RotateRefreshToken] tests. *)
Record RefreshToken := {
  rt_Hash : string;
  rt_FamilyID : string;
  rt_ClientID : string;
  rt_UserID : string;
  rt_SessionID : string;
  rt_Scope : slice string;
  rt_IssuedAt : Time;
  rt_ExpiresAt : Time;
}.

(** [internal/oauth/store.go:62-69] DeviceStatus: the four constants; the store
    writes no other status. *)
Inductive DeviceStatus :=
| DevicePending
| DeviceApproved
| DeviceDenied
| DeviceConsumed.

#[global] Instance DeviceStatus_eq_dec : EqDecision DeviceStatus.
Proof. solve_decision. Defined.

(** [internal/oauth/store.go:71-85] DeviceAuthorization *)
Record DeviceAuthorization := {
  da_DeviceHash : string;
  da_UserHash : string;
  da_ClientID : string;
  da_UserID : string;
  da_Scope : list string;
  da_Status : DeviceStatus;
  da_AuthenticatedAt : Time;
  da_AuthMethods : list string;
  da_AssuranceLevel : string;
  da_CreatedAt : Time;
  da_ExpiresAt : Time;
  da_Interval : Duration;
  da_LastPollAt : option Time;
}.

(** [internal/oauth/store.go:87-92] OIDCClientSession *)
Record OIDCClientSession := {
  os_SessionID : string;
  os_ClientID : string;
  os_UserID : string;
  os_CreatedAt : Time;
}.

(** [internal/oauth/store.go:94-100] Consent *)
Record Consent := {
  co_UserID : string;
  co_ClientID : string;
  co_Scopes : list string;
  co_GrantedAt : Time;
  co_UpdatedAt : Time;
}.

(** [internal/oauth/store.go:106-113] ScopesCover *)
Fixpoint ScopesCover (granted requested : list string) : bool :=
  match requested with
  | [] => true
  | scope :: rest => if negb (Contains granted scope) then false else ScopesCover granted rest
  end.

(** [internal/oauth/store.go:102-104] Consent.Covers *)
Definition Covers (c : Consent) (scopes : list string) : bool :=
  ScopesCover (co_Scopes c) scopes.

(** [internal/oauth/store.go:141-145] memoryAuthorizationCode *)
Record memoryAuthorizationCode := {
  mac_code : AuthorizationCode;
  mac_consumedAt : option Time;
  mac_revokedAt : option Time;
}.

(** [internal/oauth/store.go:147-151] memoryRefreshToken *)
Record memoryRefreshToken := {
  mrt_token : RefreshToken;
  mrt_consumedAt : option Time;
  mrt_revokedAt : option Time;
}.

(** [internal/oauth/store.go:153-156] memoryAccessToken *)
Record memoryAccessToken := {
  mat_token : AccessToken;
  mat_revokedAt : option Time;
}.

(** [internal/oauth/store.go:158-166] MemoryRepository *)
Record MemoryRepository := {
  codes : list memoryAuthorizationCode;
  accessTokens : list memoryAccessToken;
  refresh : list memoryRefreshToken;
  devices : list DeviceAuthorization;
  oidcSessions : list OIDCClientSession;
  consents : list Consent;
}.

(** [internal/oauth/store.go:168-170] NewMemoryRepository *)
Definition NewMemoryRepository : MemoryRepository :=
  {| codes := []; accessTokens := []; refresh := []; devices := []; oidcSessions := []; consents := [] |}.

(** *** Field updates *)

Definition set_codes v r := {| codes := v; accessTokens := accessTokens r; refresh := refresh r;
  devices := devices r; oidcSessions := oidcSessions r; consents := consents r |}.
Definition set_accessTokens v r := {| codes := codes r; accessTokens := v; refresh := refresh r;
  devices := devices r; oidcSessions := oidcSessions r; consents := consents r |}.
Definition set_refresh v r := {| codes := codes r; accessTokens := accessTokens r; refresh := v;
  devices := devices r; oidcSessions := oidcSessions r; consents := consents r |}.
Definition set_devices v r := {| codes := codes r; accessTokens := accessTokens r; refresh := refresh r;
  devices := v; oidcSessions := oidcSessions r; consents := consents r |}.
Definition set_oidcSessions v r := {| codes := codes r; accessTokens := accessTokens r; refresh := refresh r;
  devices := devices r; oidcSessions := v; consents := consents r |}.
Definition set_consents v r := {| codes := codes r; accessTokens := accessTokens r; refresh := refresh r;
  devices := devices r; oidcSessions := oidcSessions r; consents := v |}.

Definition mac_consume (now : Time) (c : memoryAuthorizationCode) : memoryAuthorizationCode :=
  {| mac_code := mac_code c; mac_consumedAt := Some now; mac_revokedAt := mac_revokedAt c |}.
Definition mrt_consume (now : Time) (t : memoryRefreshToken) : memoryRefreshToken :=
  {| mrt_token := mrt_token t; mrt_consumedAt := Some now; mrt_revokedAt := mrt_revokedAt t |}.

Definition da_with_Status (s : DeviceStatus) (d : DeviceAuthorization) : DeviceAuthorization :=
  {| da_DeviceHash := da_DeviceHash d; da_UserHash := da_UserHash d; da_ClientID := da_ClientID d;
     da_UserID := da_UserID d; da_Scope := da_Scope d; da_Status := s;
     da_AuthenticatedAt := da_AuthenticatedAt d; da_AuthMethods := da_AuthMethods d;
     da_AssuranceLevel := da_AssuranceLevel d; da_CreatedAt := da_CreatedAt d;
     da_ExpiresAt := da_ExpiresAt d; da_Interval := da_Interval d; da_LastPollAt := da_LastPollAt d |}.
Definition da_with_poll (interval : Duration) (at_ : Time) (d : DeviceAuthorization) : DeviceAuthorization :=
  {| da_DeviceHash := da_DeviceHash d; da_UserHash := da_UserHash d; da_ClientID := da_ClientID d;
     da_UserID := da_UserID d; da_Scope := da_Scope d; da_Status := da_Status d;
     da_AuthenticatedAt := da_AuthenticatedAt d; da_AuthMethods := da_AuthMethods d;
     da_AssuranceLevel := da_AssuranceLevel d; da_CreatedAt := da_CreatedAt d;
     da_ExpiresAt := da_ExpiresAt d; da_Interval := interval; da_LastPollAt := Some at_ |}.
Definition da_decided (userID : string) (authenticatedAt : Time) (authMethods : list string)
    (assuranceLevel : string) (s : DeviceStatus) (d : DeviceAuthorization) : DeviceAuthorization :=
  {| da_DeviceHash := da_DeviceHash d; da_UserHash := da_UserHash d; da_ClientID := da_ClientID d;
     da_UserID := userID; da_Scope := da_Scope d; da_Status := s;
     da_AuthenticatedAt := authenticatedAt; da_AuthMethods := authMethods;
     da_AssuranceLevel := assuranceLevel; da_CreatedAt := da_CreatedAt d;
     da_ExpiresAt := da_ExpiresAt d; da_Interval := da_Interval d; da_LastPollAt := da_LastPollAt d |}.

(** ** Revocation shared by the three token tables *)

(** What [revokeMatchingTokens] needs of a table's entries: who the entry belongs
    to, and a revocation mark that can be set and touches nothing else. *)
Class Revocable (T : Type) := {
  rv_UserID : T → string;
  rv_SessionID : T → string;
  rv_ClientID : T → string;
  rv_revokedAt : T → option Time;
  rv_revoke : Time → T → T;
  rv_revoke_at : ∀ now t, rv_revokedAt (rv_revoke now t) = Some now;
  rv_revoke_owner : ∀ now t,
    rv_UserID (rv_revoke now t) = rv_UserID t ∧
    rv_SessionID (rv_revoke now t) = rv_SessionID t ∧
    rv_ClientID (rv_revoke now t) = rv_ClientID t;
}.

#[global] Program Instance code_revocable : Revocable memoryAuthorizationCode := {|
  rv_UserID c := ac_UserID (mac_code c);
  rv_SessionID c := ac_SessionID (mac_code c);
  rv_ClientID c := ac_ClientID (mac_code c);
  rv_revokedAt := mac_revokedAt;
  rv_revoke now c := {| mac_code := mac_code c; mac_consumedAt := mac_consumedAt c; mac_revokedAt := Some now |};
|}.
Solve All Obligations with done.

#[global] Program Instance access_revocable : Revocable memoryAccessToken := {|
  rv_UserID t := at_UserID (mat_token t);
  rv_SessionID t := at_SessionID (mat_token t);
  rv_ClientID t := at_ClientID (mat_token t);
  rv_revokedAt := mat_revokedAt;
  rv_revoke now t := {| mat_token := mat_token t; mat_revokedAt := Some now |};
|}.
Solve All Obligations with done.

#[global] Program Instance refresh_revocable : Revocable memoryRefreshToken := {|
  rv_UserID t := rt_UserID (mrt_token t);
  rv_SessionID t := rt_SessionID (mrt_token t);
  rv_ClientID t := rt_ClientID (mrt_token t);
  rv_revokedAt := mrt_revokedAt;
  rv_revoke now t := {| mrt_token := mrt_token t; mrt_consumedAt := mrt_consumedAt t; mrt_revokedAt := Some now |};
|}.
Solve All Obligations with done.

(** The loop body of [revokeMatchingTokens], the same for the three tables. *)
Definition revoke_if {T} `{Revocable T} (matches : string → string → string → bool) (now : Time) (t : T) : T :=
  if matches (rv_UserID t) (rv_SessionID t) (rv_ClientID t) && bool_decide (rv_revokedAt t = None)
  then rv_revoke now t else t.

(** [internal/oauth/store.go:617-642] revokeMatchingTokens *)
Definition revokeMatchingTokens (matches : string → string → string → bool) (now : Time)
    (r : MemoryRepository) : MemoryRepository :=
  {| codes := revoke_if matches now <$> codes r;
     accessTokens := revoke_if matches now <$> accessTokens r;
     refresh := revoke_if matches now <$> refresh r;
     devices := devices r; oidcSessions := oidcSessions r; consents := consents r |}.

(** The two inner loops that revoke a family, shared by [RotateRefreshToken] and
    [RevokeRefreshToken]: they overwrite an earlier mark. *)
(** [internal/oauth/store.go:328-339] RevokeRefreshToken, family loops *)
Definition revoke_family (family : string) (now : Time) (r : MemoryRepository) : MemoryRepository :=
  {| codes := codes r;
     accessTokens := (λ t, if decide (at_FamilyID (mat_token t) = family) then rv_revoke now t else t) <$> accessTokens r;
     refresh := (λ t, if decide (rt_FamilyID (mrt_token t) = family) then rv_revoke now t else t) <$> refresh r;
     devices := devices r; oidcSessions := oidcSessions r; consents := consents r |}.

(** ** Authorization codes *)

(** [internal/oauth/store.go:172-180] SaveAuthorizationCode *)
Definition SaveAuthorizationCode (r : MemoryRepository) (value : AuthorizationCode) : MemoryRepository * Res oauthError unit :=
  (set_codes (codes r ++ [{| mac_code := value; mac_consumedAt := None; mac_revokedAt := None |}]) r, Ok ()).

(** [internal/oauth/store.go:182-206] ConsumeAuthorizationCode *)
Definition ConsumeAuthorizationCode (r : MemoryRepository) (hash clientID redirectURI codeChallenge : string)
    (now : Time) : MemoryRepository * Res oauthError AuthorizationCode :=
  match list_find (λ record, ac_Hash (mac_code record) = hash) (codes r) with
  | None => (r, Err ErrGrantNotFound)
  | Some (index, record) =>
      if decide (ac_ClientID (mac_code record) ≠ clientID ∨
                 ac_RedirectURI (mac_code record) ≠ redirectURI ∨
                 ac_CodeChallenge (mac_code record) ≠ codeChallenge)
      then (r, Err ErrGrantNotFound)
      else if decide (mac_consumedAt record ≠ None) then (r, Err ErrGrantConsumed)
      else if decide (mac_revokedAt record ≠ None) then (r, Err ErrGrantNotFound)
      else if negb (After (ac_ExpiresAt (mac_code record)) now) then (r, Err ErrGrantExpired)
      else (set_codes (<[index := mac_consume now record]> (codes r)) r, Ok (mac_code record))
  end.

(** ** Access tokens *)

(** [internal/oauth/store.go:208-215] SaveAccessToken *)
Definition SaveAccessToken (r : MemoryRepository) (value : AccessToken) : MemoryRepository * Res oauthError unit :=
  (set_accessTokens (accessTokens r ++ [{| mat_token := value; mat_revokedAt := None |}]) r, Ok ()).

(** [internal/oauth/store.go:217-229] FindAccessToken *)
Definition FindAccessToken (r : MemoryRepository) (hash : string) (now : Time) : Res oauthError AccessToken :=
  match list_find (λ record, at_Hash (mat_token record) = hash ∧ mat_revokedAt record = None ∧
                             After (at_ExpiresAt (mat_token record)) now = true) (accessTokens r) with
  | Some (_, record) => Ok (mat_token record)
  | None => Err ErrGrantNotFound
  end.

(** [internal/oauth/store.go:231-244] RevokeAccessToken *)
Definition RevokeAccessToken (r : MemoryRepository) (hash clientID : string) (now : Time) : MemoryRepository * Res oauthError unit :=
  match list_find (λ record, at_Hash (mat_token record) = hash ∧ at_ClientID (mat_token record) = clientID)
          (accessTokens r) with
  | Some (index, record) =>
      (if decide (mat_revokedAt record = None)
       then set_accessTokens (<[index := rv_revoke now record]> (accessTokens r)) r
       else r, Ok ())
  | None => (r, Err ErrGrantNotFound)
  end.

(** ** Refresh tokens *)

Definition rt_with_Scope (s : slice string) (t : RefreshToken) : RefreshToken :=
  {| rt_Hash := rt_Hash t; rt_FamilyID := rt_FamilyID t; rt_ClientID := rt_ClientID t;
     rt_UserID := rt_UserID t; rt_SessionID := rt_SessionID t; rt_Scope := s;
     rt_IssuedAt := rt_IssuedAt t; rt_ExpiresAt := rt_ExpiresAt t |}.

(** [internal/oauth/store.go:246-253] SaveRefreshToken *)
Definition SaveRefreshToken (r : MemoryRepository) (value : RefreshToken) : MemoryRepository * Res oauthError unit :=
  (set_refresh (refresh r ++
     [{| mrt_token := rt_with_Scope (slice_copy (elems (rt_Scope value))) value;
         mrt_consumedAt := None; mrt_revokedAt := None |}]) r, Ok ()).

(** [internal/oauth/store.go:255-270] FindRefreshToken *)
Definition FindRefreshToken (r : MemoryRepository) (hash : string) (now : Time) : Res oauthError RefreshToken :=
  match list_find (λ record, rt_Hash (mrt_token record) = hash ∧ mrt_consumedAt record = None ∧
                             mrt_revokedAt record = None ∧
                             After (rt_ExpiresAt (mrt_token record)) now = true) (refresh r) with
  | Some (_, record) => Ok (rt_with_Scope (slice_copy (elems (rt_Scope (mrt_token record)))) (mrt_token record))
  | None => Err ErrGrantNotFound
  end.

(** [internal/oauth/store.go:301-306] RotateRefreshToken, the replacement's inherited fields *)
Definition inherit (record replacement : RefreshToken) : RefreshToken :=
  {| rt_Hash := rt_Hash replacement;
     rt_FamilyID := rt_FamilyID record;
     rt_ClientID := rt_ClientID replacement;
     rt_UserID := rt_UserID record;
     rt_SessionID := rt_SessionID record;
     rt_Scope := match rt_Scope replacement with
                 | None => slice_copy (elems (rt_Scope record))
                 | Some s => Some s
                 end;
     rt_IssuedAt := rt_IssuedAt replacement;
     rt_ExpiresAt := rt_ExpiresAt replacement |}.

(** [internal/oauth/store.go:272-319] RotateRefreshToken *)
Definition RotateRefreshToken (r : MemoryRepository) (hash : string) (replacement : RefreshToken)
    (now : Time) : MemoryRepository * Res oauthError RefreshToken :=
  match list_find (λ record, rt_Hash (mrt_token record) = hash) (refresh r) with
  | None => (r, Err ErrGrantNotFound)
  | Some (index, record) =>
      if decide (rt_ClientID (mrt_token record) ≠ rt_ClientID replacement) then (r, Err ErrGrantNotFound)
      else if decide (mrt_revokedAt record ≠ None ∨ mrt_consumedAt record ≠ None)
      then (revoke_family (rt_FamilyID (mrt_token record)) now r, Err ErrRefreshReuse)
      else if negb (After (rt_ExpiresAt (mrt_token record)) now) then (r, Err ErrGrantExpired)
      else
        let replacement := inherit (mrt_token record) replacement in
        if negb (ScopesCover (elems (rt_Scope (mrt_token record))) (elems (rt_Scope replacement)))
        then (r, Err ErrInvalidScope)
        else
          (set_refresh (<[index := mrt_consume now record]> (refresh r) ++
                        [{| mrt_token := replacement; mrt_consumedAt := None; mrt_revokedAt := None |}]) r,
           Ok (rt_with_Scope (slice_copy (elems (rt_Scope (mrt_token record)))) (mrt_token record)))
  end.

(** [internal/oauth/store.go:321-343] RevokeRefreshToken *)
Definition RevokeRefreshToken (r : MemoryRepository) (hash clientID : string) (now : Time) : MemoryRepository * Res oauthError unit :=
  match list_find (λ record, ¬ (rt_Hash (mrt_token record) ≠ hash ∨ rt_ClientID (mrt_token record) ≠ clientID))
          (refresh r) with
  | Some (_, record) => (revoke_family (rt_FamilyID (mrt_token record)) now r, Ok ())
  | None => (r, Err ErrGrantNotFound)
  end.

(** ** Consents *)

(** The loop of [mergeScopes]: append the requested scopes not yet present. *)
Fixpoint append_missing (result requested : list string) : list string :=
  match requested with
  | [] => result
  | scope :: rest =>
      append_missing (if negb (Contains result scope) then result ++ [scope] else result) rest
  end.

(** [internal/oauth/store.go:653-662] mergeScopes *)
Definition mergeScopes (current requested : list string) : list string :=
  merge_sort String.le (append_missing current requested).

(** [internal/oauth/store.go:528-537] FindConsent *)
Definition FindConsent (r : MemoryRepository) (userID clientID : string) : Res oauthError Consent :=
  match list_find (λ value, co_UserID value = userID ∧ co_ClientID value = clientID) (consents r) with
  | Some (_, value) => Ok value
  | None => Err ErrConsentNotFound
  end.

(** [internal/oauth/store.go:550-571] grantConsentLocked *)
Definition grantConsentLocked (r : MemoryRepository) (userID clientID : string) (scopes : list string)
    (now : Time) : MemoryRepository * Consent :=
  match list_find (λ value, co_UserID value = userID ∧ co_ClientID value = clientID) (consents r) with
  | Some (index, value) =>
      let value' := {| co_UserID := co_UserID value; co_ClientID := co_ClientID value;
                       co_Scopes := mergeScopes (co_Scopes value) scopes;
                       co_GrantedAt := co_GrantedAt value; co_UpdatedAt := now |} in
      (set_consents (<[index := value']> (consents r)) r, value')
  | None =>
      let value := {| co_UserID := userID; co_ClientID := clientID; co_Scopes := mergeScopes [] scopes;
                      co_GrantedAt := now; co_UpdatedAt := now |} in
      (set_consents (consents r ++ [value]) r, value)
  end.

(** [internal/oauth/store.go:539-548] GrantConsent *)
Definition GrantConsent (r : MemoryRepository) (userID clientID : string) (scopes : list string)
    (now : Time) : MemoryRepository * Res oauthError Consent :=
  let '(r', value) := grantConsentLocked r userID clientID scopes now in (r', Ok value).

(** The order of [ListConsentsByUser]: most recently updated first. *)
Definition newer_first (a b : Consent) : Prop := co_UpdatedAt b ≤ co_UpdatedAt a.
#[global] Instance newer_first_dec : RelDecision newer_first.
Proof. intros a b. unfold newer_first. apply _. Defined.

(** [internal/oauth/store.go:573-586] ListConsentsByUser *)
Definition ListConsentsByUser (r : MemoryRepository) (userID : string) : Res oauthError (list Consent) :=
  Ok (merge_sort newer_first (filter (λ value, co_UserID value = userID) (consents r))).

(** [internal/oauth/store.go:604-610] DeleteConsent, device loop *)
Definition deny_approved_device (userID clientID : string) (d : DeviceAuthorization) : DeviceAuthorization :=
  if decide (da_UserID d = userID ∧ da_ClientID d = clientID ∧ da_Status d = DeviceApproved)
  then da_with_Status DeviceDenied d else d.

(** [internal/oauth/store.go:588-615] DeleteConsent *)
Definition DeleteConsent (r : MemoryRepository) (userID clientID : string) (now : Time) : MemoryRepository * Res oauthError unit :=
  match list_find (λ value, co_UserID value = userID ∧ co_ClientID value = clientID) (consents r) with
  | Some (index, _) =>
      let r := set_consents (delete index (consents r)) r in
      let r := revokeMatchingTokens
                 (λ candidateUserID _ candidateClientID,
                    bool_decide (candidateUserID = userID) && bool_decide (candidateClientID = clientID)) now r in
      (set_devices (deny_approved_device userID clientID <$> devices r) r, Ok ())
  | None => (r, Err ErrConsentNotFound)
  end.

(** ** Device authorizations *)

(** [internal/oauth/store.go:345-353] SaveDeviceAuthorization *)
Definition SaveDeviceAuthorization (r : MemoryRepository) (value : DeviceAuthorization) : MemoryRepository * Res oauthError unit :=
  (set_devices (devices r ++ [value]) r, Ok ()).

(** The test of [FindDeviceByUserCode] and [DecideDeviceAuthorization]. *)
Definition device_open (hash : string) (now : Time) (value : DeviceAuthorization) : Prop :=
  da_UserHash value = hash ∧ After (da_ExpiresAt value) now = true ∧ da_Status value = DevicePending.
#[global] Instance device_open_dec hash now value : Decision (device_open hash now value).
Proof. unfold device_open. apply _. Defined.

(** [internal/oauth/store.go:355-364] FindDeviceByUserCode *)
Definition FindDeviceByUserCode (r : MemoryRepository) (hash : string) (now : Time) : Res oauthError DeviceAuthorization :=
  match list_find (device_open hash now) (devices r) with
  | Some (_, value) => Ok value
  | None => Err ErrGrantNotFound
  end.

(** [internal/oauth/store.go:366-395] DecideDeviceAuthorization *)
Definition DecideDeviceAuthorization (r : MemoryRepository) (userHash userID : string) (authenticatedAt : Time)
    (authMethods : list string) (assuranceLevel : string) (approve : bool) (now : Time)
    : MemoryRepository * Res oauthError unit :=
  match list_find (device_open userHash now) (devices r) with
  | Some (index, value) =>
      let decided := da_decided userID authenticatedAt authMethods assuranceLevel in
      if approve then
        let r := set_devices (<[index := decided DeviceApproved value]> (devices r)) r in
        ((grantConsentLocked r userID (da_ClientID value) (da_Scope value) now).1, Ok ())
      else (set_devices (<[index := decided DeviceDenied value]> (devices r)) r, Ok ())
  | None => (r, Err ErrGrantNotFound)
  end.

(** [value.LastPollAt != nil && now.Before(value.LastPollAt.Add(value.Interval))] *)
Definition polled_too_soon (value : DeviceAuthorization) (now : Time) : bool :=
  match da_LastPollAt value with
  | None => false
  | Some last => Before now (last + da_Interval value)
  end.

(** [internal/oauth/store.go:397-427] PollDeviceAuthorization: the switch is
    exhaustive on the four statuses, so the loop stops at the first match. *)
Definition PollDeviceAuthorization (r : MemoryRepository) (deviceHash clientID : string) (now : Time)
    : MemoryRepository * Res oauthError DeviceAuthorization :=
  match list_find (λ value, ¬ (da_DeviceHash value ≠ deviceHash ∨ da_ClientID value ≠ clientID)) (devices r) with
  | None => (r, Err ErrGrantNotFound)
  | Some (index, value) =>
      let put value' := set_devices (<[index := value']> (devices r)) r in
      if negb (After (da_ExpiresAt value) now) then (r, Err ErrGrantExpired)
      else if polled_too_soon value now
      then (put (da_with_poll (wrap64 (da_Interval value + 5 * Second)) now value), Err ErrSlowDown)
      else
        let value := da_with_poll (da_Interval value) now value in
        match da_Status value with
        | DevicePending => (put value, Err ErrAuthorizationPending)
        | DeviceDenied => (put value, Err ErrAccessDenied)
        | DeviceConsumed => (put value, Err ErrGrantConsumed)
        | DeviceApproved =>
            let value := da_with_Status DeviceConsumed value in (put value, Ok value)
        end
  end.

(** ** OIDC client sessions *)

(** [internal/oauth/store.go:429-441] SaveOIDCClientSession *)
Definition SaveOIDCClientSession (r : MemoryRepository) (value : OIDCClientSession) : MemoryRepository * Res oauthError unit :=
  match list_find (λ s, os_SessionID s = os_SessionID value ∧ os_ClientID s = os_ClientID value) (oidcSessions r) with
  | Some (index, _) => (set_oidcSessions (<[index := value]> (oidcSessions r)) r, Ok ())
  | None => (set_oidcSessions (oidcSessions r ++ [value]) r, Ok ())
  end.

(** [internal/oauth/store.go:443-453] ListOIDCClientSessions *)
Definition ListOIDCClientSessions (r : MemoryRepository) (sessionID : string) : Res oauthError (list OIDCClientSession) :=
  Ok (filter (λ s, os_SessionID s = sessionID) (oidcSessions r)).

(** [internal/oauth/store.go:455-466] DeleteOIDCClientSessions *)
Definition DeleteOIDCClientSessions (r : MemoryRepository) (sessionID : string) : MemoryRepository * Res oauthError unit :=
  (set_oidcSessions (filter (λ s, os_SessionID s ≠ sessionID) (oidcSessions r)) r, Ok ()).

(** ** Bulk revocation *)

(** [internal/oauth/store.go:468-482] RevokeSessionTokens *)
Definition RevokeSessionTokens (r : MemoryRepository) (userID sessionID : string) (now : Time) : MemoryRepository * Res oauthError unit :=
  (revokeMatchingTokens
     (λ candidateUserID candidateSessionID _,
        bool_decide (candidateUserID = userID) && bool_decide (candidateSessionID = sessionID)) now r, Ok ()).

(** [internal/oauth/store.go:484-504] RevokeUserTokens *)
Definition RevokeUserTokens (r : MemoryRepository) (userID exceptSessionID : string) (now : Time) : MemoryRepository * Res oauthError unit :=
  let r := revokeMatchingTokens
     (λ candidateUserID candidateSessionID _,
        bool_decide (candidateUserID = userID) &&
        (bool_decide (exceptSessionID = ""%string) || bool_decide (candidateSessionID ≠ exceptSessionID))) now r in
  (set_devices ((λ d, if decide (da_UserID d = userID ∧ da_Status d = DeviceApproved)
                      then da_with_Status DeviceDenied d else d) <$> devices r) r, Ok ()).

(** [internal/oauth/store.go:506-526] RevokeClientTokens *)
Definition RevokeClientTokens (r : MemoryRepository) (clientID : string) (now : Time) : MemoryRepository * Res oauthError unit :=
  let r := revokeMatchingTokens
     (λ _ _ candidateClientID, bool_decide (candidateClientID = clientID)) now r in
  (set_devices ((λ d, if decide (da_ClientID d = clientID ∧
                                 (da_Status d = DevicePending ∨ da_Status d = DeviceApproved))
                      then da_with_Status DeviceDenied d else d) <$> devices r) r, Ok ()).

(** ** The repository as a transition system *)

(** [internal/oauth/store.go:115-139] Repository: one constructor per method that
    changes state; the methods that only read are functions of the state. *)
Inductive StoreOp :=
| OpSaveAuthorizationCode (value : AuthorizationCode)
| OpConsumeAuthorizationCode (hash clientID redirectURI codeChallenge : string) (now : Time)
| OpSaveAccessToken (value : AccessToken)
| OpRevokeAccessToken (hash clientID : string) (now : Time)
| OpSaveRefreshToken (value : RefreshToken)
| OpRotateRefreshToken (hash : string) (replacement : RefreshToken) (now : Time)
| OpRevokeRefreshToken (hash clientID : string) (now : Time)
| OpSaveDeviceAuthorization (value : DeviceAuthorization)
| OpDecideDeviceAuthorization (userHash userID : string) (authenticatedAt : Time) (authMethods : list string)
    (assuranceLevel : string) (approve : bool) (now : Time)
| OpPollDeviceAuthorization (deviceHash clientID : string) (now : Time)
| OpSaveOIDCClientSession (value : OIDCClientSession)
| OpDeleteOIDCClientSessions (sessionID : string)
| OpRevokeSessionTokens (userID sessionID : string) (now : Time)
| OpRevokeUserTokens (userID exceptSessionID : string) (now : Time)
| OpRevokeClientTokens (clientID : string) (now : Time)
| OpGrantConsent (userID clientID : string) (scopes : list string) (now : Time)
| OpDeleteConsent (userID clientID : string) (now : Time).

Inductive StoreResp :=
| RespUnit (r : Res oauthError unit)
| RespCode (r : Res oauthError AuthorizationCode)
| RespRefresh (r : Res oauthError RefreshToken)
| RespDevice (r : Res oauthError DeviceAuthorization)
| RespConsent (r : Res oauthError Consent).

Definition tag {A} (mk : A → StoreResp) (p : MemoryRepository * A) : MemoryRepository * StoreResp :=
  (p.1, mk p.2).

Definition store_step (r : MemoryRepository) (op : StoreOp) : MemoryRepository * StoreResp :=
  match op with
  | OpSaveAuthorizationCode v => tag RespUnit (SaveAuthorizationCode r v)
  | OpConsumeAuthorizationCode h c u ch now => tag RespCode (ConsumeAuthorizationCode r h c u ch now)
  | OpSaveAccessToken v => tag RespUnit (SaveAccessToken r v)
  | OpRevokeAccessToken h c now => tag RespUnit (RevokeAccessToken r h c now)
  | OpSaveRefreshToken v => tag RespUnit (SaveRefreshToken r v)
  | OpRotateRefreshToken h v now => tag RespRefresh (RotateRefreshToken r h v now)
  | OpRevokeRefreshToken h c now => tag RespUnit (RevokeRefreshToken r h c now)
  | OpSaveDeviceAuthorization v => tag RespUnit (SaveDeviceAuthorization r v)
  | OpDecideDeviceAuthorization h u t m l a now => tag RespUnit (DecideDeviceAuthorization r h u t m l a now)
  | OpPollDeviceAuthorization h c now => tag RespDevice (PollDeviceAuthorization r h c now)
  | OpSaveOIDCClientSession v => tag RespUnit (SaveOIDCClientSession r v)
  | OpDeleteOIDCClientSessions s => tag RespUnit (DeleteOIDCClientSessions r s)
  | OpRevokeSessionTokens u s now => tag RespUnit (RevokeSessionTokens r u s now)
  | OpRevokeUserTokens u e now => tag RespUnit (RevokeUserTokens r u e now)
  | OpRevokeClientTokens c now => tag RespUnit (RevokeClientTokens r c now)
  | OpGrantConsent u c s now => tag RespConsent (GrantConsent r u c s now)
  | OpDeleteConsent u c now => tag RespUnit (DeleteConsent r u c now)
  end.
