(* ===== verification/OAuthStoreProps.v ===== *)
(** What the OAuth grant store guarantees: single use of codes, refresh tokens
    and device codes in every execution, family revocation on reuse, scope and
    ownership of a token family, completeness of revocation, and the refinement
    of the consent table to a map from (user, client) to a set of scopes. *)
From S2P Require Import Prelude OAuthStore.
Local Open Scope Z_scope.

(** ** Evolution: what any operation may do to the entries already stored *)

Definition code_le (c c' : memoryAuthorizationCode) : Prop :=
  mac_code c' = mac_code c ∧
  sticky (mac_consumedAt c) (mac_consumedAt c') ∧ sticky (mac_revokedAt c) (mac_revokedAt c').
Definition access_le (t t' : memoryAccessToken) : Prop :=
  mat_token t' = mat_token t ∧ sticky (mat_revokedAt t) (mat_revokedAt t').
Definition refresh_le (t t' : memoryRefreshToken) : Prop :=
  mrt_token t' = mrt_token t ∧
  sticky (mrt_consumedAt t) (mrt_consumedAt t') ∧ sticky (mrt_revokedAt t) (mrt_revokedAt t').

(** The life cycle of a device authorization. *)
Inductive status_step : DeviceStatus → DeviceStatus → Prop :=
| status_approve : status_step DevicePending DeviceApproved
| status_deny : status_step DevicePending DeviceDenied
| status_revoke : status_step DeviceApproved DeviceDenied
| status_consume : status_step DeviceApproved DeviceConsumed.

Definition device_le (d d' : DeviceAuthorization) : Prop :=
  da_DeviceHash d' = da_DeviceHash d ∧ da_UserHash d' = da_UserHash d ∧
  da_ClientID d' = da_ClientID d ∧ da_Scope d' = da_Scope d ∧
  da_CreatedAt d' = da_CreatedAt d ∧ da_ExpiresAt d' = da_ExpiresAt d ∧
  rtc status_step (da_Status d) (da_Status d').

#[global] Instance code_le_preorder : PreOrder code_le.
Proof. split; [intros x|intros x y z]; unfold code_le, sticky; intuition congruence. Qed.
#[global] Instance access_le_preorder : PreOrder access_le.
Proof. split; [intros x|intros x y z]; unfold access_le, sticky; intuition congruence. Qed.
#[global] Instance refresh_le_preorder : PreOrder refresh_le.
Proof. split; [intros x|intros x y z]; unfold refresh_le, sticky; intuition congruence. Qed.
#[global] Instance device_le_preorder : PreOrder device_le.
Proof.
  split.
  - intros d. unfold device_le. naive_solver.
  - intros d1 d2 d3 (?&?&?&?&?&?&?) (?&?&?&?&?&?&?). unfold device_le.
    repeat split; try congruence. by etrans.
Qed.

Record store_le (r r' : MemoryRepository) : Prop := {
  sl_codes : grows code_le (codes r) (codes r');
  sl_access : grows access_le (accessTokens r) (accessTokens r');
  sl_refresh : grows refresh_le (refresh r) (refresh r');
  sl_devices : grows device_le (devices r) (devices r');
}.

#[global] Instance store_le_preorder : PreOrder store_le.
Proof.
  split.
  - intros r. by split.
  - intros r1 r2 r3 [] []. split; by etrans.
Qed.

#[export] Hint Resolve grows_app grows_insert grows_fmap : go.
#[export] Hint Extern 1 (grows _ ?l ?l) => reflexivity : go.

Lemma revoke_if_code_le matches now c : code_le c (revoke_if matches now c).
Proof. unfold revoke_if, code_le, sticky. branches; naive_solver. Qed.
Lemma revoke_if_access_le matches now t : access_le t (revoke_if matches now t).
Proof. unfold revoke_if, access_le, sticky. branches; naive_solver. Qed.
Lemma revoke_if_refresh_le matches now t : refresh_le t (revoke_if matches now t).
Proof. unfold revoke_if, refresh_le, sticky. branches; naive_solver. Qed.
#[export] Hint Resolve revoke_if_code_le revoke_if_access_le revoke_if_refresh_le : go.

Lemma revokeMatching_le matches now r : store_le r (revokeMatchingTokens matches now r).
Proof. split; simpl; auto with go typeclass_instances. Qed.

Lemma revoke_family_le family now r : store_le r (revoke_family family now r).
Proof.
  split; simpl; [auto with go.. | auto with go].
  - apply grows_fmap. intros t. unfold access_le, sticky. case_decide; naive_solver.
  - apply grows_fmap. intros t. unfold refresh_le, sticky. case_decide; naive_solver.
Qed.

Lemma set_status_le d s : rtc status_step (da_Status d) s → device_le d (da_with_Status s d).
Proof. unfold device_le; naive_solver. Qed.

#[export] Hint Constructors status_step : go.
#[export] Hint Resolve rtc_once rtc_refl : go.

Lemma set_devices_le r ds : grows device_le (devices r) ds → store_le r (set_devices ds r).
Proof. split; simpl; auto with go. Qed.

Lemma grantConsentLocked_frame r u c s now :
  let r' := (grantConsentLocked r u c s now).1 in
  codes r' = codes r ∧ accessTokens r' = accessTokens r ∧ refresh r' = refresh r ∧
  devices r' = devices r ∧ oidcSessions r' = oidcSessions r.
Proof. unfold grantConsentLocked. by branches. Qed.

Lemma same_tables_le r r' :
  codes r' = codes r → accessTokens r' = accessTokens r → refresh r' = refresh r →
  devices r' = devices r → store_le r r'.
Proof. intros E1 E2 E3 E4. by split; rewrite ?E1, ?E2, ?E3, ?E4. Qed.

Lemma grantConsentLocked_le r u c s now : store_le r (grantConsentLocked r u c s now).1.
Proof. destruct (grantConsentLocked_frame r u c s now) as (?&?&?&?&?). by apply same_tables_le. Qed.

(** An update of one device entry by a permitted transition. *)
Lemma device_insert_le r i d d' :
  devices r !! i = Some d → device_le d d' → store_le r (set_devices (<[i:=d']> (devices r)) r).
Proof. intros. apply set_devices_le. eauto with go typeclass_instances. Qed.

Lemma poll_le i at_ d : device_le d (da_with_poll i at_ d).
Proof. unfold device_le; naive_solver. Qed.
Lemma decided_le u t m l s d : status_step (da_Status d) s → device_le d (da_decided u t m l s d).
Proof. intros. unfold device_le. repeat split; simpl; auto with go. Qed.
Lemma deny_approved_le u c d : device_le d (deny_approved_device u c d).
Proof.
  unfold deny_approved_device. case_decide as H; [|done].
  apply set_status_le. destruct H as (_ & _ & ->). auto with go.
Qed.

Lemma save_tables_le r r' :
  (∃ l, codes r' = codes r ++ l) → (∃ l, accessTokens r' = accessTokens r ++ l) →
  (∃ l, refresh r' = refresh r ++ l) → (∃ l, devices r' = devices r ++ l) → store_le r r'.
Proof.
  intros [? E1] [? E2] [? E3] [? E4].
  split; rewrite ?E1, ?E2, ?E3, ?E4; auto with go typeclass_instances.
Qed.

Ltac save_op := apply save_tables_le; simpl; solve [eexists; first [done | symmetry; apply app_nil_r]].

Lemma consume_code_le r h c u ch now : store_le r (ConsumeAuthorizationCode r h c u ch now).1.
Proof.
  unfold ConsumeAuthorizationCode. branches; try done. found.
  split; simpl; auto with go. eapply grows_insert; [apply _|done|]. unfold code_le, sticky. naive_solver.
Qed.

Lemma revoke_access_le r h c now : store_le r (RevokeAccessToken r h c now).1.
Proof.
  unfold RevokeAccessToken. branches; try done. found.
  split; simpl; auto with go. eapply grows_insert; [apply _|done|]. unfold access_le, sticky. naive_solver.
Qed.

Lemma rotate_le r h v now : store_le r (RotateRefreshToken r h v now).1.
Proof.
  unfold RotateRefreshToken. branches; try done; try apply revoke_family_le.
  all: found; split; simpl; auto with go; etrans; [|by apply grows_app, _].
  all: eapply grows_insert; [apply _|done|]; unfold refresh_le, sticky; naive_solver.
Qed.

Lemma decide_device_le r h u t m l a now : store_le r (DecideDeviceAuthorization r h u t m l a now).1.
Proof.
  unfold DecideDeviceAuthorization. branches; try done; found; destruct Hfound as (_ & _ & Hs).
  - etrans; [|apply grantConsentLocked_le]. eapply device_insert_le; [done|].
    apply decided_le. rewrite Hs. auto with go.
  - eapply device_insert_le; [done|]. apply decided_le. rewrite Hs. auto with go.
Qed.

Lemma poll_device_le r h c now : store_le r (PollDeviceAuthorization r h c now).1.
Proof.
  unfold PollDeviceAuthorization. branches; try done; found;
    (eapply device_insert_le; [done|]); try apply poll_le.
  etrans; [apply (poll_le (da_Interval d) now)|]. apply set_status_le.
  match goal with H : da_Status _ = _ |- _ => simpl; rewrite H end. auto with go.
Qed.

Lemma deny_devices_le r (P : DeviceAuthorization → Prop) `{∀ d, Decision (P d)} :
  (∀ d, P d → status_step (da_Status d) DeviceDenied) →
  store_le r (set_devices ((λ d, if decide (P d) then da_with_Status DeviceDenied d else d) <$> devices r) r).
Proof.
  intros HP. apply set_devices_le, grows_fmap. intros d. case_decide; [|done].
  apply set_status_le. auto with go.
Qed.

Lemma delete_consent_le r u c now : store_le r (DeleteConsent r u c now).1.
Proof.
  unfold DeleteConsent. branches; try done.
  etrans; [|apply set_devices_le, grows_fmap; intros; apply deny_approved_le].
  etrans; [|apply revokeMatching_le]. by apply same_tables_le.
Qed.

Lemma store_step_le r op : store_le r (store_step r op).1.
Proof.
  destruct op; simpl; try save_op; try (by apply same_tables_le);
    auto using consume_code_le, revoke_access_le, rotate_le, decide_device_le, poll_device_le, delete_consent_le.
  - unfold RevokeRefreshToken. branches; try done; apply revoke_family_le.
  - unfold SaveOIDCClientSession. branches; try done; by apply same_tables_le.
  - apply revokeMatching_le.
  - unfold RevokeUserTokens. etrans; [apply revokeMatching_le|]. apply (deny_devices_le (revokeMatchingTokens _ now r)).
    intros d [_ ->]. constructor.
  - unfold RevokeClientTokens. etrans; [apply revokeMatching_le|]. apply (deny_devices_le (revokeMatchingTokens _ now r)).
    intros d [_ [-> | ->]]; constructor.
  - unfold GrantConsent. destruct (grantConsentLocked _ _ _ _ _) eqn:E.
    pose proof (grantConsentLocked_le r userID clientID scopes now) as H. by rewrite E in H.
Qed.

Lemma store_run_le r ops : store_le r (run store_step r ops).1.
Proof. apply run_preorder; [apply _|apply store_step_le]. Qed.

(** C1. No execution of the store ever undoes a consumption or a revocation,
    replaces the data of a stored grant, removes a grant, or moves a device
    authorization against its life cycle
    pending → approved/denied, approved → denied/consumed. *)
Theorem store_run_evolves r ops : store_le r (run store_step r ops).1.
Proof. apply run_preorder; [apply _|apply store_step_le]. Qed.

(** ** Single use *)

Definition code_win (h : string) (op : StoreOp) (resp : StoreResp) : bool :=
  match op, resp with
  | OpConsumeAuthorizationCode h' _ _ _ _, RespCode (Ok _) => bool_decide (h' = h)
  | _, _ => false
  end.
Definition refresh_win (h : string) (op : StoreOp) (resp : StoreResp) : bool :=
  match op, resp with
  | OpRotateRefreshToken h' _ _, RespRefresh (Ok _) => bool_decide (h' = h)
  | _, _ => false
  end.
Definition device_win (h c : string) (op : StoreOp) (resp : StoreResp) : bool :=
  match op, resp with
  | OpPollDeviceAuthorization h' c' _, RespDevice (Ok _) => bool_decide (h' = h ∧ c' = c)
  | _, _ => false
  end.

Definition code_spent (h : string) (r : MemoryRepository) : Prop :=
  ∃ i c, list_find (λ record, ac_Hash (mac_code record) = h) (codes r) = Some (i, c) ∧ mac_consumedAt c ≠ None.
Definition refresh_spent (h : string) (r : MemoryRepository) : Prop :=
  ∃ i t, list_find (λ record, rt_Hash (mrt_token record) = h) (refresh r) = Some (i, t) ∧ mrt_consumedAt t ≠ None.
Definition device_spent (h c : string) (r : MemoryRepository) : Prop :=
  ∃ i d, list_find (λ value, ¬ (da_DeviceHash value ≠ h ∨ da_ClientID value ≠ c)) (devices r) = Some (i, d) ∧
         da_Status d = DeviceConsumed.

Lemma code_find_le h r r' i c :
  store_le r r' → list_find (λ record, ac_Hash (mac_code record) = h) (codes r) = Some (i, c) →
  ∃ c', list_find (λ record, ac_Hash (mac_code record) = h) (codes r') = Some (i, c') ∧ code_le c c'.
Proof.
  intros [Hg _ _ _] Hf. refine (grows_list_find code_le _ _ _ _ _ _ Hg Hf).
  intros x y [-> _]. done.
Qed.

Lemma device_find_le h c r r' i d :
  store_le r r' →
  list_find (λ value, ¬ (da_DeviceHash value ≠ h ∨ da_ClientID value ≠ c)) (devices r) = Some (i, d) →
  ∃ d', list_find (λ value, ¬ (da_DeviceHash value ≠ h ∨ da_ClientID value ≠ c)) (devices r') = Some (i, d') ∧
        device_le d d'.
Proof.
  intros [_ _ _ Hg] Hf. refine (grows_list_find device_le _ _ _ _ _ _ Hg Hf).
  intros x y (-> & _ & -> & _). done.
Qed.

Lemma code_spent_le h r r' : store_le r r' → code_spent h r → code_spent h r'.
Proof.
  intros Hle (i & c & Hf & Hc). destruct (code_find_le _ _ _ _ _ Hle Hf) as (c' & Hf' & Ht).
  exists i, c'. split; [done|]. by apply Ht.
Qed.

Lemma refresh_find_le h r r' i t :
  store_le r r' → list_find (λ record, rt_Hash (mrt_token record) = h) (refresh r) = Some (i, t) →
  ∃ t', list_find (λ record, rt_Hash (mrt_token record) = h) (refresh r') = Some (i, t') ∧ refresh_le t t'.
Proof.
  intros [_ _ Hg _] Hf. refine (grows_list_find refresh_le _ _ _ _ _ _ Hg Hf).
  intros x y [-> _]. done.
Qed.

Lemma refresh_spent_le h r r' : store_le r r' → refresh_spent h r → refresh_spent h r'.
Proof.
  intros Hle (i & t & Hf & Hc). destruct (refresh_find_le _ _ _ _ _ Hle Hf) as (t' & Hf' & Ht).
  exists i, t'. split; [done|]. by apply Ht.
Qed.

Lemma consumed_final s : rtc status_step DeviceConsumed s → s = DeviceConsumed.
Proof. intros H. inversion H as [|? ? ? Hs]; subst; [done|]. inversion Hs. Qed.
Lemma denied_final s : rtc status_step DeviceDenied s → s = DeviceDenied.
Proof. intros H. inversion H as [|? ? ? Hs]; subst; [done|]. inversion Hs. Qed.

Lemma device_spent_le h c r r' : store_le r r' → device_spent h c r → device_spent h c r'.
Proof.
  intros Hle (i & d & Hf & Hd). destruct (device_find_le _ _ _ _ _ _ Hle Hf) as (d' & Hf' & Ht).
  exists i, d'. split; [done|]. destruct Ht as (_&_&_&_&_&_&Hs). rewrite Hd in Hs. by apply consumed_final.
Qed.

Lemma list_find_update {A} (P : A → Prop) `{∀ x, Decision (P x)} l i x y :
  list_find P l = Some (i, x) → P y → list_find P (<[i:=y]> l) = Some (i, y).
Proof.
  intros (Hi & Px & Hfirst)%list_find_Some Py. apply list_find_Some.
  split; [apply list_lookup_insert_eq; by eapply lookup_lt_Some|]. split; [done|].
  intros j z Hj Hlt. rewrite list_lookup_insert_ne in Hj by lia. eauto.
Qed.

Lemma list_find_app_l_Some {A} (P : A → Prop) `{∀ x, Decision (P x)} l l2 i x :
  list_find P l = Some (i, x) → list_find P (l ++ l2) = Some (i, x).
Proof. intros H1. apply list_find_app_Some. by left. Qed.

(** A win is possible only while the resource is unspent, spends it, and nothing unspends it. *)
Record spends (win : StoreOp → StoreResp → bool) (spent : MemoryRepository → Prop) : Prop := {
  spends_le r r' : store_le r r' → spent r → spent r';
  spends_lose r op : spent r → win op (store_step r op).2 = false;
  spends_win r op : win op (store_step r op).2 = true → spent (store_step r op).1;
}.

Lemma spends_once win spent r ops : spends win spent → (wins store_step win r ops ≤ 1)%nat.
Proof.
  intros [Hle Hlose Hwin]. apply (wins_at_most_once _ _ spent); [|done..].
  intros s o. apply Hle, store_step_le.
Qed.

Lemma code_spends h : spends (code_win h) (code_spent h).
Proof.
  split; [apply code_spent_le| |].
  - intros s o (i & c & Hf & Hc). destruct o; try done. simpl.
    unfold ConsumeAuthorizationCode. branches; try case_bool_decide; naive_solver.
  - intros s o. destruct o; try done. simpl. unfold ConsumeAuthorizationCode. branches; try done.
    intros _. found. eexists _, _. split; [by eapply list_find_update|done].
Qed.

Lemma refresh_spends h : spends (refresh_win h) (refresh_spent h).
Proof.
  split; [apply refresh_spent_le| |].
  - intros s o (i & c & Hf & Hc). destruct o; try done. simpl.
    unfold RotateRefreshToken. branches; try case_bool_decide; naive_solver.
  - intros s o. destruct o; try done. simpl. unfold RotateRefreshToken. branches; try done.
    all: intros _; found; eexists _, _; split; [by apply list_find_app_l_Some; eapply list_find_update|done].
Qed.

Lemma device_spends h c : spends (device_win h c) (device_spent h c).
Proof.
  split; [apply device_spent_le| |].
  - intros s o (i & d & Hf & Hd). destruct o; try done. simpl.
    unfold PollDeviceAuthorization. branches; try case_bool_decide; naive_solver.
  - intros s o. destruct o; try done. simpl. unfold PollDeviceAuthorization. branches; try done.
    intros _. destruct_and?. simplify_eq. found. eexists _, _. split; [by eapply list_find_update|done].
Qed.

(** An authorization code is redeemed at most once: in every execution of the
    store, from any state and whatever else happens (other clients, repeated
    saves, revocations), at most one redemption of a given code hash succeeds. *)
Theorem code_single_use h r ops : (wins store_step (code_win h) r ops ≤ 1)%nat.
Proof. eapply spends_once, code_spends. Qed.

(** A refresh token is rotated at most once: in every execution, at most one
    rotation of a given refresh token hash succeeds. *)
Theorem refresh_single_use h r ops : (wins store_step (refresh_win h) r ops ≤ 1)%nat.
Proof. eapply spends_once, refresh_spends. Qed.

(** An approved device code yields tokens at most once: in every execution,
    at most one poll with a given device hash and client succeeds. *)
Theorem device_code_single_use h c r ops : (wins store_step (device_win h c) r ops ≤ 1)%nat.
Proof. eapply spends_once, device_spends. Qed.

(** ** Provenance: where the entries of a table come from *)

(** Entries of the new table are old entries, changed at most as [R] allows, or [fresh]. *)
Definition from_table {A} (R : relation A) (l l' : list A) (fresh : A → Prop) : Prop :=
  ∀ y, y ∈ l' → (∃ x, x ∈ l ∧ R x y) ∨ fresh y.

Lemma from_table_refl {A} (R : relation A) `{!Reflexive R} l fresh : from_table R l l fresh.
Proof. intros y Hy. left. by exists y. Qed.
Lemma from_table_fmap {A} (R : relation A) l f fresh :
  (∀ x, R x (f x)) → from_table R l (f <$> l) fresh.
Proof. intros HR y (x & -> & Hx)%list_elem_of_fmap. left. eauto. Qed.
Lemma from_table_insert {A} (R : relation A) `{!Reflexive R} l i x y fresh :
  l !! i = Some x → R x y → from_table R l (<[i:=y]> l) fresh.
Proof.
  intros Hi HR z [->|Hz]%elem_of_insert_or; left; [|by exists z].
  exists x. split; [by eapply list_elem_of_lookup_2|done].
Qed.
Lemma from_table_app {A} (R : relation A) l l' x (fresh : A → Prop) :
  from_table R l l' fresh → fresh x → from_table R l (l' ++ [x]) fresh.
Proof. intros H Hx y [Hy| ->%list_elem_of_singleton]%elem_of_app; auto. Qed.
#[export] Hint Resolve from_table_refl from_table_fmap from_table_insert from_table_app : go.

Definition fresh_code (op : StoreOp) (c : memoryAuthorizationCode) : Prop :=
  op = OpSaveAuthorizationCode (mac_code c) ∧ mac_consumedAt c = None ∧ mac_revokedAt c = None.

Lemma revoke_family_access_le family now t :
  access_le t (if decide (at_FamilyID (mat_token t) = family) then rv_revoke now t else t).
Proof. unfold access_le, sticky. case_decide; naive_solver. Qed.
Lemma revoke_family_refresh_le family now t :
  refresh_le t (if decide (rt_FamilyID (mrt_token t) = family) then rv_revoke now t else t).
Proof. unfold refresh_le, sticky. case_decide; naive_solver. Qed.
(** Case analysis on the operation and its branches; what is left are the
    branches that write the table in question. *)
Ltac origin_cases op :=
  destruct op; simpl; try (by apply from_table_refl, _);
  unfold ConsumeAuthorizationCode, RevokeAccessToken, RotateRefreshToken, RevokeRefreshToken,
    DecideDeviceAuthorization, PollDeviceAuthorization, SaveOIDCClientSession, GrantConsent,
    DeleteConsent, grantConsentLocked;
  branches; try (by apply from_table_refl, _); try (by apply from_table_fmap; intros;
    first [apply revoke_family_access_le | apply revoke_family_refresh_le | auto with go]).

Lemma code_origin r op : from_table code_le (codes r) (codes (store_step r op).1) (fresh_code op).
Proof.
  origin_cases op.
  - by apply from_table_app; [apply from_table_refl, _|].
  - found. eapply from_table_insert; [apply _|done|]. unfold code_le, sticky. naive_solver.
Qed.

Definition fresh_access (op : StoreOp) (t : memoryAccessToken) : Prop :=
  op = OpSaveAccessToken (mat_token t) ∧ mat_revokedAt t = None.

Lemma access_origin r op :
  from_table access_le (accessTokens r) (accessTokens (store_step r op).1) (fresh_access op).
Proof.
  origin_cases op.
  - by apply from_table_app; [apply from_table_refl, _|].
  - found. eapply from_table_insert; [apply _|done|]. unfold access_le, sticky. naive_solver.
Qed.

(** A refresh token of the table was saved, or is the replacement of a live token
    of the same client, whose family, user and session it inherits and whose
    scopes cover its own. *)
Definition fresh_refresh (r : MemoryRepository) (op : StoreOp) (t : memoryRefreshToken) : Prop :=
  mrt_consumedAt t = None ∧ mrt_revokedAt t = None ∧
  ((∃ v, op = OpSaveRefreshToken v ∧ mrt_token t = rt_with_Scope (slice_copy (elems (rt_Scope v))) v) ∨
   (∃ v now parent,
      op = OpRotateRefreshToken (rt_Hash (mrt_token parent)) v now ∧ parent ∈ refresh r ∧
      mrt_consumedAt parent = None ∧ mrt_revokedAt parent = None ∧
      now < rt_ExpiresAt (mrt_token parent) ∧
      rt_ClientID (mrt_token parent) = rt_ClientID v ∧
      mrt_token t = inherit (mrt_token parent) v ∧
      elems (rt_Scope (mrt_token t)) ⊆ elems (rt_Scope (mrt_token parent)))).

Lemma ScopesCover_subseteq granted requested :
  ScopesCover granted requested = true ↔ requested ⊆ granted.
Proof.
  induction requested as [|s l IH]; simpl; [set_solver|].
  destruct (Contains granted s) eqn:E; reflect; simpl.
  - rewrite IH. set_solver.
  - split; [done|]. intros H. destruct E. set_solver.
Qed.

#[global] Arguments inherit : simpl never.

Lemma refresh_origin r op :
  from_table refresh_le (refresh r) (refresh (store_step r op).1) (fresh_refresh r op).
Proof.
  origin_cases op.
  { apply from_table_app; [by apply from_table_refl, _|]. split_and!; [done..|]. left. by eexists. }
  all: found; apply from_table_app;
    [eapply from_table_insert; [apply _|done|unfold refresh_le, sticky; naive_solver]|].
  all: reflect; rewrite ScopesCover_subseteq in *; apply Decidable.not_or in H1 as [?%dec_stable ?%dec_stable].
  all: split_and!; [done..|right]; eexists _, _, m; subst; split_and!; try done.
  all: try by eapply list_elem_of_lookup_2.
  all: simpl; by match goal with E : rt_Scope _ = _ |- _ => rewrite E end.
Qed.


(** A device entry keeps its user and is not approved by the operation, unless the
    operation is a decision of that user. *)
Definition device_keep (d d' : DeviceAuthorization) : Prop :=
  device_le d d' ∧ da_UserID d' = da_UserID d ∧ (da_Status d' = DeviceApproved → da_Status d = DeviceApproved).
Definition fresh_device (r : MemoryRepository) (op : StoreOp) (d' : DeviceAuthorization) : Prop :=
  op = OpSaveDeviceAuthorization d' ∨
  ∃ d t m l (approve : bool) now,
    op = OpDecideDeviceAuthorization (da_UserHash d') (da_UserID d') t m l approve now ∧
    d ∈ devices r ∧ da_Status d = DevicePending ∧ now < da_ExpiresAt d ∧
    d' = da_decided (da_UserID d') t m l (if approve then DeviceApproved else DeviceDenied) d.

#[global] Instance device_keep_refl : Reflexive device_keep.
Proof. intros d. split_and!; done. Qed.

Lemma device_keep_status d s :
  status_step (da_Status d) s → s ≠ DeviceApproved → device_keep d (da_with_Status s d).
Proof. intros Hs Ha. split_and!; [apply set_status_le; auto with go|done|done]. Qed.

Lemma device_keep_poll i now d : device_keep d (da_with_poll i now d).
Proof. split_and!; [apply poll_le|done|done]. Qed.

Lemma decided_origin r h u t m l (approve : bool) now n d :
  devices r !! n = Some d → device_open h now d →
  from_table device_keep (devices r)
    (<[n := da_decided u t m l (if approve then DeviceApproved else DeviceDenied) d]> (devices r))
    (fresh_device r (OpDecideDeviceAuthorization h u t m l approve now)).
Proof.
  intros Hn (<- & Ha%After_true & Hs) d' [->|Hd]%elem_of_insert_or; [right|left; by exists d'].
  right. exists d, t, m, l, approve, now. simpl. split_and!; try done. by eapply list_elem_of_lookup_2.
Qed.

Lemma device_origin r op :
  from_table device_keep (devices r) (devices (store_step r op).1) (fresh_device r op).
Proof.
  origin_cases op; found;
    try (eapply from_table_insert; [apply _|done|by apply device_keep_poll]).
  - apply from_table_app; [by apply from_table_refl, _|by left].
  - by apply (decided_origin _ _ _ _ _ _ true).
  - by apply (decided_origin _ _ _ _ _ _ true).
  - by apply (decided_origin _ _ _ _ _ _ false).
  - eapply from_table_insert; [apply _|done|].
    split_and!; [|done|done]. etrans; [apply (poll_le (da_Interval d) now)|]. apply set_status_le.
    match goal with E : da_Status _ = _ |- _ => simpl; rewrite E end. auto with go.
  - apply from_table_fmap. intros d. case_decide as E; [|done].
    apply device_keep_status; [|done]. destruct E as [_ ->]. constructor.
  - apply from_table_fmap. intros d. case_decide as E; [|done].
    apply device_keep_status; [|done]. destruct E as [_ [-> | ->]]; constructor.
  - apply from_table_fmap. intros d. unfold deny_approved_device. case_decide as E; [|done].
    apply device_keep_status; [|done]. destruct E as (_ & _ & ->). constructor.
Qed.

(** ** Refresh token families *)

(** No token of the family can be found, introspected or rotated. *)
Definition family_dead (family : string) (r : MemoryRepository) : Prop :=
  (∀ t, t ∈ refresh r → rt_FamilyID (mrt_token t) = family → mrt_revokedAt t ≠ None) ∧
  (∀ t, t ∈ accessTokens r → at_FamilyID (mat_token t) = family → mat_revokedAt t ≠ None).

Lemma revoke_family_dead family now r : family_dead family (revoke_family family now r).
Proof. split; simpl; intros t (t0 & -> & _)%list_elem_of_fmap; by case_decide. Qed.

Lemma find_access_live r h now tok :
  FindAccessToken r h now = Ok tok →
  ∃ t, t ∈ accessTokens r ∧ mat_token t = tok ∧ at_Hash tok = h ∧ mat_revokedAt t = None ∧ now < at_ExpiresAt tok.
Proof.
  unfold FindAccessToken. intros. branches. found. destruct Hfound as (?&?&?%After_true).
  eexists. split_and!; try done. by eapply list_elem_of_lookup_2.
Qed.

Lemma find_refresh_live r h now tok :
  FindRefreshToken r h now = Ok tok →
  ∃ t, t ∈ refresh r ∧ rt_with_Scope (slice_copy (elems (rt_Scope (mrt_token t)))) (mrt_token t) = tok ∧
       rt_Hash tok = h ∧ mrt_consumedAt t = None ∧ mrt_revokedAt t = None ∧ now < rt_ExpiresAt tok.
Proof.
  unfold FindRefreshToken. intros. branches. found. destruct Hfound as (?&?&?&?%After_true).
  eexists. split_and!; try done. by eapply list_elem_of_lookup_2.
Qed.

Lemma rotate_live r h v now r' tok :
  RotateRefreshToken r h v now = (r', Ok tok) →
  ∃ i t, list_find (λ record, rt_Hash (mrt_token record) = h) (refresh r) = Some (i, t) ∧
       rt_with_Scope (slice_copy (elems (rt_Scope (mrt_token t)))) (mrt_token t) = tok ∧
       mrt_consumedAt t = None ∧ mrt_revokedAt t = None ∧
       rt_ClientID (mrt_token t) = rt_ClientID v ∧ now < rt_ExpiresAt (mrt_token t) ∧
       elems (rt_Scope (inherit (mrt_token t) v)) ⊆ elems (rt_Scope (mrt_token t)) ∧
       r' = set_refresh (<[i := mrt_consume now t]> (refresh r) ++
              [{| mrt_token := inherit (mrt_token t) v; mrt_consumedAt := None; mrt_revokedAt := None |}]) r.
Proof.
  unfold RotateRefreshToken. intros. branches; exists n, m; simpl; reflect; rewrite ?ScopesCover_subseteq in *;
    match goal with Hd : ¬ (_ ∨ _) |- _ => apply Decidable.not_or in Hd as [?%dec_stable ?%dec_stable] end;
    split_and!; try done; by match goal with E : rt_Scope _ = _ |- _ => rewrite E end.
Qed.

(** No token of a family is found or rotated any more. *)
Definition family_unusable (family : string) (r : MemoryRepository) : Prop :=
  (∀ h now tok, FindRefreshToken r h now = Ok tok → rt_FamilyID tok ≠ family) ∧
  (∀ h now tok, FindAccessToken r h now = Ok tok → at_FamilyID tok ≠ family) ∧
  (∀ h v now r' tok, RotateRefreshToken r h v now = (r', Ok tok) → rt_FamilyID tok ≠ family).

Lemma family_dead_unusable family r : family_dead family r → family_unusable family r.
Proof.
  intros [Hr Ha]. split_and!.
  - intros h now tok (t & Hin & <- & _ & _ & Hrev & _)%find_refresh_live Hfam. by eapply Hr.
  - intros h now tok (t & Hin & <- & _ & Hrev & _)%find_access_live Hfam. by eapply Ha.
  - intros h v now r' tok (i & t & (Hl & _)%list_find_lookup & <- & _ & Hrev & _)%rotate_live Hfam.
    eapply Hr; [by eapply list_elem_of_lookup_2|done..].
Qed.

(** C24. Reuse detection. Once a refresh token has been rotated, presenting it again
    with the same client, at any later point of the execution, is refused as
    reuse and kills its whole family: afterwards no refresh token of the family
    can be found or rotated and no access token of the family is accepted. *)
Theorem refresh_reuse_kills_family r h v now r1 tok ops v2 now2 r3 resp :
  RotateRefreshToken r h v now = (r1, Ok tok) →
  rt_ClientID v2 = rt_ClientID v →
  RotateRefreshToken (run store_step r1 ops).1 h v2 now2 = (r3, resp) →
  resp = Err ErrRefreshReuse ∧ family_unusable (rt_FamilyID tok) r3.
Proof.
  intros (i & t & Hf & <- & _ & _ & Hcl & _ & _ & ->)%rotate_live Hv2 Hrot. simpl.
  match type of Hrot with RotateRefreshToken (run _ ?s _).1 _ _ _ = _ => set (r1 := s) in Hrot end.
  assert (list_find (λ record, rt_Hash (mrt_token record) = h) (refresh r1) = Some (i, mrt_consume now t)) as Hf1.
  { apply list_find_app_l_Some. eapply list_find_update; [done|]. by apply list_find_lookup in Hf as [_ ?]. }
  destruct (refresh_find_le _ _ _ _ _ (store_run_le r1 ops) Hf1) as (t' & Hf' & Htok & Hcons & _).
  simpl in Htok. unfold RotateRefreshToken in Hrot. rewrite Hf', Htok in Hrot.
  rewrite decide_False in Hrot by (rewrite Hv2; intros []; done).
  rewrite decide_True in Hrot by (right; by apply Hcons).
  simplify_eq. split; [done|]. apply family_dead_unusable, revoke_family_dead.
Qed.

(** Who a refresh token belongs to, and the scopes it may carry. *)
Definition within (root t : RefreshToken) : Prop :=
  rt_ClientID t = rt_ClientID root ∧ rt_UserID t = rt_UserID root ∧
  rt_SessionID t = rt_SessionID root ∧ elems (rt_Scope t) ⊆ elems (rt_Scope root).

Definition family_within (root : RefreshToken) (r : MemoryRepository) : Prop :=
  ∀ t, t ∈ refresh r → rt_FamilyID (mrt_token t) = rt_FamilyID root → within root (mrt_token t).

Definition saves_family (family : string) (op : StoreOp) : Prop :=
  match op with OpSaveRefreshToken v => rt_FamilyID v = family | _ => False end.

Lemma family_within_step root r op :
  ¬ saves_family (rt_FamilyID root) op → family_within root r → family_within root (store_step r op).1.
Proof.
  intros Hop Hin t Ht Hfam. destruct (refresh_origin r op t Ht) as [(t0 & Ht0 & Heq & _)|(_ & _ & Hfresh)].
  - rewrite Heq in *. by apply Hin.
  - destruct Hfresh as [(v & -> & Hv)|(v & now & p & -> & Hp & _ & _ & _ & Hcl & Htok & Hsc)].
    + rewrite Hv in Hfam. done.
    + rewrite Htok in *. simpl in *. destruct (Hin p Hp Hfam) as (?&?&?&?).
      split_and!; simpl; [congruence|done..|set_solver].
Qed.

(** Confinement of a refresh token family. Save a root token of a family not in
    use; in every execution in which no other token is saved directly under that
    family, every token of the family, however often rotated, still belongs to
    the root's client, user and session and carries only scopes of the root. *)
Theorem refresh_family_confined root r ops t :
  (∀ t, t ∈ refresh r → rt_FamilyID (mrt_token t) ≠ rt_FamilyID root) →
  Forall (λ op, ¬ saves_family (rt_FamilyID root) op) ops →
  t ∈ refresh (run store_step (SaveRefreshToken r root).1 ops).1 →
  rt_FamilyID (mrt_token t) = rt_FamilyID root →
  within root (mrt_token t).
Proof.
  intros Hnew Hops Ht Hfam. revert t Ht Hfam.
  apply (run_invariant_ops store_step (family_within root) _ ops _ (λ r op, family_within_step root r op) Hops).
  intros t [Ht| ->%list_elem_of_singleton]%elem_of_app Hfam; [by destruct (Hnew t)|].
  split_and!; simpl; try done. by rewrite elems_slice_copy.
Qed.

(** ** Completeness and precision of revocation *)

Abbreviation Matches := (string → string → string → bool) (only parsing).

Definition owned_by {T} `{Revocable T} (m : Matches) (t : T) : bool :=
  m (rv_UserID t) (rv_SessionID t) (rv_ClientID t).

(** Every stored grant that [m] selects is revoked. *)
Definition no_live (m : Matches) (r : MemoryRepository) : Prop :=
  (∀ c, c ∈ codes r → owned_by m c = true → mac_revokedAt c ≠ None) ∧
  (∀ t, t ∈ accessTokens r → owned_by m t = true → mat_revokedAt t ≠ None) ∧
  (∀ t, t ∈ refresh r → owned_by m t = true → mrt_revokedAt t ≠ None).

(** The operation saves a new grant that [m] selects. *)
Definition saves_grant (m : Matches) (op : StoreOp) : Prop :=
  match op with
  | OpSaveAuthorizationCode v => m (ac_UserID v) (ac_SessionID v) (ac_ClientID v) = true
  | OpSaveAccessToken v => m (at_UserID v) (at_SessionID v) (at_ClientID v) = true
  | OpSaveRefreshToken v => m (rt_UserID v) (rt_SessionID v) (rt_ClientID v) = true
  | _ => False
  end.

Lemma revoke_if_dead {T} `{Revocable T} m now (l : list T) t :
  t ∈ revoke_if m now <$> l → owned_by m t = true → rv_revokedAt t ≠ None.
Proof.
  intros (t0 & -> & _)%list_elem_of_fmap. unfold revoke_if, owned_by. case_match eqn:E.
  - by rewrite rv_revoke_at.
  - intros Hm. rewrite Hm in E. simpl in E. by apply bool_decide_eq_false in E.
Qed.

Lemma revokeMatching_no_live m now r : no_live m (revokeMatchingTokens m now r).
Proof. split_and!; simpl; intros x Hx Hm; by eapply revoke_if_dead in Hx. Qed.

Lemma no_live_step m r op : ¬ saves_grant m op → no_live m r → no_live m (store_step r op).1.
Proof.
  intros Hop (Hc & Ha & Hr). split_and!.
  - intros c Hin Hm. destruct (code_origin r op c Hin) as [(c0 & Hc0 & Heq & _ & Hs)|(-> & _)]; [|done].
    apply Hs, Hc; [done|]. unfold owned_by in *; simpl in *. by rewrite <-Heq.
  - intros t Hin Hm. destruct (access_origin r op t Hin) as [(t0 & Ht0 & Heq & Hs)|(-> & _)]; [|done].
    apply Hs, Ha; [done|]. unfold owned_by in *; simpl in *. by rewrite <-Heq.
  - intros t Hin Hm.
    destruct (refresh_origin r op t Hin) as [(t0 & Ht0 & Heq & _ & Hs)|(_ & _ & Hfresh)].
    + apply Hs, Hr; [done|]. unfold owned_by in *; simpl in *. by rewrite <-Heq.
    + destruct Hfresh as [(v & -> & Hv)|(v & now & p & -> & Hp & _ & Hlive & _ & Hcl & Htok & _)].
      * unfold owned_by in Hm; simpl in Hm. rewrite Hv in Hm. done.
      * destruct (Hr p Hp); [|done]. unfold owned_by in *; simpl in *.
        rewrite Htok in Hm. simpl in Hm. by rewrite Hcl.
Qed.

Lemma consume_live r h c u ch now r' code :
  ConsumeAuthorizationCode r h c u ch now = (r', Ok code) →
  ∃ i rec, list_find (λ record, ac_Hash (mac_code record) = h) (codes r) = Some (i, rec) ∧ mac_code rec = code ∧
    ac_ClientID code = c ∧ ac_RedirectURI code = u ∧ ac_CodeChallenge code = ch ∧
    mac_consumedAt rec = None ∧ mac_revokedAt rec = None ∧ now < ac_ExpiresAt code ∧
    r' = set_codes (<[i := mac_consume now rec]> (codes r)) r.
Proof.
  unfold ConsumeAuthorizationCode. intros. branches. reflect. passed_guards.
  eexists _, _. by split_and!.
Qed.

(** A revocation selects the grants it revokes by user, session and client. *)
Definition revocation (op : StoreOp) : option Matches :=
  match op with
  | OpRevokeSessionTokens user sess _ => Some (λ u s _, bool_decide (u = user) && bool_decide (s = sess))
  | OpRevokeUserTokens user except _ =>
      Some (λ u s _, bool_decide (u = user) && (bool_decide (except = ""%string) || bool_decide (s ≠ except)))
  | OpRevokeClientTokens client _ => Some (λ _ _ c, bool_decide (c = client))
  | OpDeleteConsent user client _ => Some (λ u _ c, bool_decide (u = user) && bool_decide (c = client))
  | _ => None
  end.

Lemma revocation_tables r op m :
  revocation op = Some m → (store_step r op).2 = RespUnit (Ok ()) →
  ∃ now, let r' := (store_step r op).1 in
    codes r' = revoke_if m now <$> codes r ∧ accessTokens r' = revoke_if m now <$> accessTokens r ∧
    refresh r' = revoke_if m now <$> refresh r.
Proof.
  destruct op; simpl; intros; simplify_eq; try by exists now.
  unfold DeleteConsent in *. branches. by exists now.
Qed.

(** Revocation is complete and permanent. After logging a session out, after
    revoking a user's or a client's tokens, or after a user withdraws a consent,
    no authorization code, access token or refresh token selected by the
    revocation can be redeemed, found or rotated at any later point of the
    execution, unless a new grant of that owner is saved. *)
Theorem revocation_complete r op m ops :
  revocation op = Some m → (store_step r op).2 = RespUnit (Ok ()) →
  Forall (λ o, ¬ saves_grant m o) ops →
  let r' := (run store_step (store_step r op).1 ops).1 in
  (∀ h c u ch now r2 code, ConsumeAuthorizationCode r' h c u ch now = (r2, Ok code) →
     m (ac_UserID code) (ac_SessionID code) (ac_ClientID code) = false) ∧
  (∀ h now tok, FindAccessToken r' h now = Ok tok → m (at_UserID tok) (at_SessionID tok) (at_ClientID tok) = false) ∧
  (∀ h now tok, FindRefreshToken r' h now = Ok tok → m (rt_UserID tok) (rt_SessionID tok) (rt_ClientID tok) = false) ∧
  (∀ h v now r2 tok, RotateRefreshToken r' h v now = (r2, Ok tok) →
     m (rt_UserID tok) (rt_SessionID tok) (rt_ClientID tok) = false).
Proof.
  intros Hop Hresp Hops. destruct (revocation_tables r op m Hop Hresp) as (now & Hc & Ha & Hr).
  assert (no_live m (run store_step (store_step r op).1 ops).1) as (Hc' & Ha' & Hr').
  { apply (run_invariant_ops store_step (no_live m) _ ops _ (λ r o, no_live_step m r o) Hops).
    split_and!; [rewrite Hc|rewrite Ha|rewrite Hr]; intros x Hx Hm; by eapply revoke_if_dead in Hx. }
  split_and!; intros; apply not_true_is_false; intros Hm.
  - apply consume_live in H as (i & rec & (Hl & _)%list_find_lookup & <- & _ & _ & _ & _ & Hrev & _).
    eapply Hc'; [by eapply list_elem_of_lookup_2|done..].
  - apply find_access_live in H as (t & Ht & <- & _ & Hrev & _). by eapply Ha'.
  - apply find_refresh_live in H as (t & Ht & <- & _ & _ & Hrev & _). by eapply Hr'.
  - apply rotate_live in H as (i & t & (Hl & _)%list_find_lookup & <- & _ & Hrev & _).
    eapply Hr'; [by eapply list_elem_of_lookup_2|done..].
Qed.

(** Revocation is precise: it leaves every grant it does not select exactly as
    it was, at its place in its table. *)
Theorem revocation_precise r op m :
  revocation op = Some m → (store_step r op).2 = RespUnit (Ok ()) →
  let r' := (store_step r op).1 in
  (∀ i c, codes r !! i = Some c → owned_by m c = false → codes r' !! i = Some c) ∧
  (∀ i t, accessTokens r !! i = Some t → owned_by m t = false → accessTokens r' !! i = Some t) ∧
  (∀ i t, refresh r !! i = Some t → owned_by m t = false → refresh r' !! i = Some t).
Proof.
  intros Hop Hresp. destruct (revocation_tables r op m Hop Hresp) as (now & Hc & Ha & Hr).
  intros r'; subst r'. rewrite Hc, Ha, Hr.
  split_and!; intros i x Hx Hm; rewrite list_lookup_fmap, Hx; simpl; f_equal;
    unfold revoke_if; unfold owned_by in Hm; by rewrite Hm.
Qed.
