(* ===== verification/OAuthDeviceProps.v ===== *)
(** The device authorization grant of the store: a device code yields tokens only
    after a user approved it, revocation withdraws an approval not yet redeemed,
    and polling too often lengthens the interval. *)
From S2P Require Import Prelude OAuthStore OAuthStoreProps.
Local Open Scope Z_scope.

(** ** Approval *)

Definition find_device (r : MemoryRepository) (h c : string) : option (nat * DeviceAuthorization) :=
  list_find (λ value, ¬ (da_DeviceHash value ≠ h ∨ da_ClientID value ≠ c)) (devices r).

Lemma poll_ok r h c now r' d :
  PollDeviceAuthorization r h c now = (r', Ok d) →
  ∃ i d0, find_device r h c = Some (i, d0) ∧ d0 ∈ devices r ∧ da_Status d0 = DeviceApproved ∧
    da_DeviceHash d0 = h ∧ da_ClientID d0 = c ∧ now < da_ExpiresAt d0 ∧ polled_too_soon d0 now = false ∧
    d = da_with_Status DeviceConsumed (da_with_poll (da_Interval d0) now d0).
Proof.
  unfold PollDeviceAuthorization, find_device. intros. branches. found. reflect. passed_guards.
  eexists _, _. split_and!; try done. by eapply list_elem_of_lookup_2.
Qed.

(** Saved devices are pending, as the device endpoint saves them. *)
Definition saves_pending (op : StoreOp) : Prop :=
  match op with OpSaveDeviceAuthorization v => da_Status v = DevicePending | _ => True end.

(** The revocations that withdraw an approval whatever the state. *)
Definition withdraws (op : StoreOp) (d : DeviceAuthorization) : Prop :=
  match op with
  | OpRevokeUserTokens user _ _ => da_UserID d = user
  | OpRevokeClientTokens client _ => da_ClientID d = client
  | _ => False
  end.

(** [d] was approved by the decision [op] of its user, with the authentication the
    decision carries. *)
Definition approves (op : StoreOp) (d : DeviceAuthorization) : Prop :=
  ∃ now, op = OpDecideDeviceAuthorization (da_UserHash d) (da_UserID d) (da_AuthenticatedAt d)
                (da_AuthMethods d) (da_AssuranceLevel d) true now ∧ now < da_ExpiresAt d.

(** What a decision records of the user, which nothing later changes. *)
Definition same_approval (d d' : DeviceAuthorization) : Prop :=
  da_UserHash d' = da_UserHash d ∧ da_UserID d' = da_UserID d ∧ da_ClientID d' = da_ClientID d ∧
  da_AuthenticatedAt d' = da_AuthenticatedAt d ∧
  da_AuthMethods d' = da_AuthMethods d ∧ da_AssuranceLevel d' = da_AssuranceLevel d ∧
  da_ExpiresAt d' = da_ExpiresAt d ∧ (da_Status d' = DeviceApproved → da_Status d = DeviceApproved).
#[global] Instance same_approval_refl : Reflexive same_approval.
Proof. intros d. by split_and!. Qed.

Lemma same_approval_approves op d d' : same_approval d d' → approves op d → approves op d'.
Proof.
  intros (E1&E2&E3&E4&E5&E6&E7&_) (now & -> & Hlt). exists now. by rewrite E1, E2, E4, E5, E6, E7.
Qed.
Lemma same_approval_withdraws op d d' : same_approval d d' → withdraws op d' → withdraws op d.
Proof. intros (_&E2&E3&_). destruct op; simpl; congruence. Qed.

Definition fresh_approval (op : StoreOp) (d' : DeviceAuthorization) : Prop :=
  op = OpSaveDeviceAuthorization d' ∨ approves op d' ∨ da_Status d' ≠ DeviceApproved.

Lemma decided_approval r h u t m l (approve : bool) now n d :
  devices r !! n = Some d → device_open h now d →
  from_table same_approval (devices r)
    (<[n := da_decided u t m l (if approve then DeviceApproved else DeviceDenied) d]> (devices r))
    (fresh_approval (OpDecideDeviceAuthorization h u t m l approve now)).
Proof.
  intros Hn (<- & Ha%After_true & Hs) d' [->|Hd]%elem_of_insert_or; [right|left; by exists d'].
  right. destruct approve; [left|by right]. by exists now.
Qed.

Lemma approval_origin r op :
  from_table same_approval (devices r) (devices (store_step r op).1) (fresh_approval op).
Proof.
  origin_cases op; found;
    try (eapply from_table_insert; [apply _|done|by split_and!]).
  - apply from_table_app; [by apply from_table_refl, _|by left].
  - by apply (decided_approval _ _ _ _ _ _ true).
  - by apply (decided_approval _ _ _ _ _ _ true).
  - by apply (decided_approval _ _ _ _ _ _ false).
  - apply from_table_fmap. intros d. case_decide; by split_and!.
  - apply from_table_fmap. intros d. case_decide; by split_and!.
  - apply from_table_fmap. intros d. unfold deny_approved_device. case_decide; by split_and!.
Qed.

Lemma withdrawn_not_approved r op d :
  d ∈ devices (store_step r op).1 → withdraws op d → da_Status d ≠ DeviceApproved.
Proof.
  destruct op; try done; simpl; intros (d0 & -> & _)%list_elem_of_fmap; case_decide as E; try done;
    simpl; intros Hw Hs; apply E; auto.
Qed.

Lemma approval_history ops d :
  Forall saves_pending ops →
  d ∈ devices (run store_step NewMemoryRepository ops).1 → da_Status d = DeviceApproved →
  ∃ ops1 op ops2, ops = ops1 ++ op :: ops2 ∧ approves op d ∧ Forall (λ o, ¬ withdraws o d) ops2.
Proof.
  revert d. induction ops as [|op ops IH] using rev_ind; intros d Hops Hd Happ; [by inversion Hd|].
  apply Forall_app in Hops as [Hops Hop%Forall_inv].
  rewrite run_app in Hd. set (r := (run store_step NewMemoryRepository ops).1) in *. simpl in Hd.
  pose proof (withdrawn_not_approved r op d Hd) as Hw.
  destruct (approval_origin r op d Hd) as [(d0 & Hd0 & Hsame)|[->|[Hap|Hn]]]; try done.
  - destruct (IH d0 Hops Hd0) as (ops1 & o & ops2 & -> & Hap & Hno); [by apply Hsame|].
    exists ops1, o, (ops2 ++ [op]). rewrite <-app_assoc. split; [done|].
    split; [by eapply same_approval_approves|]. apply Forall_app. split; [|constructor; [naive_solver|done]].
    eapply Forall_impl; [done|]. intros o' Hn Hw'. by apply Hn, (same_approval_withdraws _ d0 d).
  - simpl in Hop. congruence.
  - exists ops, op, []. by split_and!.
Qed.

(** A device code yields tokens only to the user who approved it. If, in any
    execution from the empty store in which devices are saved pending, a poll
    succeeds, then before it that user approved the device's user code before it
    expired, with the authentication time, methods and assurance level the tokens
    will carry, and since then neither the user's nor the client's tokens were
    revoked. *)
Theorem device_tokens_need_approval ops h c now r' d :
  Forall saves_pending ops →
  PollDeviceAuthorization (run store_step NewMemoryRepository ops).1 h c now = (r', Ok d) →
  da_DeviceHash d = h ∧ da_ClientID d = c ∧ now < da_ExpiresAt d ∧
  ∃ ops1 op ops2, ops = ops1 ++ op :: ops2 ∧ approves op d ∧ Forall (λ o, ¬ withdraws o d) ops2.
Proof.
  intros Hops (i & d0 & _ & Hin & Hs & Hh & Hc & Hexp & _ & ->)%poll_ok. split_and!; try done.
  apply (approval_history ops d0 Hops Hin Hs).
Qed.

(** ** Withdrawing an approval *)

(** The device approvals a revocation withdraws, by user and client. *)
Definition device_revocation (op : StoreOp) : option (string → string → bool) :=
  match op with
  | OpRevokeUserTokens user _ _ => Some (λ u _, bool_decide (u = user))
  | OpRevokeClientTokens client _ => Some (λ _ c, bool_decide (c = client))
  | OpDeleteConsent user client _ => Some (λ u c, bool_decide (u = user) && bool_decide (c = client))
  | _ => None
  end.

Definition no_approval (m : string → string → bool) (r : MemoryRepository) : Prop :=
  ∀ d, d ∈ devices r → m (da_UserID d) (da_ClientID d) = true → da_Status d ≠ DeviceApproved.

(** The operation approves, for a user and a client that [m] selects, the device
    that the store finds, or saves an approved device. *)
Definition new_approval (m : string → string → bool) (r : MemoryRepository) (op : StoreOp) : Prop :=
  match op with
  | OpSaveDeviceAuthorization v => da_Status v = DeviceApproved
  | OpDecideDeviceAuthorization h u _ _ _ true now =>
      ∃ d, FindDeviceByUserCode r h now = Ok d ∧ m u (da_ClientID d) = true
  | _ => False
  end.

Fixpoint no_new_approval (m : string → string → bool) (r : MemoryRepository) (ops : list StoreOp) : Prop :=
  match ops with
  | [] => True
  | op :: rest => ¬ new_approval m r op ∧ no_new_approval m (store_step r op).1 rest
  end.

Lemma revocation_no_approval r op m :
  device_revocation op = Some m → (store_step r op).2 = RespUnit (Ok ()) → no_approval m (store_step r op).1.
Proof.
  destruct op; simpl; intros Hm Hresp; simplify_eq; intros d Hd Hsel;
    [..|unfold DeleteConsent in *; case_match; [destruct p|done]; simpl in Hd]; apply list_elem_of_fmap in Hd as (d0 & -> & Hin);
    unfold deny_approved_device in *; case_decide as E; try done; simpl in *; reflect; tauto.
Qed.

Lemma decide_keeps r h u t m l (approve : bool) now d :
  d ∈ devices (DecideDeviceAuthorization r h u t m l approve now).1 → d ∈ devices r ∨
  ∃ d0, FindDeviceByUserCode r h now = Ok d0 ∧
        d = da_decided u t m l (if approve then DeviceApproved else DeviceDenied) d0.
Proof.
  unfold DecideDeviceAuthorization, FindDeviceByUserCode, grantConsentLocked.
  branches; simpl; intros Hd; auto; apply elem_of_insert_or in Hd as [->|]; auto; right; eauto.
Qed.

Lemma no_approval_step m r op :
  ¬ new_approval m r op → no_approval m r → no_approval m (store_step r op).1.
Proof.
  intros Hn Ho d Hd Hm Happ.
  destruct (approval_origin r op d Hd) as [(d0 & Hd0 & Hu)|[->|[(now & -> & _)|Hx]]]; [| | |done].
  - destruct Hu as (_ & Hu & Hc & _ & _ & _ & _ & Hs). apply (Ho d0 Hd0); [|by apply Hs].
    by rewrite <-Hu, <-Hc.
  - by apply Hn.
  - apply decide_keeps in Hd as [Hd|(d0 & Hd0 & Heq)]; [by apply (Ho d Hd)|].
    apply Hn. exists d0. split; [done|]. enough (da_ClientID d = da_ClientID d0) as <- by done. by rewrite Heq.
Qed.

Lemma no_approval_run m ops r :
  no_new_approval m r ops → no_approval m r → no_approval m (run store_step r ops).1.
Proof.
  revert r. induction ops as [|op ops IH]; intros r; simpl; [done|].
  intros [Hn Hrest] Ho. apply IH; [done|]. by apply no_approval_step.
Qed.

(** Revoking a user's tokens, revoking a client's tokens or withdrawing a
    consent also withdraws the device approvals not yet redeemed: no later poll
    yields tokens for that user and client until a new approval for them. *)
Theorem revocation_withdraws_approvals r op m ops h c now r' d :
  device_revocation op = Some m → (store_step r op).2 = RespUnit (Ok ()) →
  no_new_approval m (store_step r op).1 ops →
  PollDeviceAuthorization (run store_step (store_step r op).1 ops).1 h c now = (r', Ok d) →
  m (da_UserID d) (da_ClientID d) = false.
Proof.
  intros Hop Hresp Hops (i & d0 & _ & Hin & Hs & _ & _ & _ & _ & ->)%poll_ok.
  apply not_true_is_false. intros Hm. eapply no_approval_run; try done. by apply revocation_no_approval.
Qed.

(** ** Polling rate *)

(** Successive instants, each before the poll deadline of a device that was last
    polled at [last] with [interval], where each early poll adds five seconds. *)
Fixpoint too_early (last interval : Z) (ts : list Time) : Prop :=
  match ts with
  | [] => True
  | t :: rest => t < last + interval ∧ too_early t (interval + 5 * Second) rest
  end.

Definition device_at (r : MemoryRepository) (h c : string) (i : nat) (d : DeviceAuthorization) : Prop :=
  find_device r h c = Some (i, d).

Lemma too_early_poll r h c i d now :
  device_at r h c i d → now < da_ExpiresAt d → polled_too_soon d now = true →
  let d' := da_with_poll (wrap64 (da_Interval d + 5 * Second)) now d in
  let step := PollDeviceAuthorization r h c now in
  step.2 = Err ErrSlowDown ∧ device_at step.1 h c i d'.
Proof.
  unfold device_at, find_device. intros Hf Hexp Hsoon.
  unfold PollDeviceAuthorization. rewrite Hf, Hsoon, (proj2 (After_true _ _) Hexp). simpl. split; [done|].
  apply list_find_update with d; [done|]. by apply list_find_lookup in Hf as [_ ?].
Qed.

(** Polling back-off. Each poll of an unexpired device that comes before the
    deadline (last poll plus interval) is answered slow_down and makes the
    interval five seconds longer, without wrapping around as long as the result
    fits in 64 bits: after [n] early polls the interval is [n] times five seconds
    longer and the deadline is counted from the last of them. *)
Theorem poll_backoff r h c i d t0 ts :
  device_at r h c i d → da_LastPollAt d = Some t0 → 0 ≤ da_Interval d →
  Forall (λ t, t < da_ExpiresAt d) ts →
  da_Interval d + Z.of_nat (length ts) * (5 * Second) ≤ max_int64 →
  too_early t0 (da_Interval d) ts →
  let final := run store_step r (OpPollDeviceAuthorization h c <$> ts) in
  final.2 = replicate (length ts) (RespDevice (Err ErrSlowDown)) ∧
  ∃ d', device_at final.1 h c i d' ∧ da_Status d' = da_Status d ∧
        da_Interval d' = da_Interval d + Z.of_nat (length ts) * (5 * Second) ∧
        da_LastPollAt d' = Some (default t0 (last ts)).
Proof.
  revert r d t0. induction ts as [|t ts IH]; intros r d t0 Hat Hlast H0 Hexp Hmax Hearly.
  { simpl. split; [done|]. exists d. split_and!; try done. lia. }
  apply Forall_cons in Hexp as [Ht Hexp]. cbn in Hearly. destruct Hearly as [Hlt Hearly].
  destruct (too_early_poll r h c i d t Hat Ht) as [Hresp Hat'].
  { unfold polled_too_soon. rewrite Hlast. by apply Before_true. }
  cbn [length] in Hmax.
  rewrite wrap64_id in Hat' by (unfold in_int64, min_int64, max_int64, Second in *; lia).
  specialize (IH _ _ t Hat' eq_refl). simpl in IH.
  destruct IH as [Hr (d' & Hd' & Hs & Hi & Hl)]; [unfold Second; lia|done|lia|done|].
  rewrite fmap_cons. unfold tag in *. simpl in *. split; [by rewrite Hresp, Hr|].
  exists d'. split_and!; [done..|unfold Second in *; lia|]. rewrite Hl, last_cons. by destruct (last ts).
Qed.
