(* ===== verification/OAuthConsentProps.v ===== *)
(** The consent table of the OAuth store implements a map from (user, client) to a
    set of scopes: every operation of the store refines one on the map, and the
    listing a user sees is sorted and complete. *)
From S2P Require Import Prelude OAuthStore OAuthStoreProps.
Local Open Scope Z_scope.

(** ** [mergeScopes] is set union, sorted and without duplicates *)

Lemma elem_of_append_missing s current requested :
  s ∈ append_missing current requested ↔ s ∈ current ∨ s ∈ requested.
Proof.
  revert current. induction requested as [|x l IH]; intros current; simpl; [set_solver|].
  rewrite IH. destruct (Contains current x) eqn:E; reflect; simpl; set_solver.
Qed.

Lemma NoDup_append_missing current requested :
  NoDup current → NoDup (append_missing current requested).
Proof.
  revert current. induction requested as [|x l IH]; intros current Hnd; simpl; [done|].
  apply IH. destruct (Contains current x) eqn:E; reflect; simpl; [done|].
  apply NoDup_app. split_and!; [done|set_solver|apply NoDup_singleton].
Qed.

Definition canonical_scopes (l : list string) : Prop := NoDup l ∧ StronglySorted String.le l.

Lemma mergeScopes_canonical current requested : NoDup current → canonical_scopes (mergeScopes current requested).
Proof.
  intros Hnd. split; unfold mergeScopes; [|apply StronglySorted_merge_sort; apply _].
  rewrite merge_sort_Permutation. by apply NoDup_append_missing.
Qed.

Lemma elem_of_mergeScopes s current requested :
  s ∈ mergeScopes current requested ↔ s ∈ current ∨ s ∈ requested.
Proof. unfold mergeScopes. by rewrite merge_sort_Permutation, elem_of_append_missing. Qed.

(** ** The abstract consent table *)

Abbreviation ConsentMap := (gmap (string * string) (gset string)).

Definition co_key (c : Consent) : string * string := (co_UserID c, co_ClientID c).
Definition co_entry (c : Consent) : (string * string) * gset string := (co_key c, list_to_set (co_Scopes c)).

(** The map a table of consents stands for. *)
Definition abs (cs : list Consent) : ConsentMap := list_to_map (co_entry <$> cs).

#[global] Arguments abs : simpl never.

(** One entry per (user, client), with canonical scopes. *)
Definition consents_wf (cs : list Consent) : Prop :=
  NoDup (co_key <$> cs) ∧ ∀ c, c ∈ cs → canonical_scopes (co_Scopes c).

Definition grant_spec (key : string * string) (scopes : list string) (m : ConsentMap) : ConsentMap :=
  <[key := default ∅ (m !! key) ∪ list_to_set scopes]> m.

(** What each operation of the store does to the map: only grants, approvals of a
    pending device and withdrawals change it. *)
Definition consent_spec (r : MemoryRepository) (op : StoreOp) (m : ConsentMap) : ConsentMap :=
  match op with
  | OpGrantConsent user client scopes _ => grant_spec (user, client) scopes m
  | OpDeleteConsent user client _ => delete (user, client) m
  | OpDecideDeviceAuthorization hash user _ _ _ true now =>
      match FindDeviceByUserCode r hash now with
      | Ok d => grant_spec (user, da_ClientID d) (da_Scope d) m
      | Err _ => m
      end
  | _ => m
  end.

Lemma fst_co_entry cs : (co_entry <$> cs).*1 = co_key <$> cs.
Proof. by rewrite <-list_fmap_compose. Qed.

Lemma abs_lookup cs c :
  NoDup (co_key <$> cs) → c ∈ cs → abs cs !! co_key c = Some (list_to_set (co_Scopes c)).
Proof.
  intros Hnd Hin. apply elem_of_list_to_map; [by rewrite fst_co_entry|].
  change (co_key c, _) with (co_entry c). by apply list_elem_of_fmap_2.
Qed.

Lemma abs_lookup_None cs key : key ∉ co_key <$> cs → abs cs !! key = None.
Proof. intros H. apply not_elem_of_list_to_map. by rewrite fst_co_entry. Qed.

Lemma find_key cs u c :
  match list_find (λ value, co_UserID value = u ∧ co_ClientID value = c) cs with
  | Some (i, v) => cs !! i = Some v ∧ co_key v = (u, c)
  | None => (u, c) ∉ co_key <$> cs
  end.
Proof.
  case_match eqn:E; [destruct p as [i v]|].
  - apply list_find_lookup in E as (? & <- & <-). done.
  - intros (v & Hv & Hin)%list_elem_of_fmap. unfold co_key in Hv. simplify_eq.
    by apply (list_find_None_elem _ _ _ E Hin).
Qed.

Lemma fmap_insert_same {A B} (f : A → B) (l : list A) i x y :
  l !! i = Some x → f y = f x → f <$> <[i:=y]> l = f <$> l.
Proof. intros Hi Hf. rewrite list_fmap_insert, Hf. apply list_insert_id. by rewrite list_lookup_fmap, Hi. Qed.

Lemma abs_eq cs m :
  NoDup (co_key <$> cs) →
  (∀ c, c ∈ cs → m !! co_key c = Some (list_to_set (co_Scopes c))) →
  (∀ key, key ∉ co_key <$> cs → m !! key = None) → abs cs = m.
Proof.
  intros Hnd Hin Hout. apply map_eq. intros key.
  destruct (decide (key ∈ co_key <$> cs)) as [(c & -> & Hc)%list_elem_of_fmap|Hk].
  - rewrite abs_lookup by done. by rewrite Hin.
  - by rewrite abs_lookup_None, Hout.
Qed.

(** Every entry other than the one at [i] keeps its key, and no other has its key. *)
Lemma other_key cs i v c :
  NoDup (co_key <$> cs) → cs !! i = Some v → ∀ j, cs !! j = Some c → j ≠ i → co_key c ≠ co_key v.
Proof.
  intros Hnd Hi j Hj Hne Heq. apply Hne.
  eapply (NoDup_lookup (co_key <$> cs)); [done|by rewrite list_lookup_fmap, Hj|].
  by rewrite list_lookup_fmap, Hi, Heq.
Qed.

Lemma abs_insert cs i v v' :
  NoDup (co_key <$> cs) → cs !! i = Some v → co_key v' = co_key v →
  abs (<[i:=v']> cs) = <[co_key v := list_to_set (co_Scopes v')]> (abs cs).
Proof.
  intros Hnd Hi Hk. assert (co_key <$> <[i:=v']> cs = co_key <$> cs) as Hkeys by by eapply fmap_insert_same.
  apply abs_eq; rewrite ?Hkeys; [done| |].
  - intros c [j Hj]%list_elem_of_lookup. destruct (decide (j = i)) as [->|Hne].
    + rewrite list_lookup_insert_eq in Hj by (by eapply lookup_lt_Some).
      assert (c = v') as -> by congruence. rewrite Hk. apply lookup_insert_eq.
    + rewrite list_lookup_insert_ne in Hj by done. rewrite lookup_insert_ne.
      * apply abs_lookup; [done|by eapply list_elem_of_lookup_2].
      * intros Heq. by eapply (other_key cs i v c).
  - intros key Hkey. rewrite lookup_insert_ne; [by apply abs_lookup_None|].
    intros <-. destruct Hkey. apply list_elem_of_fmap_2. by eapply list_elem_of_lookup_2.
Qed.

Lemma abs_app cs v :
  co_key v ∉ co_key <$> cs → abs (cs ++ [v]) = <[co_key v := list_to_set (co_Scopes v)]> (abs cs).
Proof.
  intros Hk. unfold abs. rewrite fmap_app, list_to_map_app. simpl.
  rewrite <-insert_union_r by (by apply abs_lookup_None). by rewrite map_union_empty.
Qed.

Lemma abs_delete cs i v :
  NoDup (co_key <$> cs) → cs !! i = Some v →
  NoDup (co_key <$> delete i cs) ∧ abs (delete i cs) = delete (co_key v) (abs cs).
Proof.
  intros Hnd Hi. pose proof (delete_Permutation cs i v Hi) as Hp.
  rewrite Hp in Hnd. rewrite fmap_cons in Hnd. apply NoDup_cons in Hnd as [Hv Hnd]. split; [done|].
  assert (∀ c, c ∈ cs → c = v ∨ c ∈ delete i cs) as Hcs by (intros c; rewrite Hp at 1; apply elem_of_cons).
  apply abs_eq; [done| |].
  - intros c Hc. rewrite lookup_delete_ne.
    + apply abs_lookup; [|rewrite Hp; by apply elem_of_cons; right].
      rewrite Hp, fmap_cons. by apply NoDup_cons.
    + intros Heq. apply Hv. rewrite Heq. by apply list_elem_of_fmap_2.
  - intros key Hk. destruct (decide (key = co_key v)) as [->|Hne]; [apply lookup_delete_eq|].
    rewrite lookup_delete_ne by done. apply abs_lookup_None.
    intros (c & -> & [->|Hc]%Hcs)%list_elem_of_fmap; [done|]. apply Hk. by apply list_elem_of_fmap_2.
Qed.

(** ** Operations *)

Lemma canonical_empty_merge scopes : canonical_scopes (mergeScopes [] scopes).
Proof. apply mergeScopes_canonical, NoDup_nil_2. Qed.

Lemma mergeScopes_set current requested :
  list_to_set (C := gset string) (mergeScopes current requested) = list_to_set current ∪ list_to_set requested.
Proof. apply set_eq. intros s. rewrite elem_of_union, !elem_of_list_to_set. apply elem_of_mergeScopes. Qed.

Lemma grant_refines r user client scopes now :
  consents_wf (consents r) →
  let p := grantConsentLocked r user client scopes now in
  consents_wf (consents p.1) ∧
  abs (consents p.1) = grant_spec (user, client) scopes (abs (consents r)) ∧
  p.2 ∈ consents p.1 ∧ co_key p.2 = (user, client).
Proof.
  intros [Hnd Hcan]. unfold grantConsentLocked, grant_spec.
  pose proof (find_key (consents r) user client) as Hfind. case_match; [destruct p as [i v]|]; cbn.
  - destruct Hfind as [Hi Hk]. set (v' := Build_Consent _ _ _ _ _).
    assert (co_key v' = co_key v) as Hk' by done.
    assert (v ∈ consents r) as Hv by by eapply list_elem_of_lookup_2.
    split_and!; [split|..].
    + rewrite (fmap_insert_same co_key _ i v v'); done.
    + intros c [->|Hc]%elem_of_insert_or; [|auto]. apply mergeScopes_canonical, Hcan, Hv.
    + rewrite (abs_insert _ _ v) by done. rewrite <-Hk, abs_lookup by done. simpl. by rewrite mergeScopes_set.
    + eapply list_elem_of_lookup_2, list_lookup_insert_eq. by eapply lookup_lt_Some.
    + by rewrite Hk'.
  - set (v := Build_Consent _ _ _ _ _). split_and!; [split|..].
    + rewrite fmap_app. apply NoDup_app. split_and!; [done|set_solver|apply NoDup_singleton].
    + intros c [Hc| ->%list_elem_of_singleton]%elem_of_app; [auto|]. apply canonical_empty_merge.
    + rewrite abs_app by done. rewrite abs_lookup_None by done. simpl. by rewrite mergeScopes_set.
    + apply elem_of_app. right. by apply list_elem_of_singleton.
    + done.
Qed.

Lemma delete_refines r user client now :
  consents_wf (consents r) →
  consents_wf (consents (DeleteConsent r user client now).1) ∧
  abs (consents (DeleteConsent r user client now).1) = delete (user, client) (abs (consents r)).
Proof.
  intros [Hnd Hcan]. unfold DeleteConsent.
  pose proof (find_key (consents r) user client) as Hfind. case_match; [destruct p as [i v]|]; cbn.
  - destruct Hfind as [Hi Hk]. destruct (abs_delete _ _ _ Hnd Hi) as [Hnd' ->]. rewrite Hk.
    split; [split; [done|]|done]. intros c Hc. apply Hcan. rewrite (delete_Permutation _ _ _ Hi).
    by apply elem_of_cons; right.
  - split; [done|]. symmetry. apply delete_id. by apply abs_lookup_None.
Qed.

Lemma other_consents r op :
  match op with
  | OpGrantConsent _ _ _ _ | OpDeleteConsent _ _ _ | OpDecideDeviceAuthorization _ _ _ _ _ true _ => True
  | _ => consents (store_step r op).1 = consents r
  end.
Proof.
  destruct op; try done; simpl;
    unfold ConsumeAuthorizationCode, RevokeAccessToken, RotateRefreshToken, RevokeRefreshToken,
      DecideDeviceAuthorization, PollDeviceAuthorization, SaveOIDCClientSession; by branches.
Qed.

Lemma consent_step r op :
  consents_wf (consents r) →
  consents_wf (consents (store_step r op).1) ∧
  abs (consents (store_step r op).1) = consent_spec r op (abs (consents r)).
Proof.
  intros Hwf. pose proof (other_consents r op) as Hother.
  destruct op as [ | | | | | | | |hash user t m l [] now| | | | | | |user client scopes now|user client now];
    try (by rewrite Hother).
  - simpl. unfold DecideDeviceAuthorization, FindDeviceByUserCode. case_match; [destruct p as [i d]|done]; cbn.
    match goal with |- context [grantConsentLocked ?x _ _ _ _] =>
      destruct (grant_refines x user (da_ClientID d) (da_Scope d) now Hwf) as (? & ? & _) end. done.
  - simpl. unfold GrantConsent.
    destruct (grant_refines r user client scopes now Hwf) as (? & ? & _).
    by destruct (grantConsentLocked _ _ _ _ _).
  - apply delete_refines, Hwf.
Qed.

(** The map after a list of operations, each applied to the map. *)
Fixpoint consent_run (r : MemoryRepository) (ops : list StoreOp) (m : ConsentMap) : ConsentMap :=
  match ops with
  | [] => m
  | op :: rest => consent_run (store_step r op).1 rest (consent_spec r op m)
  end.

Lemma consent_run_refines ops r :
  consents_wf (consents r) →
  consents_wf (consents (run store_step r ops).1) ∧
  abs (consents (run store_step r ops).1) = consent_run r ops (abs (consents r)).
Proof.
  revert r. induction ops as [|op ops IH]; intros r Hwf; simpl; [done|].
  destruct (consent_step r op Hwf) as [Hwf' Habs]. rewrite <-Habs. by apply IH.
Qed.

Lemma empty_wf : consents_wf (consents NewMemoryRepository).
Proof. split; [apply NoDup_nil_2|]. intros c Hc. by inversion Hc. Qed.

(** C25. The consent table refines a map from (user, client) to a set of scopes. In
    every execution from the empty store the table has at most one entry per
    user and client, each with sorted scopes free of duplicates, and stands for
    the map obtained by running the abstract operations: a grant or an approved
    device unions its scopes into the user's entry for the client, withdrawing a
    consent removes the entry, and nothing else changes the map. *)
Theorem consent_refinement ops :
  consents_wf (consents (run store_step NewMemoryRepository ops).1) ∧
  abs (consents (run store_step NewMemoryRepository ops).1) = consent_run NewMemoryRepository ops ∅.
Proof. apply (consent_run_refines ops NewMemoryRepository empty_wf). Qed.

Lemma find_consent_spec r user client :
  consents_wf (consents r) →
  match FindConsent r user client with
  | Ok c => co_key c = (user, client) ∧ abs (consents r) !! (user, client) = Some (list_to_set (co_Scopes c))
  | Err e => e = ErrConsentNotFound ∧ abs (consents r) !! (user, client) = None
  end.
Proof.
  intros [Hnd _]. unfold FindConsent.
  pose proof (find_key (consents r) user client) as Hfind. case_match; [destruct p as [i v]|].
  - destruct Hfind as [Hi Hk]. split; [done|]. rewrite <-Hk.
    apply abs_lookup; [done|]. by eapply list_elem_of_lookup_2.
  - split; [done|]. by apply abs_lookup_None.
Qed.

(** The decision to skip the consent screen is exact: in every execution, the
    stored consent exists and covers the requested scopes exactly when the map
    has an entry for the user and the client that includes all of them. *)
Theorem consent_covers_exact ops user client requested :
  let r := (run store_step NewMemoryRepository ops).1 in
  match FindConsent r user client with Ok c => Covers c requested | Err _ => false end = true ↔
  ∃ granted, consent_run NewMemoryRepository ops ∅ !! (user, client) = Some granted ∧
             list_to_set requested ⊆ granted.
Proof.
  intros r. destruct (consent_run_refines ops NewMemoryRepository empty_wf) as [Hwf Habs]. fold r in Hwf, Habs.
  change (abs (consents NewMemoryRepository)) with (∅ : ConsentMap) in Habs. rewrite <-Habs.
  pose proof (find_consent_spec r user client Hwf) as Hf. destruct (FindConsent r user client) as [c|e].
  - destruct Hf as [_ ->]. unfold Covers. rewrite ScopesCover_subseteq. split.
    + intros Hsub. eexists. split; [done|]. set_solver.
    + intros (g & [= <-] & Hsub). set_solver.
  - destruct Hf as [_ ->]. naive_solver.
Qed.

(** A user's consent listing contains exactly the consents of that user, each
    once, the most recently updated first. *)
Theorem consent_listing r user :
  ∃ l, ListConsentsByUser r user = Ok l ∧
    l ≡ₚ filter (λ c, co_UserID c = user) (consents r) ∧
    StronglySorted (λ a b, co_UpdatedAt b ≤ co_UpdatedAt a) l.
Proof.
  eexists. split; [done|]. split; [apply merge_sort_Permutation|].
  apply StronglySorted_merge_sort.
  - intros a b c. unfold newer_first. lia.
  - intros a b. unfold newer_first. lia.
Qed.
