(* ===== verification/OAuthExamples.v ===== *)
(** The theorems on the OAuth grant store at work: a small concrete execution —
    one user, two clients, a device — on which the hypotheses of each theorem are
    evaluated. *)
From S2P Require Import Prelude OAuthStore OAuthStoreProps OAuthDeviceProps.
Local Open Scope Z_scope.
Local Open Scope string_scope.

(** ** The cast *)

Definition alice_token : RefreshToken :=
  {| rt_Hash := "h1"; rt_FamilyID := "fam"; rt_ClientID := "app"; rt_UserID := "alice"; rt_SessionID := "s1";
     rt_Scope := Some ["openid"; "profile"]; rt_IssuedAt := 10; rt_ExpiresAt := 1000 |}.
Definition rotated (hash : string) (scope : slice string) : RefreshToken :=
  {| rt_Hash := hash; rt_FamilyID := ""; rt_ClientID := "app"; rt_UserID := ""; rt_SessionID := "";
     rt_Scope := scope; rt_IssuedAt := 20; rt_ExpiresAt := 1000 |}.
Definition bob_access : AccessToken :=
  {| at_Hash := "b1"; at_ClientID := "app"; at_UserID := "bob"; at_SessionID := "s2"; at_FamilyID := "bobs";
     at_Scope := ["openid"]; at_IssuedAt := 10; at_ExpiresAt := 1000 |}.
Definition alice_device : DeviceAuthorization :=
  {| da_DeviceHash := "d1"; da_UserHash := "u1"; da_ClientID := "app"; da_UserID := ""; da_Scope := ["openid"];
     da_Status := DevicePending; da_AuthenticatedAt := 0; da_AuthMethods := []; da_AssuranceLevel := "";
     da_CreatedAt := 10; da_ExpiresAt := 1000 * Second; da_Interval := 5 * Second; da_LastPollAt := None |}.

Definition granted : MemoryRepository :=
  (run store_step NewMemoryRepository
     [OpSaveRefreshToken alice_token; OpSaveAccessToken bob_access; OpGrantConsent "alice" "app" ["openid"] 10]).1.
Definition approval : StoreOp := OpDecideDeviceAuthorization "u1" "alice" 5 ["pwd"] "aal1" true 20.
Definition device_ops : list StoreOp := [OpSaveDeviceAuthorization alice_device; approval].
Definition approved : MemoryRepository := (run store_step NewMemoryRepository device_ops).1.

(** ** The theorems *)

Lemma refresh_reuse_kills_family_witness :
  let r1 := (RotateRefreshToken granted "h1" (rotated "h2" None) 20).1 in
  let later := (run store_step r1 [OpRotateRefreshToken "h2" (rotated "h3" None) 30]).1 in
  let r3 := (RotateRefreshToken later "h1" (rotated "h4" None) 40).1 in
  (RotateRefreshToken granted "h1" (rotated "h2" None) 20).2 = Ok alice_token ∧
  length (refresh r3) = 3%nat ∧
  (RotateRefreshToken later "h1" (rotated "h4" None) 40).2 = Err ErrRefreshReuse ∧
  (∀ h' t x, FindRefreshToken r3 h' t = Ok x → rt_FamilyID x ≠ "fam").
Proof.
  intros r1 later r3. split; [vm_compute; reflexivity|]. split; [vm_compute; reflexivity|].
  destruct (refresh_reuse_kills_family granted "h1" (rotated "h2" None) 20 r1 alice_token
              [OpRotateRefreshToken "h2" (rotated "h3" None) 30] (rotated "h4" None) 40 r3
              (RotateRefreshToken later "h1" (rotated "h4" None) 40).2) as (Hr & Hf & _ & _).
  - vm_compute; reflexivity.
  - reflexivity.
  - apply surjective_pairing.
  - split; [exact Hr|exact Hf].
Defined.

Lemma refresh_family_confined_witness :
  let ops := [OpRotateRefreshToken "h1" (rotated "h2" (Some ["openid"])) 20] in
  ∃ t, t ∈ refresh (run store_step (SaveRefreshToken NewMemoryRepository alice_token).1 ops).1 ∧
       rt_Hash (mrt_token t) = "h2" ∧ within alice_token (mrt_token t).
Proof.
  intros ops. eexists. split.
  - apply (list_elem_of_lookup_2 _ 1%nat). vm_compute; reflexivity.
  - split; [reflexivity|]. apply (refresh_family_confined alice_token NewMemoryRepository ops).
    + intros t Ht. by apply not_elem_of_nil in Ht.
    + repeat constructor; auto.
    + apply (list_elem_of_lookup_2 _ 1%nat). vm_compute; reflexivity.
    + reflexivity.
Defined.

Lemma revocation_complete_witness :
  let op := OpRevokeSessionTokens "alice" "s1" 50 in
  let r' := (run store_step (store_step granted op).1 [OpSaveAccessToken bob_access]).1 in
  is_ok (FindRefreshToken granted "h1" 60) = true ∧ is_ok (FindAccessToken r' "b1" 60) = true ∧
  ∀ h now tok, FindRefreshToken r' h now = Ok tok →
    bool_decide (rt_UserID tok = "alice") && bool_decide (rt_SessionID tok = "s1") = false.
Proof.
  intros op r'. split; [vm_compute; reflexivity|]. split; [vm_compute; reflexivity|].
  destruct (revocation_complete granted op
    (λ u s _, bool_decide (u = "alice") && bool_decide (s = "s1")) [OpSaveAccessToken bob_access]) as (_ & _ & H & _).
  - reflexivity.
  - reflexivity.
  - repeat constructor. vm_compute. discriminate.
  - exact H.
Defined.

Lemma revocation_precise_witness :
  let op := OpRevokeUserTokens "alice" "" 50 in
  let m := λ u s (_ : string), bool_decide (u = "alice") && (bool_decide ("" = "") || bool_decide (s ≠ "")) in
  owned_by m {| mat_token := bob_access; mat_revokedAt := None |} = false ∧
  accessTokens (store_step granted op).1 !! 0%nat = Some {| mat_token := bob_access; mat_revokedAt := None |}.
Proof.
  intros op m. split; [vm_compute; reflexivity|].
  destruct (revocation_precise granted op m) as (_ & H & _).
  - reflexivity.
  - reflexivity.
  - apply H; vm_compute; reflexivity.
Defined.

Definition polled_device : DeviceAuthorization :=
  da_with_Status DeviceConsumed (da_with_poll (5 * Second) 40
    (da_decided "alice" 5 ["pwd"] "aal1" DeviceApproved alice_device)).

Lemma device_tokens_need_approval_witness :
  let polled := PollDeviceAuthorization approved "d1" "app" 40 in
  polled.2 = Ok polled_device ∧
  ∃ ops1 op ops2, device_ops = (ops1 ++ op :: ops2)%list ∧ approves op polled_device ∧
    Forall (λ o, ¬ withdraws o polled_device) ops2.
Proof.
  intros polled. split; [vm_compute; reflexivity|].
  destruct (device_tokens_need_approval device_ops "d1" "app" 40 polled.1 polled_device) as (_ & _ & _ & H).
  - by repeat constructor.
  - vm_compute; reflexivity.
  - exact H.
Defined.

Lemma revocation_withdraws_approvals_witness :
  let op := OpRevokeClientTokens "app" 30 in
  let other := {| da_DeviceHash := "d2"; da_UserHash := "u2"; da_ClientID := "tv"; da_UserID := ""; da_Scope := [];
                  da_Status := DevicePending; da_AuthenticatedAt := 0; da_AuthMethods := []; da_AssuranceLevel := "";
                  da_CreatedAt := 10; da_ExpiresAt := 1000 * Second; da_Interval := 5 * Second; da_LastPollAt := None |} in
  let ops := [OpSaveDeviceAuthorization other; OpDecideDeviceAuthorization "u2" "bob" 5 [] "aal1" true 35] in
  let r' := (run store_step (store_step approved op).1 ops).1 in
  (PollDeviceAuthorization r' "d1" "app" 40).2 = Err ErrAccessDenied ∧
  ∃ d, (PollDeviceAuthorization r' "d2" "tv" 40).2 = Ok d ∧ bool_decide (da_ClientID d = "app") = false.
Proof.
  intros op other ops r'. split; [vm_compute; reflexivity|].
  eexists. split; [vm_compute; reflexivity|]. set (d := {| da_DeviceHash := _ |}).
  refine (revocation_withdraws_approvals approved op (λ _ c, bool_decide (c = "app")) ops "d2" "tv" 40
           (PollDeviceAuthorization r' "d2" "tv" 40).1 d _ _ _ _).
  - reflexivity.
  - reflexivity.
  - split; [discriminate|]. split; [|exact I].
    intros (e & He & Hm). revert He Hm. vm_compute. intros [= <-]. discriminate.
  - vm_compute; reflexivity.
Defined.

Lemma poll_backoff_witness :
  let d := da_with_poll (5 * Second) (20 * Second) alice_device in
  let r := (run store_step NewMemoryRepository [OpSaveDeviceAuthorization d]).1 in
  let ts := [21 * Second; 23 * Second; 30 * Second] in
  let final := run store_step r (OpPollDeviceAuthorization "d1" "app" <$> ts) in
  final.2 = replicate 3 (RespDevice (Err ErrSlowDown)) ∧
  ∃ d', device_at final.1 "d1" "app" 0 d' ∧ da_Interval d' = 20 * Second.
Proof.
  intros d r ts final.
  destruct (poll_backoff r "d1" "app" 0 d (20 * Second) ts) as (Hr & d' & Hd & _ & Hi & _).
  - vm_compute; reflexivity.
  - reflexivity.
  - vm_compute; discriminate.
  - by repeat constructor.
  - vm_compute; discriminate.
  - by repeat constructor.
  - split; [exact Hr|]. exists d'. split; [exact Hd|]. rewrite Hi. reflexivity.
Defined.
