(* ===== verification/Postgres.v ===== *)
(** What the repositories of [internal/storage/postgres] use of the database: tables as
    lists of rows, statements as functions on them, transactions as functions that keep
    the old tables when they are rolled back.

    A statement finds rows by a condition, which is true of no row on a NULL; the columns
    of identifiers never hold an empty text, so a NULL of such a column is kept as the
    empty text. Transactions are executed one after the other: each locks the rows it
    decides on. The server's own code is a parameter: how it reads an identifier, and how
    it orders texts. *)
From S2P Require Import Prelude.
Local Open Scope Z_scope.

(** How the server reads a uuid: its canonical text, [None] for an error; and the order
    of texts in its collation, as [ORDER BY] sorts by it. *)
Class PgServer := {
  uuid_in : string → option string;
  text_le : string → string → Prop;
  text_le_dec : RelDecision text_le;
}.
#[export] Existing Instance text_le_dec.

(** An error that a repository knows, or one of the database. *)
Inductive DbError (E : Type) :=
| Known (e : E)
| DbFailed.
Arguments Known {E} e.
Arguments DbFailed {E}.
#[export] Instance DbError_eq_dec {E} `{EqDecision E} : EqDecision (DbError E).
Proof. solve_decision. Defined.

(** ** Values *)

Definition Microsecond : Duration := 1000.
(** A time as a column of type [timestamptz] keeps it: whole microseconds. *)
Definition timestamptz (t : Time) : Time := t - t mod Microsecond.
(** A uuid, or NULL for an empty text, as [nullableText] passes it. *)
Definition uuid_or_null `{PgServer} (s : string) : option string := if decide (s = ""%string) then Some ""%string else uuid_in s.
(** A column of type [integer]. *)
Definition int4 (z : Z) : bool := bool_decide (- 2 ^ 31 ≤ z < 2 ^ 31).
Definition coalesce {A} (o : option A) (a : A) : option A := Some (default a o).

(** ** Statements *)

Section Statements.
Context {R : Type}.
Implicit Types (cond : R → bool) (change : R → R) (t : list R).

(** [UPDATE ... SET ... WHERE ...] and the number of rows it affects. *)
Definition update cond change t : list R := (λ r, if cond r then change r else r) <$> t.
Definition affected cond t : nat := length (List.filter cond t).
(** [DELETE FROM ... WHERE ...]. *)
Definition delete_rows cond t : list R := List.filter (λ r, negb (cond r)) t.
(** [QueryRow] of a [SELECT]: its first row. *)
Definition query_row cond t : option R := head (List.filter cond t).
(** [QueryRow] of an [UPDATE ... RETURNING]: the new table and the first row as it is now. *)
Definition update_returning cond change t : list R * option R := (update cond change t, change <$> query_row cond t).
(** [INSERT], when no row is in its way: [None] for a violation of uniqueness. *)
Definition insert_row (conflicts : R → bool) (r : R) t : option (list R) := if existsb conflicts t then None else Some (t ++ [r])%list.
(** [INSERT ... ON CONFLICT DO UPDATE]: the new table and the row as it is now. *)
Definition upsert (conflicts : R → bool) change (r : R) t : list R * R :=
  match query_row conflicts t with
  | Some old => (update conflicts change t, change old)
  | None => ((t ++ [r])%list, r)
  end.
End Statements.

(** ** Rows under a key

    A condition that holds of at most one row: updates change that row. *)
Section Keys.
Context {R : Type}.
Implicit Types (P : R → bool) (t : list R).

Definition at_most_one P t : Prop := ∀ i j x y, t !! i = Some x → t !! j = Some y → P x = true → P y = true → i = j.

Lemma query_row_find P t : query_row P t = snd <$> list_find (λ r, P r = true) t.
Proof.
  unfold query_row. induction t as [|x t IH]; [done|]. simpl. destruct (P x) eqn:E; [by case_decide|].
  case_decide; [congruence|]. rewrite IH. by destruct (list_find _ t) as [[]|].
Qed.

Lemma query_row_Some P t r : query_row P t = Some r → r ∈ t ∧ P r = true.
Proof.
  rewrite query_row_find. destruct (list_find _ t) as [[i x]|] eqn:E; [|done]. intros [= <-].
  apply list_find_Some in E as (Hi & HP & _). split; [by eapply list_elem_of_lookup_2|done].
Qed.
Lemma query_row_None P t r : query_row P t = None → r ∈ t → P r = false.
Proof.
  rewrite query_row_find. destruct (list_find _ t) as [[]|] eqn:E; [done|]. intros _ Hr.
  apply not_true_is_false. by apply list_find_None in E; rewrite Forall_forall in E; apply E.
Qed.

Lemma update_none P f t : (∀ r, r ∈ t → P r = false) → update P f t = t.
Proof.
  intros Hno. unfold update. induction t as [|x t IH]; [done|]. simpl. rewrite Hno by (by left). f_equal. apply IH. intros r Hr. apply Hno. by right.
Qed.

Lemma update_one P f t i x : at_most_one P t → t !! i = Some x → P x = true → update P f t = <[i := f x]> t.
Proof.
  intros Hone Hi HP. apply list_eq. intros j. unfold update. rewrite list_lookup_fmap. destruct (decide (j = i)) as [->|Hne].
  - rewrite list_lookup_insert_eq by (by eapply lookup_lt_Some). by rewrite Hi; simpl; rewrite HP.
  - rewrite list_lookup_insert_ne by done. destruct (t !! j) as [y|] eqn:Hj; [|done]. simpl.
    destruct (P y) eqn:E; [|done]. destruct Hne. by eapply Hone.
Qed.

Lemma affected_none P t : affected P t = 0%nat ↔ query_row P t = None.
Proof. unfold affected, query_row. by destruct (List.filter P t). Qed.

Lemma at_most_one_weaken P Q t : at_most_one P t → (∀ r, Q r = true → P r = true) → at_most_one Q t.
Proof. intros Hone HQ i j x y Hi Hj Hx Hy. eapply Hone; eauto. Qed.

Lemma at_most_one_key {K} `{EqDecision K} (key : R → K) t k : NoDup (key <$> t) → at_most_one (λ r, bool_decide (key r = k)) t.
Proof.
  intros Hnd i j x y Hi Hj Hx%bool_decide_eq_true Hy%bool_decide_eq_true. eapply NoDup_lookup; [exact Hnd| |]; rewrite list_lookup_fmap.
  - by rewrite Hi; simpl; f_equal.
  - by rewrite Hj; simpl; f_equal; congruence.
Qed.

Lemma insert_row_fresh conflicts r t : (∀ x, x ∈ t → conflicts x = false) → insert_row conflicts r t = Some (t ++ [r])%list.
Proof.
  intros Hno. unfold insert_row. destruct (existsb _ _) eqn:E; [|done]. apply existsb_exists in E as (x & Hx%list_elem_of_In & Heq).
  by rewrite Hno in Heq.
Qed.

Lemma query_row_at P Q t i x : at_most_one P t → t !! i = Some x → P x = true → (∀ r, Q r = true → P r = true) →
  query_row Q t = if Q x then Some x else None.
Proof.
  intros Hone Hi HP HQ. destruct (query_row Q t) as [y|] eqn:E.
  - apply query_row_Some in E as [[j Hj]%list_elem_of_lookup HQy]. rewrite (Hone i j x y) in Hi by auto. rewrite Hi in Hj. injection Hj as ->. by rewrite HQy.
  - rewrite (query_row_None _ _ x E) by (by eapply list_elem_of_lookup_2). done.
Qed.

Lemma update_key {K} (key : R → K) P f t : (∀ r, key (f r) = key r) → key <$> update P f t = key <$> t.
Proof. intros Hf. unfold update. rewrite <- list_fmap_compose. apply list_fmap_ext. intros _ r _. cbn. by destruct (P r). Qed.

Lemma update_ext P Q f t : (∀ r, r ∈ t → P r = Q r) → update P f t = update Q f t.
Proof. intros Heq. unfold update. apply list_fmap_ext. intros i r Hi. cbn. by rewrite Heq by (by eapply list_elem_of_lookup_2). Qed.

Lemma NoDup_delete_rows {K} (key : R → K) P t : NoDup (key <$> t) → NoDup (key <$> delete_rows P t).
Proof.
  unfold delete_rows. induction t as [|x t IH]; [done|]. rewrite fmap_cons, NoDup_cons. intros [Hx Ht]. cbn. destruct (P x); cbn; [auto|].
  apply NoDup_cons. split; [|auto]. intros (y & Hy & Hin%list_elem_of_In%filter_In)%list_elem_of_fmap. apply Hx. rewrite Hy.
  apply list_elem_of_fmap_2. apply list_elem_of_In, Hin.
Qed.

Lemma elem_of_update P f t r : r ∈ update P f t → ∃ r', r' ∈ t ∧ r = if P r' then f r' else r'.
Proof. intros (r' & -> & Hr')%list_elem_of_fmap. eauto. Qed.

Lemma affected_one P t i x : t !! i = Some x → P x = true → at_most_one P t → affected P t = 1%nat.
Proof.
  unfold affected. revert i. induction t as [|y t IH]; intros [|i] Hi HP Hone; simplify_eq/=.
  - rewrite HP. cbn. f_equal. destruct (List.filter P t) as [|z l] eqn:E; [done|exfalso].
    assert (z ∈ List.filter P t) as Hz by (rewrite E; left). apply list_elem_of_In, filter_In in Hz as [Hz%list_elem_of_In HPz].
    apply list_elem_of_lookup in Hz as [j Hj]. by specialize (Hone 0%nat (S j) x z eq_refl Hj HP HPz).
  - destruct (P y) eqn:E; [by specialize (Hone 0%nat (S i) y x eq_refl Hi E HP)|].
    apply (IH i); [done..|]. intros a b u v Ha Hb Hu Hv. by specialize (Hone (S a) (S b) u v Ha Hb Hu Hv) as [= ->].
Qed.
End Keys.

Lemma timestamptz_whole t : timestamptz t = t → timestamptz (timestamptz t) = t.
Proof. congruence. Qed.
Lemma coalesce_is_Some {A} (o : option A) a : is_Some (coalesce o a).
Proof. by eexists. Qed.

(** ** Tables that hold the same

    A table and a list of memory, row by row. *)
Section Related.
Context {R B : Type} (same : R → B → Prop).
Implicit Types (P : R → bool) (t : list R) (k : list B).

Lemma find_related P (Q : B → Prop) `{∀ y, Decision (Q y)} t k : Forall2 same t k → (∀ x y, same x y → P x = true ↔ Q y) →
  match query_row P t, list_find Q k with
  | None, None => True
  | Some x, Some (i, y) => t !! i = Some x ∧ k !! i = Some y ∧ same x y ∧ P x = true ∧ Q y
  | _, _ => False
  end.
Proof.
  intros Htk HPQ. induction Htk as [|x y t k Hxy Htk IH]; [done|]. unfold query_row in *. cbn. destruct (P x) eqn:E.
  - assert (Q y) by (by apply (HPQ x y)). case_decide; [|done]. done.
  - case_decide as HQ; [by apply (HPQ x y Hxy) in HQ; congruence|].
    destruct (head _) as [x'|], (list_find Q k) as [[i y']|]; cbn; done.
Qed.

Lemma found P (Q : B → Prop) `{∀ y, Decision (Q y)} t k : Forall2 same t k → (∀ x y, same x y → P x = true ↔ Q y) →
  (query_row P t = None ∧ list_find Q k = None ∧ ∀ P', (∀ r, P' r = true → P r = true) → query_row P' t = None) ∨
  ∃ i x y, query_row P t = Some x ∧ list_find Q k = Some (i, y) ∧ t !! i = Some x ∧ k !! i = Some y ∧ same x y ∧ P x = true ∧ Q y.
Proof.
  intros Htk HPQ. pose proof (find_related P Q t k Htk HPQ) as Hf.
  destruct (query_row P t) as [x|] eqn:E, (list_find Q k) as [[i y]|]; try done; [right; naive_solver|left]. split_and!; [done..|].
  intros P' HP'. destruct (query_row P' t) as [z|] eqn:E'; [|done]. apply query_row_Some in E' as [Hz HPz%HP'].
  by rewrite (query_row_None _ _ z E Hz) in HPz.
Qed.

Lemma update_related P f g t k : Forall2 same t k → (∀ x y, x ∈ t → same x y → same (if P x then f x else x) (g y)) → Forall2 same (update P f t) (g <$> k).
Proof.
  intros Htk. unfold update. induction Htk as [|x y t k Hxy Htk IH]; intros Hfg; [constructor|].
  constructor; [apply Hfg; [left|done]|apply IH]. intros x' y' Hx'. apply Hfg. by right.
Qed.

Lemma update_one_related P f t k i x y : at_most_one P t → Forall2 same t k → t !! i = Some x → P x = true → same (f x) y → Forall2 same (update P f t) (<[i:=y]> k).
Proof. intros Hone Htk Hi HP Hs. rewrite (update_one _ _ _ i x) by done. by apply Forall2_insert. Qed.

Lemma delete_related P t k i : at_most_one P t → Forall2 same t k → (∃ x, t !! i = Some x ∧ P x = true) → Forall2 same (delete_rows P t) (delete i k).
Proof.
  unfold delete_rows. intros Hone Htk. revert i Hone. induction Htk as [|x y t k Hxy Htk IH]; intros [|i] Hone (z & Hi & HP); simplify_eq/=.
  - rewrite HP. cbn. replace (List.filter (λ r, negb (P r)) t) with t; [done|]. symmetry. clear IH.
    assert (∀ j w, t !! j = Some w → P w = false) as Hno.
    { intros j w Hj. destruct (P w) eqn:E; [|done]. by specialize (Hone 0%nat (S j) z w eq_refl Hj HP E). }
    clear -Hno. induction t as [|w t IH]; [done|]. cbn. rewrite (Hno 0%nat w eq_refl). cbn. f_equal. apply IH. intros j. apply (Hno (S j)).
  - destruct (P x) eqn:E; [by specialize (Hone 0%nat (S i) x z eq_refl Hi E HP)|]. cbn. constructor; [done|].
    apply IH; [|by exists z]. intros a b u v Ha Hb Hu Hv. by specialize (Hone (S a) (S b) u v Ha Hb Hu Hv) as [= ->].
Qed.

Lemma filter_related P (Q : B → Prop) `{∀ y, Decision (Q y)} t k : Forall2 same t k → (∀ x y, same x y → P x = true ↔ Q y) →
  Forall2 same (List.filter P t) (filter Q k).
Proof.
  intros Htk HPQ. induction Htk as [|x y t k Hxy Htk IH]; [constructor|]. cbn. destruct (P x) eqn:E.
  - rewrite decide_True by (by apply (HPQ x y)). by constructor.
  - rewrite decide_False; [done|]. intros HQ. apply (HPQ x y Hxy) in HQ. congruence.
Qed.
End Related.

(** ** Machines that answer the same

    When each step from states that are alike gives answers that are alike and leaves
    states that are alike, so do all runs. *)
Section Simulation.
Context {S1 S2 Op A1 A2 : Type} (step1 : S1 → Op → S1 * A1) (step2 : S2 → Op → S2 * A2).
Context (ok : S1 → Op → Prop) (states : S1 → S2 → Prop) (answers : A1 → A2 → Prop).
Hypothesis simulation : ∀ s t o, ok s o → states s t → answers (step1 s o).2 (step2 t o).2 ∧ states (step1 s o).1 (step2 t o).1.

Lemma run_simulation s t ops : run_ok step1 ok s ops → states s t →
  Forall2 answers (run step1 s ops).2 (run step2 t ops).2 ∧ states (run step1 s ops).1 (run step2 t ops).1.
Proof.
  revert s t. induction ops as [|o ops IH]; intros s t Hok Hst; [by split|]. destruct Hok as [Ho Hok].
  destruct (simulation s t o Ho Hst) as [Ha Hst']. destruct (IH _ _ Hok Hst') as [Hrest Hend]. split; [by constructor|done].
Qed.
End Simulation.
