(* ===== verification/PgOAuth.v ===== *)
(** The OAuth grants in PostgreSQL: [internal/storage/postgres/oauth_repository.go], each
    method as a function from the tables to the tables and its result. The columns of a
    table are those of the struct that is stored, and the marks that are kept beside it. *)
From S2P Require Import Prelude OAuthStore Postgres.
Local Open Scope Z_scope.

(** [internal/storage/postgres/migrations/001_initial.sql:77-90] oauth_authorization_codes, with the columns that later migrations add *)
Record code_row := { cd : AuthorizationCode; cd_consumed_at : option Time; cd_revoked_at : option Time }.
(** [internal/storage/postgres/migrations/005_protocol_execution.sql:5-13] oauth_access_tokens *)
Record access_row := { tk : AccessToken; tk_revoked_at : option Time }.
(** [internal/storage/postgres/migrations/001_initial.sql:96-107] oauth_refresh_tokens *)
Record refresh_row := { rf : RefreshToken; rf_consumed_at : option Time; rf_revoked_at : option Time; rf_replaced_by_hash : option string }.
(** [internal/storage/postgres/migrations/005_protocol_execution.sql:19-35] oauth_device_authorizations *)
Record device_row := { dv : DeviceAuthorization; dv_decided_at : option Time; dv_consumed_at : option Time }.

(** The tables, and the rows of other tables that they refer to. *)
Record oauth_db := {
  t_codes : list code_row;
  t_access : list access_row;
  t_refresh : list refresh_row;
  t_devices : list device_row;
  t_client_sessions : list OIDCClientSession;
  t_consents : list Consent;
  ref_clients : gset string;
  ref_users : gset string;
  ref_sessions : gset string;
}.
Definition with_codes v d := {| t_codes := v; t_access := t_access d; t_refresh := t_refresh d; t_devices := t_devices d;
  t_client_sessions := t_client_sessions d; t_consents := t_consents d; ref_clients := ref_clients d; ref_users := ref_users d; ref_sessions := ref_sessions d |}.
Definition with_access v d := {| t_codes := t_codes d; t_access := v; t_refresh := t_refresh d; t_devices := t_devices d;
  t_client_sessions := t_client_sessions d; t_consents := t_consents d; ref_clients := ref_clients d; ref_users := ref_users d; ref_sessions := ref_sessions d |}.
Definition with_refresh v d := {| t_codes := t_codes d; t_access := t_access d; t_refresh := v; t_devices := t_devices d;
  t_client_sessions := t_client_sessions d; t_consents := t_consents d; ref_clients := ref_clients d; ref_users := ref_users d; ref_sessions := ref_sessions d |}.
Definition with_devices v d := {| t_codes := t_codes d; t_access := t_access d; t_refresh := t_refresh d; t_devices := v;
  t_client_sessions := t_client_sessions d; t_consents := t_consents d; ref_clients := ref_clients d; ref_users := ref_users d; ref_sessions := ref_sessions d |}.
Definition with_client_sessions v d := {| t_codes := t_codes d; t_access := t_access d; t_refresh := t_refresh d; t_devices := t_devices d;
  t_client_sessions := v; t_consents := t_consents d; ref_clients := ref_clients d; ref_users := ref_users d; ref_sessions := ref_sessions d |}.
Definition with_consents v d := {| t_codes := t_codes d; t_access := t_access d; t_refresh := t_refresh d; t_devices := t_devices d;
  t_client_sessions := t_client_sessions d; t_consents := v; ref_clients := ref_clients d; ref_users := ref_users d; ref_sessions := ref_sessions d |}.

Section PgOAuth.
Context `{PgServer}.
Abbreviation result A := (oauth_db * Res (DbError oauthError) A)%type.

(** The foreign keys of a row; those that are NULL refer to nothing. *)
Definition refers (d : oauth_db) (clientID userID sessionID : string) : bool :=
  bool_decide (clientID ∈ ref_clients d) && bool_decide (userID = "" ∨ userID ∈ ref_users d)%string &&
  bool_decide (sessionID = "" ∨ sessionID ∈ ref_sessions d)%string.

(** ** Authorization codes *)

(** [internal/storage/postgres/oauth_repository.go:24-40] SaveAuthorizationCode *)
Definition pg_SaveAuthorizationCode (d : oauth_db) (value : AuthorizationCode) : result unit :=
  match uuid_in (ac_UserID value), uuid_in (ac_SessionID value) with
  | Some userID, Some sessionID =>
      let row := {| cd := {| ac_Hash := ac_Hash value; ac_ClientID := ac_ClientID value; ac_UserID := userID; ac_SessionID := sessionID;
                             ac_RedirectURI := ac_RedirectURI value; ac_Scope := ac_Scope value; ac_Nonce := ac_Nonce value;
                             ac_CodeChallenge := ac_CodeChallenge value; ac_AuthenticatedAt := timestamptz (ac_AuthenticatedAt value);
                             ac_AuthMethods := ac_AuthMethods value; ac_AssuranceLevel := ac_AssuranceLevel value;
                             ac_CreatedAt := timestamptz (ac_CreatedAt value); ac_ExpiresAt := timestamptz (ac_ExpiresAt value) |};
                    cd_consumed_at := None; cd_revoked_at := None |} in
      if refers d (ac_ClientID value) userID sessionID then
        match insert_row (λ r, bool_decide (ac_Hash (cd r) = ac_Hash (cd row))) row (t_codes d) with
        | Some rows => (with_codes rows d, Ok ())
        | None => (d, Err DbFailed)
        end
      else (d, Err DbFailed)
  | _, _ => (d, Err DbFailed)
  end.

(** [internal/storage/postgres/oauth_repository.go:47-53] ConsumeAuthorizationCode, the condition *)
Definition consumable (hash clientID redirectURI codeChallenge : string) (now : Time) (r : code_row) : bool :=
  bool_decide (ac_Hash (cd r) = hash) && bool_decide (ac_ClientID (cd r) = clientID) && bool_decide (ac_RedirectURI (cd r) = redirectURI) &&
  bool_decide (ac_CodeChallenge (cd r) = codeChallenge) && bool_decide (cd_consumed_at r = None) && bool_decide (cd_revoked_at r = None) &&
  bool_decide (now < ac_ExpiresAt (cd r)).
Definition code_consumed (now : Time) (r : code_row) : code_row := {| cd := cd r; cd_consumed_at := Some now; cd_revoked_at := cd_revoked_at r |}.

(** [internal/storage/postgres/oauth_repository.go:42-70] ConsumeAuthorizationCode *)
Definition pg_ConsumeAuthorizationCode (d : oauth_db) (hash clientID redirectURI codeChallenge : string) (now : Time) : result AuthorizationCode :=
  let now := timestamptz now in
  let '(rows, found) := update_returning (consumable hash clientID redirectURI codeChallenge now) (code_consumed now) (t_codes d) in
  match found with
  | None => (d, Err (Known ErrGrantNotFound))
  | Some row => (with_codes rows d, Ok (cd row))
  end.

(** ** Access tokens *)

(** [internal/storage/postgres/oauth_repository.go:72-96] SaveAccessToken *)
Definition pg_SaveAccessToken (d : oauth_db) (value : AccessToken) : result unit :=
  match uuid_or_null (at_UserID value), uuid_or_null (at_SessionID value), uuid_or_null (at_FamilyID value) with
  | Some userID, Some sessionID, Some familyID =>
      let row := {| tk := {| at_Hash := at_Hash value; at_ClientID := at_ClientID value; at_UserID := userID; at_SessionID := sessionID;
                             at_FamilyID := familyID; at_Scope := at_Scope value; at_IssuedAt := timestamptz (at_IssuedAt value);
                             at_ExpiresAt := timestamptz (at_ExpiresAt value) |}; tk_revoked_at := None |} in
      if refers d (at_ClientID value) userID sessionID then
        match insert_row (λ r, bool_decide (at_Hash (tk r) = at_Hash (tk row))) row (t_access d) with
        | Some rows => (with_access rows d, Ok ())
        | None => (d, Err DbFailed)
        end
      else (d, Err DbFailed)
  | _, _, _ => (d, Err DbFailed)
  end.

(** [internal/storage/postgres/oauth_repository.go:98-131] FindAccessToken *)
Definition pg_FindAccessToken (d : oauth_db) (hash : string) (now : Time) : Res (DbError oauthError) AccessToken :=
  match query_row (λ r, bool_decide (at_Hash (tk r) = hash) && bool_decide (tk_revoked_at r = None) &&
                        bool_decide (timestamptz now < at_ExpiresAt (tk r))) (t_access d) with
  | None => Err (Known ErrGrantNotFound)
  | Some row => Ok (tk row)
  end.

Definition access_revoked (now : Time) (r : access_row) : access_row := {| tk := tk r; tk_revoked_at := coalesce (tk_revoked_at r) now |}.

(** [internal/storage/postgres/oauth_repository.go:133-147] RevokeAccessToken *)
Definition pg_RevokeAccessToken (d : oauth_db) (hash clientID : string) (now : Time) : result unit :=
  let cond r := bool_decide (at_Hash (tk r) = hash) && bool_decide (at_ClientID (tk r) = clientID) in
  if decide (affected cond (t_access d) = 0%nat) then (d, Err (Known ErrGrantNotFound))
  else (with_access (update cond (access_revoked (timestamptz now)) (t_access d)) d, Ok ()).

(** ** Refresh tokens *)

(** [internal/storage/postgres/oauth_repository.go:150-157] SaveRefreshToken, the statement; [RotateRefreshToken] inserts
    the replacement with the same. A nil slice of scopes is a NULL, which the column refuses. *)
Definition insert_refresh (d : oauth_db) (value : RefreshToken) : option oauth_db :=
  match uuid_in (rt_FamilyID value), uuid_in (rt_UserID value), uuid_or_null (rt_SessionID value), rt_Scope value with
  | Some familyID, Some userID, Some sessionID, Some scope =>
      let row := {| rf := {| rt_Hash := rt_Hash value; rt_FamilyID := familyID; rt_ClientID := rt_ClientID value; rt_UserID := userID;
                             rt_SessionID := sessionID; rt_Scope := Some scope; rt_IssuedAt := timestamptz (rt_IssuedAt value);
                             rt_ExpiresAt := timestamptz (rt_ExpiresAt value) |};
                    rf_consumed_at := None; rf_revoked_at := None; rf_replaced_by_hash := None |} in
      if refers d (rt_ClientID value) userID sessionID
      then (λ rows, with_refresh rows d) <$> insert_row (λ r, bool_decide (rt_Hash (rf r) = rt_Hash (rf row))) row (t_refresh d)
      else None
  | _, _, _, _ => None
  end.

(** [internal/storage/postgres/oauth_repository.go:149-162] SaveRefreshToken *)
Definition pg_SaveRefreshToken (d : oauth_db) (value : RefreshToken) : result unit :=
  match insert_refresh d value with Some d' => (d', Ok ()) | None => (d, Err DbFailed) end.

(** [internal/storage/postgres/oauth_repository.go:164-190] FindRefreshToken *)
Definition pg_FindRefreshToken (d : oauth_db) (hash : string) (now : Time) : Res (DbError oauthError) RefreshToken :=
  match query_row (λ r, bool_decide (rt_Hash (rf r) = hash) && bool_decide (rf_consumed_at r = None) && bool_decide (rf_revoked_at r = None) &&
                        bool_decide (timestamptz now < rt_ExpiresAt (rf r))) (t_refresh d) with
  | None => Err (Known ErrGrantNotFound)
  | Some row => Ok (rf row)
  end.

Definition refresh_revoked (now : Time) (r : refresh_row) : refresh_row :=
  {| rf := rf r; rf_consumed_at := rf_consumed_at r; rf_revoked_at := coalesce (rf_revoked_at r) now; rf_replaced_by_hash := rf_replaced_by_hash r |}.
Definition refresh_consumed (now : Time) (replacement : string) (r : refresh_row) : refresh_row :=
  {| rf := rf r; rf_consumed_at := Some now; rf_revoked_at := rf_revoked_at r; rf_replaced_by_hash := Some replacement |}.

(** [internal/storage/postgres/oauth_repository.go:227-242] RotateRefreshToken, the statements that revoke a family *)
Definition revoke_refresh_family (familyID : string) (now : Time) (d : oauth_db) : oauth_db :=
  let d := with_refresh (update (λ r, bool_decide (rt_FamilyID (rf r) = familyID)) (refresh_revoked now) (t_refresh d)) d in
  with_access (update (λ r, bool_decide (at_FamilyID (tk r) = familyID)) (access_revoked now) (t_access d)) d.

(** [internal/storage/postgres/oauth_repository.go:251-256] RotateRefreshToken, what the replacement takes over *)
Definition take_over (current replacement : RefreshToken) : RefreshToken :=
  {| rt_Hash := rt_Hash replacement; rt_FamilyID := rt_FamilyID current; rt_ClientID := rt_ClientID replacement; rt_UserID := rt_UserID current;
     rt_SessionID := rt_SessionID current;
     rt_Scope := match rt_Scope replacement with None => slice_copy (elems (rt_Scope current)) | Some scope => Some scope end;
     rt_IssuedAt := rt_IssuedAt replacement; rt_ExpiresAt := rt_ExpiresAt replacement |}.

(** [internal/storage/postgres/oauth_repository.go:192-287] RotateRefreshToken *)
Definition pg_RotateRefreshToken (d : oauth_db) (hash : string) (replacement : RefreshToken) (now : Time) : result RefreshToken :=
  match query_row (λ r, bool_decide (rt_Hash (rf r) = hash)) (t_refresh d) with
  | None => (d, Err (Known ErrGrantNotFound))
  | Some row =>
      let current := rf row in
      if decide (rt_ClientID current ≠ rt_ClientID replacement) then (d, Err (Known ErrGrantNotFound))
      else if decide (rf_consumed_at row ≠ None ∨ rf_revoked_at row ≠ None)
      then (revoke_refresh_family (rt_FamilyID current) (timestamptz now) d, Err (Known ErrRefreshReuse))
      else if negb (After (rt_ExpiresAt current) now) then (d, Err (Known ErrGrantExpired))
      else
        let replacement := take_over current replacement in
        if negb (ScopesCover (elems (rt_Scope current)) (elems (rt_Scope replacement))) then (d, Err (Known ErrInvalidScope))
        else
          let cond r := bool_decide (rt_Hash (rf r) = hash) in
          let consumed := update cond (refresh_consumed (timestamptz now) (rt_Hash replacement)) (t_refresh d) in
          if decide (affected cond (t_refresh d) ≠ 1%nat) then (d, Err DbFailed)
          else match insert_refresh (with_refresh consumed d) replacement with
               | Some d' => (d', Ok current)
               | None => (d, Err DbFailed)
               end
  end.

(** [internal/storage/postgres/oauth_repository.go:289-331] RevokeRefreshToken *)
Definition pg_RevokeRefreshToken (d : oauth_db) (hash clientID : string) (now : Time) : result unit :=
  match query_row (λ r, bool_decide (rt_Hash (rf r) = hash) && bool_decide (rt_ClientID (rf r) = clientID)) (t_refresh d) with
  | None => (d, Err (Known ErrGrantNotFound))
  | Some row =>
      let familyID := rt_FamilyID (rf row) in
      let cond r := bool_decide (rt_FamilyID (rf r) = familyID) && bool_decide (rt_ClientID (rf r) = clientID) in
      if decide (affected cond (t_refresh d) = 0%nat) then (d, Err DbFailed)
      else
        let d' := with_refresh (update cond (refresh_revoked (timestamptz now)) (t_refresh d)) d in
        (with_access (update (λ r, bool_decide (at_FamilyID (tk r) = familyID)) (access_revoked (timestamptz now)) (t_access d')) d', Ok ())
  end.

(** ** Consents *)

(** [ARRAY(SELECT DISTINCT scope FROM unnest(...) ORDER BY scope)]. *)
Definition sorted_scopes (scopes : list string) : list string := merge_sort text_le (remove_dups scopes).

(** [internal/storage/postgres/oauth_repository.go:752-762] GrantConsent, the statement; [DecideDeviceAuthorization] has the
    same *)
Definition upsert_consent (userID clientID : string) (scopes : list string) (now : Time) (t : list Consent) : list Consent * Consent :=
  upsert (λ r, bool_decide (co_UserID r = userID) && bool_decide (co_ClientID r = clientID))
    (λ r, {| co_UserID := co_UserID r; co_ClientID := co_ClientID r; co_Scopes := sorted_scopes (co_Scopes r ++ scopes);
             co_GrantedAt := co_GrantedAt r; co_UpdatedAt := timestamptz now |})
    {| co_UserID := userID; co_ClientID := clientID; co_Scopes := scopes; co_GrantedAt := timestamptz now; co_UpdatedAt := timestamptz now |} t.

(** [internal/storage/postgres/oauth_repository.go:727-742] FindConsent *)
Definition pg_FindConsent (d : oauth_db) (userID clientID : string) : Res (DbError oauthError) Consent :=
  match uuid_in userID with
  | None => Err DbFailed
  | Some userID =>
      match query_row (λ r, bool_decide (co_UserID r = userID) && bool_decide (co_ClientID r = clientID)) (t_consents d) with
      | None => Err (Known ErrConsentNotFound)
      | Some row => Ok row
      end
  end.

(** [internal/storage/postgres/oauth_repository.go:744-769] GrantConsent *)
Definition pg_GrantConsent (d : oauth_db) (userID clientID : string) (scopes : list string) (now : Time) : result Consent :=
  match uuid_in userID with
  | None => (d, Err DbFailed)
  | Some userID =>
      if refers d clientID userID "" then
        let '(rows, row) := upsert_consent userID clientID scopes now (t_consents d) in (with_consents rows d, Ok row)
      else (d, Err DbFailed)
  end.

(** [ORDER BY updated_at DESC, client_id]. *)
Definition newest_consent (a b : Consent) : Prop :=
  co_UpdatedAt b < co_UpdatedAt a ∨ (co_UpdatedAt b = co_UpdatedAt a ∧ text_le (co_ClientID a) (co_ClientID b)).
#[local] Instance newest_consent_dec : RelDecision newest_consent.
Proof. intros a b. unfold newest_consent. apply _. Defined.

(** [internal/storage/postgres/oauth_repository.go:771-793] ListConsentsByUser *)
Definition pg_ListConsentsByUser (d : oauth_db) (userID : string) : Res (DbError oauthError) (list Consent) :=
  match uuid_in userID with
  | None => Err DbFailed
  | Some userID => Ok (merge_sort newest_consent (filter (λ r, co_UserID r = userID) (t_consents d)))
  end.

(** ** Revocation *)

Definition code_revoked (now : Time) (r : code_row) : code_row := {| cd := cd r; cd_consumed_at := cd_consumed_at r; cd_revoked_at := coalesce (cd_revoked_at r) now |}.

(** [internal/storage/postgres/oauth_repository.go:598-621] RevokeSessionTokens:
    [UPDATE ... SET revoked_at = coalesce(revoked_at, now)] of the rows that match, in the three tables of tokens: the
    statements of the four methods below, which differ in their condition. *)
Definition revoke_where (matches : string → string → string → bool) (now : Time) (d : oauth_db) : oauth_db :=
  let d := with_codes (update (λ r, matches (ac_UserID (cd r)) (ac_SessionID (cd r)) (ac_ClientID (cd r))) (code_revoked now) (t_codes d)) d in
  let d := with_access (update (λ r, matches (at_UserID (tk r)) (at_SessionID (tk r)) (at_ClientID (tk r))) (access_revoked now) (t_access d)) d in
  with_refresh (update (λ r, matches (rt_UserID (rf r)) (rt_SessionID (rf r)) (rt_ClientID (rf r))) (refresh_revoked now) (t_refresh d)) d.

(** [SET status = 'denied', decided_at = coalesce(decided_at, now)]. *)
Definition device_denied (now : Time) (r : device_row) : device_row :=
  {| dv := da_with_Status DeviceDenied (dv r); dv_decided_at := coalesce (dv_decided_at r) now; dv_consumed_at := dv_consumed_at r |}.
(** [internal/storage/postgres/oauth_repository.go:838-841] DeleteConsent, its last statement; two other methods have it with another condition *)
Definition deny_where (cond : DeviceAuthorization → bool) (now : Time) (d : oauth_db) : oauth_db :=
  with_devices (update (λ r, cond (dv r)) (device_denied now) (t_devices d)) d.

(** [internal/storage/postgres/oauth_repository.go:795-850] DeleteConsent *)
Definition pg_DeleteConsent (d : oauth_db) (userID clientID : string) (now : Time) : result unit :=
  match uuid_in userID with
  | None => (d, Err DbFailed)
  | Some userID =>
      let cond r := bool_decide (co_UserID r = userID) && bool_decide (co_ClientID r = clientID) in
      if decide (affected cond (t_consents d) = 0%nat) then (d, Err (Known ErrConsentNotFound))
      else
        let now := timestamptz now in
        let d := with_consents (delete_rows cond (t_consents d)) d in
        let d := revoke_where (λ u _ c, bool_decide (u = userID) && bool_decide (c = clientID)) now d in
        (deny_where (λ v, bool_decide (da_UserID v = userID) && bool_decide (da_ClientID v = clientID) && bool_decide (da_Status v = DeviceApproved)) now d,
         Ok ())
  end.

(** [internal/storage/postgres/oauth_repository.go:588-626] RevokeSessionTokens *)
Definition pg_RevokeSessionTokens (d : oauth_db) (userID sessionID : string) (now : Time) : result unit :=
  match uuid_in userID, uuid_in sessionID with
  | Some userID, Some sessionID =>
      (revoke_where (λ u s _, bool_decide (u = userID) && bool_decide (s = sessionID)) (timestamptz now) d, Ok ())
  | _, _ => (d, Err DbFailed)
  end.

(** [internal/storage/postgres/oauth_repository.go:628-677] RevokeUserTokens *)
Definition pg_RevokeUserTokens (d : oauth_db) (userID exceptSessionID : string) (now : Time) : result unit :=
  match uuid_in userID, uuid_or_null exceptSessionID with
  | Some userID, Some except =>
      let now := timestamptz now in
      let d := revoke_where (λ u s _, bool_decide (u = userID) && (bool_decide (exceptSessionID = "")%string || bool_decide (s ≠ except))) now d in
      (deny_where (λ v, bool_decide (da_UserID v = userID) && bool_decide (da_Status v = DeviceApproved)) now d, Ok ())
  | _, _ => (d, Err DbFailed)
  end.

(** [internal/storage/postgres/oauth_repository.go:679-725] RevokeClientTokens *)
Definition pg_RevokeClientTokens (d : oauth_db) (clientID : string) (now : Time) : result unit :=
  let now := timestamptz now in
  let d := revoke_where (λ _ _ c, bool_decide (c = clientID)) now d in
  (deny_where (λ v, bool_decide (da_ClientID v = clientID) && bool_decide (da_Status v = DevicePending ∨ da_Status v = DeviceApproved)) now d, Ok ()).

(** ** Device authorizations *)

(** [internal/storage/postgres/oauth_repository.go:333-347] SaveDeviceAuthorization: the columns that are not inserted get
    their defaults. *)
Definition pg_SaveDeviceAuthorization (d : oauth_db) (value : DeviceAuthorization) : result unit :=
  let seconds := Z.quot (da_Interval value) Second in
  let row := {| dv := {| da_DeviceHash := da_DeviceHash value; da_UserHash := da_UserHash value; da_ClientID := da_ClientID value; da_UserID := "";
                         da_Scope := da_Scope value; da_Status := da_Status value; da_AuthenticatedAt := time_zero; da_AuthMethods := [];
                         da_AssuranceLevel := "urn:certus:aal:1"; da_CreatedAt := timestamptz (da_CreatedAt value);
                         da_ExpiresAt := timestamptz (da_ExpiresAt value); da_Interval := seconds * Second; da_LastPollAt := None |};
                dv_decided_at := None; dv_consumed_at := None |} in
  if refers d (da_ClientID value) "" "" && int4 seconds && bool_decide (0 < seconds) then
    match insert_row (λ r, bool_decide (da_DeviceHash (dv r) = da_DeviceHash value) || bool_decide (da_UserHash (dv r) = da_UserHash value)) row (t_devices d) with
    | Some rows => (with_devices rows d, Ok ())
    | None => (d, Err DbFailed)
    end
  else (d, Err DbFailed).

(** [internal/storage/postgres/oauth_repository.go:355-357] FindDeviceByUserCode, the condition; [DecideDeviceAuthorization] has the same *)
Definition device_pending (userHash : string) (now : Time) (r : device_row) : bool :=
  bool_decide (da_UserHash (dv r) = userHash) && bool_decide (da_Status (dv r) = DevicePending) && bool_decide (now < da_ExpiresAt (dv r)).

(** [internal/storage/postgres/oauth_repository.go:349-367] FindDeviceByUserCode *)
Definition pg_FindDeviceByUserCode (d : oauth_db) (hash : string) (now : Time) : Res (DbError oauthError) DeviceAuthorization :=
  match query_row (device_pending hash (timestamptz now)) (t_devices d) with
  | None => Err (Known ErrGrantNotFound)
  | Some row => Ok (dv row)
  end.

Definition device_decided (userID : string) (authenticatedAt : Time) (authMethods : list string) (assuranceLevel : string) (status : DeviceStatus) (now : Time)
    (r : device_row) : device_row :=
  {| dv := da_decided userID authenticatedAt authMethods assuranceLevel status (dv r); dv_decided_at := Some now; dv_consumed_at := dv_consumed_at r |}.

(** [internal/storage/postgres/oauth_repository.go:369-428] DecideDeviceAuthorization *)
Definition pg_DecideDeviceAuthorization (d : oauth_db) (userHash userID : string) (authenticatedAt : Time) (authMethods : list string) (assuranceLevel : string)
    (approve : bool) (now : Time) : result unit :=
  match uuid_in userID with
  | None => (d, Err DbFailed)
  | Some userID =>
      let status := if approve then DeviceApproved else DeviceDenied in
      let '(rows, found) := update_returning (device_pending userHash (timestamptz now))
        (device_decided userID (timestamptz authenticatedAt) authMethods assuranceLevel status (timestamptz now)) (t_devices d) in
      match found with
      | None => (d, Err (Known ErrGrantNotFound))
      | Some row =>
          let d' := with_devices rows d in
          if negb (bool_decide (userID ∈ ref_users d)) then (d, Err DbFailed)
          else if approve then
            let '(consents, _) := upsert_consent userID (da_ClientID (dv row)) (da_Scope (dv row)) now (t_consents d') in
            (with_consents consents d', Ok ())
          else (d', Ok ())
      end
  end.

Definition device_polled (interval : Duration) (now : Time) (r : device_row) : device_row :=
  {| dv := da_with_poll interval now (dv r); dv_decided_at := dv_decided_at r; dv_consumed_at := dv_consumed_at r |}.
Definition device_redeemed (now : Time) (r : device_row) : device_row :=
  {| dv := da_with_Status DeviceConsumed (dv r); dv_decided_at := dv_decided_at r; dv_consumed_at := Some now |}.

(** [internal/storage/postgres/oauth_repository.go:430-510] PollDeviceAuthorization: a device that was redeemed keeps its row,
    because that transaction is rolled back; the device returned is as it was read. *)
Definition pg_PollDeviceAuthorization (d : oauth_db) (deviceHash clientID : string) (now : Time) : result DeviceAuthorization :=
  match query_row (λ r, bool_decide (da_DeviceHash (dv r) = deviceHash) && bool_decide (da_ClientID (dv r) = clientID)) (t_devices d) with
  | None => (d, Err (Known ErrGrantNotFound))
  | Some row =>
      let value := dv row in
      let this r := bool_decide (da_DeviceHash (dv r) = deviceHash) in
      let stamp := timestamptz now in
      if negb (After (da_ExpiresAt value) now) then (d, Err (Known ErrGrantExpired))
      else if polled_too_soon value now then
        let seconds := Z.quot (wrap64 (da_Interval value + 5 * Second)) Second in
        if int4 seconds && bool_decide (0 < seconds)
        then (with_devices (update this (device_polled (seconds * Second) stamp) (t_devices d)) d, Err (Known ErrSlowDown))
        else (d, Err DbFailed)
      else
        let d' := with_devices (update this (λ r, device_polled (da_Interval (dv r)) stamp r) (t_devices d)) d in
        match da_Status value with
        | DevicePending => (d', Err (Known ErrAuthorizationPending))
        | DeviceDenied => (d', Err (Known ErrAccessDenied))
        | DeviceConsumed => (d, Err (Known ErrGrantConsumed))
        | DeviceApproved => (with_devices (update this (device_redeemed stamp) (t_devices d')) d', Ok value)
        end
  end.

(** ** Sessions of applications *)

(** [internal/storage/postgres/oauth_repository.go:543-555] SaveOIDCClientSession *)
Definition pg_SaveOIDCClientSession (d : oauth_db) (value : OIDCClientSession) : result unit :=
  match uuid_in (os_SessionID value), uuid_in (os_UserID value) with
  | Some sessionID, Some userID =>
      if refers d (os_ClientID value) userID sessionID then
        let row := {| os_SessionID := sessionID; os_ClientID := os_ClientID value; os_UserID := userID; os_CreatedAt := timestamptz (os_CreatedAt value) |} in
        (with_client_sessions (upsert (λ r, bool_decide (os_SessionID r = sessionID) && bool_decide (os_ClientID r = os_ClientID value)) (λ _, row) row
                                 (t_client_sessions d)).1 d, Ok ())
      else (d, Err DbFailed)
  | _, _ => (d, Err DbFailed)
  end.

Definition by_client (a b : OIDCClientSession) : Prop := text_le (os_ClientID a) (os_ClientID b).
#[local] Instance by_client_dec : RelDecision by_client.
Proof. intros a b. unfold by_client. apply _. Defined.

(** [internal/storage/postgres/oauth_repository.go:557-579] ListOIDCClientSessions *)
Definition pg_ListOIDCClientSessions (d : oauth_db) (sessionID : string) : Res (DbError oauthError) (list OIDCClientSession) :=
  match uuid_in sessionID with
  | None => Err DbFailed
  | Some sessionID => Ok (merge_sort by_client (filter (λ r, os_SessionID r = sessionID) (t_client_sessions d)))
  end.

(** [internal/storage/postgres/oauth_repository.go:581-586] DeleteOIDCClientSessions *)
Definition pg_DeleteOIDCClientSessions (d : oauth_db) (sessionID : string) : result unit :=
  match uuid_in sessionID with
  | None => (d, Err DbFailed)
  | Some sessionID => (with_client_sessions (delete_rows (λ r, bool_decide (os_SessionID r = sessionID)) (t_client_sessions d)) d, Ok ())
  end.

(** ** The repository as a transition system *)

Inductive PgResp :=
| PgUnit (r : Res (DbError oauthError) unit)
| PgCode (r : Res (DbError oauthError) AuthorizationCode)
| PgRefresh (r : Res (DbError oauthError) RefreshToken)
| PgDevice (r : Res (DbError oauthError) DeviceAuthorization)
| PgConsent (r : Res (DbError oauthError) Consent).
Definition pg_tag {A} (mk : A → PgResp) (p : oauth_db * A) : oauth_db * PgResp := (p.1, mk p.2).

Definition pg_step (d : oauth_db) (op : StoreOp) : oauth_db * PgResp :=
  match op with
  | OpSaveAuthorizationCode v => pg_tag PgUnit (pg_SaveAuthorizationCode d v)
  | OpConsumeAuthorizationCode h c u ch now => pg_tag PgCode (pg_ConsumeAuthorizationCode d h c u ch now)
  | OpSaveAccessToken v => pg_tag PgUnit (pg_SaveAccessToken d v)
  | OpRevokeAccessToken h c now => pg_tag PgUnit (pg_RevokeAccessToken d h c now)
  | OpSaveRefreshToken v => pg_tag PgUnit (pg_SaveRefreshToken d v)
  | OpRotateRefreshToken h v now => pg_tag PgRefresh (pg_RotateRefreshToken d h v now)
  | OpRevokeRefreshToken h c now => pg_tag PgUnit (pg_RevokeRefreshToken d h c now)
  | OpSaveDeviceAuthorization v => pg_tag PgUnit (pg_SaveDeviceAuthorization d v)
  | OpDecideDeviceAuthorization h u t m l a now => pg_tag PgUnit (pg_DecideDeviceAuthorization d h u t m l a now)
  | OpPollDeviceAuthorization h c now => pg_tag PgDevice (pg_PollDeviceAuthorization d h c now)
  | OpSaveOIDCClientSession v => pg_tag PgUnit (pg_SaveOIDCClientSession d v)
  | OpDeleteOIDCClientSessions s => pg_tag PgUnit (pg_DeleteOIDCClientSessions d s)
  | OpRevokeSessionTokens u s now => pg_tag PgUnit (pg_RevokeSessionTokens d u s now)
  | OpRevokeUserTokens u e now => pg_tag PgUnit (pg_RevokeUserTokens d u e now)
  | OpRevokeClientTokens c now => pg_tag PgUnit (pg_RevokeClientTokens d c now)
  | OpGrantConsent u c s now => pg_tag PgConsent (pg_GrantConsent d u c s now)
  | OpDeleteConsent u c now => pg_tag PgUnit (pg_DeleteConsent d u c now)
  end.
End PgOAuth.
