(* ===== verification/PgOAuthProps.v ===== *)
(** The grants in PostgreSQL behave as those in memory: from tables that hold the same
    grants, every operation gives the same answer, and the tables go on holding the same.
    What is shown of the in-memory repository then holds of the database. *)
From S2P Require Import Prelude OAuthStore OAuthStoreProps OAuthConsentProps Postgres PgOAuth.
Local Open Scope Z_scope.

(** ** The same grants *)

(** Both have a mark, or neither has: a repeated revocation keeps its first time in the
    database, and takes the last one in memory. *)
Definition same_mark (a b : option Time) : Prop := is_Some a ↔ is_Some b.

Definition same_code (r : code_row) (c : memoryAuthorizationCode) : Prop :=
  cd r = mac_code c ∧ same_mark (cd_consumed_at r) (mac_consumedAt c) ∧ same_mark (cd_revoked_at r) (mac_revokedAt c).
Definition same_access (r : access_row) (t : memoryAccessToken) : Prop := tk r = mat_token t ∧ same_mark (tk_revoked_at r) (mat_revokedAt t).
(** The same token, whether memory keeps no scopes as nil or as an empty slice. *)
Definition same_token (a b : RefreshToken) : Prop := a = rt_with_Scope (Some (elems (rt_Scope b))) b.
Definition same_refresh (r : refresh_row) (t : memoryRefreshToken) : Prop :=
  same_token (rf r) (mrt_token t) ∧ same_mark (rf_consumed_at r) (mrt_consumedAt t) ∧ same_mark (rf_revoked_at r) (mrt_revokedAt t).

(** The same device: the assurance level only counts once the device is approved, and
    the polls of a device that was redeemed no longer count. *)
Record same_device (a v : DeviceAuthorization) : Prop := {
  sd_device : da_DeviceHash a = da_DeviceHash v;
  sd_user_code : da_UserHash a = da_UserHash v;
  sd_client : da_ClientID a = da_ClientID v;
  sd_user : da_UserID a = da_UserID v;
  sd_scope : da_Scope a = da_Scope v;
  sd_status : da_Status a = da_Status v;
  sd_authenticated : da_AuthenticatedAt a = da_AuthenticatedAt v;
  sd_methods : da_AuthMethods a = da_AuthMethods v;
  sd_created : da_CreatedAt a = da_CreatedAt v;
  sd_expires : da_ExpiresAt a = da_ExpiresAt v;
  sd_assurance : da_Status v = DeviceApproved → da_AssuranceLevel a = da_AssuranceLevel v;
  sd_polls : da_Status v ≠ DeviceConsumed → da_Interval a = da_Interval v ∧ da_LastPollAt a = da_LastPollAt v;
}.

(** The same consent, whatever the order in which its scopes are listed. *)
Definition same_consent (a b : Consent) : Prop :=
  co_UserID a = co_UserID b ∧ co_ClientID a = co_ClientID b ∧ co_GrantedAt a = co_GrantedAt b ∧ co_UpdatedAt a = co_UpdatedAt b ∧
  ∀ scope, scope ∈ co_Scopes a ↔ scope ∈ co_Scopes b.

Record same_grants (d : oauth_db) (m : MemoryRepository) : Prop := {
  sg_codes : Forall2 same_code (t_codes d) (codes m);
  sg_access : Forall2 same_access (t_access d) (accessTokens m);
  sg_refresh : Forall2 same_refresh (t_refresh d) (refresh m);
  sg_devices : Forall2 (λ r, same_device (dv r)) (t_devices d) (devices m);
  sg_sessions : t_client_sessions d = oidcSessions m;
  sg_consents : Forall2 same_consent (t_consents d) (consents m);
}.

Section Ok.
Context `{PgServer}.

(** Whole microseconds, identifiers in their canonical spelling. *)
Definition whole (t : Time) : Prop := timestamptz t = t.
Definition canonical (s : string) : Prop := s ≠ ""%string ∧ uuid_in s = Some s.
Definition canonical_or_none (s : string) : Prop := s = ""%string ∨ canonical s.

(** ** What the tables keep *)

Record wf (d : oauth_db) : Prop := {
  wf_codes : NoDup ((λ r, ac_Hash (cd r)) <$> t_codes d);
  wf_access : NoDup ((λ r, at_Hash (tk r)) <$> t_access d);
  wf_refresh : NoDup ((λ r, rt_Hash (rf r)) <$> t_refresh d);
  wf_devices : NoDup ((λ r, da_DeviceHash (dv r)) <$> t_devices d);
  wf_user_codes : NoDup ((λ r, da_UserHash (dv r)) <$> t_devices d);
  wf_sessions : NoDup ((λ r, (os_SessionID r, os_ClientID r)) <$> t_client_sessions d);
  wf_consents : NoDup ((λ r, (co_UserID r, co_ClientID r)) <$> t_consents d);
  (** A family of refresh tokens is one client's. *)
  wf_families : ∀ r r', r ∈ t_refresh d → r' ∈ t_refresh d → rt_FamilyID (rf r) = rt_FamilyID (rf r') → rt_ClientID (rf r) = rt_ClientID (rf r');
  wf_owners : ∀ r, r ∈ t_refresh d → canonical (rt_FamilyID (rf r)) ∧ canonical (rt_UserID (rf r)) ∧ canonical_or_none (rt_SessionID (rf r)) ∧
    refers d (rt_ClientID (rf r)) (rt_UserID (rf r)) (rt_SessionID (rf r)) = true;
  wf_intervals : ∀ r, r ∈ t_devices d → ∃ k, da_Interval (dv r) = k * Second ∧ 0 < k < 2 ^ 31;
}.

(** ** What the server does *)

(** What the service passes: identifiers of rows that exist, hashes that are new. *)
Definition op_ok (d : oauth_db) (op : StoreOp) : Prop :=
  match op with
  | OpSaveAuthorizationCode v =>
      canonical (ac_UserID v) ∧ canonical (ac_SessionID v) ∧ refers d (ac_ClientID v) (ac_UserID v) (ac_SessionID v) = true ∧
      whole (ac_AuthenticatedAt v) ∧ whole (ac_CreatedAt v) ∧ whole (ac_ExpiresAt v) ∧ ac_Hash v ∉ (λ r, ac_Hash (cd r)) <$> t_codes d
  | OpConsumeAuthorizationCode _ _ _ _ now | OpRevokeAccessToken _ _ now | OpRevokeRefreshToken _ _ now | OpRevokeClientTokens _ now => whole now
  | OpSaveAccessToken v =>
      canonical_or_none (at_UserID v) ∧ canonical_or_none (at_SessionID v) ∧ canonical_or_none (at_FamilyID v) ∧
      refers d (at_ClientID v) (at_UserID v) (at_SessionID v) = true ∧ whole (at_IssuedAt v) ∧ whole (at_ExpiresAt v) ∧
      at_Hash v ∉ (λ r, at_Hash (tk r)) <$> t_access d
  | OpSaveRefreshToken v =>
      canonical (rt_FamilyID v) ∧ canonical (rt_UserID v) ∧ canonical_or_none (rt_SessionID v) ∧ rt_Scope v ≠ None ∧
      refers d (rt_ClientID v) (rt_UserID v) (rt_SessionID v) = true ∧ whole (rt_IssuedAt v) ∧ whole (rt_ExpiresAt v) ∧
      rt_Hash v ∉ (λ r, rt_Hash (rf r)) <$> t_refresh d ∧
      ∀ r, r ∈ t_refresh d → rt_FamilyID (rf r) = rt_FamilyID v → rt_ClientID (rf r) = rt_ClientID v
  | OpRotateRefreshToken h v now =>
      whole now ∧ whole (rt_IssuedAt v) ∧ whole (rt_ExpiresAt v) ∧ rt_Hash v ∉ (λ r, rt_Hash (rf r)) <$> t_refresh d ∧
      (rt_Scope v = None → ∀ r, r ∈ t_refresh d → rt_Hash (rf r) = h → elems (rt_Scope (rf r)) ≠ [])
  | OpSaveDeviceAuthorization v =>
      refers d (da_ClientID v) "" "" = true ∧ da_UserID v = ""%string ∧ da_Status v = DevicePending ∧ da_AuthenticatedAt v = time_zero ∧ da_AuthMethods v = [] ∧
      whole (da_CreatedAt v) ∧ whole (da_ExpiresAt v) ∧ da_LastPollAt v = None ∧ (∃ k, da_Interval v = k * Second ∧ 0 < k < 2 ^ 31) ∧
      da_DeviceHash v ∉ (λ r, da_DeviceHash (dv r)) <$> t_devices d ∧ da_UserHash v ∉ (λ r, da_UserHash (dv r)) <$> t_devices d
  | OpDecideDeviceAuthorization _ u at_ _ _ _ now => canonical u ∧ u ∈ ref_users d ∧ whole at_ ∧ whole now
  | OpPollDeviceAuthorization h _ now => whole now ∧ ∀ r, r ∈ t_devices d → da_DeviceHash (dv r) = h → da_Interval (dv r) < (2 ^ 31 - 5) * Second
  | OpSaveOIDCClientSession v =>
      canonical (os_SessionID v) ∧ canonical (os_UserID v) ∧ refers d (os_ClientID v) (os_UserID v) (os_SessionID v) = true ∧ whole (os_CreatedAt v)
  | OpDeleteOIDCClientSessions s => canonical s
  | OpRevokeSessionTokens u s now => canonical u ∧ canonical s ∧ whole now
  | OpRevokeUserTokens u e now => canonical u ∧ canonical_or_none e ∧ whole now
  | OpGrantConsent u c _ now => canonical u ∧ refers d c u "" = true ∧ whole now
  | OpDeleteConsent u _ now => canonical u ∧ whole now
  end.

(** ** The same answers *)

(** Two refusals that may take each other's place: the database does not say why a code
    is refused, and keeps no polls of a device that was redeemed. *)
Definition alike (e e' : oauthError) : Prop :=
  e = e' ∨ (e = ErrGrantNotFound ∧ (e' = ErrGrantConsumed ∨ e' = ErrGrantExpired)) ∨
  (e = ErrGrantConsumed ∧ e' = ErrSlowDown) ∨ (e = ErrSlowDown ∧ e' = ErrGrantConsumed).
Definition same_answer {A} (R : A → A → Prop) (x : Res (DbError oauthError) A) (y : Res oauthError A) : Prop :=
  match x, y with
  | Ok a, Ok b => R a b
  | Err (Known e), Err e' => alike e e'
  | _, _ => False
  end.
Definition same_resp (x : PgResp) (y : StoreResp) : Prop :=
  match x, y with
  | PgUnit a, RespUnit b => same_answer eq a b
  | PgCode a, RespCode b => same_answer eq a b
  | PgRefresh a, RespRefresh b => same_answer same_token a b
  | PgDevice a, RespDevice b => same_answer (λ a b, same_device (da_with_Status DeviceConsumed a) b ∧ da_AssuranceLevel a = da_AssuranceLevel b) a b
  | PgConsent a, RespConsent b => same_answer same_consent a b
  | _, _ => False
  end.
(** The same answers to the questions that change nothing. *)
Definition same_listed {A} (R : A → A → Prop) (l k : list A) : Prop := ∃ l' k', l ≡ₚ l' ∧ k ≡ₚ k' ∧ Forall2 R l' k'.
Record same_reads (d : oauth_db) (m : MemoryRepository) : Prop := {
  sr_access : ∀ h now, whole now → same_answer eq (pg_FindAccessToken d h now) (FindAccessToken m h now);
  sr_refresh : ∀ h now, whole now → same_answer same_token (pg_FindRefreshToken d h now) (FindRefreshToken m h now);
  sr_device : ∀ h now, whole now → same_answer same_device (pg_FindDeviceByUserCode d h now) (FindDeviceByUserCode m h now);
  sr_sessions : ∀ s, canonical s → same_answer (same_listed eq) (pg_ListOIDCClientSessions d s) (ListOIDCClientSessions m s);
  sr_consent : ∀ u c, canonical u → same_answer same_consent (pg_FindConsent d u c) (FindConsent m u c);
  sr_consents : ∀ u, canonical u → same_answer (same_listed same_consent) (pg_ListConsentsByUser d u) (ListConsentsByUser m u);
}.

(** ** One table at a time *)

Implicit Types (d : oauth_db) (m : MemoryRepository).

Lemma set_access_same m : set_accessTokens (accessTokens m) m = m.
Proof. by destruct m. Qed.
Lemma set_refresh_same m : set_refresh (refresh m) m = m.
Proof. by destruct m. Qed.
Lemma set_devices_same m : set_devices (devices m) m = m.
Proof. by destruct m. Qed.

Lemma sg_with_codes v k d m : same_grants d m → Forall2 same_code v k → same_grants (with_codes v d) (set_codes k m).
Proof. by intros []. Qed.
Lemma sg_with_access v k d m : same_grants d m → Forall2 same_access v k → same_grants (with_access v d) (set_accessTokens k m).
Proof. by intros []. Qed.
Lemma sg_with_refresh v k d m : same_grants d m → Forall2 same_refresh v k → same_grants (with_refresh v d) (set_refresh k m).
Proof. by intros []. Qed.
Lemma sg_with_devices v k d m : same_grants d m → Forall2 (λ r, same_device (dv r)) v k → same_grants (with_devices v d) (set_devices k m).
Proof. by intros []. Qed.
Lemma sg_with_client_sessions v d m : same_grants d m → same_grants (with_client_sessions v d) (set_oidcSessions v m).
Proof. by intros []. Qed.
Lemma sg_with_consents v k d m : same_grants d m → Forall2 same_consent v k → same_grants (with_consents v d) (set_consents k m).
Proof. by intros []. Qed.

Lemma wf_with_codes v d : wf d → NoDup ((λ r, ac_Hash (cd r)) <$> v) → wf (with_codes v d).
Proof. by intros []. Qed.
Lemma wf_with_access v d : wf d → NoDup ((λ r, at_Hash (tk r)) <$> v) → wf (with_access v d).
Proof. by intros []. Qed.
Lemma wf_with_client_sessions v d : wf d → NoDup ((λ r, (os_SessionID r, os_ClientID r)) <$> v) → wf (with_client_sessions v d).
Proof. by intros []. Qed.
Lemma wf_with_consents v d : wf d → NoDup ((λ r, (co_UserID r, co_ClientID r)) <$> v) → wf (with_consents v d).
Proof. by intros []. Qed.

(** Marks may change, the rest of a row stays. *)
Lemma wf_mark_codes P f d : wf d → (∀ r, cd (f r) = cd r) → wf (with_codes (update P f (t_codes d)) d).
Proof. intros Hwf Hf. apply wf_with_codes; [done|]. rewrite update_key by (intros r; by rewrite Hf). apply Hwf. Qed.
Lemma wf_mark_access P f d : wf d → (∀ r, tk (f r) = tk r) → wf (with_access (update P f (t_access d)) d).
Proof. intros Hwf Hf. apply wf_with_access; [done|]. rewrite update_key by (intros r; by rewrite Hf). apply Hwf. Qed.
Lemma marked_refresh P f d r : (∀ r, rf (f r) = rf r) → r ∈ update P f (t_refresh d) → ∃ r', r' ∈ t_refresh d ∧ rf r = rf r'.
Proof. intros Hf (r' & Hr' & ->)%elem_of_update. exists r'. by destruct (P r'); rewrite ?Hf. Qed.
Lemma wf_mark_refresh P f d : wf d → (∀ r, rf (f r) = rf r) → wf (with_refresh (update P f (t_refresh d)) d).
Proof.
  intros Hwf Hf. split; cbn; try apply Hwf.
  - rewrite update_key by (intros r; by rewrite Hf). apply Hwf.
  - intros r r' (s & Hs & ->)%marked_refresh (s' & Hs' & ->)%marked_refresh; [|done..]. by apply Hwf.
  - intros r (s & Hs & ->)%marked_refresh; [|done]. by apply Hwf.
Qed.
Lemma wf_update_devices P f d : wf d →
  (∀ r, da_DeviceHash (dv (f r)) = da_DeviceHash (dv r) ∧ da_UserHash (dv (f r)) = da_UserHash (dv r)) →
  (∀ r, r ∈ t_devices d → P r = true → ∃ k, da_Interval (dv (f r)) = k * Second ∧ 0 < k < 2 ^ 31) →
  wf (with_devices (update P f (t_devices d)) d).
Proof.
  intros Hwf Hf Hk. split; cbn; try apply Hwf.
  - rewrite update_key by apply Hf. apply Hwf.
  - rewrite update_key by apply Hf. apply Hwf.
  - intros r (s & Hs & ->)%elem_of_update. destruct (P s) eqn:E; [by apply Hk|by apply Hwf].
Qed.

(** The row under a key. *)
Lemma one_code h d : wf d → at_most_one (λ r, bool_decide (ac_Hash (cd r) = h)) (t_codes d).
Proof. intros Hwf. apply (at_most_one_key (λ r, ac_Hash (cd r))), Hwf. Qed.
Lemma one_access h d : wf d → at_most_one (λ r, bool_decide (at_Hash (tk r) = h)) (t_access d).
Proof. intros Hwf. apply (at_most_one_key (λ r, at_Hash (tk r))), Hwf. Qed.
Lemma one_refresh h d : wf d → at_most_one (λ r, bool_decide (rt_Hash (rf r) = h)) (t_refresh d).
Proof. intros Hwf. apply (at_most_one_key (λ r, rt_Hash (rf r))), Hwf. Qed.
Lemma one_device h d : wf d → at_most_one (λ r, bool_decide (da_DeviceHash (dv r) = h)) (t_devices d).
Proof. intros Hwf. apply (at_most_one_key (λ r, da_DeviceHash (dv r))), Hwf. Qed.
Lemma one_user_code h d : wf d → at_most_one (λ r, bool_decide (da_UserHash (dv r) = h)) (t_devices d).
Proof. intros Hwf. apply (at_most_one_key (λ r, da_UserHash (dv r))), Hwf. Qed.

(** ** Revocations *)

Lemma same_mark_none a b : same_mark a b → a = None ↔ b = None.
Proof. unfold same_mark. rewrite <- !not_eq_None_Some. destruct a, b; naive_solver. Qed.
Lemma same_mark_some a b : same_mark (Some a) (Some b).
Proof. done. Qed.
Lemma same_mark_coalesce a b n n' : same_mark a b → same_mark (coalesce a n) (Some n').
Proof. done. Qed.
Hint Resolve same_mark_some same_mark_coalesce : core.

Lemma revoke_where_same matches now n d m : same_grants d m → same_grants (revoke_where matches n d) (revokeMatchingTokens matches now m).
Proof.
  intros [Hc Ha Hr Hd Hs Hk]. split; cbn; [| | |done..].
  - apply update_related; [done|]. intros r c _ (E & H1 & H2). unfold revoke_if. cbn. rewrite <- E.
    destruct (matches _ _ _); [|done]. cbn. case_bool_decide as Hn; [done|]. split_and!; [done..|].
    apply same_mark_none in H2. destruct (mac_revokedAt c); [done|naive_solver].
  - apply update_related; [done|]. intros r c _ (E & H2). unfold revoke_if. cbn. rewrite <- E.
    destruct (matches _ _ _); [|done]. cbn. case_bool_decide as Hn; [done|]. split; [done|].
    destruct (mat_revokedAt c); done.
  - apply update_related; [done|]. intros r c _ (E & H1 & H2). unfold revoke_if. cbn. rewrite E. cbn.
    destruct (matches _ _ _); [|done]. cbn. case_bool_decide as Hn; [done|]. split_and!; [done..|].
    destruct (mrt_revokedAt c); done.
Qed.
Lemma revoke_where_wf matches n d : wf d → wf (revoke_where matches n d).
Proof.
  intros Hwf. unfold revoke_where.
  apply (wf_mark_refresh _ _ (with_access _ _)); [|done]. apply (wf_mark_access _ _ (with_codes _ _)); [|done]. by apply wf_mark_codes.
Qed.

Lemma same_denied a v : same_device a v → da_Status v ≠ DeviceConsumed → same_device (da_with_Status DeviceDenied a) (da_with_Status DeviceDenied v).
Proof. intros [] Hv. split; cbn; try done. intros _. auto. Qed.
Lemma deny_where_same (cond : DeviceAuthorization → bool) (P : DeviceAuthorization → Prop) `{∀ v, Decision (P v)} n d m :
  same_grants d m → (∀ a v, same_device a v → cond a = true ↔ P v) → (∀ v, P v → da_Status v ≠ DeviceConsumed) →
  same_grants (deny_where cond n d) (set_devices ((λ v, if decide (P v) then da_with_Status DeviceDenied v else v) <$> devices m) m).
Proof.
  intros Hsg HP Hlive. apply sg_with_devices; [done|]. apply update_related; [apply Hsg|]. intros r v _ Hrv. cbn.
  specialize (HP _ _ Hrv). case_decide as Hv.
  - replace (cond (dv r)) with true by (symmetry; naive_solver). by apply same_denied; auto.
  - destruct (cond (dv r)); [|done]. naive_solver.
Qed.
Lemma deny_where_wf cond n d : wf d → wf (deny_where cond n d).
Proof. intros Hwf. apply wf_update_devices; [done|done|]. intros r Hr _. apply (wf_intervals _ Hwf r Hr). Qed.

Lemma revoke_family_same fam now n d m : same_grants d m → same_grants (revoke_refresh_family fam n d) (revoke_family fam now m).
Proof.
  intros [Hc Ha Hr Hd Hs Hk]. split; cbn; [done| | |done..].
  - apply update_related; [done|]. intros r c _ (E & H2). rewrite <- E. case_bool_decide; [rewrite decide_True by done|by rewrite decide_False].
    by split; [|apply (same_mark_coalesce _ _ _ _ H2)].
  - apply update_related; [done|]. intros r c _ (E & H1 & H2). rewrite E. cbn. case_bool_decide; [rewrite decide_True by done|by rewrite decide_False].
    by split_and!; [| |apply (same_mark_coalesce _ _ _ _ H2)].
Qed.
Lemma revoke_family_wf fam n d : wf d → wf (revoke_refresh_family fam n d).
Proof. intros Hwf. unfold revoke_refresh_family. apply (wf_mark_access _ _ (with_refresh _ _)); [|done]. by apply wf_mark_refresh. Qed.

(** ** Each operation *)

(** What a step must do: the same answer, and the same grants afterwards. *)
Definition agrees {A B} (R : A → B → Prop) (x : oauth_db * A) (y : MemoryRepository * B) : Prop :=
  R x.2 y.2 ∧ same_grants x.1 y.1 ∧ wf x.1.

Lemma agrees_alike {A} (R : A → A → Prop) d m e e' : same_grants d m → wf d → alike e e' → agrees (same_answer R) (d, Err (Known e)) (m, Err e').
Proof. done. Qed.
Lemma alike_refl e : alike e e.
Proof. by left. Qed.
Hint Resolve alike_refl : core.
(** Both refuse, and nothing changes. *)
Ltac decisions := repeat match goal with |- context [decide ?P] => destruct (decide P) end.
Ltac refused := apply agrees_alike; [done|done|try solve [auto | right; left; auto]].

Lemma not_a_key {A K} (key : A → K) k (l : list A) : k ∉ key <$> l → ∀ x, x ∈ l → key x ≠ k.
Proof. intros Hk x Hx <-. apply Hk. by apply list_elem_of_fmap_2. Qed.
Lemma NoDup_snoc {A} (x : A) l : NoDup l → x ∉ l → NoDup (l ++ [x])%list.
Proof. intros Hl Hx. apply NoDup_app. split_and!; [done| |apply NoDup_singleton]. intros y Hy ->%list_elem_of_singleton. done. Qed.
Lemma canonical_or_none_in s : canonical_or_none s → uuid_or_null s = Some s.
Proof. unfold uuid_or_null. intros [->|[Hs ->]]; [done|]. by rewrite decide_False. Qed.

Lemma save_code_agrees v d m : same_grants d m → wf d → op_ok d (OpSaveAuthorizationCode v) →
  agrees (same_answer eq) (pg_SaveAuthorizationCode d v) (SaveAuthorizationCode m v).
Proof.
  intros Hsg Hwf ([_ Hu] & [_ Hs] & Hr & H1 & H2 & H3 & Hnew). unfold pg_SaveAuthorizationCode, SaveAuthorizationCode.
  rewrite Hu, Hs, Hr, H1, H2, H3. rewrite insert_row_fresh.
  - split; [done|]. split; cbn.
    + apply sg_with_codes; [done|]. apply Forall2_app; [apply Hsg|]. constructor; [|done]. by destruct v.
    + apply wf_with_codes; [done|]. rewrite fmap_app. apply NoDup_snoc; [apply Hwf|done].
  - intros x Hx. apply bool_decide_eq_false. by apply (not_a_key (λ r, ac_Hash (cd r)) _ _ Hnew).
Qed.

Lemma consume_code_agrees h c u ch now d m : same_grants d m → wf d → whole now →
  agrees (same_answer eq) (pg_ConsumeAuthorizationCode d h c u ch now) (ConsumeAuthorizationCode m h c u ch now).
Proof.
  intros Hsg Hwf Hnow. unfold pg_ConsumeAuthorizationCode, ConsumeAuthorizationCode, update_returning. rewrite Hnow.
  assert (∀ x, consumable h c u ch now x = true → bool_decide (ac_Hash (cd x) = h) = true) as Hsub.
  { intros x. unfold consumable. rewrite !andb_true_iff. tauto. }
  destruct (found same_code (λ r, bool_decide (ac_Hash (cd r) = h)) (λ t, ac_Hash (mac_code t) = h) _ _ (sg_codes _ _ Hsg))
    as [(_ & -> & Hnone)|(i & r & t & _ & -> & Hi & Hk & (E & Hc & Hv) & HP & HQ)]; [by intros ? ? [-> _]; rewrite bool_decide_eq_true| |].
  - rewrite Hnone by done. refused.
  - rewrite (query_row_at _ _ _ _ _ (one_code h d Hwf) Hi HP Hsub).
    pose proof (at_most_one_weaken _ _ _ (one_code h d Hwf) Hsub) as Hone.
    apply same_mark_none in Hc as Hc'. apply same_mark_none in Hv as Hv'.
    destruct (consumable h c u ch now r) eqn:Ec; unfold consumable in Ec.
    + rewrite !andb_true_iff, !bool_decide_eq_true in Ec. destruct Ec as [[[[[[_ E1] E2] E3] E4] E5] E6]. rewrite E in E1, E2, E3, E6.
      rewrite decide_False by (rewrite E1, E2, E3; naive_solver). rewrite !decide_False by naive_solver.
      replace (After (ac_ExpiresAt (mac_code t)) now) with true by (symmetry; apply bool_decide_eq_true; lia). cbn.
      split; [by rewrite <- E|]. split; [|by apply wf_mark_codes].
      apply sg_with_codes; [done|]. apply (update_one_related _ _ _ _ _ _ r); [done|apply Hsg|done| |done].
      by unfold consumable; rewrite E, HQ, E1, E2, E3, E4, E5, !bool_decide_true.
    + rewrite E, !andb_false_iff, !bool_decide_eq_false in Ec. cbn. decisions; try refused.
      destruct (After _ now) eqn:Ea; [|refused]. apply bool_decide_eq_true in Ea. exfalso.
      destruct (decide (mac_consumedAt t = None)), (decide (mac_revokedAt t = None)); naive_solver lia.
Qed.

Lemma save_access_agrees v d m : same_grants d m → wf d → op_ok d (OpSaveAccessToken v) →
  agrees (same_answer eq) (pg_SaveAccessToken d v) (SaveAccessToken m v).
Proof.
  intros Hsg Hwf (Hu & Hs & Hf & Hr & H1 & H2 & Hnew). unfold pg_SaveAccessToken, SaveAccessToken.
  rewrite !canonical_or_none_in, Hr, H1, H2 by done. rewrite insert_row_fresh.
  - split; [done|]. split; cbn.
    + apply sg_with_access; [done|]. apply Forall2_app; [apply Hsg|]. constructor; [|done]. by destruct v.
    + apply wf_with_access; [done|]. rewrite fmap_app. apply NoDup_snoc; [apply Hwf|done].
  - intros x Hx. apply bool_decide_eq_false. by apply (not_a_key (λ r, at_Hash (tk r)) _ _ Hnew).
Qed.

Lemma revoke_access_agrees h c now d m : same_grants d m → wf d → agrees (same_answer eq) (pg_RevokeAccessToken d h c now) (RevokeAccessToken m h c now).
Proof.
  intros Hsg Hwf. unfold pg_RevokeAccessToken, RevokeAccessToken. set (cond r := _ && _).
  assert (∀ x, cond x = true → bool_decide (at_Hash (tk x) = h) = true) as Hsub by (intros x; unfold cond; rewrite andb_true_iff; tauto).
  destruct (found same_access cond (λ t, at_Hash (mat_token t) = h ∧ at_ClientID (mat_token t) = c) _ _ (sg_access _ _ Hsg))
    as [(Hq & -> & _)|(i & r & t & Hq & -> & Hi & Hk & (E & Hv) & HP & HQ)].
  { intros x y [E _]. unfold cond. by rewrite andb_true_iff, !bool_decide_eq_true, E. }
  - rewrite decide_True by (by apply affected_none). refused.
  - pose proof (at_most_one_weaken _ _ _ (one_access h d Hwf) Hsub) as Hone.
    rewrite decide_False by (by rewrite affected_none, Hq). split; [done|]. split; [|by apply wf_mark_access].
    cbn. assert (Forall2 same_access (update cond (access_revoked (timestamptz now)) (t_access d)) (<[i:=rv_revoke now t]> (accessTokens m))) as Hup.
    { apply (update_one_related _ _ _ _ _ _ r); [done|apply Hsg|done..]. }
    case_decide as Ht; [by apply sg_with_access|]. rewrite <- (set_access_same m). apply sg_with_access; [done|].
    rewrite <- (list_insert_id (accessTokens m) i t) by done. apply (update_one_related _ _ _ _ _ _ r); [done|apply Hsg|done|done|].
    split; [done|]. cbn. by destruct (mat_revokedAt t).
Qed.

(** The insertion of a refresh token. *)
Lemma insert_refresh_agrees v w scope d m : same_grants d m → wf d →
  canonical (rt_FamilyID v) → canonical (rt_UserID v) → canonical_or_none (rt_SessionID v) → rt_Scope v = Some scope →
  refers d (rt_ClientID v) (rt_UserID v) (rt_SessionID v) = true → whole (rt_IssuedAt v) → whole (rt_ExpiresAt v) →
  rt_Hash v ∉ (λ r, rt_Hash (rf r)) <$> t_refresh d →
  (∀ r, r ∈ t_refresh d → rt_FamilyID (rf r) = rt_FamilyID v → rt_ClientID (rf r) = rt_ClientID v) → same_token v w →
  ∃ d', insert_refresh d v = Some d' ∧ wf d' ∧
        same_grants d' (set_refresh (refresh m ++ [{| mrt_token := w; mrt_consumedAt := None; mrt_revokedAt := None |}]) m).
Proof.
  intros Hsg Hwf Hf Hu Hs Hsc Hr H1 H2 Hnew Hfam Hw. unfold insert_refresh. rewrite (proj2 Hf), (proj2 Hu), canonical_or_none_in, Hsc, Hr, H1, H2 by done. rewrite insert_row_fresh by (intros x Hx; apply bool_decide_eq_false; by apply (not_a_key (λ r, rt_Hash (rf r)) _ _ Hnew)).
  set (row := Build_refresh_row _ _ _ _). assert (rf row = v) as Hrow by (unfold row; cbn; destruct v; cbn in *; congruence).
  eexists. split; [done|]. split.
  - split; cbn; try apply Hwf.
    + rewrite fmap_app. apply NoDup_snoc; [apply Hwf|by rewrite Hrow].
    + intros a b [Ha| ->%list_elem_of_singleton]%elem_of_app [Hb| ->%list_elem_of_singleton]%elem_of_app; rewrite ?Hrow; [by apply Hwf|by apply Hfam| |done].
      intros Heq. symmetry. by apply Hfam.
    + intros a [Ha| ->%list_elem_of_singleton]%elem_of_app; [by apply Hwf|]. by rewrite Hrow.
  - apply sg_with_refresh; [done|]. apply Forall2_app; [apply Hsg|]. constructor; [|done]. split; [by rewrite Hrow|done].
Qed.

Lemma save_refresh_agrees v d m : same_grants d m → wf d → op_ok d (OpSaveRefreshToken v) →
  agrees (same_answer eq) (pg_SaveRefreshToken d v) (SaveRefreshToken m v).
Proof.
  intros Hsg Hwf (Hf & Hu & Hs & Hsc & Hr & H1 & H2 & Hnew & Hfam). unfold pg_SaveRefreshToken, SaveRefreshToken.
  destruct (rt_Scope v) as [scope|] eqn:E; [|done].
  destruct (insert_refresh_agrees v (rt_with_Scope (slice_copy scope) v) scope d m) as (d' & -> & Hwf' & Hsg'); try done.
  by destruct v, scope; cbn in *; subst.
Qed.

Lemma same_token_copy a t : same_token a t → same_token a (rt_with_Scope (slice_copy (elems (rt_Scope t))) t).
Proof. unfold same_token. intros ->. cbn [rt_Scope rt_with_Scope]. by rewrite elems_slice_copy. Qed.
Lemma find_refresh h d m : same_grants d m → wf d →
  (query_row (λ r, bool_decide (rt_Hash (rf r) = h)) (t_refresh d) = None ∧ list_find (λ t, rt_Hash (mrt_token t) = h) (refresh m) = None) ∨
  ∃ i r t, query_row (λ r, bool_decide (rt_Hash (rf r) = h)) (t_refresh d) = Some r ∧ list_find (λ t, rt_Hash (mrt_token t) = h) (refresh m) = Some (i, t) ∧
    t_refresh d !! i = Some r ∧ refresh m !! i = Some t ∧ same_refresh r t ∧ rt_Hash (rf r) = h.
Proof.
  intros Hsg Hwf. destruct (found same_refresh (λ r, bool_decide (rt_Hash (rf r) = h)) (λ t, rt_Hash (mrt_token t) = h) _ _ (sg_refresh _ _ Hsg))
    as [(? & ? & _)|(i & r & t & ? & ? & ? & ? & ? & HP%bool_decide_eq_true & _)]; [|by left|right; naive_solver].
  intros x y [-> _]. cbn. by rewrite bool_decide_eq_true.
Qed.

Lemma rotate_agrees h v now d m : same_grants d m → wf d → op_ok d (OpRotateRefreshToken h v now) →
  agrees (same_answer same_token) (pg_RotateRefreshToken d h v now) (RotateRefreshToken m h v now).
Proof.
  intros Hsg Hwf (Hnow & H1 & H2 & Hnew & Hscope). unfold pg_RotateRefreshToken, RotateRefreshToken.
  destruct (find_refresh h d m Hsg Hwf) as [[-> ->]|(i & r & t & -> & -> & Hi & Hk & (E & Hc & Hv) & Hh)]; [refused|].
  assert (r ∈ t_refresh d) as Hr by (by eapply list_elem_of_lookup_2).
  assert (rt_FamilyID (rf r) = rt_FamilyID (mrt_token t) ∧ rt_ClientID (rf r) = rt_ClientID (mrt_token t) ∧ rt_ExpiresAt (rf r) = rt_ExpiresAt (mrt_token t) ∧
          elems (rt_Scope (rf r)) = elems (rt_Scope (mrt_token t))) as (Ef & Ec & Ee & Es) by (by rewrite E).
  rewrite <- Ef, <- Ec, <- Ee, <- Es. apply same_mark_none in Hc as Hc'. apply same_mark_none in Hv as Hv'.
  destruct (decide (rt_ClientID (rf r) ≠ rt_ClientID v)) as [Hcl|Hcl]; [refused|].
  destruct (decide (rf_consumed_at r ≠ None ∨ _)) as [Hm|Hm].
  { rewrite (decide_True (P := mrt_revokedAt t ≠ None ∨ _)) by tauto. split; [by left|]. split; [by apply revoke_family_same|by apply revoke_family_wf]. }
  rewrite (decide_False (P := mrt_revokedAt t ≠ None ∨ _)) by tauto. destruct (After (rt_ExpiresAt (rf r)) now); cbn [negb]; [|refused].
  assert (rt_Scope (take_over (rf r) v) = rt_Scope (inherit (mrt_token t) v)) as Ev by (unfold take_over, inherit; cbn [rt_Scope]; by rewrite Es).
  rewrite Ev. destruct (ScopesCover _ _); cbn [negb]; [|refused].
  assert (at_most_one (λ r, bool_decide (rt_Hash (rf r) = h)) (t_refresh d)) as Hone by (by apply one_refresh).
  rewrite (affected_one _ _ i r) by (done || by apply bool_decide_eq_true). rewrite (decide_False (P := 1%nat ≠ 1%nat)) by auto.
  set (d1 := with_refresh _ d). set (m1 := set_refresh (<[i:=mrt_consume now t]> (refresh m)) m).
  assert (same_grants d1 m1) as Hsg1.
  { apply sg_with_refresh; [done|]. apply (update_one_related _ _ _ _ _ _ r); [done|apply Hsg|done|by apply bool_decide_eq_true|]. split_and!; [by unfold same_refresh in *|done|done]. }
  assert (wf d1) as Hwf1 by (by apply wf_mark_refresh).
  destruct (wf_owners d Hwf r Hr) as (Hrf & Hru & Hrs & Hrr).
  assert (∃ scope, rt_Scope (take_over (rf r) v) = Some scope) as [scope Hsc].
  { cbn. destruct (rt_Scope v); [by eexists|]. specialize (Hscope eq_refl r Hr Hh). destruct (elems (rt_Scope (rf r))); [done|by eexists]. }
  destruct (insert_refresh_agrees (take_over (rf r) v) (inherit (mrt_token t) v) scope d1 m1) as (d' & -> & Hwf' & Hsg'); cbn; try done.
  - by replace (rt_ClientID v) with (rt_ClientID (rf r)) by (apply dec_stable; naive_solver).
  - by rewrite update_key.
  - intros x (y & Hy & ->)%marked_refresh Hxy; [|done]. rewrite (wf_families d Hwf y r Hy Hr Hxy). by apply dec_stable.
  - unfold same_token. cbn in *. rewrite <- Ev, Hsc. cbn. rewrite E. cbn. unfold take_over, inherit, rt_with_Scope. cbn. by rewrite E in Hsc; cbn in Hsc; rewrite Hsc.
  - split; [|done]. cbn [same_answer snd]. rewrite Es. by apply same_token_copy.
Qed.

Lemma revoke_refresh_agrees h c now d m : same_grants d m → wf d → agrees (same_answer eq) (pg_RevokeRefreshToken d h c now) (RevokeRefreshToken m h c now).
Proof.
  intros Hsg Hwf. unfold pg_RevokeRefreshToken, RevokeRefreshToken.
  destruct (found same_refresh (λ r, bool_decide (rt_Hash (rf r) = h) && bool_decide (rt_ClientID (rf r) = c))
    (λ t, ¬ (rt_Hash (mrt_token t) ≠ h ∨ rt_ClientID (mrt_token t) ≠ c)) _ _ (sg_refresh _ _ Hsg))
    as [(-> & -> & _)|(i & r & t & -> & -> & Hi & Hk & (E & _) & HP & _)].
  { intros x y [-> _]. cbn. rewrite andb_true_iff, !bool_decide_eq_true. split; [tauto|]. intros Hn. split; apply dec_stable; tauto. }
  { refused. }
  assert (r ∈ t_refresh d) as Hr by (by eapply list_elem_of_lookup_2). apply andb_true_iff in HP as [_ HP%bool_decide_eq_true].
  rewrite decide_False.
  2: { rewrite affected_none. intros Hno. pose proof (query_row_None _ _ r Hno Hr) as Hf. cbn in Hf. by rewrite HP, !bool_decide_true in Hf. }
  replace (rt_FamilyID (mrt_token t)) with (rt_FamilyID (rf r)) by (by rewrite E).
  rewrite (update_ext _ (λ x, bool_decide (rt_FamilyID (rf x) = rt_FamilyID (rf r)))).
  { split; [done|]. split; [by apply revoke_family_same|by apply revoke_family_wf]. }
  intros x Hx. case_bool_decide as Hf; [|done]. apply bool_decide_true. rewrite <- HP. by apply (wf_families d Hwf).
Qed.

(** ** Consents *)

Lemma elem_of_sorted_scopes x l : x ∈ sorted_scopes l ↔ x ∈ l.
Proof. unfold sorted_scopes. rewrite merge_sort_Permutation. apply elem_of_remove_dups. Qed.

Lemma one_consent u c d : wf d → at_most_one (λ r, bool_decide (co_UserID r = u) && bool_decide (co_ClientID r = c)) (t_consents d).
Proof.
  intros Hwf. eapply at_most_one_weaken; [apply (at_most_one_key (λ r, (co_UserID r, co_ClientID r)) _ (u, c)), Hwf|].
  intros r. cbn. rewrite andb_true_iff, !bool_decide_eq_true. by intros [-> ->].
Qed.
Lemma find_consent u c d m : same_grants d m → wf d →
  (query_row (λ r, bool_decide (co_UserID r = u) && bool_decide (co_ClientID r = c)) (t_consents d) = None ∧
   list_find (λ v, co_UserID v = u ∧ co_ClientID v = c) (consents m) = None) ∨
  ∃ i r v, query_row (λ r, bool_decide (co_UserID r = u) && bool_decide (co_ClientID r = c)) (t_consents d) = Some r ∧
    list_find (λ v, co_UserID v = u ∧ co_ClientID v = c) (consents m) = Some (i, v) ∧
    t_consents d !! i = Some r ∧ consents m !! i = Some v ∧ same_consent r v ∧ co_UserID r = u ∧ co_ClientID r = c.
Proof.
  intros Hsg Hwf. destruct (found same_consent (λ r, bool_decide (co_UserID r = u) && bool_decide (co_ClientID r = c)) (λ v, co_UserID v = u ∧ co_ClientID v = c)
    _ _ (sg_consents _ _ Hsg)) as [(? & ? & _)|(i & r & v & ? & ? & ? & ? & ? & HP & _)]; [|by left|right].
  - intros x y (-> & -> & _). by rewrite andb_true_iff, !bool_decide_eq_true.
  - apply andb_true_iff in HP as [HP1%bool_decide_eq_true HP2%bool_decide_eq_true]. naive_solver.
Qed.

Lemma upsert_consent_agrees u c scopes now d m : same_grants d m → wf d → whole now →
  let up := upsert_consent u c scopes now (t_consents d) in
  let gr := grantConsentLocked m u c scopes now in
  same_consent up.2 gr.2 ∧ same_grants (with_consents up.1 d) gr.1 ∧ wf (with_consents up.1 d).
Proof.
  intros Hsg Hwf Hnow. unfold upsert_consent, upsert, grantConsentLocked. rewrite Hnow.
  destruct (find_consent u c d m Hsg Hwf) as [[Hq ->]|(i & r & v & -> & -> & Hi & Hk & Hrv & Hu & Hc)].
  - rewrite Hq. assert (same_consent {| co_UserID := u; co_ClientID := c; co_Scopes := scopes; co_GrantedAt := now; co_UpdatedAt := now |}
      {| co_UserID := u; co_ClientID := c; co_Scopes := mergeScopes [] scopes; co_GrantedAt := now; co_UpdatedAt := now |}) as Hsame.
    { split_and!; [done..|]. intros x. cbn. rewrite elem_of_mergeScopes. set_solver. }
    split_and!; [done| |].
    + apply sg_with_consents; [done|]. apply Forall2_app; [apply Hsg|by constructor].
    + apply wf_with_consents; [done|]. cbn [fst]. rewrite fmap_app. apply NoDup_snoc; [apply Hwf|]. intros (r & Heq & Hr)%list_elem_of_fmap. injection Heq as Eu Ec.
      pose proof (query_row_None _ _ r Hq Hr) as Hno. cbn in Hno. by rewrite <- Eu, <- Ec, !bool_decide_true in Hno.
  - cbn. set (r' := Build_Consent _ _ _ _ _). set (v' := Build_Consent _ _ (mergeScopes _ _) _ _).
    assert (same_consent r' v') as Hsame.
    { destruct Hrv as (E1 & E2 & E3 & E4 & E5). split_and!; [done..|]. intros x. cbn. rewrite elem_of_sorted_scopes, elem_of_mergeScopes. set_solver. }
    split_and!; [done| |].
    + apply sg_with_consents; [done|]. apply (update_one_related _ _ _ _ _ _ r); [by apply one_consent|apply Hsg|done| |done].
      by rewrite Hu, Hc, !bool_decide_true.
    + apply wf_with_consents; [done|]. by rewrite update_key; [apply Hwf|].
Qed.

Lemma grant_consent_agrees u c scopes now d m : same_grants d m → wf d → op_ok d (OpGrantConsent u c scopes now) →
  agrees (same_answer same_consent) (pg_GrantConsent d u c scopes now) (GrantConsent m u c scopes now).
Proof.
  intros Hsg Hwf ([_ Hu] & Hr & Hnow). unfold pg_GrantConsent, GrantConsent. rewrite Hu, Hr.
  destruct (upsert_consent_agrees u c scopes now d m Hsg Hwf Hnow) as (? & ? & ?).
  by destruct (upsert_consent _ _ _ _ _), (grantConsentLocked _ _ _ _ _).
Qed.

Lemma delete_consent_agrees u c now d m : same_grants d m → wf d → op_ok d (OpDeleteConsent u c now) →
  agrees (same_answer eq) (pg_DeleteConsent d u c now) (DeleteConsent m u c now).
Proof.
  intros Hsg Hwf ([_ Hu] & Hnow). unfold pg_DeleteConsent, DeleteConsent. rewrite Hu.
  destruct (find_consent u c d m Hsg Hwf) as [[Hq ->]|(i & r & v & Hq & -> & Hi & Hk & Hrv & Eu & Ec)].
  { rewrite decide_True by (by apply affected_none). refused. }
  rewrite decide_False by (by rewrite affected_none, Hq). split; [done|]. split.
  - apply (deny_where_same _ (λ v, da_UserID v = u ∧ da_ClientID v = c ∧ da_Status v = DeviceApproved)).
    + apply revoke_where_same. apply sg_with_consents; [done|]. apply delete_related; [by apply one_consent|apply Hsg|].
      exists r. split; [done|]. by rewrite Eu, Ec, !bool_decide_true.
    + intros a w Haw. rewrite !andb_true_iff, !bool_decide_eq_true, (sd_user _ _ Haw), (sd_client _ _ Haw), (sd_status _ _ Haw). tauto.
    + intros w (_ & _ & ->). done.
  - apply deny_where_wf, revoke_where_wf. apply wf_with_consents; [done|]. apply NoDup_delete_rows, Hwf.
Qed.

(** ** Devices *)

Lemma seconds_of k : Z.quot (k * Second) Second = k.
Proof. by apply Z.quot_mul. Qed.

Lemma save_device_agrees v d m : same_grants d m → wf d → op_ok d (OpSaveDeviceAuthorization v) →
  agrees (same_answer eq) (pg_SaveDeviceAuthorization d v) (SaveDeviceAuthorization m v).
Proof.
  intros Hsg Hwf (Hr & Hu & Hst & Hat & Hms & H1 & H2 & Hp & (k & Hk & Hk1 & Hk2) & Hnew & Hnewu). unfold pg_SaveDeviceAuthorization, SaveDeviceAuthorization.
  rewrite Hk, seconds_of, Hr, H1, H2. unfold int4. rewrite !bool_decide_true by lia. cbn [andb].
  rewrite insert_row_fresh.
  - split; [done|]. split; cbn.
    + apply sg_with_devices; [done|]. apply Forall2_app; [apply Hsg|]. constructor; [|done]. split; cbn; try done. by rewrite Hst.
    + split; cbn; try apply Hwf.
      * rewrite fmap_app. apply NoDup_snoc; [apply Hwf|done].
      * rewrite fmap_app. apply NoDup_snoc; [apply Hwf|done].
      * intros r [Hin| ->%list_elem_of_singleton]%elem_of_app; [by apply (wf_intervals _ Hwf)|]. by exists k.
  - intros x Hx. apply orb_false_iff. rewrite !bool_decide_eq_false.
    split; [by apply (not_a_key (λ r, da_DeviceHash (dv r)) _ _ Hnew)|by apply (not_a_key (λ r, da_UserHash (dv r)) _ _ Hnewu)].
Qed.

Lemma pending_open h now a v : same_device (dv a) v → device_pending h now a = true ↔ device_open h now v.
Proof.
  intros Hs. unfold device_pending, device_open, After. rewrite !andb_true_iff, !bool_decide_eq_true.
  rewrite (sd_user_code _ _ Hs), (sd_status _ _ Hs), (sd_expires _ _ Hs). tauto.
Qed.
Lemma one_pending h now d : wf d → at_most_one (device_pending h now) (t_devices d).
Proof. intros Hwf. eapply at_most_one_weaken; [by apply (one_user_code h)|]. intros r. cbn. unfold device_pending. rewrite !andb_true_iff. tauto. Qed.

Lemma decided_same u t ms l s a v : same_device a v → s ≠ DeviceConsumed → da_Status v ≠ DeviceConsumed → same_device (da_decided u t ms l s a) (da_decided u t ms l s v).
Proof. intros [] Hs Hv. split; cbn; auto. Qed.

Lemma decide_device_agrees h u t ms l approve now d m : same_grants d m → wf d → op_ok d (OpDecideDeviceAuthorization h u t ms l approve now) →
  agrees (same_answer eq) (pg_DecideDeviceAuthorization d h u t ms l approve now) (DecideDeviceAuthorization m h u t ms l approve now).
Proof.
  intros Hsg Hwf ([_ Hu] & Hin & Ht & Hnow). unfold pg_DecideDeviceAuthorization, DecideDeviceAuthorization, update_returning. rewrite Hu, Ht, Hnow.
  destruct (found (λ r, same_device (dv r)) (device_pending h now) (device_open h now) _ _ (sg_devices _ _ Hsg))
    as [(-> & -> & _)|(i & r & v & -> & -> & Hi & Hk & Hs & HP & (_ & _ & Hst))]; [by intros ? ?; apply pending_open|refused|].
  assert (∀ s, s ≠ DeviceConsumed → same_grants (with_devices (update (device_pending h now) (device_decided u t ms l s now) (t_devices d)) d)
                 (set_devices (<[i:=da_decided u t ms l s v]> (devices m)) m)) as Hdec.
  { intros s Hns. apply sg_with_devices; [done|]. apply (update_one_related _ _ _ _ _ _ r); [by apply one_pending|apply Hsg|done|done|].
    apply decided_same; [done|done|by rewrite Hst]. }
  assert (∀ s, wf (with_devices (update (device_pending h now) (device_decided u t ms l s now) (t_devices d)) d)) as Hwfd.
  { intros s. apply wf_update_devices; [done|done|]. intros x Hx _. apply (wf_intervals _ Hwf x Hx). }
  cbn [fmap option_fmap option_map]. rewrite bool_decide_true by done. cbn [negb]. destruct approve; [|by split; [|split; [apply Hdec|apply Hwfd]]].
  cbn [dv device_decided da_ClientID da_Scope da_decided]. rewrite (sd_client _ _ Hs), (sd_scope _ _ Hs).
  destruct (upsert_consent_agrees u (da_ClientID v) (da_Scope v) now _ _ (Hdec DeviceApproved ltac:(done)) (Hwfd _) Hnow) as (_ & Hg & Hw).
  cbn [t_consents with_devices] in Hg, Hw |- *. destruct (upsert_consent _ _ _ _ _) as [rows row]. by split.
Qed.

Lemma polled_same k at_ a v : same_device a v → same_device (da_with_poll k at_ a) (da_with_poll k at_ v).
Proof. intros []. split; cbn; auto. Qed.
Lemma redeemed_same a v : same_device a v → same_device (da_with_Status DeviceConsumed a) (da_with_Status DeviceConsumed v).
Proof. intros []. split; cbn; auto; done. Qed.
(** What happens to a redeemed device's polls does not count. *)
Lemma consumed_poll_same k at_ a v : same_device a v → da_Status v = DeviceConsumed → same_device a (da_with_poll k at_ v).
Proof. intros [] Hv. split; cbn; auto. intros Hn. by destruct Hn. Qed.
Lemma consumed_row_poll_same k at_ a v : same_device a v → da_Status v = DeviceConsumed → same_device (da_with_poll k at_ a) v.
Proof. intros [] Hv. split; cbn; auto. intros Hn. by destruct Hn. Qed.

(** One device after a step of both. *)
Lemma put_same h f y i r d m : same_grants d m → wf d → t_devices d !! i = Some r → da_DeviceHash (dv r) = h → same_device (dv (f r)) y →
  same_grants (with_devices (update (λ r, bool_decide (da_DeviceHash (dv r) = h)) f (t_devices d)) d) (set_devices (<[i:=y]> (devices m)) m).
Proof.
  intros Hsg Hwf Hi Hh Hs. apply sg_with_devices; [done|].
  apply (update_one_related _ _ _ _ _ _ r); [by apply one_device|apply Hsg|done|by apply bool_decide_eq_true|done].
Qed.
Lemma keep_same y i r d m : same_grants d m → t_devices d !! i = Some r → same_device (dv r) y → same_grants d (set_devices (<[i:=y]> (devices m)) m).
Proof.
  intros Hsg Hi Hs. pose proof (sg_with_devices (t_devices d) (<[i:=y]> (devices m)) d m Hsg) as Hk. replace (with_devices (t_devices d) d) with d in Hk by by destruct d.
  apply Hk. rewrite <- (list_insert_id (t_devices d) i r) by done. apply Forall2_insert; [apply Hsg|done].
Qed.
Lemma wf_poll h k n d : wf d → 0 < k < 2 ^ 31 → wf (with_devices (update (λ r, bool_decide (da_DeviceHash (dv r) = h)) (device_polled (k * Second) n) (t_devices d)) d).
Proof. intros Hwf Hk. apply wf_update_devices; [done|done|]. intros r Hr _. by exists k. Qed.
Lemma wf_stamp h n d : wf d → wf (with_devices (update (λ r, bool_decide (da_DeviceHash (dv r) = h)) (λ r, device_polled (da_Interval (dv r)) n r) (t_devices d)) d).
Proof. intros Hwf. apply wf_update_devices; [done|done|]. intros r Hr _. apply (wf_intervals d Hwf r Hr). Qed.
Lemma wf_redeem h n d : wf d → wf (with_devices (update (λ r, bool_decide (da_DeviceHash (dv r) = h)) (device_redeemed n) (t_devices d)) d).
Proof. intros Hwf. apply wf_update_devices; [done|done|]. intros r Hr _. apply (wf_intervals d Hwf r Hr). Qed.

(** The interval grows by five seconds, in whole seconds. *)
Lemma slower k : 0 < k → k * Second < (2 ^ 31 - 5) * Second →
  wrap64 (k * Second + 5 * Second) = (k + 5) * Second ∧ Z.quot (wrap64 (k * Second + 5 * Second)) Second = k + 5 ∧ 0 < k + 5 < 2 ^ 31.
Proof.
  intros Hk Hm. assert (k < 2 ^ 31 - 5) by (unfold Second in *; lia). replace (k * Second + 5 * Second) with ((k + 5) * Second) by lia.
  rewrite wrap64_id by (unfold in_int64, min_int64, max_int64, Second; lia). rewrite seconds_of. lia.
Qed.

Lemma poll_agrees h c now d m : same_grants d m → wf d → op_ok d (OpPollDeviceAuthorization h c now) →
  agrees (same_answer (λ a b, same_device (da_with_Status DeviceConsumed a) b ∧ da_AssuranceLevel a = da_AssuranceLevel b))
    (pg_PollDeviceAuthorization d h c now) (PollDeviceAuthorization m h c now).
Proof.
  intros Hsg Hwf (Hnow & Hmax). unfold pg_PollDeviceAuthorization, PollDeviceAuthorization. rewrite Hnow.
  destruct (found (λ r, same_device (dv r)) (λ r, bool_decide (da_DeviceHash (dv r) = h) && bool_decide (da_ClientID (dv r) = c))
    (λ v, ¬ (da_DeviceHash v ≠ h ∨ da_ClientID v ≠ c)) _ _ (sg_devices _ _ Hsg)) as [(-> & -> & _)|(i & r & v & -> & -> & Hi & Hk & Hs & HP & _)].
  { intros x y Hs. rewrite andb_true_iff, !bool_decide_eq_true, (sd_device _ _ Hs), (sd_client _ _ Hs). split; [tauto|]. intros Hn. split; apply dec_stable; tauto. }
  { refused. }
  apply andb_true_iff in HP as [HP%bool_decide_eq_true _]. assert (r ∈ t_devices d) as Hr by (by eapply list_elem_of_lookup_2).
  rewrite (sd_expires _ _ Hs). destruct (After _ now); cbn [negb]; [|refused].
  destruct (wf_intervals d Hwf r Hr) as (k & Hik & Hk1 & Hk2). specialize (Hmax r Hr HP). rewrite Hik in Hmax.
  destruct (slower k Hk1 Hmax) as (Ew & Eq & Hk5). rewrite Hik, Eq, (sd_status _ _ Hs). unfold int4. rewrite !bool_decide_true by lia. cbn [andb].
  assert (∀ e, agrees (same_answer (λ a b, same_device (da_with_Status DeviceConsumed a) b ∧ da_AssuranceLevel a = da_AssuranceLevel b))
    (with_devices (update (λ r, bool_decide (da_DeviceHash (dv r) = h)) (device_polled ((k + 5) * Second) now) (t_devices d)) d, Err (Known ErrSlowDown))
    (set_devices (<[i:=da_with_poll (wrap64 (da_Interval v + 5 * Second)) now v]> (devices m)) m, Err e) ↔ alike ErrSlowDown e) as Hslow.
  { intros e'. split; [by intros (? & _)|]. intros He. split; [done|]. split; [|by apply wf_poll]. cbn [fst]. apply (put_same _ _ _ _ r); try done.
    destruct (decide (da_Status v = DeviceConsumed)) as [Hv|Hv].
    - apply consumed_poll_same; [|done]. by apply consumed_row_poll_same.
    - destruct (sd_polls _ _ Hs Hv) as [Ei _]. rewrite <- Ei, Hik, Ew. by apply polled_same. }
  destruct (decide (da_Status v = DeviceConsumed)) as [Hv|Hv].
  - rewrite Hv. cbn [da_Status da_with_poll]. rewrite Hv.
    destruct (polled_too_soon v now), (polled_too_soon (dv r) now); try (by apply Hslow; unfold alike; auto).
    + split; [cbn; unfold alike; auto|]. split; [|done]. apply (keep_same _ _ r); [done|done|]. by apply consumed_poll_same.
    + split; [cbn; unfold alike; auto 6|]. split; [|by apply wf_poll]. apply (put_same _ _ _ _ r); try done.
      apply consumed_poll_same; [|done]. by apply consumed_row_poll_same.
    + split; [by apply alike_refl|]. split; [|done]. apply (keep_same _ _ r); [done|done|]. by apply consumed_poll_same.
  - destruct (sd_polls _ _ Hs Hv) as [Ei El]. unfold polled_too_soon at 1. rewrite El, Ei. fold (polled_too_soon v now).
    destruct (polled_too_soon v now); [by apply Hslow|]. cbn [da_Status da_with_poll].
    assert (same_grants (with_devices (update (λ r, bool_decide (da_DeviceHash (dv r) = h)) (λ r, device_polled (da_Interval (dv r)) now r) (t_devices d)) d)
      (set_devices (<[i:=da_with_poll (da_Interval v) now v]> (devices m)) m)) as Hstamp.
    { apply (put_same _ _ _ _ r); try done. cbn. rewrite Ei. by apply polled_same. }
    pose proof (wf_stamp h now d Hwf) as Hwfs. destruct (da_Status v) eqn:Es; [by split; [apply alike_refl|]| |by split; [apply alike_refl|]|done].
    split; [|split].
    + split; [|by apply (sd_assurance _ _ Hs)]. apply (consumed_poll_same _ _ _ (da_with_Status DeviceConsumed v)); [|done]. by apply redeemed_same.
    + pose proof (put_same h (device_redeemed now) (da_with_Status DeviceConsumed (da_with_poll (da_Interval v) now v)) i (device_polled (da_Interval (dv r)) now r) _ _ Hstamp Hwfs) as Hput.
      cbn in Hput. rewrite list_insert_insert_eq in Hput. apply Hput; [|done|].
      * rewrite (update_one _ _ _ i r); [|by apply one_device|done|by apply bool_decide_eq_true]. apply list_lookup_insert_eq. by eapply lookup_lt_Some.
      * apply redeemed_same. rewrite Ei. by apply polled_same.
    + by apply wf_redeem.
Qed.

(** ** Sessions of applications *)

Lemma one_client_session s c d : wf d → at_most_one (λ r, bool_decide (os_SessionID r = s) && bool_decide (os_ClientID r = c)) (t_client_sessions d).
Proof.
  intros Hwf. eapply at_most_one_weaken; [apply (at_most_one_key (λ r, (os_SessionID r, os_ClientID r)) _ (s, c)), Hwf|].
  intros r. cbn. rewrite andb_true_iff, !bool_decide_eq_true. by intros [-> ->].
Qed.

Lemma save_client_session_agrees v d m : same_grants d m → wf d → op_ok d (OpSaveOIDCClientSession v) →
  agrees (same_answer eq) (pg_SaveOIDCClientSession d v) (SaveOIDCClientSession m v).
Proof.
  intros Hsg Hwf ([_ Hs] & [_ Hu] & Hr & Hc). unfold pg_SaveOIDCClientSession, SaveOIDCClientSession, upsert. rewrite Hs, Hu, Hr, Hc.
  replace {| os_SessionID := os_SessionID v; os_ClientID := os_ClientID v; os_UserID := os_UserID v; os_CreatedAt := os_CreatedAt v |} with v by (by destruct v).
  rewrite <- (sg_sessions _ _ Hsg).
  assert (Forall2 eq (t_client_sessions d) (t_client_sessions d)) as Heq by (by reflexivity).
  destruct (found eq (λ r, bool_decide (os_SessionID r = os_SessionID v) && bool_decide (os_ClientID r = os_ClientID v))
    (λ s, os_SessionID s = os_SessionID v ∧ os_ClientID s = os_ClientID v) _ _ Heq)
    as [(Hq & -> & _)|(i & r & _ & Hq & -> & Hi & _ & <- & HP & HQ)]; [intros x _ <-; by rewrite andb_true_iff, !bool_decide_eq_true| |]; rewrite Hq.
  - split; [done|]. split; [by apply sg_with_client_sessions|]. apply wf_with_client_sessions; [done|]. cbn [fst]. rewrite fmap_app.
    apply NoDup_snoc; [apply Hwf|]. intros (r & E & Hin)%list_elem_of_fmap. injection E as E1 E2.
    pose proof (query_row_None _ _ r Hq Hin) as Hno. cbn in Hno. by rewrite E1, E2, !bool_decide_true in Hno.
  - split; [done|]. cbn [fst]. rewrite (update_one _ _ _ i r); [|by apply one_client_session|done|done].
    split; [by apply sg_with_client_sessions|]. apply wf_with_client_sessions; [done|]. rewrite list_fmap_insert.
    replace (os_SessionID v, os_ClientID v) with (os_SessionID r, os_ClientID r) by (destruct HQ; congruence).
    rewrite list_insert_id; [apply Hwf|]. by rewrite list_lookup_fmap, Hi.
Qed.

Lemma delete_rows_filter {R} (P : R → bool) (Q : R → Prop) `{∀ r, Decision (Q r)} l : (∀ r, P r = true ↔ ¬ Q r) → delete_rows P l = filter Q l.
Proof.
  intros HPQ. induction l as [|x l IH]; [done|]. unfold delete_rows in *. cbn [List.filter]. rewrite filter_cons, IH. specialize (HPQ x).
  destruct (P x), (decide (Q x)); cbn; try done; naive_solver.
Qed.
Lemma delete_client_sessions_agrees s d m : same_grants d m → wf d → canonical s → agrees (same_answer eq) (pg_DeleteOIDCClientSessions d s) (DeleteOIDCClientSessions m s).
Proof.
  intros Hsg Hwf [_ Hs]. unfold pg_DeleteOIDCClientSessions, DeleteOIDCClientSessions. rewrite Hs, <- (sg_sessions _ _ Hsg). split; [done|]. split.
  - cbn [fst]. rewrite (delete_rows_filter _ (λ r, os_SessionID r ≠ s)); [by apply sg_with_client_sessions|].
    intros r. rewrite bool_decide_eq_true. split; [auto|]. apply dec_stable.
  - apply wf_with_client_sessions; [done|]. by apply NoDup_delete_rows, Hwf.
Qed.

(** ** Bulk revocation *)

Lemma revoke_session_agrees u s now d m : same_grants d m → wf d → op_ok d (OpRevokeSessionTokens u s now) →
  agrees (same_answer eq) (pg_RevokeSessionTokens d u s now) (RevokeSessionTokens m u s now).
Proof.
  intros Hsg Hwf ([_ Hu] & [_ Hs] & Hnow). unfold pg_RevokeSessionTokens, RevokeSessionTokens. rewrite Hu, Hs.
  split; [done|]. split; [by apply revoke_where_same|by apply revoke_where_wf].
Qed.
Lemma revoke_user_agrees u e now d m : same_grants d m → wf d → op_ok d (OpRevokeUserTokens u e now) →
  agrees (same_answer eq) (pg_RevokeUserTokens d u e now) (RevokeUserTokens m u e now).
Proof.
  intros Hsg Hwf ([_ Hu] & He & Hnow). unfold pg_RevokeUserTokens, RevokeUserTokens. rewrite Hu, canonical_or_none_in by done.
  split; [done|]. split; [|by apply deny_where_wf, revoke_where_wf].
  apply (deny_where_same _ (λ v, da_UserID v = u ∧ da_Status v = DeviceApproved)); [by apply revoke_where_same| |by intros v (_ & ->)].
  intros a v Hs. by rewrite !andb_true_iff, !bool_decide_eq_true, (sd_user _ _ Hs), (sd_status _ _ Hs).
Qed.
Lemma revoke_client_agrees c now d m : same_grants d m → wf d → agrees (same_answer eq) (pg_RevokeClientTokens d c now) (RevokeClientTokens m c now).
Proof.
  intros Hsg Hwf. split; [done|]. split; [|by apply deny_where_wf, revoke_where_wf].
  apply (deny_where_same _ (λ v, da_ClientID v = c ∧ (da_Status v = DevicePending ∨ da_Status v = DeviceApproved)));
    [by apply revoke_where_same| |by intros v (_ & [-> | ->])].
  intros a v Hs. by rewrite !andb_true_iff, !bool_decide_eq_true, (sd_client _ _ Hs), (sd_status _ _ Hs).
Qed.

(** ** Every step *)

Lemma agrees_tag {A B} (RA : A → B → Prop) (mk : A → PgResp) (mk' : B → StoreResp) x y :
  agrees RA x y → (∀ a b, RA a b → same_resp (mk a) (mk' b)) → agrees same_resp (pg_tag mk x) (tag mk' y).
Proof. intros (Ha & Hg & Hw) Hmk. split; [by apply Hmk|done]. Qed.

Lemma pg_step_agrees op d m : same_grants d m → wf d → op_ok d op → agrees same_resp (pg_step d op) (store_step m op).
Proof.
  intros Hsg Hwf Hop. destruct op; cbn [pg_step store_step].
  - eapply agrees_tag; [by apply save_code_agrees|done].
  - eapply agrees_tag; [by apply consume_code_agrees|done].
  - eapply agrees_tag; [by apply save_access_agrees|done].
  - eapply agrees_tag; [by apply revoke_access_agrees|done].
  - eapply agrees_tag; [by apply save_refresh_agrees|done].
  - eapply agrees_tag; [by apply rotate_agrees|done].
  - eapply agrees_tag; [by apply revoke_refresh_agrees|done].
  - eapply agrees_tag; [by apply save_device_agrees|done].
  - eapply agrees_tag; [by apply decide_device_agrees|done].
  - eapply agrees_tag; [by apply poll_agrees|done].
  - eapply agrees_tag; [by apply save_client_session_agrees|done].
  - eapply agrees_tag; [by apply delete_client_sessions_agrees|done].
  - eapply agrees_tag; [by apply revoke_session_agrees|done].
  - eapply agrees_tag; [by apply revoke_user_agrees|done].
  - eapply agrees_tag; [by apply revoke_client_agrees|done].
  - eapply agrees_tag; [by apply grant_consent_agrees|done].
  - eapply agrees_tag; [by apply delete_consent_agrees|done].
Qed.

(** ** Questions *)

Lemma same_listed_sorted {A} (R le1 le2 : A → A → Prop) `{!RelDecision le1, !RelDecision le2} l k : Forall2 R l k → same_listed R (merge_sort le1 l) (merge_sort le2 k).
Proof. intros Hlk. exists l, k. split; [apply merge_sort_Permutation|]. split; [apply merge_sort_Permutation|done]. Qed.
Lemma filter_bool {A} (P : A → Prop) `{∀ x, Decision (P x)} (l : list A) : filter P l = List.filter (λ x, bool_decide (P x)) l.
Proof. induction l as [|x l IH]; [done|]. rewrite filter_cons. cbn [List.filter]. rewrite IH. by destruct (decide (P x)); [rewrite bool_decide_true|rewrite bool_decide_false]. Qed.

Lemma reads_agree d m : same_grants d m → wf d → same_reads d m.
Proof.
  intros Hsg Hwf. split.
  - intros h now Hnow. unfold pg_FindAccessToken, FindAccessToken. rewrite Hnow.
    edestruct (found same_access) as [(-> & -> & _)|(i & r & t & -> & -> & _ & _ & [E _] & _)]; [apply Hsg| |by apply alike_refl|by rewrite <- E].
    intros x y [E Hv]. apply same_mark_none in Hv. cbn. rewrite !andb_true_iff, !bool_decide_eq_true, E. unfold After. rewrite bool_decide_eq_true. tauto.
  - intros h now Hnow. unfold pg_FindRefreshToken, FindRefreshToken. rewrite Hnow.
    edestruct (found same_refresh) as [(-> & -> & _)|(i & r & t & -> & -> & _ & _ & [E _] & _)]; [apply Hsg| |by apply alike_refl|by apply same_token_copy].
    intros x y (E & Hc & Hv). apply same_mark_none in Hv, Hc. cbn. rewrite !andb_true_iff, !bool_decide_eq_true, E. unfold After. rewrite bool_decide_eq_true. cbn. tauto.
  - intros h now Hnow. unfold pg_FindDeviceByUserCode, FindDeviceByUserCode. rewrite Hnow.
    destruct (found (λ r, same_device (dv r)) (device_pending h now) (device_open h now) _ _ (sg_devices _ _ Hsg))
      as [(-> & -> & _)|(i & r & v & -> & -> & _ & _ & Hs & _)]; [by intros ? ?; apply pending_open|by apply alike_refl|done].
  - intros s [_ Hs]. unfold pg_ListOIDCClientSessions, ListOIDCClientSessions. rewrite Hs, (sg_sessions _ _ Hsg).
    eexists _, _. split; [apply merge_sort_Permutation|]. split; [done|]. by reflexivity.
  - intros u c [_ Hu]. unfold pg_FindConsent, FindConsent. rewrite Hu.
    destruct (find_consent u c d m Hsg Hwf) as [[-> ->]|(i & r & v & -> & -> & _ & _ & Hs & _)]; [by apply alike_refl|done].
  - intros u [_ Hu]. unfold pg_ListConsentsByUser, ListConsentsByUser. rewrite Hu. apply same_listed_sorted. rewrite filter_bool.
    apply filter_related; [apply Hsg|]. intros x y (-> & _). by rewrite bool_decide_eq_true.
Qed.


End Ok.

(** ** An execution *)

Section PgExample.
(** A server that takes texts of 36 characters for identifiers. *)
#[local] Instance server : PgServer := {| uuid_in s := if decide (String.length s = 36%nat) then Some s else None; text_le := String.le; text_le_dec := _ |}.

Definition user : string := "6f1c2a34-0000-4000-8000-000000000001".
Definition session : string := "6f1c2a34-0000-4000-8000-000000000002".
Definition family : string := "6f1c2a34-0000-4000-8000-000000000003".
Definition t0 : Time := 1700000000 * Second.

Definition empty_tables : oauth_db :=
  {| t_codes := []; t_access := []; t_refresh := []; t_devices := []; t_client_sessions := []; t_consents := [];
     ref_clients := {["web"]}; ref_users := {[user]}; ref_sessions := {[session]} |}.
Definition code : AuthorizationCode :=
  {| ac_Hash := "code"; ac_ClientID := "web"; ac_UserID := user; ac_SessionID := session; ac_RedirectURI := "https://app/cb"; ac_Scope := ["openid"];
     ac_Nonce := "n"; ac_CodeChallenge := "ch"; ac_AuthenticatedAt := t0; ac_AuthMethods := ["pwd"]; ac_AssuranceLevel := "urn:certus:aal:1";
     ac_CreatedAt := t0; ac_ExpiresAt := t0 + 60 * Second |}.
Definition token (hash : string) : RefreshToken :=
  {| rt_Hash := hash; rt_FamilyID := family; rt_ClientID := "web"; rt_UserID := user; rt_SessionID := session; rt_Scope := Some ["openid"];
     rt_IssuedAt := t0; rt_ExpiresAt := t0 + 3600 * Second |}.
Definition device : DeviceAuthorization :=
  {| da_DeviceHash := "dev"; da_UserHash := "usr"; da_ClientID := "web"; da_UserID := ""; da_Scope := ["openid"]; da_Status := DevicePending;
     da_AuthenticatedAt := time_zero; da_AuthMethods := []; da_AssuranceLevel := ""; da_CreatedAt := t0; da_ExpiresAt := t0 + 600 * Second;
     da_Interval := 5 * Second; da_LastPollAt := None |}.

(** A code is redeemed twice, a refresh token is rotated and replayed, a device is
    approved and redeemed, and a consent is withdrawn. *)
Definition ops : list StoreOp :=
  [ OpSaveAuthorizationCode code;
    OpConsumeAuthorizationCode "code" "web" "https://app/cb" "ch" (t0 + Second);
    OpConsumeAuthorizationCode "code" "web" "https://app/cb" "ch" (t0 + Second);
    OpSaveRefreshToken (token "r1");
    OpRotateRefreshToken "r1" (token "r2") (t0 + 2 * Second);
    OpRotateRefreshToken "r1" (token "r3") (t0 + 3 * Second);
    OpSaveDeviceAuthorization device;
    OpPollDeviceAuthorization "dev" "web" (t0 + 4 * Second);
    OpPollDeviceAuthorization "dev" "web" (t0 + 5 * Second);
    OpDecideDeviceAuthorization "usr" user t0 ["pwd"] "urn:certus:aal:2" true (t0 + 6 * Second);
    OpPollDeviceAuthorization "dev" "web" (t0 + 30 * Second);
    OpPollDeviceAuthorization "dev" "web" (t0 + 60 * Second);
    OpDeleteConsent user "web" (t0 + 70 * Second) ].

Lemma all_rows {R} (P Q : R → Prop) l : Forall (λ r, P r → Q r) l → ∀ r, r ∈ l → P r → Q r.
Proof. rewrite Forall_forall. eauto. Qed.
(** The conditions on an operation, at a concrete state. *)
Ltac allowed :=
  repeat match goal with
    | |- _ ∧ _ => split
    | |- ∀ r, r ∈ _ → _ => apply all_rows, (bool_decide_unpack _); vm_compute; exact I
    | |- canonical_or_none _ => right
    | |- canonical _ => split; [discriminate|reflexivity]
    | |- _ ∉ _ => apply (bool_decide_unpack _); vm_compute; exact I
    | |- _ ∈ _ => apply (bool_decide_unpack _); vm_compute; exact I
    | |- ∃ k, _ => exists 5; split; [reflexivity|by vm_compute]
    | |- _ => first [vm_compute; reflexivity | intros; discriminate]
  end.
End PgExample.
