(* ===== verification/GoStrings.v ===== *)
(** The parts of Go's [strings], [unicode/utf8], [regexp] and [strconv] that the
    program uses, on byte strings: UTF-8 decoding, trimming, case mapping,
    splitting and joining, character-class patterns and decimal and hexadecimal
    formatting. The Unicode case tables are a parameter ([UnicodeTables]). *)
From S2P Require Import Prelude.
From stdpp Require Export pretty.
From Stdlib Require Export Ascii.
From Stdlib Require Strings.String.
Local Open Scope Z_scope.

Abbreviation list_ascii_of_string := Stdlib.Strings.String.list_ascii_of_string.
Abbreviation string_of_list_ascii := Stdlib.Strings.String.string_of_list_ascii.

(** ** Bytes *)

Definition byte_val (c : Ascii.ascii) : Z := Z.of_N (Ascii.N_of_ascii c).
Definition chr (z : Z) : Ascii.ascii := Ascii.ascii_of_N (Z.to_N (z mod 256)).
Definition bytes (s : string) : list Z := byte_val <$> list_ascii_of_string s.
Definition of_bytes (l : list Z) : string := string_of_list_ascii (chr <$> l).

(** [len(s)]. *)
Definition len (s : string) : Z := Z.of_nat (String.length s).

Definition is_byte (z : Z) : Prop := 0 ≤ z < 256.

Lemma byte_val_range c : is_byte (byte_val c).
Proof. unfold is_byte, byte_val. pose proof (Ascii.N_ascii_bounded c). lia. Qed.

Lemma chr_byte_val c : chr (byte_val c) = c.
Proof.
  unfold chr. rewrite Z.mod_small by apply byte_val_range.
  unfold byte_val. rewrite N2Z.id. apply Ascii.ascii_N_embedding.
Qed.

Lemma byte_val_chr z : is_byte z → byte_val (chr z) = z.
Proof.
  intros Hz. unfold chr, byte_val. rewrite Z.mod_small by done.
  rewrite Ascii.N_ascii_embedding by (unfold is_byte in Hz; lia). unfold is_byte in Hz. lia.
Qed.

Lemma of_bytes_bytes s : of_bytes (bytes s) = s.
Proof.
  unfold of_bytes, bytes. rewrite <-list_fmap_compose.
  rewrite (list_fmap_ext _ id (list_ascii_of_string s)) by (intros; apply chr_byte_val).
  rewrite list_fmap_id. apply Stdlib.Strings.String.string_of_list_ascii_of_string.
Qed.

Lemma bytes_of_bytes l : Forall is_byte l → bytes (of_bytes l) = l.
Proof.
  intros Hl. unfold of_bytes, bytes. rewrite Stdlib.Strings.String.list_ascii_of_string_of_list_ascii, <-list_fmap_compose.
  induction Hl as [|z l Hz _ IH]; simpl; [done|]. f_equal; [by apply byte_val_chr|exact IH].
Qed.

Lemma bytes_range s : Forall is_byte (bytes s).
Proof. apply Forall_fmap, Forall_true. intros. apply byte_val_range. Qed.

Lemma bytes_inj s t : bytes s = bytes t → s = t.
Proof. intros H. by rewrite <-(of_bytes_bytes s), H, of_bytes_bytes. Qed.

Lemma length_bytes s : Z.of_nat (length (bytes s)) = len s.
Proof.
  unfold bytes, len. rewrite length_fmap. f_equal.
  induction s as [|c s IH]; [done|]. cbn. by rewrite IH.
Qed.

Lemma bytes_app s t : bytes (s +:+ t) = bytes s ++ bytes t.
Proof. unfold bytes. rewrite <-fmap_app. f_equal. induction s; simpl; [done|]. cbn. by f_equal. Qed.

(** ** Runes *)

Definition RuneError : Z := 0xFFFD.
Definition is_cont (b : Z) : bool := bool_decide (0x80 ≤ b ≤ 0xBF).
Definition cont_bits (b : Z) : Z := Z.land b 0x3F.

(** [utf8.DecodeRune]: the rune at the start of a byte sequence and its width. *)
Definition DecodeRune (l : list Z) : Z * nat :=
  match l with
  | [] => (RuneError, 0%nat)
  | b0 :: rest =>
      if decide (b0 < 0x80) then (b0, 1%nat)
      else match rest with
      | b1 :: rest1 =>
          if decide (0xC2 ≤ b0 ≤ 0xDF) then
            if is_cont b1 then (Z.lor (Z.shiftl (Z.land b0 0x1F) 6) (cont_bits b1), 2%nat) else (RuneError, 1%nat)
          else match rest1 with
          | b2 :: rest2 =>
              if decide (0xE0 ≤ b0 ≤ 0xEF) then
                let lo := if decide (b0 = 0xE0) then 0xA0 else 0x80 in
                let hi := if decide (b0 = 0xED) then 0x9F else 0xBF in
                if decide (lo ≤ b1 ≤ hi) then
                  if is_cont b2
                  then (Z.lor (Z.shiftl (Z.land b0 0x0F) 12) (Z.lor (Z.shiftl (cont_bits b1) 6) (cont_bits b2)), 3%nat)
                  else (RuneError, 1%nat)
                else (RuneError, 1%nat)
              else match rest2 with
              | b3 :: _ =>
                  if decide (0xF0 ≤ b0 ≤ 0xF4) then
                    let lo := if decide (b0 = 0xF0) then 0x90 else 0x80 in
                    let hi := if decide (b0 = 0xF4) then 0x8F else 0xBF in
                    if decide (lo ≤ b1 ≤ hi) then
                      if is_cont b2 && is_cont b3
                      then (Z.lor (Z.shiftl (Z.land b0 0x07) 18)
                              (Z.lor (Z.shiftl (cont_bits b1) 12)
                                 (Z.lor (Z.shiftl (cont_bits b2) 6) (cont_bits b3))), 4%nat)
                      else (RuneError, 1%nat)
                    else (RuneError, 1%nat)
                  else (RuneError, 1%nat)
              | [] => (RuneError, 1%nat)
              end
          | [] => (RuneError, 1%nat)
          end
      | [] => (RuneError, 1%nat)
      end
  end.

(** The runes of a byte sequence, each with the bytes it was decoded from; [skip]
    bytes of the current rune are still to be passed over. *)
Fixpoint rune_chunks (skip : nat) (l : list Z) : list (Z * list Z) :=
  match l with
  | [] => []
  | _ :: rest =>
      match skip with
      | S k => rune_chunks k rest
      | O => let '(r, w) := DecodeRune l in (r, take w l) :: rune_chunks (w - 1) rest
      end
  end.

Definition chunks (s : string) : list (Z * list Z) := rune_chunks 0 (bytes s).
(** [[]rune(s)]. *)
Definition runes (s : string) : list Z := (chunks s).*1.
Definition rune_count (s : string) : Z := Z.of_nat (length (runes s)).
Definition unchunk (l : list (Z * list Z)) : string := of_bytes (concat l.*2).

(** [utf8.AppendRune]. *)
Definition encode_rune (r : Z) : list Z :=
  if decide (0 ≤ r < 0x80) then [r]
  else if decide (0 ≤ r < 0x800) then [Z.lor 0xC0 (Z.shiftr r 6); Z.lor 0x80 (Z.land r 0x3F)]
  else if decide (r < 0 ∨ 0x10FFFF < r ∨ 0xD800 ≤ r ≤ 0xDFFF) then [0xEF; 0xBF; 0xBD]
  else if decide (r < 0x10000)
  then [Z.lor 0xE0 (Z.shiftr r 12); Z.lor 0x80 (Z.land (Z.shiftr r 6) 0x3F); Z.lor 0x80 (Z.land r 0x3F)]
  else [Z.lor 0xF0 (Z.shiftr r 18); Z.lor 0x80 (Z.land (Z.shiftr r 12) 0x3F);
        Z.lor 0x80 (Z.land (Z.shiftr r 6) 0x3F); Z.lor 0x80 (Z.land r 0x3F)].

(** ** Space *)

(** [unicode.IsSpace]. *)
Definition IsSpace (r : Z) : bool :=
  bool_decide (9 ≤ r ≤ 13 ∨ r = 32 ∨ r = 0x85 ∨ r = 0xA0 ∨ r = 0x1680 ∨ 0x2000 ≤ r ≤ 0x200A ∨
               r = 0x2028 ∨ r = 0x2029 ∨ r = 0x202F ∨ r = 0x205F ∨ r = 0x3000).

Fixpoint drop_spaces (l : list (Z * list Z)) : list (Z * list Z) :=
  match l with
  | [] => []
  | c :: rest => if IsSpace c.1 then drop_spaces rest else l
  end.

(** [strings.TrimSpace]. *)
Definition TrimSpace (s : string) : string :=
  unchunk (reverse (drop_spaces (reverse (drop_spaces (chunks s))))).

(** [strings.Fields]: maximal runs of runes that are not spaces. *)
Fixpoint fields_aux (current : list (Z * list Z)) (l : list (Z * list Z)) : list string :=
  match l with
  | [] => match current with [] => [] | _ => [unchunk (reverse current)] end
  | c :: rest =>
      if IsSpace c.1
      then match current with [] => fields_aux [] rest | _ => unchunk (reverse current) :: fields_aux [] rest end
      else fields_aux (c :: current) rest
  end.
Definition Fields (s : string) : list string := fields_aux [] (chunks s).

(** ASCII bytes are runes of one byte. *)
Lemma rune_chunks_ascii l : Forall (λ b, 0 ≤ b < 128) l → rune_chunks 0 l = (λ b, (b, [b])) <$> l.
Proof.
  induction 1 as [|b l Hb _ IH]; [done|]. cbn [rune_chunks DecodeRune]. rewrite decide_True by lia.
  simpl. by rewrite IH.
Qed.

Lemma unchunk_ascii l : unchunk ((λ b, (b, [b])) <$> l) = of_bytes l.
Proof. unfold unchunk. f_equal. induction l as [|b l IH]; [done|]. simpl. f_equal. exact IH. Qed.

Lemma drop_spaces_id l : Forall (λ c, IsSpace c.1 = false) l → drop_spaces l = l.
Proof. destruct 1 as [|c l Hc _]; [done|]. simpl. by rewrite Hc. Qed.

(** A string of printable ASCII without spaces is already trimmed. *)
Lemma TrimSpace_id s : Forall (λ b, 33 ≤ b < 127) (bytes s) → TrimSpace s = s.
Proof.
  intros Hs. unfold TrimSpace, chunks. rewrite rune_chunks_ascii by (eapply Forall_impl; [exact Hs|simpl; lia]).
  assert (Forall (λ c : Z * list Z, IsSpace c.1 = false) ((λ b, (b, [b])) <$> bytes s)) as Hn.
  { apply Forall_fmap. eapply Forall_impl; [exact Hs|]. intros b Hb. simpl.
    apply bool_decide_eq_false. simpl in Hb. lia. }
  rewrite (drop_spaces_id _ Hn). rewrite drop_spaces_id by (by apply Forall_reverse).
  rewrite reverse_involutive, unchunk_ascii. apply of_bytes_bytes.
Qed.

(** ** Case *)

(** The case tables of package [unicode], for the runes beyond ASCII. [fold] is
    a representative of a rune's [SimpleFold] orbit. *)
Class UnicodeTables := {
  unicode_ToLower : Z → Z;
  unicode_ToUpper : Z → Z;
  unicode_fold : Z → Z;
}.

Definition ascii_lower (r : Z) : Z := if decide (65 ≤ r ≤ 90) then r + 32 else r.
Definition ascii_upper (r : Z) : Z := if decide (97 ≤ r ≤ 122) then r - 32 else r.
Definition is_ascii (s : string) : bool := forallb (λ b, b <? 128) (bytes s).

(** Tables without case beyond ASCII, to evaluate the model with. *)
Definition ascii_tables : UnicodeTables :=
  {| unicode_ToLower r := r; unicode_ToUpper r := r; unicode_fold r := r |}.

Section Case.
Context `{UnicodeTables}.

Definition rune_lower (r : Z) : Z := if decide (r < 128) then ascii_lower r else unicode_ToLower r.
Definition rune_upper (r : Z) : Z := if decide (r < 128) then ascii_upper r else unicode_ToUpper r.
Definition rune_fold (r : Z) : Z := if decide (r < 128) then ascii_lower r else unicode_fold r.

(** [strings.Map]. *)
Definition map_runes (f : Z → Z) (s : string) : string := of_bytes (concat ((λ r, encode_rune (f r)) <$> runes s)).

(** [strings.ToLower], [strings.ToUpper], [strings.EqualFold]. *)
Definition ToLower (s : string) : string :=
  if is_ascii s then of_bytes (ascii_lower <$> bytes s) else map_runes rune_lower s.
Definition ToUpper (s : string) : string :=
  if is_ascii s then of_bytes (ascii_upper <$> bytes s) else map_runes rune_upper s.
Definition folded (s : string) : list Z := rune_fold <$> runes s.
Definition EqualFold (s t : string) : bool := bool_decide (folded s = folded t).

Lemma EqualFold_true s t : EqualFold s t = true ↔ folded s = folded t.
Proof. apply bool_decide_eq_true. Qed.
Lemma EqualFold_refl s : EqualFold s s = true.
Proof. by apply EqualFold_true. Qed.
Lemma EqualFold_sym s t : EqualFold s t = EqualFold t s.
Proof. unfold EqualFold. by apply bool_decide_ext. Qed.
End Case.

#[local] Arguments Ascii.eqb : simpl never.

(** ** Searching, splitting and joining *)

(** [strings.HasPrefix], [strings.TrimPrefix]. *)
Fixpoint TrimPrefix_opt (prefix s : string) : option string :=
  match prefix, s with
  | EmptyString, _ => Some s
  | String a p, String b r => if Ascii.eqb a b then TrimPrefix_opt p r else None
  | _, _ => None
  end.
Definition HasPrefix (s prefix : string) : bool := bool_decide (is_Some (TrimPrefix_opt prefix s)).
Definition TrimPrefix (s prefix : string) : string := default s (TrimPrefix_opt prefix s).

(** [strings.Contains]. *)
Fixpoint StringContains (s sub : string) : bool :=
  HasPrefix s sub || match s with EmptyString => false | String _ r => StringContains r sub end.

(** [strings.Cut] at a one-byte separator. *)
Fixpoint Cut (s : string) (sep : Ascii.ascii) : option (string * string) :=
  match s with
  | EmptyString => None
  | String a r =>
      if Ascii.eqb a sep then Some (EmptyString, r)
      else match Cut r sep with Some (x, y) => Some (String a x, y) | None => None end
  end.

(** [strings.Split] at a one-byte separator: always at least one part. *)
Fixpoint Split (s : string) (sep : Ascii.ascii) : list string :=
  match s with
  | EmptyString => [EmptyString]
  | String a r =>
      if Ascii.eqb a sep then EmptyString :: Split r sep
      else match Split r sep with [] => [String a EmptyString] | x :: rest => String a x :: rest end
  end.

(** [strings.Join]. *)
Fixpoint Join (l : list string) (sep : string) : string :=
  match l with
  | [] => EmptyString
  | [x] => x
  | x :: rest => x +:+ sep +:+ Join rest sep
  end.

(** [strings.NewReplacer] deleting single bytes. *)
Definition delete_bytes (drop : list Ascii.ascii) (s : string) : string :=
  string_of_list_ascii (filter (λ c, c ∉ drop) (list_ascii_of_string s)).

(** [strings.Trim] with an ASCII cut set. *)
Fixpoint drop_while_in (cut : list Ascii.ascii) (l : list Ascii.ascii) : list Ascii.ascii :=
  match l with
  | [] => []
  | c :: rest => if decide (c ∈ cut) then drop_while_in cut rest else l
  end.
Definition Trim (s cutset : string) : string :=
  let cut := list_ascii_of_string cutset in
  string_of_list_ascii (reverse (drop_while_in cut (reverse (drop_while_in cut (list_ascii_of_string s))))).

Lemma Split_Cut s sep : Split s sep = match Cut s sep with Some (x, y) => x :: Split y sep | None => [s] end.
Proof.
  induction s as [|a r IH]; simpl; [done|].
  destruct (Ascii.eqb a sep); [done|]. rewrite IH. by destruct (Cut r sep) as [[x y]|].
Qed.

Lemma Cut_Some s sep x y : Cut s sep = Some (x, y) → s = x +:+ String sep y.
Proof.
  revert x. induction s as [|a r IH]; simpl; [done|]. intros x H.
  destruct (Ascii.eqb a sep) eqn:E.
  - apply Ascii.eqb_eq in E. by simplify_eq.
  - destruct (Cut r sep) as [[x' y']|] eqn:E'; simplify_eq/=. by rewrite (IH _ eq_refl).
Qed.

(** The separator does not occur in a string. *)
Definition no_byte (sep : Ascii.ascii) (s : string) : Prop := sep ∉ list_ascii_of_string s.
#[global] Instance no_byte_dec sep s : Decision (no_byte sep s).
Proof. unfold no_byte. apply _. Defined.

Lemma Cut_app x y sep : no_byte sep x → Cut (x +:+ String sep y) sep = Some (x, y).
Proof.
  unfold no_byte. induction x as [|a x IH]; cbn; intros Hx.
  - change (Cut (String sep y) sep = Some (EmptyString, y)). simpl. by rewrite Ascii.eqb_refl.
  - apply not_elem_of_cons in Hx as [Hne Hx].
    change (Cut (String a (x +:+ String sep y)) sep = Some (String a x, y)). simpl. destruct (Ascii.eqb a sep) eqn:E.
    + apply Ascii.eqb_eq in E. congruence.
    + by rewrite IH.
Qed.

Lemma Cut_None x sep : no_byte sep x → Cut x sep = None.
Proof.
  unfold no_byte. induction x as [|a x IH]; cbn; intros Hx; [done|].
  apply not_elem_of_cons in Hx as [Hne Hx]. destruct (Ascii.eqb a sep) eqn:E.
  - apply Ascii.eqb_eq in E. congruence.
  - by rewrite IH.
Qed.

Lemma TrimPrefix_opt_Some p s r : TrimPrefix_opt p s = Some r ↔ s = p +:+ r.
Proof.
  revert s. induction p as [|a p IH]; intros s.
  { change (Some s = Some r ↔ s = r). split; congruence. }
  change (String a p +:+ r) with (String a (p +:+ r)). destruct s as [|b s]; simpl; [done|].
  destruct (Ascii.eqb a b) eqn:E.
  - apply Ascii.eqb_eq in E as ->. rewrite IH. split; congruence.
  - apply Ascii.eqb_neq in E. split; congruence.
Qed.

Lemma HasPrefix_true s p : HasPrefix s p = true ↔ ∃ r, s = p +:+ r.
Proof.
  unfold HasPrefix. rewrite bool_decide_eq_true. split.
  - intros [r Hr]. exists r. by apply TrimPrefix_opt_Some.
  - intros [r Hr]. exists r. by apply TrimPrefix_opt_Some.
Qed.

Lemma TrimPrefix_app p r : TrimPrefix (p +:+ r) p = r.
Proof. unfold TrimPrefix. by rewrite (proj2 (TrimPrefix_opt_Some p (p +:+ r) r) eq_refl). Qed.

(** ** Character classes and patterns *)

Definition in_range (lo hi : Z) (b : Z) : bool := bool_decide (lo ≤ b ≤ hi).
Definition is_lower (b : Z) : bool := in_range 97 122 b.
Definition is_upper (b : Z) : bool := in_range 65 90 b.
Definition is_digit (b : Z) : bool := in_range 48 57 b.
Definition is_alnum_lower (b : Z) : bool := is_lower b || is_digit b.
Definition is_one_of (set : string) (b : Z) : bool := Contains (bytes set) b.

(** A pattern [^h t{lo,hi}$]: one byte of class [h], then [lo] to [hi] bytes of
    class [t]. *)
Definition match_head_tail (h t : Z → bool) (lo hi : nat) (s : string) : bool :=
  match bytes s with
  | [] => false
  | b :: rest => h b && forallb t rest && bool_decide (lo ≤ length rest ≤ hi)%nat
  end.

(** A pattern [^t{n}$]. *)
Definition match_exact (t : Z → bool) (n : nat) (s : string) : bool :=
  forallb t (bytes s) && bool_decide (length (bytes s) = n).

Lemma match_head_tail_length h t lo hi s :
  match_head_tail h t lo hi s = true → Z.of_nat lo + 1 ≤ len s ≤ Z.of_nat hi + 1.
Proof.
  unfold match_head_tail. rewrite <-length_bytes. destruct (bytes s) as [|b rest]; [done|].
  intros (_ & H)%andb_true_iff. apply bool_decide_eq_true in H. simpl length. lia.
Qed.

Lemma match_head_tail_class h t lo hi s (c : Z → bool) :
  (∀ b, h b = true → c b = true) → (∀ b, t b = true → c b = true) →
  match_head_tail h t lo hi s = true → forallb c (bytes s) = true.
Proof.
  unfold match_head_tail. intros Hh Ht. destruct (bytes s) as [|b rest]; [done|].
  intros ((Hb & Hrest)%andb_true_iff & _)%andb_true_iff. simpl. rewrite (Hh b Hb). simpl.
  rewrite forallb_forall in *. auto.
Qed.

(** ** Formatting *)

(** [strconv.FormatInt(z, 10)]. *)
Definition FormatInt (z : Z) : string := pretty z.

(** The decimal digits of a non-negative number, on [width] places. *)
Fixpoint digits (width : nat) (z : Z) : list Z :=
  match width with
  | O => []
  | S w => digits w (z / 10) ++ [48 + z mod 10]
  end.

(** [fmt.Sprintf("%0*d", width, z)] for a number of at most [width] digits. *)
Definition pad_decimal (width : nat) (z : Z) : string := of_bytes (digits width z).

Definition hex_digit (z : Z) : Z := if decide (z < 10) then 48 + z else 87 + z.
(** [fmt.Sprintf("%x", value)] of a byte slice, [hex.EncodeToString]. *)
Definition hex (l : list Z) : string := of_bytes (l ≫= λ b, [hex_digit (b / 16); hex_digit (b mod 16)]).

Definition unhex (b : Z) : option Z :=
  if in_range 48 57 b then Some (b - 48)
  else if in_range 97 102 b then Some (b - 87)
  else if in_range 65 70 b then Some (b - 55) else None.
(** [hex.DecodeString]. *)
Fixpoint unhex_bytes (l : list Z) : option (list Z) :=
  match l with
  | [] => Some []
  | [_] => None
  | a :: b :: rest =>
      match unhex a, unhex b, unhex_bytes rest with
      | Some x, Some y, Some r => Some (16 * x + y :: r)
      | _, _, _ => None
      end
  end.
Definition hex_DecodeString (s : string) : option (list Z) := unhex_bytes (bytes s).

Lemma length_digits w z : length (digits w z) = w.
Proof. revert z. induction w; intros z; simpl; [done|]. rewrite length_app, IHw. simpl. lia. Qed.

Lemma digits_are_digits w z : 0 ≤ z → forallb is_digit (digits w z) = true.
Proof.
  revert z. induction w as [|w IH]; intros z Hz; simpl; [done|]. rewrite forallb_app, IH by (apply Z.div_pos; lia).
  simpl. rewrite andb_true_r. apply bool_decide_eq_true. pose proof (Z.mod_pos_bound z 10). lia.
Qed.

Lemma digits_inj w z z' :
  0 ≤ z < 10 ^ Z.of_nat w → 0 ≤ z' < 10 ^ Z.of_nat w → digits w z = digits w z' → z = z'.
Proof.
  revert z z'. induction w as [|w IH]; intros z z' Hz Hz'; [simpl in *; lia|].
  rewrite Nat2Z.inj_succ, Z.pow_succ_r in * by lia. simpl. intros [Hd Hm]%app_inj_2; [|done].
  assert (z / 10 = z' / 10) as Hq.
  { apply IH; [..|done]; split; try (apply Z.div_pos; lia); apply Z.div_lt_upper_bound; lia. }
  rewrite (Z.div_mod z 10), (Z.div_mod z' 10) by lia. injection Hm. lia.
Qed.

Lemma hex_roundtrip l : Forall is_byte l → hex_DecodeString (hex l) = Some l.
Proof.
  intros Hl. unfold hex_DecodeString, hex. rewrite bytes_of_bytes.
  - induction Hl as [|b l Hb _ IH]; [done|]. unfold is_byte in Hb.
    cbn [mbind list_bind app]. cbn [unhex_bytes]. fold (l ≫= λ b, [hex_digit (b / 16); hex_digit (b mod 16)]).
    assert (∀ x, 0 ≤ x < 16 → unhex (hex_digit x) = Some x) as Hux.
    { intros x Hx. unfold unhex, hex_digit, in_range. case_decide; repeat case_bool_decide; try lia; f_equal; lia. }
    rewrite !Hux.
    + change (unhex_bytes _) with (unhex_bytes (l ≫= λ b, [hex_digit (b / 16); hex_digit (b mod 16)])).
      rewrite IH. do 2 f_equal. rewrite (Z.div_mod b 16) at 3 by lia. lia.
    + apply Z.mod_pos_bound. lia.
    + split; [apply Z.div_pos; lia|apply Z.div_lt_upper_bound; lia].
  - induction Hl as [|b l Hb _ IH]; cbn; [constructor|]. unfold is_byte in Hb.
    pose proof (Z.mod_pos_bound b 16). pose proof (Z.div_pos b 16). pose proof (Z.div_lt_upper_bound b 16 16).
    constructor; [|constructor; [|exact IH]]; unfold is_byte, hex_digit; case_decide; lia.
Qed.

(** ** [net/url] escaping *)

Definition hex_upper (z : Z) : Z := if decide (z < 10) then 48 + z else 55 + z.
Definition unreserved (b : Z) : bool := is_alnum_lower b || is_upper b || is_one_of "-_.~" b.
Definition percent (b : Z) : list Z := [37; hex_upper (b / 16); hex_upper (b mod 16)].

(** [url.PathEscape]: a path segment also keeps [$&+:=@]. *)
Definition PathEscape (s : string) : string :=
  of_bytes (bytes s ≫= λ b, if unreserved b || is_one_of "$&+:=@" b then [b] else percent b).
(** [url.QueryEscape]: a space becomes a plus sign. *)
Definition QueryEscape (s : string) : string :=
  of_bytes (bytes s ≫= λ b, if unreserved b then [b] else if decide (b = 32) then [43] else percent b).

(** [url.Values.Encode] of one value per key, the keys given in order. *)
Definition QueryEncode (l : list (string * string)) : string :=
  Join ((λ kv, QueryEscape kv.1 +:+ "=" +:+ QueryEscape kv.2) <$> l) "&".

(** A pattern [^t{lo,hi}$]. *)
Definition match_class (t : Z → bool) (lo hi : nat) (s : string) : bool :=
  forallb t (bytes s) && bool_decide (lo ≤ length (bytes s) ≤ hi)%nat.

(** ** Parsing numbers *)

(** The number written by decimal digits, after the digits read into [acc]. *)
Fixpoint digits_value (acc : Z) (l : list Z) : option Z :=
  match l with
  | [] => Some acc
  | b :: rest => if is_digit b then digits_value (acc * 10 + (b - 48)) rest else None
  end.

(** [strconv.ParseUint(s, 10, bits)]. *)
Definition ParseUint (s : string) (bits : Z) : option Z :=
  match bytes s with
  | [] => None
  | l => v ← digits_value 0 l; if decide (v < 2 ^ bits) then Some v else None
  end.

(** [strconv.ParseInt(s, 10, bits)]. *)
Definition ParseInt (s : string) (bits : Z) : option Z :=
  let unsigned l := match l with [] => None | _ => digits_value 0 l end in
  match bytes s with
  | 45 :: rest => v ← unsigned rest; if decide (v ≤ 2 ^ (bits - 1)) then Some (- v) else None
  | 43 :: rest => v ← unsigned rest; if decide (v < 2 ^ (bits - 1)) then Some v else None
  | l => v ← unsigned l; if decide (v < 2 ^ (bits - 1)) then Some v else None
  end.

Lemma pretty_char_digit x : (x < 10)%N → byte_val (pretty_N_char x) = 48 + Z.of_N x.
Proof.
  intros Hx. assert (x = 0 ∨ x = 1 ∨ x = 2 ∨ x = 3 ∨ x = 4 ∨ x = 5 ∨ x = 6 ∨ x = 7 ∨ x = 8 ∨ x = 9)%N as H by lia.
  by repeat destruct H as [->|H]; subst.
Qed.

Lemma pretty_go_value x s : digits_value 0 (bytes (pretty_N_go x s)) = digits_value (Z.of_N x) (bytes s).
Proof.
  revert s. induction (N.lt_wf_0 x) as [x _ IH]. intros s. destruct (decide (x = 0)%N) as [->|Hx].
  { by rewrite pretty_N_go_0. }
  rewrite pretty_N_go_step by lia. rewrite IH by (apply N.div_lt; lia).
  change (bytes (String ?c s)) with (byte_val c :: bytes s). cbn [digits_value].
  rewrite pretty_char_digit by (apply N.mod_lt; lia). unfold is_digit, in_range.
  rewrite N2Z.inj_div, N2Z.inj_mod. pose proof (Z.mod_pos_bound (Z.of_N x) 10 ltac:(lia)).
  pose proof (Z.div_mod (Z.of_N x) 10 ltac:(lia)). change (Z.of_N 10) with 10.
  rewrite bool_decide_true by lia. f_equal. lia.
Qed.

Lemma pretty_go_nonempty x s : (0 < x)%N ∨ s ≠ ""%string → pretty_N_go x s ≠ ""%string.
Proof.
  revert s. induction (N.lt_wf_0 x) as [x _ IH]. intros s Hs. destruct (decide (x = 0)%N) as [->|Hx].
  { rewrite pretty_N_go_0. destruct Hs; [lia|done]. }
  rewrite pretty_N_go_step by lia. apply IH; [apply N.div_lt; lia|by right].
Qed.

Lemma bytes_nil s : bytes s = [] ↔ s = ""%string.
Proof. by destruct s. Qed.

(** Numbers survive being written and read. *)
Lemma digits_value_FormatInt z : 0 ≤ z → digits_value 0 (bytes (FormatInt z)) = Some z.
Proof.
  intros Hz. unfold FormatInt. destruct z as [|p|p]; [done| |lia].
  change (digits_value 0 (bytes (pretty_N_go (Npos p) "")) = Some (Zpos p)). by rewrite pretty_go_value.
Qed.

Lemma FormatInt_digit z : 0 ≤ z → ∃ b rest, bytes (FormatInt z) = b :: rest ∧ is_digit b = true.
Proof.
  intros Hz. pose proof (digits_value_FormatInt z Hz) as Hd. destruct (bytes (FormatInt z)) as [|b rest] eqn:E.
  - apply bytes_nil in E. destruct z as [|p|p]; [done| |lia].
    exfalso. eapply (pretty_go_nonempty (Npos p) ""); [left; lia|exact E].
  - exists b, rest. split; [done|]. simpl in Hd. by destruct (is_digit b).
Qed.

Lemma ParseUint_FormatInt z bits : 0 ≤ z < 2 ^ bits → ParseUint (FormatInt z) bits = Some z.
Proof.
  intros [Hz Hb]. unfold ParseUint. destruct (FormatInt_digit z Hz) as (b & rest & E & _).
  rewrite E, <-E, digits_value_FormatInt by done. simpl. by rewrite decide_True by lia.
Qed.

Lemma ParseInt_FormatInt z bits : 0 ≤ z < 2 ^ (bits - 1) → ParseInt (FormatInt z) bits = Some z.
Proof.
  intros [Hz Hb]. unfold ParseInt. destruct (FormatInt_digit z Hz) as (b & rest & E & Hd).
  pose proof (digits_value_FormatInt z Hz) as Hv. rewrite E in *.
  unfold is_digit, in_range in Hd. apply bool_decide_eq_true in Hd.
  assert (mbind (λ v, if decide (v < 2 ^ (bits - 1)) then Some v else None) (digits_value 0 (b :: rest)) = Some z) as H
    by (rewrite Hv; simpl; by rewrite decide_True by lia).
  repeat (case_match; try done; try lia).
Qed.

(** ** A rune below 128 is one byte *)

Lemma lor_ge k a b : 0 ≤ k → 2 ^ k ≤ a → 0 ≤ b → 2 ^ k ≤ Z.lor a b.
Proof.
  intros Hk Ha Hb. pose proof (Z.pow_pos_nonneg 2 k ltac:(lia) Hk).
  assert (0 ≤ Z.lor a b) by (apply Z.lor_nonneg; lia).
  assert (k ≤ Z.log2 (Z.lor a b)) as Hl.
  { rewrite Z.log2_lor by lia. apply Z.log2_le_pow2 in Ha; lia. }
  destruct (decide (Z.lor a b = 0)) as [E|]; [|apply Z.log2_le_pow2; lia].
  apply Z.lor_eq_0_iff in E as [-> _]. lia.
Qed.

Lemma low_bits n x : 0 ≤ n → Z.land x (Z.ones n) = x mod 2 ^ n.
Proof. apply Z.land_ones. Qed.

Lemma shifted_ge k n a b : 0 ≤ n → 0 ≤ k → 2 ^ k ≤ a * 2 ^ n → 0 ≤ b → 2 ^ k ≤ Z.lor (Z.shiftl a n) b.
Proof. intros Hn Hk Ha Hb. apply lor_ge; [done| |done]. by rewrite Z.shiftl_mul_pow2. Qed.

Lemma DecodeRune_low l r w : Forall is_byte l → DecodeRune l = (r, w) → r < 128 → l ≠ [] → take w l = [r].
Proof.
  intros Hl. destruct l as [|b0 rest]; [done|]. cbn [DecodeRune].
  case_decide as H0; [by intros [= <- <-] _ _|].
  assert (∀ x, 0 ≤ cont_bits x) as Hcb.
  { intros x. unfold cont_bits. change 0x3F with (Z.ones 6). rewrite low_bits by lia. apply Z.mod_pos_bound. lia. }
  destruct rest as [|b1 rest1]; [by intros [= <- <-]|].
  case_decide as H1.
  { destruct (is_cont b1); [|by intros [= <- <-]]. intros [= <- <-] Hr. exfalso.
    enough (2 ^ 7 ≤ Z.lor (Z.shiftl (Z.land b0 0x1F) 6) (cont_bits b1)) by lia.
    apply shifted_ge; [lia..| |done]. change 0x1F with (Z.ones 5). rewrite low_bits by lia.
    replace (b0 mod 2 ^ 5) with (b0 - 192) by (apply (Z.mod_unique b0 (2 ^ 5) 6); lia). lia. }
  destruct rest1 as [|b2 rest2]; [by intros [= <- <-]|].
  case_decide as H2.
  { case_decide as Hb1; [|by intros [= <- <-]]. destruct (is_cont b2); [|by intros [= <- <-]].
    intros [= <- <-] Hr. exfalso.
    assert (0 ≤ Z.shiftl (cont_bits b1) 6) by (by apply Z.shiftl_nonneg).
    case_decide as He.
    - enough (2 ^ 7 ≤ Z.lor (Z.shiftl (cont_bits b1) 6) (cont_bits b2)) as Hge.
      { rewrite Z.lor_comm in Hr. enough (2 ^ 7 ≤ Z.lor (Z.lor (Z.shiftl (cont_bits b1) 6) (cont_bits b2))
          (Z.shiftl (Z.land b0 15) 12)) by lia. apply lor_ge; [lia|done|]. apply Z.shiftl_nonneg, Z.land_nonneg. lia. }
      apply shifted_ge; [lia..| |done]. unfold cont_bits. change 0x3F with (Z.ones 6). rewrite low_bits by lia.
      assert (b1 ≤ 191) by (destruct (decide (b0 = 237)); lia).
      replace (b1 mod 2 ^ 6) with (b1 - 128) by (apply (Z.mod_unique b1 (2 ^ 6) 2); lia). lia.
    - enough (2 ^ 7 ≤ Z.lor (Z.shiftl (Z.land b0 0x0F) 12) (Z.lor (Z.shiftl (cont_bits b1) 6) (cont_bits b2))) by lia.
      apply shifted_ge; [lia..| |by apply Z.lor_nonneg]. change 0x0F with (Z.ones 4). rewrite low_bits by lia.
      replace (b0 mod 2 ^ 4) with (b0 - 224) by (apply (Z.mod_unique b0 (2 ^ 4) 14); lia). lia. }
  destruct rest2 as [|b3 rest3]; [by intros [= <- <-]|].
  case_decide as H3; [|by intros [= <- <-]].
  case_decide as Hb1; [|by intros [= <- <-]]. destruct (is_cont b2 && is_cont b3); [|by intros [= <- <-]].
  intros [= <- <-] Hr. exfalso.
  assert (0 ≤ Z.shiftl (cont_bits b1) 12 ∧ 0 ≤ Z.lor (Z.shiftl (cont_bits b2) 6) (cont_bits b3)) as [? ?].
  { split; [by apply Z.shiftl_nonneg|]. apply Z.lor_nonneg. split; [by apply Z.shiftl_nonneg|done]. }
  case_decide as He.
  - rewrite Z.lor_comm in Hr.
    enough (2 ^ 7 ≤ Z.lor (Z.lor (Z.shiftl (cont_bits b1) 12) (Z.lor (Z.shiftl (cont_bits b2) 6) (cont_bits b3)))
              (Z.shiftl (Z.land b0 7) 18)) by lia.
    apply lor_ge; [lia| |by apply Z.shiftl_nonneg, Z.land_nonneg; lia].
    apply shifted_ge; [lia..| |done]. unfold cont_bits. change 0x3F with (Z.ones 6). rewrite low_bits by lia.
    assert (b1 ≤ 191) by (destruct (decide (b0 = 244)); lia).
    replace (b1 mod 2 ^ 6) with (b1 - 128) by (apply (Z.mod_unique b1 (2 ^ 6) 2); lia). lia.
  - enough (2 ^ 7 ≤ Z.lor (Z.shiftl (Z.land b0 0x07) 18) (Z.lor (Z.shiftl (cont_bits b1) 12)
       (Z.lor (Z.shiftl (cont_bits b2) 6) (cont_bits b3)))) by lia.
    apply shifted_ge; [lia..| |by apply Z.lor_nonneg]. change (Z.land b0 7) with (Z.land b0 (Z.ones 3)). rewrite low_bits by lia.
    replace (b0 mod 2 ^ 3) with (b0 - 240) by (apply (Z.mod_unique b0 (2 ^ 3) 30); lia). lia.
Qed.

(** ** Bounds of parsed numbers; words *)

Lemma digits_value_digits acc l v : digits_value acc l = Some v → forallb is_digit l = true.
Proof. revert acc. induction l as [|b l IH]; intros acc; simpl; [done|]. destruct (is_digit b); [apply IH|done]. Qed.

Lemma digits_value_nonneg acc l v : 0 ≤ acc → digits_value acc l = Some v → 0 ≤ v.
Proof.
  revert acc. induction l as [|b l IH]; intros acc Ha; simpl; [by intros [= <-]|].
  destruct (is_digit b) eqn:Hd; [|done]. apply IH. unfold is_digit, in_range in Hd. apply bool_decide_eq_true in Hd. lia.
Qed.

Lemma ParseInt_max s bits v : 1 ≤ bits → ParseInt s bits = Some v → v < 2 ^ (bits - 1).
Proof.
  intros Hb. assert (0 < 2 ^ (bits - 1)) as Hp by (apply Z.pow_pos_nonneg; lia).
  assert (∀ (o : option Z), (w ← o; if decide (w < 2 ^ (bits - 1)) then Some w else None) = Some v → v < 2 ^ (bits - 1)) as Hpos.
  { intros [w|]; simpl; [|done]. case_decide; [by intros [= <-]|done]. }
  assert (∀ l, (w ← match l with [] => None | _ => digits_value 0 l end;
                if decide (w ≤ 2 ^ (bits - 1)) then Some (- w) else None) = Some v → v < 2 ^ (bits - 1)) as Hneg.
  { intros l. destruct (match l with [] => None | _ => digits_value 0 l end) as [w|] eqn:E; [|done]. simpl.
    case_decide; [|done]. intros [= <-]. assert (0 ≤ w); [|lia].
    destruct l; [done|]. by eapply digits_value_nonneg. }
  unfold ParseInt. intros H. repeat (case_match; try (by eapply Hpos); try (by eapply Hneg)).
Qed.

(** Words of printable ASCII, joined by spaces, are the fields of the result. *)
Definition word (s : string) : Prop := s ≠ ""%string ∧ Forall (λ b, 33 ≤ b < 127) (bytes s).

Definition ascii_chunks (l : list Z) : list (Z * list Z) := (λ b, (b, [b])) <$> l.

Lemma chunks_ascii s : Forall (λ b, 0 ≤ b < 128) (bytes s) → chunks s = ascii_chunks (bytes s).
Proof. apply rune_chunks_ascii. Qed.

Lemma printable_not_space b : 33 ≤ b < 127 → IsSpace b = false.
Proof. intros Hb. apply bool_decide_eq_false. lia. Qed.

Lemma fields_word current w rest :
  Forall (λ b, 33 ≤ b < 127) w → fields_aux current (ascii_chunks w ++ rest) = fields_aux (reverse (ascii_chunks w) ++ current) rest.
Proof.
  intros Hw. revert current. induction Hw as [|b w Hb _ IH]; intros current; [done|]. cbn.
  rewrite printable_not_space by done. change (rev_append _ _) with (reverse (ascii_chunks (b :: w))).
  change (_ <$> w) with (ascii_chunks w). rewrite IH. f_equal.
  change (ascii_chunks (b :: w)) with ((b, [b]) :: ascii_chunks w). by rewrite reverse_cons, <-app_assoc.
Qed.

Lemma Fields_Join l : Forall word l → Fields (Join l " ") = l.
Proof.
  intros Hl. unfold Fields.
  assert (Forall (λ b, 0 ≤ b < 128) (bytes (Join l " "))) as Ha.
  { induction Hl as [|s l [_ Hs] Hl IH]; [constructor|]. assert (Forall (λ b, 0 ≤ b < 128) (bytes s)) as Hs'
      by (eapply Forall_impl; [exact Hs|simpl; lia]).
    destruct l as [|t l]; [done|]. cbn [Join]. rewrite !bytes_app, !Forall_app. split_and!; [done| |done].
    constructor; [vm_compute; split; [discriminate|done]|constructor]. }
  rewrite chunks_ascii by done. clear Ha. induction Hl as [|s l [Hne Hs] Hl IH]; [done|].
  assert (∀ rest, fields_aux [] (ascii_chunks (bytes s) ++ rest) = fields_aux (reverse (ascii_chunks (bytes s))) rest) as Hword.
  { intros rest. rewrite fields_word, app_nil_r; done. }
  assert (∃ c r, reverse (ascii_chunks (bytes s)) = c :: r) as (c & r & Hc).
  { destruct (reverse (ascii_chunks (bytes s))) as [|c r] eqn:E; [|eauto]. exfalso. apply Hne, bytes_nil.
    apply (f_equal length) in E. rewrite length_reverse in E. unfold ascii_chunks in E. rewrite length_fmap in E.
    by apply length_zero_iff_nil in E. }
  assert (unchunk (reverse (c :: r)) = s) as Hun.
  { rewrite <-Hc, reverse_involutive. unfold ascii_chunks. rewrite unchunk_ascii. apply of_bytes_bytes. }
  destruct l as [|t l].
  - cbn [Join]. rewrite <-(app_nil_r (ascii_chunks _)), Hword, Hc. cbn -[unchunk reverse]. by rewrite Hun.
  - cbn [Join] in *. rewrite !bytes_app. unfold ascii_chunks at 1. rewrite !fmap_app. fold (ascii_chunks (bytes s)).
    rewrite Hword, Hc. change ((λ b, (b, [b])) <$> bytes " ") with [(32, [32])]. cbn [app fields_aux].
    change (IsSpace (32, [32]).1) with true. cbn [fields_aux]. rewrite Hun. f_equal. exact IH.
Qed.
