(* ===== verification/GoXml.v ===== *)
(** Texts in XML: [xml.EscapeText] of package [encoding/xml], a reader of tags and texts,
    and their round trip: what is written as a text is read as that text, whatever
    characters it has. *)
From S2P Require Import Prelude GoStrings.
Local Open Scope Z_scope.

(** ** Writing *)

(** The characters of XML 1.0, and a rune decoded from bytes that are one. *)
Definition isInCharacterRange (r : Z) : bool :=
  bool_decide (r = 9 ∨ r = 10 ∨ r = 13) || in_range 0x20 0xD7FF r || in_range 0xE000 0xFFFD r || in_range 0x10000 0x10FFFF r.
Definition xml_char (c : Z * list Z) : bool :=
  isInCharacterRange c.1 && negb (bool_decide (c.1 = RuneError) && bool_decide (length c.2 = 1%nat)).

Definition replacement : list Z := [0xEF; 0xBF; 0xBD].
Definition escape_chunk (c : Z * list Z) : list Z :=
  if decide (c.1 = 34) then bytes "&#34;" else if decide (c.1 = 39) then bytes "&#39;"
  else if decide (c.1 = 38) then bytes "&amp;" else if decide (c.1 = 60) then bytes "&lt;"
  else if decide (c.1 = 62) then bytes "&gt;" else if decide (c.1 = 9) then bytes "&#x9;"
  else if decide (c.1 = 10) then bytes "&#xA;" else if decide (c.1 = 13) then bytes "&#xD;"
  else if xml_char c then c.2 else replacement.

(** [xml.EscapeText]. *)
Definition EscapeText (s : string) : string := of_bytes (concat (escape_chunk <$> chunks s)).

(** ** Reading *)

(** What an entity stands for, and a text with its entities replaced. *)
Definition hex_value (l : list Z) : Z := foldl (λ v b, 16 * v + default 0 (unhex b)) 0 l.
Definition entity (name : list Z) : list Z :=
  match name with
  | 35 :: 120 :: digits => encode_rune (hex_value digits)
  | 35 :: digits => encode_rune (default RuneError (digits_value 0 digits))
  | _ =>
      if decide (name = bytes "amp") then [38] else if decide (name = bytes "lt") then [60]
      else if decide (name = bytes "gt") then [62] else if decide (name = bytes "quot") then [34]
      else if decide (name = bytes "apos") then [39] else replacement
  end.
Fixpoint unescape_text (name : option (list Z)) (l : list Z) : list Z :=
  match l with
  | [] => match name with Some e => 38 :: e | None => [] end
  | c :: rest =>
      match name with
      | Some e => if decide (c = 59) then entity e ++ unescape_text None rest else unescape_text (Some (e ++ [c])) rest
      | None => if decide (c = 38) then unescape_text (Some []) rest else c :: unescape_text None rest
      end
  end.

(** A document read as tags and the texts between them. *)
Inductive Token := Tag (name : string) | Chars (content : string).
Definition chars (l : list Z) : list Token :=
  if decide (l = []) then [] else [Chars (of_bytes (unescape_text None l))].
Fixpoint scan (tag : bool) (acc l : list Z) : list Token :=
  match l with
  | [] => if tag then [] else chars acc
  | c :: rest =>
      if tag then (if decide (c = 62) then Tag (of_bytes acc) :: scan false [] rest else scan true (acc ++ [c]) rest)
      else (if decide (c = 60) then chars acc ++ scan true [] rest else scan false (acc ++ [c]) rest)
  end.
Definition tokens (document : string) : list Token := scan false [] (bytes document).

Example escape_examples :
  EscapeText ("<a href=" +:+ String (chr 34) "x>&'") = "&lt;a href=&#34;x&gt;&amp;&#39;"%string ∧
  bytes (EscapeText (of_bytes [0; 0x80; 0xC3; 0xA9])) = replacement ++ replacement ++ [0xC3; 0xA9] ∧
  tokens "<a>x &lt;b&gt; &#65;&#x42;</a>" = [Tag "a"; Chars "x <b> AB"; Tag "/a"].
Proof. vm_compute. done. Qed.

(** ** The round trip *)

Lemma DecodeRune_high l r w :
  Forall is_byte l → DecodeRune l = (r, w) → 128 ≤ r → Forall (λ b, 128 ≤ b) (take w l).
Proof.
  intros _. destruct l as [|b0 rest]; [intros [= <- <-] _; constructor|]. unfold DecodeRune.
  case_decide; [intros [= <- <-]; lia|]. unfold is_cont.
  repeat (case_match; reflect); intros [= <- <-] _; repeat constructor; try lia;
    repeat case_decide; try lia.
Qed.

Lemma DecodeRune_width b rest : ∃ r k, DecodeRune (b :: rest) = (r, S k).
Proof. unfold DecodeRune. repeat case_match; by eexists _, _. Qed.

(** The chunks of a text are its bytes. *)
Lemma rune_chunks_bytes skip l : concat (rune_chunks skip l).*2 = drop skip l.
Proof.
  revert skip. induction l as [|b l IH]; intros [|k]; [done..| |cbn [rune_chunks drop]; apply IH].
  cbn [rune_chunks]. destruct (DecodeRune_width b l) as (r & k & ->). cbn [fmap list_fmap concat fst snd].
  replace (S k - 1)%nat with k by lia. rewrite IH. cbn [take app drop]. by rewrite take_drop.
Qed.

Lemma chunks_concat s : concat (chunks s).*2 = bytes s.
Proof. apply rune_chunks_bytes. Qed.

(** Each chunk is an ASCII byte, or bytes beyond. *)
Definition sound_chunk (c : Z * list Z) : Prop := c.2 = [c.1] ∧ 0 ≤ c.1 < 128 ∨ 128 ≤ c.1 ∧ Forall (λ b, 128 ≤ b < 256) c.2.

Lemma rune_chunks_sound skip l : Forall is_byte l → Forall sound_chunk (rune_chunks skip l).
Proof.
  revert skip. induction l as [|b l IH]; intros [|k] Hl; try constructor.
  - cbn [rune_chunks]. destruct (DecodeRune (b :: l)) as [r w] eqn:E. constructor; [|apply IH; by inversion Hl].
    unfold sound_chunk. cbn [fst snd]. destruct (decide (r < 128)).
    + left. rewrite (DecodeRune_low _ _ _ Hl E) by done. split; [done|].
      pose proof (DecodeRune_low _ _ _ Hl E ltac:(done) ltac:(done)) as Ht.
      assert (r ∈ take w (b :: l)) as Hin by (rewrite Ht; by left). apply elem_of_take in Hin as (i & Hi & _).
      eapply Forall_lookup_1 in Hl; [|exact Hi]. unfold is_byte in Hl. lia.
    + right. split; [lia|]. pose proof (DecodeRune_high _ _ _ Hl E ltac:(lia)) as Hh. apply (Forall_take is_byte w) in Hl.
      eapply Forall_impl; [apply Forall_and; split; [exact Hh|exact Hl]|]. unfold is_byte. simpl. lia.
  - cbn [rune_chunks]. apply IH. by inversion Hl.
Qed.

Lemma chunks_sound s : Forall sound_chunk (chunks s).
Proof. apply rune_chunks_sound, bytes_range. Qed.

(** Texts of XML characters only. *)
Definition xml_text (s : string) : Prop := forallb xml_char (chunks s) = true.

(** What is read of a character that is written. *)
Definition kept (c : Z * list Z) : list Z := if xml_char c then c.2 else replacement.

Lemma unescape_high l rest : Forall (λ b, 128 ≤ b) l → unescape_text None (l ++ rest) = l ++ unescape_text None rest.
Proof. induction 1; [done|]. cbn [app unescape_text]. rewrite decide_False by lia. by f_equal. Qed.

Lemma unescape_chunk c rest : sound_chunk c → unescape_text None (escape_chunk c ++ rest) = kept c ++ unescape_text None rest.
Proof.
  destruct c as [r l]. unfold sound_chunk. cbn [fst snd]. intros [[-> Hr]|[Hr Hl]].
  - unfold escape_chunk, kept. cbn [fst snd].
    repeat (case_decide; [subst r; reflexivity|]). destruct (xml_char (r, [r])); [|reflexivity].
    cbn [app unescape_text]. by rewrite decide_False.
  - unfold escape_chunk. cbn [fst snd]. rewrite !decide_False by lia. fold (kept (r, l)). unfold kept.
    destruct (xml_char (r, l)); [|reflexivity]. cbn [snd]. apply unescape_high. eapply Forall_impl; [exact Hl|]. simpl. lia.
Qed.

Lemma unescape_chunks l rest : Forall sound_chunk l →
  unescape_text None (concat (escape_chunk <$> l) ++ rest) = concat (kept <$> l) ++ unescape_text None rest.
Proof.
  induction 1 as [|c l Hc _ IH]; [done|]. cbn [fmap list_fmap concat]. rewrite <- !app_assoc.
  rewrite unescape_chunk by done. by rewrite IH.
Qed.

(** What is written has neither angle brackets nor quotes. *)
Definition inert (b : Z) : Prop := is_byte b ∧ b ∉ [34; 39; 60; 62].
Lemma escape_inert s : Forall inert (concat (escape_chunk <$> chunks s)).
Proof.
  pose proof (chunks_sound s) as Hs. induction Hs as [|c l Hc _ IH]; [constructor|]. cbn [fmap list_fmap concat].
  apply Forall_app_2; [|done]. clear IH. unfold escape_chunk. unfold inert, is_byte.
  do 8 (case_decide; [apply (bool_decide_unpack _); vm_compute; exact I|]).
  destruct (xml_char c); [|apply (bool_decide_unpack _); vm_compute; exact I].
  destruct Hc as [[-> Hr]|[Hr Hl]].
  - constructor; [|constructor]. split; [lia|]. set_unfold. lia.
  - eapply Forall_impl; [exact Hl|]. simpl. intros b Hb. split; [lia|]. set_unfold. lia.
Qed.

Lemma bytes_EscapeText s : bytes (EscapeText s) = concat (escape_chunk <$> chunks s).
Proof. apply bytes_of_bytes. eapply Forall_impl; [apply escape_inert|]. by intros b [Hb _]. Qed.

Lemma unescape_EscapeText s : xml_text s → of_bytes (unescape_text None (bytes (EscapeText s))) = s.
Proof.
  intros Hs. rewrite bytes_EscapeText. pose proof (unescape_chunks (chunks s) [] (chunks_sound s)) as Hu.
  rewrite !app_nil_r in Hu. rewrite Hu. rewrite <- (of_bytes_bytes s) at 2. f_equal. rewrite <- chunks_concat. f_equal.
  unfold xml_text in Hs. clear Hu. induction (chunks s) as [|c l IH]; [done|]. cbn [forallb] in Hs. apply andb_true_iff in Hs as [Hc Hl].
  cbn [fmap list_fmap]. f_equal; [unfold kept; by rewrite Hc|by apply IH].
Qed.

(** ** Documents *)

Definition text (s : string) : list Token := if decide (s = ""%string) then [] else [Chars s].

Lemma scan_chars acc l rest : Forall inert l → scan false acc (l ++ 60 :: rest) = chars (acc ++ l) ++ scan true [] rest.
Proof.
  intros Hl. revert acc. induction Hl as [|b l [_ Hb] _ IH]; intros acc; cbn [app scan].
  - by rewrite decide_True, app_nil_r.
  - rewrite decide_False by (intros ->; apply Hb; set_solver). rewrite IH. by rewrite <- app_assoc.
Qed.

Lemma scan_text s rest : xml_text s → scan false [] (bytes (EscapeText s) ++ 60 :: rest) = text s ++ scan true [] rest.
Proof.
  intros Hs. rewrite scan_chars by (rewrite bytes_EscapeText; apply escape_inert). f_equal. cbn [app]. unfold chars, text.
  destruct (decide (s = ""%string)) as [->|Hne]; [done|]. rewrite decide_False; [by rewrite unescape_EscapeText|].
  intros Hb. apply Hne. rewrite <- (unescape_EscapeText s Hs), Hb. done.
Qed.

Lemma scan_name acc l rest : Forall (λ b, b ≠ 62) l → scan true acc (l ++ 62 :: rest) = Tag (of_bytes (acc ++ l)) :: scan false [] rest.
Proof.
  intros Hl. revert acc. induction Hl as [|b l Hb _ IH]; intros acc; cbn [app scan].
  - by rewrite decide_True, app_nil_r.
  - rewrite decide_False by done. rewrite IH. by rewrite <- app_assoc.
Qed.

Lemma append_assoc (a b c : string) : (a +:+ b) +:+ c = a +:+ b +:+ c.
Proof. induction a as [|x a IH]; [done|]. exact (f_equal (String x) IH). Qed.

(** A tag as it is written. *)
Definition plain_name (name : string) : Prop := Forall (λ b, b ≠ 62) (bytes name).
Definition open (name : string) : string := "<" +:+ name +:+ ">".

Lemma bytes_open name rest : bytes (open name +:+ rest) = 60 :: bytes name ++ 62 :: bytes rest.
Proof.
  unfold open. rewrite !bytes_app. change (bytes "<") with [60]. change (bytes ">") with [62]. cbn [app]. by rewrite <- app_assoc.
Qed.

Lemma tokens_open name rest : plain_name name → tokens (open name +:+ rest) = Tag name :: tokens rest.
Proof.
  intros Hn. unfold tokens. rewrite bytes_open. cbn [scan]. rewrite decide_True by done. unfold chars. rewrite decide_True by done.
  cbn [app]. rewrite scan_name by done. cbn [app]. by rewrite of_bytes_bytes.
Qed.

Lemma tokens_text s name rest :
  xml_text s → plain_name name → tokens (EscapeText s +:+ open name +:+ rest) = text s ++ Tag name :: tokens rest.
Proof.
  intros Hs Hn. unfold tokens. rewrite bytes_app, bytes_open. rewrite scan_text by done. f_equal.
  rewrite scan_name by done. cbn [app]. by rewrite of_bytes_bytes.
Qed.
