(* ===== verification/GoCrypto.v ===== *)
(** The cryptographic and encoding primitives of Go's standard library that the
    program calls, as executable functions on bytes: SHA-256, SHA-1, HMAC-SHA-1,
    Base64 and Base32; and [internal/security/token.go], which builds tokens,
    token hashes and UUIDs from them. Random bytes are an argument of the
    functions that read them, [None] standing for a failed read. *)
From S2P Require Import Prelude GoStrings.
Local Open Scope Z_scope.

(** ** 32-bit words *)

Definition mask32 : Z := 0xFFFFFFFF.
Definition add32 (x y : Z) : Z := Z.land (x + y) mask32.
Definition not32 (x : Z) : Z := Z.lxor x mask32.
Definition rotl32 (x n : Z) : Z := Z.lor (Z.land (Z.shiftl x n) mask32) (Z.shiftr x (32 - n)).
Definition rotr32 (x n : Z) : Z := rotl32 x (32 - n).

Definition be32 (l : list Z) : Z :=
  foldl (λ acc b, Z.lor (Z.shiftl acc 8) b) 0 l.
(** [binary.BigEndian.PutUint32], [PutUint64]: the low [n] bytes of [z]. *)
Fixpoint put_be (n : nat) (z : Z) : list Z :=
  match n with
  | O => []
  | S k => put_be k (Z.shiftr z 8) ++ [Z.land z 0xFF]
  end.

(** Cut a list in pieces of [n] elements. *)
Fixpoint pieces {A} (fuel n : nat) (l : list A) : list (list A) :=
  match fuel, l with
  | S f, _ :: _ => take n l :: pieces f n (drop n l)
  | _, _ => []
  end.

(** Message padding shared by SHA-1 and SHA-256: a 1 bit, zeros, the bit length. *)
Definition md_pad (msg : list Z) : list Z :=
  let n := Z.of_nat (length msg) in
  msg ++ 0x80 :: replicate (Z.to_nat ((55 - n) mod 64)) 0 ++ put_be 8 (8 * n).

Definition blocks (msg : list Z) : list (list Z) :=
  let p := md_pad msg in
  (λ block, be32 <$> pieces 16 4 block) <$> pieces (length p) 64 p.

(** ** SHA-256 *)

(** The round constants and the initial state are the first 32 bits of the
    fractional parts of the cube and square roots of the first primes. *)
Definition first_primes : list Z :=
  filter (λ p, forallb (λ d, negb (p mod d =? 0)) (seqZ 2 (p - 2)) = true) (seqZ 2 310).

(** The integer cube root below [2 ^ bits], one binary digit at a time. *)
Fixpoint cube_root (bits : nat) (n root : Z) : Z :=
  match bits with
  | O => root
  | S k => let c := root + 2 ^ Z.of_nat k in cube_root k n (if c * c * c <=? n then c else root)
  end.

Definition sha256_K : list Z :=
  Eval vm_compute in (λ p, Z.land (cube_root 36 (p * 2 ^ 96) 0) mask32) <$> first_primes.
Definition sha256_H0 : list Z :=
  Eval vm_compute in (λ p, Z.land (Z.sqrt (p * 2 ^ 64)) mask32) <$> take 8 first_primes.

(** The message schedule, built backwards: [w] holds the words so far, newest first. *)
Fixpoint sha256_schedule (n : nat) (w : list Z) : list Z :=
  match n with
  | O => w
  | S k =>
      let s0 := let x := nth 14 w 0 in Z.lxor (rotr32 x 7) (Z.lxor (rotr32 x 18) (Z.shiftr x 3)) in
      let s1 := let x := nth 1 w 0 in Z.lxor (rotr32 x 17) (Z.lxor (rotr32 x 19) (Z.shiftr x 10)) in
      sha256_schedule k (add32 (add32 (nth 15 w 0) s0) (add32 (nth 6 w 0) s1) :: w)
  end.

Definition sha256_round (st : list Z) (kw : Z * Z) : list Z :=
  match st with
  | [a; b; c; d; e; f; g; h] =>
      let s1 := Z.lxor (rotr32 e 6) (Z.lxor (rotr32 e 11) (rotr32 e 25)) in
      let ch := Z.lxor (Z.land e f) (Z.land (not32 e) g) in
      let t1 := add32 (add32 h s1) (add32 ch (add32 kw.1 kw.2)) in
      let s0 := Z.lxor (rotr32 a 2) (Z.lxor (rotr32 a 13) (rotr32 a 22)) in
      let maj := Z.lxor (Z.land a b) (Z.lxor (Z.land a c) (Z.land b c)) in
      [add32 t1 (add32 s0 maj); a; b; c; add32 d t1; e; f; g]
  | _ => st
  end.

Definition sha256_block (st block : list Z) : list Z :=
  let w := reverse (sha256_schedule 48 (reverse block)) in
  zip_with add32 st (foldl sha256_round st (zip sha256_K w)).

(** [sha256.Sum256]. *)
Definition sha256 (msg : list Z) : list Z :=
  foldl sha256_block sha256_H0 (blocks msg) ≫= put_be 4.

(** ** SHA-1 and HMAC *)

Fixpoint sha1_schedule (n : nat) (w : list Z) : list Z :=
  match n with
  | O => w
  | S k =>
      let x := Z.lxor (Z.lxor (nth 2 w 0) (nth 7 w 0)) (Z.lxor (nth 13 w 0) (nth 15 w 0)) in
      sha1_schedule k (rotl32 x 1 :: w)
  end.

Definition sha1_round (st : list Z) (iw : nat * Z) : list Z :=
  match st with
  | [a; b; c; d; e] =>
      let '(f, k) :=
        if decide (iw.1 < 20)%nat then (Z.lor (Z.land b c) (Z.land (not32 b) d), 0x5A827999)
        else if decide (iw.1 < 40)%nat then (Z.lxor b (Z.lxor c d), 0x6ED9EBA1)
        else if decide (iw.1 < 60)%nat
        then (Z.lor (Z.land b c) (Z.lor (Z.land b d) (Z.land c d)), 0x8F1BBCDC)
        else (Z.lxor b (Z.lxor c d), 0xCA62C1D6) in
      [add32 (add32 (rotl32 a 5) f) (add32 e (add32 k iw.2)); a; rotl32 b 30; c; d]
  | _ => st
  end.

Definition sha1_block (st block : list Z) : list Z :=
  let w := reverse (sha1_schedule 64 (reverse block)) in
  zip_with add32 st (foldl sha1_round st (zip (seq 0 80) w)).

Definition sha1 (msg : list Z) : list Z :=
  foldl sha1_block [0x67452301; 0xEFCDAB89; 0x98BADCFE; 0x10325476; 0xC3D2E1F0] (blocks msg) ≫= put_be 4.

(** [hmac.New(sha1.New, key)], written and summed. *)
Definition hmac_sha1 (key msg : list Z) : list Z :=
  let k := if decide (64 < length key)%nat then sha1 key else key in
  let k := k ++ replicate (64 - length k) 0 in
  sha1 ((Z.lxor 0x5C <$> k) ++ sha1 ((Z.lxor 0x36 <$> k) ++ msg)).

(** ** Base64 *)

(** The last two digits of the standard and of the URL alphabets. *)
Definition std64 : Z * Z := (43, 47).
Definition url64 : Z * Z := (45, 95).

Definition enc64 (alphabet : Z * Z) (v : Z) : Z :=
  if decide (v < 26) then 65 + v
  else if decide (v < 52) then 71 + v
  else if decide (v < 62) then v - 4
  else if decide (v = 62) then alphabet.1 else alphabet.2.

Definition dec64 (alphabet : Z * Z) (c : Z) : option Z :=
  if is_upper c then Some (c - 65)
  else if is_lower c then Some (c - 71)
  else if is_digit c then Some (c + 4)
  else if decide (c = alphabet.1) then Some 62
  else if decide (c = alphabet.2) then Some 63
  else None.

(** [EncodeToString] without padding. *)
Fixpoint raw_encode64 (alphabet : Z * Z) (l : list Z) : list Z :=
  let e := enc64 alphabet in
  match l with
  | a :: b :: c :: rest =>
      e (a / 4) :: e (a mod 4 * 16 + b / 16) :: e (b mod 16 * 4 + c / 64) :: e (c mod 64)
        :: raw_encode64 alphabet rest
  | [a; b] => [e (a / 4); e (a mod 4 * 16 + b / 16); e (b mod 16 * 4)]
  | [a] => [e (a / 4); e (a mod 4 * 16)]
  | [] => []
  end.

(** The bytes of a list of 6-bit digits; a lone trailing digit is an error and the
    unused bits of the last digit are ignored, as in Go's non-strict decoder. *)
Fixpoint join64 (l : list Z) : option (list Z) :=
  match l with
  | a :: b :: c :: d :: rest =>
      match join64 rest with
      | Some r => Some (a * 4 + b / 16 :: b mod 16 * 16 + c / 4 :: c mod 4 * 64 + d :: r)
      | None => None
      end
  | [a; b; c] => Some [a * 4 + b / 16; b mod 16 * 16 + c / 4]
  | [a; b] => Some [a * 4 + b / 16]
  | [_] => None
  | [] => Some []
  end.

(** Carriage returns and newlines are skipped. *)
Definition strip_newlines (l : list Z) : list Z := filter (λ c, ¬ (c = 10 ∨ c = 13)) l.

Definition raw_decode64 (alphabet : Z * Z) (l : list Z) : option (list Z) :=
  mapM (dec64 alphabet) (strip_newlines l) ≫= join64.

(** [StdEncoding.DecodeString]: the data, then the padding its length calls for. *)
Fixpoint before_pad (l : list Z) : list Z * list Z :=
  match l with
  | [] => ([], [])
  | c :: rest => if decide (c = 61) then ([], l) else let '(x, y) := before_pad rest in (c :: x, y)
  end.
Definition std_decode64 (l : list Z) : option (list Z) :=
  let '(data, pad) := before_pad (strip_newlines l) in
  let n := (length data mod 4)%nat in
  if decide ((n = 0%nat ∧ pad = []) ∨ (n = 2%nat ∧ pad = [61; 61]) ∨ (n = 3%nat ∧ pad = [61]))
  then mapM (dec64 std64) data ≫= join64 else None.

Definition RawURLEncoding_EncodeToString (l : list Z) : string := of_bytes (raw_encode64 url64 l).
Definition RawURLEncoding_DecodeString (s : string) : option (list Z) := raw_decode64 url64 (bytes s).
Definition RawStdEncoding_EncodeToString (l : list Z) : string := of_bytes (raw_encode64 std64 l).
Definition RawStdEncoding_DecodeString (s : string) : option (list Z) := raw_decode64 std64 (bytes s).
Definition StdEncoding_DecodeString (s : string) : option (list Z) := std_decode64 (bytes s).

(** ** Base32, standard alphabet, no padding *)

Definition enc32 (v : Z) : Z := if decide (v < 26) then 65 + v else 24 + v.

(** The 5-bit digits of a string of bits held in [acc], [n] of them pending. *)
Fixpoint raw_encode32 (acc n : Z) (l : list Z) : list Z :=
  match l with
  | [] => if decide (n = 0) then [] else [enc32 (acc * 2 ^ (5 - n))]
  | b :: rest =>
      let acc := acc * 256 + b in
      let n := n + 8 in
      if decide (10 ≤ n)
      then enc32 (acc / 2 ^ (n - 5)) :: enc32 (acc / 2 ^ (n - 10) mod 32)
             :: raw_encode32 (acc mod 2 ^ (n - 10)) (n - 10) rest
      else enc32 (acc / 2 ^ (n - 5)) :: raw_encode32 (acc mod 2 ^ (n - 5)) (n - 5) rest
  end.
Definition base32_EncodeToString (l : list Z) : string := of_bytes (raw_encode32 0 0 l).

(** ** [internal/security/token.go] *)

(** The result of [rand.Read]: the bytes, or a failure. *)
Abbreviation Entropy := (option (list Z)) (only parsing).

(** [internal/security/token.go:10-16] RandomToken *)
Definition RandomToken (rnd : Entropy) : Res unit string :=
  match rnd with
  | None => Err ()
  | Some value => Ok (RawURLEncoding_EncodeToString value)
  end.

(** [internal/security/token.go:18-21] HashToken *)
Definition HashToken (value : string) : string := of_bytes (sha256 (bytes value)).

(** The version and variant bits of a random UUID. *)
Definition uuid_bits (value : list Z) : list Z :=
  let value := <[6%nat := Z.lor (Z.land (nth 6 value 0) 0x0F) 0x40]> value in
  <[8%nat := Z.lor (Z.land (nth 8 value 0) 0x3F) 0x80]> value.

Definition uuid_format (value : list Z) : string :=
  Join [hex (take 4 value); hex (take 2 (drop 4 value)); hex (take 2 (drop 6 value));
        hex (take 2 (drop 8 value)); hex (drop 10 value)] "-".

(** [internal/security/token.go:23-32] RandomUUID *)
Definition RandomUUID (rnd : Entropy) : Res unit string :=
  match rnd with
  | None => Err ()
  | Some value => Ok (uuid_format (uuid_bits value))
  end.

(** ** Lemmas *)

Lemma mod_div_small a n k : 0 < n → 0 < k → 0 ≤ a < n * k → 0 ≤ a / n < k.
Proof. intros. split; [apply Z.div_pos; lia|apply Z.div_lt_upper_bound; lia]. Qed.

Definition good_alphabet (alphabet : Z * Z) : Prop := alphabet = std64 ∨ alphabet = url64.

(** A decidable statement on a range of integers, checked by evaluation. *)
Lemma check_range (P : Z → Prop) `{∀ v, Decision (P v)} n :
  Forall P (seqZ 0 n) → ∀ v, 0 ≤ v < n → P v.
Proof. rewrite Forall_forall. intros HP v Hv. apply HP, elem_of_seqZ. lia. Qed.

Lemma dec64_enc64 alphabet v : good_alphabet alphabet → 0 ≤ v < 64 → dec64 alphabet (enc64 alphabet v) = Some v.
Proof.
  intros [-> | ->]; revert v; apply (check_range _ 64); apply (bool_decide_unpack _); vm_compute; exact I.
Qed.

Lemma enc64_data alphabet v : good_alphabet alphabet → 0 ≤ v < 64 → 13 < enc64 alphabet v < 128.
Proof. intros Hal Hv. unfold enc64. destruct Hal as [-> | ->]; simpl; repeat case_decide; lia. Qed.

(** Digits of the encoding, before the alphabet. *)
Fixpoint split64 (l : list Z) : list Z :=
  match l with
  | a :: b :: c :: rest => a / 4 :: a mod 4 * 16 + b / 16 :: b mod 16 * 4 + c / 64 :: c mod 64 :: split64 rest
  | [a; b] => [a / 4; a mod 4 * 16 + b / 16; b mod 16 * 4]
  | [a] => [a / 4; a mod 4 * 16]
  | [] => []
  end.

(** Induction three elements at a time. *)
Lemma list_ind3 {A} (P : list A → Prop) :
  P [] → (∀ a, P [a]) → (∀ a b, P [a; b]) → (∀ a b c l, P l → P (a :: b :: c :: l)) → ∀ l, P l.
Proof.
  intros H0 H1 H2 H3. fix IH 1. intros [|a [|b [|c l]]]; [exact H0|apply H1|apply H2|apply H3, IH].
Qed.

Lemma raw_encode64_split alphabet l : raw_encode64 alphabet l = enc64 alphabet <$> split64 l.
Proof. induction l as [| | |a b c l IH] using list_ind3; [done..|]. cbn. by rewrite IH. Qed.

Ltac div_mod_lia := Z.to_euclidean_division_equations; lia.

(** The four ways a 6-bit digit is cut from bytes. *)
Lemma sextet_range a b :
  is_byte a → is_byte b →
  0 ≤ a / 4 < 64 ∧ 0 ≤ a mod 4 * 16 + b / 16 < 64 ∧ 0 ≤ a mod 16 * 4 + b / 64 < 64 ∧ 0 ≤ a mod 64 < 64.
Proof. unfold is_byte. intros Ha Hb. split_and!; div_mod_lia. Qed.

Lemma split64_range l : Forall is_byte l → Forall (λ v, 0 ≤ v < 64) (split64 l).
Proof.
  assert (is_byte 0) as H0 by (unfold is_byte; lia).
  induction l as [|a|a b|a b c l IH] using list_ind3; intros H; cbn -[Z.div Z.modulo Z.mul Z.add];
    rewrite ?Forall_cons in *; [constructor|..]; destruct_and?.
  - destruct (sextet_range a 0) as (?&?&_); [done..|]. change (0 / 16) with 0 in *.
    split_and!; try lia; constructor.
  - destruct (sextet_range a b) as (?&?&_), (sextet_range b 0) as (_&_&?&_); [done..|]. change (0 / 64) with 0 in *.
    split_and!; try lia; constructor.
  - destruct (sextet_range a b) as (?&?&_), (sextet_range b c) as (_&_&?&_), (sextet_range c 0) as (_&_&_&?);
      [done..|]. split_and!; try lia; auto.
Qed.

(** Putting the digits of two bytes back together. *)
Lemma sextet_join a b :
  is_byte a → is_byte b →
  a / 4 * 4 + (a mod 4 * 16 + b / 16) / 16 = a ∧
  (a mod 4 * 16 + b / 16) mod 16 * 16 + (b mod 16 * 4) / 4 = b ∧
  (a mod 4 * 16) / 16 = a mod 4.
Proof. unfold is_byte. intros Ha Hb. split_and!; div_mod_lia. Qed.

Lemma sextet_join3 b c :
  is_byte b → is_byte c →
  (b mod 16 * 4 + c / 64) / 4 = b mod 16 ∧ (b mod 16 * 4 + c / 64) mod 4 * 64 + c mod 64 = c.
Proof. unfold is_byte. intros Hb Hc. split_and!; div_mod_lia. Qed.

Lemma sextet_high a b : is_byte b → (a mod 4 * 16 + b / 16) mod 16 = b / 16.
Proof. unfold is_byte. intros Hb. div_mod_lia. Qed.

Lemma join64_split64 l : Forall is_byte l → join64 (split64 l) = Some l.
Proof.
  induction l as [|a|a b|a b c l IH] using list_ind3; intros H; cbn -[Z.div Z.modulo Z.mul Z.add];
    rewrite ?Forall_cons in *; [done|..]; destruct_and?.
  - rewrite (proj2 (proj2 (sextet_join a a ltac:(done) ltac:(done)))). do 2 f_equal. div_mod_lia.
  - destruct (sextet_join a b) as (-> & -> & _); done.
  - rewrite IH by done. destruct (sextet_join a b) as (-> & _ & _); [done..|].
    destruct (sextet_join3 b c) as (-> & ->); [done..|]. rewrite sextet_high by done.
    repeat f_equal. div_mod_lia.
Qed.

Lemma mapM_dec64 alphabet l :
  good_alphabet alphabet → Forall (λ v, 0 ≤ v < 64) l → mapM (dec64 alphabet) (enc64 alphabet <$> l) = Some l.
Proof.
  intros Hal Hl. induction Hl as [|v l Hv _ IH]; [done|]. cbn. rewrite dec64_enc64 by done. cbn.
  change (mapM _ (list_fmap _ _ _ l)) with (mapM (dec64 alphabet) (enc64 alphabet <$> l)). by rewrite IH.
Qed.

Lemma strip_newlines_id l : Forall (λ c, 13 < c) l → strip_newlines l = l.
Proof.
  induction 1 as [|c l Hc _ IH]; [done|]. unfold strip_newlines in *. rewrite filter_cons_True by lia. by f_equal.
Qed.

(** Decoding an encoding gives the bytes back. *)
Lemma raw64_roundtrip alphabet l :
  good_alphabet alphabet → Forall is_byte l → raw_decode64 alphabet (raw_encode64 alphabet l) = Some l.
Proof.
  intros Hal Hl. pose proof (split64_range l Hl) as Hr.
  unfold raw_decode64. rewrite raw_encode64_split, strip_newlines_id.
  - rewrite mapM_dec64 by done. by apply join64_split64.
  - apply Forall_fmap. eapply Forall_impl; [exact Hr|]. intros v Hv. by apply enc64_data.
Qed.

Lemma raw_encode64_bytes alphabet l :
  good_alphabet alphabet → Forall is_byte l → Forall is_byte (raw_encode64 alphabet l).
Proof.
  intros Hal Hl. rewrite raw_encode64_split. apply Forall_fmap. eapply Forall_impl; [by apply split64_range|].
  intros v Hv. pose proof (enc64_data alphabet v Hal Hv). unfold is_byte. simpl. lia.
Qed.

Lemma RawURL_roundtrip l : Forall is_byte l → RawURLEncoding_DecodeString (RawURLEncoding_EncodeToString l) = Some l.
Proof.
  intros Hl. unfold RawURLEncoding_DecodeString, RawURLEncoding_EncodeToString.
  rewrite bytes_of_bytes by (apply raw_encode64_bytes; [by right|done]). apply raw64_roundtrip; [by right|done].
Qed.

Lemma RawStd_roundtrip l : Forall is_byte l → RawStdEncoding_DecodeString (RawStdEncoding_EncodeToString l) = Some l.
Proof.
  intros Hl. unfold RawStdEncoding_DecodeString, RawStdEncoding_EncodeToString.
  rewrite bytes_of_bytes by (apply raw_encode64_bytes; [by left|done]). apply raw64_roundtrip; [by left|done].
Qed.

Lemma length_split64 l : Z.of_nat (length (split64 l)) = (4 * Z.of_nat (length l) + 2) / 3.
Proof.
  induction l as [| | |a b c l IH] using list_ind3; [done..|]. cbn [split64 length].
  rewrite !Nat2Z.inj_succ, IH. Z.to_euclidean_division_equations; lia.
Qed.

(** ** Digests are 32 bytes *)

Lemma put_be_bytes n z : Forall is_byte (put_be n z).
Proof.
  revert z. induction n as [|n IH]; intros z; simpl; [constructor|]. apply Forall_app. split; [apply IH|].
  constructor; [|constructor]. change 0xFF with (Z.ones 8). rewrite low_bits by lia. apply Z.mod_pos_bound. lia.
Qed.

Lemma sha256_bytes l : Forall is_byte (sha256 l).
Proof. unfold sha256. apply Forall_bind, Forall_forall. intros x _. apply put_be_bytes. Qed.

Lemma length_put_be n z : length (put_be n z) = n.
Proof. revert z. induction n as [|n IH]; intros z; simpl; [done|]. rewrite length_app, IH. simpl. lia. Qed.

Lemma sha256_round_length st kw : length st = 8%nat → length (sha256_round st kw) = 8%nat.
Proof. destruct st as [|? [|? [|? [|? [|? [|? [|? [|? [|]]]]]]]]]; done. Qed.

Lemma sha256_block_length st block : length st = 8%nat → length (sha256_block st block) = 8%nat.
Proof.
  intros Hst. unfold sha256_block. rewrite length_zip_with, Hst.
  generalize (zip sha256_K (reverse (sha256_schedule 48 (reverse block)))). intros l.
  enough (∀ st, length st = 8%nat → length (foldl sha256_round st l) = 8%nat) as -> by done.
  clear. induction l as [|kw l IH]; intros st Hst; simpl; [done|]. by apply IH, sha256_round_length.
Qed.

Lemma length_sha256 l : length (sha256 l) = 32%nat.
Proof.
  unfold sha256. generalize (blocks l). intros bs.
  assert (∀ st, length st = 8%nat → length (foldl sha256_block st bs) = 8%nat) as Hb.
  { induction bs as [|b bs IH]; intros st Hst; simpl; [done|]. by apply IH, sha256_block_length. }
  assert (∀ ws, length (ws ≫= put_be 4) = (4 * length ws)%nat) as Hw.
  { clear. induction ws as [|w ws IH]; [done|]. rewrite bind_cons, length_app, length_put_be, IH. simpl. lia. }
  rewrite Hw, Hb; done.
Qed.

(** What unpadded URL encoding is made of, and how long it is. *)
Definition url64_byte (b : Z) : bool := is_upper b || is_alnum_lower b || is_one_of "_-" b.

Lemma enc64_url_byte v : 0 ≤ v < 64 → url64_byte (enc64 url64 v) = true.
Proof. revert v. apply (check_range _ 64). apply (bool_decide_unpack _). vm_compute. exact I. Qed.

Lemma RawURL_bytes l :
  Forall is_byte l →
  Forall (λ b, url64_byte b = true) (bytes (RawURLEncoding_EncodeToString l)) ∧
  Z.of_nat (length (bytes (RawURLEncoding_EncodeToString l))) = (4 * Z.of_nat (length l) + 2) / 3.
Proof.
  intros Hl. unfold RawURLEncoding_EncodeToString.
  rewrite bytes_of_bytes by (apply raw_encode64_bytes; [by right|done]). rewrite raw_encode64_split. split.
  - apply Forall_fmap. eapply Forall_impl; [by apply split64_range|]. intros v Hv. by apply enc64_url_byte.
  - rewrite length_fmap. apply length_split64.
Qed.

(** Published test vectors: FIPS 180 ("abc") and RFC 7636, appendix B. *)
Example sha256_abc :
  hex (sha256 (bytes "abc")) = "ba7816bf8f01cfea414140de5dae2223b00361a396177a9cb410ff61f20015ad".
Proof. vm_compute. reflexivity. Qed.
Example sha1_abc : hex (sha1 (bytes "abc")) = "a9993e364706816aba3e25717850c26c9cd0d89d".
Proof. vm_compute. reflexivity. Qed.
Example pkce_vector :
  RawURLEncoding_EncodeToString (sha256 (bytes "dBjftJeZ4CVP-mB92K27uhbUJU1p1r_wW1gFWFOEjXk"))
  = "E9Melhoa2OwvFrEMTJguCHaoeK1t8URWbuGJSstw-cM".
Proof. vm_compute. reflexivity. Qed.
Example base32_vector : base32_EncodeToString (bytes "foobar") = "MZXW6YTBOI".
Proof. vm_compute. reflexivity. Qed.
