(* ===== verification/GoAead.v ===== *)
(** AES and the Galois/Counter Mode of Go's [crypto/aes] and [crypto/cipher], as
    executable functions on bytes: [Seal] appends a 16-byte tag to the ciphertext
    and [Open] checks it. The program relies on one fact about them, proved here:
    opening what was sealed under the same key, nonce and additional data gives
    the plaintext back. *)
From S2P Require Import Prelude GoStrings GoCrypto.
Local Open Scope Z_scope.

(** ** AES *)

Definition sbox : list Z :=
  [0x63; 0x7c; 0x77; 0x7b; 0xf2; 0x6b; 0x6f; 0xc5; 0x30; 0x01; 0x67; 0x2b; 0xfe; 0xd7; 0xab; 0x76;
   0xca; 0x82; 0xc9; 0x7d; 0xfa; 0x59; 0x47; 0xf0; 0xad; 0xd4; 0xa2; 0xaf; 0x9c; 0xa4; 0x72; 0xc0;
   0xb7; 0xfd; 0x93; 0x26; 0x36; 0x3f; 0xf7; 0xcc; 0x34; 0xa5; 0xe5; 0xf1; 0x71; 0xd8; 0x31; 0x15;
   0x04; 0xc7; 0x23; 0xc3; 0x18; 0x96; 0x05; 0x9a; 0x07; 0x12; 0x80; 0xe2; 0xeb; 0x27; 0xb2; 0x75;
   0x09; 0x83; 0x2c; 0x1a; 0x1b; 0x6e; 0x5a; 0xa0; 0x52; 0x3b; 0xd6; 0xb3; 0x29; 0xe3; 0x2f; 0x84;
   0x53; 0xd1; 0x00; 0xed; 0x20; 0xfc; 0xb1; 0x5b; 0x6a; 0xcb; 0xbe; 0x39; 0x4a; 0x4c; 0x58; 0xcf;
   0xd0; 0xef; 0xaa; 0xfb; 0x43; 0x4d; 0x33; 0x85; 0x45; 0xf9; 0x02; 0x7f; 0x50; 0x3c; 0x9f; 0xa8;
   0x51; 0xa3; 0x40; 0x8f; 0x92; 0x9d; 0x38; 0xf5; 0xbc; 0xb6; 0xda; 0x21; 0x10; 0xff; 0xf3; 0xd2;
   0xcd; 0x0c; 0x13; 0xec; 0x5f; 0x97; 0x44; 0x17; 0xc4; 0xa7; 0x7e; 0x3d; 0x64; 0x5d; 0x19; 0x73;
   0x60; 0x81; 0x4f; 0xdc; 0x22; 0x2a; 0x90; 0x88; 0x46; 0xee; 0xb8; 0x14; 0xde; 0x5e; 0x0b; 0xdb;
   0xe0; 0x32; 0x3a; 0x0a; 0x49; 0x06; 0x24; 0x5c; 0xc2; 0xd3; 0xac; 0x62; 0x91; 0x95; 0xe4; 0x79;
   0xe7; 0xc8; 0x37; 0x6d; 0x8d; 0xd5; 0x4e; 0xa9; 0x6c; 0x56; 0xf4; 0xea; 0x65; 0x7a; 0xae; 0x08;
   0xba; 0x78; 0x25; 0x2e; 0x1c; 0xa6; 0xb4; 0xc6; 0xe8; 0xdd; 0x74; 0x1f; 0x4b; 0xbd; 0x8b; 0x8a;
   0x70; 0x3e; 0xb5; 0x66; 0x48; 0x03; 0xf6; 0x0e; 0x61; 0x35; 0x57; 0xb9; 0x86; 0xc1; 0x1d; 0x9e;
   0xe1; 0xf8; 0x98; 0x11; 0x69; 0xd9; 0x8e; 0x94; 0x9b; 0x1e; 0x87; 0xe9; 0xce; 0x55; 0x28; 0xdf;
   0x8c; 0xa1; 0x89; 0x0d; 0xbf; 0xe6; 0x42; 0x68; 0x41; 0x99; 0x2d; 0x0f; 0xb0; 0x54; 0xbb; 0x16].
Definition sub_byte (b : Z) : Z := nth (Z.to_nat b) sbox 0.
Definition xtime (b : Z) : Z :=
  let d := Z.shiftl b 1 in if decide (256 ≤ d) then Z.lxor (Z.land d 0xFF) 0x1b else d.
(** Exclusive or of bytes, which have eight bits whatever the integers given. *)
Definition xor_byte (a b : Z) : Z := Z.land (Z.lxor a b) 0xFF.
Definition xor_bytes (x y : list Z) : list Z := zip_with xor_byte x y.

(** Key expansion: [w] holds the words so far, newest first. *)
Fixpoint expand (fuel nk i : nat) (rcon : Z) (w : list (list Z)) : list (list Z) :=
  match fuel with
  | O => w
  | S f =>
      let temp := nth 0 w [] in
      let back := nth (nk - 1) w [] in
      let '(temp, rcon) :=
        if decide (i mod nk = 0)%nat then
          (xor_bytes (sub_byte <$> (drop 1 temp ++ take 1 temp)) [rcon; 0; 0; 0], xtime rcon)
        else if decide (6 < nk ∧ i mod nk = 4)%nat then (sub_byte <$> temp, rcon)
        else (temp, rcon) in
      expand f nk (S i) rcon (xor_bytes back temp :: w)
  end.

(** The round keys, 16 bytes each. *)
Definition round_keys (key : list Z) : list (list Z) :=
  let nk := (length key / 4)%nat in
  let words := reverse (expand (4 * (nk + 7) - nk) nk nk 1 (reverse (pieces (length key) 4 key))) in
  let all := concat words in pieces (length all) 16 all.

(** Rows of the state shifted; the state is stored column by column. *)
Definition shift_rows (s : list Z) : list Z :=
  (λ i : nat, nth i s 0) <$> [0; 5; 10; 15; 4; 9; 14; 3; 8; 13; 2; 7; 12; 1; 6; 11]%nat.

Definition mix_column (c : list Z) : list Z :=
  match c with
  | [a; b; c; d] =>
      let m3 x := Z.lxor (xtime x) x in
      [Z.lxor (Z.lxor (xtime a) (m3 b)) (Z.lxor c d); Z.lxor (Z.lxor a (xtime b)) (Z.lxor (m3 c) d);
       Z.lxor (Z.lxor a b) (Z.lxor (xtime c) (m3 d)); Z.lxor (Z.lxor (m3 a) b) (Z.lxor c (xtime d))]
  | _ => c
  end.

(** Rounds after the initial key addition; the last one does not mix columns. *)
Fixpoint aes_rounds (keys : list (list Z)) (s : list Z) : list Z :=
  match keys with
  | [] => s
  | [k] => xor_bytes (shift_rows (sub_byte <$> s)) k
  | k :: rest => aes_rounds rest (xor_bytes (concat (mix_column <$> pieces 4 4 (shift_rows (sub_byte <$> s)))) k)
  end.

(** A cipher is its list of round keys; [aes.NewCipher] accepts 16, 24 or 32 bytes. *)
Definition NewCipher (key : list Z) : option (list (list Z)) :=
  if decide (length key = 16 ∨ length key = 24 ∨ length key = 32)%nat then Some (round_keys key) else None.

Definition aes_block (cipher : list (list Z)) (block : list Z) : list Z :=
  match cipher with
  | k0 :: rest => aes_rounds rest (xor_bytes block k0)
  | [] => block
  end.

(** ** GCM *)

Definition NonceSize : nat := 12.
Definition Overhead : nat := 16.

Definition be_int (l : list Z) : Z := foldl (λ acc b, acc * 256 + b) 0 l.

(** Multiplication in GF(2^128), the first bit of [x] being its highest. *)
Fixpoint gf_mul (n : nat) (x v acc : Z) : Z :=
  match n with
  | O => acc
  | S k =>
      let acc := if Z.testbit x (Z.of_nat k) then Z.lxor acc v else acc in
      let v := if Z.testbit v 0 then Z.lxor (Z.shiftr v 1) (Z.shiftl 0xe1 120) else Z.shiftr v 1 in
      gf_mul k x v acc
  end.

Definition pad16 (l : list Z) : list Z := l ++ replicate ((16 - length l mod 16) mod 16) 0.

Definition ghash (h : Z) (aad ct : list Z) : Z :=
  let data := pad16 aad ++ pad16 ct ++ put_be 8 (8 * Z.of_nat (length aad)) ++ put_be 8 (8 * Z.of_nat (length ct)) in
  foldl (λ y block, gf_mul 128 (Z.lxor y (be_int block)) h 0) 0 (pieces (length data) 16 data).

(** The key stream: the encryptions of successive counter blocks, from 2 on. *)
Fixpoint keystream (blocks : nat) (ctr : Z) (cipher : list (list Z)) (nonce : list Z) : list Z :=
  match blocks with
  | O => []
  | S k => take 16 (aes_block cipher (nonce ++ put_be 4 ctr) ++ replicate 16 0) ++ keystream k (ctr + 1) cipher nonce
  end.

Definition gcm_crypt (cipher : list (list Z)) (nonce data : list Z) : list Z :=
  xor_bytes data (keystream (S (length data / 16)) 2 cipher nonce).

Definition gcm_tag (cipher : list (list Z)) (nonce aad ct : list Z) : list Z :=
  let h := be_int (aes_block cipher (replicate 16 0)) in
  take 16 (xor_bytes (aes_block cipher (nonce ++ put_be 4 1)) (put_be 16 (ghash h aad ct)) ++ replicate 16 0).

(** [aead.Seal(nil, nonce, plaintext, aad)]. *)
Definition Seal (cipher : list (list Z)) (nonce plaintext aad : list Z) : list Z :=
  let ct := gcm_crypt cipher nonce plaintext in ct ++ gcm_tag cipher nonce aad ct.

(** [aead.Open(nil, nonce, data, aad)]. *)
Definition Open (cipher : list (list Z)) (nonce data aad : list Z) : option (list Z) :=
  if decide (length data < Overhead)%nat then None
  else
    let n := (length data - Overhead)%nat in
    let ct := take n data in
    if decide (drop n data = gcm_tag cipher nonce aad ct) then Some (gcm_crypt cipher nonce ct) else None.

(** ** Opening what was sealed *)

Lemma length_keystream n ctr cipher nonce : length (keystream n ctr cipher nonce) = (16 * n)%nat.
Proof.
  revert ctr. induction n as [|n IH]; intros ctr; [done|]. cbn [keystream].
  rewrite length_app, IH, length_take, length_app, length_replicate. lia.
Qed.

Lemma length_gcm_crypt cipher nonce data : length (gcm_crypt cipher nonce data) = length data.
Proof.
  unfold gcm_crypt, xor_bytes. rewrite length_zip_with, length_keystream.
  pose proof (Nat.div_mod (length data) 16). pose proof (Nat.mod_upper_bound (length data) 16). lia.
Qed.

Lemma land_byte z : Z.land z 0xFF = z mod 256.
Proof. apply (Z.land_ones z 8). lia. Qed.

Lemma xor_byte_range a b : is_byte (xor_byte a b).
Proof. unfold xor_byte. rewrite land_byte. apply Z.mod_pos_bound. lia. Qed.

Lemma xor_bytes_range x y : Forall is_byte (xor_bytes x y).
Proof. revert y. induction x; intros [|b y]; constructor; [apply xor_byte_range|auto]. Qed.

Lemma xor_byte_twice a b : is_byte a → xor_byte (xor_byte a b) b = a.
Proof.
  intros Ha. transitivity (Z.land a 0xFF); [|rewrite land_byte; by apply Z.mod_small].
  unfold xor_byte. apply Z.bits_inj'. intros n _. rewrite !Z.land_spec, !Z.lxor_spec, !Z.land_spec, !Z.lxor_spec.
  by destruct (Z.testbit a n), (Z.testbit b n), (Z.testbit 255 n).
Qed.

Lemma xor_bytes_twice x y : Forall is_byte x → (length x ≤ length y)%nat → xor_bytes (xor_bytes x y) y = x.
Proof.
  unfold xor_bytes. intros Hx. revert y.
  induction Hx as [|a x Ha _ IH]; intros [|b y] Hl; simpl in *; try done; [lia|].
  by rewrite xor_byte_twice, IH by (done || lia).
Qed.

Lemma gcm_crypt_twice cipher nonce data :
  Forall is_byte data → gcm_crypt cipher nonce (gcm_crypt cipher nonce data) = data.
Proof.
  intros Hd. unfold gcm_crypt at 1. rewrite length_gcm_crypt. apply xor_bytes_twice; [done|].
  rewrite length_keystream.
  pose proof (Nat.div_mod (length data) 16). pose proof (Nat.mod_upper_bound (length data) 16). lia.
Qed.

Lemma length_gcm_tag cipher nonce aad ct : length (gcm_tag cipher nonce aad ct) = Overhead.
Proof. unfold gcm_tag. rewrite length_take, length_app, length_replicate. unfold Overhead. lia. Qed.

Lemma length_Seal cipher nonce p aad : length (Seal cipher nonce p aad) = (length p + Overhead)%nat.
Proof. unfold Seal. by rewrite length_app, length_gcm_tag, length_gcm_crypt. Qed.

Lemma Seal_range cipher nonce p aad : Forall is_byte (Seal cipher nonce p aad).
Proof.
  unfold Seal, gcm_crypt, gcm_tag. apply Forall_app. split; [apply xor_bytes_range|].
  apply Forall_take, Forall_app. split; [apply xor_bytes_range|].
  apply Forall_replicate. unfold is_byte. lia.
Qed.

Lemma Open_Seal cipher nonce p aad : Forall is_byte p → Open cipher nonce (Seal cipher nonce p aad) aad = Some p.
Proof.
  intros Hp. unfold Open. rewrite length_Seal. rewrite decide_False by lia.
  replace (length p + Overhead - Overhead)%nat with (length (gcm_crypt cipher nonce p))
    by (rewrite length_gcm_crypt; lia).
  unfold Seal. rewrite take_app_length, drop_app_length, decide_True by done. by rewrite gcm_crypt_twice.
Qed.

(** ** Published test vectors: FIPS 197, C.3, and test case 14 of the GCM paper *)

Example aes256_vector :
  hex (aes_block (round_keys (seqZ 0 32)) ((λ i, i * 17) <$> seqZ 0 16)) = "8ea2b7ca516745bfeafc49904b496089".
Proof. vm_compute. reflexivity. Qed.

Example gcm_vector :
  hex (Seal (round_keys (replicate 32 0)) (replicate 12 0) (replicate 16 0) []) =
  "cea7403d4d606b6e074ec5d3baf39d18d0d1c8a799996bf0265b98b5d48ab919".
Proof. vm_compute. reflexivity. Qed.
