(* ===== verification/Secrets.v ===== *)
(** The secret key ring of [internal/secrets/keyring.go]: parsing its
    specification, sealing a secret in a textual envelope that names its key, and
    opening it, possibly with a ring whose primary key has changed since. *)
From S2P Require Import Prelude GoStrings GoCrypto GoAead.
Local Open Scope Z_scope.

(** [internal/secrets/keyring.go:14-17] errors; the other constructors are the
    errors of [ParseKeyRing] and of the random source. *)
Inductive secretError :=
| ErrUnavailable
| ErrInvalidEnvelope
| ErrRingEntry
| ErrRingDuplicate
| ErrRingKey
| ErrNonce.
#[global] Instance secretError_eq_dec : EqDecision secretError.
Proof. solve_decision. Defined.

(** [internal/secrets/keyring.go:19] envelopePrefix *)
Definition envelopePrefix : string := "certus-secret-v1.".

(** [internal/secrets/keyring.go:21] keyIDPattern: [^[A-Za-z0-9][A-Za-z0-9._-]{0,31}$] *)
Definition keyIDPattern : string → bool :=
  match_head_tail (λ b, is_alnum_lower b || is_upper b) (λ b, is_alnum_lower b || is_upper b || is_one_of "._-" b) 0 31.

(** [internal/secrets/keyring.go:23-26] KeyRing *)
Record KeyRing := { primaryID : string; keys : gmap string (list Z) }.

Definition empty_ring : KeyRing := {| primaryID := ""; keys := ∅ |}.

(** [internal/secrets/keyring.go:34-52] ParseKeyRing, the loop *)
Fixpoint parse_entries (first : bool) (result : KeyRing) (entries : list string) : Res secretError KeyRing :=
  match entries with
  | [] => Ok result
  | entry :: rest =>
      match Cut (TrimSpace entry) "="%char with
      | None => Err ErrRingEntry
      | Some (keyID, encoded) =>
          let keyID := TrimSpace keyID in
          let encoded := TrimSpace encoded in
          if decide (keyIDPattern keyID = false ∨ encoded = ""%string) then Err ErrRingEntry
          else if decide (is_Some (keys result !! keyID)) then Err ErrRingDuplicate
          else match StdEncoding_DecodeString encoded with
          | None => Err ErrRingKey
          | Some key =>
              if decide (length key ≠ 32%nat) then Err ErrRingKey
              else parse_entries false
                     {| primaryID := if first then keyID else primaryID result;
                        keys := <[keyID := key]> (keys result) |} rest
          end
      end
  end.

(** [internal/secrets/keyring.go:28-54] ParseKeyRing *)
Definition ParseKeyRing (specification : string) : Res secretError KeyRing :=
  let specification := TrimSpace specification in
  if decide (specification = ""%string) then Ok empty_ring
  else parse_entries true empty_ring (Split specification ","%char).

(** [internal/secrets/keyring.go:56-58] KeyRing.Available *)
Definition Available (k : KeyRing) : bool :=
  bool_decide (primaryID k ≠ ""%string ∧ length (default [] (keys k !! primaryID k)) = 32%nat).

(** The zero byte that separates the parts of the additional data. *)
Definition nul_byte : Ascii.ascii := Ascii.ascii_of_nat 0.

(** [internal/secrets/keyring.go:145-147] envelopeAAD *)
Definition envelopeAAD (purpose recordID keyID : string) : string :=
  purpose +:+ String nul_byte (recordID +:+ String nul_byte keyID).

(** [internal/secrets/keyring.go:64-83] KeyRing.Encrypt: [rnd] is the nonce read. *)
Definition Encrypt (k : KeyRing) (purpose recordID : string) (plaintext : list Z) (rnd : Entropy)
    : Res secretError (string * string) :=
  if negb (Available k) then Err ErrUnavailable
  else match NewCipher (default [] (keys k !! primaryID k)) with
  | None => Err ErrUnavailable
  | Some cipher =>
      match rnd with
      | None => Err ErrNonce
      | Some nonce =>
          let payload := nonce ++ Seal cipher nonce plaintext (bytes (envelopeAAD purpose recordID (primaryID k))) in
          Ok (envelopePrefix +:+ primaryID k +:+ String "."%char (RawURLEncoding_EncodeToString payload), primaryID k)
      end
  end.

(** [internal/secrets/keyring.go:129-143] parseEnvelope *)
Definition parseEnvelope (value : string) : Res secretError (string * list Z) :=
  if negb (HasPrefix value envelopePrefix) then Err ErrInvalidEnvelope
  else match Cut (TrimPrefix value envelopePrefix) "."%char with
  | None => Err ErrInvalidEnvelope
  | Some (keyID, encoded) =>
      if decide (keyIDPattern keyID = false ∨ encoded = ""%string) then Err ErrInvalidEnvelope
      else match RawURLEncoding_DecodeString encoded with
      | None => Err ErrInvalidEnvelope
      | Some payload => Ok (keyID, payload)
      end
  end.

(** [internal/secrets/keyring.go:85-122] KeyRing.Decrypt *)
Definition Decrypt (k : KeyRing) (purpose recordID envelope expectedKeyID : string) : Res secretError (list Z) :=
  match parseEnvelope envelope with
  | Err e => Err e
  | Ok (keyID, payload) =>
      if decide (expectedKeyID ≠ ""%string ∧ expectedKeyID ≠ keyID) then Err ErrInvalidEnvelope
      else
        let key := default [] (keys k !! keyID) in
        if decide (length key ≠ 32%nat) then Err ErrUnavailable
        else match NewCipher key with
        | None => Err ErrUnavailable
        | Some cipher =>
            if decide (length payload < NonceSize + Overhead)%nat then Err ErrInvalidEnvelope
            else match Open cipher (take NonceSize payload) (drop NonceSize payload)
                         (bytes (envelopeAAD purpose recordID keyID)) with
            | None => Err ErrInvalidEnvelope
            | Some plaintext => Ok plaintext
            end
        end
  end.

(** [internal/secrets/keyring.go:124-127] EnvelopeKeyID *)
Definition EnvelopeKeyID (envelope : string) : option string :=
  match parseEnvelope envelope with Ok (keyID, _) => Some keyID | Err _ => None end.

(** ** Parsing a ring *)

(** A parsed ring: identifiers follow the pattern, keys have 32 bytes, and the
    primary identifier, unless the ring is empty, is one of them. *)
Definition ring_wf (k : KeyRing) : Prop :=
  (∀ id key, keys k !! id = Some key → keyIDPattern id = true ∧ length key = 32%nat) ∧
  (keys k ≠ ∅ → is_Some (keys k !! primaryID k)).

Lemma parse_entries_wf first result entries k :
  (first = true → result = empty_ring) → ring_wf result → (first = false → is_Some (keys result !! primaryID result)) →
  parse_entries first result entries = Ok k →
  ring_wf k ∧ (entries ≠ [] ∨ first = false → is_Some (keys k !! primaryID k)).
Proof.
  revert first result. induction entries as [|entry rest IH]; intros first result Hfirst Hwf Hprim; simpl.
  { intros [= <-]. split; [done|]. intros [?|?]; [done|by apply Hprim]. }
  destruct (Cut _ _) as [[keyID encoded]|]; [|done].
  case_decide as Hp; [done|]. apply Decidable.not_or in Hp as [Hid%not_false_is_true _].
  case_decide as Hdup; [done|]. destruct (StdEncoding_DecodeString _) as [key|]; [|done].
  case_decide as Hlen; [done|]. intros Hrest.
  apply IH in Hrest as [? Hk]; [split; auto|done| |].
  - split; simpl.
    + intros id key'. destruct (decide (id = TrimSpace keyID)) as [->|Hne].
      * rewrite lookup_insert_eq. by intros [= <-].
      * rewrite lookup_insert_ne by done. apply Hwf.
    + intros _. destruct first; [rewrite lookup_insert_eq; eauto|].
      destruct (Hprim eq_refl) as [key' Hkey']. rewrite lookup_insert_ne; [eauto|].
      intros E. apply Hdup. rewrite E. eauto.
  - intros _. simpl. destruct first; [rewrite lookup_insert_eq; eauto|].
    destruct (Hprim eq_refl) as [key' Hkey']. rewrite lookup_insert_ne; [eauto|].
    intros E. apply Hdup. rewrite E. eauto.
Qed.

Lemma Split_nonempty s sep : Split s sep ≠ [].
Proof. destruct s; simpl; [done|]. destruct (Ascii.eqb _ _); [done|]. by destruct (Split _ _). Qed.

Lemma keyIDPattern_nonempty id : keyIDPattern id = true → id ≠ ""%string.
Proof. by intros H ->. Qed.

Lemma empty_ring_wf : ring_wf empty_ring.
Proof. split; [|done]. intros id key. simpl. by rewrite lookup_empty. Qed.

Lemma ParseKeyRing_wf specification k :
  ParseKeyRing specification = Ok k →
  ring_wf k ∧ (TrimSpace specification ≠ ""%string → is_Some (keys k !! primaryID k)).
Proof.
  unfold ParseKeyRing. case_decide; [intros [= <-]; split; [apply empty_ring_wf|done]|].
  intros Hp. apply parse_entries_wf in Hp as [? Hk]; [|done|apply empty_ring_wf|done].
  split; [done|]. intros _. apply Hk. left. apply Split_nonempty.
Qed.

(** A key ring specification that parses to anything but the empty ring gives a
    usable ring: its primary key is available and every key it holds has an
    identifier of the accepted form and 32 bytes; an empty specification gives a
    ring that is not available. *)
Theorem ParseKeyRing_available specification k :
  ParseKeyRing specification = Ok k →
  Available k = bool_decide (TrimSpace specification ≠ ""%string) ∧
  ∀ id key, keys k !! id = Some key → keyIDPattern id = true ∧ length key = 32%nat.
Proof.
  intros Hp. destruct (ParseKeyRing_wf specification k Hp) as [[Hkeys _] Hprim]. split; [|done].
  unfold Available. apply bool_decide_ext. split.
  - intros [Hne _] E. unfold ParseKeyRing in Hp. rewrite decide_True in Hp by done. by simplify_eq.
  - intros Hne. destruct (Hprim Hne) as [key Hkey]. destruct (Hkeys _ _ Hkey) as [Hid Hlen].
    rewrite Hkey. split; [by apply keyIDPattern_nonempty|done].
Qed.

(** ** Round trip *)

Lemma parseEnvelope_sealed id payload :
  keyIDPattern id = true → no_byte "."%char id → Forall is_byte payload → payload ≠ [] →
  parseEnvelope (envelopePrefix +:+ id +:+ String "."%char (RawURLEncoding_EncodeToString payload)) = Ok (id, payload).
Proof.
  intros Hid Hdot Hpay Hne. unfold parseEnvelope.
  rewrite (proj2 (HasPrefix_true _ _)) by eauto. simpl negb. cbv iota.
  rewrite TrimPrefix_app, Cut_app by done. rewrite decide_False.
  - by rewrite RawURL_roundtrip.
  - rewrite Hid. intros [|E]; [done|]. apply (f_equal RawURLEncoding_DecodeString) in E.
    rewrite RawURL_roundtrip in E by done. by injection E.
Qed.

Lemma NewCipher_32 key : length key = 32%nat → NewCipher key = Some (round_keys key).
Proof. intros H. unfold NewCipher. by rewrite decide_True by auto. Qed.

Lemma Decrypt_Encrypt k k' purpose recordID plaintext nonce envelope id expected :
  ring_wf k → no_byte "."%char (primaryID k) →
  Forall is_byte plaintext → Forall is_byte nonce → length nonce = NonceSize →
  Encrypt k purpose recordID plaintext (Some nonce) = Ok (envelope, id) →
  keys k' !! primaryID k = keys k !! primaryID k →
  expected = ""%string ∨ expected = id →
  id = primaryID k ∧ EnvelopeKeyID envelope = Some id ∧
  Decrypt k' purpose recordID envelope expected = Ok plaintext.
Proof.
  intros [Hkeys _] Hdot Hp Hn Hlen Henc Hsame Hexp. unfold Encrypt in Henc.
  destruct (Available k) eqn:Hav; [|done]. simpl in Henc. apply bool_decide_eq_true in Hav as [Hne Hkl].
  destruct (keys k !! primaryID k) as [key|] eqn:Hkey; [|done]. simpl in *.
  destruct (Hkeys _ _ Hkey) as [Hid _]. rewrite (NewCipher_32 key Hkl) in Henc. simplify_eq.
  set (sealed := Seal _ _ _ _).
  assert (Forall is_byte (nonce ++ sealed)) as Hb by (apply Forall_app; split; [done|apply Seal_range]).
  assert (nonce ++ sealed ≠ []) as Hnil by (intros E; apply (f_equal length) in E; rewrite length_app in E; simpl in *; unfold NonceSize in *; lia).
  unfold EnvelopeKeyID, Decrypt. rewrite parseEnvelope_sealed by done.
  split_and!; [done|done|]. rewrite decide_False by naive_solver. rewrite Hsame. simpl default.
  rewrite decide_False by (intros Hx; done). rewrite (NewCipher_32 key Hkl).
  rewrite decide_False by (rewrite length_app; unfold sealed; rewrite length_Seal; lia).
  rewrite <-Hlen, take_app_length, drop_app_length. unfold sealed. by rewrite Open_Seal.
Qed.

(** C28. Round trip of a secret, across key rotation. What a ring encrypts for a
    purpose and a record is labelled with the ring's primary key and is decrypted
    to the same bytes by every ring that still holds that key, whatever its
    primary key is now, provided the identifier has no dot and the nonce read has
    the size of a nonce. *)
Theorem secret_roundtrip k k' purpose recordID plaintext nonce envelope id expected :
  ring_wf k → no_byte "."%char (primaryID k) →
  Forall is_byte plaintext → Forall is_byte nonce → length nonce = NonceSize →
  Encrypt k purpose recordID plaintext (Some nonce) = Ok (envelope, id) →
  keys k' !! primaryID k = keys k !! primaryID k →
  expected = ""%string ∨ expected = id →
  id = primaryID k ∧ EnvelopeKeyID envelope = Some id ∧
  Decrypt k' purpose recordID envelope expected = Ok plaintext.
Proof. apply Decrypt_Encrypt. Qed.

(** ** Identifiers with a dot *)

Lemma dot_not_digit : dec64 url64 46 = None.
Proof. reflexivity. Qed.

Lemma mapM_None {A B} (f : A → option B) l x : x ∈ l → f x = None → mapM f l = None.
Proof.
  intros Hin Hx. destruct (mapM f l) as [k|] eqn:E; [|done]. apply mapM_Some_1 in E.
  apply list_elem_of_lookup in Hin as [i Hi]. destruct (Forall2_lookup_l _ _ _ _ _ E Hi) as (y & _ & Hy). congruence.
Qed.

Lemma decode_dot s : ¬ no_byte "."%char s → RawURLEncoding_DecodeString s = None.
Proof.
  unfold no_byte, RawURLEncoding_DecodeString, raw_decode64, bytes. intros Hdot%dec_stable.
  rewrite (mapM_None _ _ 46); [done| |done].
  apply list_elem_of_filter. split; [lia|]. by apply (list_elem_of_fmap_2 byte_val) in Hdot.
Qed.

Lemma Cut_dotted x y sep : ¬ no_byte sep x → ∃ a b, Cut (x +:+ y) sep = Some (a, b +:+ y) ∧ x = a +:+ String sep b.
Proof.
  unfold no_byte. induction x as [|c x IH]; intros Hx%dec_stable; [by inversion Hx|].
  change (String c x +:+ y) with (String c (x +:+ y)). simpl. destruct (Ascii.eqb c sep) eqn:E.
  - apply Ascii.eqb_eq in E as ->. by exists ""%string, x.
  - apply Ascii.eqb_neq in E. change (list_ascii_of_string (String c x)) with (c :: list_ascii_of_string x) in Hx.
    apply elem_of_cons in Hx as [?|Hx]; [done|]. destruct IH as (a & b & -> & ->); [by auto|].
    by exists (String c a), b.
Qed.

(** A key identifier with a dot loses data. The pattern accepts identifiers with
    dots and a ring with such a primary key encrypts without error, but no ring
    decrypts what it produced: the envelope is cut at the first dot. *)
Theorem dotted_key_loses_secrets k purpose recordID plaintext nonce envelope id :
  ¬ no_byte "."%char (primaryID k) →
  Encrypt k purpose recordID plaintext (Some nonce) = Ok (envelope, id) →
  EnvelopeKeyID envelope = None ∧
  ∀ k' purpose' recordID' expected, Decrypt k' purpose' recordID' envelope expected = Err ErrInvalidEnvelope.
Proof.
  intros Hdot Henc. unfold Encrypt in Henc. destruct (Available k); [|done]. simpl in Henc.
  destruct (NewCipher _); [|done]. simplify_eq.
  match goal with |- context [String "."%char ?e] => set (rest := String "."%char e) end.
  enough (parseEnvelope (envelopePrefix +:+ primaryID k +:+ rest) = Err ErrInvalidEnvelope) as E.
  { unfold EnvelopeKeyID, Decrypt. by rewrite E. }
  unfold parseEnvelope. rewrite (proj2 (HasPrefix_true _ _)) by eauto. simpl negb. cbv iota.
  rewrite TrimPrefix_app. destruct (Cut_dotted (primaryID k) rest _ Hdot) as (a & b & -> & _).
  case_decide; [done|]. rewrite decode_dot; [done|].
  unfold no_byte, rest. intros Hn. apply Hn. clear.
  induction b as [|c b IH]; [by left|by right].
Qed.
