(* ===== verification/Session.v ===== *)
(** Sign-in sessions: [internal/session/session.go] (the service) and
    [internal/session/memory_repository.go] (the store). A session is found by
    the hash of its token; it ends by expiry or by revocation. *)
From S2P Require Import Prelude GoStrings GoCrypto.
Local Open Scope Z_scope.

(** ** Data *)

(** [internal/session/session.go:12] ErrNotFound: the sentinel error, beside the
    failure of the random source. *)
Inductive sessionError := SessionNotFound | SessionRandomFailure.
#[global] Instance sessionError_eq_dec : EqDecision sessionError.
Proof. solve_decision. Defined.

(** [internal/session/session.go:14-25] Session *)
Record Session := {
  s_ID : string;
  s_UserID : string;
  s_AuthenticatedAt : Time;
  s_ExpiresAt : Time;
  s_LastSeenAt : Time;
  s_IPAddress : string;
  s_UserAgent : string;
  s_RevokedAt : option Time;
  s_AuthMethods : list string;
  s_AssuranceLevel : string;
}.

(** [internal/session/memory_repository.go:13-17] memoryRecord *)
Record memoryRecord := {
  mr_Session : Session;
  mr_hash : string;
  mr_revokedAt : option Time;
}.

(** [internal/session/memory_repository.go:19-22] MemoryRepository: the mutex
    makes each operation atomic. *)
Record SessionRepository := { records : gmap string memoryRecord }.

(** [internal/session/memory_repository.go:24-26] NewMemoryRepository *)
Definition NewSessionRepository : SessionRepository := {| records := ∅ |}.

(** ** The store *)

Definition session_with_ID (id ipAddress userAgent : string) (v : Session) : Session :=
  {| s_ID := id; s_UserID := s_UserID v; s_AuthenticatedAt := s_AuthenticatedAt v;
     s_ExpiresAt := s_ExpiresAt v; s_LastSeenAt := s_LastSeenAt v; s_IPAddress := ipAddress;
     s_UserAgent := userAgent; s_RevokedAt := s_RevokedAt v; s_AuthMethods := s_AuthMethods v;
     s_AssuranceLevel := s_AssuranceLevel v |}.
Definition session_seen (now : Time) (v : Session) : Session :=
  {| s_ID := s_ID v; s_UserID := s_UserID v; s_AuthenticatedAt := s_AuthenticatedAt v;
     s_ExpiresAt := s_ExpiresAt v; s_LastSeenAt := now; s_IPAddress := s_IPAddress v;
     s_UserAgent := s_UserAgent v; s_RevokedAt := s_RevokedAt v; s_AuthMethods := s_AuthMethods v;
     s_AssuranceLevel := s_AssuranceLevel v |}.
Definition session_revoked (now : Time) (v : Session) : Session :=
  {| s_ID := s_ID v; s_UserID := s_UserID v; s_AuthenticatedAt := s_AuthenticatedAt v;
     s_ExpiresAt := s_ExpiresAt v; s_LastSeenAt := s_LastSeenAt v; s_IPAddress := s_IPAddress v;
     s_UserAgent := s_UserAgent v; s_RevokedAt := Some now; s_AuthMethods := s_AuthMethods v;
     s_AssuranceLevel := s_AssuranceLevel v |}.

Definition record_seen (now : Time) (r : memoryRecord) : memoryRecord :=
  {| mr_Session := session_seen now (mr_Session r); mr_hash := mr_hash r; mr_revokedAt := mr_revokedAt r |}.
Definition record_revoke (now : Time) (r : memoryRecord) : memoryRecord :=
  {| mr_Session := session_revoked now (mr_Session r); mr_hash := mr_hash r; mr_revokedAt := Some now |}.

Definition put (id : string) (rec : memoryRecord) (r : SessionRepository) : SessionRepository :=
  {| records := <[id := rec]> (records r) |}.

(** [internal/session/memory_repository.go:28-40] Create: [rnd] is the 16 bytes read
    for the identifier. *)
Definition Create (r : SessionRepository) (value : Session) (hash ipAddress userAgent : string) (rnd : Entropy)
    : SessionRepository * Res sessionError Session :=
  match RandomToken rnd with
  | Err _ => (r, Err SessionRandomFailure)
  | Ok id =>
      let value := session_with_ID id ipAddress userAgent value in
      (put id {| mr_Session := value; mr_hash := hash; mr_revokedAt := None |} r, Ok value)
  end.

(** Not revoked and not expired. *)
Definition live (now : Time) (rec : memoryRecord) : Prop :=
  mr_revokedAt rec = None ∧ After (s_ExpiresAt (mr_Session rec)) now = true.
#[global] Instance live_dec now rec : Decision (live now rec).
Proof. unfold live. apply _. Defined.

(** [internal/session/memory_repository.go:42-53] Find *)
Definition Find `{MapRange} (r : SessionRepository) (hash : string) (now : Time)
    : SessionRepository * Res sessionError Session :=
  match list_find (λ kv, mr_hash kv.2 = hash ∧ live now kv.2) (range (records r)) with
  | Some (_, (_, record)) =>
      let record := record_seen now record in
      (put (s_ID (mr_Session record)) record r, Ok (mr_Session record))
  | None => (r, Err SessionNotFound)
  end.

(** [internal/session/memory_repository.go:55-63] IsActive *)
Definition IsActive (r : SessionRepository) (userID id : string) (now : Time) : Res sessionError bool :=
  Ok match records r !! id with
     | Some record => bool_decide (s_UserID (mr_Session record) = userID ∧ live now record)
     | None => false
     end.

(** Most recently seen first. *)
Definition seen_first (a b : Session) : Prop := s_LastSeenAt b ≤ s_LastSeenAt a.
#[global] Instance seen_first_dec : RelDecision seen_first.
Proof. intros a b. unfold seen_first. apply _. Defined.

(** [internal/session/memory_repository.go:65-78] ListByUser *)
Definition ListByUser `{MapRange} (r : SessionRepository) (userID : string) (now : Time)
    : Res sessionError (list Session) :=
  Ok (merge_sort seen_first
        (mr_Session <$> filter (λ record, s_UserID (mr_Session record) = userID ∧ live now record)
                               (range (records r)).*2)).

(** [internal/session/memory_repository.go:80-91] Revoke *)
Definition Revoke (r : SessionRepository) (id : string) (now : Time) : SessionRepository * Res sessionError unit :=
  match records r !! id with
  | None => (r, Err SessionNotFound)
  | Some record => (put id (record_revoke now record) r, Ok ())
  end.

(** [internal/session/memory_repository.go:93-104] RevokeForUser *)
Definition RevokeForUser (r : SessionRepository) (userID id : string) (now : Time)
    : SessionRepository * Res sessionError unit :=
  match records r !! id with
  | None => (r, Err SessionNotFound)
  | Some record =>
      if decide (s_UserID (mr_Session record) ≠ userID) then (r, Err SessionNotFound)
      else (put id (record_revoke now record) r, Ok ())
  end.

(** The body of the loop of [RevokeAll], for one entry. *)
Definition revoke_all_step (userID exceptID : string) (now : Time)
    (acc : SessionRepository * Z) (kv : string * memoryRecord) : SessionRepository * Z :=
  let '(id, record) := kv in
  if decide (s_UserID (mr_Session record) ≠ userID ∨ id = exceptID ∨ mr_revokedAt record ≠ None ∨
             After (s_ExpiresAt (mr_Session record)) now = false)
  then acc
  else (put id (record_revoke now record) acc.1, wrap64 (acc.2 + 1)).

(** [internal/session/memory_repository.go:106-121] RevokeAll *)
Definition RevokeAll `{MapRange} (r : SessionRepository) (userID exceptID : string) (now : Time)
    : SessionRepository * Res sessionError Z :=
  let '(r', count) := foldl (revoke_all_step userID exceptID now) (r, 0) (range (records r)) in
  (r', Ok count).

(** ** The service *)

(** [internal/session/session.go:37-41] Service: [now] is an argument of each call. *)
Record SessionService := { sv_repository : SessionRepository; sv_lifetime : Duration }.

(** [internal/session/session.go:43-48] NewService *)
Definition NewSessionService (repository : SessionRepository) (lifetime : Duration) : SessionService :=
  {| sv_repository := repository;
     sv_lifetime := if decide (lifetime ≤ 0) then 12 * Hour else lifetime |}.

Definition with_repository (s : SessionService) (r : SessionRepository) : SessionService :=
  {| sv_repository := r; sv_lifetime := sv_lifetime s |}.

(** Run a repository operation inside the service. *)
Definition in_repository {A} (s : SessionService) (p : SessionRepository * A) : SessionService * A :=
  (with_repository s p.1, p.2).

(** [internal/session/session.go:54-79] CreateWithMethods: [rndToken] and [rndID] are
    the random bytes read for the token and for the identifier. *)
Definition CreateWithMethods (s : SessionService) (userID ipAddress userAgent : string)
    (authMethods : list string) (assuranceLevel : string) (now : Time) (rndToken rndID : Entropy)
    : SessionService * Res sessionError (Session * string) :=
  match RandomToken rndToken with
  | Err _ => (s, Err SessionRandomFailure)
  | Ok token =>
      let value := {| s_ID := ""; s_UserID := userID; s_AuthenticatedAt := now;
                      s_ExpiresAt := now + sv_lifetime s; s_LastSeenAt := now;
                      s_IPAddress := ipAddress; s_UserAgent := userAgent; s_RevokedAt := None;
                      s_AuthMethods := authMethods; s_AssuranceLevel := assuranceLevel |} in
      match Create (sv_repository s) value (HashToken token) ipAddress userAgent rndID with
      | (r, Ok record) => (with_repository s r, Ok (record, token))
      | (r, Err e) => (with_repository s r, Err e)
      end
  end.

(** [internal/session/session.go:50-52] Create *)
Definition CreateSession (s : SessionService) (userID ipAddress userAgent : string) (now : Time)
    (rndToken rndID : Entropy) : SessionService * Res sessionError (Session * string) :=
  CreateWithMethods s userID ipAddress userAgent [] "urn:certus:aal:1" now rndToken rndID.

(** [internal/session/session.go:81-86] Find *)
Definition FindSession `{MapRange} (s : SessionService) (token : string) (now : Time)
    : SessionService * Res sessionError Session :=
  if decide (token = ""%string) then (s, Err SessionNotFound)
  else in_repository s (Find (sv_repository s) (HashToken token) now).

(** [internal/session/session.go:88-93] Revoke *)
Definition RevokeSession (s : SessionService) (id : string) (now : Time) : SessionService * Res sessionError unit :=
  if decide (id = ""%string) then (s, Ok ()) else in_repository s (Revoke (sv_repository s) id now).

(** [internal/session/session.go:95-97] ListByUser *)
Definition ListSessionsByUser `{MapRange} (s : SessionService) (userID : string) (now : Time)
    : Res sessionError (list Session) := ListByUser (sv_repository s) userID now.

(** [internal/session/session.go:99-104] IsActive *)
Definition SessionIsActive (s : SessionService) (userID id : string) (now : Time) : Res sessionError bool :=
  if decide (userID = ""%string ∨ id = ""%string) then Ok false else IsActive (sv_repository s) userID id now.

(** [internal/session/session.go:106-111] RevokeForUser *)
Definition RevokeSessionForUser (s : SessionService) (userID id : string) (now : Time)
    : SessionService * Res sessionError unit :=
  if decide (userID = ""%string ∨ id = ""%string) then (s, Err SessionNotFound)
  else in_repository s (RevokeForUser (sv_repository s) userID id now).

(** [internal/session/session.go:113-118] RevokeAll *)
Definition RevokeAllSessions `{MapRange} (s : SessionService) (userID exceptID : string) (now : Time)
    : SessionService * Res sessionError Z :=
  if decide (userID = ""%string) then (s, Err SessionNotFound)
  else in_repository s (RevokeAll (sv_repository s) userID exceptID now).

(** * Guarantees

    What sessions guarantee: a session opened with a token is found by it until it
    expires or is ended, ended sessions never come back, and "sign out everywhere"
    ends exactly the sessions it reports. *)
(** ** The service as a transition system *)

Inductive SessionOp :=
| SoCreate (userID ipAddress userAgent : string) (authMethods : list string) (assuranceLevel : string)
    (now : Time) (rndToken rndID : Entropy)
| SoFind (order : MapRange) (token : string) (now : Time)
| SoRevoke (id : string) (now : Time)
| SoRevokeForUser (userID id : string) (now : Time)
| SoRevokeAll (order : MapRange) (userID exceptID : string) (now : Time).

(** One call of the service, and whether it returned without error. *)
Definition session_step (s : SessionService) (op : SessionOp) : SessionService * bool :=
  match op with
  | SoCreate u ip ua ms al now r1 r2 =>
      let p := CreateWithMethods s u ip ua ms al now r1 r2 in (p.1, is_ok p.2)
  | SoFind order token now => let p := @FindSession order s token now in (p.1, is_ok p.2)
  | SoRevoke id now => let p := RevokeSession s id now in (p.1, is_ok p.2)
  | SoRevokeForUser u id now => let p := RevokeSessionForUser s u id now in (p.1, is_ok p.2)
  | SoRevokeAll order u e now => let p := @RevokeAllSessions order s u e now in (p.1, is_ok p.2)
  end.

Abbreviation table s := (records (sv_repository s)).

(** Every record is filed under its session's identifier. *)
Definition keyed (m : gmap string memoryRecord) : Prop :=
  ∀ id rec, m !! id = Some rec → s_ID (mr_Session rec) = id.

Lemma keyed_insert m rec : keyed m → keyed (<[s_ID (mr_Session rec) := rec]> m).
Proof.
  intros Hm id rec'. destruct (decide (id = s_ID (mr_Session rec))) as [->|Hne].
  - rewrite lookup_insert_eq. by intros [= <-].
  - rewrite lookup_insert_ne by done. apply Hm.
Qed.

(** What an operation may do to a record already there: move the time it was last
    seen, or revoke it. *)
Definition record_le (rec rec' : memoryRecord) : Prop :=
  mr_hash rec' = mr_hash rec ∧
  s_ID (mr_Session rec') = s_ID (mr_Session rec) ∧
  s_UserID (mr_Session rec') = s_UserID (mr_Session rec) ∧
  s_ExpiresAt (mr_Session rec') = s_ExpiresAt (mr_Session rec) ∧
  sticky (mr_revokedAt rec) (mr_revokedAt rec').
#[global] Instance record_le_refl : Reflexive record_le.
Proof. intros rec. by split_and!. Qed.

(** ** Sign out everywhere *)

Section RevokeAllLoop.
Context `{MapRange} (userID exceptID : string) (now : Time).

Definition to_revoke (kv : string * memoryRecord) : Prop :=
  s_UserID (mr_Session kv.2) = userID ∧ kv.1 ≠ exceptID ∧ live now kv.2.
#[global] Instance to_revoke_dec kv : Decision (to_revoke kv).
Proof. unfold to_revoke. apply _. Defined.

Lemma revoke_all_loop l r n :
  foldl (revoke_all_step userID exceptID now) (r, n) l =
  ({| records := update_loop to_revoke (record_revoke now) (records r) l |},
   foldl (λ n kv, if decide (to_revoke kv) then wrap64 (n + 1) else n) n l).
Proof.
  unfold update_loop. revert r n.
  induction l as [|[id rec] l IH]; intros [m] n; [done|]. simpl foldl.
  destruct (decide (to_revoke (id, rec))) as [(H1 & H2 & H3 & H4)|Hn]; simpl in *.
  - rewrite decide_False by (rewrite H3, H4; naive_solver). by rewrite IH.
  - rewrite decide_True; [by rewrite IH|].
    destruct (decide (s_UserID (mr_Session rec) = userID)); [|by left].
    destruct (decide (id = exceptID)); [by right; left|].
    destruct (decide (mr_revokedAt rec = None)); [|by right; right; left].
    right; right; right. apply not_true_is_false. intros Ha. by apply Hn.
Qed.

Lemma count_no_wrap l n :
  0 ≤ n → n + Z.of_nat (length l) ≤ max_int64 →
  foldl (λ n kv, if decide (to_revoke kv) then wrap64 (n + 1) else n) n l =
  n + Z.of_nat (length (filter to_revoke l)).
Proof.
  revert n. induction l as [|kv l IH]; intros n Hn Hmax; simpl; [lia|].
  simpl length in Hmax. rewrite filter_cons. unfold in_int64, min_int64, max_int64 in *.
  case_decide; [|apply IH; lia]. rewrite wrap64_id by (unfold in_int64, min_int64, max_int64; lia).
  rewrite IH by lia. simpl length. lia.
Qed.
End RevokeAllLoop.

Lemma RevokeAll_spec `{MapRange} r userID exceptID now id :
  records (RevokeAll r userID exceptID now).1 !! id =
    (λ rec, if decide (to_revoke userID exceptID now (id, rec)) then record_revoke now rec else rec)
      <$> records r !! id.
Proof.
  unfold RevokeAll. rewrite revoke_all_loop. simpl. apply (range_update_lookup (to_revoke userID exceptID now)).
Qed.

(** ** Evolution of the table *)

Definition table_le (m m' : gmap string memoryRecord) (fresh : string → memoryRecord → Prop) : Prop :=
  ∀ id rec', m' !! id = Some rec' → (∃ rec, m !! id = Some rec ∧ record_le rec rec') ∨ fresh id rec'.

Lemma table_le_refl m fresh : table_le m m fresh.
Proof. intros id rec Hrec. left. by exists rec. Qed.

Lemma table_le_insert m fresh id rec rec' :
  m !! id = Some rec → record_le rec rec' → table_le m (<[id := rec']> m) fresh.
Proof.
  intros Hid Hle id' rec''. destruct (decide (id = id')) as [->|Hne].
  - rewrite lookup_insert_eq. intros [= <-]. eauto.
  - rewrite lookup_insert_ne by done. intros. left. by exists rec''.
Qed.

Lemma revoke_le now rec : record_le rec (record_revoke now rec).
Proof. by split_and!. Qed.
Lemma seen_le now rec : record_le rec (record_seen now rec).
Proof. by split_and!. Qed.

Definition creates (op : SessionOp) (id : string) (rec : memoryRecord) : Prop :=
  match op with
  | SoCreate u _ _ _ _ _ _ rndID => RandomToken rndID = Ok id ∧ s_UserID (mr_Session rec) = u
  | _ => False
  end.

Lemma session_step_le s op : keyed (table s) → table_le (table s) (table (session_step s op).1) (creates op).
Proof.
  intros Hk. destruct op; simpl.
  - unfold CreateWithMethods, Create. branches; try apply table_le_refl.
    intros id rec'. destruct (decide (a0 = id)) as [->|Hne].
    + rewrite lookup_insert_eq. intros [= <-]. by right.
    + rewrite lookup_insert_ne by done. intros. left. by exists rec'.
  - unfold FindSession, Find. branches; try apply table_le_refl.
    match goal with Hf : list_find _ _ = _ |- _ =>
      apply range_find in Hf as [Hid _] end.
    simpl. rewrite (Hk _ _ Hid). eapply table_le_insert; [done|apply seen_le].
  - unfold RevokeSession, Revoke. branches; try apply table_le_refl.
    eapply table_le_insert; [done|apply revoke_le].
  - unfold RevokeSessionForUser, RevokeForUser. branches; try apply table_le_refl.
    eapply table_le_insert; [done|apply revoke_le].
  - unfold RevokeAllSessions. branches; [apply table_le_refl|]. simpl.
    intros id rec'. rewrite RevokeAll_spec. destruct (_ !! id) as [rec|]; [|done].
    intros [= <-]. left. exists rec. split; [done|]. case_decide; [apply revoke_le|done].
Qed.

Lemma keyed_step s op : keyed (table s) → keyed (table (session_step s op).1).
Proof.
  intros Hk id rec Hrec. destruct (session_step_le s op Hk id rec Hrec) as [(rec0 & H0 & Hle)|Hc].
  - destruct Hle as (_ & -> & _). by apply Hk.
  - destruct op; try done. simpl in *. revert Hrec. unfold CreateWithMethods, Create.
    destruct Hc as [Hid _]. rewrite Hid. branches; try apply Hk.
    simpl. rewrite lookup_insert_eq. by intros [= <-].
Qed.

(** Every record stays, perhaps moved on or revoked, under its identifier. *)
Definition sessions_kept (s s' : SessionService) : Prop :=
  keyed (table s) → keyed (table s') ∧ ∀ id rec, table s !! id = Some rec → ∃ rec', table s' !! id = Some rec' ∧ record_le rec rec'.

#[global] Instance record_le_trans : Transitive record_le.
Proof.
  intros r1 r2 r3 (Hh & Hi & Hu & He & Hs) (Hh' & Hi' & Hu' & He' & Hs'). split_and!; [congruence..|by etrans].
Qed.
#[global] Instance sessions_kept_po : PreOrder sessions_kept.
Proof.
  split; [intros s Hk; split; [done|by intros id rec ?; exists rec]|]. intros s1 s2 s3 H1 H2 Hk. destruct (H1 Hk) as [Hk1 Ht1].
  destruct (H2 Hk1) as [Hk2 Ht2]. split; [done|]. intros id rec (rec1 & (rec2 & Hr2 & ?)%Ht2 & ?)%Ht1. exists rec2. split; [done|by etrans].
Qed.

Lemma kept_insert (m : gmap string memoryRecord) id rec rec' i v :
  m !! id = Some rec → record_le rec rec' → m !! i = Some v → ∃ v', <[id := rec']> m !! i = Some v' ∧ record_le v v'.
Proof.
  intros Hid Hle Hi. destruct (decide (id = i)) as [->|Hne]; [|rewrite lookup_insert_ne by done; by exists v].
  rewrite lookup_insert_eq. simplify_eq. by exists rec'.
Qed.

Lemma session_step_kept s op :
  match op with SoCreate _ _ _ _ _ _ _ _ => False | _ => True end → sessions_kept s (session_step s op).1.
Proof.
  intros Hop Hk. split; [by apply keyed_step|]. intros i v Hi. destruct op; simpl; [done| | | |].
  - unfold FindSession, Find. branches; try by exists v.
    match goal with Hf : list_find _ _ = _ |- _ => apply range_find in Hf as [Hid _] end.
    simpl. rewrite (Hk _ _ Hid). by eapply kept_insert; [|apply seen_le|].
  - unfold RevokeSession, Revoke. branches; try by exists v. by eapply kept_insert; [|apply revoke_le|].
  - unfold RevokeSessionForUser, RevokeForUser. branches; try by exists v. by eapply kept_insert; [|apply revoke_le|].
  - unfold RevokeAllSessions. branches; [by exists v|]. simpl. rewrite RevokeAll_spec, Hi. simpl. eexists. split; [done|].
    case_decide; [apply revoke_le|done].
Qed.

(** ** Ended sessions *)

(** The sessions an operation ends, by identifier and user. *)
Definition ends (op : SessionOp) : option (string → string → bool) :=
  match op with
  | SoRevoke id _ => Some (λ i _, bool_decide (i = id ∧ id ≠ ""%string))
  | SoRevokeForUser u id _ => Some (λ i _, bool_decide (i = id))
  | SoRevokeAll _ u except _ => Some (λ i u', bool_decide (u' = u ∧ i ≠ except))
  | _ => None
  end.

(** The time of an operation. *)
Definition op_time (op : SessionOp) : Time :=
  match op with
  | SoCreate _ _ _ _ _ now _ _ => now
  | SoFind _ _ now => now
  | SoRevoke _ now => now
  | SoRevokeForUser _ _ now => now
  | SoRevokeAll _ _ _ now => now
  end.

(** The selected sessions are revoked or expired at [now]. *)
Definition ended (m : string → string → bool) (now : Time) (t : gmap string memoryRecord) : Prop :=
  ∀ id rec, t !! id = Some rec → m id (s_UserID (mr_Session rec)) = true →
    mr_revokedAt rec ≠ None ∨ s_ExpiresAt (mr_Session rec) ≤ now.

(** The operation opens a session that [m] selects. *)
Definition opens (m : string → string → bool) (op : SessionOp) : Prop :=
  match op with
  | SoCreate u _ _ _ _ _ _ rndID => ∃ id, RandomToken rndID = Ok id ∧ m id u = true
  | _ => False
  end.

Lemma ended_step m now s op :
  ¬ opens m op → keyed (table s) ∧ ended m now (table s) →
  keyed (table (session_step s op).1) ∧ ended m now (table (session_step s op).1).
Proof.
  intros Hop [Hk He]. split; [by apply keyed_step|]. intros id rec' Hrec Hm.
  destruct (session_step_le s op Hk id rec' Hrec) as [(rec & H0 & _ & _ & Hu & Hexp & Hst)|Hc].
  - rewrite Hu in Hm. rewrite Hexp. destruct (He id rec H0 Hm); [left; by apply Hst|by right].
  - destruct op; try done. destruct Hc as [Hid <-]. destruct Hop. by exists id.
Qed.

Lemma ended_run m now ops s :
  Forall (λ op, ¬ opens m op) ops → keyed (table s) → ended m now (table s) →
  ended m now (table (run session_step s ops).1).
Proof.
  intros Hops Hk He.
  apply (run_invariant_ops session_step (λ s, keyed (table s) ∧ ended m now (table s))
           (λ op, ¬ opens m op) ops s (λ s op, ended_step m now s op) Hops (conj Hk He)).
Qed.

Lemma ends_ended s op m :
  keyed (table s) → ends op = Some m → (session_step s op).2 = true →
  ended m (op_time op) (table (session_step s op).1).
Proof.
  intros Hk Hm Hok. destruct op; simpl in *; simplify_eq; intros id' rec' Hrec Hsel; revert Hok Hrec;
    apply bool_decide_eq_true in Hsel.
  - destruct Hsel as [-> Hid]. unfold RevokeSession, Revoke. rewrite decide_False by done.
    destruct (table s !! id) as [rec|]; [|done]. simpl.
    rewrite lookup_insert_eq. intros _ [= <-]. by left.
  - subst id'. unfold RevokeSessionForUser, RevokeForUser. case_decide; [done|].
    destruct (table s !! id) as [rec|]; [|done]. case_decide; [done|]. simpl.
    rewrite lookup_insert_eq. intros _ [= <-]. by left.
  - destruct Hsel as [Hu Hid]. unfold RevokeAllSessions. case_decide; [done|]. intros _. simpl.
    rewrite RevokeAll_spec. destruct (_ !! id') as [rec|]; [|done]. intros [= <-].
    case_decide as Hd; [by left|]. destruct (decide (mr_revokedAt rec = None)) as [Er|]; [|by left].
    right. apply Z.le_ngt. intros Hlt. apply Hd. split_and!; [done|done|]. split; [done|]. by apply After_true.
Qed.

(** C26. Ended sessions stay ended. After a session is revoked, revoked for its user,
    or all of a user's sessions but one are revoked, in every later execution that
    does not open a session of the same identifier or user, no token finds a
    session so ended and none is active, at any time not before the revocation. *)
Theorem ended_sessions_stay_ended s op m ops :
  keyed (table s) → ends op = Some m → (session_step s op).2 = true →
  Forall (λ o, ¬ opens m o) ops →
  let s' := (run session_step (session_step s op).1 ops).1 in
  (∀ (order : MapRange) token t s2 v,
     op_time op ≤ t → FindSession s' token t = (s2, Ok v) → m (s_ID v) (s_UserID v) = false) ∧
  (∀ user id t, op_time op ≤ t → m id user = true → SessionIsActive s' user id t = Ok false).
Proof.
  intros Hk Hm Hok Hops s'. pose proof (ends_ended s op m Hk Hm Hok) as He.
  pose proof (ended_run m _ ops _ Hops (keyed_step s op Hk) He) as Hrun. fold s' in Hrun.
  assert (keyed (table s')) as Hk'.
  { apply (run_invariant session_step (λ s, keyed (table s))); [apply keyed_step|by apply keyed_step]. }
  split.
  - intros order token t s2 v Ht. unfold FindSession, Find. case_decide; [done|].
    destruct (list_find _ _) as [[i [id rec]]|] eqn:Hf; [|done]. intros [= <- <-].
    apply range_find in Hf as (Hid & _ & Hrev & Hexp%After_true). simpl in *.
    apply not_true_is_false. intros Hsel. rewrite (Hk' _ _ Hid) in Hsel.
    destruct (Hrun id rec Hid Hsel); [done|lia].
  - intros user id t Ht Hsel. unfold SessionIsActive, IsActive. case_decide; [done|]. f_equal.
    destruct (table s' !! id) as [rec|] eqn:Hid; [|done]. apply bool_decide_eq_false.
    intros (<- & Hrev & Hexp%After_true). destruct (Hrun id rec Hid Hsel); [done|lia].
Qed.

(** A hash held by one record only: looking it up finds that record while it is live. *)
Lemma Find_unique `{MapRange} r h t id rec :
  records r !! id = Some rec → mr_hash rec = h →
  (∀ id' rec', records r !! id' = Some rec' → mr_hash rec' = h → id' = id) →
  Find r h t = if decide (live t rec)
               then (put (s_ID (mr_Session rec)) (record_seen t rec) r, Ok (session_seen t (mr_Session rec)))
               else (r, Err SessionNotFound).
Proof.
  intros Hid Hh Huniq. unfold Find.
  destruct (list_find _ _) as [[i [id' rec']]|] eqn:Hf.
  - apply range_find in Hf as (Hid' & Hh' & Hlive). simpl in *.
    pose proof (Huniq id' rec' Hid' Hh') as ->. simplify_eq. by rewrite decide_True.
  - pose proof (range_find_None _ _ _ _ Hf Hid) as Hn. rewrite decide_False; [done|]. intros Hl. by apply Hn.
Qed.

(** No stored session has the token's hash. *)
Definition unused_token (token : string) (s : SessionService) : Prop :=
  ∀ id rec, table s !! id = Some rec → mr_hash rec ≠ HashToken token.

(** A session token opens its session and no other. Create a session with a
    token whose hash no stored session has: until the session's lifetime is over
    that token finds it, whatever the iteration order, with the user, methods and
    assurance level it was created with; afterwards the token finds nothing. *)
Theorem session_token_opens_session `{MapRange} s user ip ua methods level now r1 r2 s' v token t :
  CreateWithMethods s user ip ua methods level now r1 r2 = (s', Ok (v, token)) →
  token ≠ ""%string →
  unused_token token s →
  if decide (t < now + sv_lifetime s)
  then ∃ v', (FindSession s' token t).2 = Ok v' ∧ s_ID v' = s_ID v ∧ s_UserID v' = user ∧
             s_AuthMethods v' = methods ∧ s_AssuranceLevel v' = level ∧ s_AuthenticatedAt v' = now ∧
             s_ExpiresAt v' = now + sv_lifetime s
  else FindSession s' token t = (s', Err SessionNotFound).
Proof.
  unfold CreateWithMethods, Create. intros Hcreate Hne Hfresh.
  destruct (RandomToken r1) as [tok|]; [|done]. destruct (RandomToken r2) as [id|]; [|done]. simplify_eq/=.
  unfold FindSession. rewrite (decide_False (P := token = _)) by done. set (value := Build_Session _ _ _ _ _ _ _ _ _ _).
  set (rec := Build_memoryRecord (session_with_ID id ip ua value) (HashToken token) None).
  match goal with |- context [Find ?r _ _] => set (repo := r) end.
  assert (records repo !! id = Some rec) as Hid by apply lookup_insert_eq.
  assert (∀ id' rec', records repo !! id' = Some rec' → mr_hash rec' = HashToken token → id' = id) as Huniq.
  { intros id' rec' Hid' Hh. destruct (decide (id = id')) as [|Hd]; [done|].
    unfold repo in Hid'. simpl in Hid'. rewrite lookup_insert_ne in Hid' by done. by destruct (Hfresh _ _ Hid'). }
  simpl sv_repository. rewrite (Find_unique repo _ t id rec Hid eq_refl Huniq).
  assert (live t rec ↔ t < now + sv_lifetime s) as Hlive.
  { unfold live. rewrite After_true. simpl. naive_solver. }
  destruct (decide (t < now + sv_lifetime s)) as [Hlt|Hge].
  - rewrite (decide_True (P := live t rec)) by by apply Hlive. eexists. by split_and!.
  - rewrite (decide_False (P := live t rec)) by (by rewrite Hlive). done.
Qed.

Section RevokeAllExact.
Context `{MapRange} (user except : string) (now : Time).
Let listed (rec : memoryRecord) : Prop := s_UserID (mr_Session rec) = user ∧ live now rec.
Let entry (kv : string * memoryRecord) : string * memoryRecord :=
  (kv.1, if decide (to_revoke user except now kv) then record_revoke now kv.2 else kv.2).
Let keyed_list (l : list (string * memoryRecord)) : Prop := Forall (λ kv, s_ID (mr_Session kv.2) = kv.1) l.

Lemma revoked_count l :
  keyed_list l →
  length (filter (λ v, s_ID v ≠ except) (mr_Session <$> filter listed l.*2)) =
  length (filter (to_revoke user except now) l).
Proof.
  induction 1 as [|[id rec] l Hid _ IH]; [done|]. rewrite fmap_cons, !filter_cons. simpl in *.
  unfold to_revoke at 1. simpl. destruct (decide (listed rec)) as [[Hu Hl]|Hn].
  - rewrite fmap_cons, filter_cons, Hid. do 2 case_decide; simpl; naive_solver.
  - rewrite IH. rewrite decide_False; [done|]. intros (? & ? & ?). by apply Hn.
Qed.

Lemma listed_after l :
  keyed_list l →
  mr_Session <$> filter listed (entry <$> l).*2 =
  filter (λ v, s_ID v = except) (mr_Session <$> filter listed l.*2).
Proof.
  induction 1 as [|[id rec] l Hid _ IH]; [done|]. rewrite !fmap_cons, !filter_cons. simpl in *.
  unfold entry at 1. simpl. destruct (decide (to_revoke user except now (id, rec))) as [(Hu & Hne & Hl)|Hn].
  - simpl in *. rewrite decide_False by (intros [_ [? _]]; done). rewrite (decide_True (P := listed rec)) by done.
    rewrite fmap_cons, filter_cons, decide_False by congruence. done.
  - destruct (decide (listed rec)) as [[Hu Hl]|Hnl]; [|done].
    rewrite !fmap_cons, filter_cons, decide_True; [f_equal; exact IH|].
    rewrite Hid. destruct (decide (id = except)); [done|]. by destruct Hn.
Qed.
End RevokeAllExact.

(** Signing out everywhere is exact. [RevokeAll] reports how many of the user's
    listed sessions, other than the one kept, it ended, and the listing afterwards
    holds exactly the session kept, if it was there, whatever the iteration orders. *)
Theorem revoke_all_exact `{MapRange} r user except now r' n :
  keyed (records r) → Z.of_nat (size (records r)) ≤ max_int64 →
  RevokeAll r user except now = (r', Ok n) →
  ∃ before after,
    ListByUser r user now = Ok before ∧ ListByUser r' user now = Ok after ∧
    n = Z.of_nat (length (filter (λ v, s_ID v ≠ except) before)) ∧
    after ≡ₚ filter (λ v, s_ID v = except) before.
Proof.
  intros Hk Hsize. unfold RevokeAll. rewrite revoke_all_loop. intros [= <- <-]. eexists _, _.
  split; [done|]. split; [done|].
  assert (Forall (λ kv, s_ID (mr_Session kv.2) = kv.1) (range (records r))) as Hkl.
  { apply Forall_forall. intros [id rec] Hin%elem_of_range. by apply Hk. }
  split.
  - rewrite count_no_wrap by (rewrite ?length_range; lia). rewrite Z.add_0_l, <-revoked_count by done.
    by rewrite merge_sort_Permutation.
  - rewrite !merge_sort_Permutation. rewrite <-listed_after by done.
    simpl records. apply fmap_Permutation, filter_Permutation, fmap_Permutation.
    apply (range_update_perm (to_revoke user except now)).
Qed.
