(* ===== verification/RateLimit.v ===== *)
(** The fixed-window rate limiter of [internal/ratelimit/ratelimit.go]: policies,
    the service's checks, and the in-memory table of buckets with its pruning and
    eviction; and what it guarantees: the number of attempts allowed per window
    and the bound on the size of the table. *)
From S2P Require Import Prelude GoStrings GoCrypto.
Local Open Scope Z_scope.

(** ** Data *)

(** [internal/ratelimit/ratelimit.go:14-17] errors *)
Inductive rateError := ErrInvalidPolicy | ErrInvalidKey | ErrRepositoryUnavailable.
#[global] Instance rateError_eq_dec : EqDecision rateError.
Proof. solve_decision. Defined.

(** [internal/ratelimit/ratelimit.go:19] scopePattern: [^[a-z][a-z0-9_.-]{0,63}$] *)
Definition scopePattern : string → bool :=
  match_head_tail is_lower (λ b, is_alnum_lower b || is_one_of "_.-" b) 0 63.

(** [internal/ratelimit/ratelimit.go:21-24] Policy *)
Record Policy := { p_Limit : Z; p_Window : Duration }.

(** [internal/ratelimit/ratelimit.go:26-28] Policy.Enabled *)
Definition Enabled (p : Policy) : bool := bool_decide (p_Limit p > 0 ∧ p_Window p > 0).

(** [internal/ratelimit/ratelimit.go:30-39] Policy.Validate *)
Definition Validate (p : Policy) : Res rateError unit :=
  if decide (p_Limit p = 0 ∧ p_Window p = 0) then Ok ()
  else if decide (p_Limit p < 1 ∨ p_Limit p > 1000000 ∨ p_Window p < Second ∨ p_Window p > 24 * Hour)
  then Err ErrInvalidPolicy else Ok ().

(** [internal/ratelimit/ratelimit.go:41-47] Attempt *)
Record Attempt := {
  a_Scope : string;
  a_SubjectHash : string;
  a_Limit : Z;
  a_Window : Duration;
  a_Now : Time;
}.

(** [internal/ratelimit/ratelimit.go:49-53] Decision *)
Record Decision_ := { d_Allowed : bool; d_Remaining : Z; d_ResetAt : Time }.

(** [internal/ratelimit/ratelimit.go:97-101] memoryBucket *)
Record memoryBucket := { b_attempts : Z; b_resetAt : Time; b_touched : Time }.

(** [internal/ratelimit/ratelimit.go:103-107] MemoryRepository *)
Record RateRepository := { buckets : gmap string memoryBucket; maxSize : Z }.

(** [internal/ratelimit/ratelimit.go:109-114] NewMemoryRepository *)
Definition NewRateRepository : RateRepository := {| buckets := ∅; maxSize := 10000 |}.

(** ** Operations *)

(** [internal/ratelimit/ratelimit.go:172-182] validateAttempt *)
Definition validateAttempt (a : Attempt) : Res rateError unit :=
  if decide (scopePattern (a_Scope a) = false ∨ a_Limit a < 1 ∨ a_Limit a > 1000000 ∨
             a_Window a < Second ∨ a_Window a > 24 * Hour ∨ IsZero (a_Now a) = true)
  then Err ErrInvalidPolicy else Ok ().

(** [internal/ratelimit/ratelimit.go:184-191] decision *)
Definition decision (attempts limit : Z) (resetAt : Time) : Decision_ :=
  {| d_Allowed := bool_decide (attempts ≤ limit); d_Remaining := Z.max (limit - attempts) 0; d_ResetAt := resetAt |}.

(** [internal/ratelimit/ratelimit.go:150-156] prune *)
Definition prune `{MapRange} (now : Time) (r : RateRepository) : RateRepository :=
  {| buckets := range_delete (λ kb, Before now (b_resetAt kb.2) = false) (buckets r); maxSize := maxSize r |}.

(** The body of the loop of [evictOldest]: the oldest key so far, and its time. *)
Definition older (acc : string * Time) (kb : string * memoryBucket) : string * Time :=
  if decide (acc.1 = ""%string ∨ Before (b_touched kb.2) acc.2 = true) then (kb.1, b_touched kb.2) else acc.

(** [internal/ratelimit/ratelimit.go:158-170] evictOldest *)
Definition evictOldest `{MapRange} (r : RateRepository) : RateRepository :=
  let '(oldestKey, _) := foldl older (""%string, time_zero) (range (buckets r)) in
  if decide (oldestKey ≠ ""%string)
  then {| buckets := delete oldestKey (buckets r); maxSize := maxSize r |} else r.

Definition table_size (r : RateRepository) : Z := Z.of_nat (size (buckets r)).

(** The zero byte that separates the parts of a key. *)
Definition nul : string := String (Ascii.ascii_of_nat 0) EmptyString.

Definition bucket_key (a : Attempt) : string := a_Scope a +:+ nul +:+ a_SubjectHash a.

(** The zero value of a missing bucket. *)
Definition zero_bucket : memoryBucket := {| b_attempts := 0; b_resetAt := time_zero; b_touched := time_zero |}.

(** [internal/ratelimit/ratelimit.go:136-145] Take, the bucket after the attempt *)
Definition next_bucket (a : Attempt) (bucket : memoryBucket) : memoryBucket :=
  if IsZero (b_resetAt bucket) || negb (Before (a_Now a) (b_resetAt bucket))
  then {| b_attempts := 1; b_resetAt := a_Now a + a_Window a; b_touched := a_Now a |}
  else {| b_attempts := Z.min (wrap64 (b_attempts bucket + 1)) (wrap64 (a_Limit a + 1));
          b_resetAt := b_resetAt bucket; b_touched := a_Now a |}.

(** [internal/ratelimit/ratelimit.go:123-134] Take, making room *)
Definition make_room `{MapRange} (now : Time) (r : RateRepository) : RateRepository :=
  let r := if decide (maxSize r ≤ 0) then {| buckets := buckets r; maxSize := 10000 |} else r in
  let r := if decide (table_size r >= maxSize r) then prune now r else r in
  if decide (table_size r >= maxSize r) then evictOldest r else r.

(** [internal/ratelimit/ratelimit.go:116-148] Take *)
Definition Take `{MapRange} (r : RateRepository) (attempt : Attempt) : RateRepository * Res rateError Decision_ :=
  match validateAttempt attempt with
  | Err e => (r, Err e)
  | Ok _ =>
      let key := bucket_key attempt in
      let r := make_room (a_Now attempt) r in
      let bucket := next_bucket attempt (default zero_bucket (buckets r !! key)) in
      ({| buckets := <[key := bucket]> (buckets r); maxSize := maxSize r |},
       Ok (decision (b_attempts bucket) (a_Limit attempt) (b_resetAt bucket)))
  end.

(** [internal/ratelimit/ratelimit.go:67-95] Service.Allow: a nil service or
    repository is [None]. *)
Definition Allow `{MapRange} (s : option RateRepository) (scope subject : string) (policy : Policy) (now : Time)
    : option RateRepository * Res rateError Decision_ :=
  if negb (Enabled policy) then (s, Ok {| d_Allowed := true; d_Remaining := 0; d_ResetAt := time_zero |})
  else match Validate policy with
  | Err e => (s, Err e)
  | Ok _ =>
      let scope := TrimSpace scope in
      let subject := TrimSpace subject in
      if decide (scopePattern scope = false ∨ subject = ""%string) then (s, Err ErrInvalidKey)
      else match s with
      | None => (s, Err ErrRepositoryUnavailable)
      | Some r =>
          let '(r', d) := Take r {| a_Scope := scope; a_SubjectHash := HashToken (scope +:+ nul +:+ subject);
                                    a_Limit := p_Limit policy; a_Window := p_Window policy; a_Now := now |} in
          (Some r', d)
      end
  end.

(** ** The table stays bounded *)

(** No key is empty: a key always holds the separator. *)
Definition keys_nonempty (r : RateRepository) : Prop := buckets r !! ""%string = None.

Lemma bucket_key_nonempty a : bucket_key a ≠ ""%string.
Proof. unfold bucket_key, nul. by destruct (a_Scope a). Qed.

Lemma older_result acc l :
  Forall (λ kb : string * memoryBucket, kb.1 ≠ ""%string) l →
  let res := foldl older acc l in
  (res = acc ∨ ∃ kb, kb ∈ l ∧ res = (kb.1, b_touched kb.2)) ∧
  (l ≠ [] → res.1 ≠ ""%string) ∧
  (acc.1 ≠ ""%string → res.2 ≤ acc.2) ∧ (acc.1 ≠ ""%string → res.1 ≠ ""%string) ∧
  (∀ kb, kb ∈ l → res.2 ≤ b_touched kb.2).
Proof.
  intros Hl. revert acc. induction Hl as [|[k b] l Hk _ IH]; intros acc; simpl.
  { split_and!; [by left|done|done|done|]. intros kb Hkb. by inversion Hkb. }
  simpl in Hk. destruct (IH (older acc (k, b))) as (Hin & Hne & Hle & Hkey & Hmin).
  assert (Hacc : (older acc (k, b) = acc ∧ acc.1 ≠ ""%string ∧ acc.2 ≤ b_touched b) ∨
                 (older acc (k, b) = (k, b_touched b) ∧ (acc.1 ≠ ""%string → b_touched b ≤ acc.2))).
  { unfold older. simpl. case_decide as Hd.
    - right. split; [done|]. intros Ha. destruct Hd as [?|Hb%Before_true]; [done|lia].
    - left. split; [done|]. apply Decidable.not_or in Hd as [Ha Hb].
      split; [done|]. apply not_true_is_false, Before_false in Hb. done. }
  destruct Hacc as [(E & Ha & Hb)|(E & Hb)]; rewrite E in *; simpl in *; split_and!; try auto.
  - destruct Hin as [|(kb & Hkb & ?)]; [by left|right]. exists kb. split; [by right|done].
  - intros kb [->|Hkb]%elem_of_cons; [simpl; specialize (Hle Ha); lia|auto].
  - right. destruct Hin as [Hres|(kb & Hkb & ?)]; [exists (k, b); split; [by left|done]|].
    exists kb. split; [by right|done].
  - intros Ha. specialize (Hle Hk). specialize (Hb Ha). lia.
  - intros kb [->|Hkb]%elem_of_cons; [simpl; apply (Hle Hk)|auto].
Qed.

Section Bounds.
Context `{MapRange}.

Lemma range_keys r : keys_nonempty r → Forall (λ kb, kb.1 ≠ ""%string) (range (buckets r)).
Proof.
  intros Hr. apply Forall_forall. intros [k b] Hk%elem_of_range. simpl. intros ->. unfold keys_nonempty in Hr. congruence.
Qed.

(** [evictOldest] on a table with an entry deletes one, least recently touched. *)
Lemma evictOldest_spec r :
  keys_nonempty r → buckets r ≠ ∅ →
  ∃ k b, buckets r !! k = Some b ∧ evictOldest r = {| buckets := delete k (buckets r); maxSize := maxSize r |} ∧
    ∀ k' b', buckets r !! k' = Some b' → b_touched b ≤ b_touched b'.
Proof.
  intros Hr Hne. pose proof (older_result ("", time_zero)%string _ (range_keys r Hr)) as Hold.
  unfold evictOldest. destruct (foldl older _ _) as [k t]. simpl in Hold.
  destruct Hold as (Hin & Hk & _ & _ & Hmin).
  assert (k ≠ ""%string) as Hk'.
  { apply Hk. intros E. apply Hne. apply map_size_empty_inv. by rewrite <-length_range, E. }
  rewrite decide_True by done. destruct Hin as [|([k' b] & Hkb & ?)]; simplify_eq/=.
  apply elem_of_range in Hkb. exists k', b. split_and!; [done|done|].
  intros k2 b2 Hb2. apply (Hmin (k2, b2)). by apply elem_of_range.
Qed.

Lemma prune_keys now r : keys_nonempty r → keys_nonempty (prune now r).
Proof. apply range_delete_None. Qed.
Lemma prune_size now r : table_size (prune now r) ≤ table_size r.
Proof.
  unfold table_size, prune. simpl. rewrite <-(length_range (range_delete _ _)), range_delete_perm, <-length_range.
  pose proof (length_filter (λ kv, ¬ Before now (b_resetAt kv.2) = false) (range (buckets r))). lia.
Qed.

Lemma evict_size r :
  keys_nonempty r → 0 < table_size r →
  keys_nonempty (evictOldest r) ∧ table_size (evictOldest r) = table_size r - 1 ∧ maxSize (evictOldest r) = maxSize r.
Proof.
  intros Hr Hsz. destruct (evictOldest_spec r Hr) as (k & b & Hk & -> & _).
  { intros E. unfold table_size in Hsz. rewrite E, map_size_empty in Hsz. lia. }
  unfold keys_nonempty, table_size in *. simpl. split_and!; [|rewrite map_size_delete_Some by eauto; lia|done].
  destruct (decide (k = ""%string)) as [->|]; [by rewrite lookup_delete_eq|by rewrite lookup_delete_ne].
Qed.

Lemma make_room_size now r :
  keys_nonempty r → 0 < maxSize r → table_size r ≤ maxSize r →
  keys_nonempty (make_room now r) ∧ table_size (make_room now r) < maxSize r ∧ maxSize (make_room now r) = maxSize r.
Proof.
  intros Hr Hm Hsz. unfold make_room. rewrite (decide_False (P := maxSize r ≤ 0)) by lia.
  set (r1 := if decide (table_size r >= maxSize r) then prune now r else r).
  assert (keys_nonempty r1 ∧ table_size r1 ≤ maxSize r ∧ maxSize r1 = maxSize r) as (H1 & H2 & H3).
  { unfold r1. pose proof (prune_size now r). case_decide; split_and!; [by apply prune_keys|lia|done..]. }
  rewrite H3. case_decide; [|split_and!; [done|lia|done]].
  destruct (evict_size r1) as (? & ? & ?); [done|lia|]. split_and!; [done|lia|congruence].
Qed.

Definition bounded (r : RateRepository) : Prop :=
  keys_nonempty r ∧ 0 < maxSize r ∧ table_size r ≤ maxSize r.

Lemma Take_bounded r a : bounded r → bounded (Take r a).1 ∧ maxSize (Take r a).1 = maxSize r.
Proof.
  intros (Hr & Hm & Hsz). unfold Take. destruct (validateAttempt a); [|done]. simpl.
  destruct (make_room_size (a_Now a) r Hr Hm Hsz) as (Hr' & Hsz' & Hm'). rewrite Hm'.
  split; [|done]. split_and!; [|done|].
  - unfold keys_nonempty. simpl. rewrite lookup_insert_ne by apply bucket_key_nonempty. apply Hr'.
  - unfold table_size in *. simpl. rewrite map_size_insert. case_match; unfold id; lia.
Qed.
End Bounds.

(** A run of attempts; each may range over the table in its own order. *)
Definition rate_step (r : RateRepository) (op : MapRange * Attempt) : RateRepository * Res rateError Decision_ :=
  @Take op.1 r op.2.

(** The table of rate-limit buckets never exceeds its maximum size, ten thousand,
    whatever the attempts and the iteration orders. *)
Theorem rate_table_bounded ops :
  let r := (run rate_step NewRateRepository ops).1 in table_size r ≤ maxSize r ∧ maxSize r = 10000.
Proof.
  assert (bounded (run rate_step NewRateRepository ops).1 ∧ maxSize (run rate_step NewRateRepository ops).1 = 10000)
    as [(_ & _ & ?) ?]; [|done].
  apply (run_invariant rate_step (λ r, bounded r ∧ maxSize r = 10000)).
  - intros r [order a] [Hb Hm]. destruct (@Take_bounded order r a Hb) as [? E]. split; [done|]. by rewrite <-Hm.
  - split; [|done]. split_and!; [done|done|]. unfold table_size. simpl. rewrite map_size_empty. lia.
Qed.

(** Making room drops only expired buckets and, if that is not enough, one
    bucket that no remaining bucket was touched before. *)
Theorem make_room_drops_oldest `{MapRange} now r k b :
  bounded r → buckets r !! k = Some b → buckets (make_room now r) !! k = None →
  b_resetAt b ≤ now ∨ ∀ k' b', buckets (make_room now r) !! k' = Some b' → b_touched b ≤ b_touched b'.
Proof.
  intros (Hr & Hm & Hsz) Hk. unfold make_room. rewrite (decide_False (P := maxSize r ≤ 0)) by lia.
  set (r1 := if decide (table_size r >= maxSize r) then prune now r else r).
  assert (keys_nonempty r1) as Hr1 by (unfold r1; case_decide; [by apply prune_keys|done]).
  destruct (decide (b_resetAt b ≤ now)) as [|Hexp]; [by left|].
  assert (buckets r1 !! k = Some b) as Hk1.
  { unfold r1. case_decide; [|done]. apply range_delete_lookup. split; [done|]. simpl. rewrite Before_false. lia. }
  case_decide; [|congruence]. intros Hnone. right.
  destruct (evictOldest_spec r1 Hr1) as (k2 & b2 & Hk2 & E & Hmin).
  { intros E. by rewrite E in Hk1. }
  rewrite E in *. simpl in *. destruct (decide (k = k2)) as [->|Hne].
  - simplify_eq. intros k' b' [_ Hb']%lookup_delete_Some. by apply (Hmin k').
  - rewrite lookup_delete_ne in Hnone by done. congruence.
Qed.

(** ** Attempts per window *)

Definition allowed_for (key : string) (op : MapRange * Attempt) (d : Res rateError Decision_) : bool :=
  match d with Ok d => bool_decide (bucket_key op.2 = key) && d_Allowed d | Err _ => false end.

(** How many of the attempts are on a key. *)
Definition attempts_on (key : string) (ops : list (MapRange * Attempt)) : nat :=
  length (filter (λ op, bucket_key op.2 = key) ops).

(** An attempt on [key] with the limit of the window, valid and before its end;
    attempts on other keys are arbitrary. *)
Definition in_window (key : string) (limit : Z) (resetAt : Time) (op : MapRange * Attempt) : Prop :=
  bucket_key op.2 = key →
  validateAttempt op.2 = Ok () ∧ a_Limit op.2 = limit ∧ a_Now op.2 < resetAt.

Lemma validateAttempt_ok a :
  validateAttempt a = Ok () → 1 ≤ a_Limit a ≤ 1000000 ∧ Second ≤ a_Window a ∧ a_Now a ≠ 0.
Proof.
  unfold validateAttempt. case_decide as Hd; [done|]. intros _. passed_guards. reflect. lia.
Qed.

(** With room in the table, an attempt only touches its own bucket. *)
Lemma Take_room `{MapRange} r a :
  0 < maxSize r → table_size r < maxSize r →
  (Take r a).1 = r ∧ is_ok (Take r a).2 = false ∧ validateAttempt a ≠ Ok () ∨
  let b := next_bucket a (default zero_bucket (buckets r !! bucket_key a)) in
  validateAttempt a = Ok () ∧
  (Take r a).1 = {| buckets := <[bucket_key a := b]> (buckets r); maxSize := maxSize r |} ∧
  (Take r a).2 = Ok (decision (b_attempts b) (a_Limit a) (b_resetAt b)).
Proof.
  intros Hm Hsz. unfold Take. destruct (validateAttempt a) as [[]|]; [right|by left].
  unfold make_room. rewrite (decide_False (P := maxSize r ≤ 0)) by lia.
  rewrite !(decide_False (P := table_size r >= maxSize r)) by lia. done.
Qed.

Lemma Take_room_size `{MapRange} r a :
  0 < maxSize r → table_size r < maxSize r →
  table_size (Take r a).1 ≤ table_size r + 1 ∧ maxSize (Take r a).1 = maxSize r.
Proof.
  intros Hm Hsz. destruct (Take_room r a Hm Hsz) as [(-> & _)|(_ & -> & _)]; [lia|].
  unfold table_size. simpl. rewrite map_size_insert. case_match; unfold id; lia.
Qed.

Lemma window_wins ops : ∀ r key limit b j,
  0 < maxSize r → table_size r + Z.of_nat (length ops) ≤ maxSize r →
  buckets r !! key = Some b → 0 < b_resetAt b → b_attempts b = Z.min j (limit + 1) →
  1 ≤ limit ≤ 1000000 → 1 ≤ j → Forall (in_window key limit (b_resetAt b)) ops →
  Z.of_nat (wins rate_step (allowed_for key) r ops) =
  Z.min (Z.of_nat (attempts_on key ops)) (Z.max 0 (limit - j)).
Proof.
  induction ops as [|[order a] ops IH]; intros r key limit b j Hm Hsz Hb Hreset Hj Hlim H1 Hops.
  { unfold attempts_on. simpl. lia. }
  apply Forall_cons in Hops as [Hop Hops]. cbn [length] in Hsz.
  assert (table_size r < maxSize r) as Hroom by lia.
  destruct (@Take_room_size order r a Hm Hroom) as [Hsz' Hm'].
  unfold attempts_on in *. rewrite filter_cons. cbn [wins]. unfold in_window in Hop. simpl in Hop.
  change (rate_step r (order, a)) with (@Take order r a).
  destruct (decide (bucket_key a = key)) as [Hkey|Hkey].
  - destruct (Hop Hkey) as (Hv & Hl & Hnow). destruct (validateAttempt_ok a Hv) as (_ & _ & _).
    destruct (@Take_room order r a Hm Hroom) as [(_ & _ & ?)|(_ & Hst & Hresp)]; [done|].
    rewrite Hkey, Hb in Hst, Hresp. simpl default in *.
    assert (next_bucket a b = {| b_attempts := Z.min (j + 1) (limit + 1); b_resetAt := b_resetAt b; b_touched := a_Now a |})
      as Hnext.
    { unfold next_bucket. replace (IsZero (b_resetAt b)) with false by (symmetry; apply IsZero_false; lia).
      rewrite (proj2 (Before_true _ _) Hnow). simpl. rewrite Hl, !wrap64_id; [|unfold in_int64, min_int64, max_int64; lia..].
      f_equal. lia. }
    rewrite Hnext in Hst, Hresp. simpl in Hresp.
    unfold allowed_for at 1. rewrite Hresp. simpl. rewrite bool_decide_true by done. rewrite Hl. simpl.
    assert (Z.of_nat (wins rate_step (allowed_for key) (@Take order r a).1 ops) =
            Z.min (Z.of_nat (attempts_on key ops)) (Z.max 0 (limit - (j + 1)))) as IH'.
    { eapply IH with (b := next_bucket a b); rewrite ?Hnext; simpl; try done; try lia.
      rewrite Hst. simpl. by rewrite lookup_insert_eq. }
    unfold attempts_on in IH'. rewrite decide_True by done. simpl length. case_bool_decide; lia.
  - rewrite decide_False by done.
    replace (allowed_for key (order, a) (@Take order r a).2) with false.
    2: { unfold allowed_for. destruct (@Take order r a).2; [|done]. simpl. by rewrite bool_decide_false. }
    simpl. eapply IH; [lia|lia| |done..].
    destruct (@Take_room order r a Hm Hroom) as [(-> & _)|(_ & -> & _)]; [done|]. simpl.
    by rewrite lookup_insert_ne.
Qed.

(** C27. Per window, exactly the limit. When the table has room for the attempts to
    come, a valid attempt that opens a window for a key is allowed, and of all the
    attempts on that key before the window ends, however interleaved with attempts
    on other keys, exactly as many are allowed as the limit permits: all of them
    up to the limit, and no more. *)
Theorem rate_window_exact r (first : MapRange * Attempt) ops :
  let a := first.2 in
  let key := bucket_key a in
  validateAttempt a = Ok () → 0 < a_Now a →
  (∀ b, buckets r !! key = Some b → b_resetAt b ≤ a_Now a) →
  0 < maxSize r → table_size r + 1 + Z.of_nat (length ops) ≤ maxSize r →
  Forall (in_window key (a_Limit a) (a_Now a + a_Window a)) ops →
  Z.of_nat (wins rate_step (allowed_for key) r (first :: ops)) =
  Z.min (a_Limit a) (Z.of_nat (attempts_on key (first :: ops))).
Proof.
  intros a key Hv Hnow Hexp Hm Hsz Hops. destruct first as [order a']. simpl in a. subst a.
  destruct (validateAttempt_ok a' Hv) as (Hlim & Hwin & _). assert (table_size r < maxSize r) as Hroom by lia.
  destruct (@Take_room_size order r a' Hm Hroom) as [Hsz' Hm'].
  destruct (@Take_room order r a' Hm Hroom) as [(_ & _ & ?)|(_ & Hst & Hresp)]; [done|].
  set (b := {| b_attempts := 1; b_resetAt := a_Now a' + a_Window a'; b_touched := a_Now a' |}).
  assert (next_bucket a' (default zero_bucket (buckets r !! key)) = b) as Hnext.
  { unfold next_bucket. rewrite (proj2 (orb_true_iff _ _)); [done|]. fold key in Hexp.
    destruct (buckets r !! key) as [b0|] eqn:Eb; simpl; [|by left]. right.
    rewrite (proj2 (Before_false _ _) (Hexp b0 eq_refl)). done. }
  fold key in Hst, Hresp. rewrite Hnext in Hst, Hresp. cbn [wins]. change (rate_step r (order, a')) with (@Take order r a').
  unfold allowed_for at 1. rewrite Hresp. cbn [snd]. fold key. rewrite bool_decide_true by done.
  unfold Second in Hwin.
  rewrite Nat2Z.inj_add, (window_wins ops _ key (a_Limit a') b 1); try done; simpl in *; try lia.
  - rewrite bool_decide_true by lia. unfold attempts_on. rewrite filter_cons, decide_True by done. simpl. lia.
  - rewrite Hst. simpl. by rewrite lookup_insert_eq.
Qed.
