(* ===== verification/Cas.v ===== *)
(** CAS tickets: [internal/cas/ticket.go]. Service tickets, proxy-granting tickets
    and proxy tickets, the service sessions used for single logout, and what they
    guarantee: a ticket is validated once, only for its own service, and only if it
    was issued; a deleted session's proxy tickets are gone, its service tickets are
    not. *)
From S2P Require Import Prelude.
Local Open Scope Z_scope.

(** [internal/cas/ticket.go:11-14] errors *)
Inductive casError := ErrTicketNotFound | ErrTicketExpired.
#[global] Instance casError_eq_dec : EqDecision casError.
Proof. solve_decision. Defined.

(** [internal/cas/ticket.go:16-26] ServiceTicket *)
Record ServiceTicket := {
  stk_Hash : string;
  stk_Ticket : string;
  stk_ClientID : string;
  stk_Service : string;
  stk_UserID : string;
  stk_SessionID : string;
  stk_PrimaryCredentials : bool;
  stk_IssuedAt : Time;
  stk_ExpiresAt : Time;
}.

(** [internal/cas/ticket.go:28-33] ServiceSession *)
Record ServiceSession := {
  ss_SessionID : string;
  ss_ClientID : string;
  ss_Service : string;
  ss_Ticket : string;
}.

(** [internal/cas/ticket.go:35-45] ProxyGrantingTicket *)
Record ProxyGrantingTicket := {
  pgt_Hash : string;
  pgt_ClientID : string;
  pgt_UserID : string;
  pgt_SessionID : string;
  pgt_CallbackURL : string;
  pgt_Proxies : list string;
  pgt_PrimaryCredentials : bool;
  pgt_IssuedAt : Time;
  pgt_ExpiresAt : Time;
}.

(** [internal/cas/ticket.go:47-57] ProxyTicket *)
Record ProxyTicket := {
  pt_Hash : string;
  pt_ClientID : string;
  pt_TargetService : string;
  pt_UserID : string;
  pt_SessionID : string;
  pt_Proxies : list string;
  pt_PrimaryCredentials : bool;
  pt_IssuedAt : Time;
  pt_ExpiresAt : Time;
}.

(** [internal/cas/ticket.go:70-73] memoryTicket *)
Record memoryTicket := { mt_ServiceTicket : ServiceTicket; mt_consumedAt : option Time }.
(** [internal/cas/ticket.go:75-78] memoryProxyTicket *)
Record memoryProxyTicket := { mpt_ProxyTicket : ProxyTicket; mpt_consumedAt : option Time }.

(** [internal/cas/ticket.go:80-86] MemoryRepository *)
Record CasRepository := {
  tickets : list memoryTicket;
  proxyGrantingTickets : list ProxyGrantingTicket;
  proxyTickets : list memoryProxyTicket;
  sessions : list ServiceSession;
}.

(** [internal/cas/ticket.go:88-90] NewMemoryRepository *)
Definition NewCasRepository : CasRepository :=
  {| tickets := []; proxyGrantingTickets := []; proxyTickets := []; sessions := [] |}.

(** ** What the two kinds of single-use tickets share *)

(** A ticket that is consumed once: its hash, the service it is for, whether it
    rests on primary credentials, its expiry, and its mark. *)
Class Consumable (T : Type) := {
  cs_Hash : T → string;
  cs_Service : T → string;
  cs_Primary : T → bool;
  cs_ExpiresAt : T → Time;
  cs_consumedAt : T → option Time;
  cs_consume : Time → T → T;
  cs_consume_at : ∀ now t, cs_consumedAt (cs_consume now t) = Some now;
  cs_consume_data : ∀ now t,
    cs_Hash (cs_consume now t) = cs_Hash t ∧ cs_Service (cs_consume now t) = cs_Service t ∧
    cs_Primary (cs_consume now t) = cs_Primary t ∧ cs_ExpiresAt (cs_consume now t) = cs_ExpiresAt t;
}.

#[global] Program Instance service_consumable : Consumable memoryTicket := {|
  cs_Hash t := stk_Hash (mt_ServiceTicket t);
  cs_Service t := stk_Service (mt_ServiceTicket t);
  cs_Primary t := stk_PrimaryCredentials (mt_ServiceTicket t);
  cs_ExpiresAt t := stk_ExpiresAt (mt_ServiceTicket t);
  cs_consumedAt := mt_consumedAt;
  cs_consume now t := {| mt_ServiceTicket := mt_ServiceTicket t; mt_consumedAt := Some now |};
|}.
Solve All Obligations with done.

#[global] Program Instance proxy_consumable : Consumable memoryProxyTicket := {|
  cs_Hash t := pt_Hash (mpt_ProxyTicket t);
  cs_Service t := pt_TargetService (mpt_ProxyTicket t);
  cs_Primary t := pt_PrimaryCredentials (mpt_ProxyTicket t);
  cs_ExpiresAt t := pt_ExpiresAt (mpt_ProxyTicket t);
  cs_consumedAt := mpt_consumedAt;
  cs_consume now t := {| mpt_ProxyTicket := mpt_ProxyTicket t; mpt_consumedAt := Some now |};
|}.
Solve All Obligations with done.

(** [internal/cas/ticket.go:180-199] ConsumeServiceTicket, the loop, which is also that of
    [ConsumeProxyTicket] *)
Definition consume `{Consumable T} (hash service : string) (requirePrimary : bool) (now : Time) (l : list T)
    : list T * Res casError T :=
  match list_find (λ record, ¬ (cs_Hash record ≠ hash ∨ cs_Service record ≠ service)) l with
  | None => (l, Err ErrTicketNotFound)
  | Some (index, record) =>
      if decide (cs_consumedAt record ≠ None) then (l, Err ErrTicketNotFound)
      else if requirePrimary && negb (cs_Primary record) then (l, Err ErrTicketNotFound)
      else if negb (After (cs_ExpiresAt record) now) then (l, Err ErrTicketExpired)
      else (<[index := cs_consume now record]> l, Ok record)
  end.

(** ** Operations *)

(** [internal/cas/ticket.go:92-99] SaveProxyGrantingTicket *)
Definition SaveProxyGrantingTicket (r : CasRepository) (value : ProxyGrantingTicket) : CasRepository * Res casError unit :=
  ({| tickets := tickets r; proxyGrantingTickets := proxyGrantingTickets r ++ [value];
      proxyTickets := proxyTickets r; sessions := sessions r |}, Ok ()).

(** [internal/cas/ticket.go:101-116] FindProxyGrantingTicket *)
Definition FindProxyGrantingTicket (r : CasRepository) (hash : string) (now : Time) : Res casError ProxyGrantingTicket :=
  match list_find (λ record, pgt_Hash record = hash) (proxyGrantingTickets r) with
  | None => Err ErrTicketNotFound
  | Some (_, record) =>
      if negb (After (pgt_ExpiresAt record) now) then Err ErrTicketExpired else Ok record
  end.

(** [internal/cas/ticket.go:118-135] SaveProxyTicket *)
Definition SaveProxyTicket (r : CasRepository) (value : ProxyTicket) (pgtHash : string) : CasRepository * Res casError unit :=
  if decide (list_find (λ pgt, pgt_Hash pgt = pgtHash) (proxyGrantingTickets r) = None)
  then (r, Err ErrTicketNotFound)
  else ({| tickets := tickets r; proxyGrantingTickets := proxyGrantingTickets r;
           proxyTickets := proxyTickets r ++ [{| mpt_ProxyTicket := value; mpt_consumedAt := None |}];
           sessions := sessions r |}, Ok ()).

(** [internal/cas/ticket.go:137-161] ConsumeProxyTicket *)
Definition ConsumeProxyTicket (r : CasRepository) (hash targetService : string) (requirePrimary : bool) (now : Time)
    : CasRepository * Res casError ProxyTicket :=
  let '(l, result) := consume hash targetService requirePrimary now (proxyTickets r) in
  ({| tickets := tickets r; proxyGrantingTickets := proxyGrantingTickets r; proxyTickets := l; sessions := sessions r |},
   match result with Ok t => Ok (mpt_ProxyTicket t) | Err e => Err e end).

(** [internal/cas/ticket.go:163-175] SaveServiceTicket *)
Definition SaveServiceTicket (r : CasRepository) (value : ServiceTicket) : CasRepository * Res casError unit :=
  ({| tickets := tickets r ++ [{| mt_ServiceTicket := value; mt_consumedAt := None |}];
      proxyGrantingTickets := proxyGrantingTickets r; proxyTickets := proxyTickets r;
      sessions := sessions r ++ [{| ss_SessionID := stk_SessionID value; ss_ClientID := stk_ClientID value;
                                    ss_Service := stk_Service value; ss_Ticket := stk_Ticket value |}] |}, Ok ()).

(** [internal/cas/ticket.go:177-200] ConsumeServiceTicket *)
Definition ConsumeServiceTicket (r : CasRepository) (hash service : string) (requirePrimary : bool) (now : Time)
    : CasRepository * Res casError ServiceTicket :=
  let '(l, result) := consume hash service requirePrimary now (tickets r) in
  ({| tickets := l; proxyGrantingTickets := proxyGrantingTickets r; proxyTickets := proxyTickets r; sessions := sessions r |},
   match result with Ok t => Ok (mt_ServiceTicket t) | Err e => Err e end).

(** [internal/cas/ticket.go:202-212] ListServiceSessions *)
Definition ListServiceSessions (r : CasRepository) (sessionID : string) : Res casError (list ServiceSession) :=
  Ok (filter (λ value, ss_SessionID value = sessionID) (sessions r)).

(** [internal/cas/ticket.go:214-239] DeleteServiceSessions: service tickets stay. *)
Definition DeleteServiceSessions (r : CasRepository) (sessionID : string) : CasRepository * Res casError unit :=
  ({| tickets := tickets r;
      proxyGrantingTickets := filter (λ value, pgt_SessionID value ≠ sessionID) (proxyGrantingTickets r);
      proxyTickets := filter (λ value, pt_SessionID (mpt_ProxyTicket value) ≠ sessionID) (proxyTickets r);
      sessions := filter (λ value, ss_SessionID value ≠ sessionID) (sessions r) |}, Ok ()).

(** ** The repository as a transition system *)

Inductive CasOp :=
| CoSaveServiceTicket (value : ServiceTicket)
| CoConsumeServiceTicket (hash service : string) (requirePrimary : bool) (now : Time)
| CoSaveProxyGrantingTicket (value : ProxyGrantingTicket)
| CoSaveProxyTicket (value : ProxyTicket) (pgtHash : string)
| CoConsumeProxyTicket (hash targetService : string) (requirePrimary : bool) (now : Time)
| CoDeleteServiceSessions (sessionID : string).

Inductive CasResp :=
| CrUnit (r : Res casError unit)
| CrService (r : Res casError ServiceTicket)
| CrProxy (r : Res casError ProxyTicket).

Definition cas_step (r : CasRepository) (op : CasOp) : CasRepository * CasResp :=
  match op with
  | CoSaveServiceTicket v => let p := SaveServiceTicket r v in (p.1, CrUnit p.2)
  | CoConsumeServiceTicket h s p now => let p := ConsumeServiceTicket r h s p now in (p.1, CrService p.2)
  | CoSaveProxyGrantingTicket v => let p := SaveProxyGrantingTicket r v in (p.1, CrUnit p.2)
  | CoSaveProxyTicket v h => let p := SaveProxyTicket r v h in (p.1, CrUnit p.2)
  | CoConsumeProxyTicket h s p now => let p := ConsumeProxyTicket r h s p now in (p.1, CrProxy p.2)
  | CoDeleteServiceSessions s => let p := DeleteServiceSessions r s in (p.1, CrUnit p.2)
  end.

(** ** Single use *)

Section Consume.
Context `{Consumable T}.
Implicit Types l : list T.

Definition matches (hash service : string) (t : T) : Prop := cs_Hash t = hash ∧ cs_Service t = service.
#[global] Instance matches_dec hash service t : Decision (matches hash service t).
Proof. unfold matches. apply _. Defined.

(** The first ticket of a hash and service, if any, is consumed. *)
Definition first_spent (hash service : string) (l : list T) : Prop :=
  ∃ i t, list_find (λ record, ¬ (cs_Hash record ≠ hash ∨ cs_Service record ≠ service)) l = Some (i, t) ∧
         cs_consumedAt t ≠ None.

Lemma consume_spec hash service primary now l l' t :
  consume hash service primary now l = (l', Ok t) →
  ∃ i, l !! i = Some t ∧ matches hash service t ∧ cs_consumedAt t = None ∧
    (primary = true → cs_Primary t = true) ∧ now < cs_ExpiresAt t ∧ l' = <[i := cs_consume now t]> l ∧
    first_spent hash service l'.
Proof.
  unfold consume. intros Hc. destruct (list_find _ _) as [[i rec]|] eqn:Hf; [|done].
  case_decide; [done|]. destruct (primary && _) eqn:Hp; [done|]. destruct (negb (After _ _)) eqn:Ha; [done|].
  simplify_eq. reflect. pose proof (list_find_lookup _ _ _ _ Hf) as [Hi Hm]. passed_guards.
  exists i. split_and!; try done; [destruct Hp; congruence|]. unfold first_spent.
  destruct (cs_consume_data now t) as (Eh & Es & _). eexists i, _. split; [|by rewrite cs_consume_at].
  apply list_find_Some. split; [apply list_lookup_insert_eq; by eapply lookup_lt_Some|].
  split; [rewrite Eh, Es; naive_solver|]. intros j z Hj Hlt. rewrite list_lookup_insert_ne in Hj by lia.
  apply list_find_Some in Hf as (_ & _ & Hfirst). eauto.
Qed.

Lemma consume_spent hash service primary now l :
  first_spent hash service l → ∃ e, consume hash service primary now l = (l, Err e).
Proof. intros (i & t & Hf & Hc). unfold consume. rewrite Hf. rewrite decide_True by done. eauto. Qed.

(** Consuming any ticket of the table keeps a spent one spent. *)
Lemma consume_keeps_spent hash service h s primary now l :
  first_spent hash service l → first_spent hash service (consume h s primary now l).1.
Proof.
  intros Hs. destruct (consume h s primary now l) as [l' [t|e]] eqn:Hc; simpl.
  - pose proof Hc as Hc'. apply consume_spec in Hc' as (i & Hi & _ & _ & _ & _ & -> & _).
    destruct Hs as (j & u & (Hj & Hm & Hfirst)%list_find_Some & Hu).
    destruct (cs_consume_data now t) as (Eh & Es & _).
    destruct (decide (i = j)) as [->|Hne].
    + simplify_eq. exists j, (cs_consume now u). split; [|by rewrite cs_consume_at].
      apply list_find_Some. split; [apply list_lookup_insert_eq; by eapply lookup_lt_Some|].
      split; [by rewrite Eh, Es|]. intros k z Hk Hlt. rewrite list_lookup_insert_ne in Hk by lia. eauto.
    + exists j, u. split; [|done]. apply list_find_Some. split; [by rewrite list_lookup_insert_ne|].
      split; [done|]. intros k z Hk Hlt. destruct (decide (i = k)) as [->|].
      * rewrite list_lookup_insert_eq in Hk by (by eapply lookup_lt_Some). simplify_eq.
        rewrite Eh, Es. by eapply Hfirst.
      * rewrite list_lookup_insert_ne in Hk by done. eauto.
  - revert Hc. unfold consume. branches; try done; intros; by simplify_eq.
Qed.

Lemma append_keeps_spent hash service l u : first_spent hash service l → first_spent hash service (l ++ u).
Proof. intros (i & t & Hf & Hc). exists i, t. split; [|done]. apply list_find_app_Some. by left. Qed.
End Consume.

Definition service_win (hash service : string) (op : CasOp) (resp : CasResp) : bool :=
  match op, resp with
  | CoConsumeServiceTicket h s _ _, CrService (Ok _) => bool_decide (h = hash ∧ s = service)
  | _, _ => false
  end.

Lemma cas_step_keeps_spent r op hash service :
  first_spent hash service (tickets r) → first_spent hash service (tickets (cas_step r op).1).
Proof.
  intros Hs. destruct op; simpl; try done.
  - by apply append_keeps_spent.
  - unfold ConsumeServiceTicket. pose proof (consume_keeps_spent hash service hash0 service0 requirePrimary now _ Hs) as Hk.
    by destruct (consume _ _ _ _ _).
  - unfold SaveProxyTicket. by case_decide.
  - unfold ConsumeProxyTicket. by destruct (consume _ _ _ _ _).
Qed.

(** A ticket is accepted only while it is unspent, and is spent then. *)
Lemma service_ticket_spent r hash service primary now t :
  (ConsumeServiceTicket r hash service primary now).2 = Ok t →
  ¬ first_spent hash service (tickets r) ∧ first_spent hash service (tickets (ConsumeServiceTicket r hash service primary now).1).
Proof.
  unfold ConsumeServiceTicket. intros Hok. split.
  - intros Hs. destruct (consume_spent hash service primary now _ Hs) as [e He]. by rewrite He in Hok.
  - destruct (consume _ _ _ _ _) as [l [rec|e]] eqn:Hc; [|done]. by apply consume_spec in Hc as (i & _ & _ & _ & _ & _ & _ & Hs).
Qed.

(** A service ticket is validated at most once: in every execution of the store, at
    most one validation of a given ticket for a given service succeeds. *)
Theorem service_ticket_single_use hash service r ops :
  (wins cas_step (service_win hash service) r ops ≤ 1)%nat.
Proof.
  apply (wins_at_most_once _ _ (λ r, first_spent hash service (tickets r))); [by intros; apply cas_step_keeps_spent|..].
  - intros s o Hs. destruct o; try done. simpl. destruct (ConsumeServiceTicket _ _ _ _ _).2 as [t|] eqn:Hc; [|done].
    apply bool_decide_eq_false. intros [-> ->]. by apply service_ticket_spent in Hc as [? _].
  - intros s o. destruct o; try done. simpl. destruct (ConsumeServiceTicket _ _ _ _ _).2 as [t|] eqn:Hc; [|done].
    intros [-> ->]%bool_decide_eq_true. by apply service_ticket_spent in Hc as [_ ?].
Qed.

(** ** Provenance *)

Definition issued (ops : list CasOp) (t : ServiceTicket) : Prop := CoSaveServiceTicket t ∈ ops.

Lemma tickets_issued ops t :
  t ∈ tickets (run cas_step NewCasRepository ops).1 → issued ops (mt_ServiceTicket t).
Proof.
  revert t. induction ops as [|op ops IH] using rev_ind; intros t; [intros Ht; by inversion Ht|].
  rewrite run_app. set (r := (run cas_step NewCasRepository ops).1) in *. intros Ht.
  apply elem_of_app.
  assert (t ∈ tickets r ∨ op = CoSaveServiceTicket (mt_ServiceTicket t) ∨
          ∃ t0, t0 ∈ tickets r ∧ mt_ServiceTicket t0 = mt_ServiceTicket t) as [H|[->|(t0 & H & <-)]].
  { revert Ht. simpl. destruct op; simpl; auto.
    - intros [?| ->%list_elem_of_singleton]%elem_of_app; auto.
    - unfold ConsumeServiceTicket. destruct (consume _ _ _ _ _) as [l res] eqn:Hc. simpl. destruct res as [t'|e].
      + apply consume_spec in Hc as (i & Hi & _ & _ & _ & _ & -> & _).
        intros [->|?]%elem_of_insert_or; auto. right; right. exists t'. split; [by eapply list_elem_of_lookup_2|done].
      + revert Hc. unfold consume. branches; try done; intros; simplify_eq; auto.
    - unfold SaveProxyTicket. case_decide; auto.
    - unfold ConsumeProxyTicket. destruct (consume _ _ _ _ _). auto. }
  - left. by apply IH.
  - right. by apply list_elem_of_singleton.
  - left. by apply IH.
Qed.

(** A validated service ticket was issued, for that very service, is unexpired and
    rests on primary credentials if that was required: whatever the execution from
    the empty store, what a successful validation returns is a ticket saved before
    with that hash and service. *)
Theorem service_ticket_provenance ops hash service primary now r' t :
  ConsumeServiceTicket (run cas_step NewCasRepository ops).1 hash service primary now = (r', Ok t) →
  issued ops t ∧ stk_Hash t = hash ∧ stk_Service t = service ∧ now < stk_ExpiresAt t ∧
  (primary = true → stk_PrimaryCredentials t = true).
Proof.
  unfold ConsumeServiceTicket. destruct (consume _ _ _ _ _) as [l [rec|e]] eqn:Hc; [|done]. intros [= <- <-].
  apply consume_spec in Hc as (i & Hi & [Hh Hs] & _ & Hp & Hexp & _ & _). split_and!; try done.
  apply tickets_issued. by eapply list_elem_of_lookup_2.
Qed.

(** ** Logout *)

(** Single logout leaves no proxy credential: after a session's service sessions
    are deleted, no proxy-granting ticket and no proxy ticket of that session can be
    used in any later execution that issues none for it. Its service tickets not
    yet validated, in contrast, remain valid. *)
Theorem logout_ends_proxy_tickets r sessionID ops :
  Forall (λ op, match op with
                | CoSaveProxyGrantingTicket v => pgt_SessionID v ≠ sessionID
                | CoSaveProxyTicket v _ => pt_SessionID v ≠ sessionID
                | _ => True
                end) ops →
  let r' := (run cas_step (DeleteServiceSessions r sessionID).1 ops).1 in
  (∀ h now t, FindProxyGrantingTicket r' h now = Ok t → pgt_SessionID t ≠ sessionID) ∧
  (∀ h s p now r2 t, ConsumeProxyTicket r' h s p now = (r2, Ok t) → pt_SessionID t ≠ sessionID) ∧
  tickets (DeleteServiceSessions r sessionID).1 = tickets r.
Proof.
  intros Hops.
  set (Inv := λ r, (∀ t, t ∈ proxyGrantingTickets r → pgt_SessionID t ≠ sessionID) ∧
                   (∀ t, t ∈ proxyTickets r → pt_SessionID (mpt_ProxyTicket t) ≠ sessionID)).
  assert (Inv (run cas_step (DeleteServiceSessions r sessionID).1 ops).1) as [Hg Hp].
  { apply (run_invariant_ops cas_step Inv _ ops _) with (2 := Hops).
    - intros s o Ho [Hg Hp]. destruct o; simpl in *; try done.
      + unfold ConsumeServiceTicket. by destruct (consume _ _ _ _ _).
      + split; [|done]. intros t [?| ->%list_elem_of_singleton]%elem_of_app; auto.
      + unfold SaveProxyTicket. case_decide; [done|]. split; [done|]. simpl.
        intros t [?| ->%list_elem_of_singleton]%elem_of_app; auto.
      + unfold ConsumeProxyTicket. destruct (consume _ _ _ _ _) as [l [t|e]] eqn:Hc; simpl.
        * apply consume_spec in Hc as (i & Hi & _ & _ & _ & _ & -> & _). split; [done|]. simpl.
          intros u [->|?]%elem_of_insert_or; auto. apply (Hp t). by eapply list_elem_of_lookup_2.
        * revert Hc. unfold consume. branches; try done; intros; by simplify_eq.
      + split; simpl; intros t [_ ?]%list_elem_of_filter; auto.
    - split; simpl; by intros t [? _]%list_elem_of_filter. }
  intros r'. split_and!; [| |done].
  - intros h now t. unfold FindProxyGrantingTicket. branches; intros; simplify_eq. found. apply Hg.
    by eapply list_elem_of_lookup_2.
  - intros h s p now r2 t. unfold ConsumeProxyTicket. destruct (consume _ _ _ _ _) as [l [rec|e]] eqn:Hc; [|done].
    intros [= <- <-]. apply consume_spec in Hc as (i & Hi & _). apply Hp. by eapply list_elem_of_lookup_2.
Qed.
