(* ===== verification/SessionExamples.v ===== *)
(** The theorems on sessions, rate limits and CAS tickets at work on small
    concrete executions. *)
From S2P Require Import Prelude GoStrings GoCrypto Session RateLimit Cas.
Local Open Scope Z_scope.
Local Open Scope string_scope.
#[local] Existing Instance canonical_range.

(** ** Sessions *)

Definition random_bytes (b : Z) : Entropy := Some (replicate 32 b).
Definition opened : SessionService :=
  (run session_step (NewSessionService NewSessionRepository Hour)
     [SoCreate "alice" "ip" "ua" ["pwd"] "aal1" 10 (random_bytes 1) (random_bytes 2);
      SoCreate "alice" "ip" "ua" ["pwd"] "aal1" 20 (random_bytes 3) (random_bytes 4);
      SoCreate "bob" "ip" "ua" ["pwd"] "aal1" 30 (random_bytes 5) (random_bytes 6)]).1.

Lemma opened_keyed : keyed (table opened).
Proof. apply (map_Forall_to_list (λ id rec, s_ID (mr_Session rec) = id)). vm_compute. by repeat constructor. Qed.

Lemma ended_sessions_stay_ended_witness :
  let later := [SoCreate "carol" "ip" "ua" [] "aal1" 50 (random_bytes 7) (random_bytes 8)] in
  let s' := (run session_step (session_step opened (SoRevokeAll canonical_range "alice" "" 40)).1 later).1 in
  size (table s') = 4%nat ∧
  ∀ id t, (40 ≤ t)%Z → bool_decide ("alice" = "alice" ∧ id ≠ "") = true → SessionIsActive s' "alice" id t = Ok false.
Proof.
  intros later s'. split; [vm_compute; reflexivity|].
  destruct (ended_sessions_stay_ended opened (SoRevokeAll canonical_range "alice" "" 40)
    (λ id u, bool_decide (u = "alice" ∧ id ≠ "")) later) as [_ H].
  - exact opened_keyed.
  - reflexivity.
  - vm_compute; reflexivity.
  - repeat constructor. intros (id & _ & H). revert H. vm_compute. discriminate.
  - intros id t Ht Hid. exact (H "alice" id t Ht Hid).
Defined.

Definition carol_session := CreateWithMethods opened "carol" "ip" "ua" ["pwd"] "aal1" 100 (random_bytes 9) (random_bytes 10).
Definition carol_token : string := match carol_session.2 with Ok (_, token) => token | Err _ => "" end.

Lemma session_token_opens_session_witness :
  ∃ v, (FindSession carol_session.1 carol_token 200).2 = Ok v ∧ s_UserID v = "carol" ∧ s_AuthenticatedAt v = 100%Z.
Proof.
  pose (v := match carol_session.2 with Ok (v, _) => v | Err _ => Build_Session "" "" 0 0 0 "" "" None [] "" end).
  assert (H := session_token_opens_session opened "carol" "ip" "ua" ["pwd"] "aal1" 100 (random_bytes 9) (random_bytes 10)
    carol_session.1 v carol_token 200).
  destruct H as (v' & Hv' & _ & Hu & _ & _ & Ht & _).
  - vm_compute; reflexivity.
  - vm_compute; discriminate.
  - apply (map_Forall_to_list (λ id rec, mr_hash rec ≠ HashToken carol_token)). vm_compute. repeat constructor; discriminate.
  - exists v'. split; [exact Hv'|split; [exact Hu|exact Ht]].
Defined.

Lemma revoke_all_exact_witness :
  ∃ before after, ListByUser (sv_repository opened) "alice" 40 = Ok before ∧ length before = 2%nat ∧
    ListByUser (RevokeAll (sv_repository opened) "alice" "" 40).1 "alice" 40 = Ok after ∧
    (after : list Session) ≡ₚ filter (λ v, s_ID v = "") before.
Proof.
  destruct (revoke_all_exact (sv_repository opened) "alice" "" 40
    (RevokeAll (sv_repository opened) "alice" "" 40).1 2) as (before & after & Hb & Ha & _ & Hp).
  - exact opened_keyed.
  - vm_compute; discriminate.
  - vm_compute; reflexivity.
  - exists before, after. split; [exact Hb|]. split; [|split; [exact Ha|exact Hp]].
    assert (match ListByUser (sv_repository opened) "alice" 40 with Ok l => length l | Err _ => 0%nat end = 2%nat) as Hl
      by (vm_compute; reflexivity).
    rewrite Hb in Hl. exact Hl.
Defined.

(** ** Rate limits *)

Definition attempt (subject : string) (now : Time) : Attempt :=
  {| a_Scope := "login"; a_SubjectHash := subject; a_Limit := 2; a_Window := Minute; a_Now := now |}.

Lemma rate_window_exact_witness :
  let ops := [(canonical_range, attempt "alice" 2); (canonical_range, attempt "bob" 3);
              (canonical_range, attempt "alice" 4)] in
  let key := bucket_key (attempt "alice" 1) in
  Z.of_nat (wins rate_step (allowed_for key) NewRateRepository ((canonical_range, attempt "alice" 1) :: ops)) = 2%Z.
Proof.
  intros ops key.
  refine (eq_trans (rate_window_exact NewRateRepository (canonical_range, attempt "alice" 1) ops _ _ _ _ _ _) _).
  - vm_compute; reflexivity.
  - reflexivity.
  - intros b. vm_compute. discriminate.
  - reflexivity.
  - vm_compute; discriminate.
  - repeat constructor; vm_compute; intuition congruence.
  - vm_compute; reflexivity.
Defined.

Definition full_table : RateRepository :=
  {| buckets := <["a" := {| b_attempts := 1; b_resetAt := 100; b_touched := 5 |}]>
                (<["b" := {| b_attempts := 1; b_resetAt := 100; b_touched := 7 |}]> ∅); maxSize := 2 |}.

Lemma make_room_drops_oldest_witness :
  let b := {| b_attempts := 1; b_resetAt := 100; b_touched := 5 |} in
  buckets (make_room 50 full_table) !! "a" = None ∧
  (b_resetAt b ≤ 50 ∨ ∀ k' b', buckets (make_room 50 full_table) !! k' = Some b' → b_touched b ≤ b_touched b')%Z.
Proof.
  intros b. split; [vm_compute; reflexivity|].
  apply (make_room_drops_oldest 50 full_table "a" b).
  - split; [|by vm_compute]. vm_compute. reflexivity.
  - vm_compute; reflexivity.
  - vm_compute; reflexivity.
Defined.

(** ** CAS tickets *)

Definition service_ticket : ServiceTicket :=
  {| stk_Hash := "t"; stk_Ticket := "ST-1"; stk_ClientID := "app"; stk_Service := "https://app"; stk_UserID := "alice";
     stk_SessionID := "s1"; stk_PrimaryCredentials := true; stk_IssuedAt := 10; stk_ExpiresAt := 100 |}.
Definition proxy_granting (session : string) : ProxyGrantingTicket :=
  {| pgt_Hash := "g" +:+ session; pgt_ClientID := "app"; pgt_UserID := "alice"; pgt_SessionID := session;
     pgt_CallbackURL := ""; pgt_Proxies := []; pgt_PrimaryCredentials := true; pgt_IssuedAt := 10; pgt_ExpiresAt := 100 |}.

Lemma service_ticket_provenance_witness :
  let ops := [CoSaveServiceTicket service_ticket] in
  let r := (run cas_step NewCasRepository ops).1 in
  (ConsumeServiceTicket r "t" "https://app" true 20).2 = Ok service_ticket ∧ issued ops service_ticket.
Proof.
  intros ops r. split; [vm_compute; reflexivity|].
  destruct (service_ticket_provenance ops "t" "https://app" true 20
    (ConsumeServiceTicket r "t" "https://app" true 20).1 service_ticket) as [H _]; [vm_compute; reflexivity|exact H].
Defined.

Lemma logout_ends_proxy_tickets_witness :
  let r := (run cas_step NewCasRepository [CoSaveProxyGrantingTicket (proxy_granting "s1")]).1 in
  let r' := (run cas_step (DeleteServiceSessions r "s1").1 [CoSaveProxyGrantingTicket (proxy_granting "s2")]).1 in
  is_ok (FindProxyGrantingTicket r' "gs2" 50) = true ∧
  ∀ h now t, FindProxyGrantingTicket r' h now = Ok t → pgt_SessionID t ≠ "s1".
Proof.
  intros r r'. split; [vm_compute; reflexivity|].
  destruct (logout_ends_proxy_tickets r "s1" [CoSaveProxyGrantingTicket (proxy_granting "s2")]) as [H _]; [|exact H].
  repeat constructor. discriminate.
Defined.
