(* ===== verification/Mfa.v ===== *)
(** Multi-factor authentication: [internal/mfa/mfa.go] (the service: TOTP codes,
    recovery codes, lockout, trusted devices) and
    [internal/mfa/memory_repository.go] (the store). This file holds the data and
    the operations; [Mfa] what they guarantee.

    Each repository method holds the mutex for its whole body and is one atomic
    function. A service method calls several of them; [now] stands for the clock
    read at its start and [nowMatch] for the one read by [matchTOTP]. *)
From S2P Require Import Prelude GoStrings GoCrypto GoAead Secrets.
Local Open Scope Z_scope.

(** [internal/mfa/mfa.go:26-35] errors; the last two are failures of the random
    source and of the key ring's parser. *)
Inductive mfaError :=
| MfaNotFound
| MfaUnavailable
| ErrInvalidCode
| ErrLocked
| ErrReplay
| ErrAlreadyEnabled
| ErrNotEnabled
| ErrTrustedDeviceNotFound
| ErrRandom
| ErrEncryptionKey.
#[global] Instance mfaError_eq_dec : EqDecision mfaError.
Proof. solve_decision. Defined.

(** [internal/mfa/mfa.go:37-44] constants *)
Definition totpPeriod : Z := 30.
Definition totpDigits : nat := 6.
Definition recoveryCodeCount : nat := 10.
Definition totpSecretPurpose : string := "mfa-totp-secret".
Definition trustedDeviceTTL : Duration := 30 * 24 * Hour.
Definition trustedDeviceMax : Z := 10.

(** [internal/mfa/mfa.go:46] totpCodePattern: [^[0-9]{6}$] *)
Definition totpCodePattern : string → bool := match_exact is_digit 6.

(** ** Data *)

(** [internal/mfa/mfa.go:48-58] Credential *)
Record Credential := {
  cr_UserID : string;
  cr_Secret : string;
  cr_Enabled : bool;
  cr_CreatedAt : Time;
  cr_VerifiedAt : option Time;
  cr_LastUsedStep : Z;
  cr_FailedAttempts : Z;
  cr_LockedUntil : option Time;
  cr_RecoveryCodes : Z;
}.

(** [internal/mfa/mfa.go:60-67] TrustedDevice *)
Record TrustedDevice := {
  td_UserID : string;
  td_TokenHash : string;
  td_UserAgentHash : string;
  td_CreatedAt : Time;
  td_LastUsedAt : Time;
  td_ExpiresAt : Time;
}.

(** [internal/mfa/mfa.go:69-72] TrustedDeviceToken *)
Record TrustedDeviceToken := { tt_Token : string; tt_ExpiresAt : Time }.

(** [internal/mfa/mfa.go:74-81] Status *)
Record Status := {
  st_Available : bool;
  st_Enabled : bool;
  st_Pending : bool;
  st_VerifiedAt : option Time;
  st_RecoveryCodes : Z;
  st_TrustedDevices : Z;
}.

(** [internal/mfa/mfa.go:83-87] Setup *)
Record Setup := { su_Secret : string; su_OTPAuthURI : string; su_RecoveryCodes : list string }.

(** [internal/mfa/memory_repository.go:11-14] memoryCredential *)
Record memoryCredential := { mc_Credential : Credential; mc_recoveryCodes : list string }.

(** [internal/mfa/memory_repository.go:16-20] MemoryRepository *)
Record MfaRepository := {
  credentials : gmap string memoryCredential;
  trustedDevices : gmap string TrustedDevice;
}.

(** [internal/mfa/memory_repository.go:25-30] NewMemoryRepository *)
Definition NewMfaRepository : MfaRepository := {| credentials := ∅; trustedDevices := ∅ |}.

Definition set_credential (userID : string) (v : memoryCredential) (r : MfaRepository) : MfaRepository :=
  {| credentials := <[userID := v]> (credentials r); trustedDevices := trustedDevices r |}.
Definition set_trustedDevices (d : gmap string TrustedDevice) (r : MfaRepository) : MfaRepository :=
  {| credentials := credentials r; trustedDevices := d |}.

(** Credential updates. *)
Definition cr_unlocked (step : Z) (c : Credential) : Credential :=
  {| cr_UserID := cr_UserID c; cr_Secret := cr_Secret c; cr_Enabled := cr_Enabled c;
     cr_CreatedAt := cr_CreatedAt c; cr_VerifiedAt := cr_VerifiedAt c; cr_LastUsedStep := step;
     cr_FailedAttempts := 0; cr_LockedUntil := None; cr_RecoveryCodes := cr_RecoveryCodes c |}.
Definition cr_enabled (step : Z) (now : Time) (c : Credential) : Credential :=
  {| cr_UserID := cr_UserID c; cr_Secret := cr_Secret c; cr_Enabled := true;
     cr_CreatedAt := cr_CreatedAt c; cr_VerifiedAt := Some now; cr_LastUsedStep := step;
     cr_FailedAttempts := 0; cr_LockedUntil := None; cr_RecoveryCodes := cr_RecoveryCodes c |}.
Definition cr_failed (attempts : Z) (lockedUntil : option Time) (c : Credential) : Credential :=
  {| cr_UserID := cr_UserID c; cr_Secret := cr_Secret c; cr_Enabled := cr_Enabled c;
     cr_CreatedAt := cr_CreatedAt c; cr_VerifiedAt := cr_VerifiedAt c; cr_LastUsedStep := cr_LastUsedStep c;
     cr_FailedAttempts := attempts; cr_LockedUntil := lockedUntil; cr_RecoveryCodes := cr_RecoveryCodes c |}.
Definition cr_with_Secret (secret : string) (c : Credential) : Credential :=
  {| cr_UserID := cr_UserID c; cr_Secret := secret; cr_Enabled := cr_Enabled c;
     cr_CreatedAt := cr_CreatedAt c; cr_VerifiedAt := cr_VerifiedAt c; cr_LastUsedStep := cr_LastUsedStep c;
     cr_FailedAttempts := cr_FailedAttempts c; cr_LockedUntil := cr_LockedUntil c;
     cr_RecoveryCodes := cr_RecoveryCodes c |}.
Definition cr_with_RecoveryCodes (n : Z) (c : Credential) : Credential :=
  {| cr_UserID := cr_UserID c; cr_Secret := cr_Secret c; cr_Enabled := cr_Enabled c;
     cr_CreatedAt := cr_CreatedAt c; cr_VerifiedAt := cr_VerifiedAt c; cr_LastUsedStep := cr_LastUsedStep c;
     cr_FailedAttempts := cr_FailedAttempts c; cr_LockedUntil := cr_LockedUntil c; cr_RecoveryCodes := n |}.

(** ** The store *)

(** [internal/mfa/memory_repository.go:32-42] Find *)
Definition Find (r : MfaRepository) (userID : string) : Res mfaError Credential :=
  match credentials r !! userID with
  | None => Err MfaNotFound
  | Some value => Ok (cr_with_RecoveryCodes (Z.of_nat (length (mc_recoveryCodes value))) (mc_Credential value))
  end.

(** [internal/mfa/memory_repository.go:274-283] deleteTrustedDevicesLocked *)
Definition deleteTrustedDevicesLocked `{MapRange} (userID : string) (r : MfaRepository) : MfaRepository * Z :=
  (set_trustedDevices (range_delete (λ kd, td_UserID kd.2 = userID) (trustedDevices r)) r,
   Z.of_nat (length (filter (λ kd : string * TrustedDevice, td_UserID kd.2 = userID) (range (trustedDevices r))))).

(** [internal/mfa/memory_repository.go:44-54] ReplacePending *)
Definition ReplacePending `{MapRange} (r : MfaRepository) (credential : Credential) (recoveryCodes : list string)
    : MfaRepository * Res mfaError unit :=
  let r := set_credential (cr_UserID credential)
             {| mc_Credential := credential; mc_recoveryCodes := recoveryCodes |} r in
  ((deleteTrustedDevicesLocked (cr_UserID credential) r).1, Ok ()).

(** [internal/mfa/memory_repository.go:56-77] ReplaceRecoveryCodes *)
Definition ReplaceRecoveryCodes (r : MfaRepository) (userID : string) (recoveryCodes : list string)
    : MfaRepository * Res mfaError unit :=
  match credentials r !! userID with
  | None => (r, Err MfaNotFound)
  | Some value =>
      if negb (cr_Enabled (mc_Credential value)) then (r, Err ErrNotEnabled)
      else (set_credential userID {| mc_Credential := mc_Credential value; mc_recoveryCodes := recoveryCodes |} r, Ok ())
  end.

(** [internal/mfa/memory_repository.go:79-90] ListSecretCiphertexts *)
Definition ListSecretCiphertexts `{MapRange} (r : MfaRepository) : Res mfaError (list (string * string)) :=
  Ok ((λ kv, (cr_UserID (mc_Credential kv.2), cr_Secret (mc_Credential kv.2))) <$> range (credentials r)).

(** [internal/mfa/memory_repository.go:92-106] ReplaceSecretCiphertext *)
Definition ReplaceSecretCiphertext (r : MfaRepository) (userID current replacement : string)
    : MfaRepository * Res mfaError bool :=
  match credentials r !! userID with
  | None => (r, Ok false)
  | Some value =>
      if decide (cr_Secret (mc_Credential value) ≠ current) then (r, Ok false)
      else (set_credential userID {| mc_Credential := cr_with_Secret replacement (mc_Credential value);
                                     mc_recoveryCodes := mc_recoveryCodes value |} r, Ok true)
  end.

(** [internal/mfa/memory_repository.go:108-122] Enable *)
Definition EnableCredential (r : MfaRepository) (userID : string) (step : Z) (now : Time)
    : MfaRepository * Res mfaError unit :=
  match credentials r !! userID with
  | None => (r, Err MfaNotFound)
  | Some value =>
      (set_credential userID {| mc_Credential := cr_enabled step now (mc_Credential value);
                                mc_recoveryCodes := mc_recoveryCodes value |} r, Ok ())
  end.

(** [internal/mfa/memory_repository.go:124-139] UseTOTP *)
Definition UseTOTP (r : MfaRepository) (userID : string) (step : Z) : MfaRepository * Res mfaError unit :=
  match credentials r !! userID with
  | None => (r, Err ErrInvalidCode)
  | Some value =>
      if negb (cr_Enabled (mc_Credential value)) then (r, Err ErrInvalidCode)
      else if decide (step ≤ cr_LastUsedStep (mc_Credential value)) then (r, Err ErrReplay)
      else (set_credential userID {| mc_Credential := cr_unlocked step (mc_Credential value);
                                     mc_recoveryCodes := mc_recoveryCodes value |} r, Ok ())
  end.

(** [internal/mfa/memory_repository.go:141-158] UseRecoveryCode *)
Definition UseRecoveryCode (r : MfaRepository) (userID hash : string) : MfaRepository * Res mfaError unit :=
  match credentials r !! userID with
  | None => (r, Err ErrInvalidCode)
  | Some value =>
      if negb (cr_Enabled (mc_Credential value)) then (r, Err ErrInvalidCode)
      else match list_find (λ current, current = hash) (mc_recoveryCodes value) with
      | None => (r, Err ErrInvalidCode)
      | Some (index, _) =>
          (set_credential userID
             {| mc_Credential := cr_unlocked (cr_LastUsedStep (mc_Credential value)) (mc_Credential value);
                mc_recoveryCodes := delete index (mc_recoveryCodes value) |} r, Ok ())
      end
  end.

(** [internal/mfa/memory_repository.go:160-176] RecordFailure *)
Definition RecordFailure (r : MfaRepository) (userID : string) (attempts : Z) (lockedUntil : option Time)
    : MfaRepository * Res mfaError unit :=
  match credentials r !! userID with
  | None => (r, Err MfaNotFound)
  | Some value =>
      (set_credential userID {| mc_Credential := cr_failed attempts lockedUntil (mc_Credential value);
                                mc_recoveryCodes := mc_recoveryCodes value |} r, Ok ())
  end.

(** Least recently used first. *)
Definition used_first (a b : string * TrustedDevice) : Prop := td_LastUsedAt a.2 ≤ td_LastUsedAt b.2.
#[global] Instance used_first_dec : RelDecision used_first.
Proof. intros a b. unfold used_first. apply _. Defined.

(** [internal/mfa/memory_repository.go:178-214] StoreTrustedDevice *)
Definition StoreTrustedDevice `{MapRange} (r : MfaRepository) (device : TrustedDevice) (maxDevices : Z)
    : MfaRepository * Res mfaError unit :=
  match credentials r !! td_UserID device with
  | None => (r, Err MfaNotFound)
  | Some credential =>
      if negb (cr_Enabled (mc_Credential credential)) then (r, Err ErrNotEnabled)
      else
        let kept := range_delete (λ kd, td_UserID kd.2 = td_UserID device ∧
                                        After (td_ExpiresAt kd.2) (td_CreatedAt device) = false) (trustedDevices r) in
        let added := <[td_TokenHash device := device]> kept in
        if decide (maxDevices ≤ 0) then (set_trustedDevices added r, Ok ())
        else
          let devices := merge_sort used_first
                           (filter (λ kd : string * TrustedDevice, td_UserID kd.2 = td_UserID device) (range added)) in
          let surplus := take (length devices - Z.to_nat maxDevices) devices in
          (set_trustedDevices (foldl (λ m kd, delete kd.1 m) added surplus) r, Ok ())
  end.

Definition td_rotated (replacementHash : string) (now : Time) (d : TrustedDevice) : TrustedDevice :=
  {| td_UserID := td_UserID d; td_TokenHash := replacementHash; td_UserAgentHash := td_UserAgentHash d;
     td_CreatedAt := td_CreatedAt d; td_LastUsedAt := now; td_ExpiresAt := td_ExpiresAt d |}.

(** [internal/mfa/memory_repository.go:216-238] RotateTrustedDevice *)
Definition RotateTrustedDevice (r : MfaRepository) (userID currentHash replacementHash userAgentHash : string)
    (now : Time) : MfaRepository * Res mfaError Time :=
  match trustedDevices r !! currentHash with
  | None => (r, Err ErrTrustedDeviceNotFound)
  | Some device =>
      if decide (td_UserID device ≠ userID ∨ td_UserAgentHash device ≠ userAgentHash)
      then (r, Err ErrTrustedDeviceNotFound)
      else
        let rest := delete currentHash (trustedDevices r) in
        if negb (After (td_ExpiresAt device) now)
        then (set_trustedDevices rest r, Err ErrTrustedDeviceNotFound)
        else (set_trustedDevices (<[replacementHash := td_rotated replacementHash now device]> rest) r,
              Ok (td_ExpiresAt device))
  end.

(** [internal/mfa/memory_repository.go:240-255] CountTrustedDevices *)
Definition CountTrustedDevices `{MapRange} (r : MfaRepository) (userID : string) (now : Time)
    : MfaRepository * Res mfaError Z :=
  let expired kd := td_UserID kd.2 = userID ∧ After (td_ExpiresAt kd.2) now = false in
  (set_trustedDevices (range_delete expired (trustedDevices r)) r,
   Ok (Z.of_nat (length (filter (λ kd : string * TrustedDevice, td_UserID kd.2 = userID ∧ After (td_ExpiresAt kd.2) now = true)
                                (range (trustedDevices r)))))).

(** [internal/mfa/memory_repository.go:257-261] DeleteTrustedDevices *)
Definition DeleteTrustedDevices `{MapRange} (r : MfaRepository) (userID : string) : MfaRepository * Res mfaError Z :=
  let '(r', n) := deleteTrustedDevicesLocked userID r in (r', Ok n).

(** [internal/mfa/memory_repository.go:263-272] Delete *)
Definition DeleteCredential `{MapRange} (r : MfaRepository) (userID : string) : MfaRepository * Res mfaError unit :=
  match credentials r !! userID with
  | None => (r, Err MfaNotFound)
  | Some _ =>
      let r := {| credentials := delete userID (credentials r); trustedDevices := trustedDevices r |} in
      ((deleteTrustedDevicesLocked userID r).1, Ok ())
  end.

(** ** The service *)

(** [internal/mfa/mfa.go:114-120] Service: the repository is the state the service's
    methods transform; the rest is configuration. *)
Record MfaConfig := { keyRing : KeyRing; legacyKey : list Z; issuer : string }.

(** [internal/mfa/mfa.go:126-139] NewServiceWithKeyRing *)
Definition NewServiceWithKeyRing (ring : KeyRing) (legacyEncryptionKey : list Z) (issuer : string) : MfaConfig :=
  {| keyRing := ring; legacyKey := legacyEncryptionKey; issuer := TrimSpace issuer |}.

(** [internal/mfa/mfa.go:122-124] NewService *)
Definition NewService (encryptionKey : list Z) (issuer : string) : MfaConfig :=
  NewServiceWithKeyRing empty_ring encryptionKey issuer.

(** [internal/mfa/mfa.go:389-391] Service.available *)
Definition available (s : MfaConfig) : bool :=
  Available (keyRing s) || bool_decide (length (legacyKey s) = 32%nat).

(** *** Codes *)

(** [internal/mfa/mfa.go:494-506] generateTOTP *)
Definition generateTOTP (secret : list Z) (step : Z) : string :=
  let sum := hmac_sha1 secret (put_be 8 step) in
  let byte_at i := nth i sum 0 in
  let offset := Z.to_nat (Z.land (byte_at (length sum - 1)%nat) 0x0f) in
  let value := Z.lor (Z.shiftl (Z.land (byte_at offset) 0x7f) 24)
                 (Z.lor (Z.shiftl (byte_at (offset + 1)%nat) 16)
                    (Z.lor (Z.shiftl (byte_at (offset + 2)%nat) 8) (byte_at (offset + 3)%nat))) in
  pad_decimal totpDigits (value mod 1000000).

(** [internal/mfa/mfa.go:542-546] normalizeCode *)
Definition normalizeCode `{UnicodeTables} (code : string) : string :=
  delete_bytes ["-"; " "]%char (ToUpper (TrimSpace code)).

(** [internal/mfa/mfa.go:537-540] hashRecoveryCode *)
Definition hashRecoveryCode `{UnicodeTables} (code : string) : string :=
  of_bytes (sha256 (bytes ("certus:mfa:recovery:" +:+ normalizeCode code))).

(** [internal/mfa/mfa.go:508-521] newRecoveryCode: [rnd] is the 18 bytes read. *)
Definition newRecoveryCode (rnd : Entropy) : Res mfaError string :=
  match rnd with
  | None => Err ErrRandom
  | Some value =>
      let encoded := raw_encode32 0 0 value in
      Ok (Join (of_bytes <$> pieces (length encoded) 5 encoded) "-")
  end.

(** [internal/mfa/mfa.go:523-535] newRecoveryCodes: one read per code. *)
Fixpoint newRecoveryCodes_aux `{UnicodeTables} (rnds : list Entropy) : Res mfaError (list string * list string) :=
  match rnds with
  | [] => Ok ([], [])
  | rnd :: rest =>
      match newRecoveryCode rnd with
      | Err e => Err e
      | Ok code =>
          match newRecoveryCodes_aux rest with
          | Err e => Err e
          | Ok (codes, hashes) => Ok (code :: codes, hashRecoveryCode code :: hashes)
          end
      end
  end.
Definition newRecoveryCodes `{UnicodeTables} (rnd : nat → Entropy) : Res mfaError (list string * list string) :=
  newRecoveryCodes_aux (rnd <$> seq 0 recoveryCodeCount).

(** *** Secrets *)

(** [internal/mfa/mfa.go:415-429] encryptLegacySecret *)
Definition encryptLegacySecret (key : list Z) (userID : string) (plaintext : list Z) (rnd : Entropy) : Res mfaError string :=
  match NewCipher key with
  | None => Err MfaUnavailable
  | Some cipher =>
      match rnd with
      | None => Err ErrRandom
      | Some nonce => Ok (of_bytes (nonce ++ Seal cipher nonce plaintext (bytes userID)))
      end
  end.

(** [internal/mfa/mfa.go:431-449] decryptLegacySecret *)
Definition decryptLegacySecret (key : list Z) (userID ciphertext : string) : Res mfaError (list Z) :=
  match NewCipher key with
  | None => Err MfaUnavailable
  | Some cipher =>
      let data := bytes ciphertext in
      if decide (length data < NonceSize)%nat then Err MfaUnavailable
      else match Open cipher (take NonceSize data) (drop NonceSize data) (bytes userID) with
      | None => Err MfaUnavailable
      | Some plaintext => Ok plaintext
      end
  end.

(** [internal/mfa/mfa.go:393-402] Service.encrypt *)
Definition encrypt (s : MfaConfig) (userID : string) (plaintext : list Z) (rnd : Entropy) : Res mfaError string :=
  if Available (keyRing s)
  then match Encrypt (keyRing s) totpSecretPurpose userID plaintext rnd with
       | Err _ => Err MfaUnavailable
       | Ok (value, _) => Ok value
       end
  else encryptLegacySecret (legacyKey s) userID plaintext rnd.

(** [internal/mfa/mfa.go:404-413] Service.decrypt *)
Definition decrypt (s : MfaConfig) (userID ciphertext : string) : Res mfaError (list Z) :=
  match EnvelopeKeyID ciphertext with
  | Some keyID =>
      match Decrypt (keyRing s) totpSecretPurpose userID ciphertext keyID with
      | Err _ => Err MfaUnavailable
      | Ok plaintext => Ok plaintext
      end
  | None => decryptLegacySecret (legacyKey s) userID ciphertext
  end.

(** *** Verification *)

(** The loop of [matchTOTP] over the candidate steps. *)
Fixpoint match_steps (secret : list Z) (lastUsed : Z) (code : string) (steps : list Z) : Res mfaError Z :=
  match steps with
  | [] => Err ErrInvalidCode
  | step :: rest =>
      if decide (generateTOTP secret step = code)
      then if decide (step ≤ lastUsed) then Err ErrReplay else Ok step
      else match_steps secret lastUsed code rest
  end.

(** [internal/mfa/mfa.go:368-387] Service.matchTOTP *)
Definition matchTOTP `{UnicodeTables} (s : MfaConfig) (credential : Credential) (code : string) (nowMatch : Time)
    : Res mfaError Z :=
  if negb (available s) then Err MfaUnavailable
  else match decrypt s (cr_UserID credential) (cr_Secret credential) with
  | Err e => Err e
  | Ok secret =>
      let nowStep := Z.quot (Unix nowMatch) totpPeriod in
      match_steps secret (cr_LastUsedStep credential) (normalizeCode code) [nowStep; nowStep - 1; nowStep + 1]
  end.

(** The lock after a number of failures: from the fifth on, five minutes more each
    time, an hour at most. *)
Definition lock_after (attempts : Z) (now : Time) : option Time :=
  if decide (5 ≤ attempts) then Some (now + Z.min (attempts - 4) 12 * 5 * Minute) else None.

(** [internal/mfa/mfa.go:277-290] Verify, recording a failure *)
Definition fail_verify (r : MfaRepository) (userID : string) (credential : Credential) (now : Time)
    : MfaRepository * Res mfaError unit :=
  let attempts := wrap64 (cr_FailedAttempts credential + 1) in
  let lockedUntil := lock_after attempts now in
  match RecordFailure r userID attempts lockedUntil with
  | (r, Err e) => (r, Err e)
  | (r, Ok _) => (r, Err (if decide (lockedUntil = None) then ErrInvalidCode else ErrLocked))
  end.

(** Whether a credential is locked at a time. *)
Definition locked_at (c : Credential) (now : Time) : bool :=
  match cr_LockedUntil c with Some t => After t now | None => false end.

(** [internal/mfa/mfa.go:248-290] Verify, after the credential was read: the
    repository may have changed since. *)
Definition verify_with `{UnicodeTables} (s : MfaConfig) (r : MfaRepository) (credential : Credential)
    (userID code : string) (now nowMatch : Time) : MfaRepository * Res mfaError unit :=
  if negb (cr_Enabled credential) then (r, Err ErrInvalidCode)
  else if locked_at credential now then (r, Err ErrLocked)
  else
    let normalized := normalizeCode code in
    if totpCodePattern normalized then
      match matchTOTP s credential normalized nowMatch with
      | Ok step => UseTOTP r userID step
      | Err ErrReplay => (r, Err ErrReplay)
      | Err _ => fail_verify r userID credential now
      end
    else if decide (20 ≤ len normalized) then
      match UseRecoveryCode r userID (hashRecoveryCode normalized) with
      | (r, Ok _) => (r, Ok ())
      | (r, Err ErrInvalidCode) => fail_verify r userID credential now
      | (r, Err e) => (r, Err e)
      end
    else fail_verify r userID credential now.

(** [internal/mfa/mfa.go:243-291] Service.Verify *)
Definition Verify `{UnicodeTables} (s : MfaConfig) (r : MfaRepository) (userID code : string) (now nowMatch : Time)
    : MfaRepository * Res mfaError unit :=
  match Find r userID with
  | Err _ => (r, Err ErrInvalidCode)
  | Ok credential => verify_with s r credential userID code now nowMatch
  end.

(** *** Enrolment *)

(** [internal/mfa/mfa.go:141-164] Service.Status *)
Definition MfaStatus `{MapRange} (s : MfaConfig) (r : MfaRepository) (userID : string) (now : Time)
    : MfaRepository * Res mfaError Status :=
  match Find r userID with
  | Err MfaNotFound => (r, Ok {| st_Available := available s; st_Enabled := false; st_Pending := false;
                                 st_VerifiedAt := None; st_RecoveryCodes := 0; st_TrustedDevices := 0 |})
  | Err e => (r, Err e)
  | Ok credential =>
      let '(r, counted) :=
        if cr_Enabled credential then CountTrustedDevices r userID now else (r, Ok 0) in
      match counted with
      | Err e => (r, Err e)
      | Ok n => (r, Ok {| st_Available := available s; st_Enabled := cr_Enabled credential;
                          st_Pending := negb (cr_Enabled credential); st_VerifiedAt := cr_VerifiedAt credential;
                          st_RecoveryCodes := cr_RecoveryCodes credential; st_TrustedDevices := n |})
      end
  end.

(** [internal/mfa/mfa.go:166-181] Service.RequiresChallenge *)
Definition RequiresChallenge (s : MfaConfig) (r : MfaRepository) (userID : string) : Res mfaError bool :=
  match Find r userID with
  | Err MfaNotFound => Ok false
  | Err e => Err e
  | Ok credential =>
      if negb (cr_Enabled credential) then Ok false
      else if negb (available s) then Err MfaUnavailable else Ok true
  end.

(** The bytes read by [Setup]: the secret, its nonce and the recovery codes'. *)
Record SetupEntropy := { se_secret : Entropy; se_nonce : Entropy; se_codes : nat → Entropy }.

(** [internal/mfa/mfa.go:192-226] Service.Setup, once no enabled credential was found *)
Definition setup_pending `{MapRange, UnicodeTables} (s : MfaConfig) (r : MfaRepository) (userID username : string)
    (now : Time) (rnd : SetupEntropy) : MfaRepository * Res mfaError Setup :=
  match se_secret rnd with
  | None => (r, Err ErrRandom)
  | Some secret =>
      match encrypt s userID secret (se_nonce rnd) with
      | Err e => (r, Err e)
      | Ok encrypted =>
          match newRecoveryCodes (se_codes rnd) with
          | Err e => (r, Err e)
          | Ok (recoveryCodes, recoveryHashes) =>
              let credential := {| cr_UserID := userID; cr_Secret := encrypted; cr_Enabled := false;
                                   cr_CreatedAt := now; cr_VerifiedAt := None; cr_LastUsedStep := 0;
                                   cr_FailedAttempts := 0; cr_LockedUntil := None; cr_RecoveryCodes := 0 |} in
              match ReplacePending r credential recoveryHashes with
              | (r, Err e) => (r, Err e)
              | (r, Ok _) =>
                  let encodedSecret := base32_EncodeToString secret in
                  let label := issuer s +:+ ":" +:+ username in
                  let query := [("algorithm", "SHA1"); ("digits", "6"); ("issuer", issuer s);
                                ("period", "30"); ("secret", encodedSecret)]%string in
                  (r, Ok {| su_Secret := encodedSecret;
                            su_OTPAuthURI := "otpauth://totp/" +:+ PathEscape label +:+ "?" +:+ QueryEncode query;
                            su_RecoveryCodes := recoveryCodes |})
              end
          end
      end
  end.

(** [internal/mfa/mfa.go:183-226] Service.Setup *)
Definition MfaSetup `{MapRange, UnicodeTables} (s : MfaConfig) (r : MfaRepository) (userID username : string)
    (now : Time) (rnd : SetupEntropy) : MfaRepository * Res mfaError Setup :=
  if negb (available s) then (r, Err MfaUnavailable)
  else match Find r userID with
  | Ok credential =>
      if cr_Enabled credential then (r, Err ErrAlreadyEnabled) else setup_pending s r userID username now rnd
  | Err MfaNotFound => setup_pending s r userID username now rnd
  | Err e => (r, Err e)
  end.

(** [internal/mfa/mfa.go:228-241] Service.Enable *)
Definition Enable `{UnicodeTables} (s : MfaConfig) (r : MfaRepository) (userID code : string) (now nowMatch : Time)
    : MfaRepository * Res mfaError unit :=
  match Find r userID with
  | Err e => (r, Err e)
  | Ok credential =>
      if cr_Enabled credential then (r, Ok ())
      else match matchTOTP s credential code nowMatch with
      | Err e => (r, Err e)
      | Ok step => EnableCredential r userID step now
      end
  end.

(** [internal/mfa/mfa.go:293-295] Service.Disable *)
Definition Disable `{MapRange} (r : MfaRepository) (userID : string) : MfaRepository * Res mfaError unit :=
  DeleteCredential r userID.

(** [internal/mfa/mfa.go:350-366] Service.RegenerateRecoveryCodes *)
Definition RegenerateRecoveryCodes `{UnicodeTables} (r : MfaRepository) (userID : string) (rnd : nat → Entropy)
    : MfaRepository * Res mfaError (list string) :=
  match Find r userID with
  | Err e => (r, Err e)
  | Ok credential =>
      if negb (cr_Enabled credential) then (r, Err ErrNotEnabled)
      else match newRecoveryCodes rnd with
      | Err e => (r, Err e)
      | Ok (codes, hashes) =>
          match ReplaceRecoveryCodes r userID hashes with
          | (r, Err e) => (r, Err e)
          | (r, Ok _) => (r, Ok codes)
          end
      end
  end.

(** *** Trusted devices *)

(** [internal/mfa/mfa.go:297-316] Service.RememberDevice *)
Definition RememberDevice `{MapRange} (r : MfaRepository) (userID userAgent : string) (now : Time) (rnd : Entropy)
    : MfaRepository * Res mfaError TrustedDeviceToken :=
  match RandomToken rnd with
  | Err _ => (r, Err ErrRandom)
  | Ok token =>
      let expiresAt := now + trustedDeviceTTL in
      match StoreTrustedDevice r {| td_UserID := userID; td_TokenHash := HashToken token;
                                    td_UserAgentHash := HashToken (TrimSpace userAgent);
                                    td_CreatedAt := now; td_LastUsedAt := now; td_ExpiresAt := expiresAt |}
              trustedDeviceMax with
      | (r, Err e) => (r, Err e)
      | (r, Ok _) => (r, Ok {| tt_Token := token; tt_ExpiresAt := expiresAt |})
      end
  end.

(** [internal/mfa/mfa.go:318-344] Service.UseTrustedDevice: [None] when the device is
    not trusted. *)
Definition UseTrustedDevice (r : MfaRepository) (userID token userAgent : string) (now : Time) (rnd : Entropy)
    : MfaRepository * Res mfaError (option TrustedDeviceToken) :=
  if decide (len token < 32 ∨ len token > 256) then (r, Ok None)
  else match RandomToken rnd with
  | Err _ => (r, Err ErrRandom)
  | Ok replacement =>
      match RotateTrustedDevice r userID (HashToken token) (HashToken replacement)
              (HashToken (TrimSpace userAgent)) now with
      | (r, Err ErrTrustedDeviceNotFound) => (r, Ok None)
      | (r, Err e) => (r, Err e)
      | (r, Ok expiresAt) => (r, Ok (Some {| tt_Token := replacement; tt_ExpiresAt := expiresAt |}))
      end
  end.

(** [internal/mfa/mfa.go:346-348] Service.RevokeTrustedDevices *)
Definition RevokeTrustedDevices `{MapRange} (r : MfaRepository) (userID : string) : MfaRepository * Res mfaError Z :=
  DeleteTrustedDevices r userID.

(** *** Key rotation *)

(** [internal/mfa/mfa.go:465-491] RewrapSecrets, the loop: [rnd] gives each record's
    nonce; an error stops the loop and keeps the count so far. *)
Fixpoint rewrap (ring : KeyRing) (protector : MfaConfig) (r : MfaRepository) (count : Z)
    (records : list (string * string)) (rnd : nat → Entropy) : MfaRepository * Z * option mfaError :=
  match records with
  | [] => (r, count, None)
  | (userID, ciphertext) :: rest =>
      if decide (EnvelopeKeyID ciphertext = Some (primaryID ring))
      then rewrap ring protector r count rest (λ i, rnd (S i))
      else match decrypt protector userID ciphertext with
      | Err e => (r, count, Some e)
      | Ok plaintext =>
          match Encrypt ring totpSecretPurpose userID plaintext (rnd 0%nat) with
          | Err _ => (r, count, Some MfaUnavailable)
          | Ok (replacement, _) =>
              match ReplaceSecretCiphertext r userID ciphertext replacement with
              | (r, Err e) => (r, count, Some e)
              | (r, Ok replaced) =>
                  rewrap ring protector r (if replaced then wrap64 (count + 1) else count) rest (λ i, rnd (S i))
              end
          end
      end
  end.

(** [internal/mfa/mfa.go:451-492] RewrapSecrets *)
Definition RewrapSecrets `{MapRange} (r : MfaRepository) (ring : KeyRing) (legacyEncryptionKey : list Z)
    (rnd : nat → Entropy) : MfaRepository * Z * option mfaError :=
  if negb (Available ring) then (r, 0, None)
  else match ListSecretCiphertexts r with
  | Err e => (r, 0, Some e)
  | Ok records => rewrap ring (NewServiceWithKeyRing ring legacyEncryptionKey "") r 0 records rnd
  end.

(** [internal/mfa/mfa.go:548-561] DecodeEncryptionKey *)
Definition DecodeEncryptionKey (raw : string) : Res mfaError (option (list Z)) :=
  let raw := TrimSpace raw in
  if decide (raw = ""%string) then Ok None
  else
    let value := match StdEncoding_DecodeString raw with
                 | Some value => Some value
                 | None => RawStdEncoding_DecodeString raw
                 end in
    match value with
    | Some value => if decide (length value ≠ 32%nat) then Err ErrEncryptionKey else Ok (Some value)
    | None => Err ErrEncryptionKey
    end.

(** RFC 6238, appendix B, reduced to six digits. *)
Example totp_vectors :
  generateTOTP (bytes "12345678901234567890") 1 = "287082" ∧
  generateTOTP (bytes "12345678901234567890") 0x23523EC = "081804".
Proof. vm_compute. split; reflexivity. Qed.

(** * Guarantees

    What multi-factor authentication guarantees: a TOTP step and a recovery code are
    accepted once, failures lock the account for growing delays that bound the
    guesses an attacker gets, enrolment works end to end, and trusted devices are
    bounded in number; and what it does not: guesses made in parallel share one
    failure. *)
(** ** The repository as a transition system

    Every interleaving of concurrent service calls is a sequence of these steps. *)

Inductive MfaOp :=
| MoReplacePending (order : MapRange) (credential : Credential) (codes : list string)
| MoReplaceRecoveryCodes (userID : string) (codes : list string)
| MoReplaceSecretCiphertext (userID current replacement : string)
| MoEnable (userID : string) (step : Z) (now : Time)
| MoUseTOTP (userID : string) (step : Z)
| MoUseRecoveryCode (userID hash : string)
| MoRecordFailure (userID : string) (attempts : Z) (lockedUntil : option Time)
| MoStoreTrustedDevice (order : MapRange) (device : TrustedDevice) (maxDevices : Z)
| MoRotateTrustedDevice (userID currentHash replacementHash userAgentHash : string) (now : Time)
| MoCountTrustedDevices (order : MapRange) (userID : string) (now : Time)
| MoDeleteTrustedDevices (order : MapRange) (userID : string)
| MoDelete (order : MapRange) (userID : string).

(** One atomic call, and whether it returned without error. *)
Definition mfa_step (r : MfaRepository) (op : MfaOp) : MfaRepository * bool :=
  match op with
  | MoReplacePending order c codes => let p := @ReplacePending order r c codes in (p.1, is_ok p.2)
  | MoReplaceRecoveryCodes u codes => let p := ReplaceRecoveryCodes r u codes in (p.1, is_ok p.2)
  | MoReplaceSecretCiphertext u c v => let p := ReplaceSecretCiphertext r u c v in (p.1, is_ok p.2)
  | MoEnable u step now => let p := EnableCredential r u step now in (p.1, is_ok p.2)
  | MoUseTOTP u step => let p := UseTOTP r u step in (p.1, is_ok p.2)
  | MoUseRecoveryCode u h => let p := UseRecoveryCode r u h in (p.1, is_ok p.2)
  | MoRecordFailure u n t => let p := RecordFailure r u n t in (p.1, is_ok p.2)
  | MoStoreTrustedDevice order d n => let p := @StoreTrustedDevice order r d n in (p.1, is_ok p.2)
  | MoRotateTrustedDevice u c n a now => let p := RotateTrustedDevice r u c n a now in (p.1, is_ok p.2)
  | MoCountTrustedDevices order u now => let p := @CountTrustedDevices order r u now in (p.1, is_ok p.2)
  | MoDeleteTrustedDevices order u => let p := @DeleteTrustedDevices order r u in (p.1, is_ok p.2)
  | MoDelete order u => let p := @DeleteCredential order r u in (p.1, is_ok p.2)
  end.

(** The operations that replace or remove a user's second factor. *)
Definition re_enrols (user : string) (op : MfaOp) : Prop :=
  match op with
  | MoReplacePending _ c _ => cr_UserID c = user
  | MoEnable u _ _ => u = user
  | MoDelete _ u => u = user
  | _ => False
  end.
Definition re_issues_codes (user : string) (op : MfaOp) : Prop :=
  re_enrols user op ∨ match op with MoReplaceRecoveryCodes u _ => u = user | _ => False end.

(** How one step may change the credential of a user it does not re-enrol. *)
Definition credential_le (user : string) (op : MfaOp) (v v' : memoryCredential) : Prop :=
  cr_LastUsedStep (mc_Credential v) ≤ cr_LastUsedStep (mc_Credential v') ∧
  (mc_recoveryCodes v' = mc_recoveryCodes v ∨
   (∃ h i, op = MoUseRecoveryCode user h ∧ list_find (λ c, c = h) (mc_recoveryCodes v) = Some (i, h) ∧
           mc_recoveryCodes v' = delete i (mc_recoveryCodes v)) ∨
   ∃ codes, op = MoReplaceRecoveryCodes user codes).

Lemma mfa_step_credential r op user v :
  ¬ re_enrols user op → credentials r !! user = Some v →
  ∃ v', credentials (mfa_step r op).1 !! user = Some v' ∧ credential_le user op v v'.
Proof.
  assert (credential_le user op v v) as Hrefl by (split; [lia|by left]).
  intros Hop Hv. destruct op as [order c codes|u codes|u cur rep|u s now|u s|u h|u n t|order d n|u ch rh ah now|
    order u now|order u|order u]; simpl in *; try (by exists v).
  - rewrite lookup_insert_ne by done. by exists v.
  - unfold ReplaceRecoveryCodes. branches; try (by exists v). rewrite lookup_insert.
    case_decide; [|by exists v]. simplify_eq. eexists. split; [done|]. split; [simpl; lia|]. right; right. eauto.
  - unfold ReplaceSecretCiphertext. branches; try (by exists v). rewrite lookup_insert.
    case_decide; [|by exists v]. simplify_eq. eexists. split; [done|]. split; [simpl; lia|by left].
  - unfold EnableCredential. branches; try (by exists v). rewrite lookup_insert.
    rewrite decide_False by done. by exists v.
  - unfold UseTOTP. branches; try (by exists v). rewrite lookup_insert.
    case_decide; [|by exists v]. simplify_eq. eexists. split; [done|]. split; [simpl; lia|by left].
  - unfold UseRecoveryCode. branches; try (by exists v). rewrite lookup_insert.
    case_decide; [|by exists v]. found. simplify_eq. eexists. split; [done|]. split; [simpl; lia|right; left].
    eauto.
  - unfold RecordFailure. branches; try (by exists v). rewrite lookup_insert.
    case_decide; [|by exists v]. simplify_eq. eexists. split; [done|]. split; [simpl; lia|by left].
  - unfold StoreTrustedDevice. branches; by exists v.
  - unfold RotateTrustedDevice. branches; by exists v.
  - unfold DeleteCredential. branches; try (by exists v). simpl. rewrite lookup_delete_ne by done. by exists v.
Qed.

(** ** Single use *)

Definition totp_win (user : string) (step : Z) (op : MfaOp) (ok : bool) : bool :=
  match op with MoUseTOTP u s => bool_decide (u = user ∧ s = step) && ok | _ => false end.
Definition recovery_win (user hash : string) (op : MfaOp) (ok : bool) : bool :=
  match op with MoUseRecoveryCode u h => bool_decide (u = user ∧ h = hash) && ok | _ => false end.

(** C29. A TOTP step is accepted once. However concurrent verifications interleave,
    and until the user's second factor is enrolled anew, enabled again or removed,
    a given time step of a user is accepted at most once, and never a step at or
    before one already accepted. *)
Theorem totp_step_single_use user step r ops :
  Forall (λ op, ¬ re_enrols user op) ops →
  (wins mfa_step (totp_win user step) r ops ≤ 1)%nat ∧
  ∀ v, credentials r !! user = Some v → step ≤ cr_LastUsedStep (mc_Credential v) →
       wins mfa_step (totp_win user step) r ops = 0%nat.
Proof.
  intros Hops.
  set (spent := λ r, ∃ v, credentials r !! user = Some v ∧ step ≤ cr_LastUsedStep (mc_Credential v)).
  assert (∀ s o, ¬ re_enrols user o → spent s → spent (mfa_step s o).1) as Hstay.
  { intros s o Ho (v & Hv & Hle). destruct (mfa_step_credential s o user v Ho Hv) as (v' & Hv' & Hle' & _).
    exists v'. split; [done|lia]. }
  assert (∀ s o, ¬ re_enrols user o → spent s → totp_win user step o (mfa_step s o).2 = false) as Hlose.
  { intros s o _ (v & Hv & Hle). destruct o; try done. simpl. case_bool_decide as E; [|done].
    destruct E as [-> ->]. simpl. unfold UseTOTP. rewrite Hv. branches; done. }
  split.
  - apply (wins_once_ops mfa_step _ spent (λ _, True) (λ op, ¬ re_enrols user op)); try done.
    intros s o _ _. destruct o; try done. simpl. case_bool_decide as E; [|done]. destruct E as [-> ->]. simpl.
    unfold UseTOTP. branches; try done. intros _. eexists. split; [apply lookup_insert_eq|done].
  - intros v Hv Hle. apply (wins_spent mfa_step _ spent (λ op, ¬ re_enrols user op)); [done..|]. by exists v.
Qed.

Definition codes_distinct (user : string) (r : MfaRepository) : Prop :=
  ∀ v, credentials r !! user = Some v → NoDup (mc_recoveryCodes v).

Lemma delete_NoDup_notin (l : list string) i h :
  NoDup l → list_find (λ c, c = h) l = Some (i, h) → NoDup (delete i l) ∧ h ∉ delete i l.
Proof.
  intros Hnd (Hi & _)%list_find_lookup. rewrite (delete_Permutation l i h Hi) in Hnd.
  apply NoDup_cons in Hnd as [? ?]. done.
Qed.

(** A recovery code is accepted once. When a user's recovery codes have distinct
    hashes, in every interleaving and until the codes are issued anew, each code is
    accepted at most once. *)
Theorem recovery_code_single_use user hash r ops :
  codes_distinct user r → Forall (λ op, ¬ re_issues_codes user op) ops →
  (wins mfa_step (recovery_win user hash) r ops ≤ 1)%nat.
Proof.
  intros Hnd Hops.
  set (spent := λ r, ∃ v, credentials r !! user = Some v ∧ hash ∉ mc_recoveryCodes v).
  set (Inv := λ r, codes_distinct user r ∧ is_Some (credentials r !! user)).
  destruct (credentials r !! user) as [v0|] eqn:Hv0.
  - apply (wins_once_ops mfa_step _ spent Inv (λ op, ¬ re_issues_codes user op)); try done.
    + intros s o Ho [Hd [v Hv]]. destruct (mfa_step_credential s o user v) as (v' & Hv' & _ & Hc); [by intros ?; apply Ho; left|done|].
      split; [|eauto]. intros v2 Hv2. simplify_eq. specialize (Hd v Hv).
      destruct Hc as [->|[(h & i & -> & Hf & ->)|(codes & ->)]]; [done| |by destruct Ho; right].
      by apply delete_NoDup_notin with h.
    + intros s o Ho (v & Hv & Hn). destruct (mfa_step_credential s o user v) as (v' & Hv' & _ & Hc); [by intros ?; apply Ho; left|done|].
      exists v'. split; [done|]. destruct Hc as [->|[(h & i & -> & Hf & ->)|(codes & ->)]]; [done| |by destruct Ho; right].
      intros Hin. apply Hn. apply list_find_lookup in Hf as [Hf _]. rewrite (delete_Permutation _ _ _ Hf).
      by apply elem_of_cons; right.
    + intros s o _ (v & Hv & Hn). destruct o; try done. simpl. case_bool_decide as E; [|done].
      destruct E as [-> ->]. simpl. unfold UseRecoveryCode. rewrite Hv. branches; try done. found. subst.
      destruct Hn. by eapply list_elem_of_lookup_2.
    + intros s o _ [Hd [v Hv]]. destruct o; try done. simpl. case_bool_decide as E; [|done].
      destruct E as [-> ->]. simpl. unfold UseRecoveryCode. rewrite Hv. branches; try done. intros _.
      found. subst. eexists. split; [apply lookup_insert_eq|]. simpl.
      apply (delete_NoDup_notin _ _ _ (Hd v Hv)). by match goal with H : list_find _ _ = _ |- _ => rewrite H end.
  - rewrite (wins_spent mfa_step _ (λ r, credentials r !! user = None) (λ op, ¬ re_issues_codes user op)); try done; [lia| |].
    + intros s o Ho Hn. unfold re_issues_codes, re_enrols in Ho.
      destruct o; simpl in *; unfold ReplaceRecoveryCodes, ReplaceSecretCiphertext, EnableCredential, UseTOTP,
        UseRecoveryCode, RecordFailure, StoreTrustedDevice, RotateTrustedDevice, DeleteCredential;
        branches; simpl; rewrite ?lookup_insert_ne, ?lookup_delete_ne by naive_solver; done.
    + intros s o _ Hn. destruct o; try done. simpl. case_bool_decide as E; [|done]. destruct E as [-> ->].
      simpl. unfold UseRecoveryCode. by rewrite Hn.
Qed.

(** ** Lockout *)

(** What a failing verification does to the credential it read. *)
Lemma fail_verify_spec r user c now v :
  credentials r !! user = Some v →
  let attempts := wrap64 (cr_FailedAttempts c + 1) in
  fail_verify r user c now =
    ({| credentials := <[user := {| mc_Credential := cr_failed attempts (lock_after attempts now) (mc_Credential v);
                                    mc_recoveryCodes := mc_recoveryCodes v |}]> (credentials r);
        trustedDevices := trustedDevices r |},
     Err (if decide (lock_after attempts now = None) then ErrInvalidCode else ErrLocked)).
Proof. intros Hv. unfold fail_verify, RecordFailure. by rewrite Hv. Qed.

(** The outcomes of a verification that read the current credential. *)
Inductive outcome (r : MfaRepository) (user : string) (v : memoryCredential) (now : Time) :
  MfaRepository * Res mfaError unit → Prop :=
| outcome_accepted r' : outcome r user v now (r', Ok ())
| outcome_unchanged e : outcome r user v now (r, Err e)
| outcome_failed :
    locked_at (mc_Credential v) now = false →
    outcome r user v now (fail_verify r user (mc_Credential v) now).

Lemma fail_verify_find r user v now :
  fail_verify r user (cr_with_RecoveryCodes (Z.of_nat (length (mc_recoveryCodes v))) (mc_Credential v)) now =
  fail_verify r user (mc_Credential v) now.
Proof. done. Qed.

Lemma Verify_outcome `{UnicodeTables} s r user code now nowMatch v :
  credentials r !! user = Some v → outcome r user v now (Verify s r user code now nowMatch).
Proof.
  intros Hv. unfold Verify, Find. rewrite Hv. unfold verify_with. simpl cr_Enabled.
  destruct (cr_Enabled (mc_Credential v)) eqn:He; [|constructor]. simpl.
  change (locked_at (cr_with_RecoveryCodes _ _) now) with (locked_at (mc_Credential v) now).
  destruct (locked_at (mc_Credential v) now) eqn:Hl; [constructor|]. rewrite fail_verify_find.
  destruct (totpCodePattern _).
  - destruct (matchTOTP _ _ _ _) as [step|e]; [|destruct e; by constructor].
    unfold UseTOTP. rewrite Hv, He. simpl. case_decide; constructor.
  - case_decide; [|by constructor]. unfold UseRecoveryCode. rewrite Hv, He. simpl.
    destruct (list_find _ _) as [[i ?]|]; [constructor|by constructor].
Qed.

(** The delay imposed by the [n]th consecutive failure, and the total time that must
    pass before the [n]th failure can be recorded. *)
Definition lock_delay (n : nat) : Duration :=
  if decide (5 ≤ n)%nat then Z.min (Z.of_nat n - 4) 12 * 5 * Minute else 0.
Fixpoint lock_total (n : nat) : Duration :=
  match n with
  | O => 0
  | S k => lock_total k + lock_delay k
  end.

Record VerifyCall := { vc_code : string; vc_now : Time; vc_nowMatch : Time }.

Definition verify_step `{UnicodeTables} (s : MfaConfig) (user : string) (r : MfaRepository) (op : VerifyCall)
    : MfaRepository * Res mfaError unit :=
  Verify s r user (vc_code op) (vc_now op) (vc_nowMatch op).

(** Calls in the order of their clocks, from [t] on. *)
Fixpoint in_order (t : Time) (ops : list VerifyCall) : Prop :=
  match ops with
  | [] => True
  | op :: rest => t ≤ vc_now op ∧ in_order (vc_now op) rest
  end.

(** [n] failures on record, the last at [t] or before, the lock in force counted from it. *)
Definition failures_on_record (user : string) (n : nat) (t0 t : Time) (r : MfaRepository) : Prop :=
  ∃ v last, credentials r !! user = Some v ∧ cr_FailedAttempts (mc_Credential v) = Z.of_nat n ∧
    cr_LockedUntil (mc_Credential v) = lock_after (Z.of_nat n) last ∧
    last ≤ t ∧ t0 + lock_total n ≤ last + lock_delay n ∧ (n = 0%nat ∨ t0 + lock_total n ≤ last).

Lemma lock_delay_nonneg n : 0 ≤ lock_delay n.
Proof. unfold lock_delay, Minute, Second. case_decide; lia. Qed.
Lemma lock_total_nonneg n : 0 ≤ lock_total n.
Proof. induction n; cbn [lock_total]; [lia|]. pose proof (lock_delay_nonneg n). lia. Qed.

Lemma lock_after_delay n t :
  lock_after (Z.of_nat n) t = if decide (5 ≤ n)%nat then Some (t + lock_delay n) else None.
Proof. unfold lock_after, lock_delay. repeat case_decide; try lia; done. Qed.

Lemma verify_step_failures `{UnicodeTables} s user n t0 t r op :
  failures_on_record user n t0 t r → t0 ≤ t → t ≤ vc_now op → Z.of_nat n < max_int64 →
  is_ok (verify_step s user r op).2 = false →
  failures_on_record user n t0 (vc_now op) (verify_step s user r op).1 ∨
  failures_on_record user (S n) t0 (vc_now op) (verify_step s user r op).1.
Proof.
  intros (v & last & Hv & Hn & Hlock & Hlast & Htot & Htot') H0 Ht Hmax Hresp.
  pose proof (Verify_outcome s r user (vc_code op) (vc_now op) (vc_nowMatch op) v Hv) as Ho.
  unfold verify_step in *. inversion Ho as [r' E|e E|Hl E]; rewrite <-E in *; [done| |].
  - left. exists v, last. split_and!; try done. lia.
  - right. rewrite (fail_verify_spec r user _ _ v Hv). cbn [fst credentials].
    eexists _, (vc_now op). split; [apply lookup_insert_eq|].
    cbn [mc_Credential cr_failed cr_FailedAttempts cr_LockedUntil]. rewrite Hn.
    replace (wrap64 (Z.of_nat n + 1)) with (Z.of_nat (S n))
      by (rewrite wrap64_id; unfold in_int64, min_int64, max_int64 in *; lia).
    pose proof (lock_delay_nonneg (S n)).
    assert (t0 + lock_total (S n) ≤ vc_now op) as Hle; [|split_and!; try done; lia].
    cbn [lock_total]. destruct (decide (5 ≤ n)%nat) as [H5|H5].
    + unfold locked_at in Hl. rewrite Hlock, lock_after_delay, decide_True in Hl by done.
      apply After_false in Hl. destruct Htot'; [subst; lia|]. lia.
    + unfold lock_delay in *. rewrite decide_False in * by done. destruct Htot' as [->|]; [simpl; lia|lia].
Qed.

Lemma verify_run_failures `{UnicodeTables} s user ops : ∀ n t0 t r,
  failures_on_record user n t0 t r → t0 ≤ t → in_order t ops →
  Z.of_nat n + Z.of_nat (length ops) < max_int64 →
  Forall (λ resp, is_ok resp = false) (run (verify_step s user) r ops).2 →
  ∃ m t', failures_on_record user m t0 t' (run (verify_step s user) r ops).1 ∧
          (ops = [] → t' = t) ∧ (∀ op, last ops = Some op → t' = vc_now op).
Proof.
  induction ops as [|op ops IH]; intros n t0 t r Hf H0 Hord Hmax Hresp; simpl in *.
  { by exists n, t. }
  destruct Hord as [Ht Hord]. apply Forall_cons in Hresp as [Hr Hresp].
  destruct (verify_step_failures s user n t0 t r op Hf H0 Ht) as [Hf'|Hf']; [lia|done| |].
  all: destruct (IH _ t0 (vc_now op) _ Hf' ltac:(lia) Hord ltac:(lia) Hresp) as (m & t' & Hm & Hnil & Hlast).
  all: exists m, t'; split_and!; [done|done|]; intros op' Hop'; rewrite last_cons in Hop';
    destruct (last ops) eqn:El; simplify_eq; [by apply Hlast|]; apply last_None in El as ->; by apply Hnil.
Qed.

(** Guessing is slow. Start from a user with a second factor and no failure on
    record and make any number of verification calls one after the other, at
    clocks that do not go back, none of them successful: if the last call left [n]
    failures on record, at least the sum of the delays imposed by the fifth to the
    [n-1]th failure has passed since the start. The delays are five minutes, ten,
    fifteen, and so on up to an hour. *)
Theorem verify_guesses_take_time `{UnicodeTables} s user r ops v0 t0 v t :
  credentials r !! user = Some v0 → cr_FailedAttempts (mc_Credential v0) = 0 →
  cr_LockedUntil (mc_Credential v0) = None →
  in_order t0 ops → Z.of_nat (length ops) < max_int64 →
  Forall (λ resp, is_ok resp = false) (run (verify_step s user) r ops).2 →
  credentials (run (verify_step s user) r ops).1 !! user = Some v →
  last ops = Some t →
  t0 + lock_total (Z.to_nat (cr_FailedAttempts (mc_Credential v))) ≤ vc_now t.
Proof.
  intros Hv0 Hn0 Hl0 Hord Hmax Hresp Hv Ht.
  destruct (verify_run_failures s user ops 0 t0 t0 r) as (m & t' & Hf & _ & Hlast); [|lia|done|simpl; lia|done|].
  { exists v0, t0. split_and!; try done; simpl; try lia. }
  rewrite (Hlast _ Ht) in Hf. destruct Hf as (v' & last & Hv' & Hm & _ & Hle & _ & Htot). simplify_eq.
  rewrite Hm, Nat2Z.id. destruct Htot as [->|]; [|lia]. simpl.
  clear -Hord Ht. revert t0 Hord. induction ops as [|op ops IH]; intros t0; [done|]. intros [H0 Hord].
  rewrite last_cons in Ht. destruct (last ops) as [t''|] eqn:E; simplify_eq; [|lia].
  specialize (IH eq_refl _ Hord). simpl in IH. lia.
Qed.

(** Five hours and a half to the fifteenth failure. *)
Example lock_total_16 : lock_total 16 = 330 * Minute.
Proof. vm_compute. reflexivity. Qed.

(** Verifications that all read the credential before any of them writes. *)
Definition parallel_step `{UnicodeTables} (s : MfaConfig) (user : string) (c : Credential) (r : MfaRepository)
    (op : VerifyCall) : MfaRepository * Res mfaError unit :=
  verify_with s r c user (vc_code op) (vc_now op) (vc_nowMatch op).

(** A six-digit guess that is no code of the credential's current window. *)
Definition wrong_guess `{UnicodeTables} (s : MfaConfig) (c : Credential) (op : VerifyCall) : Prop :=
  locked_at c (vc_now op) = false ∧ totpCodePattern (normalizeCode (vc_code op)) = true ∧
  matchTOTP s c (normalizeCode (vc_code op)) (vc_nowMatch op) = Err ErrInvalidCode.

Lemma parallel_wrong `{UnicodeTables} s user c r op :
  cr_Enabled c = true → wrong_guess s c op → parallel_step s user c r op = fail_verify r user c (vc_now op).
Proof.
  intros He (Hl & Hp & Hm). unfold parallel_step, verify_with. rewrite He. simpl. by rewrite Hl, Hp, Hm.
Qed.

Lemma parallel_run `{UnicodeTables} s user c ops : ∀ r v,
  cr_Enabled c = true → 0 ≤ cr_FailedAttempts c < 4 → credentials r !! user = Some v →
  Forall (wrong_guess s c) ops →
  Forall (λ resp, resp = Err ErrInvalidCode) (run (parallel_step s user c) r ops).2 ∧
  ∃ v', credentials (run (parallel_step s user c) r ops).1 !! user = Some v' ∧
    (ops = [] ∨ cr_FailedAttempts (mc_Credential v') = cr_FailedAttempts c + 1 ∧ cr_LockedUntil (mc_Credential v') = None).
Proof.
  induction ops as [|op ops IH]; intros r v He Hc Hv Hops; simpl.
  { split; [done|]. exists v. split; [done|by left]. }
  apply Forall_cons in Hops as [Hop Hops]. rewrite (parallel_wrong s user c r op He Hop).
  rewrite (fail_verify_spec r user c _ v Hv).
  assert (wrap64 (cr_FailedAttempts c + 1) = cr_FailedAttempts c + 1) as ->
    by (apply wrap64_id; unfold in_int64, min_int64, max_int64; lia).
  assert (lock_after (cr_FailedAttempts c + 1) (vc_now op) = None) as ->
    by (unfold lock_after; by rewrite decide_False by lia).
  rewrite decide_True by done. cbn [fst snd].
  match goal with |- context [run _ ?r' ops] => set (r1 := r') end.
  assert (∃ v1, credentials r1 !! user = Some v1 ∧ cr_FailedAttempts (mc_Credential v1) = cr_FailedAttempts c + 1 ∧
            cr_LockedUntil (mc_Credential v1) = None) as (v1 & Hv1 & H1 & H2)
    by (eexists; split; [apply lookup_insert_eq|done]).
  destruct (IH r1 v1 He Hc Hv1 Hops) as (Hresp & v' & Hv' & Hn). split; [by constructor|].
  exists v'. split; [done|right]. destruct Hn as [->|]; [|done]. simpl run in Hv'. cbn [fst] in Hv'. rewrite Hv1 in Hv'. by injection Hv' as <-.
Qed.

(** Parallel guesses cost one. Any number of wrong codes verified concurrently,
    each having read the credential before the others record their failure, leaves
    a single failure on record; with fewer than four failures before them, all are
    answered as merely invalid and none locks the account, however many they are. *)
Theorem parallel_guesses_cost_one `{UnicodeTables} s user r c ops v :
  cr_Enabled c = true → 0 ≤ cr_FailedAttempts c < 4 → credentials r !! user = Some v →
  ops ≠ [] → Forall (wrong_guess s c) ops →
  let final := run (parallel_step s user c) r ops in
  Forall (λ resp, resp = Err ErrInvalidCode) final.2 ∧
  ∃ v', credentials final.1 !! user = Some v' ∧
        cr_FailedAttempts (mc_Credential v') = cr_FailedAttempts c + 1 ∧ cr_LockedUntil (mc_Credential v') = None.
Proof.
  intros He Hc Hv Hne Hops. destruct (parallel_run s user c ops r v He Hc Hv Hops) as (Hr & v' & Hv' & Hn).
  split; [done|]. exists v'. split; [done|]. by destruct Hn.
Qed.

(** ** Enrolment *)

Lemma forallb_digits_ascii s : forallb is_digit (bytes s) = true → Forall (λ b, 48 ≤ b ≤ 57) (bytes s).
Proof.
  intros H. apply Forall_forall. intros b Hb. apply list_elem_of_In in Hb. rewrite forallb_forall in H.
  specialize (H b Hb). by apply bool_decide_eq_true in H.
Qed.

Lemma ToUpper_digits `{UnicodeTables} s : Forall (λ b, 48 ≤ b ≤ 57) (bytes s) → ToUpper s = s.
Proof.
  intros Hs. unfold ToUpper. replace (is_ascii s) with true.
  - rewrite <-(of_bytes_bytes s) at 2. f_equal. rewrite <-(list_fmap_id (bytes s)) at 2.
    apply list_fmap_ext. intros i b Hb. rewrite Forall_lookup in Hs. specialize (Hs i b Hb).
    unfold ascii_upper. by rewrite decide_False by lia.
  - symmetry. apply forallb_forall. intros b Hb%list_elem_of_In. rewrite Forall_forall in Hs.
    specialize (Hs b Hb). apply Z.ltb_lt. lia.
Qed.

Lemma delete_bytes_digits s : Forall (λ b, 48 ≤ b ≤ 57) (bytes s) → delete_bytes ["-"; " "]%char s = s.
Proof.
  intros Hs. unfold delete_bytes. transitivity (string_of_list_ascii (list_ascii_of_string s));
    [|apply Stdlib.Strings.String.string_of_list_ascii_of_string].
  f_equal. unfold bytes in Hs. revert Hs. generalize (list_ascii_of_string s) as l.
  induction l as [|c l IH]; [done|]. rewrite fmap_cons, Forall_cons. intros [Hc Hl].
  rewrite filter_cons_True, IH by done || (intros Hin; revert Hc; repeat (apply elem_of_cons in Hin as [->|Hin]);
    [cbv; intuition congruence..|by inversion Hin]). done.
Qed.

Lemma normalizeCode_digits `{UnicodeTables} s : forallb is_digit (bytes s) = true → normalizeCode s = s.
Proof.
  intros Hs%forallb_digits_ascii. unfold normalizeCode.
  rewrite TrimSpace_id by (eapply Forall_impl; [exact Hs|simpl; lia]).
  by rewrite ToUpper_digits, delete_bytes_digits.
Qed.

Lemma generateTOTP_digits secret step :
  forallb is_digit (bytes (generateTOTP secret step)) = true ∧ length (bytes (generateTOTP secret step)) = 6%nat.
Proof.
  unfold generateTOTP. set (value := _ mod 1000000).
  assert (0 ≤ value) as Hv by (apply Z.mod_pos_bound; lia). unfold pad_decimal.
  pose proof (digits_are_digits totpDigits value Hv) as Hd. rewrite bytes_of_bytes.
  - split; [done|]. apply length_digits.
  - apply Forall_forall. intros b Hb%list_elem_of_In. rewrite forallb_forall in Hd.
    specialize (Hd b Hb). apply bool_decide_eq_true in Hd. unfold is_byte. lia.
Qed.

Lemma totp_code_shape `{UnicodeTables} secret step :
  normalizeCode (generateTOTP secret step) = generateTOTP secret step ∧
  totpCodePattern (generateTOTP secret step) = true.
Proof.
  destruct (generateTOTP_digits secret step) as [Hd Hl]. split; [by apply normalizeCode_digits|].
  unfold totpCodePattern, match_exact. by rewrite Hd, Hl.
Qed.

#[global] Arguments generateTOTP : simpl never.
#[global] Opaque generateTOTP.

(** The step of a clock, and the code an authenticator shows at it. *)
Definition step_at (t : Time) : Z := Z.quot (Unix t) totpPeriod.

Lemma matchTOTP_current `{UnicodeTables} s c secret t :
  available s = true → decrypt s (cr_UserID c) (cr_Secret c) = Ok secret →
  matchTOTP s c (generateTOTP secret (step_at t)) t =
  if decide (step_at t ≤ cr_LastUsedStep c) then Err ErrReplay else Ok (step_at t).
Proof.
  intros Ha Hd. unfold matchTOTP. rewrite Ha, Hd. simpl negb. cbv iota zeta.
  rewrite (proj1 (totp_code_shape secret (step_at t))). fold (step_at t). cbn [match_steps].
  by rewrite (decide_True (P := generateTOTP _ _ = _)).
Qed.

Lemma decrypt_encrypt s user plaintext nonce ciphertext :
  Available (keyRing s) = true → ring_wf (keyRing s) → no_byte "."%char (primaryID (keyRing s)) →
  Forall is_byte plaintext → Forall is_byte nonce → length nonce = NonceSize →
  encrypt s user plaintext (Some nonce) = Ok ciphertext → decrypt s user ciphertext = Ok plaintext.
Proof.
  intros Ha Hwf Hdot Hp Hn Hlen. unfold encrypt. rewrite Ha.
  destruct (Encrypt _ _ _ _ _) as [[v id]|] eqn:He; [|done]. intros [= <-].
  destruct (Decrypt_Encrypt (keyRing s) (keyRing s) _ _ _ _ _ _ id Hwf Hdot Hp Hn Hlen He eq_refl (or_intror eq_refl))
    as (_ & Hid & Hdec).
  unfold decrypt. by rewrite Hid, Hdec.
Qed.

(** Enrolment works end to end. Set up a second factor under a usable key ring:
    the code of the secret for the current period enables it; from then on a
    challenge is required, the same code is refused as a replay without any effect,
    and the code of the secret for any later period is accepted. *)
Theorem enrolment_works `{MapRange, UnicodeTables} s r user name now rnd secret nonce r1 setup t t1 :
  Available (keyRing s) = true → ring_wf (keyRing s) → no_byte "."%char (primaryID (keyRing s)) →
  se_secret rnd = Some secret → Forall is_byte secret →
  se_nonce rnd = Some nonce → Forall is_byte nonce → length nonce = NonceSize →
  MfaSetup s r user name now rnd = (r1, Ok setup) → 0 < step_at t →
  let code := generateTOTP secret (step_at t) in
  ∃ r2, Enable s r1 user code t1 t = (r2, Ok ()) ∧ RequiresChallenge s r2 user = Ok true ∧
    (∀ t2, Verify s r2 user code t2 t = (r2, Err ErrReplay)) ∧
    ∀ t2 t3, step_at t < step_at t3 →
      (Verify s r2 user (generateTOTP secret (step_at t3)) t2 t3).2 = Ok ().
Proof.
  intros Ha Hwf Hdot Hs Hsb Hn Hnb Hlen Hsetup Hstep code.
  assert (available s = true) as Hav by (unfold available; by rewrite Ha).
  assert (setup_pending s r user name now rnd = (r1, Ok setup)) as Hpend.
  { unfold MfaSetup in Hsetup. rewrite Hav in Hsetup. simpl in Hsetup. by branches. }
  unfold setup_pending in Hpend. rewrite Hs, Hn in Hpend.
  destruct (encrypt s user secret (Some nonce)) as [enc|] eqn:He; [|done].
  destruct (newRecoveryCodes _) as [[codes hashes]|]; [|done].
  unfold ReplacePending in Hpend. simplify_eq/=. clear Hsetup.
  pose proof (decrypt_encrypt s user secret nonce enc Ha Hwf Hdot Hsb Hnb Hlen He) as Hdec.
  assert (∀ c t, cr_UserID c = user → cr_Secret c = enc →
    matchTOTP s c (generateTOTP secret (step_at t)) t =
    if decide (step_at t ≤ cr_LastUsedStep c) then Err ErrReplay else Ok (step_at t)) as Hmatch.
  { intros c t' Hu Hsec. apply matchTOTP_current; [done|]. by rewrite Hu, Hsec. }
  unfold Enable, Find. simpl credentials. rewrite lookup_insert_eq. simpl cr_Enabled. cbv iota.
  unfold code. rewrite Hmatch by done. simpl cr_LastUsedStep. rewrite decide_False by lia.
  unfold EnableCredential. simpl credentials. rewrite lookup_insert_eq. eexists. split; [done|].
  set (r2 := set_credential _ _ _). set (v := {| mc_Credential := _ |}) in r2.
  assert (credentials r2 !! user = Some v) as Hv by apply lookup_insert_eq.
  destruct (totp_code_shape secret (step_at t)) as [Hnorm Hpat]. split_and!.
  - unfold RequiresChallenge, Find. rewrite Hv. simpl. by rewrite Hav.
  - intros t2. unfold Verify, Find. rewrite Hv. unfold verify_with. simpl cr_Enabled. simpl locked_at. cbv iota.
    rewrite Hnorm, Hpat. rewrite Hmatch by done. simpl cr_LastUsedStep. by rewrite decide_True.
  - intros t2 t3 Hlt. destruct (totp_code_shape secret (step_at t3)) as [Hnorm3 Hpat3].
    unfold Verify, Find. rewrite Hv. unfold verify_with. simpl cr_Enabled. simpl locked_at. cbv iota.
    rewrite Hnorm3, Hpat3. rewrite Hmatch by done. simpl cr_LastUsedStep.
    rewrite decide_False by lia. unfold UseTOTP. rewrite Hv. simpl. by rewrite decide_False by lia.
Qed.

(** ** Trusted devices *)

Lemma delete_keys_lookup {V} (l : list (string * V)) (m : gmap string V) k v :
  foldl (λ m kd, delete kd.1 m) m l !! k = Some v ↔ m !! k = Some v ∧ k ∉ l.*1.
Proof.
  revert m. induction l as [|[k' v'] l IH]; intros m; simpl; [set_solver|].
  rewrite IH, lookup_delete_Some, not_elem_of_cons. naive_solver.
Qed.

Lemma range_delete_keys `{MapRange} {V} (l : list (string * V)) (m : gmap string V) :
  range (foldl (λ m kd, delete kd.1 m) m l) ≡ₚ filter (λ kd, kd.1 ∉ l.*1) (range m).
Proof.
  apply NoDup_Permutation.
  - eapply NoDup_fmap_1, range_NoDup.
  - apply NoDup_filter. eapply NoDup_fmap_1, range_NoDup.
  - intros [k v]. rewrite elem_of_range, delete_keys_lookup, list_elem_of_filter, elem_of_range. naive_solver.
Qed.

Lemma filter_all {A} (P : A → Prop) `{∀ x, Decision (P x)} l : Forall P l → filter P l = l.
Proof. induction 1 as [|x l Hx _ IH]; [done|]. by rewrite filter_cons_True, IH. Qed.
Lemma filter_none {A} (P : A → Prop) `{∀ x, Decision (P x)} l : Forall (λ x, ¬ P x) l → filter P l = [].
Proof. induction 1 as [|x l Hx _ IH]; [done|]. by rewrite filter_cons_False. Qed.

(** Removing a prefix of a list by key leaves the rest. *)
Lemma filter_not_prefix {V} (l1 l2 : list (string * V)) :
  NoDup (l1 ++ l2).*1 → filter (λ kd, kd.1 ∉ l1.*1) (l1 ++ l2) = l2.
Proof.
  rewrite fmap_app, NoDup_app. intros (_ & Hdis & _). rewrite filter_app, filter_none, filter_all; [done| |].
  - apply Forall_forall. intros kd Hkd Hin. apply (Hdis _ Hin). by apply list_elem_of_fmap_2.
  - apply Forall_forall. intros kd Hkd Hn. apply Hn. by apply list_elem_of_fmap_2.
Qed.

Definition devices_of (user : string) (l : list (string * TrustedDevice)) : list (string * TrustedDevice) :=
  filter (λ kd, td_UserID kd.2 = user) l.

Lemma NoDup_fst_filter {V} (P : string * V → Prop) `{∀ x, Decision (P x)} (l : list (string * V)) :
  NoDup l.*1 → NoDup (filter P l).*1.
Proof.
  induction l as [|kd l IH]; [done|]. rewrite fmap_cons, NoDup_cons, filter_cons. intros [Hn Hnd].
  case_decide; [|auto]. rewrite fmap_cons, NoDup_cons. split; [|auto].
  intros (kd' & Heq & [_ Hin]%list_elem_of_filter)%list_elem_of_fmap. apply Hn. rewrite Heq. by apply list_elem_of_fmap_2.
Qed.

(** Trusted devices are bounded. Storing a trusted device with a positive maximum
    leaves the user with at most that many; those dropped for it, apart from the
    expired ones, were used no later than every one that is kept. *)
Theorem trusted_devices_bounded `{MapRange} r device max r' :
  0 < max → StoreTrustedDevice r device max = (r', Ok ()) →
  let user := td_UserID device in
  let kept := devices_of user (range (trustedDevices r')) in
  Z.of_nat (length kept) ≤ max ∧
  ∀ k d, trustedDevices r !! k = Some d → td_UserID d = user → td_CreatedAt device < td_ExpiresAt d →
         k ≠ td_TokenHash device → trustedDevices r' !! k = None →
         Forall (λ kd, td_LastUsedAt d ≤ td_LastUsedAt kd.2) kept.
Proof.
  intros Hmax. unfold StoreTrustedDevice. destruct (credentials r !! _); [|done].
  destruct (negb _); [done|]. rewrite decide_False by lia.
  set (user := td_UserID device).
  set (added := insert (td_TokenHash device) device _).
  set (devices := merge_sort used_first _). set (surplus := take _ devices). intros [= <-].
  cbn [set_trustedDevices trustedDevices].
  assert (Hperm : devices ≡ₚ devices_of user (range added)) by apply merge_sort_Permutation.
  assert (Hsplit : surplus ++ drop (length devices - Z.to_nat max) devices = devices) by apply take_drop.
  assert (Hnd : NoDup (surplus ++ drop (length devices - Z.to_nat max) devices).*1).
  { rewrite Hsplit, Hperm. apply NoDup_fst_filter, range_NoDup. }
  assert (Hkept : devices_of user (range (foldl (λ m kd, delete kd.1 m) added surplus)) ≡ₚ
                  drop (length devices - Z.to_nat max) devices).
  { pose proof (filter_not_prefix _ _ Hnd) as Hf. rewrite Hsplit in Hf. rewrite <-Hf, Hperm.
    unfold devices_of. rewrite range_delete_keys, !list_filter_filter. apply reflexive_eq, list_filter_iff. tauto. }
  rewrite Hkept. split; [rewrite length_drop; lia|].
  intros k d Hk Hu Hexp Hne Hnone. fold user in Hu.
  assert (added !! k = Some d) as Hadd.
  { unfold added. rewrite lookup_insert_ne by done. apply range_delete_lookup. split; [done|].
    simpl. rewrite After_false. lia. }
  assert (k ∈ surplus.*1) as Hsur.
  { destruct (decide (k ∈ surplus.*1)); [done|].
    assert (foldl (λ m kd, delete kd.1 m) added surplus !! k = Some d) by (by apply delete_keys_lookup). congruence. }
  apply list_elem_of_fmap in Hsur as ([k' d'] & -> & Hin). simpl in *.
  assert ((k', d') ∈ devices) as Hdev by (by eapply elem_of_take in Hin as (?&?&?); eapply list_elem_of_lookup_2).
  rewrite Hperm in Hdev. apply list_elem_of_filter in Hdev as [_ Hd'%elem_of_range].
  rewrite Hd' in Hadd. injection Hadd as <-.
  assert (StronglySorted used_first (surplus ++ drop (length devices - Z.to_nat max) devices)) as Hsort.
  { rewrite Hsplit. apply StronglySorted_merge_sort.
    - intros a b c. unfold used_first. lia.
    - intros a b. unfold used_first. lia. }
  apply Forall_forall. intros kd Hkd. rewrite Hkept in Hkd. exact (StronglySorted_app_1_elem_of _ _ _ (k', d') kd Hsort Hin Hkd).
Qed.
