(* ===== verification/MfaExamples.v ===== *)
(** The theorems on the key ring and on multi-factor authentication at work: one
    ring, one user enrolled with it, concrete codes. *)
From S2P Require Import Prelude GoStrings GoCrypto GoAead Secrets Mfa.
Local Open Scope Z_scope.
Local Open Scope string_scope.
#[local] Existing Instance canonical_range.
#[local] Existing Instance ascii_tables.

(** ** Key rings *)

(** 32 zero bytes in base64. *)
Definition zero_key : string := "AAAAAAAAAAAAAAAAAAAAAAAAAAAAAAAAAAAAAAAAAAA=".
Definition ring_spec : string := " k2=" +:+ zero_key +:+ ", k1 = " +:+ zero_key.
Definition ring : KeyRing := {| primaryID := "k2"; keys := <["k1" := replicate 32 0]> (<["k2" := replicate 32 0]> ∅) |}%Z.
Definition old_ring : KeyRing := {| primaryID := "k1"; keys := <["k1" := replicate 32 0]> ∅ |}%Z.
Definition dotted_ring : KeyRing := {| primaryID := "k.1"; keys := <["k.1" := replicate 32 0]> ∅ |}%Z.
Definition nonce : list Z := replicate 12 7%Z.
Definition plaintext : list Z := [1; 2; 3]%Z.

Lemma all_bytes l : forallb (λ b, (0 <=? b)%Z && (b <? 256)%Z) l = true → Forall is_byte l.
Proof.
  rewrite forallb_forall, Forall_forall. intros H b Hb. apply list_elem_of_In, H in Hb.
  apply andb_true_iff in Hb as [?%Z.leb_le ?%Z.ltb_lt]. by split.
Qed.

Lemma ring_is_wf (k : KeyRing) :
  forallb (λ ik, keyIDPattern ik.1 && bool_decide (length ik.2 = 32%nat)) (map_to_list (keys k)) = true →
  bool_decide (is_Some (keys k !! primaryID k)) = true → ring_wf k.
Proof.
  rewrite forallb_forall, bool_decide_eq_true. intros H Hp. split; [|done].
  intros id key Hk. apply elem_of_map_to_list, list_elem_of_In, H in Hk.
  apply andb_true_iff in Hk as [? ?%bool_decide_eq_true]. done.
Qed.

Lemma ParseKeyRing_available_witness :
  ∃ k, ParseKeyRing ring_spec = Ok k ∧ primaryID k = "k2" ∧ Available k = true.
Proof.
  pose (k := match ParseKeyRing ring_spec with Ok k => k | Err _ => empty_ring end).
  exists k. assert (ParseKeyRing ring_spec = Ok k) as Hk by (vm_compute; reflexivity).
  split; [exact Hk|]. split; [vm_compute; reflexivity|].
  destruct (ParseKeyRing_available ring_spec k Hk) as [Ha _]. refine (eq_trans Ha _). vm_compute; reflexivity.
Defined.

Definition sealed : string * string :=
  match Encrypt old_ring "purpose" "alice" plaintext (Some nonce) with Ok p => p | Err _ => ("", "") end.

Lemma secret_roundtrip_witness :
  sealed.2 = "k1" ∧ Decrypt ring "purpose" "alice" sealed.1 "k1" = Ok plaintext.
Proof.
  split; [vm_compute; reflexivity|].
  apply (secret_roundtrip old_ring ring "purpose" "alice" plaintext nonce sealed.1 "k1" "k1").
  - apply ring_is_wf; vm_compute; reflexivity.
  - decided.
  - apply all_bytes. reflexivity.
  - apply all_bytes. reflexivity.
  - reflexivity.
  - vm_compute; reflexivity.
  - vm_compute; reflexivity.
  - right; reflexivity.
Defined.

Definition dotted : string :=
  match Encrypt dotted_ring "purpose" "alice" plaintext (Some nonce) with Ok (e, _) => e | Err _ => "" end.

Lemma dotted_key_loses_secrets_witness :
  keyIDPattern "k.1" = true ∧ Encrypt dotted_ring "purpose" "alice" plaintext (Some nonce) = Ok (dotted, "k.1") ∧
  Decrypt dotted_ring "purpose" "alice" dotted "k.1" = Err ErrInvalidEnvelope.
Proof.
  assert (Encrypt dotted_ring "purpose" "alice" plaintext (Some nonce) = Ok (dotted, "k.1")) as H
    by (vm_compute; reflexivity).
  split; [vm_compute; reflexivity|]. split; [exact H|].
  apply (dotted_key_loses_secrets dotted_ring "purpose" "alice" plaintext nonce dotted "k.1"); [|exact H].
  decided.
Defined.

(** ** Verifying codes *)

Definition service : MfaConfig := NewServiceWithKeyRing ring [] "certus".
Definition totp_secret : list Z := bytes "12345678901234567890".
Definition enrolment : SetupEntropy :=
  {| se_secret := Some totp_secret; se_nonce := Some nonce; se_codes i := Some (replicate 18 (Z.of_nat i)) |}.
(** An instant of period [k] since the Unix epoch. *)
Definition period (k : Z) : Time := ((unix_epoch + 30 * k) * Second)%Z.
Definition pending := MfaSetup service NewMfaRepository "alice" "Alice" (period 99) enrolment.
Definition pending_setup : Setup :=
  match pending.2 with Ok v => v | Err _ => {| su_Secret := ""; su_OTPAuthURI := ""; su_RecoveryCodes := [] |} end.
Definition enrolled : MfaRepository :=
  (Enable service pending.1 "alice" (generateTOTP totp_secret 100) (period 100) (period 100)).1.
Definition enrolled_credential : memoryCredential :=
  default {| mc_Credential := Build_Credential "" "" false 0 None 0 0 None 0; mc_recoveryCodes := [] |}
    (credentials enrolled !! "alice").

Lemma enrolment_works_witness :
  ∃ r2, Enable service pending.1 "alice" (generateTOTP totp_secret 100) (period 100) (period 100) = (r2, Ok ()) ∧
    (Verify service r2 "alice" (generateTOTP totp_secret 101) (period 101) (period 101)).2 = Ok ().
Proof.
  destruct (enrolment_works service NewMfaRepository "alice" "Alice" (period 99) enrolment totp_secret nonce
    pending.1 pending_setup (period 100) (period 100)) as (r2 & He & _ & _ & Hv).
  - vm_compute; reflexivity.
  - apply ring_is_wf; vm_compute; reflexivity.
  - decided.
  - reflexivity.
  - apply all_bytes. vm_compute; reflexivity.
  - reflexivity.
  - apply all_bytes. reflexivity.
  - reflexivity.
  - vm_compute; reflexivity.
  - vm_compute; reflexivity.
  - exists r2. split; [exact He|]. apply (Hv (period 101) (period 101)). vm_compute; reflexivity.
Defined.

Lemma totp_step_single_use_witness :
  let ops := [MoUseTOTP "alice" 101; MoRecordFailure "alice" 1 None; MoUseTOTP "alice" 101] in
  is_ok (Find enrolled "alice") = true ∧ (wins mfa_step (totp_win "alice" 101) enrolled ops ≤ 1)%nat ∧
  wins mfa_step (totp_win "alice" 100) enrolled [MoUseTOTP "alice" 100] = 0%nat.
Proof.
  intros ops. split; [vm_compute; reflexivity|]. split.
  - apply (totp_step_single_use "alice" 101 enrolled ops). repeat constructor; intros [].
  - apply (totp_step_single_use "alice" 100 enrolled [MoUseTOTP "alice" 100]) with (v := enrolled_credential).
    + repeat constructor; intros [].
    + vm_compute; reflexivity.
    + vm_compute; discriminate.
Defined.

Lemma recovery_code_single_use_witness :
  let hash := default "" (mc_recoveryCodes enrolled_credential !! 3%nat) in
  let ops := [MoUseRecoveryCode "alice" hash; MoUseRecoveryCode "alice" hash] in
  (UseRecoveryCode enrolled "alice" hash).2 = Ok () ∧
  (wins mfa_step (recovery_win "alice" hash) enrolled ops ≤ 1)%nat.
Proof.
  intros hash ops. split; [vm_compute; reflexivity|].
  apply (recovery_code_single_use "alice" hash enrolled ops).
  - intros v Hv. assert (enrolled_credential = v) as <-
      by (unfold enrolled_credential; rewrite Hv; reflexivity).
    decided.
  - repeat constructor; intros [[]|[]].
Defined.

Definition wrong (now : Time) : VerifyCall := {| vc_code := "000000"; vc_now := now; vc_nowMatch := period 200 |}.

Lemma verify_guesses_take_time_witness :
  let ops := wrong <$> [period 200; period 200; period 201; period 202; period 203; period 204; period 220] in
  ∃ v, credentials (run (verify_step service "alice") enrolled ops).1 !! "alice" = Some v ∧
       cr_FailedAttempts (mc_Credential v) = 6%Z ∧ (period 200 + lock_total 6 ≤ period 220)%Z.
Proof.
  intros ops.
  pose (v := default enrolled_credential (credentials (run (verify_step service "alice") enrolled ops).1 !! "alice")).
  assert (credentials (run (verify_step service "alice") enrolled ops).1 !! "alice" = Some v) as Hv by (vm_compute; reflexivity).
  exists v. split; [exact Hv|]. split; [vm_compute; reflexivity|].
  refine (verify_guesses_take_time service "alice" enrolled ops enrolled_credential (period 200) v (wrong (period 220))
            _ _ _ _ _ _ Hv _).
  - vm_compute; reflexivity.
  - vm_compute; reflexivity.
  - vm_compute; reflexivity.
  - repeat split; vm_compute; discriminate.
  - reflexivity.
  - vm_compute. by repeat constructor.
  - reflexivity.
Defined.

Lemma parallel_guesses_cost_one_witness :
  let c := mc_Credential enrolled_credential in
  let ops := wrong <$> replicate 20 (period 200) in
  let final := run (parallel_step service "alice" c) enrolled ops in
  Forall (λ resp, resp = Err ErrInvalidCode) final.2 ∧
  ∃ v', credentials final.1 !! "alice" = Some v' ∧ cr_FailedAttempts (mc_Credential v') = 1%Z.
Proof.
  intros c ops final.
  destruct (parallel_guesses_cost_one service "alice" enrolled c ops enrolled_credential) as (Hr & v' & Hv & Hn & _).
  - vm_compute; reflexivity.
  - vm_compute. split; [discriminate|reflexivity].
  - vm_compute; reflexivity.
  - discriminate.
  - apply Forall_fmap, Forall_replicate. split_and!; vm_compute; reflexivity.
  - split; [exact Hr|]. exists v'. split; [exact Hv|]. rewrite Hn. vm_compute; reflexivity.
Defined.

Definition device (hash : string) (t : Time) : TrustedDevice :=
  {| td_UserID := "alice"; td_TokenHash := hash; td_UserAgentHash := ""; td_CreatedAt := t; td_LastUsedAt := t;
     td_ExpiresAt := t + trustedDeviceTTL |}%Z.
Definition two_devices : MfaRepository :=
  (run mfa_step enrolled
     [MoStoreTrustedDevice canonical_range (device "d1" 10) 2; MoStoreTrustedDevice canonical_range (device "d2" 20) 2]).1.

Lemma trusted_devices_bounded_witness :
  let r' := (StoreTrustedDevice two_devices (device "d3" 30) 2).1 in
  size (trustedDevices two_devices) = 2%nat ∧ trustedDevices r' !! "d1" = None ∧
  (Z.of_nat (length (devices_of "alice" (range (trustedDevices r')))) ≤ 2)%Z.
Proof.
  intros r'. split; [vm_compute; reflexivity|]. split; [vm_compute; reflexivity|].
  apply (trusted_devices_bounded two_devices (device "d3" 30) 2 r'); [reflexivity|vm_compute; reflexivity].
Defined.
