(* ===== verification/Identity.v ===== *)
(** User accounts: [internal/identity/user.go] (users and external profiles) and
    [internal/identity/memory_repository.go] (the store). Passwords, registration
    and e-mail verification are in [Passwords]. *)
From S2P Require Import Prelude GoStrings GoCrypto.
Local Open Scope Z_scope.

(** ** Data *)

(** [internal/identity/user.go:15-21] errors: the sentinel errors of the package, those
    of the other files included. *)
Inductive identityError :=
| UserNotFound
| ErrConflict
| ErrInvalid
| ErrExternalIdentityMissing
| ErrLastAuthentication
| ErrInvalidCredentials
| ErrCredentialLocked
| ErrInvalidResetToken
| ErrInvalidVerificationToken
| ErrEmailAlreadyVerified
| ErrEmailNotConfigured
| ErrPasswordLength
| ErrStoredHash
| IdentityRandomFailure.
#[global] Instance identityError_eq_dec : EqDecision identityError.
Proof. solve_decision. Defined.

(** [internal/identity/user.go:23-29] UserStatus: any string; three are valid. *)
Definition UserActive : string := "active".
Definition UserLocked : string := "locked".
Definition UserDisabled : string := "disabled".

(** [internal/identity/user.go:31-40] User *)
Record User := {
  u_ID : string;
  u_Username : string;
  u_DisplayName : string;
  u_Email : option string;
  u_EmailVerified : bool;
  u_Status : string;
  u_CreatedAt : Time;
  u_UpdatedAt : Time;
}.

(** [internal/identity/user.go:42-47] CreateUser *)
Record CreateUser := {
  cu_Username : string;
  cu_DisplayName : string;
  cu_Email : option string;
  cu_Status : string;
}.

(** [internal/identity/user.go:49-53] ReplaceUser *)
Record ReplaceUser := { ru_DisplayName : string; ru_Email : option string; ru_Status : string }.

(** [internal/identity/user.go:55-60] UserFilter *)
Record UserFilter := { uf_Query : string; uf_Status : string; uf_Limit : Z; uf_Offset : Z }.

(** [internal/identity/user.go:62-67] UserPage *)
Record UserPage := { up_Items : list User; up_Total : Z; up_Limit : Z; up_Offset : Z }.

(** [internal/identity/user.go:78-87] ExternalProfile: the claims are not used here. *)
Record ExternalProfile := {
  ep_ProviderID : string;
  ep_Subject : string;
  ep_Username : string;
  ep_DisplayName : string;
  ep_Email : option string;
  ep_EmailTrusted : bool;
  ep_EmailVerified : bool;
}.

(** [internal/identity/user.go:95-107] ExternalIdentity *)
Record ExternalIdentity := {
  ei_ID : string;
  ei_UserID : string;
  ei_ProviderID : string;
  ei_Subject : string;
  ei_Username : string;
  ei_DisplayName : string;
  ei_Email : option string;
  ei_EmailTrusted : bool;
  ei_EmailVerified : bool;
  ei_CreatedAt : Time;
  ei_LastAuthenticatedAt : Time;
}.

(** [internal/identity/password.go:35-40] PasswordCredential *)
Record PasswordCredential := {
  pc_UserID : string;
  pc_Hash : string;
  pc_FailedAttempts : Z;
  pc_LockedUntil : option Time;
}.

(** [internal/identity/password.go:49-54] PasswordResetToken *)
Record PasswordResetToken := { pr_UserID : string; pr_Hash : string; pr_CreatedAt : Time; pr_ExpiresAt : Time }.

(** [internal/identity/email_verification.go:18-24] EmailVerificationToken *)
Record EmailVerificationToken := {
  ev_UserID : string;
  ev_Email : string;
  ev_Hash : string;
  ev_CreatedAt : Time;
  ev_ExpiresAt : Time;
}.

(** Field updates. *)
Definition u_verified (now : Time) (u : User) : User :=
  {| u_ID := u_ID u; u_Username := u_Username u; u_DisplayName := u_DisplayName u; u_Email := u_Email u;
     u_EmailVerified := true; u_Status := u_Status u; u_CreatedAt := u_CreatedAt u; u_UpdatedAt := now |}.
Definition u_with_EmailVerified (b : bool) (u : User) : User :=
  {| u_ID := u_ID u; u_Username := u_Username u; u_DisplayName := u_DisplayName u; u_Email := u_Email u;
     u_EmailVerified := b; u_Status := u_Status u; u_CreatedAt := u_CreatedAt u; u_UpdatedAt := u_UpdatedAt u |}.

(** ** Users *)

(** [internal/identity/user.go:109] usernamePattern: [^[a-z0-9][a-z0-9._-]{2,63}$] *)
Definition usernamePattern : string → bool :=
  match_head_tail is_alnum_lower (λ b, is_alnum_lower b || is_one_of "._-" b) 2 63.

(** A lower-case hexadecimal digit. *)
Definition is_hex (b : Z) : bool := is_digit b || in_range 97 102 b.

(** [internal/identity/user.go:110] userIDPattern: a version 4 UUID *)
Definition userIDPattern (s : string) : bool :=
  match Split s "-"%char with
  | [a; b; c; d; e] =>
      match_exact is_hex 8 a && match_exact is_hex 4 b &&
      match_head_tail (λ x, x =? 52) is_hex 3 3 c && match_head_tail (is_one_of "89ab") is_hex 3 3 d &&
      match_exact is_hex 12 e
  | _ => false
  end.

(** [internal/identity/user.go:175-177] ValidUserID *)
Definition ValidUserID (id : string) : bool := userIDPattern id.

(** [internal/identity/user.go:171-173] UserStatus.Valid *)
Definition ValidStatus (s : string) : bool := bool_decide (s = UserActive ∨ s = UserLocked ∨ s = UserDisabled).

(** [net/mail.ParseAddress]: the address it reads, [None] for an error. *)
Class MailParser := { mail_ParseAddress : string → option string }.

(** Addresses of the form [local@domain], without spaces, angle brackets or commas. *)
Definition plain_mail : MailParser :=
  {| mail_ParseAddress s :=
       match Split s "@"%char with
       | [l; d] => if forallb (λ b, negb (is_one_of " <>,()" b)) (bytes s) && negb (bool_decide (l = ""%string)) && negb (bool_decide (d = ""%string))
                   then Some s else None
       | _ => None
       end |}.

(** [internal/identity/user.go:219-232] normalizeEmail *)
Definition normalizeEmail `{UnicodeTables, MailParser} (value : option string) : Res identityError (option string) :=
  match value with
  | None => Ok None
  | Some value =>
      if decide (TrimSpace value = ""%string) then Ok None
      else
        let normalized := ToLower (TrimSpace value) in
        if decide (len normalized > 320) then Err ErrInvalid
        else match mail_ParseAddress normalized with
        | None => Err ErrInvalid
        | Some address => if decide (address ≠ normalized) then Err ErrInvalid else Ok (Some normalized)
        end
  end.

(** [internal/identity/user.go:234-243] newUUID *)
Definition newUUID (rnd : Entropy) : Res identityError string :=
  match rnd with
  | None => Err IdentityRandomFailure
  | Some value => Ok (uuid_format (uuid_bits value))
  end.

Definition bad_display_name (displayName : string) : Prop := displayName = ""%string ∨ rune_count displayName > 128.
#[global] Instance bad_display_name_dec s : Decision (bad_display_name s).
Proof. unfold bad_display_name. apply _. Defined.

(** [internal/identity/user.go:113-147] NewUser *)
Definition NewUser `{UnicodeTables, MailParser} (input : CreateUser) (now : Time) (rnd : Entropy) : Res identityError User :=
  let username := ToLower (TrimSpace (cu_Username input)) in
  let displayName := TrimSpace (cu_DisplayName input) in
  match normalizeEmail (cu_Email input) with
  | Err e => Err e
  | Ok email =>
      let status := if decide (cu_Status input = ""%string) then UserActive else cu_Status input in
      if negb (usernamePattern username) then Err ErrInvalid
      else if decide (bad_display_name displayName) then Err ErrInvalid
      else if negb (ValidStatus status) then Err ErrInvalid
      else match newUUID rnd with
      | Err e => Err e
      | Ok id =>
          Ok {| u_ID := id; u_Username := username; u_DisplayName := displayName; u_Email := email;
                u_EmailVerified := false; u_Status := status; u_CreatedAt := now; u_UpdatedAt := now |}
      end
  end.

(** Whether two optional addresses are both present and the same up to case. *)
Definition same_email `{UnicodeTables} (a b : option string) : bool :=
  match a, b with Some x, Some y => EqualFold x y | _, _ => false end.

(** [internal/identity/user.go:149-169] Replace *)
Definition ReplacedUser `{UnicodeTables, MailParser} (current : User) (input : ReplaceUser) (now : Time) : Res identityError User :=
  let displayName := TrimSpace (ru_DisplayName input) in
  if decide (bad_display_name displayName) then Err ErrInvalid
  else match normalizeEmail (ru_Email input) with
  | Err e => Err e
  | Ok email =>
      let verified := if negb (same_email (u_Email current) email) then false else u_EmailVerified current in
      if negb (ValidStatus (ru_Status input)) then Err ErrInvalid
      else Ok {| u_ID := u_ID current; u_Username := u_Username current; u_DisplayName := displayName;
                 u_Email := email; u_EmailVerified := verified; u_Status := ru_Status input;
                 u_CreatedAt := u_CreatedAt current; u_UpdatedAt := now |}
  end.

(** *** Users of an external provider *)

(** The class [a-z0-9._-] of a rune. *)
Definition username_rune (r : Z) : bool := is_alnum_lower r || is_one_of "._-" r.

(** [internal/identity/user.go:111] unsupportedUsernameCharacters: [ReplaceAllString] turns every
    maximal run of runes outside [a-z0-9._-] into a hyphen. *)
Fixpoint replace_unsupported (in_run : bool) (l : list (Z * list Z)) : list Z :=
  match l with
  | [] => []
  | c :: rest =>
      if username_rune c.1 then c.2 ++ replace_unsupported false rest
      else if in_run then replace_unsupported true rest else 45 :: replace_unsupported true rest
  end.

(** The loop [for len(username) < 3 { username += "0" }]: three turns are enough. *)
Fixpoint pad_username (fuel : nat) (username : string) : string :=
  match fuel with
  | O => username
  | S k => if decide (len username < 3) then pad_username k (username +:+ "0") else username
  end.

(** [username[:54]] when it is longer. *)
Definition truncate (n : nat) (s : string) : string :=
  if decide (len s > Z.of_nat n) then of_bytes (take n (bytes s)) else s.

(** [internal/identity/user.go:183-198] NewExternalUser, the user name *)
Definition external_username `{UnicodeTables} (profile : ExternalProfile) (disambiguate : bool) : string :=
  let username := ToLower (TrimSpace (ep_Username profile)) in
  let username := of_bytes (replace_unsupported false (chunks username)) in
  let username := Trim username "._-" in
  let username := if decide (username = ""%string) then "user"%string else username in
  let username := truncate 54 username in
  let username :=
    if disambiguate
    then username +:+ "-" +:+
         hex (take 4 (sha256 (bytes (ep_ProviderID profile +:+ String (chr 0) (ep_Subject profile)))))
    else username in
  pad_username 3 username.

(** [internal/identity/user.go:179-217] NewExternalUser *)
Definition NewExternalUser `{UnicodeTables, MailParser} (profile : ExternalProfile) (disambiguate : bool)
    (now : Time) (rnd : Entropy) : Res identityError User :=
  if decide (TrimSpace (ep_ProviderID profile) = ""%string ∨ TrimSpace (ep_Subject profile) = ""%string)
  then Err ErrInvalid
  else
    let username := external_username profile disambiguate in
    let displayName := TrimSpace (ep_DisplayName profile) in
    let displayName := if decide (displayName = ""%string) then ep_Username profile else displayName in
    let displayName := if decide (displayName = ""%string) then username else displayName in
    match NewUser {| cu_Username := username; cu_DisplayName := displayName; cu_Email := ep_Email profile;
                     cu_Status := UserActive |} now rnd with
    | Err e => Err e
    | Ok user => Ok (u_with_EmailVerified (ep_EmailVerified profile && bool_decide (is_Some (u_Email user))) user)
    end.

(** [internal/identity/memory_repository.go:465-488] newExternalIdentity *)
Definition newExternalIdentity (userID : string) (profile : ExternalProfile) (now : Time) (rnd : Entropy)
    : Res identityError ExternalIdentity :=
  match newUUID rnd with
  | Err e => Err e
  | Ok id =>
      Ok {| ei_ID := id; ei_UserID := userID; ei_ProviderID := TrimSpace (ep_ProviderID profile);
            ei_Subject := TrimSpace (ep_Subject profile); ei_Username := TrimSpace (ep_Username profile);
            ei_DisplayName := TrimSpace (ep_DisplayName profile); ei_Email := ep_Email profile;
            ei_EmailTrusted := ep_EmailTrusted profile; ei_EmailVerified := ep_EmailVerified profile;
            ei_CreatedAt := now; ei_LastAuthenticatedAt := now |}
  end.

(** ** The store *)

(** [internal/identity/memory_repository.go:13-20] MemoryUserRepository *)
Record UserRepository := {
  users : gmap string User;
  credentials : gmap string PasswordCredential;
  external : gmap string ExternalIdentity;
  passwordResets : gmap string PasswordResetToken;
  emailVerifies : gmap string EmailVerificationToken;
}.

(** [internal/identity/memory_repository.go:22-34] NewMemoryUserRepository *)
Definition NewUserRepository (initial : list User) : UserRepository :=
  {| users := foldl (λ m user, <[u_ID user := user]> m) ∅ initial;
     credentials := ∅; external := ∅; passwordResets := ∅; emailVerifies := ∅ |}.

Definition set_users m r := {| users := m; credentials := credentials r; external := external r;
  passwordResets := passwordResets r; emailVerifies := emailVerifies r |}.
Definition set_credentials m r := {| users := users r; credentials := m; external := external r;
  passwordResets := passwordResets r; emailVerifies := emailVerifies r |}.
Definition set_external m r := {| users := users r; credentials := credentials r; external := m;
  passwordResets := passwordResets r; emailVerifies := emailVerifies r |}.
Definition set_passwordResets m r := {| users := users r; credentials := credentials r; external := external r;
  passwordResets := m; emailVerifies := emailVerifies r |}.
Definition set_emailVerifies m r := {| users := users r; credentials := credentials r; external := external r;
  passwordResets := passwordResets r; emailVerifies := m |}.

Definition put_user (u : User) (r : UserRepository) : UserRepository := set_users (<[u_ID u := u]> (users r)) r.

Section Store.
Context `{MapRange, UnicodeTables, MailParser}.

(** *** Tokens sent by e-mail *)

(** [internal/identity/memory_repository.go:36-50] SavePasswordReset *)
Definition SavePasswordReset (r : UserRepository) (token : PasswordResetToken) : UserRepository * Res identityError unit :=
  if decide (users r !! pr_UserID token = None) then (r, Err UserNotFound)
  else (set_passwordResets
          (<[pr_Hash token := token]>
             (range_delete (λ kt, pr_UserID kt.2 = pr_UserID token) (passwordResets r))) r, Ok ()).

(** [internal/identity/memory_repository.go:52-62] ConsumePasswordReset *)
Definition ConsumePasswordReset (r : UserRepository) (hash : string) (now : Time) : UserRepository * Res identityError string :=
  match list_find (λ kt, pr_Hash kt.2 = hash ∧ After (pr_ExpiresAt kt.2) now = true) (range (passwordResets r)) with
  | Some (_, (key, token)) => (set_passwordResets (delete key (passwordResets r)) r, Ok (pr_UserID token))
  | None => (r, Err ErrInvalidResetToken)
  end.

(** [internal/identity/memory_repository.go:64-78] SaveEmailVerification *)
Definition SaveEmailVerification (r : UserRepository) (token : EmailVerificationToken)
    : UserRepository * Res identityError unit :=
  if decide (users r !! ev_UserID token = None) then (r, Err UserNotFound)
  else (set_emailVerifies
          (<[ev_Hash token := token]>
             (range_delete (λ kt, ev_UserID kt.2 = ev_UserID token) (emailVerifies r))) r, Ok ()).

(** [internal/identity/memory_repository.go:80-98] VerifyEmail: the user is written back
    under the identifier asked for. *)
Definition VerifyEmail (r : UserRepository) (hash userID : string) (now : Time) : UserRepository * Res identityError string :=
  match list_find (λ kt, ¬ (ev_Hash kt.2 ≠ hash ∨ ev_UserID kt.2 ≠ userID ∨ After (ev_ExpiresAt kt.2) now = false))
          (range (emailVerifies r)) with
  | None => (r, Err ErrInvalidVerificationToken)
  | Some (_, (key, token)) =>
      match users r !! userID with
      | None => (r, Err ErrInvalidVerificationToken)
      | Some user =>
          if negb (same_email (u_Email user) (Some (ev_Email token))) then (r, Err ErrInvalidVerificationToken)
          else (set_users (<[userID := u_verified now user]> (users r))
                  (set_emailVerifies (delete key (emailVerifies r)) r), Ok userID)
      end
  end.

(** *** Creating users *)

(** Same name or same address, up to case. *)
Definition conflicts (a b : User) : bool :=
  EqualFold (u_Username a) (u_Username b) || same_email (u_Email a) (u_Email b).

(** The loops that look for a conflict. *)
Definition has_conflict (m : gmap string User) (user : User) : bool :=
  existsb (λ ku, conflicts ku.2 user) (range m).

(** [internal/identity/memory_repository.go:286-297] Create *)
Definition CreateAccount (r : UserRepository) (user : User) : UserRepository * Res identityError User :=
  if has_conflict (users r) user then (r, Err ErrConflict) else (put_user user r, Ok user).

Definition new_credential (userID hash : string) : PasswordCredential :=
  {| pc_UserID := userID; pc_Hash := hash; pc_FailedAttempts := 0; pc_LockedUntil := None |}.
Definition put_credential (userID hash : string) (r : UserRepository) : UserRepository :=
  set_credentials (<[userID := new_credential userID hash]> (credentials r)) r.

(** [internal/identity/memory_repository.go:299-319] CreateWithPassword *)
Definition CreateWithPassword (r : UserRepository) (user : User) (hash : string) : UserRepository * Res identityError User :=
  if has_conflict (users r) user then (r, Err ErrConflict)
  else if decide (is_Some (users r !! u_ID user)) then (r, Err ErrConflict)
  else (put_credential (u_ID user) hash (put_user user r), Ok user).

(** [internal/identity/password_migration.go:42-45] PasswordMigrationRecord *)
Record PasswordMigrationRecord := { pm_User : User; pm_PasswordHash : string }.

(** The three sets that [CreateWithMigratedPasswords] checks a record against. *)
Record Taken := { tk_usernames : gset string; tk_emails : gset string; tk_ids : gset string }.

Definition take_user (t : Taken) (u : User) : Taken :=
  {| tk_usernames := {[ToLower (u_Username u)]} ∪ tk_usernames t;
     tk_emails := match u_Email u with Some e => {[ToLower e]} ∪ tk_emails t | None => tk_emails t end;
     tk_ids := {[u_ID u]} ∪ tk_ids t |}.

Definition is_taken (t : Taken) (u : User) : Prop :=
  ToLower (u_Username u) ∈ tk_usernames t ∨ u_ID u ∈ tk_ids t ∨
  match u_Email u with Some e => ToLower e ∈ tk_emails t | None => False end.
#[global] Instance is_taken_dec t u : Decision (is_taken t u).
Proof. unfold is_taken. destruct (u_Email u); apply _. Defined.

(** [internal/identity/memory_repository.go:339-356] CreateWithMigratedPasswords, the checking loop *)
Fixpoint check_records (t : Taken) (records : list PasswordMigrationRecord) : Res identityError unit :=
  match records with
  | [] => Ok ()
  | record :: rest =>
      if decide (is_taken t (pm_User record)) then Err ErrConflict
      else check_records (take_user t (pm_User record)) rest
  end.

(** [internal/identity/memory_repository.go:321-368] CreateWithMigratedPasswords *)
Definition CreateWithMigratedPasswords (r : UserRepository) (records : list PasswordMigrationRecord)
    : UserRepository * Res identityError (list User) :=
  let taken := foldl (λ t ku, take_user t ku.2) {| tk_usernames := ∅; tk_emails := ∅; tk_ids := ∅ |} (range (users r)) in
  match check_records taken records with
  | Err e => (r, Err e)
  | Ok _ =>
      (foldl (λ r record, put_credential (u_ID (pm_User record)) (pm_PasswordHash record) (put_user (pm_User record) r))
         r records, Ok (pm_User <$> records))
  end.

(** [internal/identity/memory_repository.go:370-387] Replace: the user given decides the
    verification mark unless the address changes. *)
Definition ReplaceAccount (r : UserRepository) (user : User) : UserRepository * Res identityError User :=
  match users r !! u_ID user with
  | None => (r, Err UserNotFound)
  | Some current =>
      let user := if negb (same_email (u_Email current) (u_Email user)) then u_with_EmailVerified false user else user in
      if existsb (λ ku, negb (bool_decide (ku.1 = u_ID user)) && same_email (u_Email ku.2) (u_Email user)) (range (users r))
      then (r, Err ErrConflict)
      else (put_user user r, Ok user)
  end.

(** [internal/identity/memory_repository.go:389-400] SetEmailVerified *)
Definition SetEmailVerified (r : UserRepository) (userID : string) (now : Time) : UserRepository * Res identityError User :=
  match users r !! userID with
  | None => (r, Err UserNotFound)
  | Some user => (set_users (<[userID := u_verified now user]> (users r)) r, Ok (u_verified now user))
  end.

(** *** Looking users up *)

(** [internal/identity/memory_repository.go:276-284] Find *)
Definition FindUser (r : UserRepository) (id : string) : Res identityError User :=
  match users r !! id with Some user => Ok user | None => Err UserNotFound end.

(** [internal/identity/memory_repository.go:235-244] FindByUsername *)
Definition FindByUsername (r : UserRepository) (username : string) : Res identityError User :=
  match list_find (λ ku, EqualFold (u_Username ku.2) username = true) (range (users r)) with
  | Some (_, (_, user)) => Ok user
  | None => Err UserNotFound
  end.

(** [internal/identity/memory_repository.go:412-426] FindPasswordByUsername *)
Definition FindPasswordByUsername (r : UserRepository) (username : string)
    : Res identityError (User * PasswordCredential) :=
  match list_find (λ ku, EqualFold (u_Username ku.2) username = true) (range (users r)) with
  | Some (_, (_, user)) =>
      match credentials r !! u_ID user with Some credential => Ok (user, credential) | None => Err UserNotFound end
  | None => Err UserNotFound
  end.

(** The filter of [List]. *)
Definition user_matches (filter : UserFilter) (user : User) : bool :=
  let query := ToLower (TrimSpace (uf_Query filter)) in
  negb (bool_decide (uf_Status filter ≠ ""%string ∧ u_Status user ≠ uf_Status filter)) &&
  (bool_decide (query = ""%string) || StringContains (ToLower (u_Username user)) query ||
   StringContains (ToLower (u_DisplayName user)) query ||
   match u_Email user with Some e => StringContains (ToLower e) query | None => false end).

(** Newest first, then by identifier. *)
Definition listed_before (a b : User) : Prop :=
  u_CreatedAt b < u_CreatedAt a ∨ u_CreatedAt a = u_CreatedAt b ∧ String.le (u_ID a) (u_ID b).
#[global] Instance listed_before_dec : RelDecision listed_before.
Proof. intros a b. unfold listed_before. apply _. Defined.

(** [internal/identity/memory_repository.go:246-274] List: [None] is the run-time panic of
    a slice expression out of range. *)
Definition ListUsers (r : UserRepository) (filter : UserFilter) : option UserPage :=
  let matches := merge_sort listed_before (List.filter (user_matches filter) (range (users r)).*2) in
  let total := Z.of_nat (length matches) in
  let start := Z.min (uf_Offset filter) total in
  let end_ := Z.min (wrap64 (start + uf_Limit filter)) total in
  if decide (0 ≤ start ≤ end_)
  then Some {| up_Items := take (Z.to_nat (end_ - start)) (drop (Z.to_nat start) matches);
               up_Total := total; up_Limit := uf_Limit filter; up_Offset := uf_Offset filter |}
  else None.

(** *** Credentials *)

(** [internal/identity/memory_repository.go:402-410] SetPassword *)
Definition SetPassword (r : UserRepository) (userID hash : string) : UserRepository * Res identityError unit :=
  if decide (users r !! userID = None) then (r, Err UserNotFound) else (put_credential userID hash r, Ok ()).

(** [internal/identity/memory_repository.go:428-442] RecordPasswordFailure: a zero
    [lockedUntil] leaves the lock as it was. *)
Definition RecordPasswordFailure (r : UserRepository) (userID : string) (attempts : Z) (lockedUntil : Time)
    : UserRepository * Res identityError unit :=
  match credentials r !! userID with
  | None => (r, Err UserNotFound)
  | Some credential =>
      (set_credentials (<[userID := {| pc_UserID := pc_UserID credential; pc_Hash := pc_Hash credential;
                                       pc_FailedAttempts := attempts;
                                       pc_LockedUntil := if negb (IsZero lockedUntil) then Some lockedUntil
                                                         else pc_LockedUntil credential |}]> (credentials r)) r, Ok ())
  end.

(** [internal/identity/memory_repository.go:444-455] RecordPasswordSuccess *)
Definition RecordPasswordSuccess (r : UserRepository) (userID : string) : UserRepository * Res identityError unit :=
  match credentials r !! userID with
  | None => (r, Err UserNotFound)
  | Some credential =>
      (set_credentials (<[userID := {| pc_UserID := pc_UserID credential; pc_Hash := pc_Hash credential;
                                       pc_FailedAttempts := 0; pc_LockedUntil := None |}]> (credentials r)) r, Ok ())
  end.

(** *** External identities *)

(** The key of an external identity. *)
Definition external_key (profile : ExternalProfile) : string :=
  ep_ProviderID profile +:+ String (chr 0) (ep_Subject profile).

(** [internal/identity/memory_repository.go:110-115] ResolveExternalIdentity, a known identity *)
Definition refreshed (profile : ExternalProfile) (now : Time) (e : ExternalIdentity) : ExternalIdentity :=
  {| ei_ID := ei_ID e; ei_UserID := ei_UserID e; ei_ProviderID := ei_ProviderID e; ei_Subject := ei_Subject e;
     ei_Username := TrimSpace (ep_Username profile); ei_DisplayName := TrimSpace (ep_DisplayName profile);
     ei_Email := ep_Email profile; ei_EmailTrusted := ep_EmailTrusted profile;
     ei_EmailVerified := ep_EmailVerified profile; ei_CreatedAt := ei_CreatedAt e; ei_LastAuthenticatedAt := now |}.

(** [internal/identity/memory_repository.go:143-173] ResolveExternalIdentity, creation of a user *)
Definition create_external (r : UserRepository) (profile : ExternalProfile) (now : Time)
    (rndUser rndUser2 rndID : Entropy) : UserRepository * Res identityError User :=
  match NewExternalUser profile false now rndUser with
  | Err e => (r, Err e)
  | Ok user =>
      match (if has_conflict (users r) user then NewExternalUser profile true now rndUser2 else Ok user) with
      | Err e => (r, Err e)
      | Ok user =>
          if has_conflict (users r) user then (r, Err ErrConflict)
          else if decide (is_Some (users r !! u_ID user)) then (r, Err ErrConflict)
          else match newExternalIdentity (u_ID user) profile now rndID with
          | Err e => (set_users (delete (u_ID user) (users (put_user user r))) r, Err e)
          | Ok e => (set_external (<[external_key profile := e]> (external r)) (put_user user r), Ok user)
          end
      end
  end.

(** [internal/identity/memory_repository.go:100-174] ResolveExternalIdentity: [rndUser],
    [rndUser2] and [rndID] are the bytes read for the identifiers. *)
Definition ResolveExternalIdentity (r : UserRepository) (profile : ExternalProfile) (now : Time)
    (rndUser rndUser2 rndID : Entropy) : UserRepository * Res identityError User :=
  let key := external_key profile in
  match external r !! key with
  | Some e =>
      match users r !! ei_UserID e with
      | None => (r, Err UserNotFound)
      | Some user =>
          let r := set_external (<[key := refreshed profile now e]> (external r)) r in
          if ep_EmailVerified profile && same_email (u_Email user) (ep_Email profile) && negb (u_EmailVerified user)
          then (put_user (u_verified now user) r, Ok (u_verified now user))
          else (r, Ok user)
      end
  | None =>
      match (if ep_EmailTrusted profile && bool_decide (is_Some (ep_Email profile))
             then list_find (λ ku, same_email (u_Email ku.2) (ep_Email profile) = true) (range (users r)) else None) with
      | Some (_, (_, existing)) =>
          let verify := ep_EmailVerified profile && negb (u_EmailVerified existing) in
          let existing := if verify then u_verified now existing else existing in
          let r := if verify then put_user existing r else r in
          match newExternalIdentity (u_ID existing) profile now rndID with
          | Err e => (r, Err e)
          | Ok e => (set_external (<[key := e]> (external r)) r, Ok existing)
          end
      | None => create_external r profile now rndUser rndUser2 rndID
      end
  end.

(** Oldest first, then by identifier. *)
Definition linked_before (a b : ExternalIdentity) : Prop :=
  ei_CreatedAt a < ei_CreatedAt b ∨ ei_CreatedAt a = ei_CreatedAt b ∧ String.le (ei_ID a) (ei_ID b).
#[global] Instance linked_before_dec : RelDecision linked_before.
Proof. intros a b. unfold linked_before. apply _. Defined.

(** [internal/identity/memory_repository.go:176-198] ListExternalIdentities *)
Definition ListExternalIdentities (r : UserRepository) (userID : string) : Res identityError (list ExternalIdentity) :=
  if decide (users r !! userID = None) then Err UserNotFound
  else Ok (merge_sort linked_before (filter (λ e, ei_UserID e = userID) (range (external r)).*2)).

(** [internal/identity/memory_repository.go:200-233] DeleteExternalIdentity *)
Definition DeleteExternalIdentity (r : UserRepository) (userID externalIdentityID : string)
    : UserRepository * Res identityError unit :=
  if decide (users r !! userID = None) then (r, Err UserNotFound)
  else
    let targetKey :=
      match list_find (λ ke, ei_ID ke.2 = externalIdentityID ∧ ei_UserID ke.2 = userID) (range (external r)) with
      | Some (_, (key, _)) => key
      | None => ""%string
      end in
    if decide (targetKey = ""%string) then (r, Err ErrExternalIdentityMissing)
    else
      let alternatives :=
        (if decide (is_Some (credentials r !! userID)) then 1 else 0) +
        Z.of_nat (length (filter (λ ke, ke.1 ≠ targetKey ∧ ei_UserID ke.2 = userID) (range (external r)))) in
      if decide (alternatives = 0) then (r, Err ErrLastAuthentication)
      else (set_external (delete targetKey (external r)) r, Ok ()).
End Store.
