(* ===== verification/IdentityProps.v ===== *)
(** What the account store guarantees: names and addresses stay unique, tokens sent
    by e-mail are used once and for their owner only, no user loses the last way to
    sign in, and every external profile gets an acceptable user name. *)
From S2P Require Import Prelude GoStrings GoCrypto Identity.
Local Open Scope Z_scope.

(** ** The store as a transition system *)

Inductive IdentityOp :=
| IoSavePasswordReset (order : MapRange) (token : PasswordResetToken)
| IoConsumePasswordReset (order : MapRange) (hash : string) (now : Time)
| IoSaveEmailVerification (order : MapRange) (token : EmailVerificationToken)
| IoVerifyEmail (order : MapRange) (hash userID : string) (now : Time)
| IoCreate (order : MapRange) (user : User)
| IoCreateWithPassword (order : MapRange) (user : User) (hash : string)
| IoMigrate (order : MapRange) (records : list PasswordMigrationRecord)
| IoReplace (order : MapRange) (user : User)
| IoSetEmailVerified (userID : string) (now : Time)
| IoSetPassword (userID hash : string)
| IoRecordFailure (userID : string) (attempts : Z) (lockedUntil : Time)
| IoRecordSuccess (userID : string)
| IoResolve (order : MapRange) (profile : ExternalProfile) (now : Time) (rndUser rndUser2 rndID : Entropy)
| IoDeleteExternal (order : MapRange) (userID externalIdentityID : string).

Section Step.
Context `{UnicodeTables, MailParser}.

(** One call of the store, and whether it returned without error. *)
Definition identity_step (r : UserRepository) (op : IdentityOp) : UserRepository * bool :=
  match op with
  | IoSavePasswordReset order t => let p := @SavePasswordReset order r t in (p.1, is_ok p.2)
  | IoConsumePasswordReset order h now => let p := @ConsumePasswordReset order r h now in (p.1, is_ok p.2)
  | IoSaveEmailVerification order t => let p := @SaveEmailVerification order r t in (p.1, is_ok p.2)
  | IoVerifyEmail order h u now => let p := VerifyEmail (H := order) r h u now in (p.1, is_ok p.2)
  | IoCreate order u => let p := CreateAccount (H := order) r u in (p.1, is_ok p.2)
  | IoCreateWithPassword order u h => let p := CreateWithPassword (H := order) r u h in (p.1, is_ok p.2)
  | IoMigrate order l => let p := CreateWithMigratedPasswords (H := order) r l in (p.1, is_ok p.2)
  | IoReplace order u => let p := ReplaceAccount (H := order) r u in (p.1, is_ok p.2)
  | IoSetEmailVerified u now => let p := SetEmailVerified r u now in (p.1, is_ok p.2)
  | IoSetPassword u h => let p := SetPassword r u h in (p.1, is_ok p.2)
  | IoRecordFailure u n t => let p := RecordPasswordFailure r u n t in (p.1, is_ok p.2)
  | IoRecordSuccess u => let p := RecordPasswordSuccess r u in (p.1, is_ok p.2)
  | IoResolve order p now r1 r2 r3 => let p := ResolveExternalIdentity (H := order) r p now r1 r2 r3 in (p.1, is_ok p.2)
  | IoDeleteExternal order u e => let p := @DeleteExternalIdentity order r u e in (p.1, is_ok p.2)
  end.

(** ** Names and addresses are unique *)

Lemma same_email_sym a b : same_email a b = same_email b a.
Proof. destruct a, b; try done. apply EqualFold_sym. Qed.
Lemma conflicts_sym a b : conflicts a b = conflicts b a.
Proof. unfold conflicts. by rewrite EqualFold_sym, same_email_sym. Qed.

Definition users_keyed (m : gmap string User) : Prop := ∀ id u, m !! id = Some u → u_ID u = id.
Definition no_twins (m : gmap string User) : Prop :=
  ∀ id1 id2 u1 u2, m !! id1 = Some u1 → m !! id2 = Some u2 → id1 ≠ id2 → conflicts u1 u2 = false.

Lemma has_conflict_false `{MapRange} m user :
  has_conflict m user = false → ∀ id u, m !! id = Some u → conflicts u user = false.
Proof.
  unfold has_conflict. intros Hc id u Hu. apply not_true_is_false. intros Ht.
  enough (existsb (λ ku, conflicts ku.2 user) (range m) = true) by congruence.
  apply existsb_exists. exists (id, u). split; [|done]. apply list_elem_of_In. by apply elem_of_range.
Qed.

Lemma keyed_put m u : users_keyed m → users_keyed (<[u_ID u := u]> m).
Proof.
  intros Hm id v. destruct (decide (u_ID u = id)) as [<-|Hne].
  - rewrite lookup_insert_eq. by intros [= <-].
  - rewrite lookup_insert_ne by done. apply Hm.
Qed.

(** Writing a user that conflicts with no other keeps the invariant. *)
Lemma twins_put m u :
  no_twins m → (∀ id v, m !! id = Some v → id ≠ u_ID u → conflicts v u = false) → no_twins (<[u_ID u := u]> m).
Proof.
  intros Hm Hu id1 id2 u1 u2 H1 H2 Hne.
  destruct (decide (u_ID u = id1)) as [<-|N1]; [|rewrite lookup_insert_ne in H1 by done];
    destruct (decide (u_ID u = id2)) as [<-|N2]; try (rewrite lookup_insert_ne in H2 by done); try done.
  - rewrite lookup_insert_eq in H1. injection H1 as <-. rewrite conflicts_sym. eauto.
  - rewrite lookup_insert_eq in H2. injection H2 as <-. eauto.
  - eauto.
Qed.

(** So does rewriting a user under the same name and address. *)
Lemma twins_update m u v :
  no_twins m → m !! u_ID u = Some v → u_Username u = u_Username v → u_Email u = u_Email v →
  no_twins (<[u_ID u := u]> m).
Proof.
  intros Hm Hv Hn He. apply twins_put; [done|]. intros id w Hw Hne.
  unfold conflicts. rewrite Hn, He. eapply Hm; [done..|]. done.
Qed.

Definition ascii_user (u : User) : bool := is_ascii (u_Username u) && from_option is_ascii true (u_Email u).

Lemma folded_ascii s : is_ascii s = true → folded s = ascii_lower <$> bytes s.
Proof.
  intros Hs. unfold folded, runes, chunks. unfold is_ascii in Hs. rewrite forallb_forall in Hs.
  assert (Forall (λ b, 0 ≤ b < 128) (bytes s)) as Hb.
  { apply Forall_forall. intros b Hb. pose proof (bytes_range s) as Hr. rewrite Forall_forall in Hr.
    pose proof (Hr b Hb) as Hr'. unfold is_byte in Hr'. apply list_elem_of_In, Hs, Z.ltb_lt in Hb. lia. }
  rewrite rune_chunks_ascii by done. rewrite <-!list_fmap_compose. apply list_fmap_ext. intros i b Hi.
  simpl. unfold rune_fold. rewrite decide_True; [done|]. rewrite Forall_lookup in Hb. apply (Hb i b Hi).
Qed.

Lemma EqualFold_ascii s t : is_ascii s = true → is_ascii t = true → EqualFold s t = true → ToLower s = ToLower t.
Proof.
  intros Hs Ht He%EqualFold_true. rewrite !folded_ascii in He by done. unfold ToLower. by rewrite Hs, Ht, He.
Qed.

(** A migration is checked against the lower-case forms of names and addresses. *)
Definition migrates (m : gmap string User) (records : list PasswordMigrationRecord) : Prop :=
  map_Forall (λ _ u, ascii_user u = true) m ∧ Forall (λ rec, ascii_user (pm_User rec) = true) records.

Definition covers (t : Taken) (m : gmap string User) : Prop :=
  ∀ id u, m !! id = Some u → ToLower (u_Username u) ∈ tk_usernames t ∧ u_ID u ∈ tk_ids t ∧
    ∀ e, u_Email u = Some e → ToLower e ∈ tk_emails t.

Lemma take_user_mono t u v : 
  (ToLower (u_Username u) ∈ tk_usernames t ∧ u_ID u ∈ tk_ids t ∧ ∀ e, u_Email u = Some e → ToLower e ∈ tk_emails t) →
  ToLower (u_Username u) ∈ tk_usernames (take_user t v) ∧ u_ID u ∈ tk_ids (take_user t v) ∧
  ∀ e, u_Email u = Some e → ToLower e ∈ tk_emails (take_user t v).
Proof. unfold take_user. simpl. destruct (u_Email v); set_solver. Qed.

Lemma take_user_self t u :
  ToLower (u_Username u) ∈ tk_usernames (take_user t u) ∧ u_ID u ∈ tk_ids (take_user t u) ∧
  ∀ e, u_Email u = Some e → ToLower e ∈ tk_emails (take_user t u).
Proof. unfold take_user. simpl. split_and!; [set_solver..|]. intros e ->. set_solver. Qed.

Lemma taken_covers `{MapRange} m :
  covers (foldl (λ t ku, take_user t ku.2) {| tk_usernames := ∅; tk_emails := ∅; tk_ids := ∅ |} (range m)) m.
Proof.
  intros id u Hu%elem_of_range. revert Hu. generalize (range m). intros l.
  induction l as [|ku l IH] using rev_ind; [set_solver|]. rewrite foldl_app. simpl.
  intros [Hin|Heq]%elem_of_app; [by apply take_user_mono, IH|].
  apply list_elem_of_singleton in Heq. subst ku. apply take_user_self.
Qed.

Lemma covers_put t m u : covers t m → covers (take_user t u) (<[u_ID u := u]> m).
Proof.
  intros Hc id v. destruct (decide (u_ID u = id)) as [<-|Hne].
  - rewrite lookup_insert_eq. intros [= <-]. apply take_user_self.
  - rewrite lookup_insert_ne by done. intros Hv. by eapply take_user_mono, Hc.
Qed.

Lemma not_taken_no_conflict t m u :
  covers t m → map_Forall (λ _ u, ascii_user u = true) m → ascii_user u = true → ¬ is_taken t u →
  ∀ id v, m !! id = Some v → conflicts v u = false.
Proof.
  intros Hc Hasc Hu Hnt id v Hv. destruct (Hc id v Hv) as (Hn & _ & He). pose proof (Hasc id v Hv) as Hav. simpl in Hav.
  apply andb_true_iff in Hu as [Hun Hue]. apply andb_true_iff in Hav as [Hvn Hve].
  unfold conflicts. apply orb_false_iff. split; apply not_true_is_false; intros Hf; apply Hnt.
  - left. by rewrite <-(EqualFold_ascii _ _ Hvn Hun Hf).
  - right; right. unfold same_email in Hf. destruct (u_Email v) as [ev|]; [|done]. destruct (u_Email u) as [eu|]; [|done].
    rewrite <-(EqualFold_ascii _ _ Hve Hue Hf). by apply He.
Qed.

Lemma migrate_users records : ∀ t r,
  covers t (users r) → migrates (users r) records → users_keyed (users r) → no_twins (users r) →
  check_records t records = Ok () →
  let r' := foldl (λ r rec, put_credential (u_ID (pm_User rec)) (pm_PasswordHash rec) (put_user (pm_User rec) r)) r records in
  users_keyed (users r') ∧ no_twins (users r').
Proof.
  induction records as [|rec records IH]; intros t r Hc [Hasc Hrec] Hk Hn; simpl; [done|].
  apply Forall_cons in Hrec as [Hu Hrec]. case_decide as Ht; [done|]. intros Hok.
  eapply IH; [| |by apply keyed_put| |exact Hok].
  - by apply covers_put.
  - split; [|done]. by apply map_Forall_insert_2.
  - apply twins_put; [done|]. intros id v Hv _. eapply not_taken_no_conflict; eauto.
Qed.

(** What callers respect: [Replace] keeps the user name, as its only caller does, and
    migrations bring ASCII names and addresses to ASCII ones. *)
Definition respects (r : UserRepository) (op : IdentityOp) : Prop :=
  match op with
  | IoReplace _ u => ∀ u0, users r !! u_ID u = Some u0 → u_Username u = u_Username u0
  | IoMigrate _ records => migrates (users r) records
  | _ => True
  end.

Definition accounts_wf (r : UserRepository) : Prop := users_keyed (users r) ∧ no_twins (users r).

Lemma verified_wf r id u now :
  users r !! id = Some u → accounts_wf r →
  users_keyed (<[id := u_verified now u]> (users r)) ∧ no_twins (<[id := u_verified now u]> (users r)).
Proof.
  intros Hu [Hk Hn]. pose proof (Hk id u Hu) as <-. split.
  - by apply (keyed_put _ (u_verified now u)).
  - by eapply (twins_update _ (u_verified now u)).
Qed.

Lemma created_wf `{MapRange} r u : has_conflict (users r) u = false → accounts_wf r →
  users_keyed (<[u_ID u := u]> (users r)) ∧ no_twins (<[u_ID u := u]> (users r)).
Proof.
  intros Hc [Hk Hn]. split; [by apply keyed_put|]. apply twins_put; [done|].
  intros id v Hv _. by eapply has_conflict_false.
Qed.

Lemma replace_wf `{MapRange} r u :
  (∀ u0, users r !! u_ID u = Some u0 → u_Username u = u_Username u0) → accounts_wf r →
  accounts_wf (ReplaceAccount r u).1.
Proof.
  intros Hname [Hk Hn]. unfold ReplaceAccount. destruct (users r !! u_ID u) as [cur|] eqn:Hcur; [|done].
  set (u' := if negb _ then _ else u).
  assert (u_ID u' = u_ID u ∧ u_Username u' = u_Username u ∧ u_Email u' = u_Email u) as (Hid & Hn' & He')
    by (unfold u'; by case_match).
  destruct (existsb _ _) eqn:Hex; [done|]. simpl. split; [by apply keyed_put|].
  apply twins_put; [done|]. intros id v Hv Hne. unfold conflicts. apply orb_false_iff. split.
  - rewrite Hn', (Hname cur eq_refl). pose proof (Hn id (u_ID u) v cur Hv Hcur) as Hc. rewrite Hid in Hne.
    specialize (Hc Hne). unfold conflicts in Hc. by apply orb_false_iff in Hc as [? _].
  - apply not_true_is_false. intros Hs. enough (true = false) by done. rewrite <-Hex. symmetry.
    apply existsb_exists. exists (id, v). split; [by apply list_elem_of_In, elem_of_range|]. simpl.
    rewrite bool_decide_false by done. exact Hs.
Qed.

Lemma resolve_wf `{MapRange} r p now r1 r2 r3 :
  accounts_wf r → accounts_wf (ResolveExternalIdentity r p now r1 r2 r3).1.
Proof.
  intros Hwf. unfold ResolveExternalIdentity, create_external.
  destruct (external r !! _) as [e|] eqn:He.
  { destruct (users r !! ei_UserID e) as [u|] eqn:Hu; [|done]. case_match; [|done]. simpl.
    pose proof (proj1 Hwf _ _ Hu) as Hid. unfold accounts_wf, put_user. simpl. rewrite Hid. by apply verified_wf. }
  case_match eqn:Hfind.
  - destruct p0 as [i [id u]]. destruct (_ && _) in Hfind; [|done].
    apply range_find in Hfind as [Hu _]. pose proof (proj1 Hwf _ _ Hu) as Hid.
    assert (accounts_wf (if ep_EmailVerified p && negb (u_EmailVerified u)
              then put_user (u_verified now u) r else r)) as Hw.
    { case_match; [|done]. unfold accounts_wf, put_user. simpl. rewrite Hid. by apply verified_wf. }
    destruct (ep_EmailVerified p && negb (u_EmailVerified u)); case_match; exact Hw.
  - clear Hfind. destruct (NewExternalUser p false now r1) as [u|]; [|done].
    destruct (if has_conflict (users r) u then _ else _) as [u'|]; [|done].
    destruct (has_conflict (users r) u') eqn:Hc; [done|]. case_decide as Hid; [done|].
    case_match; simpl; [unfold accounts_wf; simpl; by apply created_wf|].
    unfold accounts_wf. simpl. rewrite delete_insert_id; [done|]. destruct (users r !! u_ID u'); [by destruct Hid|done].
Qed.

Lemma identity_step_wf r op : respects r op → accounts_wf r → accounts_wf (identity_step r op).1.
Proof.
  intros Hop Hwf. destruct op as [order t|order h now|order t|order h u now|order u|order u h|order l|order u|u now|u h|
    u n t|u|order p now r1 r2 r3|order u e]; simpl in *.
  - unfold SavePasswordReset. by branches.
  - unfold ConsumePasswordReset. by branches.
  - unfold SaveEmailVerification. by branches.
  - unfold VerifyEmail. branches; try done. by apply verified_wf.
  - unfold CreateAccount. branches; try done. by apply (@created_wf order).
  - unfold CreateWithPassword. branches; try done. by apply (@created_wf order).
  - unfold CreateWithMigratedPasswords. case_match eqn:Hch; [|done]. destruct a. destruct Hwf.
    eapply migrate_users; [apply taken_covers|done..].
  - by apply replace_wf.
  - unfold SetEmailVerified. branches; try done. by apply verified_wf.
  - unfold SetPassword. by branches.
  - unfold RecordPasswordFailure. by branches.
  - unfold RecordPasswordSuccess. by branches.
  - by apply resolve_wf.
  - unfold DeleteExternalIdentity. by branches.
Qed.

(** A list of pairwise exclusive candidates has one first match, whatever its order. *)
Lemma find_unique {A} (P : A → Prop) `{∀ x, Decision (P x)} l l' :
  l ≡ₚ l' → (∀ x y, x ∈ l → y ∈ l → P x → P y → x = y) →
  snd <$> list_find P l = snd <$> list_find P l'.
Proof.
  intros Hl Hu. destruct (list_find P l) as [[i x]|] eqn:E1, (list_find P l') as [[j y]|] eqn:E2; simpl; [|exfalso..|done].
  - apply list_find_lookup in E1 as [Hx Px], E2 as [Hy Py]. f_equal. apply list_elem_of_lookup_2 in Hx, Hy.
    apply Hu; [done| |done..]. by rewrite Hl.
  - apply list_find_lookup in E1 as [Hx Px]. apply list_elem_of_lookup_2 in Hx. rewrite Hl in Hx.
    by eapply list_find_None_elem in E2.
  - apply list_find_lookup in E2 as [Hy Py]. apply list_elem_of_lookup_2 in Hy. rewrite <-Hl in Hy.
    by eapply list_find_None_elem in E1.
Qed.


(** ** Tokens sent by e-mail *)

(** Tokens are filed under their hash. *)
Definition resets_keyed (r : UserRepository) : Prop := ∀ k t, passwordResets r !! k = Some t → pr_Hash t = k.
Definition verifies_keyed (r : UserRepository) : Prop := ∀ k t, emailVerifies r !! k = Some t → ev_Hash t = k.

Definition reset_win (hash : string) (op : IdentityOp) (ok : bool) : bool :=
  match op with IoConsumePasswordReset _ h _ => bool_decide (h = hash) && ok | _ => false end.
Definition saves_reset (hash : string) (op : IdentityOp) : Prop :=
  match op with IoSavePasswordReset _ t => pr_Hash t = hash | _ => False end.

Lemma other_resets r op :
  match op with IoSavePasswordReset _ _ | IoConsumePasswordReset _ _ _ => True
  | _ => passwordResets (identity_step r op).1 = passwordResets r end.
Proof.
  destruct op as [order t|order h now|order t|order h u now|order u|order u h|order l|order u|u now|u h|
    u n t|u|order p now r1 r2 r3|order u e]; simpl; try done.
  - unfold SaveEmailVerification. by branches.
  - unfold VerifyEmail. by branches.
  - unfold CreateAccount. by branches.
  - unfold CreateWithPassword. by branches.
  - unfold CreateWithMigratedPasswords. case_match; [|done]. simpl. clear. revert r.
    induction l as [|rec l IH]; intros r; simpl; [done|]. by rewrite IH.
  - unfold ReplaceAccount. by branches.
  - unfold SetEmailVerified. by branches.
  - unfold SetPassword. by branches.
  - unfold RecordPasswordFailure. by branches.
  - unfold RecordPasswordSuccess. by branches.
  - unfold ResolveExternalIdentity, create_external. by repeat case_match.
  - unfold DeleteExternalIdentity. by branches.
Qed.

Lemma save_reset_keyed `{MapRange} r t : resets_keyed r → resets_keyed (SavePasswordReset r t).1.
Proof.
  intros Hk. unfold SavePasswordReset. case_decide; [done|]. intros k t'. simpl.
  destruct (decide (pr_Hash t = k)) as [<-|Hne]; [rewrite lookup_insert_eq; by intros [= <-]|].
  rewrite lookup_insert_ne by done. intros [Hk' _]%range_delete_lookup. by apply Hk.
Qed.

Lemma consume_reset_spec `{MapRange} r h now r' u :
  resets_keyed r → ConsumePasswordReset r h now = (r', Ok u) →
  ∃ t, passwordResets r !! h = Some t ∧ pr_UserID t = u ∧ now < pr_ExpiresAt t ∧
       r' = set_passwordResets (delete h (passwordResets r)) r.
Proof.
  intros Hk. unfold ConsumePasswordReset. case_match eqn:Hf; [|done]. destruct p as [i [k t]].
  apply range_find in Hf as [Ht [Hh Hexp]]. simpl in *. pose proof (Hk k t Ht) as Hkt. intros [= <- <-].
  exists t. apply After_true in Hexp. subst. done.
Qed.

Lemma resets_step_keyed r op : resets_keyed r → resets_keyed (identity_step r op).1.
Proof.
  intros Hk. pose proof (other_resets r op) as Ho. destruct op; try (intros k x; rewrite Ho; apply Hk); simpl.
  - by apply save_reset_keyed.
  - destruct (ConsumePasswordReset r hash now) as [r' [u|e]] eqn:E; simpl.
    + apply consume_reset_spec in E as (t & _ & _ & _ & ->); [|done]. intros k t'. simpl.
      intros [_ Ht']%lookup_delete_Some. by apply Hk.
    + unfold ConsumePasswordReset in E. by branches.
Qed.

Lemma reset_spent_stays r op h : ¬ saves_reset h op → resets_keyed r →
  passwordResets r !! h = None → passwordResets (identity_step r op).1 !! h = None.
Proof.
  intros Hop Hk Hn. pose proof (other_resets r op) as Ho. destruct op; try (by rewrite Ho); simpl in *.
  - unfold SavePasswordReset. case_decide; [done|]. simpl. rewrite lookup_insert_ne by done.
    by apply range_delete_None.
  - destruct (ConsumePasswordReset r hash now) as [r' [u|e]] eqn:E; simpl.
    + apply consume_reset_spec in E as (t & _ & _ & _ & ->); [|done]. simpl. apply lookup_delete_None. by right.
    + unfold ConsumePasswordReset in E. by branches.
Qed.

(** A password reset token works once, and only the newest one. In every execution
    that saves no token of the same hash again, at most one use of a token succeeds;
    and once a token is saved for a user, the user's earlier tokens are refused. *)
Theorem reset_token_single_use h r ops :
  resets_keyed r → Forall (λ op, ¬ saves_reset h op) ops →
  (wins identity_step (reset_win h) r ops ≤ 1)%nat ∧
  ∀ (order order' : MapRange) t r1 h' now r2,
    @SavePasswordReset order r t = (r1, Ok ()) →
    @ConsumePasswordReset order' r1 h' now = (r2, Ok (pr_UserID t)) → h' = pr_Hash t ∧ now < pr_ExpiresAt t.
Proof.
  intros Hk Hops. split.
  - apply (wins_once_ops identity_step (reset_win h)
      (λ s, resets_keyed s ∧ passwordResets s !! h = None) resets_keyed (λ op, ¬ saves_reset h op)); [..|done|done].
    + intros s o _. apply resets_step_keyed.
    + intros s o Ho [Hs Hn]. split; [by apply resets_step_keyed|by apply reset_spent_stays].
    + intros s o Ho [Hs Hn]. destruct o; try done. simpl. case_bool_decide; [|done]. subst. simpl.
      destruct (ConsumePasswordReset s h now) as [r' [u|e]] eqn:E; [|done].
      apply consume_reset_spec in E as (t & Ht & _); [congruence|done].
    + intros s o Ho Hs. destruct o; try done. simpl. case_bool_decide; [|done]. subst. simpl.
      destruct (ConsumePasswordReset s h now) as [r' [u|e]] eqn:E; [|done]. intros _.
      pose proof (resets_step_keyed s (IoConsumePasswordReset order h now) Hs) as Hs'. simpl in Hs'. rewrite E in Hs'.
      split; [done|]. apply consume_reset_spec in E as (t & _ & _ & _ & ->); [|done]. apply lookup_delete_eq.
  - intros o1 o2 t r1 h' now r2 Hsave Hcons. pose proof (@save_reset_keyed o1 r t Hk) as Hk1. rewrite Hsave in Hk1.
    apply consume_reset_spec in Hcons as (t' & Ht' & Hu & Hexp & _); [|done].
    unfold SavePasswordReset in Hsave. case_decide; [done|]. injection Hsave as <-. simpl in Ht'.
    destruct (decide (pr_Hash t = h')) as [<-|Hne].
    + rewrite lookup_insert_eq in Ht'. by injection Ht' as <-.
    + rewrite lookup_insert_ne in Ht' by done. apply range_delete_lookup in Ht' as [_ Hn]. by destruct Hn.
Qed.

(** The token of that hash verifies the user's current address. *)
Definition verifiable (r : UserRepository) (hash userID : string) (now : Time) (user : User) : Prop :=
  ∃ token, emailVerifies r !! hash = Some token ∧ ev_UserID token = userID ∧ now < ev_ExpiresAt token ∧
    users r !! userID = Some user ∧ same_email (u_Email user) (Some (ev_Email token)) = true.

(** Verifying an address is exact. It succeeds when, and only when, a token of that
    hash was issued to that very user, is unexpired, and is for the user's current
    address; it then marks that address verified and consumes the token, changing
    nothing else; otherwise it changes nothing, so a token presented by another user
    or after a change of address is not consumed. *)
Theorem email_verification_exact `{MapRange} r hash userID now :
  verifies_keyed r →
  let '(r', result) := VerifyEmail r hash userID now in
  match result with
  | Ok id => id = userID ∧ ∃ user, verifiable r hash userID now user ∧
      r' = set_users (<[userID := u_verified now user]> (users r))
             (set_emailVerifies (delete hash (emailVerifies r)) r)
  | Err _ => r' = r ∧ ∀ user, ¬ verifiable r hash userID now user
  end.
Proof.
  intros Hk. unfold VerifyEmail. destruct (list_find _ _) as [[i [k t]]|] eqn:Hf.
  - apply range_find in Hf as [Ht Hp]. simpl in Hp. apply Decidable.not_or in Hp as [Hh Hp].
    apply Decidable.not_or in Hp as [Hid Ha]. apply dec_stable in Hh, Hid.
    apply not_false_is_true, After_true in Ha. pose proof (Hk _ _ Ht) as Hkt. subst k hash userID.
    destruct (users r !! ev_UserID t) as [u|] eqn:Hu.
    + destruct (same_email (u_Email u) (Some (ev_Email t))) eqn:Hs; cbn [negb].
      * split; [done|]. exists u. split; [|done]. exists t. by split_and!.
      * split; [done|]. intros user (t' & Ht' & _ & _ & Hu' & Hs'). simplify_eq. congruence.
    + split; [done|]. intros user (t' & Ht' & _ & _ & Hu' & _). simplify_eq.
  - split; [done|]. intros user (t & Ht & Hid & Hexp & _). apply (range_find_None _ _ _ _ Hf Ht). simpl.
    intros [Hh|[?|Ha]]; [by apply Hh, Hk|done|]. apply After_false in Ha. lia.
Qed.

(** ** No user loses the last way to sign in *)

Definition has_login (r : UserRepository) (id : string) : Prop :=
  is_Some (credentials r !! id) ∨ ∃ k e, external r !! k = Some e ∧ ei_UserID e = id.

(** Nothing removes a credential. *)
Lemma credentials_stay r op id : is_Some (credentials r !! id) → is_Some (credentials (identity_step r op).1 !! id).
Proof.
  intros Hc. assert (∀ k v, is_Some (<[k:=v]> (credentials r) !! id)) as Hins.
  { intros k v. rewrite lookup_insert. case_decide; [eauto|done]. }
  destruct op as [order t|order h now|order t|order h u now|order u|order u h|order l|order u|u now|u h|
    u n t|u|order p now r1 r2 r3|order u e]; simpl.
  - unfold SavePasswordReset. by branches.
  - unfold ConsumePasswordReset. by branches.
  - unfold SaveEmailVerification. by branches.
  - unfold VerifyEmail. by branches.
  - unfold CreateAccount. by branches.
  - unfold CreateWithPassword. branches; try done; apply Hins.
  - unfold CreateWithMigratedPasswords. destruct (check_records _ _); [|done]. simpl. clear Hins. revert r Hc.
    induction l as [|rec l IH]; intros r Hc; simpl; [done|]. apply IH.
    simpl. rewrite lookup_insert. case_decide; [eauto|done].
  - unfold ReplaceAccount. by branches.
  - unfold SetEmailVerified. by branches.
  - unfold SetPassword. branches; try done; apply Hins.
  - unfold RecordPasswordFailure. branches; try done; apply Hins.
  - unfold RecordPasswordSuccess. branches; try done; apply Hins.
  - unfold ResolveExternalIdentity, create_external. by repeat case_match.
  - unfold DeleteExternalIdentity. by branches.
Qed.

(** The external identities of a user: only [ResolveExternalIdentity] and
    [DeleteExternalIdentity] touch the table, and only the latter removes from it. *)
Lemma other_external r op :
  match op with IoResolve _ _ _ _ _ _ | IoDeleteExternal _ _ _ => True
  | _ => external (identity_step r op).1 = external r end.
Proof.
  destruct op as [order t|order h now|order t|order h u now|order u|order u h|order l|order u|u now|u h|
    u n t|u|order p now r1 r2 r3|order u e]; simpl; try done.
  - unfold SavePasswordReset. by branches.
  - unfold ConsumePasswordReset. by branches.
  - unfold SaveEmailVerification. by branches.
  - unfold VerifyEmail. by branches.
  - unfold CreateAccount. by branches.
  - unfold CreateWithPassword. by branches.
  - unfold CreateWithMigratedPasswords. destruct (check_records _ _); [|done]. simpl. revert r.
    induction l as [|rec l IH]; intros r; simpl; [done|]. by rewrite IH.
  - unfold ReplaceAccount. by branches.
  - unfold SetEmailVerified. by branches.
  - unfold SetPassword. by branches.
  - unfold RecordPasswordFailure. by branches.
  - unfold RecordPasswordSuccess. by branches.
Qed.

Lemma resolve_external `{MapRange} r p now r1 r2 r3 k e :
  external r !! k = Some e →
  ∃ e', external (ResolveExternalIdentity r p now r1 r2 r3).1 !! k = Some e' ∧ ei_UserID e' = ei_UserID e.
Proof.
  intros He. assert (∀ m : UserRepository, external m = external r → ∃ e', external m !! k = Some e' ∧ ei_UserID e' = ei_UserID e)
    as Hsame by (intros m ->; eauto).
  assert (∀ v, external r !! external_key p = None → ∃ e', <[external_key p := v]> (external r) !! k = Some e' ∧ ei_UserID e' = ei_UserID e) as Hnew.
  { intros v Hn. exists e. split; [|done]. rewrite lookup_insert_ne; congruence. }
  unfold ResolveExternalIdentity, create_external. destruct (external r !! external_key p) as [e0|] eqn:E0.
  - destruct (users r !! ei_UserID e0); [|by apply Hsame].
    assert (∃ e', <[external_key p := refreshed p now e0]> (external r) !! k = Some e' ∧ ei_UserID e' = ei_UserID e) as Hup.
    { destruct (decide (external_key p = k)) as [<-|Hne].
      - rewrite lookup_insert_eq. eexists. split; [done|]. simpl. congruence.
      - rewrite lookup_insert_ne by done. eauto. }
    case_match; exact Hup.
  - repeat case_match; simpl; auto.
Qed.

Lemma delete_external_keeps `{MapRange} r u eid id :
  has_login r id → has_login (DeleteExternalIdentity r u eid).1 id.
Proof.
  intros [Hc|(k & e & He & Hid)]; unfold DeleteExternalIdentity; (case_decide; [by (left + (right; eauto))|]);
    (destruct (list_find _ _) as [[i [key te]]|] eqn:Hf; [|by (left + (right; eauto))]);
    (case_decide; [by (left + (right; eauto))|]); (case_decide as Halt; [by (left + (right; eauto))|]); simpl.
  { by left. }
  apply range_find in Hf as [Ht [_ Htu]]. simpl in *.
  destruct (decide (key = k)) as [->|Hne].
  - assert (te = e) as -> by congruence. assert (u = id) as -> by congruence.
    destruct (decide (is_Some (credentials r !! id))) as [Hcr|_]; [by left|].
    destruct (filter (λ ke : string * ExternalIdentity, ke.1 ≠ k ∧ ei_UserID ke.2 = id) (range (external r)))
      as [|[k' e'] rest] eqn:Hfil; [done|].
    assert ((k', e') ∈ filter (λ ke : string * ExternalIdentity, ke.1 ≠ k ∧ ei_UserID ke.2 = id) (range (external r)))
      as Hin by (rewrite Hfil; by left).
    apply list_elem_of_filter in Hin as [[Hk' Hu'] Hin%elem_of_range]. right. exists k', e'. simpl in *.
    by rewrite lookup_delete_ne by done.
  - right. exists k, e. simpl. by rewrite lookup_delete_ne.
Qed.

(** C31. Nobody is locked out. In every execution, whatever the interleaving of sign-ins,
    password changes and removals of external identities, a user who can sign in
    some way, with a password or through a provider, still can at the end. *)
Theorem login_never_lost r id ops : has_login r id → has_login (run identity_step r ops).1 id.
Proof.
  apply (run_invariant identity_step (λ r, has_login r id)). intros s op Hl.
  destruct Hl as [Hc|(k & e & He & Hid)] eqn:El; [left; by apply credentials_stay|]. clear El.
  assert (has_login s id) as Hs by (right; eauto).
  pose proof (other_external s op) as Ho.
  destruct op; try (right; exists k, e; rewrite Ho; done); simpl.
  - destruct (resolve_external s profile now rndUser rndUser2 rndID k e He) as (e' & He' & Hu).
    right. exists k, e'. split; [done|congruence].
  - by apply delete_external_keeps.
Qed.
End Step.

(** * Names of external users

    Every external profile gets an acceptable user name: the name derived from a
    provider's user name, whatever it is, passes the check on user names. *)
Definition username_byte (b : Z) : bool := username_rune b.

Lemma username_byte_range b : username_byte b = true → b = 45 ∨ b = 46 ∨ b = 95 ∨ 48 ≤ b ≤ 57 ∨ 97 ≤ b ≤ 122.
Proof.
  unfold username_byte, username_rune, is_alnum_lower, is_lower, is_digit, in_range, is_one_of.
  rewrite !orb_true_iff, !bool_decide_eq_true, Contains_true.
  change (bytes "._-") with [46; 95; 45]. rewrite !elem_of_cons. intros [[?|?]|Hin]; [lia..|].
  destruct Hin as [?|[?|[?|H%not_elem_of_nil]]]; [lia..|done].
Qed.

(** A chunk of a low rune is the rune's byte. *)
Lemma rune_chunks_low l : ∀ skip c, Forall is_byte l → c ∈ rune_chunks skip l → c.1 < 128 → c.2 = [c.1].
Proof.
  induction l as [|b l IH]; intros skip c Hl; [by intros ?%not_elem_of_nil|].
  pose proof (Forall_inv_tail Hl) as Hl'. cbn [rune_chunks]. destruct skip as [|k]; [|by apply IH].
  destruct (DecodeRune (b :: l)) as [r w] eqn:E. intros [->|Hc]%elem_of_cons Hr; [|by eapply IH].
  by apply DecodeRune_low in E.
Qed.

Lemma replace_unsupported_class l : ∀ in_run,
  (∀ c, c ∈ l → c.1 < 128 → c.2 = [c.1]) → Forall (λ b, username_byte b = true) (replace_unsupported in_run l).
Proof.
  induction l as [|c l IH]; intros in_run Hl; cbn [replace_unsupported]; [constructor|].
  assert (∀ c, c ∈ l → c.1 < 128 → c.2 = [c.1]) as Hl' by (intros; apply Hl; [by right|done]).
  destruct (username_rune c.1) eqn:E.
  - rewrite Hl; [constructor; [done|by apply IH]|by left|]. pose proof (username_byte_range c.1 E). lia.
  - destruct in_run; [by apply IH|]. constructor; [done|by apply IH].
Qed.

(** ** Trimming *)

Lemma drop_while_in_suffix cut l : ∃ pre, l = pre ++ drop_while_in cut l.
Proof.
  induction l as [|c l [pre IH]]; [by exists []|]. simpl. case_decide; [|by exists []].
  exists (c :: pre). simpl. by f_equal.
Qed.

Lemma drop_while_in_head cut l c rest : drop_while_in cut l = c :: rest → c ∉ cut.
Proof. induction l as [|a l IH]; simpl; [done|]. case_decide; [done|]. by intros [= -> ->]. Qed.

Lemma trimmed_list cut l :
  let e := reverse (drop_while_in cut (reverse (drop_while_in cut l))) in
  (∀ P : Ascii.ascii → Prop, Forall P l → Forall P e) ∧ ∀ c rest, e = c :: rest → c ∉ cut.
Proof.
  intros e. destruct (drop_while_in_suffix cut l) as [pre Hpre].
  destruct (drop_while_in_suffix cut (reverse (drop_while_in cut l))) as [post Hpost].
  assert (drop_while_in cut l = e ++ reverse post) as He.
  { unfold e. rewrite <-reverse_app, <-Hpost. by rewrite reverse_involutive. }
  split.
  - intros P HP. rewrite Hpre, He in HP. by apply Forall_app in HP as [_ [? _]%Forall_app].
  - intros c rest Hc. rewrite Hc in He. simpl in He. by eapply drop_while_in_head.
Qed.

Definition name_ok (s : string) : Prop := Forall (λ b, username_byte b = true) (bytes s).
Definition head_ok (s : string) : Prop := ∃ b rest, bytes s = b :: rest ∧ is_alnum_lower b = true.

Lemma Trim_name s : name_ok s → name_ok (Trim s "._-") ∧ (Trim s "._-" ≠ ""%string → head_ok (Trim s "._-")).
Proof.
  unfold name_ok, head_ok, Trim, bytes. intros Hs%Forall_fmap.
  destruct (trimmed_list (list_ascii_of_string "._-") (list_ascii_of_string s)) as [HF Hhead].
  set (e := reverse _) in *. rewrite String.list_ascii_of_string_of_list_ascii.
  split; [by apply Forall_fmap, HF|]. destruct e as [|c rest] eqn:E; [done|]. intros _.
  exists (byte_val c), (byte_val <$> rest). split; [done|].
  specialize (HF _ Hs). rewrite Forall_cons in HF. destruct HF as [Hc _]. specialize (Hhead c rest eq_refl).
  unfold username_byte, username_rune in Hc. simpl in Hc. apply orb_true_iff in Hc as [Hc|Hc]; [done|].
  exfalso. apply Hhead. unfold is_one_of in Hc. apply Contains_true in Hc. unfold bytes in Hc.
  apply list_elem_of_fmap in Hc as (d & Hd & Hin). 
  assert (c = d) as -> by (rewrite <-(chr_byte_val c), <-(chr_byte_val d); congruence). done.
Qed.

(** ** Lengths and the rest of the construction *)

Lemma hex_digit_name v : 0 ≤ v < 16 → username_byte (hex_digit v) = true ∧ is_byte (hex_digit v).
Proof.
  intros Hv. unfold username_byte, username_rune, is_alnum_lower, is_lower, is_digit, in_range, hex_digit, is_byte.
  case_decide; split; try lia; repeat case_bool_decide; try done; lia.
Qed.

Lemma hex_name l : Forall is_byte l → name_ok (hex l) ∧ length (bytes (hex l)) = (2 * length l)%nat.
Proof.
  intros Hl. unfold name_ok, hex.
  assert (Forall (λ d, username_byte d = true ∧ is_byte d) (l ≫= λ b, [hex_digit (b / 16); hex_digit (b mod 16)])) as HF.
  { apply Forall_bind. eapply Forall_impl; [exact Hl|]. unfold is_byte at 1. simpl. intros b Hb.
    constructor; [|constructor; [|constructor]]; apply hex_digit_name; [|apply Z.mod_pos_bound; lia].
    split; [apply Z.div_pos; lia|apply Z.div_lt_upper_bound; lia]. }
  rewrite bytes_of_bytes by (eapply Forall_impl; [exact HF|]; naive_solver).
  split; [eapply Forall_impl; [exact HF|]; naive_solver|].
  clear. induction l as [|b l IH]; [done|]. rewrite bind_cons, length_app, IH. simpl. lia.
Qed.

Lemma head_app s t : head_ok s → head_ok (s +:+ t).
Proof. intros (b & rest & E & H). exists b, (rest ++ bytes t). by rewrite bytes_app, E. Qed.

Lemma truncate_name n s : name_ok s → head_ok s →
  name_ok (truncate (S n) s) ∧ head_ok (truncate (S n) s) ∧ (length (bytes (truncate (S n) s)) ≤ S n)%nat.
Proof.
  intros Hs (b & rest & E & Hb). unfold truncate. rewrite <-length_bytes. case_decide as Hl.
  - unfold name_ok, head_ok. rewrite bytes_of_bytes by (apply Forall_take, bytes_range).
    split; [by apply Forall_take|]. split; [exists b, (take n rest); by rewrite E|]. rewrite length_take. lia.
  - split; [done|]. split; [by exists b, rest|]. lia.
Qed.

Lemma pad_name fuel : ∀ s, name_ok s → head_ok s →
  name_ok (pad_username fuel s) ∧ head_ok (pad_username fuel s) ∧
  (Nat.min 3 (length (bytes s) + fuel) ≤ length (bytes (pad_username fuel s)) ≤ Nat.max 3 (length (bytes s)))%nat.
Proof.
  induction fuel as [|fuel IH]; intros s Hs Hh; cbn [pad_username]; [split_and!; [done|done|lia..]|].
  rewrite <-length_bytes. case_decide as Hl; [|split_and!; [done|done|lia..]].
  destruct (IH (s +:+ "0")) as (H1 & H2 & H3 & H4).
  - unfold name_ok. rewrite bytes_app. apply Forall_app. split; [done|]. by repeat constructor.
  - by apply head_app.
  - rewrite bytes_app, length_app in H3, H4. change (length (bytes "0")) with 1%nat in *.
    split_and!; [done|done|lia..].
Qed.

Section Names.
Context `{UnicodeTables}.

Lemma external_username_shape profile disambiguate :
  let username := external_username profile disambiguate in
  name_ok username ∧ head_ok username ∧ (3 ≤ length (bytes username) ≤ 63)%nat.
Proof.
  unfold external_username. set (lower := ToLower _).
  set (kept := of_bytes (replace_unsupported false (chunks lower))).
  assert (name_ok kept) as Hkept.
  { unfold name_ok, kept.
    assert (Forall (λ b, username_byte b = true) (replace_unsupported false (chunks lower))) as HF.
    { apply replace_unsupported_class. intros c Hc. eapply rune_chunks_low; [apply bytes_range|exact Hc]. }
    rewrite bytes_of_bytes; [done|]. eapply Forall_impl; [exact HF|]. simpl.
    intros b Hb%username_byte_range. unfold is_byte. lia. }
  destruct (Trim_name kept Hkept) as [Ht Hth]. set (trimmed := Trim kept "._-") in *.
  set (named := if decide (trimmed = ""%string) then "user"%string else trimmed).
  assert (name_ok named ∧ head_ok named) as [Hn Hnh].
  { unfold named. case_decide; [|by split; [|apply Hth]]. split; [by repeat constructor|]. by eexists _, _. }
  destruct (truncate_name 53 named Hn Hnh) as (H1 & H2 & H3). set (short := truncate 54 named) in *.
  set (final := if disambiguate then _ else short).
  assert (name_ok final ∧ head_ok final ∧ (length (bytes final) ≤ 63)%nat) as (Hf & Hfh & Hfl).
  { unfold final. destruct disambiguate; [|split_and!; [done|done|lia]].
    match goal with |- context [hex ?l] => destruct (hex_name l) as [Hx Hxl]; [apply Forall_take, sha256_bytes|];
      set (suffix := hex l) in * end.
    rewrite length_take in Hxl. split; [|split; [by apply head_app|]].
    - unfold name_ok. rewrite !bytes_app. apply Forall_app. split; [done|]. change (bytes "-") with [45].
      apply Forall_app. split; [by apply Forall_singleton|exact Hx].
    - rewrite !bytes_app, !length_app, Hxl. change (length (bytes "-")) with 1%nat. lia. }
  destruct (pad_name 3 final Hf Hfh) as (P1 & P2 & P3 & P4). split; [done|]. split; [done|].
  destruct Hfh as (b & rest & E & _).
  assert (1 ≤ length (bytes final))%nat by (rewrite E; cbn [length]; lia).
  clearbody final. lia.
Qed.

Lemma name_fixed s : name_ok s → ToLower (TrimSpace s) = s.
Proof.
  intros Hs. assert (Forall (λ b, 33 ≤ b < 127 ∧ ascii_lower b = b) (bytes s)) as Hb.
  { eapply Forall_impl; [exact Hs|]. simpl. intros b Hb%username_byte_range. split; [lia|].
    unfold ascii_lower. rewrite decide_False; [done|]. lia. }
  rewrite TrimSpace_id by (eapply Forall_impl; [exact Hb|]; naive_solver). unfold ToLower.
  replace (is_ascii s) with true.
  - transitivity (of_bytes (bytes s)); [|apply of_bytes_bytes]. f_equal.
    transitivity (id <$> bytes s); [|apply list_fmap_id]. apply list_fmap_ext. intros i b Hi.
    rewrite Forall_lookup in Hb. by destruct (Hb i b Hi).
  - symmetry. unfold is_ascii. apply forallb_forall. intros b Hin%list_elem_of_In. rewrite Forall_forall in Hb.
    apply Z.ltb_lt. destruct (Hb b Hin). lia.
Qed.

(** Every provider profile yields a valid user name. Whatever bytes a provider
    sends, the name derived from them is 3 to 63 characters long, is left as it is
    by the normalisation of new users and passes their check; so only a missing
    subject, a bad address or a bad display name can refuse a new external user. *)
Theorem external_username_valid profile disambiguate :
  let username := external_username profile disambiguate in
  ToLower (TrimSpace username) = username ∧ usernamePattern username = true ∧ 3 ≤ len username ≤ 63 ∧
  name_ok username.
Proof.
  intros username. destruct (external_username_shape profile disambiguate) as (Hn & (b & rest & E & Hb) & Hl).
  fold username in Hn, E, Hl. split; [by apply name_fixed|]. rewrite <-length_bytes. split; [|split; [lia|done]].
  unfold usernamePattern, match_head_tail. rewrite E, Hb. rewrite E in Hl. simpl in Hl. simpl.
  unfold name_ok in Hn. rewrite E, Forall_cons in Hn. destruct Hn as [_ Hn].
  apply andb_true_iff. split; [|apply bool_decide_eq_true; lia].
  apply forallb_forall. intros x Hx%list_elem_of_In. rewrite Forall_forall in Hn. by apply Hn.
Qed.
End Names.
