(* ===== verification/Passwords.v ===== *)
(** Passwords, registration, e-mail verification and password migration:
    [internal/identity/password.go], [registration.go], [email_verification.go]
    and [password_migration.go]. Argon2 is a parameter. *)
From S2P Require Import Prelude GoStrings GoCrypto Identity IdentityProps.
Local Open Scope Z_scope.

(** [golang.org/x/crypto/argon2.IDKey], of the password, the salt, the time, memory,
    threads and length parameters: a key of the length asked for. *)
Class Argon2 := {
  argon2_IDKey : list Z → list Z → Z → Z → Z → Z → list Z;
  argon2_length : ∀ password salt time memory threads keyLen,
    0 ≤ keyLen → Z.of_nat (length (argon2_IDKey password salt time memory threads keyLen)) = keyLen;
  argon2_bytes : ∀ password salt time memory threads keyLen,
    Forall is_byte (argon2_IDKey password salt time memory threads keyLen);
}.

(** [argon2.Version]. *)
Definition argon2_Version : Z := 19.

(** [internal/identity/password.go:27-33] parameters *)
Definition passwordMemory : Z := 64 * 1024.
Definition passwordTime : Z := 3.
Definition passwordThreads : Z := 4.
Definition passwordKeyLen : Z := 32.

(** ** Stored hashes *)

(** [fmt.Sscanf(s, "v=%d", &version)]: the literal, spaces, a sign and the longest
    run of digits; what follows is ignored. *)
Fixpoint digit_prefix (l : list Z) : list Z :=
  match l with
  | b :: rest => if is_digit b then b :: digit_prefix rest else []
  | [] => []
  end.
Fixpoint skip_space (l : list (Z * list Z)) : option (list Z) :=
  match l with
  | [] => Some []
  | c :: rest => if decide (c.1 = 10) then None else if IsSpace c.1 then skip_space rest else Some (concat l.*2)
  end.
Definition scan_version (s : string) : option Z :=
  rest ← TrimPrefix_opt "v=" s;
  l ← skip_space (chunks rest);
  let '(sign, l) := match l with 45 :: l' => ([45], l') | 43 :: l' => ([43], l') | _ => ([], l) end in
  match digit_prefix l with
  | [] => None
  | ds => ParseInt (of_bytes (sign ++ ds)) 64
  end.

Section Passwords.
Context `{Argon2}.

(** [internal/identity/password.go:210-225] hashPassword: [rnd] is the salt read. *)
Definition hashPassword (password : string) (rnd : Entropy) : Res identityError string :=
  match rnd with
  | None => Err IdentityRandomFailure
  | Some salt =>
      let key := argon2_IDKey (bytes password) salt passwordTime passwordMemory passwordThreads passwordKeyLen in
      Ok ("$argon2id$v=" +:+ FormatInt argon2_Version +:+ "$m=" +:+ FormatInt passwordMemory +:+
          ",t=" +:+ FormatInt passwordTime +:+ ",p=" +:+ FormatInt passwordThreads +:+ "$" +:+
          RawStdEncoding_EncodeToString salt +:+ "$" +:+ RawStdEncoding_EncodeToString key)
  end.

(** [internal/identity/password.go:227-232] validateAndHashPassword *)
Definition validateAndHashPassword (password : string) (rnd : Entropy) : Res identityError string :=
  if decide (len password < 12 ∨ len password > 1024) then Err ErrPasswordLength else hashPassword password rnd.

(** [internal/identity/password.go:274-284] parseArgon2Parameter *)
Definition parseArgon2Parameter (value name : string) : Res identityError Z :=
  let prefix := name +:+ "=" in
  if negb (HasPrefix value prefix) then Err ErrStoredHash
  else match ParseUint (TrimPrefix value prefix) 32 with
  | None => Err ErrStoredHash
  | Some parsed => if decide (parsed = 0) then Err ErrStoredHash else Ok parsed
  end.

(** [internal/identity/password.go:243-258] verifyPassword, the parameters *)
Definition parse_parameters (parameters : list string) : Res identityError (Z * Z * Z) :=
  match parameters with
  | [m; t; p] =>
      match parseArgon2Parameter m "m" with
      | Err e => Err e
      | Ok memory =>
          match parseArgon2Parameter t "t" with
          | Err e => Err e
          | Ok iterations =>
              match parseArgon2Parameter p "p" with
              | Err e => Err e
              | Ok threads => if decide (threads > 255) then Err ErrStoredHash else Ok (memory, iterations, threads)
              end
          end
      end
  | _ => Err ErrStoredHash
  end.

(** [internal/identity/password.go:234-272] verifyPassword *)
Definition verifyPassword (encoded password : string) : Res identityError bool :=
  match Split encoded "$"%char with
  | [_; algorithm; version; parameters; salt; key] =>
      if decide (algorithm ≠ "argon2id"%string) then Err ErrStoredHash
      else if decide (scan_version version ≠ Some argon2_Version) then Err ErrStoredHash
      else match parse_parameters (Split parameters ","%char) with
      | Err e => Err e
      | Ok (memory, iterations, threads) =>
          match RawStdEncoding_DecodeString salt with
          | None => Err ErrStoredHash
          | Some salt =>
              if decide (length salt < 8)%nat then Err ErrStoredHash
              else match RawStdEncoding_DecodeString key with
              | None => Err ErrStoredHash
              | Some expected =>
                  if decide (length expected < 16)%nat then Err ErrStoredHash
                  else if decide (memory > 256 * 1024 ∨ iterations > 10 ∨ threads = 0) then Err ErrStoredHash
                  else Ok (bool_decide (argon2_IDKey (bytes password) salt iterations memory threads
                                          (Z.of_nat (length expected)) = expected))
              end
          end
      end
  | _ => Err ErrStoredHash
  end.

(** [internal/identity/password_migration.go:15] PasswordMigrationSpecusSHA256 *)
Definition PasswordMigrationSpecusSHA256 : string := "specus_sha256".

(** The instant [time.Unix(sec, 0)]. *)
Definition of_unix (sec : Z) : Time := (sec + unix_epoch) * Second.

(** [internal/identity/password.go:187-208] verifyMigratedPassword *)
Definition verifyMigratedPassword (encoded password : string) (now : Time) : Res identityError bool :=
  match Split encoded "$"%char with
  | [empty; legacy; algorithm; expiry; digest] =>
      if decide (empty ≠ ""%string ∨ legacy ≠ "legacy"%string ∨ algorithm ≠ PasswordMigrationSpecusSHA256)
      then Err ErrStoredHash
      else match ParseInt expiry 64 with
      | None => Err ErrStoredHash
      | Some expiresAt =>
          if decide (expiresAt ≤ 0) then Err ErrStoredHash
          else if negb (Before now (of_unix expiresAt)) then Ok false
          else match hex_DecodeString digest with
          | None => Err ErrStoredHash
          | Some expected =>
              if decide (length expected ≠ 32%nat ∨ len digest ≠ 64) then Err ErrStoredHash
              else Ok (bool_decide (sha256 (bytes password) = expected))
          end
      end
  | _ => Err ErrStoredHash
  end.

(** [internal/identity/password.go:178-185] verifyStoredPassword: whether the password is
    right, and whether its hash is to be upgraded. *)
Definition verifyStoredPassword (encoded password : string) (now : Time) : Res identityError (bool * bool) :=
  if HasPrefix encoded "$legacy$"
  then match verifyMigratedPassword encoded password now with Ok ok => Ok (ok, ok) | Err e => Err e end
  else match verifyPassword encoded password with Ok ok => Ok (ok, false) | Err e => Err e end.

(** ** The password service *)

Context `{MapRange, UnicodeTables, MailParser}.

(** [internal/identity/password.go:72-78] PasswordService.Set *)
Definition SetUserPassword (r : UserRepository) (userID password : string) (rnd : Entropy)
    : UserRepository * Res identityError unit :=
  match validateAndHashPassword password rnd with
  | Err e => (r, Err e)
  | Ok hash => SetPassword r userID hash
  end.

(** [internal/identity/password.go:150-161] Authenticate, a wrong password: the error of
    recording it is dropped. *)
Definition fail_password (r : UserRepository) (credential : PasswordCredential) (now : Time)
    : UserRepository * Res identityError User :=
  let attempts := wrap64 (pc_FailedAttempts credential + 1) in
  let lockedUntil := if decide (5 ≤ attempts) then now + 15 * Minute else time_zero in
  ((RecordPasswordFailure r (pc_UserID credential) attempts lockedUntil).1,
   Err (if negb (IsZero lockedUntil) then ErrCredentialLocked else ErrInvalidCredentials)).

(** [internal/identity/password.go:140-175] Authenticate, after the user and the credential were
    read: the repository may have changed since. *)
Definition authenticate_with (r : UserRepository) (user : User) (credential : PasswordCredential) (password : string)
    (now : Time) (rnd : Entropy) : UserRepository * Res identityError User :=
  if decide (u_Status user ≠ UserActive) then (r, Err ErrInvalidCredentials)
  else if match pc_LockedUntil credential with Some t => After t now | None => false end
  then (r, Err ErrCredentialLocked)
  else match verifyStoredPassword (pc_Hash credential) password now with
  | Err e => (r, Err e)
  | Ok (ok, upgrade) =>
      if negb ok then fail_password r credential now
      else if upgrade then
        match hashPassword password rnd with
        | Err e => (r, Err e)
        | Ok hash =>
            match SetPassword r (pc_UserID credential) hash with
            | (r, Err e) => (r, Err e)
            | (r, Ok _) => (r, Ok user)
            end
        end
      else match RecordPasswordSuccess r (pc_UserID credential) with
      | (r, Err e) => (r, Err e)
      | (r, Ok _) => (r, Ok user)
      end
  end.

(** [internal/identity/password.go:129-176] PasswordService.Authenticate: the dummy
    verification for unknown users only spends time. *)
Definition Authenticate (r : UserRepository) (username password : string) (now : Time) (rnd : Entropy)
    : UserRepository * Res identityError User :=
  match FindPasswordByUsername r (ToLower (TrimSpace username)) with
  | Err _ => (r, Err ErrInvalidCredentials)
  | Ok (user, credential) => authenticate_with r user credential password now rnd
  end.

(** [internal/identity/password.go:80-86] PasswordService.Change *)
Definition ChangePassword (r : UserRepository) (userID username currentPassword newPassword : string) (now : Time)
    (rndUpgrade rndSalt : Entropy) : UserRepository * Res identityError unit :=
  match Authenticate r username currentPassword now rndUpgrade with
  | (r, Err _) => (r, Err ErrInvalidCredentials)
  | (r, Ok user) =>
      if decide (u_ID user ≠ userID) then (r, Err ErrInvalidCredentials)
      else SetUserPassword r userID newPassword rndSalt
  end.

(** The default lifetime of the tokens sent by e-mail. *)
Definition token_lifetime (lifetime : Duration) : Duration := if decide (lifetime ≤ 0) then 30 * Minute else lifetime.

(** [internal/identity/password.go:88-109] PasswordService.IssueReset *)
Definition IssueReset (r : UserRepository) (userID : string) (lifetime : Duration) (now : Time) (rnd : Entropy)
    : UserRepository * Res identityError string :=
  match RandomToken rnd with
  | Err _ => (r, Err IdentityRandomFailure)
  | Ok raw =>
      match SavePasswordReset r {| pr_UserID := userID; pr_Hash := HashToken raw; pr_CreatedAt := now;
                                   pr_ExpiresAt := now + token_lifetime lifetime |} with
      | (r, Err e) => (r, Err e)
      | (r, Ok _) => (r, Ok raw)
      end
  end.

(** [internal/identity/password.go:111-127] PasswordService.Reset *)
Definition Reset (r : UserRepository) (token newPassword : string) (now : Time) (rnd : Entropy)
    : UserRepository * Res identityError string :=
  if decide (TrimSpace token = ""%string) then (r, Err ErrInvalidResetToken)
  else match validateAndHashPassword newPassword rnd with
  | Err e => (r, Err e)
  | Ok hash =>
      match ConsumePasswordReset r (HashToken token) now with
      | (r, Err _) => (r, Err ErrInvalidResetToken)
      | (r, Ok userID) =>
          match SetPassword r userID hash with
          | (r, Err e) => (r, Err e)
          | (r, Ok _) => (r, Ok userID)
          end
      end
  end.

(** ** Registration *)

(** [internal/identity/registration.go:8-13] RegisterUser *)
Record RegisterUser := { rg_Username : string; rg_DisplayName : string; rg_Email : option string; rg_Password : string }.

(** [internal/identity/registration.go:28-44] RegistrationService.Register *)
Definition Register (r : UserRepository) (input : RegisterUser) (now : Time) (rndID rndSalt : Entropy)
    : UserRepository * Res identityError User :=
  match NewUser {| cu_Username := rg_Username input; cu_DisplayName := rg_DisplayName input;
                   cu_Email := rg_Email input; cu_Status := UserActive |} now rndID with
  | Err e => (r, Err e)
  | Ok user =>
      match validateAndHashPassword (rg_Password input) rndSalt with
      | Err e => (r, Err e)
      | Ok hash => CreateWithPassword r user hash
      end
  end.

(** ** E-mail verification *)

(** [internal/identity/email_verification.go:46-78] EmailVerificationService.Issue *)
Definition IssueVerification (r : UserRepository) (userID : string) (lifetime : Duration) (now : Time) (rnd : Entropy)
    : UserRepository * Res identityError string :=
  match FindUser r userID with
  | Err e => (r, Err e)
  | Ok user =>
      match u_Email user with
      | None => (r, Err ErrEmailNotConfigured)
      | Some email =>
          if u_EmailVerified user then (r, Err ErrEmailAlreadyVerified)
          else match RandomToken rnd with
          | Err _ => (r, Err IdentityRandomFailure)
          | Ok raw =>
              match SaveEmailVerification r {| ev_UserID := userID; ev_Email := email; ev_Hash := HashToken raw;
                                               ev_CreatedAt := now; ev_ExpiresAt := now + token_lifetime lifetime |} with
              | (r, Err e) => (r, Err e)
              | (r, Ok _) => (r, Ok raw)
              end
          end
      end
  end.

(** [internal/identity/email_verification.go:86-97] EmailVerificationService.Verify *)
Definition VerifyEmailToken (r : UserRepository) (token expectedUserID : string) (now : Time)
    : UserRepository * Res identityError string :=
  if decide (TrimSpace token = ""%string) then (r, Err ErrInvalidVerificationToken)
  else match VerifyEmail r (HashToken token) expectedUserID now with
  | (r, Err _) => (r, Err ErrInvalidVerificationToken)
  | (r, Ok userID) => (r, Ok userID)
  end.

(** ** Migration of password hashes *)

(** [internal/identity/password_migration.go:17-19] limits *)
Definition defaultPasswordMigrationLifetime : Duration := 90 * 24 * Hour.
Definition maxPasswordMigrationLifetime : Duration := 365 * 24 * Hour.
Definition maxPasswordMigrationUsers : Z := 1000.

(** [internal/identity/password_migration.go:22-28] PasswordMigrationUser *)
Record PasswordMigrationUser := {
  mu_Username : string;
  mu_DisplayName : string;
  mu_Email : option string;
  mu_Status : string;
  mu_PasswordHash : string;
}.

(** [internal/identity/password_migration.go:30-34] ImportPasswordUsers *)
Record ImportPasswordUsers := {
  im_Algorithm : string;
  im_ExpiresAt : option Time;
  im_Users : list PasswordMigrationUser;
}.

(** [internal/identity/password_migration.go:36-40] PasswordMigrationResult *)
Record PasswordMigrationResult := { mg_Items : list User; mg_Count : Z; mg_ExpiresAt : Time }.

(** [internal/identity/password_migration.go:143-162] encodeMigratedPassword *)
Definition encodeMigratedPassword (algorithm hash : string) (expiresAt : Time) : Res identityError string :=
  if decide (algorithm ≠ PasswordMigrationSpecusSHA256) then Err ErrInvalid
  else
    let hash := ToLower (TrimSpace hash) in
    match hex_DecodeString hash with
    | None => Err ErrInvalid
    | Some decoded =>
        if decide (length decoded ≠ 32%nat ∨ len hash ≠ 64) then Err ErrInvalid
        else Ok ("$legacy$" +:+ algorithm +:+ "$" +:+ FormatInt (Unix expiresAt) +:+ "$" +:+ hash)
    end.

(** [internal/identity/password_migration.go:94-131] PasswordMigrationService.Import, the loop:
    [rnds] gives the random bytes of each user's identifier. *)
Fixpoint import_records (algorithm : string) (now expiresAt : Time) (usernames emails : gset string)
    (items : list PasswordMigrationUser) (rnds : nat → Entropy) : Res identityError (list PasswordMigrationRecord) :=
  match items with
  | [] => Ok []
  | item :: rest =>
      match NewUser {| cu_Username := mu_Username item; cu_DisplayName := mu_DisplayName item;
                       cu_Email := mu_Email item; cu_Status := mu_Status item |} now (rnds 0%nat) with
      | Err e => Err e
      | Ok user =>
          if decide (u_Username user ∈ usernames) then Err ErrConflict
          else if from_option (λ e, bool_decide (e ∈ emails)) false (u_Email user) then Err ErrConflict
          else match encodeMigratedPassword algorithm (mu_PasswordHash item) expiresAt with
          | Err e => Err e
          | Ok encoded =>
              match import_records algorithm now expiresAt ({[u_Username user]} ∪ usernames)
                      (match u_Email user with Some e => {[e]} ∪ emails | None => emails end) rest (λ i, rnds (S i)) with
              | Err e => Err e
              | Ok records => Ok ({| pm_User := user; pm_PasswordHash := encoded |} :: records)
              end
          end
      end
  end.

(** [internal/identity/password_migration.go:64-141] PasswordMigrationService.Import *)
Definition ImportUsers (r : UserRepository) (input : ImportPasswordUsers) (now : Time) (rnds : nat → Entropy)
    : UserRepository * Res identityError PasswordMigrationResult :=
  let count := Z.of_nat (length (im_Users input)) in
  if decide (im_Algorithm input ≠ PasswordMigrationSpecusSHA256) then (r, Err ErrInvalid)
  else if decide (count = 0 ∨ count > maxPasswordMigrationUsers) then (r, Err ErrInvalid)
  else
    let expiresAt := default (now + defaultPasswordMigrationLifetime) (im_ExpiresAt input) in
    if negb (After expiresAt now) || After expiresAt (now + maxPasswordMigrationLifetime) then (r, Err ErrInvalid)
    else match import_records (im_Algorithm input) now expiresAt ∅ ∅ (im_Users input) rnds with
    | Err e => (r, Err e)
    | Ok records =>
        match CreateWithMigratedPasswords r records with
        | (r, Err e) => (r, Err e)
        | (r, Ok created) =>
            (r, Ok {| mg_Items := created; mg_Count := Z.of_nat (length created); mg_ExpiresAt := expiresAt |})
        end
    end.
End Passwords.

(** ** For examples *)

(** A stand-in for Argon2 that depends on the password and the salt: their SHA-256
    digest, cut or padded to the length asked for. *)
Definition digest_key (password salt : list Z) (keyLen : Z) : list Z :=
  take (Z.to_nat keyLen) ((sha256 (password ++ salt) ++ replicate (Z.to_nat keyLen) 0)%list).

Lemma digest_key_length p s n : 0 ≤ n → Z.of_nat (length (digest_key p s n)) = n.
Proof. intros Hn. unfold digest_key. rewrite length_take, length_app, length_replicate. lia. Qed.
Lemma digest_key_bytes p s n : Forall is_byte (digest_key p s n).
Proof.
  apply Forall_take, Forall_app. split; [apply sha256_bytes|]. apply Forall_replicate. by vm_compute.
Qed.
Definition digest_argon2 : Argon2 :=
  {| argon2_IDKey p s _ _ _ n := digest_key p s n;
     argon2_length p s _ _ _ n := digest_key_length p s n;
     argon2_bytes p s _ _ _ n := digest_key_bytes p s n |}.

(** * Guarantees

    What password verification guarantees: a stored hash accepts exactly the
    passwords with the same Argon2 key, and an imported hash accepts the password
    it was made from until it expires and is then replaced by an Argon2 hash. *)
Definition dollar : Ascii.ascii := "$"%char.

Lemma Split_app x y sep : no_byte sep x → Split (x +:+ String sep y) sep = x :: Split y sep.
Proof. intros Hx. by rewrite Split_Cut, Cut_app. Qed.
Lemma Split_single x sep : no_byte sep x → Split x sep = [x].
Proof. intros Hx. by rewrite Split_Cut, Cut_None. Qed.

(** A string all of whose bytes satisfy a test that the separator fails. *)
Lemma no_byte_class (P : Z → Prop) sep s : Forall P (bytes s) → ¬ P (byte_val sep) → no_byte sep s.
Proof.
  unfold no_byte, bytes. rewrite Forall_fmap, Forall_forall. intros HF Hn Hin. by apply Hn, (HF sep).
Qed.

Lemma enc64_not_dollar : ∀ v, 0 ≤ v < 64 → enc64 std64 v ≠ 36.
Proof. intros v Hv. unfold enc64. simpl. repeat case_decide; lia. Qed.

Lemma RawStd_no_dollar l : Forall is_byte l → no_byte dollar (RawStdEncoding_EncodeToString l).
Proof.
  intros Hl. apply (no_byte_class (λ b, b ≠ 36)); [|intros H; by apply H].
  unfold RawStdEncoding_EncodeToString. rewrite bytes_of_bytes by (apply raw_encode64_bytes; [by left|done]).
  rewrite raw_encode64_split. apply Forall_fmap. eapply Forall_impl; [by apply split64_range|].
  intros v Hv. by apply enc64_not_dollar.
Qed.

(** ** Argon2 hashes *)

Section Verify.
Context `{Argon2}.

Definition stored_key (password : string) (salt : list Z) : list Z :=
  argon2_IDKey (bytes password) salt passwordTime passwordMemory passwordThreads passwordKeyLen.

Lemma hashPassword_form password salt encoded :
  hashPassword password (Some salt) = Ok encoded →
  encoded = "" +:+ String dollar ("argon2id" +:+ String dollar ("v=19" +:+ String dollar ("m=65536,t=3,p=4" +:+
    String dollar (RawStdEncoding_EncodeToString salt +:+ String dollar
      (RawStdEncoding_EncodeToString (stored_key password salt)))))).
Proof. intros [= <-]. reflexivity. Qed.

Lemma hashPassword_split password salt encoded :
  Forall is_byte salt → hashPassword password (Some salt) = Ok encoded →
  Split encoded dollar = [""; "argon2id"; "v=19"; "m=65536,t=3,p=4"; RawStdEncoding_EncodeToString salt;
                          RawStdEncoding_EncodeToString (stored_key password salt)]%string.
Proof.
  intros Hs ->%hashPassword_form. rewrite !Split_app by (apply RawStd_no_dollar + decided; done).
  by rewrite Split_single by apply RawStd_no_dollar, argon2_bytes.
Qed.

Lemma verify_hash password password' salt encoded :
  Forall is_byte salt → length salt = 16%nat → hashPassword password (Some salt) = Ok encoded →
  verifyPassword encoded password' = Ok (bool_decide (stored_key password' salt = stored_key password salt)).
Proof.
  intros Hs Hl Hh. unfold verifyPassword. rewrite (hashPassword_split password salt) by done.
  rewrite decide_False by (intros Hn; by apply Hn). rewrite decide_False by (intros Hn; apply Hn; vm_compute; done).
  change (parse_parameters (Split "m=65536,t=3,p=4" ",")) with (@Ok identityError _ (65536, 3, 4)).
  rewrite !RawStd_roundtrip by (done || apply argon2_bytes). rewrite decide_False by lia.
  assert (Z.of_nat (length (stored_key password salt)) = 32) as Hk by (apply argon2_length; done).
  rewrite decide_False by lia. rewrite decide_False by lia. by rewrite Hk.
Qed.

Lemma hash_not_legacy password salt encoded :
  hashPassword password (Some salt) = Ok encoded → HasPrefix encoded "$legacy$" = false.
Proof. intros ->%hashPassword_form. reflexivity. Qed.

End Verify.

(** ** Imported hashes *)

Lemma unhex_no_dollar l d : unhex_bytes l = Some d → Forall (λ b, b ≠ 36) l.
Proof.
  revert l d. fix unhex_no_dollar 1. intros l. destruct l as [|a [|b l]]; [constructor|done|]. simpl. intros d.
  destruct (unhex a) eqn:Ea; [|done]. destruct (unhex b) eqn:Eb; [|done].
  destruct (unhex_bytes l) eqn:El; [|done]. intros _.
  assert (∀ x v, unhex x = Some v → x ≠ 36) as Hx by (intros x v Hv ->; done).
  constructor; [by eapply Hx|]. constructor; [by eapply Hx|]. by eapply unhex_no_dollar.
Qed.

Lemma FormatInt_no_dollar z : 0 ≤ z → no_byte dollar (FormatInt z).
Proof.
  intros Hz. apply (no_byte_class (λ b, is_digit b = true)); [|done].
  pose proof (digits_value_FormatInt z Hz) as Hd. revert Hd. generalize 0 at 1. generalize (bytes (FormatInt z)).
  intros l. induction l as [|b l IH]; intros acc; simpl; [constructor|]. destruct (is_digit b) eqn:E; [|done].
  intros Hd. constructor; [done|]. by eapply IH.
Qed.

Section Migrated.
Context `{UnicodeTables}.

(** An imported hash: its digest, and how it is checked. *)
Lemma verify_migrated hash expiresAt encoded password now :
  encodeMigratedPassword PasswordMigrationSpecusSHA256 hash expiresAt = Ok encoded →
  0 < Unix expiresAt < 2 ^ 63 →
  HasPrefix encoded "$legacy$" = true ∧
  ∃ digest, hex_DecodeString (ToLower (TrimSpace hash)) = Some digest ∧
    verifyMigratedPassword encoded password now =
      Ok (bool_decide (now < of_unix (Unix expiresAt)) && bool_decide (sha256 (bytes password) = digest)).
Proof.
  unfold encodeMigratedPassword. rewrite decide_False by (intros Hn; by apply Hn).
  set (h := ToLower _). destruct (hex_DecodeString h) as [digest|] eqn:Hd; [|done].
  case_decide as Hl; [done|]. apply Decidable.not_or in Hl as [Hl1%dec_stable Hl2%dec_stable].
  intros [= <-] [Hpos Hmax]. split; [by apply HasPrefix_true; eexists|]. exists digest. split; [done|].
  unfold verifyMigratedPassword.
  change ("$legacy$" +:+ PasswordMigrationSpecusSHA256 +:+ "$" +:+ FormatInt (Unix expiresAt) +:+ "$" +:+ h)
    with ("" +:+ String dollar ("legacy" +:+ String dollar (PasswordMigrationSpecusSHA256 +:+ String dollar
            (FormatInt (Unix expiresAt) +:+ String dollar h)))).
  assert (no_byte dollar h) as Hh.
  { apply (no_byte_class (λ b, b ≠ 36)); [by eapply unhex_no_dollar|intros Hn; by apply Hn]. }
  rewrite !Split_app by (apply FormatInt_no_dollar || decided; lia). rewrite Split_single by done.
  rewrite decide_False by (intros [Hn|[Hn|Hn]]; by apply Hn).
  rewrite ParseInt_FormatInt by lia. rewrite decide_False by lia.
  destruct (Before now (of_unix (Unix expiresAt))) eqn:Hb; simpl negb; cbv iota.
  - apply Before_true in Hb. rewrite Hd, decide_False by (clear -Hl1 Hl2; tauto).
    by rewrite (bool_decide_true (now < _)) by done.
  - apply Before_false in Hb. by rewrite (bool_decide_false (now < _)) by lia.
Qed.

(** The SHA-256 digest of a password, as it is exported. *)
Definition exported (password : string) : string := hex (sha256 (bytes password)).

Lemma exported_digest password : hex_DecodeString (ToLower (TrimSpace (exported password))) = Some (sha256 (bytes password)).
Proof.
  unfold exported. rewrite name_fixed by (by apply hex_name, sha256_bytes). apply hex_roundtrip, sha256_bytes.
Qed.

Context `{Argon2}.

(** Imported passwords keep working. A user whose exported hash was imported
    signs in with the old password until the import expires; that sign-in replaces
    the hash by an Argon2 hash of the same password, which then works for good. Once
    expired, a hash not replaced accepts no password. *)
Theorem migrated_password_upgrades r user c password expiresAt now salt :
  users r !! pc_UserID c = Some user → u_Status user = UserActive → pc_LockedUntil c = None →
  encodeMigratedPassword PasswordMigrationSpecusSHA256 (exported password) expiresAt = Ok (pc_Hash c) →
  0 < Unix expiresAt < 2 ^ 63 → Forall is_byte salt → length salt = 16%nat →
  if decide (now < of_unix (Unix expiresAt))
  then ∃ r' hash, authenticate_with r user c password now (Some salt) = (r', Ok user) ∧
         credentials r' !! pc_UserID c = Some (new_credential (pc_UserID c) hash) ∧
         ∀ password' later, verifyStoredPassword hash password' later =
                            Ok (bool_decide (stored_key password' salt = stored_key password salt), false)
  else ∀ password', verifyStoredPassword (pc_Hash c) password' now = Ok (false, false).
Proof.
  intros Hu Hact Hlock Henc Hexp Hs Hl.
  assert (∀ p, verifyStoredPassword (pc_Hash c) p now =
    let ok := bool_decide (now < of_unix (Unix expiresAt)) && bool_decide (sha256 (bytes p) = sha256 (bytes password)) in
    Ok (ok, ok)) as Hver.
  { intros p. destruct (verify_migrated _ _ _ p now Henc Hexp) as (Hpre & digest & Hd & Hv).
    rewrite exported_digest in Hd. injection Hd as <-. unfold verifyStoredPassword. by rewrite Hpre, Hv. }
  case_decide as Hnow.
  - unfold authenticate_with. rewrite (decide_False (P := u_Status user ≠ _)) by (intros Hn; by apply Hn). rewrite Hlock, Hver.
    rewrite !bool_decide_true by done. cbn [andb negb].
    destruct (hashPassword password (Some salt)) as [hash|] eqn:Hh; [|done]. unfold SetPassword.
    rewrite (decide_False (P := users r !! pc_UserID c = None)) by (by rewrite Hu). eexists _, hash. split; [reflexivity|]. split; [apply lookup_insert_eq|].
    intros p later. unfold verifyStoredPassword.
    by rewrite (hash_not_legacy _ _ _ Hh), (verify_hash password p salt hash Hs Hl Hh).
  - intros p. rewrite Hver. by rewrite (bool_decide_false (now < _)) by done.
Qed.
End Migrated.
