(* ===== verification/IdentityExamples.v ===== *)
(** The theorems on accounts and passwords at work: two users, a provider, a reset
    and a verification token, an imported password. *)
From S2P Require Import Prelude GoStrings GoCrypto Identity IdentityProps Passwords.
Local Open Scope Z_scope.

(** ** Concrete parameters *)

#[local] Existing Instances canonical_range ascii_tables.

#[local] Existing Instance plain_mail.

#[local] Existing Instance digest_argon2.

(** ** The cast *)

Local Open Scope string_scope.

Definition user (id name : string) (email : option string) : User :=
  {| u_ID := id; u_Username := name; u_DisplayName := name; u_Email := email; u_EmailVerified := false;
     u_Status := UserActive; u_CreatedAt := 5; u_UpdatedAt := 5 |}.
Definition alice : User := user "u1" "alice" (Some "alice@example.org").
Definition bob : User := user "u2" "bob" None.

Definition alice_profile : ExternalProfile :=
  {| ep_ProviderID := "corp"; ep_Subject := "42"; ep_Username := "Alice"; ep_DisplayName := "Alice";
     ep_Email := Some "alice@example.org"; ep_EmailTrusted := true; ep_EmailVerified := true |}.
Definition reset (hash : string) : PasswordResetToken :=
  {| pr_UserID := "u1"; pr_Hash := hash; pr_CreatedAt := 10; pr_ExpiresAt := 100 |}.
Definition verification : EmailVerificationToken :=
  {| ev_UserID := "u1"; ev_Email := "Alice@example.org"; ev_Hash := "v1"; ev_CreatedAt := 10; ev_ExpiresAt := 100 |}.

Definition sixteen : Entropy := Some (seqZ 0 16).
Definition account_ops : list IdentityOp :=
  [IoCreateWithPassword canonical_range alice "hash"; IoCreate canonical_range bob;
   IoCreate canonical_range (user "u3" "BOB" None);
   IoResolve canonical_range alice_profile 20 sixteen sixteen sixteen;
   IoReplace canonical_range (user "u2" "bob" (Some "ALICE@example.org"));
   IoSavePasswordReset canonical_range (reset "h1"); IoSaveEmailVerification canonical_range verification].
Definition accounts : UserRepository := (run identity_step (NewUserRepository []) account_ops).1.

Lemma accounts_resets : resets_keyed accounts.
Proof. assert (map_Forall (λ k t, pr_Hash t = k) (passwordResets accounts)) as H by decided. exact H. Qed.
Lemma accounts_verifies : verifies_keyed accounts.
Proof. assert (map_Forall (λ k t, ev_Hash t = k) (emailVerifies accounts)) as H by decided. exact H. Qed.

(** ** The theorems *)


Lemma reset_token_single_use_witness :
  let ops := [IoConsumePasswordReset canonical_range "h1" 20; IoConsumePasswordReset canonical_range "h1" 21] in
  (run identity_step accounts ops).2 = [true; false] ∧ (wins identity_step (reset_win "h1") accounts ops ≤ 1)%nat ∧
  ∀ t r2, @ConsumePasswordReset canonical_range (SavePasswordReset accounts (reset "h2")).1 "h1" t ≠ (r2, Ok "u1").
Proof.
  intros ops. split; [vm_compute; reflexivity|].
  destruct (reset_token_single_use "h1" accounts ops) as [Hw Hn].
  - exact accounts_resets.
  - repeat constructor; by intros [].
  - split; [exact Hw|]. intros t r2 Hc.
    destruct (Hn canonical_range canonical_range (reset "h2") (SavePasswordReset accounts (reset "h2")).1 "h1" t r2) as [? _];
      [by vm_compute|exact Hc|done].
Defined.

Lemma email_verification_exact_witness :
  (∃ user, verifiable accounts "v1" "u1" 20 user) ∧
  (VerifyEmail accounts "v1" "u1" 20).2 = Ok "u1" ∧ (VerifyEmail accounts "v1" "u2" 20).1 = accounts.
Proof.
  split; [exists (u_verified 20 alice), verification; split_and!; by vm_compute|].
  split; [vm_compute; reflexivity|].
  pose proof (email_verification_exact accounts "v1" "u2" 20 accounts_verifies) as H.
  destruct (VerifyEmail accounts "v1" "u2" 20) as [r' [id|e]] eqn:E; [exfalso|by destruct H as [-> _]].
  apply (f_equal (λ p, is_ok p.2)) in E. by vm_compute in E.
Defined.

Lemma login_never_lost_witness :
  let ops := [IoDeleteExternal canonical_range "u1" "00010203-0405-4607-8809-0a0b0c0d0e0f"; IoSetPassword "u2" "hash2"] in
  has_login accounts "u1" ∧ has_login (run identity_step accounts ops).1 "u1" ∧
  (run identity_step accounts ops).2 = [true; true].
Proof.
  intros ops. assert (has_login accounts "u1") as Hl by (left; eexists; vm_compute; reflexivity).
  split; [exact Hl|]. split; [exact (login_never_lost accounts "u1" ops Hl)|vm_compute; reflexivity].
Defined.

(** ** Passwords *)

Definition salt16 : list Z := seqZ 0 16.
Lemma salt16_bytes : Forall is_byte salt16.
Proof. apply Forall_forall. intros x Hx%elem_of_seqZ. unfold is_byte. lia. Qed.

Definition good_password : string := "correct horse battery".
Definition stored : string :=
  match validateAndHashPassword good_password (Some salt16) with Ok h => h | Err _ => "" end.


Definition legacy : string :=
  match encodeMigratedPassword PasswordMigrationSpecusSHA256 (exported good_password) (of_unix 1000) with
  | Ok h => h | Err _ => "" end.
Definition imported : PasswordCredential := new_credential "u1" legacy.
Definition with_import : UserRepository := set_credentials {["u1" := imported]} accounts.

Lemma migrated_password_upgrades_witness :
  ∃ r' hash, authenticate_with with_import (u_verified 20 alice) imported good_password (of_unix 900) (Some salt16)
             = (r', Ok (u_verified 20 alice)) ∧
    credentials r' !! "u1" = Some (new_credential "u1" hash) ∧
    verifyStoredPassword hash good_password (of_unix 2000) = Ok (true, false) ∧
    verifyStoredPassword legacy good_password (of_unix 2000) = Ok (false, false).
Proof.
  assert (encodeMigratedPassword PasswordMigrationSpecusSHA256 (exported good_password) (of_unix 1000) = Ok legacy)
    as He by (vm_compute; reflexivity).
  assert (0 < Unix (of_unix 1000) < 2 ^ 63)%Z as Hx by (split; reflexivity).
  assert (users with_import !! "u1" = Some (u_verified 20 alice)) as Hu by (vm_compute; reflexivity).
  pose proof (migrated_password_upgrades with_import (u_verified 20 alice) imported good_password (of_unix 1000)
                (of_unix 900) salt16 Hu eq_refl eq_refl He Hx salt16_bytes eq_refl) as H1.
  pose proof (migrated_password_upgrades with_import (u_verified 20 alice) imported good_password (of_unix 1000)
                (of_unix 2000) salt16 Hu eq_refl eq_refl He Hx salt16_bytes eq_refl) as H2.
  rewrite decide_True in H1 by (by vm_compute). rewrite decide_False in H2 by (by vm_compute).
  destruct H1 as (r' & hash & Ha & Hc & Hv). exists r', hash. split; [exact Ha|]. split; [exact Hc|].
  split; [|exact (H2 good_password)]. rewrite (Hv good_password (of_unix 2000)). by rewrite bool_decide_true.
Defined.
