(* ===== verification/Client.v ===== *)
(** OAuth and CAS clients and the systems that own them:
    [internal/client/client.go]. The data, the normalization and validation of a
    registration, the client secret, and the in-memory repository. [Client]
    holds what they guarantee.

    The enumerated types of the code are string types whose values are checked only
    by [Validate], so they are strings here too. Error messages are kept as the
    reason of [ErrInvalid], without the offending value. *)
From S2P Require Import Prelude GoStrings GoCrypto.
Local Open Scope Z_scope.

(** [internal/client/client.go:19-28] errors *)
Inductive clientError :=
| ClientNotFound
| ErrConflict
| ErrInvalid (reason : string)
| ErrArchived
| ErrNotArchived
| ErrSystemNotFound
| ErrSystemConflict
| ErrSystemInUse
| ErrSecret.
#[global] Instance clientError_eq_dec : EqDecision clientError.
Proof. solve_decision. Defined.

(** [internal/client/client.go:30-37] lifetimes *)
Definition DefaultAccessTokenLifetime : Duration := 15 * Minute.
Definition MinAccessTokenLifetime : Duration := Minute.
Definition MaxAccessTokenLifetime : Duration := 24 * Hour.
Definition DefaultRefreshTokenLifetime : Duration := 30 * 24 * Hour.
Definition MinRefreshTokenLifetime : Duration := Hour.
Definition MaxRefreshTokenLifetime : Duration := 365 * 24 * Hour.

(** [internal/client/client.go:41-85] constants *)
Definition LoginPassword : string := "password".
Definition LoginLDAP : string := "ldap".
Definition LoginOIDC : string := "oidc".
Definition ApplicationPublic : string := "public".
Definition ApplicationConfidential : string := "confidential".
Definition TokenEndpointAuthNone : string := "none".
Definition TokenEndpointAuthSecretBasic : string := "client_secret_basic".
Definition TokenEndpointAuthSecretPost : string := "client_secret_post".
Definition ProtocolOAuth20 : string := "oauth2.0".
Definition ProtocolOAuth21 : string := "oauth2.1".
Definition ProtocolCAS : string := "cas".
Definition GrantAuthorizationCode : string := "authorization_code".
Definition GrantRefreshToken : string := "refresh_token".
Definition GrantClientCredentials : string := "client_credentials".
Definition GrantDeviceCode : string := "urn:ietf:params:oauth:grant-type:device_code".
Definition CASVersion1 : string := "1.0".
Definition CASVersion2 : string := "2.0".
Definition CASVersion3 : string := "3.0".

(** ** URLs *)

(** What the program reads of a parsed URL. *)
Record URL := {
  u_Scheme : string;
  u_HasUser : bool;
  u_Host : string;
  u_Hostname : string;
  u_Fragment : string;
}.

(** [net/url.Parse] ([None] is an error) and [net.ParseIP] followed by
    [IsLoopback], for the strings that are IP addresses. *)
Class URLParser := {
  url_Parse : string → option URL;
  ip_IsLoopback : string → bool;
}.

(** [parsed.IsAbs()]. *)
Definition IsAbs (u : URL) : bool := negb (bool_decide (u_Scheme u = ""%string)).

(** ** Data *)

(** [internal/client/client.go:89-96] System *)
Record System := {
  sy_ID : string;
  sy_Name : string;
  sy_Description : string;
  sy_FaviconURL : string;
  sy_LaunchURI : string;
  sy_PortalVisible : bool;
}.

(** [internal/client/client.go:98-105] CreateSystem *)
Record CreateSystem := {
  cs_ID : string;
  cs_Name : string;
  cs_Description : string;
  cs_FaviconURL : string;
  cs_LaunchURI : string;
  cs_PortalVisible : option bool;
}.

(** [internal/client/client.go:107-113] ReplaceSystemInput *)
Record ReplaceSystemInput := {
  rs_Name : string;
  rs_Description : string;
  rs_FaviconURL : string;
  rs_LaunchURI : string;
  rs_PortalVisible : bool;
}.

(** [internal/client/client.go:115-146] Client *)
Record Client := {
  c_ID : string;
  c_SystemID : string;
  c_System : option System;
  c_Name : string;
  c_Description : string;
  c_FaviconURL : string;
  c_LaunchURI : string;
  c_ApplicationType : string;
  c_TokenEndpointAuthMethod : string;
  c_Protocols : list string;
  c_GrantTypes : list string;
  c_RedirectURIs : list string;
  c_PostLogoutRedirectURIs : list string;
  c_BackchannelLogoutURI : string;
  c_BackchannelLogoutSessionRequired : bool;
  c_LoginMethods : list string;
  c_IdentitySourceIDs : list string;
  c_IntrospectableBy : list string;
  c_AllowedScopes : list string;
  c_AccessTokenLifetimeSeconds : Z;
  c_RefreshTokenLifetimeSeconds : Z;
  c_CASVersion : string;
  c_CASServiceURLs : list string;
  c_CASProxy : bool;
  c_CASGateway : bool;
  c_CASRenew : bool;
  c_CASSingleLogout : bool;
  c_Enabled : bool;
  c_ArchivedAt : option Time;
  c_SecretHash : string;
}.

(** [internal/client/client.go:148-176] CreateClient *)
Record CreateClient := {
  cc_ID : string;
  cc_SystemID : string;
  cc_Name : string;
  cc_Description : string;
  cc_FaviconURL : string;
  cc_LaunchURI : string;
  cc_ApplicationType : string;
  cc_TokenEndpointAuthMethod : string;
  cc_Protocols : list string;
  cc_GrantTypes : list string;
  cc_RedirectURIs : list string;
  cc_PostLogoutRedirectURIs : list string;
  cc_BackchannelLogoutURI : string;
  cc_BackchannelLogoutSessionRequired : bool;
  cc_LoginMethods : list string;
  cc_IdentitySourceIDs : list string;
  cc_IntrospectableBy : list string;
  cc_AllowedScopes : list string;
  cc_AccessTokenLifetimeSeconds : Z;
  cc_RefreshTokenLifetimeSeconds : Z;
  cc_CASVersion : string;
  cc_CASServiceURLs : list string;
  cc_CASProxy : bool;
  cc_CASGateway : bool;
  cc_CASRenew : bool;
  cc_CASSingleLogout : bool;
  cc_Enabled : option bool;
}.

(** [internal/client/client.go:178-204] ReplaceClient *)
Record ReplaceClient := {
  rc_SystemID : string;
  rc_Name : string;
  rc_Description : string;
  rc_FaviconURL : string;
  rc_LaunchURI : string;
  rc_TokenEndpointAuthMethod : string;
  rc_Protocols : list string;
  rc_GrantTypes : list string;
  rc_RedirectURIs : list string;
  rc_PostLogoutRedirectURIs : list string;
  rc_BackchannelLogoutURI : string;
  rc_BackchannelLogoutSessionRequired : bool;
  rc_LoginMethods : list string;
  rc_IdentitySourceIDs : list string;
  rc_IntrospectableBy : list string;
  rc_AllowedScopes : list string;
  rc_AccessTokenLifetimeSeconds : Z;
  rc_RefreshTokenLifetimeSeconds : Z;
  rc_CASVersion : string;
  rc_CASServiceURLs : list string;
  rc_CASProxy : bool;
  rc_CASGateway : bool;
  rc_CASRenew : bool;
  rc_CASSingleLogout : bool;
  rc_Enabled : option bool;
}.

(** Field updates. *)
Definition with_SystemID (v : string) (c : Client) : Client :=
  {| c_ID := c_ID c; c_SystemID := v; c_System := c_System c; c_Name := c_Name c;
     c_Description := c_Description c; c_FaviconURL := c_FaviconURL c; c_LaunchURI := c_LaunchURI c;
     c_ApplicationType := c_ApplicationType c; c_TokenEndpointAuthMethod := c_TokenEndpointAuthMethod c;
     c_Protocols := c_Protocols c; c_GrantTypes := c_GrantTypes c; c_RedirectURIs := c_RedirectURIs c;
     c_PostLogoutRedirectURIs := c_PostLogoutRedirectURIs c; c_BackchannelLogoutURI := c_BackchannelLogoutURI c;
     c_BackchannelLogoutSessionRequired := c_BackchannelLogoutSessionRequired c;
     c_LoginMethods := c_LoginMethods c; c_IdentitySourceIDs := c_IdentitySourceIDs c;
     c_IntrospectableBy := c_IntrospectableBy c; c_AllowedScopes := c_AllowedScopes c;
     c_AccessTokenLifetimeSeconds := c_AccessTokenLifetimeSeconds c;
     c_RefreshTokenLifetimeSeconds := c_RefreshTokenLifetimeSeconds c; c_CASVersion := c_CASVersion c;
     c_CASServiceURLs := c_CASServiceURLs c; c_CASProxy := c_CASProxy c; c_CASGateway := c_CASGateway c;
     c_CASRenew := c_CASRenew c; c_CASSingleLogout := c_CASSingleLogout c; c_Enabled := c_Enabled c;
     c_ArchivedAt := c_ArchivedAt c; c_SecretHash := c_SecretHash c |}.
Definition with_System (v : option System) (c : Client) : Client :=
  {| c_ID := c_ID c; c_SystemID := c_SystemID c; c_System := v; c_Name := c_Name c;
     c_Description := c_Description c; c_FaviconURL := c_FaviconURL c; c_LaunchURI := c_LaunchURI c;
     c_ApplicationType := c_ApplicationType c; c_TokenEndpointAuthMethod := c_TokenEndpointAuthMethod c;
     c_Protocols := c_Protocols c; c_GrantTypes := c_GrantTypes c; c_RedirectURIs := c_RedirectURIs c;
     c_PostLogoutRedirectURIs := c_PostLogoutRedirectURIs c; c_BackchannelLogoutURI := c_BackchannelLogoutURI c;
     c_BackchannelLogoutSessionRequired := c_BackchannelLogoutSessionRequired c;
     c_LoginMethods := c_LoginMethods c; c_IdentitySourceIDs := c_IdentitySourceIDs c;
     c_IntrospectableBy := c_IntrospectableBy c; c_AllowedScopes := c_AllowedScopes c;
     c_AccessTokenLifetimeSeconds := c_AccessTokenLifetimeSeconds c;
     c_RefreshTokenLifetimeSeconds := c_RefreshTokenLifetimeSeconds c; c_CASVersion := c_CASVersion c;
     c_CASServiceURLs := c_CASServiceURLs c; c_CASProxy := c_CASProxy c; c_CASGateway := c_CASGateway c;
     c_CASRenew := c_CASRenew c; c_CASSingleLogout := c_CASSingleLogout c; c_Enabled := c_Enabled c;
     c_ArchivedAt := c_ArchivedAt c; c_SecretHash := c_SecretHash c |}.
Definition with_IntrospectableBy (v : list string) (c : Client) : Client :=
  {| c_ID := c_ID c; c_SystemID := c_SystemID c; c_System := c_System c; c_Name := c_Name c;
     c_Description := c_Description c; c_FaviconURL := c_FaviconURL c; c_LaunchURI := c_LaunchURI c;
     c_ApplicationType := c_ApplicationType c; c_TokenEndpointAuthMethod := c_TokenEndpointAuthMethod c;
     c_Protocols := c_Protocols c; c_GrantTypes := c_GrantTypes c; c_RedirectURIs := c_RedirectURIs c;
     c_PostLogoutRedirectURIs := c_PostLogoutRedirectURIs c; c_BackchannelLogoutURI := c_BackchannelLogoutURI c;
     c_BackchannelLogoutSessionRequired := c_BackchannelLogoutSessionRequired c;
     c_LoginMethods := c_LoginMethods c; c_IdentitySourceIDs := c_IdentitySourceIDs c; c_IntrospectableBy := v;
     c_AllowedScopes := c_AllowedScopes c; c_AccessTokenLifetimeSeconds := c_AccessTokenLifetimeSeconds c;
     c_RefreshTokenLifetimeSeconds := c_RefreshTokenLifetimeSeconds c; c_CASVersion := c_CASVersion c;
     c_CASServiceURLs := c_CASServiceURLs c; c_CASProxy := c_CASProxy c; c_CASGateway := c_CASGateway c;
     c_CASRenew := c_CASRenew c; c_CASSingleLogout := c_CASSingleLogout c; c_Enabled := c_Enabled c;
     c_ArchivedAt := c_ArchivedAt c; c_SecretHash := c_SecretHash c |}.
Definition with_TokenLifetimes (v0 : Z) (v1 : Z) (c : Client) : Client :=
  {| c_ID := c_ID c; c_SystemID := c_SystemID c; c_System := c_System c; c_Name := c_Name c;
     c_Description := c_Description c; c_FaviconURL := c_FaviconURL c; c_LaunchURI := c_LaunchURI c;
     c_ApplicationType := c_ApplicationType c; c_TokenEndpointAuthMethod := c_TokenEndpointAuthMethod c;
     c_Protocols := c_Protocols c; c_GrantTypes := c_GrantTypes c; c_RedirectURIs := c_RedirectURIs c;
     c_PostLogoutRedirectURIs := c_PostLogoutRedirectURIs c; c_BackchannelLogoutURI := c_BackchannelLogoutURI c;
     c_BackchannelLogoutSessionRequired := c_BackchannelLogoutSessionRequired c;
     c_LoginMethods := c_LoginMethods c; c_IdentitySourceIDs := c_IdentitySourceIDs c;
     c_IntrospectableBy := c_IntrospectableBy c; c_AllowedScopes := c_AllowedScopes c;
     c_AccessTokenLifetimeSeconds := v0; c_RefreshTokenLifetimeSeconds := v1; c_CASVersion := c_CASVersion c;
     c_CASServiceURLs := c_CASServiceURLs c; c_CASProxy := c_CASProxy c; c_CASGateway := c_CASGateway c;
     c_CASRenew := c_CASRenew c; c_CASSingleLogout := c_CASSingleLogout c; c_Enabled := c_Enabled c;
     c_ArchivedAt := c_ArchivedAt c; c_SecretHash := c_SecretHash c |}.
Definition with_Enabled (v : bool) (c : Client) : Client :=
  {| c_ID := c_ID c; c_SystemID := c_SystemID c; c_System := c_System c; c_Name := c_Name c;
     c_Description := c_Description c; c_FaviconURL := c_FaviconURL c; c_LaunchURI := c_LaunchURI c;
     c_ApplicationType := c_ApplicationType c; c_TokenEndpointAuthMethod := c_TokenEndpointAuthMethod c;
     c_Protocols := c_Protocols c; c_GrantTypes := c_GrantTypes c; c_RedirectURIs := c_RedirectURIs c;
     c_PostLogoutRedirectURIs := c_PostLogoutRedirectURIs c; c_BackchannelLogoutURI := c_BackchannelLogoutURI c;
     c_BackchannelLogoutSessionRequired := c_BackchannelLogoutSessionRequired c;
     c_LoginMethods := c_LoginMethods c; c_IdentitySourceIDs := c_IdentitySourceIDs c;
     c_IntrospectableBy := c_IntrospectableBy c; c_AllowedScopes := c_AllowedScopes c;
     c_AccessTokenLifetimeSeconds := c_AccessTokenLifetimeSeconds c;
     c_RefreshTokenLifetimeSeconds := c_RefreshTokenLifetimeSeconds c; c_CASVersion := c_CASVersion c;
     c_CASServiceURLs := c_CASServiceURLs c; c_CASProxy := c_CASProxy c; c_CASGateway := c_CASGateway c;
     c_CASRenew := c_CASRenew c; c_CASSingleLogout := c_CASSingleLogout c; c_Enabled := v;
     c_ArchivedAt := c_ArchivedAt c; c_SecretHash := c_SecretHash c |}.
Definition with_ArchivedAt (v : option Time) (c : Client) : Client :=
  {| c_ID := c_ID c; c_SystemID := c_SystemID c; c_System := c_System c; c_Name := c_Name c;
     c_Description := c_Description c; c_FaviconURL := c_FaviconURL c; c_LaunchURI := c_LaunchURI c;
     c_ApplicationType := c_ApplicationType c; c_TokenEndpointAuthMethod := c_TokenEndpointAuthMethod c;
     c_Protocols := c_Protocols c; c_GrantTypes := c_GrantTypes c; c_RedirectURIs := c_RedirectURIs c;
     c_PostLogoutRedirectURIs := c_PostLogoutRedirectURIs c; c_BackchannelLogoutURI := c_BackchannelLogoutURI c;
     c_BackchannelLogoutSessionRequired := c_BackchannelLogoutSessionRequired c;
     c_LoginMethods := c_LoginMethods c; c_IdentitySourceIDs := c_IdentitySourceIDs c;
     c_IntrospectableBy := c_IntrospectableBy c; c_AllowedScopes := c_AllowedScopes c;
     c_AccessTokenLifetimeSeconds := c_AccessTokenLifetimeSeconds c;
     c_RefreshTokenLifetimeSeconds := c_RefreshTokenLifetimeSeconds c; c_CASVersion := c_CASVersion c;
     c_CASServiceURLs := c_CASServiceURLs c; c_CASProxy := c_CASProxy c; c_CASGateway := c_CASGateway c;
     c_CASRenew := c_CASRenew c; c_CASSingleLogout := c_CASSingleLogout c; c_Enabled := c_Enabled c;
     c_ArchivedAt := v; c_SecretHash := c_SecretHash c |}.
Definition with_SecretHash (v : string) (c : Client) : Client :=
  {| c_ID := c_ID c; c_SystemID := c_SystemID c; c_System := c_System c; c_Name := c_Name c;
     c_Description := c_Description c; c_FaviconURL := c_FaviconURL c; c_LaunchURI := c_LaunchURI c;
     c_ApplicationType := c_ApplicationType c; c_TokenEndpointAuthMethod := c_TokenEndpointAuthMethod c;
     c_Protocols := c_Protocols c; c_GrantTypes := c_GrantTypes c; c_RedirectURIs := c_RedirectURIs c;
     c_PostLogoutRedirectURIs := c_PostLogoutRedirectURIs c; c_BackchannelLogoutURI := c_BackchannelLogoutURI c;
     c_BackchannelLogoutSessionRequired := c_BackchannelLogoutSessionRequired c;
     c_LoginMethods := c_LoginMethods c; c_IdentitySourceIDs := c_IdentitySourceIDs c;
     c_IntrospectableBy := c_IntrospectableBy c; c_AllowedScopes := c_AllowedScopes c;
     c_AccessTokenLifetimeSeconds := c_AccessTokenLifetimeSeconds c;
     c_RefreshTokenLifetimeSeconds := c_RefreshTokenLifetimeSeconds c; c_CASVersion := c_CASVersion c;
     c_CASServiceURLs := c_CASServiceURLs c; c_CASProxy := c_CASProxy c; c_CASGateway := c_CASGateway c;
     c_CASRenew := c_CASRenew c; c_CASSingleLogout := c_CASSingleLogout c; c_Enabled := c_Enabled c;
     c_ArchivedAt := c_ArchivedAt c; c_SecretHash := v |}.

(** ** Reading a client *)

(** [internal/client/client.go:938-943] effectiveTokenLifetime *)
Definition effectiveTokenLifetime (value : Z) (fallback : Duration) : Duration :=
  if decide (value ≤ 0) then fallback else wrap64 (value * Second).

(** [internal/client/client.go:226-228] Client.AccessTokenLifetime *)
Definition AccessTokenLifetime (c : Client) : Duration :=
  effectiveTokenLifetime (c_AccessTokenLifetimeSeconds c) DefaultAccessTokenLifetime.
(** [internal/client/client.go:230-232] Client.RefreshTokenLifetime *)
Definition RefreshTokenLifetime (c : Client) : Duration :=
  effectiveTokenLifetime (c_RefreshTokenLifetimeSeconds c) DefaultRefreshTokenLifetime.

Section Registered.
Context `{URLParser}.

(** An absolute URL without fragment, as the redirect checks require. *)
Definition absolute_url (candidate : string) : bool :=
  match url_Parse candidate with
  | None => false
  | Some parsed => IsAbs parsed && bool_decide (u_Fragment parsed = ""%string)
  end.
End Registered.

(** [internal/client/client.go:206-212] Client.AllowsRedirectURI *)
Definition AllowsRedirectURI `{URLParser} (c : Client) (candidate : string) : bool :=
  if negb (absolute_url candidate) then false else Contains (c_RedirectURIs c) candidate.

(** [internal/client/client.go:214-220] Client.AllowsPostLogoutRedirectURI *)
Definition AllowsPostLogoutRedirectURI `{URLParser} (c : Client) (candidate : string) : bool :=
  if negb (absolute_url candidate) then false else Contains (c_PostLogoutRedirectURIs c) candidate.

(** [internal/client/client.go:222-224] Client.AllowsIntrospectionBy *)
Definition AllowsIntrospectionBy (c : Client) (candidate : string) : bool :=
  bool_decide (c_ID c = candidate) || Contains (c_IntrospectableBy c) candidate.

(** [internal/client/client.go:234-239] Client.DisplayName *)
Definition DisplayName (c : Client) : string :=
  match c_System c with Some s => sy_Name s | None => c_Name c end.
(** [internal/client/client.go:241-246] Client.DisplayDescription *)
Definition DisplayDescription (c : Client) : string :=
  match c_System c with Some s => sy_Description s | None => c_Description c end.
(** [internal/client/client.go:248-253] Client.DisplayFaviconURL *)
Definition DisplayFaviconURL (c : Client) : string :=
  match c_System c with Some s => sy_FaviconURL s | None => c_FaviconURL c end.

(** [internal/client/client.go:821-823] Client.SupportsProtocol *)
Definition SupportsProtocol (c : Client) (protocol : string) : bool := Contains (c_Protocols c) protocol.
(** [internal/client/client.go:825-827] Client.SupportsOAuth *)
Definition SupportsOAuth (c : Client) : bool := SupportsProtocol c ProtocolOAuth20 || SupportsProtocol c ProtocolOAuth21.
(** [internal/client/client.go:829-831] Client.SupportsGrant *)
Definition SupportsGrant (c : Client) (grant : string) : bool := Contains (c_GrantTypes c) grant.

(** [internal/client/client.go:840-845] defaultTokenEndpointAuthMethod *)
Definition defaultTokenEndpointAuthMethod (applicationType : string) : string :=
  if decide (applicationType = ApplicationConfidential) then TokenEndpointAuthSecretBasic else TokenEndpointAuthNone.

(** [internal/client/client.go:833-838] Client.EffectiveTokenEndpointAuthMethod *)
Definition EffectiveTokenEndpointAuthMethod (c : Client) : string :=
  if decide (c_TokenEndpointAuthMethod c = ""%string)
  then defaultTokenEndpointAuthMethod (c_ApplicationType c) else c_TokenEndpointAuthMethod c.

(** ** Normalization *)

(** [internal/client/client.go:847-852] normalizedTokenLifetimeSeconds *)
Definition normalizedTokenLifetimeSeconds (value : Z) (fallback : Duration) : Z :=
  if decide (value = 0) then Z.quot fallback Second else value.

(** [internal/client/client.go:907-913] effectiveSystemID *)
Definition effectiveSystemID `{UnicodeTables} (value fallback : string) : string :=
  let value := ToLower (TrimSpace value) in
  if decide (value = ""%string) then ToLower (TrimSpace fallback) else value.

(** [internal/client/client.go:915-924] systemFromClient *)
Definition systemFromClient `{UnicodeTables} (item : Client) : System :=
  {| sy_ID := effectiveSystemID (c_SystemID item) (c_ID item); sy_Name := c_Name item;
     sy_Description := c_Description item; sy_FaviconURL := c_FaviconURL item; sy_LaunchURI := c_LaunchURI item;
     sy_PortalVisible := negb (bool_decide (c_LaunchURI item = ""%string)) |}.

(** [internal/client/client.go:926-936] withDefaultTokenLifetimes *)
Definition withDefaultTokenLifetimes (item : Client) : Client :=
  with_TokenLifetimes
    (normalizedTokenLifetimeSeconds (c_AccessTokenLifetimeSeconds item) DefaultAccessTokenLifetime)
    (normalizedTokenLifetimeSeconds (c_RefreshTokenLifetimeSeconds item) DefaultRefreshTokenLifetime) item.

(** The loop of the [unique...] functions: each value normalized, empty ones and
    those already seen skipped. *)
Fixpoint unique_by (norm : string → option string) (seen : gset string) (values : list string) : list string :=
  match values with
  | [] => []
  | value :: rest =>
      match norm value with
      | None => unique_by norm seen rest
      | Some value =>
          if decide (value ∈ seen) then unique_by norm seen rest
          else value :: unique_by norm ({[ value ]} ∪ seen) rest
      end
  end.

Definition trimmed (value : string) : option string :=
  let value := TrimSpace value in if decide (value = ""%string) then None else Some value.
Definition lowered `{UnicodeTables} (value : string) : option string :=
  let value := ToLower (TrimSpace value) in if decide (value = ""%string) then None else Some value.

(** [internal/client/client.go:979-994] uniqueStrings *)
Definition uniqueStrings (values : list string) : list string := unique_by trimmed ∅ values.
(** [internal/client/client.go:996-1007] uniqueMethods *)
Definition uniqueMethods (values : list string) : list string := unique_by Some ∅ values.
(** [internal/client/client.go:1009-1024] uniqueSourceIDs *)
Definition uniqueSourceIDs `{UnicodeTables} (values : list string) : list string := unique_by lowered ∅ values.
(** [internal/client/client.go:1026-1028] uniqueClientIDs *)
Definition uniqueClientIDs `{UnicodeTables} (values : list string) : list string := uniqueSourceIDs values.
(** [internal/client/client.go:1030-1041] uniqueProtocols *)
Definition uniqueProtocols (values : list string) : list string := unique_by Some ∅ values.
(** [internal/client/client.go:1043-1054] uniqueGrantTypes *)
Definition uniqueGrantTypes (values : list string) : list string := unique_by Some ∅ values.

(** ** Validation *)

(** [internal/client/client.go:496] clientIDPattern: [^[a-z0-9][a-z0-9_-]{1,62}$] *)
Definition clientIDPattern : string → bool :=
  match_head_tail is_alnum_lower (λ b, is_alnum_lower b || is_one_of "_-" b) 1 62.
(** [internal/client/client.go:497] scopePattern: [^[a-zA-Z0-9._:/-]{1,64}$] *)
Definition scopePattern : string → bool :=
  match_class (λ b, is_alnum_lower b || is_upper b || is_one_of "._:/-" b) 1 64.

(** [internal/client/client.go:963-977] validEndpointURL *)
Definition validEndpointURL `{URLParser, UnicodeTables} (value : string) : bool :=
  match url_Parse value with
  | None => false
  | Some parsed =>
      if decide (u_Host parsed = ""%string ∨ u_Fragment parsed ≠ ""%string ∨ u_HasUser parsed = true) then false
      else if decide (u_Scheme parsed = "https"%string) then true
      else if decide (u_Scheme parsed ≠ "http"%string) then false
      else EqualFold (u_Hostname parsed) "localhost" || ip_IsLoopback (u_Hostname parsed)
  end.

(** [internal/client/client.go:945-961] validateTokenLifetime *)
Definition validateTokenLifetime (name : string) (value : Z) (minimum maximum : Duration) : Res clientError unit :=
  if decide (value = 0) then Ok ()
  else if decide (value < Z.quot minimum Second ∨ value > Z.quot maximum Second)
  then Err (ErrInvalid name) else Ok ().

(** [if cond { return error }]. *)
Definition reject_if (cond : bool) (reason : string) : Res clientError unit :=
  if cond then Err (ErrInvalid reason) else Ok ().

Notation "a ;; b" := (res_bind a (λ _, b)) (at level 100, b at level 200, right associativity) : go_scope.

Section Validate.
Context `{URLParser, UnicodeTables}.
Local Open Scope go_scope.

Definition empty (s : string) : bool := bool_decide (s = ""%string).
Definition bad_url (value : string) : bool :=
  negb (empty value) && (bool_decide (len value > 2048) || negb (validEndpointURL value)).

(** The OAuth part of a client: grant types and what they require. *)
Definition validate_grants (c : Client) : Res clientError unit :=
  if negb (SupportsOAuth c) then Ok () else
  reject_if (bool_decide (c_GrantTypes c = [])) "OAuth clients require grant_types" ;;
  reject_if (negb (forallb (Contains [GrantAuthorizationCode; GrantRefreshToken; GrantClientCredentials; GrantDeviceCode])
                           (c_GrantTypes c))) "unsupported or unsafe grant_type" ;;
  reject_if (SupportsGrant c GrantClientCredentials && negb (bool_decide (c_ApplicationType c = ApplicationConfidential)))
    "client_credentials requires a confidential client" ;;
  reject_if (SupportsGrant c GrantRefreshToken && negb (SupportsGrant c GrantAuthorizationCode) &&
             negb (SupportsGrant c GrantDeviceCode)) "refresh_token requires authorization_code or device_code" ;;
  reject_if (SupportsGrant c GrantAuthorizationCode && bool_decide (c_RedirectURIs c = []))
    "authorization_code requires redirect_uris".

(** Redirect, post-logout and back-channel addresses. *)
Definition validate_addresses (c : Client) : Res clientError unit :=
  reject_if (bool_decide (20 < length (c_RedirectURIs c))%nat) "redirect_uris supports at most 20 entries" ;;
  reject_if (negb (forallb validEndpointURL (c_RedirectURIs c))) "invalid redirect_uri" ;;
  reject_if (bool_decide (20 < length (c_PostLogoutRedirectURIs c))%nat) "post_logout_redirect_uris supports at most 20 entries" ;;
  reject_if (negb (bool_decide (c_PostLogoutRedirectURIs c = [])) && negb (SupportsOAuth c))
    "post_logout_redirect_uris require OAuth/OIDC" ;;
  reject_if (negb (forallb validEndpointURL (c_PostLogoutRedirectURIs c))) "invalid post_logout_redirect_uri" ;;
  if negb (empty (c_BackchannelLogoutURI c)) then
    reject_if (negb (SupportsOAuth c)) "backchannel_logout_uri requires OAuth/OIDC" ;;
    reject_if (negb (validEndpointURL (c_BackchannelLogoutURI c))) "invalid backchannel_logout_uri"
  else reject_if (c_BackchannelLogoutSessionRequired c) "backchannel_logout_session_required requires backchannel_logout_uri".

(** Login methods, identity sources and introspection permissions. *)
Definition validate_permissions (c : Client) : Res clientError unit :=
  let interactive := SupportsProtocol c ProtocolCAS || SupportsGrant c GrantAuthorizationCode ||
                     SupportsGrant c GrantDeviceCode in
  reject_if (interactive && bool_decide (c_LoginMethods c = [])) "at least one login_method is required" ;;
  reject_if (negb (forallb (Contains [LoginPassword; LoginLDAP; LoginOIDC]) (c_LoginMethods c))) "unsupported login_method" ;;
  reject_if (bool_decide (20 < length (c_IdentitySourceIDs c))%nat) "identity_source_ids supports at most 20 entries" ;;
  reject_if (negb (bool_decide (c_IdentitySourceIDs c = [])) && negb (Contains (c_LoginMethods c) LoginLDAP) &&
             negb (Contains (c_LoginMethods c) LoginOIDC)) "identity_source_ids require ldap or oidc login methods" ;;
  reject_if (negb (forallb clientIDPattern (c_IdentitySourceIDs c))) "invalid identity_source_id" ;;
  reject_if (bool_decide (20 < length (c_IntrospectableBy c))%nat) "introspectable_by supports at most 20 entries" ;;
  reject_if (negb (bool_decide (c_IntrospectableBy c = [])) && negb (SupportsOAuth c)) "introspectable_by requires OAuth/OIDC" ;;
  reject_if (negb (forallb (λ i, clientIDPattern i && negb (bool_decide (i = c_ID c))) (c_IntrospectableBy c)))
    "invalid introspectable_by client id".

(** Scopes and token lifetimes. *)
Definition validate_tokens (c : Client) : Res clientError unit :=
  reject_if (negb (forallb scopePattern (c_AllowedScopes c))) "invalid scope" ;;
  validateTokenLifetime "access_token_lifetime_seconds" (c_AccessTokenLifetimeSeconds c)
    MinAccessTokenLifetime MaxAccessTokenLifetime ;;
  validateTokenLifetime "refresh_token_lifetime_seconds" (c_RefreshTokenLifetimeSeconds c)
    MinRefreshTokenLifetime MaxRefreshTokenLifetime ;;
  reject_if (bool_decide (RefreshTokenLifetime c < AccessTokenLifetime c))
    "refresh_token_lifetime_seconds must not be shorter than access_token_lifetime_seconds".

(** The CAS part of a client. *)
Definition validate_cas (c : Client) : Res clientError unit :=
  if negb (SupportsProtocol c ProtocolCAS) then Ok () else
  reject_if (negb (Contains [CASVersion1; CASVersion2; CASVersion3] (c_CASVersion c))) "unsupported cas_version" ;;
  reject_if (bool_decide (c_CASServiceURLs c = []) || bool_decide (20 < length (c_CASServiceURLs c))%nat)
    "CAS requires 1-20 cas_service_urls" ;;
  reject_if (negb (forallb validEndpointURL (c_CASServiceURLs c))) "invalid CAS service URL" ;;
  reject_if (c_CASProxy c && bool_decide (c_CASVersion c = CASVersion1)) "CAS proxy requires version 2.0 or 3.0".
End Validate.

(** [internal/client/client.go:650-819] Client.Validate: the checks in the order of
    the code, in the groups above. *)
Definition Validate `{URLParser, UnicodeTables} (c : Client) : Res clientError unit := (
  reject_if (negb (clientIDPattern (c_ID c))) "id" ;;
  reject_if (negb (clientIDPattern (c_SystemID c))) "system_id" ;;
  reject_if (empty (c_Name c) || bool_decide (rune_count (c_Name c) > 128)) "name must be 1-128 characters" ;;
  reject_if (bad_url (c_FaviconURL c)) "favicon_url" ;;
  reject_if (bad_url (c_LaunchURI c)) "launch_uri" ;;
  reject_if (negb (Contains [ApplicationPublic; ApplicationConfidential] (c_ApplicationType c)))
    "unsupported application_type" ;;
  reject_if (bool_decide (c_ApplicationType c = ApplicationPublic) &&
             negb (bool_decide (c_TokenEndpointAuthMethod c = TokenEndpointAuthNone)))
    "public clients require token_endpoint_auth_method none" ;;
  reject_if (bool_decide (c_ApplicationType c = ApplicationConfidential) &&
             negb (Contains [TokenEndpointAuthSecretBasic; TokenEndpointAuthSecretPost] (c_TokenEndpointAuthMethod c)))
    "confidential clients require client_secret_basic or client_secret_post" ;;
  reject_if (bool_decide (c_Protocols c = [])) "at least one protocol is required" ;;
  reject_if (negb (forallb (Contains [ProtocolOAuth20; ProtocolOAuth21; ProtocolCAS]) (c_Protocols c)))
    "unsupported protocol" ;;
  validate_grants c ;;
  validate_addresses c ;;
  validate_permissions c ;;
  validate_tokens c ;;
  validate_cas c)%go.

(** [internal/client/client.go:888-905] System.Validate *)
Definition ValidateSystem `{URLParser, UnicodeTables} (s : System) : Res clientError unit := (
  reject_if (negb (clientIDPattern (sy_ID s))) "system id" ;;
  reject_if (empty (sy_Name s) || bool_decide (rune_count (sy_Name s) > 128)) "system name must be 1-128 characters" ;;
  reject_if (bool_decide (rune_count (sy_Description s) > 512)) "system description must not exceed 512 characters" ;;
  reject_if (bad_url (sy_FaviconURL s)) "system favicon_url" ;;
  reject_if (bad_url (sy_LaunchURI s)) "system launch_uri")%go.

(** ** Registration *)

(** [internal/client/client.go:1056-1064] newSecret: [rnd] is the 32 bytes read. *)
Definition newSecret (rnd : Entropy) : Res clientError (string * string) :=
  match rnd with
  | None => Err ErrSecret
  | Some value => let secret := RawURLEncoding_EncodeToString value in Ok (secret, of_bytes (sha256 (bytes secret)))
  end.

Definition or_default (value fallback : string) : string := if decide (value = ""%string) then fallback else value.
Definition or_list (value fallback : list string) : list string := if decide (value = []) then fallback else value.

(** The defaults shared by [New] and [Replace], once the protocols are known. *)
Definition default_scopes : list string := ["openid"; "profile"; "email"]%string.
Definition default_grants (protocols grants : list string) : list string :=
  if (Contains protocols ProtocolOAuth20 || Contains protocols ProtocolOAuth21)
  then or_list grants [GrantAuthorizationCode; GrantRefreshToken] else grants.
Definition default_cas_version (protocols : list string) (version : string) : string :=
  if Contains protocols ProtocolCAS then or_default version CASVersion3 else version.

(** [internal/client/client.go:500-550] New, the client before validation *)
Definition new_item `{UnicodeTables} (input : CreateClient) : Client :=
  let clientID := ToLower (TrimSpace (cc_ID input)) in
  let applicationType := or_default (cc_ApplicationType input) ApplicationPublic in
  let protocols := or_list (uniqueProtocols (cc_Protocols input)) [ProtocolOAuth21] in
  {| c_ID := clientID;
     c_SystemID := effectiveSystemID (cc_SystemID input) clientID;
     c_System := None;
     c_Name := TrimSpace (cc_Name input);
     c_Description := TrimSpace (cc_Description input);
     c_FaviconURL := TrimSpace (cc_FaviconURL input);
     c_LaunchURI := TrimSpace (cc_LaunchURI input);
     c_ApplicationType := applicationType;
     c_TokenEndpointAuthMethod := or_default (cc_TokenEndpointAuthMethod input)
                                    (defaultTokenEndpointAuthMethod applicationType);
     c_Protocols := protocols;
     c_GrantTypes := default_grants protocols (uniqueGrantTypes (cc_GrantTypes input));
     c_RedirectURIs := uniqueStrings (cc_RedirectURIs input);
     c_PostLogoutRedirectURIs := uniqueStrings (cc_PostLogoutRedirectURIs input);
     c_BackchannelLogoutURI := TrimSpace (cc_BackchannelLogoutURI input);
     c_BackchannelLogoutSessionRequired := cc_BackchannelLogoutSessionRequired input;
     c_LoginMethods := uniqueMethods (cc_LoginMethods input);
     c_IdentitySourceIDs := uniqueSourceIDs (cc_IdentitySourceIDs input);
     c_IntrospectableBy := uniqueClientIDs (cc_IntrospectableBy input);
     c_AllowedScopes := or_list (uniqueStrings (cc_AllowedScopes input)) default_scopes;
     c_AccessTokenLifetimeSeconds :=
       normalizedTokenLifetimeSeconds (cc_AccessTokenLifetimeSeconds input) DefaultAccessTokenLifetime;
     c_RefreshTokenLifetimeSeconds :=
       normalizedTokenLifetimeSeconds (cc_RefreshTokenLifetimeSeconds input) DefaultRefreshTokenLifetime;
     c_CASVersion := default_cas_version protocols (cc_CASVersion input);
     c_CASServiceURLs := uniqueStrings (cc_CASServiceURLs input);
     c_CASProxy := cc_CASProxy input;
     c_CASGateway := cc_CASGateway input;
     c_CASRenew := cc_CASRenew input;
     c_CASSingleLogout := cc_CASSingleLogout input;
     c_Enabled := default true (cc_Enabled input);
     c_ArchivedAt := None;
     c_SecretHash := "" |}.

(** [internal/client/client.go:499-563] New *)
Definition New `{URLParser, UnicodeTables} (input : CreateClient) (rnd : Entropy) : Res clientError (Client * string) :=
  let item := new_item input in
  match Validate item with
  | Err e => Err e
  | Ok _ =>
      if decide (c_ApplicationType item = ApplicationPublic) then Ok (item, ""%string)
      else match newSecret rnd with
      | Err e => Err e
      | Ok (secret, hash) => Ok (with_SecretHash hash item, secret)
      end
  end.

(** [internal/client/client.go:569-628] Replace, the client before validation *)
Definition replaced_item `{UnicodeTables} (current : Client) (input : ReplaceClient) : Client :=
  let keep value previous fallback :=
    if decide (value = 0) then normalizedTokenLifetimeSeconds previous fallback else value in
  let protocols := uniqueProtocols (rc_Protocols input) in
  {| c_ID := c_ID current;
     c_SystemID := effectiveSystemID (rc_SystemID input) (c_SystemID current);
     c_System := None;
     c_Name := TrimSpace (rc_Name input);
     c_Description := TrimSpace (rc_Description input);
     c_FaviconURL := TrimSpace (rc_FaviconURL input);
     c_LaunchURI := TrimSpace (rc_LaunchURI input);
     c_ApplicationType := c_ApplicationType current;
     c_TokenEndpointAuthMethod := or_default (rc_TokenEndpointAuthMethod input)
                                    (defaultTokenEndpointAuthMethod (c_ApplicationType current));
     c_Protocols := protocols;
     c_GrantTypes := default_grants protocols (uniqueGrantTypes (rc_GrantTypes input));
     c_RedirectURIs := uniqueStrings (rc_RedirectURIs input);
     c_PostLogoutRedirectURIs := uniqueStrings (rc_PostLogoutRedirectURIs input);
     c_BackchannelLogoutURI := TrimSpace (rc_BackchannelLogoutURI input);
     c_BackchannelLogoutSessionRequired := rc_BackchannelLogoutSessionRequired input;
     c_LoginMethods := uniqueMethods (rc_LoginMethods input);
     c_IdentitySourceIDs := uniqueSourceIDs (rc_IdentitySourceIDs input);
     c_IntrospectableBy := uniqueClientIDs (rc_IntrospectableBy input);
     c_AllowedScopes := or_list (uniqueStrings (rc_AllowedScopes input)) default_scopes;
     c_AccessTokenLifetimeSeconds :=
       keep (rc_AccessTokenLifetimeSeconds input) (c_AccessTokenLifetimeSeconds current) DefaultAccessTokenLifetime;
     c_RefreshTokenLifetimeSeconds :=
       keep (rc_RefreshTokenLifetimeSeconds input) (c_RefreshTokenLifetimeSeconds current) DefaultRefreshTokenLifetime;
     c_CASVersion := default_cas_version protocols (rc_CASVersion input);
     c_CASServiceURLs := uniqueStrings (rc_CASServiceURLs input);
     c_CASProxy := rc_CASProxy input;
     c_CASGateway := rc_CASGateway input;
     c_CASRenew := rc_CASRenew input;
     c_CASSingleLogout := rc_CASSingleLogout input;
     c_Enabled := default (c_Enabled current) (rc_Enabled input);
     c_ArchivedAt := None;
     c_SecretHash := c_SecretHash current |}.

(** [internal/client/client.go:565-633] Replace *)
Definition Replace `{URLParser, UnicodeTables} (current : Client) (input : ReplaceClient) : Res clientError Client :=
  if decide (c_ArchivedAt current ≠ None) then Err ErrArchived
  else
    let item := replaced_item current input in
    match Validate item with Err e => Err e | Ok _ => Ok item end.

(** [internal/client/client.go:635-648] RotateSecret *)
Definition RotateSecret (current : Client) (rnd : Entropy) : Res clientError (Client * string) :=
  if decide (c_ArchivedAt current ≠ None) then Err ErrArchived
  else if decide (c_ApplicationType current ≠ ApplicationConfidential)
  then Err (ErrInvalid "only confidential clients have secrets")
  else match newSecret rnd with
  | Err e => Err e
  | Ok (secret, hash) => Ok (with_SecretHash hash current, secret)
  end.

(** [internal/client/client.go:854-871] NewSystem *)
Definition NewSystem `{URLParser, UnicodeTables} (input : CreateSystem) : Res clientError System :=
  let item := {| sy_ID := ToLower (TrimSpace (cs_ID input)); sy_Name := TrimSpace (cs_Name input);
                 sy_Description := TrimSpace (cs_Description input); sy_FaviconURL := TrimSpace (cs_FaviconURL input);
                 sy_LaunchURI := TrimSpace (cs_LaunchURI input);
                 sy_PortalVisible := default true (cs_PortalVisible input) |} in
  match ValidateSystem item with Err e => Err e | Ok _ => Ok item end.

(** [internal/client/client.go:873-886] ReplaceSystem *)
Definition ReplaceSystem `{URLParser, UnicodeTables} (current : System) (input : ReplaceSystemInput) : Res clientError System :=
  let item := {| sy_ID := sy_ID current; sy_Name := TrimSpace (rs_Name input);
                 sy_Description := TrimSpace (rs_Description input); sy_FaviconURL := TrimSpace (rs_FaviconURL input);
                 sy_LaunchURI := TrimSpace (rs_LaunchURI input); sy_PortalVisible := rs_PortalVisible input |} in
  match ValidateSystem item with Err e => Err e | Ok _ => Ok item end.

(** ** The store *)

(** [internal/client/client.go:270-276] MemoryRepository *)
Record ClientRepository := {
  systems : gmap string System;
  systemOrder : list string;
  clients : gmap string Client;
  order : list string;
}.

Definition set_systems m o (r : ClientRepository) : ClientRepository :=
  {| systems := m; systemOrder := o; clients := clients r; order := order r |}.
Definition set_clients m o (r : ClientRepository) : ClientRepository :=
  {| systems := systems r; systemOrder := systemOrder r; clients := m; order := o |}.

(** [internal/client/client.go:352-358] ensureSystem *)
Definition ensureSystem `{UnicodeTables} (item : Client) (r : ClientRepository) : ClientRepository :=
  if decide (is_Some (systems r !! c_SystemID item)) then r
  else set_systems (<[c_SystemID item := systemFromClient item]> (systems r)) (systemOrder r ++ [c_SystemID item]) r.

(** [internal/client/client.go:487-494] cloneWithSystem *)
Definition cloneWithSystem (r : ClientRepository) (item : Client) : Client :=
  match systems r !! c_SystemID item with
  | Some value => with_System (Some value) item
  | None => item
  end.

(** The defaults every write applies to a client. *)
Definition normalized `{UnicodeTables} (item : Client) : Client :=
  let item := withDefaultTokenLifetimes item in with_SystemID (effectiveSystemID (c_SystemID item) (c_ID item)) item.

(** [internal/client/client.go:278-293] NewMemoryRepository *)
Definition NewClientRepository `{UnicodeTables} (items : list Client) : ClientRepository :=
  foldl (λ r item,
    let item := normalized item in
    let r := ensureSystem item r in
    set_clients (<[c_ID item := item]> (clients r)) (order r ++ [c_ID item]) r)
  {| systems := ∅; systemOrder := []; clients := ∅; order := [] |} items.

(** The zero values of [r.systems[id]] and [r.clients[id]] for a missing key. *)
Definition zero_system : System :=
  {| sy_ID := ""; sy_Name := ""; sy_Description := ""; sy_FaviconURL := ""; sy_LaunchURI := ""; sy_PortalVisible := false |}.

(** [internal/client/client.go:295-303] ListSystems *)
Definition ListSystems (r : ClientRepository) : Res clientError (list System) :=
  Ok ((λ id, default zero_system (systems r !! id)) <$> systemOrder r).

(** [internal/client/client.go:305-313] FindSystem *)
Definition FindSystem (r : ClientRepository) (id : string) : Res clientError System :=
  match systems r !! id with Some item => Ok item | None => Err ErrSystemNotFound end.

(** [internal/client/client.go:315-324] CreateSystem *)
Definition CreateSystemRecord (r : ClientRepository) (item : System) : ClientRepository * Res clientError System :=
  if decide (is_Some (systems r !! sy_ID item)) then (r, Err ErrSystemConflict)
  else (set_systems (<[sy_ID item := item]> (systems r)) (systemOrder r ++ [sy_ID item]) r, Ok item).

(** [internal/client/client.go:326-334] ReplaceSystem *)
Definition ReplaceSystemRecord (r : ClientRepository) (item : System) : ClientRepository * Res clientError System :=
  if decide (systems r !! sy_ID item = None) then (r, Err ErrSystemNotFound)
  else (set_systems (<[sy_ID item := item]> (systems r)) (systemOrder r) r, Ok item).

(** [internal/client/client.go:336-350] DeleteSystem *)
Definition DeleteSystem `{MapRange} (r : ClientRepository) (id : string) : ClientRepository * Res clientError unit :=
  if decide (systems r !! id = None) then (r, Err ErrSystemNotFound)
  else if decide (Exists (λ kc, c_SystemID kc.2 = id) (range (clients r))) then (r, Err ErrSystemInUse)
  else (set_systems (delete id (systems r)) (filter (λ candidate, candidate ≠ id) (systemOrder r)) r, Ok ()).

(** [internal/client/client.go:360-368] List: every identifier of [order] has a client,
    by the invariant of the table. *)
Definition ListClients (r : ClientRepository) : Res clientError (list Client) :=
  Ok (cloneWithSystem r <$> omap (λ id, clients r !! id) (order r)).

(** [internal/client/client.go:370-378] Find *)
Definition FindClient (r : ClientRepository) (id : string) : Res clientError Client :=
  match clients r !! id with Some item => Ok (cloneWithSystem r item) | None => Err ClientNotFound end.

(** [internal/client/client.go:380-392] Create *)
Definition CreateClientRecord `{UnicodeTables} (r : ClientRepository) (item : Client) : ClientRepository * Res clientError Client :=
  let item := normalized item in
  if decide (is_Some (clients r !! c_ID item)) then (r, Err ErrConflict)
  else
    let r := ensureSystem item r in
    let r := set_clients (<[c_ID item := item]> (clients r)) (order r ++ [c_ID item]) r in
    (r, Ok (cloneWithSystem r item)).

(** [internal/client/client.go:394-408] Replace *)
Definition ReplaceClientRecord `{UnicodeTables} (r : ClientRepository) (item : Client) : ClientRepository * Res clientError Client :=
  let item := normalized item in
  match clients r !! c_ID item with
  | None => (r, Err ClientNotFound)
  | Some current =>
      if decide (c_ArchivedAt current ≠ None) then (r, Err ErrArchived)
      else
        let r := set_clients (<[c_ID item := item]> (clients r)) (order r) r in
        (r, Ok (cloneWithSystem r item))
  end.

(** [internal/client/client.go:410-423] RotateSecret *)
Definition RotateSecretRecord (r : ClientRepository) (id hash : string) : ClientRepository * Res clientError Client :=
  match clients r !! id with
  | None => (r, Err ClientNotFound)
  | Some item =>
      if decide (c_ArchivedAt item ≠ None) then (r, Err ErrArchived)
      else
        let item := with_SecretHash hash item in
        let r := set_clients (<[id := item]> (clients r)) (order r) r in
        (r, Ok (cloneWithSystem r item))
  end.

(** [internal/client/client.go:425-439] Archive *)
Definition Archive (r : ClientRepository) (id : string) (now : Time) : ClientRepository * Res clientError unit :=
  match clients r !! id with
  | None => (r, Err ClientNotFound)
  | Some item =>
      if decide (c_ArchivedAt item = None)
      then (set_clients (<[id := with_Enabled false (with_ArchivedAt (Some now) item)]> (clients r)) (order r) r, Ok ())
      else (r, Ok ())
  end.

(** A client that loses a permitted introspector. *)
Definition without_introspector (id : string) (c : Client) : Client :=
  with_IntrospectableBy (filter (λ candidate, candidate ≠ id) (c_IntrospectableBy c)) c.

(** [internal/client/client.go:441-463] DeleteArchived *)
Definition DeleteArchived `{MapRange} (r : ClientRepository) (id : string) : ClientRepository * Res clientError unit :=
  match clients r !! id with
  | None => (r, Err ClientNotFound)
  | Some item =>
      if decide (c_ArchivedAt item = None) then (r, Err ErrNotArchived)
      else
        (set_clients (range_update (λ kc, id ∈ c_IntrospectableBy kc.2) (without_introspector id) (delete id (clients r)))
           (filter (λ candidate, candidate ≠ id) (order r)) r, Ok ())
  end.

(** * Guarantees

    What the client registry guarantees: registered clients are safe to serve, an
    archived client is frozen, and deleting one leaves no trace of it. *)
(** ** Duplicates are removed *)

Lemma unique_by_fresh norm l : ∀ seen x, x ∈ unique_by norm seen l → x ∉ seen.
Proof.
  induction l as [|v l IH]; intros seen x; simpl; [by intros ?%not_elem_of_nil|].
  destruct (norm v) as [w|]; [|apply IH]. case_decide as Hw; [apply IH|].
  intros [->|Hx]%elem_of_cons; [done|]. apply IH in Hx. set_solver.
Qed.

Lemma unique_by_NoDup norm l : ∀ seen, NoDup (unique_by norm seen l).
Proof.
  induction l as [|v l IH]; intros seen; simpl; [constructor|]. destruct (norm v) as [w|]; [|apply IH].
  case_decide; [apply IH|]. constructor; [|apply IH]. intros Hin. apply unique_by_fresh in Hin. set_solver.
Qed.

(** Nothing is lost: the result holds exactly the normal forms not seen before. *)
Lemma elem_of_unique_by norm l : ∀ seen x, x ∈ unique_by norm seen l ↔ x ∉ seen ∧ ∃ v, v ∈ l ∧ norm v = Some x.
Proof.
  induction l as [|v l IH]; intros seen x; simpl; [set_solver|].
  destruct (norm v) as [w|] eqn:E.
  - case_decide as Hw; rewrite ?elem_of_cons, IH; [set_solver|].
    destruct (decide (x = w)) as [->|Hne]; [|set_solver]. split; [|by left]. intros _. split; [done|].
    exists v. split; [by left|done].
  - rewrite IH. set_solver.
Qed.

(** ** Validation *)

Lemma reject_if_ok b reason u : reject_if b reason = Ok u ↔ b = false.
Proof. unfold reject_if. destruct b, u; naive_solver. Qed.

Lemma validateTokenLifetime_ok name value minimum maximum u :
  validateTokenLifetime name value minimum maximum = Ok u ↔
  value = 0 ∨ Z.quot minimum Second ≤ value ≤ Z.quot maximum Second.
Proof. unfold validateTokenLifetime. destruct u. repeat case_decide; split; intros; try done; lia. Qed.

(** Open a chain of checks that all passed. *)
Ltac checks :=
  repeat match goal with
  | H : res_bind _ _ = Ok _ |- _ => apply res_bind_ok in H as (? & ? & ?)
  | H : reject_if _ _ = Ok _ |- _ => apply reject_if_ok in H
  | H : validateTokenLifetime _ _ _ _ = Ok _ |- _ => apply validateTokenLifetime_ok in H
  end.

Section Safe.
Context `{URLParser, UnicodeTables}.

(** What the endpoints rely on for a registered client. *)
Record client_safe (c : Client) : Prop := {
  safe_id : clientIDPattern (c_ID c) = true;
  safe_type : c_ApplicationType c = ApplicationPublic ∨ c_ApplicationType c = ApplicationConfidential;
  safe_method : c_ApplicationType c = ApplicationPublic → c_TokenEndpointAuthMethod c = TokenEndpointAuthNone;
  safe_protocols : c_Protocols c ≠ [];
  safe_credentials_grant : SupportsOAuth c = true → SupportsGrant c GrantClientCredentials = true →
    c_ApplicationType c = ApplicationConfidential;
  safe_code_grant : SupportsOAuth c = true → SupportsGrant c GrantAuthorizationCode = true → c_RedirectURIs c ≠ [];
  safe_redirects : NoDup (c_RedirectURIs c) ∧ (length (c_RedirectURIs c) ≤ 20)%nat ∧
    ∀ uri, uri ∈ c_RedirectURIs c → validEndpointURL uri = true;
  safe_cas : SupportsProtocol c ProtocolCAS = true →
    ∀ uri, uri ∈ c_CASServiceURLs c → validEndpointURL uri = true;
  safe_introspection : ∀ id, id ∈ c_IntrospectableBy c → clientIDPattern id = true ∧ id ≠ c_ID c;
  safe_access : AccessTokenLifetime c = c_AccessTokenLifetimeSeconds c * Second ∧
    Minute ≤ AccessTokenLifetime c ≤ 24 * Hour;
  safe_refresh : RefreshTokenLifetime c = c_RefreshTokenLifetimeSeconds c * Second ∧
    Hour ≤ RefreshTokenLifetime c ≤ 365 * 24 * Hour;
  safe_order : AccessTokenLifetime c ≤ RefreshTokenLifetime c;
}.

Lemma lifetime_exact value fallback lo hi :
  value ≠ 0 → value = 0 ∨ Z.quot lo Second ≤ value ≤ Z.quot hi Second →
  0 < Z.quot lo Second → Z.quot hi Second ≤ 365 * 24 * 3600 →
  effectiveTokenLifetime value fallback = value * Second.
Proof.
  intros Hne [?|[Hlo Hhi]] Hl Hh; [done|]. unfold effectiveTokenLifetime. rewrite decide_False by lia.
  apply wrap64_id. unfold in_int64, min_int64, max_int64, Second. lia.
Qed.

Lemma forallb_elem {A} (f : A → bool) l x : negb (forallb f l) = false → x ∈ l → f x = true.
Proof. rewrite negb_false_iff, forallb_forall. intros Hf Hx. by apply Hf, list_elem_of_In. Qed.

(** The checks of each group that the invariant needs. *)
Lemma grants_ok c : validate_grants c = Ok () → SupportsOAuth c = true →
  (SupportsGrant c GrantClientCredentials = true → c_ApplicationType c = ApplicationConfidential) ∧
  (SupportsGrant c GrantAuthorizationCode = true → c_RedirectURIs c ≠ []).
Proof.
  unfold validate_grants. intros Hv Ho. rewrite Ho in Hv. simpl in Hv. checks. split; intros Hg.
  - match goal with H : SupportsGrant c GrantClientCredentials && _ = false |- _ =>
      rewrite Hg, andb_true_l, negb_false_iff, bool_decide_eq_true in H; exact H end.
  - match goal with H : SupportsGrant c GrantAuthorizationCode && bool_decide _ = false |- _ =>
      rewrite Hg, andb_true_l, bool_decide_eq_false in H; exact H end.
Qed.

Lemma addresses_ok c : validate_addresses c = Ok () →
  (length (c_RedirectURIs c) ≤ 20)%nat ∧ ∀ uri, uri ∈ c_RedirectURIs c → validEndpointURL uri = true.
Proof.
  unfold validate_addresses. intros Hv. checks. split.
  - match goal with H : bool_decide (20 < length (c_RedirectURIs c))%nat = false |- _ =>
      apply bool_decide_eq_false in H; lia end.
  - intros uri Hin. match goal with H : negb (forallb validEndpointURL (c_RedirectURIs c)) = false |- _ =>
      exact (forallb_elem _ _ _ H Hin) end.
Qed.

Lemma permissions_ok c : validate_permissions c = Ok () →
  ∀ id, id ∈ c_IntrospectableBy c → clientIDPattern id = true ∧ id ≠ c_ID c.
Proof.
  unfold validate_permissions. intros Hv id Hin. checks.
  match goal with H : negb (forallb _ (c_IntrospectableBy c)) = false |- _ =>
    pose proof (forallb_elem _ _ _ H Hin) as Hf end. simpl in Hf.
  apply andb_true_iff in Hf as [? Hf]. split; [done|]. by rewrite negb_true_iff, bool_decide_eq_false in Hf.
Qed.

Lemma cas_ok c : validate_cas c = Ok () → SupportsProtocol c ProtocolCAS = true →
  ∀ uri, uri ∈ c_CASServiceURLs c → validEndpointURL uri = true.
Proof.
  unfold validate_cas. intros Hv Hc uri Hin. rewrite Hc in Hv. simpl in Hv. checks.
  match goal with H : negb (forallb validEndpointURL _) = false |- _ => exact (forallb_elem _ _ _ H Hin) end.
Qed.

Lemma tokens_ok c : validate_tokens c = Ok () →
  c_AccessTokenLifetimeSeconds c ≠ 0 → c_RefreshTokenLifetimeSeconds c ≠ 0 →
  (AccessTokenLifetime c = c_AccessTokenLifetimeSeconds c * Second ∧ Minute ≤ AccessTokenLifetime c ≤ 24 * Hour) ∧
  (RefreshTokenLifetime c = c_RefreshTokenLifetimeSeconds c * Second ∧ Hour ≤ RefreshTokenLifetime c ≤ 365 * 24 * Hour) ∧
  AccessTokenLifetime c ≤ RefreshTokenLifetime c.
Proof.
  unfold validate_tokens. intros Hv Ha Hr. checks.
  match goal with H : bool_decide (_ < _) = false |- _ => apply bool_decide_eq_false in H end.
  assert (AccessTokenLifetime c = c_AccessTokenLifetimeSeconds c * Second) as EA
    by (eapply lifetime_exact; [exact Ha|eassumption|vm_compute; done|vm_compute; done]).
  assert (RefreshTokenLifetime c = c_RefreshTokenLifetimeSeconds c * Second) as ER
    by (eapply lifetime_exact; [exact Hr|eassumption|vm_compute; done|vm_compute; done]).
  change (Z.quot MinAccessTokenLifetime Second) with 60 in *. change (Z.quot MaxAccessTokenLifetime Second) with 86400 in *.
  change (Z.quot MinRefreshTokenLifetime Second) with 3600 in *.
  change (Z.quot MaxRefreshTokenLifetime Second) with 31536000 in *.
  unfold Minute, Hour, Minute, Second in *. lia.
Qed.

Lemma Validate_safe c :
  Validate c = Ok () → NoDup (c_RedirectURIs c) →
  c_AccessTokenLifetimeSeconds c ≠ 0 → c_RefreshTokenLifetimeSeconds c ≠ 0 → client_safe c.
Proof.
  unfold Validate. intros Hv Hnd Ha Hr. checks.
  repeat match goal with x : () |- _ => destruct x end.
  match goal with H : validate_grants c = _ |- _ => pose proof (grants_ok c H) as Hg end.
  match goal with H : validate_addresses c = _ |- _ => destruct (addresses_ok c H) as [Hlen Huri] end.
  match goal with H : validate_permissions c = _ |- _ => pose proof (permissions_ok c H) as Hi end.
  match goal with H : validate_tokens c = _ |- _ => destruct (tokens_ok c H Ha Hr) as (Hacc & Href & Hle) end.
  match goal with H : validate_cas c = _ |- _ => pose proof (cas_ok c H) as Hcas end.
  repeat match goal with
  | H : negb _ = false |- _ => apply negb_false_iff in H
  | H : Contains _ _ = true |- _ => apply Contains_true in H
  | H : bool_decide _ = false |- _ => apply bool_decide_eq_false in H
  end.
  split; try done.
  - match goal with H : c_ApplicationType c ∈ _ |- _ => revert H end. set_solver.
  - intros Hp. match goal with H : bool_decide (c_ApplicationType c = ApplicationPublic) && _ = false |- _ =>
      rewrite (bool_decide_true _ Hp), andb_true_l, negb_false_iff, bool_decide_eq_true in H; exact H end.
  - intros Ho. by apply Hg.
  - intros Ho. by apply Hg.
Qed.

Lemma seconds_nonzero value fallback : Z.quot fallback Second ≠ 0 → normalizedTokenLifetimeSeconds value fallback ≠ 0.
Proof. unfold normalizedTokenLifetimeSeconds. case_decide; [done|]. done. Qed.

Lemma safe_with_secret hash c : client_safe c → client_safe (with_SecretHash hash c).
Proof. intros []. by split. Qed.

(** Public clients have no secret; of a confidential client's secret, which carries
    all the random bytes read, only the SHA-256 hash is kept. *)
Definition secret_kept (c : Client) (secret : string) (rnd : Entropy) : Prop :=
  if decide (c_ApplicationType c = ApplicationPublic) then secret = ""%string ∧ c_SecretHash c = ""%string
  else ∃ value, rnd = Some value ∧ c_SecretHash c = of_bytes (sha256 (bytes secret)) ∧
       (Forall is_byte value → RawURLEncoding_DecodeString secret = Some value).

Lemma newSecret_kept rnd secret hash : newSecret rnd = Ok (secret, hash) →
  ∃ value, rnd = Some value ∧ hash = of_bytes (sha256 (bytes secret)) ∧
    (Forall is_byte value → RawURLEncoding_DecodeString secret = Some value).
Proof.
  unfold newSecret. destruct rnd as [value|]; [|done]. intros [= <- <-]. exists value. split; [done|]. split; [done|].
  apply RawURL_roundtrip.
Qed.

(** C33. Registered clients are safe. Every client that registration accepts, and every
    client after an accepted change, has a well-formed identifier, is public without
    authentication method or confidential, has distinct valid redirect addresses,
    at most twenty, and at least one if it may use authorization codes, lets no
    public client use client credentials, allows introspection to others only, and
    has token lifetimes in the documented ranges, computed without overflow, the
    refresh token's not shorter than the access token's. Registration keeps only the
    hash of the secret; a change keeps identifier, type and secret hash, and is
    refused for an archived client. *)
Theorem registered_clients_safe :
  (∀ input rnd c secret, New input rnd = Ok (c, secret) →
     client_safe c ∧ secret_kept c secret rnd ∧ c_ArchivedAt c = None) ∧
  (∀ current input c, Replace current input = Ok c →
     client_safe c ∧ c_ID c = c_ID current ∧ c_ApplicationType c = c_ApplicationType current ∧
     c_SecretHash c = c_SecretHash current ∧ c_ArchivedAt current = None).
Proof.
  split.
  - intros input rnd c secret. unfold New. set (item := new_item input).
    destruct (Validate item) as [[]|e] eqn:Hv; [|done].
    assert (client_safe item) as Hs by (apply Validate_safe; [done|apply unique_by_NoDup|by apply seconds_nonzero..]).
    case_decide as Hp.
    + intros [= <- <-]. split; [done|]. split; [|done]. unfold secret_kept. by rewrite decide_True.
    + destruct (newSecret rnd) as [[secret' hash]|] eqn:Hn; [|done]. intros [= <- <-].
      split; [by apply safe_with_secret|]. split; [|done]. unfold secret_kept. rewrite decide_False by done.
      by apply newSecret_kept.
  - intros current input c. unfold Replace. case_decide as Har; [done|]. set (item := replaced_item current input).
    destruct (Validate item) as [[]|e] eqn:Hv; [|done]. intros [= <-].
    split; [|split_and!; try done; by destruct (c_ArchivedAt current); [destruct Har|]].
    apply Validate_safe; [done|apply unique_by_NoDup|..]; unfold item; simpl; case_decide;
      by try apply seconds_nonzero.
Qed.

(** ** The registry as a transition system *)

Inductive ClientOp :=
| KoCreateSystem (item : System)
| KoReplaceSystem (item : System)
| KoDeleteSystem (order : MapRange) (id : string)
| KoCreate (item : Client)
| KoReplace (item : Client)
| KoRotateSecret (id hash : string)
| KoArchive (id : string) (now : Time)
| KoDeleteArchived (order : MapRange) (id : string).

(** One call of the registry, and whether it returned without error. *)
Definition client_step (r : ClientRepository) (op : ClientOp) : ClientRepository * bool :=
  match op with
  | KoCreateSystem s => let p := CreateSystemRecord r s in (p.1, is_ok p.2)
  | KoReplaceSystem s => let p := ReplaceSystemRecord r s in (p.1, is_ok p.2)
  | KoDeleteSystem order id => let p := @DeleteSystem order r id in (p.1, is_ok p.2)
  | KoCreate c => let p := CreateClientRecord r c in (p.1, is_ok p.2)
  | KoReplace c => let p := ReplaceClientRecord r c in (p.1, is_ok p.2)
  | KoRotateSecret id h => let p := RotateSecretRecord r id h in (p.1, is_ok p.2)
  | KoArchive id now => let p := Archive r id now in (p.1, is_ok p.2)
  | KoDeleteArchived order id => let p := @DeleteArchived order r id in (p.1, is_ok p.2)
  end.

(** The same client, but for permitted introspectors that were deleted. *)
Definition same_but_introspectors (c c' : Client) : Prop :=
  c_IntrospectableBy c' ⊆ c_IntrospectableBy c ∧ with_IntrospectableBy [] c' = with_IntrospectableBy [] c.

#[local] Instance same_refl : Reflexive same_but_introspectors.
Proof. by intros c. Qed.

Lemma same_archived c c' : same_but_introspectors c c' → c_ArchivedAt c' = c_ArchivedAt c ∧ c_Enabled c' = c_Enabled c.
Proof. intros [_ E]. split; [apply (f_equal c_ArchivedAt) in E|apply (f_equal c_Enabled) in E]; exact E. Qed.

Definition deletes (id : string) (op : ClientOp) : Prop :=
  match op with KoDeleteArchived _ i => i = id | _ => False end.

Lemma ensureSystem_clients item r : clients (ensureSystem item r) = clients r ∧ order (ensureSystem item r) = order r.
Proof. unfold ensureSystem. by case_decide. Qed.

Lemma archived_step r op id c :
  ¬ deletes id op → clients r !! id = Some c → c_ArchivedAt c ≠ None →
  ∃ c', clients (client_step r op).1 !! id = Some c' ∧ same_but_introspectors c c'.
Proof.
  intros Hop Hc Har.
  assert (∃ c', clients r !! id = Some c' ∧ same_but_introspectors c c') as Hself by (exists c; split; [done|reflexivity]).
  destruct op as [s|s|o i|item|item|i h|i now|o i]; simpl in *.
  - unfold CreateSystemRecord. case_decide; exact Hself.
  - unfold ReplaceSystemRecord. case_decide; exact Hself.
  - unfold DeleteSystem. repeat case_decide; exact Hself.
  - unfold CreateClientRecord. case_decide as Hn; [exact Hself|]. simpl. rewrite (proj1 (ensureSystem_clients _ _)).
    rewrite lookup_insert_ne; [exact Hself|]. intros E. simpl in E. apply Hn. simpl. rewrite E. by exists c.
  - unfold ReplaceClientRecord. destruct (clients r !! c_ID (normalized item)) as [cur|] eqn:Hcur; [|exact Hself].
    case_decide; [exact Hself|]. simpl. rewrite lookup_insert_ne; [exact Hself|]. intros E. simpl in *. congruence.
  - unfold RotateSecretRecord. destruct (clients r !! i) as [cur|] eqn:Hcur; [|exact Hself].
    case_decide; [exact Hself|]. simpl. rewrite lookup_insert_ne; [exact Hself|]. intros E. congruence.
  - unfold Archive. destruct (clients r !! i) as [cur|] eqn:Hcur; [|exact Hself].
    case_decide; [|exact Hself]. simpl. rewrite lookup_insert_ne; [exact Hself|]. intros E. congruence.
  - unfold DeleteArchived. destruct (clients r !! i) as [cur|] eqn:Hcur; [|exact Hself]. case_decide; [exact Hself|]. simpl.
    rewrite range_update_lookup, lookup_delete_ne, Hc by done. simpl. eexists. split; [done|].
    case_decide; [|done]. split; [|done]. simpl. intros x [_ Hx]%list_elem_of_filter. done.
Qed.

(** An archived client is frozen. Archiving disables a client; in every later
    execution that does not delete it, whatever changes and secret rotations are
    attempted, it stays archived and disabled with the data it had, except that
    deleted clients drop out of its permitted introspectors. *)
Theorem archived_client_frozen r id now r1 c ops :
  clients r !! id = Some c → c_ArchivedAt c = None → Archive r id now = (r1, Ok ()) →
  Forall (λ op, ¬ deletes id op) ops →
  ∃ c', clients (run client_step r1 ops).1 !! id = Some c' ∧ c_ArchivedAt c' = Some now ∧ c_Enabled c' = false ∧
        same_but_introspectors (with_Enabled false (with_ArchivedAt (Some now) c)) c'.
Proof.
  intros Hc Hn Ha Hops. unfold Archive in Ha. rewrite Hc, decide_True in Ha by done. injection Ha as <-.
  set (c1 := with_Enabled false (with_ArchivedAt (Some now) c)).
  set (r1 := set_clients _ _ _).
  assert (∃ c', clients (run client_step r1 ops).1 !! id = Some c' ∧ same_but_introspectors c1 c') as (c' & Hc' & Hs).
  { apply (run_invariant_ops client_step (λ s, ∃ c', clients s !! id = Some c' ∧ same_but_introspectors c1 c')
             (λ op, ¬ deletes id op)); [|done|].
    - intros s op Hop (c' & Hc' & Hs). destruct (archived_step s op id c' Hop Hc') as (c2 & Hc2 & Hs2).
      { by rewrite (proj1 (same_archived _ _ Hs)). }
      exists c2. split; [done|]. destruct Hs as [? ?], Hs2 as [? ?]. split; [by etrans|congruence].
    - exists c1. split; [apply lookup_insert_eq|done]. }
  exists c'. destruct (same_archived _ _ Hs) as [-> ->]. done.
Qed.

(** The list of identifiers and the table agree. *)
Definition registry_wf (r : ClientRepository) : Prop :=
  NoDup (order r) ∧ ∀ id, id ∈ order r ↔ is_Some (clients r !! id).

Lemma wf_overwrite r r' id (c : Client) :
  is_Some (clients r !! id) → clients r' = <[id := c]> (clients r) → order r' = order r → registry_wf r → registry_wf r'.
Proof.
  intros Hid Hc Ho [Hnd Hin]. split; [by rewrite Ho|]. intros i. rewrite Ho, Hc, Hin, lookup_insert.
  case_decide; [subst; naive_solver|done].
Qed.

Lemma registry_step_wf r op : registry_wf r → registry_wf (client_step r op).1.
Proof.
  intros Hwf. destruct op as [s|s|o i|item|item|i h|i now|o i]; simpl.
  - unfold CreateSystemRecord. by case_decide.
  - unfold ReplaceSystemRecord. by case_decide.
  - unfold DeleteSystem. by repeat case_decide.
  - unfold CreateClientRecord. case_decide as Hn; [done|]. destruct Hwf as [Hnd Hin].
    destruct (ensureSystem_clients (normalized item) r) as [Ec Eo]. unfold registry_wf. simpl. rewrite Ec, Eo. simpl in Hn.
    split.
    + apply NoDup_app. split; [done|]. split; [|apply NoDup_singleton]. intros x Hx ->%list_elem_of_singleton.
      by apply Hn, Hin.
    + intros i. rewrite elem_of_app, Hin, list_elem_of_singleton, lookup_insert. case_decide; [subst; naive_solver|].
      split; [intros [Hi|Hi]; [done|congruence]|by left].
  - unfold ReplaceClientRecord. destruct (clients r !! c_ID (normalized item)) as [cur|] eqn:Hcur; [|done].
    case_decide; [done|]. by eapply wf_overwrite.
  - unfold RotateSecretRecord. destruct (clients r !! i) as [cur|] eqn:Hcur; [|done].
    case_decide; [done|]. by eapply wf_overwrite.
  - unfold Archive. destruct (clients r !! i) as [cur|] eqn:Hcur; [|done]. case_decide; [|done]. by eapply wf_overwrite.
  - unfold DeleteArchived. destruct (clients r !! i) as [cur|] eqn:Hcur; [|done]. case_decide; [done|].
    destruct Hwf as [Hnd Hin]. split; simpl; [by apply NoDup_filter|]. intros j.
    rewrite list_elem_of_filter, Hin, range_update_lookup, fmap_is_Some, lookup_delete. case_decide as E; [|naive_solver].
    subst. split; [naive_solver|]. by intros [].
Qed.

(** Deleting a client leaves no trace of it. In every execution from the empty
    registry, the list of clients has no duplicate and agrees with the table; and
    after an archived client is deleted, it is not found, not listed, and no
    remaining client lets it introspect its tokens. *)
Theorem deleted_client_leaves_no_trace `{MapRange} ops id r' :
  let r := (run client_step (NewClientRepository []) ops).1 in
  registry_wf r ∧
  (DeleteArchived r id = (r', Ok ()) →
   registry_wf r' ∧ FindClient r' id = Err ClientNotFound ∧ id ∉ order r' ∧
   ∀ other c, clients r' !! other = Some c → id ∉ c_IntrospectableBy c).
Proof.
  intros r. assert (registry_wf r) as Hwf.
  { apply (run_invariant client_step registry_wf); [intros; by apply registry_step_wf|]. split; [constructor|].
    intros i. simpl. rewrite lookup_empty. split; [by intros ?%not_elem_of_nil|by intros []]. }
  split; [done|]. intros Hd. pose proof (registry_step_wf r (KoDeleteArchived _ id) Hwf) as Hwf'. simpl in Hwf'.
  rewrite Hd in Hwf'. split; [done|]. unfold DeleteArchived in Hd.
  destruct (clients r !! id) as [cur|] eqn:Hcur; [|done]. case_decide; [done|]. injection Hd as <-.
  unfold FindClient. simpl. rewrite range_update_lookup, lookup_delete_eq. split; [done|].
  split; [intros [Hne _]%list_elem_of_filter; by apply Hne|]. intros other c.
  rewrite range_update_lookup. destruct (delete id (clients r) !! other) as [c0|]; [|done]. intros [= <-].
  case_decide as Hin; [|done]. simpl. intros [Hne _]%list_elem_of_filter. by apply Hne.
Qed.
End Safe.
