(* ===== verification/Authorize.v ===== *)
(** Authorization requests: [internal/oauth/authorize.go]. What is accepted is a legal
    request for the client, and every legal request can be made. *)
From S2P Require Import Prelude GoStrings GoCrypto Client.
Local Open Scope Z_scope.

(** [url.Values]: the values of each parameter, in order. *)
Abbreviation Values := (gmap string (list string)) (only parsing).
(** [values.Get(key)]: the first value, or the empty string. *)
Definition Get (values : Values) (key : string) : string := default ""%string (head (default [] (values !! key))).

(** [internal/oauth/authorize.go:14-14] codeChallengePattern *)
Definition codeChallengePattern : string → bool :=
  match_class url64_byte 43 128.
(** [internal/oauth/authorize.go:15-15] codeVerifierPattern *)
Definition codeVerifierPattern : string → bool :=
  match_class (λ b, is_upper b || is_alnum_lower b || is_one_of "._~-" b) 43 128.
(** [internal/oauth/authorize.go:16-16] maxAgePattern *)
Definition maxAgePattern (s : string) : bool := forallb is_digit (bytes s) && negb (bool_decide (bytes s = [])).

(** [internal/oauth/authorize.go:19-29] AuthorizationRequest *)
Record AuthorizationRequest := {
  ar_ClientID : string;
  ar_RedirectURI : string;
  ar_Scope : list string;
  ar_State : string;
  ar_Nonce : string;
  ar_CodeChallenge : string;
  ar_CodeChallengeMethod : string;
  ar_Prompt : list string;
  ar_MaxAge : option Z;
}.

(** [internal/oauth/authorize.go:137-144] contains *)
Fixpoint contains (values : list string) (expected : string) : bool :=
  match values with
  | [] => false
  | value :: rest => if decide (value = expected) then true else contains rest expected
  end.

(** [internal/oauth/authorize.go:86-88] AuthorizationRequest.HasPrompt *)
Definition HasPrompt (r : AuthorizationRequest) (expected : string) : bool := contains (ar_Prompt r) expected.

(** [internal/oauth/authorize.go:90-92] ValidCodeVerifier *)
Definition ValidCodeVerifier (value : string) : bool := codeVerifierPattern value.

(** The loop of [parsePrompt]. *)
Fixpoint check_prompt (seen : gset string) (prompt : list string) : Res string (gset string) :=
  match prompt with
  | [] => Ok seen
  | value :: rest =>
      if decide (value ≠ "none"%string ∧ value ≠ "login"%string ∧ value ≠ "consent"%string) then Err "unsupported prompt value"%string
      else if decide (value ∈ seen) then Err "prompt values must not be repeated"%string
      else check_prompt ({[value]} ∪ seen) rest
  end.

(** [internal/oauth/authorize.go:94-120] parsePrompt *)
Definition parsePrompt (values : Values) : Res string (list string) :=
  match values !! "prompt"%string with
  | None => Ok []
  | Some [raw] =>
      let prompt := Fields raw in
      if decide (length prompt = 0%nat) then Err "prompt must not be empty"%string
      else match check_prompt ∅ prompt with
           | Err e => Err e
           | Ok seen =>
               if decide ("none"%string ∈ seen ∧ size seen ≠ 1%nat)
               then Err "prompt none cannot be combined with other values"%string
               else Ok prompt
           end
  | Some _ => Err "prompt must not be repeated"%string
  end.

(** [internal/oauth/authorize.go:122-135] parseMaxAge *)
Definition parseMaxAge (values : Values) : Res string (option Z) :=
  match values !! "max_age"%string with
  | None => Ok None
  | Some [raw] =>
      if negb (maxAgePattern raw) then Err "max_age must be a non-negative integer"%string
      else match ParseInt raw 64 with
           | None => Err "max_age must be a non-negative integer"%string
           | Some value => if decide (value < 0) then Err "max_age must be a non-negative integer"%string else Ok (Some value)
           end
  | Some _ => Err "max_age must be a non-negative integer"%string
  end.

(** [if cond { return AuthorizationRequest{}, errors.New(reason) }]. *)
Definition refuse (cond : bool) (reason : string) : Res string unit := if cond then Err reason else Ok ().

(** [internal/oauth/authorize.go:31-84] ParseAuthorizationRequest *)
Definition ParseAuthorizationRequest `{URLParser} (values : Values) (registered : Client) : Res string AuthorizationRequest :=
  (let! _ := refuse (negb (c_Enabled registered)) "client is disabled" in
   let! _ := refuse (negb (SupportsOAuth registered) || negb (SupportsGrant registered GrantAuthorizationCode))
               "authorization_code is not enabled for this client" in
   let! _ := refuse (negb (bool_decide (Get values "client_id" = c_ID registered))) "invalid client_id" in
   let! _ := refuse (negb (bool_decide (Get values "response_type" = "code"%string))) "response_type must be code" in
   let redirectURI := Get values "redirect_uri" in
   let! _ := refuse (negb (AllowsRedirectURI registered redirectURI)) "invalid redirect_uri" in
   let! _ := refuse (negb (bool_decide (Get values "code_challenge_method" = "S256"%string))) "code_challenge_method must be S256" in
   let challenge := Get values "code_challenge" in
   let! _ := refuse (negb (codeChallengePattern challenge)) "invalid code_challenge" in
   let state := Get values "state" in
   let! _ := refuse (bool_decide (state = ""%string)) "state is required" in
   let scopes := Fields (Get values "scope") in
   let! _ := refuse (existsb (λ scope, negb (contains (c_AllowedScopes registered) scope)) scopes)
               "requested scope is not allowed" in
   let! prompt := parsePrompt values in
   let! maxAge := parseMaxAge values in
   Ok {| ar_ClientID := c_ID registered; ar_RedirectURI := redirectURI; ar_Scope := scopes; ar_State := state;
         ar_Nonce := Get values "nonce"; ar_CodeChallenge := challenge; ar_CodeChallengeMethod := "S256";
         ar_Prompt := prompt; ar_MaxAge := maxAge |})%go.

(** ** Legal requests *)

(** What [prompt] may be: absent, [none] alone, or [login] and [consent] at most once each. *)
Definition legal_prompt (prompt : list string) : Prop :=
  prompt = ["none"%string] ∨ NoDup prompt ∧ ∀ value, value ∈ prompt → value = "login"%string ∨ value = "consent"%string.

(** What a client may be granted an authorization for. *)
Definition legal_request `{URLParser} (c : Client) (r : AuthorizationRequest) : Prop :=
  c_Enabled c = true ∧ SupportsOAuth c = true ∧ GrantAuthorizationCode ∈ c_GrantTypes c ∧
  ar_ClientID r = c_ID c ∧ ar_RedirectURI r ∈ c_RedirectURIs c ∧ absolute_url (ar_RedirectURI r) = true ∧
  (∀ scope, scope ∈ ar_Scope r → scope ∈ c_AllowedScopes c) ∧ ar_State r ≠ ""%string ∧
  ar_CodeChallengeMethod r = "S256"%string ∧ codeChallengePattern (ar_CodeChallenge r) = true ∧
  legal_prompt (ar_Prompt r) ∧ (∀ age, ar_MaxAge r = Some age → 0 ≤ age ≤ max_int64).

(** The request as parameters. *)
Definition request_values (r : AuthorizationRequest) : Values :=
  let optional (key : string) (value : option string) (values : Values) :=
    match value with Some v => <[key := [v]]> values | None => values end in
  <["client_id" := [ar_ClientID r]]> (<["response_type" := ["code"%string]]> (<["redirect_uri" := [ar_RedirectURI r]]>
  (<["scope" := [Join (ar_Scope r) " "]]> (<["state" := [ar_State r]]> (<["nonce" := [ar_Nonce r]]>
  (<["code_challenge" := [ar_CodeChallenge r]]> (<["code_challenge_method" := [ar_CodeChallengeMethod r]]>
  (optional "prompt"%string (match ar_Prompt r with [] => None | l => Some (Join l " ") end)
  (optional "max_age"%string (FormatInt <$> ar_MaxAge r) ∅))))))))).

(** ** Parsing *)

Lemma contains_true l x : contains l x = true ↔ x ∈ l.
Proof. induction l as [|y l IH]; simpl; [set_solver|]. case_decide; set_solver. Qed.

Lemma refuse_ok cond reason : refuse cond reason = Ok () ↔ cond = false.
Proof. by destruct cond. Qed.

Lemma res_bind_refuse {B} cond reason (k : unit → Res string B) b :
  res_bind (refuse cond reason) k = Ok b ↔ cond = false ∧ k () = Ok b.
Proof. destruct cond; naive_solver. Qed.

Lemma check_prompt_ok seen prompt all :
  check_prompt seen prompt = Ok all ↔
  NoDup prompt ∧ (∀ v, v ∈ prompt → v ∉ seen ∧ (v = "none" ∨ v = "login" ∨ v = "consent")%string) ∧
  all = list_to_set prompt ∪ seen.
Proof.
  revert seen. induction prompt as [|v prompt IH]; intros seen; simpl.
  - rewrite (left_id_L ∅ (∪)). split; [intros [= <-]; split_and!; [constructor|set_solver|done]|]. by intros (_ & _ & ->).
  - case_decide as Hv.
    { split; [done|]. intros (_ & Hall & _). destruct (Hall v) as [_ Hc]; [by left|]. naive_solver. }
    assert (v = "none" ∨ v = "login" ∨ v = "consent")%string as Hv'.
    { destruct (decide (v = "none"%string)), (decide (v = "login"%string)), (decide (v = "consent"%string)); tauto. }
    case_decide as Hs; [split; [done|]; intros (_ & Hall & _); by destruct (Hall v) as [? _]; [left|]|].
    rewrite IH, NoDup_cons. setoid_rewrite elem_of_cons. split.
    + intros (Hnd & Hall & ->). split_and!; [|done|set_solver|set_solver]. intros Hin. destruct (Hall v Hin). set_solver.
    + intros ([Hn Hnd] & Hall & ->). split_and!; [done| |set_solver]. intros w Hw.
      destruct (Hall w) as [Hws Hwv]; [by right|]. split; [|done]. rewrite elem_of_union, elem_of_singleton. naive_solver.
Qed.

(** Prompts that pass are the legal ones. *)
Lemma checked_prompt_legal prompt :
  prompt ≠ [] →
  (∃ all, check_prompt ∅ prompt = Ok all ∧ ¬ ("none"%string ∈ all ∧ size all ≠ 1%nat)) ↔ legal_prompt prompt.
Proof.
  intros Hne. setoid_rewrite check_prompt_ok. unfold legal_prompt. split.
  - intros (all & (Hnd & Hall & ->) & Hn). rewrite (right_id_L ∅ (∪)) in Hn.
    destruct (decide ("none"%string ∈ prompt)) as [Hin|Hin].
    + left. destruct (decide (size (list_to_set prompt : gset string) = 1%nat)) as [Hsz|Hsz].
      * rewrite size_list_to_set in Hsz by done. destruct prompt as [|a [|b l]]; [done| |done].
        f_equal. set_solver.
      * exfalso. apply Hn. split; [set_solver|done].
    + right. split; [done|]. intros v Hv. destruct (Hall v Hv) as [_ [->|Hx]]; [done|done].
  - intros [->|[Hnd Hall]]; eexists; (split; [split_and!; [..|done]|]); rewrite ?(right_id_L ∅ (∪)).
    + apply NoDup_singleton.
    + intros v Hv%list_elem_of_singleton. split; [set_solver|by left].
    + intros [_ Hsz]. apply Hsz. by vm_compute.
    + done.
    + intros v Hv. split; [set_solver|]. right. by apply Hall.
    + intros [Hin _]. apply elem_of_list_to_set, Hall in Hin as [|]; done.
Qed.

Lemma parsePrompt_legal values prompt : parsePrompt values = Ok prompt → legal_prompt prompt.
Proof.
  unfold parsePrompt. destruct (values !! _) as [[|raw [|]]|]; [done| |done|].
  - case_decide as Hl; [done|]. destruct (check_prompt ∅ (Fields raw)) as [all|] eqn:Hc; [|done].
    case_decide as Hn; [done|]. intros [= <-]. apply checked_prompt_legal; [|by exists all]. by intros E; rewrite E in Hl.
  - intros [= <-]. right. split; [constructor|set_solver].
Qed.

Lemma parseMaxAge_range values age : parseMaxAge values = Ok (Some age) → 0 ≤ age ≤ max_int64.
Proof.
  unfold parseMaxAge. destruct (values !! _) as [[|raw [|]]|]; [done| |done|done].
  destruct (negb _); [done|]. destruct (ParseInt raw 64) as [v|] eqn:Hv; [|done]. case_decide; [done|].
  intros [= <-]. split; [lia|]. apply ParseInt_max in Hv; [|done]. change (2 ^ (64 - 1)) with (max_int64 + 1) in Hv. lia.
Qed.

(** The parameters of an encoded request. *)
Lemma request_values_get r :
  Get (request_values r) "client_id" = ar_ClientID r ∧ Get (request_values r) "response_type" = "code"%string ∧
  Get (request_values r) "redirect_uri" = ar_RedirectURI r ∧ Get (request_values r) "scope" = Join (ar_Scope r) " " ∧
  Get (request_values r) "state" = ar_State r ∧ Get (request_values r) "nonce" = ar_Nonce r ∧
  Get (request_values r) "code_challenge" = ar_CodeChallenge r ∧
  Get (request_values r) "code_challenge_method" = ar_CodeChallengeMethod r.
Proof. unfold Get, request_values. split_and!; by simplify_map_eq. Qed.

Lemma request_values_prompt r :
  request_values r !! "prompt"%string = match ar_Prompt r with [] => None | l => Some [Join l " "] end.
Proof. unfold request_values. destruct (ar_Prompt r), (ar_MaxAge r); simpl; by simplify_map_eq. Qed.

Lemma request_values_max_age r :
  request_values r !! "max_age"%string = (λ age, [FormatInt age]) <$> ar_MaxAge r.
Proof. unfold request_values. destruct (ar_Prompt r), (ar_MaxAge r); simpl; by simplify_map_eq. Qed.

Lemma legal_prompt_words prompt : legal_prompt prompt → Forall word prompt.
Proof.
  intros Hl. apply Forall_forall. intros v Hv.
  assert (v = "none" ∨ v = "login" ∨ v = "consent")%string as Hc.
  { destruct Hl as [->|[_ Hl]]; [left; by apply list_elem_of_singleton in Hv|right; by apply Hl]. }
  destruct Hc as [->|[->| ->]]; (split; [done|]); vm_compute; repeat constructor; done.
Qed.

Lemma parsePrompt_encoded r : legal_prompt (ar_Prompt r) → parsePrompt (request_values r) = Ok (ar_Prompt r).
Proof.
  intros Hl. unfold parsePrompt. rewrite request_values_prompt. destruct (ar_Prompt r) as [|v l] eqn:E; [done|].
  rewrite Fields_Join by (by apply legal_prompt_words). case_decide; [done|].
  apply checked_prompt_legal in Hl as (all & -> & Hn); [|done]. by rewrite decide_False.
Qed.

Lemma parseMaxAge_encoded r :
  (∀ age, ar_MaxAge r = Some age → 0 ≤ age ≤ max_int64) → parseMaxAge (request_values r) = Ok (ar_MaxAge r).
Proof.
  intros Hl. unfold parseMaxAge. rewrite request_values_max_age. destruct (ar_MaxAge r) as [age|]; [|done].
  destruct (Hl age eq_refl) as [H0 H1]. simpl. unfold maxAgePattern.
  rewrite (digits_value_digits _ _ _ (digits_value_FormatInt age H0)).
  destruct (FormatInt_digit age H0) as (b & rest & E & _). rewrite bool_decide_false by (by rewrite E). simpl.
  rewrite ParseInt_FormatInt by (unfold max_int64 in H1; simpl; lia). by rewrite decide_False by lia.
Qed.

Lemma scope_words l : forallb scopePattern l = true → Forall word l.
Proof.
  rewrite forallb_forall, Forall_forall. intros Hl s Hs%list_elem_of_In%Hl. unfold scopePattern, match_class in Hs.
  apply andb_true_iff in Hs as [Hc Hlen]. apply bool_decide_eq_true in Hlen. split.
  - intros ->. simpl in Hlen. lia.
  - rewrite forallb_forall in Hc. apply Forall_forall. intros b Hb%list_elem_of_In%Hc.
    unfold is_alnum_lower, is_lower, is_upper, is_digit, in_range, is_one_of, Contains in Hb.
    repeat (apply orb_true_iff in Hb as [Hb|Hb]); apply bool_decide_eq_true in Hb; try lia.
    change (bytes "._:/-") with [46; 95; 58; 47; 45] in Hb. set_unfold in Hb. lia.
Qed.

Section Requests.
Context `{URLParser}.

(** An accepted authorization request is legal for its client: the client is enabled,
    supports OAuth and the authorization code grant, the redirect URI is one it
    registered, every scope is one it was allowed, a state and an S256 code challenge
    are present, [prompt] does not combine [none] with anything nor repeat a value, and
    [max_age] is a non-negative integer of 64 bits. *)
Theorem authorization_request_legal values c r :
  ParseAuthorizationRequest values c = Ok r → legal_request c r.
Proof.
  unfold ParseAuthorizationRequest, legal_request. intros Hr.
  apply res_bind_refuse in Hr as [He Hr]. apply res_bind_refuse in Hr as [Hg Hr].
  apply res_bind_refuse in Hr as [_ Hr]. apply res_bind_refuse in Hr as [_ Hr].
  apply res_bind_refuse in Hr as [Hu Hr]. apply res_bind_refuse in Hr as [_ Hr].
  apply res_bind_refuse in Hr as [Hc Hr]. apply res_bind_refuse in Hr as [Hs Hr].
  apply res_bind_refuse in Hr as [Hsc Hr]. apply res_bind_ok in Hr as (prompt & Hp & Hr).
  apply res_bind_ok in Hr as (age & Ha & [= <-]). simpl.
  apply negb_false_iff in He, Hu, Hc. apply orb_false_iff in Hg as [Ho Hg]. apply negb_false_iff in Ho, Hg.
  apply bool_decide_eq_false in Hs. unfold AllowsRedirectURI in Hu. destruct (absolute_url _) eqn:Habs; [|done].
  simpl in Hu. apply Contains_true in Hu. unfold SupportsGrant in Hg. apply Contains_true in Hg. split_and!; try done.
  - intros scope Hin. apply contains_true. destruct (contains _ scope) eqn:E; [done|]. exfalso.
    assert (existsb (λ scope, negb (contains (c_AllowedScopes c) scope)) (Fields (Get values "scope")) = true) as Ht; [|congruence].
    apply existsb_exists. exists scope. split; [by apply list_elem_of_In|by rewrite E].
  - by eapply parsePrompt_legal.
  - intros a ->. by eapply parseMaxAge_range.
Qed.

(** C34. Every legal request can be made: written as parameters, it parses back to
    itself, whatever the scopes, prompt and maximal age. (The scopes of a registered
    client are of the form [scopePattern].) *)
Theorem authorization_request_roundtrip c r :
  forallb scopePattern (c_AllowedScopes c) = true → legal_request c r →
  ParseAuthorizationRequest (request_values r) c = Ok r.
Proof.
  intros Hw%scope_words (He & Ho & Hg & Hid & Hru & Habs & Hsc & Hst & Hm & Hcc & Hp & Ha).
  destruct (request_values_get r) as (G1 & G2 & G3 & G4 & G5 & G6 & G7 & G8).
  unfold ParseAuthorizationRequest. rewrite He, Ho, G1, G2, G3, G4, G5, G6, G7, G8, Hid, Hm, Hcc.
  unfold AllowsRedirectURI, SupportsGrant. rewrite Habs, (proj2 (Contains_true _ _) Hg). simpl.
  rewrite !bool_decide_true by done. simpl. rewrite (proj2 (Contains_true _ _) Hru). simpl.
  rewrite bool_decide_false by done. simpl.
  rewrite Fields_Join by (rewrite Forall_forall in *; auto).
  assert (existsb (λ scope, negb (contains (c_AllowedScopes c) scope)) (ar_Scope r) = false) as ->.
  { apply not_true_iff_false. intros (s & Hs%list_elem_of_In%Hsc%contains_true & Hn)%existsb_exists. by rewrite Hs in Hn. }
  simpl. rewrite parsePrompt_encoded, parseMaxAge_encoded by done. simpl. rewrite <-Hid, <-Hm. by destruct r.
Qed.
End Requests.

(** Every verifier has an acceptable challenge: the unpadded URL encoding of the
    SHA-256 digest of any string is 43 characters of the challenge alphabet, so the
    check of the challenge never refuses what a client computes as RFC 7636 says. *)
Theorem challenge_of_verifier_accepted verifier :
  let challenge := RawURLEncoding_EncodeToString (sha256 (bytes verifier)) in
  codeChallengePattern challenge = true ∧ length (bytes challenge) = 43%nat.
Proof.
  intros challenge. destruct (RawURL_bytes (sha256 (bytes verifier)) (sha256_bytes _)) as [Hb Hl].
  rewrite length_sha256 in Hl. fold challenge in Hb, Hl. change ((4 * Z.of_nat 32 + 2) / 3) with 43 in Hl.
  assert (length (bytes challenge) = 43%nat) as Hn by lia. split; [|done].
  unfold codeChallengePattern, match_class. apply andb_true_iff. split.
  - apply forallb_forall. intros b Hin%list_elem_of_In. by eapply Forall_forall in Hb.
  - apply bool_decide_eq_true. lia.
Qed.
