(* ===== verification/GoUrl.v ===== *)
(** [net/url] as the code uses it on queries: escaping, encoding and parsing of
    [url.Values], with their round trip. *)
From S2P Require Import Prelude GoStrings GoCrypto Authorize.
Local Open Scope Z_scope.

(** ** Definitions *)

(** [unescape], where a plus sign stands for a space in queries. *)
Fixpoint unescape_bytes (query : bool) (l : list Z) : option (list Z) :=
  match l with
  | [] => Some []
  | c :: rest =>
      if decide (c = 37)
      then match rest with
           | a :: b :: rest =>
               match unhex a, unhex b, unescape_bytes query rest with
               | Some x, Some y, Some r => Some (16 * x + y :: r)
               | _, _, _ => None
               end
           | _ => None
           end
      else match unescape_bytes query rest with
           | Some r => Some ((if decide (query = true ∧ c = 43) then 32 else c) :: r)
           | None => None
           end
  end.
(** [url.QueryUnescape]; [unescape] of a path, a fragment or user information. *)
Definition QueryUnescape (s : string) : option string := of_bytes <$> unescape_bytes true (bytes s).
Definition PathUnescape (s : string) : option string := of_bytes <$> unescape_bytes false (bytes s).

(** [values.Set(key, value)], [values.Del(key)]. *)
Definition Set_ (key value : string) (values : Values) : Values := <[key := [value]]> values.
Definition Del (key : string) (values : Values) : Values := delete key values.

(** [values.Encode()]: pairs in the order of their keys, escaped. *)
Definition encode_pair (p : string * string) : string := QueryEscape p.1 +:+ "=" +:+ QueryEscape p.2.
Definition sorted_pairs (values : Values) : list (string * string) :=
  merge_sort String.le (elements (dom values)) ≫= λ k, (k,.) <$> default [] (values !! k).
Definition Encode (values : Values) : string := Join (encode_pair <$> sorted_pairs values) "&".

(** [url.ParseQuery] as [URL.Query] uses it: malformed pairs are dropped. *)
Definition parse_pair (piece : string) : option (string * string) :=
  if StringContains piece ";" then None
  else if decide (piece = ""%string) then None
  else
    let '(key, value) := match Cut piece "="%char with Some p => p | None => (piece, ""%string) end in
    k ← QueryUnescape key; v ← QueryUnescape value; Some (k, v).
Definition add_pair (values : Values) (p : string * string) : Values :=
  <[p.1 := default [] (values !! p.1) ++ [p.2]]> values.
Definition ParseQuery (query : string) : Values :=
  foldl add_pair ∅ (omap parse_pair (Split query "&"%char)).

(** [url.ParseRequestURI] of a text that starts with a path and a question mark: path and
    query, unless the text has a control character. *)
Definition has_control (s : string) : bool := existsb (λ b, (b <? 32) || (b =? 127)) (bytes s).
Definition ParseRequestURI (uri : string) : option (string * Values) :=
  if has_control uri then None
  else match Cut uri "?"%char with
       | Some (path, query) => Some (path, ParseQuery query)
       | None => Some (uri, ∅)
       end.

(** ** Escaping and its inverse *)

(** The bytes that escaping leaves alone. *)
Lemma unreserved_spec b : is_byte b → unreserved b = true → b ∉ [37; 43; 38; 61; 59].
Proof.
  intros Hb. revert b Hb. unfold is_byte. apply (check_range (λ b, unreserved b = true → b ∉ [37; 43; 38; 61; 59]) 256).
  apply (bool_decide_unpack _). vm_compute. exact I.
Qed.

Lemma unhex_upper n : 0 ≤ n < 16 → unhex (hex_upper n) = Some n.
Proof. revert n. apply (check_range _ 16). apply (bool_decide_unpack _). vm_compute. exact I. Qed.

Definition escape_byte (b : Z) : list Z := if unreserved b then [b] else if decide (b = 32) then [43] else percent b.

Lemma unescape_byte b rest : is_byte b → unescape_bytes true (escape_byte b ++ rest) = (b ::.) <$> unescape_bytes true rest.
Proof.
  intros Hb. unfold escape_byte. destruct (unreserved b) eqn:E.
  - apply unreserved_spec in E; [|done]. cbn [app unescape_bytes].
    rewrite decide_False by set_solver. rewrite (decide_False (P := true = true ∧ b = 43)) by set_solver. by destruct (unescape_bytes true rest).
  - case_decide as Hs; [subst b; simpl; by destruct (unescape_bytes true rest)|].
    unfold percent. cbn [app unescape_bytes]. rewrite decide_True by done.
    unfold is_byte in Hb. rewrite !unhex_upper by (split; [apply Z.div_pos || apply Z.mod_pos_bound; lia|apply Z.div_lt_upper_bound || apply Z.mod_pos_bound; lia]).
    destruct (unescape_bytes true rest); simpl; [|done]. do 2 f_equal. pose proof (Z.div_mod b 16). lia.
Qed.

Lemma escape_bytes_range s : Forall is_byte (bytes s ≫= escape_byte).
Proof.
  apply Forall_bind. eapply Forall_impl; [apply bytes_range|]. intros b. revert b. unfold is_byte at 1.
  apply (check_range (λ b, Forall is_byte (escape_byte b)) 256). unfold is_byte. apply (bool_decide_unpack _). vm_compute. exact I.
Qed.

Lemma QueryEscape_bytes s : bytes (QueryEscape s) = bytes s ≫= escape_byte.
Proof. exact (bytes_of_bytes _ (escape_bytes_range s)). Qed.

Lemma unescape_escape s : QueryUnescape (QueryEscape s) = Some s.
Proof.
  unfold QueryUnescape. rewrite QueryEscape_bytes.
  enough (∀ l, Forall is_byte l → unescape_bytes true (l ≫= escape_byte) = Some l) as Hall.
  { rewrite Hall by apply bytes_range. simpl. by rewrite of_bytes_bytes. }
  induction 1 as [|b l Hb _ IH]; [done|].
  change ((b :: l) ≫= escape_byte) with (escape_byte b ++ (l ≫= escape_byte)). by rewrite unescape_byte, IH.
Qed.

(** No separator of queries is left in an escaped text. *)
Lemma escape_no_byte sep s : byte_val sep ∈ [38; 61; 59] → no_byte sep (QueryEscape s).
Proof.
  intros Hsep Hin. assert (byte_val sep ∈ bytes (QueryEscape s)) as Hb by (unfold bytes; by apply list_elem_of_fmap_2).
  rewrite QueryEscape_bytes in Hb.
  apply list_elem_of_bind in Hb as (b & Hb & Hs). pose proof (bytes_range s) as Hr. rewrite Forall_forall in Hr.
  specialize (Hr b Hs). clear Hs Hin. revert b Hr Hb. unfold is_byte.
  enough (∀ b, 0 ≤ b < 256 → Forall (λ c, c ∉ [38; 61; 59]) (escape_byte b)) as Hall.
  { intros b Hr Hb. specialize (Hall b Hr). rewrite Forall_forall in Hall. by apply (Hall _ Hb). }
  apply (check_range _ 256). apply (bool_decide_unpack _). vm_compute. exact I.
Qed.

(** ** The round trip of queries *)

Lemma no_byte_app sep s t : no_byte sep s → no_byte sep t → no_byte sep (s +:+ t).
Proof.
  unfold no_byte. intros Hs Ht Hin. induction s as [|a s IH]; [done|]. apply elem_of_cons in Hin as [->|Hin].
  - apply Hs. by left.
  - apply IH; [|done]. intros ?. apply Hs. by right.
Qed.

Lemma Contains_no_byte sep s : no_byte sep s → StringContains s (String sep "") = false.
Proof.
  unfold no_byte. induction s as [|a s IH]; intros Hs; [done|]. apply not_elem_of_cons in Hs as [Hne Hs].
  cbn [StringContains]. rewrite IH by done. rewrite orb_false_r. apply not_true_is_false. intros [r Hr]%HasPrefix_true.
  change (String sep "" +:+ r) with (String sep r) in Hr. congruence.
Qed.

Lemma parse_encode_pair p : parse_pair (encode_pair p) = Some p.
Proof.
  destruct p as [k v]. unfold parse_pair, encode_pair. simpl.
  assert (∀ sep s, byte_val sep ∈ [38; 61; 59] → no_byte sep (QueryEscape s)) as Hesc by apply escape_no_byte.
  assert (no_byte ";"%char (QueryEscape k +:+ "=" +:+ QueryEscape v)) as Hsemi.
  { apply no_byte_app; [apply Hesc; set_solver|]. apply no_byte_app; [by apply (bool_decide_unpack _)|apply Hesc; set_solver]. }
  rewrite (Contains_no_byte ";"%char) by done. rewrite decide_False.
  2: { intros Heq. apply (f_equal bytes) in Heq. rewrite !bytes_app in Heq. apply app_nil in Heq as [_ [Heq _]%app_nil]. done. }
  change ("=" +:+ QueryEscape v) with (String "="%char (QueryEscape v)).
  rewrite Cut_app by (apply Hesc; set_solver). by rewrite !unescape_escape.
Qed.

Lemma encode_pair_no_amp p : no_byte "&"%char (encode_pair p).
Proof.
  unfold encode_pair. apply no_byte_app; [apply escape_no_byte; set_solver|].
  apply no_byte_app; [by apply (bool_decide_unpack _)|apply escape_no_byte; set_solver].
Qed.

Lemma Split_Join l sep : l ≠ [] → Forall (no_byte sep) l → Split (Join l (String sep "")) sep = l.
Proof.
  intros Hne Hl. induction Hl as [|x l Hx Hl IH]; [done|]. destruct l as [|y l].
  - simpl. by rewrite Split_Cut, Cut_None.
  - change (Join (x :: y :: l) (String sep "")) with (x +:+ String sep "" +:+ Join (y :: l) (String sep "")).
    change (String sep "" +:+ Join (y :: l) (String sep "")) with (String sep (Join (y :: l) (String sep ""))).
    rewrite Split_Cut, Cut_app by done. f_equal. by apply IH.
Qed.

(** The values of a key among pairs. *)
Definition values_of (k : string) (l : list (string * string)) : list string := (base.filter (λ p, p.1 = k) l).*2.

Lemma values_of_cons k k' v l :
  values_of k ((k', v) :: l) = if decide (k' = k) then v :: values_of k l else values_of k l.
Proof. unfold values_of. rewrite filter_cons. cbn [fst]. by destruct (decide (k' = k)). Qed.

Lemma add_pairs_lookup l m k :
  foldl add_pair m l !! k = match values_of k l with [] => m !! k | vs => Some (default [] (m !! k) ++ vs) end.
Proof.
  revert m. induction l as [|[k' v] l IH]; intros m; [done|]. cbn [foldl]. rewrite IH, values_of_cons. unfold add_pair. cbn [fst snd].
  destruct (decide (k' = k)) as [->|Hne].
  - rewrite lookup_insert_eq. cbn [default]. destruct (values_of k l); [done|]. simpl. by rewrite <- app_assoc.
  - by rewrite lookup_insert_ne.
Qed.

Lemma values_of_app k l1 l2 : values_of k (l1 ++ l2) = values_of k l1 ++ values_of k l2.
Proof. unfold values_of. by rewrite filter_app, fmap_app. Qed.

Lemma values_of_group k k' vs : values_of k ((k',.) <$> vs) = if decide (k' = k) then vs else [].
Proof.
  induction vs as [|v vs IH]; [by destruct (decide (k' = k))|]. cbn [fmap list_fmap]. rewrite values_of_cons.
  destruct (decide (k' = k)); [f_equal|]; exact IH.
Qed.

Lemma values_of_groups (values : Values) keys k :
  NoDup keys → values_of k (keys ≫= λ k', (k',.) <$> default [] (values !! k')) =
  if decide (k ∈ keys) then default [] (values !! k) else [].
Proof.
  induction 1 as [|k' keys Hk' _ IH]; [by rewrite decide_False by apply not_elem_of_nil|].
  change ((k' :: keys) ≫= λ k', (k',.) <$> default [] (values !! k')) with
    (((k',.) <$> default [] (values !! k')) ++ (keys ≫= λ k', (k',.) <$> default [] (values !! k'))).
  rewrite values_of_app, values_of_group, IH. destruct (decide (k' = k)) as [->|Hne].
  - rewrite (decide_False (P := k ∈ keys)) by done. rewrite app_nil_r. by rewrite decide_True by left.
  - simpl. destruct (decide (k ∈ keys)) as [Hin|Hin].
    + by rewrite decide_True by by right.
    + by rewrite decide_False by (intros [?|?]%elem_of_cons; congruence).
Qed.

(** Encoding and parsing a query gives back the values, when no key has an empty list. *)
Lemma ParseQuery_Encode (values : Values) : (∀ k, values !! k ≠ Some []) → ParseQuery (Encode values) = values.
Proof.
  intros Hne. unfold ParseQuery, Encode.
  assert (omap parse_pair (Split (Join (encode_pair <$> sorted_pairs values) "&") "&"%char) = sorted_pairs values) as ->.
  { destruct (sorted_pairs values) as [|p l]; [done|]. rewrite (Split_Join _ "&"%char); [|done|].
    - generalize (p :: l). clear. intros l. induction l as [|p l IH]; [done|]. rewrite fmap_cons. cbn [omap list_omap].
      rewrite parse_encode_pair. f_equal. exact IH.
    - apply Forall_fmap, Forall_true. intros q. apply encode_pair_no_amp. }
  apply map_eq. intros k. rewrite add_pairs_lookup. unfold sorted_pairs.
  rewrite values_of_groups by (rewrite merge_sort_Permutation; apply NoDup_elements).
  rewrite lookup_empty. specialize (Hne k).
  destruct (decide (k ∈ merge_sort String.le (elements (dom values)))) as [Hin|Hin];
    rewrite merge_sort_Permutation, elem_of_elements in Hin.
  - apply elem_of_dom in Hin as [vs Hvs]. rewrite Hvs in *. simpl. by destruct vs.
  - apply not_elem_of_dom in Hin. by rewrite Hin.
Qed.
