(* ===== verification/ReturnTo.v ===== *)
(** Return addresses: [url.Parse] and [URL.String] of package [net/url], and the check of
    [internal/platform/http/auth.go] that a page is only left for a page of the site. *)
From S2P Require Import Prelude GoStrings GoCrypto Client Authorize GoUrl.
Local Open Scope Z_scope.

(** ** [net/url] *)

(** Hosts, with IP literals, ports and their escapes, are left to the library: [parseHost]
    and [escape] of a host. *)
Class HostParser := {
  host_Parse : string → string → option string;
  host_Escape : string → string;
}.

(** A parsed URL: [RawPath] and [RawFragment] are set only when they are not the usual
    escapes of the path and the fragment. *)
Record Location := {
  lo_Scheme : string;
  lo_Opaque : string;
  lo_User : option (string * option string);
  lo_Host : string;
  lo_Path : string;
  lo_RawPath : string;
  lo_OmitHost : bool;
  lo_ForceQuery : bool;
  lo_RawQuery : string;
  lo_Fragment : string;
  lo_RawFragment : string;
}.

(** [escape] of a path, of a fragment and of user information. *)
Definition escape_with (keep : Z → bool) (s : string) : string :=
  of_bytes (bytes s ≫= λ b, if keep b then [b] else percent b).
Definition path_byte (b : Z) : bool := unreserved b || is_one_of "$&+,/:;=@" b.
Definition fragment_byte (b : Z) : bool := unreserved b || is_one_of "$&+,/:;=?@!()*" b.
Definition user_byte (b : Z) : bool := unreserved b || is_one_of "$&+,;=" b.

(** [validEncoded]: the bytes a raw form may have. *)
Definition valid_encoded (keep : Z → bool) (s : string) : bool :=
  forallb (λ b, is_one_of "!$&'()*+,;=:@[]%" b || keep b) (bytes s).

(** The raw form of an unescaped text, kept when it is not the usual one. *)
Definition raw_form (keep : Z → bool) (text raw : string) : string :=
  if decide (escape_with keep text = raw) then ""%string else raw.

(** [EscapedPath] and [EscapedFragment]. *)
Definition raw_valid (keep : Z → bool) (text raw : string) : bool :=
  negb (bool_decide (raw = ""%string)) && valid_encoded keep raw && bool_decide (PathUnescape raw = Some text).
Definition EscapedPath (text raw : string) : string :=
  if raw_valid path_byte text raw then raw
  else if decide (text = "*"%string) then "*"%string else escape_with path_byte text.
Definition EscapedFragment (text raw : string) : string :=
  if raw_valid fragment_byte text raw then raw else escape_with fragment_byte text.

(** [getScheme]: an error, no scheme, or the scheme and the rest. *)
Fixpoint getScheme (first : bool) (l : list Z) : option (option (list Z * list Z)) :=
  match l with
  | [] => Some None
  | c :: rest =>
      let next := match getScheme false rest with Some (Some (s, r)) => Some (Some (c :: s, r)) | o => o end in
      if is_lower c || is_upper c then next
      else if is_digit c || is_one_of "+-." c then (if first then Some None else next)
      else if c =? 58 then (if first then None else Some (Some ([], rest)))
      else Some None
  end.

(** [validUserinfo]. *)
Definition valid_userinfo (s : string) : bool :=
  forallb (λ b, is_alnum_lower b || is_upper b || is_one_of "-._:~!$&'()*+,;=%@" b) (bytes s).

(** The last occurrence of a byte: what precedes and what follows. *)
Fixpoint CutLast (s : string) (sep : Ascii.ascii) : option (string * string) :=
  match s with
  | EmptyString => None
  | String a r =>
      match CutLast r sep with
      | Some (x, y) => Some (String a x, y)
      | None => if Ascii.eqb a sep then Some (EmptyString, r) else None
      end
  end.

Section Parse.
Context `{UnicodeTables, HostParser}.

(** [parseAuthority]. *)
Definition parse_authority (scheme authority : string) : option (option (string * option string) * string) :=
  match CutLast authority "@"%char with
  | None => host ← host_Parse scheme authority; Some (None, host)
  | Some (userinfo, host) =>
      host ← host_Parse scheme host;
      if negb (valid_userinfo userinfo) then None
      else match Cut userinfo ":"%char with
           | None => user ← PathUnescape userinfo; Some (Some (user, None), host)
           | Some (user, password) =>
               user ← PathUnescape user; password ← PathUnescape password; Some (Some (user, Some password), host)
           end
  end.

(** The end of [parse]: authority and path. *)
Definition parse_hierarchy (scheme : string) (force : bool) (query rest : string) : option Location :=
  let authority := HasPrefix rest "//" && (negb (bool_decide (scheme = ""%string)) || negb (HasPrefix rest "///")) in
  '(user, host, rest) ←
    (if authority
     then let text := of_bytes (drop 2 (bytes rest)) in
          let '(authority, rest) := match Cut text "/"%char with Some (a, r) => (a, String "/" r) | None => (text, ""%string) end in
          p ← parse_authority scheme authority; Some (p.1, p.2, rest)
     else Some (None, ""%string, rest));
  path ← PathUnescape rest;
  Some {| lo_Scheme := scheme; lo_Opaque := ""; lo_User := user; lo_Host := host; lo_Path := path;
          lo_RawPath := raw_form path_byte path rest;
          lo_OmitHost := negb authority && negb (bool_decide (scheme = ""%string)) && HasPrefix rest "/";
          lo_ForceQuery := force; lo_RawQuery := query; lo_Fragment := ""; lo_RawFragment := "" |}.

(** [parse], without the fragment. *)
Definition parse (raw : string) : option Location :=
  if has_control raw then None
  else if decide (raw = "*"%string)
  then Some {| lo_Scheme := ""; lo_Opaque := ""; lo_User := None; lo_Host := ""; lo_Path := "*"; lo_RawPath := ""; lo_OmitHost := false;
               lo_ForceQuery := false; lo_RawQuery := ""; lo_Fragment := ""; lo_RawFragment := "" |}
  else
    found ← getScheme true (bytes raw);
    let '(scheme, rest) := match found with Some (s, r) => (ToLower (of_bytes s), of_bytes r) | None => (""%string, raw) end in
    let '(rest, query, force) :=
      match Cut rest "?"%char with
      | Some (r, EmptyString) => (r, ""%string, true)
      | Some (r, q) => (r, q, false)
      | None => (rest, ""%string, false)
      end in
    if negb (HasPrefix rest "/") && negb (bool_decide (scheme = ""%string))
    then Some {| lo_Scheme := scheme; lo_Opaque := rest; lo_User := None; lo_Host := ""; lo_Path := ""; lo_RawPath := "";
                 lo_OmitHost := false; lo_ForceQuery := force; lo_RawQuery := query; lo_Fragment := ""; lo_RawFragment := "" |}
    else if negb (HasPrefix rest "/") && StringContains (match Cut rest "/"%char with Some (x, _) => x | None => rest end) ":"
    then None
    else parse_hierarchy scheme force query rest.

(** [url.Parse]. *)
Definition Parse (raw : string) : option Location :=
  let '(u, frag) := match Cut raw "#"%char with Some p => p | None => (raw, ""%string) end in
  l ← parse u;
  if decide (frag = ""%string) then Some l
  else
    f ← PathUnescape frag;
    Some {| lo_Scheme := lo_Scheme l; lo_Opaque := lo_Opaque l; lo_User := lo_User l; lo_Host := lo_Host l; lo_Path := lo_Path l;
            lo_RawPath := lo_RawPath l; lo_OmitHost := lo_OmitHost l; lo_ForceQuery := lo_ForceQuery l;
            lo_RawQuery := lo_RawQuery l; lo_Fragment := f; lo_RawFragment := raw_form fragment_byte f frag |}.

(** [URL.String]: what precedes the path, and the whole. *)
Definition authority_text (u : Location) : string :=
  if decide (lo_Scheme u ≠ ""%string ∨ lo_Host u ≠ ""%string ∨ lo_User u ≠ None)
  then if decide (lo_OmitHost u = true ∧ lo_Host u = ""%string ∧ lo_User u = None) then ""
       else (if decide (lo_Host u ≠ ""%string ∨ lo_Path u ≠ ""%string ∨ lo_User u ≠ None) then "//" else "") +:+
            (match lo_User u with
             | Some (user, password) =>
                 escape_with user_byte user +:+
                 match password with Some p => ":" +:+ escape_with user_byte p | None => "" end +:+ "@"
             | None => ""
             end) +:+ (if decide (lo_Host u = ""%string) then "" else host_Escape (lo_Host u))
  else "".
Definition hierarchy_text (u : Location) : string :=
  let path := EscapedPath (lo_Path u) (lo_RawPath u) in
  let scheme := if decide (lo_Scheme u = ""%string) then ""%string else lo_Scheme u +:+ ":" in
  let prefix := scheme +:+ authority_text u +:+
    (if decide (path ≠ ""%string ∧ HasPrefix path "/" = false ∧ lo_Host u ≠ ""%string) then "/" else "") in
  prefix +:+ (if decide (prefix = ""%string ∧
                         StringContains (match Cut path "/"%char with Some (x, _) => x | None => path end) ":" = true)
              then "./" else "") +:+ path.
Definition Location_String (u : Location) : string :=
  (if decide (lo_Opaque u = ""%string) then hierarchy_text u
   else (if decide (lo_Scheme u = ""%string) then "" else lo_Scheme u +:+ ":") +:+ lo_Opaque u) +:+
  (if lo_ForceQuery u || negb (bool_decide (lo_RawQuery u = ""%string)) then "?" +:+ lo_RawQuery u else "") +:+
  (if decide (lo_Fragment u = ""%string) then "" else "#" +:+ EscapedFragment (lo_Fragment u) (lo_RawFragment u)).

(** [target.Query()]. *)
Definition location_Query (u : Location) : Values := ParseQuery (lo_RawQuery u).

(** ** The check *)

(** The pages that may follow. *)
Definition return_paths : list string :=
  ["/portal"; "/account"; "/admin"; "/admin/clients"; "/oauth2/authorize"; "/cas/login"; "/device"].

(** [internal/platform/http/auth.go:772-786] validatedReturnTo *)
Definition validatedReturnTo (value : string) : string :=
  if decide (value = ""%string) then ""%string
  else match Parse value with
  | None => ""%string
  | Some target =>
      if negb (bool_decide (lo_Scheme target = ""%string)) || negb (bool_decide (lo_Host target = ""%string)) ||
         negb (HasPrefix (lo_Path target) "/") || HasPrefix (lo_Path target) "//"
      then ""%string
      else if decide (lo_Path target ∈ return_paths) then Location_String target else ""%string
  end.

(** ** What is returned stays on the site *)

Lemma escape_plain s : forallb path_byte (bytes s) = true → escape_with path_byte s = s.
Proof.
  intros Hs. unfold escape_with. rewrite <- (of_bytes_bytes s) at 2. f_equal. induction (bytes s) as [|b l IH]; [done|].
  cbn [forallb] in Hs. apply andb_true_iff in Hs as [Hb Hl]. cbn [mbind list_bind]. rewrite Hb. cbn [app]. f_equal. by apply IH.
Qed.

Lemma return_path_plain path : path ∈ return_paths → EscapedPath path "" = path ∧ PathUnescape path = Some path.
Proof. revert path. apply Forall_forall. apply (bool_decide_unpack _). vm_compute. exact I. Qed.

(** Unescaping keeps the bytes other than percent signs. *)
Lemma unescape_keeps l r b : unescape_bytes false l = Some r → b ∈ l → b ≠ 37 → (∀ x, unhex b ≠ Some x) → b ∈ r.
Proof.
  intros Hl Hb Hne Hx. remember (length l) as n eqn:Hn. revert l r Hl Hb Hn.
  induction (lt_wf n) as [n _ IH]. intros l r Hl Hb ->. destruct l as [|c l]; [by apply elem_of_nil in Hb|].
  cbn [unescape_bytes] in Hl. case_decide as Hc.
  - destruct l as [|a1 [|a2 l]]; try done. destruct (unhex a1) eqn:E1, (unhex a2) eqn:E2, (unescape_bytes false l) as [r'|] eqn:E; try done.
    injection Hl as <-. right. apply elem_of_cons in Hb as [->|Hb]; [done|]. apply elem_of_cons in Hb as [->|Hb]; [by edestruct Hx|].
    apply elem_of_cons in Hb as [->|Hb]; [by edestruct Hx|]. eapply (IH (length l)); try done. simpl. lia.
  - rewrite decide_False in Hl by (by intros [? ?]). destruct (unescape_bytes false l) as [r'|] eqn:E; [|done]. injection Hl as <-.
    apply elem_of_cons in Hb as [->|Hb]; [by left|right]. eapply (IH (length l)); try done. simpl. lia.
Qed.

Lemma unescape_head b l r : b ≠ 37 → unescape_bytes false (b :: l) = Some r → ∃ r', r = b :: r' ∧ unescape_bytes false l = Some r'.
Proof.
  intros Hb. cbn [unescape_bytes]. rewrite decide_False by done. rewrite decide_False by (by intros [? ?]).
  destruct (unescape_bytes false l) as [r'|]; [|done]. intros [= <-]. by exists r'.
Qed.

Lemma PathUnescape_bytes p path : PathUnescape p = Some path → ∃ l, unescape_bytes false (bytes p) = Some l ∧ path = of_bytes l.
Proof. unfold PathUnescape. destruct (unescape_bytes false (bytes p)) as [l|]; [|done]. intros [= <-]. by exists l. Qed.

Lemma EscapedPath_unescape path raw : path ∈ return_paths → PathUnescape (EscapedPath path raw) = Some path.
Proof.
  intros Hp. destruct (return_path_plain path Hp) as [Hplain Hun]. unfold EscapedPath in *.
  destruct (raw_valid path_byte path raw) eqn:E; [|change (raw_valid path_byte path "") with false in Hplain; by rewrite Hplain].
  unfold raw_valid in E. apply andb_true_iff in E as [_ E]. by apply bool_decide_eq_true in E.
Qed.

(** Unescaped bytes are bytes. *)
Lemma unescape_range l r : Forall is_byte l → unescape_bytes false l = Some r → Forall is_byte r.
Proof.
  remember (length l) as n eqn:Hn. revert l r Hn. induction (lt_wf n) as [n _ IH]. intros l r -> Hl Hu.
  destruct Hl as [|c l Hc Hl]; [by injection Hu as <-|]. cbn [unescape_bytes] in Hu. case_decide.
  - destruct Hl as [|a1 l Ha1 Hl]; [done|]. destruct Hl as [|a2 l Ha2 Hl]; [done|].
    destruct (unhex a1) as [x|] eqn:E1, (unhex a2) as [y|] eqn:E2, (unescape_bytes false l) as [r'|] eqn:E; try done.
    injection Hu as <-. constructor; [|eapply (IH (length l)); try done; simpl; lia].
    assert (∀ z v, unhex z = Some v → 0 ≤ v < 16) as Hhex.
    { intros z v. unfold unhex, in_range. repeat case_bool_decide; intros [= <-]; lia. }
    apply Hhex in E1, E2. unfold is_byte. lia.
  - rewrite decide_False in Hu by (by intros [? ?]). destruct (unescape_bytes false l) as [r'|] eqn:E; [|done]. injection Hu as <-.
    constructor; [done|]. eapply (IH (length l)); try done. simpl; lia.
Qed.

(** A raw path has no colon when the path has none. *)
Lemma raw_no_colon p path : PathUnescape p = Some path → 58 ∉ bytes path → 58 ∉ bytes p.
Proof.
  intros (l & Hl & ->)%PathUnescape_bytes Hno Hin. apply Hno. rewrite bytes_of_bytes.
  - by eapply unescape_keeps.
  - exact (unescape_range _ _ (bytes_range p) Hl).
Qed.

Lemma Cut_bytes s sep x y b : Cut s sep = Some (x, y) → b ∈ bytes x → b ∈ bytes s.
Proof. intros ->%Cut_Some Hb. rewrite bytes_app. apply elem_of_app. by left. Qed.

Lemma no_colon_segment p : 58 ∉ bytes p → StringContains (match Cut p "/"%char with Some (x, _) => x | None => p end) ":" = false.
Proof.
  intros Hno. apply (Contains_no_byte ":"%char). unfold no_byte. intros Hin. apply Hno.
  assert (∀ q, ":"%char ∈ list_ascii_of_string q → 58 ∈ bytes q) as Hb by (intros q Hq; by apply (list_elem_of_fmap_2 byte_val) in Hq).
  apply Hb in Hin. destruct (Cut p "/"%char) as [[x y]|] eqn:E; [|done]. by eapply Cut_bytes.
Qed.

(** An opaque URL has no path. *)
Lemma Parse_opaque value u : Parse value = Some u → lo_Path u ≠ ""%string → lo_Opaque u = ""%string.
Proof.
  assert (∀ v l, parse v = Some l → lo_Path l = ""%string ∨ lo_Opaque l = ""%string) as Hparse.
  { intros v l. unfold parse, parse_hierarchy. intros Hl. repeat (case_match; simplify_option_eq; try (by left); try (by right)). }
  unfold Parse. intros Hu Hne. repeat (case_match; simplify_option_eq); edestruct Hparse; done || eauto.
Qed.

(** What may follow the path. *)
Definition query_or_fragment (suffix : string) : Prop :=
  suffix = ""%string ∨ HasPrefix suffix "?" = true ∨ HasPrefix suffix "#" = true.

(** C36. An address that is returned is one of the pages, spelt with escapes perhaps, and what
    follows its path; unless it carries user information. *)
Theorem return_to_stays value :
  validatedReturnTo value ≠ ""%string →
  ∃ u, Parse value = Some u ∧ lo_Scheme u = ""%string ∧ lo_Host u = ""%string ∧ lo_Path u ∈ return_paths ∧
    (lo_User u = None → ∃ p suffix, validatedReturnTo value = p +:+ suffix ∧ PathUnescape p = Some (lo_Path u) ∧
                                    query_or_fragment suffix ∧ HasPrefix p "//" = false).
Proof.
  unfold validatedReturnTo. case_decide; [done|]. destruct (Parse value) as [u|] eqn:Hparse; [|done].
  destruct (bool_decide (lo_Scheme u = ""%string)) eqn:Hs; [|done]. destruct (bool_decide (lo_Host u = ""%string)) eqn:Hh; [|done].
  apply bool_decide_eq_true in Hs, Hh. simpl.
  destruct (HasPrefix (lo_Path u) "/") eqn:Hp; [|done]. destruct (HasPrefix (lo_Path u) "//") eqn:Hpp; [done|]. simpl.
  destruct (decide (lo_Path u ∈ return_paths)) as [Hin|]; [|done]. intros _. exists u. split_and!; try done. intros Huser.
  set (p := EscapedPath (lo_Path u) (lo_RawPath u)). pose proof (EscapedPath_unescape (lo_Path u) (lo_RawPath u) Hin) as Hun. fold p in Hun.
  assert (p ≠ ""%string ∧ 58 ∉ bytes (lo_Path u)) as [Hne Hcolon].
  { split; [intros Heq; rewrite Heq in Hun; injection Hun as Hun; by rewrite <- Hun in Hp|].
    clear -Hin. revert Hin. generalize (lo_Path u). apply Forall_forall. apply (bool_decide_unpack _). vm_compute. exact I. }
  pose proof (no_colon_segment p (raw_no_colon _ _ Hun Hcolon)) as Hseg.
  set (suffix := (if lo_ForceQuery u || negb (bool_decide (lo_RawQuery u = ""%string)) then "?" +:+ lo_RawQuery u else "") +:+
    (if decide (lo_Fragment u = ""%string) then "" else "#" +:+ EscapedFragment (lo_Fragment u) (lo_RawFragment u))).
  exists p, suffix. split_and!; [|done| |].
  - unfold Location_String. fold suffix. rewrite (Parse_opaque value u Hparse) by (intros Heq; by rewrite Heq in Hp).
    rewrite decide_True by done. f_equal. unfold hierarchy_text, authority_text. rewrite Hs, Hh, Huser. fold p.
    rewrite (decide_True (P := ""%string = ""%string)) by done. rewrite (decide_False (P := _ ∨ _)) by naive_solver.
    rewrite (decide_False (P := p ≠ ""%string ∧ _)) by naive_solver. rewrite Hseg. by rewrite decide_False by naive_solver.
  - unfold suffix, query_or_fragment. destruct (_ || _).
    + right; left. apply HasPrefix_true. by eexists.
    + case_decide; [by left|right; right]. apply HasPrefix_true. by eexists.
  - apply not_true_is_false. intros [r Hr]%HasPrefix_true. rewrite Hr in Hun. apply PathUnescape_bytes in Hun as (l & Hl & Hpath).
    rewrite bytes_app in Hl. change (bytes "//") with [47; 47] in Hl. cbn [app] in Hl.
    apply unescape_head in Hl as (l1 & -> & Hl); [|done]. apply unescape_head in Hl as (l2 & -> & Hl); [|done].
    assert (HasPrefix (lo_Path u) "//" = true) as Hbad; [|congruence]. apply HasPrefix_true. exists (of_bytes l2). by rewrite Hpath.
Qed.
End Parse.

(** Hosts taken as they are, to evaluate with. *)
Definition plain_hosts : HostParser := {| host_Parse _ host := Some host; host_Escape host := host |}.

Example return_addresses :
  let check := @validatedReturnTo ascii_tables plain_hosts in
  check "/oauth2/authorize?client_id=app&state=a%20b#x" = "/oauth2/authorize?client_id=app&state=a%20b#x"%string ∧
  check "/%70ortal" = "/%70ortal"%string ∧ check "%2Fportal" = "%2Fportal"%string ∧
  check "https://evil.example/portal" = ""%string ∧ check "//evil.example/portal" = ""%string ∧ check "///portal" = ""%string ∧
  check "/other" = ""%string ∧ check "javascript:/portal" = ""%string ∧ check "/portal%zz" = ""%string ∧
  check "//user@/portal" = "//user@/portal"%string.
Proof. vm_compute. done. Qed.

(** The check does not look at user information: such an address is a network path, which
    a browser does not resolve on the site. *)
Lemma user_information_passes : @validatedReturnTo ascii_tables plain_hosts "//user@/portal" = "//user@/portal"%string.
Proof. vm_compute. done. Qed.

Lemma return_to_stays_witness :
  ∃ u, @Parse ascii_tables plain_hosts "/portal?x=1" = Some u ∧ lo_Scheme u = ""%string ∧ lo_Host u = ""%string ∧ lo_Path u ∈ return_paths ∧
    (lo_User u = None → ∃ p suffix, @validatedReturnTo ascii_tables plain_hosts "/portal?x=1" = p +:+ suffix ∧
       PathUnescape p = Some (lo_Path u) ∧ query_or_fragment suffix ∧ HasPrefix p "//" = false).
Proof. apply (@return_to_stays ascii_tables plain_hosts "/portal?x=1"). vm_compute. discriminate. Defined.
