(* ===== verification/Federation.v ===== *)
(** The registry of identity sources, the directories and identity providers that users
    may sign in with: [internal/federation/source.go] and [config.go]. The secrets of the
    sources are encrypted at rest. *)
From S2P Require Import Prelude GoStrings GoCrypto GoAead Secrets Client Authorize GoUrl ReturnTo.
Local Open Scope Z_scope.
Local Open Scope string_scope.
Local Open Scope go_scope.

(** [internal/federation/source.go:19-26] errors, and the end of a handler that follows a
    nil pointer *)
Inductive sourceError :=
| ErrSourceNotFound | ErrSourceConflict | ErrSourceArchived | ErrSourceDisabled
| ErrInvalidSource (detail : string) | ErrSourceEncryptionUnavailable | SourcePanic.
#[global] Instance sourceError_eq_dec : EqDecision sourceError.
Proof. solve_decision. Defined.

(** ** Data *)

(** [internal/federation/source.go:28-28] sourceSecretPurpose *)
Definition sourceSecretPurpose : string := "identity-source-credential".
(** [internal/federation/source.go:32-35] SourceType, its values *)
Definition SourceLDAP : string := "ldap".
Definition SourceOIDC : string := "oidc".

(** [internal/federation/source.go:37-46] LDAPSource *)
Record LDAPSource := {
  ls_URL : string;
  ls_StartTLS : bool;
  ls_BaseDN : string;
  ls_BindDN : string;
  ls_UserFilter : string;
  ls_UsernameAttribute : string;
  ls_DisplayNameAttribute : string;
  ls_EmailAttribute : string;
}.

(** [internal/federation/source.go:48-52] OIDCSource *)
Record OIDCSource := { is_Issuer : string; is_ClientID : string; is_Scopes : list string }.

(** [internal/federation/source.go:54-68] Source: the ciphertext is the text of the envelope. *)
Record Source := {
  sr_ID : string;
  sr_Name : string;
  sr_Type : string;
  sr_Enabled : bool;
  sr_LDAP : option LDAPSource;
  sr_OIDC : option OIDCSource;
  sr_SecretConfigured : bool;
  sr_CreatedAt : Time;
  sr_UpdatedAt : Time;
  sr_ArchivedAt : option Time;
  sr_SecretCiphertext : string;
  sr_SecretKeyID : string;
}.

(** [internal/federation/source.go:70-80] LDAPSourceInput *)
Record LDAPSourceInput := {
  li_URL : string;
  li_StartTLS : bool;
  li_BaseDN : string;
  li_BindDN : string;
  li_BindPassword : string;
  li_UserFilter : string;
  li_UsernameAttribute : string;
  li_DisplayNameAttribute : string;
  li_EmailAttribute : string;
}.

(** [internal/federation/source.go:82-87] OIDCSourceInput *)
Record OIDCSourceInput := { oi_Issuer : string; oi_ClientID : string; oi_ClientSecret : string; oi_Scopes : list string }.

(** [internal/federation/source.go:89-96] CreateSource *)
Record CreateSourceInput := {
  cs_ID : string;
  cs_Name : string;
  cs_Type : string;
  cs_Enabled : option bool;
  cs_LDAP : option LDAPSourceInput;
  cs_OIDC : option OIDCSourceInput;
}.

(** [internal/federation/source.go:98-104] ReplaceSource *)
Record ReplaceSourceInput := {
  rs_Name : string;
  rs_Enabled : option bool;
  rs_ClearSecret : bool;
  rs_LDAP : option LDAPSourceInput;
  rs_OIDC : option OIDCSourceInput;
}.

(** [internal/federation/config.go:5-17] LDAPConfig *)
Record LDAPConfig := {
  lc_ProviderID : string;
  lc_Label : string;
  lc_URL : string;
  lc_StartTLS : bool;
  lc_BaseDN : string;
  lc_BindDN : string;
  lc_BindPassword : string;
  lc_UserFilter : string;
  lc_UsernameAttribute : string;
  lc_DisplayNameAttribute : string;
  lc_EmailAttribute : string;
}.
(** [internal/federation/config.go:19-21] LDAPConfig.Enabled *)
Definition LDAPEnabled (c : LDAPConfig) : bool := negb (bool_decide (TrimSpace (lc_URL c) = "")).

(** [internal/federation/config.go:23-30] ExternalOIDCConfig *)
Record ExternalOIDCConfig := {
  oc_ProviderID : string;
  oc_Issuer : string;
  oc_ClientID : string;
  oc_ClientSecret : string;
  oc_Label : string;
  oc_Scopes : list string;
}.
(** [internal/federation/config.go:32-34] ExternalOIDCConfig.Enabled *)
Definition OIDCEnabled (c : ExternalOIDCConfig) : bool := negb (bool_decide (TrimSpace (oc_Issuer c) = "")).

Definition sr_with_secret (ciphertext keyID : string) (configured : bool) (s : Source) : Source :=
  {| sr_ID := sr_ID s; sr_Name := sr_Name s; sr_Type := sr_Type s; sr_Enabled := sr_Enabled s; sr_LDAP := sr_LDAP s;
     sr_OIDC := sr_OIDC s; sr_SecretConfigured := configured; sr_CreatedAt := sr_CreatedAt s; sr_UpdatedAt := sr_UpdatedAt s;
     sr_ArchivedAt := sr_ArchivedAt s; sr_SecretCiphertext := ciphertext; sr_SecretKeyID := keyID |}.
Definition sr_with_config (ldap : option LDAPSource) (oidc : option OIDCSource) (s : Source) : Source :=
  {| sr_ID := sr_ID s; sr_Name := sr_Name s; sr_Type := sr_Type s; sr_Enabled := sr_Enabled s; sr_LDAP := ldap;
     sr_OIDC := oidc; sr_SecretConfigured := sr_SecretConfigured s; sr_CreatedAt := sr_CreatedAt s; sr_UpdatedAt := sr_UpdatedAt s;
     sr_ArchivedAt := sr_ArchivedAt s; sr_SecretCiphertext := sr_SecretCiphertext s; sr_SecretKeyID := sr_SecretKeyID s |}.
Definition sr_configured (b : bool) (s : Source) : Source := sr_with_secret (sr_SecretCiphertext s) (sr_SecretKeyID s) b s.
Definition sr_archived (now : Time) (s : Source) : Source :=
  {| sr_ID := sr_ID s; sr_Name := sr_Name s; sr_Type := sr_Type s; sr_Enabled := false; sr_LDAP := sr_LDAP s;
     sr_OIDC := sr_OIDC s; sr_SecretConfigured := sr_SecretConfigured s; sr_CreatedAt := sr_CreatedAt s; sr_UpdatedAt := now;
     sr_ArchivedAt := Some now; sr_SecretCiphertext := sr_SecretCiphertext s; sr_SecretKeyID := sr_SecretKeyID s |}.

Definition nonempty (s : string) : bool := negb (bool_decide (s = "")).

(** [internal/federation/source.go:716-733] cloneSource: a source with a ciphertext has a secret. *)
Definition cloneSource (s : Source) : Source := sr_configured (nonempty (sr_SecretCiphertext s) || sr_SecretConfigured s) s.

(** ** The repository *)

(** [internal/federation/source.go:125-129] MemorySourceRepository *)
Record SourceRepository := { sources : gmap string Source; source_order : list string }.

(** [internal/federation/source.go:131-142] NewMemorySourceRepository *)
Definition NewSourceRepository (initial : list Source) : SourceRepository :=
  foldl (λ r s, {| sources := <[sr_ID s := cloneSource s]> (sources r); source_order := (source_order r ++ [sr_ID s])%list |})
        {| sources := ∅; source_order := [] |} initial.

Definition put_source (id : string) (s : Source) (r : SourceRepository) : SourceRepository :=
  {| sources := <[id := s]> (sources r); source_order := source_order r |}.

(** [internal/federation/source.go:144-152] List *)
Definition ListSources (r : SourceRepository) : Res sourceError (list Source) :=
  Ok (cloneSource <$> omap (λ id, sources r !! id) (source_order r)).

(** [internal/federation/source.go:154-162] Find *)
Definition FindSourceRecord (r : SourceRepository) (id : string) : Res sourceError Source :=
  match sources r !! id with Some s => Ok (cloneSource s) | None => Err ErrSourceNotFound end.

(** [internal/federation/source.go:164-173] Create *)
Definition CreateSourceRecord (r : SourceRepository) (s : Source) : SourceRepository * Res sourceError Source :=
  if decide (is_Some (sources r !! sr_ID s)) then (r, Err ErrSourceConflict)
  else ({| sources := <[sr_ID s := cloneSource s]> (sources r); source_order := (source_order r ++ [sr_ID s])%list |},
        Ok (cloneSource s)).

(** [internal/federation/source.go:175-187] Replace *)
Definition ReplaceSourceRecord (r : SourceRepository) (s : Source) : SourceRepository * Res sourceError Source :=
  match sources r !! sr_ID s with
  | None => (r, Err ErrSourceNotFound)
  | Some current =>
      if decide (sr_ArchivedAt current ≠ None) then (r, Err ErrSourceArchived)
      else (put_source (sr_ID s) (cloneSource s) r, Ok (cloneSource s))
  end.

(** [internal/federation/source.go:189-204] Archive *)
Definition ArchiveSourceRecord (r : SourceRepository) (id : string) (now : Time) : SourceRepository * Res sourceError unit :=
  match sources r !! id with
  | None => (r, Err ErrSourceNotFound)
  | Some s => (if decide (sr_ArchivedAt s = None) then put_source id (sr_archived now s) r else r, Ok ())
  end.

(** [internal/federation/source.go:206-222] ListSourceSecretCiphertexts: identifiers, ciphertexts and
    keys *)
Definition ListSourceSecretCiphertexts (r : SourceRepository) : list (string * string * string) :=
  omap (λ id, s ← sources r !! id;
              if decide (sr_SecretCiphertext s = "") then None else Some (sr_ID s, sr_SecretCiphertext s, sr_SecretKeyID s))
       (source_order r).

(** [internal/federation/source.go:224-244] ReplaceSourceSecretCiphertext *)
Definition ReplaceSourceSecretCiphertext (r : SourceRepository) (id current replacement keyID : string)
    : SourceRepository * Res sourceError bool :=
  match sources r !! id with
  | None => (r, Err ErrSourceNotFound)
  | Some s =>
      if decide (sr_SecretCiphertext s ≠ current) then (r, Ok false)
      else (put_source id (sr_with_secret replacement keyID (nonempty replacement) s) r, Ok true)
  end.

(** ** Building sources *)

Definition TrimRight (s cutset : string) : string :=
  string_of_list_ascii (reverse (drop_while_in (list_ascii_of_string cutset) (reverse (list_ascii_of_string s)))).
Definition with_default (value fallback : string) : string := if decide (value = "") then fallback else value.

(** [internal/federation/source.go:571-598] normalizeLDAPSource *)
Definition normalizeLDAPSource (input : LDAPSourceInput) : LDAPSource :=
  {| ls_URL := TrimRight (TrimSpace (li_URL input)) "/"; ls_StartTLS := li_StartTLS input;
     ls_BaseDN := TrimSpace (li_BaseDN input); ls_BindDN := TrimSpace (li_BindDN input);
     ls_UserFilter := with_default (TrimSpace (li_UserFilter input)) "(uid={username})";
     ls_UsernameAttribute := with_default (TrimSpace (li_UsernameAttribute input)) "uid";
     ls_DisplayNameAttribute := with_default (TrimSpace (li_DisplayNameAttribute input)) "displayName";
     ls_EmailAttribute := with_default (TrimSpace (li_EmailAttribute input)) "mail" |}.

(** [internal/federation/source.go:699-714] uniqueSourceStrings *)
Definition uniqueSourceStrings (values : list string) : list string := unique_by trimmed ∅ values.

(** [internal/federation/source.go:600-610] normalizeOIDCSource *)
Definition normalizeOIDCSource (input : OIDCSourceInput) : OIDCSource :=
  let scopes := uniqueSourceStrings (oi_Scopes input) in
  {| is_Issuer := TrimRight (TrimSpace (oi_Issuer input)) "/"; is_ClientID := TrimSpace (oi_ClientID input);
     is_Scopes := if decide (scopes = []) then ["openid"; "profile"; "email"] else scopes |}.

(** [internal/federation/source.go:535-540] applySourceInput, the check of a secret *)
Definition validateSecret (secret : string) : Res sourceError string :=
  if decide (16384 < len secret)%Z then Err (ErrInvalidSource "source secret is too large") else Ok secret.

(** [internal/federation/source.go:529-569] applySourceInput: the source with its configuration, and the
    secret. *)
Definition applySourceInput (source : Source) (ldapInput : option LDAPSourceInput) (oidcInput : option OIDCSourceInput)
    (secretConfigured : bool) : Res sourceError (Source * string) :=
  if decide (sr_Type source = SourceLDAP)
  then match ldapInput, oidcInput with
  | Some input, None =>
      let ldap := normalizeLDAPSource input in
      let secret := li_BindPassword input in
      let! _ := guard_not (TrimSpace (ls_BindDN ldap) ≠ "" ∧ secret = "" ∧ secretConfigured = false)
                          (ErrInvalidSource "bind_password is required with bind_dn") in
      let! _ := guard_not (TrimSpace (ls_BindDN ldap) = "" ∧ secret ≠ "")
                          (ErrInvalidSource "bind_dn is required with bind_password") in
      let! secret := validateSecret secret in
      Ok (sr_with_config (Some ldap) None source, secret)
  | _, _ => Err (ErrInvalidSource "ldap configuration is required only for LDAP sources")
  end
  else if decide (sr_Type source = SourceOIDC)
  then match oidcInput, ldapInput with
  | Some input, None =>
      let! _ := guard_not (oi_ClientSecret input = "" ∧ secretConfigured = false) (ErrInvalidSource "client_secret is required") in
      let! secret := validateSecret (oi_ClientSecret input) in
      Ok (sr_with_config None (Some (normalizeOIDCSource input)) source, secret)
  | _, _ => Err (ErrInvalidSource "oidc configuration is required only for OIDC sources")
  end
  else Err (ErrInvalidSource ("unsupported source type " +:+ sr_Type source)).

(** ** Validation *)

(** [u.Hostname()]: the host without its port and without the brackets of an IPv6 address. *)
Definition validOptionalPort (port : string) : bool := forallb is_digit (bytes port).
Definition Hostname (hostPort : string) : string :=
  let host := match CutLast hostPort ":"%char with
              | Some (host, port) => if validOptionalPort port then host else hostPort
              | None => hostPort
              end in
  match host with
  | String "[" rest => match CutLast rest "]"%char with Some (inner, EmptyString) => inner | _ => host end
  | _ => host
  end.

(** [internal/federation/source.go:612-612] sourceIDPattern *)
Definition sourceIDPattern : string → bool := match_head_tail is_alnum_lower (λ b, is_alnum_lower b || is_one_of "_-" b) 1 62.
(** [internal/federation/source.go:613-613] oidcScopePattern *)
Definition oidcScopePattern : string → bool := match_class (in_range 33 126) 1 128.

Section Validation.
Context `{MapRange, UnicodeTables, HostParser, URLParser}.

(** [internal/federation/source.go:691-697] isLoopbackHost *)
Definition isLoopbackSourceHost (host : string) : bool := EqualFold host "localhost" || ip_IsLoopback host.

Definition bad_attribute (kv : string * string) : Prop := kv.2 = "" ∨ (128 < len kv.2)%Z.

(** [internal/federation/source.go:623-657] Source.Validate, of a directory; the attribute that is reported
    depends on the order of a map. *)
Definition validate_ldap (s : Source) : Res sourceError unit :=
  match sr_LDAP s, sr_OIDC s with
  | Some ldap, None =>
      match Parse (ls_URL ldap) with
      | None => Err (ErrInvalidSource "LDAP URL must use ldap:// or ldaps://")
      | Some endpoint =>
          let! _ := guard_not (lo_Host endpoint = "" ∨ lo_Scheme endpoint ≠ "ldap" ∧ lo_Scheme endpoint ≠ "ldaps")
                              (ErrInvalidSource "LDAP URL must use ldap:// or ldaps://") in
          let! _ := guard_not (lo_User endpoint ≠ None ∨ lo_RawQuery endpoint ≠ "" ∨ lo_Fragment endpoint ≠ "")
                              (ErrInvalidSource "LDAP URL must not contain credentials, query or fragment") in
          let! _ := guard_not (ls_StartTLS ldap = true ∧ lo_Scheme endpoint ≠ "ldap")
                              (ErrInvalidSource "LDAP StartTLS is only valid with ldap://") in
          let! _ := guard_not (ls_BaseDN ldap = "") (ErrInvalidSource "LDAP base_dn is required") in
          let! _ := guard_not (StringContains (ls_UserFilter ldap) "{username}" = false)
                              (ErrInvalidSource "LDAP user_filter must contain {username}") in
          let attributes : gmap string string :=
            <["username_attribute" := ls_UsernameAttribute ldap]> (<["display_name_attribute" := ls_DisplayNameAttribute ldap]>
              {["email_attribute" := ls_EmailAttribute ldap]}) in
          match list_find bad_attribute (range attributes) with
          | Some (_, (name, _)) => Err (ErrInvalidSource ("LDAP " +:+ name +:+ " must be 1-128 characters"))
          | None =>
              let! _ := guard_not (ls_BindDN ldap ≠ "" ∧ sr_SecretConfigured s = false)
                                  (ErrInvalidSource "LDAP bind password is required") in
              guard_not (ls_BindDN ldap = "" ∧ sr_SecretConfigured s = true)
                        (ErrInvalidSource "LDAP bind_dn is required with a bind password")
          end
      end
  | _, _ => Err (ErrInvalidSource "LDAP source configuration is inconsistent")
  end.

(** [internal/federation/source.go:658-684] Source.Validate, of a provider *)
Definition validate_oidc (s : Source) : Res sourceError unit :=
  match sr_OIDC s, sr_LDAP s with
  | Some oidc, None =>
      let absolute := ErrInvalidSource "OIDC issuer must be an absolute URL without query or fragment" in
      match Parse (is_Issuer oidc) with
      | None => Err absolute
      | Some issuer =>
          let! _ := guard_not (lo_Scheme issuer = "" ∨ lo_Host issuer = "" ∨ lo_User issuer ≠ None ∨ lo_RawQuery issuer ≠ "" ∨
                               lo_Fragment issuer ≠ "") absolute in
          let! _ := guard_not (lo_Scheme issuer ≠ "https" ∧
                               ¬ (lo_Scheme issuer = "http" ∧ isLoopbackSourceHost (Hostname (lo_Host issuer)) = true))
                              (ErrInvalidSource "OIDC issuer must use HTTPS (HTTP is allowed only for loopback hosts)") in
          let! _ := guard_not (is_ClientID oidc = "" ∨ 256 < len (is_ClientID oidc))%Z
                              (ErrInvalidSource "OIDC client_id must be 1-256 characters") in
          let! _ := guard_not (sr_SecretConfigured s = false) (ErrInvalidSource "OIDC client secret is required") in
          let! _ := guard_not (is_Scopes oidc = [] ∨ (20 < length (is_Scopes oidc))%nat ∨ "openid" ∉ is_Scopes oidc)
                              (ErrInvalidSource "OIDC scopes must contain openid and at most 20 entries") in
          match list_find (λ scope, oidcScopePattern scope = false) (is_Scopes oidc) with
          | Some (_, scope) => Err (ErrInvalidSource ("invalid OIDC scope " +:+ scope))
          | None => Ok ()
          end
      end
  | _, _ => Err (ErrInvalidSource "OIDC source configuration is inconsistent")
  end.

(** [internal/federation/source.go:615-689] Source.Validate *)
Definition ValidateSource (s : Source) : Res sourceError unit :=
  let! _ := guard_not (sourceIDPattern (sr_ID s) = false)
                      (ErrInvalidSource "id must be 2-63 lowercase letters, digits, underscores or hyphens") in
  let! _ := guard_not (sr_Name s = "" ∨ 128 < rune_count (sr_Name s))%Z (ErrInvalidSource "name must be 1-128 characters") in
  if decide (sr_Type s = SourceLDAP) then validate_ldap s
  else if decide (sr_Type s = SourceOIDC) then validate_oidc s
  else Err (ErrInvalidSource ("unsupported source type " +:+ sr_Type s)).

(** [internal/federation/source.go:478-499] newSource *)
Definition newSource (input : CreateSourceInput) (now : Time) : Res sourceError (Source * string) :=
  let source :=
    {| sr_ID := ToLower (TrimSpace (cs_ID input)); sr_Name := TrimSpace (cs_Name input); sr_Type := cs_Type input;
       sr_Enabled := default true (cs_Enabled input); sr_LDAP := None; sr_OIDC := None; sr_SecretConfigured := false;
       sr_CreatedAt := now; sr_UpdatedAt := now; sr_ArchivedAt := None; sr_SecretCiphertext := ""; sr_SecretKeyID := "" |} in
  let! applied := applySourceInput source (cs_LDAP input) (cs_OIDC input) false in
  let source := sr_configured (nonempty applied.2) applied.1 in
  let! _ := ValidateSource source in
  Ok (source, applied.2).

(** [internal/federation/source.go:501-527] replaceSource *)
Definition replaceSource (current : Source) (input : ReplaceSourceInput) (now : Time) : Res sourceError (Source * string) :=
  if decide (sr_ArchivedAt current ≠ None) then Err ErrSourceArchived
  else
    let source := cloneSource current in
    let source :=
      {| sr_ID := sr_ID source; sr_Name := TrimSpace (rs_Name input); sr_Type := sr_Type source;
         sr_Enabled := default (sr_Enabled source) (rs_Enabled input); sr_LDAP := sr_LDAP source; sr_OIDC := sr_OIDC source;
         sr_SecretConfigured := sr_SecretConfigured source; sr_CreatedAt := sr_CreatedAt source; sr_UpdatedAt := now;
         sr_ArchivedAt := sr_ArchivedAt source; sr_SecretCiphertext := sr_SecretCiphertext source; sr_SecretKeyID := sr_SecretKeyID source |} in
    let source := if rs_ClearSecret input then sr_with_secret "" "" false source else source in
    let! applied := applySourceInput source (rs_LDAP input) (rs_OIDC input) (sr_SecretConfigured source) in
    let source := if nonempty applied.2 then sr_configured true applied.1 else applied.1 in
    let! _ := ValidateSource source in
    Ok (source, applied.2).

(** ** The service *)

(** [internal/federation/source.go:397-406] SourceService.encrypt *)
Definition encryptSource (ring : KeyRing) (id plaintext : string) (rnd : Entropy) : Res sourceError (string * string) :=
  if negb (Available ring) then Err ErrSourceEncryptionUnavailable
  else match Encrypt ring sourceSecretPurpose id (bytes plaintext) rnd with
  | Ok p => Ok p
  | Err _ => Err ErrSourceEncryptionUnavailable
  end.

(** [internal/federation/source.go:408-422] SourceService.decrypt *)
Definition decryptSource (ring : KeyRing) (s : Source) : Res sourceError string :=
  if decide (sr_SecretCiphertext s = "") then Ok ""
  else match Decrypt ring sourceSecretPurpose (sr_ID s) (sr_SecretCiphertext s) (sr_SecretKeyID s) with
  | Ok plaintext => Ok (of_bytes plaintext)
  | Err _ => Err ErrSourceEncryptionUnavailable
  end.

(** [internal/federation/source.go:270-276] SourceService.Create, and Replace, the secret of the source *)
Definition seal_source (ring : KeyRing) (source : Source) (secret : string) (rnd : Entropy) : Res sourceError Source :=
  if nonempty secret
  then let! sealed := encryptSource ring (sr_ID source) secret rnd in Ok (sr_with_secret sealed.1 sealed.2 true source)
  else Ok source.

(** [internal/federation/source.go:264-278] SourceService.Create *)
Definition CreateSource (r : SourceRepository) (ring : KeyRing) (input : CreateSourceInput) (now : Time) (rnd : Entropy)
    : SourceRepository * Res sourceError Source :=
  match (let! made := newSource input now in seal_source ring made.1 made.2 rnd) with
  | Err e => (r, Err e)
  | Ok source => CreateSourceRecord r source
  end.

(** [internal/federation/source.go:285-297] SourceService.Replace, after the source was read: the
    repository may have changed since. *)
Definition replace_with (r : SourceRepository) (ring : KeyRing) (current : Source) (input : ReplaceSourceInput) (now : Time) (rnd : Entropy)
    : SourceRepository * Res sourceError Source :=
  match (let! made := replaceSource current input now in seal_source ring made.1 made.2 rnd) with
  | Err e => (r, Err e)
  | Ok source => ReplaceSourceRecord r source
  end.

(** [internal/federation/source.go:260-262] SourceService.Find *)
Definition FindSource (r : SourceRepository) (id : string) : Res sourceError Source := FindSourceRecord r (TrimSpace id).

(** [internal/federation/source.go:280-297] SourceService.Replace *)
Definition ReplaceSource (r : SourceRepository) (ring : KeyRing) (id : string) (input : ReplaceSourceInput) (now : Time) (rnd : Entropy)
    : SourceRepository * Res sourceError Source :=
  match FindSource r id with
  | Err e => (r, Err e)
  | Ok current => replace_with r ring current input now rnd
  end.

(** [internal/federation/source.go:299-301] SourceService.Archive *)
Definition ArchiveSource (r : SourceRepository) (id : string) (now : Time) : SourceRepository * Res sourceError unit :=
  ArchiveSourceRecord r (TrimSpace id) now.
End Validation.

(** [internal/federation/source.go:372-395] SourceService.activeSource, of a source that was found *)
Definition active_source (ring : KeyRing) (found : Res sourceError Source) (expected : string) : Res sourceError (Source * string) :=
  let! source := found in
  let! _ := guard_not (sr_ArchivedAt source ≠ None) ErrSourceArchived in
  let! _ := guard_not (sr_Enabled source = false) ErrSourceDisabled in
  let! _ := guard_not (sr_Type source ≠ expected) (ErrInvalidSource ("source type is " +:+ sr_Type source)) in
  let! secret := decryptSource ring source in
  Ok (source, secret).

(** [internal/federation/source.go:303-321] SourceService.LDAPAuthenticator, of a source that was found *)
Definition LDAPAuthenticator (ring : KeyRing) (found : Res sourceError Source) : Res sourceError LDAPConfig :=
  let! active := active_source ring found SourceLDAP in
  match sr_LDAP active.1 with
  | None => Err SourcePanic
  | Some ldap =>
      Ok {| lc_ProviderID := "identity-source:" +:+ sr_ID active.1; lc_Label := sr_Name active.1; lc_URL := ls_URL ldap;
            lc_StartTLS := ls_StartTLS ldap; lc_BaseDN := ls_BaseDN ldap; lc_BindDN := ls_BindDN ldap; lc_BindPassword := active.2;
            lc_UserFilter := ls_UserFilter ldap; lc_UsernameAttribute := ls_UsernameAttribute ldap;
            lc_DisplayNameAttribute := ls_DisplayNameAttribute ldap; lc_EmailAttribute := ls_EmailAttribute ldap |}
  end.

(** [internal/federation/source.go:323-340] SourceService.OIDCAuthenticator, of a source that was found *)
Definition OIDCAuthenticator (ring : KeyRing) (found : Res sourceError Source) : Res sourceError ExternalOIDCConfig :=
  let! active := active_source ring found SourceOIDC in
  match sr_OIDC active.1 with
  | None => Err SourcePanic
  | Some oidc =>
      Ok {| oc_ProviderID := "identity-source:" +:+ sr_ID active.1; oc_Issuer := is_Issuer oidc; oc_ClientID := is_ClientID oidc;
            oc_ClientSecret := active.2; oc_Label := sr_Name active.1; oc_Scopes := is_Scopes oidc |}
  end.

(** ** Key rotation *)

(** [internal/federation/source.go:440-474] RewrapSourceSecrets, the loop: [rnd] gives each record's nonce;
    an error stops the loop and keeps the count so far. *)
Fixpoint rewrap_sources (ring : KeyRing) (r : SourceRepository) (count : Z) (records : list (string * string * string)) (rnd : nat → Entropy)
    : SourceRepository * Z * option sourceError :=
  match records with
  | [] => (r, count, None)
  | (id, ciphertext, keyID) :: rest =>
      match EnvelopeKeyID ciphertext with
      | None => (r, count, Some ErrSourceEncryptionUnavailable)
      | Some envelopeKeyID =>
          if decide (envelopeKeyID = primaryID ring ∧ (keyID = "" ∨ keyID = envelopeKeyID))
          then rewrap_sources ring r count rest (λ i, rnd (S i))
          else match Decrypt ring sourceSecretPurpose id ciphertext keyID with
          | Err _ => (r, count, Some ErrSourceEncryptionUnavailable)
          | Ok plaintext =>
              match Encrypt ring sourceSecretPurpose id plaintext (rnd 0%nat) with
              | Err _ => (r, count, Some ErrSourceEncryptionUnavailable)
              | Ok (replacement, newKeyID) =>
                  match ReplaceSourceSecretCiphertext r id ciphertext replacement newKeyID with
                  | (r, Err e) => (r, count, Some e)
                  | (r, Ok replaced) =>
                      rewrap_sources ring r (if replaced then wrap64 (count + 1) else count) rest (λ i, rnd (S i))
                  end
              end
          end
      end
  end.

(** [internal/federation/source.go:424-476] RewrapSourceSecrets *)
Definition RewrapSourceSecrets (r : SourceRepository) (ring : KeyRing) (rnd : nat → Entropy) : SourceRepository * Z * option sourceError :=
  let records := ListSourceSecretCiphertexts r in
  if decide (records = []) then (r, 0%Z, None)
  else if negb (Available ring) then (r, 0%Z, Some ErrSourceEncryptionUnavailable)
  else rewrap_sources ring r 0 records rnd.

(** * Guarantees

    What the registry of identity sources guarantees: what it holds was validated and can
    be used, an archived source stays out of use, the secret of a source reaches the
    directory or provider it is for, and the rotation of keys keeps every secret. *)
(** ** The registry as a transition system *)

(** A source that was validated, and has a secret exactly when it has a ciphertext. *)
Definition source_ok `{MapRange, UnicodeTables, HostParser, URLParser} (s : Source) : Prop :=
  ValidateSource s = Ok () ∧ sr_SecretConfigured s = nonempty (sr_SecretCiphertext s).

Section Registry.
Context `{MapRange, UnicodeTables, HostParser, URLParser} (ring : KeyRing).

(** Requests read sources and replace, later, what they have read; [seen] is what was read
    so far. A rotation replaces one ciphertext by another at a time. *)
Inductive source_step : SourceRepository * list Source → SourceRepository * list Source → Prop :=
| ss_create r seen input now rnd : source_step (r, seen) ((CreateSource r ring input now rnd).1, seen)
| ss_read r seen id s : FindSource r id = Ok s → source_step (r, seen) (r, s :: seen)
| ss_replace r seen current input now rnd :
    current ∈ seen → source_step (r, seen) ((replace_with r ring current input now rnd).1, seen)
| ss_archive r seen id now : source_step (r, seen) ((ArchiveSource r id now).1, seen)
| ss_reseal r seen id current replacement keyID :
    current ≠ "" → replacement ≠ "" → source_step (r, seen) ((ReplaceSourceSecretCiphertext r id current replacement keyID).1, seen).

(** Every source is filed under its identifier, which is in the order of the registry. *)
Definition keyed_sources (r : SourceRepository) : Prop :=
  NoDup (source_order r) ∧ ∀ id s, sources r !! id = Some s → sr_ID s = id ∧ id ∈ source_order r.
Definition sources_inv (x : SourceRepository * list Source) : Prop :=
  keyed_sources x.1 ∧ (∀ id, id ∈ source_order x.1 → is_Some (sources x.1 !! id)) ∧
  (∀ id s, sources x.1 !! id = Some s → source_ok s) ∧ Forall source_ok x.2.

Lemma nonempty_true s : nonempty s = true ↔ s ≠ "".
Proof. unfold nonempty. by rewrite negb_true_iff, bool_decide_eq_false. Qed.
Lemma nonempty_false s : nonempty s = false ↔ s = "".
Proof. unfold nonempty. by rewrite negb_false_iff, bool_decide_eq_true. Qed.

Lemma clone_ok s : source_ok s → cloneSource s = s.
Proof.
  intros [_ Hc]. unfold cloneSource, sr_configured, sr_with_secret. rewrite Hc. destruct s, (nonempty _); simpl in *; by subst.
Qed.

Lemma apply_fields source ldap oidc configured source' secret :
  applySourceInput source ldap oidc configured = Ok (source', secret) →
  ∃ l o, source' = sr_with_config l o source.
Proof.
  unfold applySourceInput. repeat case_match; try done; intros Hr; repeat (apply res_bind_ok in Hr as (? & _ & Hr)); simplify_eq; eauto.
Qed.

(** Validation looks at whether there is a secret, not at the ciphertext. *)
Lemma validate_with_secret c k s : ValidateSource (sr_with_secret c k (sr_SecretConfigured s) s) = ValidateSource s.
Proof. by destruct s. Qed.

Lemma Encrypt_nonempty purpose id plaintext rnd envelope key :
  Encrypt ring purpose id plaintext rnd = Ok (envelope, key) → envelope ≠ "".
Proof. unfold Encrypt. repeat case_match; try done. intros [= <- _]. done. Qed.

Lemma seal_ok source secret rnd source' :
  ValidateSource source = Ok () → sr_SecretConfigured source = nonempty secret || nonempty (sr_SecretCiphertext source) →
  seal_source ring source secret rnd = Ok source' →
  source_ok source' ∧ sr_ID source' = sr_ID source ∧ sr_ArchivedAt source' = sr_ArchivedAt source.
Proof.
  intros Hv Hc. unfold seal_source. destruct (nonempty secret) eqn:Hn; simpl in Hc.
  - intros Hr. apply res_bind_ok in Hr as ([c k] & He & Hr). simplify_eq/=. split; [|done]. split.
    + rewrite <- Hc. by rewrite validate_with_secret.
    + simpl. symmetry. apply nonempty_true. unfold encryptSource in He. repeat case_match; try done. simplify_eq.
      by eapply Encrypt_nonempty.
  - intros [= <-]. done.
Qed.

Lemma new_sealed input now rnd source :
  res_bind (newSource input now) (λ made, seal_source ring made.1 made.2 rnd) = Ok source → source_ok source.
Proof.
  intros Hr. apply res_bind_ok in Hr as ([made secret] & Hm & Hr). unfold newSource in Hm. cbv zeta in Hm.
  apply res_bind_ok in Hm as ([applied secret'] & Ha & Hm). apply res_bind_ok in Hm as ([] & Hv & Hm). simplify_eq.
  apply apply_fields in Ha as (l & o & ->). eapply seal_ok in Hr as [Hok _]; [done|done|]. simpl. by rewrite orb_false_r.
Qed.

Lemma replaced_sealed current input now rnd source :
  source_ok current → res_bind (replaceSource current input now) (λ made, seal_source ring made.1 made.2 rnd) = Ok source →
  source_ok source.
Proof.
  intros Hok Hr. apply res_bind_ok in Hr as ([made secret] & Hm & Hr). unfold replaceSource in Hm. case_decide; [done|]. cbv zeta in Hm.
  rewrite (clone_ok _ Hok) in Hm. destruct Hok as [_ Hc]. apply res_bind_ok in Hm as ([applied secret'] & Ha & Hm). apply res_bind_ok in Hm as ([] & Hv & Hm). simplify_eq.
  apply apply_fields in Ha as (l & o & ->). eapply seal_ok in Hr as [Hok _]; [done|done|]. simpl.
  destruct (rs_ClearSecret input), (nonempty secret); simpl; try done.
Qed.

Lemma put_inv id s r seen :
  sources_inv (r, seen) → is_Some (sources r !! id) → sr_ID s = id → source_ok s → sources_inv (put_source id s r, seen).
Proof.
  intros ([Hnd Hk] & Ho & Hs & Hseen) [s0 Hid] Hsid Hok. unfold sources_inv, keyed_sources, put_source. simpl in *. split_and!; try done.
  - intros id' s'. rewrite lookup_insert_Some. intros [[<- <-]|[_ Hl]]; [split; [done|]; by eapply Hk|by apply Hk].
  - intros id' Hin. destruct (decide (id = id')) as [<-|]; [rewrite lookup_insert_eq; eauto|]. rewrite lookup_insert_ne by done. auto.
  - intros id' s'. rewrite lookup_insert_Some. intros [[<- <-]|[_ Hl]]; [done|by eapply Hs].
Qed.

Lemma source_step_inv x y : source_step x y → sources_inv x → sources_inv y.
Proof.
  destruct 1 as [r seen input now rnd|r seen id s Hf|r seen current input now rnd Hin|r seen id now|r seen id current replacement keyID Hc Hr].
  all: intros Hinv; pose proof Hinv as ([Hnd Hk] & Ho & Hs & Hseen); cbn [fst snd] in *.
  - unfold CreateSource. destruct (res_bind (newSource input now) _) as [source|e] eqn:E; [|done].
    apply new_sealed in E. unfold CreateSourceRecord. case_decide as Hex; [done|]. rewrite (clone_ok _ E). unfold sources_inv, keyed_sources. cbn [fst snd sources source_order].
    assert (sources r !! sr_ID source = None) as Hnone by (by apply eq_None_not_Some). split_and!; try done.
    + apply NoDup_app. split; [done|]. split; [|apply NoDup_singleton]. intros id Hin ->%list_elem_of_singleton. by destruct Hex; apply Ho.
    + intros id s. rewrite lookup_insert_Some. intros [[<- <-]|[_ Hl]]; [split; [done|]; set_solver|].
      destruct (Hk _ _ Hl). split; [done|]. set_solver.
    + intros id [Hin| ->%list_elem_of_singleton]%elem_of_app; [|rewrite lookup_insert_eq; eauto].
      destruct (decide (sr_ID source = id)) as [<-|]; [rewrite lookup_insert_eq; eauto|]. rewrite lookup_insert_ne by done. auto.
    + intros id s. rewrite lookup_insert_Some. intros [[_ <-]|[_ Hl]]; [done|by eapply Hs].
  - split_and!; try done. constructor; [|done]. unfold FindSource, FindSourceRecord in Hf.
    destruct (sources r !! TrimSpace id) as [s'|] eqn:E; [|done]. injection Hf as <-. apply Hs in E. by rewrite (clone_ok _ E).
  - unfold replace_with. destruct (res_bind (replaceSource current input now) _) as [source|e] eqn:E; [|done].
    apply replaced_sealed in E; [|by eapply Forall_forall]. unfold ReplaceSourceRecord.
    destruct (sources r !! sr_ID source) eqn:El; [|done]. case_decide; [done|]. apply put_inv; rewrite ?(clone_ok _ E); eauto.
  - unfold ArchiveSource, ArchiveSourceRecord. destruct (sources r !! TrimSpace id) as [s|] eqn:El; [|done]. case_decide; [|done].
    apply put_inv; [done|eauto|by apply (Hk _ _ El)|]. specialize (Hs _ _ El). destruct Hs as [Hv Hconf]. split; [|done]. by destruct s.
  - unfold ReplaceSourceSecretCiphertext. destruct (sources r !! id) as [s|] eqn:El; [|done]. case_decide as Hcur; [done|].
    apply put_inv; [done|eauto|by apply (Hk _ _ El)|]. specialize (Hs _ _ El). destruct Hs as [Hv Hconf]. split; [|done].
    assert (nonempty replacement = sr_SecretConfigured s) as ->; [|by rewrite validate_with_secret].
    rewrite Hconf, Hcur. by rewrite !(proj2 (nonempty_true _)).
Qed.

Lemma empty_inv : sources_inv (NewSourceRepository [], []).
Proof.
  split_and!; [split; [apply NoDup_nil_2|]| | |constructor]; cbn [fst snd NewSourceRepository foldl sources source_order].
  - intros id s Hs. by rewrite lookup_empty in Hs.
  - intros id Hin. by apply not_elem_of_nil in Hin.
  - intros id s Hs. by rewrite lookup_empty in Hs.
Qed.

Lemma reachable_sources x : rtc source_step (NewSourceRepository [], []) x → sources_inv x.
Proof.
  intros Hr. enough (∀ x0, rtc source_step x0 x → sources_inv x0 → sources_inv x) as Hall by apply (Hall _ Hr), empty_inv.
  induction 1; eauto using source_step_inv.
Qed.

(** The type of a valid source tells which configuration it has. *)
Lemma valid_config s : ValidateSource s = Ok () →
  (sr_Type s = SourceLDAP ∧ is_Some (sr_LDAP s) ∧ sr_OIDC s = None) ∨ (sr_Type s = SourceOIDC ∧ is_Some (sr_OIDC s) ∧ sr_LDAP s = None).
Proof.
  unfold ValidateSource, validate_ldap, validate_oidc. intros Hv.
  apply res_bind_ok in Hv as (? & _ & Hv). apply res_bind_ok in Hv as (? & _ & Hv).
  destruct (decide (sr_Type s = SourceLDAP)); [left|destruct (decide (sr_Type s = SourceOIDC)); [right|done]].
  all: destruct (sr_LDAP s), (sr_OIDC s); try done; eauto.
Qed.

Lemma active_source_ok ring' found expected s secret :
  active_source ring' found expected = Ok (s, secret) ↔
  found = Ok s ∧ sr_Type s = expected ∧ sr_ArchivedAt s = None ∧ sr_Enabled s = true ∧ decryptSource ring' s = Ok secret.
Proof.
  unfold active_source. destruct found as [s0|e]; cbn [res_bind]; [|naive_solver]. rewrite !res_bind_guard, res_bind_ok. split.
  - intros (Ha & He & Ht & secret' & Hd & [= -> ->]). apply dec_stable in Ha, Ht. by apply not_false_is_true in He.
  - intros ([= ->] & <- & -> & -> & Hd). split_and!; try done; [by intros Hn; apply Hn..|]. eauto.
Qed.

Lemma active_source_panic ring' s expected : active_source ring' (Ok s) expected ≠ Err SourcePanic.
Proof. unfold active_source, guard_not, decryptSource. cbn [res_bind]. repeat (case_decide; cbn [res_bind]; try done). by case_match. Qed.

(** C37. What the registry holds can be used. From an empty registry, however creations,
    reads, replacements of what was read, archivals and key rotations interleave, every
    source is filed under its identifier, passes the validation of the registry, and is
    said to have a secret exactly when a ciphertext is stored; asking for its
    authenticator never follows a nil configuration. *)
Theorem sources_valid r seen id s :
  rtc source_step (NewSourceRepository [], []) (r, seen) → sources r !! id = Some s →
  sr_ID s = id ∧ ValidateSource s = Ok () ∧ (sr_SecretConfigured s = true ↔ sr_SecretCiphertext s ≠ "") ∧
  ∀ ring', LDAPAuthenticator ring' (FindSourceRecord r id) ≠ Err SourcePanic ∧
           OIDCAuthenticator ring' (FindSourceRecord r id) ≠ Err SourcePanic.
Proof.
  intros ([_ Hk] & _ & Hs & _)%reachable_sources Hid. destruct (Hk _ _ Hid) as [Hsid _]. specialize (Hs _ _ Hid). simpl in *.
  pose proof Hs as [Hv Hc]. split_and!; [done..|rewrite Hc; apply nonempty_true|]. intros ring'.
  unfold FindSourceRecord. rewrite Hid, (clone_ok _ Hs). unfold LDAPAuthenticator, OIDCAuthenticator.
  destruct (valid_config _ Hv) as [(Ht & [l Hl] & _)|(Ht & [o Ho] & _)].
  all: split; (destruct (active_source _ _ _) as [[s' secret]|e] eqn:E; cbn [res_bind];
    [apply active_source_ok in E as ([= <-] & Ht' & _); simpl; rewrite ?Hl, ?Ho; done || (rewrite Ht in Ht'; discriminate Ht')|intros [= ->]; by eapply active_source_panic]).
Qed.

(** ** Archived sources *)

Definition archived_source (t : Time) (id : string) (r : SourceRepository) : Prop :=
  ∃ s, sources r !! id = Some s ∧ sr_ArchivedAt s = Some t.

Lemma put_archived t id id' s r :
  archived_source t id r → (id' = id → sr_ArchivedAt s = Some t) → archived_source t id (put_source id' s r).
Proof.
  intros (s0 & Hs & Ht) Hput. unfold archived_source, put_source. simpl. destruct (decide (id' = id)) as [->|].
  - rewrite lookup_insert_eq. eauto.
  - rewrite lookup_insert_ne by done. eauto.
Qed.

Lemma step_archived t id x y : source_step x y → archived_source t id x.1 → archived_source t id y.1.
Proof.
  destruct 1 as [r seen input now rnd|r seen id' s Hf|r seen current input now rnd Hin|r seen id' now|r seen id' current replacement keyID Hc Hr].
  all: cbn [fst]; intros Ha; pose proof Ha as (s0 & Hs0 & Ht).
  - unfold CreateSource. destruct (res_bind _ _) as [source|e]; [|done]. unfold CreateSourceRecord. case_decide as Hex; [done|].
    exists s0. split; [|done]. cbn [fst sources]. rewrite lookup_insert_ne; [done|]. intros <-. apply Hex. eauto.
  - done.
  - unfold replace_with. destruct (res_bind _ _) as [source|e]; [|done]. unfold ReplaceSourceRecord.
    destruct (sources r !! sr_ID source) as [s'|] eqn:El; [|done]. case_decide as Harch; [done|]. apply put_archived; [done|].
    intros Heq. rewrite Heq, Hs0 in El. injection El as <-. congruence.
  - unfold ArchiveSource, ArchiveSourceRecord. destruct (sources r !! TrimSpace id') as [s'|] eqn:El; [|done]. case_decide as Harch; [|done].
    apply put_archived; [done|]. intros Heq. rewrite Heq, Hs0 in El. injection El as <-. congruence.
  - unfold ReplaceSourceSecretCiphertext. destruct (sources r !! id') as [s'|] eqn:El; [|done]. case_decide; [done|]. apply put_archived; [done|].
    intros ->. rewrite Hs0 in El. by injection El as <-.
Qed.

(** An archived source is out of use for good: whatever happens to the registry after
    a source was archived, including replacements by requests that had read it before,
    it stays archived since the same instant, and nobody obtains an authenticator for
    it. *)
Theorem archived_source_final r seen r' seen' id now s :
  sources r !! TrimSpace id = Some s → rtc source_step ((ArchiveSource r id now).1, seen) (r', seen') →
  ∃ s', sources r' !! TrimSpace id = Some s' ∧ sr_ArchivedAt s' = Some (default now (sr_ArchivedAt s)) ∧
    ∀ ring' expected, active_source ring' (FindSource r' id) expected = Err ErrSourceArchived.
Proof.
  intros Hs Hr. assert (archived_source (default now (sr_ArchivedAt s)) (TrimSpace id) (ArchiveSource r id now).1) as Ha.
  { unfold ArchiveSource, ArchiveSourceRecord. rewrite Hs. case_decide as Hn; unfold archived_source; cbn [fst].
    - rewrite Hn. exists (sr_archived now s). split; [|done]. unfold put_source. simpl. by rewrite lookup_insert_eq.
    - exists s. split; [done|]. by destruct (sr_ArchivedAt s). }
  enough (∀ x y, rtc source_step x y → ∀ t i, archived_source t i x.1 → archived_source t i y.1) as Hall.
  { destruct (Hall _ _ Hr _ _ Ha) as (s' & Hs' & Ht). exists s'. split_and!; [done..|]. intros ring' expected.
    unfold FindSource, FindSourceRecord. cbn [fst] in Hs'. rewrite Hs'. unfold active_source. cbn [res_bind].
    assert (sr_ArchivedAt (cloneSource s') ≠ None) as Hn by (simpl; congruence). unfold guard_not. by rewrite decide_True. }
  induction 1; [done|]. intros t i Hx. eauto using step_archived.
Qed.
End Registry.

(** ** Secrets *)

(** A ring whose secrets can be read back, and a nonce as it is read. *)
Definition sound_ring (ring : KeyRing) : Prop := ring_wf ring ∧ no_byte "."%char (primaryID ring).
Definition sound_nonce (rnd : Entropy) : Prop := ∃ nonce, rnd = Some nonce ∧ Forall is_byte nonce ∧ length nonce = NonceSize.

Lemma Decrypt_bytes ring purpose id envelope key plaintext : Decrypt ring purpose id envelope key = Ok plaintext → Forall is_byte plaintext.
Proof.
  unfold Decrypt, Open. repeat case_match; try done. intros [= <-]. simplify_eq. apply xor_bytes_range.
Qed.

Lemma decrypt_sealed ring ring' s plaintext rnd ciphertext key :
  sound_ring ring → sound_nonce rnd → keys ring' !! primaryID ring = keys ring !! primaryID ring →
  Encrypt ring sourceSecretPurpose (sr_ID s) (bytes plaintext) rnd = Ok (ciphertext, key) →
  decryptSource ring' (sr_with_secret ciphertext key true s) = Ok plaintext ∧ EnvelopeKeyID ciphertext = Some (primaryID ring) ∧ key = primaryID ring.
Proof.
  intros [Hwf Hdot] (nonce & -> & Hn & Hlen) Hsame He. pose proof (Encrypt_nonempty _ _ _ _ _ _ _ He) as Hne.
  destruct (Decrypt_Encrypt ring ring' sourceSecretPurpose (sr_ID s) (bytes plaintext) nonce ciphertext key key Hwf Hdot (bytes_range _) Hn Hlen He Hsame)
    as (-> & Hk & Hd); [by right|]. split_and!; [|done..].
  unfold decryptSource. simpl. rewrite decide_False by done. rewrite Hd. by rewrite of_bytes_bytes.
Qed.

Lemma encryptSource_ok ring id plaintext rnd p :
  encryptSource ring id plaintext rnd = Ok p → Encrypt ring sourceSecretPurpose id (bytes plaintext) rnd = Ok p.
Proof. unfold encryptSource. repeat case_match; try done. by intros [= ->]. Qed.

(** *** Rotation *)

(** The registry after a rotation: the same sources with the same secrets. *)
Definition same_source (ring : KeyRing) (s s' : Source) : Prop :=
  decryptSource ring s' = decryptSource ring s ∧ s' = sr_with_secret (sr_SecretCiphertext s') (sr_SecretKeyID s') (sr_SecretConfigured s) s.
Definition rotated (ring : KeyRing) (s : Source) : Prop :=
  sr_SecretCiphertext s ≠ "" → EnvelopeKeyID (sr_SecretCiphertext s) = Some (primaryID ring).

Lemma same_source_refl ring s : same_source ring s s.
Proof. split; [done|by destruct s]. Qed.

(** What the records of the rotation are: sources that have a secret. *)
Definition recorded (r : SourceRepository) (x : string * string * string) : Prop :=
  ∃ s, sources r !! x.1.1 = Some s ∧ sr_ID s = x.1.1 ∧ sr_SecretCiphertext s = x.1.2 ∧ sr_SecretKeyID s = x.2 ∧
       sr_SecretConfigured s = true ∧ x.1.2 ≠ "".

Lemma rewrap_loop ring r count records rnd r' n :
  sound_ring ring → (∀ i, sound_nonce (rnd i)) → NoDup (records.*1.*1) → Forall (recorded r) records →
  rewrap_sources ring r count records rnd = (r', n, None) →
  (∀ id, id ∉ records.*1.*1 → sources r' !! id = sources r !! id) ∧
  (∀ id s, id ∈ records.*1.*1 → sources r !! id = Some s → ∃ s', sources r' !! id = Some s' ∧ same_source ring s s' ∧ rotated ring s').
Proof.
  intros Hring. revert r count rnd. induction records as [|[[id c] k] rest IH]; intros r count rnd Hrnd Hnd Hrec.
  { intros [= <- <-]. split; [done|]. intros id s Hin. by apply not_elem_of_nil in Hin. }
  cbn [fmap list_fmap fst snd] in *. apply NoDup_cons in Hnd as [Hnew Hnd]. apply Forall_cons in Hrec as [(s0 & Hs0 & Hsid & Hc & Hk & Hconf & Hne) Hrec].
  cbn [fst snd] in *. cbn [rewrap_sources]. destruct (EnvelopeKeyID c) as [envelopeKeyID|] eqn:Henv; [|done]. case_decide as Hskip.
  - destruct Hskip as [-> _]. intros Hr. apply IH in Hr as [Hother Hthese]; [|done..]. split.
    + intros id' Hn. apply Hother. set_solver.
    + intros id' s [->|Hin]%elem_of_cons Hs; [|by apply Hthese]. assert (s = s0) as -> by congruence. exists s0. rewrite Hother by done. split_and!; [done|apply same_source_refl|].
      intros _. by rewrite Hc.
  - destruct (Decrypt ring sourceSecretPurpose id c k) as [plaintext|] eqn:Hd; [|done]. pose proof (Decrypt_bytes _ _ _ _ _ _ Hd) as Hb.
    destruct (Encrypt ring sourceSecretPurpose id plaintext (rnd 0%nat)) as [[replacement newKeyID]|] eqn:He; [|done].
    unfold ReplaceSourceSecretCiphertext. rewrite Hs0. rewrite decide_False by (intros Hx; done).
    set (s1 := sr_with_secret replacement newKeyID (nonempty replacement) s0). intros Hr.
    assert (sources (put_source id s1 r) = <[id := s1]> (sources r)) as Hput by done.
    apply IH in Hr as [Hother Hthese]; [|done|done|].
    2: { apply Forall_forall. intros x Hx. rewrite Forall_forall in Hrec. destruct (Hrec x Hx) as (s & Hs & Hrest). exists s. split; [|done].
         rewrite Hput, lookup_insert_ne; [done|]. intros ->. apply Hnew. by do 2 apply list_elem_of_fmap_2. }
    split.
    + intros id' [Hn1 Hn2]%not_elem_of_cons. rewrite Hother by done. rewrite Hput. by rewrite lookup_insert_ne.
    + intros id' s Hin Hs. destruct (decide (id' = id)) as [->|Hne'].
      * assert (s = s0) as -> by congruence. exists s1. rewrite Hother by done. rewrite Hput, lookup_insert_eq. split; [done|].
        pose proof (Encrypt_nonempty _ _ _ _ _ _ _ He) as Hnz. unfold s1. rewrite (proj2 (nonempty_true _) Hnz).
        destruct (decrypt_sealed ring ring s0 (of_bytes plaintext) (rnd 0%nat) replacement newKeyID Hring (Hrnd 0%nat) eq_refl) as (Hd' & Hk' & _);
          [by rewrite bytes_of_bytes, Hsid|]. split; [split|by intros _].
        -- rewrite Hd'. unfold decryptSource. rewrite Hc, Hsid, Hk, decide_False by done. by rewrite Hd.
        -- rewrite Hconf. by destruct s0.
      * apply elem_of_cons in Hin as [->|Hin]; [done|]. apply Hthese; [done|]. rewrite Hput. by rewrite lookup_insert_ne.
Qed.

(** The rotation of keys keeps every secret. When it ends without error, on a registry
    in a reachable state, every source is there with everything but its ciphertext
    unchanged, its secret is read back as before, and every ciphertext is one of the
    primary key. *)
Theorem rewrap_keeps_secrets `{MapRange, UnicodeTables, HostParser, URLParser} ring ring0 seen r rnd r' n id s :
  rtc (source_step ring0) (NewSourceRepository [], []) (r, seen) → sound_ring ring → (∀ i, sound_nonce (rnd i)) →
  RewrapSourceSecrets r ring rnd = (r', n, None) → sources r !! id = Some s →
  ∃ s', sources r' !! id = Some s' ∧ same_source ring s s' ∧ rotated ring s'.
Proof.
  intros ([Hnd Hk] & _ & Hok & _)%reachable_sources Hring Hrnd Hr Hs. cbn [fst snd] in *. unfold RewrapSourceSecrets in Hr.
  set (records := ListSourceSecretCiphertexts r) in *.
  assert (∀ x, x ∈ records ↔ ∃ s, sources r !! x.1.1 = Some s ∧ x = (sr_ID s, sr_SecretCiphertext s, sr_SecretKeyID s) ∧ sr_SecretCiphertext s ≠ "") as Hx.
  { intros x. unfold records, ListSourceSecretCiphertexts. rewrite list_elem_of_omap. split.
    - intros (id0 & Hin & Hf). destruct (sources r !! id0) as [s0|] eqn:E; [|done]. simpl in Hf. case_decide; [done|]. injection Hf as <-.
      destruct (Hk _ _ E) as [<- _]. by exists s0.
    - intros (s0 & Hs0 & Heq & Hne). destruct (Hk _ _ Hs0) as [Hid Hin]. exists x.1.1. split; [done|]. rewrite Hs0. simpl. rewrite decide_False by done. by rewrite Heq. }
  assert (id ∉ records.*1.*1 → same_source ring s s ∧ rotated ring s) as Hnot.
  { intros Hn. split; [apply same_source_refl|]. intros Hne. exfalso. apply Hn. apply list_elem_of_fmap. exists (id, sr_SecretCiphertext s). split; [done|].
    apply list_elem_of_fmap. exists (sr_ID s, sr_SecretCiphertext s, sr_SecretKeyID s). destruct (Hk _ _ Hs) as [<- _]. split; [done|]. apply Hx. by exists s. }
  case_decide as Hnone.
  { injection Hr as <- <-. exists s. split; [done|]. apply Hnot. rewrite Hnone. apply not_elem_of_nil. }
  destruct (Available ring); [|done]. simpl in Hr. apply rewrap_loop in Hr as [Hother Hthese]; [|done|done| |].
  - destruct (decide (id ∈ records.*1.*1)) as [Hin|Hin]; [by eapply Hthese|]. exists s. rewrite Hother by done. auto.
  - unfold records, ListSourceSecretCiphertexts.
    assert (∀ id s, sources r !! id = Some s → sr_ID s = id) as Hids by (intros ? ? Hl; by destruct (Hk _ _ Hl)). clear -Hnd Hids. induction (source_order r) as [|i l IH]; [apply NoDup_nil_2|].
    apply NoDup_cons in Hnd as [Hi Hnd]. cbn [omap list_omap]. destruct (sources r !! i) as [s|] eqn:E; simpl; [|auto].
    case_decide; simpl; [auto|]. constructor; [|auto]. rewrite (Hids _ _ E). intros Hin. apply Hi.
    apply list_elem_of_fmap in Hin as ([i' c] & -> & Hin). apply list_elem_of_fmap in Hin as ([[i2 c2] k] & [= -> ->] & Hin).
    apply list_elem_of_omap in Hin as (i3 & Hi3 & Hf). destruct (sources r !! i3) as [s3|] eqn:E3; [|done]. simpl in Hf. case_decide; [done|].
    injection Hf as <- _ _. by rewrite (Hids _ _ E3).
  - apply Forall_forall. intros x (s0 & Hs0 & -> & Hne)%Hx. exists s0. cbn [fst snd] in *. destruct (Hok _ _ Hs0) as [_ Hc].
    split_and!; try done. rewrite Hc. by apply nonempty_true.
Qed.

(** *** Delivery *)

(** The secret in the input that creates a source. *)
Definition input_secret (input : CreateSourceInput) : string :=
  if decide (cs_Type input = SourceLDAP) then from_option li_BindPassword "" (cs_LDAP input)
  else from_option oi_ClientSecret "" (cs_OIDC input).

Section Delivery.
Context `{MapRange, UnicodeTables, HostParser, URLParser}.

Lemma apply_secret source ldap oidc configured source' secret :
  applySourceInput source ldap oidc configured = Ok (source', secret) →
  secret = if decide (sr_Type source = SourceLDAP) then from_option li_BindPassword "" ldap else from_option oi_ClientSecret "" oidc.
Proof.
  unfold applySourceInput. destruct (decide (sr_Type source = SourceLDAP)); [|destruct (decide (sr_Type source = SourceOIDC)); [|done]].
  all: destruct ldap as [l|], oidc as [o|]; try done; intros Hr; repeat (apply res_bind_guard in Hr as (_ & Hr));
    apply res_bind_ok in Hr as (s & Hs & Hr); unfold validateSecret in Hs; case_decide; simplify_eq/=; done.
Qed.

Lemma newSource_made input now source secret :
  newSource input now = Ok (source, secret) →
  sr_ID source = ToLower (TrimSpace (cs_ID input)) ∧ sr_Type source = cs_Type input ∧ sr_Enabled source = default true (cs_Enabled input) ∧
  sr_ArchivedAt source = None ∧ sr_SecretCiphertext source = "" ∧ sr_SecretConfigured source = nonempty secret ∧
  secret = input_secret input ∧ ValidateSource source = Ok ().
Proof.
  unfold newSource. cbv zeta. intros Hr. apply res_bind_ok in Hr as ([applied secret'] & Ha & Hr).
  apply res_bind_ok in Hr as ([] & Hv & Hr). simplify_eq/=. pose proof (apply_secret _ _ _ _ _ _ Ha) as Hs.
  apply apply_fields in Ha as (l & o & ->). split_and!; done.
Qed.

Lemma alnum_printable x : is_alnum_lower x = true → in_range 33 126 x = true.
Proof. unfold is_alnum_lower, is_lower, is_digit, in_range. intros [Hx|Hx]%orb_true_iff; apply bool_decide_eq_true in Hx; apply bool_decide_eq_true; lia. Qed.

Lemma valid_id_trimmed s : ValidateSource s = Ok () → TrimSpace (sr_ID s) = sr_ID s.
Proof.
  unfold ValidateSource. intros (Hp & _)%res_bind_guard. apply not_false_is_true in Hp. apply TrimSpace_id.
  apply Forall_forall. intros b Hb. unfold sourceIDPattern in Hp.
  assert (forallb (in_range 33 126) (bytes (sr_ID s)) = true) as Hc.
  { eapply match_head_tail_class; [| |exact Hp]; intros x; [apply alnum_printable|]. intros [Hx|Hx]%orb_true_iff; [by apply alnum_printable|].
    unfold is_one_of, Contains in Hx. apply bool_decide_eq_true in Hx. change (bytes "_-") with [95; 45] in Hx.
    apply elem_of_cons in Hx as [->|Hx]; [done|]. by apply list_elem_of_singleton in Hx as ->. }
  rewrite forallb_forall in Hc. apply list_elem_of_In, Hc in Hb. unfold in_range in Hb. reflect. lia.
Qed.

(** The secret given for a source reaches the directory or provider it is for: a source
    that was created and is enabled is found under its identifier, by every ring that
    still holds the key, with exactly the password or client secret of the input, which
    is empty when none was given. *)
Theorem source_secret_delivered r ring input now rnd r' s ring' :
  sound_ring ring → sound_nonce rnd → keys ring' !! primaryID ring = keys ring !! primaryID ring →
  CreateSource r ring input now rnd = (r', Ok s) → default true (cs_Enabled input) = true →
  sr_ID s = ToLower (TrimSpace (cs_ID input)) ∧
  active_source ring' (FindSource r' (sr_ID s)) (cs_Type input) = Ok (s, input_secret input).
Proof.
  intros Hring Hrnd Hsame Hc Hen. unfold CreateSource in Hc. destruct (res_bind (newSource input now) _) as [source|e] eqn:E; [|done].
  pose proof (new_sealed _ _ _ _ _ E) as Hok. apply res_bind_ok in E as ([made secret] & Hm & Hseal). cbn [fst snd] in *.
  destruct (newSource_made _ _ _ _ Hm) as (Hid & Ht & Hena & Harch & Hci & Hconf & Hsec & Hv).
  unfold CreateSourceRecord in Hc. case_decide; [done|]. injection Hc as <- <-. rewrite !(clone_ok _ Hok).
  assert (sr_ID source = sr_ID made ∧ sr_Type source = sr_Type made ∧ sr_Enabled source = sr_Enabled made ∧ sr_ArchivedAt source = None ∧
    decryptSource ring' source = Ok secret) as (Hi & Hty & He & Ha & Hd).
  { unfold seal_source in Hseal. destruct (nonempty secret) eqn:Hn.
    - apply res_bind_ok in Hseal as ([c k] & Hsealed%encryptSource_ok & Hr). injection Hr as <-. cbn [fst snd] in *. split_and!; try done.
      by destruct (decrypt_sealed ring ring' made secret rnd c k Hring Hrnd Hsame Hsealed) as [Hd _].
    - injection Hseal as <-. split_and!; try done. apply nonempty_false in Hn as ->. unfold decryptSource. by rewrite Hci, decide_True. }
  split; [congruence|]. rewrite active_source_ok. unfold FindSource, FindSourceRecord. cbn [sources].
  rewrite (valid_id_trimmed source) by apply Hok. rewrite lookup_insert_eq, (clone_ok _ Hok). split_and!; congruence.
Qed.
End Delivery.
