(* ===== verification/UserCodes.v ===== *)
(** The user codes of the device grant: [randomUserCode] of
    [internal/platform/http/oauth.go], and the two forms a code is compared and shown in
    ([device.go]). Drawing a code ends, draws every letter with the same weight, and any
    spelling of a code is understood. *)
From S2P Require Import Prelude GoStrings GoCrypto.
Local Open Scope Z_scope.

(** ** Drawing a code *)

(** The constant [alphabet] of [randomUserCode]. *)
Definition alphabet : list Z := bytes "BCDFGHJKLMNPQRSTVWXZ23456789".
Definition letter_limit : Z := 256 - 256 mod 28.

(** [internal/platform/http/oauth.go:1090-1100] randomUserCode, the loop over the bytes of a read *)
Fixpoint fill (value : list Z) (buffer : list Z) : list Z :=
  match buffer with
  | [] => value
  | candidate :: buffer =>
      if decide (letter_limit ≤ candidate) then fill value buffer
      else
        let value := value ++ [nth (Z.to_nat (candidate mod 28)) alphabet 0] in
        if decide (length value = 8%nat) then value else fill value buffer
  end.

(** [internal/platform/http/oauth.go:1086-1101] randomUserCode, the loop over reads: [reads] are the
    results of the reads to come, and those that are left are returned. *)
Fixpoint draw (value : list Z) (reads : list Entropy) : list Entropy * Res unit (list Z) :=
  match reads with
  | [] => ([], if decide (length value < 8)%nat then Err () else Ok value)
  | buffer :: rest =>
      if decide (length value < 8)%nat
      then match buffer with None => (rest, Err ()) | Some buffer => draw (fill value buffer) rest end
      else (reads, Ok value)
  end.

(** [internal/platform/http/oauth.go:1081-1103] randomUserCode *)
Definition randomUserCode (reads : list Entropy) : list Entropy * Res unit string :=
  let p := draw [] reads in
  (p.1, match p.2 with
        | Err e => Err e
        | Ok value => Ok (of_bytes (take 4 value) +:+ "-" +:+ of_bytes (drop 4 value))
        end).

(** ** The forms of a code *)

Section Forms.
Context `{UnicodeTables}.

(** [internal/platform/http/device.go:226-228] normalizeUserCode *)
Definition normalizeUserCode (value : string) : string := ToUpper (delete_bytes ["-"%char] (TrimSpace value)).

(** [internal/platform/http/device.go:230-236] displayUserCode: slices of bytes. *)
Definition displayUserCode (value : string) : string :=
  let normalized := normalizeUserCode value in
  if decide (len normalized ≠ 8) then ""%string
  else of_bytes (take 4 (bytes normalized)) +:+ "-" +:+ of_bytes (drop 4 (bytes normalized)).
End Forms.

Example draws_a_code :
  randomUserCode [Some [252; 253; 0; 29; 58; 255]; Some [87; 27; 26; 25; 24; 23]; Some [1]] =
  ([Some [1]], Ok "BCDF-9876"%string).
Proof. vm_compute. reflexivity. Qed.

(** ** Drawing ends *)

(** The bytes of a read that become letters. *)
Definition accepted (buffer : list Z) : nat := length (filter (λ b, b < letter_limit) buffer).

Lemma accepted_cons b buffer : accepted (b :: buffer) = ((if decide (b < letter_limit)%Z then 1 else 0) + accepted buffer)%nat.
Proof. unfold accepted. rewrite filter_cons. by case_decide. Qed.

Lemma fill_length value buffer :
  (length value < 8)%nat →
  length (fill value buffer) = if decide (8 ≤ length value + accepted buffer)%nat then 8%nat else (length value + accepted buffer)%nat.
Proof.
  revert value. induction buffer as [|b buffer IH]; intros value Hv.
  { change (accepted []) with 0%nat. cbn [fill]. rewrite decide_False by lia. lia. }
  cbn [fill]. rewrite accepted_cons. destruct (decide (letter_limit ≤ b)).
  { rewrite (decide_False (P := b < letter_limit)) by lia. by apply IH. }
  rewrite (decide_True (P := b < letter_limit)) by lia.
  pose proof (length_app value [nth (Z.to_nat (b mod 28)) alphabet 0]) as Hl. cbn [length] in Hl.
  destruct (decide (length (value ++ _) = 8%nat)); [rewrite decide_True by lia; lia|].
  rewrite IH by lia. rewrite Hl. repeat case_decide; lia.
Qed.

Definition letters (value : list Z) : Prop := Forall (λ b, b ∈ alphabet) value.

Lemma alphabet_letter b : nth (Z.to_nat (b mod 28)) alphabet 0 ∈ alphabet.
Proof.
  apply list_elem_of_In, nth_In. pose proof (Z.mod_pos_bound b 28). change (length alphabet) with 28%nat. lia.
Qed.

Lemma fill_letters value buffer : letters value → letters (fill value buffer).
Proof.
  revert value. induction buffer as [|b buffer IH]; intros value Hv; simpl; [done|]. case_decide; [by apply IH|].
  assert (letters (value ++ [nth (Z.to_nat (b mod 28)) alphabet 0])) as Hl by (apply Forall_app_2; [done|]; constructor; [apply alphabet_letter|constructor]).
  case_decide; [done|]. by apply IH.
Qed.

Lemma draw_ok value reads rest v :
  (length value ≤ 8)%nat → letters value → draw value reads = (rest, Ok v) → length v = 8%nat ∧ letters v.
Proof.
  revert value. induction reads as [|buffer reads IH]; intros value Hl Hv; simpl.
  - case_decide; intros [=]; subst. split; [lia|done].
  - case_decide; [|intros [=]; subst; split; [lia|done]]. destruct buffer as [buffer|]; [|done]. apply IH; [|by apply fill_letters].
    rewrite fill_length by done. case_decide; lia.
Qed.

(** The bytes of the first [n] successful reads that become letters. *)
Fixpoint supply (reads : list Entropy) : nat :=
  match reads with Some buffer :: reads => accepted buffer + supply reads | _ => 0 end.

Lemma draw_ends value reads :
  (length value ≤ 8)%nat → (8 ≤ length value + supply reads)%nat →
  ∃ v read rest, reads = read ++ rest ∧ draw value reads = (rest, Ok v) ∧ draw value read = ([], Ok v).
Proof.
  revert value. induction reads as [|buffer reads IH]; intros value Hl Hs; simpl in *.
  - exists value, [], []. simpl. rewrite decide_False by lia. done.
  - case_decide as Hlt; [|exists value, [], (buffer :: reads); simpl; by rewrite decide_False].
    destruct buffer as [buffer|]; [|lia].
    destruct (IH (fill value buffer)) as (v & read & rest & -> & Hd & Hr); [rewrite fill_length by done; case_decide; lia..|].
    exists v, (Some buffer :: read), rest. simpl. by rewrite decide_True.
Qed.

(** Each letter comes from nine of the 252 bytes that are accepted. *)
Lemma letters_evenly :
  Forall (λ letter, length (filter (λ b, b < letter_limit ∧ nth (Z.to_nat (b mod 28)) alphabet 0 = letter) (seqZ 0 256)) = 9%nat) alphabet.
Proof. apply (bool_decide_unpack _). vm_compute. exact I. Qed.

(** ** Any spelling of a code is understood *)

Section Spelling.
Context `{UnicodeTables}.

Definition spaces (n : nat) : list Z := replicate n 32.

Lemma drop_spaces_spaces n l : drop_spaces (ascii_chunks (spaces n) ++ l) = drop_spaces l.
Proof. by induction n. Qed.

Lemma ascii_chunks_app l1 l2 : ascii_chunks (l1 ++ l2) = ascii_chunks l1 ++ ascii_chunks l2.
Proof. apply fmap_app. Qed.

(** Spaces around printable text are trimmed. *)
Lemma TrimSpace_spaces n m l :
  Forall (λ b, 33 ≤ b < 127) l → TrimSpace (of_bytes (spaces n ++ l ++ spaces m)) = of_bytes l.
Proof.
  intros Hl. assert (∀ k, Forall (λ b, 0 ≤ b < 128) (spaces k)) as Hsp by (intros k; apply Forall_replicate; lia).
  assert (Forall (λ b, 0 ≤ b < 128) l) as Hl' by (eapply Forall_impl; [exact Hl|simpl; lia]).
  assert (Forall (λ b, 0 ≤ b < 128) (spaces n ++ l ++ spaces m)) as Hall by (repeat apply Forall_app_2; done).
  assert (Forall (λ c : Z * list Z, IsSpace c.1 = false) (ascii_chunks l)) as Hn.
  { apply Forall_fmap. eapply Forall_impl; [exact Hl|]. intros b Hb. by apply printable_not_space. }
  assert (Forall is_byte (spaces n ++ l ++ spaces m)) as Hb by (eapply Forall_impl; [exact Hall|unfold is_byte; simpl; lia]).
  assert (chunks (of_bytes (spaces n ++ l ++ spaces m)) = ascii_chunks (spaces n ++ l ++ spaces m)) as Hc.
  { rewrite chunks_ascii; by rewrite bytes_of_bytes. }
  unfold TrimSpace. rewrite Hc, !ascii_chunks_app, drop_spaces_spaces.
  destruct l as [|b l].
  - simpl. rewrite <- (app_nil_r (ascii_chunks (spaces m))), drop_spaces_spaces. done.
  - assert (drop_spaces (ascii_chunks (b :: l) ++ ascii_chunks (spaces m)) = ascii_chunks (b :: l) ++ ascii_chunks (spaces m)) as ->.
    { simpl. inversion Hl as [|? ? Hb0]; subst. by rewrite (printable_not_space b). }
    assert (reverse (ascii_chunks (spaces m)) = ascii_chunks (spaces m)) as Hrev
      by (unfold ascii_chunks, spaces; by rewrite <- fmap_reverse, reverse_replicate).
    rewrite reverse_app, Hrev.
    rewrite drop_spaces_spaces, drop_spaces_id by (by apply Forall_reverse). rewrite reverse_involutive. apply unchunk_ascii.
Qed.

(** The letters of a text, spelt with dashes anywhere and in either case. *)
Definition spells (text value : list Z) : Prop :=
  Forall (λ b, 33 ≤ b < 127) text ∧ ascii_upper <$> filter (λ b, b ≠ 45) text = value.

Lemma delete_dashes l : Forall is_byte l → delete_bytes ["-"%char] (of_bytes l) = of_bytes (filter (λ b, b ≠ 45) l).
Proof.
  intros Hl. unfold delete_bytes, of_bytes. rewrite Stdlib.Strings.String.list_ascii_of_string_of_list_ascii. f_equal.
  induction Hl as [|b l Hb _ IH]; [done|]. rewrite fmap_cons, !filter_cons, IH.
  assert (chr b ∉ ["-"%char] ↔ b ≠ 45) as Hiff.
  { rewrite list_elem_of_singleton. split; [by intros Hn ->|]. intros Hne Heq. apply Hne.
    rewrite <- (byte_val_chr b) by done. by rewrite Heq. }
  destruct (decide (b ≠ 45)) as [Hne|Hne]; [rewrite decide_True by tauto|rewrite decide_False by tauto]; done.
Qed.

Lemma normalize_spelling n m text value :
  spells text value → normalizeUserCode (of_bytes (spaces n ++ text ++ spaces m)) = of_bytes value.
Proof.
  intros [Htext <-]. unfold normalizeUserCode. rewrite TrimSpace_spaces by done.
  assert (Forall (λ b, 33 ≤ b < 127) (filter (λ b, b ≠ 45) text)) as Hf
    by (rewrite Forall_forall in *; intros b [_ Hb]%list_elem_of_filter; by apply Htext).
  rewrite delete_dashes by (eapply Forall_impl; [exact Htext|unfold is_byte; simpl; lia]).
  assert (Forall is_byte (filter (λ b, b ≠ 45) text)) as Hb by (eapply Forall_impl; [exact Hf|unfold is_byte; simpl; lia]).
  unfold ToUpper. rewrite bytes_of_bytes by done. unfold is_ascii. rewrite bytes_of_bytes by done.
  rewrite (proj2 (forallb_forall _ _)); [done|]. intros b Hin%list_elem_of_In. rewrite Forall_forall in Hf.
  specialize (Hf b Hin). apply Z.ltb_lt. simpl in Hf. lia.
Qed.
End Spelling.

(** ** The codes that are issued *)

(** A code as it is shown: eight letters of the alphabet with a dash in the middle. *)
Definition user_code (code : string) (value : list Z) : Prop :=
  length value = 8%nat ∧ letters value ∧ code = of_bytes (take 4 value) +:+ "-" +:+ of_bytes (drop 4 value).

Lemma randomUserCode_ok reads rest code : randomUserCode reads = (rest, Ok code) → ∃ value, user_code code value.
Proof.
  unfold randomUserCode. destruct (draw [] reads) as [rest' [value|]] eqn:E; simpl; [|done]. intros [= -> <-].
  destruct (draw_ok [] reads rest value) as [Hl Hv]; [simpl; lia|constructor|done|]. by exists value.
Qed.

Lemma letters_bytes value : letters value → Forall is_byte value.
Proof.
  intros Hv. eapply Forall_impl; [exact Hv|]. intros b. revert b. apply Forall_forall. unfold is_byte.
  apply (bool_decide_unpack _). vm_compute. exact I.
Qed.

Lemma supply_stream (stream : nat → list Z) k :
  (∀ n, ∃ m, (n ≤ m ∧ 0 < accepted (stream m))%nat) → ∃ n, (k ≤ supply ((λ i, Some (stream i)) <$> seq 0 n))%nat.
Proof.
  intros Hio. assert (∀ l1 l2, supply ((λ i, Some (stream i)) <$> (l1 ++ l2)) =
    (supply ((λ i, Some (stream i)) <$> l1) + supply ((λ i, Some (stream i)) <$> l2))%nat) as Happ.
  { intros l1 l2. induction l1 as [|i l1 IH]; [done|]. cbn [app fmap list_fmap supply]. rewrite <- Nat.add_assoc. f_equal. exact IH. }
  induction k as [|k [n Hn]]; [by exists 0%nat; lia|]. destruct (Hio n) as (m & Hm & Ha). exists (S m).
  rewrite seq_S. replace m with (n + (m - n))%nat at 1 by lia. rewrite seq_app, !Happ. simpl. lia.
Qed.

(** C35. Whatever the random source returns, as long as it returns a byte below 252 from time
    to time, a code is drawn after finitely many reads. *)
Theorem user_code_terminates (stream : nat → list Z) :
  (∀ n, ∃ m, (n ≤ m ∧ 0 < accepted (stream m))%nat) →
  ∃ n code value, randomUserCode ((λ i, Some (stream i)) <$> seq 0 n) = ([], Ok code) ∧ user_code code value.
Proof.
  intros Hio. destruct (supply_stream stream 8 Hio) as [n Hn].
  destruct (draw_ends [] ((λ i, Some (stream i)) <$> seq 0 n)) as (v & read & rest & Hread & _ & Hd); [simpl; lia..|].
  assert (read = (λ i, Some (stream i)) <$> seq 0 (length read)) as Heq.
  { apply (f_equal (take (length read))) in Hread. rewrite take_app_length, <- fmap_take, take_seq in Hread.
    rewrite <- Hread at 1. do 2 f_equal. apply (f_equal length) in Hread. rewrite length_fmap, length_seq in Hread. lia. }
  exists (length read). rewrite <- Heq. unfold randomUserCode. rewrite Hd. eexists _, v. split; [done|].
  destruct (draw_ok [] read [] v) as [Hl Hv]; [simpl; lia|constructor|done|]. done.
Qed.

Lemma user_code_terminates_witness :
  ∃ n code value, randomUserCode ((λ i, Some [Z.of_nat i mod 256]) <$> seq 0 n) = ([], Ok code) ∧ user_code code value.
Proof.
  apply (user_code_terminates (λ i, [Z.of_nat i mod 256])). intros n. exists (256 * n)%nat. split; [lia|].
  rewrite Nat2Z.inj_mul, Z.mul_comm, Z_mod_mult. vm_compute. lia.
Defined.

Section Understood.
Context `{UnicodeTables}.

Lemma of_bytes_app l1 l2 : of_bytes (l1 ++ l2) = of_bytes l1 +:+ of_bytes l2.
Proof. induction l1 as [|b l1 IH]; [done|]. exact (f_equal (String (chr b)) IH). Qed.

Lemma normalize_shown code value : user_code code value → normalizeUserCode code = of_bytes value.
Proof.
  intros (Hl & Hv & ->). pose proof (letters_bytes _ Hv) as Hb.
  assert (∀ l, letters l → spells l l) as Hspell.
  { intros l Hletters. split.
    - eapply Forall_impl; [exact Hletters|]. intros b. revert b. apply Forall_forall. apply (bool_decide_unpack _). vm_compute. exact I.
    - induction Hletters as [|b l Hin _ IH]; [done|]. rewrite filter_cons_True.
      + rewrite fmap_cons, IH. f_equal. revert b Hin. apply Forall_forall. apply (bool_decide_unpack _). vm_compute. exact I.
      + revert b Hin. apply Forall_forall. apply (bool_decide_unpack _). vm_compute. exact I. }
  assert (spells (take 4 value ++ [45] ++ drop 4 value) value) as Hs.
  { destruct (Hspell (take 4 value)) as [H1 H2]; [by apply Forall_take|].
    destruct (Hspell (drop 4 value)) as [H3 H4]; [by apply Forall_drop|]. split.
    - apply Forall_app_2; [done|]. constructor; [lia|done].
    - rewrite filter_app, fmap_app, H2. simpl. rewrite filter_cons_False by (intros Hne; by apply Hne). rewrite H4. apply take_drop. }
  pose proof (normalize_spelling 0 0 _ _ Hs) as Hn. rewrite app_nil_r in Hn. rewrite <- Hn. f_equal.
  change "-"%string with (of_bytes [45]). by rewrite <- !of_bytes_app.
Qed.

(** However a user spells an issued code (either case, dashes anywhere or nowhere, spaces
    around), the server reads back the code: it looks up the hash it stored and shows the
    code it issued. *)
Theorem user_code_understood reads rest code :
  randomUserCode reads = (rest, Ok code) →
  ∃ value, user_code code value ∧ ∀ text n m, spells text value →
    normalizeUserCode (of_bytes (spaces n ++ text ++ spaces m)) = normalizeUserCode code ∧
    displayUserCode (of_bytes (spaces n ++ text ++ spaces m)) = code.
Proof.
  intros [value Hcode]%randomUserCode_ok. exists value. split; [done|]. intros text n m Hs.
  pose proof (normalize_spelling n m _ _ Hs) as Hn. pose proof (normalize_shown _ _ Hcode) as Hc.
  split; [congruence|]. destruct Hcode as (Hl & Hv & ->). unfold displayUserCode. rewrite Hn.
  assert (bytes (of_bytes value) = value) as Hb by (apply bytes_of_bytes; by apply letters_bytes).
  rewrite decide_False; [by rewrite Hb|]. apply dec_stable. intros Hlen. apply Hlen.
  rewrite <- length_bytes, Hb. lia.
Qed.
End Understood.

Lemma user_code_understood_witness :
  ∃ value, user_code "BCDF-9876" value ∧ ∀ text n m, spells text value →
    @normalizeUserCode ascii_tables (of_bytes (spaces n ++ text ++ spaces m)) = @normalizeUserCode ascii_tables "BCDF-9876" ∧
    @displayUserCode ascii_tables (of_bytes (spaces n ++ text ++ spaces m)) = "BCDF-9876"%string.
Proof. exact (user_code_understood _ _ _ draws_a_code). Defined.
