(* ===== verification/GoTime.v ===== *)
(** Package [time] as the code uses it: instants in UTC written as
    [time.RFC3339Nano] (and [time.RFC3339]) and read back. *)
From S2P Require Import Prelude GoStrings.
Local Open Scope Z_scope.

(** ** The calendar *)

(** Days are numbered from 0001-01-01. A year of the calculation starts in March, so that
    the leap day is its last; [z] counts from 0000-03-01. *)
Definition year_length (yoe : Z) : Z := 365 * yoe + yoe / 4 - yoe / 100.
Definition month_start (mp : Z) : Z := (153 * mp + 2) / 5.

(** [t.Date()]: the year, the month and the day. *)
Definition Date (day : Z) : Z * Z * Z :=
  let z := day + 306 in
  let era := z / 146097 in
  let doe := z mod 146097 in
  let yoe := (doe - doe / 1460 + doe / 36524 - doe / 146096) / 365 in
  let doy := doe - year_length yoe in
  let mp := (5 * doy + 2) / 153 in
  let month := if decide (mp < 10) then mp + 3 else mp - 9 in
  (yoe + era * 400 + (if decide (month ≤ 2) then 1 else 0), month, doy - month_start mp + 1).

(** [time.Date]: the day of a date. *)
Definition DayOf (year month day : Z) : Z :=
  let y := if decide (month ≤ 2) then year - 1 else year in
  let mp := if decide (2 < month) then month - 3 else month + 9 in
  y / 400 * 146097 + year_length (y mod 400) + month_start mp + day - 1 - 306.

(** [daysIn(month, year)]. *)
Definition is_leap (year : Z) : bool :=
  bool_decide (year mod 4 = 0 ∧ (year mod 100 ≠ 0 ∨ year mod 400 = 0)).
Definition daysIn (month year : Z) : Z :=
  if decide (month = 2) then (if is_leap year then 29 else 28)
  else if decide (month = 4 ∨ month = 6 ∨ month = 9 ∨ month = 11) then 30 else 31.

Definition seconds_in_day : Z := 86400.

(** ** Writing *)

(** The fraction of a second, without its trailing zeros. *)
Fixpoint drop_zeros (l : list Z) : list Z :=
  match l with 48 :: rest => drop_zeros rest | _ => l end.
Definition fraction (ns : Z) : list Z :=
  match reverse (drop_zeros (reverse (digits 9 ns))) with [] => [] | l => 46 :: l end.

Definition clock (t : Time) : Z := (t / Second) mod seconds_in_day.

(** [t.Format(time.RFC3339Nano)] and [t.Format(time.RFC3339)], in the years 0 to 9999. *)
Definition format_seconds (t : Time) : list Z :=
  let '(year, month, day) := Date (t / Second / seconds_in_day) in
  let c := clock t in
  digits 4 year ++ [45] ++ digits 2 month ++ [45] ++ digits 2 day ++ [84] ++
  digits 2 (c / 3600) ++ [58] ++ digits 2 (c / 60 mod 60) ++ [58] ++ digits 2 (c mod 60).
Definition FormatRFC3339Nano (t : Time) : string := of_bytes (format_seconds t ++ fraction (t mod Second) ++ [90]).
Definition FormatRFC3339 (t : Time) : string := of_bytes (format_seconds t ++ [90]).

(** [d.Round(m)] of a positive [m]: to the nearest multiple, halfway values away from
    zero. *)
Definition Duration_Round (d m : Duration) : Duration :=
  let r := Z.rem d m in
  if decide (d < 0)
  then (if decide (2 * - r < m) then d - r else let d1 := wrap64 (d - m - r) in if decide (d1 < d) then d1 else - 2 ^ 63)
  else (if decide (2 * r < m) then d - r else let d1 := wrap64 (d + m - r) in if decide (d < d1) then d1 else 2 ^ 63 - 1).

(** [d.String()], of a duration that is zero or a second or more. *)
Definition Duration_String (d : Duration) : string :=
  let u := Z.abs d in
  let seconds := u / Second in
  let text := bytes (FormatInt (seconds mod 60)) ++ fraction (u mod Second) ++ [115] in
  let text := if decide (0 < seconds / 60) then bytes (FormatInt (seconds / 60 mod 60)) ++ 109 :: text else text in
  let text := if decide (0 < seconds / 3600) then bytes (FormatInt (seconds / 3600)) ++ 104 :: text else text in
  of_bytes (if decide (d < 0) then 45 :: text else text).
Example duration_strings :
  Duration_String 0 = "0s"%string ∧ Duration_String (90 * Minute) = "1h30m0s"%string ∧
  Duration_String (Duration_Round (30 * Minute + 29 * Second) Minute) = "30m0s"%string ∧
  Duration_String (Duration_Round (30 * Second) Minute) = "1m0s"%string ∧ Duration_String (-90 * Second) = "-1m30s"%string.
Proof. split_and!; vm_compute; reflexivity. Qed.

(** ** Reading *)

(** A field of digits within a range. *)
Definition field (lo hi : Z) (l : list Z) : option Z :=
  z ← digits_value 0 l; if decide (lo ≤ z ≤ hi) then Some z else None.

(** The longest prefix of digits, and what follows. *)
Fixpoint span_digits (l : list Z) : list Z * list Z :=
  match l with
  | b :: rest => if is_digit b then let p := span_digits rest in (b :: p.1, p.2) else ([], l)
  | [] => ([], [])
  end.

(** [parseNanoseconds]: nine digits at most count. *)
Definition parse_nanoseconds (l : list Z) : Z :=
  let l := take 9 l in
  default 0 (digits_value 0 l) * 10 ^ Z.of_nat (9 - length l).

(** The time zone: [Z] or an offset, in seconds. *)
Definition parse_zone (l : list Z) : option Z :=
  match l with
  | [90] => Some 0
  | [sign; h1; h2; 58; m1; m2] =>
      h ← field 0 23 [h1; h2]; m ← field 0 59 [m1; m2];
      if decide (sign = 43) then Some ((h * 60 + m) * 60)
      else if decide (sign = 45) then Some (- ((h * 60 + m) * 60)) else None
  | _ => None
  end.

(** [time.Parse(time.RFC3339Nano, value)]: the texts of RFC 3339. *)
Definition parse_bytes (l : list Z) : option Time :=
  match l with
  | y1 :: y2 :: y3 :: y4 :: 45 :: o1 :: o2 :: 45 :: d1 :: d2 :: 84 :: h1 :: h2 :: 58 :: m1 :: m2 :: 58 :: s1 :: s2 :: rest =>
      year ← field 0 9999 [y1; y2; y3; y4]; month ← field 1 12 [o1; o2]; day ← field 1 (daysIn month year) [d1; d2];
      hour ← field 0 23 [h1; h2]; minute ← field 0 59 [m1; m2]; second ← field 0 59 [s1; s2];
      let '(ns, rest) :=
        match rest with
        | 46 :: rest' => match span_digits rest' with ([], _) => (0, rest) | (f, rest) => (parse_nanoseconds f, rest) end
        | _ => (0, rest)
        end in
      offset ← parse_zone rest;
      Some ((DayOf year month day * seconds_in_day + hour * 3600 + minute * 60 + second - offset) * Second + ns)
  | _ => None
  end.
Definition ParseRFC3339Nano (s : string) : option Time := parse_bytes (bytes s).

Example formats :
  FormatRFC3339Nano ((unix_epoch + 1709210096) * Second + 120300000) = "2024-02-29T12:34:56.1203Z"%string ∧
  FormatRFC3339 (unix_epoch * Second) = "1970-01-01T00:00:00Z"%string ∧
  ParseRFC3339Nano "2024-02-29T14:34:56.1203+02:00" = Some ((unix_epoch + 1709210096) * Second + 120300000) ∧
  ParseRFC3339Nano "2023-02-29T00:00:00Z" = None.
Proof. vm_compute. done. Qed.

(** ** The calendar is consistent *)

Lemma year_of_era doe :
  0 ≤ doe < 146097 → let yoe := (doe - doe / 1460 + doe / 36524 - doe / 146096) / 365 in
  0 ≤ yoe < 400 ∧ 0 ≤ doe - year_length yoe ≤ 365.
Proof. intros Hd. unfold year_length. simpl. Z.div_mod_to_equations. lia. Qed.

Lemma year_is_last doe :
  0 ≤ doe < 146097 → let yoe := (doe - doe / 1460 + doe / 36524 - doe / 146096) / 365 in
  yoe = 399 ∨ doe < year_length (yoe + 1).
Proof. intros Hd. unfold year_length. simpl. Z.div_mod_to_equations. lia. Qed.

(** The last day of a long year is that of a leap year. *)
Lemma long_year yoe : 0 ≤ yoe < 399 → year_length (yoe + 1) - year_length yoe = 366 → is_leap (yoe + 1) = true.
Proof.
  intros Hy. unfold year_length, is_leap. rewrite bool_decide_eq_true. Z.div_mod_to_equations. lia.
Qed.

Lemma is_leap_era y era : is_leap (y + era * 400) = is_leap y.
Proof.
  unfold is_leap.
  assert ((y + era * 400) mod 4 = y mod 4) as -> by (replace (era * 400) with (era * 100 * 4) by lia; apply Z_mod_plus_full).
  assert ((y + era * 400) mod 100 = y mod 100) as -> by (replace (era * 400) with (era * 4 * 100) by lia; apply Z_mod_plus_full).
  by rewrite Z_mod_plus_full.
Qed.

Lemma month_of_doy doy :
  0 ≤ doy ≤ 365 → let mp := (5 * doy + 2) / 153 in 0 ≤ mp < 12 ∧ month_start mp ≤ doy < month_start (mp + 1).
Proof. intros Hd. unfold month_start. simpl. Z.div_mod_to_equations. lia. Qed.

(** Every day has a date, with a month and a day of that month, and comes back from it. *)
Lemma Date_spec day :
  let '(y, m, d) := Date day in DayOf y m d = day ∧ 1 ≤ m ≤ 12 ∧ 1 ≤ d ≤ daysIn m y.
Proof.
  unfold Date. set (z := day + 306). set (doe := z mod 146097).
  assert (0 ≤ doe < 146097) as Hdoe by (apply Z.mod_pos_bound; lia).
  destruct (year_of_era doe Hdoe) as [Hyoe Hdoy]. pose proof (year_is_last doe Hdoe) as Hlast.
  set (yoe := (doe - doe / 1460 + doe / 36524 - doe / 146096) / 365) in *. cbv zeta in *.
  set (doy := doe - year_length yoe) in *. destruct (month_of_doy doy Hdoy) as [Hmp Hday].
  set (mp := (5 * doy + 2) / 153) in *. cbv zeta in *. assert (z = 146097 * (z / 146097) + doe) as Hz by (apply Z.div_mod; lia).
  assert (∀ b, (yoe + z / 146097 * 400 + b - b) / 400 = z / 146097 ∧ (yoe + z / 146097 * 400 + b - b) mod 400 = yoe) as Hera.
  { intros b. rewrite Z.add_simpl_r, Z.div_add, Z_mod_plus_full, Z.div_small, Z.mod_small by lia. lia. }
  split_and!; [|repeat case_decide; lia..| |].
  - unfold DayOf. assert ((if decide ((if decide (mp < 10) then mp + 3 else mp - 9) ≤ 2)
      then yoe + z / 146097 * 400 + (if decide ((if decide (mp < 10) then mp + 3 else mp - 9) ≤ 2) then 1 else 0) - 1
      else yoe + z / 146097 * 400 + (if decide ((if decide (mp < 10) then mp + 3 else mp - 9) ≤ 2) then 1 else 0)) = yoe + z / 146097 * 400 + 0 - 0) as ->
      by (repeat case_decide; lia).
    destruct (Hera 0) as [-> ->].
    assert ((if decide (2 < (if decide (mp < 10) then mp + 3 else mp - 9))
      then (if decide (mp < 10) then mp + 3 else mp - 9) - 3 else (if decide (mp < 10) then mp + 3 else mp - 9) + 9) = mp) as ->
      by (repeat case_decide; lia).
    unfold doy, z in *. lia.
  - lia.
  - assert (mp = 0 ∨ mp = 1 ∨ mp = 2 ∨ mp = 3 ∨ mp = 4 ∨ mp = 5 ∨ mp = 6 ∨ mp = 7 ∨ mp = 8 ∨ mp = 9 ∨ mp = 10 ∨ mp = 11) as Hcase by lia.
    clear Hera. unfold daysIn. destruct (decide (mp = 11)) as [Heq|Hne].
    + rewrite Heq in *. rewrite (decide_False (P := 11 < 10)), (decide_True (P := 11 - 9 ≤ 2)), (decide_True (P := 11 - 9 = 2)) by lia.
      change (month_start 11) with 337 in *. destruct (decide (doy = 365)) as [H365|]; [|destruct (is_leap _); lia].
      replace (yoe + z / 146097 * 400 + 1) with (yoe + 1 + z / 146097 * 400) by lia. rewrite is_leap_era.
      assert (is_leap (yoe + 1) = true) as ->; [|lia]. destruct Hlast as [->|Hlt]; [done|].
      destruct (decide (yoe = 399)) as [->|]; [done|]. apply long_year; [lia|].
      assert (year_length (yoe + 1) - year_length yoe ≤ 366) by (unfold year_length; Z.div_mod_to_equations; lia).
      unfold doy in *. lia.
    + unfold month_start in *. clear Hlast Hz Hyoe. repeat (destruct Hcase as [Heq|Hcase]); try congruence; rewrite Heq in *;
      simpl in *; repeat case_decide; clear -Hday; Z.div_mod_to_equations; lia.
Qed.

(** ** Digits are read back *)

Lemma digits_value_app acc l1 l2 :
  digits_value acc (l1 ++ l2) = (acc' ← digits_value acc l1; digits_value acc' l2).
Proof. revert acc. induction l1 as [|b l1 IH]; intros acc; simpl; [done|]. by destruct (is_digit b). Qed.

Lemma digits_value_digits_ acc w z :
  0 ≤ z < 10 ^ Z.of_nat w → digits_value acc (digits w z) = Some (acc * 10 ^ Z.of_nat w + z).
Proof.
  revert z. induction w as [|w IH]; intros z Hz; [simpl in *; f_equal; lia|].
  rewrite Nat2Z.inj_succ, Z.pow_succ_r in * by lia. cbn [digits]. rewrite digits_value_app, IH.
  2: { split; [apply Z.div_pos; lia|apply Z.div_lt_upper_bound; lia]. }
  simpl. pose proof (Z.mod_pos_bound z 10). assert (is_digit (48 + z mod 10) = true) as -> by (apply bool_decide_eq_true; lia).
  f_equal. pose proof (Z.div_mod z 10). lia.
Qed.

Lemma field_digits lo hi w z : 0 ≤ z < 10 ^ Z.of_nat w → lo ≤ z ≤ hi → field lo hi (digits w z) = Some z.
Proof. intros Hz Hr. unfold field. rewrite digits_value_digits_ by done. simpl. by rewrite decide_True. Qed.

(** Dropping zeros at the end divides by a power of ten. *)
Lemma trailing_zeros l : ∃ k, l = reverse (drop_zeros (reverse l)) ++ replicate k 48.
Proof.
  induction l as [|b l IH] using rev_ind; [by exists 0%nat|]. rewrite reverse_snoc.
  destruct (decide (b = 48)) as [->|Hne].
  - destruct IH as [k Hk]. exists (k + 1)%nat. cbn [drop_zeros]. rewrite replicate_add, app_assoc, <- Hk. done.
  - exists 0%nat. rewrite app_nil_r.
    assert (drop_zeros (b :: reverse l) = b :: reverse l) as -> by (simpl; repeat case_match; congruence).
    by rewrite reverse_cons, reverse_involutive.
Qed.

Lemma digits_value_zeros acc k : digits_value acc (replicate k 48) = Some (acc * 10 ^ Z.of_nat k).
Proof.
  revert acc. induction k as [|k IH]; intros acc; [simpl; f_equal; lia|].
  cbn [replicate digits_value]. change (is_digit 48) with true. cbv iota. rewrite IH.
  rewrite Nat2Z.inj_succ, Z.pow_succ_r by lia. f_equal. lia.
Qed.

Lemma span_digits_app l b rest :
  Forall (λ b, is_digit b = true) l → is_digit b = false → span_digits (l ++ b :: rest) = (l, b :: rest).
Proof. intros Hl Hb. induction Hl as [|c l Hc _ IH]; simpl; [by rewrite Hb|]. by rewrite Hc, IH. Qed.

Lemma fraction_spec ns :
  0 ≤ ns < Second →
  (ns = 0 ∧ fraction ns = []) ∨
  (∃ l, l ≠ [] ∧ fraction ns = 46 :: l ∧ Forall (λ b, is_digit b = true) l ∧ parse_nanoseconds l = ns).
Proof.
  intros Hns. change Second with (10 ^ Z.of_nat 9) in Hns. unfold fraction.
  destruct (trailing_zeros (digits 9 ns)) as [k Hk]. set (l := reverse (drop_zeros (reverse (digits 9 ns)))) in *.
  pose proof (digits_value_digits_ 0 9 ns Hns) as Hv. pose proof (length_digits 9 ns) as Hlen.
  pose proof (digits_are_digits 9 ns (proj1 Hns)) as Hd.
  rewrite Hk in Hv, Hlen, Hd. rewrite length_app, length_replicate in Hlen.
  rewrite digits_value_app in Hv. rewrite forallb_app in Hd. apply andb_true_iff in Hd as [Hd _].
  destruct (digits_value 0 l) as [v|] eqn:El; [|done]. simpl in Hv. rewrite digits_value_zeros in Hv. injection Hv as Hv.
  clearbody l. destruct l as [|b l].
  - left. simpl in El. injection El as <-. split; [lia|done].
  - right. exists (b :: l). split_and!; [done|done| |].
    + apply Forall_forall. intros x Hx%list_elem_of_In. by apply (proj1 (forallb_forall _ _) Hd).
    + unfold parse_nanoseconds. rewrite take_ge by lia. rewrite El. change (default 0 (Some v)) with v. replace (9 - length (b :: l))%nat with k by lia. lia.
Qed.

(** ** The round trip *)

(** The instants of the years 1 to 9999. *)
Definition writable (t : Time) : Prop := 0 ≤ t < DayOf 10000 1 1 * seconds_in_day * Second.

Lemma Date_year day : 0 ≤ day < DayOf 10000 1 1 → 0 ≤ (Date day).1.1 ≤ 9999.
Proof.
  intros Hd. pose proof (Date_spec day) as Hs. destruct (Date day) as [[y m] d]. destruct Hs as (Hday & Hm & Hdd). simpl.
  change (DayOf 10000 1 1) with 3652059 in Hd. unfold DayOf, year_length, month_start in Hday.
  assert (daysIn m y ≤ 31) as Hmax by (unfold daysIn; repeat case_match; lia).
  repeat case_decide; Z.div_mod_to_equations; lia.
Qed.

Lemma pow10 n : (0 < n)%nat → 10 ≤ 10 ^ Z.of_nat n.
Proof. intros Hn. rewrite <- (Z.pow_1_r 10) at 1. apply Z.pow_le_mono_r; lia. Qed.

(** An instant is its day, the time of the day, and the nanoseconds. *)
Lemma time_parts t :
  let s := t / Second in
  t = (s / seconds_in_day * seconds_in_day + clock t / 3600 * 3600 + (clock t / 60) mod 60 * 60 + clock t mod 60 - 0) * Second + t mod Second.
Proof.
  cbv zeta. unfold clock. set (s := t / Second). set (c := s mod seconds_in_day).
  assert (t = Second * s + t mod Second) as Ht by (apply Z.div_mod; done).
  assert (s = seconds_in_day * (s / seconds_in_day) + c) as Hs by (apply Z.div_mod; done).
  assert (c = c / 3600 * 3600 + (c / 60) mod 60 * 60 + c mod 60) as Hc by (Z.div_mod_to_equations; lia).
  rewrite Ht at 1. unfold seconds_in_day in *. lia.
Qed.

Lemma digits_2 z : ∃ a b, digits 2 z = [a; b].
Proof. by eexists _, _. Qed.
Lemma digits_4 z : ∃ a b c d, digits 4 z = [a; b; c; d].
Proof. by eexists _, _, _, _. Qed.

Lemma parse_fields y m d h mi s rest :
  0 ≤ y ≤ 9999 → 1 ≤ m ≤ 12 → 1 ≤ d ≤ daysIn m y → 0 ≤ h ≤ 23 → 0 ≤ mi ≤ 59 → 0 ≤ s ≤ 59 →
  parse_bytes ((digits 4 y ++ [45] ++ digits 2 m ++ [45] ++ digits 2 d ++ [84] ++ digits 2 h ++ [58] ++ digits 2 mi ++ [58] ++ digits 2 s) ++ rest) =
  (let '(ns, rest) :=
     match rest with
     | 46 :: rest' => match span_digits rest' with ([], _) => (0, rest) | (f, rest) => (parse_nanoseconds f, rest) end
     | _ => (0, rest)
     end in
   offset ← parse_zone rest;
   Some ((DayOf y m d * seconds_in_day + h * 3600 + mi * 60 + s - offset) * Second + ns)).
Proof.
  intros Hy Hm Hd Hh Hmi Hs. assert (daysIn m y ≤ 31) as Hmax by (unfold daysIn; repeat case_match; lia).
  destruct (digits_4 y) as (y1 & y2 & y3 & y4 & Ey). destruct (digits_2 m) as (m1 & m2 & Em). destruct (digits_2 d) as (d1 & d2 & Ed).
  destruct (digits_2 h) as (h1 & h2 & Eh). destruct (digits_2 mi) as (i1 & i2 & Ei). destruct (digits_2 s) as (s1 & s2 & Es).
  rewrite Ey, Em, Ed, Eh, Ei, Es. cbn [app parse_bytes].
  rewrite <- Ey, <- Em, <- Ed, <- Eh, <- Ei, <- Es. rewrite !field_digits by (cbn; lia). cbn [mbind option_bind].
  by rewrite !field_digits by (cbn; lia).
Qed.

Lemma digits_bytes w z : Forall is_byte (digits w z).
Proof.
  revert z. induction w as [|w IH]; intros z; simpl; [constructor|]. apply Forall_app_2; [done|].
  constructor; [|constructor]. pose proof (Z.mod_pos_bound z 10). unfold is_byte. lia.
Qed.

Lemma format_bytes t : Forall is_byte (format_seconds t ++ fraction (t mod Second) ++ [90]).
Proof.
  assert (Forall is_byte (fraction (t mod Second))) as Hf.
  { unfold fraction. destruct (trailing_zeros (digits 9 (t mod Second))) as [k Hk]. pose proof (digits_bytes 9 (t mod Second)) as Hd.
    rewrite Hk in Hd. apply Forall_app in Hd as [Hd _]. case_match; [constructor|]. constructor; [unfold is_byte; lia|done]. }
  unfold format_seconds. destruct (Date _) as [[y m] d].
  assert (Forall is_byte [45] ∧ Forall is_byte [84] ∧ Forall is_byte [58] ∧ Forall is_byte [90]) as (? & ? & ? & ?)
    by (unfold is_byte; split_and!; apply Forall_singleton; lia).
  repeat (done || apply digits_bytes || apply Forall_app_2).
Qed.

(** What is written in the years 1 to 9999 is read back exactly. *)
Theorem RFC3339Nano_roundtrip t : writable t → ParseRFC3339Nano (FormatRFC3339Nano t) = Some t.
Proof.
  intros Ht. unfold writable in Ht.
  assert (0 ≤ t / Second / seconds_in_day < DayOf 10000 1 1) as Hday.
  { split; [repeat apply Z.div_pos; lia || done|]. do 2 (apply Z.div_lt_upper_bound; [done|]). unfold seconds_in_day in *. lia. }
  pose proof (Date_year _ Hday) as Hyear. pose proof (Date_spec (t / Second / seconds_in_day)) as Hdate.
  assert (0 ≤ clock t < seconds_in_day) as Hclock by (apply Z.mod_pos_bound; done).
  assert (0 ≤ t mod Second < Second) as Hns by (apply Z.mod_pos_bound; done).
  unfold ParseRFC3339Nano, FormatRFC3339Nano, format_seconds. destruct (Date (t / Second / seconds_in_day)) as [[y m] d] eqn:ED.
  cbn [fst] in Hyear. destruct Hdate as (HD & Hm & Hd). assert (daysIn m y ≤ 31) as Hmax by (unfold daysIn; repeat case_match; lia).
  unfold seconds_in_day in Hclock. set (c := clock t) in *.
  assert (0 ≤ c / 3600 ≤ 23) as Hh by (Z.div_mod_to_equations; lia).
  assert (0 ≤ c / 60 mod 60 ≤ 59) as Hmin by (pose proof (Z.mod_pos_bound (c / 60) 60); lia).
  assert (0 ≤ c mod 60 ≤ 59) as Hsec by (pose proof (Z.mod_pos_bound c 60); lia).
  rewrite bytes_of_bytes.
  2: { pose proof (format_bytes t) as Hb. unfold format_seconds in Hb. rewrite ED in Hb. apply Hb. }
  rewrite parse_fields by lia. pose proof (time_parts t) as Hparts. cbv zeta in Hparts. rewrite <- HD in Hparts.
  destruct (fraction_spec _ Hns) as [[Hz ->]|(l & Hne & -> & Hl & Hv)].
  - cbn. f_equal. rewrite Hparts at 1. unfold c. lia.
  - cbn [app]. rewrite span_digits_app by done. destruct l as [|b l]; [done|]. rewrite Hv. cbn -[Z.mul Z.add Z.sub]. f_equal. symmetry. exact Hparts.
Qed.
