(* ===== verification/ClientExamples.v ===== *)
(** The theorems on clients and authorization requests at work: a public client that is
    registered, asks for an authorization, is archived and deleted. *)
From S2P Require Import Prelude GoStrings GoCrypto Client Authorize.
Local Open Scope Z_scope.
Local Open Scope string_scope.

#[local] Existing Instances canonical_range ascii_tables.

(** Addresses of the form [scheme://host/path], without query or fragment. *)
Definition plain_url : URLParser :=
  {| url_Parse s :=
       match Cut s ":"%char with
       | Some (scheme, rest) =>
           match TrimPrefix_opt "//" rest with
           | Some rest =>
               if is_one_of rest 35 then None
               else let host := match Cut rest "/"%char with Some (h, _) => h | None => rest end in
                    Some {| u_Scheme := scheme; u_HasUser := false; u_Host := host; u_Hostname := host; u_Fragment := "" |}
           | None => None
           end
       | None => None
       end;
     ip_IsLoopback s := bool_decide (s = "127.0.0.1") |}.
#[local] Existing Instance plain_url.

Definition application (id : string) : CreateClient :=
  {| cc_ID := id; cc_SystemID := ""; cc_Name := "Portal"; cc_Description := ""; cc_FaviconURL := "";
     cc_LaunchURI := ""; cc_ApplicationType := ""; cc_TokenEndpointAuthMethod := ""; cc_Protocols := [];
     cc_GrantTypes := []; cc_RedirectURIs := ["https://portal.example/callback"]; cc_PostLogoutRedirectURIs := [];
     cc_BackchannelLogoutURI := ""; cc_BackchannelLogoutSessionRequired := false; cc_LoginMethods := [LoginPassword];
     cc_IdentitySourceIDs := []; cc_IntrospectableBy := ["helper"]; cc_AllowedScopes := [];
     cc_AccessTokenLifetimeSeconds := 0; cc_RefreshTokenLifetimeSeconds := 0; cc_CASVersion := "";
     cc_CASServiceURLs := []; cc_CASProxy := false; cc_CASGateway := false; cc_CASRenew := false;
     cc_CASSingleLogout := false; cc_Enabled := None |}.
Definition portal : Client := new_item (application " Portal ").
Definition helper : Client := new_item (application "helper").

Example portal_registers : New (application " Portal ") None = Ok (portal, "").
Proof. vm_compute. reflexivity. Qed.

(** ** Requests *)

Definition wanted : AuthorizationRequest :=
  {| ar_ClientID := "portal"; ar_RedirectURI := "https://portal.example/callback"; ar_Scope := ["openid"; "email"];
     ar_State := "s"; ar_Nonce := "n"; ar_CodeChallenge := "E9Melhoa2OwvFrEMTJguCHaoeK1t8URWbuGJSstw-cM";
     ar_CodeChallengeMethod := "S256"; ar_Prompt := ["login"; "consent"]; ar_MaxAge := Some 3600%Z |}.

Lemma wanted_parses : ParseAuthorizationRequest (request_values wanted) portal = Ok wanted.
Proof. vm_compute. reflexivity. Qed.

Lemma authorization_request_legal_witness : legal_request portal wanted.
Proof. exact (authorization_request_legal (request_values wanted) portal wanted wanted_parses). Defined.

Lemma authorization_request_roundtrip_witness :
  ParseAuthorizationRequest (request_values wanted) portal = Ok wanted ∧
  is_ok (ParseAuthorizationRequest (<["scope" := ["admin"]]> (request_values wanted)) portal) = false.
Proof.
  split; [|vm_compute; reflexivity]. apply (authorization_request_roundtrip portal wanted); [vm_compute; reflexivity|].
  exact (authorization_request_legal (request_values wanted) portal wanted wanted_parses).
Defined.

(** ** The registry *)

Definition registry : ClientRepository :=
  (run client_step (NewClientRepository []) [KoCreate portal; KoCreate helper]).1.
Definition retired : ClientRepository := (Archive registry "helper" 50%Z).1.
Definition attempts : list ClientOp :=
  [KoReplace helper; KoRotateSecret "helper" "h"; KoArchive "portal" 60%Z; KoDeleteArchived canonical_range "portal"].

Lemma archived_client_frozen_witness :
  (run client_step retired attempts).2 = [false; false; true; true] ∧
  ∃ c', clients (run client_step retired attempts).1 !! "helper" = Some c' ∧ c_ArchivedAt c' = Some 50%Z ∧
        c_Enabled c' = false.
Proof.
  split; [vm_compute; reflexivity|].
  destruct (archived_client_frozen registry "helper" 50 retired (normalized helper) attempts) as (c' & Hc & Ha & He & _).
  - vm_compute. reflexivity.
  - reflexivity.
  - vm_compute. reflexivity.
  - repeat constructor; try (by intros []). by intros [=].
  - exists c'. split; [exact Hc|]. split; [exact Ha|exact He].
Defined.

Lemma deleted_client_leaves_no_trace_witness :
  let r' := (DeleteArchived (run client_step (NewClientRepository [])
               [KoCreate portal; KoCreate helper; KoArchive "helper" 50%Z]).1 "helper").1 in
  FindClient r' "helper" = Err ClientNotFound ∧ order r' = ["portal"] ∧
  ∀ other c, clients r' !! other = Some c → "helper" ∉ c_IntrospectableBy c.
Proof.
  intros r'. destruct (deleted_client_leaves_no_trace
    [KoCreate portal; KoCreate helper; KoArchive "helper" 50%Z] "helper" r') as [_ Hd].
  destruct Hd as (_ & Hf & _ & Hi); [vm_compute; reflexivity|].
  split; [exact Hf|]. split; [vm_compute; reflexivity|exact Hi].
Defined.
