(* ===== verification/FederationExamples.v ===== *)
(** The registry of identity sources at work: a directory is registered, archived, and its
    secret survives a rotation of keys; the theorems at these instances. *)
From S2P Require Import Prelude GoStrings GoCrypto GoAead Secrets Mfa MfaExamples Client Authorize GoUrl ReturnTo Federation.
Local Open Scope Z_scope.
Local Open Scope string_scope.

#[local] Existing Instances canonical_range ascii_tables plain_hosts.
#[local] Instance no_urls : URLParser := {| url_Parse _ := None; ip_IsLoopback host := bool_decide (host = "127.0.0.1") |}.

Definition directory : CreateSourceInput :=
  {| cs_ID := " Staff "; cs_Name := "Staff"; cs_Type := SourceLDAP; cs_Enabled := None; cs_OIDC := None;
     cs_LDAP := Some {| li_URL := "ldaps://ldap.example/"; li_StartTLS := false; li_BaseDN := "dc=example"; li_BindDN := "cn=certus";
                        li_BindPassword := "s3cret"; li_UserFilter := ""; li_UsernameAttribute := ""; li_DisplayNameAttribute := "";
                        li_EmailAttribute := "" |} |}.

Definition created : SourceRepository * Res sourceError Source :=
  CreateSource (NewSourceRepository []) old_ring directory 1 (Some nonce).
Definition blank : Source :=
  {| sr_ID := ""; sr_Name := ""; sr_Type := ""; sr_Enabled := false; sr_LDAP := None; sr_OIDC := None; sr_SecretConfigured := false;
     sr_CreatedAt := 0; sr_UpdatedAt := 0; sr_ArchivedAt := None; sr_SecretCiphertext := ""; sr_SecretKeyID := "" |}.
Definition or_blank (r : Res sourceError Source) : Source := match r with Ok s => s | Err _ => blank end.
Definition staff : Source := or_blank created.2.

(** Refused: a directory over a scheme that is not LDAP, an issuer without encryption. *)
Example refused_sources :
  (newSource {| cs_ID := "a1"; cs_Name := "A"; cs_Type := SourceOIDC; cs_Enabled := None; cs_LDAP := None;
                cs_OIDC := Some {| oi_Issuer := "http://id.example"; oi_ClientID := "c"; oi_ClientSecret := "s"; oi_Scopes := [] |} |} 1 =
   Err (ErrInvalidSource "OIDC issuer must use HTTPS (HTTP is allowed only for loopback hosts)")) ∧
  is_ok (newSource {| cs_ID := "a1"; cs_Name := "A"; cs_Type := SourceOIDC; cs_Enabled := None; cs_LDAP := None;
                cs_OIDC := Some {| oi_Issuer := "http://127.0.0.1:8080/x/"; oi_ClientID := "c"; oi_ClientSecret := "s"; oi_Scopes := [] |} |} 1) = true.
Proof. vm_compute. done. Qed.

(** One creation, one rotation's worth of reads. *)
Lemma created_reachable : rtc (source_step old_ring) (NewSourceRepository [], []) (created.1, []).
Proof. apply rtc_once. apply (ss_create old_ring (NewSourceRepository []) [] directory 1 (Some nonce)). Qed.

Lemma sources_valid_witness :
  sr_ID staff = "staff" ∧ ValidateSource staff = Ok () ∧
  is_ok (LDAPAuthenticator old_ring (FindSourceRecord created.1 "staff")) = true.
Proof.
  destruct (sources_valid old_ring created.1 [] "staff" staff created_reachable) as (Hid & Hv & _ & _); [vm_compute; reflexivity|].
  split; [exact Hid|]. split; [exact Hv|]. vm_compute. reflexivity.
Defined.

(** A request that read the source before it was archived replaces it in vain. *)
Definition renamed : ReplaceSourceInput :=
  {| rs_Name := "Again"; rs_Enabled := Some true; rs_ClearSecret := false; rs_OIDC := None; rs_LDAP := cs_LDAP directory |}.
Definition archived : SourceRepository := (ArchiveSource created.1 "staff" 2).1.
Definition overtaken : SourceRepository := (replace_with archived old_ring staff renamed 3 (Some nonce)).1.

Lemma archived_source_final_witness :
  active_source old_ring (FindSource overtaken "staff") SourceLDAP = Err ErrSourceArchived.
Proof.
  destruct (archived_source_final old_ring created.1 [staff] overtaken [staff] "staff" 2 staff) as (s' & _ & _ & Hout).
  - vm_compute; reflexivity.
  - apply rtc_once. apply (ss_replace old_ring archived [staff] staff renamed 3 (Some nonce)). apply list_elem_of_singleton. reflexivity.
  - apply Hout.
Defined.

Lemma old_ring_sound : sound_ring old_ring.
Proof. split; [apply ring_is_wf; vm_compute; reflexivity|decided]. Qed.
Lemma ring_sound : sound_ring ring.
Proof. split; [apply ring_is_wf; vm_compute; reflexivity|decided]. Qed.
Lemma nonce_sound : sound_nonce (Some nonce).
Proof. exists nonce. split; [reflexivity|]. split; [apply all_bytes; reflexivity|reflexivity]. Qed.

Definition rewrapped := RewrapSourceSecrets created.1 ring (λ _, Some nonce).

Lemma rewrap_keeps_secrets_witness :
  ∃ s', sources rewrapped.1.1 !! "staff" = Some s' ∧ decryptSource ring s' = Ok "s3cret" ∧ EnvelopeKeyID (sr_SecretCiphertext s') = Some "k2".
Proof.
  destruct (rewrap_keeps_secrets ring old_ring [] created.1 (λ _, Some nonce) rewrapped.1.1 1 "staff" staff created_reachable ring_sound
    (λ _, nonce_sound)) as (s' & Hs' & [Hd Hsame] & Hrot).
  - vm_compute; reflexivity.
  - vm_compute; reflexivity.
  - exists s'. split; [exact Hs'|]. split.
    + rewrite Hd. vm_compute. reflexivity.
    + apply Hrot. intros Hempty. assert (sources rewrapped.1.1 !! "staff" ≠ None ∧ (from_option sr_SecretCiphertext "" (sources rewrapped.1.1 !! "staff") ≠ "")) as [_ Hne]
        by decided. rewrite Hs' in Hne. exact (Hne Hempty).
Defined.

Lemma source_secret_delivered_witness :
  active_source ring (FindSource created.1 (sr_ID staff)) SourceLDAP = Ok (staff, "s3cret").
Proof.
  destruct (source_secret_delivered (NewSourceRepository []) old_ring directory 1 (Some nonce) created.1 staff ring old_ring_sound nonce_sound) as [_ H].
  - vm_compute; reflexivity.
  - vm_compute; reflexivity.
  - reflexivity.
  - exact H.
Defined.
