(* ===== verification/Access.v ===== *)
(** Business roles and permissions of the registered systems:
    [internal/access/access.go] and [internal/access/memory_repository.go]; and what
    they guarantee: codes are unique per client, nothing refers to what was deleted,
    and a user's effective entitlements are exactly those granted and unexpired. *)
From S2P Require Import Prelude GoStrings GoCrypto.
Local Open Scope Z_scope.

(** ** Data *)

(** [internal/access/access.go:14-19] errors *)
Inductive accessError := AccessNotFound | AccessConflict | AccessInUse | AccessInvalid | AccessRandomFailure.
#[global] Instance accessError_eq_dec : EqDecision accessError.
Proof. solve_decision. Defined.

(** [internal/access/access.go:21-29] Role *)
Record Role := {
  ro_ID : string; ro_ClientID : string; ro_Code : string; ro_Name : string; ro_Description : string;
  ro_CreatedAt : Time; ro_UpdatedAt : Time;
}.

(** [internal/access/access.go:31-39] Permission *)
Record Permission := {
  pe_ID : string; pe_ClientID : string; pe_Code : string; pe_Name : string; pe_Description : string;
  pe_CreatedAt : Time; pe_UpdatedAt : Time;
}.

(** [internal/access/access.go:65-68] RoleGrant *)
Record RoleGrant := { rg_RoleID : string; rg_ExpiresAt : option Time }.

(** [internal/access/access.go:70-76] UserRole *)
Record UserRole := {
  ur_UserID : string; ur_Role : Role; ur_GrantedAt : Time; ur_GrantedBy : string; ur_ExpiresAt : option Time;
}.

(** [internal/access/access.go:78-83] Entitlements *)
Record Entitlements := {
  en_UserID : string; en_ClientID : string; en_Roles : list string; en_Permissions : list string;
}.

(** [internal/access/memory_repository.go:10-16] memoryUserRole *)
Record memoryUserRole := {
  mu_UserID : string; mu_RoleID : string; mu_GrantedAt : Time; mu_GrantedBy : string; mu_ExpiresAt : option Time;
}.

(** [internal/access/memory_repository.go:18-24] MemoryRepository *)
Record AccessRepository := {
  roles : gmap string Role;
  permissions : gmap string Permission;
  rolePermissions : gmap string (gset string);
  userRoles : list memoryUserRole;
}.

(** [internal/access/memory_repository.go:26-32] NewMemoryRepository *)
Definition NewAccessRepository : AccessRepository :=
  {| roles := ∅; permissions := ∅; rolePermissions := ∅; userRoles := [] |}.

(** ** Definitions of roles and permissions *)

(** [internal/access/access.go:103] codePattern: [^[a-z][a-z0-9._-]{1,63}$] *)
Definition codePattern : string → bool :=
  match_head_tail is_lower (λ b, is_alnum_lower b || is_one_of "._-" b) 1 63.

Section Definitions.
Context `{UnicodeTables}.

(** [internal/access/access.go:188-205] validateDefinition *)
Definition validateDefinition (clientID rawCode rawName rawDescription : string)
    : Res accessError (string * string * string) :=
  if decide (TrimSpace clientID = ""%string) then Err AccessInvalid
  else
    let code := ToLower (TrimSpace rawCode) in
    let name := TrimSpace rawName in
    let description := TrimSpace rawDescription in
    if negb (codePattern code) then Err AccessInvalid
    else if decide (name = ""%string ∨ rune_count name > 128) then Err AccessInvalid
    else if decide (rune_count description > 512) then Err AccessInvalid
    else Ok (code, name, description).

(** [internal/access/access.go:105-124] NewRole, of the fields of [CreateRole] *)
Definition NewRole (clientID code name description : string) (now : Time) (rnd : Entropy) : Res accessError Role :=
  match RandomUUID rnd with
  | Err _ => Err AccessRandomFailure
  | Ok id =>
      match validateDefinition clientID code name description with
      | Err e => Err e
      | Ok (code, name, description) =>
          Ok {| ro_ID := id; ro_ClientID := TrimSpace clientID; ro_Code := code; ro_Name := name;
                ro_Description := description; ro_CreatedAt := now; ro_UpdatedAt := now |}
      end
  end.

(** [internal/access/access.go:126-145] NewPermission, of the fields of [CreatePermission] *)
Definition NewPermission (clientID code name description : string) (now : Time) (rnd : Entropy) : Res accessError Permission :=
  match RandomUUID rnd with
  | Err _ => Err AccessRandomFailure
  | Ok id =>
      match validateDefinition clientID code name description with
      | Err e => Err e
      | Ok (code, name, description) =>
          Ok {| pe_ID := id; pe_ClientID := TrimSpace clientID; pe_Code := code; pe_Name := name;
                pe_Description := description; pe_CreatedAt := now; pe_UpdatedAt := now |}
      end
  end.

(** [internal/access/access.go:147-157] Role.Updated *)
Definition UpdatedRole (r : Role) (code name description : string) (now : Time) : Res accessError Role :=
  match validateDefinition (ro_ClientID r) code name description with
  | Err e => Err e
  | Ok (code, name, description) =>
      Ok {| ro_ID := ro_ID r; ro_ClientID := ro_ClientID r; ro_Code := code; ro_Name := name;
            ro_Description := description; ro_CreatedAt := ro_CreatedAt r; ro_UpdatedAt := now |}
  end.

(** [internal/access/access.go:159-169] Permission.Updated *)
Definition UpdatedPermission (p : Permission) (code name description : string) (now : Time) : Res accessError Permission :=
  match validateDefinition (pe_ClientID p) code name description with
  | Err e => Err e
  | Ok (code, name, description) =>
      Ok {| pe_ID := pe_ID p; pe_ClientID := pe_ClientID p; pe_Code := code; pe_Name := name;
            pe_Description := description; pe_CreatedAt := pe_CreatedAt p; pe_UpdatedAt := now |}
  end.
End Definitions.

(** The loop of [ValidateRoleGrants]. *)
Fixpoint validate_grants (seen : gset string) (values : list RoleGrant) (now : Time) : Res accessError unit :=
  match values with
  | [] => Ok ()
  | value :: rest =>
      if decide (TrimSpace (rg_RoleID value) = ""%string) then Err AccessInvalid
      else if decide (rg_RoleID value ∈ seen) then Err AccessInvalid
      else if from_option (λ t, negb (After t now)) false (rg_ExpiresAt value) then Err AccessInvalid
      else validate_grants ({[rg_RoleID value]} ∪ seen) rest now
  end.

(** [internal/access/access.go:171-186] ValidateRoleGrants *)
Definition ValidateRoleGrants (values : list RoleGrant) (now : Time) : Res accessError unit :=
  validate_grants ∅ values now.

(** ** The store *)

(** What the tables of roles and of permissions have in common. *)
Class Coded (T : Type) := { cd_ID : T → string; cd_ClientID : T → string; cd_Code : T → string }.
#[global] Instance role_coded : Coded Role := {| cd_ID := ro_ID; cd_ClientID := ro_ClientID; cd_Code := ro_Code |}.
#[global] Instance permission_coded : Coded Permission :=
  {| cd_ID := pe_ID; cd_ClientID := pe_ClientID; cd_Code := pe_Code |}.

Definition code_before {T} `{Coded T} (a b : T) : Prop := String.le (cd_Code a) (cd_Code b).
#[global] Instance code_before_dec {T} `{Coded T} : RelDecision (code_before (T := T)).
Proof. intros a b. unfold code_before. apply _. Defined.

Section Coded.
Context `{MapRange} {T : Type} `{Coded T}.

Definition list_coded (clientID : string) (m : gmap string T) : list T :=
  merge_sort code_before (filter (λ v, cd_ClientID v = clientID) (range m).*2).

(** The same code for the same client. *)
Definition same_code (a b : T) : Prop := cd_ClientID a = cd_ClientID b ∧ cd_Code a = cd_Code b.
#[global] Instance same_code_dec a b : Decision (same_code a b).
Proof. unfold same_code. apply _. Defined.

Definition create_coded (value : T) (m : gmap string T) : Res accessError (gmap string T) :=
  if decide (Exists (λ kv, same_code kv.2 value) (range m)) then Err AccessConflict
  else Ok (<[cd_ID value := value]> m).

Definition find_coded (clientID id : string) (m : gmap string T) : Res accessError T :=
  match m !! id with
  | None => Err AccessNotFound
  | Some value => if decide (cd_ClientID value ≠ clientID) then Err AccessNotFound else Ok value
  end.

Definition replace_coded (value : T) (m : gmap string T) : Res accessError (gmap string T) :=
  match find_coded (cd_ClientID value) (cd_ID value) m with
  | Err e => Err e
  | Ok _ =>
      if decide (Exists (λ kv, kv.1 ≠ cd_ID value ∧ same_code kv.2 value) (range m)) then Err AccessConflict
      else Ok (<[cd_ID value := value]> m)
  end.
End Coded.

Definition set_roles m r := {| roles := m; permissions := permissions r; rolePermissions := rolePermissions r; userRoles := userRoles r |}.
Definition set_permissions m r := {| roles := roles r; permissions := m; rolePermissions := rolePermissions r; userRoles := userRoles r |}.
Definition set_rolePermissions m r := {| roles := roles r; permissions := permissions r; rolePermissions := m; userRoles := userRoles r |}.
Definition set_userRoles l r := {| roles := roles r; permissions := permissions r; rolePermissions := rolePermissions r; userRoles := l |}.

(** A changed table put back in the repository. *)
Definition with_table {T A} (set : gmap string T → AccessRepository → AccessRepository) (value : A)
    (r : AccessRepository) (result : Res accessError (gmap string T)) : AccessRepository * Res accessError A :=
  match result with Ok m => (set m r, Ok value) | Err e => (r, Err e) end.

Section Store.
Context `{MapRange}.

(** [internal/access/memory_repository.go:34-47] ListRoles *)
Definition ListRoles (r : AccessRepository) (clientID : string) : Res accessError (list Role) :=
  Ok (list_coded clientID (roles r)).

(** [internal/access/memory_repository.go:49-59] CreateRole *)
Definition CreateRole (r : AccessRepository) (value : Role) : AccessRepository * Res accessError Role :=
  with_table set_roles value r (create_coded value (roles r)).

(** [internal/access/memory_repository.go:61-69] FindRole *)
Definition FindRole (r : AccessRepository) (clientID roleID : string) : Res accessError Role :=
  find_coded clientID roleID (roles r).

(** [internal/access/memory_repository.go:71-85] ReplaceRole *)
Definition ReplaceRole (r : AccessRepository) (value : Role) : AccessRepository * Res accessError Role :=
  with_table set_roles value r (replace_coded value (roles r)).

(** [internal/access/memory_repository.go:87-102] DeleteRole *)
Definition DeleteRole (r : AccessRepository) (clientID roleID : string) : AccessRepository * Res accessError unit :=
  match find_coded clientID roleID (roles r) with
  | Err e => (r, Err e)
  | Ok _ =>
      if decide (Exists (λ assignment, mu_RoleID assignment = roleID) (userRoles r)) then (r, Err AccessInUse)
      else (set_rolePermissions (delete roleID (rolePermissions r)) (set_roles (delete roleID (roles r)) r), Ok ())
  end.

(** [internal/access/memory_repository.go:104-117] ListPermissions *)
Definition ListPermissions (r : AccessRepository) (clientID : string) : Res accessError (list Permission) :=
  Ok (list_coded clientID (permissions r)).

(** [internal/access/memory_repository.go:119-129] CreatePermission *)
Definition CreatePermission (r : AccessRepository) (value : Permission) : AccessRepository * Res accessError Permission :=
  with_table set_permissions value r (create_coded value (permissions r)).

(** [internal/access/memory_repository.go:131-139] FindPermission *)
Definition FindPermission (r : AccessRepository) (clientID permissionID : string) : Res accessError Permission :=
  find_coded clientID permissionID (permissions r).

(** [internal/access/memory_repository.go:141-155] ReplacePermission *)
Definition ReplacePermission (r : AccessRepository) (value : Permission) : AccessRepository * Res accessError Permission :=
  with_table set_permissions value r (replace_coded value (permissions r)).

(** [internal/access/memory_repository.go:157-171] DeletePermission *)
Definition DeletePermission (r : AccessRepository) (clientID permissionID : string) : AccessRepository * Res accessError unit :=
  match find_coded clientID permissionID (permissions r) with
  | Err e => (r, Err e)
  | Ok _ =>
      if decide (Exists (λ kv, permissionID ∈ kv.2) (range (rolePermissions r))) then (r, Err AccessInUse)
      else (set_permissions (delete permissionID (permissions r)) r, Ok ())
  end.

(** [internal/access/memory_repository.go:173-190] SetRolePermissions *)
Definition SetRolePermissions (r : AccessRepository) (clientID roleID : string) (permissionIDs : list string)
    : AccessRepository * Res accessError unit :=
  match find_coded clientID roleID (roles r) with
  | Err e => (r, Err e)
  | Ok _ =>
      if forallb (λ id, is_ok (find_coded clientID id (permissions r))) permissionIDs
      then (set_rolePermissions (<[roleID := list_to_set permissionIDs]> (rolePermissions r)) r, Ok ())
      else (r, Err AccessNotFound)
  end.

(** The permissions of a role, [nil] for a role without entry. *)
Definition permissions_of (r : AccessRepository) (roleID : string) : gset string := default ∅ (rolePermissions r !! roleID).

Definition zero_permission : Permission :=
  {| pe_ID := ""; pe_ClientID := ""; pe_Code := ""; pe_Name := ""; pe_Description := ""; pe_CreatedAt := 0; pe_UpdatedAt := 0 |}.

(** [internal/access/memory_repository.go:192-207] ListRolePermissions *)
Definition ListRolePermissions (r : AccessRepository) (clientID roleID : string) : Res accessError (list Permission) :=
  match find_coded clientID roleID (roles r) with
  | Err e => Err e
  | Ok _ => Ok (merge_sort code_before
                  ((λ id, default zero_permission (permissions r !! id)) <$> elements (permissions_of r roleID)))
  end.

Definition granted (userID grantedBy : string) (now : Time) (grant : RoleGrant) : memoryUserRole :=
  {| mu_UserID := userID; mu_RoleID := rg_RoleID grant; mu_GrantedAt := now; mu_GrantedBy := grantedBy;
     mu_ExpiresAt := rg_ExpiresAt grant |}.

(** [internal/access/memory_repository.go:209-239] ReplaceUserRoles: the slice is filtered
    in place, the kept entries never overtaking those still to be read. *)
Definition ReplaceUserRoles (r : AccessRepository) (userID : string) (grants : list RoleGrant) (grantedBy : string)
    (now : Time) : AccessRepository * Res accessError unit :=
  if forallb (λ grant, bool_decide (is_Some (roles r !! rg_RoleID grant))) grants
  then (set_userRoles (filter (λ value, mu_UserID value ≠ userID) (userRoles r) ++ (granted userID grantedBy now <$> grants)) r,
        Ok ())
  else (r, Err AccessNotFound).

(** By client, then by code. *)
Definition user_role_before (a b : UserRole) : Prop :=
  if decide (ro_ClientID (ur_Role a) = ro_ClientID (ur_Role b))
  then String.le (ro_Code (ur_Role a)) (ro_Code (ur_Role b))
  else String.le (ro_ClientID (ur_Role a)) (ro_ClientID (ur_Role b)).
#[global] Instance user_role_before_dec : RelDecision user_role_before.
Proof. intros a b. unfold user_role_before. case_decide; apply _. Defined.

(** One turn of the loop of [ListUserRoles]. *)
Definition listed_role (r : AccessRepository) (userID clientID : string) (includeExpired : bool) (now : Time)
    (value : memoryUserRole) : option UserRole :=
  match roles r !! mu_RoleID value with
  | None => None
  | Some role =>
      if decide (mu_UserID value ≠ userID ∨ clientID ≠ ""%string ∧ ro_ClientID role ≠ clientID) then None
      else if negb includeExpired && from_option (λ t, negb (After t now)) false (mu_ExpiresAt value) then None
      else Some {| ur_UserID := userID; ur_Role := role; ur_GrantedAt := mu_GrantedAt value;
                   ur_GrantedBy := mu_GrantedBy value; ur_ExpiresAt := mu_ExpiresAt value |}
  end.

(** [internal/access/memory_repository.go:241-268] ListUserRoles *)
Definition ListUserRoles (r : AccessRepository) (userID clientID : string) (includeExpired : bool) (now : Time)
    : Res accessError (list UserRole) :=
  Ok (merge_sort user_role_before (omap (listed_role r userID clientID includeExpired now) (userRoles r))).

(** [internal/access/memory_repository.go:277-298] Effective, after the assignments were listed:
    the lock is taken again, so the repository may have changed since. *)
Definition effective_with (r : AccessRepository) (userID clientID : string) (assignments : list UserRole) : Entitlements :=
  let codes id := match permissions r !! id with
                  | Some permission => if decide (pe_ClientID permission = clientID) then Some (pe_Code permission) else None
                  | None => None
                  end in
  let permissionSet : gset string :=
    ⋃ ((λ a, list_to_set (omap codes (elements (permissions_of r (ro_ID (ur_Role a)))))) <$> assignments) in
  {| en_UserID := userID; en_ClientID := clientID;
     en_Roles := merge_sort String.le ((λ a, ro_Code (ur_Role a)) <$> assignments);
     en_Permissions := merge_sort String.le (elements permissionSet) |}.

(** [internal/access/memory_repository.go:270-299] Effective *)
Definition Effective (r : AccessRepository) (userID clientID : string) (now : Time) : Res accessError Entitlements :=
  match ListUserRoles r userID clientID false now with
  | Err e => Err e
  | Ok assignments => Ok (effective_with r userID clientID assignments)
  end.
End Store.

(** * Guarantees

    What the store of roles and permissions guarantees in every execution. *)
(** ** The store as a transition system *)

Inductive AccessOp :=
| AoCreateRole (order : MapRange) (value : Role)
| AoReplaceRole (order : MapRange) (value : Role)
| AoDeleteRole (clientID roleID : string)
| AoCreatePermission (order : MapRange) (value : Permission)
| AoReplacePermission (order : MapRange) (value : Permission)
| AoDeletePermission (order : MapRange) (clientID permissionID : string)
| AoSetRolePermissions (clientID roleID : string) (permissionIDs : list string)
| AoReplaceUserRoles (userID : string) (grants : list RoleGrant) (grantedBy : string) (now : Time).

(** One call of the store, and whether it returned without error. *)
Definition access_step (r : AccessRepository) (op : AccessOp) : AccessRepository * bool :=
  match op with
  | AoCreateRole order v => let p := @CreateRole order r v in (p.1, is_ok p.2)
  | AoReplaceRole order v => let p := @ReplaceRole order r v in (p.1, is_ok p.2)
  | AoDeleteRole c id => let p := DeleteRole r c id in (p.1, is_ok p.2)
  | AoCreatePermission order v => let p := @CreatePermission order r v in (p.1, is_ok p.2)
  | AoReplacePermission order v => let p := @ReplacePermission order r v in (p.1, is_ok p.2)
  | AoDeletePermission order c id => let p := @DeletePermission order r c id in (p.1, is_ok p.2)
  | AoSetRolePermissions c id l => let p := SetRolePermissions r c id l in (p.1, is_ok p.2)
  | AoReplaceUserRoles u g by_ now => let p := ReplaceUserRoles r u g by_ now in (p.1, is_ok p.2)
  end.

(** New objects get identifiers not in use: they are random UUIDs. *)
Definition fresh_ids (r : AccessRepository) (op : AccessOp) : Prop :=
  match op with
  | AoCreateRole _ v => roles r !! ro_ID v = None
  | AoCreatePermission _ v => permissions r !! pe_ID v = None
  | _ => True
  end.

(** ** Tables of coded objects *)

(** Filed under their identifier, no two with the same code for the same client. *)
Definition coded_wf {T} `{Coded T} (m : gmap string T) : Prop :=
  (∀ id v, m !! id = Some v → cd_ID v = id) ∧
  ∀ i j v w, m !! i = Some v → m !! j = Some w → same_code v w → i = j.

Section CodedWf.
Context {T : Type} `{Coded T}.
Implicit Types (m : gmap string T).

Lemma find_coded_ok c id m v : find_coded c id m = Ok v ↔ m !! id = Some v ∧ cd_ClientID v = c.
Proof.
  unfold find_coded. destruct (m !! id) as [w|]; [|naive_solver]. case_decide as Hd; naive_solver.
Qed.

Lemma coded_put m v :
  coded_wf m → (∀ i w, m !! i = Some w → i ≠ cd_ID v → ¬ same_code w v) → coded_wf (<[cd_ID v := v]> m).
Proof.
  intros [Hk Hu] Hn. split.
  - intros id w. rewrite lookup_insert. case_decide as E; [intros [= <-]; done|apply Hk].
  - intros i j a b. rewrite !lookup_insert.
    case_decide as Ei; case_decide as Ej; intros Ha Hb Hs; simplify_eq; try done.
    + exfalso. apply (Hn j b); [done|done|]. destruct Hs. by split.
    + exfalso. by apply (Hn i a).
    + by eapply Hu.
Qed.

Lemma create_coded_wf `{MapRange} v m m' : coded_wf m → create_coded v m = Ok m' → coded_wf m' ∧ m' = <[cd_ID v := v]> m.
Proof.
  intros Hm. unfold create_coded. case_decide as Hc; [done|]. intros [= <-]. split; [|done].
  apply coded_put; [done|]. intros i w Hw _ Hs. apply Hc, Exists_exists. exists (i, w).
  split; [by apply elem_of_range|done].
Qed.

Lemma replace_coded_wf `{MapRange} v m m' : coded_wf m → replace_coded v m = Ok m' →
  coded_wf m' ∧ m' = <[cd_ID v := v]> m ∧ ∃ w, m !! cd_ID v = Some w ∧ cd_ClientID w = cd_ClientID v.
Proof.
  intros Hm. unfold replace_coded. destruct (find_coded _ _ m) as [w|] eqn:Hf; [|done].
  apply find_coded_ok in Hf as [Hw Hcl]. case_decide as Hc; [done|]. intros [= <-].
  split; [|split; [done|by exists w]]. apply coded_put; [done|]. intros i x Hx Hne Hs.
  apply Hc, Exists_exists. exists (i, x). split; [by apply elem_of_range|done].
Qed.

Lemma coded_delete m id : coded_wf m → coded_wf (delete id m).
Proof.
  intros [Hk Hu]. split.
  - intros i v [_ Hv]%lookup_delete_Some. by apply Hk.
  - intros i j v w [_ Hv]%lookup_delete_Some [_ Hw]%lookup_delete_Some. by eapply Hu.
Qed.
End CodedWf.

(** ** Nothing dangles *)

Definition access_wf (r : AccessRepository) : Prop :=
  coded_wf (roles r) ∧ coded_wf (permissions r) ∧
  (∀ a, a ∈ userRoles r → is_Some (roles r !! mu_RoleID a)) ∧
  (∀ id, is_Some (rolePermissions r !! id) → is_Some (roles r !! id)) ∧
  (∀ id role p, roles r !! id = Some role → p ∈ permissions_of r id →
     ∃ perm, permissions r !! p = Some perm ∧ pe_ClientID perm = ro_ClientID role).

(** Overwriting an object by one of the same client keeps what refers to it. *)
Lemma put_role_wf r v :
  access_wf r → coded_wf (<[ro_ID v := v]> (roles r)) →
  (∀ w, roles r !! ro_ID v = Some w → ro_ClientID w = ro_ClientID v) → access_wf (set_roles (<[ro_ID v := v]> (roles r)) r).
Proof.
  intros (_ & Hp & Ha & Hrp & Hx) Hc Hcl. unfold access_wf, permissions_of in *. simpl.
  assert (∀ id, is_Some (roles r !! id) → is_Some (<[ro_ID v := v]> (roles r) !! id)) as Hmono.
  { intros id Hid. rewrite lookup_insert. case_decide; [eauto|done]. }
  split; [done|]. split; [done|]. split; [auto|]. split; [auto|].
  intros id role p. rewrite lookup_insert. case_decide as E; [|apply Hx]. intros [= <-] Hin. subst id.
  destruct (roles r !! ro_ID v) as [w|] eqn:Hw; [rewrite <-(Hcl w eq_refl); by eapply Hx|].
  destruct (rolePermissions r !! ro_ID v) eqn:Ep; [|set_solver]. destruct (Hrp (ro_ID v)) as [? ?]; [eauto|congruence].
Qed.

Lemma put_permission_wf r v :
  access_wf r → coded_wf (<[pe_ID v := v]> (permissions r)) →
  (∀ w, permissions r !! pe_ID v = Some w → pe_ClientID w = pe_ClientID v) →
  access_wf (set_permissions (<[pe_ID v := v]> (permissions r)) r).
Proof.
  intros (Hro & Hp & Ha & Hrp & Hx) Hc Hcl. unfold access_wf, permissions_of in *. simpl. split_and!; try done.
  intros id role p Hrole Hin. destruct (Hx id role p Hrole Hin) as (perm & Hperm & Hpc).
  rewrite lookup_insert. case_decide as E; [subst p; exists v; split; [done|]|by exists perm].
  by rewrite <-(Hcl perm Hperm).
Qed.

Lemma delete_role_wf r c id : access_wf r → access_wf (DeleteRole r c id).1.
Proof.
  intros (Hro & Hp & Ha & Hrp & Hx). unfold DeleteRole. destruct (find_coded _ _ _) as [v|]; [|done].
  case_decide as Hu; [done|]. unfold access_wf, permissions_of in *. simpl.
  split; [by apply coded_delete|]. split; [done|]. split_and!.
  - intros a Hin. rewrite lookup_delete_ne; [by apply Ha|]. intros E. apply Hu, Exists_exists. by exists a.
  - intros i [s Hs]. apply lookup_delete_Some in Hs as [Hne Hs]. rewrite lookup_delete_ne by done. apply Hrp. eauto.
  - intros i role p [Hne Hrole]%lookup_delete_Some. rewrite lookup_delete_ne by done. by apply Hx.
Qed.

Lemma delete_permission_wf `{MapRange} r c id : access_wf r → access_wf (DeletePermission r c id).1.
Proof.
  intros (Hro & Hp & Ha & Hrp & Hx). unfold DeletePermission. destruct (find_coded _ _ _) as [v|]; [|done].
  case_decide as Hu; [done|]. unfold access_wf, permissions_of in *. simpl.
  split; [done|]. split; [by apply coded_delete|]. split_and!; [done|done|].
  intros i role p Hrole Hin. destruct (Hx i role p Hrole Hin) as (perm & Hperm & Hpc). exists perm. split; [|done].
  rewrite lookup_delete_ne; [done|]. intros ->. apply Hu, Exists_exists.
  destruct (rolePermissions r !! i) as [s|] eqn:Es; [|simpl in Hin; set_solver]. exists (i, s).
  split; [by apply elem_of_range|done].
Qed.

Lemma set_role_permissions_wf r c id l : access_wf r → access_wf (SetRolePermissions r c id l).1.
Proof.
  intros (Hro & Hp & Ha & Hrp & Hx). unfold SetRolePermissions. destruct (find_coded c id (roles r)) as [v|] eqn:Hv; [|done].
  apply find_coded_ok in Hv as [Hv Hcl]. destruct (forallb _ l) eqn:Hl; [|done]. rewrite forallb_forall in Hl.
  unfold access_wf, permissions_of in *. simpl. split_and!; try done.
  - intros i. rewrite lookup_insert. case_decide; [subst; eauto|apply Hrp].
  - intros i role p Hrole. rewrite lookup_insert. case_decide as E; [|by apply Hx]. subst i. simpl.
    intros Hin%elem_of_list_to_set%list_elem_of_In%Hl.
    destruct (find_coded c p (permissions r)) as [perm|] eqn:Hf; [|done]. apply find_coded_ok in Hf as [Hf Hfc].
    exists perm. split; [done|]. simpl in *. congruence.
Qed.

Lemma replace_user_roles_wf r u grants by_ now : access_wf r → access_wf (ReplaceUserRoles r u grants by_ now).1.
Proof.
  intros (Hro & Hp & Ha & Hrp & Hx). unfold ReplaceUserRoles. destruct (forallb _ grants) eqn:Hg; [|done].
  rewrite forallb_forall in Hg. unfold access_wf, permissions_of in *. simpl. split_and!; try done.
  intros a [[_ Hin]%list_elem_of_filter|Hin]%elem_of_app; [by apply Ha|].
  apply list_elem_of_fmap in Hin as (g & -> & Hin%list_elem_of_In%Hg). by apply bool_decide_eq_true in Hin.
Qed.

Lemma access_step_wf r op : fresh_ids r op → access_wf r → access_wf (access_step r op).1.
Proof.
  intros Hop Hwf. pose proof Hwf as (Hro & Hp & _). destruct op as [o v|o v|c id|o v|o v|o c id|c id l|u g by_ now]; simpl in *.
  - unfold CreateRole. destruct (create_coded v (roles r)) as [m|] eqn:E; [|done]. simpl.
    apply create_coded_wf in E as [Hc ->]; [|done]. apply put_role_wf; [done..|]. simpl. congruence.
  - unfold ReplaceRole. destruct (replace_coded v (roles r)) as [m|] eqn:E; [|done]. simpl.
    apply replace_coded_wf in E as (Hc & -> & w & Hw & Hcl); [|done]. apply put_role_wf; [done..|]. simpl in *. congruence.
  - by apply delete_role_wf.
  - unfold CreatePermission. destruct (create_coded v (permissions r)) as [m|] eqn:E; [|done]. simpl.
    apply create_coded_wf in E as [Hc ->]; [|done]. apply put_permission_wf; [done..|]. simpl. congruence.
  - unfold ReplacePermission. destruct (replace_coded v (permissions r)) as [m|] eqn:E; [|done]. simpl.
    apply replace_coded_wf in E as (Hc & -> & w & Hw & Hcl); [|done]. apply put_permission_wf; [done..|]. simpl in *. congruence.
  - by apply delete_permission_wf.
  - by apply set_role_permissions_wf.
  - by apply replace_user_roles_wf.
Qed.

Lemma access_run_wf ops :
  run_ok access_step fresh_ids NewAccessRepository ops →
  access_wf (run access_step NewAccessRepository ops).1.
Proof.
  intros Hok. apply (run_invariant_ok access_step access_wf fresh_ids); [intros; by apply access_step_wf|done|].
  unfold access_wf, permissions_of, coded_wf. simpl. split_and!; intros *; rewrite ?lookup_empty; try done.
  by intros ?%not_elem_of_nil.
Qed.

(** Access control never dangles. In every execution from the empty store, whatever
    the interleaving of administrators, no two roles and no two permissions of a
    client have the same code, every assignment is of an existing role, and every
    permission of a role exists and belongs to the role's client: deletions of what
    is in use are refused. *)
Theorem access_integrity ops :
  run_ok access_step fresh_ids NewAccessRepository ops →
  access_wf (run access_step NewAccessRepository ops).1.
Proof. apply access_run_wf. Qed.

(** ** Effective entitlements *)

(** An assignment that counts: of this user, for a role of this client, and not expired. *)
Definition active (r : AccessRepository) (userID clientID : string) (now : Time) (a : memoryUserRole) (role : Role) : Prop :=
  a ∈ userRoles r ∧ mu_UserID a = userID ∧ roles r !! mu_RoleID a = Some role ∧ ro_ClientID role = clientID ∧
  (∀ t, mu_ExpiresAt a = Some t → now < t).

Lemma listed_role_active r u c now a ur :
  c ≠ ""%string → a ∈ userRoles r → listed_role r u c false now a = Some ur → active r u c now a (ur_Role ur).
Proof.
  intros Hc Hin. unfold listed_role. destruct (roles r !! mu_RoleID a) as [role|] eqn:Hr; [|done].
  case_decide as Hd; [done|]. simpl. destruct (from_option _ _ _) eqn:He; [done|]. intros [= <-].
  split_and!; simpl; [done|..|done| |].
  - destruct (decide (mu_UserID a = u)); [done|]. exfalso. apply Hd. by left.
  - destruct (decide (ro_ClientID role = c)); [done|]. exfalso. apply Hd. by right.
  - intros t Ht. rewrite Ht in He. simpl in He. apply negb_false_iff, After_true in He. exact He.
Qed.

Lemma active_listed_role r u c now a role :
  active r u c now a role →
  ∃ ur, listed_role r u c false now a = Some ur ∧ ur_Role ur = role.
Proof.
  intros (Hin & Hu & Hr & Hc & He). unfold listed_role. rewrite Hr.
  rewrite decide_False by (intros [?|[_ ?]]; congruence).
  assert (from_option (λ t, negb (After t now)) false (mu_ExpiresAt a) = false) as ->; [|by eexists].
  destruct (mu_ExpiresAt a) as [t|] eqn:E; [|done]. simpl. by apply negb_false_iff, After_true, He.
Qed.

(** The assignments [Effective] starts from. *)
Lemma effective_assignments r u c now ur :
  c ≠ ""%string →
  ur_Role ur ∈ ur_Role <$> merge_sort user_role_before (omap (listed_role r u c false now) (userRoles r)) ↔
  ∃ a, active r u c now a (ur_Role ur).
Proof.
  intros Hc. split.
  - intros (x & -> & Hx)%list_elem_of_fmap. rewrite merge_sort_Permutation in Hx.
    apply list_elem_of_omap in Hx as (a & Ha & Hl). exists a. by apply listed_role_active.
  - intros [a Ha]. destruct (active_listed_role _ _ _ _ _ _ Ha) as (x & Hx & <-).
    apply list_elem_of_fmap. exists x. split; [done|]. rewrite merge_sort_Permutation.
    apply list_elem_of_omap. exists a. split; [apply Ha|done].
Qed.

(** C38. Effective entitlements are exact. In every execution, the roles of a user at a
    client are the codes of the roles of that client assigned to the user by an
    assignment that has not expired, and the permissions are the codes of the
    permissions of those roles; the permissions are listed in order without repetition. *)
Theorem effective_exact ops u c now :
  run_ok access_step fresh_ids NewAccessRepository ops →
  c ≠ ""%string →
  let r := (run access_step NewAccessRepository ops).1 in
  ∃ e, Effective r u c now = Ok e ∧ en_UserID e = u ∧ en_ClientID e = c ∧
    (∀ code, code ∈ en_Roles e ↔ ∃ a role, active r u c now a role ∧ ro_Code role = code) ∧
    (∀ code, code ∈ en_Permissions e ↔
       ∃ a role id perm, active r u c now a role ∧ id ∈ permissions_of r (mu_RoleID a) ∧
         permissions r !! id = Some perm ∧ pe_Code perm = code) ∧
    NoDup (en_Permissions e) ∧ StronglySorted String.le (en_Permissions e).
Proof.
  intros Hok Hc r. pose proof (access_run_wf ops Hok) as (Hro & _ & _ & _ & Hx). fold r in Hro, Hx.
  eexists. split; [done|]. simpl. split; [done|]. split; [done|]. split_and!.
  - intros code. rewrite merge_sort_Permutation, list_elem_of_fmap. split.
    + intros (x & -> & Hin). destruct (proj1 (effective_assignments r u c now x Hc)) as [a Ha]; [|by exists a, (ur_Role x)].
      apply list_elem_of_fmap. by exists x.
    + intros (a & role & Ha & <-). destruct (active_listed_role _ _ _ _ _ _ Ha) as (x & Hl & <-).
      exists x. split; [done|]. rewrite merge_sort_Permutation. apply list_elem_of_omap. exists a. split; [apply Ha|done].
  - intros code. rewrite merge_sort_Permutation, elem_of_elements, elem_of_union_list. split.
    + intros (X & (x & -> & Hin)%list_elem_of_fmap & Hcode).
      destruct (proj1 (effective_assignments r u c now x Hc)) as [a Ha]; [by apply list_elem_of_fmap; exists x|].
      apply elem_of_list_to_set, list_elem_of_omap in Hcode as (id & Hid%elem_of_elements & Hcode).
      destruct (permissions r !! id) as [perm|] eqn:Hp; [|done]. case_decide; [|done]. simplify_eq.
      pose proof Ha as (_ & _ & Hrole & _). apply Hro in Hrole as Hk. simpl in Hk. rewrite Hk in Hid.
      by exists a, (ur_Role x), id, perm.
    + intros (a & role & id & perm & Ha & Hid & Hp & <-). destruct (active_listed_role _ _ _ _ _ _ Ha) as (x & Hl & <-).
      pose proof Ha as (Hina & _ & Hrole & Hcl & _). apply Hro in Hrole as Hk. simpl in Hk.
      eexists. split; [apply list_elem_of_fmap; exists x; split; [done|]|].
      * rewrite merge_sort_Permutation. apply list_elem_of_omap. by exists a.
      * apply elem_of_list_to_set, list_elem_of_omap. exists id. rewrite Hk. split; [by apply elem_of_elements|].
        destruct (Hx _ _ _ Hrole Hid) as (perm' & Hp' & Hpc). rewrite Hp in Hp'. simplify_eq. rewrite Hp.
        by rewrite decide_True.
  - rewrite merge_sort_Permutation. apply NoDup_elements.
  - apply StronglySorted_merge_sort; apply _.
Qed.

(** * Examples

    The theorems on business roles at work: one client, a role with a permission, an
    assignment that has expired and one that has not. *)
Local Open Scope string_scope.
#[local] Existing Instance canonical_range.

Definition role (id code : string) : Role :=
  {| ro_ID := id; ro_ClientID := "crm"; ro_Code := code; ro_Name := code; ro_Description := "";
     ro_CreatedAt := 1; ro_UpdatedAt := 1 |}.
Definition permission (id code : string) : Permission :=
  {| pe_ID := id; pe_ClientID := "crm"; pe_Code := code; pe_Name := code; pe_Description := "";
     pe_CreatedAt := 1; pe_UpdatedAt := 1 |}.
Definition access_ops : list AccessOp :=
  [AoCreateRole canonical_range (role "r1" "editor"); AoCreateRole canonical_range (role "r2" "viewer");
   AoCreateRole canonical_range (role "r3" "editor");
   AoCreatePermission canonical_range (permission "p1" "write"); AoCreatePermission canonical_range (permission "p2" "read");
   AoSetRolePermissions "crm" "r1" ["p1"; "p2"]; AoSetRolePermissions "crm" "r2" ["p2"];
   AoReplaceUserRoles "alice" [{| rg_RoleID := "r1"; rg_ExpiresAt := Some 50%Z |}; {| rg_RoleID := "r2"; rg_ExpiresAt := None |}] "root" 10;
   AoDeleteRole "crm" "r1"; AoDeletePermission canonical_range "crm" "p2"].

Lemma access_ops_ok : run_ok access_step fresh_ids NewAccessRepository access_ops.
Proof. split_and!; vm_compute; done. Qed.

Lemma access_integrity_witness :
  (run access_step NewAccessRepository access_ops).2
    = [true; true; false; true; true; true; true; true; false; false] ∧
  access_wf (run access_step NewAccessRepository access_ops).1.
Proof. split; [vm_compute; reflexivity|exact (access_integrity access_ops access_ops_ok)]. Defined.

Lemma effective_exact_witness :
  let r := (run access_step NewAccessRepository access_ops).1 in
  (en_Permissions <$> match Effective r "alice" "crm" 49 with Ok e => Some e | Err _ => None end) = Some ["read"; "write"] ∧
  ∃ e, Effective r "alice" "crm" 60 = Ok e ∧ en_Roles e = ["viewer"] ∧
    ∀ code, code ∈ en_Permissions e ↔
       ∃ a role id perm, active r "alice" "crm" 60 a role ∧ id ∈ permissions_of r (mu_RoleID a) ∧
         permissions r !! id = Some perm ∧ pe_Code perm = code.
Proof.
  intros r. split; [vm_compute; reflexivity|].
  destruct (effective_exact access_ops "alice" "crm" 60 access_ops_ok) as (e & He & _ & _ & _ & Hp & _); [done|].
  exists e. split; [exact He|]. split; [|exact Hp].
  assert (en_Roles <$> match Effective r "alice" "crm" 60 with Ok e => Some e | Err _ => None end = Some ["viewer"]) as H
    by (vm_compute; reflexivity).
  unfold r in H. rewrite He in H. by injection H.
Defined.
