(* ===== verification/Administration.v ===== *)
(** The administrators' roles and permissions: [internal/administration]. The roles
    are fixed, their permissions too; what the repository keeps is who has which role,
    and that there is always a super administrator once there was one. *)
From S2P Require Import Prelude GoStrings.
Local Open Scope Z_scope.

(** ** Roles and permissions *)

(** [internal/administration/administration.go:13-17] errors *)
Inductive adminError := AdminNotFound | AdminInvalid | ErrLastSuperAdmin.
#[global] Instance adminError_eq_dec : EqDecision adminError.
Proof. solve_decision. Defined.

(** [internal/administration/administration.go:21-27] RoleSuperAdmin *)
Definition RoleSuperAdmin : string := "super_admin".
Definition RoleIdentityAdmin : string := "identity_admin".
Definition RoleApplicationAdmin : string := "application_admin".
Definition RoleSecurityAdmin : string := "security_admin".
Definition RoleAuditor : string := "auditor".

(** [internal/administration/administration.go:31-47] PermissionAll *)
Definition PermissionAll : string := "*".
Definition PermissionUsersRead : string := "admin.users.read".
Definition PermissionUsersWrite : string := "admin.users.write".
Definition PermissionClientsRead : string := "admin.clients.read".
Definition PermissionClientsWrite : string := "admin.clients.write".
Definition PermissionSourcesRead : string := "admin.identity_sources.read".
Definition PermissionSourcesWrite : string := "admin.identity_sources.write".
Definition PermissionAccessRead : string := "admin.access.read".
Definition PermissionAccessWrite : string := "admin.access.write".
Definition PermissionAuditRead : string := "admin.audit.read".
Definition PermissionSecurityRead : string := "admin.security.read".
Definition PermissionSecurityWrite : string := "admin.security.write".
Definition PermissionMaintenanceExecute : string := "admin.maintenance.execute".
Definition PermissionAdminRolesRead : string := "admin.roles.read".
Definition PermissionAdminRolesWrite : string := "admin.roles.write".

(** [internal/administration/administration.go:49-54] RoleDefinition *)
Record RoleDefinition := {
  rd_Code : string; rd_Name : string; rd_Description : string; rd_Permissions : list string;
}.

(** [internal/administration/administration.go:56-61] Grant *)
Record Grant := { gr_UserID : string; gr_Role : string; gr_GrantedAt : Time; gr_GrantedBy : string }.

(** [internal/administration/administration.go:63-67] Access *)
Record Access := { ac_UserID : string; ac_Roles : list string; ac_Permissions : list string }.

(** [internal/administration/administration.go:76-135] definitions *)
Definition definitions : list RoleDefinition :=
  [ {| rd_Code := RoleSuperAdmin; rd_Name := "超级管理员"; rd_Description := "拥有全部后台权限，并可分配管理员角色。";
       rd_Permissions := [PermissionAll] |};
    {| rd_Code := RoleIdentityAdmin; rd_Name := "身份管理员"; rd_Description := "管理用户、密码、会话与多因素认证。";
       rd_Permissions := [PermissionUsersRead; PermissionUsersWrite; PermissionSourcesRead; PermissionSourcesWrite] |};
    {| rd_Code := RoleApplicationAdmin; rd_Name := "应用管理员"; rd_Description := "管理接入系统以及业务角色与权限。";
       rd_Permissions := [PermissionClientsRead; PermissionClientsWrite; PermissionAccessRead; PermissionAccessWrite;
                          PermissionUsersRead; PermissionSourcesRead] |};
    {| rd_Code := RoleSecurityAdmin; rd_Name := "安全管理员"; rd_Description := "管理签名密钥、清理任务并审阅安全事件。";
       rd_Permissions := [PermissionSecurityRead; PermissionSecurityWrite; PermissionMaintenanceExecute;
                          PermissionAuditRead; PermissionUsersRead; PermissionSourcesRead; PermissionSourcesWrite] |};
    {| rd_Code := RoleAuditor; rd_Name := "审计员"; rd_Description := "只读访问用户、客户端、安全状态与审计日志。";
       rd_Permissions := [PermissionUsersRead; PermissionClientsRead; PermissionAccessRead; PermissionAuditRead;
                          PermissionSecurityRead; PermissionAdminRolesRead; PermissionSourcesRead] |} ].

(** [internal/administration/administration.go:137-144] Definitions: a deep copy *)
Definition Definitions : list RoleDefinition := definitions.

(** [internal/administration/administration.go:160-167] ValidRole *)
Definition ValidRole (role : string) : bool :=
  existsb (λ definition, bool_decide (rd_Code definition = role)) definitions.

(** The loop of [ValidateRoles]. *)
Fixpoint validate_roles (seen : gset string) (roles : list string) : Res adminError unit :=
  match roles with
  | [] => Ok ()
  | role :: rest =>
      if negb (ValidRole role) then Err AdminInvalid
      else if decide (role ∈ seen) then Err AdminInvalid
      else validate_roles ({[role]} ∪ seen) rest
  end.

(** [internal/administration/administration.go:146-158] ValidateRoles *)
Definition ValidateRoles (roles : list string) : Res adminError unit := validate_roles ∅ roles.

(** The permissions of the definitions with this code: the inner loop of [AccessFor]. *)
Definition role_permissions (role : string) : list string :=
  mjoin (rd_Permissions <$> filter (λ definition, rd_Code definition = role) definitions).

(** [internal/administration/administration.go:169-202] AccessFor *)
Definition AccessFor (userID : string) (roles : list string) : Access :=
  let step (sets : gset string * gset string) (role : string) :=
    if negb (ValidRole role) then sets
    else ({[role]} ∪ sets.1, list_to_set (role_permissions role) ∪ sets.2) in
  let '(roleSet, permissionSet) := fold_left step roles (∅, ∅) in
  {| ac_UserID := TrimSpace userID;
     ac_Roles := merge_sort String.le (elements roleSet);
     ac_Permissions := merge_sort String.le (elements permissionSet) |}.

(** [internal/administration/administration.go:204-208] Access.Has *)
Definition Has (a : Access) (permission : string) : bool :=
  Contains (ac_Permissions a) PermissionAll || bool_decide (permission = ""%string)
  || Contains (ac_Permissions a) permission.

(** [internal/administration/administration.go:210-212] HasRole *)
Definition HasRole (roles : list string) (expected : string) : bool := Contains roles expected.

(** ** The repository *)

(** [internal/administration/memory_repository.go:11-14] MemoryRepository *)
Record AdminRepository := { grants : gmap string (list Grant) }.

(** [internal/administration/memory_repository.go:16-18] NewMemoryRepository *)
Definition NewAdminRepository : AdminRepository := {| grants := ∅ |}.

(** [internal/administration/memory_repository.go:91-97] grantRoles *)
Definition grantRoles (values : list Grant) : list string := gr_Role <$> values.

Definition grant_before (a b : Grant) : Prop := String.le (gr_Role a) (gr_Role b).
#[global] Instance grant_before_dec : RelDecision grant_before.
Proof. intros a b. unfold grant_before. apply _. Defined.

(** [internal/administration/memory_repository.go:99-103] cloneGrants *)
Definition cloneGrants (values : list Grant) : list Grant := merge_sort grant_before values.

(** [r.grants[userID]]. *)
Definition grants_of (r : AdminRepository) (userID : string) : list Grant := default [] (grants r !! userID).

(** [internal/administration/memory_repository.go:20-24] ListUserRoles *)
Definition ListUserRoles (r : AdminRepository) (userID : string) : Res adminError (list Grant) :=
  Ok (cloneGrants (grants_of r userID)).

Section Repository.
Context `{MapRange}.

(** The users with this role, in the order of the map. *)
Definition role_users (r : AdminRepository) (role : string) : list string :=
  (filter (λ kv, HasRole (grantRoles kv.2) role = true) (range (grants r))).*1.

(** [internal/administration/memory_repository.go:26-40] ListRoleUsers *)
Definition ListRoleUsers (r : AdminRepository) (role : string) : Res adminError (list string) :=
  if negb (ValidRole role) then Err AdminInvalid
  else Ok (merge_sort String.le (role_users r role)).

(** [internal/administration/memory_repository.go:81-89] superAdminCountLocked *)
Definition superAdminCountLocked (r : AdminRepository) : nat :=
  fold_left (λ count kv, if HasRole (grantRoles kv.2) RoleSuperAdmin then S count else count) (range (grants r)) 0%nat.

(** [internal/administration/memory_repository.go:42-73] ReplaceUserRoles *)
Definition ReplaceUserRoles (r : AdminRepository) (userID : string) (roles : list string) (grantedBy : string) (now : Time)
    : AdminRepository * Res adminError unit :=
  match ValidateRoles roles with
  | Err e => (r, Err e)
  | Ok _ =>
      if decide (TrimSpace userID = ""%string ∨ TrimSpace grantedBy = ""%string) then (r, Err AdminInvalid)
      else if HasRole (grantRoles (grants_of r userID)) RoleSuperAdmin && negb (HasRole roles RoleSuperAdmin)
              && (superAdminCountLocked r <=? 1)%nat
      then (r, Err ErrLastSuperAdmin)
      else
        let values := (λ role, {| gr_UserID := userID; gr_Role := role; gr_GrantedAt := now; gr_GrantedBy := grantedBy |})
                        <$> roles in
        ({| grants := <[userID := values]> (grants r) |}, Ok ())
  end.
End Repository.

(** [internal/administration/memory_repository.go:75-79] Effective *)
Definition Effective (r : AdminRepository) (userID : string) : Res adminError Access :=
  Ok (AccessFor userID (grantRoles (grants_of r userID))).

(** ** Roles and permissions, declaratively *)

Lemma ValidRole_elem role : ValidRole role = true ↔ ∃ d, d ∈ definitions ∧ rd_Code d = role.
Proof.
  unfold ValidRole. rewrite existsb_exists. split.
  - intros (d & Hd%list_elem_of_In & He%bool_decide_eq_true). by exists d.
  - intros (d & Hd%list_elem_of_In & He). exists d. by rewrite bool_decide_eq_true.
Qed.

Lemma elem_of_role_permissions p role :
  p ∈ role_permissions role ↔ ∃ d, d ∈ definitions ∧ rd_Code d = role ∧ p ∈ rd_Permissions d.
Proof.
  unfold role_permissions. rewrite list_elem_of_join. split.
  - intros (l & Hp & (d & -> & [Hc Hd]%list_elem_of_filter)%list_elem_of_fmap). by exists d.
  - intros (d & Hd & Hc & Hp). exists (rd_Permissions d). split; [done|]. apply list_elem_of_fmap. exists d.
    split; [done|]. by apply list_elem_of_filter.
Qed.

(** Only the super administrator has everything. *)
Lemma PermissionAll_role role : PermissionAll ∈ role_permissions role ↔ role = RoleSuperAdmin.
Proof.
  rewrite elem_of_role_permissions. split; [|intros ->; eexists; split; [by left|]; split; [done|by left]].
  assert (Forall (λ d, PermissionAll ∈ rd_Permissions d → rd_Code d = RoleSuperAdmin) definitions) as HF by decided.
  rewrite Forall_forall in HF. intros (d & Hd & <- & Hp). by apply HF.
Qed.

Lemma validate_roles_ok seen roles u :
  validate_roles seen roles = Ok u ↔ Forall (λ role, ValidRole role = true ∧ role ∉ seen) roles ∧ NoDup roles.
Proof.
  revert seen. induction roles as [|role roles IH]; intros seen; simpl.
  - split; [intros _; split; constructor|]. by destruct u.
  - rewrite Forall_cons, NoDup_cons. destruct (ValidRole role); simpl; [|naive_solver].
    case_decide as Hs; [naive_solver|]. rewrite IH, !Forall_forall. set_solver.
Qed.

Lemma ValidateRoles_ok roles u : ValidateRoles roles = Ok u ↔ Forall (λ role, ValidRole role = true) roles ∧ NoDup roles.
Proof.
  unfold ValidateRoles. rewrite validate_roles_ok. rewrite !Forall_forall. set_solver.
Qed.

Lemma ValidateRoles_error roles e : ValidateRoles roles = Err e → e = AdminInvalid.
Proof.
  unfold ValidateRoles. generalize (∅ : gset string). induction roles as [|x roles IH]; intros seen; simpl; [done|].
  destruct (negb _); [by intros [=]|]. case_decide; [by intros [=]|apply IH].
Qed.

Definition collect (sets : gset string * gset string) (role : string) : gset string * gset string :=
  if negb (ValidRole role) then sets
  else ({[role]} ∪ sets.1, list_to_set (role_permissions role) ∪ sets.2).

Lemma collect_elem roles sets :
  (∀ x, x ∈ (fold_left collect roles sets).1 ↔ x ∈ sets.1 ∨ x ∈ roles ∧ ValidRole x = true) ∧
  (∀ p, p ∈ (fold_left collect roles sets).2 ↔ p ∈ sets.2 ∨ ∃ role, role ∈ roles ∧ ValidRole role = true ∧ p ∈ role_permissions role).
Proof.
  revert sets. induction roles as [|role roles IH]; intros sets; simpl; [set_solver|].
  destruct (IH (collect sets role)) as [H1 H2]. setoid_rewrite H1. setoid_rewrite H2. clear H1 H2 IH.
  unfold collect. destruct (ValidRole role) eqn:Hv; simpl.
  - split; [intros x; set_solver|]. intros p. rewrite elem_of_union, elem_of_list_to_set. set_solver.
  - split; intros x; setoid_rewrite elem_of_cons; naive_solver congruence.
Qed.

Lemma AccessFor_elem u roles :
  (∀ x, x ∈ ac_Roles (AccessFor u roles) ↔ x ∈ roles ∧ ValidRole x = true) ∧ NoDup (ac_Roles (AccessFor u roles)) ∧
  (∀ p, p ∈ ac_Permissions (AccessFor u roles) ↔ ∃ role, role ∈ roles ∧ ValidRole role = true ∧ p ∈ role_permissions role).
Proof.
  destruct (collect_elem roles (∅, ∅)) as [H1 H2]. unfold AccessFor.
  change (fold_left _ roles (∅, ∅)) with (fold_left collect roles (∅, ∅)).
  destruct (fold_left collect roles (∅, ∅)) as [rs ps]. simpl in *. split_and!.
  - intros x. rewrite merge_sort_Permutation, elem_of_elements, H1. set_solver.
  - rewrite merge_sort_Permutation. apply NoDup_elements.
  - intros p. rewrite merge_sort_Permutation, elem_of_elements, H2. set_solver.
Qed.

Lemma AccessFor_user u roles : ac_UserID (AccessFor u roles) = TrimSpace u.
Proof. unfold AccessFor. by destruct (fold_left _ _ _). Qed.

(** ** The repository as a transition system *)

(** One call of [ReplaceUserRoles], the only operation that changes the repository. *)
Record AdminOp := {
  op_order : MapRange; op_userID : string; op_roles : list string; op_grantedBy : string; op_now : Time;
}.

Definition admin_step (r : AdminRepository) (op : AdminOp) : AdminRepository * Res adminError unit :=
  @ReplaceUserRoles (op_order op) r (op_userID op) (op_roles op) (op_grantedBy op) (op_now op).

(** A user has a role. *)
Definition holds (r : AdminRepository) (role userID : string) : Prop := role ∈ grantRoles (grants_of r userID).
#[local] Instance holds_dec r role u : Decision (holds r role u).
Proof. unfold holds. apply _. Defined.

Lemma HasRole_true roles role : HasRole roles role = true ↔ role ∈ roles.
Proof. apply Contains_true. Qed.

Section RoleUsers.
Context `{MapRange}.

Lemma elem_of_role_users r role u : u ∈ role_users r role ↔ holds r role u.
Proof.
  unfold role_users, holds, grants_of. rewrite list_elem_of_fmap. split.
  - intros ([k v] & -> & [Hh Hin]%list_elem_of_filter). apply elem_of_range in Hin. simpl in *. rewrite Hin.
    by apply HasRole_true.
  - destruct (grants r !! u) as [l|] eqn:E; [|intros Hu; by apply not_elem_of_nil in Hu]. intros Hh.
    exists (u, l). split; [done|]. apply list_elem_of_filter. split; [by apply HasRole_true|by apply elem_of_range].
Qed.

Lemma role_users_NoDup r role : NoDup (role_users r role).
Proof. unfold role_users. eapply sublist_NoDup; [apply (range_NoDup (grants r))|]. apply fmap_sublist, sublist_filter. Qed.

Lemma superAdminCount_length r : superAdminCountLocked r = length (role_users r RoleSuperAdmin).
Proof.
  unfold superAdminCountLocked, role_users. rewrite length_fmap.
  enough (∀ l n, fold_left (λ count kv, if HasRole (grantRoles kv.2) RoleSuperAdmin then S count else count) l n
    = (n + length (filter (λ kv : string * list Grant, HasRole (grantRoles kv.2) RoleSuperAdmin = true) l))%nat) as E
    by apply E.
  induction l as [|kv l IH]; intros n; simpl; [lia|]. rewrite IH, filter_cons.
  case_decide as Hh; [rewrite Hh; simpl; lia|]. apply not_true_is_false in Hh. rewrite Hh. lia.
Qed.

(** At most one super administrator: whoever is one is the only one. *)
Lemma superAdminCount_le_1 r u :
  holds r RoleSuperAdmin u → (superAdminCountLocked r <=? 1)%nat = true ↔ ∀ w, holds r RoleSuperAdmin w → w = u.
Proof.
  rewrite superAdminCount_length, Nat.leb_le. setoid_rewrite <-elem_of_role_users.
  pose proof (role_users_NoDup r RoleSuperAdmin) as Hnd. intros Hu. split.
  - intros Hl w Hw. destruct (role_users r RoleSuperAdmin) as [|a [|b l]]; simpl in *; [set_solver|set_solver|lia].
  - intros Hall. destruct (role_users r RoleSuperAdmin) as [|a [|b l]]; simpl; [lia|lia|exfalso].
    apply NoDup_cons in Hnd as [Hnd _]. apply Hnd.
    rewrite (Hall a), <-(Hall b) by set_solver. by left.
Qed.
End RoleUsers.

(** The repository after an accepted call. *)
Definition assigned (r : AdminRepository) (u : string) (roles : list string) (by_ : string) (now : Time) : AdminRepository :=
  {| grants := <[u := (λ role, {| gr_UserID := u; gr_Role := role; gr_GrantedAt := now; gr_GrantedBy := by_ |}) <$> roles]> (grants r) |}.

Lemma grantRoles_assigned r u roles by_ now w :
  grantRoles (grants_of (assigned r u roles by_ now) w) = if decide (u = w) then roles else grantRoles (grants_of r w).
Proof.
  unfold assigned, grants_of. simpl. rewrite lookup_insert. case_decide; [|done]. simpl.
  unfold grantRoles. rewrite <-list_fmap_compose. by apply list_fmap_id.
Qed.

(** Another user than the last super administrator. *)
Lemma another_super `{MapRange} r u :
  (superAdminCountLocked r <=? 1)%nat = false → ∃ w, w ≠ u ∧ holds r RoleSuperAdmin w.
Proof.
  intros Hc%Nat.leb_gt. rewrite superAdminCount_length in Hc. setoid_rewrite <-elem_of_role_users.
  pose proof (role_users_NoDup r RoleSuperAdmin) as Hnd.
  destruct (role_users r RoleSuperAdmin) as [|a [|b l]]; simpl in *; [lia|lia|].
  destruct (decide (a = u)) as [->|]; [|exists a; split; [done|by left]].
  exists b. split; [|right; by left]. intros ->. apply NoDup_cons in Hnd as [Hx _]. apply Hx. by left.
Qed.

(** What a call does, by cases of its result. *)
Lemma admin_step_spec r op :
  match (admin_step r op).2 with
  | Ok _ => Forall (λ role, ValidRole role = true) (op_roles op) ∧ NoDup (op_roles op) ∧
            TrimSpace (op_userID op) ≠ ""%string ∧ TrimSpace (op_grantedBy op) ≠ ""%string ∧
            (admin_step r op).1 = assigned r (op_userID op) (op_roles op) (op_grantedBy op) (op_now op) ∧
            (holds r RoleSuperAdmin (op_userID op) → RoleSuperAdmin ∉ op_roles op →
               ∃ w, w ≠ op_userID op ∧ holds r RoleSuperAdmin w)
  | Err e => (admin_step r op).1 = r ∧
             (e = ErrLastSuperAdmin → RoleSuperAdmin ∉ op_roles op ∧
                ∀ w, holds r RoleSuperAdmin w ↔ w = op_userID op)
  end.
Proof.
  destruct op as [order u roles by_ now]. unfold admin_step, ReplaceUserRoles. simpl.
  destruct (ValidateRoles roles) as [[]|e] eqn:Hv; [|split; [done|intros ->; by apply ValidateRoles_error in Hv]].
  apply ValidateRoles_ok in Hv as [Hv Hnd]. case_decide as Hb; [done|]. apply Decidable.not_or_iff in Hb as [Hb1 Hb2].
  destruct (HasRole (grantRoles (grants_of r u)) RoleSuperAdmin) eqn:Hs; simpl.
  2: { split_and!; try done. intros Hh%HasRole_true. congruence. }
  apply HasRole_true in Hs. destruct (HasRole roles RoleSuperAdmin) eqn:Hn; simpl.
  { apply HasRole_true in Hn. by split_and!. }
  assert (RoleSuperAdmin ∉ roles) as Hn' by (rewrite <-HasRole_true; congruence).
  destruct (superAdminCountLocked r <=? 1)%nat eqn:Hc; simpl.
  - split; [done|]. intros _. split; [done|]. pose proof (proj1 (superAdminCount_le_1 r u Hs) Hc) as Hw.
    intros w. split; [apply Hw|by intros ->].
  - split_and!; try done. intros _ _. by apply another_super.
Qed.

(** When a call is refused to keep the last super administrator. *)
Lemma last_super_refused r op :
  (admin_step r op).2 = Err ErrLastSuperAdmin ↔
  ValidateRoles (op_roles op) = Ok () ∧ TrimSpace (op_userID op) ≠ ""%string ∧ TrimSpace (op_grantedBy op) ≠ ""%string ∧
  RoleSuperAdmin ∉ op_roles op ∧ ∀ w, holds r RoleSuperAdmin w ↔ w = op_userID op.
Proof.
  split.
  - intros He. pose proof (admin_step_spec r op) as Hs. rewrite He in Hs. destruct Hs as [_ Hs]. revert He Hs.
    unfold admin_step, ReplaceUserRoles. destruct (ValidateRoles (op_roles op)) as [[]|e] eqn:Hv.
    + case_decide as Hb; [done|]. apply Decidable.not_or_iff in Hb as [Hb1 Hb2]. naive_solver.
    + apply ValidateRoles_error in Hv as ->. by intros [=].
  - intros (Hv & Hu & Hb & Hn & Hw). unfold admin_step, ReplaceUserRoles. rewrite Hv.
    rewrite decide_False by (by intros [?|?]). pose proof (proj2 (Hw (op_userID op)) eq_refl) as Hs.
    rewrite (proj2 (HasRole_true _ _) Hs). destruct (HasRole (op_roles op) _) eqn:E; [by apply HasRole_true in E|]. simpl.
    destruct op as [order u roles by_ now]. simpl in *.
    rewrite (proj2 (superAdminCount_le_1 r u Hs)); [done|]. intros w. apply Hw.
Qed.

(** What the repository holds: valid roles, each once. *)
Definition admin_wf (r : AdminRepository) : Prop :=
  ∀ u, Forall (λ role, ValidRole role = true) (grantRoles (grants_of r u)) ∧ NoDup (grantRoles (grants_of r u)).

Lemma admin_step_wf r op : admin_wf r → admin_wf (admin_step r op).1.
Proof.
  intros Hr. pose proof (admin_step_spec r op) as Hs. destruct (admin_step r op).2; [|by destruct Hs as [-> _]].
  destruct Hs as (Hv & Hnd & _ & _ & -> & _). intros u. rewrite grantRoles_assigned. by case_decide.
Qed.

Lemma admin_run_wf ops : admin_wf (run admin_step NewAdminRepository ops).1.
Proof.
  apply (run_invariant admin_step admin_wf); [intros; by apply admin_step_wf|].
  intros u. unfold grants_of. simpl. rewrite lookup_empty. split; constructor.
Qed.

Lemma super_step r op :
  (∃ u, holds r RoleSuperAdmin u) → ∃ u, holds (admin_step r op).1 RoleSuperAdmin u.
Proof.
  intros [u Hu]. pose proof (admin_step_spec r op) as Hs.
  destruct (admin_step r op).2; [|destruct Hs as [-> _]; by exists u].
  destruct Hs as (_ & _ & _ & _ & -> & Hother). unfold holds in *. setoid_rewrite grantRoles_assigned.
  destruct (decide (RoleSuperAdmin ∈ op_roles op)) as [Hin|Hin]; [exists (op_userID op); by rewrite decide_True|].
  destruct (decide (op_userID op = u)) as [<-|Hne]; [|exists u; by rewrite decide_False].
  destruct (Hother Hu Hin) as (w & Hw & Hh). exists w. by rewrite decide_False.
Qed.

(** ** Properties *)

(** C39. The last super administrator cannot be removed. Once an execution has made some
    user a super administrator, there is one after every later call; a call is refused
    for this reason exactly when it comes from valid roles and names, takes the role
    away, and its user is the only super administrator; and a refused call changes nothing. *)
Theorem super_admin_remains ops ops' op :
  let r := (run admin_step NewAdminRepository ops).1 in
  let r' := (run admin_step r ops').1 in
  ((∃ u, holds r RoleSuperAdmin u) → ∃ u, holds r' RoleSuperAdmin u) ∧
  ((admin_step r op).2 = Err ErrLastSuperAdmin ↔
     ValidateRoles (op_roles op) = Ok () ∧ TrimSpace (op_userID op) ≠ ""%string ∧ TrimSpace (op_grantedBy op) ≠ ""%string ∧
     RoleSuperAdmin ∉ op_roles op ∧ ∀ w, holds r RoleSuperAdmin w ↔ w = op_userID op) ∧
  (is_ok (admin_step r op).2 = false → (admin_step r op).1 = r).
Proof.
  intros r r'. split_and!.
  - apply (run_invariant admin_step (λ r, ∃ u, holds r RoleSuperAdmin u)). intros; by apply super_step.
  - apply last_super_refused.
  - pose proof (admin_step_spec r op) as Hs. destruct (admin_step r op).2; [done|]. by destruct Hs.
Qed.

(** C40. An administrator can do exactly what the roles given say. In every execution, the
    roles in effect for a user are those assigned, each once, and the user has a
    permission if and only if one of the roles lists it or the user is a super administrator. *)
Theorem administrator_powers ops u p :
  let r := (run admin_step NewAdminRepository ops).1 in
  ∃ a, Effective r u = Ok a ∧ ac_UserID a = TrimSpace u ∧
    ac_Roles a ≡ₚ grantRoles (grants_of r u) ∧
    (Has a p = true ↔ p = ""%string ∨ ∃ role, holds r role u ∧ (role = RoleSuperAdmin ∨ p ∈ role_permissions role)).
Proof.
  intros r. destruct (admin_run_wf ops u) as [Hv Hnd]. fold r in Hv, Hnd. rewrite Forall_forall in Hv.
  destruct (AccessFor_elem u (grantRoles (grants_of r u))) as (Hro & Hro' & Hpe).
  exists (AccessFor u (grantRoles (grants_of r u))). split; [done|]. split; [apply AccessFor_user|]. split.
  - apply NoDup_Permutation; [done|done|]. intros x. rewrite Hro. naive_solver.
  - unfold Has. rewrite !orb_true_iff, !Contains_true, bool_decide_eq_true, !Hpe. unfold holds. split.
    + intros [[(role & Hin & _ & Hp%PermissionAll_role)|?]|(role & Hin & _ & Hp)]; naive_solver.
    + intros [?|(role & Hin & [->|Hp])]; [by left; right| |by right; exists role; auto].
      left; left. exists RoleSuperAdmin. split_and!; [done|done|by apply PermissionAll_role].
Qed.
