(* ===== verification/AuditLog.v ===== *)
(** The audit log: [internal/audit]; and the values that audit details, signed claims
    and JSON replies are made of. *)
From S2P Require Import Prelude GoStrings GoCrypto.
Local Open Scope Z_scope.

(** ** Values of [map[string]any] *)

(** The dynamic types the program puts in such maps. *)
Inductive Value :=
| VBool (b : bool)
| VInt (z : Z)
| VString (s : string)
| VStrings (l : list string)
| VNull
| VArray (l : list Value)
| VObject (fields : list (string * Value)).

(** Maps of claims, of details and of JSON members. *)
Abbreviation Claims := (gmap string Value) (only parsing).

(** [claims[key].(string)], the empty string when it is not one. *)
Definition claim_string (claims : Claims) (key : string) : string :=
  match claims !! key with Some (VString s) => s | _ => ""%string end.

(** [int64(claims[key].(float64))], zero when it is not a number. *)
Definition claim_int (claims : Claims) (key : string) : Z :=
  match claims !! key with Some (VInt z) => z | _ => 0 end.

(** ** Events *)

(** [internal/audit/audit.go:10] ErrInvalid, beside the failure of the random source. *)
Inductive auditError := AuditInvalid | AuditRandomFailure.

(** [internal/audit/audit.go:12-12] Outcome: any string; two are valid. *)
Definition OutcomeSuccess : string := "success".
Definition OutcomeFailure : string := "failure".

(** [internal/audit/audit.go:19-29] Event *)
Record Event := {
  ev_ID : string;
  ev_OccurredAt : Time;
  ev_ActorUserID : option string;
  ev_EventType : string;
  ev_ClientID : option string;
  ev_IPAddress : string;
  ev_RequestID : string;
  ev_Outcome : string;
  ev_Details : Claims;
}.

(** [internal/audit/audit.go:31-40] Filter *)
Record Filter := {
  fi_ActorUserID : string; fi_EventType : string; fi_ClientID : string; fi_Outcome : string;
  fi_From : option Time; fi_To : option Time; fi_Limit : Z; fi_Offset : Z;
}.

(** [internal/audit/audit.go:42-47] Page *)
Record Page := { pg_Items : list Event; pg_Total : Z; pg_Limit : Z; pg_Offset : Z }.

(** [internal/audit/audit.go:54-70] Normalize: nil details are the empty map. *)
Definition Normalize (event : Event) (now : Time) : Res auditError Event :=
  let eventType := TrimSpace (ev_EventType event) in
  if decide (eventType = ""%string ∨ (ev_Outcome event ≠ OutcomeSuccess ∧ ev_Outcome event ≠ OutcomeFailure))
  then Err AuditInvalid
  else Ok {| ev_ID := ev_ID event;
             ev_OccurredAt := if IsZero (ev_OccurredAt event) then now else ev_OccurredAt event;
             ev_ActorUserID := ev_ActorUserID event; ev_EventType := eventType; ev_ClientID := ev_ClientID event;
             ev_IPAddress := TrimSpace (ev_IPAddress event); ev_RequestID := TrimSpace (ev_RequestID event);
             ev_Outcome := ev_Outcome event; ev_Details := ev_Details event |}.

(** ** The repository *)

(** [internal/audit/memory_repository.go:12-15] MemoryRepository *)
Record AuditRepository := { events : list Event }.

(** [internal/audit/memory_repository.go:17-19] NewMemoryRepository *)
Definition NewAuditRepository : AuditRepository := {| events := [] |}.

Definition event_with_ID (id : string) (e : Event) : Event :=
  {| ev_ID := id; ev_OccurredAt := ev_OccurredAt e; ev_ActorUserID := ev_ActorUserID e; ev_EventType := ev_EventType e;
     ev_ClientID := ev_ClientID e; ev_IPAddress := ev_IPAddress e; ev_RequestID := ev_RequestID e;
     ev_Outcome := ev_Outcome e; ev_Details := ev_Details e |}.

(** [internal/audit/memory_repository.go:21-33] Append: [rnd] is the 16 bytes read for an identifier. *)
Definition Append (r : AuditRepository) (event : Event) (rnd : Entropy) : AuditRepository * Res auditError Event :=
  let store e := ({| events := events r ++ [e] |}, Ok e) in
  if decide (ev_ID event = ""%string)
  then match RandomToken rnd with
       | Err _ => (r, Err AuditRandomFailure)
       | Ok id => store (event_with_ID id event)
       end
  else store event.

Section List_.
Context `{UnicodeTables}.

(** [internal/audit/memory_repository.go:40-57] List, the filter *)
Definition event_matches (filter : Filter) (event : Event) : bool :=
  if decide (fi_ActorUserID filter ≠ ""%string ∧ ev_ActorUserID event ≠ Some (fi_ActorUserID filter)) then false
  else if bool_decide (fi_EventType filter ≠ ""%string) && negb (EqualFold (ev_EventType event) (fi_EventType filter)) then false
  else if decide (fi_ClientID filter ≠ ""%string ∧ ev_ClientID event ≠ Some (fi_ClientID filter)) then false
  else if decide (fi_Outcome filter ≠ ""%string ∧ ev_Outcome event ≠ fi_Outcome filter) then false
  else if from_option (Before (ev_OccurredAt event)) false (fi_From filter) then false
  else if from_option (λ t, negb (Before (ev_OccurredAt event) t)) false (fi_To filter) then false
  else true.

(** Newest first, then by descending identifier. *)
Definition event_before (a b : Event) : Prop :=
  ev_OccurredAt b < ev_OccurredAt a ∨ ev_OccurredAt a = ev_OccurredAt b ∧ String.le (ev_ID b) (ev_ID a).
#[global] Instance event_before_dec : RelDecision event_before.
Proof. intros a b. unfold event_before. apply _. Defined.

Definition matching_events (r : AuditRepository) (filter : Filter) : list Event :=
  merge_sort event_before (List.filter (event_matches filter) (events r)).

(** [internal/audit/memory_repository.go:35-70] List: [None] is the run-time panic of a
    slice expression out of range. *)
Definition ListEvents (r : AuditRepository) (filter : Filter) : option (Res auditError Page) :=
  let items := matching_events r filter in
  let total := Z.of_nat (length items) in
  let start := Z.min (fi_Offset filter) total in
  let end_ := Z.min (wrap64 (start + fi_Limit filter)) total in
  if decide (0 ≤ start ≤ end_)
  then Some (Ok {| pg_Items := take (Z.to_nat (end_ - start)) (drop (Z.to_nat start) items);
                   pg_Total := total; pg_Limit := fi_Limit filter; pg_Offset := fi_Offset filter |})
  else None.

(** ** Reading the log page by page *)

Definition filter_at (filter : Filter) (offset : Z) : Filter :=
  {| fi_ActorUserID := fi_ActorUserID filter; fi_EventType := fi_EventType filter; fi_ClientID := fi_ClientID filter;
     fi_Outcome := fi_Outcome filter; fi_From := fi_From filter; fi_To := fi_To filter;
     fi_Limit := fi_Limit filter; fi_Offset := offset |}.

(** The items of the first [n] pages. *)
Fixpoint pages (r : AuditRepository) (filter : Filter) (n : nat) : list Event :=
  match n with
  | O => []
  | S k => pages r filter k ++
           match ListEvents r (filter_at filter (Z.of_nat k * fi_Limit filter)) with
           | Some (Ok page) => pg_Items page
           | _ => []
           end
  end.

Lemma pages_take r filter n :
  0 < fi_Limit filter → Z.of_nat (length (events r)) + fi_Limit filter ≤ max_int64 →
  pages r filter n = take (n * Z.to_nat (fi_Limit filter)) (matching_events r filter).
Proof.
  intros Hl Hb. induction n as [|n IH]; [done|]. cbn [pages]. rewrite IH. clear IH. unfold ListEvents.
  change (matching_events r (filter_at filter (Z.of_nat n * fi_Limit filter))) with (matching_events r filter).
  set (l := matching_events r filter).
  assert (length l ≤ length (events r))%nat as Hlen.
  { clear Hb. unfold l, matching_events. rewrite merge_sort_Permutation.
    induction (events r) as [|e es IH]; simpl; [lia|]. destruct (event_matches filter e); simpl; lia. }
  cbn [filter_at fi_Offset fi_Limit]. set (k := Z.to_nat (fi_Limit filter)).
  assert (fi_Limit filter = Z.of_nat k) as Ek by lia. rewrite Ek in *. rewrite <-Nat2Z.inj_mul. set (p := (n * k)%nat).
  rewrite wrap64_id by (unfold in_int64, min_int64; lia). rewrite decide_True by lia. cbn [pg_Items].
  replace (S n * k)%nat with (p + k)%nat by (unfold p; lia).
  destruct (decide (p ≤ length l)%nat) as [Hin|Hout].
  - rewrite (Z.min_l (Z.of_nat p)) by lia.
    rewrite Nat2Z.id, <-take_take_drop. f_equal.
    destruct (decide (p + k ≤ length l)%nat) as [Hfull|Hpart].
    + replace (Z.to_nat _) with k by lia. done.
    + replace (Z.to_nat _) with (length l - p)%nat by lia. rewrite !(take_ge (drop p l)); rewrite ?length_drop; try lia; done.
  - rewrite (take_ge l p), (take_ge l (p + k)) by lia. rewrite drop_ge by lia. by rewrite take_nil, app_nil_r.
Qed.

(** Paging through the audit log misses nothing and repeats nothing. With a positive
    page size, the pages at consecutive multiples of it concatenate, after finitely many
    pages, to all the events that match the filter, each as often as it was recorded,
    newest first. *)
Theorem audit_pages_complete r filter :
  0 < fi_Limit filter → Z.of_nat (length (events r)) + fi_Limit filter ≤ max_int64 →
  ∃ n, ∀ m, (n ≤ m)%nat → pages r filter m = matching_events r filter ∧
    pages r filter m ≡ₚ List.filter (event_matches filter) (events r) ∧ Sorted event_before (pages r filter m).
Proof.
  intros Hl Hb. exists (length (matching_events r filter)). intros m Hm.
  assert (pages r filter m = matching_events r filter) as ->.
  { rewrite pages_take by done. apply take_ge. assert (1 ≤ Z.to_nat (fi_Limit filter))%nat by lia. nia. }
  split; [done|]. split; [apply merge_sort_Permutation|]. apply Sorted_merge_sort. intros a b.
  unfold event_before. destruct (Z.lt_trichotomy (ev_OccurredAt a) (ev_OccurredAt b)) as [|[E|]]; [auto| |auto].
  destruct (total String.le (ev_ID a) (ev_ID b)); auto.
Qed.
End List_.
