(* ===== verification/Http.v ===== *)
(** The frame of the HTTP layer: requests and replies, the state shared by all
    requests, and handlers as programs that call the services one call at a time.

    A handler is not atomic: between two of its calls, other requests run. [runs]
    executes a handler with interference allowed before every call; [exec] is its
    executable counterpart. *)
From S2P Require Import Prelude GoStrings GoCrypto Cas Mfa OAuthStore Session RateLimit Identity Client Authorize GoUrl UserCodes Access Administration AuditLog Secrets Federation.
Local Open Scope Z_scope.

(** ** Requests *)

(** A JSON text as [encoding/json] reads it; the members of an object in their order. *)
Inductive Json :=
| JNull
| JBool (b : bool)
| JNumber (z : Z)
| JString (s : string)
| JArray (items : list Json)
| JObject (members : list (string * Json))
| JBad.

(** What the handlers read of an [http.Request], its body and query as parsed by
    [net/http]: no [rq_PostForm] for a malformed or too long body, [rq_QueryBad] for a
    query with malformed pairs (which [r.URL.Query()] drops and [r.ParseForm()]
    reports), the JSON texts of the body ([JBad] where there is none), the values of the
    pattern of the route, the header [X-CSRF-Token], and the address that
    [requestIPAddress] derives. *)
Record HttpRequest := {
  rq_Method : string;
  rq_ContentType : string;
  rq_Authorization : string;
  rq_PostForm : option Values;
  rq_Query : Values;
  rq_QueryBad : bool;
  rq_JSON : list Json;
  rq_PathValues : gmap string string;
  rq_Path : string;
  rq_RequestURI : string;
  rq_CSRFHeader : string;
  rq_Cookies : gmap string string;
  rq_IPAddress : string;
  rq_UserAgent : string;
  rq_RequestID : string;
}.

(** [r.ParseForm()]: [r.PostForm] and [r.Form], where the values of the query follow
    those of the body. *)
Definition ParseForm (rq : HttpRequest) : option (Values * Values) :=
  match rq_PostForm rq with
  | Some post => if rq_QueryBad rq then None
                 else Some (post, union_with (λ a b, Some (a ++ b)) post (rq_Query rq))
  | None => None
  end.

(** [r.BasicAuth()]: the scheme is compared up to ASCII case. *)
Definition BasicAuth (authorization : string) : option (string * string) :=
  let l := bytes authorization in
  if decide ((ascii_lower <$> take 6 l) = bytes "basic ")
  then match StdEncoding_DecodeString (of_bytes (drop 6 l)) with
       | Some decoded => Cut (of_bytes decoded) ":"%char
       | None => None
       end
  else None.

(** ** Replies *)

Inductive Body :=
| OAuthErrorBody (code description challenge : string)
| JsonBody (members : Claims)
| ProblemBody (code detail : string)
| Redirect (target : string)
| RedirectURI (uri : string) (parameters : list (string * string))
| Page (template : string) (fields : Claims)
| TextBody (text : string)
| NoBody.

(** A reply: the status, the cookies set (cleared when the value is empty) and the body.
    [OAuthErrorBody] carries the [WWW-Authenticate] header, empty when absent;
    [RedirectURI] is the redirect to [uri] with these query parameters set, [TextBody] a
    text or an XML document. *)
Record Reply := { re_Status : Z; re_Cookies : list (string * string); re_Body : Body }.

Definition reply (status : Z) (body : Body) : Reply := {| re_Status := status; re_Cookies := []; re_Body := body |}.
Definition with_cookies (l : list (string * string)) (r : Reply) : Reply :=
  {| re_Status := re_Status r; re_Cookies := re_Cookies r ++ l; re_Body := re_Body r |}.
Definition with_cookie (name value : string) (r : Reply) : Reply := with_cookies [(name, value)] r.
(** A panic: [net/http] closes the connection without a reply. *)
Definition panicked : Reply := reply 0 NoBody.

(** [internal/platform/http/oauth.go:1077-1079] writeOAuthError *)
Definition writeOAuthError (status : Z) (code description : string) : Reply :=
  reply status (OAuthErrorBody code description "").
Definition writeOAuthChallenge (challenge : string) (status : Z) (code description : string) : Reply :=
  reply status (OAuthErrorBody code description challenge).
(** [internal/platform/http/helpers.go:96-100] writeJSON *)
Definition writeJSON (status : Z) (members : Claims) : Reply := reply status (JsonBody members).
(** [internal/platform/http/helpers.go:102-110] writeProblem *)
Definition writeProblem (status : Z) (code detail : string) : Reply := reply status (ProblemBody code detail).

(** ** The services a handler calls *)

(** [internal/oidc/signer.go:33-39] SigningKey *)
Record SigningKey := { sk_KID : string; sk_PEM : string; sk_Active : bool; sk_CreatedAt : Time; sk_RetiredAt : option Time }.

(** The signer of [internal/oidc/signer.go], as the handlers use it: compact tokens of
    claims, at an instant since it refreshes its keys; and the keys themselves, which the
    administration lists and rotates and the maintenance deletes once retired. *)
Class TokenSigner := {
  signer : Type;
  signer_Sign : signer → Time → Claims → signer * Res unit string;
  signer_SignTyped : signer → Time → Claims → string → signer * Res unit string;
  signer_Verify : signer → Time → string → signer * Res unit Claims;
  signer_ListKeys : signer → Res unit (list SigningKey);
  signer_Rotate : signer → Time → Entropy → signer * Res unit string;
  signer_JWKS : signer → Value;
  signer_DeleteRetired : signer → Time → signer * Res unit Z;
}.

(** The part of the configuration the handlers read; [cfg_Mailer] tells whether mail can
    be sent. *)
Record Config := {
  cfg_AdminToken : string;
  cfg_SigningKeyRetention : Duration;
  cfg_Issuer : string;
  cfg_Registration : bool;
  cfg_RequireEmail : bool;
  cfg_EmailVerificationTTL : Duration;
  cfg_Mailer : bool;
  cfg_LoginSource : Policy;
  cfg_LoginIdentity : Policy;
  cfg_RegistrationSource : Policy;
  cfg_EmailVerification : Policy;
  cfg_MFA : Policy;
  cfg_OAuth : Policy;
  cfg_Device : Policy;
  cfg_MFAService : MfaConfig;
  cfg_SourceKeyRing : KeyRing;
  cfg_LDAP : LDAPConfig;
  cfg_ExternalOIDC : ExternalOIDCConfig;
}.

(** ** What is outside *)

(** An entry of a directory, and [entry.GetAttributeValue]. *)
Record Entry := { en_DN : string; en_Attributes : gmap string string }.
Definition GetAttributeValue (e : Entry) (attribute : string) : string := default ""%string (en_Attributes e !! attribute).

(** A verified ID token of an identity provider; no claims when they are not of the types
    the code decodes. *)
Record ExternalClaims := {
  xc_Subject : string;
  xc_PreferredUsername : string;
  xc_Name : string;
  xc_Email : string;
  xc_EmailVerified : bool;
}.
Record IDToken := { it_Nonce : string; it_Claims : option ExternalClaims }.

(** A message for a mail server. *)
Record Message := { ms_To : string; ms_Subject : string; ms_Text : string; ms_HTML : string }.

(** The other systems, as the server meets them: the statuses of the replies to the
    requests that the server will send, or why none comes, whether the deadlines
    that will be looked at have passed and whether the messages to come will be accepted;
    the directories (of package [go-ldap]: dialing a URL, with [StartTLS] or not, binding
    as a name with a password, and searching) and the identity providers (of packages
    [go-oidc] and [oauth2]: discovery of an issuer, the URL to sign in at, the exchange
    of a code for the text of an ID token, and the verification of that text for a
    client). [out_discovered] tells whether the provider of the configuration, which is
    kept from then on, has been discovered. *)
Record Outside := {
  out_replies : list (Res string Z);
  out_late : list bool;
  out_mail : list bool;
  out_discovered : bool;
  out_Dial : string → bool → bool;
  out_Bind : string → string → string → bool;
  out_Search : string → string → string → list string → option (list Entry);
  out_Discover : string → bool;
  out_AuthCodeURL : ExternalOIDCConfig → string → string → string → string → string;
  out_Exchange : ExternalOIDCConfig → string → string → string → option (option string);
  out_VerifyIDToken : string → string → string → option IDToken;
}.
Definition set_replies (v : list (Res string Z)) (o : Outside) : Outside :=
  {| out_replies := v; out_late := out_late o; out_mail := out_mail o; out_discovered := out_discovered o; out_Dial := out_Dial o; out_Bind := out_Bind o;
     out_Search := out_Search o; out_Discover := out_Discover o; out_AuthCodeURL := out_AuthCodeURL o;
     out_Exchange := out_Exchange o; out_VerifyIDToken := out_VerifyIDToken o |}.
Definition set_late (v : list bool) (o : Outside) : Outside :=
  {| out_replies := out_replies o; out_late := v; out_mail := out_mail o; out_discovered := out_discovered o; out_Dial := out_Dial o; out_Bind := out_Bind o;
     out_Search := out_Search o; out_Discover := out_Discover o; out_AuthCodeURL := out_AuthCodeURL o;
     out_Exchange := out_Exchange o; out_VerifyIDToken := out_VerifyIDToken o |}.
Definition set_mail (v : list bool) (o : Outside) : Outside :=
  {| out_replies := out_replies o; out_late := out_late o; out_mail := v; out_discovered := out_discovered o; out_Dial := out_Dial o; out_Bind := out_Bind o;
     out_Search := out_Search o; out_Discover := out_Discover o; out_AuthCodeURL := out_AuthCodeURL o;
     out_Exchange := out_Exchange o; out_VerifyIDToken := out_VerifyIDToken o |}.

Definition set_discovered (v : bool) (o : Outside) : Outside :=
  {| out_replies := out_replies o; out_late := out_late o; out_mail := out_mail o; out_discovered := v; out_Dial := out_Dial o;
     out_Bind := out_Bind o; out_Search := out_Search o; out_Discover := out_Discover o; out_AuthCodeURL := out_AuthCodeURL o;
     out_Exchange := out_Exchange o; out_VerifyIDToken := out_VerifyIDToken o |}.

(** What the next request sent, deadline looked at and message sent will meet. *)
Definition next_reply (o : Outside) : Outside * Res string Z :=
  match out_replies o with [] => (o, Err "connection refused"%string) | v :: rest => (set_replies rest o, v) end.
Definition next_late (o : Outside) : Outside * bool :=
  match out_late o with [] => (o, false) | v :: rest => (set_late rest o, v) end.
Definition next_mail (o : Outside) : Outside * bool :=
  match out_mail o with [] => (o, false) | v :: rest => (set_mail rest o, v) end.

(** Discovery by an authenticator that is kept, or made for one sign-in. *)
Definition discover (kept : bool) (iss : string) (o : Outside) : Outside * bool :=
  if kept && out_discovered o then (o, true)
  else if out_Discover o iss then (if kept then set_discovered true o else o, true) else (o, false).

(** The state shared by all requests; [w_random] are the results of the reads of random
    bytes to come. *)
Record World `{TokenSigner} := {
  w_now : Time;
  w_random : list Entropy;
  w_outside : Outside;
  w_clients : ClientRepository;
  w_users : UserRepository;
  w_sessions : SessionService;
  w_oauth : OAuthStore.MemoryRepository;
  w_access : AccessRepository;
  w_rate : option RateRepository;
  w_signer : signer;
  w_audit : AuditRepository;
  w_cas : CasRepository;
  w_mfa : MfaRepository;
  w_sources : SourceRepository;
  w_admin : AdminRepository;
}.

(** Calls of the administration: of the repositories of administrators, of roles and
    permissions, of applications and systems, of identity sources and of accounts, and of
    the signing keys. *)
Inductive AdminCall :=
| AcEffective (userID : string)
| AcUserRoles (userID : string)
| AcRoleUsers (role : string)
| AcReplace (userID : string) (roles : list string) (grantedBy : string) (now : Time).
Inductive AccessCall :=
| XcRoles (clientID : string)
| XcCreateRole (value : Role)
| XcFindRole (clientID roleID : string)
| XcReplaceRole (value : Role)
| XcDeleteRole (clientID roleID : string)
| XcPermissions (clientID : string)
| XcCreatePermission (value : Permission)
| XcFindPermission (clientID permissionID : string)
| XcReplacePermission (value : Permission)
| XcDeletePermission (clientID permissionID : string)
| XcRolePermissions (clientID roleID : string)
| XcSetRolePermissions (clientID roleID : string) (permissionIDs : list string)
| XcUserRoles (userID clientID : string) (includeExpired : bool) (now : Time)
| XcReplaceUserRoles (userID : string) (grants : list RoleGrant) (grantedBy : string) (now : Time).
Inductive RegistryCall :=
| KcSystems
| KcFindSystem (id : string)
| KcCreateSystem (item : System)
| KcReplaceSystem (item : System)
| KcDeleteSystem (id : string)
| KcCreate (item : Client)
| KcReplace (item : Client)
| KcRotateSecret (id hash : string)
| KcArchive (id : string) (now : Time)
| KcDeleteArchived (id : string).
Inductive SourceCall :=
| ScCreate (source : Source)
| ScReplace (source : Source)
| ScArchive (id : string) (now : Time).
Inductive AccountCall :=
| UcList (filter : UserFilter)
| UcCreate (user : User)
| UcImport (records : list PasswordMigrationRecord)
| UcVerified (userID : string) (now : Time)
| UcExternals (userID : string)
| UcDeleteExternal (userID externalIdentityID : string).
Inductive KeyCall :=
| JcList
| JcRotate
| JcPublic
| JcDeleteRetired (before : Time).

(** One call of a service. *)
Inductive Call :=
| CAdmin (op : AdminCall)
| CAccess (op : AccessCall)
| CRegistry (op : RegistryCall)
| CSource (op : SourceCall)
| CAccount (op : AccountCall)
| CKeys (op : KeyCall)
| CAuditList (filter : Filter)
| CNow
| CRandom
| CRate (scope subject : string) (policy : Policy) (now : Time)
| CUserCode
| COutbound (method url : string) (body : Values)
| CLate
| CMail (message : Message)
| CLdapDial (url : string) (startTLS : bool)
| CLdapBind (url dn password : string)
| CLdapSearch (url baseDN filter : string) (attributes : list string)
| COIDCDiscover (kept : bool) (issuer : string)
| COIDCAuthCodeURL (config : ExternalOIDCConfig) (redirectURL state nonce verifier : string)
| COIDCExchange (config : ExternalOIDCConfig) (redirectURL code verifier : string)
| COIDCVerify (issuer clientID rawIDToken : string)
| CSourcesList
| CSourcesFind (id : string)
| CClientsFind (id : string)
| CClientsList
| CUsersFind (id : string)
| CUsersReplace (user : User)
| CUsersRegister (user : User) (hash : string)
| CUsersResolve (profile : ExternalProfile) (now : Time)
| CResetSave (token : PasswordResetToken)
| CResetConsume (hash : string) (now : Time)
| CVerificationSave (token : EmailVerificationToken)
| CVerificationUse (hash userID : string) (now : Time)
| CPasswordFind (username : string)
| CPasswordSet (userID hash : string)
| CPasswordFailure (userID : string) (attempts : Z) (lockedUntil : Time)
| CPasswordSuccess (userID : string)
| CSessionsFind (token : string)
| CSessionsIsActive (userID id : string)
| CSessionsCreate (userID ipAddress userAgent : string) (authMethods : list string) (assuranceLevel : string)
| CSessionsRevoke (id : string)
| CSessionsList (userID : string)
| CSessionsRevokeForUser (userID id : string)
| CSessionsRevokeAll (userID exceptID : string)
| CStore (op : StoreOp)
| CFindAccessToken (hash : string) (now : Time)
| CFindRefreshToken (hash : string) (now : Time)
| CFindConsent (userID clientID : string)
| CListConsents (userID : string)
| CFindDeviceByUserCode (hash : string) (now : Time)
| CListOIDCClientSessions (sessionID : string)
| CEffective (userID clientID : string) (now : Time)
| CSign (claims : Claims)
| CSignTyped (claims : Claims) (typ : string)
| CVerify (token : string)
| CAudit (event : Event)
| CCas (op : CasOp)
| CFindProxyGrantingTicket (hash : string) (now : Time)
| CListServiceSessions (sessionID : string)
| CMfaFind (userID : string)
| CMfaUseTOTP (userID : string) (step : Z)
| CMfaUseRecoveryCode (userID hash : string)
| CMfaFailure (userID : string) (attempts : Z) (lockedUntil : option Time)
| CMfaStoreDevice (device : TrustedDevice) (maxDevices : Z)
| CMfaRotateDevice (userID currentHash replacementHash userAgentHash : string) (now : Time)
| CMfaReplacePending (credential : Credential) (codes : list string)
| CMfaReplaceCodes (userID : string) (codes : list string)
| CMfaEnable (userID : string) (step : Z) (now : Time)
| CMfaDelete (userID : string)
| CMfaDeleteDevices (userID : string)
| CMfaCountDevices (userID : string) (now : Time).

(** The results of the operations of the grant store. *)
Definition StoreAnswer (op : StoreOp) : Type :=
  match op with
  | OpConsumeAuthorizationCode _ _ _ _ _ => Res oauthError AuthorizationCode
  | OpRotateRefreshToken _ _ _ => Res oauthError RefreshToken
  | OpPollDeviceAuthorization _ _ _ => Res oauthError DeviceAuthorization
  | OpGrantConsent _ _ _ _ => Res oauthError Consent
  | _ => Res oauthError unit
  end.

(** The results of the operations of the CAS repository. *)
Definition CasAnswer (op : CasOp) : Type :=
  match op with
  | CoConsumeServiceTicket _ _ _ _ => Res casError ServiceTicket
  | CoConsumeProxyTicket _ _ _ _ => Res casError ProxyTicket
  | _ => Res casError unit
  end.

(** The results of the calls of the administration. *)
Definition AdminAnswer (op : AdminCall) : Type :=
  match op with
  | AcEffective _ => Res adminError Administration.Access
  | AcUserRoles _ => Res adminError (list Grant)
  | AcRoleUsers _ => Res adminError (list string)
  | AcReplace _ _ _ _ => Res adminError unit
  end.
Definition AccessAnswer (op : AccessCall) : Type :=
  match op with
  | XcRoles _ => Res accessError (list Role)
  | XcCreateRole _ | XcFindRole _ _ | XcReplaceRole _ => Res accessError Role
  | XcPermissions _ | XcRolePermissions _ _ => Res accessError (list Permission)
  | XcCreatePermission _ | XcFindPermission _ _ | XcReplacePermission _ => Res accessError Permission
  | XcUserRoles _ _ _ _ => Res accessError (list UserRole)
  | _ => Res accessError unit
  end.
Definition RegistryAnswer (op : RegistryCall) : Type :=
  match op with
  | KcSystems => Res clientError (list System)
  | KcFindSystem _ | KcCreateSystem _ | KcReplaceSystem _ => Res clientError System
  | KcCreate _ | KcReplace _ | KcRotateSecret _ _ => Res clientError Client
  | KcDeleteSystem _ | KcArchive _ _ | KcDeleteArchived _ => Res clientError unit
  end.
Definition SourceAnswer (op : SourceCall) : Type :=
  match op with ScArchive _ _ => Res sourceError unit | _ => Res sourceError Source end.
Definition AccountAnswer (op : AccountCall) : Type :=
  match op with
  | UcList _ => option UserPage
  | UcCreate _ | UcVerified _ _ => Res identityError User
  | UcImport _ => Res identityError (list User)
  | UcExternals _ => Res identityError (list ExternalIdentity)
  | UcDeleteExternal _ _ => Res identityError unit
  end.
Definition KeyAnswer (op : KeyCall) : Type :=
  match op with
  | JcList => Res unit (list SigningKey)
  | JcRotate => Res unit string
  | JcPublic => Value
  | JcDeleteRetired _ => Res unit Z
  end.

Definition Answer (q : Call) : Type :=
  match q with
  | CAdmin op => AdminAnswer op
  | CAccess op => AccessAnswer op
  | CRegistry op => RegistryAnswer op
  | CSource op => SourceAnswer op
  | CAccount op => AccountAnswer op
  | CKeys op => KeyAnswer op
  | CAuditList _ => option (Res auditError AuditLog.Page)
  | CNow => Time
  | CRandom => Entropy
  | CUserCode => Res unit string
  | COutbound _ _ _ => Res string Z
  | CLate => bool
  | CMail _ | CLdapDial _ _ | CLdapBind _ _ _ | COIDCDiscover _ _ => bool
  | CLdapSearch _ _ _ _ => option (list Entry)
  | COIDCAuthCodeURL _ _ _ _ _ => string
  | COIDCExchange _ _ _ _ => option (option string)
  | COIDCVerify _ _ _ => option IDToken
  | CSourcesList => Res sourceError (list Source)
  | CSourcesFind _ => Res sourceError Source
  | CRate _ _ _ _ => Res rateError Decision_
  | CClientsFind _ => Res clientError Client
  | CClientsList => Res clientError (list Client)
  | CUsersFind _ | CUsersReplace _ | CUsersRegister _ _ | CUsersResolve _ _ => Res identityError User
  | CResetSave _ | CVerificationSave _ => Res identityError unit
  | CResetConsume _ _ | CVerificationUse _ _ _ => Res identityError string
  | CPasswordFind _ => Res identityError (User * PasswordCredential)
  | CPasswordSet _ _ | CPasswordFailure _ _ _ | CPasswordSuccess _ => Res identityError unit
  | CSessionsFind _ => Res sessionError Session
  | CSessionsIsActive _ _ => Res sessionError bool
  | CSessionsCreate _ _ _ _ _ => Res sessionError (Session * string)
  | CSessionsRevoke _ | CSessionsRevokeForUser _ _ => Res sessionError unit
  | CSessionsList _ => Res sessionError (list Session)
  | CSessionsRevokeAll _ _ => Res sessionError Z
  | CStore op => StoreAnswer op
  | CFindAccessToken _ _ => Res oauthError AccessToken
  | CFindRefreshToken _ _ => Res oauthError RefreshToken
  | CFindConsent _ _ => Res oauthError Consent
  | CListConsents _ => Res oauthError (list Consent)
  | CFindDeviceByUserCode _ _ => Res oauthError DeviceAuthorization
  | CListOIDCClientSessions _ => Res oauthError (list OIDCClientSession)
  | CEffective _ _ _ => Res accessError Entitlements
  | CSign _ | CSignTyped _ _ => Res unit string
  | CVerify _ => Res unit Claims
  | CAudit _ => Res auditError Event
  | CCas op => CasAnswer op
  | CFindProxyGrantingTicket _ _ => Res casError ProxyGrantingTicket
  | CListServiceSessions _ => Res casError (list ServiceSession)
  | CMfaFind _ => Res mfaError Credential
  | CMfaUseTOTP _ _ | CMfaUseRecoveryCode _ _ | CMfaFailure _ _ _ | CMfaStoreDevice _ _ => Res mfaError unit
  | CMfaReplacePending _ _ | CMfaReplaceCodes _ _ | CMfaEnable _ _ _ | CMfaDelete _ => Res mfaError unit
  | CMfaDeleteDevices _ | CMfaCountDevices _ _ => Res mfaError Z
  | CMfaRotateDevice _ _ _ _ _ => Res mfaError Time
  end.

(** The operations of the grant store, with the result each returns. *)
Definition typed_step (r : OAuthStore.MemoryRepository) (op : StoreOp) : OAuthStore.MemoryRepository * StoreAnswer op :=
  match op with
  | OpSaveAuthorizationCode v => SaveAuthorizationCode r v
  | OpConsumeAuthorizationCode h c u ch now => ConsumeAuthorizationCode r h c u ch now
  | OpSaveAccessToken v => SaveAccessToken r v
  | OpRevokeAccessToken h c now => RevokeAccessToken r h c now
  | OpSaveRefreshToken v => SaveRefreshToken r v
  | OpRotateRefreshToken h v now => RotateRefreshToken r h v now
  | OpRevokeRefreshToken h c now => RevokeRefreshToken r h c now
  | OpSaveDeviceAuthorization v => SaveDeviceAuthorization r v
  | OpDecideDeviceAuthorization h u t m l a now => DecideDeviceAuthorization r h u t m l a now
  | OpPollDeviceAuthorization h c now => PollDeviceAuthorization r h c now
  | OpSaveOIDCClientSession v => SaveOIDCClientSession r v
  | OpDeleteOIDCClientSessions s => DeleteOIDCClientSessions r s
  | OpRevokeSessionTokens u s now => RevokeSessionTokens r u s now
  | OpRevokeUserTokens u e now => RevokeUserTokens r u e now
  | OpRevokeClientTokens c now => RevokeClientTokens r c now
  | OpGrantConsent u c s now => GrantConsent r u c s now
  | OpDeleteConsent u c now => DeleteConsent r u c now
  end.

Lemma typed_step_state r op : (typed_step r op).1 = (store_step r op).1.
Proof. by destruct op. Qed.

(** The operations of the CAS repository, with the result each returns. *)
Definition typed_cas_step (r : CasRepository) (op : CasOp) : CasRepository * CasAnswer op :=
  match op with
  | CoSaveServiceTicket v => SaveServiceTicket r v
  | CoConsumeServiceTicket h s p now => ConsumeServiceTicket r h s p now
  | CoSaveProxyGrantingTicket v => SaveProxyGrantingTicket r v
  | CoSaveProxyTicket v h => SaveProxyTicket r v h
  | CoConsumeProxyTicket h s p now => ConsumeProxyTicket r h s p now
  | CoDeleteServiceSessions s => DeleteServiceSessions r s
  end.

Lemma typed_cas_step_state r op : (typed_cas_step r op).1 = (cas_step r op).1.
Proof. by destruct op. Qed.

Section Handlers.
Context `{HR : MapRange, HU : UnicodeTables, HM : MailParser, HS : TokenSigner}.

Definition set_now v w : World :=
  {| w_now := v; w_random := w_random w; w_outside := w_outside w; w_clients := w_clients w; w_users := w_users w;
     w_sessions := w_sessions w; w_oauth := w_oauth w; w_access := w_access w; w_rate := w_rate w;
     w_signer := w_signer w; w_audit := w_audit w; w_cas := w_cas w; w_mfa := w_mfa w; w_sources := w_sources w;
     w_admin := w_admin w |}.
Definition set_random v w : World :=
  {| w_now := w_now w; w_random := v; w_outside := w_outside w; w_clients := w_clients w; w_users := w_users w;
     w_sessions := w_sessions w; w_oauth := w_oauth w; w_access := w_access w; w_rate := w_rate w;
     w_signer := w_signer w; w_audit := w_audit w; w_cas := w_cas w; w_mfa := w_mfa w; w_sources := w_sources w;
     w_admin := w_admin w |}.
Definition set_outside v w : World :=
  {| w_now := w_now w; w_random := w_random w; w_outside := v; w_clients := w_clients w; w_users := w_users w;
     w_sessions := w_sessions w; w_oauth := w_oauth w; w_access := w_access w; w_rate := w_rate w;
     w_signer := w_signer w; w_audit := w_audit w; w_cas := w_cas w; w_mfa := w_mfa w; w_sources := w_sources w;
     w_admin := w_admin w |}.
Definition set_users v w : World :=
  {| w_now := w_now w; w_random := w_random w; w_outside := w_outside w; w_clients := w_clients w; w_users := v;
     w_sessions := w_sessions w; w_oauth := w_oauth w; w_access := w_access w; w_rate := w_rate w;
     w_signer := w_signer w; w_audit := w_audit w; w_cas := w_cas w; w_mfa := w_mfa w; w_sources := w_sources w;
     w_admin := w_admin w |}.
Definition set_sessions v w : World :=
  {| w_now := w_now w; w_random := w_random w; w_outside := w_outside w; w_clients := w_clients w;
     w_users := w_users w; w_sessions := v; w_oauth := w_oauth w; w_access := w_access w; w_rate := w_rate w;
     w_signer := w_signer w; w_audit := w_audit w; w_cas := w_cas w; w_mfa := w_mfa w; w_sources := w_sources w;
     w_admin := w_admin w |}.
Definition set_oauth v w : World :=
  {| w_now := w_now w; w_random := w_random w; w_outside := w_outside w; w_clients := w_clients w;
     w_users := w_users w; w_sessions := w_sessions w; w_oauth := v; w_access := w_access w; w_rate := w_rate w;
     w_signer := w_signer w; w_audit := w_audit w; w_cas := w_cas w; w_mfa := w_mfa w; w_sources := w_sources w;
     w_admin := w_admin w |}.
Definition set_rate v w : World :=
  {| w_now := w_now w; w_random := w_random w; w_outside := w_outside w; w_clients := w_clients w;
     w_users := w_users w; w_sessions := w_sessions w; w_oauth := w_oauth w; w_access := w_access w; w_rate := v;
     w_signer := w_signer w; w_audit := w_audit w; w_cas := w_cas w; w_mfa := w_mfa w; w_sources := w_sources w;
     w_admin := w_admin w |}.
Definition set_signer v w : World :=
  {| w_now := w_now w; w_random := w_random w; w_outside := w_outside w; w_clients := w_clients w;
     w_users := w_users w; w_sessions := w_sessions w; w_oauth := w_oauth w; w_access := w_access w;
     w_rate := w_rate w; w_signer := v; w_audit := w_audit w; w_cas := w_cas w; w_mfa := w_mfa w;
     w_sources := w_sources w;
     w_admin := w_admin w |}.
Definition set_audit v w : World :=
  {| w_now := w_now w; w_random := w_random w; w_outside := w_outside w; w_clients := w_clients w;
     w_users := w_users w; w_sessions := w_sessions w; w_oauth := w_oauth w; w_access := w_access w;
     w_rate := w_rate w; w_signer := w_signer w; w_audit := v; w_cas := w_cas w; w_mfa := w_mfa w;
     w_sources := w_sources w;
     w_admin := w_admin w |}.
Definition set_cas v w : World :=
  {| w_now := w_now w; w_random := w_random w; w_outside := w_outside w; w_clients := w_clients w;
     w_users := w_users w; w_sessions := w_sessions w; w_oauth := w_oauth w; w_access := w_access w;
     w_rate := w_rate w; w_signer := w_signer w; w_audit := w_audit w; w_cas := v; w_mfa := w_mfa w;
     w_sources := w_sources w;
     w_admin := w_admin w |}.
Definition set_mfa v w : World :=
  {| w_now := w_now w; w_random := w_random w; w_outside := w_outside w; w_clients := w_clients w;
     w_users := w_users w; w_sessions := w_sessions w; w_oauth := w_oauth w; w_access := w_access w;
     w_rate := w_rate w; w_signer := w_signer w; w_audit := w_audit w; w_cas := w_cas w; w_mfa := v;
     w_sources := w_sources w;
     w_admin := w_admin w |}.
Definition set_sources v w : World :=
  {| w_now := w_now w; w_random := w_random w; w_outside := w_outside w; w_clients := w_clients w;
     w_users := w_users w; w_sessions := w_sessions w; w_oauth := w_oauth w; w_access := w_access w;
     w_rate := w_rate w; w_signer := w_signer w; w_audit := w_audit w; w_cas := w_cas w; w_mfa := w_mfa w;
     w_sources := v; w_admin := w_admin w |}.
Definition set_admin v w : World :=
  {| w_now := w_now w; w_random := w_random w; w_outside := w_outside w; w_clients := w_clients w;
     w_users := w_users w; w_sessions := w_sessions w; w_oauth := w_oauth w; w_access := w_access w;
     w_rate := w_rate w; w_signer := w_signer w; w_audit := w_audit w; w_cas := w_cas w; w_mfa := w_mfa w;
     w_sources := w_sources w; w_admin := v |}.
Definition set_clients v w : World :=
  {| w_now := w_now w; w_random := w_random w; w_outside := w_outside w; w_clients := v;
     w_users := w_users w; w_sessions := w_sessions w; w_oauth := w_oauth w; w_access := w_access w;
     w_rate := w_rate w; w_signer := w_signer w; w_audit := w_audit w; w_cas := w_cas w; w_mfa := w_mfa w;
     w_sources := w_sources w; w_admin := w_admin w |}.
Definition set_access v w : World :=
  {| w_now := w_now w; w_random := w_random w; w_outside := w_outside w; w_clients := w_clients w;
     w_users := w_users w; w_sessions := w_sessions w; w_oauth := w_oauth w; w_access := v;
     w_rate := w_rate w; w_signer := w_signer w; w_audit := w_audit w; w_cas := w_cas w; w_mfa := w_mfa w;
     w_sources := w_sources w; w_admin := w_admin w |}.

(** One read of random bytes; it fails when nothing more is to come. *)
Definition read_random (w : World) : World * Entropy :=
  match w_random w with [] => (w, None) | v :: rest => (set_random rest w, v) end.

(** An update of the accounts, or of the second factors. *)
Definition in_users {A} (w : World) (p : UserRepository * A) : World * A := (set_users p.1 w, p.2).
Definition in_mfa {A} (w : World) (p : MfaRepository * A) : World * A := (set_mfa p.1 w, p.2).
Definition in_sessions {A} (w : World) (p : SessionService * A) : World * A := (set_sessions p.1 w, p.2).
Definition in_outside {A} (w : World) (p : Outside * A) : World * A := (set_outside p.1 w, p.2).

Definition in_admin {A} (w : World) (p : AdminRepository * A) : World * A := (set_admin p.1 w, p.2).
Definition in_access {A} (w : World) (p : AccessRepository * A) : World * A := (set_access p.1 w, p.2).
Definition in_clients {A} (w : World) (p : ClientRepository * A) : World * A := (set_clients p.1 w, p.2).
Definition in_sources {A} (w : World) (p : SourceRepository * A) : World * A := (set_sources p.1 w, p.2).
Definition in_signer {A} (w : World) (p : signer * A) : World * A := (set_signer p.1 w, p.2).

Definition perform_admin (w : World) (op : AdminCall) : World * AdminAnswer op :=
  match op with
  | AcEffective u => (w, Administration.Effective (w_admin w) u)
  | AcUserRoles u => (w, Administration.ListUserRoles (w_admin w) u)
  | AcRoleUsers role => (w, ListRoleUsers (w_admin w) role)
  | AcReplace u l by_ now => in_admin w (Administration.ReplaceUserRoles (w_admin w) u l by_ now)
  end.
Definition perform_access (w : World) (op : AccessCall) : World * AccessAnswer op :=
  match op with
  | XcRoles c => (w, ListRoles (w_access w) c)
  | XcCreateRole v => in_access w (CreateRole (w_access w) v)
  | XcFindRole c id => (w, FindRole (w_access w) c id)
  | XcReplaceRole v => in_access w (ReplaceRole (w_access w) v)
  | XcDeleteRole c id => in_access w (DeleteRole (w_access w) c id)
  | XcPermissions c => (w, ListPermissions (w_access w) c)
  | XcCreatePermission v => in_access w (CreatePermission (w_access w) v)
  | XcFindPermission c id => (w, FindPermission (w_access w) c id)
  | XcReplacePermission v => in_access w (ReplacePermission (w_access w) v)
  | XcDeletePermission c id => in_access w (DeletePermission (w_access w) c id)
  | XcRolePermissions c id => (w, ListRolePermissions (w_access w) c id)
  | XcSetRolePermissions c id l => in_access w (SetRolePermissions (w_access w) c id l)
  | XcUserRoles u c b now => (w, Access.ListUserRoles (w_access w) u c b now)
  | XcReplaceUserRoles u l by_ now => in_access w (Access.ReplaceUserRoles (w_access w) u l by_ now)
  end.
Definition perform_registry (w : World) (op : RegistryCall) : World * RegistryAnswer op :=
  match op with
  | KcSystems => (w, ListSystems (w_clients w))
  | KcFindSystem id => (w, FindSystem (w_clients w) id)
  | KcCreateSystem v => in_clients w (CreateSystemRecord (w_clients w) v)
  | KcReplaceSystem v => in_clients w (ReplaceSystemRecord (w_clients w) v)
  | KcDeleteSystem id => in_clients w (DeleteSystem (w_clients w) id)
  | KcCreate v => in_clients w (CreateClientRecord (w_clients w) v)
  | KcReplace v => in_clients w (ReplaceClientRecord (w_clients w) v)
  | KcRotateSecret id h => in_clients w (RotateSecretRecord (w_clients w) id h)
  | KcArchive id now => in_clients w (Archive (w_clients w) id now)
  | KcDeleteArchived id => in_clients w (DeleteArchived (w_clients w) id)
  end.
Definition perform_source (w : World) (op : SourceCall) : World * SourceAnswer op :=
  match op with
  | ScCreate v => in_sources w (CreateSourceRecord (w_sources w) v)
  | ScReplace v => in_sources w (ReplaceSourceRecord (w_sources w) v)
  | ScArchive id now => in_sources w (ArchiveSourceRecord (w_sources w) id now)
  end.
Definition perform_account (w : World) (op : AccountCall) : World * AccountAnswer op :=
  match op with
  | UcList filter => (w, ListUsers (w_users w) filter)
  | UcCreate user => in_users w (CreateAccount (w_users w) user)
  | UcImport records => in_users w (CreateWithMigratedPasswords (w_users w) records)
  | UcVerified u now => in_users w (SetEmailVerified (w_users w) u now)
  | UcExternals u => (w, ListExternalIdentities (w_users w) u)
  | UcDeleteExternal u id => in_users w (DeleteExternalIdentity (w_users w) u id)
  end.
Definition perform_keys (w : World) (op : KeyCall) : World * KeyAnswer op :=
  match op with
  | JcList => (w, signer_ListKeys (w_signer w))
  | JcRotate => let r := read_random w in in_signer r.1 (signer_Rotate (w_signer w) (w_now w) r.2)
  | JcPublic => (w, signer_JWKS (w_signer w))
  | JcDeleteRetired before => in_signer w (signer_DeleteRetired (w_signer w) before)
  end.

(** A call is atomic: each repository holds its mutex for the whole operation. Of the
    bytes drawn for a user who comes from elsewhere, those it does not need are dropped. *)
Definition perform (w : World) (q : Call) : World * Answer q :=
  match q with
  | CAdmin op => perform_admin w op
  | CAccess op => perform_access w op
  | CRegistry op => perform_registry w op
  | CSource op => perform_source w op
  | CAccount op => perform_account w op
  | CKeys op => perform_keys w op
  | CAuditList filter => (w, ListEvents (w_audit w) filter)
  | CNow => (w, w_now w)
  | CRandom => read_random w
  | CUserCode => let p := randomUserCode (w_random w) in (set_random p.1 w, p.2)
  | COutbound _ _ _ => in_outside w (next_reply (w_outside w))
  | CLate => in_outside w (next_late (w_outside w))
  | CMail _ => in_outside w (next_mail (w_outside w))
  | CLdapDial url startTLS => (w, out_Dial (w_outside w) url startTLS)
  | CLdapBind url dn password => (w, out_Bind (w_outside w) url dn password)
  | CLdapSearch url base filter attributes => (w, out_Search (w_outside w) url base filter attributes)
  | COIDCDiscover kept iss => in_outside w (discover kept iss (w_outside w))
  | COIDCAuthCodeURL config back state nonce verifier => (w, out_AuthCodeURL (w_outside w) config back state nonce verifier)
  | COIDCExchange config back code verifier => (w, out_Exchange (w_outside w) config back code verifier)
  | COIDCVerify iss clientID raw => (w, out_VerifyIDToken (w_outside w) iss clientID raw)
  | CSourcesList => (w, ListSources (w_sources w))
  | CSourcesFind id => (w, FindSource (w_sources w) id)
  | CRate scope subject policy now =>
      let p := RateLimit.Allow (w_rate w) scope subject policy now in (set_rate p.1 w, p.2)
  | CClientsFind id => (w, FindClient (w_clients w) id)
  | CClientsList => (w, ListClients (w_clients w))
  | CUsersFind id => (w, FindUser (w_users w) id)
  | CUsersReplace user => in_users w (ReplaceAccount (w_users w) user)
  | CUsersRegister user hash => in_users w (CreateWithPassword (w_users w) user hash)
  | CUsersResolve profile now =>
      let r1 := read_random w in
      let r2 := read_random r1.1 in
      let r3 := read_random r2.1 in
      in_users r3.1 (ResolveExternalIdentity (w_users w) profile now r1.2 r2.2 r3.2)
  | CResetSave token => in_users w (SavePasswordReset (w_users w) token)
  | CResetConsume hash now => in_users w (ConsumePasswordReset (w_users w) hash now)
  | CVerificationSave token => in_users w (SaveEmailVerification (w_users w) token)
  | CVerificationUse hash u now => in_users w (VerifyEmail (w_users w) hash u now)
  | CPasswordFind username => (w, FindPasswordByUsername (w_users w) username)
  | CPasswordSet u hash => in_users w (SetPassword (w_users w) u hash)
  | CPasswordFailure u n t => in_users w (RecordPasswordFailure (w_users w) u n t)
  | CPasswordSuccess u => in_users w (RecordPasswordSuccess (w_users w) u)
  | CSessionsFind token => in_sessions w (FindSession (w_sessions w) token (w_now w))
  | CSessionsIsActive u id => (w, SessionIsActive (w_sessions w) u id (w_now w))
  | CSessionsCreate u ip agent methods level =>
      let r1 := read_random w in
      let r2 := read_random r1.1 in
      let p := CreateWithMethods (w_sessions w) u ip agent methods level (w_now w) r1.2 r2.2 in
      (set_sessions p.1 (if is_ok (RandomToken r1.2) then r2.1 else r1.1), p.2)
  | CSessionsRevoke id => in_sessions w (RevokeSession (w_sessions w) id (w_now w))
  | CSessionsList u => (w, ListSessionsByUser (w_sessions w) u (w_now w))
  | CSessionsRevokeForUser u id => in_sessions w (RevokeSessionForUser (w_sessions w) u id (w_now w))
  | CSessionsRevokeAll u except => in_sessions w (RevokeAllSessions (w_sessions w) u except (w_now w))
  | CStore op => let p := typed_step (w_oauth w) op in (set_oauth p.1 w, p.2)
  | CFindAccessToken h now => (w, FindAccessToken (w_oauth w) h now)
  | CFindRefreshToken h now => (w, FindRefreshToken (w_oauth w) h now)
  | CFindConsent u c => (w, FindConsent (w_oauth w) u c)
  | CListConsents u => (w, ListConsentsByUser (w_oauth w) u)
  | CFindDeviceByUserCode h now => (w, FindDeviceByUserCode (w_oauth w) h now)
  | CListOIDCClientSessions s => (w, ListOIDCClientSessions (w_oauth w) s)
  | CEffective u c now => (w, Access.Effective (w_access w) u c now)
  | CSign claims => let p := signer_Sign (w_signer w) (w_now w) claims in (set_signer p.1 w, p.2)
  | CSignTyped claims typ =>
      let p := signer_SignTyped (w_signer w) (w_now w) claims typ in (set_signer p.1 w, p.2)
  | CVerify token => let p := signer_Verify (w_signer w) (w_now w) token in (set_signer p.1 w, p.2)
  | CAudit event =>
      let r := read_random w in
      let p := Append (w_audit w) event r.2 in
      (set_audit p.1 (if decide (ev_ID event = ""%string) then r.1 else w), p.2)
  | CCas op => let p := typed_cas_step (w_cas w) op in (set_cas p.1 w, p.2)
  | CFindProxyGrantingTicket h now => (w, FindProxyGrantingTicket (w_cas w) h now)
  | CListServiceSessions s => (w, ListServiceSessions (w_cas w) s)
  | CMfaFind u => (w, Mfa.Find (w_mfa w) u)
  | CMfaUseTOTP u step => in_mfa w (UseTOTP (w_mfa w) u step)
  | CMfaUseRecoveryCode u hash => in_mfa w (UseRecoveryCode (w_mfa w) u hash)
  | CMfaFailure u n t => in_mfa w (RecordFailure (w_mfa w) u n t)
  | CMfaStoreDevice d n => in_mfa w (StoreTrustedDevice (w_mfa w) d n)
  | CMfaRotateDevice u h1 h2 a now => in_mfa w (RotateTrustedDevice (w_mfa w) u h1 h2 a now)
  | CMfaReplacePending credential codes => in_mfa w (ReplacePending (w_mfa w) credential codes)
  | CMfaReplaceCodes u codes => in_mfa w (ReplaceRecoveryCodes (w_mfa w) u codes)
  | CMfaEnable u step now => in_mfa w (EnableCredential (w_mfa w) u step now)
  | CMfaDelete u => in_mfa w (Mfa.Disable (w_mfa w) u)
  | CMfaDeleteDevices u => in_mfa w (RevokeTrustedDevices (w_mfa w) u)
  | CMfaCountDevices u now => in_mfa w (CountTrustedDevices (w_mfa w) u now)
  end.

Lemma read_random_oauth w : w_oauth (read_random w).1 = w_oauth w.
Proof. unfold read_random. by destruct (w_random w). Qed.
Lemma read_random_cas w : w_cas (read_random w).1 = w_cas w.
Proof. unfold read_random. by destruct (w_random w). Qed.

(** The calls of the administration leave grants, tickets, sessions, second factors, the
    limiter and the clock alone. *)
Record aside (w w' : World) : Prop := {
  as_oauth : w_oauth w' = w_oauth w;
  as_cas : w_cas w' = w_cas w;
  as_sessions : w_sessions w' = w_sessions w;
  as_mfa : w_mfa w' = w_mfa w;
  as_rate : w_rate w' = w_rate w;
  as_now : w_now w' = w_now w;
}.
Lemma perform_admin_aside w op : aside w (perform_admin w op).1.
Proof. by destruct op. Qed.
Lemma perform_access_aside w op : aside w (perform_access w op).1.
Proof. by destruct op. Qed.
Lemma perform_registry_aside w op : aside w (perform_registry w op).1.
Proof. by destruct op. Qed.
Lemma perform_source_aside w op : aside w (perform_source w op).1.
Proof. by destruct op. Qed.
Lemma perform_account_aside w op : aside w (perform_account w op).1.
Proof. by destruct op. Qed.
Lemma perform_keys_aside w op : aside w (perform_keys w op).1.
Proof. destruct op; try done. unfold perform_keys, in_signer, read_random. by destruct (w_random w). Qed.

Lemma perform_aside w q :
  match q with CAdmin _ | CAccess _ | CRegistry _ | CSource _ | CAccount _ | CKeys _ => aside w (perform w q).1 | _ => True end.
Proof.
  destruct q; try done;
    [apply perform_admin_aside|apply perform_access_aside|apply perform_registry_aside|apply perform_source_aside|
     apply perform_account_aside|apply perform_keys_aside].
Qed.

(** Only its own operations change the grant store; and so for the tickets. *)
Lemma perform_oauth w q :
  w_oauth (perform w q).1 = match q with CStore op => (store_step (w_oauth w) op).1 | _ => w_oauth w end.
Proof.
  pose proof (perform_aside w q) as Ha. destruct q; try (apply (as_oauth _ _ Ha)); clear Ha;
    simpl; try reflexivity; repeat case_match; simpl; rewrite ?read_random_oauth; try done.
  apply typed_step_state.
Qed.
Lemma perform_cas w q :
  w_cas (perform w q).1 = match q with CCas op => (cas_step (w_cas w) op).1 | _ => w_cas w end.
Proof.
  pose proof (perform_aside w q) as Ha. destruct q; try (apply (as_cas _ _ Ha)); clear Ha;
    simpl; try reflexivity; repeat case_match; simpl; rewrite ?read_random_cas; try done.
  apply typed_cas_step_state.
Qed.

(** ** Programs *)

Inductive Prog (A : Type) : Type :=
| Ret (a : A)
| Do (q : Call) (k : Answer q → Prog A).
Arguments Ret {A} a.
Arguments Do {A} q k.

Fixpoint bind {A B} (p : Prog A) (f : A → Prog B) : Prog B :=
  match p with
  | Ret a => f a
  | Do q k => Do q (λ x, bind (k x) f)
  end.

(** A helper that either replies or lets the handler go on. *)
Definition try {A B} (p : Prog (B + A)) (f : A → Prog B) : Prog B :=
  bind p (λ r, match r with inl b => Ret b | inr a => f a end).

(** [for _, x := range l { f(x) }]. *)
Fixpoint each {A} (l : list A) (f : A → Prog unit) : Prog unit :=
  match l with
  | [] => Ret ()
  | x :: rest => bind (f x) (λ _, each rest f)
  end.
(** The same, appending what [f] gives. *)
Fixpoint collect {A B} (l : list A) (f : A → Prog (list B)) : Prog (list B) :=
  match l with
  | [] => Ret []
  | x :: rest => bind (f x) (λ ys, bind (collect rest f) (λ zs, Ret (ys ++ zs)))
  end.

(** ** Executions *)

(** A call and its answer. *)
Definition Did : Type := {q : Call & Answer q}.
Definition did (q : Call) (a : Answer q) : Did := existT q a.

(** [runs rely p w tr w' a]: from [w], the program [p] makes the calls [tr], with [rely]
    allowed before each, and returns [a] in [w']. *)
Inductive runs {A} (rely : World → World → Prop) : Prog A → World → list Did → World → A → Prop :=
| runs_ret a w : runs rely (Ret a) w [] w a
| runs_do q k w w1 w2 x tr w3 a :
    rely w w1 → perform w1 q = (w2, x) → runs rely (k x) w2 tr w3 a → runs rely (Do q k) w (did q x :: tr) w3 a.

(** [exec env n p w]: the same when [env i] happens before the [i]-th call. *)
Fixpoint exec {A} (env : nat → World → World) (n : nat) (p : Prog A) (w : World) : World * (list Did * A) :=
  match p with
  | Ret a => (w, ([], a))
  | Do q k =>
      let r := perform (env n w) q in
      let s := exec env (S n) (k r.2) r.1 in
      (s.1, (did q r.2 :: s.2.1, s.2.2))
  end.

Lemma runs_inv {A} rely (p : Prog A) w tr w' a :
  runs rely p w tr w' a →
  match p with
  | Ret b => tr = [] ∧ w' = w ∧ a = b
  | Do q k => ∃ w1 w2 x tr', tr = did q x :: tr' ∧ rely w w1 ∧ perform w1 q = (w2, x) ∧ runs rely (k x) w2 tr' w' a
  end.
Proof. destruct 1; [done|]. by eexists _, _, _, _. Qed.

Lemma exec_runs {A} rely env n (p : Prog A) w :
  (∀ i w, rely w (env i w)) → runs rely p w (exec env n p w).2.1 (exec env n p w).1 (exec env n p w).2.2.
Proof.
  intros He. revert n w. induction p as [a|q k IH]; intros n w; simpl; [constructor|].
  econstructor; [apply He|apply surjective_pairing|apply IH].
Qed.

(** Every program terminates, whatever the interference. *)
Lemma runs_total {A} rely (p : Prog A) w : (∀ w, ∃ w', rely w w') → ∃ tr w' a, runs rely p w tr w' a.
Proof.
  intros Hr. revert w. induction p as [a|q k IH]; intros w; [by exists [], w, a; constructor|].
  destruct (Hr w) as [w1 H1]. destruct (perform w1 q) as [w2 x] eqn:E. destruct (IH x w2) as (tr & w' & a & Ha).
  exists (did q x :: tr), w', a. by econstructor.
Qed.

Lemma runs_bind {A B} rely (p : Prog A) (f : A → Prog B) w tr w' b :
  runs rely (bind p f) w tr w' b ↔
  ∃ tr1 tr2 w1 a, tr = tr1 ++ tr2 ∧ runs rely p w tr1 w1 a ∧ runs rely (f a) w1 tr2 w' b.
Proof.
  split.
  - revert w tr. induction p as [a|q k IH]; intros w tr; simpl.
    + intros Hr. exists [], tr, w, a. split; [done|]. split; [constructor|done].
    + intros (w1 & w2 & x & tr' & -> & H1 & H2 & H3)%runs_inv.
      apply IH in H3 as (tr1 & tr2 & w4 & a & -> & Ha & Hb).
      exists (did q x :: tr1), tr2, w4, a. split; [done|]. split; [by econstructor|done].
  - intros (tr1 & tr2 & w1 & a & -> & Ha & Hb). induction Ha; simpl; [done|]. econstructor; eauto.
Qed.

(** ** What a program can do whatever it is answered *)

(** [yields p tr a]: with the answers in [tr], [p] makes the calls in [tr] and returns [a]. *)
Inductive yields {A} : Prog A → list Did → A → Prop :=
| yields_ret a : yields (Ret a) [] a
| yields_do q k x tr a : yields (k x) tr a → yields (Do q k) (did q x :: tr) a.

Lemma runs_yields {A} rely (p : Prog A) w tr w' a : runs rely p w tr w' a → yields p tr a.
Proof. induction 1; by constructor. Qed.

Lemma yields_inv {A} (p : Prog A) tr a :
  yields p tr a →
  match p with
  | Ret b => tr = [] ∧ a = b
  | Do q k => ∃ x tr', tr = did q x :: tr' ∧ yields (k x) tr' a
  end.
Proof. destruct 1; naive_solver. Qed.

Lemma yields_bind {A B} (p : Prog A) (f : A → Prog B) tr b :
  yields (bind p f) tr b → ∃ tr1 tr2 a, tr = tr1 ++ tr2 ∧ yields p tr1 a ∧ yields (f a) tr2 b.
Proof.
  revert tr. induction p as [a|q k IH]; intros tr; simpl.
  - intros Hr. exists [], tr, a. split; [done|]. split; [constructor|done].
  - intros (x & tr' & -> & (tr1 & tr2 & a & -> & Ha & Hb)%IH)%yields_inv.
    exists (did q x :: tr1), tr2, a. split; [done|]. split; [by constructor|done].
Qed.

Lemma yields_try {A B} (p : Prog (B + A)) (f : A → Prog B) tr b :
  yields (try p f) tr b →
  yields p tr (inl b) ∨ ∃ tr1 tr2 a, tr = tr1 ++ tr2 ∧ yields p tr1 (inr a) ∧ yields (f a) tr2 b.
Proof.
  intros (tr1 & tr2 & [b'|a] & -> & Ha & Hb)%yields_bind; [|naive_solver].
  apply yields_inv in Hb as [-> ->]. rewrite app_nil_r. by left.
Qed.

(** Each call of a run was made in some world met during the run, and answered there. *)
Lemma runs_performed {A} rely (p : Prog A) w tr w' a q x :
  runs rely p w tr w' a → did q x ∈ tr → ∃ w1, (perform w1 q).2 = x.
Proof.
  induction 1 as [|q1 k w w1 w2 y tr w3 a Hr Hp _ IH]; [by intros ?%elem_of_nil|].
  intros [Heq|Hin]%elem_of_cons; [|auto].
  exists w1. assert (∀ d : Did, d = did q1 y → (perform w1 (projT1 d)).2 = projT2 d) as Hd by (intros d ->; simpl; by rewrite Hp).
  exact (Hd (did q x) Heq).
Qed.
End Handlers.

Arguments Ret {A} a.
Arguments Do {A} q k.

(** The result of a call of the grant store, in the common type of its results. *)
Definition store_resp (op : StoreOp) : StoreAnswer op → StoreResp :=
  match op with
  | OpConsumeAuthorizationCode _ _ _ _ _ => RespCode
  | OpRotateRefreshToken _ _ _ => RespRefresh
  | OpPollDeviceAuthorization _ _ _ => RespDevice
  | OpGrantConsent _ _ _ _ => RespConsent
  | _ => RespUnit
  end.

Lemma typed_step_resp r op : store_resp op (typed_step r op).2 = (store_step r op).2.
Proof. by destruct op. Qed.

(** Cases on a call, down to the operation of the grant store. *)
Ltac call_cases q := destruct q; try match goal with op : StoreOp |- _ => destruct op end.

(** Calls, sub-programs and checks in sequence. *)
Notation "'let*' x ':=' q 'in' k" := (Do q (λ x, k)) (at level 10, x name, q at level 100, k at level 200) : go_scope.
Notation "'let+' x ':=' p 'in' k" := (bind p (λ x, k)) (at level 10, x name, p at level 100, k at level 200) : go_scope.
Notation "'try+' x ':=' p 'in' k" := (try p (λ x, k)) (at level 10, x name, p at level 100, k at level 200) : go_scope.
