(* ===== verification/JsonBodies.v ===== *)
(** JSON in requests and replies: bodies decoded into the anonymous structs of the
    handlers, and the records of the services written as members. *)
From S2P Require Import Prelude GoStrings GoTime Mfa Session Identity OAuthStore AuditLog Http.
Local Open Scope Z_scope.
Local Open Scope string_scope.

(** ** Bodies of requests *)

Section Decoding.
Context `{UnicodeTables}.

(** The fields of a struct, by the names of their tags, with how [encoding/json] stores a
    value in each; [None] where it reports an error. *)
Abbreviation Fields T := (list (string * (Json → T → option T))) (only parsing).

(** The field of a key: the one of that name, or else one equal up to case. *)
Definition field_of {T} (fields : Fields T) (key : string) : option (Json → T → option T) :=
  match list_find (λ f, f.1 = key) fields with
  | Some (_, f) => Some f.2
  | None => (λ p, p.2.2) <$> list_find (λ f, Is_true (EqualFold f.1 key)) fields
  end.

(** [decoder.Decode] into a struct with [DisallowUnknownFields]: a key without a field is
    an error, [null] leaves the struct as it is. *)
Definition decode_struct {T} (fields : Fields T) (j : Json) (zero : T) : option T :=
  match j with
  | JNull => Some zero
  | JObject members =>
      foldl (λ acc m, acc ≫= λ t, field_of fields m.1 ≫= λ store, store m.2 t) (Some zero) members
  | _ => None
  end.

(** [internal/platform/http/admin_users.go:191-205] decodeJSON: the message of the error, or the struct. *)
Definition decodeJSON {T} (fields : Fields T) (zero : T) (rq : HttpRequest) : string + T :=
  if negb (HasPrefix (rq_ContentType rq) "application/json") then inl "Content-Type 必须是 application/json"
  else match rq_JSON rq with
  | [] => inl "请求体必须是有效的 JSON"
  | j :: rest =>
      match decode_struct fields j zero with
      | None => inl "请求体必须是有效的 JSON"
      | Some t => if decide (rest = []) then inr t else inl "请求体只能包含一个 JSON 对象"
      end
  end.

(** A struct of strings: what each field holds, nothing for the empty string. *)
Definition string_field (name : string) : string * (Json → gmap string string → option (gmap string string)) :=
  (name, λ j t, match j with JString s => Some (<[name := s]> t) | JNull => Some t | _ => None end).
Definition decode_strings (names : list string) (rq : HttpRequest) : string + gmap string string :=
  decodeJSON (string_field <$> names) ∅ rq.
Definition text_of (input : gmap string string) (name : string) : string := default "" (input !! name).

(** ** Structs of several types

    A decoded struct holds the value of each field that was given; a field that was not,
    or was [null] where its type has no nil, holds the zero value of the type. *)
Abbreviation Struct := (gmap string Json) (only parsing).

(** How a field of a type reads a value, on top of the one it holds: [None] for an error,
    [Some None] to leave the field as it is. *)
Definition Reader : Type := Json → option Json → option (option Json).
Definition field_k (name : string) (reads : Reader) : string * (Json → Struct → option Struct) :=
  (name, λ j t, v ← reads j (t !! name); Some (match v with Some v => <[name := v]> t | None => t end)).

Definition reads_text : Reader := λ j _, match j with JString _ => Some (Some j) | JNull => Some None | _ => None end.
Definition reads_flag : Reader := λ j _, match j with JBool _ => Some (Some j) | JNull => Some None | _ => None end.
Definition reads_int64 : Reader := λ j _,
  match j with
  | JNumber z => if decide (- 2 ^ 63 ≤ z < 2 ^ 63)%Z then Some (Some j) else None
  | JNull => Some None
  | _ => None
  end.
Definition reads_time : Reader := λ j _,
  match j with JString s => (λ _, Some j) <$> ParseRFC3339Nano s | JNull => Some None | _ => None end.
(** Pointers and slices: [null] makes them nil. *)
Definition reads_pointer (reads : Reader) : Reader := λ j old,
  match j with JNull => Some (Some JNull) | _ => reads j (match old with Some JNull => None | _ => old end) end.
Definition reads_slice (item : Json → option Json) : Reader := λ j _,
  match j with JNull => Some (Some JNull) | JArray l => (λ l, Some (JArray l)) <$> mapM item l | _ => None end.
Definition text_item (j : Json) : option Json :=
  match j with JString _ => Some j | JNull => Some (JString "") | _ => None end.
Definition members_of (j : option Json) : Struct := match j with Some (JObject l) => list_to_map l | _ => ∅ end.
Definition struct_item (fields : Fields Struct) (j : Json) : option Json :=
  (λ t, JObject (map_to_list t)) <$> decode_struct fields j ∅.
Definition reads_struct (fields : Fields Struct) : Reader := λ j old,
  (λ t, Some (JObject (map_to_list t))) <$> decode_struct fields j (members_of old).

Definition text (name : string) := field_k name reads_text.
Definition flag (name : string) := field_k name reads_flag.
Definition int64 (name : string) := field_k name reads_int64.
Definition texts (name : string) := field_k name (reads_slice text_item).
Definition opt_text (name : string) := field_k name (reads_pointer reads_text).
Definition opt_flag (name : string) := field_k name (reads_pointer reads_flag).
Definition opt_time (name : string) := field_k name (reads_pointer reads_time).
Definition opt_struct (name : string) (fields : Fields Struct) := field_k name (reads_pointer (reads_struct fields)).
Definition structs (name : string) (fields : Fields Struct) := field_k name (reads_slice (struct_item fields)).
Definition decode_fields (fields : Fields Struct) (rq : HttpRequest) : string + Struct := decodeJSON fields ∅ rq.
End Decoding.
Abbreviation Struct := (gmap string Json) (only parsing).

(** The value of a field. *)
Definition get_text (t : Struct) (name : string) : string := match t !! name with Some (JString s) => s | _ => "" end.
Definition get_flag (t : Struct) (name : string) : bool := match t !! name with Some (JBool b) => b | _ => false end.
Definition get_int64 (t : Struct) (name : string) : Z := match t !! name with Some (JNumber z) => z | _ => 0 end.
Definition get_texts (t : Struct) (name : string) : list string :=
  match t !! name with Some (JArray l) => omap (λ j, match j with JString s => Some s | _ => None end) l | _ => [] end.
Definition get_opt_text (t : Struct) (name : string) : option string := match t !! name with Some (JString s) => Some s | _ => None end.
Definition get_opt_flag (t : Struct) (name : string) : option bool := match t !! name with Some (JBool b) => Some b | _ => None end.
Definition get_opt_time (t : Struct) (name : string) : option Time :=
  match t !! name with Some (JString s) => ParseRFC3339Nano s | _ => None end.
Definition get_opt_struct (t : Struct) (name : string) : option Struct :=
  match t !! name with Some (JObject l) => Some (list_to_map l) | _ => None end.
Definition get_structs (t : Struct) (name : string) : list Struct :=
  match t !! name with Some (JArray l) => omap (λ j, match j with JObject l => Some (list_to_map l) | _ => None end) l | _ => [] end.

(** ** Members of replies *)

(** A struct written as a reply, and the items of a list. A nil slice, which is written
    [null], is not told from an empty one. *)
Definition writeStruct (status : Z) (members : list (string * Value)) : Reply := writeJSON status (list_to_map members).
Definition listed {A} (write : A → list (string * Value)) (l : list A) : Value := VArray ((λ x, VObject (write x)) <$> l).
Definition items {A} (write : A → list (string * Value)) (l : list A) : Reply := writeJSON 200 {["items" := listed write l]}.

Definition VTime (t : Time) : Value := VString (FormatRFC3339Nano t).
(** With [omitempty], a nil pointer or an empty string is left out. *)
Definition member_opt (name : string) (v : option Value) : list (string * Value) :=
  match v with Some v => [(name, v)] | None => [] end.
Definition member_text (name value : string) : list (string * Value) := if decide (value = "") then [] else [(name, VString value)].

(** [internal/identity/user.go:31-40] User, as JSON: an absent address is [null]. *)
Definition user_members (u : User) : list (string * Value) :=
  ([("id", VString (u_ID u)); ("username", VString (u_Username u)); ("display_name", VString (u_DisplayName u))] ++
           [("email", match u_Email u with Some a => VString a | None => VNull end);
            ("email_verified", VBool (u_EmailVerified u)); ("status", VString (u_Status u));
            ("created_at", VTime (u_CreatedAt u)); ("updated_at", VTime (u_UpdatedAt u))])%list.
Definition user_json (u : User) : Value := VObject (user_members u).

(** [internal/session/session.go:14-25] Session, as JSON members *)
Definition session_members (s : Session) : list (string * Value) :=
  ([("id", VString (s_ID s)); ("user_id", VString (s_UserID s)); ("authenticated_at", VTime (s_AuthenticatedAt s));
    ("expires_at", VTime (s_ExpiresAt s)); ("last_seen_at", VTime (s_LastSeenAt s))] ++
   member_text "ip_address" (s_IPAddress s) ++ member_text "user_agent" (s_UserAgent s) ++
   member_opt "revoked_at" (VTime <$> s_RevokedAt s) ++
   [("authentication_methods", VStrings (s_AuthMethods s)); ("assurance_level", VString (s_AssuranceLevel s))])%list.

(** [internal/mfa/mfa.go:74-81] Status, as JSON *)
Definition status_json (s : Mfa.Status) : Value :=
  VObject ([("available", VBool (st_Available s)); ("enabled", VBool (st_Enabled s)); ("pending", VBool (st_Pending s))] ++
           member_opt "verified_at" (VTime <$> st_VerifiedAt s) ++
           [("recovery_codes", VInt (st_RecoveryCodes s)); ("trusted_devices", VInt (st_TrustedDevices s))])%list.
