(* ===== verification/Server.v ===== *)
(** The server as a transition system: requests arrive at any time, each is handled by
    a thread that makes its calls one by one, and the calls of the threads interleave
    with each other and with everything else that changes the state. *)
From S2P Require Import Prelude GoStrings Cas OAuthStore OAuthStoreProps Session RateLimit Identity Client Authorize Access AuditLog Http.
Local Open Scope nat_scope.

Section Grows.
Context `{HR : MapRange, HU : UnicodeTables, HM : MailParser, HS : TokenSigner}.

(** No call shrinks the grant store. *)
Lemma perform_store_le w q : store_le (w_oauth w) (w_oauth (perform w q).1).
Proof. rewrite perform_oauth. destruct q; try reflexivity. apply store_step_le. Qed.

(** When the state moves along a preorder between the calls of a run, and the calls made
    move along it too, each call was made and answered in a world that lies between the
    run's first and last worlds. *)
Lemma runs_within {A} (R : World → World → Prop) `{!PreOrder R} (allowed : Call → Prop) rely (p : Prog A) w tr w' a :
  (∀ w1 w2, rely w1 w2 → R w1 w2) → (∀ w q, allowed q → R w (perform w q).1) → runs rely p w tr w' a →
  (∀ q x, did q x ∈ tr → allowed q) →
  R w w' ∧ ∀ q x, did q x ∈ tr → ∃ w1, R w w1 ∧ (perform w1 q).2 = x ∧ R (perform w1 q).1 w'.
Proof.
  intros Hg Hc. induction 1 as [|q k w w1 w2 y tr w3 a Hr Hp _ IH]; intros Hall; [split; [done|by intros ? ? ?%elem_of_nil]|].
  assert (allowed q) as Hq by (apply (Hall q y); left). destruct IH as [IH1 IH2]; [intros q' x' ?; apply (Hall q' x'); by right|].
  pose proof (Hc w1 q Hq) as Hle. rewrite Hp in Hle. simpl in Hle. apply Hg in Hr. split; [by do 2 (etrans; [eassumption|])|].
  intros q' x' [Heq|Hin]%elem_of_cons.
  - exists w1. split; [done|].
    enough (∀ d : Did, d = did q y → (perform w1 (projT1 d)).2 = projT2 d ∧ R (perform w1 (projT1 d)).1 w3) as Hd by exact (Hd (did q' x') Heq).
    intros d ->. simpl. by rewrite Hp.
  - destruct (IH2 q' x' Hin) as (w0 & H1 & H2 & H3). exists w0. split; [by do 2 (etrans; [eassumption|])|done].
Qed.

(** So it is for the grant store, which only grows. *)
Lemma runs_grows {A} rely (p : Prog A) w tr w' a :
  (∀ w1 w2, rely w1 w2 → store_le (w_oauth w1) (w_oauth w2)) → runs rely p w tr w' a →
  store_le (w_oauth w) (w_oauth w') ∧
  ∀ q x, did q x ∈ tr → ∃ w1, store_le (w_oauth w) (w_oauth w1) ∧ (perform w1 q).2 = x ∧
                             store_le (w_oauth (perform w1 q).1) (w_oauth w').
Proof.
  intros Hg Hr. assert (PreOrder (λ w1 w2, store_le (w_oauth w1) (w_oauth w2))) as Hpre.
  { split; [by intros ?|intros w1 w2 w3 ? ?; by etrans]. }
  apply (runs_within (λ w1 w2, store_le (w_oauth w1) (w_oauth w2)) (λ _, True) rely p w tr w' a Hg); [intros; apply perform_store_le|done|done].
Qed.
End Grows.

(** A spent service ticket stays spent. *)
Definition cas_le (r r' : CasRepository) : Prop :=
  ∀ hash service, first_spent hash service (tickets r) → first_spent hash service (tickets r').

Lemma cas_step_le r op : cas_le r (cas_step r op).1.
Proof. intros hash service. apply cas_step_keeps_spent. Qed.

Record world_le `{TokenSigner} (w w' : World) : Prop := {
  wl_store : store_le (w_oauth w) (w_oauth w');
  wl_cas : cas_le (w_cas w) (w_cas w');
}.

Lemma perform_le `{HR : MapRange, HU : UnicodeTables, HM : MailParser, HS : TokenSigner} w q : world_le w (perform w q).1.
Proof.
  split; [apply perform_store_le|]. rewrite perform_cas. destruct q; try (intros ?; done). apply cas_step_le.
Qed.

Section Server.
Context `{HR : MapRange, HU : UnicodeTables, HM : MailParser, HS : TokenSigner} {Endpoint : Type} (handler : Endpoint → HttpRequest → Prog Reply).

(** A request being handled: what was called so far, and what is left to do. *)
Record Thread := {
  th_endpoint : Endpoint;
  th_request : HttpRequest;
  th_did : list Did;
  th_left : Prog Reply;
}.

Definition start (e : Endpoint) (rq : HttpRequest) : Thread :=
  {| th_endpoint := e; th_request := rq; th_did := []; th_left := handler e rq |}.
Definition advance (th : Thread) (d : Did) (left : Prog Reply) : Thread :=
  {| th_endpoint := th_endpoint th; th_request := th_request th; th_did := th_did th ++ [d]; th_left := left |}.

(** The reply of a finished thread. *)
Definition replied (th : Thread) : option Reply := match th_left th with Ret r => Some r | Do _ _ => None end.

(** Everything else (other handlers, background jobs, time) may change the world in any
    way that the operations of the grant store and of the ticket repository allow. *)
Inductive server_step : World * list Thread → World * list Thread → Prop :=
| step_arrive w ts e rq : server_step (w, ts) (w, ts ++ [start e rq])
| step_call w ts i th q k w' x :
    ts !! i = Some th → th_left th = Do q k → perform w q = (w', x) →
    server_step (w, ts) (w', <[i := advance th (did q x) (k x)]> ts)
| step_other w ts w' : world_le w w' → server_step (w, ts) (w', ts).

(** ** Threads make the calls of their handlers *)

(** Whatever completes the thread completes its calls to an execution of its handler. *)
Definition follows (th : Thread) : Prop :=
  ∀ tr a, yields (th_left th) tr a → yields (handler (th_endpoint th) (th_request th)) (th_did th ++ tr) a.

Lemma advance_follows th q k x : th_left th = Do q k → follows th → follows (advance th (did q x) (k x)).
Proof.
  intros Hl Hf tr a Hy. simpl. rewrite <- app_assoc. apply Hf. rewrite Hl. by constructor.
Qed.

Lemma threads_follow s s' : server_step s s' → Forall follows s.2 → Forall follows s'.2.
Proof.
  destruct 1 as [w ts e rq|w ts i th q k w' x Hi Hl _|]; simpl; intros Hall; [|apply Forall_insert; [done|]|done].
  - apply Forall_app. split; [done|]. constructor; [|done]. by intros tr a.
  - eapply advance_follows; [done|]. by eapply Forall_lookup_1.
Qed.

Lemma replied_yields th r : follows th → replied th = Some r → yields (handler (th_endpoint th) (th_request th)) (th_did th) r.
Proof.
  intros Hf. unfold replied. destruct (th_left th) eqn:E; [|done]. intros [= ->].
  rewrite <- (app_nil_r (th_did th)). apply Hf. rewrite E. constructor.
Qed.

(** ** What is won once is won by one thread *)

Section Once.
Context (did_win : Did → bool) (spent : World → Prop).
Context (Hstays : ∀ w w', world_le w w' → spent w → spent w').
Context (Hwins : ∀ w q, did_win (did q (perform w q).2) = true → ¬ spent w ∧ spent (perform w q).1).

Definition won (th : Thread) : nat := sum_list_with (λ d, if did_win d then 1 else 0) (th_did th).
Definition all_won (ts : list Thread) : nat := sum_list_with won ts.

(** At most one win so far, and none while the resource is unspent. *)
Definition won_once (s : World * list Thread) : Prop :=
  all_won s.2 = 0 ∨ (all_won s.2 = 1 ∧ spent s.1).

Lemma sum_insert {A} (f : A → nat) l i x y :
  l !! i = Some x → sum_list_with f (<[i := y]> l) + f x = sum_list_with f l + f y.
Proof.
  revert i. induction l as [|z l IH]; intros [|i]; simpl; [done..|intros [= ->]; lia|].
  intros Hi. specialize (IH i Hi). lia.
Qed.

Lemma won_advance th d left : won (advance th d left) = won th + (if did_win d then 1 else 0).
Proof. unfold won. simpl. rewrite sum_list_with_app. simpl. lia. Qed.

Lemma step_won s s' : server_step s s' → won_once s → won_once s'.
Proof.
  destruct 1 as [w ts e rq|w ts i th q k w' x Hi Hl Hp|w ts w' Hle]; unfold won_once, all_won; simpl.
  - by rewrite sum_list_with_app, Nat.add_0_r.
  - pose proof (sum_insert won ts i th (advance th (did q x) (k x)) Hi) as Hsum. rewrite won_advance in Hsum.
    pose proof (perform_le w q) as Hle. pose proof (Hwins w q) as Hwin. rewrite Hp in Hle, Hwin. simpl in Hle, Hwin.
    destruct (did_win (did q x)) eqn:E.
    + destruct (Hwin eq_refl) as [Hno Hs]. intros [H1|[_ H1]]; [|done]. right. split; [lia|done].
    + intros [H1|[H1 H2]]; [left; lia|]. right. split; [lia|]. by eapply Hstays.
  - intros [H1|[H1 H2]]; [by left|]. right. split; [done|]. by eapply Hstays.
Qed.

Lemma all_won_once w s : rtc server_step (w, []) s → all_won s.2 ≤ 1.
Proof.
  intros Hr. assert (won_once s) as [H1|[H1 _]]; [|lia..].
  enough (∀ s0, rtc server_step s0 s → won_once s0 → won_once s) as Hall by (apply (Hall _ Hr); by left).
  intros s0. induction 1; eauto using step_won.
Qed.

Lemma filter_won (P : Thread → bool) ts :
  (∀ th, th ∈ ts → P th = true → ∃ d, d ∈ th_did th ∧ did_win d = true) → length (List.filter P ts) ≤ all_won ts.
Proof.
  unfold all_won. induction ts as [|th ts IH]; intros HP; simpl; [done|].
  assert (length (List.filter P ts) ≤ sum_list_with won ts) as Hle by (apply IH; intros; apply HP; [by right|done]).
  destruct (P th) eqn:E; simpl; [|lia]. destruct (HP th) as (d & Hd & Hw); [by left|done|].
  enough (1 ≤ won th) by lia. unfold won. apply list_elem_of_split in Hd as (l1 & l2 & ->).
  rewrite sum_list_with_app. simpl. rewrite Hw. lia.
Qed.
End Once.

Lemma reachable_follow w s : rtc server_step (w, []) s → Forall follows s.2.
Proof.
  intros Hr. enough (∀ s0, rtc server_step s0 s → Forall follows s0.2 → Forall follows s.2) as Hall by (apply (Hall _ Hr); constructor).
  intros s0. induction 1; eauto using threads_follow.
Qed.

(** If every finished thread that [P] accepts made a winning call, at most one thread is
    accepted. *)
Lemma accepted_once did_win spent (P : Thread → bool) w s :
  (∀ w w', world_le w w' → spent w → spent w') →
  (∀ w q, did_win (did q (perform w q).2) = true → ¬ spent w ∧ spent (perform w q).1) →
  rtc server_step (w, []) s →
  (∀ th, follows th → P th = true → ∃ d, d ∈ th_did th ∧ did_win d = true) →
  length (List.filter P s.2) ≤ 1.
Proof.
  intros Hstays Hwins Hr HP. etrans; [|by eapply (all_won_once did_win spent)]. apply filter_won.
  intros th Hth. apply HP. eapply Forall_forall; [by eapply reachable_follow|done].
Qed.

(** The resources of the grant store. *)
Definition store_win (win : StoreOp → StoreResp → bool) (d : Did) : bool :=
  match d with existT (CStore op) a => win op (store_resp op a) | _ => false end.

Lemma store_wins win spent w q :
  spends win spent → store_win win (did q (perform w q).2) = true → ¬ spent (w_oauth w) ∧ spent (w_oauth (perform w q).1).
Proof.
  intros [_ Hlose Hwin] Hw. destruct q; try discriminate. simpl in Hw. rewrite typed_step_resp in Hw.
  rewrite perform_oauth. split; [|by apply Hwin]. intros Hs. apply (Hlose _ op) in Hs. congruence.
Qed.

Lemma accepted_once_store win spent (P : Thread → bool) w s :
  spends win spent → rtc server_step (w, []) s →
  (∀ th, follows th → P th = true → ∃ d, d ∈ th_did th ∧ store_win win d = true) →
  length (List.filter P s.2) ≤ 1.
Proof.
  intros Hs Hr HP. eapply (accepted_once (store_win win) (λ w, spent (w_oauth w))); [| |exact Hr|exact HP].
  - intros w1 w2 [Hle _]. by apply (spends_le _ _ Hs).
  - intros w1 q. by apply store_wins.
Qed.

(** A service ticket: what consumes it. *)
Definition ticket_win (hash service : string) (d : Did) : bool :=
  match d with
  | existT (CCas (CoConsumeServiceTicket h s _ _)) a => bool_decide (h = hash ∧ s = service) && is_ok a
  | _ => false
  end.

Lemma ticket_wins hash service w q :
  ticket_win hash service (did q (perform w q).2) = true →
  ¬ first_spent hash service (tickets (w_cas w)) ∧ first_spent hash service (tickets (w_cas (perform w q).1)).
Proof.
  intros Hw. destruct q as []; try discriminate. destruct op; try discriminate. simpl in Hw |- *.
  apply andb_true_iff in Hw as [[-> ->]%bool_decide_eq_true Hok].
  destruct (ConsumeServiceTicket _ _ _ _ _).2 as [t|] eqn:Hc; [|done]. by apply service_ticket_spent in Hc.
Qed.

(** ** Running a schedule *)

(** The next call of a thread, and the calls of the threads of a schedule in turn. *)
Definition step_thread (i : nat) (s : World * list Thread) : World * list Thread :=
  match s.2 !! i with
  | Some th =>
      match th_left th with
      | Do q k => let r := perform s.1 q in (r.1, <[i := advance th (did q r.2) (k r.2)]> s.2)
      | Ret _ => s
      end
  | None => s
  end.
Definition drive (schedule : list nat) (s : World * list Thread) : World * list Thread :=
  foldl (λ s i, step_thread i s) s schedule.
Definition arrive (requests : list (Endpoint * HttpRequest)) (w : World) : World * list Thread :=
  (w, (λ r, start r.1 r.2) <$> requests).

Lemma arrive_steps requests w : rtc server_step (w, []) (arrive requests w).
Proof.
  enough (∀ ts, rtc server_step (w, ts) (w, ts ++ ((λ r, start r.1 r.2) <$> requests))) as Hall by apply (Hall []).
  induction requests as [|[e rq] requests IH]; intros ts; simpl; [by rewrite app_nil_r|].
  eapply rtc_l; [apply (step_arrive _ _ e rq)|]. specialize (IH (ts ++ [start e rq])). by rewrite <- app_assoc in IH.
Qed.

Lemma drive_steps schedule s : rtc server_step s (drive schedule s).
Proof.
  unfold drive. revert s. induction schedule as [|i schedule IH]; intros s; simpl; [done|].
  etrans; [|apply IH]. unfold step_thread. destruct s as [w ts]. simpl. destruct (ts !! i) as [th|] eqn:Hi; [|done].
  destruct (th_left th) as [|q k] eqn:Hl; [done|]. apply rtc_once. eapply step_call; [done..|apply surjective_pairing].
Qed.
End Server.
