(* ===== verification/HttpWp.v ===== *)
(** Reasoning about handlers: a weakest precondition that remembers the calls made so
    far, so that a property of the calls ("no token is saved before these checks") and
    of the reply is proved by running the handler once on unknown answers. *)
From S2P Require Import Prelude GoStrings OAuthStore Session RateLimit Identity Client Authorize Access AuditLog Http.

Section Wp.
Context `{HS : TokenSigner}.

(** [wp φ past p post]: after the calls [past], every call [q] that [p] makes satisfies
    [φ] of the calls before it, and every result satisfies [post] of all the calls. *)
Fixpoint wp {A} (φ : list Did → Call → Prop) (past : list Did) (p : Prog A) (post : list Did → A → Prop) : Prop :=
  match p with
  | Ret a => post past a
  | Do q k => φ past q ∧ ∀ x, wp φ (past ++ [did q x]) (k x) post
  end.

Lemma wp_ret {A} φ past (a : A) (post : list Did → A → Prop) : post past a → wp φ past (Ret a) post.
Proof. done. Qed.

Lemma wp_do {A} φ past q (k : Answer q → Prog A) post :
  φ past q → (∀ x, wp φ (past ++ [did q x]) (k x) post) → wp φ past (Do q k) post.
Proof. by split. Qed.

Lemma wp_bind {A B} φ past (p : Prog A) (f : A → Prog B) post :
  wp φ past p (λ past' a, wp φ past' (f a) post) → wp φ past (bind p f) post.
Proof. revert past. induction p as [a|q k IH]; intros past; simpl; [done|]. intros [Hq Hk]. split; [done|auto]. Qed.

Lemma wp_mono {A} (φ ψ : list Did → Call → Prop) past (p : Prog A) (post post' : list Did → A → Prop) :
  (∀ past q, φ past q → ψ past q) → (∀ past a, post past a → post' past a) → wp φ past p post → wp ψ past p post'.
Proof. intros Hφ Hpost. revert past. induction p as [a|q k IH]; intros past; simpl; [auto|]. intros [Hq Hk]. split; auto. Qed.

Lemma wp_try {A B} φ past (p : Prog (B + A)) (f : A → Prog B) post :
  wp φ past p (λ past' r, match r with inl b => post past' b | inr a => wp φ past' (f a) post end) →
  wp φ past (try p f) post.
Proof. intros Hp. apply wp_bind. eapply wp_mono; [done| |done]. by intros past' []. Qed.

(** Only calls made since [past] are to be considered. *)
Lemma wp_frame {A} φ past (p : Prog A) (post : list Did → A → Prop) :
  wp φ past p (λ past' a, past `prefix_of` past' → post past' a) → wp φ past p post.
Proof.
  enough (∀ past0, past0 `prefix_of` past → wp φ past p (λ past' a, past0 `prefix_of` past' → post past' a) → wp φ past p post) by eauto.
  intros past0. revert past. induction p as [a|q k IH]; intros past Hpre; simpl; [auto|].
  intros [Hq Hk]. split; [done|]. intros x. apply IH; [by apply prefix_app_r|done].
Qed.

(** The calls to justify follow [past]. *)
Lemma wp_from {A} φ past (p : Prog A) (post : list Did → A → Prop) :
  wp (λ past' q, past `prefix_of` past' → φ past' q) past p post → wp φ past p post.
Proof.
  enough (∀ past0, past0 `prefix_of` past → wp (λ past' q, past0 `prefix_of` past' → φ past' q) past p post → wp φ past p post) by eauto.
  intros past0. revert past. induction p as [a|q k IH]; intros past Hpre; simpl; [auto|].
  intros [Hq Hk]. split; [auto|]. intros x. apply IH; [by apply prefix_app_r|done].
Qed.

(** A program known to make only calls that satisfy [P]. *)
Lemma wp_only {A} (P : Call → Prop) φ past (p : Prog A) (post : list Did → A → Prop) :
  wp (λ _ q, P q) past p (λ _ _, True) →
  wp φ past p (λ past' a, (∃ l, past' = past ++ l ∧ Forall (λ d, P (projT1 d)) l) → post past' a) →
  wp φ past p post.
Proof.
  enough (∀ past0 l0, past = past0 ++ l0 → Forall (λ d, P (projT1 d)) l0 → wp (λ _ q, P q) past p (λ _ _, True) →
    wp φ past p (λ past' a, (∃ l, past' = past0 ++ l ∧ Forall (λ d, P (projT1 d)) l) → post past' a) → wp φ past p post) as Hall.
  { apply (Hall past []); [by rewrite app_nil_r|constructor]. }
  intros past0 l0. revert past l0. induction p as [a|q k IH]; intros past l0 Hpast Hl0; simpl; [eauto|].
  intros [Hq Hk] [Hq' Hk']. split; [done|]. intros x. eapply (IH x _ (l0 ++ [did q x])); [|by apply Forall_app_2; [|constructor]|done..].
  by rewrite Hpast, <- app_assoc.
Qed.

Lemma wp_yields {A} φ past (p : Prog A) post tr a :
  wp φ past p post → yields p tr a →
  post (past ++ tr) a ∧ ∀ before q x after, tr = before ++ did q x :: after → φ (past ++ before) q.
Proof.
  intros Hwp Hy. revert past Hwp. induction Hy as [a|q k x tr a Hy IH]; intros past Hwp; simpl in Hwp.
  - rewrite app_nil_r. split; [done|]. by intros [] ? ? ? ?.
  - destruct Hwp as [Hq Hk]. destruct (IH _ (Hk x)) as [Hpost Hcalls]. rewrite <- app_assoc in Hpost. split; [done|].
    intros [|d before] q' x' after Htr.
    + rewrite app_nil_r. apply (f_equal (λ l, @projT1 _ _ <$> head l)) in Htr. simpl in Htr. by simplify_eq.
    + injection Htr as <- Htr. specialize (Hcalls _ _ _ _ Htr). by rewrite <- app_assoc in Hcalls.
Qed.

(** Loops: what holds after each turn and is kept by later calls holds after the loop. *)
Lemma wp_each {A} φ past (l : list A) (f : A → Prog unit) (Q : A → list Did → Prop) (post : list Did → unit → Prop) :
  (∀ x past past', past `prefix_of` past' → Q x past → Q x past') →
  (∀ x past', x ∈ l → past `prefix_of` past' → wp φ past' (f x) (λ past'' _, Q x past'')) →
  (∀ past', past `prefix_of` past' → (∀ x, x ∈ l → Q x past') → post past' ()) →
  wp φ past (each l f) post.
Proof.
  intros HQ. revert past post. induction l as [|x l IH]; intros past post Hf Hpost; simpl.
  - apply Hpost; [done|]. by intros x ?%elem_of_nil.
  - apply wp_bind, wp_frame. eapply wp_mono; [done| |apply Hf; [by left|done]].
    intros past1 [] Hx Hp1. apply IH.
    + intros y past' Hy Hp. apply Hf; [by right|by etrans].
    + intros past' Hp Hall. apply Hpost; [by etrans|]. intros y [->|Hy]%elem_of_cons; [by eapply HQ|by apply Hall].
Qed.

Lemma wp_collect {A B} φ past (l : list A) (f : A → Prog (list B)) (Q : A → list B → list Did → Prop) (post : list Did → list B → Prop) :
  (∀ x ys past past', past `prefix_of` past' → Q x ys past → Q x ys past') →
  (∀ x past', x ∈ l → past `prefix_of` past' → wp φ past' (f x) (λ past'' ys, Q x ys past'')) →
  (∀ past' parts, past `prefix_of` past' → Forall2 (λ x ys, Q x ys past') l parts → post past' (concat parts)) →
  wp φ past (collect l f) post.
Proof.
  intros HQ. revert past post. induction l as [|x l IH]; intros past post Hf Hpost; simpl.
  - apply (Hpost past []); [done|constructor].
  - apply wp_bind, wp_frame. eapply wp_mono; [done| |apply Hf; [by left|done]].
    intros past1 ys Hx Hp1. apply wp_bind, IH.
    + intros y past' Hy Hp. apply Hf; [by right|by etrans].
    + intros past' parts Hp Hall. apply (Hpost past' (ys :: parts)); [by etrans|]. constructor; [by eapply HQ|done].
Qed.

(** For whole executions. *)
Lemma wp_runs `{HR : MapRange, HU : UnicodeTables, HM : MailParser} {A} φ (p : Prog A) post rely w tr w' a :
  wp φ [] p post → runs rely p w tr w' a →
  post tr a ∧ ∀ before q x after, tr = before ++ did q x :: after → φ before q.
Proof. intros Hwp Hr%runs_yields. exact (wp_yields _ [] _ _ _ _ Hwp Hr). Qed.

(** Membership in the calls made so far. *)
Lemma did_last past q x : did q x ∈ past ++ [did q x].
Proof. apply elem_of_app. right. by left. Qed.
Lemma did_before (d d' : Did) past : d ∈ past → d ∈ past ++ [d'].
Proof. intros. apply elem_of_app. by left. Qed.
Lemma did_prefix (d : Did) past past' : past `prefix_of` past' → d ∈ past → d ∈ past'.
Proof. intros [l ->] ?. apply elem_of_app. by left. Qed.
End Wp.

#[export] Hint Resolve did_last did_before : did.
#[export] Hint Extern 2 (_ ∈ _) => (eapply did_prefix; [eassumption|]) : did.


(** The calls made at one point are among those made later. *)
Ltac pre :=
  match goal with
  | |- ?l `prefix_of` ?l => reflexivity
  | |- _ `prefix_of` _ ++ _ => apply prefix_app_r; pre
  | Hp : ?m `prefix_of` ?l |- _ `prefix_of` ?l => transitivity m; [pre|exact Hp]
  end.

(** One step of the symbolic execution of a handler. *)
Ltac wp_step :=
  match goal with
  | |- wp _ _ (Ret _) _ => apply wp_ret
  | |- wp _ _ (Do _ _) _ => apply wp_do; [try exact I|intros ?]
  | |- wp _ _ (bind _ _) _ => apply wp_bind
  | |- wp _ _ (try _ _) _ => apply wp_try
  | |- wp _ _ (if decide ?P then _ else _) _ => destruct (decide P)
  | |- wp _ _ (match ?x with _ => _ end) _ => destruct x eqn:?
  | |- wp _ _ _ _ => progress cbv beta zeta
  end.
Ltac wp_steps := repeat wp_step.
