(* ===== verification/Services.v ===== *)
(** The services of passwords, second factors and registration as the handlers run them:
    a method of a service makes several calls of a repository, between which other
    requests run. Alone, each is the atomic function of [Passwords] or [Mfa] that
    models the same method; [ServicesProps] shows it. *)
From S2P Require Import Prelude GoStrings GoCrypto GoUrl ReturnTo Secrets Mfa Session RateLimit OAuthStore Client Federation Identity Passwords Authorize Access AuditLog Http.
Local Open Scope Z_scope.
Local Open Scope go_scope.

(** ** Passwords *)

Section PasswordService.
Context `{Argon2, UnicodeTables, MailParser}.

(** [internal/identity/password.go:150-161] Authenticate, a wrong password *)
Definition wrong_password (credential : PasswordCredential) (now : Time) : Prog (Res identityError User) :=
  let attempts := wrap64 (pc_FailedAttempts credential + 1) in
  let lockedUntil := if decide (5 ≤ attempts) then now + 15 * Minute else time_zero in
  let* _ := CPasswordFailure (pc_UserID credential) attempts lockedUntil in
  Ret (Err (if negb (IsZero lockedUntil) then ErrCredentialLocked else ErrInvalidCredentials)).

(** [internal/identity/password.go:162-175] Authenticate, the right password *)
Definition right_password (user : User) (credential : PasswordCredential) (password : string) (upgrade : bool)
    : Prog (Res identityError User) :=
  if upgrade then
    let* rnd := CRandom in
    match hashPassword password rnd with
    | Err e => Ret (Err e)
    | Ok hash =>
        let* stored := CPasswordSet (pc_UserID credential) hash in
        Ret (match stored with Err e => Err e | Ok _ => Ok user end)
    end
  else
    let* recorded := CPasswordSuccess (pc_UserID credential) in
    Ret (match recorded with Err e => Err e | Ok _ => Ok user end).

(** [internal/identity/password.go:129-176] PasswordService.Authenticate *)
Definition passwords_Authenticate (username password : string) : Prog (Res identityError User) :=
  let* now := CNow in
  let* found := CPasswordFind (ToLower (TrimSpace username)) in
  match found with
  | Err _ => Ret (Err ErrInvalidCredentials)
  | Ok (user, credential) =>
      if decide (u_Status user ≠ UserActive) then Ret (Err ErrInvalidCredentials)
      else if match pc_LockedUntil credential with Some t => After t now | None => false end
      then Ret (Err ErrCredentialLocked)
      else match verifyStoredPassword (pc_Hash credential) password now with
      | Err e => Ret (Err e)
      | Ok (ok, upgrade) => if negb ok then wrong_password credential now else right_password user credential password upgrade
      end
  end.

(** The bytes of the salt are drawn for a password of a fitting length. *)
Definition hash_password (password : string) : Prog (Res identityError string) :=
  if decide (len password < 12 ∨ len password > 1024) then Ret (Err ErrPasswordLength)
  else let* rnd := CRandom in Ret (hashPassword password rnd).

(** [internal/identity/password.go:72-78] PasswordService.Set *)
Definition passwords_Set (userID password : string) : Prog (Res identityError unit) :=
  let+ hash := hash_password password in
  match hash with
  | Err e => Ret (Err e)
  | Ok hash => let* stored := CPasswordSet userID hash in Ret stored
  end.

(** [internal/identity/password.go:80-86] PasswordService.Change *)
Definition passwords_Change (userID username currentPassword newPassword : string) : Prog (Res identityError unit) :=
  let+ authenticated := passwords_Authenticate username currentPassword in
  match authenticated with
  | Err _ => Ret (Err ErrInvalidCredentials)
  | Ok user => if decide (u_ID user ≠ userID) then Ret (Err ErrInvalidCredentials) else passwords_Set userID newPassword
  end.

(** [internal/identity/password.go:88-109] PasswordService.IssueReset *)
Definition passwords_IssueReset (userID : string) (lifetime : Duration) : Prog (Res identityError string) :=
  let* rnd := CRandom in
  match RandomToken rnd with
  | Err _ => Ret (Err IdentityRandomFailure)
  | Ok raw =>
      let* now := CNow in
      let* saved := CResetSave {| pr_UserID := userID; pr_Hash := HashToken raw; pr_CreatedAt := now;
                                  pr_ExpiresAt := now + token_lifetime lifetime |} in
      Ret (match saved with Err e => Err e | Ok _ => Ok raw end)
  end.

(** [internal/identity/password.go:111-127] PasswordService.Reset *)
Definition passwords_Reset (token newPassword : string) : Prog (Res identityError string) :=
  if decide (TrimSpace token = ""%string) then Ret (Err ErrInvalidResetToken)
  else
    let+ hash := hash_password newPassword in
    match hash with
    | Err e => Ret (Err e)
    | Ok hash =>
        let* now := CNow in
        let* consumed := CResetConsume (HashToken token) now in
        match consumed with
        | Err _ => Ret (Err ErrInvalidResetToken)
        | Ok userID =>
            let* stored := CPasswordSet userID hash in
            Ret (match stored with Err e => Err e | Ok _ => Ok userID end)
        end
    end.

(** ** Registration and verification of addresses *)

(** [internal/identity/registration.go:28-44] RegistrationService.Register *)
Definition registration_Register (input : RegisterUser) : Prog (Res identityError User) :=
  let* now := CNow in
  let* rnd := CRandom in
  match NewUser {| cu_Username := rg_Username input; cu_DisplayName := rg_DisplayName input;
                   cu_Email := rg_Email input; cu_Status := UserActive |} now rnd with
  | Err e => Ret (Err e)
  | Ok user =>
      let+ hash := hash_password (rg_Password input) in
      match hash with
      | Err e => Ret (Err e)
      | Ok hash => let* created := CUsersRegister user hash in Ret created
      end
  end.

(** [internal/identity/email_verification.go:46-78] EmailVerificationService.Issue *)
Definition verification_Issue (userID : string) (lifetime : Duration) : Prog (Res identityError string) :=
  let* found := CUsersFind userID in
  match found with
  | Err e => Ret (Err e)
  | Ok user =>
      match u_Email user with
      | None => Ret (Err ErrEmailNotConfigured)
      | Some email =>
          if u_EmailVerified user then Ret (Err ErrEmailAlreadyVerified)
          else
            let* rnd := CRandom in
            match RandomToken rnd with
            | Err _ => Ret (Err IdentityRandomFailure)
            | Ok raw =>
                let* now := CNow in
                let* saved := CVerificationSave {| ev_UserID := userID; ev_Email := email; ev_Hash := HashToken raw;
                                                   ev_CreatedAt := now; ev_ExpiresAt := now + token_lifetime lifetime |} in
                Ret (match saved with Err e => Err e | Ok _ => Ok raw end)
            end
      end
  end.

(** [internal/identity/email_verification.go:86-97] EmailVerificationService.Verify *)
Definition verification_Verify (token expectedUserID : string) : Prog (Res identityError string) :=
  if decide (TrimSpace token = ""%string) then Ret (Err ErrInvalidVerificationToken)
  else
    let* now := CNow in
    let* verified := CVerificationUse (HashToken token) expectedUserID now in
    Ret (match verified with Err _ => Err ErrInvalidVerificationToken | Ok userID => Ok userID end).

(** ** Imported accounts *)

(** [internal/identity/password_migration.go:94-131] PasswordMigrationService.Import, the loop: each account in
    turn, with the random bytes of its identifier. *)
Fixpoint migration_records (algorithm : string) (now expiresAt : Time) (usernames emails : gset string)
    (items : list PasswordMigrationUser) : Prog (Res identityError (list PasswordMigrationRecord)) :=
  match items with
  | [] => Ret (Ok [])
  | item :: rest =>
      let* rnd := CRandom in
      match import_records algorithm now expiresAt usernames emails [item] (λ _, rnd) with
      | Err e => Ret (Err e)
      | Ok made =>
          let users := pm_User <$> made in
          let+ others := migration_records algorithm now expiresAt (list_to_set (u_Username <$> users) ∪ usernames)
                           (list_to_set (omap u_Email users) ∪ emails) rest in
          Ret (match others with Err e => Err e | Ok others => Ok (made ++ others) end)
      end
  end.

(** [internal/identity/password_migration.go:64-141] PasswordMigrationService.Import *)
Definition migration_Import (input : ImportPasswordUsers) : Prog (Res identityError PasswordMigrationResult) :=
  let count := Z.of_nat (length (im_Users input)) in
  if decide (im_Algorithm input ≠ PasswordMigrationSpecusSHA256) then Ret (Err ErrInvalid)
  else if decide (count = 0 ∨ count > maxPasswordMigrationUsers) then Ret (Err ErrInvalid)
  else
    let* now := CNow in
    let expiresAt := default (now + defaultPasswordMigrationLifetime) (im_ExpiresAt input) in
    if negb (After expiresAt now) || After expiresAt (now + maxPasswordMigrationLifetime) then Ret (Err ErrInvalid)
    else
      let+ records := migration_records (im_Algorithm input) now expiresAt ∅ ∅ (im_Users input) in
      match records with
      | Err e => Ret (Err e)
      | Ok records =>
          let* created := CAccount (UcImport records) in
          Ret (match created with
               | Err e => Err e
               | Ok created => Ok {| mg_Items := created; mg_Count := Z.of_nat (length created); mg_ExpiresAt := expiresAt |}
               end)
      end.
End PasswordService.

(** ** Identity sources *)

Section SourceService.
Context `{MapRange, UnicodeTables, HostParser, URLParser} (ring : KeyRing).

(** [internal/federation/source.go:270-276] SourceService.Create, the secret; [Replace] does the same: bytes are
    drawn when there is a secret and a key. *)
Definition sources_seal (made : Source * string) : Prog (Res sourceError Source) :=
  if nonempty made.2 && Available ring
  then let* rnd := CRandom in Ret (seal_source ring made.1 made.2 rnd)
  else Ret (seal_source ring made.1 made.2 None).

(** [internal/federation/source.go:264-278] SourceService.Create *)
Definition sources_Create (input : CreateSourceInput) : Prog (Res sourceError Source) :=
  let* now := CNow in
  match newSource input now with
  | Err e => Ret (Err e)
  | Ok made =>
      let+ sealed := sources_seal made in
      match sealed with
      | Err e => Ret (Err e)
      | Ok source => let* created := CSource (ScCreate source) in Ret created
      end
  end.

(** [internal/federation/source.go:280-297] SourceService.Replace *)
Definition sources_Replace (id : string) (input : ReplaceSourceInput) : Prog (Res sourceError Source) :=
  let* found := CSourcesFind id in
  match found with
  | Err e => Ret (Err e)
  | Ok current =>
      let* now := CNow in
      match replaceSource current input now with
      | Err e => Ret (Err e)
      | Ok made =>
          let+ sealed := sources_seal made in
          match sealed with
          | Err e => Ret (Err e)
          | Ok source => let* replaced := CSource (ScReplace source) in Ret replaced
          end
      end
  end.

(** [internal/federation/source.go:299-301] SourceService.Archive *)
Definition sources_Archive (id : string) : Prog (Res sourceError unit) :=
  let* now := CNow in
  let* archived := CSource (ScArchive (TrimSpace id) now) in
  Ret archived.
End SourceService.

(** ** Second factors *)

Section MfaService.
Context `{UnicodeTables} (s : MfaConfig).

(** [internal/mfa/mfa.go:277-290] Verify, recording a failure *)
Definition mfa_fail (userID : string) (credential : Mfa.Credential) (now : Time) : Prog (Res mfaError unit) :=
  let attempts := wrap64 (cr_FailedAttempts credential + 1) in
  let lockedUntil := lock_after attempts now in
  let* recorded := CMfaFailure userID attempts lockedUntil in
  Ret (match recorded with
       | Err e => Err e
       | Ok _ => Err (if decide (lockedUntil = None) then ErrInvalidCode else ErrLocked)
       end).

(** [internal/mfa/mfa.go:243-291] Service.Verify *)
Definition mfa_Verify (userID code : string) : Prog (Res mfaError unit) :=
  let* found := CMfaFind userID in
  match found with
  | Err _ => Ret (Err ErrInvalidCode)
  | Ok credential =>
      if negb (cr_Enabled credential) then Ret (Err ErrInvalidCode)
      else
        let* now := CNow in
        if locked_at credential now then Ret (Err ErrLocked)
        else
          let normalized := normalizeCode code in
          if totpCodePattern normalized then
            let* nowMatch := CNow in
            match matchTOTP s credential normalized nowMatch with
            | Ok step => let* used := CMfaUseTOTP userID step in Ret used
            | Err ErrReplay => Ret (Err ErrReplay)
            | Err _ => mfa_fail userID credential now
            end
          else if decide (20 ≤ len normalized) then
            let* used := CMfaUseRecoveryCode userID (hashRecoveryCode normalized) in
            match used with
            | Ok _ => Ret (Ok ())
            | Err ErrInvalidCode => mfa_fail userID credential now
            | Err e => Ret (Err e)
            end
          else mfa_fail userID credential now
  end.

(** [internal/mfa/mfa.go:166-181] Service.RequiresChallenge *)
Definition mfa_RequiresChallenge (userID : string) : Prog (Res mfaError bool) :=
  let* found := CMfaFind userID in
  Ret (match found with
       | Err MfaNotFound => Ok false
       | Err e => Err e
       | Ok credential =>
           if negb (cr_Enabled credential) then Ok false
           else if negb (available s) then Err MfaUnavailable else Ok true
       end).

(** [internal/mfa/mfa.go:141-164] Service.Status *)
Definition mfa_Status (userID : string) : Prog (Res mfaError Status) :=
  let* found := CMfaFind userID in
  match found with
  | Err MfaNotFound => Ret (Ok {| st_Available := available s; st_Enabled := false; st_Pending := false;
                                  st_VerifiedAt := None; st_RecoveryCodes := 0; st_TrustedDevices := 0 |})
  | Err e => Ret (Err e)
  | Ok credential =>
      let status n := {| st_Available := available s; st_Enabled := cr_Enabled credential;
                         st_Pending := negb (cr_Enabled credential); st_VerifiedAt := cr_VerifiedAt credential;
                         st_RecoveryCodes := cr_RecoveryCodes credential; st_TrustedDevices := n |} in
      if cr_Enabled credential then
        let* now := CNow in
        let* counted := CMfaCountDevices userID now in
        Ret (match counted with Err e => Err e | Ok n => Ok (status n) end)
      else Ret (Ok (status 0))
  end.

(** [internal/mfa/mfa.go:523-535] newRecoveryCodes: [n] codes, one read each. *)
Fixpoint draw_codes (n : nat) : Prog (Res mfaError (list string * list string)) :=
  match n with
  | O => Ret (Ok ([], []))
  | S n =>
      let* rnd := CRandom in
      match newRecoveryCode rnd with
      | Err e => Ret (Err e)
      | Ok code =>
          let+ rest := draw_codes n in
          Ret (match rest with
               | Err e => Err e
               | Ok (codes, hashes) => Ok (code :: codes, hashRecoveryCode code :: hashes)
               end)
      end
  end.

(** [internal/mfa/mfa.go:192-226] Service.Setup, once no enabled credential was found *)
Definition mfa_setup_pending (userID username : string) : Prog (Res mfaError Setup) :=
  let* rnd := CRandom in
  match rnd with
  | None => Ret (Err ErrRandom)
  | Some secret =>
      let* nonce := CRandom in
      match encrypt s userID secret nonce with
      | Err e => Ret (Err e)
      | Ok encrypted =>
          let+ codes := draw_codes recoveryCodeCount in
          match codes with
          | Err e => Ret (Err e)
          | Ok (recoveryCodes, recoveryHashes) =>
              let* now := CNow in
              let* stored := CMfaReplacePending
                {| cr_UserID := userID; cr_Secret := encrypted; cr_Enabled := false; cr_CreatedAt := now; cr_VerifiedAt := None;
                   cr_LastUsedStep := 0; cr_FailedAttempts := 0; cr_LockedUntil := None; cr_RecoveryCodes := 0 |} recoveryHashes in
              Ret (match stored with
                   | Err e => Err e
                   | Ok _ =>
                       let encodedSecret := base32_EncodeToString secret in
                       let label := issuer s +:+ ":" +:+ username in
                       let query := [("algorithm", "SHA1"); ("digits", "6"); ("issuer", issuer s);
                                     ("period", "30"); ("secret", encodedSecret)]%string in
                       Ok {| su_Secret := encodedSecret;
                             su_OTPAuthURI := "otpauth://totp/" +:+ PathEscape label +:+ "?" +:+ QueryEncode query;
                             su_RecoveryCodes := recoveryCodes |}
                   end)
          end
      end
  end.

(** [internal/mfa/mfa.go:183-226] Service.Setup *)
Definition mfa_Setup (userID username : string) : Prog (Res mfaError Setup) :=
  if negb (available s) then Ret (Err MfaUnavailable)
  else
    let* found := CMfaFind userID in
    match found with
    | Ok credential => if cr_Enabled credential then Ret (Err ErrAlreadyEnabled) else mfa_setup_pending userID username
    | Err MfaNotFound => mfa_setup_pending userID username
    | Err e => Ret (Err e)
    end.

(** [internal/mfa/mfa.go:228-241] Service.Enable *)
Definition mfa_Enable (userID code : string) : Prog (Res mfaError unit) :=
  let* found := CMfaFind userID in
  match found with
  | Err e => Ret (Err e)
  | Ok credential =>
      if cr_Enabled credential then Ret (Ok ())
      else
        let* nowMatch := CNow in
        match matchTOTP s credential code nowMatch with
        | Err e => Ret (Err e)
        | Ok step =>
            let* now := CNow in
            let* enabled := CMfaEnable userID step now in Ret enabled
        end
  end.

(** [internal/mfa/mfa.go:350-366] Service.RegenerateRecoveryCodes *)
Definition mfa_RegenerateRecoveryCodes (userID : string) : Prog (Res mfaError (list string)) :=
  let* found := CMfaFind userID in
  match found with
  | Err e => Ret (Err e)
  | Ok credential =>
      if negb (cr_Enabled credential) then Ret (Err ErrNotEnabled)
      else
        let+ drawn := draw_codes recoveryCodeCount in
        match drawn with
        | Err e => Ret (Err e)
        | Ok (codes, hashes) =>
            let* stored := CMfaReplaceCodes userID hashes in
            Ret (match stored with Err e => Err e | Ok _ => Ok codes end)
        end
  end.

(** [internal/mfa/mfa.go:297-316] Service.RememberDevice *)
Definition mfa_RememberDevice (userID userAgent : string) : Prog (Res mfaError TrustedDeviceToken) :=
  let* rnd := CRandom in
  match RandomToken rnd with
  | Err _ => Ret (Err ErrRandom)
  | Ok token =>
      let* now := CNow in
      let expiresAt := now + trustedDeviceTTL in
      let* stored := CMfaStoreDevice {| td_UserID := userID; td_TokenHash := HashToken token;
                                        td_UserAgentHash := HashToken (TrimSpace userAgent);
                                        td_CreatedAt := now; td_LastUsedAt := now; td_ExpiresAt := expiresAt |} trustedDeviceMax in
      Ret (match stored with Err e => Err e | Ok _ => Ok {| tt_Token := token; tt_ExpiresAt := expiresAt |} end)
  end.

(** [internal/mfa/mfa.go:318-344] Service.UseTrustedDevice: [None] when the device is not trusted. *)
Definition mfa_UseTrustedDevice (userID token userAgent : string) : Prog (Res mfaError (option TrustedDeviceToken)) :=
  if decide (len token < 32 ∨ len token > 256) then Ret (Ok None)
  else
    let* rnd := CRandom in
    match RandomToken rnd with
    | Err _ => Ret (Err ErrRandom)
    | Ok replacement =>
        let* now := CNow in
        let* rotated := CMfaRotateDevice userID (HashToken token) (HashToken replacement) (HashToken (TrimSpace userAgent)) now in
        Ret (match rotated with
             | Err ErrTrustedDeviceNotFound => Ok None
             | Err e => Err e
             | Ok expiresAt => Ok (Some {| tt_Token := replacement; tt_ExpiresAt := expiresAt |})
             end)
    end.
End MfaService.
