(* ===== verification/Providers.v ===== *)
(** Signing in with a directory or an identity provider: [internal/federation/ldap.go] and
    [oidc.go], with what the directory and the provider answer as calls to the outside.
    Requests that their client gives up, and timeouts, are among the answers. *)
From S2P Require Import Prelude GoStrings GoCrypto GoUrl Secrets Session RateLimit Cas Mfa OAuthStore Identity Client Federation Authorize Access AuditLog Http.
Local Open Scope Z_scope.
Local Open Scope string_scope.
Local Open Scope go_scope.

(** [ldap.EscapeFilter] of package [go-ldap]: documented to escape the bytes that have a
    meaning in a filter. *)
Class LDAPFilter := {
  EscapeFilter : string → string;
  EscapeFilter_safe : ∀ s b, b ∈ bytes (EscapeFilter s) → b ∉ bytes "()*" ∧ b ≠ 0;
}.

(** [internal/federation/ldap.go:18-21] the errors *)
Inductive externalError := ExternalInvalidCredentials | ExternalUnavailable.

(** [strings.ReplaceAll] of a text that is not empty; [skip] bytes are already replaced. *)
Fixpoint replace_from (skip : nat) (s old new : string) : string :=
  match s with
  | EmptyString => ""
  | String c rest =>
      match skip with
      | S n => replace_from n rest old new
      | O => if HasPrefix s old then new +:+ replace_from (String.length old - 1) rest old new
             else String c (replace_from O rest old new)
      end
  end.
Definition ReplaceAll (s old new : string) : string := replace_from 0 s old new.

(** ** Directories *)

(** [internal/federation/ldap.go:167-182] uniqueAttributes *)
Definition uniqueAttributes (values : list string) : list string := unique_by trimmed ∅ values.

Section LDAP.
Context (config : LDAPConfig).

(** [internal/federation/ldap.go:129-165] LDAPAuthenticator.connect *)
Definition connect : Prog (Res externalError unit) :=
  if negb (LDAPEnabled config) then Ret (Err ExternalUnavailable)
  else
    let* connected := CLdapDial (lc_URL config) (lc_StartTLS config) in
    if negb (connected : bool) then Ret (Err ExternalUnavailable)
    else if decide (lc_BindDN config ≠ "") then
      let* bound := CLdapBind (lc_URL config) (lc_BindDN config) (lc_BindPassword config) in
      Ret (if (bound : bool) then Ok () else Err ExternalUnavailable)
    else Ret (Ok ()).

(** [internal/federation/ldap.go:91-115] Authenticate, the profile of an entry *)
Definition ldap_profile (username : string) (entry : Entry) : ExternalProfile :=
  let resolvedUsername := TrimSpace (GetAttributeValue entry (lc_UsernameAttribute config)) in
  let emailValue := TrimSpace (GetAttributeValue entry (lc_EmailAttribute config)) in
  let providerID := TrimSpace (lc_ProviderID config) in
  {| ep_ProviderID := if decide (providerID = "") then "ldap" else providerID;
     ep_Subject := en_DN entry;
     ep_Username := if decide (resolvedUsername = "") then username else resolvedUsername;
     ep_DisplayName := TrimSpace (GetAttributeValue entry (lc_DisplayNameAttribute config));
     ep_Email := if decide (emailValue = "") then None else Some emailValue;
     ep_EmailTrusted := true;
     ep_EmailVerified := false |}.

(** [internal/federation/ldap.go:63-63] Authenticate, the filter for a name *)
Definition user_filter `{LDAPFilter} (username : string) : string :=
  ReplaceAll (lc_UserFilter config) "{username}" (EscapeFilter username).

(** [internal/federation/ldap.go:43-116] LDAPAuthenticator.Authenticate *)
Definition ldap_Authenticate `{LDAPFilter} (username password : string) : Prog (Res externalError ExternalProfile) :=
  let username := TrimSpace username in
  if negb (LDAPEnabled config) then Ret (Err ExternalUnavailable)
  else if decide (username = "" ∨ password = "") then Ret (Err ExternalInvalidCredentials)
  else
    let+ connected := connect in
    match connected with
    | Err e => Ret (Err e)
    | Ok _ =>
        let* result := CLdapSearch (lc_URL config) (lc_BaseDN config) (user_filter username)
          (uniqueAttributes [lc_UsernameAttribute config; lc_DisplayNameAttribute config; lc_EmailAttribute config]) in
        match (result : option (list Entry)) with
        | None => Ret (Err ExternalUnavailable)
        | Some [entry] =>
            let* bound := CLdapBind (lc_URL config) (en_DN entry) password in
            Ret (if negb (bound : bool) then Err ExternalInvalidCredentials else Ok (ldap_profile username entry))
        | Some _ => Ret (Err ExternalInvalidCredentials)
        end
    end.

(** [internal/federation/ldap.go:118-127] LDAPAuthenticator.Probe *)
Definition ldap_Probe : Prog (Res externalError unit) :=
  if negb (LDAPEnabled config) then Ret (Err ExternalUnavailable) else connect.
End LDAP.

(** ** Identity providers *)

(** [internal/federation/oidc.go:16-23] OIDCAuthenticator: one is kept for the provider of the
    configuration, which it discovers once; others are made for one sign-in. *)
Record OIDCAuthenticator_ := { oa_config : ExternalOIDCConfig; oa_redirectURL : string; oa_kept : bool }.

Section OIDC.
Context (a : OIDCAuthenticator_).

(** [internal/federation/oidc.go:121-147] OIDCAuthenticator.configuration: the configuration with
    its scopes. *)
Definition oidc_configuration : Prog (Res externalError ExternalOIDCConfig) :=
  let config := oa_config a in
  if negb (OIDCEnabled config) then Ret (Err ExternalUnavailable)
  else
    let* found := COIDCDiscover (oa_kept a) (oc_Issuer config) in
    if negb (found : bool) then Ret (Err ExternalUnavailable)
    else Ret (Ok {| oc_ProviderID := oc_ProviderID config; oc_Issuer := oc_Issuer config; oc_ClientID := oc_ClientID config;
                    oc_ClientSecret := oc_ClientSecret config; oc_Label := oc_Label config;
                    oc_Scopes := if decide (oc_Scopes config = []) then ["openid"; "profile"; "email"] else oc_Scopes config |}).

(** [internal/federation/oidc.go:40-50] OIDCAuthenticator.AuthorizationURL *)
Definition AuthorizationURL (state nonce verifier : string) : Prog (Res externalError string) :=
  let+ found := oidc_configuration in
  match found with
  | Err e => Ret (Err e)
  | Ok config => let* target := COIDCAuthCodeURL config (oa_redirectURL a) state nonce verifier in Ret (Ok (target : string))
  end.

(** [internal/federation/oidc.go:86-113] Exchange, the profile of the claims *)
Definition oidc_profile (claims : ExternalClaims) : ExternalProfile :=
  let config := oa_config a in
  let username := TrimSpace (xc_PreferredUsername claims) in
  let username :=
    if bool_decide (username = "") && xc_EmailVerified claims
    then match Cut (xc_Email claims) "@"%char with Some (local, _) => local | None => xc_Email claims end
    else username in
  let email := TrimSpace (xc_Email claims) in
  let providerID := TrimSpace (oc_ProviderID config) in
  {| ep_ProviderID := if decide (providerID = "") then "oidc:" +:+ oc_Issuer config else providerID;
     ep_Subject := xc_Subject claims;
     ep_Username := if decide (username = "") then "oidc-user" else username;
     ep_DisplayName := xc_Name claims;
     ep_Email := if xc_EmailVerified claims && negb (bool_decide (email = "")) then Some email else None;
     ep_EmailTrusted := xc_EmailVerified claims;
     ep_EmailVerified := xc_EmailVerified claims |}.

(** [internal/federation/oidc.go:52-114] OIDCAuthenticator.Exchange *)
Definition oidc_Exchange (code nonce verifier : string) : Prog (Res externalError ExternalProfile) :=
  let+ found := oidc_configuration in
  match found with
  | Err e => Ret (Err e)
  | Ok config =>
      let* token := COIDCExchange config (oa_redirectURL a) code verifier in
      match (token : option (option string)) with
      | None | Some None => Ret (Err ExternalInvalidCredentials)
      | Some (Some rawIDToken) =>
          if decide (rawIDToken = "") then Ret (Err ExternalInvalidCredentials)
          else
            let* idToken := COIDCVerify (oc_Issuer config) (oc_ClientID config) rawIDToken in
            Ret (match (idToken : option IDToken) with
                 | None => Err ExternalInvalidCredentials
                 | Some idToken =>
                     if decide (it_Nonce idToken = "" ∨ it_Nonce idToken ≠ nonce) then Err ExternalInvalidCredentials
                     else match it_Claims idToken with
                     | None => Err ExternalInvalidCredentials
                     | Some claims =>
                         if decide (TrimSpace (xc_Subject claims) = "") then Err ExternalInvalidCredentials
                         else Ok (oidc_profile claims)
                     end
                 end)
      end
  end.

(** [internal/federation/oidc.go:116-119] OIDCAuthenticator.Probe *)
Definition oidc_Probe : Prog (Res externalError unit) :=
  let+ found := oidc_configuration in Ret (match found with Err e => Err e | Ok _ => Ok () end).
End OIDC.
