(* ===== verification/Tokens.v ===== *)
(** The token endpoints: [internal/platform/http/oauth.go] (token, introspection,
    revocation, user information), [device.go] (the device grant) and [rate_limit.go]. *)
From S2P Require Import Prelude GoStrings GoCrypto OAuthStore Session RateLimit Identity Client Authorize GoUrl Access AuditLog Http.
Local Open Scope Z_scope.
Local Open Scope string_scope.

Local Open Scope go_scope.

(** [strconv.Quote], the verb [%q], on ASCII text: non-ASCII bytes are copied, as Go does
    for printable characters. *)
Definition quote_byte (b : Z) : list Z :=
  match b with
  | 34 => [92; 34] | 92 => [92; 92] | 7 => [92; 97] | 8 => [92; 98] | 12 => [92; 102] | 10 => [92; 110]
  | 13 => [92; 114] | 9 => [92; 116] | 11 => [92; 118]
  | _ => if decide (b < 32 ∨ b = 127)%Z then [92; 120] ++ bytes (hex [b]) else [b]
  end%list%Z.
Definition Quote (s : string) : string := of_bytes ([34%Z] ++ (bytes s ≫= quote_byte) ++ [34%Z])%list.

(** A string between quotation marks. *)
Definition quoted (s : string) : string := String (chr 34) s +:+ String (chr 34) EmptyString.

Section Endpoints.
Context `{MapRange, UnicodeTables, MailParser, TokenSigner} (cfg : Config).

(** ** Rate limits *)

(** [internal/platform/http/rate_limit.go:139-196] allowRateLimitedRequest: the reply when refused. *)
Definition allowRateLimitedRequest (scope subject : string) (policy : Policy) (oauthStyle : bool) : Prog (Reply + unit) :=
  let subject := if decide (subject = "") then "<unknown>" else subject in
  let* now := CNow in
  let* result := CRate scope subject policy now in
  match result with
  | Err _ =>
      Ret (inl (if oauthStyle
                then writeOAuthError 503 "temporarily_unavailable" "rate-limit service is unavailable"
                else writeProblem 503 "rate_limit_unavailable" "请求保护服务暂时不可用"))
  | Ok result =>
      if IsZero (d_ResetAt result) then Ret (inr ())
      else if d_Allowed result then Ret (inr ())
      else Ret (inl (if oauthStyle
                     then writeOAuthError 429 "temporarily_unavailable" "too many requests; retry later"
                     else writeProblem 429 "rate_limited" "请求过于频繁，请稍后重试"))
  end.

(** [internal/platform/http/rate_limit.go:80-88] allowOAuthAttempt *)
Definition allowOAuthAttempt (rq : HttpRequest) : Prog (Reply + unit) :=
  allowRateLimitedRequest "oauth.source" (rq_IPAddress rq) (cfg_OAuth cfg) true.

(** [internal/platform/http/rate_limit.go:90-98] allowDeviceLookup *)
Definition allowDeviceLookup (rq : HttpRequest) : Prog (Reply + unit) :=
  allowRateLimitedRequest "device.source" (rq_IPAddress rq) (cfg_Device cfg) false.

(** ** Client authentication *)

(** The refusal of a check, as the refusal of the check that makes it. *)
Definition pass {A B} (p : Prog (Reply + A)) : Prog ((Reply + B) + A) :=
  bind p (λ r, Ret match r with inl e => inl (inl e) | inr a => inr a end).

(** [internal/platform/http/oauth.go:674-688] oauthClientBasicCredentials: [None] when the header
    is not used, [Some None] when it is malformed. *)
Definition oauthClientBasicCredentials (rq : HttpRequest) : option (option (string * string)) :=
  match BasicAuth (rq_Authorization rq) with
  | None => None
  | Some (encodedClientID, encodedSecret) =>
      match QueryUnescape encodedClientID, QueryUnescape encodedSecret with
      | Some clientID, Some secret => Some (Some (clientID, secret))
      | _, _ => Some None
      end
  end.

(** [internal/platform/http/oauth.go:629-634] writeInvalidOAuthClient *)
Definition writeInvalidOAuthClient (method : string) : Reply :=
  if decide (method = TokenEndpointAuthSecretBasic ∨ method = TokenEndpointAuthNone)
  then writeOAuthChallenge ("Basic realm=" +:+ quoted "certus-token") 401 "invalid_client" "client authentication failed"
  else writeOAuthError 401 "invalid_client" "client authentication failed".

(** [internal/platform/http/oauth.go:636-639] validOAuthClientSecret *)
Definition validOAuthClientSecret (registered : Client) (secret : string) : bool :=
  negb (bool_decide (secret = "")) && bool_decide (of_bytes (sha256 (bytes secret)) = c_SecretHash registered).

(** [internal/platform/http/oauth.go:611-626] authenticateOAuthClient, whether the client may
    use these credentials *)
Definition check_client (clientID secret authenticationMethod : string) : Prog (Reply + Client) :=
  let* found := CClientsFind clientID in
  match found with
  | Err _ => Ret (inl (writeInvalidOAuthClient authenticationMethod))
  | Ok registered =>
      if negb (c_Enabled registered) || negb (SupportsOAuth registered)
      then Ret (inl (writeInvalidOAuthClient authenticationMethod))
      else if decide (authenticationMethod ≠ EffectiveTokenEndpointAuthMethod registered)
      then Ret (inl (writeInvalidOAuthClient authenticationMethod))
      else if bool_decide (c_ApplicationType registered = ApplicationConfidential)
              && negb (validOAuthClientSecret registered secret)
      then Ret (inl (writeInvalidOAuthClient authenticationMethod))
      else Ret (inr registered)
  end.

(** [internal/platform/http/oauth.go:577-627] authenticateOAuthClient *)
Definition authenticateOAuthClient (rq : HttpRequest) (post : Values) : Prog (Reply + Client) :=
  let clientIDs := default [] (post !! "client_id") in
  let secrets := default [] (post !! "client_secret") in
  if decide (1 < length clientIDs ∨ 1 < length secrets)%nat
  then Ret (inl (writeOAuthError 400 "invalid_request" "client credentials must not be repeated"))
  else
    let formClientID := TrimSpace (Get post "client_id") in
    let basic := oauthClientBasicCredentials rq in
    match basic with
    | Some None => Ret (inl (writeInvalidOAuthClient TokenEndpointAuthSecretBasic))
    | _ =>
        let usedPost := bool_decide (length secrets = 1%nat) in
        let usedBasic := bool_decide (is_Some basic) in
        if usedBasic && usedPost
        then Ret (inl (writeOAuthError 400 "invalid_request" "multiple client authentication methods are not allowed"))
        else if match basic with
                | Some (Some (basicID, _)) => bool_decide (formClientID ≠ "" ∧ formClientID ≠ basicID)
                | _ => false
                end
        then Ret (inl (writeInvalidOAuthClient TokenEndpointAuthSecretBasic))
        else
          let '(clientID, secret, authenticationMethod) :=
            match basic with
            | Some (Some (basicID, basicSecret)) => (basicID, basicSecret, TokenEndpointAuthSecretBasic)
            | _ => if usedPost then (formClientID, Get post "client_secret", TokenEndpointAuthSecretPost)
                   else (formClientID, "", TokenEndpointAuthNone)
            end in
          check_client clientID secret authenticationMethod
    end.

(** [internal/platform/http/oauth.go:641-652] authenticateConfidentialOAuthClient *)
Definition authenticateConfidentialOAuthClient (rq : HttpRequest) (post : Values) : Prog (Reply + Client) :=
  try+ registered := pass (authenticateOAuthClient rq post) in
  if decide (c_ApplicationType registered ≠ ApplicationConfidential)
  then Ret (inl (writeOAuthChallenge ("Basic realm=" +:+ quoted "certus-token-metadata") 401 "invalid_client"
                   "confidential client authentication is required"))
  else Ret (inr registered).

(** ** Scopes and grants *)

(** The loop that drops repeated scopes. *)
Fixpoint unique_scopes (seen : gset string) (scopes : list string) : list string :=
  match scopes with
  | [] => []
  | scope :: rest => if decide (scope ∈ seen) then unique_scopes seen rest
                     else scope :: unique_scopes ({[scope]} ∪ seen) rest
  end.

(** [internal/platform/http/oauth.go:1051-1075] requestedScopes: the error names the first
    scope that is not allowed. *)
Definition requestedScopes (raw : string) (registered : Client) (requireOpenID : bool) : Res string (list string) :=
  let scopes := Fields raw in
  let scopes := if decide (length scopes = 0%nat) then c_AllowedScopes registered else scopes in
  let scopes := unique_scopes ∅ scopes in
  if requireOpenID && negb (Contains scopes "openid") then Err "openid scope is required"
  else match list_find (λ scope, Contains (c_AllowedScopes registered) scope = false) scopes with
  | Some (_, scope) => Err ("scope " +:+ Quote scope +:+ " is not allowed")
  | None => Ok scopes
  end.

(** [internal/platform/http/oauth.go:552-575] validateOAuthUserGrant *)
Definition validateOAuthUserGrant (userID clientID sessionID : string) (scopes : list string) : Prog (Res string User) :=
  let* found := CUsersFind userID in
  match found with
  | Err _ => Ret (Err "user is unavailable")
  | Ok user =>
      if decide (u_Status user ≠ UserActive) then Ret (Err "user is unavailable")
      else
        let consented : Prog (Res string User) :=
          let* consent := CFindConsent userID clientID in
          match consent with
          | Err _ => Ret (Err "OAuth consent is unavailable")
          | Ok consent => if negb (Covers consent scopes) then Ret (Err "OAuth consent is unavailable") else Ret (Ok user)
          end in
        if decide (sessionID ≠ "")
        then
          let* active := CSessionsIsActive userID sessionID in
          match active with
          | Err _ => Ret (Err "check OAuth grant session")
          | Ok false => Ret (Err "OAuth grant session is inactive")
          | Ok true => consented
          end
        else consented
  end.

(** [internal/platform/http/oauth.go:521-550] issueAccessToken *)
Definition issueAccessToken (registered : Client) (userID sessionID familyID : string) (scopes : list string)
    : Prog (Res string Claims) :=
  let* rnd := CRandom in
  match RandomToken rnd with
  | Err _ => Ret (Err "random")
  | Ok raw =>
      let* now := CNow in
      let* saved := CStore (OpSaveAccessToken
        {| at_Hash := HashToken raw; at_ClientID := c_ID registered; at_UserID := userID; at_SessionID := sessionID;
           at_FamilyID := familyID; at_Scope := scopes; at_IssuedAt := now;
           at_ExpiresAt := now + AccessTokenLifetime registered |}) in
      match saved with
      | Err _ => Ret (Err "save")
      | Ok _ =>
          Ret (Ok (<["access_token" := VString raw]> (<["token_type" := VString "Bearer"]>
            (<["expires_in" := VInt (Z.quot (AccessTokenLifetime registered) Second)]>
              {["scope" := VString (Join scopes " ")]}))))
      end
  end.

(** [internal/platform/http/oauth.go:900-906] addEmailClaims *)
Definition addEmailClaims (claims : Claims) (user : User) : Claims :=
  match u_Email user with
  | None => claims
  | Some email => <["email" := VString email]> (<["email_verified" := VBool (u_EmailVerified user)]> claims)
  end.

(** The claims of the [profile] scope. *)
Definition addProfileClaims (claims : Claims) (user : User) : Claims :=
  <["name" := VString (u_DisplayName user)]> (<["preferred_username" := VString (u_Username user)]> claims).

(** [internal/platform/http/oauth.go:908-919] addEntitlementClaims *)
Definition addEntitlementClaims (claims : Claims) (userID clientID : string) (scopes : list string) : Prog (Res string Claims) :=
  if negb (Contains scopes "roles") then Ret (Ok claims)
  else
    let* now := CNow in
    let* value := CEffective userID clientID now in
    match value with
    | Err _ => Ret (Err "entitlements")
    | Ok value => Ret (Ok (<["roles" := VStrings (en_Roles value)]> (<["permissions" := VStrings (en_Permissions value)]> claims)))
    end.

(** ** Issuing *)

(** The claims of the ID token. *)
Definition id_token_claims (registered : Client) (user : User) (sessionID nonce : string) (scopes : list string)
    (authenticatedAt : Time) (authMethods : list string) (assuranceLevel : string) (now : Time) : Claims :=
  let claims : Claims :=
    <["iss" := VString (cfg_Issuer cfg)]> (<["sub" := VString (u_ID user)]> (<["aud" := VString (c_ID registered)]>
    (<["exp" := VInt (Unix (now + AccessTokenLifetime registered)%Z)]> (<["iat" := VInt (Unix now)]>
    (<["auth_time" := VInt (Unix authenticatedAt)]> (<["amr" := VStrings authMethods]>
    {["acr" := VString assuranceLevel]})))))) in
  let claims := if decide (nonce ≠ "") then <["nonce" := VString nonce]> claims else claims in
  let claims := if decide (sessionID ≠ "") then <["sid" := VString sessionID]> claims else claims in
  let claims := if Contains scopes "profile" then addProfileClaims claims user else claims in
  if Contains scopes "email" then addEmailClaims claims user else claims.

(** The refresh token and family drawn for a grant: both empty when the grant has no refresh token. *)
Definition draw_refresh (registered : Client) (allowRefresh : bool) : Prog (Res string (string * string)) :=
  if allowRefresh && SupportsGrant registered GrantRefreshToken
  then
    let* rnd := CRandom in
    match RandomToken rnd with
    | Err _ => Ret (Err "random")
    | Ok refreshRaw =>
        let* rnd := CRandom in
        match RandomUUID rnd with
        | Err _ => Ret (Err "random")
        | Ok familyID => Ret (Ok (refreshRaw, familyID))
        end
    end
  else Ret (Ok ("", "")).

(** Saves the refresh token of a grant and adds it to the response. *)
Definition save_refresh (registered : Client) (userID sessionID refreshRaw familyID : string) (scopes : list string)
    (response : Claims) : Prog (Res string Claims) :=
  if decide (refreshRaw ≠ "")
  then
    let* now := CNow in
    let* saved := CStore (OpSaveRefreshToken
      {| rt_Hash := HashToken refreshRaw; rt_FamilyID := familyID; rt_ClientID := c_ID registered; rt_UserID := userID;
         rt_SessionID := sessionID; rt_Scope := Some scopes; rt_IssuedAt := now;
         rt_ExpiresAt := (now + RefreshTokenLifetime registered)%Z |}) in
    match saved with
    | Err _ => Ret (Err "save")
    | Ok _ => Ret (Ok (<["refresh_token" := VString refreshRaw]> response))
    end
  else Ret (Ok response).

(** Signs the ID token of a grant, notes the client's session for back-channel logout, and
    adds the token to the response. *)
Definition sign_id_token (registered : Client) (user : User) (userID sessionID nonce : string) (scopes : list string)
    (authenticatedAt : Time) (authMethods : list string) (assuranceLevel : string) (response : Claims)
    : Prog (Res string Claims) :=
  if negb (Contains scopes "openid") then Ret (Ok response)
  else
    let* now := CNow in
    let+ claims := addEntitlementClaims
      (id_token_claims registered user sessionID nonce scopes authenticatedAt authMethods assuranceLevel now)
      (u_ID user) (c_ID registered) scopes in
    match claims with
    | Err e => Ret (Err e)
    | Ok claims =>
        let* idToken := CSign claims in
        match idToken with
        | Err _ => Ret (Err "sign")
        | Ok idToken =>
            let done := Ret (Ok (<["id_token" := VString idToken]> response)) in
            if decide (sessionID ≠ "" ∧ c_BackchannelLogoutURI registered ≠ "")
            then
              let* saved := CStore (OpSaveOIDCClientSession
                {| os_SessionID := sessionID; os_ClientID := c_ID registered; os_UserID := userID; os_CreatedAt := now |}) in
              match saved with Err _ => Ret (Err "save") | Ok _ => done end
            else done
        end
    end.

(** [internal/platform/http/oauth.go:425-519] issueUserTokens *)
Definition issueUserTokens (registered : Client) (userID sessionID : string) (scopes : list string) (nonce : string)
    (authenticatedAt : Time) (authMethods : list string) (assuranceLevel : string) (allowRefresh : bool)
    : Prog (Res string Claims) :=
  let+ user := validateOAuthUserGrant userID (c_ID registered) sessionID scopes in
  match user with
  | Err e => Ret (Err e)
  | Ok user =>
  let+ drawn := draw_refresh registered allowRefresh in
  match drawn with
  | Err e => Ret (Err e)
  | Ok (refreshRaw, familyID) =>
  let+ response := issueAccessToken registered userID sessionID familyID scopes in
  match response with
  | Err e => Ret (Err e)
  | Ok response =>
  let+ response := save_refresh registered userID sessionID refreshRaw familyID scopes response in
  match response with
  | Err e => Ret (Err e)
  | Ok response =>
      sign_id_token registered user userID sessionID nonce scopes authenticatedAt authMethods assuranceLevel response
  end end end end.

(** ** The token endpoint *)

Definition server_error : Reply := writeOAuthError 500 "server_error" "token issuance failed".

(** The reply of a grant: its tokens, or a server error. *)
Definition issued (r : Res string Claims) : Prog Reply :=
  Ret match r with Ok response => writeJSON 200 response | Err _ => server_error end.

(** [internal/platform/http/oauth.go:286-322] authorizationCodeToken *)
Definition authorizationCodeToken (form : Values) (registered : Client) : Prog Reply :=
  if negb (SupportsGrant registered GrantAuthorizationCode)
  then Ret (writeOAuthError 400 "unauthorized_client" "authorization_code is not enabled")
  else
    let code := Get form "code" in
    let redirectURI := Get form "redirect_uri" in
    let verifier := Get form "code_verifier" in
    if bool_decide (code = "") || bool_decide (redirectURI = "") || negb (ValidCodeVerifier verifier)
    then Ret (writeOAuthError 400 "invalid_request" "code, redirect_uri and valid code_verifier are required")
    else
      let actualChallenge := RawURLEncoding_EncodeToString (sha256 (bytes verifier)) in
      let* now := CNow in
      let* record := CStore (OpConsumeAuthorizationCode (HashToken code) (c_ID registered) redirectURI actualChallenge now) in
      match record with
      | Err _ => Ret (writeOAuthError 400 "invalid_grant" "authorization code is invalid or expired")
      | Ok record =>
          let+ response := issueUserTokens registered (ac_UserID record) (ac_SessionID record) (ac_Scope record)
            (ac_Nonce record) (ac_AuthenticatedAt record) (ac_AuthMethods record) (ac_AssuranceLevel record) true in
          issued response
      end.

(** The scopes asked for by a refresh request: [None] when it names none. *)
Definition refresh_scopes (form : Values) (registered : Client) : Res string (option (list string)) :=
  let scopeValue := TrimSpace (Get form "scope") in
  if decide (scopeValue ≠ "")
  then match requestedScopes scopeValue registered false with
       | Err e => Err e
       | Ok requested => Ok (Some requested)
       end
  else Ok None.

(** [internal/platform/http/oauth.go:324-387] refreshToken *)
Definition refreshToken (form : Values) (registered : Client) : Prog Reply :=
  if negb (SupportsGrant registered GrantRefreshToken)
  then Ret (writeOAuthError 400 "unauthorized_client" "refresh_token is not enabled")
  else
    let raw := Get form "refresh_token" in
    if decide (raw = "") then Ret (writeOAuthError 400 "invalid_grant" "refresh token is invalid")
    else
      let* now := CNow in
      match refresh_scopes form registered with
      | Err _ => Ret (writeOAuthError 400 "invalid_scope" "scope must not exceed the original grant")
      | Ok scopes =>
      let* rnd := CRandom in
      match RandomToken rnd with
      | Err _ => Ret server_error
      | Ok replacementRaw =>
      let replacement :=
        {| rt_Hash := HashToken replacementRaw; rt_FamilyID := ""; rt_ClientID := c_ID registered; rt_UserID := "";
           rt_SessionID := ""; rt_Scope := scopes; rt_IssuedAt := now;
           rt_ExpiresAt := (now + RefreshTokenLifetime registered)%Z |} in
      let* current := CStore (OpRotateRefreshToken (HashToken raw) replacement now) in
      match current with
      | Err ErrInvalidScope => Ret (writeOAuthError 400 "invalid_scope" "scope must not exceed the original grant")
      | Err _ => Ret (writeOAuthError 400 "invalid_grant" "refresh token is invalid, expired or reused")
      | Ok current =>
      let scopes := default (elems (rt_Scope current)) scopes in
      let abandon (answer : Reply) : Prog Reply :=
        let* now := CNow in
        let* _ := CStore (OpRevokeRefreshToken (HashToken replacementRaw) (c_ID registered) now) in
        Ret answer in
      let+ user := validateOAuthUserGrant (rt_UserID current) (rt_ClientID current) (rt_SessionID current) scopes in
      match user with
      | Err _ => abandon (writeOAuthError 400 "invalid_grant" "refresh token grant is no longer active")
      | Ok _ =>
      let+ response := issueAccessToken registered (rt_UserID current) (rt_SessionID current) (rt_FamilyID current) scopes in
      match response with
      | Err _ => abandon server_error
      | Ok response =>
          Ret (writeJSON 200 (<["scope" := VString (Join scopes " ")]> (<["refresh_token" := VString replacementRaw]> response)))
      end end end end end.

(** [internal/platform/http/oauth.go:389-423] clientCredentialsToken *)
Definition clientCredentialsToken (form : Values) (registered : Client) : Prog Reply :=
  if negb (SupportsGrant registered GrantClientCredentials)
     || bool_decide (c_ApplicationType registered ≠ ApplicationConfidential)
  then Ret (writeOAuthError 400 "unauthorized_client" "client_credentials is not enabled")
  else
    let scopeValue := Get form "scope" in
    let scopeValue :=
      if decide (TrimSpace scopeValue = "")
      then Join (base.filter (λ scope, scope ≠ "openid") (c_AllowedScopes registered)) " "
      else scopeValue in
    match requestedScopes scopeValue registered false with
    | Err e => Ret (writeOAuthError 400 "invalid_scope" e)
    | Ok scopes =>
        if Contains scopes "openid"
        then Ret (writeOAuthError 400 "invalid_scope" "openid is not valid with client_credentials")
        else if Contains scopes "roles"
        then Ret (writeOAuthError 400 "invalid_scope" "roles is not valid with client_credentials")
        else let+ response := issueAccessToken registered "" "" "" scopes in issued response
    end.

(** [internal/platform/http/device.go:181-224] deviceCodeToken *)
Definition deviceCodeToken (form : Values) (registered : Client) : Prog Reply :=
  if negb (SupportsGrant registered GrantDeviceCode)
  then Ret (writeOAuthError 400 "unauthorized_client" "device_code is not enabled")
  else
    let deviceCode := Get form "device_code" in
    if decide (deviceCode = "") then Ret (writeOAuthError 400 "invalid_request" "device_code is required")
    else
      let* now := CNow in
      let* record := CStore (OpPollDeviceAuthorization (HashToken deviceCode) (c_ID registered) now) in
      match record with
      | Err ErrAuthorizationPending =>
          Ret (writeOAuthError 400 "authorization_pending" "the user has not completed authorization")
      | Err ErrSlowDown => Ret (writeOAuthError 400 "slow_down" "polling too quickly")
      | Err ErrAccessDenied => Ret (writeOAuthError 400 "access_denied" "the user denied the request")
      | Err ErrGrantExpired => Ret (writeOAuthError 400 "expired_token" "the device code expired")
      | Err _ => Ret (writeOAuthError 400 "invalid_grant" "the device code is invalid or already used")
      | Ok record =>
          let+ response := issueUserTokens registered (da_UserID record) "" (da_Scope record) ""
            (da_AuthenticatedAt record) (da_AuthMethods record) (da_AssuranceLevel record) true in
          issued response
      end.

(** The prologue of the token, introspection and revocation endpoints: the content type, the
    form, and the rate limit of the source address. *)
Definition oauth_form (rq : HttpRequest) : Prog (Reply + (Values * Values)) :=
  if negb (HasPrefix (rq_ContentType rq) "application/x-www-form-urlencoded")
  then Ret (inl (writeOAuthError 400 "invalid_request" "Content-Type must be application/x-www-form-urlencoded"))
  else match ParseForm rq with
  | None => Ret (inl (writeOAuthError 400 "invalid_request" "invalid form body"))
  | Some (post, form) =>
      try+ _ := pass (allowOAuthAttempt rq) in
      Ret (inr (post, form))
  end.

(** [internal/platform/http/oauth.go:253-284] token *)
Definition token (rq : HttpRequest) : Prog Reply :=
  try+ p := oauth_form rq in
  let '(post, form) := p in
  try+ registered := authenticateOAuthClient rq post in
  let grant := Get form "grant_type" in
  if decide (grant = GrantAuthorizationCode) then authorizationCodeToken form registered
  else if decide (grant = GrantRefreshToken) then refreshToken form registered
  else if decide (grant = GrantClientCredentials) then clientCredentialsToken form registered
  else if decide (grant = GrantDeviceCode) then deviceCodeToken form registered
  else Ret (writeOAuthError 400 "unsupported_grant_type" "grant_type is not supported").

(** ** Introspection, revocation and user information *)

Definition inactive : Reply := writeJSON 200 {["active" := VBool false]}.

(** [internal/platform/http/oauth.go:738-754] canIntrospectAccessToken *)
Definition canIntrospectAccessToken (tokenClientID introspectorClientID : string) : Prog bool :=
  if decide (tokenClientID = introspectorClientID) then Ret true
  else
    let* issuer := CClientsFind tokenClientID in
    match issuer with
    | Err _ => Ret false
    | Ok issuer =>
        Ret (c_Enabled issuer && bool_decide (c_ArchivedAt issuer = None)
             && AllowsIntrospectionBy issuer introspectorClientID)
    end.

(** The members an introspection reply has for either kind of token. *)
Definition token_members (clientID : string) (scope : list string) (issuedAt expiresAt : Time) : Claims :=
  <["active" := VBool true]> (<["scope" := VString (Join scope " ")]> (<["client_id" := VString clientID]>
  (<["exp" := VInt (Unix expiresAt)]> (<["iat" := VInt (Unix issuedAt)]> {["iss" := VString (cfg_Issuer cfg)]})))).

(** The reply with the entitlements of the token's user. *)
Definition with_entitlements (response : Claims) (userID clientID : string) (scope : list string) (failed : string)
    : Prog Reply :=
  let+ response := addEntitlementClaims response userID clientID scope in
  Ret match response with Err _ => writeOAuthError 500 "server_error" failed | Ok response => writeJSON 200 response end.

(** [internal/platform/http/oauth.go:756-783] writeAccessTokenIntrospection *)
Definition writeAccessTokenIntrospection (token : AccessToken) : Prog Reply :=
  let response : Claims := <["token_type" := VString "Bearer"]>
    (token_members (at_ClientID token) (at_Scope token) (at_IssuedAt token) (at_ExpiresAt token)) in
  if decide (at_UserID token ≠ "")
  then
    let+ user := validateOAuthUserGrant (at_UserID token) (at_ClientID token) (at_SessionID token) (at_Scope token) in
    match user with
    | Err _ => Ret inactive
    | Ok user =>
        with_entitlements (<["sub" := VString (u_ID user)]> (<["username" := VString (u_Username user)]> response))
          (u_ID user) (at_ClientID token) (at_Scope token) "token introspection failed"
    end
  else Ret (writeJSON 200 response).

(** [internal/platform/http/oauth.go:785-809] writeRefreshTokenIntrospection *)
Definition writeRefreshTokenIntrospection (token : RefreshToken) : Prog Reply :=
  let scope := elems (rt_Scope token) in
  let+ user := validateOAuthUserGrant (rt_UserID token) (rt_ClientID token) (rt_SessionID token) scope in
  match user with
  | Err _ => Ret inactive
  | Ok user =>
      with_entitlements (<["username" := VString (u_Username user)]> (<["sub" := VString (u_ID user)]>
        (token_members (rt_ClientID token) scope (rt_IssuedAt token) (rt_ExpiresAt token))))
        (u_ID user) (rt_ClientID token) scope "token introspection failed"
  end.

(** The attempt to answer with the access token of this hash; [None] when there is none that
    the client may introspect. *)
Definition introspect_access (hash clientID : string) (now : Time) : Prog (Reply + unit) :=
  let* found := CFindAccessToken hash now in
  match found with
  | Err _ => Ret (inr ())
  | Ok token =>
      let+ allowed := canIntrospectAccessToken (at_ClientID token) clientID in
      if allowed : bool then bind (writeAccessTokenIntrospection token) (λ r, Ret (inl r)) else Ret (inr ())
  end.

(** The attempt at one of its two places: before the refresh tokens, or after them when the
    request hints at a refresh token. *)
Definition introspect_access_when (wanted : bool) (hash clientID : string) (now : Time) : Prog (Reply + unit) :=
  if wanted then introspect_access hash clientID now else Ret (inr ()).

(** [internal/platform/http/oauth.go:690-736] introspect *)
Definition introspect (rq : HttpRequest) : Prog Reply :=
  try+ p := oauth_form rq in
  let '(post, form) := p in
  try+ registered := authenticateConfidentialOAuthClient rq post in
  let raw := Get form "token" in
  if decide (raw = "") then Ret (writeOAuthError 400 "invalid_request" "token is required")
  else
    let hash := HashToken raw in
    let* now := CNow in
    let hinted := bool_decide (Get form "token_type_hint" = "refresh_token") in
    try+ _ := introspect_access_when (negb hinted) hash (c_ID registered) now in
    let* found := CFindRefreshToken hash now in
    match found with
    | Ok token =>
        if decide (rt_ClientID token = c_ID registered) then writeRefreshTokenIntrospection token
        else try+ _ := introspect_access_when hinted hash (c_ID registered) now in Ret inactive
    | Err _ =>
        try+ _ := introspect_access_when hinted hash (c_ID registered) now in Ret inactive
    end.

(** [internal/platform/http/oauth.go:811-853] revokeToken *)
Definition revokeToken (rq : HttpRequest) : Prog Reply :=
  try+ p := oauth_form rq in
  let '(post, form) := p in
  try+ registered := authenticateOAuthClient rq post in
  let raw := Get form "token" in
  if decide (raw = "") then Ret (writeOAuthError 400 "invalid_request" "token is required")
  else
    let hash := HashToken raw in
    let* now := CNow in
    if decide (Get form "token_type_hint" = "refresh_token")
    then
      let* revoked := CStore (OpRevokeRefreshToken hash (c_ID registered) now) in
      match revoked with
      | Ok _ => Ret (reply 200 NoBody)
      | Err _ => let* _ := CStore (OpRevokeAccessToken hash (c_ID registered) now) in Ret (reply 200 NoBody)
      end
    else
      let* revoked := CStore (OpRevokeAccessToken hash (c_ID registered) now) in
      match revoked with
      | Ok _ => Ret (reply 200 NoBody)
      | Err _ => let* _ := CStore (OpRevokeRefreshToken hash (c_ID registered) now) in Ret (reply 200 NoBody)
      end.

Definition invalid_token (description : string) : Reply :=
  writeOAuthChallenge ("Bearer error=" +:+ quoted "invalid_token") 401 "invalid_token" description.

(** The bearer token of a user information request: the header's, or the form's of a POST. *)
Definition bearer_token (rq : HttpRequest) : string :=
  let raw := match Fields (rq_Authorization rq) with
             | [scheme; credentials] => if EqualFold scheme "Bearer" then credentials else ""
             | _ => ""
             end in
  if bool_decide (raw = "") && bool_decide (rq_Method rq = "POST")
  then match ParseForm rq with Some (_, form) => Get form "access_token" | None => raw end
  else raw.

(** [internal/platform/http/oauth.go:855-898] userinfo *)
Definition userinfo (rq : HttpRequest) : Prog Reply :=
  try+ _ := allowOAuthAttempt rq in
  let raw := bearer_token rq in
  let* now := CNow in
  let* found := CFindAccessToken (HashToken raw) now in
  match found with
  | Err _ => Ret (invalid_token "access token is invalid or expired")
  | Ok token =>
      if bool_decide (raw = "") || bool_decide (at_UserID token = "") || negb (Contains (at_Scope token) "openid")
      then Ret (invalid_token "access token is invalid or expired")
      else
        let+ user := validateOAuthUserGrant (at_UserID token) (at_ClientID token) (at_SessionID token) (at_Scope token) in
        match user with
        | Err _ => Ret (invalid_token "user is unavailable")
        | Ok user =>
            let claims : Claims := {["sub" := VString (u_ID user)]} in
            let claims := if Contains (at_Scope token) "profile" then addProfileClaims claims user else claims in
            let claims := if Contains (at_Scope token) "email" then addEmailClaims claims user else claims in
            with_entitlements claims (u_ID user) (at_ClientID token) (at_Scope token) "userinfo failed"
        end
  end.

(** [internal/platform/http/oauth.go:654-672] authenticateConfidentialOAuthClientBasic *)
Definition authenticateConfidentialOAuthClientBasic (rq : HttpRequest) : Prog (Reply + Client) :=
  let refused := writeOAuthChallenge ("Basic realm=" +:+ quoted "certus-access") 401 "invalid_client" in
  match oauthClientBasicCredentials rq with
  | Some (Some (clientID, secret)) =>
      let* found := CClientsFind clientID in
      match found with
      | Err _ => Ret (inl (refused "client authentication failed"))
      | Ok registered =>
          if negb (c_Enabled registered) || negb (SupportsOAuth registered)
             || bool_decide (c_ApplicationType registered ≠ ApplicationConfidential)
             || negb (validOAuthClientSecret registered secret)
          then Ret (inl (refused "client authentication failed"))
          else Ret (inr registered)
      end
  | _ => Ret (inl (refused "confidential client authentication is required"))
  end.
End Endpoints.
