(* ===== verification/TokensProps.v ===== *)
(** What the token endpoints guarantee, whatever happens between their calls. *)
From S2P Require Import Prelude GoStrings GoCrypto OAuthStore OAuthStoreProps Session RateLimit Identity Client Authorize Access AuditLog Http HttpWp Server Tokens.
Local Open Scope Z_scope.
Local Open Scope string_scope.

(** The calls of the administration that only read. *)
Definition admin_reads (op : AdminCall) : bool := match op with AcReplace _ _ _ _ => false | _ => true end.
Definition access_reads (op : AccessCall) : bool :=
  match op with
  | XcRoles _ | XcFindRole _ _ | XcPermissions _ | XcFindPermission _ _ | XcRolePermissions _ _ | XcUserRoles _ _ _ _ => true
  | _ => false
  end.
Definition registry_reads (op : RegistryCall) : bool := match op with KcSystems | KcFindSystem _ => true | _ => false end.
Definition account_reads (op : AccountCall) : bool := match op with UcList _ | UcExternals _ => true | _ => false end.

(** Calls that leave grants, tickets, sessions, passwords and second factors alone. *)
Definition is_read (q : Call) : bool :=
  match q with
  | CStore _ | CCas _ | CSessionsCreate _ _ _ _ _ | CSessionsRevoke _ | CPasswordSet _ _ | CPasswordFailure _ _ _
  | CPasswordSuccess _ | CMfaUseTOTP _ _ | CMfaUseRecoveryCode _ _ | CMfaFailure _ _ _ | CMfaStoreDevice _ _
  | CMfaRotateDevice _ _ _ _ _ | CMfaReplacePending _ _ | CMfaReplaceCodes _ _ | CMfaEnable _ _ _ | CMfaDelete _
  | CMfaDeleteDevices _ | CMfaCountDevices _ _ | CUsersReplace _ | CUsersRegister _ _ | CUsersResolve _ _ | CResetSave _
  | CResetConsume _ _ | CVerificationSave _ | CVerificationUse _ _ _ | CSessionsRevokeForUser _ _ | CSessionsRevokeAll _ _
  | CMail _ => false
  | CAdmin op => admin_reads op
  | CAccess op => access_reads op
  | CRegistry op => registry_reads op
  | CSource _ => false
  | CAccount op => account_reads op
  | CKeys op => match op with JcList | JcPublic => true | _ => false end
  | _ => true
  end.

Section Props.
Context `{MapRange, UnicodeTables, MailParser, TokenSigner} (cfg : Config).

(** ** What the checks establish *)

(** The calls show that the user is active, that the session the grant is bound to is
    active, and that the user's consent covers the scope. *)
Definition grant_checked (userID clientID sessionID : string) (scope : list string) (past : list Did) : Prop :=
  (∃ user, did (CUsersFind userID) (Ok user) ∈ past ∧ u_Status user = UserActive) ∧
  (sessionID ≠ "" → did (CSessionsIsActive userID sessionID) (Ok true) ∈ past) ∧
  (∃ consent, did (CFindConsent userID clientID) (Ok consent) ∈ past ∧ scope ⊆ co_Scopes consent).

Lemma grant_checked_mono u c s sc past past' : past `prefix_of` past' → grant_checked u c s sc past → grant_checked u c s sc past'.
Proof.
  intros Hp ((user & Hu & ?) & Hs & (consent & Hc & ?)).
  split_and!; [exists user|intros|exists consent]; eauto using did_prefix.
Qed.

(** The credentials a request presents: in the [Authorization] header, in the body, or
    the identifier alone. *)
Inductive presents (rq : HttpRequest) (post : Values) : string → string → string → Prop :=
| presents_basic id secret :
    oauthClientBasicCredentials rq = Some (Some (id, secret)) →
    presents rq post id secret TokenEndpointAuthSecretBasic
| presents_post secret :
    oauthClientBasicCredentials rq = None → post !! "client_secret" = Some [secret] →
    presents rq post (TrimSpace (Get post "client_id")) secret TokenEndpointAuthSecretPost
| presents_none :
    oauthClientBasicCredentials rq = None → default [] (post !! "client_secret") = [] →
    presents rq post (TrimSpace (Get post "client_id")) "" TokenEndpointAuthNone.

(** The calls show that the client is registered, enabled and an OAuth client, that it
    used the method it is registered with, and, when it is confidential, that the secret
    is the one whose digest is stored. *)
Definition authenticated (rq : HttpRequest) (post : Values) (c : Client) (past : list Did) : Prop :=
  ∃ id secret method, presents rq post id secret method ∧
    did (CClientsFind id) (Ok c) ∈ past ∧ c_Enabled c = true ∧ SupportsOAuth c = true ∧
    method = EffectiveTokenEndpointAuthMethod c ∧
    (c_ApplicationType c = ApplicationConfidential →
     secret ≠ "" ∧ of_bytes (sha256 (bytes secret)) = c_SecretHash c).

Lemma wp_validate_user φ past u c s sc (post : list Did → Res string User → Prop) :
  (∀ past q, is_read q = true → φ past q) →
  (∀ past' r, past `prefix_of` past' →
     (∀ user, r = Ok user → grant_checked u c s sc past' ∧ did (CUsersFind u) (Ok user) ∈ past') → post past' r) →
  wp φ past (validateOAuthUserGrant u c s sc) post.
Proof.
  intros Hread Hpost. apply wp_frame. unfold validateOAuthUserGrant. wp_steps; try by apply Hread.
  all: intros Hpre; apply Hpost; [done|]; intros user0 Hr; simplify_eq; unfold Covers in *; reflect.
  all: match goal with Hc : ScopesCover _ _ = true |- _ => rewrite ScopesCover_subseteq in Hc end.
  all: unfold grant_checked; split_and!; [eexists; split; [auto 6 with did|by apply dec_stable]|intros; done || auto 6 with did| |auto 6 with did].
  all: eexists; split; [auto 6 with did|done].
Qed.

Lemma wp_validate φ past u c s sc (post : list Did → Res string User → Prop) :
  (∀ past q, is_read q = true → φ past q) →
  (∀ past' r, past `prefix_of` past' → (∀ user, r = Ok user → grant_checked u c s sc past') → post past' r) →
  wp φ past (validateOAuthUserGrant u c s sc) post.
Proof. intros Hread Hpost. apply wp_validate_user; [done|]. intros past' r Hp Hr. apply Hpost; [done|]. intros. by eapply Hr. Qed.

(** A reply that refuses the request. *)
Definition refusal (r : Reply) : Prop := re_Status r ≠ 200 ∧ ∀ m, re_Body r ≠ JsonBody m.

Lemma wp_rate φ past scope subject policy oauthStyle (post : list Did → Reply + unit → Prop) :
  (∀ past q, is_read q = true → φ past q) →
  (∀ past' r, past `prefix_of` past' → match r with inl e => refusal e | inr _ => True end → post past' r) →
  wp φ past (allowRateLimitedRequest scope subject policy oauthStyle) post.
Proof.
  intros Hread Hpost. apply wp_frame. unfold allowRateLimitedRequest. wp_steps; try by apply Hread.
  all: intros Hpre; apply Hpost; [done|]; try done; by destruct oauthStyle.
Qed.

Lemma secret_checked c secret :
  c_ApplicationType c ≠ ApplicationConfidential ∨ validOAuthClientSecret c secret = true →
  c_ApplicationType c = ApplicationConfidential → secret ≠ "" ∧ of_bytes (sha256 (bytes secret)) = c_SecretHash c.
Proof. unfold validOAuthClientSecret. intros [?|Hv] ?; [done|]. by reflect. Qed.

Lemma one_value (values : Values) key :
  length (default [] (values !! key)) = 1%nat → values !! key = Some [Get values key].
Proof. unfold Get. destruct (values !! key) as [[|? []]|]; simpl; [done| |done..]. done. Qed.

Lemma wp_authenticate φ past rq body (post : list Did → Reply + Client → Prop) :
  (∀ past q, is_read q = true → φ past q) →
  (∀ past' r, past `prefix_of` past' →
     match r with inl e => refusal e | inr c => authenticated rq body c past' end → post past' r) →
  wp φ past (authenticateOAuthClient rq body) post.
Proof.
  intros Hread Hpost. apply wp_frame. unfold authenticateOAuthClient, check_client.
  assert (∀ m, refusal (writeInvalidOAuthClient m)) as Hinvalid by (intros m; unfold writeInvalidOAuthClient; by case_decide).
  wp_steps; try (by apply Hread); intros Hpre; apply Hpost; try done.
  all: reflect; match goal with Hm : ¬ _ ≠ _ |- _ => apply dec_stable in Hm end; destruct_and?.
  - destruct p as [basicID basicSecret]. simplify_eq. eexists _, _, _. split; [by apply presents_basic|].
    split_and!; [auto with did|done..|by apply secret_checked].
  - assert (oauthClientBasicCredentials rq = None) as Hbasic by (by destruct (oauthClientBasicCredentials rq) as [[]|]).
    case_bool_decide as Hone; simplify_eq; eexists _, _, _.
    + split; [apply presents_post; [done|by apply one_value]|].
      split_and!; [auto with did|done..|by apply secret_checked].
    + split; [apply presents_none; [done|]|].
      { destruct (default [] (body !! "client_secret")) as [|? []]; simpl in *; [done|done|lia]. }
      split_and!; [auto with did|done..|by apply secret_checked].
Qed.

(** ** What an access token is issued on *)

(** An access token of the client, for this user, session, family and scope. *)
Definition issued_for (c : Client) (userID sessionID familyID : string) (scope : list string) (v : AccessToken) : Prop :=
  at_ClientID v = c_ID c ∧ at_UserID v = userID ∧ at_SessionID v = sessionID ∧ at_FamilyID v = familyID ∧
  at_Scope v = scope ∧ at_ExpiresAt v = at_IssuedAt v + AccessTokenLifetime c.

Lemma wp_issueAccessToken φ past c userID sessionID familyID scope (post : list Did → Res string Claims → Prop) :
  (∀ past q, is_read q = true → φ past q) →
  (∀ past' v, past `prefix_of` past' → issued_for c userID sessionID familyID scope v → φ past' (CStore (OpSaveAccessToken v))) →
  (∀ past' r, past `prefix_of` past' → post past' r) →
  wp φ past (issueAccessToken c userID sessionID familyID scope) post.
Proof.
  intros Hread Hsave Hpost. unfold issueAccessToken. wp_steps; try by apply Hread.
  all: try (apply Hsave; [|done]); try apply Hpost; pre.
Qed.

(** Saves that are not of access tokens. *)
Definition other_save (q : Call) : bool :=
  match q with
  | CStore (OpSaveRefreshToken _) | CStore (OpSaveOIDCClientSession _) => true
  | _ => is_read q
  end.

(** Steps of an issuance that save no access token. *)
Section Harmless.
Context (φ : list Did → Call → Prop) (Hother : ∀ past q, other_save q = true → φ past q).

Lemma wp_entitlements past claims userID clientID scope (post : list Did → Res string Claims → Prop) :
  (∀ past' r, past `prefix_of` past' → post past' r) →
  wp φ past (addEntitlementClaims claims userID clientID scope) post.
Proof. intros Hpost. unfold addEntitlementClaims. wp_steps; (by apply Hother) || apply Hpost; pre. Qed.

Lemma wp_draw_refresh past c allow (post : list Did → Res string (string * string) → Prop) :
  (∀ past' r, past `prefix_of` past' → post past' r) → wp φ past (draw_refresh c allow) post.
Proof. intros Hpost. unfold draw_refresh. wp_steps; (by apply Hother) || apply Hpost; pre. Qed.

Lemma wp_save_refresh past c userID sessionID raw familyID scope response (post : list Did → Res string Claims → Prop) :
  (∀ past' r, past `prefix_of` past' → post past' r) →
  wp φ past (save_refresh c userID sessionID raw familyID scope response) post.
Proof. intros Hpost. unfold save_refresh. wp_steps; (by apply Hother) || apply Hpost; pre. Qed.

Lemma wp_sign_id_token past c user userID sessionID nonce scope t methods level response (post : list Did → Res string Claims → Prop) :
  (∀ past' r, past `prefix_of` past' → post past' r) →
  wp φ past (sign_id_token cfg c user userID sessionID nonce scope t methods level response) post.
Proof.
  intros Hpost. unfold sign_id_token. wp_step; [apply Hpost; pre|]. wp_steps; [by apply Hother|].
  apply wp_entitlements. intros past1 claims Hp. wp_steps; (by apply Hother) || apply Hpost; pre.
Qed.
End Harmless.

Lemma wp_issueUserTokens φ past c userID sessionID scope nonce t methods level allow (post : list Did → Res string Claims → Prop) :
  (∀ past q, other_save q = true → φ past q) →
  (∀ past' familyID v, past `prefix_of` past' → grant_checked userID (c_ID c) sessionID scope past' →
     issued_for c userID sessionID familyID scope v → φ past' (CStore (OpSaveAccessToken v))) →
  (∀ past' r, past `prefix_of` past' → post past' r) →
  wp φ past (issueUserTokens cfg c userID sessionID scope nonce t methods level allow) post.
Proof.
  intros Hother Hsave Hpost.
  assert (∀ past q, is_read q = true → φ past q) as Hread by (intros p0 q Hq; apply Hother; by destruct q).
  unfold issueUserTokens. apply wp_bind, wp_validate; [done|]. intros past1 user Hp1 Huser. wp_step; [|by apply Hpost].
  assert (grant_checked userID (c_ID c) sessionID scope past1) as Hchecked by by eapply Huser.
  apply wp_bind, wp_draw_refresh; [done|]. intros past2 drawn Hp2. wp_steps; [|apply Hpost; pre].
  apply wp_issueAccessToken; [done| |].
  { intros past3 v Hp3. apply Hsave; [pre|]. eapply grant_checked_mono; [|done]. pre. }
  intros past3 response Hp3. wp_steps; [|apply Hpost; pre].
  apply wp_save_refresh; [done|]. intros past4 response' Hp4. wp_steps; [|apply Hpost; pre].
  apply wp_sign_id_token; [done|]. intros past5 r Hp5. apply Hpost. pre.
Qed.

(** The grounds on which the token endpoint saves an access token. *)
Inductive entitled (form : Values) (c : Client) (past : list Did) (v : AccessToken) : Prop :=
| by_code now record family :
    Get form "grant_type" = GrantAuthorizationCode →
    did (CStore (OpConsumeAuthorizationCode (HashToken (Get form "code")) (c_ID c) (Get form "redirect_uri")
           (RawURLEncoding_EncodeToString (sha256 (bytes (Get form "code_verifier")))) now)) (Ok record) ∈ past →
    issued_for c (ac_UserID record) (ac_SessionID record) family (ac_Scope record) v →
    grant_checked (ac_UserID record) (c_ID c) (ac_SessionID record) (ac_Scope record) past →
    entitled form c past v
| by_refresh now replacement current scope :
    Get form "grant_type" = GrantRefreshToken →
    did (CStore (OpRotateRefreshToken (HashToken (Get form "refresh_token")) replacement now)) (Ok current) ∈ past →
    rt_ClientID replacement = c_ID c → scope = default (elems (rt_Scope current)) (rt_Scope replacement) →
    issued_for c (rt_UserID current) (rt_SessionID current) (rt_FamilyID current) scope v →
    grant_checked (rt_UserID current) (rt_ClientID current) (rt_SessionID current) scope past →
    entitled form c past v
| by_client scope :
    Get form "grant_type" = GrantClientCredentials →
    c_ApplicationType c = ApplicationConfidential → scope ⊆ c_AllowedScopes c →
    "openid" ∉ scope → "roles" ∉ scope →
    issued_for c "" "" "" scope v →
    entitled form c past v
| by_device now record family :
    Get form "grant_type" = GrantDeviceCode →
    did (CStore (OpPollDeviceAuthorization (HashToken (Get form "device_code")) (c_ID c) now)) (Ok record) ∈ past →
    issued_for c (da_UserID record) "" family (da_Scope record) v →
    grant_checked (da_UserID record) (c_ID c) "" (da_Scope record) past →
    entitled form c past v.

(** What is known at every call of the token endpoint. *)
Definition token_guard (rq : HttpRequest) (past : list Did) (q : Call) : Prop :=
  match q with
  | CStore (OpSaveAccessToken v) =>
      ∃ body form c, ParseForm rq = Some (body, form) ∧ authenticated rq body c past ∧
        SupportsGrant c (Get form "grant_type") = true ∧ entitled form c past v
  | _ => True
  end.

Lemma requested_within raw c req scope : requestedScopes raw c req = Ok scope → scope ⊆ c_AllowedScopes c.
Proof.
  unfold requestedScopes. intros Hr. branches; intros s Hs.
  all: match goal with Hf : list_find _ _ = None |- _ => apply list_find_None in Hf; rewrite Forall_forall in Hf; specialize (Hf s Hs) end.
  all: by apply Contains_true, not_false_is_true.
Qed.

Lemma authenticated_mono rq body c past past' : past `prefix_of` past' → authenticated rq body c past → authenticated rq body c past'.
Proof. intros Hp (id & secret & method & ? & Hc & ?). exists id, secret, method. eauto using did_prefix. Qed.

Section Grants.
Context (rq : HttpRequest) (body form : Values) (c : Client) (Hform : ParseForm rq = Some (body, form)).

Lemma guard_other past q : other_save q = true → token_guard rq past q.
Proof. by call_cases q. Qed.

Lemma wp_code past post :
  authenticated rq body c past → Get form "grant_type" = GrantAuthorizationCode →
  (∀ past' r, past `prefix_of` past' → post past' r) →
  wp (token_guard rq) past (authorizationCodeToken cfg form c) post.
Proof.
  intros Hauth Hgrant Hpost. unfold authorizationCodeToken. wp_steps; try (apply Hpost; pre).
  apply wp_issueUserTokens; [apply guard_other| |intros; apply Hpost; pre].
  intros past' family v Hp Hc Hv. exists body, form, c. split; [done|]. split; [eapply authenticated_mono; [|done]; pre|].
  split; [rewrite Hgrant; by reflect|].
  eapply by_code; [done| |done..]. eapply did_prefix; [done|]. auto with did.
Qed.

Lemma wp_refresh past post :
  authenticated rq body c past → Get form "grant_type" = GrantRefreshToken →
  (∀ past' r, past `prefix_of` past' → post past' r) →
  wp (token_guard rq) past (refreshToken form c) post.
Proof.
  intros Hauth Hgrant Hpost. unfold refreshToken. wp_steps; try (apply Hpost; pre); try exact I.
  apply wp_validate; [intros; apply guard_other; by destruct q|]. intros past1 user Hp1 Huser.
  wp_steps; try (apply Hpost; pre).
  apply wp_issueAccessToken; [intros; apply guard_other; by destruct q| |].
  - intros past2 v Hp2 Hv. exists body, form, c. split; [done|]. split; [eapply authenticated_mono; [|done]; pre|].
    split; [rewrite Hgrant; by reflect|].
    eapply by_refresh; [done|eapply did_prefix; [done|]; eapply did_prefix; [done|]; apply did_last|done..|].
    eapply grant_checked_mono; [|by eapply Huser]. pre.
  - intros past2 r Hp2. wp_steps; apply Hpost; pre.
Qed.

Lemma wp_client past post :
  authenticated rq body c past → Get form "grant_type" = GrantClientCredentials →
  (∀ past' r, past `prefix_of` past' → post past' r) →
  wp (token_guard rq) past (clientCredentialsToken form c) post.
Proof.
  intros Hauth Hgrant Hpost. unfold clientCredentialsToken. wp_steps; try (apply Hpost; pre).
  apply wp_issueAccessToken; [intros; apply guard_other; by destruct q| |intros; apply Hpost; pre].
  intros past' v Hp Hv. exists body, form, c. split; [done|]. split; [eapply authenticated_mono; [|done]; pre|].
  reflect. destruct_and?. split; [by rewrite Hgrant|].
  eapply by_client; [done|by apply dec_stable|by eapply requested_within|done..].
Qed.

Lemma wp_device past post :
  authenticated rq body c past → Get form "grant_type" = GrantDeviceCode →
  (∀ past' r, past `prefix_of` past' → post past' r) →
  wp (token_guard rq) past (deviceCodeToken cfg form c) post.
Proof.
  intros Hauth Hgrant Hpost. unfold deviceCodeToken. wp_steps; try (apply Hpost; pre).
  apply wp_issueUserTokens; [apply guard_other| |intros; apply Hpost; pre].
  intros past' family v Hp Hc Hv. exists body, form, c. split; [done|]. split; [eapply authenticated_mono; [|done]; pre|].
  split; [rewrite Hgrant; by reflect|].
  eapply by_device; [done| |done..]. eapply did_prefix; [done|]. auto with did.
Qed.
End Grants.

Lemma wp_form φ past rq (post : list Did → Reply + (Values * Values) → Prop) :
  (∀ past q, is_read q = true → φ past q) →
  (∀ past' r, past `prefix_of` past' →
     match r with inl e => refusal e | inr p => ParseForm rq = Some p end → post past' r) →
  wp φ past (oauth_form cfg rq) post.
Proof.
  intros Hread Hpost. unfold oauth_form. wp_steps; try (by apply Hpost).
  apply wp_bind, wp_rate; [done|]. intros past' [e|u] Hp Hr; by apply Hpost.
Qed.

Lemma wp_token rq : wp (token_guard rq) [] (token cfg rq) (λ _ _, True).
Proof.
  assert (∀ past q, is_read q = true → token_guard rq past q) as Hread by (intros past q Hq; apply guard_other; by destruct q).
  unfold token. apply wp_try, wp_form; [done|]. intros past1 [e|[body form]] _ Hform; [done|].
  apply wp_try, wp_authenticate; [done|]. intros past2 [e|c] _ Hauth; [done|].
  wp_steps; eauto using wp_code, wp_refresh, wp_client, wp_device.
Qed.

(** C3. Every access token that the token endpoint saves was earned. Whatever happens
    between its calls, before it saves a token it has established that the client is
    registered, enabled, uses its registered authentication method and, when it is
    confidential, knows its secret; that the client may use the grant; and the grounds
    of the token: a code, refresh token or device code consumed for this client, whose
    user, session and scope the token carries, with the user active, the session
    active and the user's consent covering the scope; or, without a user, a
    confidential client's own allowed scopes. A refresh never widens the scope. *)
Theorem access_tokens_justified rely rq w tr w' r before v x after :
  runs rely (token cfg rq) w tr w' r →
  tr = (before ++ did (CStore (OpSaveAccessToken v)) x :: after)%list →
  (∃ body form c, ParseForm rq = Some (body, form) ∧ authenticated rq body c before ∧
     SupportsGrant c (Get form "grant_type") = true ∧ entitled form c before v) ∧
  (∀ h replacement now current, did (CStore (OpRotateRefreshToken h replacement now)) (Ok current) ∈ before →
     default (elems (rt_Scope current)) (rt_Scope replacement) ⊆ elems (rt_Scope current)).
Proof.
  intros Hr Htr. split.
  { destruct (wp_runs _ _ _ _ _ _ _ _ (wp_token rq) Hr) as [_ Hguard]. exact (Hguard _ _ _ _ Htr). }
  intros h replacement now current Hin.
  assert (did (CStore (OpRotateRefreshToken h replacement now)) (Ok current) ∈ tr) as Htr_in by (rewrite Htr; by apply elem_of_app; left).
  destruct (runs_performed _ _ _ _ _ _ _ _ Hr Htr_in) as [w1 Hw1].
  simpl in Hw1. destruct (RotateRefreshToken (w_oauth w1) h replacement now) as [r' resp] eqn:E. simpl in Hw1. subst resp.
  apply rotate_live in E as (i & t & _ & <- & _ & _ & _ & _ & Hsub & _).
  revert Hsub. unfold inherit. simpl. rewrite elems_slice_copy. destruct (rt_Scope replacement); simpl; done.
Qed.

(** ** Redemption *)

(** A grant that a token request can present: a code, a refresh token, or a device code
    of a client. *)
Inductive GrantRef := GCode (hash : string) | GRefresh (hash : string) | GDevice (hash clientID : string).

Definition grant_win (g : GrantRef) : StoreOp → StoreResp → bool :=
  match g with GCode h => code_win h | GRefresh h => refresh_win h | GDevice h c => device_win h c end.
Definition grant_spent (g : GrantRef) : OAuthStore.MemoryRepository → Prop :=
  match g with GCode h => code_spent h | GRefresh h => refresh_spent h | GDevice h c => device_spent h c end.

Lemma grant_spends g : spends (grant_win g) (grant_spent g).
Proof. destruct g; [apply code_spends|apply refresh_spends|apply device_spends]. Qed.

(** The call presents the grant to the store. *)
Definition presents_grant (g : GrantRef) (q : Call) : bool :=
  match g, q with
  | GCode h, CStore (OpConsumeAuthorizationCode h' _ _ _ _) => bool_decide (h' = h)
  | GRefresh h, CStore (OpRotateRefreshToken h' _ _) => bool_decide (h' = h)
  | GDevice h c, CStore (OpPollDeviceAuthorization h' c' _) => bool_decide (h' = h ∧ c' = c)
  | _, _ => false
  end.

(** Calls that present no grant. *)
Definition no_grant (q : Call) : Prop := ∀ g, presents_grant g q = false.

(** Every presentation of the grant among the calls succeeded. *)
Definition all_win (g : GrantRef) (past : list Did) : Prop :=
  ∀ d, d ∈ past → presents_grant g (projT1 d) = true → store_win (grant_win g) d = true.

Lemma all_win_app g past l : all_win g past → all_win g l → all_win g (past ++ l).
Proof. intros Hp Hl d [?|?]%elem_of_app; auto. Qed.
Lemma all_win_quiet g l : Forall (λ d, no_grant (projT1 d)) l → all_win g l.
Proof. intros Hall d Hd Hp. rewrite Forall_forall in Hall. specialize (Hall d Hd g). congruence. Qed.
Lemma all_win_one g q x : (presents_grant g q = true → store_win (grant_win g) (did q x) = true) → all_win g [did q x].
Proof. intros Hw d ->%list_elem_of_singleton. done. Qed.

Lemma read_no_grant q : is_read q = true → no_grant q.
Proof. intros Hq []; by destruct q. Qed.
Lemma other_no_grant q : other_save q = true → no_grant q.
Proof. intros Hq []; by call_cases q. Qed.

(** A part of a handler that presents no grant. *)
Lemma wp_quiet {A} g past (p : Prog A) (post : list Did → A → Prop) :
  wp (λ _ q, no_grant q) past p (λ _ _, True) → all_win g past →
  (∀ past' a, all_win g past' → post past' a) → wp (λ _ _, True) past p post.
Proof.
  intros Hquiet Hpast Hpost. eapply wp_only; [done|]. eapply (wp_mono (λ _ q, no_grant q)); [done| |exact Hquiet].
  intros past' a _ (l & -> & Hl). by apply Hpost, all_win_app; [|apply all_win_quiet].
Qed.

Lemma quiet_issue past c u s f scope : wp (λ _ q, no_grant q) past (issueAccessToken c u s f scope) (λ _ _, True).
Proof. apply wp_issueAccessToken; [intros ? q; apply read_no_grant|by intros ? ? ? ? []|done]. Qed.

Lemma quiet_issueUserTokens past c u s scope nonce t methods level allow :
  wp (λ _ q, no_grant q) past (issueUserTokens cfg c u s scope nonce t methods level allow) (λ _ _, True).
Proof. apply wp_issueUserTokens; [intros ? q; apply other_no_grant|by intros ? ? ? ? ? ? []|done]. Qed.

Ltac all_win :=
  repeat apply all_win_app; [assumption|apply all_win_one; match goal with g : GrantRef |- _ => by destruct g end..].

Lemma wp_code_wins g form c past :
  all_win g past → wp (λ _ _, True) past (authorizationCodeToken cfg form c) (λ past r, re_Status r = 200 → all_win g past).
Proof.
  intros Hpast. unfold authorizationCodeToken. wp_steps; try done.
  eapply (wp_quiet g); [apply quiet_issueUserTokens| |].
  - all_win.
  - intros past' response Hwin. unfold issued. by apply wp_ret.
Qed.

Lemma wp_refresh_wins g form c past :
  all_win g past → wp (λ _ _, True) past (refreshToken form c) (λ past r, re_Status r = 200 → all_win g past).
Proof.
  intros Hpast. unfold refreshToken. wp_steps; try done.
  eapply (wp_quiet g); [apply wp_validate; [intros ? q; apply read_no_grant|done]| |].
  { all_win. }
  intros past1 user H1w. wp_steps; try done. eapply (wp_quiet g); [apply quiet_issue|done|].
  intros past2 response H2w. wp_steps; done.
Qed.

Lemma wp_device_wins g form c past :
  all_win g past → wp (λ _ _, True) past (deviceCodeToken cfg form c) (λ past r, re_Status r = 200 → all_win g past).
Proof.
  intros Hpast. unfold deviceCodeToken. wp_steps; try done.
  eapply (wp_quiet g); [apply quiet_issueUserTokens| |].
  - all_win.
  - intros past' response Hwin. unfold issued. by apply wp_ret.
Qed.

Lemma wp_client_wins g form c past :
  all_win g past → wp (λ _ _, True) past (clientCredentialsToken form c) (λ past r, re_Status r = 200 → all_win g past).
Proof.
  intros Hpast. unfold clientCredentialsToken. wp_steps; try done.
  eapply (wp_quiet g); [apply quiet_issue|done|]. intros past' response Hwin. unfold issued. by apply wp_ret.
Qed.

Lemma wp_token_wins g rq : wp (λ _ _, True) [] (token cfg rq) (λ past r, re_Status r = 200 → all_win g past).
Proof.
  unfold token. apply wp_try, (wp_only no_grant).
  { apply wp_form; [intros ? q; apply read_no_grant|done]. }
  apply wp_form; [done|]. intros past1 [e|[body form]] _ Hr1 (l & -> & Hl); [by destruct Hr1|].
  apply wp_try, (wp_only no_grant).
  { apply wp_authenticate; [intros ? q; apply read_no_grant|done]. }
  apply wp_authenticate; [done|]. intros past2 [e|c] _ Hr2 (l2 & -> & Hl2); [by destruct Hr2|].
  assert (all_win g (([] ++ l) ++ l2)) as Hwin by (apply all_win_quiet; by apply Forall_app_2).
  wp_steps; eauto using wp_code_wins, wp_refresh_wins, wp_client_wins, wp_device_wins.
Qed.

(** ** The revocation endpoint *)

(** The client holds an access token, or a refresh token, of this hash. *)
Definition owns_access (h c : string) (r : OAuthStore.MemoryRepository) : Prop :=
  ∃ t, t ∈ accessTokens r ∧ at_Hash (mat_token t) = h ∧ at_ClientID (mat_token t) = c.
Definition owns_refresh (h c : string) (r : OAuthStore.MemoryRepository) : Prop :=
  ∃ t, t ∈ refresh r ∧ rt_Hash (mrt_token t) = h ∧ rt_ClientID (mrt_token t) = c.

Lemma in_dec {A} (P : A → Prop) `{∀ x, Decision (P x)} (l : list A) : Decision (∃ x, x ∈ l ∧ P x).
Proof. destruct (decide (Exists P l)) as [He|He]; [left|right]; by rewrite Exists_exists in He. Defined.

#[export] Instance owns_access_dec h c r : Decision (owns_access h c r).
Proof. refine (in_dec (λ t, at_Hash (mat_token t) = h ∧ at_ClientID (mat_token t) = c) _). Defined.
#[export] Instance owns_refresh_dec h c r : Decision (owns_refresh h c r).
Proof. refine (in_dec (λ t, rt_Hash (mrt_token t) = h ∧ rt_ClientID (mrt_token t) = c) _). Defined.

(** It is revoked. *)
Definition access_revoked (h c : string) (r : OAuthStore.MemoryRepository) : Prop :=
  ∃ t, t ∈ accessTokens r ∧ at_Hash (mat_token t) = h ∧ at_ClientID (mat_token t) = c ∧ mat_revokedAt t ≠ None.
Definition refresh_revoked (h c : string) (r : OAuthStore.MemoryRepository) : Prop :=
  ∃ t, t ∈ refresh r ∧ rt_Hash (mrt_token t) = h ∧ rt_ClientID (mrt_token t) = c ∧ mrt_revokedAt t ≠ None.

Lemma grows_in {A} (R : relation A) l l' x : grows R l l' → x ∈ l → ∃ y, y ∈ l' ∧ R x y.
Proof.
  intros Hg [i Hi]%list_elem_of_lookup_1. apply Hg in Hi as (y & Hy & HR). exists y. split; [by eapply list_elem_of_lookup_2|done].
Qed.

Lemma owns_access_le h c r r' : store_le r r' → owns_access h c r → owns_access h c r'.
Proof. intros [_ Hg _ _] (t & Ht & ? & ?). destruct (grows_in _ _ _ _ Hg Ht) as (t' & Ht' & Heq & _). exists t'. by rewrite Heq. Qed.
Lemma owns_refresh_le h c r r' : store_le r r' → owns_refresh h c r → owns_refresh h c r'.
Proof. intros [_ _ Hg _] (t & Ht & ? & ?). destruct (grows_in _ _ _ _ Hg Ht) as (t' & Ht' & Heq & _). exists t'. by rewrite Heq. Qed.
Lemma access_revoked_le h c r r' : store_le r r' → access_revoked h c r → access_revoked h c r'.
Proof.
  intros [_ Hg _ _] (t & Ht & ? & ? & ?). destruct (grows_in _ _ _ _ Hg Ht) as (t' & Ht' & Heq & Hs). exists t'.
  rewrite Heq. split_and!; auto.
Qed.
Lemma refresh_revoked_le h c r r' : store_le r r' → refresh_revoked h c r → refresh_revoked h c r'.
Proof.
  intros [_ _ Hg _] (t & Ht & ? & ? & ?). destruct (grows_in _ _ _ _ Hg Ht) as (t' & Ht' & Heq & _ & Hs). exists t'.
  rewrite Heq. split_and!; auto.
Qed.

(** A revocation finds what the client owns, and revokes it. *)
Lemma revoke_access_spec h c now r :
  ((RevokeAccessToken r h c now).2 = Ok () ∧ owns_access h c r ∧ access_revoked h c (RevokeAccessToken r h c now).1) ∨
  ((RevokeAccessToken r h c now).2 = Err ErrGrantNotFound ∧ ¬ owns_access h c r).
Proof.
  unfold RevokeAccessToken. destruct (list_find _ _) as [[i t]|] eqn:E.
  - left. apply list_find_Some in E as (Hi & [Hh Hc] & _).
    split; [done|]. split; [exists t; split; [by eapply list_elem_of_lookup_2|done]|].
    case_decide; simpl; [exists (rv_revoke now t)|exists t]; (split; [|done]).
    + eapply (list_elem_of_lookup_2 _ i), list_lookup_insert_eq. by eapply lookup_lt_Some.
    + by eapply list_elem_of_lookup_2.
  - right. split; [done|]. intros (t & Ht & Hh & Hc). apply list_find_None in E. rewrite Forall_forall in E. by apply (E t).
Qed.

Lemma revoke_refresh_spec h c now r :
  ((RevokeRefreshToken r h c now).2 = Ok () ∧ owns_refresh h c r ∧ refresh_revoked h c (RevokeRefreshToken r h c now).1) ∨
  ((RevokeRefreshToken r h c now).2 = Err ErrGrantNotFound ∧ ¬ owns_refresh h c r).
Proof.
  unfold RevokeRefreshToken. destruct (list_find _ _) as [[i t]|] eqn:E.
  - left. apply list_find_Some in E as (Hi%list_elem_of_lookup_2 & Hp & _).
    apply Decidable.not_or in Hp as [Hh%dec_stable Hc%dec_stable]. split; [done|]. split; [by exists t|].
    destruct (revoke_family_dead (rt_FamilyID (mrt_token t)) now r) as [Hdead _].
    destruct (revoke_family_le (rt_FamilyID (mrt_token t)) now r) as [_ _ Hg _].
    destruct (grows_in _ _ _ _ Hg Hi) as (t' & Ht' & Heq & _). exists t'. rewrite Heq. split_and!; [done..|].
    apply Hdead; [done|by rewrite Heq].
  - right. split; [done|]. intros (t & Ht & Hh & Hc). apply list_find_None in E. rewrite Forall_forall in E. apply (E t); [done|]. by intros [].
Qed.

Lemma wp_revoke rq body form :
  ParseForm rq = Some (body, form) →
  wp (λ _ _, True) [] (revokeToken cfg rq) (λ past r, re_Status r = 200 →
    ∃ c, authenticated rq body c past ∧ ∃ now,
      let h := HashToken (Get form "token") in
      did (CStore (OpRevokeAccessToken h (c_ID c) now)) (Ok ()) ∈ past ∨
      did (CStore (OpRevokeRefreshToken h (c_ID c) now)) (Ok ()) ∈ past ∨
      (∃ e1 e2, did (CStore (OpRevokeAccessToken h (c_ID c) now)) (Err e1) ∈ past ∧
                did (CStore (OpRevokeRefreshToken h (c_ID c) now)) (Err e2) ∈ past)).
Proof.
  intros Hform. unfold revokeToken. apply wp_try, wp_form; [done|]. intros past1 [e|[body' form']] _ Hr1; [by destruct Hr1|]. simplify_eq.
  apply wp_try, wp_authenticate; [done|]. intros past2 [e|c] _ Hauth; [by destruct Hauth|]. wp_steps; try done; intros _.
  all: exists c; split; [eapply authenticated_mono; [|done]; pre|]; eexists.
  all: repeat match goal with x : Answer _ |- _ => simpl in x | u : () |- _ => destruct u | x : Res _ () |- _ => destruct x as [[]|?] end.
  all: simplify_eq; eauto 8 with did.
Qed.

(** No two tokens have the same hash. *)
Definition hashes_unique (r : OAuthStore.MemoryRepository) : Prop :=
  NoDup ((λ t, at_Hash (mat_token t)) <$> accessTokens r) ∧ NoDup ((λ t, rt_Hash (mrt_token t)) <$> refresh r).

#[export] Instance hashes_unique_dec r : Decision (hashes_unique r).
Proof. unfold hashes_unique. apply _. Defined.

Lemma NoDup_key {A} (f : A → string) l x y : NoDup (f <$> l) → x ∈ l → y ∈ l → f x = f y → x = y.
Proof.
  intros Hnd [i Hi]%list_elem_of_lookup_1 [j Hj]%list_elem_of_lookup_1 Hf.
  assert (i = j) as ->; [|congruence]. eapply NoDup_lookup; [done|by rewrite list_lookup_fmap, Hi|rewrite list_lookup_fmap, Hj; simpl; congruence].
Qed.

Lemma access_revoked_unusable h c r now : hashes_unique r → access_revoked h c r → FindAccessToken r h now = Err ErrGrantNotFound.
Proof.
  intros [Hu _] (t & Ht & Hh & _ & Hrev). unfold FindAccessToken. destruct (list_find _ _) as [[i t']|] eqn:E; [|done].
  apply list_find_Some in E as (Hi%list_elem_of_lookup_2 & (Hh' & Hrev' & _) & _).
  rewrite (NoDup_key _ _ _ _ Hu Ht Hi) in Hrev by congruence. done.
Qed.

Lemma refresh_revoked_unusable h c r now v :
  hashes_unique r → refresh_revoked h c r →
  FindRefreshToken r h now = Err ErrGrantNotFound ∧ is_ok (RotateRefreshToken r h v now).2 = false.
Proof.
  intros [_ Hu] (t & Ht & Hh & _ & Hrev). split.
  - unfold FindRefreshToken. destruct (list_find _ _) as [[i t']|] eqn:E; [|done].
    apply list_find_Some in E as (Hi%list_elem_of_lookup_2 & (Hh' & _ & Hrev' & _) & _).
    rewrite (NoDup_key _ _ _ _ Hu Ht Hi) in Hrev by congruence. done.
  - destruct (RotateRefreshToken r h v now) as [r' [tok|e]] eqn:E; [|done]. exfalso.
    apply rotate_live in E as (i & t' & Hf & _ & _ & Hrev' & _).
    apply list_find_Some in Hf as (Hi%list_elem_of_lookup_2 & Hh' & _).
    rewrite (NoDup_key _ _ _ _ Hu Ht Hi) in Hrev by congruence. done.
Qed.

(** C4. Revocation works. When the revocation endpoint replies 200, whatever other
    operations ran meanwhile, the client is authenticated, and the token it named is
    revoked for ever if the client owned it when the request arrived: an access token is
    never found again, and a refresh token is neither found nor rotated again. *)
Theorem revocation_effective rely rq w tr w' r body form :
  (∀ w1 w2, rely w1 w2 → store_le (w_oauth w1) (w_oauth w2)) →
  runs rely (revokeToken cfg rq) w tr w' r → re_Status r = 200 → ParseForm rq = Some (body, form) →
  ∃ c, authenticated rq body c tr ∧
    let h := HashToken (Get form "token") in
    ∀ later, store_le (w_oauth w') later → hashes_unique later →
    (owns_access h (c_ID c) (w_oauth w) → ¬ owns_refresh h (c_ID c) later →
       ∀ now, FindAccessToken later h now = Err ErrGrantNotFound) ∧
    (owns_refresh h (c_ID c) (w_oauth w) → ¬ owns_access h (c_ID c) later →
       ∀ now v, FindRefreshToken later h now = Err ErrGrantNotFound ∧ is_ok (RotateRefreshToken later h v now).2 = false).
Proof.
  intros Hrely Hr H200 Hform. destruct (wp_runs _ _ _ _ _ _ _ _ (wp_revoke rq body form Hform) Hr) as [Hpost _].
  destruct (Hpost H200) as (c & Hauth & now & Hdid). exists c. split; [done|]. intros h later Hlater Hunique.
  destruct (runs_grows _ _ _ _ _ _ Hrely Hr) as [_ Hat].
  split; intros Ho Hno; [enough (access_revoked h (c_ID c) later) by (intros; by eapply access_revoked_unusable)
                        |enough (refresh_revoked h (c_ID c) later) by (intros; by eapply refresh_revoked_unusable)].
  - destruct Hdid as [Hd|[Hd|(e & _ & Hd & _)]]; apply Hat in Hd as (w1 & Hw & Hx & Hle); simpl in Hx, Hle.
    + destruct (revoke_access_spec h (c_ID c) now (w_oauth w1)) as [(_ & _ & Hrev)|[_ []]]; [|by eapply owns_access_le].
      eapply access_revoked_le; [|exact Hrev]. by etrans.
    + destruct Hno. destruct (revoke_refresh_spec h (c_ID c) now (w_oauth w1)) as [(_ & Hr1 & _)|[Hn _]]; [|unfold h in *; congruence].
      eapply owns_refresh_le; [|exact Hr1]. etrans; [|exact Hlater]. etrans; [|exact Hle].
      apply (store_step_le _ (OpRevokeRefreshToken h (c_ID c) now)).
    + destruct (revoke_access_spec h (c_ID c) now (w_oauth w1)) as [(Hok & _)|[_ []]]; [|by eapply owns_access_le].
      unfold h in *. congruence.
  - destruct Hdid as [Hd|[Hd|(_ & e & _ & Hd)]]; apply Hat in Hd as (w1 & Hw & Hx & Hle); simpl in Hx, Hle.
    + destruct Hno. destruct (revoke_access_spec h (c_ID c) now (w_oauth w1)) as [(_ & Hr1 & _)|[Hn _]]; [|unfold h in *; congruence].
      eapply owns_access_le; [|exact Hr1]. etrans; [|exact Hlater]. etrans; [|exact Hle].
      apply (store_step_le _ (OpRevokeAccessToken h (c_ID c) now)).
    + destruct (revoke_refresh_spec h (c_ID c) now (w_oauth w1)) as [(_ & _ & Hrev)|[_ []]]; [|by eapply owns_refresh_le].
      eapply refresh_revoked_le; [|exact Hrev]. by etrans.
    + destruct (revoke_refresh_spec h (c_ID c) now (w_oauth w1)) as [(Hok & _)|[_ []]]; [|by eapply owns_refresh_le].
      unfold h in *. congruence.
Qed.

(** ** Introspection and user information *)

Definition active_reply (r : Reply) : Prop :=
  ∃ m, re_Body r = JsonBody m ∧ m !! "active" = Some (VBool true).

(** The caller [c] may introspect a token of client [owner]. *)
Definition may_introspect (owner : string) (c : Client) (past : list Did) : Prop :=
  owner = c_ID c ∨
  ∃ issuer, did (CClientsFind owner) (Ok issuer) ∈ past ∧ c_Enabled issuer = true ∧ c_ArchivedAt issuer = None ∧
            AllowsIntrospectionBy issuer (c_ID c) = true.

(** Why a token is reported active. *)
Definition reported_active (h : string) (c : Client) (past : list Did) : Prop :=
  (∃ now tok, did (CFindAccessToken h now) (Ok tok) ∈ past ∧ may_introspect (at_ClientID tok) c past ∧
     (at_UserID tok ≠ "" → grant_checked (at_UserID tok) (at_ClientID tok) (at_SessionID tok) (at_Scope tok) past)) ∨
  (∃ now tok, did (CFindRefreshToken h now) (Ok tok) ∈ past ∧ rt_ClientID tok = c_ID c ∧
     grant_checked (rt_UserID tok) (rt_ClientID tok) (rt_SessionID tok) (elems (rt_Scope tok)) past).

Lemma wp_entitled past response u c scope failed (post : list Did → Reply → Prop) :
  (∀ past' r, past `prefix_of` past' → post past' r) →
  wp (λ _ _, True) past (with_entitlements response u c scope failed) post.
Proof.
  intros Hpost. unfold with_entitlements. apply wp_bind, wp_entitlements; [done|]. intros. apply wp_ret. auto.
Qed.

Lemma may_introspect_mono o c past past' : past `prefix_of` past' → may_introspect o c past → may_introspect o c past'.
Proof. intros Hp [?|(i & ? & ?)]; [by left|right]. exists i. eauto using did_prefix. Qed.

Lemma wp_access_reply past h now tok c (post : list Did → Reply → Prop) :
  did (CFindAccessToken h now) (Ok tok) ∈ past → may_introspect (at_ClientID tok) c past →
  (∀ past' r, past `prefix_of` past' → (active_reply r → reported_active h c past') → post past' r) →
  wp (λ _ _, True) past (writeAccessTokenIntrospection cfg tok) post.
Proof.
  intros Hdid Hmay Hpost. unfold writeAccessTokenIntrospection.
  assert (∀ past', past `prefix_of` past' →
    (at_UserID tok ≠ "" → grant_checked (at_UserID tok) (at_ClientID tok) (at_SessionID tok) (at_Scope tok) past') →
    reported_active h c past') as Hreport.
  { intros past' Hp Hg. left. exists now, tok. eauto using did_prefix, may_introspect_mono. }
  wp_step; wp_steps.
  - apply wp_validate; [done|]. intros past1 user Hp Huser. wp_steps.
    + apply wp_entitled. intros past2 r Hp2. apply Hpost; [by etrans|]. intros _. apply Hreport; [by etrans|].
      intros _. eapply grant_checked_mono; [done|]. by eapply Huser.
    + apply Hpost; [done|]. intros (m & [= <-] & Hm). done.
  - apply Hpost; [done|]. intros _. by apply Hreport.
Qed.

Lemma wp_refresh_reply past h now tok c (post : list Did → Reply → Prop) :
  did (CFindRefreshToken h now) (Ok tok) ∈ past → rt_ClientID tok = c_ID c →
  (∀ past' r, past `prefix_of` past' → (active_reply r → reported_active h c past') → post past' r) →
  wp (λ _ _, True) past (writeRefreshTokenIntrospection cfg tok) post.
Proof.
  intros Hdid Hc Hpost. unfold writeRefreshTokenIntrospection. wp_steps.
  apply wp_validate; [done|]. intros past1 user Hp Huser. wp_steps.
  - apply wp_entitled. intros past2 r Hp2. apply Hpost; [by etrans|]. intros _. right. exists now, tok.
    split; [eapply did_prefix; [|done]; by etrans|]. split; [done|]. eapply grant_checked_mono; [done|]. by eapply Huser.
  - apply Hpost; [done|]. intros (m & [= <-] & Hm). done.
Qed.

Lemma wp_introspect_access past h now c (post : list Did → Reply + unit → Prop) :
  (∀ past' r, past `prefix_of` past' → (∀ reply, r = inl reply → active_reply reply → reported_active h c past') → post past' r) →
  wp (λ _ _, True) past (introspect_access cfg h (c_ID c) now) post.
Proof.
  intros Hpost. unfold introspect_access, canIntrospectAccessToken. wp_steps; try (by apply Hpost; [pre|]).
  all: match goal with
       | |- wp _ ?l (writeAccessTokenIntrospection _ _) _ => apply (wp_access_reply l h now _ c); [auto with did| |]
       end.
  2, 4: intros past' r Hp Hr; apply wp_ret, Hpost; [pre|]; by intros reply [= ->].
  - by left.
  - right. reflect. destruct_and?. eexists. split; [apply did_last|done].
Qed.

Lemma wp_introspect_access_when wanted past h now c (post : list Did → Reply + unit → Prop) :
  (∀ past' r, past `prefix_of` past' → (∀ reply, r = inl reply → active_reply reply → reported_active h c past') → post past' r) →
  wp (λ _ _, True) past (introspect_access_when cfg wanted h (c_ID c) now) post.
Proof.
  intros Hpost. unfold introspect_access_when. destruct wanted; [by apply wp_introspect_access|]. apply wp_ret, Hpost; done.
Qed.

Lemma wp_confidential φ past rq body (post : list Did → Reply + Client → Prop) :
  (∀ past q, is_read q = true → φ past q) →
  (∀ past' r, past `prefix_of` past' →
     match r with
     | inl e => refusal e
     | inr c => authenticated rq body c past' ∧ c_ApplicationType c = ApplicationConfidential
     end → post past' r) →
  wp φ past (authenticateConfidentialOAuthClient rq body) post.
Proof.
  intros Hread Hpost. unfold authenticateConfidentialOAuthClient. apply wp_try, wp_bind, wp_authenticate; [done|].
  intros past' [e|c] Hp Hr; [by apply Hpost|]. apply wp_ret. wp_steps; apply Hpost; try done.
  split; [done|]. by apply dec_stable.
Qed.

Lemma reported_active_mono h c past past' : past `prefix_of` past' → reported_active h c past → reported_active h c past'.
Proof.
  intros Hp [(now & tok & Hd & Hm & Hg)|(now & tok & Hd & Hc & Hg)]; [left|right]; exists now, tok.
  - eauto 10 using did_prefix, may_introspect_mono, grant_checked_mono.
  - eauto using did_prefix, grant_checked_mono.
Qed.

Lemma wp_introspect rq body form :
  ParseForm rq = Some (body, form) →
  wp (λ _ _, True) [] (introspect cfg rq) (λ past r, active_reply r →
    ∃ c, authenticated rq body c past ∧ c_ApplicationType c = ApplicationConfidential ∧
         reported_active (HashToken (Get form "token")) c past).
Proof.
  assert (∀ e, refusal e → ¬ active_reply e) as Hrefusal by (intros e [_ Hn] (m & Hm & _); by apply (Hn m)).
  assert (¬ active_reply inactive) as Hinactive by by intros (m & [= <-] & Hm).
  intros Hform. unfold introspect. apply wp_try, wp_form; [done|].
  intros past1 [e|[body' form']] _ Hr1; [by intros ?%Hrefusal|]. simplify_eq.
  apply wp_try, wp_confidential; [done|]. intros past2 [e|c] _ Hr2; [by intros ?%Hrefusal|]. destruct Hr2 as [Hauth Hconf].
  assert (∀ past' r, past2 `prefix_of` past' → (active_reply r → reported_active (HashToken (Get form "token")) c past') →
    active_reply r → ∃ c, authenticated rq body c past' ∧ c_ApplicationType c = ApplicationConfidential ∧
         reported_active (HashToken (Get form "token")) c past') as Hdone by eauto 10 using authenticated_mono.
  wp_step; [by apply wp_ret; intros (m & [=] & _)|]. wp_steps.
  apply wp_introspect_access_when. intros past3 [reply|[]] Hp3 Hr3; [apply Hdone; [pre|eauto]|]. wp_steps.
  - eapply (wp_refresh_reply _ _ _ _ c); [apply did_last|done|]. intros past4 r Hp4. apply Hdone. pre.
  - apply wp_introspect_access_when. intros past4 [reply|[]] Hp4 Hr4; [apply Hdone; [pre|eauto]|]. by apply wp_ret.
  - apply wp_introspect_access_when. intros past4 [reply|[]] Hp4 Hr4; [apply Hdone; [pre|eauto]|]. by apply wp_ret.
Qed.

(** C21. Introspection reports a token active only to a confidential client that proved
    its identity, only if the token was found live during the request, for its own
    client or for one that the token's client, enabled and not archived, lists; and only
    after the user was found active, the token's session active, and the user's consent
    covering the token's scope. *)
Theorem introspection_sound rely rq w tr w' r body form :
  runs rely (introspect cfg rq) w tr w' r → active_reply r → ParseForm rq = Some (body, form) →
  ∃ c, authenticated rq body c tr ∧ c_ApplicationType c = ApplicationConfidential ∧
       reported_active (HashToken (Get form "token")) c tr.
Proof. intros Hr Hactive Hform. by apply (wp_runs _ _ _ _ _ _ _ _ (wp_introspect rq body form Hform) Hr). Qed.

(** The claims of a user that a scope lets a client read. *)
Definition disclosed (user : User) (scope : list string) (key : string) (v : Value) : Prop :=
  (key = "sub" ∧ v = VString (u_ID user)) ∨
  ("profile" ∈ scope ∧ (key = "name" ∧ v = VString (u_DisplayName user) ∨
                        key = "preferred_username" ∧ v = VString (u_Username user))) ∨
  ("email" ∈ scope ∧ ∃ email, u_Email user = Some email ∧
     (key = "email" ∧ v = VString email ∨ key = "email_verified" ∧ v = VBool (u_EmailVerified user))) ∨
  ("roles" ∈ scope ∧ (key = "roles" ∨ key = "permissions")).

Definition discloses (user : User) (scope : list string) (claims : Claims) : Prop :=
  map_Forall (disclosed user scope) claims.

Lemma disclose_profile user scope claims :
  "profile" ∈ scope → discloses user scope claims → discloses user scope (addProfileClaims claims user).
Proof. intros Hs Hc. unfold addProfileClaims. apply map_Forall_insert_2; [|apply map_Forall_insert_2; [|done]]; right; left; auto. Qed.

Lemma disclose_email user scope claims :
  "email" ∈ scope → discloses user scope claims → discloses user scope (addEmailClaims claims user).
Proof.
  intros Hs Hc. unfold addEmailClaims. destruct (u_Email user) eqn:E; [|done].
  apply map_Forall_insert_2; [|apply map_Forall_insert_2; [|done]]; right; right; left; naive_solver.
Qed.

Lemma wp_disclose past claims user c scope failed (post : list Did → Reply → Prop) :
  discloses user scope claims → claims !! "sub" = Some (VString (u_ID user)) →
  (∀ past' r, past `prefix_of` past' →
     (∀ m, re_Body r = JsonBody m → m !! "sub" = Some (VString (u_ID user)) ∧ discloses user scope m) → post past' r) →
  wp (λ _ _, True) past (with_entitlements claims (u_ID user) c scope failed) post.
Proof.
  intros Hd Hsub Hpost. unfold with_entitlements, addEntitlementClaims. wp_steps; apply Hpost; try pre; try done.
  - by intros m [= <-].
  - intros m [= <-]. reflect. split; [by rewrite !lookup_insert_ne by done|].
    apply map_Forall_insert_2; [|apply map_Forall_insert_2; [|done]]; right; right; right; auto.
Qed.

Lemma sub_email claims user : addEmailClaims claims user !! "sub" = claims !! "sub".
Proof. unfold addEmailClaims. destruct (u_Email user); [|done]. by rewrite !lookup_insert_ne by done. Qed.
Lemma sub_profile claims user : addProfileClaims claims user !! "sub" = claims !! "sub".
Proof. unfold addProfileClaims. by rewrite !lookup_insert_ne by done. Qed.

Lemma wp_userinfo rq :
  wp (λ _ _, True) [] (userinfo cfg rq) (λ past r, ∀ m, re_Body r = JsonBody m →
    ∃ now tok user, did (CFindAccessToken (HashToken (bearer_token rq)) now) (Ok tok) ∈ past ∧ bearer_token rq ≠ "" ∧
      "openid" ∈ at_Scope tok ∧ grant_checked (at_UserID tok) (at_ClientID tok) (at_SessionID tok) (at_Scope tok) past ∧
      did (CUsersFind (at_UserID tok)) (Ok user) ∈ past ∧
      m !! "sub" = Some (VString (u_ID user)) ∧ discloses user (at_Scope tok) m).
Proof.
  unfold userinfo. apply wp_try, wp_rate; [done|]. intros past1 [e|u] _ Hr1; [by intros m ?%(proj2 Hr1)|].
  do 2 wp_step. wp_step; [|by wp_steps]. wp_step; [by wp_steps|].
  apply wp_bind, wp_validate_user; [done|]. intros past2 user Hp2 Huser. wp_step; [|by wp_steps].
  destruct (Huser _ eq_refl) as [Hg Hu]. reflect. destruct_and?. apply wp_disclose.
  - repeat case_match; reflect; repeat (apply disclose_email; [done|]); repeat (apply disclose_profile; [done|]).
    all: apply map_Forall_singleton; by left.
  - by repeat case_match; rewrite ?sub_email, ?sub_profile.
  - intros past3 r Hp3 Hr m Hm. destruct (Hr m Hm). exists x, a, a0.
    split_and!; [|done|done| | |done|done]; [|by eapply grant_checked_mono|by eapply did_prefix].
    eapply did_prefix; [exact Hp3|]. eapply did_prefix; [exact Hp2|]. apply did_last.
Qed.

(** C22. User information is disclosed only to the bearer of a live access token that
    carries [openid], only after the user, the session and the consent were checked,
    and only the claims that the token's scope covers. *)
Theorem userinfo_within_scope rely rq w tr w' r m :
  runs rely (userinfo cfg rq) w tr w' r → re_Body r = JsonBody m →
  ∃ now tok user, did (CFindAccessToken (HashToken (bearer_token rq)) now) (Ok tok) ∈ tr ∧ bearer_token rq ≠ "" ∧
    "openid" ∈ at_Scope tok ∧ grant_checked (at_UserID tok) (at_ClientID tok) (at_SessionID tok) (at_Scope tok) tr ∧
    did (CUsersFind (at_UserID tok)) (Ok user) ∈ tr ∧
    m !! "sub" = Some (VString (u_ID user)) ∧ discloses user (at_Scope tok) m.
Proof. intros Hr. exact (proj1 (wp_runs _ _ _ _ _ _ _ _ (wp_userinfo rq) Hr) m). Qed.

End Props.
