(* ===== verification/Exchange.v ===== *)
(** A request served without interference: what a correct exchange of an authorization
    code obtains. *)
From S2P Require Import Prelude GoStrings GoCrypto OAuthStore OAuthStoreProps Session RateLimit Identity Client Authorize Access AuditLog Http HttpWp Tokens TokensProps.
Local Open Scope Z_scope.
Local Open Scope string_scope.

Section Exchange.
Context `{MapRange, UnicodeTables, MailParser, TokenSigner} (cfg : Config).

(** The program served alone. *)
Fixpoint alone {A} (p : Prog A) (w : World) : World * A :=
  match p with
  | Ret a => (w, a)
  | Do q k => let r := perform w q in alone (k r.2) r.1
  end.

Lemma alone_bind {A B} (p : Prog A) (f : A → Prog B) w : alone (bind p f) w = let s := alone p w in alone (f s.2) s.1.
Proof. revert w. induction p as [a|q k IH]; intros w; simpl; [done|]. apply IH. Qed.

Lemma alone_try {A B} (p : Prog (B + A)) (f : A → Prog B) w w1 a :
  alone p w = (w1, inr a) → alone (try p f) w = alone (f a) w1.
Proof. intros Hp. unfold try. by rewrite alone_bind, Hp. Qed.

Lemma alone_runs {A} (p : Prog A) w : ∃ tr, runs eq p w tr (alone p w).1 (alone p w).2.
Proof.
  revert w. induction p as [a|q k IH]; intros w; simpl; [exists []; constructor|].
  destruct (IH (perform w q).2 (perform w q).1) as [tr Htr]. eexists. econstructor; [done|apply surjective_pairing|done].
Qed.

(** ** The checks pass *)

(** The rate limiter lets the request of this address go on. *)
Definition rate_allows (w : World) (rq : HttpRequest) : Prop :=
  ∃ d, (RateLimit.Allow (w_rate w) "oauth.source" (if decide (rq_IPAddress rq = "") then "<unknown>" else rq_IPAddress rq)
          (cfg_OAuth cfg) (w_now w)).2 = Ok d ∧ (IsZero (d_ResetAt d) = true ∨ d_Allowed d = true).

(** Credentials that the client is registered with. *)
Definition good_credentials (w : World) (rq : HttpRequest) (body : Values) (c : Client) : Prop :=
  ∃ id secret method, presents rq body id secret method ∧ method = EffectiveTokenEndpointAuthMethod c ∧
    (length (default [] (body !! "client_id")) ≤ 1)%nat ∧
    (method = TokenEndpointAuthSecretBasic → default [] (body !! "client_secret") = [] ∧
       (TrimSpace (Get body "client_id") = "" ∨ TrimSpace (Get body "client_id") = id)) ∧
    FindClient (w_clients w) id = Ok c ∧ c_Enabled c = true ∧ SupportsOAuth c = true ∧
    (c_ApplicationType c = ApplicationConfidential → validOAuthClientSecret c secret = true).

Lemma alone_form w rq p :
  HasPrefix (rq_ContentType rq) "application/x-www-form-urlencoded" = true → ParseForm rq = Some p → rate_allows w rq →
  ∃ v, alone (oauth_form cfg rq) w = (set_rate v w, inr p).
Proof.
  intros Hct Hform (d & Hd & Hok). eexists. unfold oauth_form. rewrite Hct, Hform. destruct p as [body form]. simpl negb. cbv iota.
  erewrite alone_try; [reflexivity|]. unfold pass. rewrite alone_bind. unfold allowOAuthAttempt, allowRateLimitedRequest. simpl.
  rewrite Hd. destruct (IsZero (d_ResetAt d)); simpl; [done|]. destruct Hok as [|Hok]; [done|]. by rewrite Hok.
Qed.

Lemma alone_authenticate w rq body c : good_credentials w rq body c → alone (authenticateOAuthClient rq body) w = (w, inr c).
Proof.
  intros (id & secret & method & Hp & Hmethod & Hids & Hbasic & Hfind & Hon & Hoauth & Hsecret).
  assert (alone (check_client id secret (EffectiveTokenEndpointAuthMethod c)) w = (w, inr c)) as Hlook.
  { unfold check_client. simpl. rewrite Hfind, Hon, Hoauth. simpl. rewrite decide_False by auto.
    case_bool_decide; [|done]. by rewrite Hsecret. }
  unfold authenticateOAuthClient. destruct Hp as [id secret Hc|secret Hc Hs|Hc Hs]; rewrite Hc.
  - destruct (Hbasic eq_refl) as [Hnone Hid]. rewrite Hnone. rewrite decide_False by (simpl; lia). simpl.
    rewrite bool_decide_eq_false_2 by naive_solver. by rewrite Hmethod.
  - rewrite Hs. simpl. rewrite decide_False by lia. simpl. replace (Get body "client_secret") with secret by (unfold Get; by rewrite Hs).
    by rewrite Hmethod.
  - rewrite Hs. simpl. rewrite decide_False by lia. simpl. by rewrite Hmethod.
Qed.

(** The user of a grant is active, the session it is bound to is active, and the consent
    covers its scope. *)
Definition grant_valid (w : World) (u c s : string) (scope : list string) (user : User) : Prop :=
  FindUser (w_users w) u = Ok user ∧ u_Status user = UserActive ∧
  (s ≠ "" → SessionIsActive (w_sessions w) u s (w_now w) = Ok true) ∧
  ∃ consent, FindConsent (w_oauth w) u c = Ok consent ∧ scope ⊆ co_Scopes consent.

Lemma alone_validate w u c s scope user :
  grant_valid w u c s scope user → alone (validateOAuthUserGrant u c s scope) w = (w, Ok user).
Proof.
  intros (Hu & Hactive & Hs & consent & Hc & Hscope). unfold validateOAuthUserGrant. simpl. rewrite Hu, decide_False by auto.
  apply ScopesCover_subseteq in Hscope.
  case_decide; simpl; rewrite ?Hs by done; simpl; rewrite Hc; unfold Covers; by rewrite Hscope.
Qed.

Lemma alone_issue w b rest c u s f scope :
  w_random w = Some b :: rest →
  ∃ v m, issued_for c u s f scope v ∧ at_Hash v = HashToken (RawURLEncoding_EncodeToString b) ∧ at_IssuedAt v = w_now w ∧
    m !! "access_token" = Some (VString (RawURLEncoding_EncodeToString b)) ∧
    alone (issueAccessToken c u s f scope) w =
      (set_oauth (SaveAccessToken (w_oauth w) v).1 (set_random rest w), Ok m).
Proof.
  intros Hr. unfold issueAccessToken. cbn [alone perform]; unfold read_random; rewrite Hr. simpl. eexists _, _.
  split; [|split; [|split; [|split; [|reflexivity]]]]; done.
Qed.

(** The signer signs, whatever its state. *)
Definition signer_works : Prop := ∀ sg t claims, ∃ sg' jwt, signer_Sign sg t claims = (sg', Ok jwt).

Lemma alone_entitlements w claims u c scope :
  is_ok (Access.Effective (w_access w) u c (w_now w)) = true →
  ∃ claims', alone (addEntitlementClaims claims u c scope) w = (w, Ok claims').
Proof.
  intros He. unfold addEntitlementClaims. destruct (Contains scope "roles"); simpl; [|by eexists].
  destruct (Effective _ _ _ _); [by eexists|done].
Qed.

Lemma save_oidc_session r v :
  (SaveOIDCClientSession r v).2 = Ok () ∧ accessTokens (SaveOIDCClientSession r v).1 = accessTokens r.
Proof. unfold SaveOIDCClientSession. by destruct (list_find _ _) as [[]|]. Qed.

Lemma alone_sign w c user u s nonce scope t methods level response :
  signer_works → is_ok (Access.Effective (w_access w) (u_ID user) (c_ID c) (w_now w)) = true →
  ∃ w' r, alone (sign_id_token cfg c user u s nonce scope t methods level response) w = (w', Ok r) ∧
    accessTokens (w_oauth w') = accessTokens (w_oauth w) ∧
    ("openid" ∈ scope → is_Some (r !! "id_token")) ∧ ∀ k, k ≠ "id_token" → r !! k = response !! k.
Proof.
  intros Hsign He. unfold sign_id_token. destruct (Contains scope "openid") eqn:Eo; simpl; cycle 1.
  { eexists _, _. apply Contains_false in Eo. by split_and!. }
  rewrite alone_bind. destruct (alone_entitlements w (id_token_claims cfg c user s nonce scope t methods level (w_now w))
    (u_ID user) (c_ID c) scope He) as [claims ->]. simpl.
  destruct (Hsign (w_signer w) (w_now w) claims) as (sg & jwt & Hs). rewrite Hs. simpl.
  case_decide; simpl.
  1: match goal with |- context [SaveOIDCClientSession ?r ?v] => destruct (save_oidc_session r v) as [Hok Htokens]; rewrite Hok end.
  all: eexists _, _; split; [reflexivity|]; split; [done|].
  all: split; intros; (rewrite lookup_insert_eq; by eexists) || by rewrite lookup_insert_ne by done.
Qed.

(** The bytes drawn for the access token, when three draws succeed: with a refresh token,
    they are the third. *)
Definition access_bytes (c : Client) (b1 b2 b3 : list Z) : list Z :=
  if SupportsGrant c GrantRefreshToken then b3 else b1.

Lemma alone_draw w c b1 b2 b3 rest :
  w_random w = Some b1 :: Some b2 :: Some b3 :: rest → RawURLEncoding_EncodeToString b1 ≠ "" →
  ∃ raw family rest', alone (draw_refresh c true) w = (set_random (Some (access_bytes c b1 b2 b3) :: rest') w, Ok (raw, family)) ∧
    (SupportsGrant c GrantRefreshToken = true → raw ≠ "").
Proof.
  intros Hr Hb. unfold draw_refresh, access_bytes. destruct (SupportsGrant c GrantRefreshToken); cbn [andb alone perform].
  - unfold read_random. rewrite Hr. simpl. by eexists _, _, rest.
  - exists "", "", (Some b2 :: Some b3 :: rest). destruct w. simpl in *. by subst.
Qed.

Lemma alone_save_refresh w c u s raw family scope m :
  ∃ w' m', alone (save_refresh c u s raw family scope m) w = (w', Ok m') ∧
    w_access w' = w_access w ∧ w_now w' = w_now w ∧ accessTokens (w_oauth w') = accessTokens (w_oauth w) ∧
    (raw ≠ "" → is_Some (m' !! "refresh_token")) ∧ m' !! "access_token" = m !! "access_token".
Proof.
  unfold save_refresh. case_decide; simpl; eexists _, _; split; try reflexivity; split_and!; try done.
  all: intros; (rewrite lookup_insert_eq; by eexists) || by rewrite lookup_insert_ne by done.
Qed.

Lemma alone_user_tokens w c u s scope nonce t methods level user b1 b2 b3 rest :
  signer_works → grant_valid w u (c_ID c) s scope user →
  is_ok (Access.Effective (w_access w) (u_ID user) (c_ID c) (w_now w)) = true →
  w_random w = Some b1 :: Some b2 :: Some b3 :: rest → RawURLEncoding_EncodeToString b1 ≠ "" →
  let raw := RawURLEncoding_EncodeToString (access_bytes c b1 b2 b3) in
  ∃ w' m v family, alone (issueUserTokens cfg c u s scope nonce t methods level true) w = (w', Ok m) ∧
    issued_for c u s family scope v ∧ at_Hash v = HashToken raw ∧ at_IssuedAt v = w_now w ∧
    accessTokens (w_oauth w') = accessTokens (SaveAccessToken (w_oauth w) v).1 ∧
    m !! "access_token" = Some (VString raw) ∧
    (SupportsGrant c GrantRefreshToken = true → is_Some (m !! "refresh_token")) ∧
    ("openid" ∈ scope → is_Some (m !! "id_token")).
Proof.
  intros Hsign Hgrant Hacc Hr Hb raw. unfold issueUserTokens.
  rewrite alone_bind, (alone_validate _ _ _ _ _ _ Hgrant). cbn [fst snd].
  destruct (alone_draw w c b1 b2 b3 rest Hr Hb) as (refresh & family & rest' & Hdraw & Hraw).
  rewrite alone_bind, Hdraw. cbn [fst snd].
  destruct (alone_issue (set_random (Some (access_bytes c b1 b2 b3) :: rest') w) (access_bytes c b1 b2 b3) rest' c u s family scope eq_refl)
    as (v & m & Hv & Hhash & Hat & Hm & Hissue).
  rewrite alone_bind, Hissue. cbn [fst snd].
  match type of Hissue with _ = (?w2, _) => destruct (alone_save_refresh w2 c u s refresh family scope m) as (w3 & m3 & Hsave & Ha3 & Hn3 & Ht3 & Hr3 & Hm3) end.
  rewrite alone_bind, Hsave. cbn [fst snd].
  destruct (alone_sign w3 c user u s nonce scope t methods level m3 Hsign) as (w4 & m4 & Hlast & Ht4 & Hid & Hkeep).
  { by rewrite Ha3, Hn3. }
  rewrite Hlast. eexists _, _, v, family. split; [reflexivity|]. split_and!; try done.
  - by rewrite Ht4, Ht3.
  - by rewrite Hkeep, Hm3 by done.
  - intros Hs. rewrite Hkeep by done. auto.
Qed.

(** ** The exchange *)

(** A token request that redeems a code is in order: the form, the client, the code with
    its verifier and address, the user's grant, and the services it calls. *)
Record exchange_ready (w : World) (rq : HttpRequest) (body form : Values) (c : Client) (record : AuthorizationCode) (user : User) : Prop := {
  er_form : HasPrefix (rq_ContentType rq) "application/x-www-form-urlencoded" = true ∧ ParseForm rq = Some (body, form);
  er_rate : rate_allows w rq;
  er_client : good_credentials w rq body c;
  er_grant : Get form "grant_type" = GrantAuthorizationCode ∧ SupportsGrant c GrantAuthorizationCode = true;
  er_fields : Get form "code" ≠ "" ∧ Get form "redirect_uri" ≠ "" ∧ ValidCodeVerifier (Get form "code_verifier") = true;
  er_code : (ConsumeAuthorizationCode (w_oauth w) (HashToken (Get form "code")) (c_ID c) (Get form "redirect_uri")
               (RawURLEncoding_EncodeToString (sha256 (bytes (Get form "code_verifier")))) (w_now w)).2 = Ok record;
  er_user : grant_valid w (ac_UserID record) (c_ID c) (ac_SessionID record) (ac_Scope record) user;
  er_access : is_ok (Access.Effective (w_access w) (u_ID user) (c_ID c) (w_now w)) = true;
}.

Lemma fresh_token_found r v now :
  (∀ t, t ∈ accessTokens r → at_Hash (mat_token t) ≠ at_Hash v) → now < at_ExpiresAt v →
  ∀ r', accessTokens r' = accessTokens (SaveAccessToken r v).1 → FindAccessToken r' (at_Hash v) now = Ok v.
Proof.
  intros Hfresh Hexp r' Heq. unfold FindAccessToken. rewrite Heq. simpl.
  destruct (list_find _ _) as [[i t]|] eqn:E.
  - apply list_find_Some in E as (Hi%list_elem_of_lookup_2 & (Hh & _) & _).
    apply elem_of_app in Hi as [Hi| ->%list_elem_of_singleton]; [by apply Hfresh in Hi|done].
  - apply list_find_None in E. rewrite Forall_app, Forall_singleton in E. destruct E as [_ []]. simpl. split_and!; [done..|].
    by apply After_true.
Qed.

(** C5. A correct exchange succeeds: served without interference, a token request that
    is in order obtains status 200 and an access token that the store knows, for the
    code's user, session and scope and this client; a refresh token when the client may
    refresh, and an ID token when the scope asks for one. *)
Theorem code_exchange_succeeds w rq body form c record user b1 b2 b3 rest :
  signer_works → exchange_ready w rq body form c record user →
  w_random w = Some b1 :: Some b2 :: Some b3 :: rest → RawURLEncoding_EncodeToString b1 ≠ "" → 0 < AccessTokenLifetime c →
  let raw := RawURLEncoding_EncodeToString (access_bytes c b1 b2 b3) in
  (∀ t, t ∈ accessTokens (w_oauth w) → at_Hash (mat_token t) ≠ HashToken raw) →
  ∃ w' m v, alone (token cfg rq) w = (w', writeJSON 200 m) ∧
    m !! "access_token" = Some (VString raw) ∧ FindAccessToken (w_oauth w') (HashToken raw) (w_now w) = Ok v ∧
    (∃ family, issued_for c (ac_UserID record) (ac_SessionID record) family (ac_Scope record) v) ∧
    (SupportsGrant c GrantRefreshToken = true → is_Some (m !! "refresh_token")) ∧
    ("openid" ∈ ac_Scope record → is_Some (m !! "id_token")).
Proof.
  intros Hsign [[Hct Hform] Hrate Hclient [Hg Hsup] (Hcode & Huri & Hver) Hcons Huser Hacc] Hrnd Hb1 Hlife raw Hfresh.
  destruct (alone_form w rq _ Hct Hform Hrate) as [v0 Hf].
  unfold token. erewrite alone_try by exact Hf. cbv beta iota. erewrite alone_try by (apply alone_authenticate; exact Hclient).
  rewrite decide_True by exact Hg. unfold authorizationCodeToken. rewrite Hsup. simpl negb. cbv iota.
  rewrite !bool_decide_eq_false_2 by done. rewrite Hver. cbn [orb negb alone perform typed_step fst snd].
  change (w_oauth (set_rate v0 w)) with (w_oauth w). change (w_now (set_rate v0 w)) with (w_now w).
  destruct (ConsumeAuthorizationCode _ _ _ _ _ _) as [r' res] eqn:Ec in Hcons |- *. simpl in Hcons. subst res. cbn [fst snd].
  apply consume_live in Ec as (i & rec & _ & _ & _ & _ & _ & _ & _ & _ & ->).
  match goal with |- context [alone _ ?w1] => 
    destruct (alone_user_tokens w1 c (ac_UserID record) (ac_SessionID record) (ac_Scope record) (ac_Nonce record)
      (ac_AuthenticatedAt record) (ac_AuthMethods record) (ac_AssuranceLevel record) user b1 b2 b3 rest Hsign)
    as (w' & m & v & family & Hrun & Hv & Hhash & Hat & Htokens & Hm & Hrefresh & Hid); [exact Huser|exact Hacc|exact Hrnd|exact Hb1|] end.
  rewrite alone_bind, Hrun. exists w', m, v. split; [reflexivity|]. split; [done|].
  split; [|split; [by exists family|done]]. change (HashToken raw) with (HashToken (RawURLEncoding_EncodeToString (access_bytes c b1 b2 b3))). rewrite <- Hhash.
  eapply fresh_token_found; [by rewrite Hhash|destruct Hv as (_ & _ & _ & _ & _ & ->); rewrite Hat; simpl; lia|exact Htokens].
Qed.
End Exchange.
