(* ===== verification/ServicesProps.v ===== *)
(** The programs of [Services] are the methods of [Passwords] and [Mfa]: alone, each
    leaves the repository, and returns, what the atomic function does with the bytes
    that are next to be drawn. What [Mfa] and [Passwords] show of these
    functions so holds of the programs that handlers run. *)
From S2P Require Import Prelude GoStrings GoCrypto Secrets Mfa Identity Passwords Session RateLimit OAuthStore Client Authorize Access AuditLog Http Exchange Services.
Local Open Scope Z_scope.

Section Refinement.
Context `{MapRange, UnicodeTables, MailParser, TokenSigner, Argon2}.

(** The [n]-th read of random bytes to come. *)
Definition drawn (w : World) (n : nat) : Entropy := nth n (w_random w) None.

(** Alone, [p] has the effect of [r] on the accounts, or on the second factors. *)
Definition on_users {A} (w : World) (p : Prog A) (r : UserRepository * A) : Prop :=
  w_users (alone p w).1 = r.1 ∧ (alone p w).2 = r.2.
Definition on_mfa {A} (w : World) (p : Prog A) (r : MfaRepository * A) : Prop :=
  w_mfa (alone p w).1 = r.1 ∧ (alone p w).2 = r.2.

(** After a read, the same repositories, and the bytes that follow. *)
Lemma read_random_drawn w : (read_random w).2 = drawn w 0.
Proof. unfold read_random, drawn. by destruct (w_random w). Qed.
Lemma read_random_rest w n : drawn (read_random w).1 n = drawn w (S n).
Proof. unfold read_random, drawn. destruct (w_random w) as [|v l] eqn:E; simpl; rewrite ?E; [by destruct n|done]. Qed.
Lemma read_random_users w : w_users (read_random w).1 = w_users w.
Proof. unfold read_random. by destruct (w_random w). Qed.
Lemma read_random_mfa w : w_mfa (read_random w).1 = w_mfa w.
Proof. unfold read_random. by destruct (w_random w). Qed.
Lemma read_random_now w : w_now (read_random w).1 = w_now w.
Proof. unfold read_random. by destruct (w_random w). Qed.
Lemma drawn_set_users r w n : drawn (set_users r w) n = drawn w n.
Proof. done. Qed.
Lemma drawn_set_mfa r w n : drawn (set_mfa r w) n = drawn w n.
Proof. done. Qed.
End Refinement.

Create HintDb world.
#[export] Hint Rewrite @read_random_drawn @read_random_rest @read_random_users @read_random_mfa @read_random_now @drawn_set_users @drawn_set_mfa : world.

(** Run the next calls. *)
Ltac run := cbn [alone perform Answer in_users in_mfa fst snd w_now w_users w_mfa set_users set_mfa]; autorewrite with world.
(** Cases on what the next step depends on. *)
Ltac run_cases :=
  repeat (run; match goal with |- context [match ?x with _ => _ end] => destruct x eqn:? end; simplify_eq); run; try done.

Section Methods.
Context `{MapRange, UnicodeTables, MailParser, TokenSigner, Argon2}.

Lemma authenticate_alone w username password :
  on_users w (passwords_Authenticate username password)
    (Authenticate (w_users w) username password (w_now w) (drawn w 0)).
Proof.
  unfold on_users, passwords_Authenticate, Authenticate. run.
  destruct (FindPasswordByUsername _ _) as [[user credential]|e]; [|done]. unfold authenticate_with.
  case_decide; [done|]. destruct (match pc_LockedUntil credential with Some t => After t (w_now w) | None => false end); [done|].
  destruct (verifyStoredPassword _ _ _) as [[ok upgrade]|e]; [|done]. destruct ok; [|unfold wrong_password, fail_password; by run].
  destruct upgrade; cbn [negb].
  - unfold right_password. run. destruct (hashPassword _ _); [|by run]. run. by destruct (SetPassword _ _ _) as [? []].
  - unfold right_password. run. by destruct (RecordPasswordSuccess _ _) as [? []].
Qed.

(** Of the bytes to come, authentication draws at most the salt of an upgraded hash. *)
Lemma authenticate_draws w username password :
  ∃ n, drawn (alone (passwords_Authenticate username password) w).1 0 = drawn w n.
Proof.
  unfold passwords_Authenticate. run. destruct (FindPasswordByUsername _ _) as [[user credential]|e]; [|by exists 0%nat].
  case_decide; [by exists 0%nat|]. destruct (match pc_LockedUntil credential with Some t => After t (w_now w) | None => false end); [by exists 0%nat|].
  destruct (verifyStoredPassword _ _ _) as [[[] upgrade]|e]; cbn [negb]; [|by exists 0%nat..].
  unfold right_password. destruct upgrade; run; [|by exists 0%nat]. exists 1%nat. destruct (hashPassword _ _); by run.
Qed.

Lemma hash_password_alone w password :
  alone (hash_password password) w =
    (if decide (len password < 12 ∨ len password > 1024) then w else (read_random w).1, validateAndHashPassword password (drawn w 0)).
Proof. unfold hash_password, validateAndHashPassword. case_decide; [done|]. by run. Qed.

Lemma set_alone w userID password :
  on_users w (passwords_Set userID password) (SetUserPassword (w_users w) userID password (drawn w 0)).
Proof.
  unfold on_users, passwords_Set, SetUserPassword. rewrite alone_bind, hash_password_alone. cbn [fst snd].
  destruct (validateAndHashPassword _ _) as [hash|e]; case_decide; run; done.
Qed.

Lemma issue_reset_alone w userID lifetime :
  on_users w (passwords_IssueReset userID lifetime) (IssueReset (w_users w) userID lifetime (w_now w) (drawn w 0)).
Proof.
  unfold on_users, passwords_IssueReset, IssueReset. run. destruct (RandomToken _); run; [|done].
  by destruct (SavePasswordReset _ _) as [? []].
Qed.

Lemma reset_alone w token newPassword :
  on_users w (passwords_Reset token newPassword) (Reset (w_users w) token newPassword (w_now w) (drawn w 0)).
Proof.
  unfold on_users, passwords_Reset, Reset. case_decide; [done|]. rewrite alone_bind, hash_password_alone. cbn [fst snd].
  destruct (validateAndHashPassword _ _) as [hash|e]; case_decide; run; try done.
  all: destruct (ConsumePasswordReset _ _ _) as [r [userID|e]]; run; try done; by destruct (SetPassword _ _ _) as [? []].
Qed.

Lemma change_alone w userID username currentPassword newPassword :
  ∃ n, on_users w (passwords_Change userID username currentPassword newPassword)
         (ChangePassword (w_users w) userID username currentPassword newPassword (w_now w) (drawn w 0) (drawn w n)).
Proof.
  destruct (authenticate_alone w username currentPassword) as [Hu Ha], (authenticate_draws w username currentPassword) as [n Hn].
  exists n. unfold on_users, passwords_Change, ChangePassword. rewrite alone_bind. cbv zeta. rewrite Ha.
  destruct (Authenticate _ _ _ _ _) as [r [user|e]]; cbn [fst snd] in *; [|by subst]. case_decide; [by subst|].
  destruct (set_alone (alone (passwords_Authenticate username currentPassword) w).1 userID newPassword) as [Hu' Ha'].
  rewrite Hu in Hu', Ha'. by rewrite Hn in Hu', Ha'.
Qed.

Lemma register_alone w input :
  on_users w (registration_Register input) (Register (w_users w) input (w_now w) (drawn w 0) (drawn w 1)).
Proof.
  unfold on_users, registration_Register, Register. run. destruct (NewUser _ _ _); [|by run].
  rewrite alone_bind, hash_password_alone. cbn [fst snd]. run.
  destruct (validateAndHashPassword _ _) as [hash|e]; case_decide; by run.
Qed.

Lemma issue_verification_alone w userID lifetime :
  on_users w (verification_Issue userID lifetime) (IssueVerification (w_users w) userID lifetime (w_now w) (drawn w 0)).
Proof.
  unfold on_users, verification_Issue, IssueVerification. run. destruct (FindUser _ _) as [user|e]; [|done].
  destruct (u_Email user); [|done]. destruct (u_EmailVerified user); [done|]. run. destruct (RandomToken _); run; [|done].
  by destruct (SaveEmailVerification _ _) as [? []].
Qed.

Lemma verify_email_alone w token expectedUserID :
  on_users w (verification_Verify token expectedUserID) (VerifyEmailToken (w_users w) token expectedUserID (w_now w)).
Proof.
  unfold on_users, verification_Verify, VerifyEmailToken. case_decide; [done|]. run. by destruct (VerifyEmail _ _ _ _) as [? []].
Qed.

(** *** Second factors *)

Section Mfa.
Context (s : MfaConfig).

Lemma mfa_fail_alone w userID credential now :
  on_mfa w (mfa_fail userID credential now) (fail_verify (w_mfa w) userID credential now).
Proof. unfold on_mfa, mfa_fail, fail_verify. run. by destruct (RecordFailure _ _ _ _) as [? []]. Qed.

Lemma mfa_verify_alone w userID code :
  on_mfa w (mfa_Verify s userID code) (Verify s (w_mfa w) userID code (w_now w) (w_now w)).
Proof.
  unfold on_mfa, mfa_Verify, Verify. run. destruct (Mfa.Find _ _) as [credential|e]; [|done]. unfold verify_with.
  destruct (cr_Enabled credential); [|done]. cbn [negb]. run. destruct (locked_at _ _); [done|].
  destruct (totpCodePattern _).
  - run. destruct (matchTOTP _ _ _ _) as [step|[]]; try apply mfa_fail_alone; [by run|done].
  - case_decide; [|apply mfa_fail_alone]. run. destruct (UseRecoveryCode _ _ _) as [r [[]|[]]]; try done.
    apply (mfa_fail_alone (set_mfa r w)).
Qed.

Lemma mfa_requires_alone w userID : on_mfa w (mfa_RequiresChallenge s userID) (w_mfa w, RequiresChallenge s (w_mfa w) userID).
Proof. done. Qed.

Lemma mfa_status_alone w userID : on_mfa w (mfa_Status s userID) (MfaStatus s (w_mfa w) userID (w_now w)).
Proof.
  unfold on_mfa, mfa_Status, MfaStatus. run. destruct (Mfa.Find _ _) as [credential|[]]; try done.
  destruct (cr_Enabled credential) eqn:E; run; [|done]. by destruct (CountTrustedDevices _ _ _) as [? []].
Qed.

Lemma draw_codes_alone n w :
  (alone (draw_codes n) w).2 = newRecoveryCodes_aux (drawn w <$> seq 0 n) ∧ w_mfa (alone (draw_codes n) w).1 = w_mfa w ∧
  w_now (alone (draw_codes n) w).1 = w_now w.
Proof.
  revert w. induction n as [|n IH]; intros w; [done|]. cbn [draw_codes seq fmap list_fmap newRecoveryCodes_aux]. run.
  destruct (newRecoveryCode _); [|by run]. rewrite alone_bind. cbv zeta. cbn [alone Answer fst snd].
  destruct (IH (read_random w).1) as (-> & -> & ->). run. split; [|done].
  rewrite <- fmap_S_seq, <- list_fmap_compose.
  rewrite (list_fmap_ext (drawn (read_random w).1) (drawn w ∘ S)) by (intros; apply read_random_rest).
  by destruct (newRecoveryCodes_aux _) as [[]|].
Qed.

Lemma mfa_setup_alone w userID username :
  on_mfa w (mfa_Setup s userID username)
    (MfaSetup s (w_mfa w) userID username (w_now w)
       {| se_secret := drawn w 0; se_nonce := drawn w 1; se_codes := λ n, drawn w (2 + n) |}).
Proof.
  assert (on_mfa w (mfa_setup_pending s userID username)
    (setup_pending s (w_mfa w) userID username (w_now w)
       {| se_secret := drawn w 0; se_nonce := drawn w 1; se_codes := λ n, drawn w (2 + n) |})) as Hpending.
  { unfold on_mfa, mfa_setup_pending, setup_pending. cbn [se_secret se_nonce se_codes]. run.
    destruct (drawn w 0) as [secret|]; [|by run]. run. destruct (encrypt _ _ _ _); [|by run].
    rewrite alone_bind. cbv zeta. destruct (draw_codes_alone recoveryCodeCount (read_random (read_random w).1).1) as (-> & Hm & Hn).
    unfold newRecoveryCodes. rewrite (list_fmap_ext (drawn (read_random (read_random w).1).1) (λ n, drawn w (2 + n)))
      by (intros; by autorewrite with world).
    destruct (newRecoveryCodes_aux _) as [[codes hashes]|e]; run; rewrite ?Hm, ?Hn; by run. }
  unfold on_mfa, mfa_Setup, MfaSetup. destruct (available s); [|done]. cbn [negb]. run.
  destruct (Mfa.Find _ _) as [credential|[]]; try done. destruct (cr_Enabled credential); [done|exact Hpending].
Qed.

Lemma mfa_enable_alone w userID code : on_mfa w (mfa_Enable s userID code) (Enable s (w_mfa w) userID code (w_now w) (w_now w)).
Proof.
  unfold on_mfa, mfa_Enable, Enable. run. destruct (Mfa.Find _ _) as [credential|e]; [|done]. destruct (cr_Enabled credential); [done|].
  run. destruct (matchTOTP _ _ _ _); by run.
Qed.

Lemma mfa_regenerate_alone w userID :
  on_mfa w (mfa_RegenerateRecoveryCodes userID) (RegenerateRecoveryCodes (w_mfa w) userID (drawn w)).
Proof.
  unfold on_mfa, mfa_RegenerateRecoveryCodes, RegenerateRecoveryCodes. run. destruct (Mfa.Find _ _) as [credential|e]; [|done].
  destruct (cr_Enabled credential); [|done]. cbn [negb]. rewrite alone_bind. cbv zeta.
  destruct (draw_codes_alone recoveryCodeCount w) as (-> & Hm & _). unfold newRecoveryCodes.
  destruct (newRecoveryCodes_aux _) as [[codes hashes]|e]; run; rewrite ?Hm; [|done]. by destruct (ReplaceRecoveryCodes _ _ _) as [? []].
Qed.

Lemma mfa_remember_alone w userID userAgent :
  on_mfa w (mfa_RememberDevice userID userAgent) (RememberDevice (w_mfa w) userID userAgent (w_now w) (drawn w 0)).
Proof.
  unfold on_mfa, mfa_RememberDevice, RememberDevice. run. destruct (RandomToken _); run; [|done].
  by destruct (StoreTrustedDevice _ _ _) as [? []].
Qed.

Lemma mfa_trusted_alone w userID token userAgent :
  on_mfa w (mfa_UseTrustedDevice userID token userAgent)
    (UseTrustedDevice (w_mfa w) userID token userAgent (w_now w) (drawn w 0)).
Proof.
  unfold on_mfa, mfa_UseTrustedDevice, UseTrustedDevice. case_decide; [done|]. run. destruct (RandomToken _); run; [|done].
  by destruct (RotateTrustedDevice _ _ _ _ _ _) as [? [|[]]].
Qed.
End Mfa.
End Methods.
