(* ===== verification/Routes.v ===== *)
(** The OAuth endpoints of the server ([internal/platform/http/server.go]) running
    concurrently: what one grant can obtain when many requests present it at once. *)
From S2P Require Import Prelude GoStrings OAuthStore OAuthStoreProps Session RateLimit Identity Client Authorize Access AuditLog Http HttpWp Server Tokens TokensProps.
Local Open Scope string_scope.

(** The endpoints, by the handler they are routed to. *)
Inductive Endpoint := EToken | EIntrospect | ERevoke | EUserinfo.

Section Routes.
Context `{MapRange, UnicodeTables, MailParser, TokenSigner} (cfg : Config).

Definition handle (e : Endpoint) : HttpRequest → Prog Reply :=
  match e with
  | EToken => token cfg
  | EIntrospect => introspect cfg
  | ERevoke => revokeToken cfg
  | EUserinfo => userinfo cfg
  end.

(** The token request presented the grant and was answered with tokens. *)
Definition redeemed (g : GrantRef) (th : Thread) : bool :=
  match th_endpoint th, replied th with
  | EToken, Some r => bool_decide (re_Status r = 200%Z) && existsb (λ d, presents_grant g (projT1 d)) (th_did th)
  | _, _ => false
  end.

(** C2. A grant is redeemed at most once, however many requests present it
    concurrently. In every execution of the server, with requests arriving at any time,
    their calls interleaved in any way with each other and with anything else that the
    grant store allows, at most one token request that presents a given authorization
    code, refresh token or device code is answered with tokens. *)
Theorem grant_redeemed_once g w s :
  rtc (server_step handle) (w, []) s → (length (List.filter (redeemed g) s.2) ≤ 1)%nat.
Proof.
  intros Hr. eapply accepted_once_store; [apply grant_spends|exact Hr|].
  intros th Hf Hred. unfold redeemed in Hred. destruct (th_endpoint th) eqn:Ee; try done.
  destruct (replied th) as [r|] eqn:Er; [|done]. apply andb_true_iff in Hred as [H200%bool_decide_eq_true Hp].
  apply existsb_exists in Hp as (d & Hd%list_elem_of_In & Hp). exists d. split; [done|].
  pose proof (replied_yields handle th r Hf Er) as Hy. rewrite Ee in Hy. simpl in Hy.
  apply (wp_yields _ _ _ _ _ _ (wp_token_wins cfg g (th_request th))) in Hy as [Hpost _].
  by apply (Hpost H200).
Qed.
End Routes.
