(* ===== verification/Site.v ===== *)
(** A small site to evaluate handlers on: one application, one user signed in, a grant
    store with one code, and a signer that numbers what it signs. *)
From S2P Require Import Prelude GoStrings GoCrypto Administration Cas Mfa OAuthStore Session RateLimit Identity Passwords Client Authorize GoUrl ReturnTo Access AuditLog Secrets Federation Http.
Local Open Scope Z_scope.
Local Open Scope string_scope.
#[local] Existing Instances canonical_range ascii_tables plain_mail.

(** A signer whose tokens are numbers into the list of what it signed. *)
Definition ledger_signer : TokenSigner :=
  {| signer := list Claims;
     signer_Sign l _ claims := ((l ++ [claims])%list, Ok (FormatInt (Z.of_nat (length l))));
     signer_SignTyped l _ claims typ := ((l ++ [claims])%list, Ok (FormatInt (Z.of_nat (length l))));
     signer_Verify l now token :=
       (l, match ParseInt token 63 with
           | Some n => match l !! Z.to_nat n with Some claims => Ok claims | None => Err () end
           | None => Err ()
           end);
     signer_ListKeys _ := Ok [];
     signer_Rotate l _ _ := (l, Ok "key"); signer_JWKS _ := VObject []; signer_DeleteRetired l _ := (l, Ok 0) |}.
#[export] Existing Instance ledger_signer.

Definition cfg : Config :=
  let quota := {| p_Limit := 100; p_Window := Minute |} in
  {| cfg_AdminToken := "emergency"; cfg_SigningKeyRetention := 24 * Hour; cfg_Issuer := "https://id.example"; cfg_Registration := true; cfg_RequireEmail := false;
     cfg_EmailVerificationTTL := 24 * Hour; cfg_Mailer := true; cfg_LoginSource := quota; cfg_LoginIdentity := quota;
     cfg_RegistrationSource := quota; cfg_EmailVerification := quota; cfg_MFA := quota; cfg_OAuth := quota; cfg_Device := quota;
     cfg_MFAService := NewService (replicate 32 7) "Certus"; cfg_SourceKeyRing := {| keys := ∅; primaryID := "" |};
     cfg_LDAP := {| lc_ProviderID := ""; lc_Label := "Directory"; lc_URL := "ldaps://ldap.example"; lc_StartTLS := false;
                    lc_BaseDN := "dc=example"; lc_BindDN := ""; lc_BindPassword := ""; lc_UserFilter := "(uid={username})";
                    lc_UsernameAttribute := "uid"; lc_DisplayNameAttribute := "cn"; lc_EmailAttribute := "mail" |};
     cfg_ExternalOIDC := {| oc_ProviderID := ""; oc_Issuer := "https://idp.example"; oc_ClientID := "certus"; oc_ClientSecret := "s";
                            oc_Label := "Provider"; oc_Scopes := [] |} |}.

(** A directory with one entry, and an identity provider with one user. *)
Definition directory_entry : Entry :=
  {| en_DN := "uid=alice,dc=example"; en_Attributes := {["uid" := "alice"; "cn" := "Alice"; "mail" := "alice@example"]} |}.
Definition outside : Outside :=
  {| out_replies := []; out_late := []; out_discovered := false; out_mail := [true]; out_Dial _ _ := true;
     out_Bind _ dn password := bool_decide (dn = "" ∨ dn = en_DN directory_entry ∧ password = "secret");
     out_Search _ _ _ _ := Some [directory_entry];
     out_Discover _ := true;
     out_AuthCodeURL config _ state _ _ := oc_Issuer config +:+ "/authorize?state=" +:+ state;
     out_Exchange _ _ code _ := if decide (code = "good") then Some (Some "token") else None;
     out_VerifyIDToken _ _ raw :=
       if decide (raw = "token")
       then Some {| it_Nonce := RawURLEncoding_EncodeToString (replicate 48 2); it_Claims := Some {| xc_Subject := "alice"; xc_PreferredUsername := "alice"; xc_Name := "Alice";
                                                             xc_Email := "alice@example"; xc_EmailVerified := true |} |}
       else None |}.

Definition alice : User :=
  {| u_ID := "alice"; u_Username := "alice"; u_DisplayName := "Alice"; u_Email := Some "alice@example"; u_EmailVerified := true;
     u_Status := UserActive; u_CreatedAt := 1; u_UpdatedAt := 1 |}.

Definition app : Client :=
  {| c_ID := "app"; c_SystemID := "app"; c_System := None; c_Name := "App"; c_Description := ""; c_FaviconURL := "";
     c_LaunchURI := ""; c_ApplicationType := ApplicationConfidential; c_TokenEndpointAuthMethod := TokenEndpointAuthSecretPost;
     c_Protocols := [ProtocolOAuth20]; c_GrantTypes := [GrantAuthorizationCode; GrantRefreshToken];
     c_RedirectURIs := ["https://app.example/cb"]; c_PostLogoutRedirectURIs := []; c_BackchannelLogoutURI := "https://app.example/bye";
     c_BackchannelLogoutSessionRequired := true; c_LoginMethods := [LoginPassword]; c_IdentitySourceIDs := [];
     c_IntrospectableBy := []; c_AllowedScopes := ["openid"; "profile"; "email"; "roles"]; c_AccessTokenLifetimeSeconds := 900;
     c_RefreshTokenLifetimeSeconds := 3600; c_CASVersion := ""; c_CASServiceURLs := []; c_CASProxy := false; c_CASGateway := false;
     c_CASRenew := false; c_CASSingleLogout := false; c_Enabled := true; c_ArchivedAt := None;
     c_SecretHash := of_bytes (sha256 (bytes "secret")) |}.

Definition noon : Time := of_unix 43200.
Definition verifier : string := "dBjftJeZ4CVP-mB92K27uhbUJU1p1r_wW1gFWFOEjXk".

Definition code : AuthorizationCode :=
  {| ac_Hash := HashToken "code"; ac_ClientID := "app"; ac_UserID := "alice"; ac_SessionID := "session";
     ac_RedirectURI := "https://app.example/cb"; ac_Scope := ["openid"; "email"; "roles"]; ac_Nonce := "n";
     ac_CodeChallenge := "E9Melhoa2OwvFrEMTJguCHaoeK1t8URWbuGJSstw-cM"; ac_AuthenticatedAt := noon; ac_AuthMethods := ["pwd"];
     ac_AssuranceLevel := "urn:certus:aal:1"; ac_CreatedAt := noon; ac_ExpiresAt := noon + 5 * Minute |}.

Definition session : Session :=
  {| s_ID := "session"; s_UserID := "alice"; s_AuthenticatedAt := noon; s_ExpiresAt := noon + Hour; s_LastSeenAt := noon;
     s_IPAddress := ""; s_UserAgent := ""; s_RevokedAt := None; s_AuthMethods := ["pwd"]; s_AssuranceLevel := "urn:certus:aal:1" |}.

Definition store : OAuthStore.MemoryRepository :=
  (run store_step OAuthStore.NewMemoryRepository
     [OpGrantConsent "alice" "app" ["openid"; "profile"; "email"; "roles"] noon; OpSaveAuthorizationCode code]).1.

(** Noon and a minute; the bytes drawn are 1, 2, 3, ... *)
Definition world : World :=
  {| w_now := noon + Minute; w_random := (λ n, Some (replicate 48 (Z.of_nat n))) <$> seq 1 9;
     w_outside := outside; w_sources := NewSourceRepository []; w_cas := NewCasRepository; w_mfa := NewMfaRepository;
     w_clients := {| systems := ∅; systemOrder := []; clients := {["app" := app]}; order := ["app"] |};
     w_users := NewUserRepository [alice];
     w_sessions := {| sv_repository := {| records := {["session" := {| mr_Session := session; mr_hash := HashToken "cookie"; mr_revokedAt := None |}]} |};
                      sv_lifetime := Hour |};
     w_oauth := store; w_access := NewAccessRepository; w_rate := Some NewRateRepository; w_signer := ([] : list Claims);
     w_audit := NewAuditRepository; w_admin := NewAdminRepository |}.

Definition form (fields : list (string * string)) : Values := list_to_map ((λ p, (p.1, [p.2])) <$> fields).
Definition post (fields : list (string * string)) : HttpRequest :=
  {| rq_Method := "POST"; rq_ContentType := "application/x-www-form-urlencoded"; rq_Authorization := "";
     rq_PostForm := Some (form (("client_id", "app") :: ("client_secret", "secret") :: fields)); rq_Query := ∅; rq_QueryBad := false; rq_JSON := []; rq_PathValues := ∅;
     rq_Path := ""; rq_RequestURI := ""; rq_CSRFHeader := ""; rq_Cookies := ∅; rq_IPAddress := "10.0.0.1"; rq_UserAgent := ""; rq_RequestID := "" |}.

(** The URLs of the site's clients. *)
Definition site_urls : URLParser :=
  {| url_Parse raw :=
       (λ l, {| u_Scheme := lo_Scheme l; u_HasUser := bool_decide (is_Some (lo_User l)); u_Host := lo_Host l; u_Hostname := lo_Host l;
                u_Fragment := lo_Fragment l |}) <$> @Parse ascii_tables plain_hosts raw;
     ip_IsLoopback host := bool_decide (host = "127.0.0.1") |}.

(** A browser that holds the cookie of the session and a token against forgery. *)
Definition browser (method path : string) (query : Values) (fields : option (list (string * string))) (cookies : gmap string string) : HttpRequest :=
  {| rq_Method := method; rq_ContentType := "application/x-www-form-urlencoded"; rq_Authorization := "";
     rq_PostForm := Some (form (default [] fields)); rq_Query := query; rq_QueryBad := false; rq_JSON := []; rq_PathValues := ∅; rq_Path := path;
     rq_RequestURI := path +:+ "?" +:+ Encode query; rq_CSRFHeader := ""; rq_Cookies := cookies; rq_IPAddress := "10.0.0.2";
     rq_UserAgent := "browser"; rq_RequestID := "" |}.
Definition csrf_token : string := "0123456789abcdef0123456789abcdef".

(** A request served with nothing between its calls. *)
Definition calls (p : Prog Reply) (w : World) : list Did := (exec (λ _ w, w) 0 p w).2.1.
Definition after (p : Prog Reply) (w : World) : World := (exec (λ _ w, w) 0 p w).1.
Definition answer (p : Prog Reply) (w : World) : Reply := (exec (λ _ w, w) 0 p w).2.2.

Lemma serves p w : runs eq p w (calls p w) (after p w) (answer p w).
Proof. by apply exec_runs. Qed.

(** Closed facts are evaluated. *)
Ltac evaluated := vm_compute; reflexivity.

(** The first of the calls that satisfies a test. *)
Fixpoint first_did (P : Did → bool) (before tr : list Did) : option (list Did * Did * list Did) :=
  match tr with
  | [] => None
  | d :: tr => if P d then Some (before, d, tr) else first_did P (before ++ [d]) tr
  end.

Lemma first_did_spec P before tr b d a : first_did P before tr = Some (b, d, a) → (before ++ tr = b ++ d :: a)%list ∧ P d = true.
Proof.
  revert before. induction tr as [|d' tr IH]; intros before; simpl; [done|]. destruct (P d') eqn:E; [by intros [= <- <- <-]|].
  intros Hf. apply IH in Hf. by rewrite <- app_assoc in Hf.
Qed.
