(* ===== verification/Browser.v ===== *)
(** What the pages and the browser-facing endpoints share: the session of a request, the
    protection against forged forms, the audit trail, the attempts allowed per address
    and account, and what follows the end of a session ([internal/platform/http/auth.go],
    [audit.go], [rate_limit.go], [oidc_backchannel.go]). *)
From S2P Require Import Prelude GoStrings GoCrypto Cas Mfa OAuthStore Session RateLimit Identity Client Authorize GoUrl Access AuditLog Http Tokens.
Local Open Scope Z_scope.
Local Open Scope string_scope.
Local Open Scope go_scope.

(** [internal/platform/http/auth.go:23-29] sessionCookieName, and the other cookies *)
Definition sessionCookieName : string := "certus_session".
Definition csrfCookieName : string := "certus_csrf".
Definition externalOIDCCookieName : string := "certus_oidc_transaction".
Definition mfaCookieName : string := "certus_mfa_transaction".
Definition trustedDeviceCookieName : string := "certus_trusted_device".
Definition oauthReauthCookieName : string := "certus_oauth_reauth".
Definition oauthConsentCookieName : string := "certus_oauth_consent".

(** A cookie with an empty value is cleared. *)
Definition cleared (name : string) : string * string := (name, "").

(** ** The audit trail *)

(** An event as the handlers describe it. *)
Definition event (actorUserID : string) (eventType clientID outcome : string) (details : Claims) : Event :=
  {| ev_ID := ""; ev_OccurredAt := time_zero; ev_ActorUserID := if decide (actorUserID = "") then None else Some actorUserID;
     ev_EventType := eventType; ev_ClientID := if decide (clientID = "") then None else Some clientID;
     ev_IPAddress := ""; ev_RequestID := ""; ev_Outcome := outcome; ev_Details := details |}.

(** [internal/platform/http/audit.go:71-90] recordAudit, outside the administration; errors are
    only logged. *)
Definition recordAudit (rq : HttpRequest) (e : Event) : Prog unit :=
  let e := {| ev_ID := ev_ID e; ev_OccurredAt := ev_OccurredAt e; ev_ActorUserID := ev_ActorUserID e; ev_EventType := ev_EventType e;
              ev_ClientID := ev_ClientID e; ev_IPAddress := rq_IPAddress rq; ev_RequestID := rq_RequestID rq;
              ev_Outcome := ev_Outcome e; ev_Details := ev_Details e |} in
  let* now := CNow in
  match Normalize e now with
  | Err _ => Ret ()
  | Ok normalized => let* _ := CAudit normalized in Ret ()
  end.

(** ** Forged forms *)

(** [internal/platform/http/auth.go:740-758] ensureCSRF: the token and the cookies to set; the
    handler panics when no bytes can be drawn. *)
Definition ensureCSRF (rq : HttpRequest) : Prog (Reply + (string * list (string * string))) :=
  let fresh : Prog (Reply + (string * list (string * string))) :=
    let* rnd := CRandom in
    match RandomToken rnd with
    | Err _ => Ret (inl panicked)
    | Ok token => Ret (inr (token, [(csrfCookieName, token)]))
    end in
  match rq_Cookies rq !! csrfCookieName with
  | Some value => if decide (32 ≤ len value)%Z then Ret (inr (value, [])) else fresh
  | None => fresh
  end.

(** [internal/platform/http/auth.go:760-766] validCSRF *)
Definition validCSRF (supplied : string) (rq : HttpRequest) : bool :=
  match rq_Cookies rq !! csrfCookieName with
  | None => false
  | Some value =>
      if decide (len supplied < 32 ∨ len value ≠ len supplied)%Z then false else bool_decide (value = supplied)
  end.

(** [s.render] with a token against forgery. *)
Definition render (rq : HttpRequest) (template : string) (fields : Claims) : Prog Reply :=
  try+ csrf := ensureCSRF rq in
  Ret (with_cookies csrf.2 (reply 200 (Page template (<["CSRFToken" := VString csrf.1]> fields)))).

(** ** The session of a request *)

(** [internal/platform/http/auth.go:712-726] currentSession *)
Definition currentSession (rq : HttpRequest) : Prog (option Session) :=
  match rq_Cookies rq !! sessionCookieName with
  | None => Ret None
  | Some token =>
      let* current := CSessionsFind token in
      match current with
      | Err _ => Ret None
      | Ok current =>
          let* user := CUsersFind (s_UserID current) in
          match user with
          | Err _ => Ret None
          | Ok user => if decide (u_Status user ≠ UserActive) then Ret None else Ret (Some current)
          end
      end
  end.

Section Browser.
Context `{MapRange, UnicodeTables, MailParser, TokenSigner} (cfg : Config).

(** ** Attempts *)

(** [internal/platform/http/rate_limit.go:33-45] allowLoginSource *)
Definition allowLoginSource (rq : HttpRequest) (scope : string) : Prog (Reply + unit) :=
  allowRateLimitedRequest scope (rq_IPAddress rq) (cfg_LoginSource cfg) false.

(** [internal/platform/http/rate_limit.go:12-31] allowLoginAttempt *)
Definition allowLoginAttempt (rq : HttpRequest) (username : string) : Prog (Reply + unit) :=
  try+ _ := pass (allowLoginSource rq "login.source") in
  let username := ToLower (TrimSpace username) in
  let username := if decide (username = "") then "<empty>" else username in
  allowRateLimitedRequest "login.identity" username (cfg_LoginIdentity cfg) false.

(** [internal/platform/http/rate_limit.go:47-68] allowMFAAttempt *)
Definition allowMFAAttempt (rq : HttpRequest) (userID : string) : Prog (Reply + unit) :=
  try+ _ := pass (allowRateLimitedRequest "mfa.source" (rq_IPAddress rq) (cfg_MFA cfg) false) in
  allowRateLimitedRequest "mfa.identity" userID (cfg_MFA cfg) false.

(** ** After the end of sessions *)

Definition oidcLogoutTokenLifetime : Duration := 2 * Minute.
Definition oidcBackchannelLogoutEvent : string := "http://schemas.openid.net/event/backchannel-logout".

(** [internal/platform/http/oidc_backchannel.go:131-174] sendOIDCBackchannelLogout: its errors are
    only logged. *)
Definition sendOIDCBackchannelLogout (job : OIDCClientSession * Client) : Prog unit :=
  let* rnd := CRandom in
  match RandomUUID rnd with
  | Err _ => Ret ()
  | Ok jti =>
      let* now := CNow in
      let claims : Claims :=
        <["iss" := VString (cfg_Issuer cfg)]> (<["sub" := VString (os_UserID job.1)]> (<["aud" := VString (c_ID job.2)]>
        (<["iat" := VInt (Unix now)]> (<["exp" := VInt (Unix (now + oidcLogoutTokenLifetime)%Z)]> (<["jti" := VString jti]>
        (<["sid" := VString (os_SessionID job.1)]>
        {["events" := VObject [(oidcBackchannelLogoutEvent, VObject [])]]})))))) in
      let* token := CSignTyped claims "logout+jwt" in
      match token with
      | Err _ => Ret ()
      | Ok token =>
          let* _ := COutbound "POST" (c_BackchannelLogoutURI job.2) {["logout_token" := [token]]} in Ret ()
      end
  end.

(** [internal/platform/http/oidc_backchannel.go:82-97] notifyOIDCBackchannelLogout, the jobs of one session *)
Definition logout_jobs (current : string * string) : Prog (list (string + OIDCClientSession * Client)) :=
  let* registeredSessions := CListOIDCClientSessions current.1 in
  match registeredSessions with
  | Err _ => Ret []
  | Ok registeredSessions =>
      let+ jobs := collect registeredSessions (λ registeredSession,
        let* registered := CClientsFind (os_ClientID registeredSession) in
        match registered with
        | Err _ => Ret []
        | Ok registered =>
            if decide (c_BackchannelLogoutURI registered = "") then Ret []
            else
              let registeredSession :=
                if decide (os_UserID registeredSession = "")
                then {| os_SessionID := os_SessionID registeredSession; os_ClientID := os_ClientID registeredSession;
                        os_UserID := current.2; os_CreatedAt := os_CreatedAt registeredSession |}
                else registeredSession in
              Ret [inr (registeredSession, registered)]
        end) in
      Ret (inl current.1 :: jobs)
  end.

(** [internal/platform/http/oidc_backchannel.go:67-129] notifyOIDCBackchannelLogout, of sessions and their
    users: the jobs, which the code runs in parallel, run here one after another; a job
    whose turn comes after the deadline is dropped. *)
Definition notifyOIDCBackchannelLogout (sessions : list (string * string)) : Prog unit :=
  let unique : gmap string string :=
    foldl (λ m s, if decide (s.1 ≠ "") then <[s.1 := s.2]> m else m) ∅ sessions in
  let+ found := collect (range unique) logout_jobs in
  let+ _ := each (omap (λ x, match x with inr job => Some job | inl _ => None end) found) (λ job,
    let* late := CLate in
    if (late : bool) then Ret () else sendOIDCBackchannelLogout job) in
  let listed : gmap string unit := list_to_map (omap (λ x, match x with inl s => Some (s, ()) | inr _ => None end) found) in
  each (range listed) (λ s, let* _ := CStore (OpDeleteOIDCClientSessions s.1) in Ret ()).

(** [internal/platform/http/oidc_backchannel.go:46-65] cleanupRevokedSessions, of session identifiers and
    their users *)
Definition cleanupRevokedSessions (sessions : list (string * string)) : Prog unit :=
  let* now := CNow in
  let+ _ := each sessions (λ s,
    let* _ := CStore (OpRevokeSessionTokens s.2 s.1 now) in
    let* _ := CCas (CoDeleteServiceSessions s.1) in
    Ret ()) in
  notifyOIDCBackchannelLogout sessions.

(** ** Signing out *)

Definition redirect (status : Z) (target : string) : Reply := reply status (Redirect target).

(** [internal/platform/http/auth.go:687-710] logout *)
Definition logout (rq : HttpRequest) : Prog Reply :=
  match ParseForm rq with
  | None => Ret (writeProblem 400 "invalid_request" "退出请求无效")
  | Some (_, form) =>
      if negb (validCSRF (Get form "csrf_token") rq)
      then Ret (writeProblem 400 "invalid_csrf" "页面已失效，请刷新后重试")
      else
        let done := with_cookies [cleared sessionCookieName] (redirect 303 "/login") in
        let+ current := currentSession rq in
        match current with
        | None => Ret done
        | Some current =>
            let* _ := CSessionsRevoke (s_ID current) in
            let+ _ := cleanupRevokedSessions [(s_ID current, s_UserID current)] in
            let+ _ := recordAudit rq (event (s_UserID current) "logout" "" OutcomeSuccess {["session_id" := VString (s_ID current)]}) in
            Ret done
        end
  end.

Definition oidcLogoutHintMaxAge : Duration := 24 * Hour.

(** [internal/platform/http/oauth.go:995-1021] validIDTokenHint: the client, the subject and the session. *)
Definition validIDTokenHint (hint : string) : Prog (option (Client * string * string)) :=
  if decide (hint = "") then Ret None
  else
    let* claims := CVerify hint in
    match claims with
    | Err _ => Ret None
    | Ok claims =>
        let issuer := claim_string claims "iss" in
        let subject := claim_string claims "sub" in
        let audience := claim_string claims "aud" in
        let issuedAt := claim_int claims "iat" in
        let expiration := claim_int claims "exp" in
        let* now := CNow in
        let now := Unix now in
        if decide (issuer ≠ cfg_Issuer cfg ∨ subject = "" ∨ audience = "" ∨ issuedAt ≤ 0 ∨ expiration ≤ issuedAt ∨
                   now + 30 < issuedAt ∨ issuedAt < now - Z.quot oidcLogoutHintMaxAge Second)%Z
        then Ret None
        else
          let* registered := CClientsFind audience in
          match registered with
          | Err _ => Ret None
          | Ok registered =>
              if negb (SupportsOAuth registered) then Ret None
              else Ret (Some (registered, subject, claim_string claims "sid"))
          end
    end.

(** [internal/platform/http/oauth.go:970-984] oidcLogout, the sessions that are ended *)
Definition end_sessions (sessionID subject : string) (current : option Session) : Prog (list (string * string)) :=
  let after (revoked : list (string * string)) : Prog (list (string * string)) :=
    match current with
    | Some current =>
        if decide (sessionID ≠ "" ∧ s_ID current = sessionID) then Ret revoked
        else
          let* _ := CSessionsRevoke (s_ID current) in
          Ret (revoked ++ [(s_ID current, s_UserID current)])%list
    | None => Ret revoked
    end in
  if decide (sessionID ≠ "") then let* _ := CSessionsRevoke sessionID in after [(sessionID, subject)] else after [].

(** [internal/platform/http/oauth.go:945-992] oidcLogout, with the parameters of the request *)
Definition logout_with_hint `{URLParser} (rq : HttpRequest) (form : Values) : Prog Reply :=
  let+ hint := validIDTokenHint (Get form "id_token_hint") in
  match hint with
  | None => Ret (writeProblem 400 "invalid_request" "id_token_hint is invalid")
  | Some (registered, subject, sessionID) =>
      if decide (Get form "client_id" ≠ "" ∧ Get form "client_id" ≠ c_ID registered)
      then Ret (writeProblem 400 "invalid_request" "client_id does not match id_token_hint")
      else
        let redirectURI := Get form "post_logout_redirect_uri" in
        if bool_decide (redirectURI ≠ "") && negb (AllowsPostLogoutRedirectURI registered redirectURI)
        then Ret (writeProblem 400 "invalid_request" "post_logout_redirect_uri is not registered")
        else
          let target :=
            if decide (redirectURI = "") then Redirect "/login"
            else RedirectURI redirectURI (if decide (Get form "state" = "") then [] else [("state", Get form "state")]) in
          let+ current := currentSession rq in
          if match current with Some current => bool_decide (s_UserID current ≠ subject) | None => false end
          then Ret (writeProblem 400 "invalid_request" "id_token_hint does not match the current user")
          else
            let+ logoutSessions := end_sessions sessionID subject current in
            let+ _ := cleanupRevokedSessions logoutSessions in
            let+ _ := recordAudit rq (event subject "logout.oidc" (c_ID registered) OutcomeSuccess
                                        {["session_id" := VString sessionID]}) in
            Ret (with_cookies [cleared sessionCookieName] (reply 302 target))
  end.

(** [internal/platform/http/oauth.go:929-993] oidcLogout *)
Definition oidcLogout `{URLParser} (rq : HttpRequest) : Prog Reply :=
  if decide (rq_Method rq = "POST")
  then match ParseForm rq with
       | None => Ret (writeProblem 400 "invalid_request" "invalid logout request")
       | Some (_, form) => logout_with_hint rq form
       end
  else logout_with_hint rq (rq_Query rq).
End Browser.
