(* ===== verification/BrowserProps.v ===== *)
(** What the shared parts of the pages establish, whatever happens between their calls:
    the session of a request, the attempts allowed, and that pages sign nothing. *)
From S2P Require Import Prelude GoStrings GoCrypto OAuthStore Session RateLimit Identity Client Authorize GoUrl Access AuditLog Http HttpWp Tokens TokensProps Browser.
Local Open Scope Z_scope.
Local Open Scope string_scope.

(** Calls that change no grant, ticket, session, password nor second factor, and sign
    nothing. *)
Definition is_plain (q : Call) : bool := match q with CSign _ | CSignTyped _ _ => false | _ => is_read q end.

Lemma plain_read q : is_plain q = true → is_read q = true.
Proof. by destruct q. Qed.

(** The cookie of the request opened this session, whose user is active. *)
Definition signed_in (rq : HttpRequest) (current : Session) (past : list Did) : Prop :=
  (∃ token, rq_Cookies rq !! sessionCookieName = Some token ∧ did (CSessionsFind token) (Ok current) ∈ past) ∧
  (∃ user, did (CUsersFind (s_UserID current)) (Ok user) ∈ past ∧ u_Status user = UserActive).

Lemma signed_in_mono rq current past past' : past `prefix_of` past' → signed_in rq current past → signed_in rq current past'.
Proof. intros Hp [(token & ? & ?) (user & ? & ?)]. split; [exists token|exists user]; eauto using did_prefix. Qed.

(** The limiter let this subject pass, or is off. *)
Definition allowed (scope subject : string) (past : list Did) : Prop :=
  ∃ policy now d, did (CRate scope subject policy now) (Ok d) ∈ past ∧ (IsZero (d_ResetAt d) || d_Allowed d) = true.

Lemma allowed_mono scope subject past past' : past `prefix_of` past' → allowed scope subject past → allowed scope subject past'.
Proof. intros Hp (policy & now & d & ? & ?). exists policy, now, d. eauto using did_prefix. Qed.

(** Pages and panics send the browser nowhere, and open no session. *)
Definition stays (r : Reply) : Prop := match re_Body r with Redirect _ | RedirectURI _ _ => False | _ => True end.
(** The cookies of a reply that hold a session token. *)
Definition session_tokens (r : Reply) : list string :=
  (List.filter (λ c, bool_decide (c.1 = sessionCookieName ∧ c.2 ≠ "")) (re_Cookies r)).*2.

Lemma session_tokens_with cookies r :
  session_tokens (with_cookies cookies r) =
    (session_tokens r ++ (List.filter (λ c, bool_decide (c.1 = sessionCookieName ∧ c.2 ≠ "")) cookies).*2)%list.
Proof. unfold session_tokens, with_cookies. simpl. by rewrite List.filter_app, fmap_app. Qed.

(** Cookies of other names. *)
Definition other_cookies (l : list (string * string)) : Prop := Forall (λ c, c.1 ≠ sessionCookieName) l.

Lemma other_cookies_none l : other_cookies l → List.filter (λ c, bool_decide (c.1 = sessionCookieName ∧ c.2 ≠ "")) l = [].
Proof. induction 1 as [|c l Hc _ IH]; [done|]. simpl. rewrite bool_decide_false by naive_solver. done. Qed.

Section Parts.
Context `{MapRange, UnicodeTables, MailParser, TokenSigner} (cfg : Config).
Context (φ : list Did → Call → Prop) (Hplain : ∀ past q, is_plain q = true → φ past q).

Lemma wp_session past rq (post : list Did → option Session → Prop) :
  (∀ past' r, past `prefix_of` past' → (∀ current, r = Some current → signed_in rq current past') → post past' r) →
  wp φ past (currentSession rq) post.
Proof.
  intros Hpost. apply wp_frame. unfold currentSession. wp_steps; try (by apply Hplain).
  all: intros Hpre; apply Hpost; [done|]; intros current [= <-]. split.
  - eexists. split; [done|auto with did].
  - eexists. split; [auto with did|by apply dec_stable].
Qed.

Lemma wp_record past rq e (post : list Did → unit → Prop) :
  (∀ past', past `prefix_of` past' → post past' ()) → wp φ past (recordAudit rq e) post.
Proof.
  intros Hpost. apply wp_frame. unfold recordAudit. wp_steps; try (by apply Hplain).
  all: intros Hpre; by apply Hpost.
Qed.

Lemma wp_csrf past rq (post : list Did → Reply + (string * list (string * string)) → Prop) :
  (∀ past' r, past `prefix_of` past' →
     match r with inl r => r = panicked | inr csrf => other_cookies csrf.2 end → post past' r) →
  wp φ past (ensureCSRF rq) post.
Proof.
  intros Hpost. apply wp_frame. unfold ensureCSRF. wp_steps; try (by apply Hplain).
  all: intros Hpre; apply Hpost; [done|]; simpl; repeat constructor; discriminate.
Qed.

Lemma wp_page past rq template fields (post : list Did → Reply → Prop) :
  (∀ past' r, past `prefix_of` past' → stays r ∧ session_tokens r = [] → post past' r) → wp φ past (render rq template fields) post.
Proof.
  intros Hpost. unfold render. apply wp_try, wp_csrf. intros past' [r|csrf] Hp Hr.
  - apply Hpost; [done|]. by subst.
  - apply wp_ret, Hpost; [done|]. split; [done|]. by rewrite session_tokens_with, other_cookies_none.
Qed.

(** The subject that the limiter counts. *)
Definition subject_of (subject : string) : string := if decide (subject = "") then "<unknown>" else subject.

Lemma wp_attempt past scope subject policy oauthStyle (post : list Did → Reply + unit → Prop) :
  (∀ past' r, past `prefix_of` past' →
     match r with inl e => refusal e ∧ re_Cookies e = [] | inr _ => allowed scope (subject_of subject) past' end → post past' r) →
  wp φ past (allowRateLimitedRequest scope subject policy oauthStyle) post.
Proof.
  intros Hpost. apply wp_frame. unfold allowRateLimitedRequest. wp_steps; try by apply Hplain.
  all: intros Hpre; apply Hpost; [done|]; try (by destruct oauthStyle); eexists _, _, _; (split; [auto with did|]).
  - match goal with Hz : IsZero _ = true |- _ => by rewrite Hz end.
  - match goal with Ha : d_Allowed _ = true |- _ => rewrite Ha; apply orb_true_r end.
Qed.

Lemma wp_login_attempt past rq username (post : list Did → Reply + unit → Prop) :
  (∀ past' r, past `prefix_of` past' →
     match r with
     | inl e => refusal e ∧ re_Cookies e = []
     | inr _ => allowed "login.source" (subject_of (rq_IPAddress rq)) past' ∧
                allowed "login.identity" (if decide (ToLower (TrimSpace username) = "") then "<empty>" else ToLower (TrimSpace username)) past'
     end → post past' r) →
  wp φ past (allowLoginAttempt cfg rq username) post.
Proof.
  intros Hpost. unfold allowLoginAttempt. apply wp_try, wp_bind, wp_attempt. intros past1 [e|[]] Hp1 Ha1; apply wp_ret.
  - by apply Hpost.
  - apply wp_attempt. intros past2 [e|[]] Hp2 Ha2; (apply Hpost; [pre|]); [done|]. split; [by eapply allowed_mono|].
    revert Ha2. unfold subject_of. repeat case_decide; done.
Qed.

Lemma wp_mfa_attempt past rq userID (post : list Did → Reply + unit → Prop) :
  (∀ past' r, past `prefix_of` past' →
     match r with
     | inl e => refusal e ∧ re_Cookies e = []
     | inr _ => allowed "mfa.source" (subject_of (rq_IPAddress rq)) past' ∧ allowed "mfa.identity" (subject_of userID) past'
     end → post past' r) →
  wp φ past (allowMFAAttempt cfg rq userID) post.
Proof.
  intros Hpost. unfold allowMFAAttempt. apply wp_try, wp_bind, wp_attempt. intros past1 [e|[]] Hp1 Ha1; apply wp_ret.
  - by apply Hpost.
  - apply wp_attempt. intros past2 [e|[]] Hp2 Ha2; (apply Hpost; [pre|]); [done|]. split; [by eapply allowed_mono|done].
Qed.
End Parts.
