(* ===== verification/AuthorizeEndpoint.v ===== *)
(** The authorization endpoint ([internal/platform/http/oauth.go], [consent.go]): a signed-in
    user authorizes an application, which gets a code. *)
From S2P Require Import Prelude GoStrings GoCrypto GoTime OAuthStore Session RateLimit Identity Client Authorize GoUrl Access AuditLog Http Tokens Browser.
Local Open Scope Z_scope.
Local Open Scope string_scope.
Local Open Scope go_scope.

(** [internal/platform/http/oauth.go:26-28] authorizationCodeLifetime *)
Definition authorizationCodeLifetime : Duration := 5 * Minute.
(** [internal/platform/http/consent.go:16-16] oauthConsentLifetime *)
Definition oauthConsentLifetime : Duration := 5 * Minute.

(** [internal/platform/http/oauth.go:223-231] authenticationTooOld *)
Definition authenticationTooOld (now authenticatedAt : Time) (maxAge : Z) : bool :=
  if IsZero authenticatedAt then true
  else if negb (Before authenticatedAt now) then false
  else bool_decide (maxAge < wrap64 (Unix now - Unix authenticatedAt))%Z.

(** [internal/platform/http/oauth.go:213-221] oauthAuthorizationFingerprint *)
Definition oauthAuthorizationFingerprint (query : Values) : string :=
  RawURLEncoding_EncodeToString (sha256 (bytes (Encode (Del "certus_reauth" query)))).

(** [internal/platform/http/oauth.go:233-251] redirectOAuthAuthorizationError: the address, which was
    registered, is one that [url.Parse] accepts. *)
Definition redirectOAuthAuthorizationError (redirectURI state code description : string) : Reply :=
  reply 302 (RedirectURI redirectURI
    ([("error", code); ("error_description", description)] ++ (if decide (state ≠ "") then [("state", state)] else []))).

(** [internal/platform/http/consent.go:212-233] oauthConsentScopes: the code, the title and the
    description of each scope. *)
Definition oauthConsentScopes (scopes : list string) : list (string * string * string) :=
  (λ scope,
    if decide (scope = "openid") then (scope, "确认您的身份", "允许接入系统获得稳定的用户标识。")
    else if decide (scope = "profile") then (scope, "基本资料", "允许读取显示名称和用户名。")
    else if decide (scope = "email") then (scope, "邮箱地址", "允许读取账号绑定的邮箱地址。")
    else if decide (scope = "roles") then (scope, "角色与权限", "允许读取您在此系统中的角色和权限点。")
    else (scope, scope, "允许接入系统使用此授权范围。")) <$> scopes.

Section AuthorizeEndpoint.
Context `{MapRange, UnicodeTables, MailParser, TokenSigner, URLParser}.

(** ** Codes *)

(** [internal/platform/http/oauth.go:102-139] issueAuthorizationCode *)
Definition issueAuthorizationCode (request : AuthorizationRequest) (current : Session) : Prog Reply :=
  let* rnd := CRandom in
  match RandomToken rnd with
  | Err _ => Ret (writeProblem 500 "server_error" "生成授权码失败")
  | Ok code =>
      let* now := CNow in
      let* saved := CStore (OpSaveAuthorizationCode
        {| ac_Hash := HashToken code; ac_ClientID := ar_ClientID request; ac_UserID := s_UserID current; ac_SessionID := s_ID current;
           ac_RedirectURI := ar_RedirectURI request; ac_Scope := ar_Scope request; ac_Nonce := ar_Nonce request;
           ac_CodeChallenge := ar_CodeChallenge request; ac_AuthenticatedAt := s_AuthenticatedAt current;
           ac_AuthMethods := s_AuthMethods current; ac_AssuranceLevel := s_AssuranceLevel current;
           ac_CreatedAt := now; ac_ExpiresAt := (now + authorizationCodeLifetime)%Z |}) in
      match saved with
      | Err _ => Ret (writeProblem 500 "server_error" "保存授权码失败")
      | Ok _ => Ret (reply 302 (RedirectURI (ar_RedirectURI request) [("code", code); ("state", ar_State request)]))
      end
  end.

(** ** Fresh authentication *)

(** [internal/platform/http/oauth.go:141-171] redirectOAuthCredentials *)
Definition redirectOAuthCredentials (rq : HttpRequest) (clientID : string) : Prog Reply :=
  let query := Del "certus_reauth" (rq_Query rq) in
  let* now := CNow in
  let* marker := CSign (<["purpose" := VString "oauth_reauth"]> (<["fingerprint" := VString (oauthAuthorizationFingerprint query)]>
    (<["issued_at" := VString (FormatRFC3339Nano now)]> {["exp" := VInt (Unix (now + 5 * Minute)%Z)]}))) in
  match marker with
  | Err _ => Ret (writeProblem 500 "server_error" "创建重新认证请求失败")
  | Ok marker =>
      let returnTo := "/oauth2/authorize?" +:+ Encode (Set_ "certus_reauth" marker query) in
      let loginQuery : Values := <["continue" := [returnTo]]> {["client_id" := [clientID]]} in
      Ret (with_cookies [(oauthReauthCookieName, marker)] (redirect 302 ("/login?" +:+ Encode loginQuery)))
  end.

(** [internal/platform/http/oauth.go:173-199] validOAuthReauthMarker *)
Definition validOAuthReauthMarker (rq : HttpRequest) (marker : string) (authenticatedAt : Time) : Prog bool :=
  match rq_Cookies rq !! oauthReauthCookieName with
  | None => Ret false
  | Some cookie =>
      if decide (cookie ≠ marker) then Ret false
      else
        let* claims := CVerify marker in
        match claims with
        | Err _ => Ret false
        | Ok claims =>
            match ParseRFC3339Nano (claim_string claims "issued_at") with
            | None => Ret false
            | Some issuedAt =>
                let* now := CNow in
                Ret (bool_decide (claim_string claims "purpose" = "oauth_reauth") &&
                     bool_decide (claim_string claims "fingerprint" = oauthAuthorizationFingerprint (Del "certus_reauth" (rq_Query rq))) &&
                     bool_decide (Unix now < claim_int claims "exp")%Z &&
                     negb (After issuedAt (now + 30 * Second)%Z) &&
                     After authenticatedAt issuedAt)
            end
        end
  end.

(** ** Consent *)

(** [internal/platform/http/consent.go:33-49] requiresOAuthConsent *)
Definition requiresOAuthConsent (request : AuthorizationRequest) (current : Session) : Prog (Res unit bool) :=
  if HasPrompt request "consent" then Ret (Ok true)
  else
    let* consent := CFindConsent (s_UserID current) (ar_ClientID request) in
    match consent with
    | Err ErrConsentNotFound => Ret (Ok true)
    | Err _ => Ret (Err ())
    | Ok consent => Ret (Ok (negb (Covers consent (ar_Scope request))))
    end.

(** The address of the request, as the consent page remembers it. *)
Definition consent_uri (rq : HttpRequest) : string :=
  let encoded := Encode (Del "certus_reauth" (rq_Query rq)) in
  if decide (encoded = "") then rq_Path rq else rq_Path rq +:+ "?" +:+ encoded.

(** [internal/platform/http/consent.go:51-98] renderOAuthConsent *)
Definition renderOAuthConsent (rq : HttpRequest) (registered : Client) (request : AuthorizationRequest) (current : Session) : Prog Reply :=
  let* user := CUsersFind (s_UserID current) in
  let refused := Ret (writeProblem 401 "unauthorized" "登录会话无效") in
  match user with
  | Err _ => refused
  | Ok user =>
      if decide (u_Status user ≠ UserActive) then refused
      else
        let* now := CNow in
        let* transaction := CSign (<["purpose" := VString "oauth_consent"]> (<["user_id" := VString (s_UserID current)]>
          (<["session_id" := VString (s_ID current)]> (<["request_uri" := VString (consent_uri rq)]>
          (<["iat" := VInt (Unix now)]> {["exp" := VInt (Unix (now + oauthConsentLifetime)%Z)]}))))) in
        match transaction with
        | Err _ => Ret (writeProblem 500 "server_error" "创建授权确认请求失败")
        | Ok transaction =>
            let+ page := render rq "consent.html"
              (<["Client" := VString (c_ID registered)]> (<["User" := VString (u_ID user)]>
                {["Scopes" := VObject ((λ s, (s.1.1, VStrings [s.1.2; s.2])) <$> oauthConsentScopes (ar_Scope request))]})) in
            Ret (with_cookies [(oauthConsentCookieName, transaction)] page)
        end
  end.

(** [internal/platform/http/consent.go:176-198] oauthConsentTransaction *)
Definition oauthConsentTransaction (rq : HttpRequest) (current : Session) : Prog (option string) :=
  match rq_Cookies rq !! oauthConsentCookieName with
  | None => Ret None
  | Some cookie =>
      let* claims := CVerify cookie in
      match claims with
      | Err _ => Ret None
      | Ok claims =>
          let* now := CNow in
          let now := Unix now in
          let requestURI := claim_string claims "request_uri" in
          if bool_decide (claim_string claims "purpose" = "oauth_consent") &&
             bool_decide (claim_string claims "user_id" = s_UserID current) &&
             bool_decide (claim_string claims "session_id" = s_ID current) &&
             HasPrefix requestURI "/oauth2/authorize?" &&
             bool_decide (now < claim_int claims "exp")%Z &&
             bool_decide (claim_int claims "iat" ≤ now + 30)%Z
          then Ret (Some requestURI) else Ret None
      end
  end.

(** [internal/platform/http/consent.go:100-174] oauthConsentDecision *)
Definition oauthConsentDecision (rq : HttpRequest) : Prog Reply :=
  let refuse_with (status : Z) (code detail : string) : Prog Reply :=
    Ret (with_cookies [cleared oauthConsentCookieName] (writeProblem status code detail)) in
  match ParseForm rq with
  | None => Ret (writeProblem 400 "invalid_request" "授权确认请求无效")
  | Some (_, form) =>
  if negb (validCSRF (Get form "csrf_token") rq)
  then Ret (writeProblem 400 "invalid_csrf" "授权确认页面已失效，请刷新后重试")
  else
    let+ current := currentSession rq in
    match current with
    | None => refuse_with 401 "unauthorized" "登录会话已失效"
    | Some current =>
    let+ requestURI := oauthConsentTransaction rq current in
    match requestURI with
    | None => refuse_with 400 "invalid_consent_transaction" "授权确认请求无效或已过期"
    | Some requestURI =>
    match ParseRequestURI requestURI with
    | None => refuse_with 400 "invalid_consent_transaction" "授权确认请求无效"
    | Some (path, query) =>
    if decide (path ≠ "/oauth2/authorize") then refuse_with 400 "invalid_consent_transaction" "授权确认请求无效"
    else
      let* registered := CClientsFind (Get query "client_id") in
      match registered with
      | Err _ => refuse_with 400 "invalid_client" "接入系统不可用"
      | Ok registered =>
      match ParseAuthorizationRequest query registered with
      | Err e => refuse_with 400 "invalid_request" e
      | Ok request =>
        let scopes : Claims := {["scopes" := VStrings (ar_Scope request)]} in
        let+ r :=
          (if decide (Get form "decision" = "deny")
           then
             let+ _ := recordAudit rq (event (s_UserID current) "oauth.consent.denied" (c_ID registered) OutcomeSuccess scopes) in
             Ret (redirectOAuthAuthorizationError (ar_RedirectURI request) (ar_State request)
                    "access_denied" "The end-user denied the authorization request")
           else if decide (Get form "decision" = "allow")
           then
             let* now := CNow in
             let* granted := CStore (OpGrantConsent (s_UserID current) (c_ID registered) (ar_Scope request) now) in
             match granted with
             | Err _ => Ret (redirectOAuthAuthorizationError (ar_RedirectURI request) (ar_State request)
                               "server_error" "Unable to record authorization")
             | Ok _ =>
                 let+ _ := recordAudit rq (event (s_UserID current) "oauth.consent.granted" (c_ID registered) OutcomeSuccess scopes) in
                 issueAuthorizationCode request current
             end
           else Ret (writeProblem 400 "invalid_request" "无效的授权决定")) in
        Ret (with_cookies [cleared oauthConsentCookieName] r)
      end end end end end
  end.

(** ** The endpoint *)

Definition login_required (request : AuthorizationRequest) : Reply :=
  redirectOAuthAuthorizationError (ar_RedirectURI request) (ar_State request) "login_required" "End-user authentication is required".

(** [internal/platform/http/oauth.go:49-81] authorize, whether the user is signed in and recently enough:
    the session and the cookies to set, or the reply. *)
Definition authenticated_session (rq : HttpRequest) (registered : Client) (request : AuthorizationRequest)
    : Prog (Reply + (Session * list (string * string))) :=
  let+ current := currentSession rq in
  let* now := CNow in
  let stale :=
    match ar_MaxAge request with
    | Some maxAge => authenticationTooOld now (from_option s_AuthenticatedAt time_zero current) maxAge
    | None => false
    end in
  let credentials := let+ r := redirectOAuthCredentials rq (c_ID registered) in Ret (inl r) in
  let marker := Get (rq_Query rq) "certus_reauth" in
  if decide (marker ≠ "")
  then
    let refused := if HasPrompt request "none" then Ret (inl (login_required request)) else credentials in
    match current with
    | None => refused
    | Some current =>
        let+ valid := validOAuthReauthMarker rq marker (s_AuthenticatedAt current) in
        if (valid : bool) then Ret (inr (current, [cleared oauthReauthCookieName])) else refused
    end
  else if HasPrompt request "none"
  then match current with
       | None => Ret (inl (login_required request))
       | Some current => if stale then Ret (inl (login_required request)) else Ret (inr (current, []))
       end
  else match current with
  | Some current =>
      if HasPrompt request "login" || bool_decide (ar_MaxAge request = Some 0%Z) || stale
      then credentials else Ret (inr (current, []))
  | None =>
      if negb (HasPrompt request "login") && match ar_MaxAge request with None => true | Some age => bool_decide (0 < age)%Z end
      then
        let query : Values := <["continue" := [rq_RequestURI rq]]> {["client_id" := [c_ID registered]]} in
        Ret (inl (redirect 302 ("/login?" +:+ Encode query)))
      else credentials
  end.

(** [internal/platform/http/oauth.go:31-100] authorize *)
Definition authorize (rq : HttpRequest) : Prog Reply :=
  let query := rq_Query rq in
  let* registered := CClientsFind (Get query "client_id") in
  match registered with
  | Err _ => Ret (writeProblem 400 "invalid_request" "未知的 client_id")
  | Ok registered =>
  match ParseAuthorizationRequest query registered with
  | Err e =>
      let redirectURI := Get query "redirect_uri" in
      if c_Enabled registered && SupportsOAuth registered && AllowsRedirectURI registered redirectURI
      then Ret (redirectOAuthAuthorizationError redirectURI (Get query "state") "invalid_request" e)
      else Ret (writeProblem 400 "invalid_request" e)
  | Ok request =>
      try+ signed := authenticated_session rq registered request in
      let '(current, cookies) := signed in
      let+ required := requiresOAuthConsent request current in
      let+ r :=
        match required with
        | Err _ => Ret (redirectOAuthAuthorizationError (ar_RedirectURI request) (ar_State request)
                          "server_error" "Unable to read authorization")
        | Ok true =>
            if HasPrompt request "none"
            then Ret (redirectOAuthAuthorizationError (ar_RedirectURI request) (ar_State request)
                        "consent_required" "End-user consent is required")
            else renderOAuthConsent rq registered request current
        | Ok false => issueAuthorizationCode request current
        end in
      Ret (with_cookies cookies r)
  end end.
End AuthorizeEndpoint.
