(* ===== verification/AuthorizeProps.v ===== *)
(** What the authorization endpoint guarantees, whatever happens between its calls: codes
    are only issued to signed-in users who consented and whose authentication is as
    fresh as the request demands, and the browser is only sent to registered addresses. *)
From S2P Require Import Prelude GoStrings GoCrypto GoTime OAuthStore OAuthStoreProps Session RateLimit Identity Client Authorize GoUrl Access AuditLog Http HttpWp Tokens TokensProps Browser BrowserProps AuthorizeEndpoint.
Local Open Scope Z_scope.
Local Open Scope string_scope.

Section AuthorizeProps.
Context `{MapRange, UnicodeTables, MailParser, TokenSigner, URLParser}.

(** ** What the calls show *)

(** The user signed in after the server sent this browser to do so for this request: the
    marker it signed is in the cookie and in the query, names the request, and was issued
    before the authentication. *)
Definition reauthenticated (rq : HttpRequest) (current : Session) (past : list Did) : Prop :=
  ∃ marker claims issuedAt, marker ≠ "" ∧ Get (rq_Query rq) "certus_reauth" = marker ∧
    rq_Cookies rq !! oauthReauthCookieName = Some marker ∧ did (CVerify marker) (Ok claims) ∈ past ∧
    claim_string claims "purpose" = "oauth_reauth" ∧
    claim_string claims "fingerprint" = oauthAuthorizationFingerprint (Del "certus_reauth" (rq_Query rq)) ∧
    ParseRFC3339Nano (claim_string claims "issued_at") = Some issuedAt ∧ issuedAt < s_AuthenticatedAt current.

(** The authentication is as recent as the request demands. *)
Definition fresh (rq : HttpRequest) (request : AuthorizationRequest) (current : Session) (past : list Did) : Prop :=
  reauthenticated rq current past ∨
  (HasPrompt request "none" = true ∨ HasPrompt request "login" = false) ∧
  ∀ maxAge, ar_MaxAge request = Some maxAge →
    ∃ now, did CNow now ∈ past ∧ authenticationTooOld now (s_AuthenticatedAt current) maxAge = false.

(** A code for this request and this session, valid for five minutes. *)
Definition code_for (request : AuthorizationRequest) (current : Session) (v : AuthorizationCode) : Prop :=
  ac_ClientID v = ar_ClientID request ∧ ac_UserID v = s_UserID current ∧ ac_SessionID v = s_ID current ∧
  ac_RedirectURI v = ar_RedirectURI request ∧ ac_Scope v = ar_Scope request ∧ ac_Nonce v = ar_Nonce request ∧
  ac_CodeChallenge v = ar_CodeChallenge request ∧ ac_AuthenticatedAt v = s_AuthenticatedAt current ∧
  ac_ExpiresAt v = ac_CreatedAt v + 5 * Minute.

(** The user's consent is on record, and the request does not ask for a new one. *)
Definition consent_on_record (request : AuthorizationRequest) (current : Session) (past : list Did) : Prop :=
  HasPrompt request "consent" = false ∧
  ∃ consent, did (CFindConsent (s_UserID current) (ar_ClientID request)) (Ok consent) ∈ past ∧
             ar_Scope request ⊆ co_Scopes consent.

(** The user agreed on the consent page: the form comes from a page of the site, the cookie
    holds what the server signed for this user, session and authorization request, and
    the consent was recorded. *)
Definition consent_given (rq : HttpRequest) (query : Values) (request : AuthorizationRequest) (current : Session) (past : list Did) : Prop :=
  ∃ body form cookie claims uri now consent, ParseForm rq = Some (body, form) ∧ validCSRF (Get form "csrf_token") rq = true ∧
    Get form "decision" = "allow" ∧ rq_Cookies rq !! oauthConsentCookieName = Some cookie ∧ did (CVerify cookie) (Ok claims) ∈ past ∧
    claim_string claims "purpose" = "oauth_consent" ∧ claim_string claims "user_id" = s_UserID current ∧
    claim_string claims "session_id" = s_ID current ∧ claim_string claims "request_uri" = uri ∧
    ParseRequestURI uri = Some ("/oauth2/authorize", query) ∧
    did (CStore (OpGrantConsent (s_UserID current) (ar_ClientID request) (ar_Scope request) now)) (Ok consent) ∈ past.

(** The query of the authorization request is a request of this registered client. *)
Definition requested (query : Values) (registered : Client) (request : AuthorizationRequest) (past : list Did) : Prop :=
  did (CClientsFind (Get query "client_id")) (Ok registered) ∈ past ∧ ParseAuthorizationRequest query registered = Ok request.

Lemma fresh_mono rq request current past past' : past `prefix_of` past' → fresh rq request current past → fresh rq request current past'.
Proof.
  intros Hp [(marker & claims & issuedAt & Hm)|[? Hage]]; [left|right].
  - exists marker, claims, issuedAt. destruct_and! Hm. split_and!; eauto using did_prefix.
  - split; [done|]. intros maxAge Hmax. destruct (Hage maxAge Hmax) as (now & ? & ?). exists now. eauto using did_prefix.
Qed.

(** ** Parts of the handlers *)

Section Parts.
Context (φ : list Did → Call → Prop) (Hread : ∀ past q, is_read q = true → φ past q).

Lemma wp_currentSession past rq (post : list Did → option Session → Prop) :
  (∀ past' r, past `prefix_of` past' → (∀ current, r = Some current → signed_in rq current past') → post past' r) →
  wp φ past (currentSession rq) post.
Proof.
  apply wp_session. intros past' q Hq. by apply Hread, plain_read.
Qed.

Lemma wp_audit past rq e (post : list Did → unit → Prop) :
  (∀ past', past `prefix_of` past' → post past' ()) → wp φ past (recordAudit rq e) post.
Proof.
  apply wp_record. intros past' q Hq. by apply Hread, plain_read.
Qed.

Lemma wp_render past rq template fields (post : list Did → Reply → Prop) :
  (∀ past' r, past `prefix_of` past' → stays r → post past' r) → wp φ past (render rq template fields) post.
Proof.
  intros Hpost. apply wp_page; [intros past' q Hq; by apply Hread, plain_read|]. intros past' r Hp [? _]. by apply Hpost.
Qed.

Lemma wp_marker past rq current (post : list Did → bool → Prop) :
  Get (rq_Query rq) "certus_reauth" ≠ "" →
  (∀ past' r, past `prefix_of` past' → (r = true → reauthenticated rq current past') → post past' r) →
  wp φ past (validOAuthReauthMarker rq (Get (rq_Query rq) "certus_reauth") (s_AuthenticatedAt current)) post.
Proof.
  intros Hne Hpost. apply wp_frame. unfold validOAuthReauthMarker. wp_steps; try (by apply Hread).
  all: intros Hpre; apply Hpost; [done|]; intros Hr; try done.
  repeat (apply andb_true_iff in Hr as [Hr ?]). reflect.
  match goal with Hc : ¬ _ ≠ _ |- _ => apply dec_stable in Hc; subst end.
  eexists (Get (rq_Query rq) "certus_reauth"), _, _. split_and!; try done. auto with did.
Qed.

(** ** Issuing a code *)

(** The browser is sent to a page of the site, or to an address that satisfies [ok]. *)
Definition goes_to (ok : string → Prop) (r : Reply) : Prop :=
  match re_Body r with Redirect t => HasPrefix t "/login?" = true | RedirectURI uri _ => ok uri | _ => True end.

Lemma stays_goes ok r : stays r → goes_to ok r.
Proof. unfold stays, goes_to. by destruct (re_Body r). Qed.

Lemma goes_cookies ok cookies r : goes_to ok r → goes_to ok (with_cookies cookies r).
Proof. done. Qed.

Lemma error_goes (ok : string → Prop) uri state code description : ok uri → goes_to ok (redirectOAuthAuthorizationError uri state code description).
Proof. done. Qed.

Lemma login_goes ok query : goes_to ok (redirect 302 ("/login?" +:+ query)).
Proof. unfold goes_to. simpl. apply HasPrefix_true. by eexists. Qed.

Lemma wp_issue past request current (ok : string → Prop) (post : list Did → Reply → Prop) :
  ok (ar_RedirectURI request) →
  (∀ past' v, past `prefix_of` past' → code_for request current v → φ past' (CStore (OpSaveAuthorizationCode v))) →
  (∀ past' r, past `prefix_of` past' → goes_to ok r → post past' r) →
  wp φ past (issueAuthorizationCode request current) post.
Proof.
  intros Hok Hsave Hpost. unfold issueAuthorizationCode. wp_steps; try (by apply Hread).
  all: try (apply Hsave; [pre|done]). all: apply Hpost; done || pre.
Qed.

Lemma wp_credentials past rq clientID ok (post : list Did → Reply → Prop) :
  (∀ past' r, past `prefix_of` past' → goes_to ok r → post past' r) →
  wp φ past (redirectOAuthCredentials rq clientID) post.
Proof.
  intros Hpost. unfold redirectOAuthCredentials. wp_steps; try (by apply Hread).
  all: apply Hpost; [pre|done].
Qed.

(** ** The session of an authorization request *)

Lemma wp_authenticated_session past rq registered request ok (post : list Did → Reply + (Session * list (string * string)) → Prop) :
  ok (ar_RedirectURI request) →
  (∀ past' r, past `prefix_of` past' →
     match r with
     | inl r => goes_to ok r
     | inr (current, _) => signed_in rq current past' ∧ fresh rq request current past'
     end → post past' r) →
  wp φ past (authenticated_session rq registered request) post.
Proof.
  intros Hok Hpost. unfold authenticated_session. apply wp_bind, wp_currentSession. intros past1 current Hp1 Hsigned.
  apply wp_do; [by apply Hread|]. intros now. set (past2 := (past1 ++ [did CNow now])%list).
  assert (past `prefix_of` past2) as Hp2 by (unfold past2; pre).
  assert (∀ past', past2 `prefix_of` past' →
    wp φ past' (bind (redirectOAuthCredentials rq (c_ID registered)) (λ r, Ret (inl r))) post) as Hcred.
  { intros past' Hp. apply wp_bind, (wp_credentials _ _ _ ok). intros past3 r Hp3 Hr. apply wp_ret, Hpost; [pre|done]. }
  assert (∀ past', past2 `prefix_of` past' → post past' (inl (login_required request))) as Hlogin
    by (intros past' Hp; apply Hpost; [pre|by apply error_goes]).
  assert (∀ c past', current = Some c → past2 `prefix_of` past' → signed_in rq c past') as Hin.
  { intros c past' -> Hp. eapply signed_in_mono; [|by apply Hsigned]. unfold past2 in *. pre. }
  assert (∀ c past', current = Some c → past2 `prefix_of` past' →
    match ar_MaxAge request with
    | Some maxAge => authenticationTooOld now (from_option s_AuthenticatedAt time_zero current) maxAge
    | None => false
    end = false → (HasPrompt request "none" = true ∨ HasPrompt request "login" = false) → fresh rq request c past') as Hfresh.
  { intros c past' -> Hp Hstale Hprompt. right. split; [done|]. intros maxAge Hmax. rewrite Hmax in Hstale. exists now. split; [|done].
    eapply did_prefix; [exact Hp|]. apply did_last. }
  cbv zeta. case_decide as Hmarker; [|destruct (HasPrompt request "none") eqn:Hnone].
  - assert (∀ past', past2 `prefix_of` past' → wp φ past'
      (if HasPrompt request "none" then Ret (inl (login_required request))
       else bind (redirectOAuthCredentials rq (c_ID registered)) (λ r, Ret (inl r))) post) as Hrefused
      by (intros past' Hp; wp_step; [apply wp_ret; by apply Hlogin|by apply Hcred]).
    destruct current as [c|]; [|by apply Hrefused]. apply wp_bind, wp_marker; [done|]. intros past3 valid Hp3 Hvalid.
    destruct valid; [|by apply Hrefused]. apply wp_ret, Hpost; [pre|]. split; [by apply Hin|left; by apply Hvalid].
  - destruct current as [c|]; [|apply wp_ret; by apply Hlogin]. wp_step; [apply wp_ret; by apply Hlogin|].
    apply wp_ret, Hpost; [pre|]. split; [by apply Hin|]. apply Hfresh; auto.
  - destruct current as [c|].
    + wp_step; [by apply Hcred|]. reflect. apply wp_ret, Hpost; [pre|]. destruct_and?. split; [by apply Hin|]. apply Hfresh; auto.
    + wp_step; [|by apply Hcred]. apply wp_ret, Hpost; [pre|]. apply login_goes.
Qed.
End Parts.

(** ** The endpoints *)

Lemma request_redirect query registered request :
  ParseAuthorizationRequest query registered = Ok request →
  ar_RedirectURI request = Get query "redirect_uri" ∧ AllowsRedirectURI registered (ar_RedirectURI request) = true ∧ c_Enabled registered = true ∧
  ar_ClientID request = c_ID registered.
Proof.
  unfold ParseAuthorizationRequest. rewrite !res_bind_refuse. intros (Hon & _ & _ & _ & Hrest). cbv zeta in Hrest.
  destruct Hrest as (Huri & _ & _ & _ & _ & Hrest).
  destruct (parsePrompt query); [|done]. destruct (parseMaxAge query); [|done]. injection Hrest as <-. simpl.
  by apply negb_false_iff in Huri, Hon.
Qed.

(** Why a code may be saved. *)
Definition justified (rq : HttpRequest) (past : list Did) (v : AuthorizationCode) : Prop :=
  ∃ query registered request current, requested query registered request past ∧ signed_in rq current past ∧ code_for request current v ∧
    (query = rq_Query rq ∧ fresh rq request current past ∧ consent_on_record request current past ∨
     consent_given rq query request current past).
Definition code_guard (rq : HttpRequest) (past : list Did) (q : Call) : Prop :=
  match q with CStore (OpSaveAuthorizationCode v) => justified rq past v | _ => True end.

Lemma read_guard rq past q : is_read q = true → code_guard rq past q.
Proof. by destruct q. Qed.

(** An address registered by an enabled client that was looked up. *)
Definition registered_uri (past : list Did) (uri : string) : Prop :=
  ∃ id registered, did (CClientsFind id) (Ok registered) ∈ past ∧ c_Enabled registered = true ∧ AllowsRedirectURI registered uri = true.
Definition sent_well (past : list Did) (r : Reply) : Prop := goes_to (registered_uri past) r.

Lemma goes_to_mono (ok ok' : string → Prop) r : (∀ uri, ok uri → ok' uri) → goes_to ok r → goes_to ok' r.
Proof. unfold goes_to. destruct (re_Body r); auto. Qed.

Lemma registered_uri_mono past past' uri : past `prefix_of` past' → registered_uri past uri → registered_uri past' uri.
Proof. intros Hp (id & c & ? & ?). exists id, c. eauto using did_prefix. Qed.

Lemma wp_consent_required φ past request current (post : list Did → Res unit bool → Prop) :
  (∀ past q, is_read q = true → φ past q) →
  (∀ past' r, past `prefix_of` past' → (r = Ok false → consent_on_record request current past') → post past' r) →
  wp φ past (requiresOAuthConsent request current) post.
Proof.
  intros Hread Hpost. apply wp_frame. unfold requiresOAuthConsent. wp_steps; try (by apply Hread).
  all: intros Hpre; apply Hpost; [done|]; intros [= Hr]. split; [done|].
  eexists. split; [auto with did|]. apply negb_false_iff in Hr. unfold Covers in Hr. by rewrite ScopesCover_subseteq in Hr.
Qed.

Lemma wp_authorize rq : wp (code_guard rq) [] (authorize rq) sent_well.
Proof.
  pose proof (read_guard rq) as Hread. unfold authorize. apply wp_do; [done|]. intros [registered|e]; [|done].
  destruct (ParseAuthorizationRequest (rq_Query rq) registered) as [request|e] eqn:Hparse.
  2: { wp_step; [|done]. reflect. destruct_and?. apply wp_ret, error_goes. eexists _, _. split; [auto with did|done]. }
  destruct (request_redirect _ _ _ Hparse) as (Hget & Hallowed & Hon & Hid).
  set (past0 := ([] ++ [did (CClientsFind (Get (rq_Query rq) "client_id")) (Ok registered)])%list).
  assert (∀ past, past0 `prefix_of` past → requested (rq_Query rq) registered request past) as Hreq
    by (intros past Hp; split; [|done]; eapply did_prefix; [exact Hp|apply did_last]).
  assert (∀ past, past0 `prefix_of` past → registered_uri past (ar_RedirectURI request)) as Huri
    by (intros past Hp; eexists _, registered; split; [by apply Hreq|done]).
  apply wp_try, (wp_authenticated_session _ Hread _ _ _ _ (registered_uri past0)); [by apply Huri|].
  intros past1 [r|[current cookies]] Hp1 Hr; [by eapply goes_to_mono; [intros uri; by apply registered_uri_mono|]|].
  destruct Hr as [Hin Hfresh]. cbv beta iota. apply wp_bind, wp_consent_required; [done|]. intros past2 required Hp2 Hconsent.
  assert (past0 `prefix_of` past2) as Hp by pre. apply wp_bind. cbv beta.
  assert (∀ past' r, past2 `prefix_of` past' → goes_to (registered_uri past2) r → wp (code_guard rq) past' (Ret (with_cookies cookies r)) sent_well) as Hdone.
  { intros past' r Hp' Hr. apply wp_ret, goes_cookies. eapply goes_to_mono; [|done]. intros uri. by apply registered_uri_mono. }
  destruct required as [[]|]; [| |apply wp_ret, Hdone; [done|by apply error_goes, Huri]].
  - wp_step; [apply wp_ret, Hdone; [done|by apply error_goes, Huri]|]. unfold renderOAuthConsent.
    wp_steps; try done; try (apply Hdone; [pre|done]). apply wp_render; [done|]. intros past3 r Hp3 Hr.
    apply wp_ret, Hdone; [pre|]. by apply goes_cookies, stays_goes.
  - apply (wp_issue _ Hread _ _ _ (registered_uri past2)); [by apply Huri| |].
    + intros past3 v Hp3 Hv. exists (rq_Query rq), registered, request, current.
      split; [apply Hreq; pre|]. split; [by eapply signed_in_mono; [|exact Hin]; pre|]. split; [done|]. left. split; [done|].
      split; [by eapply fresh_mono; [|exact Hfresh]; pre|]. destruct (Hconsent eq_refl) as [Hno (consent & ? & ?)].
      split; [done|]. exists consent. eauto using did_prefix.
    + intros past3 r Hp3 Hr. by apply Hdone.
Qed.

(** What the signed transaction of the cookie says. *)
Definition transaction (rq : HttpRequest) (current : Session) (uri : string) (past : list Did) : Prop :=
  ∃ cookie claims, rq_Cookies rq !! oauthConsentCookieName = Some cookie ∧ did (CVerify cookie) (Ok claims) ∈ past ∧
    claim_string claims "purpose" = "oauth_consent" ∧ claim_string claims "user_id" = s_UserID current ∧
    claim_string claims "session_id" = s_ID current ∧ claim_string claims "request_uri" = uri.

Lemma wp_transaction φ past rq current (post : list Did → option string → Prop) :
  (∀ past q, is_read q = true → φ past q) →
  (∀ past' r, past `prefix_of` past' → (∀ uri, r = Some uri → transaction rq current uri past') → post past' r) →
  wp φ past (oauthConsentTransaction rq current) post.
Proof.
  intros Hread Hpost. apply wp_frame. unfold oauthConsentTransaction. wp_steps; try (by apply Hread).
  all: intros Hpre; apply Hpost; [done|]; intros uri Huri; try done. injection Huri as <-.
  repeat match goal with Hb : _ && _ = true |- _ => apply andb_true_iff in Hb as [Hb ?] end. reflect.
  eexists _, _. split_and!; try done. auto with did.
Qed.

Lemma wp_decision rq : wp (code_guard rq) [] (oauthConsentDecision rq) sent_well.
Proof.
  pose proof (read_guard rq) as Hread. unfold oauthConsentDecision. destruct (ParseForm rq) as [[body form]|] eqn:Hform; [|done].
  wp_step; [done|]. apply negb_false_iff in Heqb. apply wp_bind, wp_currentSession; [done|]. intros past1 current Hp1 Hin.
  destruct current as [current|]; [|done]. specialize (Hin current eq_refl).
  apply wp_bind, wp_transaction; [done|]. intros past2 requestURI Hp2 Htrans. destruct requestURI as [uri|]; [|done].
  specialize (Htrans uri eq_refl). destruct (ParseRequestURI uri) as [[path query]|] eqn:Huri; [|done]. case_decide as Hpath; [done|].
  subst path. apply wp_do; [done|]. intros [registered|e]; [|done].
  destruct (ParseAuthorizationRequest query registered) as [request|e] eqn:Hparse; [|done]. set (past3 := (past2 ++ _)%list).
  destruct (request_redirect _ _ _ Hparse) as (_ & Hallowed & Hon & Hid).
  assert (∀ past, past3 `prefix_of` past → registered_uri past (ar_RedirectURI request)) as Hreg
    by (intros past Hp; eexists _, registered; split; [eapply did_prefix; [exact Hp|apply did_last]|done]).
  assert (past2 `prefix_of` past3) as Hp3 by (unfold past3; pre).
  apply wp_bind. cbv zeta. assert (∀ past' r, past3 `prefix_of` past' → goes_to (registered_uri past3) r →
    wp (code_guard rq) past' (Ret (with_cookies [cleared oauthConsentCookieName] r)) sent_well) as Hdone.
  { intros past' r Hp' Hr. apply wp_ret, goes_cookies. eapply goes_to_mono; [|done]. intros u. by apply registered_uri_mono. }
  case_decide; [|case_decide as Hallow; [|apply wp_ret; by apply Hdone]].
  { apply wp_bind, wp_audit; [done|]. intros past4 Hp4. apply wp_ret, Hdone; [done|]. by apply error_goes, Hreg. }
  apply wp_do; [done|]. intros now. apply wp_do; [done|]. intros [consent|e]; [|apply wp_ret, Hdone; [pre|by apply error_goes, Hreg]].
  apply wp_bind, wp_audit; [done|]. intros past4 Hp4. apply (wp_issue _ Hread _ _ _ (registered_uri past3)); [by apply Hreg| |].
  - intros past5 v Hp5 Hv. exists query, registered, request, current. split.
    { split; [|done]. apply (did_prefix _ past3); [pre|apply did_last]. }
    split; [by eapply signed_in_mono; [|exact Hin]; pre|]. split; [done|]. right.
    destruct Htrans as (cookie & claims & Ht). destruct_and! Ht. exists body, form, cookie, claims, uri, now, consent.
    assert (did (CVerify cookie) (Ok claims) ∈ past5) by (eapply (did_prefix _ past2); [pre|done]).
    split_and!; try done. rewrite Hid. eapply did_prefix; [exact Hp5|]. eapply did_prefix; [exact Hp4|]. apply did_last.
  - intros past5 r Hp5 Hr. apply Hdone; [pre|done].
Qed.

(** ** The guarantees *)

(** The two handlers that issue codes. *)
Inductive code_handler (rq : HttpRequest) : Prog Reply → Prop :=
| handler_authorize : code_handler rq (authorize rq)
| handler_decision : code_handler rq (oauthConsentDecision rq).

Lemma wp_code_handler rq p : code_handler rq p → wp (code_guard rq) [] p sent_well.
Proof. intros []; [apply wp_authorize|apply wp_decision]. Qed.

(** C6. Every authorization code was authorized. Whatever happens between the calls of the
    authorization endpoint and of the consent page, before a code is saved the handler
    has looked up the client and parsed a request that is legal for it, found a live
    session of an active user behind the cookie of the browser, and either found that
    user's consent to the scope on record, with an authentication as recent as the
    request demands (a signed marker proves a requested new sign-in), or received the
    user's agreement in a form of the site, for the transaction it signed for this user,
    session and request. The code is bound to all of it. *)
Theorem codes_justified rely rq p w tr w' r before v x after :
  code_handler rq p → runs rely p w tr w' r →
  tr = (before ++ did (CStore (OpSaveAuthorizationCode v)) x :: after)%list → justified rq before v.
Proof.
  intros Hp Hr Htr. destruct (wp_runs _ _ _ _ _ _ _ _ (wp_code_handler _ _ Hp) Hr) as [_ Hguard]. exact (Hguard _ _ _ _ Htr).
Qed.

End AuthorizeProps.
