(* ===== verification/Device.v ===== *)
(** The device grant on the user's side ([internal/platform/http/device.go]): a device asks
    for codes, and a signed-in user approves or denies it. *)
From S2P Require Import Prelude GoStrings GoCrypto OAuthStore Session RateLimit Identity Client Authorize GoUrl UserCodes Access AuditLog Http HttpWp Tokens TokensProps Browser BrowserProps AuthorizeProps.
Local Open Scope Z_scope.
Local Open Scope string_scope.
Local Open Scope go_scope.

(** [internal/platform/http/oauth.go:26-28] deviceCodeLifetime *)
Definition deviceCodeLifetime : Duration := 15 * Minute.

Section Device.
Context `{MapRange, UnicodeTables, MailParser, TokenSigner} (cfg : Config).

(** [internal/platform/http/device.go:25-86] deviceAuthorization *)
Definition deviceAuthorization (rq : HttpRequest) : Prog Reply :=
  try+ p := oauth_form cfg rq in
  let '(body, form) := p in
  try+ registered := authenticateOAuthClient rq body in
  if negb (SupportsGrant registered GrantDeviceCode)
  then Ret (writeOAuthError 400 "unauthorized_client" "device_code is not enabled")
  else match requestedScopes (Get form "scope") registered false with
  | Err e => Ret (writeOAuthError 400 "invalid_scope" e)
  | Ok scopes =>
      let* rnd := CRandom in
      match RandomToken rnd with
      | Err _ => Ret (writeOAuthError 500 "server_error" "could not issue device code")
      | Ok deviceCode =>
          let* userCode := CUserCode in
          match userCode with
          | Err _ => Ret (writeOAuthError 500 "server_error" "could not issue user code")
          | Ok userCode =>
              let* now := CNow in
              let* saved := CStore (OpSaveDeviceAuthorization
                {| da_DeviceHash := HashToken deviceCode; da_UserHash := HashToken (normalizeUserCode userCode);
                   da_ClientID := c_ID registered; da_UserID := ""; da_Scope := scopes; da_Status := DevicePending;
                   da_AuthenticatedAt := time_zero; da_AuthMethods := []; da_AssuranceLevel := ""; da_CreatedAt := now;
                   da_ExpiresAt := (now + deviceCodeLifetime)%Z; da_Interval := (5 * Second)%Z; da_LastPollAt := None |}) in
              match saved with
              | Err _ => Ret (writeOAuthError 500 "server_error" "could not save device authorization")
              | Ok _ =>
                  let verificationURI := cfg_Issuer cfg +:+ "/device" in
                  Ret (writeJSON 200
                    (<["device_code" := VString deviceCode]> (<["user_code" := VString userCode]>
                    (<["verification_uri" := VString verificationURI]>
                    (<["verification_uri_complete" := VString (verificationURI +:+ "?user_code=" +:+ QueryEscape userCode)]>
                    (<["expires_in" := VInt (Z.quot deviceCodeLifetime Second)]> {["interval" := VInt 5]}))))))
              end
          end
      end
  end.

(** [internal/platform/http/device.go:88-123] devicePage *)
Definition devicePage (rq : HttpRequest) : Prog Reply :=
  let userCode := displayUserCode (Get (rq_Query rq) "user_code") in
  try+ csrf := ensureCSRF rq in
  let page (fields : Claims) : Reply := with_cookies csrf.2
    (reply 200 (Page "device.html" (<["UserCode" := VString userCode]> (<["CSRFToken" := VString csrf.1]> fields)))) in
  if decide (userCode = "") then Ret (page ∅)
  else
    let+ allowed := allowDeviceLookup cfg rq in
    match allowed with
    | inl refused => Ret (with_cookies csrf.2 refused)
    | inr _ =>
        let* now := CNow in
        let* record := CFindDeviceByUserCode (HashToken (normalizeUserCode userCode)) now in
        match record with
        | Err _ => Ret (page {["Error" := VString "设备代码无效或已过期"]})
        | Ok record =>
            let* registered := CClientsFind (da_ClientID record) in
            let unavailable := Ret (page {["Error" := VString "接入系统不可用"]}) in
            match registered with
            | Err _ => unavailable
            | Ok registered =>
                if negb (c_Enabled registered) then unavailable
                else
                  let+ current := currentSession rq in
                  match current with
                  | None =>
                      let returnTo := "/device?user_code=" +:+ QueryEscape userCode in
                      Ret (with_cookies csrf.2 (redirect 302 ("/login?continue=" +:+ QueryEscape returnTo +:+
                                                             "&client_id=" +:+ QueryEscape (c_ID registered))))
                  | Some _ => Ret (page (<["Client" := VString (c_ID registered)]> {["Scopes" := VStrings (da_Scope record)]}))
                  end
            end
        end
    end.

(** [internal/platform/http/device.go:125-179] deviceDecision *)
Definition deviceDecision (rq : HttpRequest) : Prog Reply :=
  match ParseForm rq with
  | None => Ret (writeProblem 400 "invalid_request" "设备授权请求无效")
  | Some (_, form) =>
      if negb (validCSRF (Get form "csrf_token") rq)
      then Ret (writeProblem 400 "invalid_csrf" "页面已失效，请刷新后重试")
      else
        let userCode := displayUserCode (Get form "user_code") in
        if decide (Get form "action" = "lookup")
        then Ret (redirect 303 ("/device?user_code=" +:+ QueryEscape userCode))
        else
          let+ current := currentSession rq in
          match current with
          | None => Ret (redirect 302 ("/login?continue=" +:+ QueryEscape ("/device?user_code=" +:+ QueryEscape userCode)))
          | Some current =>
              let approve := bool_decide (Get form "action" = "approve") in
              if negb approve && bool_decide (Get form "action" ≠ "deny")
              then Ret (writeProblem 400 "invalid_request" "无效的授权决定")
              else
                let* now := CNow in
                let* decided := CStore (OpDecideDeviceAuthorization (HashToken (normalizeUserCode userCode)) (s_UserID current)
                                          (s_AuthenticatedAt current) (s_AuthMethods current) (s_AssuranceLevel current) approve now) in
                let fields : Claims := {["UserCode" := VString userCode]} in
                match decided with
                | Err _ => render rq "device.html" (<["Error" := VString "设备代码无效、已处理或已过期"]> fields)
                | Ok _ =>
                    render rq "device.html"
                      (<["Done" := VString (if approve then "已允许该设备登录，可以返回设备继续。" else "已拒绝该设备的登录请求。")]> fields)
                end
          end
  end.

(** ** What the handlers may do to the store *)

(** A device authorization is requested by a client that authenticated, for scopes it may
    have; it is decided by a signed-in user in a form of the site, who names it by its
    user code and whose session it records. *)
Definition device_guard (rq : HttpRequest) (past : list Did) (q : Call) : Prop :=
  match q with
  | CStore (OpSaveDeviceAuthorization v) =>
      ∃ body form c, ParseForm rq = Some (body, form) ∧ authenticated rq body c past ∧ SupportsGrant c GrantDeviceCode = true ∧
        da_ClientID v = c_ID c ∧ da_Scope v ⊆ c_AllowedScopes c ∧ da_Status v = DevicePending ∧ da_UserID v = "" ∧
        da_ExpiresAt v = (da_CreatedAt v + 15 * Minute)%Z
  | CStore (OpDecideDeviceAuthorization hash userID authenticatedAt methods level approve _) =>
      ∃ body form current, ParseForm rq = Some (body, form) ∧ validCSRF (Get form "csrf_token") rq = true ∧ signed_in rq current past ∧
        hash = HashToken (normalizeUserCode (displayUserCode (Get form "user_code"))) ∧
        userID = s_UserID current ∧ authenticatedAt = s_AuthenticatedAt current ∧ methods = s_AuthMethods current ∧
        level = s_AssuranceLevel current ∧ Get form "action" = if approve then "approve" else "deny"
  | CStore _ => False
  | _ => True
  end.

Lemma device_read rq past q : is_read q = true → device_guard rq past q.
Proof. by destruct q. Qed.

Lemma wp_deviceAuthorization rq : wp (device_guard rq) [] (deviceAuthorization rq) (λ _ _, True).
Proof.
  pose proof (device_read rq) as Hread. unfold deviceAuthorization. apply wp_try, wp_form; [done|].
  intros past1 [e|[body form]] _ Hform; [done|]. apply wp_try, wp_authenticate; [done|]. intros past2 [e|c] _ Hauth; [done|].
  wp_steps; try done. reflect. apply requested_within in Heqr. exists body, form, c.
  split_and!; try done. eapply authenticated_mono; [|done]. pre.
Qed.

Lemma wp_devicePage rq : wp (device_guard rq) [] (devicePage rq) (λ _ _, True).
Proof.
  pose proof (device_read rq) as Hread. unfold devicePage. apply wp_try. unfold ensureCSRF. wp_steps; try done.
  all: apply wp_rate; [done|]; intros past1 [e|u] _ _; [done|]; wp_steps; try done.
  all: apply wp_currentSession; [done|]; intros past2 [current|] _ _; done.
Qed.

Lemma wp_deviceDecision rq : wp (device_guard rq) [] (deviceDecision rq) (λ _ _, True).
Proof.
  pose proof (device_read rq) as Hread. unfold deviceDecision. destruct (ParseForm rq) as [[body form]|] eqn:Hform; [|done].
  wp_step; [done|]. apply negb_false_iff in Heqb. case_decide; [done|]. apply wp_bind, wp_currentSession; [done|].
  intros past1 [current|] _ Hin; [|done]. specialize (Hin current eq_refl). cbv zeta. wp_step; [done|]. apply wp_do; [done|]. intros now.
  apply wp_do.
  - exists body, form, current. split_and!; try done; [by eapply signed_in_mono; [|done]; pre|].
    destruct (bool_decide (Get form "action" = "approve")) eqn:Ha; reflect; [done|]. destruct Heqb0 as [|Hd]; [done|]. reflect.
    by apply dec_stable.
  - intros [u|e]; apply wp_render; done.
Qed.

(** The handlers of the device grant. *)
Inductive device_handler (rq : HttpRequest) : Prog Reply → Prop :=
| handler_deviceAuthorization : device_handler rq (deviceAuthorization rq)
| handler_devicePage : device_handler rq (devicePage rq)
| handler_deviceDecision : device_handler rq (deviceDecision rq).

(** C8. Device authorizations are asked for by clients and decided by users. Whatever happens
    between the calls of the three handlers, an authorization is only saved for an
    authenticated client that may use the grant, within its scopes, pending, for fifteen
    minutes; and it is only approved (or denied) in a form of the site sent with that
    action by a browser whose cookie opens a live session of an active user, on behalf of
    that user, with the authentication of that session, for the user code in the form.
    They change nothing else in the grant store. *)
Theorem device_grants_decided_by_users rely rq p w tr w' r before op x after :
  device_handler rq p → runs rely p w tr w' r → tr = (before ++ did (CStore op) x :: after)%list →
  device_guard rq before (CStore op).
Proof.
  intros Hp Hr Htr. assert (wp (device_guard rq) [] p (λ _ _, True)) as Hwp
    by (destruct Hp; [apply wp_deviceAuthorization|apply wp_devicePage|apply wp_deviceDecision]).
  destruct (wp_runs _ _ _ _ _ _ _ _ Hwp Hr) as [_ Hguard]. exact (Hguard _ _ _ _ Htr).
Qed.
End Device.
