(* ===== verification/CasEndpoints.v ===== *)
(** The CAS protocol ([internal/platform/http/cas.go]): signing in to a service with a
    ticket, validating tickets, proxy authentication and single logout. The replies are
    the XML documents the code writes. *)
From S2P Require Import Prelude GoStrings GoCrypto GoTime GoXml Cas Session RateLimit Identity Client Authorize GoUrl Access AuditLog Http Tokens Browser.
Local Open Scope Z_scope.
Local Open Scope string_scope.
Local Open Scope go_scope.

(** [internal/platform/http/cas.go:24-28] lifetimes *)
Definition serviceTicketLifetime : Duration := 2 * Minute.
Definition proxyTicketLifetime : Duration := 2 * Minute.
Definition proxyGrantingTicketLifetime : Duration := 8 * Hour.

(** ** Documents *)

Definition xml_declaration : string := "?xml version=" +:+ quoted "1.0" +:+ " encoding=" +:+ quoted "UTF-8" +:+ "?".
Definition cas_response : string := "cas:serviceResponse xmlns:cas=" +:+ quoted "http://www.yale.edu/tp/cas".
Definition element (name content : string) : string := open name +:+ EscapeText content +:+ open ("/" +:+ name).
Definition document (content : string) : string := open xml_declaration +:+ open cas_response +:+ content +:+ open "/cas:serviceResponse".

(** [internal/platform/http/cas.go:377-397] writeCASSuccess, the attributes *)
Definition cas_attributes (user : User) (roles permissions : list string) : string :=
  open "cas:attributes" +:+ element "cas:displayName" (u_DisplayName user) +:+
  match u_Email user with Some email => element "cas:email" email | None => "" end +:+
  foldr (λ role s, element "cas:role" role +:+ s) "" roles +:+
  foldr (λ permission s, element "cas:permission" permission +:+ s) "" permissions +:+ open "/cas:attributes".

(** [internal/platform/http/cas.go:371-414] writeCASSuccess, its document *)
Definition success_document (user : User) (includeAttributes : bool) (pgtIOU : string) (proxies roles permissions : list string) : string :=
  document (open "cas:authenticationSuccess" +:+ element "cas:user" (u_Username user) +:+
    (if includeAttributes then cas_attributes user roles permissions else "") +:+
    (if decide (pgtIOU ≠ "") then element "cas:proxyGrantingTicket" pgtIOU else "") +:+
    (if decide (proxies ≠ []) then open "cas:proxies" +:+ foldr (λ proxy s, element "cas:proxy" proxy +:+ s) "" proxies +:+ open "/cas:proxies"
     else "") +:+
    open "/cas:authenticationSuccess").

Definition writeCASSuccess (user : User) (includeAttributes : bool) (pgtIOU : string) (proxies roles permissions : list string) : Reply :=
  reply 200 (TextBody (success_document user includeAttributes pgtIOU proxies roles permissions)).

Definition failure_document (kind code message : string) : string :=
  document (open (kind +:+ " code=" +:+ quoted (EscapeText code)) +:+ EscapeText message +:+ open ("/" +:+ kind)).
(** [internal/platform/http/cas.go:571-580] writeCASFailure *)
Definition writeCASFailure (code message : string) : Reply :=
  reply 200 (TextBody (failure_document "cas:authenticationFailure" code message)).
(** [internal/platform/http/cas.go:582-591] writeCASProxyFailure *)
Definition writeCASProxyFailure (code message : string) : Reply :=
  reply 200 (TextBody (failure_document "cas:proxyFailure" code message)).
(** [internal/platform/http/cas.go:283-288] casProxy, its document *)
Definition proxy_success (ticket : string) : Reply :=
  reply 200 (TextBody (document (open "cas:proxySuccess" +:+ element "cas:proxyTicket" ticket +:+ open "/cas:proxySuccess"))).

Definition newline : string := String (chr 10) "".
Definition no_reply : Reply := reply 200 (TextBody ("no" +:+ newline +:+ newline)).

(** ** Services *)

(** [internal/platform/http/cas.go:475-483] findCASClient, the clients looked for *)
Definition serves_service (serviceURL : string) (c : Client) : Prop :=
  c_Enabled c = true ∧ SupportsProtocol c ProtocolCAS = true ∧ serviceURL ∈ c_CASServiceURLs c.
#[global] Instance serves_service_dec serviceURL c : Decision (serves_service serviceURL c).
Proof. unfold serves_service. apply _. Defined.

(** [internal/platform/http/cas.go:467-486] findCASClient *)
Definition findCASClient `{TokenSigner} (serviceURL : string) : Prog (option Client) :=
  if decide (serviceURL = "") then Ret None
  else
    let* clients := CClientsList in
    match clients with
    | Err _ => Ret None
    | Ok clients => Ret (snd <$> list_find (serves_service serviceURL) clients)
    end.

Section CasEndpoints.
Context `{MapRange, UnicodeTables, MailParser, TokenSigner, URLParser}.

(** ** Fresh authentication *)

(** [internal/platform/http/cas.go:546-560] validUnsignedCASReauthMarker *)
Definition validUnsignedCASReauthMarker (marker serviceURL : string) : Prog bool :=
  let* claims := CVerify marker in
  match claims with
  | Err _ => Ret false
  | Ok claims =>
      let* now := CNow in
      let now := Unix now in
      Ret (bool_decide (claim_string claims "purpose" = "cas_reauth") && bool_decide (claim_string claims "service" = serviceURL) &&
           bool_decide (now < claim_int claims "exp")%Z && bool_decide (claim_int claims "iat" ≤ now + 30)%Z)
  end.

(** [internal/platform/http/cas.go:562-569] validCASReauthMarker: the error of the second
    verification is dropped. *)
Definition validCASReauthMarker (marker serviceURL : string) (authenticatedAt : Time) : Prog bool :=
  let+ valid := validUnsignedCASReauthMarker marker serviceURL in
  if negb valid then Ret false
  else
    let* claims := CVerify marker in
    let issuedAt := match claims with Ok claims => claim_int claims "iat" | Err _ => 0%Z end in
    Ret (bool_decide (issuedAt ≤ Unix authenticatedAt)%Z).

(** [internal/platform/http/cas.go:522-544] redirectCASCredentials: the page to sign in at, to come
    back to this service. *)
Definition to_login (registered : Client) (targetQuery : Values) : Reply :=
  redirect 302 ("/login?continue=" +:+ QueryEscape ("/cas/login?" +:+ Encode targetQuery) +:+ "&client_id=" +:+ QueryEscape (c_ID registered)).

(** [internal/platform/http/cas.go:522-544] redirectCASCredentials *)
Definition redirectCASCredentials (registered : Client) (serviceURL : string) (renew : bool) (marker : string) : Prog Reply :=
  let targetQuery : Values := {["service" := [serviceURL]]} in
  if negb renew then Ret (to_login registered targetQuery)
  else
    let targetQuery := Set_ "renew" "true" targetQuery in
    let+ valid := validUnsignedCASReauthMarker marker serviceURL in
    if (valid : bool) then Ret (to_login registered (Set_ "reauth" marker targetQuery))
    else
      let* now := CNow in
      let* signed := CSign (<["purpose" := VString "cas_reauth"]> (<["service" := VString serviceURL]>
        (<["iat" := VInt (Unix now)]> {["exp" := VInt (Unix (now + 5 * Minute)%Z)]}))) in
      match signed with
      | Err _ => Ret (writeProblem 500 "INTERNAL_ERROR" "创建重新认证请求失败")
      | Ok marker => Ret (to_login registered (Set_ "reauth" marker targetQuery))
      end.

(** ** Signing in to a service *)

(** [internal/platform/http/cas.go:60-86] casLogin, the ticket: the address, which was registered,
    is one that [url.Parse] accepts. *)
Definition issueServiceTicket (registered : Client) (serviceURL : string) (current : Session) (primaryCredentials : bool) : Prog Reply :=
  let* rnd := CRandom in
  match RandomToken rnd with
  | Err _ => Ret (writeProblem 500 "INTERNAL_ERROR" "生成 Service Ticket 失败")
  | Ok raw =>
      let ticket := "ST-" +:+ raw in
      let* now := CNow in
      let* saved := CCas (CoSaveServiceTicket
        {| stk_Hash := HashToken ticket; stk_Ticket := ticket; stk_ClientID := c_ID registered; stk_Service := serviceURL;
           stk_UserID := s_UserID current; stk_SessionID := s_ID current; stk_PrimaryCredentials := primaryCredentials;
           stk_IssuedAt := now; stk_ExpiresAt := (now + serviceTicketLifetime)%Z |}) in
      match saved with
      | Err _ => Ret (writeProblem 500 "INTERNAL_ERROR" "保存 Service Ticket 失败")
      | Ok _ => Ret (reply 302 (RedirectURI serviceURL [("ticket", ticket)]))
      end
  end.

(** [internal/platform/http/cas.go:30-87] casLogin *)
Definition casLogin (rq : HttpRequest) : Prog Reply :=
  let query := rq_Query rq in
  let serviceURL := Get query "service" in
  let+ found := findCASClient serviceURL in
  match found with
  | None => Ret (writeProblem 400 "INVALID_SERVICE" "CAS service 未登记")
  | Some registered =>
      let renewRequested := bool_decide (Get query "renew" = "true") && c_CASRenew registered in
      let gateway := bool_decide (Get query "gateway" = "true") in
      if gateway && renewRequested then Ret (writeProblem 400 "INVALID_REQUEST" "gateway 与 renew 不能同时使用")
      else
        let+ current := currentSession rq in
        match current with
        | None =>
            if gateway && c_CASGateway registered then Ret (redirect 302 serviceURL)
            else redirectCASCredentials registered serviceURL renewRequested ""
        | Some current =>
            if renewRequested then
              let marker := Get query "reauth" in
              let+ valid := validCASReauthMarker marker serviceURL (s_AuthenticatedAt current) in
              if negb valid then redirectCASCredentials registered serviceURL true marker
              else issueServiceTicket registered serviceURL current true
            else issueServiceTicket registered serviceURL current false
        end
  end.

(** ** Validating tickets *)

(** [internal/platform/http/cas.go:107-111] casValidate, the user of the ticket *)
Definition active_user (userID : string) : Prog (option User) :=
  let* user := CUsersFind userID in
  match user with
  | Err _ => Ret None
  | Ok user => if decide (u_Status user ≠ UserActive) then Ret None else Ret (Some user)
  end.

(** [internal/platform/http/cas.go:89-113] casValidate *)
Definition casValidate (rq : HttpRequest) : Prog Reply :=
  let query := rq_Query rq in
  let serviceURL := Get query "service" in
  let+ found := findCASClient serviceURL in
  match found with
  | None => Ret no_reply
  | Some _ =>
      let* now := CNow in
      let* ticket := CCas (CoConsumeServiceTicket (HashToken (Get query "ticket")) serviceURL (bool_decide (Get query "renew" = "true")) now) in
      match ticket with
      | Err _ => Ret no_reply
      | Ok ticket =>
          let+ user := active_user (stk_UserID ticket) in
          match user with
          | None => Ret no_reply
          | Some user => Ret (reply 200 (TextBody ("yes" +:+ newline +:+ u_Username user +:+ newline)))
          end
      end
  end.

(** [internal/platform/http/cas.go:360-369] casEntitlements: the roles and the permissions *)
Definition casEntitlements (registered : Client) (userID : string) (includeAttributes : bool)
    : Prog (Res unit (list string * list string)) :=
  if negb includeAttributes || negb (Contains (c_AllowedScopes registered) "roles") then Ret (Ok ([], []))
  else
    let* now := CNow in
    let* value := CEffective userID (c_ID registered) now in
    match value with
    | Err _ => Ret (Err ())
    | Ok value => Ret (Ok (en_Roles value, en_Permissions value))
    end.

(** [internal/platform/http/cas.go:341-358] validCASProxyCallback *)
Definition validCASProxyCallback (registered : Client) (serviceURL callbackURL : string) : bool :=
  c_CASProxy registered &&
  match url_Parse serviceURL, url_Parse callbackURL with
  | Some service, Some callback =>
      bool_decide (u_Scheme callback = "https") && bool_decide (u_Host callback ≠ "") && negb (u_HasUser callback) &&
      bool_decide (u_Fragment callback = "") && EqualFold (u_Host service) (u_Host callback)
  | _, _ => false
  end.

(** [internal/platform/http/cas.go:291-339] issueProxyGrantingTicket, for the client, the user, the
    session, the proxies and the credentials of a validated ticket: the parameters of
    the request sent are set in the query of the callback. *)
Definition issueProxyGrantingTicket (rq : HttpRequest) (registered : Client) (clientID userID sessionID : string)
    (proxies : list string) (primaryCredentials : bool) : Prog (Res string string) :=
  let callbackURL := Get (rq_Query rq) "pgtUrl" in
  if decide (callbackURL = "") then Ret (Ok "")
  else if negb (c_CASProxy registered) then Ret (Err "service is not authorized for proxy authentication")
  else if negb (validCASProxyCallback registered (Get (rq_Query rq) "service") callbackURL)
  then Ret (Err "proxy callback must be HTTPS and use the registered service host")
  else
    let* rnd := CRandom in
    match RandomToken rnd with
    | Err _ => Ret (Err "could not generate proxy granting ticket")
    | Ok rawPGT =>
        let rawPGT := "PGT-" +:+ rawPGT in
        let* rnd := CRandom in
        match RandomToken rnd with
        | Err _ => Ret (Err "could not generate proxy granting ticket IOU")
        | Ok rawIOU =>
            let rawIOU := "PGTIOU-" +:+ rawIOU in
            let* response := COutbound "GET" callbackURL (<["pgtId" := [rawPGT]]> {["pgtIou" := [rawIOU]]}) in
            match response with
            | Err e => Ret (Err ("proxy callback failed: " +:+ e))
            | Ok status =>
                if decide (status ≠ 200%Z) then Ret (Err ("proxy callback returned HTTP " +:+ FormatInt status))
                else
                  let* now := CNow in
                  let* saved := CCas (CoSaveProxyGrantingTicket
                    {| pgt_Hash := HashToken rawPGT; pgt_ClientID := clientID; pgt_UserID := userID; pgt_SessionID := sessionID;
                       pgt_CallbackURL := callbackURL; pgt_Proxies := proxies; pgt_PrimaryCredentials := primaryCredentials;
                       pgt_IssuedAt := now; pgt_ExpiresAt := (now + proxyGrantingTicketLifetime)%Z |}) in
                  match saved with
                  | Err _ => Ret (Err "could not save proxy granting ticket")
                  | Ok _ => Ret (Ok rawIOU)
                  end
            end
        end
    end.

(** [internal/platform/http/cas.go:159-232] casProxyValidate: what both validations answer once a ticket was accepted: the user, the attributes and a
    proxy-granting ticket if one is asked for. *)
Definition validated (rq : HttpRequest) (registered : Client) (clientID userID sessionID : string) (primaryCredentials : bool)
    (proxies : list string) (includeAttributes : bool) : Prog Reply :=
  let+ user := active_user userID in
  match user with
  | None => Ret (writeCASFailure "INVALID_TICKET" "ticket user is unavailable")
  | Some user =>
      let+ entitlements := casEntitlements registered (u_ID user) includeAttributes in
      match entitlements with
      | Err _ => Ret (writeCASFailure "INTERNAL_ERROR" "could not read user roles")
      | Ok (roles, permissions) =>
          let+ pgtIOU := issueProxyGrantingTicket rq registered clientID userID sessionID proxies primaryCredentials in
          match pgtIOU with
          | Err message => Ret (writeCASFailure "INVALID_PROXY_CALLBACK" message)
          | Ok pgtIOU => Ret (writeCASSuccess user includeAttributes pgtIOU proxies roles permissions)
          end
      end
  end.

Definition invalid_service : Reply := writeCASFailure "INVALID_SERVICE" "service is not registered".
Definition invalid_ticket : Reply := writeCASFailure "INVALID_TICKET" "ticket is invalid, expired, or already used".

(** [internal/platform/http/cas.go:115-157] casServiceValidate *)
Definition casServiceValidate (rq : HttpRequest) : Prog Reply :=
  let query := rq_Query rq in
  let serviceURL := Get query "service" in
  let+ found := findCASClient serviceURL in
  match found with
  | None => Ret invalid_service
  | Some registered =>
      let* now := CNow in
      let* ticket := CCas (CoConsumeServiceTicket (HashToken (Get query "ticket")) serviceURL (bool_decide (Get query "renew" = "true")) now) in
      match ticket with
      | Err _ => Ret invalid_ticket
      | Ok ticket =>
          validated rq registered (stk_ClientID ticket) (stk_UserID ticket) (stk_SessionID ticket) (stk_PrimaryCredentials ticket) []
            (bool_decide (rq_Path rq = "/cas/p3/serviceValidate"))
      end
  end.

(** [internal/platform/http/cas.go:159-232] casProxyValidate *)
Definition casProxyValidate (rq : HttpRequest) : Prog Reply :=
  let query := rq_Query rq in
  let serviceURL := Get query "service" in
  let+ found := findCASClient serviceURL in
  match found with
  | None => Ret invalid_service
  | Some registered =>
      let rawTicket := Get query "ticket" in
      let requirePrimary := bool_decide (Get query "renew" = "true") in
      let includeAttributes := bool_decide (rq_Path rq = "/cas/p3/proxyValidate") in
      let* now := CNow in
      if HasPrefix rawTicket "PT-" then
        let* ticket := CCas (CoConsumeProxyTicket (HashToken rawTicket) serviceURL requirePrimary now) in
        match ticket with
        | Err _ => Ret invalid_ticket
        | Ok ticket =>
            validated rq registered (c_ID registered) (pt_UserID ticket) (pt_SessionID ticket) (pt_PrimaryCredentials ticket)
              (pt_Proxies ticket) includeAttributes
        end
      else
        let* ticket := CCas (CoConsumeServiceTicket (HashToken rawTicket) serviceURL requirePrimary now) in
        match ticket with
        | Err _ => Ret invalid_ticket
        | Ok ticket =>
            validated rq registered (c_ID registered) (stk_UserID ticket) (stk_SessionID ticket) (stk_PrimaryCredentials ticket) []
              includeAttributes
        end
  end.

(** ** Proxies *)

(** [internal/platform/http/cas.go:234-289] casProxy *)
Definition casProxy (rq : HttpRequest) : Prog Reply :=
  let rawPGT := Get (rq_Query rq) "pgt" in
  let targetService := Get (rq_Query rq) "targetService" in
  if decide (rawPGT = "" ∨ targetService = "") then Ret (writeCASProxyFailure "INVALID_REQUEST" "pgt and targetService are required")
  else
    let+ target := findCASClient targetService in
    match target with
    | None => Ret (writeCASProxyFailure "UNAUTHORIZED_SERVICE" "targetService is not registered")
    | Some target =>
        let* now := CNow in
        let* pgt := CFindProxyGrantingTicket (HashToken rawPGT) now in
        match pgt with
        | Err _ => Ret (writeCASProxyFailure "UNAUTHORIZED_SERVICE" "proxy granting ticket is invalid or expired")
        | Ok pgt =>
            let* source := CClientsFind (pgt_ClientID pgt) in
            if match source with Ok source => negb (c_Enabled source) || negb (c_CASProxy source) | Err _ => true end
            then Ret (writeCASProxyFailure "UNAUTHORIZED_SERVICE" "service is not allowed to proxy authentication")
            else
              let* rnd := CRandom in
              match RandomToken rnd with
              | Err _ => Ret (writeCASProxyFailure "INTERNAL_ERROR" "could not generate proxy ticket")
              | Ok rawTicket =>
                  let rawTicket := "PT-" +:+ rawTicket in
                  let* saved := CCas (CoSaveProxyTicket
                    {| pt_Hash := HashToken rawTicket; pt_ClientID := c_ID target; pt_TargetService := targetService;
                       pt_UserID := pgt_UserID pgt; pt_SessionID := pgt_SessionID pgt; pt_Proxies := pgt_CallbackURL pgt :: pgt_Proxies pgt;
                       pt_PrimaryCredentials := pgt_PrimaryCredentials pgt; pt_IssuedAt := now;
                       pt_ExpiresAt := (now + proxyTicketLifetime)%Z |} (HashToken rawPGT)) in
                  match saved with
                  | Err _ => Ret (writeCASProxyFailure "INTERNAL_ERROR" "could not save proxy ticket")
                  | Ok _ => Ret (proxy_success rawTicket)
                  end
              end
        end
    end.

(** ** Single logout *)

(** [internal/platform/http/cas.go:493-502] sendCASLogout, its message *)
Definition logout_request (requestID : string) (now : Time) (principal ticket : string) : string :=
  open ("samlp:LogoutRequest xmlns:samlp=" +:+ quoted "urn:oasis:names:tc:SAML:2.0:protocol" +:+ " ID=" +:+ quoted (EscapeText ("_" +:+ requestID)) +:+
        " Version=" +:+ quoted "2.0" +:+ " IssueInstant=" +:+ quoted (EscapeText (FormatRFC3339 now))) +:+
  open ("saml:NameID xmlns:saml=" +:+ quoted "urn:oasis:names:tc:SAML:2.0:assertion") +:+ EscapeText principal +:+ open "/saml:NameID" +:+
  element "samlp:SessionIndex" ticket +:+ open "/samlp:LogoutRequest".

(** [internal/platform/http/cas.go:488-520] sendCASLogout: its errors are only logged. *)
Definition sendCASLogout (principal : string) (serviceSession : ServiceSession) : Prog unit :=
  let* rnd := CRandom in
  match RandomToken rnd with
  | Err _ => Ret ()
  | Ok requestID =>
      let* now := CNow in
      let* _ := COutbound "POST" (ss_Service serviceSession)
                  {["logoutRequest" := [logout_request requestID now principal (ss_Ticket serviceSession)]]} in
      Ret ()
  end.

(** [internal/platform/http/cas.go:423-451] casLogout, the services to notify: the notifications, which
    the code sends in parallel, are sent here one after another; one whose turn comes
    after the deadline is dropped. *)
Definition notify_services (sessionID principal : string) : Prog unit :=
  let* serviceSessions := CListServiceSessions sessionID in
  match serviceSessions with
  | Err _ => Ret ()
  | Ok serviceSessions =>
      let+ jobs := collect serviceSessions (λ serviceSession,
        let+ registered := findCASClient (ss_Service serviceSession) in
        match registered with
        | None => Ret []
        | Some registered => if negb (c_CASSingleLogout registered) then Ret [] else Ret [serviceSession]
        end) in
      each jobs (λ serviceSession,
        let* late := CLate in
        if (late : bool) then Ret () else sendCASLogout principal serviceSession)
  end.

(** [internal/platform/http/cas.go:416-465] casLogout *)
Definition casLogout (cfg : Config) (rq : HttpRequest) : Prog Reply :=
  let finish : Prog Reply :=
    let target := Get (rq_Query rq) "service" in
    let target := if decide (target = "") then Get (rq_Query rq) "url" else target in
    let+ found := findCASClient target in
    Ret (with_cookies [cleared sessionCookieName] (redirect 302 (match found with Some _ => target | None => "/login" end))) in
  let+ current := currentSession rq in
  match current with
  | None => finish
  | Some current =>
      let* user := CUsersFind (s_UserID current) in
      let principal := match user with Ok user => u_Username user | Err _ => s_UserID current end in
      let+ _ := notify_services (s_ID current) principal in
      let* _ := CSessionsRevoke (s_ID current) in
      let+ _ := cleanupRevokedSessions cfg [(s_ID current, s_UserID current)] in
      finish
  end.
End CasEndpoints.
