(* ===== verification/CasProps.v ===== *)
(** What the CAS endpoints guarantee, whatever happens between their calls: every ticket
    is justified by the calls before it, a validation names only the user of the ticket it
    consumed, and no text that comes from outside adds markup to a reply. *)
From S2P Require Import Prelude GoStrings GoCrypto GoTime GoXml Cas OAuthStore Session RateLimit Identity Client Authorize GoUrl Access AuditLog Http HttpWp Tokens TokensProps Browser BrowserProps AuthorizeEndpoint AuthorizeProps CasEndpoints.
Local Open Scope Z_scope.
Local Open Scope string_scope.

(** ** Documents *)

(** [s] is read as [l], whatever follows it. *)
Definition whole (s : string) (l : list Token) : Prop := ∀ rest, tokens (s +:+ rest) = (l ++ tokens rest)%list.

Lemma whole_tokens s l : whole s l → tokens s = l.
Proof.
  intros Hs. specialize (Hs ""). rewrite app_nil_r in Hs. rewrite <- Hs. f_equal. clear Hs. induction s as [|c s IH]; [done|]. exact (f_equal (String c) IH).
Qed.
Lemma whole_empty : whole "" [].
Proof. by intros rest. Qed.
Lemma whole_app s1 s2 l1 l2 : whole s1 l1 → whole s2 l2 → whole (s1 +:+ s2) (l1 ++ l2).
Proof. intros H1 H2 rest. by rewrite append_assoc, H1, H2, app_assoc. Qed.
Lemma whole_open name : plain_name name → whole (open name) [Tag name].
Proof. intros Hn rest. by rewrite tokens_open. Qed.
Lemma whole_text s name : xml_text s → plain_name name → whole (EscapeText s +:+ open name) (text s ++ [Tag name]).
Proof. intros Hs Hn rest. rewrite append_assoc, tokens_text by done. by rewrite <- app_assoc. Qed.

(** Any text, of XML characters or not, is read without markup. *)
Definition chars_only (l : list Token) : Prop := Forall (λ t, match t with Chars _ => True | Tag _ => False end) l.
Lemma whole_escaped s name : plain_name name → ∃ l, chars_only l ∧ whole (EscapeText s +:+ open name) (l ++ [Tag name]).
Proof.
  intros Hn. exists (chars (bytes (EscapeText s))). split; [unfold chars; case_decide; repeat constructor|].
  intros rest. unfold tokens. rewrite append_assoc, bytes_app, bytes_open.
  rewrite scan_chars by (rewrite bytes_EscapeText; apply escape_inert). rewrite <- app_assoc. f_equal.
  cbn [app]. rewrite scan_name by done. cbn [app]. by rewrite of_bytes_bytes.
Qed.

Lemma plain_name_app a b : plain_name a → plain_name b → plain_name (a +:+ b).
Proof. unfold plain_name. rewrite bytes_app. apply Forall_app_2. Qed.
Lemma plain_escaped s : plain_name (EscapeText s).
Proof. unfold plain_name. rewrite bytes_EscapeText. eapply Forall_impl; [apply escape_inert|]. unfold inert. intros b [_ Hb] ->. apply Hb. set_solver. Qed.

Lemma plain_quoted s : plain_name s → plain_name (quoted s).
Proof.
  intros Hs. unfold quoted. change (String (chr 34) s) with (of_bytes [34] +:+ s). change (String (chr 34) "") with (of_bytes [34]).
  assert (plain_name (of_bytes [34])) by (by repeat constructor). by repeat apply plain_name_app.
Qed.

(** What is to be read of an element. *)
Definition element_tokens (name content : string) : list Token := (Tag name :: text content ++ [Tag ("/" +:+ name)])%list.
Lemma whole_element name content : xml_text content → plain_name name → whole (element name content) (element_tokens name content).
Proof.
  intros Hc Hn. unfold element, element_tokens. apply (whole_app _ _ [Tag name]); [by apply whole_open|].
  apply whole_text; [done|]. apply plain_name_app; [|done]. by repeat constructor.
Qed.
Lemma whole_elements name l :
  Forall xml_text l → plain_name name →
  whole (foldr (λ x s, element name x +:+ s) "" l) (concat (element_tokens name <$> l)).
Proof.
  intros Hl Hn. induction Hl as [|x l Hx _ IH]; [apply whole_empty|]. cbn [foldr fmap list_fmap concat].
  apply whole_app; [by apply whole_element|done].
Qed.
Lemma whole_document content l :
  whole content l → whole (document content) (Tag xml_declaration :: Tag cas_response :: l ++ [Tag "/cas:serviceResponse"]).
Proof.
  intros Hl. unfold document. apply (whole_app _ _ [_]); [apply whole_open; by repeat constructor|].
  apply (whole_app _ _ [_]); [apply whole_open; by repeat constructor|]. apply whole_app; [done|]. apply whole_open. by repeat constructor.
Qed.

(** What a service is to read of a successful validation. *)
Definition attributes_tokens (user : User) (roles permissions : list string) : list Token :=
  (Tag "cas:attributes" :: element_tokens "cas:displayName" (u_DisplayName user) ++
   from_option (element_tokens "cas:email") [] (u_Email user) ++
   concat (element_tokens "cas:role" <$> roles) ++ concat (element_tokens "cas:permission" <$> permissions) ++ [Tag "/cas:attributes"])%list.
Definition success_tokens (user : User) (includeAttributes : bool) (pgtIOU : string) (proxies roles permissions : list string) : list Token :=
  (Tag xml_declaration :: Tag cas_response :: (Tag "cas:authenticationSuccess" :: element_tokens "cas:user" (u_Username user) ++
   (if includeAttributes then attributes_tokens user roles permissions else []) ++
   (if decide (pgtIOU ≠ "") then element_tokens "cas:proxyGrantingTicket" pgtIOU else []) ++
   (if decide (proxies ≠ []) then Tag "cas:proxies" :: concat (element_tokens "cas:proxy" <$> proxies) ++ [Tag "/cas:proxies"] else []) ++
   [Tag "/cas:authenticationSuccess"]) ++ [Tag "/cas:serviceResponse"])%list.

Ltac whole_parts :=
  repeat match goal with
  | |- whole (_ +:+ _) (Tag _ :: _) => apply (whole_app _ _ [_])
  | |- whole (_ +:+ _) (_ ++ _) => apply whole_app
  | |- whole (open _) [Tag _] => apply whole_open; by repeat constructor
  | |- whole (element _ _) _ => apply whole_element; [done|by repeat constructor]
  | |- whole (foldr _ _ _) _ => apply whole_elements; [done|by repeat constructor]
  | |- whole "" [] => apply whole_empty
  end.

Lemma whole_attributes user roles permissions :
  xml_text (u_DisplayName user) → (∀ email, u_Email user = Some email → xml_text email) → Forall xml_text (roles ++ permissions)%list →
  whole (cas_attributes user roles permissions) (attributes_tokens user roles permissions).
Proof.
  intros Hd He [Hr Hp]%Forall_app. unfold cas_attributes, attributes_tokens. whole_parts.
  destruct (u_Email user) as [email|]; simpl; [specialize (He email eq_refl)|]; whole_parts.
Qed.

Lemma tokens_failure kind code message :
  kind ∈ ["cas:authenticationFailure"; "cas:proxyFailure"] →
  ∃ l, chars_only l ∧ tokens (failure_document kind code message) =
    ([Tag xml_declaration; Tag cas_response; Tag (kind +:+ " code=" +:+ quoted (EscapeText code))] ++ l ++
     [Tag ("/" +:+ kind); Tag "/cas:serviceResponse"])%list.
Proof.
  intros Hkind.
  assert (plain_name kind ∧ plain_name ("/" +:+ kind)) as [Hk Hs].
  { set_unfold. destruct Hkind as [->|[->|[]]]; split; by repeat constructor. }
  destruct (whole_escaped message ("/" +:+ kind) Hs) as (l & Hl & Hw). exists l. split; [done|].
  apply whole_tokens. unfold failure_document. change (?a :: ?b :: ?c :: ?m) with (a :: b :: c :: m).
  assert (whole (open (kind +:+ " code=" +:+ quoted (EscapeText code)) +:+ EscapeText message +:+ open ("/" +:+ kind))
           ([Tag (kind +:+ " code=" +:+ quoted (EscapeText code))] ++ l ++ [Tag ("/" +:+ kind)])) as Hc.
  { apply whole_app; [|done]. apply whole_open. apply plain_name_app; [done|]. apply plain_name_app; [by repeat constructor|].
    apply plain_quoted, plain_escaped. }
  apply whole_document in Hc. by rewrite <- !app_assoc in Hc.
Qed.

(** Any text in an element. *)
Lemma whole_any_element name content : plain_name name → ∃ l, chars_only l ∧ whole (element name content) (Tag name :: l ++ [Tag ("/" +:+ name)]).
Proof.
  intros Hn. destruct (whole_escaped content ("/" +:+ name)) as (l & Hl & Hw); [by apply plain_name_app; [repeat constructor|]|].
  exists l. split; [done|]. unfold element. by apply (whole_app _ _ [_]); [apply whole_open|].
Qed.

(** A service reads from the reply to a validation exactly the user, the attributes, the
    proxy-granting ticket and the proxies that were written, whatever characters of XML
    these have: none of them can add markup. And a failure is read as a failure, with a
    text and no other markup, whatever its message is (it may quote the error of another
    server, or any bytes). *)
Theorem cas_replies_read :
  (∀ user includeAttributes pgtIOU proxies roles permissions,
     Forall xml_text ([u_Username user; u_DisplayName user; pgtIOU] ++ option_list (u_Email user) ++ proxies ++ roles ++ permissions) →
     tokens (success_document user includeAttributes pgtIOU proxies roles permissions) =
     success_tokens user includeAttributes pgtIOU proxies roles permissions) ∧
  (∀ kind code message, kind ∈ ["cas:authenticationFailure"; "cas:proxyFailure"] →
     ∃ l, chars_only l ∧ tokens (failure_document kind code message) =
       ([Tag xml_declaration; Tag cas_response; Tag (kind +:+ " code=" +:+ quoted (EscapeText code))] ++ l ++
        [Tag ("/" +:+ kind); Tag "/cas:serviceResponse"])%list).
Proof.
  split.
  - intros user includeAttributes pgtIOU proxies roles permissions Hall. apply whole_tokens.
    apply Forall_app in Hall as [Hnames Hall]. apply Forall_app in Hall as [Hemail Hall]. apply Forall_app in Hall as [Hproxies Hrest].
    inversion_clear Hnames as [|? ? Hu Hnames']. inversion_clear Hnames' as [|? ? Hd Hnames'']. inversion_clear Hnames'' as [|? ? Hi _].
    unfold success_document, success_tokens. apply whole_document. whole_parts.
    + destruct includeAttributes; [|apply whole_empty]. apply whole_attributes; [done| |done].
      intros email Heq. rewrite Heq in Hemail. by inversion Hemail.
    + case_decide; whole_parts.
    + case_decide; whole_parts.
  - intros. by apply tokens_failure.
Qed.

Section CasProps.
Context `{MapRange, UnicodeTables, MailParser, TokenSigner, URLParser}.

(** ** What the calls show *)

(** The service is one of an enabled client that speaks CAS. *)
Definition service_of (serviceURL : string) (c : Client) (past : list Did) : Prop :=
  serves_service serviceURL c ∧ ∃ clients, did CClientsList (Ok clients) ∈ past ∧ c ∈ clients.

(** The user exists and is active. *)
Definition is_active (userID : string) (user : User) (past : list Did) : Prop :=
  did (CUsersFind userID) (Ok user) ∈ past ∧ u_Status user = UserActive.

(** When the marker was issued, in seconds. *)
Definition marker_time (claims : Res unit Claims) : Z := match claims with Ok claims => claim_int claims "iat" | Err _ => 0 end.

(** The user signed in no earlier, in whole seconds, than the server asked for it: the
    marker was signed for this service and has not expired. *)
Definition renewed (rq : HttpRequest) (serviceURL : string) (current : Session) (past : list Did) : Prop :=
  let marker := Get (rq_Query rq) "reauth" in
  (∃ claims now, did (CVerify marker) (Ok claims) ∈ past ∧ did CNow now ∈ past ∧ claim_string claims "purpose" = "cas_reauth" ∧
     claim_string claims "service" = serviceURL ∧ Unix now < claim_int claims "exp") ∧
  ∃ claims, did (CVerify marker) claims ∈ past ∧ (marker_time claims ≤ Unix (s_AuthenticatedAt current))%Z.

(** A service ticket is for the signed-in user of the request, at the service asked for;
    its credentials count as primary only if the user just gave them. *)
Definition service_ticket_justified (rq : HttpRequest) (v : ServiceTicket) (past : list Did) : Prop :=
  ∃ c current, service_of (stk_Service v) c past ∧ signed_in rq current past ∧ stk_Service v = Get (rq_Query rq) "service" ∧
    stk_ClientID v = c_ID c ∧ stk_UserID v = s_UserID current ∧ stk_SessionID v = s_ID current ∧
    stk_ExpiresAt v = stk_IssuedAt v + 2 * Minute ∧
    (stk_PrimaryCredentials v = true ↔ Get (rq_Query rq) "renew" = "true" ∧ c_CASRenew c = true) ∧
    (stk_PrimaryCredentials v = true → renewed rq (stk_Service v) current past).

(** The request's ticket was just consumed: one of this user and session, issued for this
    very service. *)
Definition accepted (rq : HttpRequest) (userID sessionID : string) (primary : bool) (proxies : list string) (past : list Did) : Prop :=
  let service := Get (rq_Query rq) "service" in
  let hash := HashToken (Get (rq_Query rq) "ticket") in
  let renew := bool_decide (Get (rq_Query rq) "renew" = "true") in
  (∃ now t, did (CCas (CoConsumeServiceTicket hash service renew now)) (Ok t) ∈ past ∧
     stk_UserID t = userID ∧ stk_SessionID t = sessionID ∧ stk_PrimaryCredentials t = primary ∧ proxies = []) ∨
  (∃ now t, HasPrefix (Get (rq_Query rq) "ticket") "PT-" = true ∧
     did (CCas (CoConsumeProxyTicket hash service renew now)) (Ok t) ∈ past ∧ pt_UserID t = userID ∧ pt_SessionID t = sessionID ∧
     pt_PrimaryCredentials t = primary ∧ proxies = pt_Proxies t).

(** A proxy-granting ticket continues the ticket just consumed, of a client that may proxy,
    whose callback of the service's host received it and answered 200. *)
Definition granting_ticket_justified (rq : HttpRequest) (v : ProxyGrantingTicket) (past : list Did) : Prop :=
  ∃ c user parameters, service_of (Get (rq_Query rq) "service") c past ∧ c_CASProxy c = true ∧
    accepted rq (pgt_UserID v) (pgt_SessionID v) (pgt_PrimaryCredentials v) (pgt_Proxies v) past ∧
    is_active (pgt_UserID v) user past ∧
    pgt_CallbackURL v = Get (rq_Query rq) "pgtUrl" ∧
    validCASProxyCallback c (Get (rq_Query rq) "service") (pgt_CallbackURL v) = true ∧
    did (COutbound "GET" (pgt_CallbackURL v) parameters) (Ok 200) ∈ past ∧ pgt_Hash v = HashToken (Get parameters "pgtId") ∧
    pgt_ExpiresAt v = pgt_IssuedAt v + 8 * Hour.

(** A proxy ticket comes from a proxy-granting ticket that has not expired, of an enabled
    client that may proxy, for a registered service; the proxies on the way are listed. *)
Definition proxy_ticket_justified (rq : HttpRequest) (v : ProxyTicket) (pgtHash : string) (past : list Did) : Prop :=
  ∃ c pgt source now, service_of (pt_TargetService v) c past ∧ pt_TargetService v = Get (rq_Query rq) "targetService" ∧
    pt_ClientID v = c_ID c ∧ pgtHash = HashToken (Get (rq_Query rq) "pgt") ∧
    did (CFindProxyGrantingTicket pgtHash now) (Ok pgt) ∈ past ∧
    did (CClientsFind (pgt_ClientID pgt)) (Ok source) ∈ past ∧ c_Enabled source = true ∧ c_CASProxy source = true ∧
    pt_UserID v = pgt_UserID pgt ∧ pt_SessionID v = pgt_SessionID pgt ∧ pt_PrimaryCredentials v = pgt_PrimaryCredentials pgt ∧
    pt_Proxies v = pgt_CallbackURL pgt :: pgt_Proxies pgt ∧ pt_ExpiresAt v = now + 2 * Minute.

Definition cas_guard (rq : HttpRequest) (past : list Did) (q : Call) : Prop :=
  match q with
  | CCas (CoSaveServiceTicket v) => service_ticket_justified rq v past
  | CCas (CoSaveProxyGrantingTicket v) => granting_ticket_justified rq v past
  | CCas (CoSaveProxyTicket v h) => proxy_ticket_justified rq v h past
  | _ => True
  end.

Lemma service_of_mono s c past past' : past `prefix_of` past' → service_of s c past → service_of s c past'.
Proof. intros Hp [Hs (clients & Hc & ?)]. split; [done|]. exists clients. eauto using did_prefix. Qed.
Lemma accepted_mono rq u s p l past past' : past `prefix_of` past' → accepted rq u s p l past → accepted rq u s p l past'.
Proof. intros Hp [(now & t & Ht & Hr)|(now & t & Hpt & Ht & Hr)]; [left|right]; exists now, t; eauto using did_prefix. Qed.
Lemma is_active_mono u user past past' : past `prefix_of` past' → is_active u user past → is_active u user past'.
Proof. intros Hp [Hu ?]. split; eauto using did_prefix. Qed.

(** ** Replies *)

(** The browser is sent to a page of the site or to a registered service. *)
Definition goes_registered (past : list Did) (r : Reply) : Prop :=
  match re_Body r with
  | Redirect t => HasPrefix t "/login" = true ∨ ∃ c, service_of t c past
  | RedirectURI uri _ => ∃ c, service_of uri c past
  | _ => True
  end.

(** A document that names a user names the active user of the ticket just consumed. *)
Inductive honest (rq : HttpRequest) (past : list Did) : string → Prop :=
| honest_no : honest rq past ("no" +:+ newline +:+ newline)
| honest_failure kind code message :
    kind ∈ ["cas:authenticationFailure"; "cas:proxyFailure"] → honest rq past (failure_document kind code message)
| honest_yes userID sessionID primary user :
    accepted rq userID sessionID primary [] past → is_active userID user past →
    honest rq past ("yes" +:+ newline +:+ u_Username user +:+ newline)
| honest_success userID sessionID primary proxies user includeAttributes pgtIOU roles permissions :
    accepted rq userID sessionID primary proxies past → is_active userID user past →
    honest rq past (success_document user includeAttributes pgtIOU proxies roles permissions)
| honest_proxy ticket v h :
    did (CCas (CoSaveProxyTicket v h)) (Ok ()) ∈ past → pt_Hash v = HashToken ticket →
    honest rq past (document (open "cas:proxySuccess" +:+ element "cas:proxyTicket" ticket +:+ open "/cas:proxySuccess")).

Definition sound_reply (rq : HttpRequest) (past : list Did) (r : Reply) : Prop :=
  goes_registered past r ∧ ∀ d, re_Body r = TextBody d → honest rq past d.

Lemma sound_failure rq past code message : sound_reply rq past (writeCASFailure code message).
Proof. split; [done|]. intros d [= <-]. constructor. set_solver. Qed.
Lemma sound_proxy_failure rq past code message : sound_reply rq past (writeCASProxyFailure code message).
Proof. split; [done|]. intros d [= <-]. constructor. set_solver. Qed.
Lemma sound_no rq past : sound_reply rq past no_reply.
Proof. split; [done|]. intros d [= <-]. constructor. Qed.
Lemma sound_problem rq past status code detail : sound_reply rq past (writeProblem status code detail).
Proof. by split. Qed.
Lemma sound_goes rq past r : goes_to (λ _, False) r → (∀ d, re_Body r ≠ TextBody d) → sound_reply rq past r.
Proof.
  unfold goes_to, sound_reply, goes_registered. intros Hg Hd. split; [|intros d Hb; by destruct (Hd d)].
  destruct (re_Body r) as [| | |t|uri ps| | |]; try done. left. apply HasPrefix_true in Hg as [s ->]. apply HasPrefix_true. by exists (String "?" s).
Qed.
Section Parts.
Context (φ : list Did → Call → Prop) (Hread : ∀ past q, is_read q = true → φ past q).

Lemma wp_findCASClient past serviceURL (post : list Did → option Client → Prop) :
  (∀ past' r, past `prefix_of` past' → (∀ c, r = Some c → service_of serviceURL c past') → post past' r) →
  wp φ past (findCASClient serviceURL) post.
Proof.
  intros Hpost. apply wp_frame. unfold findCASClient. wp_steps; try (by apply Hread).
  all: intros Hpre; apply Hpost; [done|]; intros c Hc; try done.
  destruct (list_find _ _) as [[i c']|] eqn:E; [|done]. simpl in Hc. injection Hc as <-.
  apply list_find_Some in E as (Hi & Hs & _). split; [done|]. eexists. split; [auto with did|]. by eapply list_elem_of_lookup_2.
Qed.

Lemma wp_unsigned past serviceURL marker (post : list Did → bool → Prop) :
  (∀ past' r, past `prefix_of` past' →
     (r = true → ∃ claims now, did (CVerify marker) (Ok claims) ∈ past' ∧ did CNow now ∈ past' ∧ claim_string claims "purpose" = "cas_reauth" ∧
        claim_string claims "service" = serviceURL ∧ Unix now < claim_int claims "exp") → post past' r) →
  wp φ past (validUnsignedCASReauthMarker marker serviceURL) post.
Proof.
  intros Hpost. apply wp_frame. unfold validUnsignedCASReauthMarker. wp_steps; try (by apply Hread).
  all: intros Hpre; apply Hpost; [done|]; intros Hr; try done. reflect. destruct_and?.
  eexists _, _. split_and!; try done; auto with did.
Qed.

Lemma wp_casMarker past rq serviceURL current (post : list Did → bool → Prop) :
  (∀ past' r, past `prefix_of` past' → (r = true → renewed rq serviceURL current past') → post past' r) →
  wp φ past (validCASReauthMarker (Get (rq_Query rq) "reauth") serviceURL (s_AuthenticatedAt current)) post.
Proof.
  intros Hpost. apply wp_frame. unfold validCASReauthMarker. apply wp_bind, wp_unsigned. intros past1 r Hp1 Hr.
  wp_steps; try (by apply Hread).
  all: intros Hpre; apply Hpost; [done|]; intros Hv; try done. destruct r; [|done]. specialize (Hr eq_refl).
  split.
  - destruct Hr as (claims & now & ? & ? & Hr). exists claims, now. split_and!; try (eapply did_prefix; [|done]; pre); naive_solver.
  - eexists. split; [auto with did|]. by reflect.
Qed.

Lemma wp_redirectCAS past registered serviceURL renew marker (post : list Did → Reply → Prop) :
  (∀ past' r, past `prefix_of` past' → goes_to (λ _, False) r → (∀ d, re_Body r ≠ TextBody d) → post past' r) →
  wp φ past (redirectCASCredentials registered serviceURL renew marker) post.
Proof.
  intros Hpost. unfold redirectCASCredentials. cbv zeta.
  assert (∀ q, goes_to (λ _, False) (to_login registered q)) as Hl.
  { intros q. unfold goes_to, to_login. simpl. apply HasPrefix_true. by eexists. }
  destruct (negb renew); [apply wp_ret, Hpost; done|].
  apply wp_bind, wp_unsigned.
  intros past1 r Hp1 _. wp_steps; try (by apply Hread); apply Hpost; done || pre.
Qed.

End Parts.

(** ** The endpoints *)

Section Handlers.
Context (rq : HttpRequest).

Lemma cas_guard_read past q : is_read q = true → cas_guard rq past q.
Proof. by destruct q. Qed.

Lemma wp_issueServiceTicket past registered current primary :
  let serviceURL := Get (rq_Query rq) "service" in
  service_of serviceURL registered past → signed_in rq current past →
  (primary = true ↔ Get (rq_Query rq) "renew" = "true" ∧ c_CASRenew registered = true) →
  (primary = true → renewed rq serviceURL current past) →
  wp (cas_guard rq) past (issueServiceTicket registered serviceURL current primary) (sound_reply rq).
Proof.
  intros serviceURL Hs Hin Hp Hr. apply wp_frame. unfold issueServiceTicket. wp_steps; try done; try (intros _; apply sound_problem).
  - cbn [cas_guard]. exists registered, current. split_and!; try done; [|by eapply signed_in_mono; [|done]; pre|].
    + eapply service_of_mono; [|done]. pre.
    + intros Ht. destruct (Hr Ht) as [(claims & now & ? & ? & Hc) (claims' & ? & ?)].
      split; [exists claims, now|exists claims']; split_and!; try (eapply did_prefix; [|done]; pre); naive_solver.
  - intros Hpre. split; [|done]. exists registered. by eapply service_of_mono.
Qed.

Lemma wp_casLogin : wp (cas_guard rq) [] (casLogin rq) (sound_reply rq).
Proof.
  pose proof cas_guard_read as Hread. unfold casLogin. cbv zeta. apply wp_bind, wp_findCASClient; [done|].
  intros past1 [registered|] Hp1 Hc; [|apply wp_ret, sound_problem]. specialize (Hc _ eq_refl).
  destruct (_ && (_ && _)); [apply wp_ret, sound_problem|].
  apply wp_bind, wp_currentSession; [done|]. intros past2 current Hp2 Hin.
  assert (service_of (Get (rq_Query rq) "service") registered past2) as Hc2 by by eapply service_of_mono.
  assert (∀ past' renew marker, past2 `prefix_of` past' →
    wp (cas_guard rq) past' (redirectCASCredentials registered (Get (rq_Query rq) "service") renew marker) (sound_reply rq)) as Hredirect.
  { intros past' renew marker _. apply wp_redirectCAS; [done|]. intros. by apply sound_goes. }
  destruct current as [current|].
  - specialize (Hin _ eq_refl). destruct (bool_decide _ && c_CASRenew registered) eqn:Hr; reflect.
    + apply wp_bind, wp_casMarker; [done|]. intros past3 valid Hp3 Hv. destruct valid; cbn [negb]; [|apply Hredirect; pre].
      apply wp_issueServiceTicket; [by eapply service_of_mono|by eapply signed_in_mono|done|auto].
    + apply wp_issueServiceTicket; [done..| |done]. split; [done|]. intros [Ha Hb]. destruct Hr; congruence.
  - destruct (_ && _); [|by apply Hredirect]. apply wp_ret. split; [|done]. right. by exists registered.
Qed.

Lemma wp_active_user past userID (post : list Did → option User → Prop) :
  (∀ past' r, past `prefix_of` past' → (∀ user, r = Some user → is_active userID user past') → post past' r) →
  wp (cas_guard rq) past (active_user userID) post.
Proof.
  intros Hpost. apply wp_frame. unfold active_user. wp_steps; try done.
  all: intros Hpre; apply Hpost; [done|]; intros user Hu; simplify_eq. split; [auto with did|by apply dec_stable].
Qed.

Lemma wp_casValidate : wp (cas_guard rq) [] (casValidate rq) (sound_reply rq).
Proof.
  pose proof cas_guard_read as Hread. unfold casValidate. cbv zeta. apply wp_bind, wp_findCASClient; [done|].
  intros past1 [registered|] Hp1 Hc; [|apply wp_ret, sound_no].
  apply wp_do; [done|]. intros now. apply wp_do; [done|]. intros [ticket|]; [|apply wp_ret, sound_no].
  apply wp_bind, wp_active_user. intros past2 [user|] Hp2 Hu; apply wp_ret; [|apply sound_no]. split; [done|].
  intros d [= <-]. eapply honest_yes; [|by apply Hu]. left. exists now, ticket. split_and!; try done. eapply did_prefix; [exact Hp2|]. auto with did.
Qed.

Lemma wp_issuePGT past registered clientID userID sessionID proxies primary user (post : list Did → Res string string → Prop) :
  service_of (Get (rq_Query rq) "service") registered past → accepted rq userID sessionID primary proxies past →
  is_active userID user past → (∀ past' r, past `prefix_of` past' → post past' r) →
  wp (cas_guard rq) past (issueProxyGrantingTicket rq registered clientID userID sessionID proxies primary) post.
Proof.
  intros Hs Ha Hu Hpost. unfold issueProxyGrantingTicket. cbv zeta. wp_steps; try done; try (apply Hpost; pre).
  cbn [cas_guard]. reflect. repeat match goal with Hn : negb _ = false |- _ => apply negb_false_iff in Hn end.
  eexists registered, user, _. split_and!.
  - eapply service_of_mono; [|done]. pre.
  - done.
  - eapply accepted_mono; [|done]. pre.
  - eapply is_active_mono; [|exact Hu]. pre.
  - reflexivity.
  - done.
  - match goal with Hx : ¬ _ ≠ 200 |- _ => apply dec_stable in Hx as -> end. auto with did.
  - cbn [pgt_Hash]. f_equal.
  - reflexivity.
Qed.

Lemma wp_validated past registered clientID userID sessionID primary proxies includeAttributes :
  service_of (Get (rq_Query rq) "service") registered past → accepted rq userID sessionID primary proxies past →
  wp (cas_guard rq) past (validated rq registered clientID userID sessionID primary proxies includeAttributes) (sound_reply rq).
Proof.
  intros Hs Ha. unfold validated. apply wp_bind, wp_active_user. intros past1 [user|] Hp1 Hu; [|apply wp_ret, sound_failure].
  specialize (Hu _ eq_refl). apply wp_bind, wp_frame. unfold casEntitlements. wp_steps; try done.
  all: intros _; try (apply wp_ret, sound_failure).
  all: apply wp_bind; eapply wp_issuePGT;
    [eapply service_of_mono; [|exact Hs]; pre|eapply accepted_mono; [|exact Ha]; pre|eapply is_active_mono; [|exact Hu]; pre|].
  all: intros past3 [pgtIOU|message] Hp3; apply wp_ret; [|apply sound_failure].
  all: split; [done|]; intros d [= <-]; eapply honest_success; [eapply accepted_mono; [|exact Ha]; pre|eapply is_active_mono; [|exact Hu]; pre].
Qed.

Lemma wp_casServiceValidate : wp (cas_guard rq) [] (casServiceValidate rq) (sound_reply rq).
Proof.
  unfold casServiceValidate. cbv zeta. apply wp_bind, wp_findCASClient; [apply cas_guard_read|].
  intros past1 [registered|] Hp1 Hc; [|apply wp_ret, sound_failure]. specialize (Hc _ eq_refl).
  apply wp_do; [done|]. intros now. apply wp_do; [done|]. intros [ticket|]; [|apply wp_ret, sound_failure].
  apply wp_validated; [eapply service_of_mono, Hc; pre|]. left. exists now, ticket. split_and!; try done. auto with did.
Qed.

Lemma wp_casProxyValidate : wp (cas_guard rq) [] (casProxyValidate rq) (sound_reply rq).
Proof.
  unfold casProxyValidate. cbv zeta. apply wp_bind, wp_findCASClient; [apply cas_guard_read|].
  intros past1 [registered|] Hp1 Hc; [|apply wp_ret, sound_failure]. specialize (Hc _ eq_refl).
  apply wp_do; [done|]. intros now. destruct (HasPrefix _ "PT-") eqn:Hpt.
  all: apply wp_do; [done|]; intros [ticket|]; [|apply wp_ret, sound_failure].
  all: apply wp_validated; [eapply service_of_mono, Hc; pre|].
  - right. exists now, ticket. split_and!; try done. auto with did.
  - left. exists now, ticket. split_and!; try done. auto with did.
Qed.

Lemma wp_casProxy : wp (cas_guard rq) [] (casProxy rq) (sound_reply rq).
Proof.
  unfold casProxy. cbv zeta. case_decide as Hne; [apply wp_ret, sound_proxy_failure|].
  apply wp_bind, wp_findCASClient; [apply cas_guard_read|].
  intros past1 [target|] Hp1 Hc; [|apply wp_ret, sound_proxy_failure]. specialize (Hc _ eq_refl).
  wp_steps; try match goal with |- sound_reply _ _ (writeCASProxyFailure _ _) => apply sound_proxy_failure end.
  - match goal with Hx : match ?r with _ => _ end = false |- _ => destruct r as [source|]; [|discriminate] end.
    match goal with Hx : _ || _ = false |- _ => apply orb_false_iff in Hx as [Hen%negb_false_iff Hpr%negb_false_iff] end. subst.
    eexists target, _, source, _. split_and!; try reflexivity; try done; [eapply service_of_mono; [|exact Hc]; pre|auto 6 with did..].
  - split; [done|]. intros d [= <-]. match goal with u : unit |- _ => destruct u end. eapply honest_proxy; [auto with did|done].
Qed.

End Handlers.
End CasProps.
