(* ===== verification/LogoutProps.v ===== *)
(** What a logout does, whatever happens between its calls: the session of the request is
    revoked with its tokens and tickets, and the applications it was used with are told. *)
From S2P Require Import Prelude GoStrings GoCrypto GoXml Cas OAuthStore OAuthStoreProps Session RateLimit Identity Client Authorize GoUrl Access AuditLog Http HttpWp Server Tokens TokensProps Browser BrowserProps AuthorizeEndpoint AuthorizeProps CasEndpoints CasProps.
Local Open Scope Z_scope.
Local Open Scope string_scope.

(** The calls that follow the end of sessions, and those of a logout. *)
Definition cleans (q : Call) : bool :=
  match q with
  | CStore (OpRevokeSessionTokens _ _ _) | CStore (OpDeleteOIDCClientSessions _) | CCas (CoDeleteServiceSessions _) => true
  | CSignTyped _ typ => bool_decide (typ = "logout+jwt")
  | _ => is_plain q
  end.
Definition ends (q : Call) : bool := match q with CSessionsRevoke _ => true | _ => cleans q || is_read q end.

Section LogoutProps.
Context `{MapRange, UnicodeTables, MailParser, TokenSigner} (cfg : Config).

(** ** What the calls show *)

(** The tokens and the CAS tickets of a session of a user are revoked. *)
Definition tokens_revoked (s : string * string) (past : list Did) : Prop :=
  (∃ now a, did (CStore (OpRevokeSessionTokens s.2 s.1 now)) a ∈ past) ∧ ∃ a, did (CCas (CoDeleteServiceSessions s.1)) a ∈ past.

(** The application was sent a logout token for the session, unless the deadline had
    passed, or the token could not be made. *)
Definition told (sessionID : string) (c : Client) (past : list Did) : Prop :=
  did CLate true ∈ past ∨ (∃ rnd, did CRandom rnd ∈ past ∧ is_ok (RandomUUID rnd) = false) ∨
  ∃ claims token, did (CSignTyped claims "logout+jwt") token ∈ past ∧ claims !! "sid" = Some (VString sessionID) ∧
    claims !! "aud" = Some (VString (c_ID c)) ∧
    ∀ t, token = Ok t → ∃ status, did (COutbound "POST" (c_BackchannelLogoutURI c) {["logout_token" := [t]]}) status ∈ past.

(** Every application that the session was used with, and that asks for it, was told. *)
Definition applications_told (sessionID : string) (past : list Did) : Prop :=
  ∃ listed, did (CListOIDCClientSessions sessionID) listed ∈ past ∧ ∀ l, listed = Ok l →
    (∃ a, did (CStore (OpDeleteOIDCClientSessions sessionID)) a ∈ past) ∧
    ∀ os, os ∈ l → ∃ registered, did (CClientsFind (os_ClientID os)) registered ∈ past ∧
      ∀ c, registered = Ok c → c_BackchannelLogoutURI c ≠ "" → told (os_SessionID os) c past.

Lemma tokens_revoked_mono s past past' : past `prefix_of` past' → tokens_revoked s past → tokens_revoked s past'.
Proof. intros Hp [(now & a & Ha) (b & Hb)]. split; [exists now, a|exists b]; eauto using did_prefix. Qed.
Lemma told_mono sid c past past' : past `prefix_of` past' → told sid c past → told sid c past'.
Proof.
  intros Hp [Hl|[(rnd & Hr & ?)|(claims & token & Hs & ? & ? & Ht)]]; [left|right; left|right; right].
  - by eapply did_prefix.
  - exists rnd. eauto using did_prefix.
  - exists claims, token. split_and!; [by eapply did_prefix|done..|]. intros t Heq. destruct (Ht t Heq) as [st ?]. exists st. by eapply did_prefix.
Qed.

Section Parts.
Context (φ : list Did → Call → Prop) (Hends : ∀ past q, cleans q = true → φ past q).

Lemma wp_send past job :
  wp φ past (sendOIDCBackchannelLogout cfg job) (λ past' _, told (os_SessionID job.1) job.2 past').
Proof.
  apply wp_frame. unfold sendOIDCBackchannelLogout. wp_steps; try (by apply Hends); intros _.
  - right; right. eexists _, _. split_and!; [auto with did|by vm_compute..|]. intros t [= ->]. eexists. auto with did.
  - right; right. eexists _, _. split_and!; [auto with did|by vm_compute..|]. by intros t Ht.
  - right; left. eexists. split; [auto with did|]. by match goal with Hr : RandomUUID _ = _ |- _ => rewrite Hr end.
Qed.

(** The jobs of a session: one for each application that asks to be told. *)
Definition jobs_of (s : string * string) (ys : list (string + OIDCClientSession * Client)) (past : list Did) : Prop :=
  ∃ listed, did (CListOIDCClientSessions s.1) listed ∈ past ∧ ∀ l, listed = Ok l →
    inl s.1 ∈ ys ∧
    ∀ os, os ∈ l → ∃ registered, did (CClientsFind (os_ClientID os)) registered ∈ past ∧
      ∀ c, registered = Ok c → c_BackchannelLogoutURI c ≠ "" → ∃ os', inr (os', c) ∈ ys ∧ os_SessionID os' = os_SessionID os.

Lemma jobs_of_mono s ys past past' : past `prefix_of` past' → jobs_of s ys past → jobs_of s ys past'.
Proof.
  intros Hp (listed & Hl & Hj). exists listed. split; [by eapply did_prefix|]. intros l Hl'. destruct (Hj l Hl') as [Hin Hall].
  split; [done|]. intros os Hos. destruct (Hall os Hos) as (registered & Hr & Hc). exists registered. split; [by eapply did_prefix|done].
Qed.

Lemma wp_logout_jobs past s : wp φ past (logout_jobs s) (λ past' ys, jobs_of s ys past').
Proof.
  unfold logout_jobs. apply wp_do; [by apply Hends|]. intros [l|e].
  - apply wp_bind.
    apply (wp_collect _ _ _ _ (λ os ys past, ∃ registered, did (CClientsFind (os_ClientID os)) registered ∈ past ∧
      ∀ c, registered = Ok c → c_BackchannelLogoutURI c ≠ "" → ∃ os', inr (os', c) ∈ ys ∧ os_SessionID os' = os_SessionID os)).
    + intros os ys past1 past2 Hp (registered & Hr & Hc). exists registered. split; [by eapply did_prefix|done].
    + intros os past1 Hos Hp. apply wp_do; [by apply Hends|]. intros registered.
      destruct registered as [c|e].
      * destruct (decide _) as [He|Hne]; apply wp_ret; exists (Ok c); (split; [auto with did|]); intros c' [= <-] Hne'; [done|].
        eexists. split; [by left|]. by case_decide.
      * apply wp_ret. exists (Err e). split; [auto with did|]. by intros c.
    + intros past1 parts Hp Hall. apply wp_ret. exists (Ok l). split; [eapply did_prefix; [exact Hp|]; auto with did|].
      intros l' [= <-]. split; [by left|]. intros os Hos. apply list_elem_of_lookup in Hos as [i Hi].
      destruct (Forall2_lookup_l _ _ _ _ _ Hall Hi) as (ys & Hys & registered & Hr & Hc). exists registered. split; [done|].
      intros c Hok Hne. destruct (Hc c Hok Hne) as (os' & Hin & ?). exists os'. split; [|done]. right.
      apply list_elem_of_In, in_concat. exists ys. split; apply list_elem_of_In; [by eapply list_elem_of_lookup_2|done].
  - apply wp_ret. eexists. split; [auto with did|]. by intros l.
Qed.

Lemma unique_sessions (sessions : list (string * string)) s :
  s ∈ sessions → s.1 ≠ "" → ∃ u, (s.1, u) ∈ range (foldl (λ m s, if decide (s.1 ≠ "") then <[s.1 := s.2]> m else m) (∅ : gmap string string) sessions).
Proof.
  intros Hs Hne. setoid_rewrite elem_of_range.
  enough (∀ m : gmap string string, s ∈ sessions ∨ is_Some (m !! s.1) → is_Some (foldl (λ m s, if decide (s.1 ≠ "") then <[s.1 := s.2]> m else m) m sessions !! s.1))
    as Hall by (apply Hall; by left).
  clear Hs. induction sessions as [|s' sessions IH]; intros m; simpl; [by intros [?%elem_of_nil|?]|].
  intros [[->|Hs]%elem_of_cons|Hm]; apply IH; [right|by left|right].
  - rewrite decide_True by done. rewrite lookup_insert_eq. by eexists.
  - case_decide; [|done]. destruct (decide (s'.1 = s.1)) as [->|Hd]; [rewrite lookup_insert_eq; by eexists|by rewrite lookup_insert_ne].
Qed.

Lemma wp_notify past sessions (post : list Did → unit → Prop) :
  (∀ past', past `prefix_of` past' → (∀ s, s ∈ sessions → s.1 ≠ "" → applications_told s.1 past') → post past' ()) →
  wp φ past (notifyOIDCBackchannelLogout cfg sessions) post.
Proof.
  intros Hpost. unfold notifyOIDCBackchannelLogout. cbv zeta. set (unique := foldl _ _ _).
  apply wp_bind, (wp_collect _ _ _ _ jobs_of); [apply jobs_of_mono|intros; apply wp_logout_jobs|].
  intros past1 parts Hp1 Hparts. apply wp_bind, (wp_each _ _ _ _ (λ job past, told (os_SessionID job.1) job.2 past)).
  { intros job. apply told_mono. }
  { intros job past2 _ Hp2. apply wp_do; [by apply Hends|]. intros [].
    - apply wp_ret. left. auto with did.
    - apply wp_send. }
  intros past2 Hp2 Hsent.
  apply (wp_each _ _ _ _ (λ s past, ∃ a, did (CStore (OpDeleteOIDCClientSessions s.1)) a ∈ past)).
  { intros s p1 p2 Hp [a Ha]. exists a. by eapply did_prefix. }
  { intros s p Hs Hp. apply wp_do; [by apply Hends|]. intros a. apply wp_ret. exists a. auto with did. }
  intros past3 Hp3 Hdeleted. apply Hpost; [by do 2 (etrans; [|done])|]. intros s Hs Hne.
  destruct (unique_sessions sessions s Hs Hne) as [u Hu]. apply list_elem_of_lookup in Hu as [i Hi].
  destruct (Forall2_lookup_l _ _ _ _ _ Hparts Hi) as (ys & Hys & listed & Hl & Hj). simpl in Hl.
  assert (∀ x, x ∈ ys → x ∈ concat parts) as Hconcat.
  { intros x Hx. apply list_elem_of_In, in_concat. exists ys. split; apply list_elem_of_In; [by eapply list_elem_of_lookup_2|done]. }
  exists listed. split; [eapply did_prefix; [|exact Hl]; by etrans|]. intros l Heq. destruct (Hj l Heq) as [Hin Hall]. split.
  - destruct (Hdeleted (s.1, ())) as [a Ha]; [|by exists a]. apply elem_of_range. simpl.
    destruct (list_to_map _ !! s.1) as [[]|] eqn:E; [done|]. exfalso. apply not_elem_of_list_to_map_2 in E. apply E.
    apply list_elem_of_fmap. exists (s.1, ()). split; [done|]. apply list_elem_of_omap. exists (inl s.1). split; [by apply Hconcat|done].
  - intros os Hos. destruct (Hall os Hos) as (registered & Hr & Hc). exists registered. split; [eapply did_prefix; [|exact Hr]; by etrans|].
    intros c Hok Hne'. destruct (Hc c Hok Hne') as (os' & Hos' & <-). eapply told_mono; [exact Hp3|]. apply (Hsent (os', c)).
    apply list_elem_of_omap. exists (inr (os', c)). split; [by apply Hconcat|done].
Qed.

Lemma wp_cleanup past sessions (post : list Did → unit → Prop) :
  (∀ past', past `prefix_of` past' →
     (∀ s, s ∈ sessions → tokens_revoked s past' ∧ (s.1 ≠ "" → applications_told s.1 past')) → post past' ()) →
  wp φ past (cleanupRevokedSessions cfg sessions) post.
Proof.
  intros Hpost. unfold cleanupRevokedSessions. apply wp_do; [by apply Hends|]. intros now.
  apply wp_bind, (wp_each _ _ _ _ tokens_revoked); [apply tokens_revoked_mono| |].
  { intros s p Hs Hp. apply wp_do; [by apply Hends|]. intros a. apply wp_do; [by apply Hends|]. intros b. apply wp_ret.
    split; [exists now, a|exists b]; auto with did. }
  intros past1 Hp1 Hall. apply wp_notify. intros past2 Hp2 Htold. apply Hpost; [pre|]. intros s Hs.
  split; [eapply tokens_revoked_mono; [done|by apply Hall]|by apply Htold].
Qed.
End Parts.

(** ** Logging out *)

(** The request presented no session of an active user. *)
Definition anonymous (rq : HttpRequest) (past : list Did) : Prop :=
  match rq_Cookies rq !! sessionCookieName with
  | None => True
  | Some token =>
      (∃ e, did (CSessionsFind token) (Err e) ∈ past) ∨
      ∃ current, did (CSessionsFind token) (Ok current) ∈ past ∧
        ((∃ e, did (CUsersFind (s_UserID current)) (Err e) ∈ past) ∨
         ∃ user, did (CUsersFind (s_UserID current)) (Ok user) ∈ past ∧ u_Status user ≠ UserActive)
  end.

(** The session is revoked, with its tokens and tickets, and its applications are told. *)
Definition session_ended (current : Session) (past : list Did) : Prop :=
  (∃ a, did (CSessionsRevoke (s_ID current)) a ∈ past) ∧ tokens_revoked (s_ID current, s_UserID current) past ∧
  (s_ID current ≠ "" → applications_told (s_ID current) past).

Definition logged_out (rq : HttpRequest) (past : list Did) : Prop :=
  anonymous rq past ∨ ∃ current, signed_in rq current past ∧ session_ended current past.

Lemma anonymous_mono rq past past' : past `prefix_of` past' → anonymous rq past → anonymous rq past'.
Proof.
  unfold anonymous. intros Hp. destruct (rq_Cookies rq !! sessionCookieName) as [token|]; [|done].
  intros [[e He]|(current & Hc & [[e He]|(user & Hu & ?)])]; [left; exists e|right; exists current; split; [|left; exists e]|right; exists current; split; [|right; exists user]];
    eauto using did_prefix.
Qed.

Lemma applications_told_mono sid past past' : past `prefix_of` past' → applications_told sid past → applications_told sid past'.
Proof.
  intros Hp (listed & Hl & Hall). exists listed. split; [by eapply did_prefix|]. intros l Heq. destruct (Hall l Heq) as [[a Ha] Happs].
  split; [exists a; by eapply did_prefix|]. intros os Hos. destruct (Happs os Hos) as (registered & Hr & Ht).
  exists registered. split; [by eapply did_prefix|]. intros c Hc Hne. eapply told_mono; [done|by apply Ht].
Qed.

Lemma logged_out_mono rq past past' : past `prefix_of` past' → logged_out rq past → logged_out rq past'.
Proof.
  intros Hp [Ha|(c & Hc & (a & Ha) & Ht & Happs)]; [left; by eapply anonymous_mono|right]. exists c.
  split; [by eapply signed_in_mono|]. split_and!; [exists a; by eapply did_prefix|by eapply tokens_revoked_mono|].
  intros Hne. eapply applications_told_mono; [done|by apply Happs].
Qed.

(** The services the session signed in to with CAS, and that ask for it, are told. *)
Definition services_told (current : Session) (past : list Did) : Prop :=
  ∃ listed, did (CListServiceSessions (s_ID current)) listed ∈ past ∧ ∀ l, listed = Ok l → ∀ ss, ss ∈ l → ss_Service ss ≠ "" →
    ∃ clients, did CClientsList clients ∈ past ∧ ∀ cs i c, clients = Ok cs →
      list_find (serves_service (ss_Service ss)) cs = Some (i, c) → c_CASSingleLogout c = true →
      did CLate true ∈ past ∨ (∃ rnd, did CRandom rnd ∈ past ∧ is_ok (RandomToken rnd) = false) ∨
      ∃ requestID now principal status,
        did (COutbound "POST" (ss_Service ss) {["logoutRequest" := [logout_request requestID now principal (ss_Ticket ss)]]}) status ∈ past.

Section Handlers.
Context (rq : HttpRequest).

(** Logouts make no other calls that change anything. *)
Definition logout_guard (past : list Did) (q : Call) : Prop := ends q = true.
Lemma logout_ends past q : cleans q = true → logout_guard past q.
Proof. unfold logout_guard, ends. intros Hq. rewrite Hq. by destruct q. Qed.
Lemma logout_read past q : is_read q = true → logout_guard past q.
Proof. unfold logout_guard, ends. intros Hq. rewrite Hq, orb_true_r. by destruct q. Qed.

Lemma wp_current (φ : list Did → Call → Prop) past (post : list Did → option Session → Prop) :
  (∀ past q, is_read q = true → φ past q) →
  (∀ past' r, past `prefix_of` past' →
     match r with Some current => signed_in rq current past' | None => anonymous rq past' end → post past' r) →
  wp φ past (currentSession rq) post.
Proof.
  intros Hread Hpost. apply wp_frame. unfold currentSession. wp_steps; try (by apply Hread).
  all: intros Hpre; apply Hpost; [done|]; unfold anonymous, signed_in.
  all: repeat match goal with Hc : rq_Cookies rq !! _ = _ |- _ => rewrite Hc; clear Hc end; try done.
  - right. eexists. split; [auto with did|]. right. eexists. split; [auto with did|done].
  - split; [eexists; split; [done|auto with did]|]. eexists. split; [auto with did|by apply dec_stable].
  - right. eexists. split; [auto with did|]. left. eexists. auto with did.
  - left. eexists. auto with did.
Qed.

Lemma wp_end past current (post : list Did → unit → Prop) :
  signed_in rq current past → (∃ a, did (CSessionsRevoke (s_ID current)) a ∈ past) →
  (∀ past', past `prefix_of` past' → logged_out rq past' → post past' ()) →
  wp logout_guard past (cleanupRevokedSessions cfg [(s_ID current, s_UserID current)]) post.
Proof.
  intros Hin [a Ha] Hpost. apply wp_cleanup; [apply logout_ends|]. intros past' Hp Hall.
  destruct (Hall (s_ID current, s_UserID current)) as [Hr Ht]; [by left|]. apply Hpost; [done|]. right. exists current.
  split; [by eapply signed_in_mono|]. split_and!; [exists a; by eapply did_prefix|done|done].
Qed.

Lemma wp_logout :
  wp logout_guard [] (logout cfg rq) (λ past r, cleared sessionCookieName ∈ re_Cookies r → logged_out rq past).
Proof.
  unfold logout. cbv zeta. destruct (ParseForm rq) as [[body form]|]; [|by intros ?%elem_of_nil].
  destruct (negb _); [by intros ?%elem_of_nil|]. apply wp_bind, wp_current; [apply logout_read|].
  intros past1 [current|] Hp1 Hin; [|apply wp_ret; intros _; by left].
  apply wp_do; [done|]. intros a. apply wp_bind, wp_end; [eapply signed_in_mono; [|done]; pre|exists a; auto with did|].
  intros past2 Hp2 Hout. apply wp_bind, wp_audit; [apply logout_read|]. intros past3 Hp3. apply wp_ret. intros _.
  by eapply logged_out_mono.
Qed.

Lemma wp_end_sessions past sessionID subject current :
  signed_in rq current past → s_UserID current = subject →
  wp logout_guard past (end_sessions sessionID subject (Some current)) (λ past' sessions,
    past `prefix_of` past' ∧ (s_ID current, s_UserID current) ∈ sessions ∧ ∃ a, did (CSessionsRevoke (s_ID current)) a ∈ past').
Proof.
  intros Hin <-. apply wp_frame. unfold end_sessions. cbv zeta. destruct (decide (sessionID ≠ "")) as [Hne|Hne].
  - apply wp_do; [done|]. intros a. destruct (decide _) as [[_ <-]|Hother].
    + apply wp_ret. intros Hp. split_and!; [done|by left|]. exists a. auto with did.
    + apply wp_do; [done|]. intros b. apply wp_ret. intros Hp. split_and!; [done|set_solver|]. exists b. auto with did.
  - destruct (decide _) as [[]|_]; [done|]. apply wp_do; [done|]. intros b. apply wp_ret. intros Hp. split_and!; [done|set_solver|].
    exists b. auto with did.
Qed.

Lemma wp_end_none past sessionID subject post :
  (∀ past' l, past `prefix_of` past' → post past' l) → wp logout_guard past (end_sessions sessionID subject None) post.
Proof. intros Hpost. unfold end_sessions. wp_steps; try done; apply Hpost; pre. Qed.

Lemma wp_hint past hint (post : list Did → option (Client * string * string) → Prop) :
  (∀ past' r, past `prefix_of` past' → post past' r) → wp logout_guard past (validIDTokenHint cfg hint) post.
Proof. intros Hpost. unfold validIDTokenHint. wp_steps; try done; apply Hpost; done || pre. Qed.

Lemma wp_oidcLogout `{URLParser} :
  wp logout_guard [] (oidcLogout cfg rq) (λ past r, cleared sessionCookieName ∈ re_Cookies r → logged_out rq past).
Proof.
  assert (∀ form, wp logout_guard [] (logout_with_hint cfg rq form) (λ past r, cleared sessionCookieName ∈ re_Cookies r → logged_out rq past)) as Hall.
  { intros form. unfold logout_with_hint. cbv zeta. apply wp_bind, wp_hint. intros past1 [[[registered subject] sessionID]|] _; [|by intros ?%elem_of_nil].
    destruct (decide _); [by intros ?%elem_of_nil|]. destruct (_ && _); [by intros ?%elem_of_nil|].
    apply wp_bind, wp_current; [apply logout_read|]. intros past2 current Hp2 Hin.
    destruct (match current with Some _ => _ | None => _ end) eqn:Hsubject; [by intros ?%elem_of_nil|].
    destruct current as [current|]; apply wp_bind.
    - reflect. apply dec_stable in Hsubject. eapply wp_mono; [done| |by apply wp_end_sessions].
      intros past3 sessions (Hp3 & Hs & Hr). apply wp_bind, wp_cleanup; [apply logout_ends|]. intros past4 Hp4 Hended.
      apply wp_bind, wp_audit; [apply logout_read|]. intros past5 Hp5. apply wp_ret. intros _.
      eapply logged_out_mono; [exact Hp5|]. right. exists current. split; [eapply signed_in_mono; [|exact Hin]; by etrans|].
      destruct (Hended _ Hs) as [? ?]. split_and!; [|done..]. destruct Hr as [a Ha]. exists a. by eapply did_prefix.
    - apply wp_end_none. intros past3 l Hp3. apply wp_bind, wp_cleanup; [apply logout_ends|]. intros past4 Hp4 _.
      apply wp_bind, wp_audit; [apply logout_read|]. intros past5 Hp5. apply wp_ret. intros _. left.
      eapply anonymous_mono; [|exact Hin]. by repeat (etrans; [done|]). }
  unfold oidcLogout. destruct (decide _); [destruct (ParseForm rq) as [[body form]|]|]; try exact (Hall _). by intros ?%elem_of_nil.
Qed.

(** A logout of CAS tells the services besides. *)
Lemma wp_services past current principal (post : list Did → unit → Prop) :
  (∀ past', past `prefix_of` past' → services_told current past' → post past' ()) →
  wp logout_guard past (notify_services (s_ID current) principal) post.
Proof.
  intros Hpost. unfold notify_services. apply wp_do; [done|]. intros [l|e].
  2: { apply wp_ret, Hpost; [pre|]. eexists. split; [auto with did|]. by intros l. }
  set (told_service := λ (ss : ServiceSession) (p : list Did),
    did CLate true ∈ p ∨ (∃ rnd, did CRandom rnd ∈ p ∧ is_ok (RandomToken rnd) = false) ∨
    ∃ requestID now principal status,
      did (COutbound "POST" (ss_Service ss) {["logoutRequest" := [logout_request requestID now principal (ss_Ticket ss)]]}) status ∈ p).
  set (job_for := λ (ss : ServiceSession) (ys : list ServiceSession) (p : list Did), ss_Service ss ≠ "" →
    ∃ clients, did CClientsList clients ∈ p ∧ ∀ cs i c, clients = Ok cs →
      list_find (serves_service (ss_Service ss)) cs = Some (i, c) → c_CASSingleLogout c = true → ss ∈ ys).
  assert (∀ ss p p', p `prefix_of` p' → told_service ss p → told_service ss p') as Htold_mono.
  { intros ss p p' Hp [?|[(rnd & ? & ?)|(i & n & pr & st & ?)]]; [left|right; left; exists rnd|right; right; exists i, n, pr, st]; eauto using did_prefix. }
  apply wp_bind, (wp_collect _ _ _ _ job_for).
  { intros ss ys p p' Hp Hj Hne. destruct (Hj Hne) as (clients & ? & ?). exists clients. eauto using did_prefix. }
  { intros ss p Hss Hp. apply wp_bind. unfold findCASClient. destruct (decide _) as [He|Hne]; [by apply wp_ret; intros ?|].
    apply wp_do; [done|]. intros [cs|e]; [|apply wp_ret; intros _; eexists; (split; [auto with did|]); by intros].
    apply wp_ret. destruct (list_find _ cs) as [[i c]|] eqn:E; [cbn [fmap option_fmap option_map snd]; destruct (negb (c_CASSingleLogout c)) eqn:Hslo|]; apply wp_ret; intros _; exists (Ok cs);
      (split; [auto with did|]); intros cs' i' c' [= <-] Hf Hs; simplify_eq; [by rewrite Hs in Hslo|by left]. }
  intros past1 parts Hp1 Hparts. apply (wp_each _ _ _ _ told_service); [apply Htold_mono| |].
  { intros ss p _ Hp. apply wp_do; [done|]. intros []; [apply wp_ret; left; auto with did|].
    apply wp_frame. unfold sendCASLogout. wp_steps; try done; intros _; right.
    - right. do 4 eexists. auto with did.
    - left. eexists. split; [auto with did|]. by match goal with Hr : RandomToken _ = _ |- _ => rewrite Hr end. }
  intros past2 Hp2 Hsent. apply Hpost; [pre|].
  exists (Ok l). split; [eapply did_prefix; [|eapply did_prefix; [exact Hp1|apply did_last]]; done|]. intros l' [= <-] ss Hss Hne.
  apply list_elem_of_lookup in Hss as [i Hi]. destruct (Forall2_lookup_l _ _ _ _ _ Hparts Hi) as (ys & Hys & Hj).
  destruct (Hj Hne) as (clients & Hc & Hall). exists clients. split; [by eapply did_prefix|]. intros cs i' c Hok Hf Hslo. apply Hsent.
  apply list_elem_of_In, in_concat. exists ys. split; apply list_elem_of_In; [by eapply list_elem_of_lookup_2|by eapply Hall].
Qed.

Lemma services_told_mono current past past' : past `prefix_of` past' → services_told current past → services_told current past'.
Proof.
  intros Hp (listed & Hl & Hall). exists listed. split; [by eapply did_prefix|]. intros l Hok ss Hss Hne.
  destruct (Hall l Hok ss Hss Hne) as (clients & Hc & Ht). exists clients. split; [by eapply did_prefix|]. intros cs i c Hcs Hf Hslo.
  destruct (Ht cs i c Hcs Hf Hslo) as [?|[(rnd & ? & ?)|(id & n & pr & st & ?)]]; [left|right; left; exists rnd|right; right; exists id, n, pr, st]; eauto using did_prefix.
Qed.

Lemma wp_casLogout :
  wp logout_guard [] (casLogout cfg rq) (λ past r, anonymous rq past ∨ ∃ current, signed_in rq current past ∧ session_ended current past ∧ services_told current past).
Proof.
  unfold casLogout. cbv zeta. apply wp_bind, wp_current; [apply logout_read|]. intros past1 [current|] Hp1 Hin.
  - apply wp_do; [done|]. intros user. apply wp_bind, wp_services. intros past2 Hp2 Htold. apply wp_do; [done|]. intros a.
    apply wp_bind, wp_cleanup; [apply logout_ends|]. intros past3 Hp3 Hended.
    apply wp_bind, wp_findCASClient; [apply logout_read|]. intros past4 found Hp4 _. apply wp_ret. right. exists current.
    assert (past2 `prefix_of` past4) as Hp24 by (etrans; [|exact Hp4]; etrans; [|exact Hp3]; pre).
    unfold session_ended. split_and!; [eapply signed_in_mono; [|exact Hin]; etrans; [|exact Hp24]; etrans; [|exact Hp2]; pre|exists a|..].
    + eapply did_prefix; [exact Hp4|]. eapply did_prefix; [exact Hp3|]. apply did_last.
    + eapply tokens_revoked_mono; [exact Hp4|]. apply (Hended (s_ID current, s_UserID current)). by left.
    + intros Hne. eapply applications_told_mono; [exact Hp4|]. by apply (Hended (s_ID current, s_UserID current)); [left|].
    + by eapply services_told_mono.
  - apply wp_bind, wp_findCASClient; [apply logout_read|]. intros past2 found Hp2 _. apply wp_ret. left. by eapply anonymous_mono.
Qed.
End Handlers.

(** ** What the calls do to the grants *)

(** Every grant stored in [r] that [m] selects is revoked in [r']. *)
Definition grants_dead (m : Matches) (r r' : OAuthStore.MemoryRepository) : Prop :=
  (∀ i c, codes r !! i = Some c → owned_by m c = true →
     ∃ c', codes r' !! i = Some c' ∧ mac_code c' = mac_code c ∧ mac_revokedAt c' ≠ None) ∧
  (∀ i t, accessTokens r !! i = Some t → owned_by m t = true →
     ∃ t', accessTokens r' !! i = Some t' ∧ mat_token t' = mat_token t ∧ mat_revokedAt t' ≠ None) ∧
  (∀ i t, OAuthStore.refresh r !! i = Some t → owned_by m t = true →
     ∃ t', OAuthStore.refresh r' !! i = Some t' ∧ mrt_token t' = mrt_token t ∧ mrt_revokedAt t' ≠ None).

Lemma revoke_if_owned {T} `{Revocable T} m now (t : T) : owned_by m t = true → rv_revokedAt (revoke_if m now t) ≠ None.
Proof.
  unfold revoke_if, owned_by. intros Hm. rewrite Hm. simpl. case_bool_decide; [by rewrite rv_revoke_at|done].
Qed.

Lemma revocation_kills op m r1 r2 r3 :
  revocation op = Some m → (store_step r2 op).2 = RespUnit (Ok ()) → store_le r1 r2 → store_le (store_step r2 op).1 r3 → grants_dead m r1 r3.
Proof.
  intros Hop Hok H12 H23. destruct (revocation_tables r2 op m Hop Hok) as (now & Hc & Ha & Hr).
  split_and!.
  - intros i c Hi Hm. destruct (sl_codes _ _ H12 i c Hi) as (c2 & Hi2 & Hd2 & _).
    destruct (sl_codes _ _ H23 i (revoke_if m now c2)) as (c3 & Hi3 & Hd3 & _ & Hs3); [by rewrite Hc, list_lookup_fmap, Hi2|].
    exists c3. split; [done|]. split; [rewrite Hd3, <- Hd2; unfold revoke_if; by destruct (_ && _)|].
    apply Hs3. refine (revoke_if_owned m now c2 _). unfold owned_by in *. simpl in *. by rewrite Hd2.
  - intros i t Hi Hm. destruct (sl_access _ _ H12 i t Hi) as (t2 & Hi2 & Hd2 & _).
    destruct (sl_access _ _ H23 i (revoke_if m now t2)) as (t3 & Hi3 & Hd3 & Hs3); [by rewrite Ha, list_lookup_fmap, Hi2|].
    exists t3. split; [done|]. split; [rewrite Hd3, <- Hd2; unfold revoke_if; by destruct (_ && _)|].
    apply Hs3. refine (revoke_if_owned m now t2 _). unfold owned_by in *. simpl in *. by rewrite Hd2.
  - intros i t Hi Hm. destruct (sl_refresh _ _ H12 i t Hi) as (t2 & Hi2 & Hd2 & _).
    destruct (sl_refresh _ _ H23 i (revoke_if m now t2)) as (t3 & Hi3 & Hd3 & _ & Hs3); [by rewrite Hr, list_lookup_fmap, Hi2|].
    exists t3. split; [done|]. split; [rewrite Hd3, <- Hd2; unfold revoke_if; by destruct (_ && _)|].
    apply Hs3. refine (revoke_if_owned m now t2 _). unfold owned_by in *. simpl in *. by rewrite Hd2.
Qed.

(** A revocation made during a run kills the grants there were at its start. *)
Lemma runs_kill {A} rely (p : Prog A) w tr w' a op m x :
  (∀ w1 w2, rely w1 w2 → store_le (w_oauth w1) (w_oauth w2)) → runs rely p w tr w' a →
  revocation op = Some m → did (CStore op) x ∈ tr → store_resp op x = RespUnit (Ok ()) → grants_dead m (w_oauth w) (w_oauth w').
Proof.
  intros Hrely Hr Hop Hin Hx. destruct (runs_grows rely p w tr w' a Hrely Hr) as [_ Hall].
  destruct (Hall _ _ Hin) as (w1 & Hbefore & Hp & Hafter). simpl in Hp, Hafter. subst x. rewrite typed_step_resp in Hx. rewrite typed_step_state in Hafter.
  by eapply revocation_kills.
Qed.

(** ** The property *)

Inductive LogoutEndpoint := PageLogout | CasLogout | OidcLogout.
Definition logout_handler `{URLParser} (e : LogoutEndpoint) (rq : HttpRequest) : Prog Reply :=
  match e with PageLogout => logout cfg rq | CasLogout => casLogout cfg rq | OidcLogout => oidcLogout cfg rq end.

(** The grants of a session of a user. *)
Definition session_grants (current : Session) : Matches :=
  λ u s _, bool_decide (u = s_UserID current) && bool_decide (s = s_ID current).

End LogoutProps.
