(* ===== verification/CasSound.v ===== *)
(** The CAS endpoints as a whole, alone and running concurrently: tickets are justified,
    validations name the right user, and a ticket is accepted once. *)
From S2P Require Import Prelude GoStrings GoCrypto GoXml Cas OAuthStore OAuthStoreProps Session RateLimit Identity Client Authorize GoUrl Access AuditLog Http HttpWp Server Tokens TokensProps Browser BrowserProps AuthorizeEndpoint AuthorizeProps CasEndpoints CasProps LogoutProps.
Local Open Scope Z_scope.
Local Open Scope string_scope.

(** The endpoints, by the handler they are routed to. *)
Inductive CasEndpoint := ECasLogin | ECasValidate | ECasServiceValidate | ECasProxyValidate | ECasProxy | ECasLogout.

Section CasSound.
Context `{MapRange, UnicodeTables, MailParser, TokenSigner, URLParser} (cfg : Config).

Definition cas_handler (e : CasEndpoint) : HttpRequest → Prog Reply :=
  match e with
  | ECasLogin => casLogin
  | ECasValidate => casValidate
  | ECasServiceValidate => casServiceValidate
  | ECasProxyValidate => casProxyValidate
  | ECasProxy => casProxy
  | ECasLogout => casLogout cfg
  end.

Lemma logout_cas_guard rq past q : logout_guard past q → cas_guard rq past q.
Proof. unfold logout_guard. intros Hq. destruct q as []; try done. by destruct op. Qed.

Lemma wp_casLogout_sound rq : wp (cas_guard rq) [] (casLogout cfg rq) (sound_reply rq).
Proof.
  assert (∀ past, wp (cas_guard rq) past
    (bind (findCASClient (let target := Get (rq_Query rq) "service" in if decide (target = "") then Get (rq_Query rq) "url" else target))
       (λ found, Ret (with_cookies [cleared sessionCookieName] (redirect 302 (match found with
          Some _ => let target := Get (rq_Query rq) "service" in if decide (target = "") then Get (rq_Query rq) "url" else target | None => "/login" end)))))
    (sound_reply rq)) as Hfinish.
  { intros past. apply wp_bind, wp_findCASClient; [apply cas_guard_read|]. intros past' found _ Hfound. apply wp_ret. split; [|done].
    destruct found as [c|]; [right; exists c; by apply Hfound|by left]. }
  unfold casLogout. apply wp_bind, wp_current; [apply cas_guard_read|]. intros past1 [current|] Hp1 Hin; [|apply Hfinish].
  apply wp_do; [done|]. intros user. apply wp_bind.
  eapply wp_mono; [intros; by apply logout_cas_guard| |apply (wp_services _ _ _ (λ _ _, True)); by intros]. intros past2 [] _.
  apply wp_do; [done|]. intros a. apply wp_bind.
  eapply wp_mono; [intros; by apply logout_cas_guard| |apply (wp_cleanup cfg logout_guard logout_ends _ _ (λ _ _, True)); by intros].
  intros past3 [] _. apply Hfinish.
Qed.

Lemma wp_cas e rq : wp (cas_guard rq) [] (cas_handler e rq) (sound_reply rq).
Proof.
  destruct e; [apply wp_casLogin|apply wp_casValidate|apply wp_casServiceValidate|apply wp_casProxyValidate|apply wp_casProxy|apply wp_casLogout_sound].
Qed.


(** C10. A validation is honest, whatever happens between its calls: a document that names
    a user names the active user of a ticket that this very request consumed, for this
    very service; a proxy ticket that is handed out was saved; every other document is a
    failure. And the browser is only sent to a page of the site or to a service that an
    enabled CAS client has registered. *)
Theorem cas_validation_sound rely e rq w tr w' r :
  runs rely (cas_handler e rq) w tr w' r → sound_reply rq tr r.
Proof. intros Hr. exact (proj1 (wp_runs _ _ _ _ _ _ _ _ (wp_cas e rq) Hr)). Qed.

(** ** Concurrency *)

(** A validation of this ticket for this service. *)
Definition validates (ticket service : string) (e : CasEndpoint) (rq : HttpRequest) : Prop :=
  e ∈ [ECasValidate; ECasServiceValidate; ECasProxyValidate] ∧ Get (rq_Query rq) "ticket" = ticket ∧ Get (rq_Query rq) "service" = service.
#[global] Instance casEndpoint_eq_dec : EqDecision CasEndpoint.
Proof. solve_decision. Defined.
#[global] Instance validates_dec ticket service e rq : Decision (validates ticket service e rq).
Proof. unfold validates. apply _. Defined.

(** The reply names a user. *)
Definition is_success (t : Token) : bool := match t with Tag n => bool_decide (n = "cas:authenticationSuccess") | Chars _ => false end.
Definition yes_document (d : string) : bool :=
  HasPrefix d "yes" || existsb is_success (tokens d).
Definition names_user (ticket service : string) (th : Thread) : bool :=
  match replied th with
  | Some r => bool_decide (validates ticket service (th_endpoint th) (th_request th)) &&
              match re_Body r with TextBody d => yes_document d | _ => false end
  | None => false
  end.

Lemma chars_no_success l : chars_only l → existsb is_success l = false.
Proof. induction 1 as [|[] l Ht _ IH]; [done|by destruct Ht|done]. Qed.

Lemma failure_no kind code message :
  kind ∈ ["cas:authenticationFailure"; "cas:proxyFailure"] → yes_document (failure_document kind code message) = false.
Proof.
  intros Hk. destruct (tokens_failure kind code message Hk) as (l & Hl & Ht). unfold yes_document. rewrite Ht.
  rewrite !existsb_app, (chars_no_success l Hl).
  set_unfold. destruct Hk as [->|[->|[]]]; reflexivity.
Qed.

Lemma proxy_no ticket :
  yes_document (document (open "cas:proxySuccess" +:+ element "cas:proxyTicket" ticket +:+ open "/cas:proxySuccess")) = false.
Proof.
  destruct (whole_any_element "cas:proxyTicket" ticket) as (l & Hl & Hw); [by repeat constructor|].
  assert (whole (open "cas:proxySuccess" +:+ element "cas:proxyTicket" ticket +:+ open "/cas:proxySuccess")
    ([Tag "cas:proxySuccess"] ++ (Tag "cas:proxyTicket" :: l ++ [Tag ("/" +:+ "cas:proxyTicket")]) ++ [Tag "/cas:proxySuccess"])) as Hd.
  { apply whole_app; [apply whole_open; by repeat constructor|]. apply whole_app; [done|]. apply whole_open. by repeat constructor. }
  apply whole_document, whole_tokens in Hd. unfold yes_document. rewrite Hd.
  cbn [app existsb is_success]. rewrite <- !app_assoc, existsb_app, (chars_no_success l Hl). reflexivity.
Qed.

Lemma honest_accepted rq past d :
  honest rq past d → yes_document d = true → ∃ userID sessionID primary proxies, accepted rq userID sessionID primary proxies past.
Proof.
  destruct 1 as [|kind code message Hk|u s p user Ha|u s p proxies user attrs iou roles perms Ha|ticket v h Hd Hh]; intros Hy.
  - by vm_compute in Hy.
  - by rewrite failure_no in Hy.
  - by eexists _, _, _, _.
  - by eexists _, _, _, _.
  - by rewrite proxy_no in Hy.
Qed.

(** C11. A service ticket is accepted at most once, however many requests present it
    concurrently: in every execution of the server, with requests arriving at any time,
    their calls interleaved in any way with each other and with anything else that the
    ticket repository allows, at most one validation of a ticket for a service names a
    user. *)
Theorem cas_ticket_accepted_once ticket service w s :
  HasPrefix ticket "PT-" = false → rtc (server_step cas_handler) (w, []) s →
  (length (List.filter (names_user ticket service) s.2) ≤ 1)%nat.
Proof.
  intros Hpt Hr.
  eapply (accepted_once _ (ticket_win (HashToken ticket) service) (λ w, first_spent (HashToken ticket) service (tickets (w_cas w)))); [| |exact Hr|].
  - intros w1 w2 [_ Hle]. apply Hle.
  - intros w1 q. apply ticket_wins.
  - intros th Hf Hn. unfold names_user in Hn. destruct (replied th) as [r|] eqn:Er; [|done].
    apply andb_true_iff in Hn as [(_ & Ht & Hs)%bool_decide_eq_true Hy]. destruct (re_Body r) as [| | | | | |d|] eqn:Eb; try done.
    pose proof (replied_yields cas_handler th r Hf Er) as Hyields.
    apply (wp_yields _ _ _ _ _ _ (wp_cas (th_endpoint th) (th_request th))) in Hyields as [[_ Hhonest] _].
    apply (honest_accepted _ _ _ (Hhonest d Eb)) in Hy as (u & sid & p & l & [(now & t & Hin & _)|(now & t & Hprefix & _)]); [|congruence].
    eexists. split; [exact Hin|]. simpl. by rewrite Ht, Hs, bool_decide_true.
Qed.
End CasSound.
