(* ===== verification/SignIn.v ===== *)
(** Signing in: the login page, passwords, directories, identity providers, second factors
    and trusted devices ([internal/platform/http/auth.go], [mfa.go]). *)
From S2P Require Import Prelude GoStrings GoCrypto GoUrl Secrets UserCodes Cas Mfa OAuthStore Session RateLimit Identity Passwords Client Federation Authorize ReturnTo Access AuditLog Http Tokens Browser CasEndpoints Services Providers.
Local Open Scope Z_scope.
Local Open Scope string_scope.
Local Open Scope go_scope.

(** ** The login page *)

(** A source of identities to choose: its identifier, empty for that of the
    configuration, and its label. *)
Abbreviation SourceView := (string * string)%type (only parsing).

(** [internal/platform/http/auth.go:32-44] loginPageData *)
Record loginPageData := {
  lp_Client : option Client;
  lp_Methods : list string;
  lp_LDAPSources : list SourceView;
  lp_OIDCSources : list SourceView;
  lp_ReturnTo : string;
  lp_CSRFToken : string;
  lp_Error : string;
  lp_PasswordEnabled : bool;
  lp_RegistrationEnabled : bool;
  lp_Unavailable : bool;
}.

Definition lp_with_client (c : Client) (passwordEnabled : bool) (methods : list string) (p : loginPageData) : loginPageData :=
  {| lp_Client := Some c; lp_Methods := methods; lp_LDAPSources := lp_LDAPSources p; lp_OIDCSources := lp_OIDCSources p;
     lp_ReturnTo := lp_ReturnTo p; lp_CSRFToken := lp_CSRFToken p; lp_Error := lp_Error p; lp_PasswordEnabled := passwordEnabled;
     lp_RegistrationEnabled := lp_RegistrationEnabled p; lp_Unavailable := lp_Unavailable p |}.
Definition lp_unavailable (p : loginPageData) : loginPageData :=
  {| lp_Client := lp_Client p; lp_Methods := lp_Methods p; lp_LDAPSources := lp_LDAPSources p; lp_OIDCSources := lp_OIDCSources p;
     lp_ReturnTo := lp_ReturnTo p; lp_CSRFToken := lp_CSRFToken p; lp_Error := lp_Error p; lp_PasswordEnabled := lp_PasswordEnabled p;
     lp_RegistrationEnabled := lp_RegistrationEnabled p; lp_Unavailable := true |}.
(** One more way to sign in, with sources of directories and of providers. *)
Definition lp_add (label : string) (ldap oidc : list SourceView) (p : loginPageData) : loginPageData :=
  {| lp_Client := lp_Client p; lp_Methods := lp_Methods p ++ [label]; lp_LDAPSources := lp_LDAPSources p ++ ldap;
     lp_OIDCSources := lp_OIDCSources p ++ oidc; lp_ReturnTo := lp_ReturnTo p; lp_CSRFToken := lp_CSRFToken p; lp_Error := lp_Error p;
     lp_PasswordEnabled := lp_PasswordEnabled p; lp_RegistrationEnabled := lp_RegistrationEnabled p;
     lp_Unavailable := lp_Unavailable p |}%list.

(** What the template [login.html] is given. *)
Definition login_fields (p : loginPageData) : Claims :=
  let view (v : SourceView) := VObject [("ID", VString v.1); ("Label", VString v.2)] in
  let views (l : list SourceView) := VObject ((λ v, (v.1, view v)) <$> l) in
  <["Title" := VString "登录 Certus"]>
  (<["Client" := VString match lp_Client p with Some c => c_ID c | None => "" end]>
  (<["Methods" := VStrings (lp_Methods p)]> (<["LDAPSources" := views (lp_LDAPSources p)]>
  (<["OIDCSources" := views (lp_OIDCSources p)]> (<["ReturnTo" := VString (lp_ReturnTo p)]>
  (<["CSRFToken" := VString (lp_CSRFToken p)]> (<["Error" := VString (lp_Error p)]>
  (<["PasswordEnabled" := VBool (lp_PasswordEnabled p)]> (<["RegistrationEnabled" := VBool (lp_RegistrationEnabled p)]>
  {["Unavailable" := VBool (lp_Unavailable p)]}))))))))).

(** [internal/platform/http/server.go:594-605] loginMethodLabel *)
Definition loginMethodLabel (method : string) : string :=
  if decide (method = LoginPassword) then "账号密码"
  else if decide (method = LoginLDAP) then "企业 LDAP"
  else if decide (method = LoginOIDC) then "外部身份提供商"
  else method.

(** [internal/platform/http/auth.go:223-228] legacyLDAPLabel *)
Definition legacyLDAPLabel (ldap : LDAPConfig) : string :=
  if decide (TrimSpace (lc_Label ldap) ≠ "") then lc_Label ldap else loginMethodLabel LoginLDAP.

Definition allows (registered : option Client) (method : string) : bool :=
  match registered with None => true | Some c => Contains (c_LoginMethods c) method end.

(** [internal/platform/http/auth.go:153-192] populateLoginSources, one source: the page so far, and the
    sources bound to the client that were not met yet *)
Definition add_source (registered : option Client) (dynamicOnly : bool) (st : loginPageData * gset string) (source : Source)
    : loginPageData * gset string :=
  let '(page, bound) := st in
  if decide (sr_ArchivedAt source ≠ None) then (if decide (sr_ID source ∈ bound) then lp_unavailable page else page, bound)
  else if dynamicOnly && bool_decide (sr_ID source ∉ bound) then st
  else
    let bound := if dynamicOnly then bound ∖ {[sr_ID source]} else bound in
    if bool_decide (is_Some registered) && negb dynamicOnly then (page, bound)
    else if negb (match registered with
                  | None => true
                  | Some _ => bool_decide (sr_Type source = SourceLDAP) && allows registered LoginLDAP ||
                              bool_decide (sr_Type source = SourceOIDC) && allows registered LoginOIDC
                  end)
    then (lp_unavailable page, bound)
    else if negb (sr_Enabled source) then (lp_unavailable page, bound)
    else
      let view := [(sr_ID source, sr_Name source)] in
      (lp_add (sr_Name source) (if decide (sr_Type source = SourceLDAP) then view else [])
                               (if decide (sr_Type source = SourceOIDC) then view else []) page, bound).

Section SignIn.
Context `{HR : MapRange, HU : UnicodeTables, HM : MailParser, HS : TokenSigner, HP : URLParser, HH : HostParser, HA : Argon2, HF : LDAPFilter}.
Context (cfg : Config).

(** [internal/platform/http/auth.go:196-219] populateLoginSources, the sources of the configuration *)
Definition legacy_sources (registered : option Client) (page : loginPageData) : loginPageData :=
  let missing p := if decide (is_Some registered) then lp_unavailable p else p in
  let page :=
    if allows registered LoginLDAP then
      if LDAPEnabled (cfg_LDAP cfg)
      then lp_add (legacyLDAPLabel (cfg_LDAP cfg)) [("", legacyLDAPLabel (cfg_LDAP cfg))] [] page
      else missing page
    else page in
  if allows registered LoginOIDC then
    if OIDCEnabled (cfg_ExternalOIDC cfg)
    then lp_add (oc_Label (cfg_ExternalOIDC cfg)) [] [("", oc_Label (cfg_ExternalOIDC cfg))] page
    else missing page
  else page.

(** [internal/platform/http/auth.go:142-221] populateLoginSources, with the sources that are listed *)
Definition populateLoginSources (sources : list Source) (page : loginPageData) (registered : option Client) : loginPageData :=
  let ids := match registered with Some c => c_IdentitySourceIDs c | None => [] end in
  let dynamicOnly := bool_decide (ids ≠ []) in
  let '(page, bound) := foldl (add_source registered dynamicOnly) (page, list_to_set ids) sources in
  let page := if decide (bound ≠ ∅) then lp_unavailable page else page in
  if negb dynamicOnly then legacy_sources registered page else page.

(** [internal/platform/http/auth.go:97-135] newLoginPageData *)
Definition newLoginPageData (rq : HttpRequest) (returnTo csrfToken message : string) : Prog (option loginPageData) :=
  let page := {| lp_Client := None; lp_Methods := []; lp_LDAPSources := []; lp_OIDCSources := []; lp_ReturnTo := returnTo;
                 lp_CSRFToken := csrfToken; lp_Error := message; lp_PasswordEnabled := true;
                 lp_RegistrationEnabled := cfg_Registration cfg; lp_Unavailable := false |} in
  let with_sources page registered :=
    let* sources := CSourcesList in
    Ret match sources with Err _ => None | Ok sources => Some (populateLoginSources sources page registered) end in
  let clientID := Get (rq_Query rq) "client_id" in
  let clientID :=
    if decide (clientID = "")
    then match Parse returnTo with Some target => Get (location_Query target) "client_id" | None => "" end
    else clientID in
  if decide (clientID ≠ "") then
    let* found := CClientsFind clientID in
    match found with
    | Err _ => Ret None
    | Ok item =>
        if negb (c_Enabled item) || bool_decide (c_ArchivedAt item ≠ None) then Ret None
        else
          let enabled := Contains (c_LoginMethods item) LoginPassword in
          with_sources (lp_with_client item enabled (if enabled then [loginMethodLabel LoginPassword] else []) page) (Some item)
    end
  else with_sources (lp_add (loginMethodLabel LoginPassword) [] [] page) None.

(** Where to go after signing in. *)
Definition return_or_portal (value : string) : string :=
  let returnTo := validatedReturnTo value in if decide (returnTo = "") then "/portal" else returnTo.

(** The login page with a message, or the reply for an unknown client. *)
Definition login_page (rq : HttpRequest) (returnTo message : string) (unknown : Reply) : Prog Reply :=
  try+ csrf := ensureCSRF rq in
  let+ page := newLoginPageData rq returnTo csrf.1 message in
  Ret (with_cookies csrf.2 match page with
                           | None => unknown
                           | Some page => reply 200 (Page "login.html" (login_fields page))
                           end).

(** [internal/platform/http/auth.go:61-72] loginPage *)
Definition loginPage (rq : HttpRequest) : Prog Reply :=
  login_page rq (return_or_portal (Get (rq_Query rq) "continue")) "" (reply 400 (TextBody ("未知的接入系统" +:+ newline))).

(** [internal/platform/http/auth.go:583-590] renderLoginError *)
Definition renderLoginError (rq : HttpRequest) (returnTo message : string) : Prog Reply :=
  login_page rq returnTo message (writeProblem 400 "invalid_client" "未知的接入系统").

(** [internal/platform/http/auth.go:663-685] loginClient *)
Definition loginClient (returnTo : string) : Prog (option Client) :=
  match Parse returnTo with
  | None => Ret None
  | Some target =>
      if decide (lo_Path target = "/oauth2/authorize") then
        let* item := CClientsFind (Get (location_Query target) "client_id") in
        Ret match item with Ok item => Some item | Err _ => None end
      else if decide (lo_Path target = "/device") then
        let code := displayUserCode (Get (location_Query target) "user_code") in
        let* now := CNow in
        let* record := CFindDeviceByUserCode (HashToken (normalizeUserCode code)) now in
        match record with
        | Err _ => Ret None
        | Ok record =>
            let* item := CClientsFind (da_ClientID record) in
            Ret match item with Ok item => Some item | Err _ => None end
        end
      else if decide (lo_Path target = "/cas/login") then findCASClient (Get (location_Query target) "service")
      else Ret None
  end.

(** [internal/platform/http/auth.go:74-95] loginSuccessPage *)
Definition loginSuccessPage (rq : HttpRequest) : Prog Reply :=
  let returnTo := return_or_portal (Get (rq_Query rq) "continue") in
  let+ current := currentSession rq in
  match current with
  | None => Ret (redirect 302 ("/login?continue=" +:+ QueryEscape returnTo))
  | Some _ =>
      let+ registered := loginClient returnTo in
      Ret (reply 200 (Page "login-success.html"
        (<["Title" := VString "登录成功 · Certus"]> (<["Client" := VString match registered with Some c => c_ID c | None => "" end]>
         {["ReturnTo" := VString returnTo]}))))
  end.

(** ** Sessions *)

(** [internal/platform/http/auth.go:659-661] loginSuccessURL *)
Definition loginSuccessURL (returnTo : string) : string := "/login/success?continue=" +:+ QueryEscape returnTo.

(** [internal/platform/http/auth.go:616-657] createLoginSession *)
Definition createLoginSession (rq : HttpRequest) (user : User) (returnTo method clientID secondFactorMethod : string) : Prog Reply :=
  let authMethods := if decide (method = "oidc") then ["federated"] else ["pwd"] in
  let '(authMethods, assuranceLevel) :=
    if decide (secondFactorMethod = "") then (authMethods, "urn:certus:aal:1")
    else ((authMethods ++ [secondFactorMethod])%list, "urn:certus:aal:2") in
  let* created := CSessionsCreate (u_ID user) (rq_IPAddress rq) (rq_UserAgent rq) authMethods assuranceLevel in
  match created with
  | Err _ =>
      let+ _ := recordAudit rq (event (u_ID user) ("login." +:+ method) clientID OutcomeFailure
                                  {["reason" := VString "session_creation_failed"]}) in
      Ret (writeProblem 500 "server_error" "创建登录会话失败")
  | Ok created =>
      let+ _ := recordAudit rq (event (u_ID user) ("login." +:+ method) clientID OutcomeSuccess ∅) in
      Ret (with_cookie sessionCookieName created.2 (redirect 303 (loginSuccessURL returnTo)))
  end.

(** ** Second factors *)

(** [internal/platform/http/mfa.go:52-60] beginMFAChallenge, its claims *)
Definition mfa_claims (userID returnTo method clientID : string) (now : Time) : Claims :=
  <["purpose" := VString "mfa_login"]> (<["user_id" := VString userID]>
  (<["continue" := VString returnTo]> (<["method" := VString method]> (<["client_id" := VString clientID]>
  (<["iat" := VInt (Unix now)]> {["exp" := VInt (Unix (now + 5 * Minute)%Z)]}))))).

(** [internal/platform/http/mfa.go:50-75] beginMFAChallenge *)
Definition beginMFAChallenge (userID returnTo method clientID : string) : Prog Reply :=
  let* now := CNow in
  let* transaction := CSign (mfa_claims userID returnTo method clientID now) in
  match transaction with
  | Err _ => Ret (writeProblem 500 "server_error" "创建多因素认证请求失败")
  | Ok transaction => Ret (with_cookie mfaCookieName transaction (redirect 303 "/login/mfa"))
  end.

(** [internal/platform/http/mfa.go:190-206] setTrustedDeviceCookie: the cookie. *)
Definition setTrustedDeviceCookie (device : TrustedDeviceToken) : Prog (string * string) :=
  let* now := CNow in
  Ret (if decide (Z.quot (tt_ExpiresAt device - now) Second ≤ 0)%Z then cleared trustedDeviceCookieName
       else (trustedDeviceCookieName, tt_Token device)).

(** [internal/platform/http/mfa.go:160-188] completeLoginWithTrustedDevice: the reply, or the cookies that go
    with the challenge. *)
Definition completeLoginWithTrustedDevice (rq : HttpRequest) (user : User) (returnTo method clientID : string)
    : Prog (Reply + list (string * string)) :=
  match rq_Cookies rq !! trustedDeviceCookieName with
  | None => Ret (inr [])
  | Some cookie =>
      if decide (TrimSpace cookie = "") then Ret (inr [])
      else
        let+ used := mfa_UseTrustedDevice (u_ID user) cookie (rq_UserAgent rq) in
        match used with
        | Err _ => Ret (inr [])
        | Ok None => Ret (inr [cleared trustedDeviceCookieName])
        | Ok (Some replacement) =>
            let+ cookie := setTrustedDeviceCookie replacement in
            let+ _ := recordAudit rq (event (u_ID user) "login.mfa_trusted_device" clientID OutcomeSuccess ∅) in
            let+ r := createLoginSession rq user returnTo method clientID "trusted_device" in
            Ret (inl (with_cookies [cookie] r))
        end
  end.

(** [internal/platform/http/auth.go:592-614] completeLogin *)
Definition completeLogin (rq : HttpRequest) (user : User) (returnTo method clientID : string) : Prog Reply :=
  let+ required := mfa_RequiresChallenge (cfg_MFAService cfg) (u_ID user) in
  match required with
  | Err _ =>
      let+ _ := recordAudit rq (event (u_ID user) ("login." +:+ method) clientID OutcomeFailure
                                  {["reason" := VString "mfa_unavailable"]}) in
      Ret (writeProblem 503 "mfa_unavailable" "多因素认证暂时不可用，已拒绝降级登录")
  | Ok true =>
      try+ cookies := completeLoginWithTrustedDevice rq user returnTo method clientID in
      let+ r := beginMFAChallenge (u_ID user) returnTo method clientID in
      Ret (with_cookies cookies r)
  | Ok false => createLoginSession rq user returnTo method clientID ""
  end.

(** [internal/platform/http/mfa.go:220-247] mfaLoginTransaction: the user, the page to return to, the
    method and the client. *)
Definition mfaLoginTransaction (rq : HttpRequest) : Prog (option (string * string * string * string)) :=
  match rq_Cookies rq !! mfaCookieName with
  | None => Ret None
  | Some cookie =>
      let* claims := CVerify cookie in
      match claims with
      | Err _ => Ret None
      | Ok claims =>
          let userID := claim_string claims "user_id" in
          let returnTo := claim_string claims "continue" in
          let method := claim_string claims "method" in
          let* now := CNow in
          let now := Unix now in
          if decide (claim_string claims "purpose" ≠ "mfa_login" ∨ ValidUserID userID = false ∨ validatedReturnTo returnTo = "" ∨
                     method ∉ ["password"; "ldap"; "oidc"] ∨ claim_int claims "exp" ≤ now ∨ now + 30 < claim_int claims "iat")%Z
          then Ret None
          else Ret (Some (userID, returnTo, method, claim_string claims "client_id"))
      end
  end.

Definition invalid_transaction : Reply :=
  with_cookies [cleared mfaCookieName] (writeProblem 400 "invalid_login_transaction" "多因素认证请求无效或已过期").

Definition mfa_page (message : string) (rememberDevice : bool) : Claims :=
  <["Title" := VString "多因素认证 · Certus"]> (<["Error" := VString message]> {["RememberDevice" := VBool rememberDevice]}).

(** [internal/platform/http/mfa.go:77-87] mfaLoginPage *)
Definition mfaLoginPage (rq : HttpRequest) : Prog Reply :=
  let+ transaction := mfaLoginTransaction rq in
  match transaction with
  | None => Ret invalid_transaction
  | Some _ => render rq "mfa.html" (mfa_page "" false)
  end.

(** [internal/platform/http/mfa.go:112-117] mfaLoginVerify, the message of an error *)
Definition mfa_message (e : mfaError) : string :=
  match e with
  | ErrLocked => "验证失败次数过多，请稍后重试"
  | ErrReplay => "该动态口令已使用，请等待下一个口令"
  | _ => "动态口令或恢复码不正确"
  end.
Definition is_locked (e : mfaError) : bool := match e with ErrLocked => true | _ => false end.
Definition is_replay (e : mfaError) : bool := match e with ErrReplay => true | _ => false end.

(** [internal/platform/http/mfa.go:140-149] mfaLoginVerify, a device to be trusted: its cookie *)
Definition remember_device (rq : HttpRequest) (rememberDevice : bool) (userID : string) : Prog (option (string * string)) :=
  if rememberDevice then
    let+ remembered := mfa_RememberDevice userID (rq_UserAgent rq) in
    match remembered with
    | Err _ => Ret None
    | Ok device => let+ cookie := setTrustedDeviceCookie device in Ret (Some cookie)
    end
  else Ret None.

(** [internal/platform/http/mfa.go:109-157] mfaLoginVerify, the code *)
Definition verify_login_code (rq : HttpRequest) (form : Values) (userID returnTo method clientID : string) : Prog Reply :=
  let+ verified := mfa_Verify (cfg_MFAService cfg) userID (Get form "code") in
  let rememberDevice := bool_decide (Get form "remember_device" = "on") in
  match verified with
  | Err e =>
      let+ _ := recordAudit rq (event userID "login.mfa" clientID OutcomeFailure
                                  (<["locked" := VBool (is_locked e)]> {["replay" := VBool (is_replay e)]})) in
      render rq "mfa.html" (mfa_page (mfa_message e) rememberDevice)
  | Ok _ =>
      let* user := CUsersFind userID in
      let refused := with_cookies [cleared mfaCookieName] (writeProblem 401 "unauthorized" "账号当前不可登录") in
      match user with
      | Err _ => Ret refused
      | Ok user =>
          if decide (u_Status user ≠ UserActive) then Ret refused
          else
            let+ cookie := remember_device rq rememberDevice userID in
            let+ _ := recordAudit rq (event userID "login.mfa" clientID OutcomeSuccess
                                        {["remember_device" := VBool (bool_decide (is_Some cookie))]}) in
            let+ r := createLoginSession rq user returnTo method clientID "otp" in
            Ret (with_cookies (cleared mfaCookieName :: option_list cookie) r)
      end
  end.

(** [internal/platform/http/mfa.go:89-158] mfaLoginVerify *)
Definition mfaLoginVerify (rq : HttpRequest) : Prog Reply :=
  match ParseForm rq with
  | None => Ret (writeProblem 400 "invalid_request" "多因素认证请求无效")
  | Some (_, form) =>
      if negb (validCSRF (Get form "csrf_token") rq)
      then Ret (writeProblem 400 "invalid_csrf" "验证页面已失效，请刷新后重试")
      else
        let+ transaction := mfaLoginTransaction rq in
        match transaction with
        | None => Ret invalid_transaction
        | Some (userID, returnTo, method, clientID) =>
            try+ _ := allowMFAAttempt cfg rq userID in
            verify_login_code rq form userID returnTo method clientID
        end
  end.

(** ** Passwords *)

(** The identifier of the client that a sign-in is for. *)
Definition client_id (registered : option Client) : string := match registered with Some c => c_ID c | None => "" end.

(** [internal/platform/http/auth.go:256-274] loginPassword, the password *)
Definition login_with_password (rq : HttpRequest) (form : Values) (returnTo clientID : string) : Prog Reply :=
  let+ user := passwords_Authenticate (Get form "username") (Get form "password") in
  match user with
  | Err e =>
      let locked := match e with ErrCredentialLocked => true | _ => false end in
      let+ _ := recordAudit rq (event "" "login.password" clientID OutcomeFailure
        (<["username" := VString (ToLower (TrimSpace (Get form "username")))]> {["locked" := VBool locked]})) in
      renderLoginError rq returnTo (if locked then "登录失败次数过多，请稍后重试" else "用户名或密码不正确")
  | Ok user => completeLogin rq user returnTo "password" clientID
  end.

(** [internal/platform/http/auth.go:230-275] loginPassword *)
Definition loginPassword (rq : HttpRequest) : Prog Reply :=
  match ParseForm rq with
  | None => Ret (writeProblem 400 "invalid_request" "登录请求无效")
  | Some (_, form) =>
      let returnTo := return_or_portal (Get form "continue") in
      if negb (validCSRF (Get form "csrf_token") rq)
      then Ret (writeProblem 400 "invalid_csrf" "登录页面已失效，请刷新后重试")
      else
        let+ registered := loginClient returnTo in
        if negb (allows registered LoginPassword)
        then Ret (writeProblem 400 "login_method_not_allowed" "此系统未启用账号密码登录")
        else
          try+ _ := allowLoginAttempt cfg rq (Get form "username") in
          login_with_password rq form returnTo (client_id registered)
  end.

(** ** Sources of identities *)

(** [internal/platform/http/auth.go:513-535] allowClientIdentitySource *)
Definition allowClientIdentitySource (registered : option Client) (sourceID method : string) : Res sourceError unit :=
  match registered with
  | None => Ok ()
  | Some c =>
      if negb (Contains (c_LoginMethods c) method) then Err (ErrInvalidSource "login method is not allowed")
      else if decide (sourceID = "") then
        if decide (c_IdentitySourceIDs c ≠ []) then Err (ErrInvalidSource "legacy identity source is not bound to client") else Ok ()
      else if decide (c_IdentitySourceIDs c = []) then Err (ErrInvalidSource "identity source is not bound to client")
      else if negb (Contains (c_IdentitySourceIDs c) sourceID) then Err (ErrInvalidSource "identity source is not bound to client")
      else Ok ()
  end.

(** [internal/platform/http/auth.go:474-489] ldapAuthenticatorForLogin *)
Definition ldapAuthenticatorForLogin (sourceID : string) (registered : option Client) : Prog (Res sourceError LDAPConfig) :=
  match allowClientIdentitySource registered sourceID LoginLDAP with
  | Err e => Ret (Err e)
  | Ok _ =>
      if decide (sourceID = "")
      then Ret (if LDAPEnabled (cfg_LDAP cfg) then Ok (cfg_LDAP cfg) else Err ErrSourceDisabled)
      else let* source := CSourcesFind sourceID in Ret (LDAPAuthenticator (cfg_SourceKeyRing cfg) source)
  end.

Definition oidc_callback : string := cfg_Issuer cfg +:+ "/login/oidc/callback".

(** [internal/platform/http/auth.go:491-511] oidcAuthenticatorForLogin *)
Definition oidcAuthenticatorForLogin (sourceID : string) (registered : option Client) : Prog (Res sourceError OIDCAuthenticator_) :=
  match allowClientIdentitySource registered sourceID LoginOIDC with
  | Err e => Ret (Err e)
  | Ok _ =>
      if decide (sourceID = "")
      then Ret (if OIDCEnabled (cfg_ExternalOIDC cfg)
                then Ok {| oa_config := cfg_ExternalOIDC cfg; oa_redirectURL := oidc_callback; oa_kept := true |}
                else Err ErrSourceDisabled)
      else
        let* source := CSourcesFind sourceID in
        Ret match OIDCAuthenticator (cfg_SourceKeyRing cfg) source with
            | Err e => Err e
            | Ok config => Ok {| oa_config := config; oa_redirectURL := oidc_callback; oa_kept := false |}
            end
  end.

(** [internal/platform/http/auth.go:537-550] writeLoginSourceError: a panic for a source whose
    settings are missing. *)
Definition writeLoginSourceError (e : sourceError) (sourceType : string) : Reply :=
  match e with
  | ErrInvalidSource _ => writeProblem 400 "login_method_not_allowed" "此系统未启用所选身份源"
  | ErrSourceEncryptionUnavailable => writeProblem 503 "identity_source_unavailable" "身份源密钥暂时无法解密"
  | ErrSourceNotFound | ErrSourceArchived | ErrSourceDisabled =>
      writeProblem 503 "login_method_unavailable" (sourceType +:+ " 身份源不可用")
  | SourcePanic => panicked
  | _ => writeProblem 500 "server_error" "读取身份源失败"
  end.

(** [internal/platform/http/auth.go:455-471] loginOIDCCallback, the user of a profile: synchronised, and
    refused when not active; [loginLDAP] ends in the same way. *)
Definition login_external (rq : HttpRequest) (profile : ExternalProfile) (returnTo method clientID unsynchronized : string) : Prog Reply :=
  let* now := CNow in
  let* user := CUsersResolve profile now in
  match user with
  | Err _ => renderLoginError rq returnTo unsynchronized
  | Ok user =>
      if decide (u_Status user ≠ UserActive) then renderLoginError rq returnTo "账号当前不可登录"
      else completeLogin rq user returnTo method clientID
  end.

(** [internal/platform/http/auth.go:308-340] loginLDAP, with an authenticator *)
Definition login_with_ldap (rq : HttpRequest) (form : Values) (config : LDAPConfig) (sourceID returnTo clientID : string) : Prog Reply :=
  try+ _ := allowLoginAttempt cfg rq (Get form "username") in
  let+ profile := ldap_Authenticate config (Get form "username") (Get form "password") in
  match profile with
  | Err e =>
      let+ _ := recordAudit rq (event "" "login.ldap" clientID OutcomeFailure
        (<["username" := VString (TrimSpace (Get form "username"))]> {["source_id" := VString sourceID]})) in
      renderLoginError rq returnTo match e with
                                   | ExternalUnavailable => "LDAP 身份源暂时不可用，请稍后重试"
                                   | ExternalInvalidCredentials => "LDAP 用户名或密码不正确"
                                   end
  | Ok profile => login_external rq profile returnTo "ldap" clientID "无法同步 LDAP 账号"
  end.

(** [internal/platform/http/auth.go:277-341] loginLDAP *)
Definition loginLDAP (rq : HttpRequest) : Prog Reply :=
  match ParseForm rq with
  | None => Ret (writeProblem 400 "invalid_request" "登录请求无效")
  | Some (_, form) =>
      let returnTo := return_or_portal (Get form "continue") in
      if negb (validCSRF (Get form "csrf_token") rq)
      then Ret (writeProblem 400 "invalid_csrf" "登录页面已失效，请刷新后重试")
      else
        let sourceID := TrimSpace (Get form "source_id") in
        let+ registered := loginClient returnTo in
        if negb (allows registered LoginLDAP)
        then Ret (writeProblem 400 "login_method_not_allowed" "此系统未启用 LDAP 登录")
        else
          let+ authenticator := ldapAuthenticatorForLogin sourceID registered in
          match authenticator with
          | Err e => Ret (writeLoginSourceError e "LDAP")
          | Ok config => login_with_ldap rq form config sourceID returnTo (client_id registered)
          end
  end.

Definition cannot_start : Reply := writeProblem 500 "server_error" "创建外部登录请求失败".

(** [security.RandomToken], drawn by a handler. *)
Definition random_token : Prog (Reply + string) :=
  let* rnd := CRandom in Ret match RandomToken rnd with Ok token => inr token | Err _ => inl cannot_start end.

(** [internal/platform/http/auth.go:382-391] loginOIDC, the claims of the transaction *)
Definition oidc_claims (state nonce verifier returnTo sourceID : string) (now : Time) : Claims :=
  <["purpose" := VString "external_oidc"]> (<["state" := VString state]> (<["nonce" := VString nonce]>
  (<["verifier" := VString verifier]> (<["continue" := VString returnTo]> (<["source_id" := VString sourceID]>
  (<["iat" := VInt (Unix now)]> {["exp" := VInt (Unix (now + 5 * Minute)%Z)]})))))).

(** [internal/platform/http/auth.go:363-411] loginOIDC, with an authenticator *)
Definition start_oidc (rq : HttpRequest) (authenticator : OIDCAuthenticator_) (returnTo sourceID : string) : Prog Reply :=
  try+ _ := allowLoginSource cfg rq "login.oidc_source" in
  try+ state := random_token in
  try+ nonce := random_token in
  try+ verifier := random_token in
  let* now := CNow in
  let* transaction := CSign (oidc_claims state nonce verifier returnTo sourceID now) in
  match transaction with
  | Err _ => Ret cannot_start
  | Ok transaction =>
      let+ target := AuthorizationURL authenticator state nonce verifier in
      match target with
      | Err _ => Ret (writeProblem 502 "identity_provider_unavailable" "外部身份提供商暂时不可用")
      | Ok target => Ret (with_cookie externalOIDCCookieName transaction (redirect 302 target))
      end
  end.

(** [internal/platform/http/auth.go:343-412] loginOIDC *)
Definition loginOIDC (rq : HttpRequest) : Prog Reply :=
  let returnTo := return_or_portal (Get (rq_Query rq) "continue") in
  let sourceID := TrimSpace (Get (rq_Query rq) "source_id") in
  let+ registered := loginClient returnTo in
  if negb (allows registered LoginOIDC)
  then Ret (writeProblem 400 "login_method_not_allowed" "此系统未启用外部身份提供商登录")
  else
    let+ authenticator := oidcAuthenticatorForLogin sourceID registered in
    match authenticator with
    | Err e => Ret (writeLoginSourceError e "OIDC")
    | Ok authenticator => start_oidc rq authenticator returnTo sourceID
    end.

(** [internal/platform/http/auth.go:552-569] validExternalOIDCClaims *)
Definition validExternalOIDCClaims (claims : Claims) (state : string) : Prog bool :=
  let* now := CNow in
  let now := Unix now in
  Ret (bool_decide (claim_string claims "purpose" = "external_oidc" ∧ state ≠ "" ∧ claim_string claims "state" = state ∧
         claim_string claims "nonce" ≠ "" ∧ claim_string claims "verifier" ≠ "" ∧
         validatedReturnTo (claim_string claims "continue") ≠ "" ∧
         now < claim_int claims "exp" ∧ claim_int claims "iat" ≤ now + 30)%Z).

(** [internal/platform/http/auth.go:429-471] loginOIDCCallback, with the claims of the transaction *)
Definition finish_oidc (rq : HttpRequest) (claims : Claims) : Prog Reply :=
  let returnTo := claim_string claims "continue" in
  let+ registered := loginClient returnTo in
  let+ authenticator := oidcAuthenticatorForLogin (claim_string claims "source_id") registered in
  match authenticator with
  | Err e => Ret (writeLoginSourceError e "OIDC")
  | Ok authenticator =>
      if decide (Get (rq_Query rq) "error" ≠ "") then renderLoginError rq returnTo "外部身份提供商未完成登录"
      else
        let+ profile := oidc_Exchange authenticator (Get (rq_Query rq) "code") (claim_string claims "nonce") (claim_string claims "verifier") in
        match profile with
        | Err _ => renderLoginError rq returnTo "外部身份验证失败"
        | Ok profile => login_external rq profile returnTo "oidc" (client_id registered) "无法同步外部身份账号"
        end
  end.

(** [internal/platform/http/auth.go:414-472] loginOIDCCallback *)
Definition loginOIDCCallback (rq : HttpRequest) : Prog Reply :=
  let done := with_cookies [cleared externalOIDCCookieName] in
  match rq_Cookies rq !! externalOIDCCookieName with
  | None => Ret (done (writeProblem 400 "invalid_login_transaction" "外部登录请求已失效"))
  | Some cookie =>
      let* claims := CVerify cookie in
      let invalid := done (writeProblem 400 "invalid_login_transaction" "外部登录请求无效或已过期") in
      match claims with
      | Err _ => Ret invalid
      | Ok claims =>
          let+ valid := validExternalOIDCClaims claims (Get (rq_Query rq) "state") in
          if negb valid then Ret invalid else let+ r := finish_oidc rq claims in Ret (done r)
      end
  end.
End SignIn.
