(* ===== verification/SignInProps.v ===== *)
(** What signing in guarantees, whatever happens between its calls: a session is created,
    and a challenge signed, only after the checks of a first factor; a session of the
    higher assurance only after a second factor; and none of the lower assurance for a
    user who enrolled one. *)
From S2P Require Import Prelude GoStrings GoCrypto GoUrl Secrets UserCodes Cas Mfa OAuthStore Session RateLimit Identity Passwords Client Federation Authorize ReturnTo Access AuditLog Http HttpWp Tokens TokensProps Browser BrowserProps CasEndpoints Services Providers SignIn.
Local Open Scope Z_scope.
Local Open Scope string_scope.

(** Calls that neither create a session nor sign. *)
Definition is_free (q : Call) : bool := match q with CSessionsCreate _ _ _ _ _ | CSign _ => false | _ => true end.

Lemma plain_free q : is_plain q = true → is_free q = true.
Proof. by destruct q. Qed.

Section Evidence.
Context `{HR : MapRange, HU : UnicodeTables, HM : MailParser, HS : TokenSigner, HP : URLParser, HH : HostParser, HA : Argon2, HF : LDAPFilter}.
Context (cfg : Config).

(** ** First factors *)

Definition ok_of {E A} (r : Res E A) : option A := match r with Ok a => Some a | Err _ => None end.

(** The client that a sign-in which returns to this page is for. *)
Definition client_of (returnTo : string) (registered : option Client) (past : list Did) : Prop :=
  match Parse returnTo with
  | None => registered = None
  | Some target =>
      let query := location_Query target in
      if decide (lo_Path target = "/oauth2/authorize")
      then ∃ item, did (CClientsFind (Get query "client_id")) item ∈ past ∧ registered = ok_of item
      else if decide (lo_Path target = "/device")
      then ∃ now record, did (CFindDeviceByUserCode (HashToken (normalizeUserCode (displayUserCode (Get query "user_code")))) now) record ∈ past ∧
             match record with
             | Err _ => registered = None
             | Ok record => ∃ item, did (CClientsFind (da_ClientID record)) item ∈ past ∧ registered = ok_of item
             end
      else if decide (lo_Path target = "/cas/login")
      then ∀ c, registered = Some c → serves_service (Get query "service") c ∧ ∃ clients, did CClientsList (Ok clients) ∈ past ∧ c ∈ clients
      else registered = None
  end.

(** The password of the form is that of this active user, whose account is not locked. *)
Definition password_right (username password userID : string) (past : list Did) : Prop :=
  ∃ user credential now upgrade, did CNow now ∈ past ∧ did (CPasswordFind (ToLower (TrimSpace username))) (Ok (user, credential)) ∈ past ∧
    u_ID user = userID ∧ u_Status user = UserActive ∧ (∀ t, pc_LockedUntil credential = Some t → After t now = false) ∧
    verifyStoredPassword (pc_Hash credential) password now = Ok (true, upgrade).

(** The profile is that of the only entry of the directory with this name, which accepts
    the password. *)
Definition directory_accepts (config : LDAPConfig) (username password : string) (profile : ExternalProfile) (past : list Did) : Prop :=
  ∃ entry attributes, TrimSpace username ≠ "" ∧ password ≠ "" ∧
    did (CLdapSearch (lc_URL config) (lc_BaseDN config) (user_filter config (TrimSpace username)) attributes) (Some [entry]) ∈ past ∧
    did (CLdapBind (lc_URL config) (en_DN entry) password) true ∈ past ∧ profile = ldap_profile config (TrimSpace username) entry.

(** The profile is that of an ID token which the provider gave for the code, made for this
    sign-in. *)
Definition provider_vouches (a : OIDCAuthenticator_) (code nonce verifier : string) (profile : ExternalProfile) (past : list Did) : Prop :=
  ∃ config raw idToken claims, oc_Issuer config = oc_Issuer (oa_config a) ∧ oc_ClientID config = oc_ClientID (oa_config a) ∧
    did (COIDCExchange config (oa_redirectURL a) code verifier) (Some (Some raw)) ∈ past ∧
    did (COIDCVerify (oc_Issuer config) (oc_ClientID config) raw) (Some idToken) ∈ past ∧
    nonce ≠ "" ∧ it_Nonce idToken = nonce ∧ it_Claims idToken = Some claims ∧ profile = oidc_profile a claims.

(** The account of a profile, active. *)
Definition account_of (profile : ExternalProfile) (userID : string) (past : list Did) : Prop :=
  ∃ now user, did (CUsersResolve profile now) (Ok user) ∈ past ∧ u_ID user = userID ∧ u_Status user = UserActive.

(** The settings of a source that the client may use: those of the configuration, or of a
    source that is enabled and not archived. *)
Definition ldap_source (registered : option Client) (sourceID : string) (config : LDAPConfig) (past : list Did) : Prop :=
  allowClientIdentitySource registered sourceID LoginLDAP = Ok () ∧
  (sourceID = "" ∧ config = cfg_LDAP cfg ∨
   ∃ source, did (CSourcesFind sourceID) source ∈ past ∧ LDAPAuthenticator (cfg_SourceKeyRing cfg) source = Ok config).
Definition oidc_source (registered : option Client) (sourceID : string) (a : OIDCAuthenticator_) (past : list Did) : Prop :=
  allowClientIdentitySource registered sourceID LoginOIDC = Ok () ∧
  (sourceID = "" ∧ oa_config a = cfg_ExternalOIDC cfg ∨
   ∃ source, did (CSourcesFind sourceID) source ∈ past ∧ OIDCAuthenticator (cfg_SourceKeyRing cfg) source = Ok (oa_config a)).

(** The form comes from a page of the site, and these attempts were let pass. *)
Definition form_of (rq : HttpRequest) (form : Values) : Prop :=
  ∃ body, ParseForm rq = Some (body, form) ∧ validCSRF (Get form "csrf_token") rq = true.
Definition login_attempt (rq : HttpRequest) (username : string) (past : list Did) : Prop :=
  allowed "login.source" (subject_of (rq_IPAddress rq)) past ∧
  allowed "login.identity" (if decide (ToLower (TrimSpace username) = "") then "<empty>" else ToLower (TrimSpace username)) past.

Definition first_password (rq : HttpRequest) (userID : string) (past : list Did) : Prop :=
  ∃ form registered, form_of rq form ∧ client_of (return_or_portal (Get form "continue")) registered past ∧
    allows registered LoginPassword = true ∧ login_attempt rq (Get form "username") past ∧
    password_right (Get form "username") (Get form "password") userID past.
Definition first_ldap (rq : HttpRequest) (userID : string) (past : list Did) : Prop :=
  ∃ form registered config profile, form_of rq form ∧ client_of (return_or_portal (Get form "continue")) registered past ∧
    allows registered LoginLDAP = true ∧ ldap_source registered (TrimSpace (Get form "source_id")) config past ∧
    login_attempt rq (Get form "username") past ∧
    directory_accepts config (Get form "username") (Get form "password") profile past ∧ account_of profile userID past.
(** The browser started this sign-in: its cookie holds what the server signed, with the
    [state] of the query, and has not expired. *)
Definition first_oidc (rq : HttpRequest) (userID : string) (past : list Did) : Prop :=
  ∃ cookie claims now registered a profile, rq_Cookies rq !! externalOIDCCookieName = Some cookie ∧
    did (CVerify cookie) (Ok claims) ∈ past ∧ claim_string claims "purpose" = "external_oidc" ∧
    Get (rq_Query rq) "state" ≠ "" ∧ claim_string claims "state" = Get (rq_Query rq) "state" ∧
    did CNow now ∈ past ∧ Unix now < claim_int claims "exp" ∧
    client_of (claim_string claims "continue") registered past ∧ oidc_source registered (claim_string claims "source_id") a past ∧
    provider_vouches a (Get (rq_Query rq) "code") (claim_string claims "nonce") (claim_string claims "verifier") profile past ∧
    account_of profile userID past.

Definition first_factor (rq : HttpRequest) (method userID : string) (past : list Did) : Prop :=
  method = "password" ∧ first_password rq userID past ∨ method = "ldap" ∧ first_ldap rq userID past ∨
  method = "oidc" ∧ first_oidc rq userID past.

(** ** Second factors *)

Definition not_enrolled (userID : string) (past : list Did) : Prop :=
  did (CMfaFind userID) (Err MfaNotFound) ∈ past ∨ ∃ c, did (CMfaFind userID) (Ok c) ∈ past ∧ cr_Enabled c = false.

(** A one-time password or a recovery code of the form was used up. *)
Definition code_used (code userID : string) (past : list Did) : Prop :=
  ∃ credential, did (CMfaFind userID) (Ok credential) ∈ past ∧ cr_Enabled credential = true ∧
    ((∃ now step, matchTOTP (cfg_MFAService cfg) credential (normalizeCode code) now = Ok step ∧ did (CMfaUseTOTP userID step) (Ok ()) ∈ past) ∨
     did (CMfaUseRecoveryCode userID (hashRecoveryCode (normalizeCode code))) (Ok ()) ∈ past).

(** The trusted device of the cookie was replaced. *)
Definition device_used (rq : HttpRequest) (userID : string) (past : list Did) : Prop :=
  ∃ cookie replacement now expires, rq_Cookies rq !! trustedDeviceCookieName = Some cookie ∧
    did (CMfaRotateDevice userID (HashToken cookie) replacement (HashToken (TrimSpace (rq_UserAgent rq))) now) (Ok expires) ∈ past.

(** The cookie holds a challenge that the server signed for this user. *)
Definition challenged (rq : HttpRequest) (method userID : string) (past : list Did) : Prop :=
  ∃ cookie claims now, rq_Cookies rq !! mfaCookieName = Some cookie ∧ did (CVerify cookie) (Ok claims) ∈ past ∧ did CNow now ∈ past ∧
    claim_string claims "purpose" = "mfa_login" ∧ claim_string claims "user_id" = userID ∧ claim_string claims "method" = method ∧
    Unix now < claim_int claims "exp".

(** The account of the challenge is active, and a code of it was used up. *)
Definition second_code (rq : HttpRequest) (method userID : string) (past : list Did) : Prop :=
  ∃ accountID user, did (CUsersFind accountID) (Ok user) ∈ past ∧ u_Status user = UserActive ∧ u_ID user = userID ∧
  challenged rq method accountID past ∧ allowed "mfa.source" (subject_of (rq_IPAddress rq)) past ∧
  allowed "mfa.identity" (subject_of accountID) past ∧ ∃ form, form_of rq form ∧ code_used (Get form "code") accountID past.

(** ** What is guaranteed *)

Definition first_methods (method : string) : list string := if decide (method = "oidc") then ["federated"] else ["pwd"].

(** The session of a sign-in. *)
Definition session_justified (rq : HttpRequest) (userID : string) (methods : list string) (level : string) (past : list Did) : Prop :=
  ∃ method,
    level = "urn:certus:aal:1" ∧ methods = first_methods method ∧ first_factor rq method userID past ∧ not_enrolled userID past ∨
    level = "urn:certus:aal:2" ∧
    (methods = (first_methods method ++ ["trusted_device"])%list ∧ first_factor rq method userID past ∧ device_used rq userID past ∨
     methods = (first_methods method ++ ["otp"])%list ∧ second_code rq method userID past).

Definition sign_in_guard (rq : HttpRequest) (past : list Did) (q : Call) : Prop :=
  match q with
  | CSessionsCreate userID ip agent methods level =>
      ip = rq_IPAddress rq ∧ agent = rq_UserAgent rq ∧ session_justified rq userID methods level past
  | CSign claims =>
      claim_string claims "purpose" = "mfa_login" →
      first_factor rq (claim_string claims "method") (claim_string claims "user_id") past
  | _ => True
  end.

(** The reply only opens sessions that were created. *)
Definition opened (past : list Did) (token : string) : Prop :=
  ∃ userID ip agent methods level s, did (CSessionsCreate userID ip agent methods level) (Ok (s, token)) ∈ past.
Definition sessions_opened (past : list Did) (r : Reply) : Prop := ∀ token, token ∈ session_tokens r → opened past token.

Lemma opened_none past r : session_tokens r = [] → sessions_opened past r.
Proof. intros Hr token. by rewrite Hr, elem_of_nil. Qed.
Lemma opened_other past l r : other_cookies l → sessions_opened past r → sessions_opened past (with_cookies l r).
Proof. intros Hl Hr token. rewrite session_tokens_with, other_cookies_none by done. rewrite app_nil_r. apply Hr. Qed.

(** ** Later calls keep the evidence *)

Lemma client_of_mono returnTo c past past' : past `prefix_of` past' → client_of returnTo c past → client_of returnTo c past'.
Proof.
  unfold client_of. intros Hp. destruct (Parse returnTo) as [target|]; [|done]. cbv zeta. case_decide; [|case_decide; [|case_decide; [|done]]].
  - intros (item & ? & ?). exists item. eauto using did_prefix.
  - intros (now & record & ? & Hrec). exists now, record. split; [eauto using did_prefix|]. destruct record as [record|]; [|done].
    destruct Hrec as (item & ? & ?). exists item. eauto using did_prefix.
  - intros Hc c' Heq. destruct (Hc c' Heq) as (? & clients & ? & ?). split; [done|]. exists clients. eauto using did_prefix.
Qed.
Lemma password_right_mono u p i past past' : past `prefix_of` past' → password_right u p i past → password_right u p i past'.
Proof. intros Hp (user & c & now & up & He). destruct_and! He. exists user, c, now, up. split_and!; eauto using did_prefix. Qed.
Lemma account_of_mono p i past past' : past `prefix_of` past' → account_of p i past → account_of p i past'.
Proof. intros Hp (now & user & He). destruct_and! He. exists now, user. split_and!; eauto using did_prefix. Qed.
Lemma ldap_source_mono r i c past past' : past `prefix_of` past' → ldap_source r i c past → ldap_source r i c past'.
Proof. intros Hp [? [?|(source & ? & ?)]]; (split; [done|]); [by left|]. right. exists source. eauto using did_prefix. Qed.
Lemma oidc_source_mono r i c past past' : past `prefix_of` past' → oidc_source r i c past → oidc_source r i c past'.
Proof. intros Hp [? [?|(source & ? & ?)]]; (split; [done|]); [by left|]. right. exists source. eauto using did_prefix. Qed.
Lemma directory_accepts_mono c u p pr past past' : past `prefix_of` past' → directory_accepts c u p pr past → directory_accepts c u p pr past'.
Proof. intros Hp (entry & attributes & He). destruct_and! He. exists entry, attributes. split_and!; eauto using did_prefix. Qed.
Lemma provider_vouches_mono a c n v p past past' : past `prefix_of` past' → provider_vouches a c n v p past → provider_vouches a c n v p past'.
Proof. intros Hp (config & raw & t & cl & He). destruct_and! He. exists config, raw, t, cl. split_and!; eauto using did_prefix. Qed.
Lemma login_attempt_mono rq u past past' : past `prefix_of` past' → login_attempt rq u past → login_attempt rq u past'.
Proof. intros Hp []. split; eauto using allowed_mono. Qed.
Hint Resolve client_of_mono password_right_mono account_of_mono ldap_source_mono oidc_source_mono directory_accepts_mono
  provider_vouches_mono login_attempt_mono allowed_mono did_prefix : mono.

Lemma first_factor_mono rq method i past past' : past `prefix_of` past' → first_factor rq method i past → first_factor rq method i past'.
Proof.
  intros Hp [[? (form & c & He)]|[[? (form & c & config & p & He)]|[? (cookie & claims & now & c & a & p & He)]]]; destruct_and! He.
  - left. split; [done|]. exists form, c. split_and!; eauto with mono.
  - right; left. split; [done|]. exists form, c, config, p. split_and!; eauto with mono.
  - right; right. split; [done|]. exists cookie, claims, now, c, a, p. split_and!; eauto with mono.
Qed.
End Evidence.
