(* ===== verification/SignInSound.v ===== *)
(** The handlers of [SignIn] make the calls of [SignInProps] in the order that justifies
    every session and every challenge. *)
From S2P Require Import Prelude GoStrings GoCrypto GoUrl Secrets UserCodes Cas Mfa OAuthStore Session RateLimit Identity Passwords Client Federation Authorize ReturnTo Access AuditLog Http HttpWp Tokens TokensProps Browser BrowserProps CasEndpoints Services Providers SignIn SignInProps Exchange ServicesProps.
Local Open Scope Z_scope.
Local Open Scope string_scope.

Section Sound.
Context `{HR : MapRange, HU : UnicodeTables, HM : MailParser, HS : TokenSigner, HP : URLParser, HH : HostParser, HA : Argon2, HF : LDAPFilter}.
Context (cfg : Config).

(** A negation that was tested is resolved. *)
Ltac destruct_negb :=
  repeat match goal with
  | Hd : decide _ = _ |- _ => clear Hd
  | Hn : negb ?b = false |- _ => apply negb_false_iff in Hn; subst
  | Hn : negb ?b = true |- _ => apply negb_true_iff in Hn; subst
  end.

Ltac destruct_unit := repeat match goal with u : unit |- _ => destruct u end.

(** ** The client of a sign-in *)

Section Clients.
Context (φ : list Did → Call → Prop) (Hfree : ∀ past q, is_plain q = true → φ past q).

Lemma wp_login_client past returnTo :
  wp φ past (loginClient returnTo) (λ past' r, past `prefix_of` past' ∧ client_of returnTo r past').
Proof.
  apply wp_frame. unfold loginClient, client_of, findCASClient. destruct (Parse returnTo) as [target|]; [|apply wp_ret; done].
  cbv zeta. destruct (decide _); [|destruct (decide _); [|destruct (decide _)]].
  - apply wp_do; [by apply Hfree|]. intros item. apply wp_ret. intros Hp. split; [done|]. exists item. split; [auto with did|]. by destruct item.
  - apply wp_do; [by apply Hfree|]. intros now. apply wp_do; [by apply Hfree|]. intros [record|err].
    + apply wp_do; [by apply Hfree|]. intros item. apply wp_ret. intros Hp. split; [done|]. exists now, (Ok record). split; [auto with did|].
      exists item. split; [auto with did|]. by destruct item.
    + apply wp_ret. intros Hp. split; [done|]. exists now, (Err err). split; [auto with did|done].
  - destruct (decide _); [apply wp_ret; by intros|]. apply wp_do; [by apply Hfree|]. intros [clients|err]; apply wp_ret; intros Hp; (split; [done|]); [|done].
    intros c Hc. destruct (list_find _ _) as [[i c']|] eqn:E; [|done]. simpl in Hc. injection Hc as ->.
    apply list_find_Some in E as (Hi & Hs & _). split; [done|]. exists clients. split; [auto with did|]. by eapply list_elem_of_lookup_2.
  - by apply wp_ret.
Qed.
End Clients.

(** ** Services *)

Section Parts.
Context (φ : list Did → Call → Prop) (Hfree : ∀ past q, is_free q = true → φ past q).

Lemma wp_right_password past username password :
  wp φ past (passwords_Authenticate username password)
    (λ past' r, past `prefix_of` past' ∧ ∀ user, r = Ok user → password_right username password (u_ID user) past').
Proof.
  apply wp_frame. unfold passwords_Authenticate, wrong_password, right_password. wp_steps; try (by apply Hfree).
  all: intros Hp; (split; [done|]); try done.
  all: intros user' Hok; case_match; [|done]; injection Hok as <-; destruct_negb.
  all: eexists _, _, _, _; split_and!; [auto with did..|by apply dec_stable| |done]; intros t Ht; by rewrite Ht in *.
Qed.

Lemma wp_ldap past config username password :
  wp φ past (ldap_Authenticate config username password)
    (λ past' r, past `prefix_of` past' ∧ ∀ profile, r = Ok profile → directory_accepts config username password profile past').
Proof.
  apply wp_frame. unfold ldap_Authenticate, connect. wp_steps; try (by apply Hfree).
  all: intros Hp; (split; [done|]); try done; destruct_negb.
  all: intros profile Hok; case_match; [done|]; injection Hok as <-; destruct_negb.
  all: passed_guards; eexists _, _; split_and!; [done|done|auto with did..|done].
Qed.

Lemma wp_exchange past a code nonce verifier :
  wp φ past (oidc_Exchange a code nonce verifier)
    (λ past' r, past `prefix_of` past' ∧ ∀ profile, r = Ok profile → provider_vouches a code nonce verifier profile past').
Proof.
  apply wp_frame. unfold oidc_Exchange, oidc_configuration. wp_steps; try (by apply Hfree).
  all: intros Hp; (split; [done|]); try done; destruct_negb.
  all: intros profile Hok; repeat case_match; try done; injection Hok as <-; simplify_eq; destruct_negb.
  all: passed_guards; eexists _, _, _, _; split_and!; [| |auto with did..| | | |]; try done; congruence.
Qed.

(** A code is accepted only when it is used up. *)
Lemma wp_code_used past userID code :
  wp φ past (mfa_Verify (cfg_MFAService cfg) userID code)
    (λ past' r, past `prefix_of` past' ∧ (r = Ok () → code_used cfg code userID past')).
Proof.
  apply wp_frame. unfold mfa_Verify, mfa_fail. wp_steps; try (by apply Hfree).
  all: intros Hp; (split; [done|]); try done; destruct_negb.
  all: intros Hok; try (by case_match).
  all: eexists; split_and!; [auto with did|done|].
  - left. eexists _, _. split; [eassumption|]. subst. auto with did.
  - right. match goal with u : unit |- _ => destruct u end. auto with did.
Qed.

Lemma wp_device_used past rq userID cookie :
  rq_Cookies rq !! trustedDeviceCookieName = Some cookie →
  wp φ past (mfa_UseTrustedDevice userID cookie (rq_UserAgent rq))
    (λ past' r, past `prefix_of` past' ∧ ∀ token, r = Ok (Some token) → device_used rq userID past').
Proof.
  intros Hc. apply wp_frame. unfold mfa_UseTrustedDevice. wp_steps; try (by apply Hfree).
  all: intros Hp; (split; [done|]); try done.
  intros token Hok. repeat case_match; try done. eexists _, _, _, _. split; [done|]. subst. auto with did.
Qed.

Lemma wp_remember past userID userAgent (post : list Did → Res mfaError TrustedDeviceToken → Prop) :
  (∀ past' r, past `prefix_of` past' → post past' r) → wp φ past (mfa_RememberDevice userID userAgent) post.
Proof.
  intros Hpost. apply wp_frame. unfold mfa_RememberDevice. wp_steps; try (by apply Hfree). all: intros Hp; by apply Hpost.
Qed.

Lemma wp_required past userID :
  wp φ past (mfa_RequiresChallenge (cfg_MFAService cfg) userID)
    (λ past' r, past `prefix_of` past' ∧ (r = Ok false → not_enrolled userID past')).
Proof.
  apply wp_frame. unfold mfa_RequiresChallenge. wp_steps; try (by apply Hfree).
  intros Hp. split; [done|]. intros Hok. unfold not_enrolled. repeat case_match; try done; subst; destruct_negb; [right|left]; eauto with did.
Qed.

(** ** Pages *)

Lemma wp_login_data past rq returnTo csrfToken message (post : list Did → option loginPageData → Prop) :
  (∀ past' r, past `prefix_of` past' → post past' r) → wp φ past (newLoginPageData cfg rq returnTo csrfToken message) post.
Proof. intros Hpost. apply wp_frame. unfold newLoginPageData. wp_steps; try (by apply Hfree). all: intros Hp; by apply Hpost. Qed.

Lemma wp_login_page past rq returnTo message unknown (post : list Did → Reply → Prop) :
  session_tokens unknown = [] →
  (∀ past' r, past `prefix_of` past' → sessions_opened past' r → post past' r) →
  wp φ past (login_page cfg rq returnTo message unknown) post.
Proof.
  intros Hu Hpost. unfold login_page. apply wp_try, (wp_csrf φ (λ past q Hq, Hfree past q (plain_free q Hq))). intros past1 [r|csrf] Hp1 Hr.
  - subst. by apply Hpost, opened_none.
  - apply wp_bind, wp_login_data. intros past2 page Hp2. apply wp_ret, Hpost; [pre|]. apply opened_none.
    rewrite session_tokens_with, other_cookies_none by done. rewrite app_nil_r. by destruct page.
Qed.

Lemma wp_audited past rq ev (post : list Did → unit → Prop) :
  (∀ past', past `prefix_of` past' → post past' ()) → wp φ past (recordAudit rq ev) post.
Proof. apply wp_record. intros past' q Hq. by apply Hfree, plain_free. Qed.

(** ** Sources *)

Lemma wp_ldap_source past sourceID registered :
  wp φ past (ldapAuthenticatorForLogin cfg sourceID registered)
    (λ past' r, past `prefix_of` past' ∧ ∀ config, r = Ok config → ldap_source cfg registered sourceID config past').
Proof.
  apply wp_frame. unfold ldapAuthenticatorForLogin, ldap_source. wp_steps; try (by apply Hfree).
  all: intros Hp; (split; [done|]); try done.
  - intros config Hok. case_match; [|done]. injection Hok as <-. subst. destruct_unit. auto.
  - intros config Hok. destruct_unit. eauto with did.
Qed.

Lemma wp_oidc_source past sourceID registered :
  wp φ past (oidcAuthenticatorForLogin cfg sourceID registered)
    (λ past' r, past `prefix_of` past' ∧ ∀ a, r = Ok a → oidc_source cfg registered sourceID a past').
Proof.
  apply wp_frame. unfold oidcAuthenticatorForLogin, oidc_source. wp_steps; try (by apply Hfree).
  all: intros Hp; (split; [done|]); try done.
  - intros auth Hok. case_match; [|done]. injection Hok as <-. subst. destruct_unit. auto.
  - intros auth Hok. case_match; [|done]. injection Hok as <-. destruct_unit. eauto with did.
Qed.
End Parts.

(** ** Sessions and challenges *)

(** The claims that are signed. *)
Lemma mfa_claims_of userID returnTo method clientID now :
  claim_string (mfa_claims userID returnTo method clientID now) "user_id" = userID ∧
  claim_string (mfa_claims userID returnTo method clientID now) "method" = method.
Proof. unfold claim_string, mfa_claims. split; simplify_map_eq; done. Qed.
Lemma oidc_claims_purpose state nonce verifier returnTo sourceID now :
  claim_string (oidc_claims state nonce verifier returnTo sourceID now) "purpose" = "external_oidc".
Proof. unfold claim_string, oidc_claims. by simplify_map_eq. Qed.

Section Handlers.
Context (rq : HttpRequest).

Lemma free_ok past q : is_free q = true → sign_in_guard cfg rq past q.
Proof. by destruct q. Qed.
Lemma plain_ok past q : is_plain q = true → sign_in_guard cfg rq past q.
Proof. intros. by apply free_ok, plain_free. Qed.
Hint Resolve free_ok plain_ok : core.

Abbreviation guard := (sign_in_guard cfg rq).

Lemma wp_create past user returnTo method clientID second :
  session_justified cfg rq (u_ID user)
    (if decide (second = "") then first_methods method else (first_methods method ++ [second])%list)
    (if decide (second = "") then "urn:certus:aal:1" else "urn:certus:aal:2") past →
  wp guard past (createLoginSession rq user returnTo method clientID second) sessions_opened.
Proof.
  intros Hj. unfold createLoginSession. fold (first_methods method).
  assert (∀ methods level, session_justified cfg rq (u_ID user) methods level past →
    wp guard past (let* created := CSessionsCreate (u_ID user) (rq_IPAddress rq) (rq_UserAgent rq) methods level in
      match created with
      | Err _ =>
          let+ _ := recordAudit rq (event (u_ID user) ("login." +:+ method) clientID OutcomeFailure
                                      {["reason" := VString "session_creation_failed"]}) in
          Ret (writeProblem 500 "server_error" "创建登录会话失败")
      | Ok created =>
          let+ _ := recordAudit rq (event (u_ID user) ("login." +:+ method) clientID OutcomeSuccess ∅) in
          Ret (with_cookie sessionCookieName created.2 (redirect 303 (loginSuccessURL returnTo)))
      end)%go sessions_opened) as Hgo.
  { intros methods level Hs. apply wp_do; [done|]. intros [[s token]|e]; apply wp_bind, (wp_audited guard free_ok); intros past' Hp; apply wp_ret.
    - intros t Ht. unfold session_tokens in Ht. simpl in Ht. destruct (decide (token = "")) as [->|Hne]; [by apply elem_of_nil in Ht|].
      rewrite bool_decide_true in Ht by done. apply list_elem_of_singleton in Ht as ->. eexists _, _, _, _, _, s. eapply did_prefix; [exact Hp|]. auto with did.
    - by apply opened_none. }
  case_decide; by apply Hgo.
Qed.

Lemma wp_challenge past userID returnTo method clientID :
  first_factor cfg rq method userID past →
  wp guard past (beginMFAChallenge userID returnTo method clientID) (λ past' r, past `prefix_of` past' ∧ session_tokens r = []).
Proof.
  intros Hf. apply wp_frame. unfold beginMFAChallenge. apply wp_do; [auto|]. intros now. apply wp_do.
  - intros _. assert (first_factor cfg rq method userID (past ++ [did CNow now])) as Hnow by (eapply first_factor_mono; [|exact Hf]; pre).
    by destruct (mfa_claims_of userID returnTo method clientID now) as [-> ->].
  - intros [t|err]; by apply wp_ret.
Qed.

Lemma wp_set_cookie past device (post : list Did → string * string → Prop) :
  (∀ past' c, past `prefix_of` past' → c.1 ≠ sessionCookieName → post past' c) →
  wp guard past (setTrustedDeviceCookie device) post.
Proof. intros Hpost. apply wp_frame. unfold setTrustedDeviceCookie. apply wp_do; [auto|]. intros now. apply wp_ret. intros Hp. apply Hpost; [done|]. by case_decide. Qed.

Lemma wp_complete past user returnTo method clientID :
  first_factor cfg rq method (u_ID user) past →
  wp guard past (completeLogin cfg rq user returnTo method clientID) sessions_opened.
Proof.
  intros Hf. unfold completeLogin. apply wp_bind. eapply wp_mono; [done| |by apply wp_required, free_ok].
  intros past1 [[]|err] [Hp1 Hnone].
  - apply wp_try. unfold completeLoginWithTrustedDevice.
    assert (∀ past' l, past `prefix_of` past' → other_cookies l →
      wp guard past' (bind (beginMFAChallenge (u_ID user) returnTo method clientID) (λ r, Ret (with_cookies l r))) sessions_opened) as Hchallenge.
    { intros past' l Hp Hl. apply wp_bind. eapply wp_mono; [done| |apply wp_challenge; eapply first_factor_mono; [exact Hp|done]].
      intros past2 r [_ Hr]. apply wp_ret, opened_other; [done|]. by apply opened_none. }
    destruct (rq_Cookies rq !! trustedDeviceCookieName) as [cookie|] eqn:Ec; [|apply wp_ret, Hchallenge; [done|constructor]].
    destruct (decide _); [apply wp_ret, Hchallenge; [done|constructor]|].
    apply wp_bind. eapply wp_mono; [done| |by apply (wp_device_used _ free_ok)]. intros past2 [[device|]|err] [Hp2 Hused].
    + apply wp_bind, wp_set_cookie. intros past3 c Hp3 Hc. apply wp_bind, (wp_audited _ free_ok). intros past4 Hp4.
      apply wp_bind. eapply wp_mono; [done| |apply wp_create].
      * intros past5 r Hr. apply wp_ret, opened_other; [|done]. by repeat constructor.
      * exists method. right. split; [done|]. left. split; [done|]. split; [eapply first_factor_mono; [|exact Hf]; pre|].
        destruct (Hused device eq_refl) as (ck & repl & now & ex & ? & Hd). exists ck, repl, now, ex. split; [done|].
        eapply did_prefix; [|exact Hd]. pre.
    + apply wp_ret, Hchallenge; [pre|]. repeat constructor. discriminate.
    + apply wp_ret, Hchallenge; [pre|constructor].
  - apply wp_create. exists method. left. split; [done|]. split; [done|]. split; [by eapply first_factor_mono|auto].
  - apply wp_bind, (wp_audited _ free_ok). intros past2 Hp2. apply wp_ret. by apply opened_none.
Qed.

Lemma wp_login_error past returnTo message (post : list Did → Reply → Prop) :
  (∀ past' r, past `prefix_of` past' → sessions_opened past' r → post past' r) →
  wp guard past (renderLoginError cfg rq returnTo message) post.
Proof. intros Hpost. unfold renderLoginError. by apply (wp_login_page _ free_ok). Qed.

Lemma wp_loginPassword : wp guard [] (loginPassword cfg rq) sessions_opened.
Proof.
  unfold loginPassword. destruct (ParseForm rq) as [[body form]|] eqn:Eform; [|by apply wp_ret, opened_none]. cbv zeta.
  destruct (validCSRF _ _) eqn:Ecsrf; [|by apply wp_ret, opened_none]. cbn [negb].
  apply wp_bind. eapply wp_mono; [done| |apply (wp_login_client guard plain_ok)]. intros past1 registered [_ Hclient].
  destruct (allows registered LoginPassword) eqn:Eallows; [|by apply wp_ret, opened_none]. cbn [negb].
  apply wp_try, (wp_login_attempt cfg _ plain_ok). intros past2 [r|[]] Hp2 Hrate; [by apply opened_none; unfold session_tokens; rewrite (proj2 Hrate)|].
  unfold login_with_password. apply wp_bind. eapply wp_mono; [done| |apply (wp_right_password _ free_ok)].
  intros past3 [user|err] [Hp3 Hright].
  - apply wp_complete. left. split; [done|]. exists form, registered. split_and!; [by exists body|by eapply client_of_mono; [|exact Hclient]; pre|done| |by apply Hright].
    by eapply login_attempt_mono.
  - apply wp_bind, (wp_audited _ free_ok). intros past4 _. by apply wp_login_error.
Qed.

(** The account of a profile signs in when the profile is a first factor. *)
Lemma wp_external past profile returnTo method clientID message :
  (∀ past' userID, past `prefix_of` past' → account_of profile userID past' → first_factor cfg rq method userID past') →
  wp guard past (login_external cfg rq profile returnTo method clientID message) sessions_opened.
Proof.
  intros Hf. unfold login_external. apply wp_do; [auto|]. intros now. apply wp_do; [auto|]. intros [user|err].
  - destruct (decide _) as [|Hactive]; [by apply wp_login_error|]. apply wp_complete, Hf; [pre|].
    exists now, user. split_and!; [auto with did|done|by apply dec_stable].
  - by apply wp_login_error.
Qed.

Lemma wp_loginLDAP : wp guard [] (loginLDAP cfg rq) sessions_opened.
Proof.
  unfold loginLDAP. destruct (ParseForm rq) as [[body form]|] eqn:Eform; [|by apply wp_ret, opened_none]. cbv zeta.
  destruct (validCSRF _ _) eqn:Ecsrf; [|by apply wp_ret, opened_none]. cbn [negb].
  apply wp_bind. eapply wp_mono; [done| |apply (wp_login_client guard plain_ok)]. intros past1 registered [_ Hclient].
  destruct (allows registered LoginLDAP) eqn:Eallows; [|by apply wp_ret, opened_none]. cbn [negb].
  apply wp_bind. eapply wp_mono; [done| |apply (wp_ldap_source _ free_ok)]. intros past2 [config|err] [Hp2 Hsource];
    [|apply wp_ret, opened_none; by destruct err].
  unfold login_with_ldap. apply wp_try, (wp_login_attempt cfg _ plain_ok).
  intros past3 [r|[]] Hp3 Hrate; [by apply opened_none; unfold session_tokens; rewrite (proj2 Hrate)|].
  apply wp_bind. eapply wp_mono; [done| |apply (wp_ldap _ free_ok)]. intros past4 [profile|err] [Hp4 Hdir].
  - apply wp_external. intros past5 userID Hp5 Hacc. right; left. split; [done|]. exists form, registered, config, profile.
    split_and!; [by exists body|eapply client_of_mono; [|exact Hclient]; pre|done|eapply ldap_source_mono; [|by apply Hsource]; pre| | |done].
    + eapply login_attempt_mono; [|exact Hrate]; pre.
    + eapply directory_accepts_mono; [exact Hp5|]. by apply Hdir.
  - apply wp_bind, (wp_audited _ free_ok). intros past5 _. by apply wp_login_error.
Qed.

Lemma wp_random_token past (post : list Did → Reply + string → Prop) :
  (∀ past' r, past `prefix_of` past' → match r with inl r => session_tokens r = [] | inr _ => True end → post past' r) →
  wp guard past random_token post.
Proof. intros Hpost. apply wp_frame. unfold random_token. apply wp_do; [auto|]. intros rnd. apply wp_ret. intros Hp. apply Hpost; [done|]. by destruct (RandomToken rnd). Qed.

Lemma wp_loginOIDC : wp guard [] (loginOIDC cfg rq) sessions_opened.
Proof.
  unfold loginOIDC. cbv zeta. apply wp_bind. eapply wp_mono; [done| |apply (wp_login_client guard plain_ok)]. intros past1 registered [_ Hclient].
  destruct (allows registered LoginOIDC); [|by apply wp_ret, opened_none]. cbn [negb].
  apply wp_bind. eapply wp_mono; [done| |apply (wp_oidc_source _ free_ok)]. intros past2 [a|err] [Hp2 _];
    [|apply wp_ret, opened_none; by destruct err].
  unfold start_oidc, allowLoginSource. apply wp_try, (wp_attempt _ plain_ok). intros past3 [r|[]] _ Hrate; [by apply opened_none; unfold session_tokens; rewrite (proj2 Hrate)|].
  do 3 (apply wp_try, wp_random_token; intros ? [?|?] _ ?; [by apply opened_none|]).
  apply wp_do; [auto|]. intros now. apply wp_do; [by cbn; rewrite oidc_claims_purpose|]. intros [transaction|err]; [|by apply wp_ret, opened_none].
  unfold AuthorizationURL, oidc_configuration. wp_steps; auto; by apply opened_none.
Qed.

Lemma wp_loginOIDCCallback : wp guard [] (loginOIDCCallback cfg rq) sessions_opened.
Proof.
  unfold loginOIDCCallback. cbv zeta. destruct (rq_Cookies rq !! externalOIDCCookieName) as [cookie|] eqn:Ecookie; [|by apply wp_ret, opened_none].
  apply wp_do; [auto|]. intros [claims|err]; [|by apply wp_ret, opened_none].
  unfold validExternalOIDCClaims. apply wp_bind, wp_do; [auto|]. intros now. apply wp_ret.
  destruct (bool_decide _) eqn:Evalid; [|by apply wp_ret, opened_none]. cbn [negb]. apply bool_decide_eq_true in Evalid.
  destruct Evalid as (Hpurpose & Hstate & Heq & _ & _ & _ & Hexp & _).
  apply wp_bind. eapply (wp_mono guard guard _ _ sessions_opened); [done| |].
  { intros past' r Hr. apply wp_ret, opened_other; [|done]. repeat constructor. discriminate. }
  set (past0 := ([] ++ [did (CVerify cookie) (Ok claims)] ++ [did CNow now])%list).
  change (wp guard past0 (finish_oidc cfg rq claims) sessions_opened).
  assert (did (CVerify cookie) (Ok claims) ∈ past0 ∧ did CNow now ∈ past0) as [Hverify Hnow] by (split; [by left|by right; left]).
  unfold finish_oidc. cbv zeta. apply wp_bind. eapply wp_mono; [done| |apply (wp_login_client guard plain_ok)]. intros past1 registered [Hp1 Hclient].
  apply wp_bind. eapply wp_mono; [done| |apply (wp_oidc_source _ free_ok)]. intros past2 [a|err] [Hp2 Hsource];
    [|apply wp_ret, opened_none; by destruct err].
  destruct (decide _); [by apply wp_login_error|].
  apply wp_bind. eapply wp_mono; [done| |apply (wp_exchange _ free_ok)]. intros past3 [profile|err] [Hp3 Hvouch]; [|by apply wp_login_error].
  apply wp_external. intros past4 userID Hp4 Hacc. right; right. split; [done|]. exists cookie, claims, now, registered, a, profile.
  split_and!; [done|eapply did_prefix; [|exact Hverify]; pre|done..|eapply did_prefix; [|exact Hnow]; pre|done| | | |done].
  - eapply client_of_mono; [|exact Hclient]; pre.
  - eapply oidc_source_mono; [|by apply Hsource]; pre.
  - eapply provider_vouches_mono; [exact Hp4|]. by apply Hvouch.
Qed.

Lemma wp_challenged past :
  wp guard past (mfaLoginTransaction rq)
    (λ past' r, past `prefix_of` past' ∧ ∀ userID returnTo method clientID, r = Some (userID, returnTo, method, clientID) → challenged rq method userID past').
Proof.
  apply wp_frame. unfold mfaLoginTransaction. cbv zeta. wp_steps; auto; intros Hp; (split; [done|]); try done.
  intros userID returnTo method clientID [= <- <- <- <-]. passed_guards. eexists _, _, _.
  split_and!; [done|auto with did|auto with did|done..|]. lia.
Qed.

Lemma wp_mfaLoginPage : wp guard [] (mfaLoginPage rq) sessions_opened.
Proof.
  unfold mfaLoginPage. apply wp_bind. eapply wp_mono; [done| |apply wp_challenged]. intros past1 [t|] _; [|by apply wp_ret, opened_none].
  apply (wp_page _ plain_ok). intros past2 r _ [_ Hr]. by apply opened_none.
Qed.

Lemma wp_remember_device past userID remember (post : list Did → option (string * string) → Prop) :
  (∀ past' c, past `prefix_of` past' → other_cookies (option_list c) → post past' c) →
  wp guard past (remember_device rq remember userID) post.
Proof.
  intros Hpost. unfold remember_device. destruct remember; [|apply wp_ret, Hpost; [done|constructor]].
  apply wp_bind, (wp_remember _ free_ok). intros past1 [device|err] Hp1; [|apply wp_ret, Hpost; [pre|constructor]].
  apply wp_bind, wp_set_cookie. intros past2 c Hp2 Hc. apply wp_ret, Hpost; [pre|]. by repeat constructor.
Qed.

Lemma wp_mfaLoginVerify : wp guard [] (mfaLoginVerify cfg rq) sessions_opened.
Proof.
  unfold mfaLoginVerify. destruct (ParseForm rq) as [[body form]|] eqn:Eform; [|by apply wp_ret, opened_none].
  destruct (validCSRF _ _) eqn:Ecsrf; [|by apply wp_ret, opened_none]. cbn [negb].
  apply wp_bind. eapply wp_mono; [done| |apply wp_challenged]. intros past1 [[[[userID returnTo] method] clientID]|] [Hp1 Hchallenged];
    [|by apply wp_ret, opened_none].
  apply wp_try, (wp_mfa_attempt cfg _ plain_ok). intros past2 [r|[]] Hp2 Hrate; [by apply opened_none; unfold session_tokens; rewrite (proj2 Hrate)|].
  unfold verify_login_code. apply wp_bind. eapply wp_mono; [done| |apply (wp_code_used _ free_ok)]. intros past3 [[]|err] [Hp3 Hcode]; cbv zeta.
  - apply wp_do; [auto|]. intros [user|err]; [|by apply wp_ret, opened_none]. destruct (decide _) as [|Hactive]; [by apply wp_ret, opened_none|].
    apply wp_bind, wp_remember_device. intros past4 c Hp4 Hc. apply wp_bind, (wp_audited _ free_ok). intros past5 Hp5.
    apply wp_bind. eapply wp_mono; [done| |apply wp_create].
    + intros past6 r Hr. apply wp_ret, opened_other; [|done]. constructor; [done|exact Hc].
    + exists method. right. split; [done|]. right. split; [done|]. exists userID, user.
      split_and!; [eapply did_prefix; [etrans; [exact Hp4|exact Hp5]|apply did_last]|by apply dec_stable|done| | | |].
      * destruct (Hchallenged _ _ _ _ eq_refl) as (cookie & claims & now & Hc'). destruct_and! Hc'. exists cookie, claims, now.
        split_and!; try done; (eapply did_prefix; [|eassumption]; pre).
      * eapply allowed_mono; [|apply Hrate]; pre.
      * eapply allowed_mono; [|apply Hrate]; pre.
      * exists form. split; [by exists body|]. destruct (Hcode eq_refl) as (credential & Hf & He & Hused). exists credential.
        assert (past3 `prefix_of` past5) as Hp by pre.
        split; [by eapply did_prefix|]. split; [done|]. destruct Hused as [(now & step & ? & ?)|?]; [left; exists now, step|right]; eauto using did_prefix.
  - apply wp_bind, (wp_audited _ free_ok). intros past4 _. apply (wp_page _ plain_ok). intros past5 r _ [_ Hr]. by apply opened_none.
Qed.

Lemma wp_loginPage : wp guard [] (loginPage cfg rq) sessions_opened.
Proof. unfold loginPage. by apply (wp_login_page _ free_ok). Qed.

Lemma wp_loginSuccessPage : wp guard [] (loginSuccessPage rq) sessions_opened.
Proof.
  unfold loginSuccessPage. cbv zeta. apply wp_bind, (wp_session _ plain_ok). intros past1 [current|] _ _; [|by apply wp_ret, opened_none].
  apply wp_bind. eapply wp_mono; [done| |apply (wp_login_client guard plain_ok)]. intros past2 registered _. by apply wp_ret, opened_none.
Qed.


End Handlers.

(** ** The endpoints of signing in *)

Inductive SignInEndpoint := SignInPage | SuccessPage | WithPassword | WithLDAP | WithOIDC | OIDCCallback | ChallengePage | ChallengeVerify.
Definition sign_in_handler (e : SignInEndpoint) : HttpRequest → Prog Reply :=
  match e with
  | SignInPage => loginPage cfg
  | SuccessPage => loginSuccessPage
  | WithPassword => loginPassword cfg
  | WithLDAP => loginLDAP cfg
  | WithOIDC => loginOIDC cfg
  | OIDCCallback => loginOIDCCallback cfg
  | ChallengePage => mfaLoginPage
  | ChallengeVerify => mfaLoginVerify cfg
  end.

Lemma wp_sign_in e rq : wp (sign_in_guard cfg rq) [] (sign_in_handler e rq) sessions_opened.
Proof.
  destruct e; [apply wp_loginPage|apply wp_loginSuccessPage|apply wp_loginPassword|apply wp_loginLDAP|apply wp_loginOIDC
    |apply wp_loginOIDCCallback|apply wp_mfaLoginPage|apply wp_mfaLoginVerify].
Qed.


(** The reply of a sign-in only opens sessions that were created during it: every
    value that it sets for the session cookie is the token of a session that one of its
    calls created. *)
Theorem sign_in_opens_created rely e rq w tr w' r token :
  runs rely (sign_in_handler e rq) w tr w' r → token ∈ session_tokens r → opened tr token.
Proof. intros Hr. exact (proj1 (wp_runs _ _ _ _ _ _ _ _ (wp_sign_in e rq) Hr) token). Qed.
End Sound.

(** * Signing in works

    Served without interference, the right password signs in: [SignInSound] shows that
    nothing else does. *)
Section Works.
Context `{HR : MapRange, HU : UnicodeTables, HM : MailParser, HS : TokenSigner, HP : URLParser, HH : HostParser, HA : Argon2, HF : LDAPFilter}.
Context (cfg : Config).

Lemma alone_login_client returnTo w : (alone (loginClient returnTo) w).1 = w.
Proof.
  unfold loginClient. destruct (Parse returnTo) as [target|]; [|done]. cbv zeta. case_decide; [done|]. case_decide.
  - cbn [alone perform fst snd]. by destruct (FindDeviceByUserCode _ _ _).
  - case_decide; [|done]. unfold findCASClient. by case_decide.
Qed.

(** The limiter lets the attempts of this address and this name pass. *)
Definition attempts_allowed (w : World) (rq : HttpRequest) (username : string) : Prop :=
  (alone (allowLoginAttempt cfg rq username) w).2 = inr ().

(** An attempt only changes the limiter. *)
Lemma alone_attempt scope subject policy oauthStyle w :
  ∃ v, (alone (allowRateLimitedRequest scope subject policy oauthStyle) w).1 = set_rate v w.
Proof.
  unfold allowRateLimitedRequest. cbn [alone perform fst snd]. destruct (RateLimit.Allow _ _ _ _ _) as [v [d|err]]; cbn [fst snd].
  - exists v. destruct (IsZero _); [done|]. by destruct (d_Allowed d).
  - by exists v.
Qed.
Lemma alone_login_attempt w rq username :
  attempts_allowed w rq username → ∃ v, alone (allowLoginAttempt cfg rq username) w = (set_rate v w, inr ()).
Proof.
  unfold attempts_allowed, allowLoginAttempt, allowLoginSource, try, pass. rewrite !alone_bind. cbv zeta.
  destruct (alone_attempt "login.source" (rq_IPAddress rq) (cfg_LoginSource cfg) false w) as [v Hv].
  destruct (alone _ w) as [w1 [e|[]]]; cbn [alone fst snd] in *; subst w1; [done|].
  match goal with |- context [alone (allowRateLimitedRequest ?sc ?su ?po ?st) ?w1] => destruct (alone_attempt sc su po st w1) as [v' Hv'] end.
  intros Hok. exists v'. destruct (alone _ (set_rate v w)) as [w2 r2]. cbn [fst snd] in *. by subst.
Qed.

(** A sign-in with a password is in order: the form, the client, the limits, the password
    of an active account that is not locked, and no second factor. *)
Record password_ready (w : World) (rq : HttpRequest) (form : Values) (user : User) (credential : PasswordCredential) : Prop := {
  pr_form : (∃ body, ParseForm rq = Some (body, form)) ∧ validCSRF (Get form "csrf_token") rq = true;
  pr_client : allows (alone (loginClient (return_or_portal (Get form "continue"))) w).2 LoginPassword = true;
  pr_rate : attempts_allowed w rq (Get form "username");
  pr_user : FindPasswordByUsername (w_users w) (ToLower (TrimSpace (Get form "username"))) = Ok (user, credential) ∧ u_Status user = UserActive ∧
    (∀ t, pc_LockedUntil credential = Some t → After t (w_now w) = false) ∧ is_ok (RecordPasswordSuccess (w_users w) (pc_UserID credential)).2 = true;
  pr_password : verifyStoredPassword (pc_Hash credential) (Get form "password") (w_now w) = Ok (true, false);
  pr_single : Mfa.Find (w_mfa w) (u_ID user) = Err MfaNotFound;
}.

Lemma alone_audit_sessions rq ev w : w_sessions (alone (recordAudit rq ev) w).1 = w_sessions w.
Proof.
  unfold recordAudit. cbv zeta. cbn [alone perform fst snd]. destruct (Normalize _ _) as [e|]; [|done]. cbn [alone perform fst snd].
  unfold read_random. destruct (w_random w); by case_decide.
Qed.

Lemma read_random_cons w b rest : w_random w = Some b :: rest → read_random w = (set_random rest w, Some b).
Proof. unfold read_random. by intros ->. Qed.

(** A session is created, and its token sent. *)
Lemma alone_create w rq user returnTo method clientID b1 b2 rest :
  w_random w = Some b1 :: Some b2 :: rest → RawURLEncoding_EncodeToString b1 ≠ "" → unused_token (RawURLEncoding_EncodeToString b1) (w_sessions w) →
  0 < sv_lifetime (w_sessions w) → method ≠ "oidc" →
  let r := alone (createLoginSession rq user returnTo method clientID "") w in
  r.2 = with_cookie sessionCookieName (RawURLEncoding_EncodeToString b1) (redirect 303 (loginSuccessURL returnTo)) ∧
  ∃ s, (FindSession (w_sessions r.1) (RawURLEncoding_EncodeToString b1) (w_now w)).2 = Ok s ∧ s_UserID s = u_ID user ∧
    s_AuthMethods s = ["pwd"] ∧ s_AssuranceLevel s = "urn:certus:aal:1" ∧ s_AuthenticatedAt s = w_now w.
Proof.
  intros Hrnd Hne Hfresh Hlife Hmethod. unfold createLoginSession. rewrite (decide_False (P := method = _)) by done.
  rewrite (decide_True (P := "" = "")) by done. cbn [alone perform].
  rewrite (read_random_cons _ _ _ Hrnd). cbn [fst snd]. rewrite (read_random_cons (set_random _ w) b2 rest eq_refl). cbn [fst snd].
  destruct (CreateWithMethods _ _ _ _ _ _ _ _ _) as [s' [[s token]|err]] eqn:Ecreate; [|done].
  assert (token = RawURLEncoding_EncodeToString b1) as -> by by (unfold CreateWithMethods in Ecreate; simpl in Ecreate; injection Ecreate).
  cbn [fst snd]. rewrite alone_bind. cbv zeta. cbn [alone fst snd]. split; [done|].
  rewrite alone_audit_sessions. cbn [w_sessions set_sessions].
  pose proof (session_token_opens_session _ _ _ _ _ _ _ _ _ _ _ _ (w_now w) Ecreate Hne Hfresh) as Hopen.
  rewrite decide_True in Hopen by (cbn [w_sessions set_random]; lia). destruct Hopen as (s1 & Hs & _ & Hu & Hm & Hl & Ht & _).
  exists s1. split_and!; [exact Hs|done..].
Qed.

End Works.
