(* ===== verification/Account.v ===== *)
(** The account pages of a signed-in user: the profile, sessions, consents, the password,
    the e-mail address and second factors ([internal/platform/http/account.go],
    [email_verification.go], [mfa.go]). *)
From S2P Require Import Prelude GoStrings GoCrypto GoUrl GoTime GoXml Secrets Cas Mfa OAuthStore Session RateLimit Identity Passwords Client Federation Authorize Access AuditLog Http JsonBodies Tokens Browser CasEndpoints Services.
Local Open Scope Z_scope.
Local Open Scope string_scope.
Local Open Scope go_scope.

(** The QR code of a text, of package [go-qrcode], as rows of modules, where it can be
    made. *)
Class QRCode := { qr_Bitmap : string → option (list (list bool)) }.

(** [internal/platform/http/mfa.go:28-48] enrollmentQRCodeRows *)
Definition enrollmentQRCodeRows `{QRCode} (value : string) : option (list string) :=
  match qr_Bitmap value with
  | None => None
  | Some bitmap => Some ((λ modules : list bool, of_bytes ((λ dark : bool, if dark then 49 else 48) <$> modules)) <$> bitmap)
  end.

(** ** Errors as texts *)

(** [err.Error()] of the accounts; of a failing source of random bytes, only what the code
    adds to its text. *)
Definition identity_text (e : identityError) : string :=
  match e with
  | UserNotFound => "user not found"
  | Identity.ErrConflict => "user already exists"
  | Identity.ErrInvalid => "invalid user"
  | ErrExternalIdentityMissing => "external identity not found"
  | ErrLastAuthentication => "cannot remove the last authentication method"
  | ErrInvalidCredentials => "invalid credentials"
  | ErrCredentialLocked => "credential temporarily locked"
  | ErrInvalidResetToken => "invalid or expired password reset token"
  | ErrInvalidVerificationToken => "invalid or expired email verification token"
  | ErrEmailAlreadyVerified => "email is already verified"
  | ErrEmailNotConfigured => "user has no email address"
  | ErrPasswordLength => "password must contain 12-1024 characters"
  | ErrStoredHash => "invalid password hash"
  | IdentityRandomFailure => "generate password salt"
  end.

(** [w.WriteHeader(http.StatusNoContent)] *)
Definition no_content : Reply := reply 204 NoBody.
Definition invalid_session : Reply := writeProblem 401 "unauthorized" "登录会话无效".
Definition wrong_password_reply : Reply := writeProblem 400 "current_password_invalid" "当前密码不正确".

(** [r.PathValue] *)
Definition path_value (rq : HttpRequest) (name : string) : string := default "" (rq_PathValues rq !! name).

(** [writeJSON] with a token against forgery. *)
Definition json_page (rq : HttpRequest) (members : Claims) : Prog Reply :=
  try+ csrf := ensureCSRF rq in
  Ret (with_cookies csrf.2 (writeJSON 200 (<["csrf_token" := VString csrf.1]> members))).

(** [internal/platform/http/account.go:400-409] requireCurrentSession *)
Definition requireCurrentSession (rq : HttpRequest) : Prog (Reply + Session) :=
  let+ current := currentSession rq in
  Ret match current with
      | None => inl (writeProblem 401 "unauthorized" "需要有效的登录会话")
      | Some current => inr current
      end.

(** [internal/platform/http/mfa.go:506-512] requireAccountCSRF *)
Definition requireAccountCSRF (rq : HttpRequest) : Reply + unit :=
  if negb (validCSRF (TrimSpace (rq_CSRFHeader rq)) rq)
  then inl (writeProblem 400 "invalid_csrf" "账号安全页面已失效，请刷新后重试") else inr ().

(** Both, as every handler that changes something begins. *)
Definition require_owner (rq : HttpRequest) : Prog (Reply + Session) :=
  let+ current := requireCurrentSession rq in
  Ret match current with
      | inl r => inl r
      | inr current => match requireAccountCSRF rq with inl r => inl r | inr _ => inr current end
      end.

(** [decodeJSON] of strings, or the problem that its error is reported as. *)
Definition decode_or_problem `{UnicodeTables} (names : list string) (rq : HttpRequest) : Reply + gmap string string :=
  match decode_strings names rq with inl message => inl (writeProblem 400 "invalid_request" message) | inr input => inr input end.

Section Account.
Context `{HR : MapRange, HU : UnicodeTables, HM : MailParser, HS : TokenSigner, HP : URLParser, HA : Argon2}.
Context (cfg : Config).

(** ** Pages *)

(** [internal/platform/http/account.go:29-40] accountPage *)
Definition accountPage (rq : HttpRequest) : Prog Reply :=
  let+ current := currentSession rq in
  match current with
  | None => Ret (redirect 302 "/login?continue=%2Faccount")
  | Some _ =>
      render rq "account.html"
        (<["Title" := VString "账户安全 · Certus"]> {["AdminMFARequired" := VBool (bool_decide (Get (rq_Query rq) "admin_mfa" = "required"))]})
  end.

(** [internal/platform/http/account.go:42-58] getAccountProfile *)
Definition getAccountProfile (rq : HttpRequest) : Prog Reply :=
  try+ current := requireCurrentSession rq in
  let* user := CUsersFind (s_UserID current) in
  match user with
  | Err _ => Ret invalid_session
  | Ok user => json_page rq (<["user" := user_json user]> {["current_session" := VObject (session_members current)]})
  end.

(** [internal/platform/http/account.go:60-79] listAccountSessions *)
Definition listAccountSessions (rq : HttpRequest) : Prog Reply :=
  try+ current := requireCurrentSession rq in
  let* items := CSessionsList (s_UserID current) in
  match items with
  | Err _ => Ret (writeProblem 500 "server_error" "读取会话失败")
  | Ok items =>
      json_page rq {["items" := VArray ((λ item, VObject (session_members item ++
                        [("current", VBool (bool_decide (s_ID item = s_ID current)))])%list) <$> items)]}
  end.

(** [internal/platform/http/account.go:20-27] accountConsent *)
Definition consent_json (value : Consent) (registered : Res clientError Client) : Value :=
  let name := match registered with Ok c => DisplayName c | Err _ => co_ClientID value end in
  let description := match registered with Ok c => DisplayDescription c | Err _ => "" end in
  VObject ([("client_id", VString (co_ClientID value)); ("client_name", VString name)] ++ member_text "description" description ++
           [("scopes", VStrings (co_Scopes value)); ("granted_at", VTime (co_GrantedAt value));
            ("updated_at", VTime (co_UpdatedAt value))])%list.

(** [internal/platform/http/account.go:108-140] listAccountConsents *)
Definition listAccountConsents (rq : HttpRequest) : Prog Reply :=
  try+ current := requireCurrentSession rq in
  let* items := CListConsents (s_UserID current) in
  match items with
  | Err _ => Ret (writeProblem 500 "server_error" "读取已授权应用失败")
  | Ok items =>
      let+ response := collect items (λ value,
        let* registered := CClientsFind (co_ClientID value) in Ret [consent_json value registered]) in
      json_page rq {["items" := VArray response]}
  end.

(** [internal/platform/http/email_verification.go:195-210] verifyEmailPage *)
Definition verifyEmailPage (rq : HttpRequest) : Prog Reply :=
  let+ current := currentSession rq in
  match current with
  | None => Ret (redirect 302 ("/login?continue=" +:+ QueryEscape (rq_RequestURI rq)))
  | Some _ => render rq "verify-email.html" {["Title" := VString "邮箱验证 · Certus"]}
  end.

(** ** Sessions and consents *)

(** [internal/platform/http/account.go:81-106] revokeAccountSession *)
Definition revokeAccountSession (rq : HttpRequest) : Prog Reply :=
  try+ current := require_owner rq in
  let sessionID := path_value rq "sessionID" in
  let* revoked := CSessionsRevokeForUser (s_UserID current) sessionID in
  match revoked with
  | Err SessionNotFound => Ret (writeProblem 404 "not_found" "会话不存在")
  | Err _ => Ret (writeProblem 500 "server_error" "撤销会话失败")
  | Ok _ =>
      let+ _ := cleanupRevokedSessions cfg [(sessionID, s_UserID current)] in
      let self := bool_decide (sessionID = s_ID current) in
      let+ _ := recordAudit rq (event (s_UserID current) "session.revoked" "" OutcomeSuccess
                  (<["session_id" := VString sessionID]> {["self" := VBool self]})) in
      Ret (with_cookies (if self then [cleared sessionCookieName] else []) no_content)
  end.

(** [internal/platform/http/account.go:142-165] revokeAccountConsent *)
Definition revokeAccountConsent (rq : HttpRequest) : Prog Reply :=
  try+ current := require_owner rq in
  let clientID := path_value rq "clientID" in
  let* now := CNow in
  let* deleted := CStore (OpDeleteConsent (s_UserID current) clientID now) in
  match deleted with
  | Err ErrConsentNotFound => Ret (writeProblem 404 "not_found" "应用授权不存在")
  | Err _ => Ret (writeProblem 500 "server_error" "撤销应用授权失败")
  | Ok _ =>
      let+ _ := recordAudit rq (event (s_UserID current) "oauth.consent.revoked" clientID OutcomeSuccess ∅) in
      Ret no_content
  end.

(** ** Passwords *)

(** [internal/platform/http/oidc_backchannel.go:35-48] sessionsForRevocation: identifiers and users. *)
Definition sessionsForRevocation (userID exceptID : string) : Prog (list (string * string)) :=
  let* items := CSessionsList userID in
  Ret match items with
      | Err _ => []
      | Ok items => (λ s, (s_ID s, s_UserID s)) <$> base.filter (λ s, s_ID s ≠ exceptID) items
      end.

(** [internal/platform/http/account.go:203-217] changeAccountPassword, the sessions, tokens and trusted devices
    of the user but for one session; [resetAccountPassword] does the same. A failure is
    only logged, and counts as none. *)
Definition revoke_credentials (userID exceptID : string) : Prog (Z * Z) :=
  let+ revokedSessions := sessionsForRevocation userID exceptID in
  let* revoked := CSessionsRevokeAll userID exceptID in
  let+ _ := match revoked with Err _ => Ret () | Ok _ => cleanupRevokedSessions cfg revokedSessions end in
  let* now := CNow in
  let* _ := CStore (OpRevokeUserTokens userID exceptID now) in
  let* devices := CMfaDeleteDevices userID in
  Ret (match revoked with Ok n => n | Err _ => 0 end, match devices with Ok n => n | Err _ => 0 end).

(** [internal/platform/http/account.go:167-225] changeAccountPassword *)
Definition changeAccountPassword (rq : HttpRequest) : Prog Reply :=
  try+ current := require_owner rq in
  let* user := CUsersFind (s_UserID current) in
  match user with
  | Err _ => Ret invalid_session
  | Ok user =>
      try+ input := Ret (decode_or_problem ["current_password"; "new_password"] rq) in
      let+ changed := passwords_Change (u_ID user) (u_Username user) (text_of input "current_password") (text_of input "new_password") in
      match changed with
      | Err ErrInvalidCredentials | Err ErrCredentialLocked =>
          let+ _ := recordAudit rq (event (s_UserID current) "password.changed" "" OutcomeFailure
                      {["reason" := VString "current_password_invalid"]}) in
          Ret wrong_password_reply
      | Err e => Ret (writeProblem 400 "invalid_password" (identity_text e))
      | Ok _ =>
          let+ counts := revoke_credentials (s_UserID current) (s_ID current) in
          let+ _ := recordAudit rq (event (s_UserID current) "password.changed" "" OutcomeSuccess
                      (<["other_sessions_revoked" := VInt counts.1]> {["trusted_devices_revoked" := VInt counts.2]})) in
          Ret (with_cookies [cleared trustedDeviceCookieName] no_content)
      end
  end.

(** [internal/platform/http/account.go:261-311] resetAccountPassword *)
Definition resetAccountPassword (rq : HttpRequest) : Prog Reply :=
  try+ input := Ret (decode_or_problem ["reset_token"; "new_password"] rq) in
  let+ reset := passwords_Reset (text_of input "reset_token") (text_of input "new_password") in
  match reset with
  | Err ErrInvalidResetToken =>
      let+ _ := recordAudit rq (event "" "password.reset" "" OutcomeFailure {["reason" := VString "invalid_or_expired_token"]}) in
      Ret (writeProblem 400 "invalid_reset_token" "重置凭据无效或已过期")
  | Err e => Ret (writeProblem 400 "invalid_password" (identity_text e))
  | Ok userID =>
      let+ counts := revoke_credentials userID "" in
      let+ _ := recordAudit rq (event userID "password.reset" "" OutcomeSuccess
                  (<["sessions_revoked" := VInt counts.1]> {["trusted_devices_revoked" := VInt counts.2]})) in
      Ret (with_cookies [cleared sessionCookieName; cleared trustedDeviceCookieName] no_content)
  end.

(** [internal/platform/http/mfa.go:492-504] verifyAccountPassword *)
Definition verifyAccountPassword (userID password : string) : Prog (Reply + User) :=
  let* user := CUsersFind userID in
  match user with
  | Err _ => Ret (inl invalid_session)
  | Ok user =>
      let+ authenticated := passwords_Authenticate (u_Username user) password in
      Ret match authenticated with
          | Err _ => inl wrong_password_reply
          | Ok authenticated => if decide (u_ID authenticated ≠ userID) then inl wrong_password_reply else inr user
          end
  end.

(** ** The e-mail address *)

(** [internal/platform/http/rate_limit.go:100-117] allowEmailVerificationAttempt *)
Definition allowEmailVerificationAttempt (rq : HttpRequest) (userID : string) : Prog (Reply + unit) :=
  try+ _ := pass (allowRateLimitedRequest "email.verification.source" (rq_IPAddress rq) (cfg_EmailVerification cfg) false) in
  allowRateLimitedRequest "email.verification.identity" userID (cfg_EmailVerification cfg) false.

(** [html.EscapeString]. *)
Definition escape_html_byte (b : Z) : list Z :=
  match b with
  | 38 => bytes "&amp;" | 39 => bytes "&#39;" | 60 => bytes "&lt;" | 62 => bytes "&gt;" | 34 => bytes "&#34;"
  | b => [b]
  end.
Definition EscapeString (s : string) : string := of_bytes (concat (escape_html_byte <$> bytes s)).

(** A text within double quotes. *)
Definition within_quotes (s : string) : string := String (chr 34) (s +:+ String (chr 34) EmptyString).

(** [internal/platform/http/email_verification.go:258-277] buildVerificationMessage, to an address *)
Definition buildVerificationMessage (to token : string) (lifetime : Duration) : Message :=
  let link := cfg_Issuer cfg +:+ "/account/verify-email?token=" +:+ QueryEscape token in
  let expires := Duration_String (Duration_Round lifetime Minute) in
  {| ms_To := to; ms_Subject := "验证你的 Certus 邮箱";
     ms_Text := "请验证你的 Certus 邮箱地址。" +:+ newline +:+ newline +:+
                "验证链接（" +:+ expires +:+ " 有效，仅可使用一次）：" +:+ newline +:+ link +:+ newline +:+ newline +:+
                "如果这不是你的操作，请忽略本邮件，你的账号不会受到影响。";
     ms_HTML := "<p>请验证你的 Certus 邮箱地址。</p>" +:+
                "<p><a href=" +:+ within_quotes (EscapeString link) +:+ ">点击此链接完成验证</a>（" +:+
                EscapeString expires +:+ " 有效，仅可使用一次）。</p>" +:+
                "<p>如果这不是你的操作，请忽略本邮件，你的账号不会受到影响。</p>" |}.

(** [internal/platform/http/email_verification.go:250-259] sendEmailVerification: whether no error
    came. *)
Definition sendEmailVerification (user : User) : Prog bool :=
  match u_Email user with
  | Some email =>
      if negb (cfg_Mailer cfg) || u_EmailVerified user then Ret true
      else
        let+ token := verification_Issue (u_ID user) (cfg_EmailVerificationTTL cfg) in
        match token with
        | Err _ => Ret false
        | Ok token => let* sent := CMail (buildVerificationMessage email token (cfg_EmailVerificationTTL cfg)) in Ret sent
        end
  | None => Ret true
  end.

(** [internal/platform/http/email_verification.go:42-62] issueAccountEmailVerification, the end; and the same
    after a change of address *)
Definition verification_sent (rq : HttpRequest) (userID : string) (sent : bool) : Prog Reply :=
  if sent then
    let+ _ := recordAudit rq (event userID "email.verification_sent" "" OutcomeSuccess ∅) in Ret no_content
  else
    let+ _ := recordAudit rq (event userID "email.verification_sent" "" OutcomeFailure {["reason" := VString "send_failed"]}) in
    Ret (writeProblem 502 "smtp_send_failed" "验证邮件发送失败").

(** [internal/platform/http/email_verification.go:17-65] issueAccountEmailVerification: the message goes to the
    address of the account as it was read, where the token is for the one read by
    [Issue]. *)
Definition issueAccountEmailVerification (rq : HttpRequest) : Prog Reply :=
  try+ current := require_owner rq in
  if negb (cfg_Mailer cfg) then Ret (writeProblem 503 "smtp_not_configured" "SMTP 尚未配置")
  else
    try+ _ := allowEmailVerificationAttempt rq (s_UserID current) in
    let* user := CUsersFind (s_UserID current) in
    match user with
    | Err _ => Ret invalid_session
    | Ok user =>
        let+ token := verification_Issue (u_ID user) (cfg_EmailVerificationTTL cfg) in
        match token with
        | Err ErrEmailAlreadyVerified => Ret (writeProblem 409 "email_already_verified" "邮箱已通过验证")
        | Err ErrEmailNotConfigured => Ret (writeProblem 400 "email_not_configured" "当前账号未设置邮箱")
        | Err _ => Ret (writeProblem 500 "server_error" "创建邮箱验证凭据失败")
        | Ok token =>
            match u_Email user with
            | None => Ret panicked
            | Some email =>
                let* sent := CMail (buildVerificationMessage email token (cfg_EmailVerificationTTL cfg)) in
                verification_sent rq (u_ID user) sent
            end
        end
    end.

(** [internal/platform/http/email_verification.go:67-104] verifyAccountEmail *)
Definition verifyAccountEmail (rq : HttpRequest) : Prog Reply :=
  try+ current := require_owner rq in
  try+ _ := allowEmailVerificationAttempt rq (s_UserID current) in
  try+ input := Ret (decode_or_problem ["token"] rq) in
  let+ verified := verification_Verify (text_of input "token") (s_UserID current) in
  match verified with
  | Err ErrInvalidVerificationToken =>
      let+ _ := recordAudit rq (event (s_UserID current) "email.verified" "" OutcomeFailure
                  {["reason" := VString "invalid_or_expired_token"]}) in
      Ret (writeProblem 400 "invalid_verification_token" "验证凭据无效或已过期")
  | Err _ => Ret (writeProblem 500 "server_error" "邮箱验证失败")
  | Ok userID =>
      let+ _ := recordAudit rq (event userID "email.verified" "" OutcomeSuccess ∅) in
      Ret no_content
  end.

(** [internal/platform/http/email_verification.go:175-193] sendChangedEmailVerification *)
Definition sendChangedEmailVerification (rq : HttpRequest) (user : User) : Prog Reply :=
  let+ sent := sendEmailVerification user in verification_sent rq (u_ID user) sent.

(** [internal/platform/http/email_verification.go:122-173] changeAccountEmail, once the address was read *)
Definition replace_email (rq : HttpRequest) (user : User) (email : string) : Prog Reply :=
  let* now := CNow in
  match ReplacedUser user {| ru_DisplayName := u_DisplayName user; ru_Email := Some email; ru_Status := u_Status user |} now with
  | Err _ => Ret (writeProblem 400 "invalid_email" "邮箱地址格式不正确")
  | Ok updated =>
      let* stored := CUsersReplace updated in
      match stored with
      | Err Identity.ErrConflict => Ret (writeProblem 409 "email_conflict" "邮箱已被其他用户使用")
      | Err UserNotFound => Ret invalid_session
      | Err _ => Ret (writeProblem 500 "server_error" "更新邮箱失败")
      | Ok updated =>
          let+ _ := recordAudit rq (event (u_ID user) "email.changed" "" OutcomeSuccess {["email" := VString email]}) in
          sendChangedEmailVerification rq updated
      end
  end.

(** [internal/platform/http/email_verification.go:106-173] changeAccountEmail *)
Definition changeAccountEmail (rq : HttpRequest) : Prog Reply :=
  try+ current := require_owner rq in
  try+ _ := allowEmailVerificationAttempt rq (s_UserID current) in
  try+ input := Ret (decode_or_problem ["email"] rq) in
  let email := TrimSpace (text_of input "email") in
  if decide (email = "") then Ret (writeProblem 400 "invalid_email" "邮箱地址不能为空")
  else
    let* user := CUsersFind (s_UserID current) in
    match user with
    | Err _ => Ret invalid_session
    | Ok user =>
        if same_email (u_Email user) (Some email)
        then if u_EmailVerified user then Ret no_content else sendChangedEmailVerification rq user
        else replace_email rq user email
    end.
End Account.

(** ** Second factors *)

Section AccountMfa.
Context `{HR : MapRange, HU : UnicodeTables, HM : MailParser, HS : TokenSigner, HA : Argon2, HQ : QRCode}.
Context (cfg : Config).

(** [internal/platform/http/mfa.go:261-276] getAccountMFA *)
Definition getAccountMFA (rq : HttpRequest) : Prog Reply :=
  try+ current := requireCurrentSession rq in
  let+ status := mfa_Status (cfg_MFAService cfg) (s_UserID current) in
  match status with
  | Err _ => Ret (writeProblem 500 "server_error" "读取多因素认证状态失败")
  | Ok status => json_page rq {["status" := status_json status]}
  end.

(** [internal/platform/http/mfa.go:278-323] setupAccountMFA *)
Definition setupAccountMFA (rq : HttpRequest) : Prog Reply :=
  try+ current := require_owner rq in
  try+ input := Ret (decode_or_problem ["current_password"] rq) in
  try+ user := verifyAccountPassword (s_UserID current) (text_of input "current_password") in
  let+ setup := mfa_Setup (cfg_MFAService cfg) (u_ID user) (u_Username user) in
  match setup with
  | Err MfaUnavailable => Ret (writeProblem 503 "mfa_unavailable" "服务端尚未配置 MFA 加密密钥")
  | Err ErrAlreadyEnabled => Ret (writeProblem 409 "mfa_already_enabled" "多因素认证已启用")
  | Err _ => Ret (writeProblem 500 "server_error" "创建多因素认证配置失败")
  | Ok setup =>
      match enrollmentQRCodeRows (su_OTPAuthURI setup) with
      | None => Ret (writeProblem 500 "server_error" "生成认证器二维码失败")
      | Some rows =>
          let+ _ := recordAudit rq (event (u_ID user) "mfa.setup_started" "" OutcomeSuccess ∅) in
          Ret (writeJSON 201 (<["secret" := VString (su_Secret setup)]> (<["otpauth_uri" := VString (su_OTPAuthURI setup)]>
                (<["recovery_codes" := VStrings (su_RecoveryCodes setup)]> {["qr_code_rows" := VStrings rows]}))))
      end
  end.

(** [internal/platform/http/mfa.go:325-352] enableAccountMFA *)
Definition enableAccountMFA (rq : HttpRequest) : Prog Reply :=
  try+ current := require_owner rq in
  try+ input := Ret (decode_or_problem ["code"] rq) in
  let+ enabled := mfa_Enable (cfg_MFAService cfg) (s_UserID current) (text_of input "code") in
  match enabled with
  | Err _ =>
      let+ _ := recordAudit rq (event (s_UserID current) "mfa.enabled" "" OutcomeFailure ∅) in
      Ret (writeProblem 400 "invalid_mfa_code" "动态口令无效")
  | Ok _ =>
      let+ _ := recordAudit rq (event (s_UserID current) "mfa.enabled" "" OutcomeSuccess ∅) in
      Ret no_content
  end.

(** [internal/platform/http/mfa.go:357-383] regenerateAccountMFARecoveryCodes, the checks: the password and a
    code; [disableAccountMFA] makes the same. *)
Definition require_factors (rq : HttpRequest) (userID : string) (input : gmap string string) : Prog (Reply + Res mfaError unit) :=
  try+ _ := pass (verifyAccountPassword userID (text_of input "current_password")) in
  try+ _ := pass (allowMFAAttempt cfg rq userID) in
  let+ verified := mfa_Verify (cfg_MFAService cfg) userID (text_of input "code") in
  Ret (inr verified).

(** [internal/platform/http/mfa.go:354-400] regenerateAccountMFARecoveryCodes *)
Definition regenerateAccountMFARecoveryCodes (rq : HttpRequest) : Prog Reply :=
  try+ current := require_owner rq in
  try+ input := Ret (decode_or_problem ["current_password"; "code"] rq) in
  try+ verified := require_factors rq (s_UserID current) input in
  match verified with
  | Err _ =>
      let+ _ := recordAudit rq (event (s_UserID current) "mfa.recovery_codes.regenerated" "" OutcomeFailure
                  {["reason" := VString "invalid_mfa_code"]}) in
      Ret (writeProblem 400 "invalid_mfa_code" "动态口令或恢复码无效")
  | Ok _ =>
      let+ codes := mfa_RegenerateRecoveryCodes (s_UserID current) in
      match codes with
      | Err MfaNotFound | Err ErrNotEnabled => Ret (writeProblem 409 "mfa_not_enabled" "多因素认证尚未启用")
      | Err _ => Ret (writeProblem 500 "server_error" "重新生成恢复码失败")
      | Ok codes =>
          let+ _ := recordAudit rq (event (s_UserID current) "mfa.recovery_codes.regenerated" "" OutcomeSuccess
                      {["count" := VInt (Z.of_nat (length codes))]}) in
          Ret (writeJSON 201 {["recovery_codes" := VStrings codes]})
      end
  end.

(** [internal/platform/http/mfa.go:402-436] disableAccountMFA *)
Definition disableAccountMFA (rq : HttpRequest) : Prog Reply :=
  try+ current := require_owner rq in
  try+ input := Ret (decode_or_problem ["current_password"; "code"] rq) in
  try+ verified := require_factors rq (s_UserID current) input in
  match verified with
  | Err _ => Ret (writeProblem 400 "invalid_mfa_code" "动态口令或恢复码无效")
  | Ok _ =>
      let* disabled := CMfaDelete (s_UserID current) in
      let done :=
        let+ _ := recordAudit rq (event (s_UserID current) "mfa.disabled" "" OutcomeSuccess ∅) in
        Ret (with_cookies [cleared trustedDeviceCookieName] no_content) in
      match disabled with
      | Ok _ | Err MfaNotFound => done
      | Err _ => Ret (writeProblem 500 "server_error" "关闭多因素认证失败")
      end
  end.

(** [internal/platform/http/mfa.go:438-457] revokeAccountMFATrustedDevices *)
Definition revokeAccountMFATrustedDevices (rq : HttpRequest) : Prog Reply :=
  try+ current := require_owner rq in
  let* count := CMfaDeleteDevices (s_UserID current) in
  match count with
  | Err _ => Ret (writeProblem 500 "server_error" "移除受信任设备失败")
  | Ok count =>
      let+ _ := recordAudit rq (event (s_UserID current) "mfa.trusted_devices.revoked" "" OutcomeSuccess {["count" := VInt count]}) in
      Ret (with_cookies [cleared trustedDeviceCookieName] no_content)
  end.
End AccountMfa.
