(* ===== verification/Registration.v ===== *)
(** Registration: the page, the client it is for, and the new account with its first
    session ([internal/platform/http/registration.go]). *)
From S2P Require Import Prelude GoStrings GoCrypto GoUrl Secrets UserCodes Cas Mfa OAuthStore Session RateLimit Identity Passwords Client Federation Authorize ReturnTo Access AuditLog Http HttpWp Tokens TokensProps Browser BrowserProps CasEndpoints Services Providers SignIn SignInProps SignInSound Account.
Local Open Scope Z_scope.
Local Open Scope string_scope.
Local Open Scope go_scope.

(** [http.NotFound]. *)
Definition not_found : Reply := reply 404 (TextBody ("404 page not found" +:+ newline)).
Definition not_available : Reply := writeProblem 400 "registration_not_available" "此接入系统不允许账号密码注册".

Section Registration.
Context `{HR : MapRange, HU : UnicodeTables, HM : MailParser, HS : TokenSigner, HP : URLParser, HH : HostParser, HA : Argon2}.
Context (cfg : Config).

(** [internal/platform/http/registration.go:155-180] registrationClient, which client a registration is for *)
Definition find_registration_client (target : Location) (returnTo requestedClientID : string) : Prog (Reply + option Client) :=
  let+ registered := loginClient returnTo in
  if decide (lo_Path target ∈ ["/oauth2/authorize"; "/cas/login"; "/device"])
  then Ret match registered with None => inl not_available | Some c => inr (Some c) end
  else if decide (requestedClientID ≠ "") then
    let* found := CClientsFind requestedClientID in
    Ret match found with Err _ => inl not_available | Ok c => inr (Some c) end
  else Ret (inr registered).

(** [internal/platform/http/registration.go:159-194] registrationClient: no client, or one that signs in with
    passwords; any error makes the same reply. *)
Definition registrationClient (returnTo requestedClientID : string) : Prog (Reply + option Client) :=
  match Parse returnTo with
  | None => Ret (inl not_available)
  | Some target =>
      let+ found := find_registration_client target returnTo requestedClientID in
      Ret match found with
          | inl r => inl r
          | inr None => inr None
          | inr (Some registered) =>
              if decide (requestedClientID ≠ "" ∧ requestedClientID ≠ c_ID registered) then inl not_available
              else if negb (c_Enabled registered) || bool_decide (c_ArchivedAt registered ≠ None) ||
                      negb (Contains (c_LoginMethods registered) LoginPassword)
              then inl not_available
              else inr (Some registered)
          end
  end.

(** [internal/platform/http/registration.go:15-25] registrationPageData, as the template [register.html] is
    given it *)
Definition registration_fields (registered : option Client) (returnTo csrfToken message username displayName email : string) : Claims :=
  <["Title" := VString "注册 Certus"]> (<["Client" := VString (client_id registered)]> (<["ReturnTo" := VString returnTo]>
  (<["CSRFToken" := VString csrfToken]> (<["Error" := VString message]> (<["Username" := VString username]>
  (<["DisplayName" := VString displayName]> (<["Email" := VString email]>
  {["RequireEmail" := VBool (cfg_RequireEmail cfg)]}))))))).

(** [internal/platform/http/registration.go:196-212] renderRegistrationError; and [newRegistrationPageData] *)
Definition renderRegistrationError (rq : HttpRequest) (returnTo requestedClientID username displayName email message : string) : Prog Reply :=
  try+ csrf := ensureCSRF rq in
  let+ page := registrationClient returnTo requestedClientID in
  Ret (with_cookies csrf.2 match page with
                           | inl r => r
                           | inr registered =>
                               reply 200 (Page "register.html"
                                 (registration_fields registered returnTo csrf.1 message username displayName email))
                           end).

(** [internal/platform/http/registration.go:29-51] registrationPage *)
Definition registrationPage (rq : HttpRequest) : Prog Reply :=
  if negb (cfg_Registration cfg) then Ret not_found
  else
    let returnTo := return_or_portal (Get (rq_Query rq) "continue") in
    renderRegistrationError rq returnTo (TrimSpace (Get (rq_Query rq) "client_id")) "" "" "" "".

(** [internal/platform/http/registration.go:214-221] recordRegistrationFailure *)
Definition recordRegistrationFailure (rq : HttpRequest) (clientID reason : string) : Prog unit :=
  recordAudit rq (event "" "user.register" clientID OutcomeFailure {["reason" := VString reason]}).

(** What is wrong with a new user, in the order of [NewUser]: its e-mail address, name
    or display name. *)
Definition invalid_field (input : RegisterUser) : string :=
  match normalizeEmail (rg_Email input) with
  | Err _ => "email"
  | Ok _ =>
      if negb (usernamePattern (ToLower (TrimSpace (rg_Username input)))) then "username"
      else if decide (bad_display_name (TrimSpace (rg_DisplayName input))) then "display_name" else ""
  end.

(** [internal/platform/http/registration.go:223-238] registrationErrorMessage *)
Definition registrationErrorMessage (input : RegisterUser) (e : identityError) : string :=
  match e with
  | Identity.ErrConflict => "用户名或邮箱已被使用"
  | Identity.ErrInvalid =>
      let invalid := invalid_field input in
      if decide (invalid = "username") then "用户名须为 3–64 位小写字母、数字、点、下划线或连字符"
      else if decide (invalid = "display_name") then "显示名称须为 1–128 个字符"
      else if decide (invalid = "email") then "邮箱地址格式不正确"
      else "暂时无法完成注册，请稍后重试"
  | ErrPasswordLength => "密码须为 12–1024 个字符"
  | _ => "暂时无法完成注册，请稍后重试"
  end.

(** [internal/platform/http/registration.go:240-251] registrationFailureReason *)
Definition registrationFailureReason (e : identityError) : string :=
  match e with
  | Identity.ErrConflict => "conflict"
  | Identity.ErrInvalid => "invalid_identity"
  | ErrPasswordLength => "invalid_password"
  | _ => "storage_error"
  end.

(** [internal/platform/http/rate_limit.go:70-78] allowRegistrationAttempt *)
Definition allowRegistrationAttempt (rq : HttpRequest) : Prog (Reply + unit) :=
  allowRateLimitedRequest "registration.source" (rq_IPAddress rq) (cfg_RegistrationSource cfg) false.

(** [internal/platform/http/registration.go:108-135] register, the new account *)
Definition register_user (rq : HttpRequest) (returnTo requestedClientID clientID : string) (input : RegisterUser) : Prog Reply :=
  let again := renderRegistrationError rq returnTo requestedClientID (rg_Username input) (rg_DisplayName input)
                 (default "" (rg_Email input)) in
  let+ user := registration_Register input in
  match user with
  | Err e =>
      let+ _ := recordRegistrationFailure rq clientID (registrationFailureReason e) in
      again (registrationErrorMessage input e)
  | Ok user =>
      let+ _ := recordAudit rq (event (u_ID user) "user.register" clientID OutcomeSuccess ∅) in
      let+ _ := sendEmailVerification cfg user in
      createLoginSession rq user returnTo "registration" clientID ""
  end.

(** [internal/platform/http/registration.go:78-107] register, the form; a page that panics (status 0) ends
    the handler. *)
Definition register_form (rq : HttpRequest) (form : Values) (returnTo requestedClientID clientID : string) : Prog Reply :=
  let username := TrimSpace (Get form "username") in
  let displayName := TrimSpace (Get form "display_name") in
  let emailValue := TrimSpace (Get form "email") in
  let refuse message reason :=
    let+ r := renderRegistrationError rq returnTo requestedClientID username displayName emailValue message in
    if decide (re_Status r = 0%Z) then Ret r
    else let+ _ := recordRegistrationFailure rq clientID reason in Ret r in
  if decide (Get form "password" ≠ Get form "password_confirmation") then refuse "两次输入的密码不一致" "password_mismatch"
  else if cfg_RequireEmail cfg && bool_decide (emailValue = "") then refuse "请输入邮箱地址" "email_required"
  else
    register_user rq returnTo requestedClientID clientID
      {| rg_Username := username; rg_DisplayName := displayName;
         rg_Email := if decide (emailValue = "") then None else Some emailValue; rg_Password := Get form "password" |}.

(** [internal/platform/http/registration.go:53-139] register *)
Definition register (rq : HttpRequest) : Prog Reply :=
  if negb (cfg_Registration cfg) then Ret not_found
  else match ParseForm rq with
  | None => Ret (writeProblem 400 "invalid_request" "注册请求无效")
  | Some (_, form) =>
      let returnTo := return_or_portal (Get form "continue") in
      let requestedClientID := TrimSpace (Get form "client_id") in
      if negb (validCSRF (Get form "csrf_token") rq) then Ret (writeProblem 400 "invalid_csrf" "注册页面已失效，请刷新后重试")
      else
        try+ registered := registrationClient returnTo requestedClientID in
        let clientID := client_id registered in
        let+ attempt := allowRegistrationAttempt rq in
        match attempt with
        | inl r => let+ _ := recordRegistrationFailure rq clientID "rate_limited" in Ret r
        | inr _ => register_form rq form returnTo requestedClientID clientID
        end
  end.
End Registration.

(** * Guarantees

    What registration guarantees, whatever happens between its calls: an account is
    created only where registration is enabled, from a form of the site, within the
    limit on attempts and for a client that signs in with passwords; and the session that
    follows is that of the account just created. *)
Section Registration.
Context `{HR : MapRange, HU : UnicodeTables, HM : MailParser, HS : TokenSigner, HP : URLParser, HH : HostParser, HA : Argon2}.
Context (cfg : Config) (rq : HttpRequest).

(** ** Evidence *)

(** The client that a registration is for: none, or an enabled one that signs in with
    passwords. *)
Definition registers_with (registered : option Client) : Prop :=
  match registered with
  | None => True
  | Some c => c_Enabled c = true ∧ c_ArchivedAt c = None ∧ Contains (c_LoginMethods c) LoginPassword = true
  end.
Definition registration_client (returnTo requested : string) (registered : option Client) (past : list Did) : Prop :=
  registers_with registered ∧
  match registered with
  | None => True
  | Some c => (requested ≠ "" → requested = c_ID c) ∧
              (client_of returnTo (Some c) past ∨ did (CClientsFind requested) (Ok c) ∈ past)
  end.

(** What the form describes. *)
Definition form_input (form : Values) : RegisterUser :=
  {| rg_Username := TrimSpace (Get form "username"); rg_DisplayName := TrimSpace (Get form "display_name");
     rg_Email := if decide (TrimSpace (Get form "email") = "") then None else Some (TrimSpace (Get form "email"));
     rg_Password := Get form "password" |}.

Definition registration_accepted (form : Values) (past : list Did) : Prop :=
  cfg_Registration cfg = true ∧ form_of rq form ∧ allowed "registration.source" (subject_of (rq_IPAddress rq)) past ∧
  Get form "password" = Get form "password_confirmation" ∧
  (cfg_RequireEmail cfg = true → rg_Email (form_input form) ≠ None) ∧
  ∃ registered, registration_client (return_or_portal (Get form "continue")) (TrimSpace (Get form "client_id")) registered past.

(** The account was created. *)
Definition was_registered (created : User) (past : list Did) : Prop :=
  ∃ user hash, did (CUsersRegister user hash) (Ok created) ∈ past.

Definition registration_guard (past : list Did) (q : Call) : Prop :=
  match q with
  | CUsersRegister user hash => ∃ form now rnd rnd', registration_accepted form past ∧
      NewUser {| cu_Username := rg_Username (form_input form); cu_DisplayName := rg_DisplayName (form_input form);
                 cu_Email := rg_Email (form_input form); cu_Status := UserActive |} now rnd = Ok user ∧
      hashPassword (Get form "password") rnd' = Ok hash
  | CSessionsCreate userID ip agent methods level => ip = rq_IPAddress rq ∧ agent = rq_UserAgent rq ∧ methods = ["pwd"] ∧
      level = "urn:certus:aal:1" ∧ ∃ created, was_registered created past ∧ userID = u_ID created
  | CVerificationSave t => ∃ created, was_registered created past ∧ ev_UserID t = u_ID created
  | CMail m => ∃ created, was_registered created past ∧ u_Email created = Some (ms_To m)
  | _ => is_plain q = true
  end.

Lemma registration_plain past q : is_plain q = true → registration_guard past q.
Proof. by destruct q. Qed.
Hint Resolve registration_plain : core.
Abbreviation guard := registration_guard.

Lemma was_registered_mono created past past' : past `prefix_of` past' → was_registered created past → was_registered created past'.
Proof. intros Hp (user & hash & ?). exists user, hash. eauto using did_prefix. Qed.
Lemma registration_client_mono r q c past past' : past `prefix_of` past' → registration_client r q c past → registration_client r q c past'.
Proof.
  intros Hp [? Hc]. split; [done|]. destruct c; [|done]. destruct Hc as [? [?|?]]; (split; [done|]); [left; by eapply client_of_mono|right; by eapply did_prefix].
Qed.

(** ** Parts *)

Lemma wp_plain_record past ev (post : list Did → unit → Prop) :
  (∀ past', past `prefix_of` past' → post past' ()) → wp guard past (recordAudit rq ev) post.
Proof. apply wp_record. auto. Qed.

Lemma wp_registration_client past returnTo requested (post : list Did → Reply + option Client → Prop) :
  (∀ past' r, past `prefix_of` past' →
     match r with inl e => e = not_available | inr registered => registration_client returnTo requested registered past' end → post past' r) →
  wp guard past (registrationClient returnTo requested) post.
Proof.
  intros Hpost. apply wp_frame. unfold registrationClient, find_registration_client. destruct (Parse returnTo) as [target|]; [|apply wp_ret; intros Hp; by apply Hpost].
  apply wp_bind, wp_bind.
  eapply wp_mono; [done| |apply (wp_login_client guard registration_plain)]. intros past1 registered [Hp1 Hclient].
  assert (∀ past2 found, past1 `prefix_of` past2 →
    match found with
    | inl e => e = not_available
    | inr None => True
    | inr (Some c) => client_of returnTo (Some c) past2 ∨ did (CClientsFind requested) (Ok c) ∈ past2
    end →
    past `prefix_of` past2 → post past2
      match found with
      | inl r => inl r
      | inr None => inr None
      | inr (Some registered) =>
          if decide (requested ≠ "" ∧ requested ≠ c_ID registered) then inl not_available
          else if negb (c_Enabled registered) || bool_decide (c_ArchivedAt registered ≠ None) ||
                  negb (Contains (c_LoginMethods registered) LoginPassword)
          then inl not_available
          else inr (Some registered)
      end) as Hend.
  { intros past2 [e|[c|]] _ Hf Hp; apply Hpost; try done.
    - destruct (decide _) as [|Hid]; [done|]. destruct (_ || _) eqn:E; [done|].
      apply orb_false_iff in E as [[E1%negb_false_iff E2%bool_decide_eq_false]%orb_false_iff E3%negb_false_iff].
      split; [split_and!; [done|by apply dec_stable|done]|]. split; [|done]. intros Hne. apply dec_stable. intros Hd. by apply Hid. }
  destruct (decide _).
  - apply wp_ret, wp_ret. intros Hp. apply (Hend past1 match registered with None => inl not_available | Some c => inr (Some c) end); [done| |done].
    destruct registered; [by left|done].
  - destruct (decide _).
    + apply wp_do; [done|]. intros found. apply wp_ret, wp_ret. intros Hp.
      apply (Hend _ match found with Err _ => inl not_available | Ok c => inr (Some c) end); [pre| |done].
      destruct found; [right; auto with did|done].
    + apply wp_ret, wp_ret. intros Hp. apply (Hend past1 (inr registered)); [done| |done]. destruct registered; [by left|done].
Qed.

Lemma wp_registration_page past returnTo requested username displayName email message (post : list Did → Reply → Prop) :
  (∀ past' r, past `prefix_of` past' → post past' r) →
  wp guard past (renderRegistrationError cfg rq returnTo requested username displayName email message) post.
Proof.
  intros Hpost. unfold renderRegistrationError. apply wp_try, (wp_csrf guard registration_plain). intros past1 [r|csrf] Hp1 _; [by apply Hpost|].
  apply wp_bind, wp_registration_client. intros past2 page Hp2 _. apply wp_ret, Hpost. pre.
Qed.

(** The first session of an account. *)
Lemma wp_first_session past created returnTo clientID :
  was_registered created past → wp guard past (createLoginSession rq created returnTo "registration" clientID "") (λ _ _, True).
Proof.
  intros Hc. unfold createLoginSession. simpl decide. cbv zeta beta iota. apply wp_do.
  { split_and!; try done. by exists created. }
  intros [[s token]|e]; by apply wp_bind, wp_plain_record.
Qed.

Lemma wp_send_first past created (post : list Did → bool → Prop) :
  was_registered created past → (∀ past' r, past `prefix_of` past' → post past' r) →
  wp guard past (sendEmailVerification cfg created) post.
Proof.
  intros Hc Hpost. apply wp_from, wp_frame. unfold sendEmailVerification, verification_Issue. wp_steps; try done; intros Hp; try by apply Hpost.
  all: exists created; split; [eapply was_registered_mono; [exact Hp|done]|done].
Qed.

(** ** The handlers *)

Lemma wp_registrationPage : wp guard [] (registrationPage cfg rq) (λ _ _, True).
Proof. unfold registrationPage. destruct (negb _); [done|]. by apply wp_registration_page. Qed.

Lemma wp_register : wp guard [] (register cfg rq) (λ _ _, True).
Proof.
  unfold register. destruct (cfg_Registration cfg) eqn:Eon; [|done]. simpl negb. cbv iota. destruct (ParseForm rq) as [[body form]|] eqn:Eform; [|done].
  cbv zeta. destruct (validCSRF _ _) eqn:Ecsrf; [|done]. simpl negb. cbv iota.
  apply wp_try, wp_registration_client. intros past1 [r|registered] Hp1 Hc; [done|]. apply wp_bind. unfold allowRegistrationAttempt.
  apply (wp_attempt guard registration_plain). intros past2 [r|[]] Hp2 Ha; [by apply wp_bind, wp_plain_record|].
  unfold register_form. cbv zeta. destruct (decide _) as [|Hpw]; [|apply dec_stable in Hpw; destruct (_ && _) eqn:Eemail].
  1-2: apply wp_bind, wp_registration_page; intros past3 r Hp3; destruct (decide _); [done|by apply wp_bind, wp_plain_record].
  assert (registration_accepted form past2) as Hacc.
  { split_and!; [done|by exists body|done|done| |].
    - intros Hreq. rewrite Hreq in Eemail. apply bool_decide_eq_false in Eemail. simpl. by rewrite decide_False.
    - exists registered. by eapply registration_client_mono. }
  unfold register_user. fold (form_input form). apply wp_bind. unfold registration_Register. apply wp_do; [done|]. intros now. apply wp_do; [done|]. intros rnd.
  assert (∀ past err, wp guard past
    (let+ _ := recordRegistrationFailure rq (client_id registered) (registrationFailureReason err) in
     renderRegistrationError cfg rq (return_or_portal (Get form "continue")) (TrimSpace (Get form "client_id"))
       (rg_Username (form_input form)) (rg_DisplayName (form_input form)) (default "" (rg_Email (form_input form)))
       (registrationErrorMessage (form_input form) err))%go (λ _ _, True)) as Hno.
  { intros past err. apply wp_bind, wp_plain_record. intros past' Hp. by apply wp_registration_page. }
  destruct (NewUser _ _ _) as [user|err] eqn:Enew; [|apply wp_ret, Hno]. unfold hash_password. destruct (decide _); [apply wp_bind, wp_ret, wp_ret, Hno|].
  apply wp_bind, wp_do; [done|]. intros rnd'. apply wp_ret. destruct (hashPassword _ rnd') as [hash|err] eqn:Ehash; [|apply wp_ret, Hno].
  apply wp_do.
  { exists form, now, rnd, rnd'. split_and!; [|done|done]. destruct Hacc as (? & ? & ? & ? & ? & c & ?).
    split_and!; [done|done|eapply allowed_mono; [|done]; pre|done|done|]. exists c. eapply registration_client_mono; [|done]. pre. }
  intros [created|err]; apply wp_ret; [|apply Hno].
  match goal with |- wp _ ?p _ _ => assert (was_registered created p) as Hcreated by (exists user, hash; auto with did) end.
  apply wp_bind, wp_plain_record. intros past3 Hp3. apply wp_bind, wp_send_first; [by eapply was_registered_mono|]. intros past4 sent Hp4.
  apply wp_first_session. do 2 (eapply was_registered_mono; [eassumption|]). done.
Qed.

End Registration.
