(* ===== verification/AccountProps.v ===== *)
(** What the account pages guarantee, whatever happens between their calls: nothing is
    changed but for the signed-in user, from a page of the site, and what is sensitive
    only after the password, a code, or both. *)
From S2P Require Import Prelude GoStrings GoCrypto GoUrl Secrets Cas Mfa OAuthStore Session RateLimit Identity Passwords Client Authorize Access AuditLog Http HttpWp JsonBodies Tokens TokensProps Browser BrowserProps CasEndpoints LogoutProps Services SignInProps Account OAuthStoreProps Server.
Local Open Scope Z_scope.
Local Open Scope string_scope.

Section Evidence.
Context `{HR : MapRange, HU : UnicodeTables, HM : MailParser, HS : TokenSigner, HA : Argon2}.
Context (cfg : Config) (rq : HttpRequest).

(** The session of the request, which comes from a page of the site. *)
Definition owner (current : Session) (past : list Did) : Prop :=
  signed_in rq current past ∧ validCSRF (TrimSpace (rq_CSRFHeader rq)) rq = true.
(** The user of that session, or the account found under its identifier. *)
Definition owned (u : string) (past : list Did) : Prop :=
  ∃ current, owner current past ∧
    (u = s_UserID current ∨ ∃ user, did (CUsersFind (s_UserID current)) (Ok user) ∈ past ∧ u = u_ID user).
(** The password of this user was given. *)
Definition password_shown (u : string) (past : list Did) : Prop := ∃ username password, password_right username password u past.
(** A reset token of this user was used up. *)
Definition reset_by (u : string) (past : list Did) : Prop := ∃ h now, did (CResetConsume h now) (Ok u) ∈ past.
Definition by_owner_or_reset (u : string) (past : list Did) : Prop := owned u past ∨ reset_by u past.
(** The hash that is replaced by a stronger one is of the password just given. *)
Definition rehashed (u : string) (past : list Did) : Prop :=
  ∃ username user credential password now, did (CPasswordFind username) (Ok (user, credential)) ∈ past ∧ u = pc_UserID credential ∧
    verifyStoredPassword (pc_Hash credential) password now = Ok (true, true).
(** Sessions were ended before. *)
Definition sessions_ended (past : list Did) : Prop :=
  (∃ u id, did (CSessionsRevokeForUser u id) (Ok ()) ∈ past) ∨ ∃ u except n, did (CSessionsRevokeAll u except) (Ok n) ∈ past.
(** The account stored has another e-mail address, and nothing else that is new. *)
Definition email_replaced (updated : User) (past : list Did) : Prop :=
  ∃ current user email now, owner current past ∧ did (CUsersFind (s_UserID current)) (Ok user) ∈ past ∧
    ReplacedUser user {| ru_DisplayName := u_DisplayName user; ru_Email := Some email; ru_Status := u_Status user |} now = Ok updated.
(** The account of the user, or the one stored in its place. *)
Definition own_account (u : string) (past : list Did) : Prop :=
  owned u past ∨ ∃ updated stored, email_replaced updated past ∧ did (CUsersReplace updated) (Ok stored) ∈ past ∧ u = u_ID stored.
(** Attempts at verifying an address are counted. *)
Definition verification_attempt (past : list Did) : Prop :=
  allowed "email.verification.source" (subject_of (rq_IPAddress rq)) past ∧
  ∃ u, owned u past ∧ allowed "email.verification.identity" (subject_of u) past.

(** What each call needs to have been shown before. *)
Definition account_guard (past : list Did) (q : Call) : Prop :=
  match q with
  | CPasswordFailure _ _ _ | CPasswordSuccess _ => ∃ u, owned u past
  | CPasswordSet u _ => owned u past ∧ password_shown u past ∨ rehashed u past ∧ (∃ v, owned v past) ∨ reset_by u past
  | CSessionsRevokeForUser u _ => owned u past
  | CSessionsRevokeAll u _ => by_owner_or_reset u past ∧ ∃ v hash, did (CPasswordSet v hash) (Ok ()) ∈ past
  | CStore (OpRevokeUserTokens u _ _) | CMfaDeleteDevices u => by_owner_or_reset u past
  | CStore (OpDeleteConsent u _ _) => owned u past
  | CStore (OpRevokeSessionTokens _ _ _) | CStore (OpDeleteOIDCClientSessions _) | CCas (CoDeleteServiceSessions _) => sessions_ended past
  | CSignTyped _ typ => typ = "logout+jwt"
  | CMfaReplacePending c _ => owned (cr_UserID c) past ∧ ∃ v, owned v past ∧ password_shown v past
  | CMfaUseTOTP u _ | CMfaUseRecoveryCode u _ | CMfaFailure u _ _ => owned u past ∧ password_shown u past
  | CMfaReplaceCodes u _ | CMfaDelete u => owned u past ∧ password_shown u past ∧ ∃ code, code_used cfg code u past
  | CMfaEnable u step _ => owned u past ∧ ∃ credential code now, did (CMfaFind u) (Ok credential) ∈ past ∧
                             matchTOTP (cfg_MFAService cfg) credential code now = Ok step
  | CMfaCountDevices u _ => ∃ current, signed_in rq current past ∧ u = s_UserID current
  | CUsersReplace updated => email_replaced updated past ∧ verification_attempt past
  | CVerificationSave t => own_account (ev_UserID t) past ∧ verification_attempt past
  | CVerificationUse _ u _ => owned u past ∧ verification_attempt past
  | CMail _ => verification_attempt past
  | CResetConsume _ _ => True
  | CSign _ | CStore _ | CCas _ | CSessionsCreate _ _ _ _ _ | CSessionsRevoke _ | CUsersRegister _ _ | CUsersResolve _ _
  | CResetSave _ | CMfaStoreDevice _ _ | CMfaRotateDevice _ _ _ _ _ => False
  | _ => True
  end.

Lemma plain_account past q : is_plain q = true → account_guard past q.
Proof. by destruct q. Qed.
Lemma read_account past q : is_read q = true → match q with CSign _ | CSignTyped _ _ => False | _ => True end → account_guard past q.
Proof. by destruct q. Qed.

(** Later calls keep the evidence. *)
Lemma owner_mono current past past' : past `prefix_of` past' → owner current past → owner current past'.
Proof. intros Hp []. split; [by eapply signed_in_mono|done]. Qed.
Lemma owned_mono u past past' : past `prefix_of` past' → owned u past → owned u past'.
Proof.
  intros Hp (current & Hc & Hu). exists current. split; [by eapply owner_mono|]. destruct Hu as [|(user & ? & ?)]; [by left|right].
  exists user. eauto using did_prefix.
Qed.
Lemma password_shown_mono u past past' : past `prefix_of` past' → password_shown u past → password_shown u past'.
Proof. intros Hp (name & pw & ?). exists name, pw. by eapply password_right_mono. Qed.
Lemma sessions_ended_mono past past' : past `prefix_of` past' → sessions_ended past → sessions_ended past'.
Proof. intros Hp [(u & id & ?)|(u & ex & n & ?)]; [left; exists u, id|right; exists u, ex, n]; eauto using did_prefix. Qed.
Lemma by_owner_or_reset_mono u past past' : past `prefix_of` past' → by_owner_or_reset u past → by_owner_or_reset u past'.
Proof. intros Hp [?|(h & now & ?)]; [left; by eapply owned_mono|right; exists h, now; eauto using did_prefix]. Qed.
Lemma code_used_mono code u past past' : past `prefix_of` past' → code_used cfg code u past → code_used cfg code u past'.
Proof.
  intros Hp (c & ? & ? & Hc). exists c. split_and!; [eauto using did_prefix|done|].
  destruct Hc as [(now & step & ? & ?)|?]; [left; exists now, step|right]; eauto using did_prefix.
Qed.
Lemma email_replaced_mono u past past' : past `prefix_of` past' → email_replaced u past → email_replaced u past'.
Proof. intros Hp (c & user & email & now & ? & ? & ?). exists c, user, email, now. eauto using did_prefix, owner_mono. Qed.
Lemma own_account_mono u past past' : past `prefix_of` past' → own_account u past → own_account u past'.
Proof.
  intros Hp [?|(up & st & ? & ? & ?)]; [left; by eapply owned_mono|right]. exists up, st. eauto using did_prefix, email_replaced_mono.
Qed.
Lemma verification_attempt_mono past past' : past `prefix_of` past' → verification_attempt past → verification_attempt past'.
Proof.
  intros Hp [? (u & ? & ?)]. split; [by eapply allowed_mono|]. exists u. split; [by eapply owned_mono|by eapply allowed_mono].
Qed.
End Evidence.

#[export] Hint Resolve owner_mono owned_mono password_shown_mono sessions_ended_mono by_owner_or_reset_mono code_used_mono
  email_replaced_mono own_account_mono verification_attempt_mono allowed_mono did_prefix : account.

(** * The handlers of [Account] make their calls in that order *)
Section Sound.
Context `{HR : MapRange, HU : UnicodeTables, HM : MailParser, HS : TokenSigner, HP : URLParser, HA : Argon2, HQ : QRCode}.
Context (cfg : Config) (rq : HttpRequest).
Abbreviation guard := (account_guard cfg rq).
Lemma account_plain past q : is_plain q = true → guard past q.
Proof. apply plain_account. Qed.
Hint Resolve account_plain : core.

(** A negation that was tested is resolved. *)
Ltac destruct_negb :=
  repeat match goal with
  | Hd : decide _ = _ |- _ => clear Hd
  | Hn : negb ?b = false |- _ => apply negb_false_iff in Hn; subst
  | Hn : negb ?b = true |- _ => apply negb_true_iff in Hn; subst
  end.

(** ** Parts *)

(** A reply that refuses. *)
Definition refuses (r : Reply) : Prop := (400 ≤ re_Status r)%Z.

Lemma wp_current_session past (post : list Did → Reply + Session → Prop) :
  (∀ past' r, past `prefix_of` past' →
     match r with inl e => refuses e | inr current => signed_in rq current past' end → post past' r) →
  wp guard past (requireCurrentSession rq) post.
Proof.
  intros Hpost. apply wp_bind, wp_session; [auto|]. intros past' r Hp Hr. apply wp_ret, Hpost; [done|].
  destruct r; [by apply Hr|done].
Qed.

Lemma wp_owner past (post : list Did → Reply + Session → Prop) :
  (∀ past' r, past `prefix_of` past' →
     match r with inl e => refuses e | inr current => owner rq current past' end → post past' r) →
  wp guard past (require_owner rq) post.
Proof.
  intros Hpost. unfold require_owner. apply wp_bind, wp_current_session. intros past' [r|c] Hp Hr; apply wp_ret, Hpost; try done.
  unfold requireAccountCSRF. destruct (validCSRF _ _) eqn:Ev; [by split|done].
Qed.

Lemma wp_json past members (post : list Did → Reply → Prop) :
  (∀ past' r, past `prefix_of` past' → post past' r) → wp guard past (json_page rq members) post.
Proof.
  intros Hpost. unfold json_page. apply wp_try, (wp_csrf guard); [auto|]. intros past' [r|csrf] Hp _; [by apply Hpost|]. by apply wp_ret, Hpost.
Qed.

Lemma wp_audit_event past ev (post : list Did → unit → Prop) :
  (∀ past', past `prefix_of` past' → post past' ()) → wp guard past (recordAudit rq ev) post.
Proof. apply wp_record. auto. Qed.

(** The password, for someone who is signed in. *)
Lemma wp_password past username password (post : list Did → Res identityError User → Prop) :
  (∃ u, owned rq u past) →
  (∀ past' r, past `prefix_of` past' → (∀ user, r = Ok user → password_right username password (u_ID user) past') → post past' r) →
  wp guard past (passwords_Authenticate username password) post.
Proof.
  intros Hown Hpost. apply wp_from, wp_frame. unfold passwords_Authenticate, wrong_password, right_password. wp_steps; try done.
  all: intros Hp.
  all: try (destruct Hown as [owner_id Hown]; exists owner_id; eapply owned_mono; [exact Hp|done]).
  all: try (right; left; split; [|destruct Hown as [owner_id Hown]; exists owner_id; eapply owned_mono; [exact Hp|done]]; destruct_negb; eexists _, _, _, _, _; split_and!; eauto with did; fail).
  all: apply Hpost; [done|]; intros user' Hok; try done; case_match; try done; injection Hok as <-; destruct_negb.
  all: eexists _, _, _, _; split_and!; [auto with did..|by apply dec_stable| |done]; intros t Ht; by rewrite Ht in *.
Qed.

(** A code, for a user whose password was given. *)
Lemma wp_second_code past userID code (post : list Did → Res mfaError unit → Prop) :
  owned rq userID past → password_shown userID past →
  (∀ past' r, past `prefix_of` past' → (r = Ok () → code_used cfg code userID past') → post past' r) →
  wp guard past (mfa_Verify (cfg_MFAService cfg) userID code) post.
Proof.
  intros Hown Hshown Hpost. apply wp_from, wp_frame. unfold mfa_Verify, mfa_fail. wp_steps; try done.
  all: intros Hp.
  all: try (split; [eapply owned_mono; [exact Hp|done]|eapply password_shown_mono; [exact Hp|done]]).
  all: apply Hpost; [done|]; intros Hok; try done; destruct_negb; try (by case_match).
  all: eexists; split_and!; [auto with did|done|].
  - left. eexists _, _. split; [eassumption|]. subst. auto with did.
  - right. match goal with u : unit |- _ => destruct u end. auto with did.
Qed.

(** Both, as [regenerateAccountMFARecoveryCodes] and [disableAccountMFA] ask. *)
Lemma wp_confirm past userID password (post : list Did → Reply + User → Prop) :
  owned rq userID past →
  (∀ past' r, past `prefix_of` past' →
     (∀ user, r = inr user → password_shown userID past' ∧ did (CUsersFind userID) (Ok user) ∈ past') → post past' r) →
  wp guard past (verifyAccountPassword userID password) post.
Proof.
  intros Hown Hpost. unfold verifyAccountPassword. apply wp_do; [done|]. intros [user|e]; [|apply wp_ret, Hpost; [pre|done]].
  apply wp_bind, wp_password.
  { exists userID. eapply owned_mono; [|done]. pre. }
  intros past' r Hp Hr. apply wp_ret, Hpost; [pre|]. intros user' Hok. destruct r as [v|]; [|done]. case_decide as Hid; [done|].
  injection Hok as ->. subst userID. split; [|eapply did_prefix; [exact Hp|]; auto with did].
  exists (u_Username user'), password. by apply Hr.
Qed.

Lemma wp_factors past userID input (post : list Did → Reply + Res mfaError unit → Prop) :
  owned rq userID past →
  (∀ past' r, past `prefix_of` past' →
     (r = inr (Ok ()) → password_shown userID past' ∧ ∃ code, code_used cfg code userID past') → post past' r) →
  wp guard past (require_factors cfg rq userID input) post.
Proof.
  intros Hown Hpost. unfold require_factors. apply wp_try, wp_bind, wp_confirm; [done|]. intros past1 [r|user] Hp1 Hr1; apply wp_ret; [by apply Hpost|].
  destruct (Hr1 user eq_refl) as [Hshown _].
  apply wp_try, wp_bind, (wp_mfa_attempt cfg guard); [auto|]. intros past2 [r|[]] Hp2 _; apply wp_ret; [apply Hpost; [pre|done]|].
  apply wp_bind, wp_second_code; [eapply owned_mono; [|done]; pre|by eapply password_shown_mono|].
  intros past3 r Hp3 Hr3. apply wp_ret, Hpost; [pre|]. intros [= ->]. split; [eapply password_shown_mono; [|done]; pre|].
  eexists. by apply Hr3.
Qed.

(** The attempts at an address. *)
Lemma wp_verification past userID (post : list Did → Reply + unit → Prop) :
  owned rq userID past →
  (∀ past' r, past `prefix_of` past' → (r = inr () → verification_attempt rq past') → post past' r) →
  wp guard past (allowEmailVerificationAttempt cfg rq userID) post.
Proof.
  intros Hown Hpost. unfold allowEmailVerificationAttempt. apply wp_try, wp_bind, (wp_attempt guard); [auto|].
  intros past1 [r|[]] Hp1 Hr1; apply wp_ret; [by apply Hpost|]. apply (wp_attempt guard); [auto|].
  intros past2 [r|[]] Hp2 Hr2; (apply Hpost; [pre|]); [done|]. intros _. split; [by eapply allowed_mono|].
  exists userID. split; [eapply owned_mono; [|done]; pre|done].
Qed.

(** A token that verifies an address, and its message. *)
Lemma wp_issue_verification past userID (post : list Did → Res identityError string → Prop) :
  own_account rq userID past → verification_attempt rq past → (∀ past' r, past `prefix_of` past' → post past' r) →
  wp guard past (verification_Issue userID (cfg_EmailVerificationTTL cfg)) post.
Proof.
  intros Hown Hatt Hpost. apply wp_from, wp_frame. unfold verification_Issue. wp_steps; try done; intros Hp; try by apply Hpost.
  split; [eapply own_account_mono; [exact Hp|done]|eapply verification_attempt_mono; [exact Hp|done]].
Qed.

Lemma wp_send_verification past user (post : list Did → bool → Prop) :
  own_account rq (u_ID user) past → verification_attempt rq past → (∀ past' r, past `prefix_of` past' → post past' r) →
  wp guard past (sendEmailVerification cfg user) post.
Proof.
  intros Hown Hatt Hpost. unfold sendEmailVerification. destruct (u_Email user) as [email|]; [|by apply Hpost].
  destruct (_ || _); [by apply Hpost|]. apply wp_bind, wp_issue_verification; [done..|]. intros past1 [t|e] Hp1; [|by apply Hpost].
  apply wp_do; [eapply verification_attempt_mono; [exact Hp1|done]|]. intros sent. apply wp_ret, Hpost. pre.
Qed.

Lemma wp_sent past userID sent (post : list Did → Reply → Prop) :
  (∀ past' r, past `prefix_of` past' → post past' r) → wp guard past (verification_sent rq userID sent) post.
Proof. intros Hpost. unfold verification_sent. destruct sent; apply wp_bind, wp_audit_event; intros past' Hp; by apply wp_ret, Hpost. Qed.

(** ** The end of sessions *)

Lemma wp_cleaned past sessions (post : list Did → unit → Prop) :
  sessions_ended past →
  (∀ past', past `prefix_of` past' →
     (∀ s, s ∈ sessions → tokens_revoked s past' ∧ (s.1 ≠ "" → applications_told s.1 past')) → post past' ()) →
  wp guard past (cleanupRevokedSessions cfg sessions) post.
Proof.
  intros Hended Hpost. apply wp_from. apply wp_cleanup; [|done]. intros past' q Hq Hp.
  assert (sessions_ended past') by (eapply sessions_ended_mono; [exact Hp|done]).
  destruct q; try done; [by destruct op|by apply bool_decide_eq_true in Hq|by destruct op].
Qed.

(** What is revoked with the password. *)
Definition credentials_revoked (u except : string) (past : list Did) : Prop :=
  (∃ revoked listed, did (CSessionsList u) listed ∈ past ∧ did (CSessionsRevokeAll u except) revoked ∈ past ∧
     ∀ l n, listed = Ok l → revoked = Ok n → ∀ s, s ∈ l → s_ID s ≠ except →
       tokens_revoked (s_ID s, s_UserID s) past ∧ (s_ID s ≠ "" → applications_told (s_ID s) past)) ∧
  (∃ now a, did (CStore (OpRevokeUserTokens u except now)) a ∈ past) ∧ ∃ n, did (CMfaDeleteDevices u) n ∈ past.

Lemma wp_revoke_credentials past u except (post : list Did → Z * Z → Prop) :
  by_owner_or_reset rq u past → (∃ v hash, did (CPasswordSet v hash) (Ok ()) ∈ past) →
  (∀ past' r, past `prefix_of` past' → credentials_revoked u except past' → post past' r) →
  wp guard past (revoke_credentials cfg u except) post.
Proof.
  intros Hby (v & hash & Hset) Hpost. unfold revoke_credentials, sessionsForRevocation. apply wp_bind, wp_do; [done|]. intros listed. apply wp_ret.
  apply wp_do; [split; [eapply by_owner_or_reset_mono; [|done]; pre|exists v, hash; auto with did]|]. intros revoked. apply wp_bind.
  set (past1 := (past ++ _ ++ _)%list) || set (past1 := ((past ++ _) ++ _)%list).
  enough (∀ past2, past1 `prefix_of` past2 →
    (∀ l n, listed = Ok l → revoked = Ok n → ∀ s, s ∈ l → s_ID s ≠ except →
       tokens_revoked (s_ID s, s_UserID s) past2 ∧ (s_ID s ≠ "" → applications_told (s_ID s) past2)) →
    wp guard past2 (let* now := CNow in let* _ := CStore (OpRevokeUserTokens u except now) in
      let* devices := CMfaDeleteDevices u in
      Ret (match revoked with Ok n => n | Err _ => 0%Z end, match devices with Ok n => n | Err _ => 0%Z end))%go post) as Hrest.
  { destruct revoked as [n|e].
    - apply wp_cleaned; [right; exists u, except, n; unfold past1; auto with did|]. intros past2 Hp2 Hall. apply Hrest; [done|].
      intros l n' -> _ s Hs Hne. refine (Hall (s_ID s, s_UserID s) _). apply list_elem_of_fmap. exists s. split; [done|].
      by apply list_elem_of_filter.
    - apply wp_ret, Hrest; [done|]. by intros. }
  intros past2 Hp2 Hall. assert (past `prefix_of` past2) as Hp by (etrans; [|exact Hp2]; unfold past1; pre).
  apply wp_do; [done|]. intros now. apply wp_do; [eapply by_owner_or_reset_mono; [|exact Hby]; pre|]. intros a.
  apply wp_do; [eapply by_owner_or_reset_mono; [|exact Hby]; pre|]. intros devices. apply wp_ret, Hpost; [pre|].
  assert (∀ d, d ∈ past1 → d ∈ past2) as Hin by (intros d; by apply did_prefix). unfold past1 in Hin.
  split_and!; [exists revoked, listed; split_and!; [auto 12 with did..|]|exists now, a; auto with did|exists devices; auto with did].
  intros l n Hl Hn s Hs Hne. destruct (Hall l n Hl Hn s Hs Hne) as [Ht Ha].
  split; [eapply tokens_revoked_mono; [|exact Ht]; pre|intros Hid; eapply applications_told_mono; [|exact (Ha Hid)]; pre].
Qed.

(** ** Handlers *)

Abbreviation anything := (λ _ _, True).

Lemma owner_owned current past : owner rq current past → owned rq (s_UserID current) past.
Proof. intros Hc. exists current. split; [done|by left]. Qed.
Hint Resolve owner_owned : account.

Lemma wp_accountPage : wp guard [] (accountPage rq) anything.
Proof. unfold accountPage. apply wp_bind, (wp_session guard); [auto|]. intros past [c|] Hp _; [|done]. by apply (wp_page guard); [auto|]. Qed.
Lemma wp_verifyEmailPage : wp guard [] (verifyEmailPage rq) anything.
Proof. unfold verifyEmailPage. apply wp_bind, (wp_session guard); [auto|]. intros past [c|] Hp _; [|done]. by apply (wp_page guard); [auto|]. Qed.

Lemma wp_getAccountProfile : wp guard [] (getAccountProfile rq) anything.
Proof.
  unfold getAccountProfile. apply wp_try, wp_current_session. intros past1 [r|c] Hp1 _; [done|]. apply wp_do; [done|].
  intros [user|e]; [by apply wp_json|done].
Qed.
Lemma wp_listAccountSessions : wp guard [] (listAccountSessions rq) anything.
Proof.
  unfold listAccountSessions. apply wp_try, wp_current_session. intros past1 [r|c] Hp1 _; [done|]. apply wp_do; [done|].
  intros [items|e]; [by apply wp_json|done].
Qed.
Lemma wp_listAccountConsents : wp guard [] (listAccountConsents rq) anything.
Proof.
  unfold listAccountConsents. apply wp_try, wp_current_session. intros past1 [r|c] Hp1 _; [done|]. apply wp_do; [done|].
  intros [items|e]; [|done]. apply wp_bind, (wp_collect _ _ _ _ (λ _ _ _, True)); [done|by intros; apply wp_do|]. intros past2 parts Hp2 _.
  by apply wp_json.
Qed.

Lemma wp_revokeAccountSession : wp guard [] (revokeAccountSession cfg rq) anything.
Proof.
  unfold revokeAccountSession. apply wp_try, wp_owner. intros past1 [r|c] Hp1 Hc; [done|].
  apply wp_do; [by apply owner_owned|]. intros [[]|[]]; [|done..].
  apply wp_bind, wp_cleaned; [left; eexists _, _; auto with did|]. intros past2 Hp2 _. by apply wp_bind, wp_audit_event.
Qed.
Lemma wp_revokeAccountConsent : wp guard [] (revokeAccountConsent rq) anything.
Proof.
  unfold revokeAccountConsent. apply wp_try, wp_owner. intros past1 [r|c] Hp1 Hc; [done|].
  apply wp_do; [done|]. intros now. apply wp_do; [eapply owned_mono; [|by apply owner_owned]; pre|].
  by intros [a|[]].
Qed.

(** The new password is stored, for a user whose password was given. *)
Lemma wp_change past userID username current new (post : list Did → Res identityError unit → Prop) :
  owned rq userID past →
  (∀ past' r, past `prefix_of` past' →
     (r = Ok () → password_right username current userID past' ∧
                  ∃ rnd hash, hashPassword new rnd = Ok hash ∧ did (CPasswordSet userID hash) (Ok ()) ∈ past') → post past' r) →
  wp guard past (passwords_Change userID username current new) post.
Proof.
  intros Hown Hpost. unfold passwords_Change. apply wp_bind, wp_password; [by exists userID|]. intros past1 [user|e] Hp1 Hr; [|by apply wp_ret, Hpost].
  destruct (decide _) as [|Hid]; [by apply wp_ret, Hpost|]. apply dec_stable in Hid. pose proof (Hr user eq_refl) as Hright. rewrite Hid in Hright.
  unfold passwords_Set, hash_password. destruct (decide _); [by apply wp_ret, Hpost|]. apply wp_do; [done|]. intros rnd. cbn [bind].
  destruct (hashPassword new rnd) as [hash|e] eqn:E; [|apply wp_ret, Hpost; [pre|done]]. apply wp_do.
  { left. split; [eapply owned_mono; [|done]; pre|]. exists username, current. eapply password_right_mono; [|done]. pre. }
  intros stored. apply wp_ret, Hpost; [pre|]. intros ->. split; [eapply password_right_mono; [|done]; pre|]. exists rnd, hash. auto with did.
Qed.

(** The password of the session's user was replaced, given the one it replaces, and all
    other credentials of the user revoked. *)
Definition changed (new userID sessionID : string) (past : list Did) : Prop :=
  ∃ current user password rnd hash, owner rq current past ∧ userID = s_UserID current ∧ sessionID = s_ID current ∧ did (CUsersFind (s_UserID current)) (Ok user) ∈ past ∧
    password_right (u_Username user) password (u_ID user) past ∧
    hashPassword new rnd = Ok hash ∧ did (CPasswordSet (u_ID user) hash) (Ok ()) ∈ past ∧
    credentials_revoked userID sessionID past.

Lemma credentials_revoked_mono u except past past' : past `prefix_of` past' → credentials_revoked u except past → credentials_revoked u except past'.
Proof.
  intros Hp ((revoked & listed & Hl & Hr & Hall) & (now & a & Ha) & n & Hn).
  split_and!; [exists revoked, listed; split_and!; [eauto using did_prefix..|]|exists now, a; eauto using did_prefix|exists n; eauto using did_prefix].
  intros l m Hl' Hm s Hs Hne. destruct (Hall l m Hl' Hm s Hs Hne) as [? Ht].
  split; [by eapply tokens_revoked_mono|intros Hid; eapply applications_told_mono; [done|by apply Ht]].
Qed.

Lemma wp_decode {T} past (d : Reply + T) (post : list Did → Reply → Prop) (k : T → Prog Reply) :
  (∀ r, d = inl r → post past r) → (∀ input, d = inr input → wp guard past (k input) post) → wp guard past (try (Ret d) k) post.
Proof. intros Hl Hr. apply wp_try, wp_ret. destruct d; auto. Qed.

Lemma decode_refuses names r : decode_or_problem names rq = inl r → refuses r.
Proof. unfold decode_or_problem. destruct (decode_strings _ _); [|done]. by intros [= <-]. Qed.

Lemma refuses_not r : refuses r → re_Status r ≠ 204.
Proof. unfold refuses. lia. Qed.
Hint Resolve refuses_not : core.

Lemma wp_changeAccountPassword :
  wp guard [] (changeAccountPassword cfg rq) (λ past r, re_Status r = 204 →
    ∃ input, decode_or_problem ["current_password"; "new_password"] rq = inr input ∧
      ∃ userID sessionID, changed (text_of input "new_password") userID sessionID past).
Proof.
  unfold changeAccountPassword. apply wp_try, wp_owner. intros past1 [r|c] Hp1 Hc; [by intros ?%refuses_not|].
  apply wp_do; [done|]. intros [user|e]; [|by apply wp_ret]. apply wp_decode; [by intros r Hr%decode_refuses ?%refuses_not|]. intros input Hin.
  set (past2 := (past1 ++ _)%list). assert (past1 `prefix_of` past2) as Hp2 by (unfold past2; pre).
  assert (owned rq (u_ID user) past2) as Huser.
  { exists c. split; [by eapply owner_mono|]. right. exists user. unfold past2. auto with did. }
  apply wp_bind, wp_change; [done|]. intros past3 [[]|e] Hp3 Hr.
  - destruct (Hr eq_refl) as [Hright (rnd & hash & Hhash & Hset)]. apply wp_bind, wp_revoke_credentials.
    + left. eapply owned_mono; [exact Hp3|]. exists c. split; [by eapply owner_mono|by left].
    + by exists (u_ID user), hash.
    + intros past4 counts Hp4 Hrev. apply wp_bind, wp_audit_event. intros past5 Hp5. apply wp_ret. intros _. exists input. split; [done|].
      exists (s_UserID c), (s_ID c), c, user, (text_of input "current_password"), rnd, hash.
      split_and!; [|done|done| | |done| |by eapply credentials_revoked_mono].
      * eapply owner_mono; [|exact Hc]. by do 3 (etrans; [|eassumption]).
      * eapply did_prefix; [|unfold past2; apply did_last]. by do 2 (etrans; [|eassumption]).
      * eapply password_right_mono; [|done]. by etrans.
      * eapply did_prefix; [|done]. by etrans.
  - destruct e; try (by apply wp_ret); apply wp_bind, wp_audit_event; intros past4 Hp4; by apply wp_ret.
Qed.

(** The password of a user who presented a reset token was replaced. *)
Definition was_reset (token new userID : string) (past : list Did) : Prop :=
  ∃ rnd hash now, did (CResetConsume (HashToken token) now) (Ok userID) ∈ past ∧
    hashPassword new rnd = Ok hash ∧ did (CPasswordSet userID hash) (Ok ()) ∈ past ∧ credentials_revoked userID "" past.

Lemma wp_resetAccountPassword :
  wp guard [] (resetAccountPassword cfg rq) (λ past r, re_Status r = 204 →
    ∃ input, decode_or_problem ["reset_token"; "new_password"] rq = inr input ∧
      ∃ userID, was_reset (text_of input "reset_token") (text_of input "new_password") userID past).
Proof.
  unfold resetAccountPassword. apply wp_decode; [by intros r Hr%decode_refuses ?%refuses_not|]. intros input Hin.
  set (token := text_of input "reset_token"). set (new := text_of input "new_password").
  assert (∀ past e, wp guard past
    match e with
    | ErrInvalidResetToken =>
        let+ _ := recordAudit rq (event "" "password.reset" "" OutcomeFailure {["reason" := VString "invalid_or_expired_token"]}) in
        Ret (writeProblem 400 "invalid_reset_token" "重置凭据无效或已过期")
    | e => Ret (writeProblem 400 "invalid_password" (identity_text e))
    end%go (λ past r, re_Status r = 204 → ∃ input, decode_or_problem ["reset_token"; "new_password"] rq = inr input ∧
      ∃ userID, was_reset (text_of input "reset_token") (text_of input "new_password") userID past)) as Hno.
  { intros past e. destruct e; try (by apply wp_ret). apply wp_bind, wp_audit_event. intros past' _. by apply wp_ret. }
  unfold passwords_Reset, hash_password. destruct (decide _); [apply (Hno _ ErrInvalidResetToken)|].
  destruct (decide _); [apply (Hno _ ErrPasswordLength)|]. apply wp_do; [done|]. intros rnd. cbn [bind].
  destruct (hashPassword new rnd) as [hash|e] eqn:E; [|apply (Hno _ e)]. apply wp_do; [done|]. intros now. apply wp_do; [done|].
  intros [userID|e]; [|apply (Hno _ ErrInvalidResetToken)].
  set (past1 := ((_ ++ _) ++ _)%list). assert (did (CResetConsume (HashToken token) now) (Ok userID) ∈ past1) as Hreset by apply did_last.
  apply wp_do; [right; right; by exists (HashToken token), now|]. intros [[]|e]; [|apply (Hno _ e)].
  apply wp_bind, wp_revoke_credentials; [right; exists (HashToken token), now; by apply did_before|exists userID, hash; apply did_last|].
  intros past2 counts Hp2 Hrev. apply wp_bind, wp_audit_event. intros past3 Hp3. apply wp_ret. intros _. exists input. split; [done|].
  exists userID, rnd, hash, now. assert (∀ d, d ∈ past1 ++ [did (CPasswordSet userID hash) (Ok ())] → d ∈ past3)%list as Hall.
  { intros d Hd. do 2 (eapply did_prefix; [eassumption|]). done. }
  split_and!; [by apply Hall, did_before|done|apply Hall, did_last|by eapply credentials_revoked_mono].
Qed.

Lemma wp_issueAccountEmailVerification : wp guard [] (issueAccountEmailVerification cfg rq) anything.
Proof.
  unfold issueAccountEmailVerification. apply wp_try, wp_owner. intros past1 [r|c] Hp1 Hc; [done|]. destruct (negb _); [done|].
  apply wp_try, wp_verification; [by apply owner_owned|]. intros past2 [r|[]] Hp2 Ha; [done|]. specialize (Ha eq_refl).
  apply wp_do; [done|]. intros [user|e]; [|done]. apply wp_bind, wp_issue_verification.
  - left. exists c. split; [eapply owner_mono; [|done]; pre|]. right. exists user. auto with did.
  - eapply verification_attempt_mono; [|exact Ha]. pre.
  - intros past3 [t|e] Hp3; [|by destruct e]. destruct (u_Email user); [|done]. apply wp_do; [eapply verification_attempt_mono; [|exact Ha]; pre|].
    intros sent. by apply wp_sent.
Qed.

Lemma wp_verifyAccountEmail : wp guard [] (verifyAccountEmail cfg rq) anything.
Proof.
  unfold verifyAccountEmail. apply wp_try, wp_owner. intros past1 [r|c] Hp1 Hc; [done|].
  apply wp_try, wp_verification; [by apply owner_owned|]. intros past2 [r|[]] Hp2 Ha; [done|]. specialize (Ha eq_refl).
  apply wp_decode; [done|]. intros input Hin. unfold verification_Verify. cbv zeta. destruct (decide _).
  - by apply wp_bind, wp_ret, wp_bind, wp_audit_event.
  - apply wp_bind, wp_do; [done|]. intros now. apply wp_do.
    + split; [|eapply verification_attempt_mono; [|exact Ha]; pre]. eapply owned_mono; [|by apply owner_owned]. pre.
    + intros [u|e]; apply wp_ret; by apply wp_bind, wp_audit_event.
Qed.

Lemma wp_changeAccountEmail : wp guard [] (changeAccountEmail cfg rq) anything.
Proof.
  unfold changeAccountEmail. apply wp_try, wp_owner. intros past1 [r|c] Hp1 Hc; [done|].
  apply wp_try, wp_verification; [by apply owner_owned|]. intros past2 [r|[]] Hp2 Ha; [done|]. specialize (Ha eq_refl).
  apply wp_decode; [done|]. intros input Hin. cbv zeta. set (email := TrimSpace _). destruct (decide _); [done|].
  apply wp_do; [done|]. intros [user|e]; [|done]. set (past3 := (past2 ++ _)%list).
  assert (owner rq c past3) as Hc3 by (eapply owner_mono; [|exact Hc]; unfold past3; pre).
  assert (verification_attempt rq past3) as Ha3 by (eapply verification_attempt_mono; [|exact Ha]; unfold past3; pre).
  destruct (same_email _ _).
  - destruct (u_EmailVerified user); [done|]. apply wp_bind, wp_send_verification; [|done|intros; by apply wp_sent].
    left. exists c. split; [done|]. right. exists user. unfold past3. auto with did.
  - unfold replace_email. apply wp_do; [done|]. intros now. destruct (ReplacedUser _ _ _) as [updated|e] eqn:E; [|done].
    assert (email_replaced rq updated (past3 ++ [did CNow now])) as Hrep.
    { exists c, user, email, now. split_and!; [eapply owner_mono; [|done]; pre|unfold past3; auto with did|done]. }
    apply wp_do; [split; [done|eapply verification_attempt_mono; [|done]; pre]|]. intros [stored|e]; [|by destruct e].
    apply wp_bind, wp_audit_event. intros past4 Hp4. apply wp_bind, wp_send_verification; [|eapply verification_attempt_mono; [|done]; pre|intros; by apply wp_sent].
    right. exists updated, stored. split_and!; [eapply email_replaced_mono; [|done]; pre|eapply did_prefix; [exact Hp4|]; auto with did|done].
Qed.

(** *** Second factors *)

Lemma wp_status past userID (post : list Did → Res mfaError Mfa.Status → Prop) :
  (∃ current, signed_in rq current past ∧ userID = s_UserID current) → (∀ past' r, past `prefix_of` past' → post past' r) →
  wp guard past (mfa_Status (cfg_MFAService cfg) userID) post.
Proof.
  intros (c & Hc & ->) Hpost. apply wp_from, wp_frame. unfold mfa_Status. wp_steps; try done; intros Hp; try by apply Hpost.
  exists c. split; [eapply signed_in_mono; [exact Hp|done]|done].
Qed.

Lemma wp_draw past n (post : list Did → Res mfaError (list string * list string) → Prop) :
  (∀ past' r, past `prefix_of` past' → post past' r) → wp guard past (draw_codes n) post.
Proof.
  revert past post. induction n as [|n IH]; intros past post Hpost; simpl; [by apply Hpost|]. split; [done|]. intros rnd.
  destruct (newRecoveryCode rnd) as [code|e]; [|apply Hpost; pre]. apply wp_bind, IH. intros past' r Hp. apply wp_ret, Hpost. pre.
Qed.

Lemma wp_setup past userID username (post : list Did → Res mfaError Setup → Prop) :
  owned rq userID past → (∃ v, owned rq v past ∧ password_shown v past) → (∀ past' r, past `prefix_of` past' → post past' r) →
  wp guard past (mfa_Setup (cfg_MFAService cfg) userID username) post.
Proof.
  intros Hown (v & Hv & Hshown) Hpost.
  assert (∀ past1, past `prefix_of` past1 → wp guard past1 (mfa_setup_pending (cfg_MFAService cfg) userID username) post) as Hpending.
  { intros past1 Hp1. unfold mfa_setup_pending. apply wp_do; [done|]. intros [secret|]; [|apply Hpost; pre]. apply wp_do; [done|].
    intros nonce. destruct (encrypt _ _ _ _) as [encrypted|e]; [|apply Hpost; pre]. apply wp_bind, wp_draw. intros past2 [[codes hashes]|e] Hp2; [|apply Hpost; pre].
    apply wp_do; [done|]. intros now. apply wp_do.
    - split; [eapply owned_mono; [|exact Hown]; pre|]. exists v. split; [eapply owned_mono; [|exact Hv]; pre|eapply password_shown_mono; [|exact Hshown]; pre].
    - intros stored. apply Hpost. pre. }
  unfold mfa_Setup. destruct (negb _); [by apply Hpost|]. apply wp_do; [done|]. intros [credential|e].
  - destruct (cr_Enabled credential); [apply Hpost; pre|apply Hpending; pre].
  - destruct e; try (apply Hpending; pre). all: apply Hpost; pre.
Qed.

Lemma wp_enable past userID code (post : list Did → Res mfaError unit → Prop) :
  owned rq userID past → (∀ past' r, past `prefix_of` past' → post past' r) →
  wp guard past (mfa_Enable (cfg_MFAService cfg) userID code) post.
Proof.
  intros Hown Hpost. apply wp_from, wp_frame. unfold mfa_Enable. wp_steps; try done; intros Hp; try by apply Hpost.
  split; [eapply owned_mono; [exact Hp|done]|]. eexists _, _, _. split; [|eassumption]. subst. auto with did.
Qed.

Lemma wp_regenerate past userID (post : list Did → Res mfaError (list string) → Prop) :
  owned rq userID past → password_shown userID past → (∃ code, code_used cfg code userID past) →
  (∀ past' r, past `prefix_of` past' → post past' r) → wp guard past (mfa_RegenerateRecoveryCodes userID) post.
Proof.
  intros Hown Hshown (code & Hcode) Hpost. unfold mfa_RegenerateRecoveryCodes. apply wp_do; [done|]. intros [credential|e]; [|apply Hpost; pre].
  destruct (negb _); [apply Hpost; pre|]. apply wp_bind, wp_draw. intros past1 [[codes hashes]|e] Hp1; [|apply Hpost; pre].
  apply wp_do; [|intros stored; apply Hpost; pre].
  split_and!; [eapply owned_mono; [|done]; pre|eapply password_shown_mono; [|done]; pre|exists code; eapply code_used_mono; [|done]; pre].
Qed.

Lemma wp_getAccountMFA : wp guard [] (getAccountMFA cfg rq) anything.
Proof.
  unfold getAccountMFA. apply wp_try, wp_current_session. intros past1 [r|c] Hp1 Hc; [done|]. apply wp_bind, wp_status; [by exists c|].
  intros past2 [status|e] Hp2; [by apply wp_json|done].
Qed.

Lemma wp_setupAccountMFA : wp guard [] (setupAccountMFA cfg rq) anything.
Proof.
  unfold setupAccountMFA. apply wp_try, wp_owner. intros past1 [r|c] Hp1 Hc; [done|]. apply wp_decode; [done|]. intros input Hin.
  apply wp_try, wp_confirm; [by apply owner_owned|]. intros past2 [r|user] Hp2 Hr; [done|]. destruct (Hr user eq_refl) as [Hshown Huser].
  assert (owner rq c past2) as Hc2 by (by eapply owner_mono).
  apply wp_bind, wp_setup.
  - exists c. split; [done|]. right. by exists user.
  - exists (s_UserID c). split; [by apply owner_owned|done].
  - intros past3 [setup|e] Hp3; [|by destruct e]. destruct (enrollmentQRCodeRows _); [|done]. by apply wp_bind, wp_audit_event.
Qed.

Lemma wp_enableAccountMFA : wp guard [] (enableAccountMFA cfg rq) anything.
Proof.
  unfold enableAccountMFA. apply wp_try, wp_owner. intros past1 [r|c] Hp1 Hc; [done|]. apply wp_decode; [done|]. intros input Hin.
  apply wp_bind, wp_enable; [by apply owner_owned|]. intros past2 [[]|e] Hp2; by apply wp_bind, wp_audit_event.
Qed.

Lemma wp_regenerateAccountMFARecoveryCodes : wp guard [] (regenerateAccountMFARecoveryCodes cfg rq) anything.
Proof.
  unfold regenerateAccountMFARecoveryCodes. apply wp_try, wp_owner. intros past1 [r|c] Hp1 Hc; [done|]. apply wp_decode; [done|]. intros input Hin.
  apply wp_try, wp_factors; [by apply owner_owned|]. intros past2 [r|[[]|e]] Hp2 Hr; [done| |by apply wp_bind, wp_audit_event].
  destruct (Hr eq_refl) as [Hshown Hcode]. apply wp_bind, wp_regenerate; [eapply owned_mono; [|by apply owner_owned]; pre|done|done|].
  intros past3 [codes|e] Hp3; [by apply wp_bind, wp_audit_event|by destruct e].
Qed.

Lemma wp_disableAccountMFA : wp guard [] (disableAccountMFA cfg rq) anything.
Proof.
  unfold disableAccountMFA. apply wp_try, wp_owner. intros past1 [r|c] Hp1 Hc; [done|]. apply wp_decode; [done|]. intros input Hin.
  apply wp_try, wp_factors; [by apply owner_owned|]. intros past2 [r|[[]|e]] Hp2 Hr; [done| |done].
  destruct (Hr eq_refl) as [Hshown Hcode]. apply wp_do; [split_and!; [eapply owned_mono; [|by apply owner_owned]; pre|done|done]|].
  intros [[]|e]; cbv zeta; [by apply wp_bind, wp_audit_event|]. by destruct e.
Qed.

Lemma wp_revokeAccountMFATrustedDevices : wp guard [] (revokeAccountMFATrustedDevices rq) anything.
Proof.
  unfold revokeAccountMFATrustedDevices. apply wp_try, wp_owner. intros past1 [r|c] Hp1 Hc; [done|].
  apply wp_do; [left; by apply owner_owned|]. intros [n|e]; [|done]. by apply wp_bind, wp_audit_event.
Qed.
End Sound.

(** ** The endpoints *)

Inductive AccountEndpoint :=
| AccountPage | VerifyEmailPage | AccountProfile | AccountSessions | AccountConsents | RevokeAccountSession | RevokeAccountConsent
| ChangePassword | ResetPassword | IssueEmailVerification | VerifyAccountEmail | ChangeEmail
| AccountMFA | SetupMFA | EnableMFA | RegenerateRecoveryCodes | DisableMFA | RevokeMFADevices.

Section Endpoints.
Context `{HR : MapRange, HU : UnicodeTables, HM : MailParser, HS : TokenSigner, HA : Argon2, HQ : QRCode}.
Context (cfg : Config).

Definition account_handler (e : AccountEndpoint) (rq : HttpRequest) : Prog Reply :=
  match e with
  | AccountPage => accountPage rq
  | VerifyEmailPage => verifyEmailPage rq
  | AccountProfile => getAccountProfile rq
  | AccountSessions => listAccountSessions rq
  | AccountConsents => listAccountConsents rq
  | RevokeAccountSession => revokeAccountSession cfg rq
  | RevokeAccountConsent => revokeAccountConsent rq
  | ChangePassword => changeAccountPassword cfg rq
  | ResetPassword => resetAccountPassword cfg rq
  | IssueEmailVerification => issueAccountEmailVerification cfg rq
  | VerifyAccountEmail => verifyAccountEmail cfg rq
  | ChangeEmail => changeAccountEmail cfg rq
  | AccountMFA => getAccountMFA cfg rq
  | SetupMFA => setupAccountMFA cfg rq
  | EnableMFA => enableAccountMFA cfg rq
  | RegenerateRecoveryCodes => regenerateAccountMFARecoveryCodes cfg rq
  | DisableMFA => disableAccountMFA cfg rq
  | RevokeMFADevices => revokeAccountMFATrustedDevices rq
  end.

Lemma wp_anything {A} (φ : list Did → Call → Prop) past (p : Prog A) post : wp φ past p post → wp φ past p (λ _ _, True).
Proof. apply wp_mono; [by intros past' q Hq|by intros]. Qed.

Lemma wp_account e rq : wp (account_guard cfg rq) [] (account_handler e rq) (λ _ _, True).
Proof.
  destruct e.
  - exact (wp_accountPage cfg rq).
  - exact (wp_verifyEmailPage cfg rq).
  - exact (wp_getAccountProfile cfg rq).
  - exact (wp_listAccountSessions cfg rq).
  - exact (wp_listAccountConsents cfg rq).
  - exact (wp_revokeAccountSession cfg rq).
  - exact (wp_revokeAccountConsent cfg rq).
  - exact (wp_anything _ _ _ _ (wp_changeAccountPassword cfg rq)).
  - exact (wp_anything _ _ _ _ (wp_resetAccountPassword cfg rq)).
  - exact (wp_issueAccountEmailVerification cfg rq).
  - exact (wp_verifyAccountEmail cfg rq).
  - exact (wp_changeAccountEmail cfg rq).
  - exact (wp_getAccountMFA cfg rq).
  - exact (wp_setupAccountMFA cfg rq).
  - exact (wp_enableAccountMFA cfg rq).
  - exact (wp_regenerateAccountMFARecoveryCodes cfg rq).
  - exact (wp_disableAccountMFA cfg rq).
  - exact (wp_revokeAccountMFATrustedDevices cfg rq).
Qed.

End Endpoints.

(** * What a new password ends

    What it ends: the other sessions of the user, its grants and its trusted
    devices, whatever other requests do meanwhile. *)
Local Open Scope Z_scope.

Section Works.
Context `{HR : MapRange, HU : UnicodeTables, HM : MailParser, HS : TokenSigner, HA : Argon2, HQ : QRCode}.
Context (cfg : Config).

(** ** The sessions during a run *)

Lemma read_random_same w : w_sessions (read_random w).1 = w_sessions w ∧ w_now (read_random w).1 = w_now w.
Proof. unfold read_random. by destruct (w_random w). Qed.

Lemma perform_now w q : w_now (perform w q).1 = w_now w.
Proof.
  pose proof (perform_aside w q) as Ha. destruct q; try (apply (as_now _ _ Ha)); clear Ha;
    simpl; try reflexivity; repeat case_match; simpl; rewrite ?(proj2 (read_random_same _)); done.
Qed.

(** Every call but the creation of a session keeps the sessions there are. *)
Definition opens_none (q : Call) : Prop := match q with CSessionsCreate _ _ _ _ _ => False | _ => True end.

Lemma perform_kept w q : opens_none q → sessions_kept (w_sessions w) (w_sessions (perform w q).1).
Proof.
  pose proof (perform_aside w q) as Ha.
  destruct q; intros Hq; try done; try (by rewrite (as_sessions _ _ Ha)); clear Ha;
    simpl; repeat case_match; simpl; rewrite ?(proj1 (read_random_same _)); try reflexivity.
  - apply (session_step_kept _ (SoFind HR token (w_now w))). done.
  - apply (session_step_kept _ (SoRevoke id (w_now w))). done.
  - apply (session_step_kept _ (SoRevokeForUser userID id (w_now w))). done.
  - apply (session_step_kept _ (SoRevokeAll HR userID exceptID (w_now w))). done.
Qed.

(** Time passes, sessions stay or end, the grant store grows. *)
Definition goes_on (w w' : World) : Prop :=
  w_now w ≤ w_now w' ∧ sessions_kept (w_sessions w) (w_sessions w') ∧ store_le (w_oauth w) (w_oauth w').
#[export] Instance goes_on_po : PreOrder goes_on.
Proof.
  split; [by intros w|]. intros w1 w2 w3 (? & ? & ?) (? & ? & ?). split_and!; [lia|by etrans..].
Qed.

Lemma perform_goes_on w q : opens_none q → goes_on w (perform w q).1.
Proof. intros Hq. split_and!; [by rewrite perform_now|by apply perform_kept|apply perform_store_le]. Qed.

(** Every session of the user but one is revoked or has expired. *)
Definition others_ended (userID except : string) (w w' : World) : Prop :=
  ∀ id rec, table (w_sessions w) !! id = Some rec → s_UserID (mr_Session rec) = userID → id ≠ except →
    SessionIsActive (w_sessions w') userID id (w_now w') = Ok false.

Lemma revoked_all_ends userID except w w1 w' :
  keyed (table (w_sessions w)) → goes_on w w1 → goes_on (perform w1 (CSessionsRevokeAll userID except)).1 w' →
  others_ended userID except w w'.
Proof.
  intros Hk (_ & H1 & _) (Hnow & H2 & _) id rec Hid Hu Hne. destruct (H1 Hk) as [Hk1 Ht1]. destruct (Ht1 id rec Hid) as (rec1 & Hid1 & _ & _ & Hu1 & _).
  unfold SessionIsActive. case_decide as Hempty; [done|]. assert (userID ≠ ""%string) as Huser by (intros ->; apply Hempty; by left).
  rewrite perform_now in Hnow.
  pose proof (ends_ended (w_sessions w1) (SoRevokeAll HR userID except (w_now w1)) _ Hk1 eq_refl) as Hend. simpl in Hend, H2.
  assert (is_ok (RevokeAllSessions (w_sessions w1) userID except (w_now w1)).2 = true) as Hok.
  { unfold RevokeAllSessions. rewrite decide_False by done. unfold RevokeAll. by destruct (foldl _ _ _). }
  specialize (Hend Hok). pose proof (keyed_step (w_sessions w1) (SoRevokeAll HR userID except (w_now w1)) Hk1) as Hk2.
  pose proof (session_step_kept (w_sessions w1) (SoRevokeAll HR userID except (w_now w1)) I) as H12. simpl in H12, Hk2.
  destruct (proj2 (H12 Hk1) id rec1 Hid1) as (rec2 & Hid2 & _ & _ & Hu2 & _).
  destruct (proj2 (H2 Hk2) id rec2 Hid2) as (rec3 & Hid3 & _ & _ & Hu3 & Hexp & Hst).
  assert (mr_revokedAt rec2 ≠ None ∨ s_ExpiresAt (mr_Session rec2) ≤ w_now w1) as Hdead.
  { apply (Hend id rec2 Hid2). apply bool_decide_eq_true. split; [congruence|done]. }
  unfold IsActive. rewrite Hid3. f_equal. apply bool_decide_eq_false. intros (_ & Hrev & Hlive%After_true).
  destruct Hdead as [Hd|Hd]; [by apply Hst in Hd|]. rewrite Hexp in Hlive. lia.
Qed.

(** The grants of a user outside one session. *)
Definition other_grants (userID except : string) : Matches :=
  λ u s _, bool_decide (u = userID) && (bool_decide (except = ""%string) || bool_decide (s ≠ except)).

Lemma guard_opens_none rq past q : account_guard cfg rq past q → opens_none q.
Proof. by destruct q. Qed.

Lemma credentials_end rely e rq w tr w' r userID except :
  (∀ w1 w2, rely w1 w2 → goes_on w1 w2) → keyed (table (w_sessions w)) → runs rely (account_handler cfg e rq) w tr w' r →
  credentials_revoked userID except tr →
  others_ended userID except w w' ∧ grants_dead (other_grants userID except) (w_oauth w) (w_oauth w').
Proof.
  intros Hrely Hk Hr ((revoked & _ & _ & Hall & _) & (now & a & Hrevoke) & _).
  destruct (wp_runs _ _ _ _ _ _ _ _ (wp_account cfg e rq) Hr) as [_ Hguard].
  destruct (runs_within goes_on opens_none rely _ _ _ _ _ Hrely perform_goes_on Hr) as [_ Hcalls].
  { intros q x (before & after & ->)%list_elem_of_split. by eapply guard_opens_none, Hguard. }
  split.
  - destruct (Hcalls _ _ Hall) as (w1 & H1 & _ & H2). by eapply revoked_all_ends.
  - destruct (Hcalls _ _ Hrevoke) as (w1 & _ & Hp & _). simpl in Hp.
    eapply (runs_kill rely _ _ _ _ _ (OpRevokeUserTokens userID except now) _ _ (λ w1 w2 H, proj2 (proj2 (Hrely w1 w2 H))) Hr);
      [reflexivity|exact Hrevoke|by rewrite <- Hp].
Qed.

End Works.
