(* ===== verification/AdminAuth.v ===== *)
(** Who may administer: the credentials of an administrator, the audit of what they ask
    for, the protection of administrators' accounts and the roles of administrators
    ([internal/platform/http/admin_auth.go], [audit.go]). *)
From S2P Require Import Prelude GoStrings GoCrypto GoTime Administration Cas Mfa Session RateLimit OAuthStore Client Identity Authorize GoUrl Access AuditLog Http JsonBodies Tokens Browser Account.
Local Open Scope Z_scope.
Local Open Scope string_scope.
Local Open Scope go_scope.

(** [internal/platform/http/admin_auth.go:18-21] adminAuthSession *)
Definition adminAuthSession : string := "session".
Definition adminAuthEmergencyToken : string := "emergency_token".

(** [internal/platform/http/admin_auth.go:23-26] adminPrincipal *)
Record adminPrincipal := { ap_Access : Administration.Access; ap_AuthMethod : string }.

(** [internal/platform/http/admin_auth.go:138-143] grantedBy *)
Definition grantedBy (p : adminPrincipal) : string :=
  let userID := Administration.ac_UserID (ap_Access p) in
  if decide (userID ≠ "") then userID else adminAuthEmergencyToken.

(** [internal/platform/http/admin_auth.go:103-107] administratorMFA *)
Definition administratorMFA (current : Session) : bool :=
  bool_decide (s_AssuranceLevel current = "urn:certus:aal:2") &&
  (Contains (s_AuthMethods current) "otp" || Contains (s_AuthMethods current) "trusted_device").

(** [internal/platform/http/admin_auth.go:109-114] isMutation *)
Definition isMutation (method : string) : bool :=
  bool_decide (method = "POST" ∨ method = "PUT" ∨ method = "PATCH" ∨ method = "DELETE").

(** [internal/platform/http/admin_auth.go:322-329] grantsContainRole *)
Definition grantsContainRole (grants : list Grant) (role : string) : bool :=
  existsb (λ g, bool_decide (gr_Role g = role)) grants.

(** ** The audit of administrators *)

(** [internal/platform/http/audit.go:65-74] recordAudit, what it adds for an administrator *)
Definition by_administrator (p : adminPrincipal) (e : Event) : Event :=
  let userID := Administration.ac_UserID (ap_Access p) in
  {| ev_ID := ev_ID e; ev_OccurredAt := ev_OccurredAt e;
     ev_ActorUserID := match ev_ActorUserID e with Some actor => Some actor | None => if decide (userID ≠ "") then Some userID else None end;
     ev_EventType := ev_EventType e; ev_ClientID := ev_ClientID e; ev_IPAddress := ev_IPAddress e; ev_RequestID := ev_RequestID e;
     ev_Outcome := ev_Outcome e; ev_Details := <["admin_auth_method" := VString (ap_AuthMethod p)]> (ev_Details e) |}.
Definition recordAdminAudit (rq : HttpRequest) (p : adminPrincipal) (e : Event) : Prog unit := recordAudit rq (by_administrator p e).
(** An event that succeeded, about a client when it is one. *)
Definition admin_event (eventType clientID : string) (details : Claims) : Event := event "" eventType clientID OutcomeSuccess details.

(** [internal/platform/http/audit.go:33-69] auditMutations, around a handler that tells which administrator was
    let in *)
Definition auditMutations (rq : HttpRequest) (next : Prog (option adminPrincipal * Reply)) : Prog Reply :=
  let+ served := next in
  let reply := served.2 in
  if negb (HasPrefix (rq_Path rq) "/api/v1/admin/") ||
     negb (bool_decide (rq_Method rq = "POST" ∨ rq_Method rq = "PUT" ∨ rq_Method rq = "DELETE")) ||
     bool_decide (re_Status reply = re_Status panicked)
  then Ret reply
  else
    let method := match served.1 with Some p => ap_AuthMethod p | None => "" end in
    let outcome := if decide (400 ≤ re_Status reply)%Z then OutcomeFailure else OutcomeSuccess in
    let e := event "" "admin.request" "" outcome
               (<["method" := VString (rq_Method rq)]> (<["path" := VString (rq_Path rq)]> (<["status" := VInt (re_Status reply)]>
                {["admin_auth_method" := VString method]}))) in
    let+ _ := recordAudit rq (match served.1 with Some p => by_administrator p e | None => e end) in
    Ret reply.

Section AdminAuth.
Context `{HR : MapRange, HU : UnicodeTables, HM : MailParser, HS : TokenSigner}.
Context (cfg : Config).

(** ** Credentials *)

(** [internal/platform/http/admin_auth.go:94-101] validEmergencyAdminToken *)
Definition validEmergencyAdminToken (supplied : string) : bool :=
  if decide (cfg_AdminToken cfg = "" ∨ supplied = "") then false
  else bool_decide (sha256 (bytes (cfg_AdminToken cfg)) = sha256 (bytes supplied)).

(** [internal/platform/http/admin_auth.go:62-92] authenticateAdministrator *)
Definition authenticateAdministrator (rq : HttpRequest) (permission : string) : Prog (Reply + adminPrincipal) :=
  let authorization := TrimSpace (rq_Authorization rq) in
  if decide (authorization ≠ "") then
    if negb (HasPrefix authorization "Bearer ") || negb (validEmergencyAdminToken (TrimSpace (TrimPrefix authorization "Bearer ")))
    then Ret (inl (writeProblem 401 "unauthorized" "管理员应急凭据无效"))
    else Ret (inr {| ap_Access := AccessFor "" [RoleSuperAdmin]; ap_AuthMethod := adminAuthEmergencyToken |})
  else
    let+ current := currentSession rq in
    match current with
    | None => Ret (inl (writeProblem 401 "unauthorized" "需要有效的管理员登录会话"))
    | Some current =>
        let* access := CAdmin (AcEffective (s_UserID current)) in
        Ret match access with
            | Err _ => inl (writeProblem 500 "server_error" "读取管理员权限失败")
            | Ok access =>
                if bool_decide (ac_Roles access = []) || negb (Has access permission)
                then inl (writeProblem 403 "insufficient_permission" "当前账号没有执行此操作的管理员权限")
                else if negb (administratorMFA current)
                then inl (writeProblem 403 "admin_mfa_required" "管理员必须使用多因素认证登录")
                else inr {| ap_Access := access; ap_AuthMethod := adminAuthSession |}
            end
    end.

(** [internal/platform/http/admin_auth.go:38-60] requireAdmin *)
Definition requireAdmin (rq : HttpRequest) (permission : string) (next : adminPrincipal → Prog Reply)
    : Prog (option adminPrincipal * Reply) :=
  let+ principal := authenticateAdministrator rq permission in
  match principal with
  | inl problem => Ret (None, problem)
  | inr principal =>
      if bool_decide (ap_AuthMethod principal = adminAuthSession) && isMutation (rq_Method rq) && negb (validCSRF (rq_CSRFHeader rq) rq)
      then Ret (None, writeProblem 403 "invalid_csrf" "管理页面已失效，请刷新后重试")
      else let+ r := next principal in Ret (Some principal, r)
  end.

(** ** Users an administrator acts on *)

Definition no_user : Reply := writeProblem 404 "not_found" "用户不存在".
Definition user_unreadable : Reply := writeProblem 500 "server_error" "读取用户失败".

(** [internal/platform/http/account.go:384-398] adminSessionUser; [accessUser] is the same. *)
Definition adminSessionUser (rq : HttpRequest) : Prog (Reply + string) :=
  let userID := path_value rq "userID" in
  if negb (ValidUserID userID) then Ret (inl no_user)
  else
    let* user := CUsersFind userID in
    Ret match user with
        | Err UserNotFound => inl no_user
        | Err _ => inl user_unreadable
        | Ok _ => inr userID
        end.
(** [internal/platform/http/access.go:467-482] accessUser *)
Definition accessUser (rq : HttpRequest) : Prog (Reply + string) := adminSessionUser rq.

(** [internal/platform/http/admin_auth.go:248-268] authorizeSensitiveAdministratorTarget *)
Definition authorizeSensitiveAdministratorTarget (p : adminPrincipal) (userID : string) : Prog (Reply + unit) :=
  let* grants := CAdmin (AcUserRoles userID) in
  Ret match grants with
      | Err _ => inl (writeProblem 500 "server_error" "读取管理员角色失败")
      | Ok grants =>
          if decide (grants = []) then inr ()
          else if Has (ap_Access p) PermissionAdminRolesWrite then inr ()
          else inl (writeProblem 403 "protected_administrator" "只有超级管理员可以修改管理员账号的安全状态")
      end.

(** [internal/platform/http/admin_auth.go:304-319] ensureOtherActiveSuperAdministrator, the loop *)
Fixpoint other_active (excludedUserID : string) (userIDs : list string) : Prog (bool + unit) :=
  match userIDs with
  | [] => Ret (inl true)
  | userID :: rest =>
      if decide (userID = excludedUserID) then other_active excludedUserID rest
      else
        let* user := CUsersFind userID in
        match user with
        | Err UserNotFound => other_active excludedUserID rest
        | Err _ => Ret (inl false)
        | Ok user => if decide (u_Status user = UserActive) then Ret (inr ()) else other_active excludedUserID rest
        end
  end.
(** [internal/platform/http/admin_auth.go:296-320] ensureOtherActiveSuperAdministrator: an error tells whether it
    is [ErrLastSuperAdmin]. *)
Definition ensureOtherActiveSuperAdministrator (excludedUserID : string) : Prog (bool + unit) :=
  let* userIDs := CAdmin (AcRoleUsers RoleSuperAdmin) in
  match userIDs with
  | Err e => Ret (inl (bool_decide (e = ErrLastSuperAdmin)))
  | Ok userIDs => other_active excludedUserID userIDs
  end.
(** What its two callers reply, the last administrator being reported in their words. *)
Definition require_other_administrator (excludedUserID detail : string) : Prog (Reply + unit) :=
  let+ checked := ensureOtherActiveSuperAdministrator excludedUserID in
  Ret match checked with
      | inl true => inl (writeProblem 409 "last_super_admin" detail)
      | inl false => inl (writeProblem 500 "server_error" "检查超级管理员可用性失败")
      | inr _ => inr ()
      end.

(** [internal/platform/http/admin_auth.go:270-294] authorizeAdministratorDeactivation *)
Definition authorizeAdministratorDeactivation (p : adminPrincipal) (userID : string) : Prog (Reply + unit) :=
  try+ _ := pass (authorizeSensitiveAdministratorTarget p userID) in
  let* grants := CAdmin (AcUserRoles userID) in
  match grants with
  | Err _ => Ret (inl (writeProblem 500 "server_error" "读取管理员角色失败"))
  | Ok grants =>
      if negb (grantsContainRole grants RoleSuperAdmin) then Ret (inr ())
      else require_other_administrator userID "不能停用最后一个可登录的超级管理员"
  end.

(** ** The roles of administrators *)

(** [internal/administration/administration.go:49-54] RoleDefinition, as JSON *)
Definition definition_members (d : RoleDefinition) : list (string * Value) :=
  [("code", VString (rd_Code d)); ("name", VString (rd_Name d)); ("description", VString (rd_Description d));
   ("permissions", VStrings (rd_Permissions d))].
(** [internal/administration/administration.go:56-61] Grant, as JSON *)
Definition grant_members (g : Grant) : list (string * Value) :=
  [("user_id", VString (gr_UserID g)); ("role", VString (gr_Role g)); ("granted_at", VTime (gr_GrantedAt g));
   ("granted_by", VString (gr_GrantedBy g))].

(** [internal/platform/http/admin_auth.go:145-167] adminMe *)
Definition adminMe (rq : HttpRequest) (p : adminPrincipal) : Prog Reply :=
  let answer (user : Value) : Prog Reply :=
    json_page rq (<["user" := user]> (<["roles" := VStrings (ac_Roles (ap_Access p))]>
      (<["permissions" := VStrings (ac_Permissions (ap_Access p))]> {["auth_method" := VString (ap_AuthMethod p)]}))) in
  let userID := Administration.ac_UserID (ap_Access p) in
  if decide (userID ≠ "") then
    let* user := CUsersFind userID in
    match user with
    | Err _ => Ret (writeProblem 401 "unauthorized" "管理员账号不可用")
    | Ok user => answer (user_json user)
    end
  else answer VNull.

(** [internal/platform/http/admin_auth.go:169-171] listAdministratorRoleDefinitions *)
Definition listAdministratorRoleDefinitions : Reply := items definition_members Definitions.

(** [internal/platform/http/admin_auth.go:173-185] listUserAdministratorRoles *)
Definition listUserAdministratorRoles (rq : HttpRequest) : Prog Reply :=
  try+ userID := accessUser rq in
  let* grants := CAdmin (AcUserRoles userID) in
  Ret match grants with
      | Err _ => writeProblem 500 "server_error" "读取管理员角色失败"
      | Ok grants => items grant_members grants
      end.

(** [internal/platform/http/admin_auth.go:217-245] replaceUserAdministratorRoles, the call of the repository and
    what follows it *)
Definition store_administrator_roles (rq : HttpRequest) (p : adminPrincipal) (userID : string) (roles : list string) : Prog Reply :=
  let* now := CNow in
  let* replaced := CAdmin (AcReplace userID roles (grantedBy p) now) in
  match replaced with
  | Err AdminNotFound => Ret no_user
  | Err ErrLastSuperAdmin => Ret (writeProblem 409 "last_super_admin" "不能移除最后一个超级管理员")
  | Err _ => Ret (writeProblem 500 "server_error" "更新管理员角色失败")
  | Ok _ =>
      let+ _ := recordAdminAudit rq p (admin_event "admin.roles.replaced" "" (<["user_id" := VString userID]> {["roles" := VStrings roles]})) in
      let* grants := CAdmin (AcUserRoles userID) in
      Ret match grants with
          | Err _ => writeProblem 500 "server_error" "读取更新后的管理员角色失败"
          | Ok grants => items grant_members grants
          end
  end.

(** [internal/platform/http/admin_auth.go:187-246] replaceUserAdministratorRoles; what follows the kind of an
    error in its text is left out of a problem. *)
Definition replaceUserAdministratorRoles (rq : HttpRequest) (p : adminPrincipal) : Prog Reply :=
  try+ userID := accessUser rq in
  match decode_fields [texts "roles"] rq with
  | inl message => Ret (writeProblem 400 "invalid_request" message)
  | inr input =>
      let roles := get_texts input "roles" in
      match ValidateRoles roles with
      | Err _ => Ret (writeProblem 400 "invalid_admin_roles" "invalid administrator role")
      | Ok _ =>
          let* current := CAdmin (AcUserRoles userID) in
          match current with
          | Err _ => Ret (writeProblem 500 "server_error" "读取当前管理员角色失败")
          | Ok current =>
              if grantsContainRole current RoleSuperAdmin && negb (HasRole roles RoleSuperAdmin)
              then try+ _ := require_other_administrator userID "不能移除最后一个可登录的超级管理员" in
                   store_administrator_roles rq p userID roles
              else store_administrator_roles rq p userID roles
          end
      end
  end.
End AdminAuth.
