(* ===== verification/AdminUsers.v ===== *)
(** The accounts as administrators see and change them
    ([internal/platform/http/admin_users.go], [admin_external_identities.go], and the
    parts of [account.go], [auth.go], [mfa.go] and [email_verification.go] that act on the
    accounts of others). *)
From S2P Require Import Prelude GoStrings GoCrypto GoTime Administration Cas Mfa Session RateLimit OAuthStore Client Identity Passwords Authorize GoUrl Access AuditLog Http JsonBodies Tokens Browser Services Account AdminAuth.
Local Open Scope Z_scope.
Local Open Scope string_scope.
Local Open Scope go_scope.

(** [internal/platform/http/admin_users.go:207-217] queryInt *)
Definition queryInt (rq : HttpRequest) (name : string) (fallback minimum maximum : Z) : string + Z :=
  let raw := Get (rq_Query rq) name in
  if decide (raw = "") then inr fallback
  else match ParseInt raw 64 with
       | Some value => if decide (value < minimum ∨ value > maximum)%Z then inl (name +:+ " 超出允许范围") else inr value
       | None => inl (name +:+ " 超出允许范围")
       end.

(** A page of a list: [limit] and [offset] of the query. *)
Definition query_page (rq : HttpRequest) (limit most : Z) : Reply + (Z * Z) :=
  let bad message := inl (writeProblem 400 "invalid_request" message) in
  match queryInt rq "limit" limit 1 most with
  | inl message => bad message
  | inr limit => match queryInt rq "offset" 0 0 1000000 with inl message => bad message | inr offset => inr (limit, offset) end
  end.

(** The path names a user; the handlers that do not read the account look no further. *)
Definition path_user (rq : HttpRequest) : Reply + string :=
  let userID := path_value rq "userID" in if negb (ValidUserID userID) then inl no_user else inr userID.

(** [internal/identity/user.go:62-67] UserPage, as JSON *)
Definition user_page_members (page : UserPage) : list (string * Value) :=
  [("items", listed user_members (up_Items page)); ("total", VInt (up_Total page)); ("limit", VInt (up_Limit page));
   ("offset", VInt (up_Offset page))].
(** [internal/identity/password_migration.go:36-40] PasswordMigrationResult, as JSON *)
Definition migration_members (result : PasswordMigrationResult) : list (string * Value) :=
  [("items", listed user_members (mg_Items result)); ("count", VInt (mg_Count result)); ("expires_at", VTime (mg_ExpiresAt result))].
(** [internal/identity/user.go:95-107] ExternalIdentity, as JSON *)
Definition external_members (e : ExternalIdentity) : list (string * Value) :=
  ([("id", VString (ei_ID e)); ("user_id", VString (ei_UserID e)); ("provider_id", VString (ei_ProviderID e));
   ("subject", VString (ei_Subject e)); ("username", VString (ei_Username e)); ("display_name", VString (ei_DisplayName e))] ++
  member_opt "email" (VString <$> ei_Email e) ++
  [("email_trusted", VBool (ei_EmailTrusted e)); ("email_verified", VBool (ei_EmailVerified e)); ("created_at", VTime (ei_CreatedAt e));
   ("last_authenticated_at", VTime (ei_LastAuthenticatedAt e))])%list.

Section AdminUsers.
Context `{HR : MapRange, HU : UnicodeTables, HM : MailParser, HS : TokenSigner, HA : Argon2}.
Context (cfg : Config).

(** ** Reading *)

(** [internal/platform/http/admin_users.go:18-46] listUsers *)
Definition listUsers (rq : HttpRequest) : Prog Reply :=
  match query_page rq 20 100 with
  | inl problem => Ret problem
  | inr (limit, offset) =>
      let status := Get (rq_Query rq) "status" in
      if bool_decide (status ≠ "") && negb (ValidStatus status) then Ret (writeProblem 400 "invalid_request" "无效的用户状态")
      else
        let* page := CAccount (UcList {| uf_Query := Get (rq_Query rq) "q"; uf_Status := status; uf_Limit := limit; uf_Offset := offset |}) in
        Ret match page with Some page => writeStruct 200 (user_page_members page) | None => panicked end
  end.

(** [internal/platform/http/admin_users.go:48-65] getUser *)
Definition getUser (rq : HttpRequest) : Prog Reply :=
  try+ userID := Ret (path_user rq) in
  let* user := CUsersFind userID in
  Ret match user with
      | Err UserNotFound => no_user
      | Err _ => user_unreadable
      | Ok user => writeStruct 200 (user_members user)
      end.

(** [internal/platform/http/account.go:313-325] listAdminUserSessions *)
Definition listAdminUserSessions (rq : HttpRequest) : Prog Reply :=
  try+ userID := adminSessionUser rq in
  let* found := CSessionsList userID in
  Ret match found with
      | Err _ => writeProblem 500 "server_error" "读取会话失败"
      | Ok found => items session_members found
      end.

(** [internal/platform/http/admin_external_identities.go:11-28] listUserExternalIdentities *)
Definition listUserExternalIdentities (rq : HttpRequest) : Prog Reply :=
  try+ userID := Ret (path_user rq) in
  let* found := CAccount (UcExternals userID) in
  Ret match found with
      | Err UserNotFound => no_user
      | Err _ => writeProblem 500 "server_error" "读取外部身份失败"
      | Ok found => items external_members found
      end.

(** ** Creating *)

(** The fields of [identity.CreateUser]. *)
Definition create_user_fields := [text "username"; text "display_name"; opt_text "email"; text "status"].
Definition read_create_user (input : gmap string Json) : CreateUser :=
  {| cu_Username := get_text input "username"; cu_DisplayName := get_text input "display_name"; cu_Email := get_opt_text input "email";
     cu_Status := get_text input "status" |}.

(** [internal/platform/http/admin_users.go:67-93] createUser; what follows the kind of an error in its text is
    left out of a problem. *)
Definition createUser (rq : HttpRequest) : Prog Reply :=
  match decode_fields create_user_fields rq with
  | inl message => Ret (writeProblem 400 "invalid_request" message)
  | inr input =>
      let* now := CNow in
      let* rnd := CRandom in
      match NewUser (read_create_user input) now rnd with
      | Err e => Ret (writeProblem 400 "invalid_user" (identity_text e))
      | Ok user =>
          let* created := CAccount (UcCreate user) in
          match created with
          | Err Identity.ErrConflict => Ret (writeProblem 409 "user_conflict" "用户名或邮箱已存在")
          | Err _ => Ret (writeProblem 500 "server_error" "创建用户失败")
          | Ok user =>
              let+ _ := sendEmailVerification cfg user in
              Ret (writeStruct 201 (user_members user))
          end
      end
  end.

(** The fields of [identity.ImportPasswordUsers]. *)
Definition import_fields :=
  [text "password_algorithm"; opt_time "expires_at"; structs "users" (create_user_fields ++ [text "password_hash"])%list].
Definition read_import (input : gmap string Json) : ImportPasswordUsers :=
  {| im_Algorithm := get_text input "password_algorithm"; im_ExpiresAt := get_opt_time input "expires_at";
     im_Users := (λ item, {| mu_Username := get_text item "username"; mu_DisplayName := get_text item "display_name";
                             mu_Email := get_opt_text item "email"; mu_Status := get_text item "status";
                             mu_PasswordHash := get_text item "password_hash" |}) <$> get_structs input "users" |}.

(** [internal/platform/http/admin_users.go:95-125] importUsers *)
Definition importUsers (rq : HttpRequest) (p : adminPrincipal) : Prog Reply :=
  match decode_fields import_fields rq with
  | inl message => Ret (writeProblem 400 "invalid_request" message)
  | inr input =>
      let input := read_import input in
      let+ result := migration_Import input in
      match result with
      | Err Identity.ErrInvalid => Ret (writeProblem 400 "invalid_password_migration" (identity_text Identity.ErrInvalid))
      | Err Identity.ErrConflict => Ret (writeProblem 409 "user_conflict" "迁移用户中的用户名或邮箱已存在")
      | Err _ => Ret (writeProblem 500 "server_error" "迁移用户失败")
      | Ok result =>
          let+ _ := recordAdminAudit rq p (admin_event "users.password_migration" ""
                      (<["password_algorithm" := VString (im_Algorithm input)]> (<["count" := VInt (mg_Count result)]>
                       {["expires_at" := VTime (mg_ExpiresAt result)]}))) in
          Ret (writeStruct 201 (migration_members result))
      end
  end.

(** ** Changing *)

(** [internal/platform/http/admin_users.go:172-182] replaceUser, an account that is no longer active: its sessions and tokens
    end; errors are only logged. *)
Definition end_inactive (userID : string) : Prog unit :=
  let+ activeSessions := sessionsForRevocation userID "" in
  let* revoked := CSessionsRevokeAll userID "" in
  let+ _ := match revoked with Err _ => Ret () | Ok _ => cleanupRevokedSessions cfg activeSessions end in
  let* now := CNow in
  let* _ := CStore (OpRevokeUserTokens userID "" now) in
  Ret ().

(** [internal/platform/http/admin_users.go:158-188] replaceUser, the account is stored *)
Definition store_user (current user : User) : Prog Reply :=
  let* stored := CUsersReplace user in
  match stored with
  | Err Identity.ErrConflict => Ret (writeProblem 409 "user_conflict" "邮箱已被其他用户使用")
  | Err UserNotFound => Ret no_user
  | Err _ => Ret (writeProblem 500 "server_error" "更新用户失败")
  | Ok user =>
      let+ _ := if decide (u_Status user ≠ UserActive) then end_inactive (u_ID user) else Ret () in
      let+ _ := if bool_decide (is_Some (u_Email user)) && negb (same_email (u_Email current) (u_Email user))
                then sendEmailVerification cfg user else Ret true in
      Ret (writeStruct 200 (user_members user))
  end.

(** [internal/platform/http/admin_users.go:127-189] replaceUser *)
Definition replaceUser (rq : HttpRequest) (p : adminPrincipal) : Prog Reply :=
  try+ userID := Ret (path_user rq) in
  let* current := CUsersFind userID in
  match current with
  | Err UserNotFound => Ret no_user
  | Err _ => Ret user_unreadable
  | Ok current =>
      match decode_fields [text "display_name"; opt_text "email"; text "status"] rq with
      | inl message => Ret (writeProblem 400 "invalid_request" message)
      | inr input =>
          let* now := CNow in
          match ReplacedUser current {| ru_DisplayName := get_text input "display_name"; ru_Email := get_opt_text input "email";
                                        ru_Status := get_text input "status" |} now with
          | Err e => Ret (writeProblem 400 "invalid_user" (identity_text e))
          | Ok user =>
              if decide (u_Status current = UserActive ∧ u_Status user ≠ UserActive)
              then try+ _ := authorizeAdministratorDeactivation p userID in store_user current user
              else store_user current user
          end
      end
  end.

(** The account exists and may be acted on: how the handlers on the security of another account begin. *)
Definition sensitive_target (rq : HttpRequest) (p : adminPrincipal) : Prog (Reply + string) :=
  try+ userID := pass (adminSessionUser rq) in
  try+ _ := pass (authorizeSensitiveAdministratorTarget p userID) in
  Ret (inr userID).

(** [internal/platform/http/auth.go:788-839] setUserPassword *)
Definition setUserPassword (rq : HttpRequest) (p : adminPrincipal) : Prog Reply :=
  try+ userID := sensitive_target rq p in
  try+ input := Ret (decode_or_problem ["password"] rq) in
  let+ stored := passwords_Set userID (text_of input "password") in
  match stored with
  | Err e => Ret (writeProblem 400 "invalid_password" (identity_text e))
  | Ok _ =>
      let+ counts := revoke_credentials cfg userID "" in
      let+ _ := recordAdminAudit rq p (admin_event "password.set_by_admin" ""
                  (<["user_id" := VString userID]> (<["sessions_revoked" := VInt counts.1]> {["trusted_devices_revoked" := VInt counts.2]}))) in
      Ret no_content
  end.

(** [internal/platform/http/account.go:227-259] issueUserPasswordReset *)
Definition issueUserPasswordReset (rq : HttpRequest) (p : adminPrincipal) : Prog Reply :=
  try+ userID := sensitive_target rq p in
  let+ token := passwords_IssueReset userID (30 * Minute) in
  match token with
  | Err _ => Ret (writeProblem 500 "server_error" "创建密码重置凭据失败")
  | Ok token =>
      let+ _ := recordAdminAudit rq p (admin_event "password.reset_issued" "" (<["user_id" := VString userID]> {["expires_in" := VInt 1800]})) in
      Ret (writeJSON 201 (<["reset_token" := VString token]> (<["expires_in" := VInt 1800]> {["token_type" := VString "one_time"]})))
  end.

(** [internal/platform/http/email_verification.go:212-245] verifyAdminUserEmail *)
Definition verifyAdminUserEmail (rq : HttpRequest) (p : adminPrincipal) : Prog Reply :=
  try+ userID := sensitive_target rq p in
  let* user := CUsersFind userID in
  match user with
  | Err _ => Ret user_unreadable
  | Ok user =>
      if decide (u_Email user = None) then Ret (writeProblem 400 "email_not_configured" "该用户未设置邮箱")
      else if u_EmailVerified user then Ret (writeProblem 409 "email_already_verified" "该邮箱已通过验证")
      else
        let* now := CNow in
        let* updated := CAccount (UcVerified userID now) in
        match updated with
        | Err _ => Ret (writeProblem 500 "server_error" "标记邮箱已验证失败")
        | Ok updated =>
            let+ _ := recordAdminAudit rq p (admin_event "email.verified_by_admin" "" {["user_id" := VString userID]}) in
            Ret (writeStruct 200 (user_members updated))
        end
  end.

(** [internal/platform/http/account.go:327-350] revokeAdminUserSession *)
Definition revokeAdminUserSession (rq : HttpRequest) (p : adminPrincipal) : Prog Reply :=
  try+ userID := sensitive_target rq p in
  let sessionID := path_value rq "sessionID" in
  let* revoked := CSessionsRevokeForUser userID sessionID in
  match revoked with
  | Err SessionNotFound => Ret (writeProblem 404 "not_found" "会话不存在")
  | Err _ => Ret (writeProblem 500 "server_error" "撤销会话失败")
  | Ok _ =>
      let+ _ := cleanupRevokedSessions cfg [(sessionID, userID)] in
      let+ _ := recordAdminAudit rq p (admin_event "session.revoked_by_admin" ""
                  (<["user_id" := VString userID]> {["session_id" := VString sessionID]})) in
      Ret no_content
  end.

(** [internal/platform/http/account.go:352-382] revokeAllAdminUserSessions *)
Definition revokeAllAdminUserSessions (rq : HttpRequest) (p : adminPrincipal) : Prog Reply :=
  try+ userID := sensitive_target rq p in
  let* listed := CSessionsList userID in
  match listed with
  | Err _ => Ret (writeProblem 500 "server_error" "读取会话失败")
  | Ok listed =>
      let* count := CSessionsRevokeAll userID "" in
      match count with
      | Err _ => Ret (writeProblem 500 "server_error" "撤销会话失败")
      | Ok count =>
          let+ _ := cleanupRevokedSessions cfg ((λ s, (s_ID s, s_UserID s)) <$> listed) in
          let* now := CNow in
          let* revoked := CStore (OpRevokeUserTokens userID "" now) in
          match revoked with
          | Err _ => Ret (writeProblem 500 "server_error" "撤销 OAuth 令牌失败")
          | Ok _ =>
              let+ _ := recordAdminAudit rq p (admin_event "session.revoked_all_by_admin" ""
                          (<["user_id" := VString userID]> {["count" := VInt count]})) in
              Ret (writeJSON 200 {["revoked" := VInt count]})
          end
      end
  end.

(** [internal/platform/http/mfa.go:459-490] resetAdminUserMFA *)
Definition resetAdminUserMFA (rq : HttpRequest) (p : adminPrincipal) : Prog Reply :=
  try+ userID := sensitive_target rq p in
  let* disabled := CMfaDelete userID in
  let ended : Prog Reply :=
    let+ revokedSessions := sessionsForRevocation userID "" in
    let* revoked := CSessionsRevokeAll userID "" in
    match revoked with
    | Err _ => Ret (writeProblem 500 "server_error" "重置多因素认证后撤销会话失败")
    | Ok count =>
        let+ _ := cleanupRevokedSessions cfg revokedSessions in
        let* now := CNow in
        let* tokens := CStore (OpRevokeUserTokens userID "" now) in
        match tokens with
        | Err _ => Ret (writeProblem 500 "server_error" "重置多因素认证后撤销 OAuth 令牌失败")
        | Ok _ =>
            let+ _ := recordAdminAudit rq p (admin_event "mfa.reset_by_admin" ""
                        (<["user_id" := VString userID]> {["sessions_revoked" := VInt count]})) in
            Ret no_content
        end
    end in
  match disabled with
  | Ok _ | Err MfaNotFound => ended
  | Err _ => Ret (writeProblem 500 "server_error" "重置多因素认证失败")
  end.

(** [internal/platform/http/admin_external_identities.go:65-111] deleteUserExternalIdentity, once the identity was found: it is removed, and
    the sessions and tokens of the user end. *)
Definition remove_external (rq : HttpRequest) (p : adminPrincipal) (userID externalIdentityID providerID : string) : Prog Reply :=
  let missing := writeProblem 404 "not_found" "外部身份不存在" in
  let* removed := CAccount (UcDeleteExternal userID externalIdentityID) in
  match removed with
  | Err ErrExternalIdentityMissing | Err UserNotFound => Ret missing
  | Err ErrLastAuthentication => Ret (writeProblem 409 "last_authentication_method" "请先为用户设置密码或绑定另一个外部身份")
  | Err _ => Ret (writeProblem 500 "server_error" "解除外部身份绑定失败")
  | Ok _ =>
      let+ activeSessions := sessionsForRevocation userID "" in
      let* revoked := CSessionsRevokeAll userID "" in
      let+ _ := match revoked with Err _ => Ret () | Ok _ => cleanupRevokedSessions cfg activeSessions end in
      let* now := CNow in
      let* _ := CStore (OpRevokeUserTokens userID "" now) in
      let+ _ := recordAdminAudit rq p (admin_event "external_identity.deleted_by_admin" ""
                  (<["user_id" := VString userID]> (<["external_identity_id" := VString externalIdentityID]>
                   (<["provider_id" := VString providerID]> {["sessions_revoked" := VInt (match revoked with Ok n => n | Err _ => 0 end)]})))) in
      Ret no_content
  end.

(** [internal/platform/http/admin_external_identities.go:30-112] deleteUserExternalIdentity *)
Definition deleteUserExternalIdentity (rq : HttpRequest) (p : adminPrincipal) : Prog Reply :=
  let missing := writeProblem 404 "not_found" "外部身份不存在" in
  let externalIdentityID := path_value rq "externalIdentityID" in
  try+ userID := Ret (path_user rq) in
  if negb (ValidUserID externalIdentityID) then Ret missing
  else
    try+ _ := authorizeSensitiveAdministratorTarget p userID in
    let* found := CAccount (UcExternals userID) in
    match found with
    | Err UserNotFound => Ret no_user
    | Err _ => Ret (writeProblem 500 "server_error" "读取外部身份失败")
    | Ok found =>
        let providerID := match list_find (λ e, ei_ID e = externalIdentityID) found with Some (_, e) => ei_ProviderID e | None => "" end in
        if decide (providerID = "") then Ret missing else remove_external rq p userID externalIdentityID providerID
    end.
End AdminUsers.
