(* ===== verification/AdminAccess.v ===== *)
(** The roles and permissions of applications, as administrators see and change them
    ([internal/platform/http/access.go]). *)
From S2P Require Import Prelude GoStrings GoCrypto GoTime Administration Cas Mfa Session RateLimit OAuthStore Client Identity Authorize GoUrl Access AuditLog Http JsonBodies Tokens Browser Account AdminAuth.
Local Open Scope Z_scope.
Local Open Scope string_scope.
Local Open Scope go_scope.

(** [internal/access/access.go:21-29] Role, as JSON *)
Definition role_members (r : Role) : list (string * Value) :=
  ([("id", VString (ro_ID r)); ("client_id", VString (ro_ClientID r)); ("code", VString (ro_Code r)); ("name", VString (ro_Name r))] ++
   member_text "description" (ro_Description r) ++ [("created_at", VTime (ro_CreatedAt r)); ("updated_at", VTime (ro_UpdatedAt r))])%list.
(** [internal/access/access.go:31-39] Permission, as JSON *)
Definition permission_members (v : Permission) : list (string * Value) :=
  ([("id", VString (pe_ID v)); ("client_id", VString (pe_ClientID v)); ("code", VString (pe_Code v)); ("name", VString (pe_Name v))] ++
   member_text "description" (pe_Description v) ++ [("created_at", VTime (pe_CreatedAt v)); ("updated_at", VTime (pe_UpdatedAt v))])%list.
(** [internal/access/access.go:70-76] UserRole, as JSON *)
Definition user_role_members (v : UserRole) : list (string * Value) :=
  ([("user_id", VString (ur_UserID v)); ("role", VObject (role_members (ur_Role v))); ("granted_at", VTime (ur_GrantedAt v));
    ("granted_by", VString (ur_GrantedBy v))] ++ member_opt "expires_at" (VTime <$> ur_ExpiresAt v))%list.
(** [internal/access/access.go:65-68] RoleGrant, as JSON *)
Definition role_grant_members (g : RoleGrant) : list (string * Value) :=
  ([("role_id", VString (rg_RoleID g))] ++ member_opt "expires_at" (VTime <$> rg_ExpiresAt g))%list.

(** The texts of the errors, without what follows their kind. *)
Definition access_text (e : accessError) : string :=
  match e with
  | AccessNotFound => "access object not found"
  | AccessConflict => "access object conflict"
  | AccessInUse => "access object is in use"
  | AccessInvalid => "invalid access object"
  | AccessRandomFailure => "generate identifier"
  end.

Section AdminAccess.
Context `{HR : MapRange, HU : UnicodeTables, HM : MailParser, HS : TokenSigner}.
Context (rq : HttpRequest) (p : adminPrincipal).

(** [internal/platform/http/access.go:453-465] accessClient *)
Definition accessClient : Prog (Reply + Client) :=
  let* found := CClientsFind (path_value rq "clientID") in
  let missing := writeProblem 404 "not_found" "接入系统不存在" in
  Ret match found with
      | Err ClientNotFound => inl missing
      | Err _ => inl (writeProblem 500 "server_error" "读取接入系统失败")
      | Ok found => if decide (c_ArchivedAt found ≠ None) then inl missing else inr found
      end.

(** The fields that roles and permissions are created and updated from. *)
Definition coded_fields := [text "code"; text "name"; text "description"].
Definition with_coded (f : string → string → string → Prog Reply) : Prog Reply :=
  match decode_fields coded_fields rq with
  | inl message => Ret (writeProblem 400 "invalid_request" message)
  | inr input => f (get_text input "code") (get_text input "name") (get_text input "description")
  end.

(** ** Roles *)

Definition no_role : Reply := writeProblem 404 "not_found" "角色不存在".
Definition role_conflict : Reply := writeProblem 409 "role_conflict" "角色代码已存在".

(** [internal/platform/http/access.go:14-26] listRoles *)
Definition listRoles : Prog Reply :=
  try+ registered := accessClient in
  let* found := CAccess (XcRoles (c_ID registered)) in
  Ret match found with Err _ => writeProblem 500 "server_error" "读取角色失败" | Ok found => items role_members found end.

(** [internal/platform/http/access.go:28-64] createRole *)
Definition createRole : Prog Reply :=
  try+ registered := accessClient in
  with_coded (λ code name description,
    let* now := CNow in
    let* rnd := CRandom in
    match NewRole (c_ID registered) code name description now rnd with
    | Err e => Ret (writeProblem 400 "invalid_role" (access_text e))
    | Ok value =>
        let* created := CAccess (XcCreateRole value) in
        match created with
        | Err AccessConflict => Ret role_conflict
        | Err _ => Ret (writeProblem 500 "server_error" "创建角色失败")
        | Ok value =>
            let+ _ := recordAdminAudit rq p (admin_event "access.role.created" (c_ID registered)
                        (<["role_id" := VString (ro_ID value)]> {["code" := VString (ro_Code value)]})) in
            Ret (writeStruct 201 (role_members value))
        end
    end).

(** [internal/platform/http/access.go:66-82] getRole *)
Definition getRole : Prog Reply :=
  try+ registered := accessClient in
  let* found := CAccess (XcFindRole (c_ID registered) (path_value rq "roleID")) in
  Ret match found with
      | Err AccessNotFound => no_role
      | Err _ => writeProblem 500 "server_error" "读取角色失败"
      | Ok value => writeStruct 200 (role_members value)
      end.

(** [internal/platform/http/access.go:84-133] replaceRole *)
Definition replaceRole : Prog Reply :=
  try+ registered := accessClient in
  let* found := CAccess (XcFindRole (c_ID registered) (path_value rq "roleID")) in
  match found with
  | Err AccessNotFound => Ret no_role
  | Err _ => Ret (writeProblem 500 "server_error" "读取角色失败")
  | Ok current =>
      with_coded (λ code name description,
        let* now := CNow in
        match UpdatedRole current code name description now with
        | Err e => Ret (writeProblem 400 "invalid_role" (access_text e))
        | Ok value =>
            let* replaced := CAccess (XcReplaceRole value) in
            match replaced with
            | Err AccessConflict => Ret role_conflict
            | Err AccessNotFound => Ret no_role
            | Err _ => Ret (writeProblem 500 "server_error" "更新角色失败")
            | Ok value =>
                let+ _ := recordAdminAudit rq p (admin_event "access.role.updated" (c_ID registered)
                            (<["role_id" := VString (ro_ID value)]> {["code" := VString (ro_Code value)]})) in
                Ret (writeStruct 200 (role_members value))
            end
        end)
  end.

(** [internal/platform/http/access.go:135-162] deleteRole *)
Definition deleteRole : Prog Reply :=
  try+ registered := accessClient in
  let roleID := path_value rq "roleID" in
  let* deleted := CAccess (XcDeleteRole (c_ID registered) roleID) in
  match deleted with
  | Err AccessNotFound => Ret no_role
  | Err AccessInUse => Ret (writeProblem 409 "role_in_use" "角色仍分配给用户，请先解除角色分配")
  | Err _ => Ret (writeProblem 500 "server_error" "删除角色失败")
  | Ok _ =>
      let+ _ := recordAdminAudit rq p (admin_event "access.role.deleted" (c_ID registered) {["role_id" := VString roleID]}) in
      Ret no_content
  end.

(** ** Permissions *)

Definition no_permission : Reply := writeProblem 404 "not_found" "权限点不存在".
Definition permission_conflict : Reply := writeProblem 409 "permission_conflict" "权限代码已存在".

(** [internal/platform/http/access.go:164-176] listPermissions *)
Definition listPermissions : Prog Reply :=
  try+ registered := accessClient in
  let* found := CAccess (XcPermissions (c_ID registered)) in
  Ret match found with Err _ => writeProblem 500 "server_error" "读取权限点失败" | Ok found => items permission_members found end.

(** [internal/platform/http/access.go:178-214] createPermission *)
Definition createPermission : Prog Reply :=
  try+ registered := accessClient in
  with_coded (λ code name description,
    let* now := CNow in
    let* rnd := CRandom in
    match NewPermission (c_ID registered) code name description now rnd with
    | Err e => Ret (writeProblem 400 "invalid_permission" (access_text e))
    | Ok value =>
        let* created := CAccess (XcCreatePermission value) in
        match created with
        | Err AccessConflict => Ret permission_conflict
        | Err _ => Ret (writeProblem 500 "server_error" "创建权限点失败")
        | Ok value =>
            let+ _ := recordAdminAudit rq p (admin_event "access.permission.created" (c_ID registered)
                        (<["permission_id" := VString (pe_ID value)]> {["code" := VString (pe_Code value)]})) in
            Ret (writeStruct 201 (permission_members value))
        end
    end).

(** [internal/platform/http/access.go:216-232] getPermission *)
Definition getPermission : Prog Reply :=
  try+ registered := accessClient in
  let* found := CAccess (XcFindPermission (c_ID registered) (path_value rq "permissionID")) in
  Ret match found with
      | Err AccessNotFound => no_permission
      | Err _ => writeProblem 500 "server_error" "读取权限点失败"
      | Ok value => writeStruct 200 (permission_members value)
      end.

(** [internal/platform/http/access.go:234-283] replacePermission *)
Definition replacePermission : Prog Reply :=
  try+ registered := accessClient in
  let* found := CAccess (XcFindPermission (c_ID registered) (path_value rq "permissionID")) in
  match found with
  | Err AccessNotFound => Ret no_permission
  | Err _ => Ret (writeProblem 500 "server_error" "读取权限点失败")
  | Ok current =>
      with_coded (λ code name description,
        let* now := CNow in
        match UpdatedPermission current code name description now with
        | Err e => Ret (writeProblem 400 "invalid_permission" (access_text e))
        | Ok value =>
            let* replaced := CAccess (XcReplacePermission value) in
            match replaced with
            | Err AccessConflict => Ret permission_conflict
            | Err AccessNotFound => Ret no_permission
            | Err _ => Ret (writeProblem 500 "server_error" "更新权限点失败")
            | Ok value =>
                let+ _ := recordAdminAudit rq p (admin_event "access.permission.updated" (c_ID registered)
                            (<["permission_id" := VString (pe_ID value)]> {["code" := VString (pe_Code value)]})) in
                Ret (writeStruct 200 (permission_members value))
            end
        end)
  end.

(** [internal/platform/http/access.go:285-312] deletePermission *)
Definition deletePermission : Prog Reply :=
  try+ registered := accessClient in
  let permissionID := path_value rq "permissionID" in
  let* deleted := CAccess (XcDeletePermission (c_ID registered) permissionID) in
  match deleted with
  | Err AccessNotFound => Ret no_permission
  | Err AccessInUse => Ret (writeProblem 409 "permission_in_use" "权限点仍被角色引用，请先解除权限映射")
  | Err _ => Ret (writeProblem 500 "server_error" "删除权限点失败")
  | Ok _ =>
      let+ _ := recordAdminAudit rq p (admin_event "access.permission.deleted" (c_ID registered) {["permission_id" := VString permissionID]}) in
      Ret no_content
  end.

(** ** Permissions of roles, roles of users *)

(** [internal/platform/http/access.go:314-330] listRolePermissions *)
Definition listRolePermissions : Prog Reply :=
  try+ registered := accessClient in
  let* found := CAccess (XcRolePermissions (c_ID registered) (path_value rq "roleID")) in
  Ret match found with
      | Err AccessNotFound => no_role
      | Err _ => writeProblem 500 "server_error" "读取角色权限失败"
      | Ok found => items permission_members found
      end.

(** [internal/platform/http/access.go:332-364] replaceRolePermissions *)
Definition replaceRolePermissions : Prog Reply :=
  try+ registered := accessClient in
  match decode_fields [texts "permission_ids"] rq with
  | inl message => Ret (writeProblem 400 "invalid_request" message)
  | inr input =>
      let permissionIDs := get_texts input "permission_ids" in
      let roleID := path_value rq "roleID" in
      let* replaced := CAccess (XcSetRolePermissions (c_ID registered) roleID permissionIDs) in
      match replaced with
      | Err AccessNotFound => Ret (writeProblem 404 "not_found" "角色或权限点不存在")
      | Err _ => Ret (writeProblem 500 "server_error" "更新角色权限失败")
      | Ok _ =>
          let+ _ := recordAdminAudit rq p (admin_event "access.role_permissions.updated" (c_ID registered)
                      (<["role_id" := VString roleID]> {["permission_ids" := VStrings permissionIDs]})) in
          Ret no_content
      end
  end.

(** [internal/platform/http/access.go:366-384] listUserRoles *)
Definition listUserRoles : Prog Reply :=
  try+ userID := accessUser rq in
  let* now := CNow in
  let* found := CAccess (XcUserRoles userID (Get (rq_Query rq) "client_id") (bool_decide (Get (rq_Query rq) "include_expired" = "true")) now) in
  Ret match found with Err _ => writeProblem 500 "server_error" "读取用户角色失败" | Ok found => items user_role_members found end.

(** [internal/platform/http/access.go:386-423] replaceUserRoles *)
Definition replaceUserRoles : Prog Reply :=
  try+ userID := accessUser rq in
  match decode_fields [structs "roles" [text "role_id"; opt_time "expires_at"]] rq with
  | inl message => Ret (writeProblem 400 "invalid_request" message)
  | inr input =>
      let grants := (λ g, {| rg_RoleID := get_text g "role_id"; rg_ExpiresAt := get_opt_time g "expires_at" |}) <$> get_structs input "roles" in
      let* now := CNow in
      match ValidateRoleGrants grants now with
      | Err e => Ret (writeProblem 400 "invalid_role_grants" (access_text e))
      | Ok _ =>
          let* replaced := CAccess (XcReplaceUserRoles userID grants (grantedBy p) now) in
          match replaced with
          | Err AccessNotFound => Ret (writeProblem 404 "not_found" "用户或角色不存在")
          | Err _ => Ret (writeProblem 500 "server_error" "更新用户角色失败")
          | Ok _ =>
              let+ _ := recordAdminAudit rq p (admin_event "access.user_roles.updated" ""
                          (<["user_id" := VString userID]> {["roles" := listed role_grant_members grants]})) in
              Ret no_content
          end
      end
  end.
End AdminAccess.

(** ** What an application may ask *)

(** [internal/access/access.go:78-83] Entitlements, as JSON *)
Definition entitlements_members (v : Entitlements) : list (string * Value) :=
  [("user_id", VString (en_UserID v)); ("client_id", VString (en_ClientID v)); ("roles", VStrings (en_Roles v));
   ("permissions", VStrings (en_Permissions v))].

(** [internal/platform/http/access.go:425-451] getEffectiveAccess *)
Definition getEffectiveAccess `{TokenSigner} (rq : HttpRequest) : Prog Reply :=
  try+ registered := authenticateConfidentialOAuthClientBasic rq in
  if negb (Contains (c_AllowedScopes registered) "roles")
  then Ret (writeOAuthError 403 "insufficient_scope" "client is not allowed to read roles")
  else
    let userID := path_value rq "userID" in
    if negb (ValidUserID userID) then Ret no_user
    else
      let* user := CUsersFind userID in
      match user with
      | Err _ => Ret no_user
      | Ok user =>
          if decide (u_Status user ≠ UserActive) then Ret no_user
          else
            let* now := CNow in
            let* value := CEffective userID (c_ID registered) now in
            Ret match value with
                | Err _ => writeProblem 500 "server_error" "读取有效权限失败"
                | Ok value => writeStruct 200 (entitlements_members value)
                end
      end.
