(* ===== verification/AdminClients.v ===== *)
(** The applications and their systems, as administrators see and change them
    ([internal/platform/http/admin_clients.go]). *)
From S2P Require Import Prelude GoStrings GoCrypto GoTime Administration Federation Cas Mfa Session RateLimit OAuthStore Identity Client Authorize GoUrl Access AuditLog Http JsonBodies Tokens Browser Account AdminAuth AdminAccess.
Local Open Scope Z_scope.
Local Open Scope string_scope.
Local Open Scope go_scope.

(** ** JSON *)

Definition member_texts (name : string) (l : list string) : list (string * Value) := if decide (l = []) then [] else [(name, VStrings l)].
Definition member_int (name : string) (z : Z) : list (string * Value) := if decide (z = 0)%Z then [] else [(name, VInt z)].
Definition member_flag (name : string) (b : bool) : list (string * Value) := if b then [(name, VBool true)] else [].

(** [internal/client/client.go:89-96] System, as JSON *)
Definition system_members (s : System) : list (string * Value) :=
  ([("id", VString (sy_ID s)); ("name", VString (sy_Name s))] ++ member_text "description" (sy_Description s) ++
   member_text "favicon_url" (sy_FaviconURL s) ++ member_text "launch_uri" (sy_LaunchURI s) ++
   [("portal_visible", VBool (sy_PortalVisible s))])%list.

(** [internal/client/client.go:115-146] Client, as JSON: the hash of its secret is left out. *)
Definition client_members (c : Client) : list (string * Value) :=
  ([("id", VString (c_ID c)); ("system_id", VString (c_SystemID c))] ++
   member_opt "system" ((λ s, VObject (system_members s)) <$> c_System c) ++ [("name", VString (c_Name c))] ++
   member_text "description" (c_Description c) ++ member_text "favicon_url" (c_FaviconURL c) ++ member_text "launch_uri" (c_LaunchURI c) ++
   [("application_type", VString (c_ApplicationType c)); ("token_endpoint_auth_method", VString (c_TokenEndpointAuthMethod c));
    ("protocols", VStrings (c_Protocols c))] ++
   member_texts "grant_types" (c_GrantTypes c) ++ [("redirect_uris", VStrings (c_RedirectURIs c))] ++
   member_texts "post_logout_redirect_uris" (c_PostLogoutRedirectURIs c) ++
   member_text "backchannel_logout_uri" (c_BackchannelLogoutURI c) ++
   [("backchannel_logout_session_required", VBool (c_BackchannelLogoutSessionRequired c)); ("login_methods", VStrings (c_LoginMethods c))] ++
   member_texts "identity_source_ids" (c_IdentitySourceIDs c) ++ member_texts "introspectable_by" (c_IntrospectableBy c) ++
   [("allowed_scopes", VStrings (c_AllowedScopes c))] ++
   member_int "access_token_lifetime_seconds" (c_AccessTokenLifetimeSeconds c) ++
   member_int "refresh_token_lifetime_seconds" (c_RefreshTokenLifetimeSeconds c) ++
   member_text "cas_version" (c_CASVersion c) ++ member_texts "cas_service_urls" (c_CASServiceURLs c) ++
   [("cas_proxy", VBool (c_CASProxy c)); ("cas_gateway", VBool (c_CASGateway c)); ("cas_renew", VBool (c_CASRenew c));
    ("cas_single_logout", VBool (c_CASSingleLogout c)); ("enabled", VBool (c_Enabled c))] ++
   member_opt "archived_at" (VTime <$> c_ArchivedAt c))%list.

(** The text of an error. *)
Definition client_text (e : clientError) : string :=
  match e with
  | ClientNotFound => "client not found"
  | ErrConflict => "client already exists"
  | ErrInvalid reason => "invalid client: " +:+ reason
  | ErrArchived => "client is archived"
  | ErrNotArchived => "client is not archived"
  | ErrSystemNotFound => "system not found"
  | ErrSystemConflict => "system already exists"
  | ErrSystemInUse => "system still has clients"
  | ErrSecret => "generate client secret"
  end.

(** ** What an application needs to integrate *)

Section Integration.
Context (cfg : Config).
Definition issuer_url (path : string) : Value := VString (cfg_Issuer cfg +:+ path).

(** [internal/platform/http/admin_clients.go:477-504] integrationParameters, of an OAuth client *)
Definition oauth_parameters (item : Client) : list (string * Value) :=
  ([("issuer", VString (cfg_Issuer cfg)); ("discovery_url", issuer_url "/.well-known/openid-configuration");
    ("authorization_endpoint", issuer_url "/oauth2/authorize"); ("token_endpoint", issuer_url "/oauth2/token");
    ("introspection_endpoint", issuer_url "/oauth2/introspect"); ("revocation_endpoint", issuer_url "/oauth2/revoke");
    ("userinfo_endpoint", issuer_url "/oauth2/userinfo"); ("end_session_endpoint", issuer_url "/oauth2/logout");
    ("jwks_uri", issuer_url "/oauth2/jwks")] ++
   member_texts "redirect_uris" (c_RedirectURIs item) ++ member_texts "post_logout_redirect_uris" (c_PostLogoutRedirectURIs item) ++
   member_text "backchannel_logout_uri" (c_BackchannelLogoutURI item) ++
   member_flag "backchannel_logout_session_required" (c_BackchannelLogoutSessionRequired item) ++
   member_texts "scopes" (c_AllowedScopes item) ++ member_texts "grant_types" (c_GrantTypes item) ++
   member_int "access_token_lifetime_seconds" (Z.quot (AccessTokenLifetime item) Second) ++
   member_int "refresh_token_lifetime_seconds" (Z.quot (RefreshTokenLifetime item) Second) ++
   member_text "client_authentication_method" (EffectiveTokenEndpointAuthMethod item) ++
   (if SupportsGrant item GrantAuthorizationCode
    then [("response_types", VStrings ["code"]); ("pkce", VObject [("required", VBool true); ("challenge_method", VString "S256")])] else []) ++
   (if SupportsGrant item GrantDeviceCode then [("device_authorization_endpoint", issuer_url "/oauth2/device_authorization")] else []))%list.

(** [internal/platform/http/admin_clients.go:507-536] integrationParameters, of a CAS client *)
Definition cas_parameters (item : Client) : list (string * Value) :=
  let proxied (proxyValidate : string) :=
    if c_CASProxy item then [("proxy_validate_url", issuer_url proxyValidate); ("proxy_url", issuer_url "/cas/proxy")] else [] in
  let urls :=
    if decide (c_CASVersion item = CASVersion1) then [("validate_url", issuer_url "/cas/validate")]
    else if decide (c_CASVersion item = CASVersion2)
    then ([("validate_url", issuer_url "/cas/serviceValidate"); ("service_validate_url", issuer_url "/cas/serviceValidate")] ++
          proxied "/cas/proxyValidate")%list
    else if decide (c_CASVersion item = CASVersion3)
    then ([("validate_url", issuer_url "/cas/p3/serviceValidate"); ("service_validate_url", issuer_url "/cas/p3/serviceValidate")] ++
          proxied "/cas/p3/proxyValidate")%list
    else [("validate_url", VString "")] in
  ([("version", VString (c_CASVersion item)); ("service_urls", VStrings (c_CASServiceURLs item));
    ("login_url", issuer_url "/cas/login"); ("logout_url", issuer_url "/cas/logout")] ++ urls ++
   [("gateway", VBool (c_CASGateway item)); ("renew", VBool (c_CASRenew item)); ("single_logout", VBool (c_CASSingleLogout item))])%list.

(** [internal/platform/http/admin_clients.go:469-538] integrationParameters, as JSON members; the members of an
    empty issuer would be left out, and are not here *)
Definition integrationParameters (item : Client) (secret : string) : list (string * Value) :=
  ([("supported_protocols", VStrings (c_Protocols item)); ("client_id", VString (c_ID item))] ++
   member_text "launch_uri" (c_LaunchURI item) ++ member_text "client_secret" secret ++
   member_texts "identity_source_ids" (c_IdentitySourceIDs item) ++
   (if SupportsOAuth item then oauth_parameters item else []) ++
   (if SupportsProtocol item ProtocolCAS then [("cas", VObject (cas_parameters item))] else []))%list.

(** [internal/platform/http/admin_clients.go:20-23] clientRegistrationResponse, as JSON *)
Definition registration_members (item : Client) (secret : string) : list (string * Value) :=
  [("client", VObject (client_members item)); ("integration", VObject (integrationParameters item secret))].
End Integration.

Section AdminClients.
Context `{HR : MapRange, HU : UnicodeTables, HM : MailParser, HS : TokenSigner, HP : URLParser}.
Context (cfg : Config) (rq : HttpRequest).

(** ** Systems *)

Definition no_system : Reply := writeProblem 404 "not_found" "接入系统不存在".
Definition system_unreadable : Reply := writeProblem 500 "server_error" "读取接入系统失败".

(** [internal/platform/http/admin_clients.go:67-75] listAdminSystems *)
Definition listAdminSystems : Prog Reply :=
  let* found := CRegistry KcSystems in
  Ret match found with Err _ => system_unreadable | Ok found => items system_members found end.

(** [internal/platform/http/admin_clients.go:77-89] getAdminSystem *)
Definition getAdminSystem : Prog Reply :=
  let* found := CRegistry (KcFindSystem (path_value rq "systemID")) in
  Ret match found with
      | Err ErrSystemNotFound => no_system
      | Err _ => system_unreadable
      | Ok item => writeStruct 200 (system_members item)
      end.

Definition system_fields := [text "name"; text "description"; text "favicon_url"; text "launch_uri"].

(** [internal/platform/http/admin_clients.go:91-114] createSystem *)
Definition createSystem : Prog Reply :=
  match decode_fields (text "id" :: opt_flag "portal_visible" :: system_fields) rq with
  | inl message => Ret (writeProblem 400 "invalid_request" message)
  | inr input =>
      match NewSystem {| cs_ID := get_text input "id"; cs_Name := get_text input "name"; cs_Description := get_text input "description";
                         cs_FaviconURL := get_text input "favicon_url"; cs_LaunchURI := get_text input "launch_uri";
                         cs_PortalVisible := get_opt_flag input "portal_visible" |} with
      | Err e => Ret (writeProblem 400 "invalid_system" (client_text e))
      | Ok item =>
          let* created := CRegistry (KcCreateSystem item) in
          Ret match created with
              | Err ErrSystemConflict => writeProblem 409 "system_conflict" "系统标识已存在"
              | Err _ => writeProblem 500 "server_error" "创建接入系统失败"
              | Ok item => writeStruct 201 (system_members item)
              end
      end
  end.

(** [internal/platform/http/admin_clients.go:116-144] replaceSystem *)
Definition replaceSystem : Prog Reply :=
  let* found := CRegistry (KcFindSystem (path_value rq "systemID")) in
  match found with
  | Err ErrSystemNotFound => Ret no_system
  | Err _ => Ret system_unreadable
  | Ok current =>
      match decode_fields (flag "portal_visible" :: system_fields) rq with
      | inl message => Ret (writeProblem 400 "invalid_request" message)
      | inr input =>
          match ReplaceSystem current {| rs_Name := get_text input "name"; rs_Description := get_text input "description";
                                         rs_FaviconURL := get_text input "favicon_url"; rs_LaunchURI := get_text input "launch_uri";
                                         rs_PortalVisible := get_flag input "portal_visible" |} with
          | Err e => Ret (writeProblem 400 "invalid_system" (client_text e))
          | Ok item =>
              let* replaced := CRegistry (KcReplaceSystem item) in
              Ret match replaced with
                  | Err _ => writeProblem 500 "server_error" "更新接入系统失败"
                  | Ok item => writeStruct 200 (system_members item)
                  end
          end
      end
  end.

(** [internal/platform/http/admin_clients.go:146-159] deleteSystem *)
Definition deleteSystem : Prog Reply :=
  let* deleted := CRegistry (KcDeleteSystem (path_value rq "systemID")) in
  Ret match deleted with
      | Err ErrSystemNotFound => no_system
      | Err ErrSystemInUse => writeProblem 409 "system_in_use" "请先删除该系统下的全部客户端配置"
      | Err _ => writeProblem 500 "server_error" "删除接入系统失败"
      | Ok _ => no_content
      end.

(** ** Clients *)

(** [internal/platform/http/admin_clients.go:161-169] listAdminClients *)
Definition listAdminClients : Prog Reply :=
  let* found := CClientsList in
  Ret match found with Err _ => writeProblem 500 "server_error" "读取客户端配置失败" | Ok found => items client_members found end.

(** [internal/platform/http/admin_clients.go:171-186] getAdminClient *)
Definition getAdminClient : Prog Reply :=
  let* found := CClientsFind (path_value rq "clientID") in
  Ret match found with
      | Err ClientNotFound => writeProblem 404 "not_found" "客户端不存在"
      | Err _ => writeProblem 500 "server_error" "读取客户端配置失败"
      | Ok item => writeStruct 200 (registration_members cfg item "")
      end.

(** [internal/platform/http/admin_clients.go:290-301] validateClientSystem, and the reply to its error *)
Definition validateClientSystem (systemID : string) : Prog (Reply + unit) :=
  let* found := CRegistry (KcFindSystem systemID) in
  Ret match found with
      | Err ErrSystemNotFound => inl (writeProblem 400 "invalid_system" "客户端所属的接入系统不存在")
      | Err _ => inl (writeProblem 500 "server_error" "校验客户端所属系统失败")
      | Ok _ => inr ()
      end.

(** [internal/platform/http/admin_clients.go:309-336] validateClientIdentitySources, of one source *)
Definition usable_source (item : Client) (sourceID : string) (source : Source) : Res sourceError unit :=
  let bad text := Err (ErrInvalidSource text) in
  if decide (sr_ArchivedAt source ≠ None) then bad ("identity source " +:+ Quote sourceID +:+ " is archived")
  else if negb (sr_Enabled source) then bad ("identity source " +:+ Quote sourceID +:+ " is disabled")
  else if decide (sr_Type source = SourceLDAP)
  then if negb (Contains (c_LoginMethods item) LoginLDAP)
       then bad ("LDAP identity source " +:+ Quote sourceID +:+ " requires the ldap login method") else Ok ()
  else if decide (sr_Type source = SourceOIDC)
  then if negb (Contains (c_LoginMethods item) LoginOIDC)
       then bad ("OIDC identity source " +:+ Quote sourceID +:+ " requires the oidc login method") else Ok ()
  else bad ("unsupported identity source " +:+ Quote sourceID).

(** [internal/platform/http/admin_clients.go:339-348] writeClientIdentitySourceError *)
Definition writeClientIdentitySourceError (e : sourceError) : Reply :=
  match e with
  | ErrSourceNotFound => writeProblem 400 "invalid_identity_source" "客户端绑定的身份源不存在"
  | ErrInvalidSource detail => writeProblem 400 "invalid_identity_source" ("invalid identity source: " +:+ detail)
  | _ => writeProblem 500 "server_error" "校验客户端身份源失败"
  end.

(** [internal/platform/http/admin_clients.go:303-337] validateClientIdentitySources *)
Fixpoint validate_sources (item : Client) (sourceIDs : list string) : Prog (Reply + unit) :=
  match sourceIDs with
  | [] => Ret (inr ())
  | sourceID :: rest =>
      let* found := CSourcesFind sourceID in
      match found with
      | Err e => Ret (inl (writeClientIdentitySourceError e))
      | Ok source =>
          match usable_source item sourceID source with
          | Err e => Ret (inl (writeClientIdentitySourceError e))
          | Ok _ => validate_sources item rest
          end
      end
  end.
Definition validateClientIdentitySources (item : Client) : Prog (Reply + unit) := validate_sources item (c_IdentitySourceIDs item).

(** [internal/platform/http/admin_clients.go:360-372] validateClientIntrospectionPermissions, of one client: what is wrong with it *)
Definition introspector_error (introspector : Client) : option string :=
  if decide (c_ArchivedAt introspector ≠ None) then Some " is archived"
  else if negb (c_Enabled introspector) then Some " is disabled"
  else if bool_decide (c_ApplicationType introspector ≠ ApplicationConfidential) || negb (SupportsOAuth introspector)
  then Some " must be an enabled confidential OAuth client"
  else None.

(** [internal/platform/http/admin_clients.go:350-382] validateClientIntrospectionPermissions, and the reply to its error *)
Fixpoint validate_introspectors (introspectorIDs : list string) : Prog (Reply + unit) :=
  match introspectorIDs with
  | [] => Ret (inr ())
  | introspectorID :: rest =>
      let bad what := inl (writeProblem 400 "invalid_introspection_client"
                             ("invalid client introspection permission: client " +:+ Quote introspectorID +:+ what)) in
      let* found := CClientsFind introspectorID in
      match found with
      | Err ClientNotFound => Ret (bad " does not exist")
      | Err _ => Ret (inl (writeProblem 500 "server_error" "校验令牌内省客户端失败"))
      | Ok introspector =>
          match introspector_error introspector with
          | Some what => Ret (bad what)
          | None => validate_introspectors rest
          end
      end
  end.
Definition validateClientIntrospectionPermissions (item : Client) : Prog (Reply + unit) := validate_introspectors (c_IntrospectableBy item).

(** [internal/platform/http/admin_clients.go:206-213] createClient, the checks of what the client refers to; [replaceClient]
    makes the last two as well *)
Definition validate_references (item : Client) : Prog (Reply + unit) :=
  try+ _ := pass (validateClientIdentitySources item) in
  validateClientIntrospectionPermissions item.

Definition token_policy_fields :=
  [text "name"; text "description"; text "favicon_url"; text "launch_uri"; text "system_id"; text "token_endpoint_auth_method";
   texts "protocols"; texts "grant_types"; texts "redirect_uris"; texts "post_logout_redirect_uris"; text "backchannel_logout_uri";
   flag "backchannel_logout_session_required"; texts "login_methods"; texts "identity_source_ids"; texts "introspectable_by";
   texts "allowed_scopes"; int64 "access_token_lifetime_seconds"; int64 "refresh_token_lifetime_seconds"; text "cas_version";
   texts "cas_service_urls"; flag "cas_proxy"; flag "cas_gateway"; flag "cas_renew"; flag "cas_single_logout"; opt_flag "enabled"].

Definition read_create_client (input : gmap string Json) : CreateClient :=
  {| cc_ID := get_text input "id"; cc_SystemID := get_text input "system_id"; cc_Name := get_text input "name";
     cc_Description := get_text input "description"; cc_FaviconURL := get_text input "favicon_url"; cc_LaunchURI := get_text input "launch_uri";
     cc_ApplicationType := get_text input "application_type"; cc_TokenEndpointAuthMethod := get_text input "token_endpoint_auth_method";
     cc_Protocols := get_texts input "protocols"; cc_GrantTypes := get_texts input "grant_types"; cc_RedirectURIs := get_texts input "redirect_uris";
     cc_PostLogoutRedirectURIs := get_texts input "post_logout_redirect_uris"; cc_BackchannelLogoutURI := get_text input "backchannel_logout_uri";
     cc_BackchannelLogoutSessionRequired := get_flag input "backchannel_logout_session_required"; cc_LoginMethods := get_texts input "login_methods";
     cc_IdentitySourceIDs := get_texts input "identity_source_ids"; cc_IntrospectableBy := get_texts input "introspectable_by";
     cc_AllowedScopes := get_texts input "allowed_scopes"; cc_AccessTokenLifetimeSeconds := get_int64 input "access_token_lifetime_seconds";
     cc_RefreshTokenLifetimeSeconds := get_int64 input "refresh_token_lifetime_seconds"; cc_CASVersion := get_text input "cas_version";
     cc_CASServiceURLs := get_texts input "cas_service_urls"; cc_CASProxy := get_flag input "cas_proxy"; cc_CASGateway := get_flag input "cas_gateway";
     cc_CASRenew := get_flag input "cas_renew"; cc_CASSingleLogout := get_flag input "cas_single_logout"; cc_Enabled := get_opt_flag input "enabled" |}.
Definition read_replace_client (input : gmap string Json) : ReplaceClient :=
  {| rc_SystemID := get_text input "system_id"; rc_Name := get_text input "name";
     rc_Description := get_text input "description"; rc_FaviconURL := get_text input "favicon_url"; rc_LaunchURI := get_text input "launch_uri";
     rc_TokenEndpointAuthMethod := get_text input "token_endpoint_auth_method";
     rc_Protocols := get_texts input "protocols"; rc_GrantTypes := get_texts input "grant_types"; rc_RedirectURIs := get_texts input "redirect_uris";
     rc_PostLogoutRedirectURIs := get_texts input "post_logout_redirect_uris"; rc_BackchannelLogoutURI := get_text input "backchannel_logout_uri";
     rc_BackchannelLogoutSessionRequired := get_flag input "backchannel_logout_session_required"; rc_LoginMethods := get_texts input "login_methods";
     rc_IdentitySourceIDs := get_texts input "identity_source_ids"; rc_IntrospectableBy := get_texts input "introspectable_by";
     rc_AllowedScopes := get_texts input "allowed_scopes"; rc_AccessTokenLifetimeSeconds := get_int64 input "access_token_lifetime_seconds";
     rc_RefreshTokenLifetimeSeconds := get_int64 input "refresh_token_lifetime_seconds"; rc_CASVersion := get_text input "cas_version";
     rc_CASServiceURLs := get_texts input "cas_service_urls"; rc_CASProxy := get_flag input "cas_proxy"; rc_CASGateway := get_flag input "cas_gateway";
     rc_CASRenew := get_flag input "cas_renew"; rc_CASSingleLogout := get_flag input "cas_single_logout"; rc_Enabled := get_opt_flag input "enabled" |}.

(** [internal/platform/http/admin_clients.go:188-228] createClient: bytes are drawn for a secret; those that are not needed are dropped. *)
Definition createClient : Prog Reply :=
  match decode_fields (text "id" :: text "application_type" :: token_policy_fields) rq with
  | inl message => Ret (writeProblem 400 "invalid_request" message)
  | inr input =>
      let input := read_create_client input in
      let* rnd := CRandom in
      match Client.New input rnd with
      | Err e => Ret (writeProblem 400 "invalid_client" (client_text e))
      | Ok (item, secret) =>
          try+ _ := (if decide (TrimSpace (cc_SystemID input) ≠ "") then validateClientSystem (c_SystemID item) else Ret (inr tt)) in
          try+ _ := validate_references item in
          let* created := CRegistry (KcCreate item) in
          Ret match created with
              | Err ErrConflict => writeProblem 409 "client_conflict" "client_id 已存在"
              | Err _ => writeProblem 500 "server_error" "创建客户端失败"
              | Ok item => writeStruct 201 (registration_members cfg item secret)
              end
      end
  end.

(** [internal/platform/http/admin_clients.go:267-287] replaceClient, the client is stored, and its tokens revoked when it is disabled *)
Definition store_client (item : Client) : Prog Reply :=
  let* replaced := CRegistry (KcReplace item) in
  match replaced with
  | Err ErrArchived => Ret (writeProblem 409 "client_archived" "已归档的客户端不能修改")
  | Err _ => Ret (writeProblem 500 "server_error" "更新客户端失败")
  | Ok item =>
      let done := writeStruct 200 (registration_members cfg item "") in
      if c_Enabled item then Ret done
      else
        let* now := CNow in
        let* revoked := CStore (OpRevokeClientTokens (c_ID item) now) in
        Ret match revoked with Err _ => writeProblem 500 "server_error" "禁用接入系统后撤销令牌失败" | Ok _ => done end
  end.

(** [internal/platform/http/admin_clients.go:230-288] replaceClient *)
Definition replaceClient : Prog Reply :=
  let* found := CClientsFind (path_value rq "clientID") in
  match found with
  | Err ClientNotFound => Ret (writeProblem 404 "not_found" "客户端不存在")
  | Err _ => Ret (writeProblem 500 "server_error" "读取客户端配置失败")
  | Ok current =>
      match decode_fields token_policy_fields rq with
      | inl message => Ret (writeProblem 400 "invalid_request" message)
      | inr input =>
          match Client.Replace current (read_replace_client input) with
          | Err ErrArchived => Ret (writeProblem 409 "client_archived" "已归档的客户端不能修改")
          | Err e => Ret (writeProblem 400 "invalid_client" (client_text e))
          | Ok item =>
              try+ _ := validateClientSystem (c_SystemID item) in
              try+ _ := validate_references item in
              store_client item
          end
      end
  end.

(** [internal/platform/http/admin_clients.go:384-414] rotateClientSecret *)
Definition rotateClientSecret : Prog Reply :=
  let* found := CClientsFind (path_value rq "clientID") in
  match found with
  | Err ClientNotFound => Ret no_system
  | Err _ => Ret system_unreadable
  | Ok current =>
      let* rnd := CRandom in
      match RotateSecret current rnd with
      | Err ErrArchived => Ret (writeProblem 409 "client_archived" "已归档的接入系统不能轮换密钥")
      | Err e => Ret (writeProblem 400 "invalid_client" (client_text e))
      | Ok (rotated, secret) =>
          let* stored := CRegistry (KcRotateSecret (c_ID rotated) (c_SecretHash rotated)) in
          Ret match stored with
              | Err _ => writeProblem 500 "server_error" "轮换客户端密钥失败"
              | Ok item => writeStruct 200 (registration_members cfg item secret)
              end
      end
  end.

(** [internal/platform/http/admin_clients.go:416-435] archiveClient *)
Definition archiveClient : Prog Reply :=
  let clientID := path_value rq "clientID" in
  let* now := CNow in
  let* archived := CRegistry (KcArchive clientID now) in
  match archived with
  | Err ClientNotFound => Ret no_system
  | Err _ => Ret (writeProblem 500 "server_error" "归档接入系统失败")
  | Ok _ =>
      let* revoked := CStore (OpRevokeClientTokens clientID now) in
      Ret match revoked with Err _ => writeProblem 500 "server_error" "归档接入系统后撤销令牌失败" | Ok _ => no_content end
  end.

(** [internal/platform/http/admin_clients.go:437-453] deleteArchivedClient *)
Definition deleteArchivedClient : Prog Reply :=
  let* deleted := CRegistry (KcDeleteArchived (path_value rq "clientID")) in
  Ret match deleted with
      | Err ClientNotFound => no_system
      | Err ErrNotArchived => writeProblem 409 "client_not_archived" "只能永久删除已归档的接入系统"
      | Err _ => writeProblem 500 "server_error" "删除已归档接入系统失败"
      | Ok _ => no_content
      end.

(** [internal/platform/http/admin_clients.go:455-467] getClientIntegration *)
Definition getClientIntegration : Prog Reply :=
  let* found := CClientsFind (path_value rq "clientID") in
  Ret match found with
      | Err ClientNotFound => no_system
      | Err _ => writeProblem 500 "server_error" "读取接入参数失败"
      | Ok item => writeStruct 200 (integrationParameters cfg item "")
      end.
End AdminClients.
