(* ===== verification/AdminSystem.v ===== *)
(** The rest of the administration: identity sources, the audit log, signing keys, the
    maintenance and test mail ([internal/platform/http/admin_identity_sources.go],
    [audit.go], [signing_keys.go], [maintenance.go], [email.go]). *)
From S2P Require Import Prelude GoStrings GoCrypto GoTime GoUrl ReturnTo Administration Cas Mfa Secrets Session RateLimit OAuthStore Identity Client Federation Authorize Access AuditLog Http JsonBodies Tokens Browser CasEndpoints Services Providers Account AdminAuth AdminUsers.
Local Open Scope Z_scope.
Local Open Scope string_scope.
Local Open Scope go_scope.

(** ** Identity sources *)

(** [internal/federation/source.go:37-46] LDAPSource, as JSON *)
Definition ldap_members (l : LDAPSource) : list (string * Value) :=
  ([("url", VString (ls_URL l)); ("start_tls", VBool (ls_StartTLS l)); ("base_dn", VString (ls_BaseDN l))] ++
   member_text "bind_dn" (ls_BindDN l) ++
   [("user_filter", VString (ls_UserFilter l)); ("username_attribute", VString (ls_UsernameAttribute l));
    ("display_name_attribute", VString (ls_DisplayNameAttribute l)); ("email_attribute", VString (ls_EmailAttribute l))])%list.
(** [internal/federation/source.go:48-52] OIDCSource, as JSON *)
Definition oidc_members (o : OIDCSource) : list (string * Value) :=
  [("issuer", VString (is_Issuer o)); ("client_id", VString (is_ClientID o)); ("scopes", VStrings (is_Scopes o))].
(** [internal/federation/source.go:54-68] Source, as JSON: its secret is left out. *)
Definition source_members (s : Source) : list (string * Value) :=
  ([("id", VString (sr_ID s)); ("name", VString (sr_Name s)); ("type", VString (sr_Type s)); ("enabled", VBool (sr_Enabled s))] ++
   member_opt "ldap" ((λ l, VObject (ldap_members l)) <$> sr_LDAP s) ++ member_opt "oidc" ((λ o, VObject (oidc_members o)) <$> sr_OIDC s) ++
   [("secret_configured", VBool (sr_SecretConfigured s)); ("created_at", VTime (sr_CreatedAt s)); ("updated_at", VTime (sr_UpdatedAt s))] ++
   member_opt "archived_at" (VTime <$> sr_ArchivedAt s))%list.

Definition no_source : Reply := writeProblem 404 "not_found" "身份源不存在".

(** [internal/platform/http/admin_identity_sources.go:114-132] identitySourceError *)
Definition identitySourceError (e : sourceError) : Reply :=
  match e with
  | ErrSourceNotFound => no_source
  | ErrSourceConflict => writeProblem 409 "source_exists" "身份源标识已存在"
  | ErrSourceArchived => writeProblem 409 "source_archived" "已归档的身份源不能修改"
  | ErrSourceEncryptionUnavailable => writeProblem 503 "source_encryption_unavailable" "请先配置身份源密钥加密密钥"
  | ErrInvalidSource detail => writeProblem 400 "invalid_identity_source" ("invalid identity source: " +:+ detail)
  | ErrSourceDisabled | SourcePanic => writeProblem 500 "server_error" "保存身份源失败"
  end.

Section Sources.
Context `{HR : MapRange, HU : UnicodeTables, HM : MailParser, HS : TokenSigner, HH : HostParser, HP : URLParser}.
Context (cfg : Config) (rq : HttpRequest).

(** [internal/platform/http/admin_identity_sources.go:13-21] listIdentitySources *)
Definition listIdentitySources : Prog Reply :=
  let* found := CSourcesList in
  Ret match found with Err _ => writeProblem 500 "server_error" "读取身份源失败" | Ok found => items source_members found end.

(** [internal/platform/http/admin_identity_sources.go:23-35] getIdentitySource *)
Definition getIdentitySource : Prog Reply :=
  let* found := CSourcesFind (path_value rq "sourceID") in
  Ret match found with
      | Err ErrSourceNotFound => no_source
      | Err _ => writeProblem 500 "server_error" "读取身份源失败"
      | Ok source => writeStruct 200 (source_members source)
      end.

Definition ldap_fields :=
  [text "url"; flag "start_tls"; text "base_dn"; text "bind_dn"; text "bind_password"; text "user_filter"; text "username_attribute";
   text "display_name_attribute"; text "email_attribute"].
Definition oidc_fields := [text "issuer"; text "client_id"; text "client_secret"; texts "scopes"].
Definition read_ldap (input : gmap string Json) : LDAPSourceInput :=
  {| li_URL := get_text input "url"; li_StartTLS := get_flag input "start_tls"; li_BaseDN := get_text input "base_dn";
     li_BindDN := get_text input "bind_dn"; li_BindPassword := get_text input "bind_password"; li_UserFilter := get_text input "user_filter";
     li_UsernameAttribute := get_text input "username_attribute"; li_DisplayNameAttribute := get_text input "display_name_attribute";
     li_EmailAttribute := get_text input "email_attribute" |}.
Definition read_oidc (input : gmap string Json) : OIDCSourceInput :=
  {| oi_Issuer := get_text input "issuer"; oi_ClientID := get_text input "client_id"; oi_ClientSecret := get_text input "client_secret";
     oi_Scopes := get_texts input "scopes" |}.

(** [internal/platform/http/admin_identity_sources.go:37-49] createIdentitySource *)
Definition createIdentitySource : Prog Reply :=
  match decode_fields [text "id"; text "name"; text "type"; opt_flag "enabled"; opt_struct "ldap" ldap_fields; opt_struct "oidc" oidc_fields] rq with
  | inl message => Ret (writeProblem 400 "invalid_request" message)
  | inr input =>
      let+ created := sources_Create (cfg_SourceKeyRing cfg)
        {| cs_ID := get_text input "id"; cs_Name := get_text input "name"; cs_Type := get_text input "type";
           cs_Enabled := get_opt_flag input "enabled"; cs_LDAP := read_ldap <$> get_opt_struct input "ldap";
           cs_OIDC := read_oidc <$> get_opt_struct input "oidc" |} in
      Ret match created with Err e => identitySourceError e | Ok source => writeStruct 201 (source_members source) end
  end.

(** [internal/platform/http/admin_identity_sources.go:51-62] replaceIdentitySource *)
Definition replaceIdentitySource : Prog Reply :=
  match decode_fields [text "name"; opt_flag "enabled"; flag "clear_secret"; opt_struct "ldap" ldap_fields; opt_struct "oidc" oidc_fields] rq with
  | inl message => Ret (writeProblem 400 "invalid_request" message)
  | inr input =>
      let+ replaced := sources_Replace (cfg_SourceKeyRing cfg) (path_value rq "sourceID")
        {| rs_Name := get_text input "name"; rs_Enabled := get_opt_flag input "enabled"; rs_ClearSecret := get_flag input "clear_secret";
           rs_LDAP := read_ldap <$> get_opt_struct input "ldap"; rs_OIDC := read_oidc <$> get_opt_struct input "oidc" |} in
      Ret match replaced with Err e => identitySourceError e | Ok source => writeStruct 200 (source_members source) end
  end.

(** [internal/platform/http/admin_identity_sources.go:64-83] archiveIdentitySource *)
Definition archiveIdentitySource : Prog Reply :=
  let sourceID := path_value rq "sourceID" in
  let* clients := CClientsList in
  match clients with
  | Err _ => Ret (writeProblem 500 "server_error" "检查身份源使用情况失败")
  | Ok clients =>
      if existsb (λ item, bool_decide (c_ArchivedAt item = None) && Contains (c_IdentitySourceIDs item) sourceID) clients
      then Ret (writeProblem 409 "source_in_use" "身份源仍被接入系统使用，请先解除绑定")
      else
        let+ archived := sources_Archive sourceID in
        Ret match archived with Err e => identitySourceError e | Ok _ => no_content end
  end.

(** [internal/federation/source.go:342-370] SourceService.Probe: the error of the service, or of the system that was
    asked; the source is read again for its authenticator. *)
Definition sources_Probe (id redirectURL : string) : Prog (Res (sourceError + externalError) unit) :=
  let outside (r : Res externalError unit) : Res (sourceError + externalError) unit :=
    match r with Err e => Err (inr e) | Ok _ => Ok () end in
  let* found := CSourcesFind id in
  match found with
  | Err e => Ret (Err (inl e))
  | Ok source =>
      if decide (sr_ArchivedAt source ≠ None) then Ret (Err (inl ErrSourceArchived))
      else if decide (sr_Type source = SourceLDAP) then
        let* again := CSourcesFind id in
        match LDAPAuthenticator (cfg_SourceKeyRing cfg) again with
        | Err e => Ret (Err (inl e))
        | Ok config => let+ probed := ldap_Probe config in Ret (outside probed)
        end
      else if decide (sr_Type source = SourceOIDC) then
        let* again := CSourcesFind id in
        match OIDCAuthenticator (cfg_SourceKeyRing cfg) again with
        | Err e => Ret (Err (inl e))
        | Ok config =>
            let+ probed := oidc_Probe {| oa_config := config; oa_redirectURL := redirectURL; oa_kept := false |} in Ret (outside probed)
        end
      else Ret (Err (inl (ErrInvalidSource "")))
  end.

(** [internal/platform/http/admin_identity_sources.go:85-112] probeIdentitySource *)
Definition probeIdentitySource : Prog Reply :=
  let+ probed := sources_Probe (path_value rq "sourceID") (cfg_Issuer cfg +:+ "/login/oidc/callback") in
  match probed with
  | Ok _ =>
      let* now := CNow in
      Ret (writeJSON 200 (<["status" := VString "available"]> {["checked_at" := VTime now]}))
  | Err (inl ErrSourceNotFound) => Ret no_source
  | Err (inl ErrSourceArchived) => Ret (writeProblem 409 "source_archived" "已归档的身份源不能检测")
  | Err (inl ErrSourceDisabled) => Ret (writeProblem 409 "source_disabled" "请先启用身份源再检测")
  | Err (inl ErrSourceEncryptionUnavailable) => Ret (writeProblem 503 "source_encryption_unavailable" "身份源密钥无法解密")
  | Err (inl SourcePanic) => Ret panicked
  | Err _ => Ret (writeProblem 502 "identity_source_unavailable" "身份源连接检测失败")
  end.
End Sources.

(** ** The audit log *)

(** [internal/audit/audit.go:19-29] Event, as JSON *)
Definition event_members (e : Event) : list (string * Value) :=
  ([("id", VString (ev_ID e)); ("occurred_at", VTime (ev_OccurredAt e))] ++ member_opt "actor_user_id" (VString <$> ev_ActorUserID e) ++
   [("event_type", VString (ev_EventType e))] ++ member_opt "client_id" (VString <$> ev_ClientID e) ++
   member_text "ip_address" (ev_IPAddress e) ++ member_text "request_id" (ev_RequestID e) ++
   [("outcome", VString (ev_Outcome e)); ("details", VObject (map_to_list (ev_Details e)))])%list.
(** [internal/audit/audit.go:42-47] Page, as JSON *)
Definition audit_page_members (page : AuditLog.Page) : list (string * Value) :=
  [("items", listed event_members (pg_Items page)); ("total", VInt (pg_Total page)); ("limit", VInt (pg_Limit page));
   ("offset", VInt (pg_Offset page))].

(** [internal/platform/http/audit.go:161-172] optionalTime: [None] for an error. *)
Definition optionalTime (raw : string) : option (option Time) :=
  let raw := TrimSpace raw in
  if decide (raw = "") then Some None else Some <$> ParseRFC3339Nano raw.

Section System.
Context `{HR : MapRange, HU : UnicodeTables, HM : MailParser, HS : TokenSigner}.
Context (cfg : Config) (rq : HttpRequest).

(** [internal/platform/http/audit.go:119-137] listAuditEvents, the filter that the query asks for *)
Definition audit_filter (limit offset : Z) : string + Filter :=
  let q name := Get (rq_Query rq) name in
  let actorUserID := TrimSpace (q "actor_user_id") in
  let outcome := TrimSpace (q "outcome") in
  if bool_decide (actorUserID ≠ "") && negb (ValidUserID actorUserID) then inl "actor_user_id 无效"
  else if decide (outcome ≠ "" ∧ outcome ≠ OutcomeSuccess ∧ outcome ≠ OutcomeFailure) then inl "outcome 无效"
  else match optionalTime (q "from"), optionalTime (q "to") with
  | None, _ => inl "from 必须是 RFC3339 时间"
  | _, None => inl "to 必须是 RFC3339 时间"
  | Some from, Some to =>
      if match from, to with Some from, Some to => negb (Before from to) | _, _ => false end then inl "from 必须早于 to"
      else inr {| fi_ActorUserID := actorUserID; fi_EventType := TrimSpace (q "event_type"); fi_ClientID := TrimSpace (q "client_id");
                  fi_Outcome := outcome; fi_From := from; fi_To := to; fi_Limit := limit; fi_Offset := offset |}
  end.

(** [internal/platform/http/audit.go:108-159] listAuditEvents *)
Definition listAuditEvents : Prog Reply :=
  match query_page rq 50 200 with
  | inl problem => Ret problem
  | inr (limit, offset) =>
      match audit_filter limit offset with
      | inl message => Ret (writeProblem 400 "invalid_request" message)
      | inr filter =>
          let* page := CAuditList filter in
          Ret match page with
              | None => panicked
              | Some (Err _) => writeProblem 500 "server_error" "读取审计事件失败"
              | Some (Ok page) => writeStruct 200 (audit_page_members page)
              end
      end
  end.

(** ** Signing keys *)

(** [internal/oidc/signer.go:33-39] SigningKey, as JSON: the key itself is left out. *)
Definition key_members (k : SigningKey) : list (string * Value) :=
  ([("kid", VString (sk_KID k)); ("active", VBool (sk_Active k)); ("created_at", VTime (sk_CreatedAt k))] ++
   member_opt "retired_at" (VTime <$> sk_RetiredAt k))%list.

(** [internal/platform/http/signing_keys.go:11-19] listSigningKeys *)
Definition listSigningKeys : Prog Reply :=
  let* found := CKeys JcList in
  Ret match found with Err _ => writeProblem 500 "server_error" "读取签名密钥失败" | Ok found => items key_members found end.

(** [internal/platform/http/signing_keys.go:21-34] rotateSigningKey *)
Definition rotateSigningKey (p : adminPrincipal) : Prog Reply :=
  let* rotated := CKeys JcRotate in
  match rotated with
  | Err _ => Ret (writeProblem 500 "server_error" "轮换签名密钥失败")
  | Ok kid =>
      let+ _ := recordAdminAudit rq p (admin_event "oidc.signing_key_rotated" "" (<["kid" := VString kid]> {["automatic" := VBool false]})) in
      Ret (writeJSON 201 (<["kid" := VString kid]> (<["algorithm" := VString "RS256"]> {["active" := VBool true]})))
  end.

(** ** Maintenance *)

(** [internal/maintenance/maintenance.go:68-88] RunOnce, over the in-memory repository, which only deletes retired
    signing keys: when it completed, and how many were deleted. *)
Definition maintenance_RunOnce (signingKeyRetention : Duration) : Prog (option (Time * Z)) :=
  let* now := CNow in
  let* deleted := CKeys (JcDeleteRetired (now - signingKeyRetention)) in
  Ret match deleted with Err _ => None | Ok count => Some (now, count) end.

(** [internal/maintenance/maintenance.go:49-62] NewService, the retention of signing keys *)
Definition key_retention (signingKeyRetention : Duration) : Duration :=
  if decide (signingKeyRetention < Hour)%Z then (24 * Hour)%Z else signingKeyRetention.

(** [internal/platform/http/maintenance.go:9-22] runMaintenance *)
Definition runMaintenance (p : adminPrincipal) : Prog Reply :=
  let+ result := maintenance_RunOnce (key_retention (cfg_SigningKeyRetention cfg)) in
  match result with
  | None => Ret (writeProblem 500 "server_error" "清理过期数据失败")
  | Some (completedAt, count) =>
      let deleted := VObject [("oidc_signing_keys", VInt count)] in
      let+ _ := recordAdminAudit rq p (admin_event "maintenance.cleanup" "" {["deleted" := deleted]}) in
      Ret (writeJSON 200 (<["completed_at" := VTime completedAt]> {["deleted" := deleted]}))
  end.

(** ** Test mail *)

(** [internal/mailer/mailer.go:343-345] containsHeaderControl *)
Definition containsHeaderControl (value : string) : bool := existsb (λ b, bool_decide (b = 13 ∨ b = 10 ∨ b = 0)%Z) (bytes value).

(** [internal/mailer/mailer.go:331-341] normalizeAddress *)
Definition normalizeAddress (value : string) : option string :=
  let value := TrimSpace value in
  if bool_decide (value = "") || containsHeaderControl value then None
  else match mail_ParseAddress value with
       | Some address => if decide (address ≠ value) then None else Some (ToLower address)
       | None => None
       end.

(** [internal/mailer/mailer.go:103-118] Validate: the message can be sent. *)
Definition ValidateMessage (m : Message) : bool :=
  let subject := TrimSpace (ms_Subject m) in
  match normalizeAddress (ms_To m) with
  | None => false
  | Some _ =>
      negb (bool_decide (subject = "" ∨ 200 < rune_count subject)%Z || containsHeaderControl subject) &&
      negb (bool_decide (ms_Text m = "" ∧ ms_HTML m = "")) && negb (bool_decide (2 ^ 20 < len (ms_Text m) + len (ms_HTML m))%Z)
  end.

(** [internal/platform/http/email.go:11-53] testEmail *)
Definition testEmail (p : adminPrincipal) : Prog Reply :=
  if negb (cfg_Mailer cfg) then Ret (writeProblem 503 "smtp_not_configured" "SMTP 尚未配置")
  else match decode_fields [text "to"] rq with
  | inl message => Ret (writeProblem 400 "invalid_request" message)
  | inr input =>
      let message :=
        {| ms_To := get_text input "to"; ms_Subject := "Certus SMTP 配置测试";
           ms_Text := "这是一封来自 Certus 的 SMTP 配置测试邮件。" +:+ newline +:+ newline +:+
                      "Issuer: " +:+ cfg_Issuer cfg +:+ newline +:+ newline +:+
                      "如果你收到此邮件，说明 SMTP 连接、认证和发件人配置均可用。";
           ms_HTML := "" |} in
      if negb (ValidateMessage message) then Ret (writeProblem 400 "invalid_email" "收件邮箱地址无效")
      else
        let* sent := CMail message in
        if (sent : bool) then
          let+ _ := recordAdminAudit rq p (admin_event "email.smtp_test" "" ∅) in
          Ret no_content
        else
          let+ _ := recordAdminAudit rq p (event "" "email.smtp_test" "" OutcomeFailure {["reason" := VString "send_failed"]}) in
          Ret (writeProblem 502 "smtp_send_failed" "SMTP 测试邮件发送失败")
  end.
End System.
