(* ===== verification/AdminRoutes.v ===== *)
(** The administration as the router serves it: its endpoints with their methods, paths
    and permissions ([internal/platform/http/server.go]). *)
From S2P Require Import Prelude GoStrings GoCrypto GoTime GoUrl ReturnTo Administration Cas Mfa Secrets Session RateLimit OAuthStore Identity Passwords Client Federation Authorize Access AuditLog Http JsonBodies Tokens Browser CasEndpoints Services Providers Account AdminAuth AdminUsers AdminAccess AdminClients AdminSystem.
Local Open Scope Z_scope.
Local Open Scope string_scope.
Local Open Scope go_scope.

(** The handlers behind [requireAdmin]. *)
Inductive AdminEndpoint :=
| AdminMe
| ListAdministratorRoleDefinitions
| ListUsers_
| CreateUser_
| ImportUsers_
| GetUser
| ReplaceUser_
| SetUserPassword_
| IssueUserPasswordReset
| VerifyAdminUserEmail
| ListUserExternalIdentities
| DeleteUserExternalIdentity
| ListAdminUserSessions
| RevokeAllAdminUserSessions
| RevokeAdminUserSession
| ResetAdminUserMFA
| ListUserAdministratorRoles
| ReplaceUserAdministratorRoles
| ListAuditEvents
| ListSigningKeys
| RotateSigningKey
| RunMaintenance
| TestEmail
| ListIdentitySources
| CreateIdentitySource
| GetIdentitySource
| ReplaceIdentitySource
| ArchiveIdentitySource
| ProbeIdentitySource
| ListAdminClients
| ListAdminSystems
| CreateSystem_
| GetAdminSystem
| ReplaceSystem_
| DeleteSystem_
| CreateClient_
| GetAdminClient
| ReplaceClient_
| ArchiveClient
| DeleteArchivedClient
| RotateClientSecret
| GetClientIntegration
| ListRoles_
| CreateRole_
| GetRole
| ReplaceRole_
| DeleteRole_
| ListPermissions_
| CreatePermission_
| GetPermission
| ReplacePermission_
| DeletePermission_
| ListRolePermissions_
| ReplaceRolePermissions
| ListUserRoles_
| ReplaceUserRoles_.
#[export] Instance AdminEndpoint_eq_dec : EqDecision AdminEndpoint.
Proof. solve_decision. Defined.

(** [internal/platform/http/server.go:290-346] NewWithDependencies, the routes of the administration *)
Definition admin_route (e : AdminEndpoint) : string * string * string :=
  match e with
  | AdminMe => ("GET", "/api/v1/admin/me", "")
  | ListAdministratorRoleDefinitions => ("GET", "/api/v1/admin/roles", PermissionAdminRolesRead)
  | ListUsers_ => ("GET", "/api/v1/admin/users", PermissionUsersRead)
  | CreateUser_ => ("POST", "/api/v1/admin/users", PermissionUsersWrite)
  | ImportUsers_ => ("POST", "/api/v1/admin/users/import", PermissionUsersWrite)
  | GetUser => ("GET", "/api/v1/admin/users/{userID}", PermissionUsersRead)
  | ReplaceUser_ => ("PUT", "/api/v1/admin/users/{userID}", PermissionUsersWrite)
  | SetUserPassword_ => ("PUT", "/api/v1/admin/users/{userID}/password", PermissionUsersWrite)
  | IssueUserPasswordReset => ("POST", "/api/v1/admin/users/{userID}/password-reset", PermissionUsersWrite)
  | VerifyAdminUserEmail => ("POST", "/api/v1/admin/users/{userID}/email-verification", PermissionUsersWrite)
  | ListUserExternalIdentities => ("GET", "/api/v1/admin/users/{userID}/external-identities", PermissionUsersRead)
  | DeleteUserExternalIdentity => ("DELETE", "/api/v1/admin/users/{userID}/external-identities/{externalIdentityID}", PermissionUsersWrite)
  | ListAdminUserSessions => ("GET", "/api/v1/admin/users/{userID}/sessions", PermissionUsersRead)
  | RevokeAllAdminUserSessions => ("DELETE", "/api/v1/admin/users/{userID}/sessions", PermissionUsersWrite)
  | RevokeAdminUserSession => ("DELETE", "/api/v1/admin/users/{userID}/sessions/{sessionID}", PermissionUsersWrite)
  | ResetAdminUserMFA => ("DELETE", "/api/v1/admin/users/{userID}/mfa", PermissionUsersWrite)
  | ListUserAdministratorRoles => ("GET", "/api/v1/admin/users/{userID}/admin-roles", PermissionAdminRolesRead)
  | ReplaceUserAdministratorRoles => ("PUT", "/api/v1/admin/users/{userID}/admin-roles", PermissionAdminRolesWrite)
  | ListAuditEvents => ("GET", "/api/v1/admin/audit-events", PermissionAuditRead)
  | ListSigningKeys => ("GET", "/api/v1/admin/signing-keys", PermissionSecurityRead)
  | RotateSigningKey => ("POST", "/api/v1/admin/signing-keys/rotate", PermissionSecurityWrite)
  | RunMaintenance => ("POST", "/api/v1/admin/maintenance/cleanup", PermissionMaintenanceExecute)
  | TestEmail => ("POST", "/api/v1/admin/email/test", PermissionSecurityWrite)
  | ListIdentitySources => ("GET", "/api/v1/admin/identity-sources", PermissionSourcesRead)
  | CreateIdentitySource => ("POST", "/api/v1/admin/identity-sources", PermissionSourcesWrite)
  | GetIdentitySource => ("GET", "/api/v1/admin/identity-sources/{sourceID}", PermissionSourcesRead)
  | ReplaceIdentitySource => ("PUT", "/api/v1/admin/identity-sources/{sourceID}", PermissionSourcesWrite)
  | ArchiveIdentitySource => ("DELETE", "/api/v1/admin/identity-sources/{sourceID}", PermissionSourcesWrite)
  | ProbeIdentitySource => ("POST", "/api/v1/admin/identity-sources/{sourceID}/probe", PermissionSourcesWrite)
  | ListAdminClients => ("GET", "/api/v1/admin/clients", PermissionClientsRead)
  | ListAdminSystems => ("GET", "/api/v1/admin/systems", PermissionClientsRead)
  | CreateSystem_ => ("POST", "/api/v1/admin/systems", PermissionClientsWrite)
  | GetAdminSystem => ("GET", "/api/v1/admin/systems/{systemID}", PermissionClientsRead)
  | ReplaceSystem_ => ("PUT", "/api/v1/admin/systems/{systemID}", PermissionClientsWrite)
  | DeleteSystem_ => ("DELETE", "/api/v1/admin/systems/{systemID}", PermissionClientsWrite)
  | CreateClient_ => ("POST", "/api/v1/admin/clients", PermissionClientsWrite)
  | GetAdminClient => ("GET", "/api/v1/admin/clients/{clientID}", PermissionClientsRead)
  | ReplaceClient_ => ("PUT", "/api/v1/admin/clients/{clientID}", PermissionClientsWrite)
  | ArchiveClient => ("DELETE", "/api/v1/admin/clients/{clientID}", PermissionClientsWrite)
  | DeleteArchivedClient => ("DELETE", "/api/v1/admin/clients/{clientID}/permanent", PermissionClientsWrite)
  | RotateClientSecret => ("POST", "/api/v1/admin/clients/{clientID}/secret", PermissionClientsWrite)
  | GetClientIntegration => ("GET", "/api/v1/admin/clients/{clientID}/integration", PermissionClientsRead)
  | ListRoles_ => ("GET", "/api/v1/admin/clients/{clientID}/roles", PermissionAccessRead)
  | CreateRole_ => ("POST", "/api/v1/admin/clients/{clientID}/roles", PermissionAccessWrite)
  | GetRole => ("GET", "/api/v1/admin/clients/{clientID}/roles/{roleID}", PermissionAccessRead)
  | ReplaceRole_ => ("PUT", "/api/v1/admin/clients/{clientID}/roles/{roleID}", PermissionAccessWrite)
  | DeleteRole_ => ("DELETE", "/api/v1/admin/clients/{clientID}/roles/{roleID}", PermissionAccessWrite)
  | ListPermissions_ => ("GET", "/api/v1/admin/clients/{clientID}/permissions", PermissionAccessRead)
  | CreatePermission_ => ("POST", "/api/v1/admin/clients/{clientID}/permissions", PermissionAccessWrite)
  | GetPermission => ("GET", "/api/v1/admin/clients/{clientID}/permissions/{permissionID}", PermissionAccessRead)
  | ReplacePermission_ => ("PUT", "/api/v1/admin/clients/{clientID}/permissions/{permissionID}", PermissionAccessWrite)
  | DeletePermission_ => ("DELETE", "/api/v1/admin/clients/{clientID}/permissions/{permissionID}", PermissionAccessWrite)
  | ListRolePermissions_ => ("GET", "/api/v1/admin/clients/{clientID}/roles/{roleID}/permissions", PermissionAccessRead)
  | ReplaceRolePermissions => ("PUT", "/api/v1/admin/clients/{clientID}/roles/{roleID}/permissions", PermissionAccessWrite)
  | ListUserRoles_ => ("GET", "/api/v1/admin/users/{userID}/roles", PermissionAccessRead)
  | ReplaceUserRoles_ => ("PUT", "/api/v1/admin/users/{userID}/roles", PermissionAccessWrite)
  end.
Definition admin_method (e : AdminEndpoint) : string := (admin_route e).1.1.
Definition admin_path (e : AdminEndpoint) : string := (admin_route e).1.2.
Definition admin_permission (e : AdminEndpoint) : string := (admin_route e).2.

(** ** The router

    A pattern of [http.ServeMux]: its method, where GET also serves HEAD, and its
    segments, those in braces being values; the path of the request is its path as sent. *)
Definition serves_method (pattern method : string) : bool :=
  bool_decide (method = pattern) || (bool_decide (pattern = "GET") && bool_decide (method = "HEAD")).

(** The name of a segment in braces. *)
Definition wildcard (segment : string) : option string :=
  match segment with String "{" rest => Some (Trim rest "}") | _ => None end.
Fixpoint match_segments (pattern path : list string) : option (gmap string string) :=
  match pattern, path with
  | [], [] => Some ∅
  | p :: pattern, s :: path =>
      match wildcard p with
      | Some name => if decide (s = "") then None else (λ values, <[name := s]> values) <$> match_segments pattern path
      | None => if decide (p = s) then match_segments pattern path else None
      end
  | _, _ => None
  end.
Definition match_path (pattern path : string) : option (gmap string string) :=
  match_segments (Split pattern "/"%char) (Split path "/"%char).

Section AdminRoutes.
Context `{HR : MapRange, HU : UnicodeTables, HM : MailParser, HS : TokenSigner, HA : Argon2, HH : HostParser, HP : URLParser}.
Context (cfg : Config).

(** The handler of an endpoint, for an administrator who was let in. *)
Definition admin_handler (e : AdminEndpoint) (rq : HttpRequest) (p : adminPrincipal) : Prog Reply :=
  match e with
  | AdminMe => adminMe rq p
  | ListAdministratorRoleDefinitions => Ret listAdministratorRoleDefinitions
  | ListUsers_ => listUsers rq
  | CreateUser_ => createUser cfg rq
  | ImportUsers_ => importUsers rq p
  | GetUser => getUser rq
  | ReplaceUser_ => replaceUser cfg rq p
  | SetUserPassword_ => setUserPassword cfg rq p
  | IssueUserPasswordReset => issueUserPasswordReset rq p
  | VerifyAdminUserEmail => verifyAdminUserEmail rq p
  | ListUserExternalIdentities => listUserExternalIdentities rq
  | DeleteUserExternalIdentity => deleteUserExternalIdentity cfg rq p
  | ListAdminUserSessions => listAdminUserSessions rq
  | RevokeAllAdminUserSessions => revokeAllAdminUserSessions cfg rq p
  | RevokeAdminUserSession => revokeAdminUserSession cfg rq p
  | ResetAdminUserMFA => resetAdminUserMFA cfg rq p
  | ListUserAdministratorRoles => listUserAdministratorRoles rq
  | ReplaceUserAdministratorRoles => replaceUserAdministratorRoles rq p
  | ListAuditEvents => listAuditEvents rq
  | ListSigningKeys => listSigningKeys
  | RotateSigningKey => rotateSigningKey rq p
  | RunMaintenance => runMaintenance cfg rq p
  | TestEmail => testEmail cfg rq p
  | ListIdentitySources => listIdentitySources
  | CreateIdentitySource => createIdentitySource cfg rq
  | GetIdentitySource => getIdentitySource rq
  | ReplaceIdentitySource => replaceIdentitySource cfg rq
  | ArchiveIdentitySource => archiveIdentitySource rq
  | ProbeIdentitySource => probeIdentitySource cfg rq
  | ListAdminClients => listAdminClients
  | ListAdminSystems => listAdminSystems
  | CreateSystem_ => createSystem rq
  | GetAdminSystem => getAdminSystem rq
  | ReplaceSystem_ => replaceSystem rq
  | DeleteSystem_ => deleteSystem rq
  | CreateClient_ => createClient cfg rq
  | GetAdminClient => getAdminClient cfg rq
  | ReplaceClient_ => replaceClient cfg rq
  | ArchiveClient => archiveClient rq
  | DeleteArchivedClient => deleteArchivedClient rq
  | RotateClientSecret => rotateClientSecret cfg rq
  | GetClientIntegration => getClientIntegration cfg rq
  | ListRoles_ => listRoles rq
  | CreateRole_ => createRole rq p
  | GetRole => getRole rq
  | ReplaceRole_ => replaceRole rq p
  | DeleteRole_ => deleteRole rq p
  | ListPermissions_ => listPermissions rq
  | CreatePermission_ => createPermission rq p
  | GetPermission => getPermission rq
  | ReplacePermission_ => replacePermission rq p
  | DeletePermission_ => deletePermission rq p
  | ListRolePermissions_ => listRolePermissions rq
  | ReplaceRolePermissions => replaceRolePermissions rq p
  | ListUserRoles_ => listUserRoles rq
  | ReplaceUserRoles_ => replaceUserRoles rq p
  end.

(** A request for an endpoint of the administration, which the router hands over when its
    method is served. *)
Definition administer (e : AdminEndpoint) (rq : HttpRequest) : Prog Reply :=
  auditMutations rq
    (if serves_method (admin_method e) (rq_Method rq) then requireAdmin cfg rq (admin_permission e) (admin_handler e rq)
     else Ret (None, reply 405 (TextBody "Method Not Allowed"))).
End AdminRoutes.
