(* ===== verification/AdminProps.v ===== *)
(** What the administration guarantees, whatever happens between its calls: who may make
    which change, what protects the accounts of administrators, and that what is stored
    was built by the constructors of its component. *)
From S2P Require Import Prelude GoStrings GoCrypto GoTime GoUrl ReturnTo Administration Cas Mfa Secrets Session RateLimit OAuthStore Identity Passwords Client Federation Authorize Access AuditLog Http HttpWp JsonBodies Tokens TokensProps Browser BrowserProps CasEndpoints LogoutProps Services Providers SignInProps Account AccountProps AdminAuth AdminUsers AdminAccess AdminClients AdminSystem AdminRoutes.
Local Open Scope Z_scope.
Local Open Scope string_scope.

(** ** What a call needs *)

(** The permissions that allow a call that changes something: any of them. *)
Definition permitting (q : Call) : list string :=
  match q with
  | CAdmin _ => [PermissionAdminRolesWrite]
  | CAccess _ => [PermissionAccessWrite]
  | CRegistry _ | CStore (OpRevokeClientTokens _ _) => [PermissionClientsWrite]
  | CSource _ => [PermissionSourcesWrite]
  | CKeys JcRotate => [PermissionSecurityWrite]
  | CKeys _ => [PermissionMaintenanceExecute]
  | CMail _ => [PermissionUsersWrite; PermissionSecurityWrite]
  | _ => [PermissionUsersWrite]
  end.

Section Evidence.
Context `{HR : MapRange, HU : UnicodeTables, HM : MailParser, HS : TokenSigner, HA : Argon2, HH : HostParser, HP : URLParser}.
Context (cfg : Config) (rq : HttpRequest).

(** The request is from an administrator: it has the emergency token, or the cookie of a
    session whose user is active and has administrators' roles that give the permission,
    that was opened with a second factor, and, to change something, comes from a page of
    the site. *)
Definition admitted (permission : string) (p : adminPrincipal) (past : list Did) : Prop :=
  Has (ap_Access p) permission = true ∧
  ((∃ token, TrimSpace (rq_Authorization rq) = "Bearer " +:+ token ∧ TrimSpace token ≠ "" ∧ cfg_AdminToken cfg ≠ "" ∧
      sha256 (bytes (cfg_AdminToken cfg)) = sha256 (bytes (TrimSpace token)) ∧
      p = {| ap_Access := AccessFor "" [RoleSuperAdmin]; ap_AuthMethod := adminAuthEmergencyToken |}) ∨
   (∃ current, signed_in rq current past ∧ did (CAdmin (AcEffective (s_UserID current))) (Ok (ap_Access p)) ∈ past ∧
      ac_Roles (ap_Access p) ≠ [] ∧ administratorMFA current = true ∧ ap_AuthMethod p = adminAuthSession ∧
      (isMutation (rq_Method rq) = true → validCSRF (rq_CSRFHeader rq) rq = true))).

(** The user is no administrator, or the one who acts may change administrators. *)
Definition may_touch (p : adminPrincipal) (u : string) (past : list Did) : Prop :=
  ∃ grants, did (CAdmin (AcUserRoles u)) (Ok grants) ∈ past ∧ (grants = [] ∨ Has (ap_Access p) PermissionAdminRolesWrite = true).
(** Someone else is a super administrator whose account is active. *)
Definition another_remains (u : string) (past : list Did) : Prop :=
  ∃ userIDs v user, did (CAdmin (AcRoleUsers RoleSuperAdmin)) (Ok userIDs) ∈ past ∧ v ∈ userIDs ∧ v ≠ u ∧
    did (CUsersFind v) (Ok user) ∈ past ∧ u_Status user = UserActive.
(** The user is no super administrator, or another remains. *)
Definition not_the_last (u : string) (past : list Did) : Prop :=
  ∃ grants, did (CAdmin (AcUserRoles u)) (Ok grants) ∈ past ∧
    (grantsContainRole grants RoleSuperAdmin = true → another_remains u past).
(** The account is one that was found, changed as [ReplacedUser] allows; when it ceases to
    be active, it is not an administrator's that must be left alone. *)
Definition account_changed (p : adminPrincipal) (updated : User) (past : list Did) : Prop :=
  ∃ u current input now, did (CUsersFind u) (Ok current) ∈ past ∧ ReplacedUser current input now = Ok updated ∧
    (u_Status current = UserActive → u_Status updated ≠ UserActive → may_touch p u past ∧ not_the_last u past).
(** An account was stored that is not active. *)
Definition deactivated (u : string) (past : list Did) : Prop :=
  ∃ updated stored, did (CUsersReplace updated) (Ok stored) ∈ past ∧ u = u_ID stored ∧ u_Status stored ≠ UserActive.
(** An application was archived, or stored disabled. *)
Definition withdrawn (id : string) (past : list Did) : Prop :=
  (∃ now, did (CRegistry (KcArchive id now)) (Ok tt) ∈ past) ∨
  ∃ item stored, did (CRegistry (KcReplace item)) (Ok stored) ∈ past ∧ id = c_ID stored ∧ c_Enabled stored = false.

(** What is stored was built by the constructors, from what was stored before. *)
Definition built_client (item : Client) (past : list Did) : Prop :=
  (∃ input rnd secret, Client.New input rnd = Ok (item, secret)) ∨
  ∃ id current input, did (CClientsFind id) (Ok current) ∈ past ∧ Client.Replace current input = Ok item.
Definition built_system (item : System) (past : list Did) : Prop :=
  (∃ input, NewSystem input = Ok item) ∨
  ∃ id current input, did (CRegistry (KcFindSystem id)) (Ok current) ∈ past ∧ ReplaceSystem current input = Ok item.
Definition built_source (source : Source) (past : list Did) : Prop :=
  ∃ made rnd, seal_source (cfg_SourceKeyRing cfg) made.1 made.2 rnd = Ok source ∧
    ((∃ input now, newSource input now = Ok made) ∨
     ∃ id current input now, did (CSourcesFind id) (Ok current) ∈ past ∧ replaceSource current input now = Ok made).
Definition built_role (v : Role) (past : list Did) : Prop :=
  (∃ clientID code name description now rnd, NewRole clientID code name description now rnd = Ok v) ∨
  ∃ clientID id current code name description now, did (CAccess (XcFindRole clientID id)) (Ok current) ∈ past ∧
    UpdatedRole current code name description now = Ok v.
Definition built_permission (v : Permission) (past : list Did) : Prop :=
  (∃ clientID code name description now rnd, NewPermission clientID code name description now rnd = Ok v) ∨
  ∃ clientID id current code name description now, did (CAccess (XcFindPermission clientID id)) (Ok current) ∈ past ∧
    UpdatedPermission current code name description now = Ok v.

(** What each call needs, besides an administrator with the permission. *)
Definition proper (p : adminPrincipal) (past : list Did) (q : Call) : Prop :=
  match q with
  | CAdmin (AcReplace u roles by_ _) =>
      ValidateRoles roles = Ok tt ∧ by_ = grantedBy p ∧ ∃ current, did (CAdmin (AcUserRoles u)) (Ok current) ∈ past ∧
        (grantsContainRole current RoleSuperAdmin = true → HasRole roles RoleSuperAdmin = false → another_remains u past)
  | CUsersReplace updated => account_changed p updated past
  | CPasswordSet u _ | CMfaDelete u | CMfaDeleteDevices u | CAccount (UcVerified u _) | CAccount (UcDeleteExternal u _) => may_touch p u past
  | CResetSave t => may_touch p (pr_UserID t) past
  | CSessionsRevokeForUser u _ => may_touch p u past
  | CSessionsRevokeAll u _ | CStore (OpRevokeUserTokens u _ _) => may_touch p u past ∨ deactivated u past
  | CStore (OpRevokeSessionTokens _ _ _) | CStore (OpDeleteOIDCClientSessions _) | CCas (CoDeleteServiceSessions _) => sessions_ended past
  | CSignTyped _ typ => typ = "logout+jwt"
  | CAccount (UcCreate user) => ∃ input now rnd, NewUser input now rnd = Ok user
  | CAccount (UcImport _) | CVerificationSave _ | CMail _ => True
  | CAccess (XcCreateRole v) | CAccess (XcReplaceRole v) => built_role v past
  | CAccess (XcCreatePermission v) | CAccess (XcReplacePermission v) => built_permission v past
  | CAccess (XcReplaceUserRoles _ grants by_ now) => ValidateRoleGrants grants now = Ok tt ∧ by_ = grantedBy p
  | CAccess _ => True
  | CRegistry (KcCreateSystem item) | CRegistry (KcReplaceSystem item) => built_system item past
  | CRegistry (KcCreate item) | CRegistry (KcReplace item) => built_client item past
  | CRegistry (KcRotateSecret id hash) => ∃ v current rnd rotated secret, did (CClientsFind v) (Ok current) ∈ past ∧
      RotateSecret current rnd = Ok (rotated, secret) ∧ id = c_ID rotated ∧ hash = c_SecretHash rotated
  | CRegistry _ => True
  | CStore (OpRevokeClientTokens id _) => withdrawn id past
  | CSource (ScCreate source) | CSource (ScReplace source) => built_source source past
  | CSource _ => True
  | CKeys (JcDeleteRetired before) => ∃ now, did CNow now ∈ past ∧ before = (now - key_retention (cfg_SigningKeyRetention cfg))%Z
  | CKeys JcRotate => True
  | _ => False
  end.

(** A call of a handler behind this permission. *)
Definition proper_call (permission : string) (p : adminPrincipal) (past : list Did) (q : Call) : Prop :=
  is_plain q = true ∨ (permission ∈ permitting q ∧ proper p past q).

(** A call of the administration: it changes nothing, or an administrator with a
    permission for it asked for it, with a method that announces a change. *)
Definition admin_guard (past : list Did) (q : Call) : Prop :=
  is_plain q = true ∨
  isMutation (rq_Method rq) = true ∧
  ∃ p permission, permission ∈ permitting q ∧ admitted permission p past ∧ proper p past q.

(** Later calls keep the evidence. *)
Lemma admitted_mono permission p past past' : past `prefix_of` past' → admitted permission p past → admitted permission p past'.
Proof.
  intros Hp [Hhas [Htoken|(current & Hc & Ha & Hrest)]]; (split; [done|]); [by left|right]. exists current.
  split; [by eapply signed_in_mono|]. split; [by eapply did_prefix|done].
Qed.
Lemma may_touch_mono p u past past' : past `prefix_of` past' → may_touch p u past → may_touch p u past'.
Proof. intros Hp (grants & Hg & Hor). exists grants. split; [by eapply did_prefix|done]. Qed.
Lemma another_remains_mono u past past' : past `prefix_of` past' → another_remains u past → another_remains u past'.
Proof. intros Hp (ids & v & user & ? & ? & ? & ? & ?). exists ids, v, user. split_and!; eauto using did_prefix. Qed.
Lemma not_the_last_mono u past past' : past `prefix_of` past' → not_the_last u past → not_the_last u past'.
Proof. intros Hp (grants & Hg & Hor). exists grants. split; [by eapply did_prefix|]. intros. eapply another_remains_mono; eauto. Qed.
Lemma deactivated_mono u past past' : past `prefix_of` past' → deactivated u past → deactivated u past'.
Proof. intros Hp (a & b & Hd & ?). exists a, b. split; [by eapply did_prefix|done]. Qed.
End Evidence.

#[export] Hint Resolve may_touch_mono another_remains_mono not_the_last_mono deactivated_mono : account.

(** * The handlers of the administration make their calls in that order *)
Abbreviation anything := (λ _ _, True).

Section Sound.
Context `{HR : MapRange, HU : UnicodeTables, HM : MailParser, HS : TokenSigner, HA : Argon2, HH : HostParser, HP : URLParser}.
Context (cfg : Config) (rq : HttpRequest) (p : adminPrincipal).

(** ** Parts *)

Section Parts.
Context (perm : string).
Abbreviation guard := (proper_call cfg perm p).

Lemma proper_plain past q : is_plain q = true → guard past q.
Proof. by left. Qed.
Hint Resolve proper_plain : core.

Lemma wp_recorded past ev (post : list Did → unit → Prop) :
  (∀ past', past `prefix_of` past' → post past' ()) → wp guard past (recordAdminAudit rq p ev) post.
Proof. apply wp_record. auto. Qed.

Lemma wp_decide_plain {A} past (q : Prog A) (post : list Did → A → Prop) :
  wp (λ _ q, is_plain q = true) past q (λ _ _, True) → (∀ past' r, past `prefix_of` past' → post past' r) → wp guard past q post.
Proof.
  intros Hq Hpost. apply wp_frame. eapply wp_mono; [| |exact Hq]; [by left|]. auto.
Qed.

Lemma wp_account_user past (post : list Did → Reply + string → Prop) :
  (∀ past' r, past `prefix_of` past' → post past' r) → wp guard past (adminSessionUser rq) post.
Proof. apply wp_decide_plain. unfold adminSessionUser. by wp_steps. Qed.

Lemma wp_sensitive past u (post : list Did → Reply + unit → Prop) :
  (∀ past' r, past `prefix_of` past' → (r = inr () → may_touch p u past') → post past' r) →
  wp guard past (authorizeSensitiveAdministratorTarget p u) post.
Proof.
  intros Hpost. unfold authorizeSensitiveAdministratorTarget. apply wp_do; [by left|]. intros [grants|]; apply wp_ret; apply Hpost; [pre| |pre|done].
  intros Hr. exists grants. split; [auto with did|]. destruct (decide (grants = [])); [by left|]. destruct (Has _ _); [by right|done].
Qed.

Lemma wp_target past (post : list Did → Reply + string → Prop) :
  (∀ past' r, past `prefix_of` past' → (∀ u, r = inr u → may_touch p u past') → post past' r) →
  wp guard past (sensitive_target rq p) post.
Proof.
  intros Hpost. unfold sensitive_target, pass. apply wp_try, wp_bind, wp_account_user. intros past1 [e|u] Hp1; apply wp_ret; [by apply Hpost|].
  apply wp_try, wp_bind, wp_sensitive. intros past2 [e|[]] Hp2 Hr; apply wp_ret; [apply Hpost; [pre|done]|].
  apply wp_ret, Hpost; [pre|]. intros v [= <-]. by apply Hr.
Qed.

Lemma wp_another_active past u ids (post : list Did → bool + unit → Prop) :
  (∀ past' r, past `prefix_of` past' →
     (r = inr () → ∃ v user, v ∈ ids ∧ v ≠ u ∧ did (CUsersFind v) (Ok user) ∈ past' ∧ u_Status user = UserActive) → post past' r) →
  wp guard past (other_active u ids) post.
Proof.
  revert past post. induction ids as [|v ids IH]; intros past post Hpost; simpl other_active; [by apply wp_ret, Hpost|].
  assert (∀ past1, past `prefix_of` past1 → wp guard past1 (other_active u ids) post) as Hrest.
  { intros past1 Hp1. apply IH. intros past2 r Hp2 Hr. apply Hpost; [by etrans|]. intros Heq. destruct (Hr Heq) as (v' & user & ? & ? & ? & ?).
    exists v', user. split_and!; [by right|done..]. }
  destruct (decide (v = u)) as [|Hne]; [by apply Hrest|]. apply wp_do; [by left|]. intros [user|[]]; try (apply Hrest; pre); try (apply wp_ret, Hpost; [pre|done]).
  destruct (decide _) as [Hs|]; [|apply Hrest; pre]. apply wp_ret, Hpost; [pre|]. intros _. exists v, user.
  split_and!; [by left|done|auto with did|done].
Qed.

Lemma wp_other past u detail (post : list Did → Reply + unit → Prop) :
  (∀ past' r, past `prefix_of` past' → (r = inr () → another_remains u past') → post past' r) →
  wp guard past (require_other_administrator u detail) post.
Proof.
  intros Hpost. unfold require_other_administrator, ensureOtherActiveSuperAdministrator. apply wp_bind, wp_do; [by left|]. intros [ids|]; [|apply wp_ret, wp_ret, Hpost; [pre|by case_bool_decide]].
  apply wp_another_active. intros past1 [b|[]] Hp1 Hr; apply wp_ret, Hpost; try pre; [by destruct b|].
  intros _. destruct (Hr eq_refl) as (v & user & ? & ? & ? & ?). exists ids, v, user. split_and!; try done. eapply did_prefix; [exact Hp1|]. auto with did.
Qed.

Lemma wp_deactivation past u (post : list Did → Reply + unit → Prop) :
  (∀ past' r, past `prefix_of` past' → (r = inr () → may_touch p u past' ∧ not_the_last u past') → post past' r) →
  wp guard past (authorizeAdministratorDeactivation p u) post.
Proof.
  intros Hpost. unfold authorizeAdministratorDeactivation, pass. apply wp_try, wp_bind, wp_sensitive. intros past1 [e|[]] Hp1 Hm; apply wp_ret; [by apply Hpost|].
  specialize (Hm eq_refl). apply wp_do; [by left|]. intros [grants|]; [|apply wp_ret, Hpost; [pre|done]]. destruct (negb _) eqn:E.
  - apply wp_ret, Hpost; [pre|]. intros _. split; [eapply may_touch_mono; [|exact Hm]; pre|]. exists grants. split; [auto with did|].
    apply negb_true_iff in E. congruence.
  - apply wp_other. intros past2 r Hp2 Hr. apply Hpost; [pre|]. intros Heq. split; [eapply may_touch_mono; [|exact Hm]; pre|].
    exists grants. split; [|intros _; by apply Hr]. eapply did_prefix; [exact Hp2|]. auto with did.
Qed.

Lemma wp_access_client past (post : list Did → Reply + Client → Prop) :
  (∀ past' r, past `prefix_of` past' → post past' r) → wp guard past (accessClient rq) post.
Proof. apply wp_decide_plain. unfold accessClient. by wp_steps. Qed.

Lemma wp_page_items past members (post : list Did → Reply → Prop) :
  (∀ past' r, past `prefix_of` past' → post past' r) → wp guard past (json_page rq members) post.
Proof. apply wp_decide_plain. unfold json_page, ensureCSRF. by wp_steps. Qed.
End Parts.
Hint Resolve proper_plain : core.

(** One step of a handler, by the lemma for its part. *)
Ltac admin_step :=
  match goal with
  | |- wp _ _ (Ret _) _ => apply wp_ret
  | |- wp _ _ (Do _ _) _ => apply wp_do; [try by left|intros ?]
  | |- wp _ _ (bind (recordAdminAudit _ _ _) _) _ => apply wp_bind, wp_recorded; intros ? ?
  | |- wp _ _ (bind (recordAudit _ _) _) _ => apply wp_bind, wp_record; [by left|]; intros ? ?
  | |- wp _ _ (try (adminSessionUser _) _) _ => apply wp_try, wp_account_user; intros ? [?|?] ?
  | |- wp _ _ (try (accessUser _) _) _ => apply wp_try, wp_account_user; intros ? [?|?] ?
  | |- wp _ _ (try (accessClient _) _) _ => apply wp_try, wp_access_client; intros ? [?|?] ?
  | |- wp _ _ (try (sensitive_target _ _) _) _ => let Hr := fresh "Htarget" in let past1 := fresh "past" in apply wp_try, wp_target; intros past1 [?|?] ? Hr; [|specialize (Hr _ eq_refl)]
  | |- wp _ _ (try (authorizeSensitiveAdministratorTarget _ _) _) _ =>
      let Hr := fresh "Htarget" in apply wp_try, wp_sensitive; intros ? [?|[]] ? Hr; [|specialize (Hr eq_refl)]
  | |- wp _ _ (json_page _ _) _ => apply wp_page_items; intros ? ? ?
  | |- wp _ _ (bind _ _) _ => apply wp_bind
  | |- wp _ _ (try _ _) _ => apply wp_try
  | |- wp _ _ (if decide ?P then _ else _) _ => destruct (decide P)
  | |- wp _ _ (match ?x with _ => _ end) _ => destruct x eqn:?
  | |- wp _ _ _ _ => progress cbv beta zeta
  | |- match ?x with _ => _ end => destruct x eqn:?
  | |- True => exact I
  end.
Ltac admin := repeat admin_step.
(** A call that changes something, behind the permission it needs. *)
Ltac changes := right; split; [by apply list_elem_of_In; simpl; auto|].

(** ** Applications' roles and permissions *)

Section AccessHandlers.
Abbreviation guard := (proper_call cfg PermissionAccessWrite p).
Lemma wp_createRole past : wp guard past (createRole rq p) anything.
Proof. unfold createRole, with_coded. admin. changes. left. by repeat eexists. Qed.
Lemma wp_replaceRole past : wp guard past (replaceRole rq p) anything.
Proof. unfold replaceRole, with_coded. admin. changes. right. repeat eexists; [|done]. subst. auto with did. Qed.
Lemma wp_deleteRole past : wp guard past (deleteRole rq p) anything.
Proof. unfold deleteRole. admin. by changes. Qed.
Lemma wp_createPermission past : wp guard past (createPermission rq p) anything.
Proof. unfold createPermission, with_coded. admin. changes. left. by repeat eexists. Qed.
Lemma wp_replacePermission past : wp guard past (replacePermission rq p) anything.
Proof. unfold replacePermission, with_coded. admin. changes. right. repeat eexists; [|done]. subst. auto with did. Qed.
Lemma wp_deletePermission past : wp guard past (deletePermission rq p) anything.
Proof. unfold deletePermission. admin. by changes. Qed.
Lemma wp_replaceRolePermissions past : wp guard past (replaceRolePermissions rq p) anything.
Proof. unfold replaceRolePermissions. admin. by changes. Qed.
Lemma wp_replaceUserRoles past : wp guard past (replaceUserRoles rq p) anything.
Proof. unfold replaceUserRoles. admin. changes. split; [|done]. by match goal with u : unit |- _ => destruct u end. Qed.
End AccessHandlers.

(** ** Applications and systems *)

Section ClientHandlers.
Abbreviation guard := (proper_call cfg PermissionClientsWrite p).
Lemma wp_createSystem past : wp guard past (createSystem rq) anything.
Proof. unfold createSystem. admin. changes. left. by eexists. Qed.
Lemma wp_replaceSystem past : wp guard past (replaceSystem rq) anything.
Proof. unfold replaceSystem. admin. changes. right. repeat eexists; [|done]. subst. auto with did. Qed.
Lemma wp_deleteSystem past : wp guard past (deleteSystem rq) anything.
Proof. unfold deleteSystem. admin. by changes. Qed.

Lemma wp_system past id (post : list Did → Reply + unit → Prop) :
  (∀ past' r, past `prefix_of` past' → post past' r) → wp guard past (validateClientSystem id) post.
Proof. apply wp_decide_plain. unfold validateClientSystem. by wp_steps. Qed.
Lemma wp_references past item (post : list Did → Reply + unit → Prop) :
  (∀ past' r, past `prefix_of` past' → post past' r) → wp guard past (validate_references item) post.
Proof.
  apply wp_decide_plain. unfold validate_references, pass. apply wp_try, wp_bind.
  apply (wp_mono (λ _ q, is_plain q = true) _ _ _ anything); [done| |].
  - intros past1 [e|[]] _; apply wp_ret; [done|]. unfold validateClientIntrospectionPermissions.
    generalize (c_IntrospectableBy item) past1. intros l. induction l as [|v l IH]; intros past2; simpl; [done|]. split; [done|].
    intros [c|[]]; try done. by destruct (introspector_error c).
  - unfold validateClientIdentitySources. generalize (c_IdentitySourceIDs item) past. intros l.
    induction l as [|v l IH]; intros past2; simpl; [done|]. split; [done|]. intros [s|]; [|done]. by destruct (usable_source _ _ _).
Qed.

Lemma wp_createClient past : wp guard past (createClient cfg rq) anything.
Proof.
  unfold createClient. destruct (decode_fields _ _) as [m|input]; [done|]. cbv zeta. apply wp_do; [by left|]. intros rnd.
  destruct (Client.New _ rnd) as [[item secret]|e] eqn:E; [|done].
  assert (∀ past', wp guard past'
    (try (validate_references item) (λ _, let* created := CRegistry (KcCreate item) in
      Ret match created with
          | Err ErrConflict => writeProblem 409 "client_conflict" "client_id 已存在"
          | Err _ => writeProblem 500 "server_error" "创建客户端失败"
          | Ok item => writeStruct 201 (registration_members cfg item secret)
          end))%go anything) as Hrest.
  { intros past'. apply wp_try, wp_references. intros past1 [e|[]] Hp; [done|]. apply wp_do; [|done]. changes. left. by eexists _, _, _. }
  apply wp_try. destruct (decide _); [|apply wp_ret, Hrest]. apply wp_system. intros past1 [e|[]] Hp; [done|apply Hrest].
Qed.

Lemma wp_withdrawn past id now (post : list Did → Res oauthError unit → Prop) (k : Res oauthError unit → Prog Reply) :
  withdrawn id past → (∀ past' r, wp guard past' (k r) anything) → wp guard past (Do (CStore (OpRevokeClientTokens id now)) k) anything.
Proof. intros Hw Hk. apply wp_do; [|by intros]. by changes. Qed.

Lemma wp_replaceClient past : wp guard past (replaceClient cfg rq) anything.
Proof.
  unfold replaceClient. apply wp_do; [by left|]. intros [current|[]]; try done. destruct (decode_fields _ _) as [m|input]; [done|].
  destruct (Client.Replace _ _) as [item|e] eqn:E; [|by destruct e]. apply wp_try, wp_system. intros past1 [r|[]] Hp1; [done|].
  apply wp_try, wp_references. intros past2 [r|[]] Hp2; [done|]. unfold store_client. apply wp_do.
  - changes. right. eexists _, current, _. split; [|done]. eapply did_prefix; [exact Hp2|]. eapply did_prefix; [exact Hp1|]. auto with did.
  - intros [stored|e]; [|by destruct e]. destruct (c_Enabled stored) eqn:En; [done|]. apply wp_do; [by left|]. intros now. apply wp_do; [|done].
    changes. right. exists item, stored. split_and!; [auto with did|done|done].
Qed.
Lemma wp_rotateClientSecret past : wp guard past (rotateClientSecret cfg rq) anything.
Proof. unfold rotateClientSecret. admin. changes. eexists _, _, _, _, _. split_and!; [|eassumption|done|done]. subst. auto with did. Qed.
Lemma wp_archiveClient past : wp guard past (archiveClient rq) anything.
Proof.
  unfold archiveClient. cbv zeta. apply wp_do; [by left|]. intros now. apply wp_do; [by changes|]. intros [[]|e]; [|by destruct e].
  apply wp_do; [|done]. changes. left. exists now. auto with did.
Qed.
Lemma wp_deleteArchivedClient past : wp guard past (deleteArchivedClient rq) anything.
Proof. unfold deleteArchivedClient. admin. by changes. Qed.
End ClientHandlers.

(** ** Identity sources, keys, the maintenance and mail *)

Section SystemHandlers.
Lemma wp_sealed perm past made (post : list Did → Res sourceError Source → Prop) :
  (∀ past' r, past `prefix_of` past' → (∀ s, r = Ok s → ∃ rnd, seal_source (cfg_SourceKeyRing cfg) made.1 made.2 rnd = Ok s) → post past' r) →
  wp (proper_call cfg perm p) past (sources_seal (cfg_SourceKeyRing cfg) made) post.
Proof.
  intros Hpost. unfold sources_seal. destruct (_ && _); [apply wp_do; [by left|]; intros rnd|]; apply wp_ret, Hpost; try pre; intros s Hs; by eexists.
Qed.
Abbreviation guard := (proper_call cfg PermissionSourcesWrite p).
Lemma wp_createIdentitySource past : wp guard past (createIdentitySource cfg rq) anything.
Proof.
  unfold createIdentitySource, sources_Create. destruct (decode_fields _ _) as [m|input]; [done|]. apply wp_bind, wp_do; [by left|]. intros now.
  destruct (newSource _ now) as [made|e] eqn:E; [|done]. apply wp_bind, wp_sealed. intros past1 [s|e] Hp1 Hs; [|done]. destruct (Hs s eq_refl) as [rnd Hrnd].
  apply wp_do; [|done]. changes. exists made, rnd. split; [done|]. left. by eexists _, _.
Qed.
Lemma wp_replaceIdentitySource past : wp guard past (replaceIdentitySource cfg rq) anything.
Proof.
  unfold replaceIdentitySource, sources_Replace. destruct (decode_fields _ _) as [m|input]; [done|]. apply wp_bind, wp_do; [by left|]. intros [current|e]; [|done].
  apply wp_do; [by left|]. intros now. destruct (replaceSource _ _ now) as [made|e] eqn:E; [|done]. apply wp_bind, wp_sealed.
  intros past1 [s|e] Hp1 Hs; [|done]. destruct (Hs s eq_refl) as [rnd Hrnd]. apply wp_do; [|done]. changes. exists made, rnd. split; [done|].
  right. eexists _, current, _, _. split; [|done]. eapply did_prefix; [exact Hp1|]. auto with did.
Qed.
Lemma wp_archiveIdentitySource past : wp guard past (archiveIdentitySource rq) anything.
Proof. unfold archiveIdentitySource, sources_Archive. admin. by changes. Qed.

Lemma wp_probed past id redirect (post : list Did → Res (sourceError + externalError) unit → Prop) :
  (∀ past' r, past `prefix_of` past' → post past' r) → wp guard past (sources_Probe cfg id redirect) post.
Proof.
  apply wp_decide_plain. unfold sources_Probe, ldap_Probe, oidc_Probe, connect, oidc_configuration. cbv zeta. by wp_steps.
Qed.
Lemma wp_probeIdentitySource past : wp guard past (probeIdentitySource cfg rq) anything.
Proof. unfold probeIdentitySource. cbv zeta. apply wp_bind, wp_probed. intros past1 r Hp. admin. Qed.

Lemma wp_rotateSigningKey past : wp (proper_call cfg PermissionSecurityWrite p) past (rotateSigningKey rq p) anything.
Proof. unfold rotateSigningKey. admin. by changes. Qed.
Lemma wp_testEmail past : wp (proper_call cfg PermissionSecurityWrite p) past (testEmail cfg rq p) anything.
Proof. unfold testEmail. admin. by changes. Qed.
Lemma wp_runMaintenance past : wp (proper_call cfg PermissionMaintenanceExecute p) past (runMaintenance cfg rq p) anything.
Proof. unfold runMaintenance, maintenance_RunOnce. admin. changes. eexists. split; [|done]. auto with did. Qed.
End SystemHandlers.

(** ** Accounts *)

Section UserHandlers.
Abbreviation guard := (proper_call cfg PermissionUsersWrite p).

Lemma wp_ended past sessions (post : list Did → unit → Prop) :
  sessions_ended past → (∀ past', past `prefix_of` past' → post past' ()) → wp guard past (cleanupRevokedSessions cfg sessions) post.
Proof.
  intros Hended Hpost. apply wp_from. apply wp_cleanup; [|by intros past' Hp _; apply Hpost]. intros past' q Hq Hp.
  assert (sessions_ended past') by (eapply sessions_ended_mono; [exact Hp|done]).
  destruct q; try (by left); try done; [destruct op; try done; by changes| |destruct op; try done; by changes].
  changes. by apply bool_decide_eq_true in Hq.
Qed.

(** All sessions of a user end, and their tokens with them. *)
Definition endable (u : string) (past : list Did) : Prop := may_touch p u past ∨ deactivated u past.
Lemma endable_mono u past past' : past `prefix_of` past' → endable u past → endable u past'.
Proof. intros Hp [?|?]; [left|right]; eauto with account. Qed.

Lemma wp_listed past u except (post : list Did → list (string * string) → Prop) :
  (∀ past' r, past `prefix_of` past' → post past' r) → wp guard past (sessionsForRevocation u except) post.
Proof. apply wp_decide_plain. unfold sessionsForRevocation. by wp_steps. Qed.

Lemma wp_all_revoked {A} past u except sessions (k : Res sessionError Z → Prog A) (post : list Did → A → Prop) :
  endable u past →
  (∀ past' r, past `prefix_of` past' → wp guard past' (k r) post) →
  wp guard past (let* revoked := CSessionsRevokeAll u except in
                 let+ _ := match revoked with Err _ => Ret () | Ok _ => cleanupRevokedSessions cfg sessions end in k revoked)%go post.
Proof.
  intros Hend Hk. apply wp_do; [by changes|]. intros revoked. apply wp_bind. destruct revoked as [n|e]; [|apply wp_ret, Hk; pre].
  apply wp_ended; [right; eexists _, _, _; auto with did|]. intros past1 Hp1. apply Hk. pre.
Qed.

Lemma wp_tokens_revoked past u except now {A} (k : Res oauthError unit → Prog A) (post : list Did → A → Prop) :
  endable u past →
  (∀ past' r, past `prefix_of` past' → wp guard past' (k r) post) → wp guard past (Do (CStore (OpRevokeUserTokens u except now)) k) post.
Proof. intros Hend Hk. apply wp_do; [by changes|]. intros r. apply Hk. pre. Qed.

Lemma wp_credentials_revoked past u (post : list Did → Z * Z → Prop) :
  may_touch p u past → (∀ past' r, past `prefix_of` past' → post past' r) → wp guard past (revoke_credentials cfg u "") post.
Proof.
  intros Hmay Hpost. unfold revoke_credentials. apply wp_bind, wp_listed. intros past1 l Hp1.
  apply wp_all_revoked; [left; eapply may_touch_mono; [|exact Hmay]; pre|]. intros past2 r Hp2. apply wp_do; [by left|]. intros now.
  apply wp_tokens_revoked; [left; eapply may_touch_mono; [|exact Hmay]; pre|]. intros past3 t Hp3. apply wp_do.
  - changes. eapply may_touch_mono; [|exact Hmay]. pre.
  - intros d. apply wp_ret, Hpost. pre.
Qed.

Lemma wp_mailed past user (post : list Did → bool → Prop) :
  (∀ past' r, past `prefix_of` past' → post past' r) → wp guard past (sendEmailVerification cfg user) post.
Proof.
  intros Hpost. apply wp_frame. unfold sendEmailVerification, verification_Issue. wp_steps; try (by left); try (by changes); intros Hp; by apply Hpost.
Qed.

Lemma wp_createUser past : wp guard past (createUser cfg rq) anything.
Proof.
  unfold createUser. destruct (decode_fields _ _) as [m|input]; [done|]. apply wp_do; [by left|]. intros now. apply wp_do; [by left|]. intros rnd.
  destruct (NewUser _ _ _) as [user|e] eqn:E; [|done]. apply wp_do; [changes; by eexists _, _, _|]. intros [stored|e]; [|by destruct e].
  by apply wp_bind, wp_mailed.
Qed.

Lemma wp_records past algorithm now expires names emails l (post : list Did → Res identityError (list PasswordMigrationRecord) → Prop) :
  (∀ past' r, past `prefix_of` past' → post past' r) → wp guard past (migration_records algorithm now expires names emails l) post.
Proof.
  revert past names emails post. induction l as [|v l IH]; intros past names emails post Hpost; cbn [migration_records]; [by apply Hpost|].
  apply wp_do; [by left|]. intros rnd. destruct (import_records _ _ _ _ _ _ _) as [made|e]; [|apply wp_ret, Hpost; pre].
  apply wp_bind, IH. intros past1 r Hp1. apply wp_ret, Hpost. pre.
Qed.
Lemma wp_importUsers past : wp guard past (importUsers rq p) anything.
Proof.
  unfold importUsers, migration_Import. destruct (decode_fields _ _) as [m|input]; [done|]. cbv zeta. apply wp_bind.
  assert (∀ past1 r, wp guard past1
    match r with
    | Err Identity.ErrInvalid => Ret (writeProblem 400 "invalid_password_migration" (identity_text Identity.ErrInvalid))
    | Err Identity.ErrConflict => Ret (writeProblem 409 "user_conflict" "迁移用户中的用户名或邮箱已存在")
    | Err _ => Ret (writeProblem 500 "server_error" "迁移用户失败")
    | Ok result =>
        let+ _ := recordAdminAudit rq p (admin_event "users.password_migration" ""
                    (<["password_algorithm" := VString (im_Algorithm (read_import input))]> (<["count" := VInt (mg_Count result)]>
                     {["expires_at" := VTime (mg_ExpiresAt result)]}))) in
        Ret (writeStruct 201 (migration_members result))
    end%go anything) as Hreply.
  { intros past1 [r|e]; [admin|by destruct e]. }
  destruct (decide _); [done|]. destruct (decide _); [done|]. apply wp_do; [by left|]. intros now.
  destruct (_ || _); [done|]. apply wp_bind, wp_records. intros past1 [records|e] Hp1; [|exact (Hreply past1 (Err e))].
  apply wp_do; [by changes|]. intros created. apply wp_ret, Hreply.
Qed.

Lemma wp_end_inactive past u (post : list Did → unit → Prop) :
  endable u past → (∀ past', past `prefix_of` past' → post past' ()) → wp guard past (end_inactive cfg u) post.
Proof.
  intros Hend Hpost. unfold end_inactive. apply wp_bind, wp_listed. intros past1 l Hp1.
  apply wp_all_revoked; [eapply endable_mono; [|exact Hend]; pre|]. intros past2 r Hp2. apply wp_do; [by left|]. intros now.
  apply wp_tokens_revoked; [eapply endable_mono; [|exact Hend]; pre|]. intros past3 t Hp3. apply wp_ret, Hpost. pre.
Qed.

Lemma wp_store_user past current updated : account_changed p updated past → wp guard past (store_user cfg current updated) anything.
Proof.
  intros Hch. unfold store_user. apply wp_do; [by changes|]. intros [stored|e]; [|by destruct e]. apply wp_bind.
  assert (∀ past1, wp guard past1 (let+ _ := if bool_decide (is_Some (u_Email stored)) && negb (same_email (u_Email current) (u_Email stored))
                then sendEmailVerification cfg stored else Ret true in Ret (writeStruct 200 (user_members stored)))%go anything) as Hrest.
  { intros past1. apply wp_bind. destruct (_ && _); [|done]. by apply wp_mailed. }
  destruct (decide _) as [Hs|]; [|apply wp_ret, Hrest]. apply wp_end_inactive; [|intros past1 Hp1; apply Hrest].
  right. exists updated, stored. split_and!; [auto with did|done..].
Qed.

Lemma wp_replaceUser past : wp guard past (replaceUser cfg rq p) anything.
Proof.
  unfold replaceUser. apply wp_try, wp_ret. destruct (path_user rq) as [r|u]; [done|]. apply wp_do; [by left|]. intros [current|[]]; try done.
  destruct (decode_fields _ _) as [m|input]; [done|]. apply wp_do; [by left|]. intros now.
  set (input' := {| ru_DisplayName := _ |}). destruct (ReplacedUser current input' now) as [updated|e] eqn:E; [|done].
  set (past1 := ((past ++ _) ++ _)%list).
  assert (∀ past2, past1 `prefix_of` past2 →
    (u_Status current = UserActive → u_Status updated ≠ UserActive → may_touch p u past2 ∧ not_the_last u past2) → account_changed p updated past2) as Hch.
  { intros past2 Hp2 Hok. exists u, current, input', now. split_and!; [|done|done]. eapply did_prefix; [exact Hp2|]. unfold past1. auto with did. }
  destruct (decide _) as [Hd|Hd]; [|apply wp_store_user, Hch; [done|]; intros; by destruct Hd].
  apply wp_try, wp_deactivation. intros past2 [r|[]] Hp2 Hr; [done|]. apply wp_store_user, Hch; [done|]. intros _ _. by apply Hr.
Qed.

Lemma wp_setUserPassword past : wp guard past (setUserPassword cfg rq p) anything.
Proof.
  unfold setUserPassword, passwords_Set, hash_password. apply wp_try, wp_target. intros past1 [r|u] Hp1 Hmay; [done|]. specialize (Hmay u eq_refl).
  apply wp_try, wp_ret. destruct (decode_or_problem _ _) as [r|input]; [done|]. destruct (decide _); [done|]. apply wp_bind, wp_do; [by left|]. intros rnd.
  destruct (hashPassword _ _) as [hash|e]; [|done]. apply wp_do; [changes; eapply may_touch_mono; [|exact Hmay]; pre|]. intros [[]|e]; [|done].
  apply wp_bind, wp_credentials_revoked; [eapply may_touch_mono; [|exact Hmay]; pre|]. intros past2 counts Hp2. by apply wp_bind, wp_recorded.
Qed.

Lemma wp_issueUserPasswordReset past : wp guard past (issueUserPasswordReset rq p) anything.
Proof.
  unfold issueUserPasswordReset, passwords_IssueReset. admin. changes. eapply may_touch_mono; [|exact Htarget]. pre.
Qed.
Lemma wp_verifyAdminUserEmail past : wp guard past (verifyAdminUserEmail rq p) anything.
Proof. unfold verifyAdminUserEmail. admin. changes. eapply may_touch_mono; [|exact Htarget]. pre. Qed.

Lemma wp_revokeAdminUserSession past : wp guard past (revokeAdminUserSession cfg rq p) anything.
Proof.
  unfold revokeAdminUserSession. admin_step; [admin|]. cbv zeta. apply wp_do; [by changes|]. intros [[]|e]; [|by destruct e].
  apply wp_bind, wp_ended; [left; eexists _, _; auto with did|]. intros past1 Hp1. by apply wp_bind, wp_recorded.
Qed.

Lemma wp_revokeAllAdminUserSessions past : wp guard past (revokeAllAdminUserSessions cfg rq p) anything.
Proof.
  unfold revokeAllAdminUserSessions. admin_step; [admin|]. apply wp_do; [by left|]. intros [listed|e]; [|done].
  apply wp_do; [changes; left; eapply may_touch_mono; [|exact Htarget]; pre|]. intros [n|e]; [|done].
  apply wp_bind, wp_ended; [right; eexists _, _, _; auto with did|]. intros past1 Hp1. apply wp_do; [by left|]. intros now.
  apply wp_tokens_revoked; [left; eapply may_touch_mono; [|exact Htarget]; pre|]. intros past2 [t|e'] Hp2; [|done]. by apply wp_bind, wp_recorded.
Qed.

Lemma wp_resetAdminUserMFA past : wp guard past (resetAdminUserMFA cfg rq p) anything.
Proof.
  unfold resetAdminUserMFA. admin_step; [admin|]. cbv zeta. apply wp_do; [by changes|]. intros disabled.
  assert (∀ past1, past0 `prefix_of` past1 → wp guard past1
    (let+ revokedSessions := sessionsForRevocation s "" in
     let* revoked := CSessionsRevokeAll s "" in
     match revoked with
     | Err _ => Ret (writeProblem 500 "server_error" "重置多因素认证后撤销会话失败")
     | Ok count =>
         let+ _ := cleanupRevokedSessions cfg revokedSessions in
         let* now := CNow in
         let* tokens := CStore (OpRevokeUserTokens s "" now) in
         match tokens with
         | Err _ => Ret (writeProblem 500 "server_error" "重置多因素认证后撤销 OAuth 令牌失败")
         | Ok _ =>
             let+ _ := recordAdminAudit rq p (admin_event "mfa.reset_by_admin" ""
                         (<["user_id" := VString s]> {["sessions_revoked" := VInt count]})) in
             Ret no_content
         end
     end)%go anything) as Hend.
  { intros past1 Hp1. apply wp_bind, wp_listed. intros past2 sessions Hp2. apply wp_do; [changes; left; eapply may_touch_mono; [|exact Htarget]; pre|].
    intros [n|e]; [|done]. apply wp_bind, wp_ended; [right; eexists _, _, _; auto with did|]. intros past3 Hp3. apply wp_do; [by left|]. intros now.
    apply wp_tokens_revoked; [left; eapply may_touch_mono; [|exact Htarget]; pre|]. intros past4 [t|e'] Hp4; [|done]. by apply wp_bind, wp_recorded. }
  destruct disabled as [[]|[]]; try done; apply Hend; pre.
Qed.

Lemma wp_deleteUserExternalIdentity past : wp guard past (deleteUserExternalIdentity cfg rq p) anything.
Proof.
  unfold deleteUserExternalIdentity. cbv zeta. apply wp_try, wp_ret. destruct (path_user rq) as [r|u]; [done|]. destruct (negb _); [done|].
  admin_step; [admin|]. apply wp_do; [by left|]. intros [found|[]]; try done. destruct (decide _); [done|]. unfold remove_external. cbv zeta.
  apply wp_do; [changes; eapply may_touch_mono; [|exact Htarget]; pre|]. intros [[]|e]; [|by destruct e].
  apply wp_bind, wp_listed. intros past2 sessions Hp2. apply wp_all_revoked; [left; eapply may_touch_mono; [|exact Htarget]; pre|].
  intros past3 r Hp3. apply wp_do; [by left|]. intros now. apply wp_tokens_revoked; [left; eapply may_touch_mono; [|exact Htarget]; pre|].
  intros past4 t Hp4. by apply wp_bind, wp_recorded.
Qed.
End UserHandlers.

(** ** Administrators *)

Lemma wp_replaceUserAdministratorRoles past : wp (proper_call cfg PermissionAdminRolesWrite p) past (replaceUserAdministratorRoles rq p) anything.
Proof.
  unfold replaceUserAdministratorRoles. admin_step; [admin|]. destruct (decode_fields _ _) as [m|input]; [done|]. cbv zeta. set (roles := get_texts _ _).
  destruct (ValidateRoles roles) as [[]|e] eqn:E; [|done]. apply wp_do; [by left|]. intros [current|e]; [|done].
  assert (∀ past1, did (CAdmin (AcUserRoles s)) (Ok current) ∈ past1 →
    (grantsContainRole current RoleSuperAdmin = true → HasRole roles RoleSuperAdmin = false → another_remains s past1) →
    wp (proper_call cfg PermissionAdminRolesWrite p) past1 (store_administrator_roles rq p s roles) anything) as Hstore.
  { intros past1 Hcur Hother. unfold store_administrator_roles. apply wp_do; [by left|]. intros now. apply wp_do.
    - changes. split_and!; [done|done|]. exists current. split; [auto with did|]. intros Hg Hn. eapply another_remains_mono; [|by apply Hother]. pre.
    - intros [[]|e]; [admin|by destruct e]. }
  destruct (_ && _) eqn:Edrop.
  - apply wp_try, wp_other. intros past1 [r|[]] Hp1 Hr; [done|]. apply Hstore; [|intros _ _; by apply Hr]. eapply did_prefix; [exact Hp1|]. auto with did.
  - apply Hstore; [auto with did|]. intros Hg Hn. by rewrite Hg, Hn in Edrop.
Qed.

(** ** What only reads *)

Section Readers.
Abbreviation guard := (proper_call cfg "" p).
Lemma wp_adminMe past : wp guard past (adminMe rq p) anything.
Proof. unfold adminMe. admin. Qed.
Lemma wp_listUsers past : wp guard past (listUsers rq) anything.
Proof. unfold listUsers. admin. Qed.
Lemma wp_getUser past : wp guard past (getUser rq) anything.
Proof. unfold getUser. admin. Qed.
Lemma wp_listUserExternalIdentities past : wp guard past (listUserExternalIdentities rq) anything.
Proof. unfold listUserExternalIdentities. admin. Qed.
Lemma wp_listAdminUserSessions past : wp guard past (listAdminUserSessions rq) anything.
Proof. unfold listAdminUserSessions. admin. Qed.
Lemma wp_listUserAdministratorRoles past : wp guard past (listUserAdministratorRoles rq) anything.
Proof. unfold listUserAdministratorRoles. admin. Qed.
Lemma wp_listAuditEvents past : wp guard past (listAuditEvents rq) anything.
Proof. unfold listAuditEvents. admin. Qed.
Lemma wp_listSigningKeys past : wp guard past listSigningKeys anything.
Proof. unfold listSigningKeys. admin. Qed.
Lemma wp_listIdentitySources past : wp guard past listIdentitySources anything.
Proof. unfold listIdentitySources. admin. Qed.
Lemma wp_getIdentitySource past : wp guard past (getIdentitySource rq) anything.
Proof. unfold getIdentitySource. admin. Qed.
Lemma wp_listAdminClients past : wp guard past listAdminClients anything.
Proof. unfold listAdminClients. admin. Qed.
Lemma wp_listAdminSystems past : wp guard past listAdminSystems anything.
Proof. unfold listAdminSystems. admin. Qed.
Lemma wp_getAdminSystem past : wp guard past (getAdminSystem rq) anything.
Proof. unfold getAdminSystem. admin. Qed.
Lemma wp_getAdminClient past : wp guard past (getAdminClient cfg rq) anything.
Proof. unfold getAdminClient. admin. Qed.
Lemma wp_getClientIntegration past : wp guard past (getClientIntegration cfg rq) anything.
Proof. unfold getClientIntegration. admin. Qed.
Lemma wp_listRoles past : wp guard past (listRoles rq) anything.
Proof. unfold listRoles. admin. Qed.
Lemma wp_getRole past : wp guard past (getRole rq) anything.
Proof. unfold getRole. admin. Qed.
Lemma wp_listPermissions past : wp guard past (listPermissions rq) anything.
Proof. unfold listPermissions. admin. Qed.
Lemma wp_getPermission past : wp guard past (getPermission rq) anything.
Proof. unfold getPermission. admin. Qed.
Lemma wp_listRolePermissions past : wp guard past (listRolePermissions rq) anything.
Proof. unfold listRolePermissions. admin. Qed.
Lemma wp_listUserRoles past : wp guard past (listUserRoles rq) anything.
Proof. unfold listUserRoles. admin. Qed.
End Readers.

(** ** The handlers *)

Lemma none_permits q : "" ∉ permitting q.
Proof. destruct q; try decided; destruct op; decided. Qed.

(** The calls of an endpoint: those of a reading one change nothing. *)
Definition endpoint_call (e : AdminEndpoint) (past : list Did) (q : Call) : Prop :=
  is_plain q = true ∨ (admin_method e ≠ "GET" ∧ admin_permission e ∈ permitting q ∧ proper cfg p past q).

Lemma wp_reader e past (h : Prog Reply) : wp (proper_call cfg "" p) past h anything → wp (endpoint_call e) past h anything.
Proof. apply wp_mono; [|done]. intros past' q [?|[Hin _]]; [by left|]. by destruct (none_permits q). Qed.
Lemma wp_writer e past (h : Prog Reply) :
  admin_method e ≠ "GET" → wp (proper_call cfg (admin_permission e) p) past h anything → wp (endpoint_call e) past h anything.
Proof. intros He. apply wp_mono; [|done]. intros past' q [?|?]; [by left|by right]. Qed.

Lemma wp_admin_handler e past : wp (endpoint_call e) past (admin_handler cfg e rq p) anything.
Proof.
  destruct e; cbn [admin_handler].
  - apply wp_reader, wp_adminMe.
  - done.
  - apply wp_reader, wp_listUsers.
  - apply wp_writer; [decided|]. apply wp_createUser.
  - apply wp_writer; [decided|]. apply wp_importUsers.
  - apply wp_reader, wp_getUser.
  - apply wp_writer; [decided|]. apply wp_replaceUser.
  - apply wp_writer; [decided|]. apply wp_setUserPassword.
  - apply wp_writer; [decided|]. apply wp_issueUserPasswordReset.
  - apply wp_writer; [decided|]. apply wp_verifyAdminUserEmail.
  - apply wp_reader, wp_listUserExternalIdentities.
  - apply wp_writer; [decided|]. apply wp_deleteUserExternalIdentity.
  - apply wp_reader, wp_listAdminUserSessions.
  - apply wp_writer; [decided|]. apply wp_revokeAllAdminUserSessions.
  - apply wp_writer; [decided|]. apply wp_revokeAdminUserSession.
  - apply wp_writer; [decided|]. apply wp_resetAdminUserMFA.
  - apply wp_reader, wp_listUserAdministratorRoles.
  - apply wp_writer; [decided|]. apply wp_replaceUserAdministratorRoles.
  - apply wp_reader, wp_listAuditEvents.
  - apply wp_reader, wp_listSigningKeys.
  - apply wp_writer; [decided|]. apply wp_rotateSigningKey.
  - apply wp_writer; [decided|]. apply wp_runMaintenance.
  - apply wp_writer; [decided|]. apply wp_testEmail.
  - apply wp_reader, wp_listIdentitySources.
  - apply wp_writer; [decided|]. apply wp_createIdentitySource.
  - apply wp_reader, wp_getIdentitySource.
  - apply wp_writer; [decided|]. apply wp_replaceIdentitySource.
  - apply wp_writer; [decided|]. apply wp_archiveIdentitySource.
  - apply wp_writer; [decided|]. apply wp_probeIdentitySource.
  - apply wp_reader, wp_listAdminClients.
  - apply wp_reader, wp_listAdminSystems.
  - apply wp_writer; [decided|]. apply wp_createSystem.
  - apply wp_reader, wp_getAdminSystem.
  - apply wp_writer; [decided|]. apply wp_replaceSystem.
  - apply wp_writer; [decided|]. apply wp_deleteSystem.
  - apply wp_writer; [decided|]. apply wp_createClient.
  - apply wp_reader, wp_getAdminClient.
  - apply wp_writer; [decided|]. apply wp_replaceClient.
  - apply wp_writer; [decided|]. apply wp_archiveClient.
  - apply wp_writer; [decided|]. apply wp_deleteArchivedClient.
  - apply wp_writer; [decided|]. apply wp_rotateClientSecret.
  - apply wp_reader, wp_getClientIntegration.
  - apply wp_reader, wp_listRoles.
  - apply wp_writer; [decided|]. apply wp_createRole.
  - apply wp_reader, wp_getRole.
  - apply wp_writer; [decided|]. apply wp_replaceRole.
  - apply wp_writer; [decided|]. apply wp_deleteRole.
  - apply wp_reader, wp_listPermissions.
  - apply wp_writer; [decided|]. apply wp_createPermission.
  - apply wp_reader, wp_getPermission.
  - apply wp_writer; [decided|]. apply wp_replacePermission.
  - apply wp_writer; [decided|]. apply wp_deletePermission.
  - apply wp_reader, wp_listRolePermissions.
  - apply wp_writer; [decided|]. apply wp_replaceRolePermissions.
  - apply wp_reader, wp_listUserRoles.
  - apply wp_writer; [decided|]. apply wp_replaceUserRoles.
Qed.
End Sound.

(** ** The endpoints *)

Section Theorem_.
Context `{HR : MapRange, HU : UnicodeTables, HM : MailParser, HS : TokenSigner, HA : Argon2, HH : HostParser, HP : URLParser}.
Context (cfg : Config) (rq : HttpRequest).

(** What the credentials show: all but the origin of the request. *)
Lemma wp_authenticateAdministrator φ past permission (post : list Did → Reply + adminPrincipal → Prop) :
  (∀ past q, is_plain q = true → φ past q) →
  (∀ past' r, past `prefix_of` past' →
     match r with
     | inl reply => (400 ≤ re_Status reply)%Z
     | inr p => ¬ (ap_AuthMethod p = adminAuthSession ∧ isMutation (rq_Method rq) = true ∧ validCSRF (rq_CSRFHeader rq) rq = false) →
                admitted cfg rq permission p past'
     end → post past' r) →
  wp φ past (authenticateAdministrator cfg rq permission) post.
Proof.
  intros Hplain Hpost. unfold authenticateAdministrator. cbv zeta. destruct (decide _) as [Hne|Hne].
  - destruct (_ || _) eqn:E; apply wp_ret, Hpost; [done|done|done|]. intros _. apply orb_false_iff in E as [Hp Hv].
    apply negb_false_iff, HasPrefix_true in Hp as [token Htoken]. apply negb_false_iff in Hv. rewrite Htoken, TrimPrefix_app in Hv.
    unfold validEmergencyAdminToken in Hv. destruct (decide _) as [|Hn]; [done|]. apply bool_decide_eq_true in Hv. apply Decidable.not_or in Hn as [Hn1 Hn2].
    split; [|left; by exists token]. unfold Has. replace (Contains _ PermissionAll) with true; [done|by vm_compute].
  - apply wp_bind, (wp_session φ); [done|]. intros past1 [current|] Hp1 Hc; [|by apply wp_ret, Hpost].
    apply wp_do; [by apply Hplain|]. intros [access|err]; apply wp_ret, Hpost; try pre; [|done].
    destruct (_ || _) eqn:E; [done|]. apply orb_false_iff in E as [Hroles Hhas]. apply bool_decide_eq_false in Hroles. apply negb_false_iff in Hhas.
    destruct (negb _) eqn:Em; [done|]. apply negb_false_iff in Em. intros Hcsrf. split; [done|]. right. exists current.
    split_and!; [eapply signed_in_mono; [|by apply Hc]; pre|auto with did|done|done|done|].
    intros Hmut. destruct (validCSRF _ _) eqn:Ev; [done|]. by destruct Hcsrf.
Qed.

Lemma served_method e : admin_method e ≠ "GET" → serves_method (admin_method e) (rq_Method rq) = true →
  isMutation (rq_Method rq) = true.
Proof.
  intros He. unfold serves_method. rewrite (bool_decide_false (admin_method e = "GET")) by done. rewrite andb_false_l, orb_false_r.
  intros ->%bool_decide_eq_true. revert He. by destruct e; vm_compute.
Qed.

Lemma wp_administer e :
  wp (admin_guard cfg rq) [] (administer cfg e rq) (λ past r, (re_Status r < 400)%Z → ∃ p, admitted cfg rq (admin_permission e) p past).
Proof.
  assert (∀ past q, is_plain q = true → admin_guard cfg rq past q) as Hplain by (by left).
  unfold administer, auditMutations. apply wp_bind.
  assert (∀ past served, ((re_Status served.2 < 400)%Z → ∃ p, admitted cfg rq (admin_permission e) p past) →
    wp (admin_guard cfg rq) past
      (let reply := served.2 in
       if negb (HasPrefix (rq_Path rq) "/api/v1/admin/") ||
          negb (bool_decide (rq_Method rq = "POST" ∨ rq_Method rq = "PUT" ∨ rq_Method rq = "DELETE")) ||
          bool_decide (re_Status reply = re_Status panicked)
       then Ret reply
       else
         let method := match served.1 with Some p => ap_AuthMethod p | None => "" end in
         let outcome := if decide (400 ≤ re_Status reply)%Z then OutcomeFailure else OutcomeSuccess in
         let e := event "" "admin.request" "" outcome
                    (<["method" := VString (rq_Method rq)]> (<["path" := VString (rq_Path rq)]> (<["status" := VInt (re_Status reply)]>
                     {["admin_auth_method" := VString method]}))) in
         let+ _ := recordAudit rq (match served.1 with Some p => by_administrator p e | None => e end) in
         Ret reply)%go (λ past r, (re_Status r < 400)%Z → ∃ p, admitted cfg rq (admin_permission e) p past)) as Haudit.
  { intros past served Hok. cbv zeta. destruct (_ || _); [done|]. apply wp_bind, (wp_record _ Hplain). intros past' Hp. apply wp_ret.
    intros Hs. destruct (Hok Hs) as [p Hadm]. exists p. by eapply admitted_mono. }
  destruct (serves_method _ _) eqn:Es; [|by apply wp_ret, Haudit].
  unfold requireAdmin. apply wp_bind, wp_authenticateAdministrator; [done|]. intros past1 [r|p] Hp1 Hr.
  - apply wp_ret, Haudit. simpl. lia.
  - destruct (_ && _) eqn:Ec; [by apply wp_ret, Haudit|]. assert (admitted cfg rq (admin_permission e) p past1) as Hadm.
    { apply Hr. intros (Ham & Hm & Hv). by rewrite Ham, Hm, Hv in Ec. }
    apply wp_bind, wp_from, wp_frame. eapply wp_mono; [| |apply (wp_admin_handler cfg rq p e)].
    + intros past2 q [Hq|(He & Hperm & Hprop)] Hp2; [by left|]. right. split; [by eapply served_method|].
      exists p, (admin_permission e). split_and!; [done|by eapply admitted_mono|done].
    + intros past2 r _ Hp2. apply wp_ret, Haudit. intros _. exists p. by eapply admitted_mono.
Qed.

End Theorem_.
