(* ===== verification/TokensExamples.v ===== *)
(** The theorems on the token endpoints at work: a confidential client redeems a code,
    refreshes, introspects and revokes; two requests race for one grant. *)
From S2P Require Import Prelude GoStrings GoCrypto OAuthStore OAuthStoreProps Session RateLimit Identity Passwords Client Authorize GoUrl Access AuditLog Http HttpWp Server Site Tokens TokensProps Exchange Routes.
Local Open Scope Z_scope.
Local Open Scope string_scope.

#[local] Existing Instances canonical_range ascii_tables plain_mail.

Definition redeem : HttpRequest :=
  post [("grant_type", GrantAuthorizationCode); ("code", "code"); ("redirect_uri", "https://app.example/cb"); ("code_verifier", verifier)].

Example redeem_works : re_Status (alone (token cfg redeem) world).2 = 200.
Proof. vm_compute. reflexivity. Qed.

(** ** A correct exchange *)

Definition redeem_form : Values := default ∅ (rq_PostForm redeem).

Lemma post_form fields : let f := default ∅ (rq_PostForm (post fields)) in ParseForm (post fields) = Some (f, f).
Proof.
  unfold ParseForm. simpl. do 2 f_equal. apply map_eq. intros k. rewrite lookup_union_with, lookup_empty.
  by destruct (form _ !! k).
Qed.


Lemma app_credentials w : FindClient (w_clients w) "app" = Ok app → good_credentials w redeem redeem_form app.
Proof.
  intros Hfind. exists "app", "secret", TokenEndpointAuthSecretPost.
  split; [apply (presents_post redeem redeem_form "secret"); evaluated|]. split; [evaluated|].
  split; [apply Nat.leb_le; evaluated|]. split; [discriminate|]. split; [exact Hfind|].
  split; [evaluated|]. split; [evaluated|]. intros _. evaluated.
Qed.

Lemma redeem_ready : exchange_ready cfg world redeem redeem_form redeem_form app code alice.
Proof.
  split.
  - split; [evaluated|apply post_form].
  - eexists. split; [evaluated|]. by right.
  - apply app_credentials. evaluated.
  - split; evaluated.
  - split; [discriminate|]. split; [discriminate|]. evaluated.
  - evaluated.
  - split; [evaluated|]. split; [evaluated|]. split; [intros _; evaluated|]. eexists. split; [evaluated|].
    simpl. set_solver.
  - evaluated.
Qed.

Lemma signer_signs : signer_works.
Proof. intros sg t claims. by eexists _, _. Qed.

Lemma code_exchange_succeeds_witness :
  ∃ w' m v raw, alone (token cfg redeem) world = (w', writeJSON 200 m) ∧ m !! "access_token" = Some (VString raw) ∧
    FindAccessToken (w_oauth w') (HashToken raw) (w_now world) = Ok v ∧ at_UserID v = "alice" ∧
    is_Some (m !! "refresh_token") ∧ is_Some (m !! "id_token").
Proof.
  destruct (code_exchange_succeeds cfg world redeem redeem_form redeem_form app code alice (replicate 48 1) (replicate 48 2)
    (replicate 48 3) (drop 3 (w_random world)) signer_signs redeem_ready) as (w' & m & v & Hrun & Hm & Hfind & (family & Hv) & Hr & Hid).
  - reflexivity.
  - vm_compute. discriminate.
  - vm_compute. reflexivity.
  - intros t Ht. exfalso. revert Ht. vm_compute. inversion 1.
  - eexists w', m, v, _. split; [exact Hrun|]. split; [exact Hm|]. split; [exact Hfind|]. split; [apply Hv|].
    split; [by apply Hr|]. apply Hid. by left.
Defined.

(** ** Executions *)

(** The first access token that a list of calls saves, with the calls around it. *)
Fixpoint first_save (before tr : list Did) : option (list Did * AccessToken * list Did) :=
  match tr with
  | [] => None
  | d :: tr =>
      match d with
      | existT (CStore (OpSaveAccessToken v)) _ => Some (before, v, tr)
      | _ => first_save (before ++ [d]) tr
      end
  end.

Lemma first_save_spec before tr b v a :
  first_save before tr = Some (b, v, a) → ∃ x, (before ++ tr = b ++ did (CStore (OpSaveAccessToken v)) x :: a)%list.
Proof.
  revert before. induction tr as [|[q x] tr IH]; intros before; [done|].
  call_cases q; simpl; intros E.
  all: try (apply IH in E as [y E]; exists y; by rewrite <- app_assoc in E).
  simplify_eq. by exists x.
Qed.

Lemma Some_pair {A B} (a a' : A) (b b' : B) : Some (a, b) = Some (a', b') → b = b'.
Proof. congruence. Qed.

(** Any form that the request was parsed into is the one it posted. *)
Lemma posted fields body f :
  ParseForm (post fields) = Some (body, f) → f = default ∅ (rq_PostForm (post fields)).
Proof. rewrite post_form. intros Hf. symmetry. exact (Some_pair _ _ _ _ Hf). Qed.

Lemma access_tokens_justified_witness :
  ∃ before v c, at_UserID v = "alice" ∧ entitled redeem_form c before v.
Proof.
  destruct (first_save [] (calls (token cfg redeem) world)) as [[[before v] rest]|] eqn:E; [|by vm_compute in E].
  destruct (first_save_spec _ _ _ _ _ E) as [x Htr].
  destruct (access_tokens_justified cfg eq redeem world _ _ _ before v x rest (serves _ _) Htr) as [(body & f & c & Hf & _ & _ & Hent) _].
  apply posted in Hf. rewrite Hf in Hent. exists before, v, c. split; [|exact Hent].
  assert (at_UserID v = "alice") as Hv; [|exact Hv].
  transitivity (from_option (λ s, at_UserID s.1.2) "" (first_save [] (calls (token cfg redeem) world))); [by rewrite E|evaluated].
Defined.

(** ** Using and revoking the tokens *)

Definition string_at (r : Reply) (key : string) : string :=
  match re_Body r with JsonBody m => match m !! key with Some (VString v) => v | _ => "" end | _ => "" end.

Definition granted : World := after (token cfg redeem) world.
Definition access_raw : string := string_at (answer (token cfg redeem) world) "access_token".
Definition refresh_raw : string := string_at (answer (token cfg redeem) world) "refresh_token".

Definition revoke : HttpRequest := post [("token", access_raw)].
Definition revoked : World := after (revokeToken cfg revoke) granted.

(** Every client that these calls found is [app]. *)
Definition finds_app (d : Did) : bool :=
  match d with
  | existT (CClientsFind _) (Ok c) => bool_decide (c_ID c = "app")
  | _ => true
  end.

Lemma client_is_app rq body c tr : forallb finds_app tr = true → authenticated rq body c tr → c_ID c = "app".
Proof.
  rewrite forallb_forall. intros Hall (id & secret & method & _ & Hin & _). apply list_elem_of_In, Hall in Hin.
  by apply bool_decide_eq_true in Hin.
Qed.

Lemma revocation_effective_witness :
  is_ok (FindAccessToken (w_oauth granted) (HashToken access_raw) (w_now granted)) = true ∧
  ∀ now, FindAccessToken (w_oauth revoked) (HashToken access_raw) now = Err ErrGrantNotFound.
Proof.
  split; [evaluated|].
  destruct (revocation_effective cfg eq revoke granted _ _ _ _ _ ltac:(by intros ? ? ->) (serves (revokeToken cfg revoke) granted)
    ltac:(evaluated) (post_form [("token", access_raw)])) as (c & Hauth & Hlater).
  apply client_is_app in Hauth; [|evaluated]. rewrite Hauth in Hlater.
  destruct (Hlater (w_oauth revoked) ltac:(reflexivity) ltac:(decided)) as [Ha _].
  apply Ha; decided.
Defined.

Definition inspect : HttpRequest := post [("token", refresh_raw); ("token_type_hint", "refresh_token")].

Definition json_of (r : Reply) : Claims := match re_Body r with JsonBody m => m | _ => ∅ end.

Lemma introspection_sound_witness :
  ∃ c, c_ID c = "app" ∧ reported_active (HashToken refresh_raw) c (calls (introspect cfg inspect) granted).
Proof.
  destruct (introspection_sound cfg eq inspect granted _ _ _ _ _ (serves _ _)
    ltac:(exists (json_of (answer (introspect cfg inspect) granted)); split; evaluated)
    (post_form [("token", refresh_raw); ("token_type_hint", "refresh_token")])) as (c & Hauth & _ & Hrep).
  exists c. split; [|exact Hrep]. eapply client_is_app; [|exact Hauth]. evaluated.
Defined.

Definition ask : HttpRequest :=
  {| rq_Method := "GET"; rq_ContentType := ""; rq_Authorization := "bearer " +:+ access_raw;
     rq_PostForm := Some ∅; rq_Query := ∅; rq_QueryBad := false; rq_JSON := []; rq_PathValues := ∅; rq_Path := ""; rq_RequestURI := ""; rq_CSRFHeader := ""; rq_Cookies := ∅;
     rq_IPAddress := "10.0.0.1"; rq_UserAgent := ""; rq_RequestID := "" |}.

Lemma userinfo_within_scope_witness :
  let m := json_of (answer (userinfo cfg ask) granted) in
  m !! "email" = Some (VString "alice@example") ∧ m !! "name" = None ∧ ∃ user scope, discloses user scope m.
Proof.
  split; [evaluated|]. split; [evaluated|].
  destruct (userinfo_within_scope cfg eq ask granted _ _ _ (json_of (answer (userinfo cfg ask) granted)) (serves _ _) ltac:(evaluated))
    as (now & tok & user & _ & _ & _ & _ & _ & _ & Hd).
  exists user, (at_Scope tok). exact Hd.
Defined.

(** ** Races *)

(** Two token requests present the same code; their calls alternate. *)
Definition contest : World * list Thread :=
  drive (concat (replicate 20 [0%nat; 1%nat])) (arrive (handle cfg) [(EToken, redeem); (EToken, redeem)] world).

Lemma grant_redeemed_once_witness :
  ((λ th, re_Status <$> replied th) <$> contest.2 = [Some 200; Some 400]) ∧
  (length (List.filter (redeemed (GCode (HashToken "code"))) contest.2) ≤ 1)%nat.
Proof.
  split; [evaluated|]. apply (grant_redeemed_once cfg _ world).
  etrans; [apply arrive_steps|apply drive_steps].
Defined.

(** A refresh, and a replay of the same refresh token that arrives just after the rotation. *)
Definition renew : HttpRequest := post [("grant_type", GrantRefreshToken); ("refresh_token", refresh_raw)].
Definition raced : World * list (Thread (Endpoint := Endpoint)) :=
  drive (replicate 6 0%nat ++ replicate 20 1%nat ++ replicate 20 0%nat)%list
    (arrive (handle cfg) [(EToken, renew); (EToken, renew)] granted).
Definition reply_of (i : nat) (s : World * list (Thread (Endpoint := Endpoint))) : Reply :=
  default (reply 0 NoBody) (s.2 !! i ≫= replied).

