(* ===== verification/AuthorizeExamples.v ===== *)
(** The authorization code flow and the device flow at work, and the theorems on them at
    these instances. *)
From S2P Require Import Prelude GoStrings GoCrypto GoTime Cas Mfa OAuthStore OAuthStoreProps Session RateLimit Identity Passwords Client Authorize GoUrl ReturnTo UserCodes Access AuditLog Http HttpWp Tokens TokensProps Exchange Site Browser BrowserProps AuthorizeEndpoint AuthorizeProps Device.
Local Open Scope Z_scope.
Local Open Scope string_scope.

#[local] Existing Instances canonical_range ascii_tables plain_mail site_urls.

(** ** A code is issued, and redeemed *)

Definition authorization_query (prompt : list (string * string)) : Values :=
  form (([("client_id", "app"); ("response_type", "code"); ("redirect_uri", "https://app.example/cb"); ("scope", "openid email");
         ("state", "xyz"); ("code_challenge", "E9Melhoa2OwvFrEMTJguCHaoeK1t8URWbuGJSstw-cM"); ("code_challenge_method", "S256")] ++ prompt)%list).
Definition signed_browser : gmap string string := {["certus_session" := "cookie"; "certus_csrf" := csrf_token]}.
Definition ask (prompt : list (string * string)) (cookies : gmap string string) : HttpRequest :=
  browser "GET" "/oauth2/authorize" (authorization_query prompt) None cookies.

Definition issued (r : Reply) : option string :=
  match re_Body r with RedirectURI "https://app.example/cb" [("code", code); ("state", "xyz")] => Some code | _ => None end.

(** The code that the endpoint sends to the application is worth tokens. *)
Definition redeem_code (code : string) : HttpRequest :=
  post [("grant_type", GrantAuthorizationCode); ("code", code); ("redirect_uri", "https://app.example/cb"); ("code_verifier", verifier)].
Example code_flow :
  let first := alone (authorize (ask [] signed_browser)) world in
  match issued first.2 with Some code => re_Status (alone (token cfg (redeem_code code)) first.1).2 | None => 0 end = 200.
Proof. vm_compute. reflexivity. Qed.

(** ** The theorems at these instances *)

Definition saves_code (d : Did) : bool := match projT1 d with CStore (OpSaveAuthorizationCode _) => true | _ => false end.

Lemma saves_code_spec d : saves_code d = true → ∃ v x, d = did (CStore (OpSaveAuthorizationCode v)) x.
Proof. destruct d as [q x]. call_cases q; simpl; done || (intros _; by eexists _, _). Qed.

Lemma codes_justified_witness :
  ∃ before v, justified (ask [] signed_browser) before v.
Proof.
  destruct (first_did saves_code [] (calls (authorize (ask [] signed_browser)) world)) as [[[before d] rest]|] eqn:E; [|by vm_compute in E].
  destruct (first_did_spec _ _ _ _ _ _ E) as [Htr (v & x & ->)%saves_code_spec]. exists before, v.
  exact (codes_justified eq (ask [] signed_browser) _ world _ _ _ before v x rest (handler_authorize _) (serves _ _) Htr).
Defined.


(** Without a recorded consent the user is shown a page, whose form then obtains the code. *)
Definition decision (cookies : gmap string string) : HttpRequest :=
  browser "POST" "/oauth2/authorize/consent" ∅ (Some [("csrf_token", csrf_token); ("decision", "allow")]) cookies.
Definition cookies_after (cookies : gmap string string) (r : Reply) : gmap string string :=
  foldl (λ m c, if decide (c.2 = "") then delete c.1 m else <[c.1 := c.2]> m) cookies (re_Cookies r).
Example consent_flow :
  let first := alone (authorize (ask [("prompt", "consent")] signed_browser)) world in
  let second := alone (oauthConsentDecision (decision (cookies_after signed_browser first.2))) first.1 in
  match issued second.2 with Some code => re_Status (alone (token cfg (redeem_code code)) second.1).2 | None => 0 end = 200 ∧
  match re_Body first.2 with Page t _ => t | _ => "" end = "consent.html".
Proof. split; evaluated. Qed.

(** A request for a new sign-in is not served by the old session: the browser is sent to
    sign in, with a marker. *)
Example sign_in_again :
  let r := answer (authorize (ask [("prompt", "login")] signed_browser)) world in
  (fst <$> re_Cookies r) = ["certus_oauth_reauth"] ∧ goes_to (λ _, False) r.
Proof. split; evaluated. Qed.

(** ** The device flow *)

Definition approve_device : HttpRequest :=
  browser "POST" "/device" ∅ (Some [("csrf_token", csrf_token); ("action", "approve"); ("user_code", "bcdf 9876")]) signed_browser.
Definition decides_op (op : StoreOp) : bool := match op with OpDecideDeviceAuthorization _ _ _ _ _ _ _ => true | _ => false end.
Definition decides (d : Did) : bool := match projT1 d with CStore op => decides_op op | _ => false end.

Lemma decides_spec d : decides d = true → ∃ op x, d = did (CStore op) x ∧ decides_op op = true.
Proof. destruct d as [q x]. destruct q; simpl; done || (intros Hop; by eexists _, _). Qed.

Lemma device_grants_decided_by_users_witness :
  ∃ before op, decides_op op = true ∧ device_guard approve_device before (CStore op).
Proof.
  destruct (first_did decides [] (calls (deviceDecision approve_device) world)) as [[[before d] rest]|] eqn:E; [|by vm_compute in E].
  destruct (first_did_spec _ _ _ _ _ _ E) as [Htr (op & x & -> & Hop)%decides_spec]. exists before, op. split; [exact Hop|].
  pose proof (serves (deviceDecision approve_device) world) as Hrun.
  pose proof (device_grants_decided_by_users cfg eq approve_device _ world _ _ _ before op x rest (handler_deviceDecision cfg approve_device) Hrun) as Hg.
  apply Hg. exact Htr.
Defined.
