(* ===== verification/CasExamples.v ===== *)
(** Signing in to a service with CAS, validating, proxying and signing out, and the
    theorems on them at these instances. *)
From S2P Require Import Prelude GoStrings GoCrypto GoTime GoXml Cas Mfa OAuthStore OAuthStoreProps Session RateLimit Identity Passwords Client Authorize GoUrl ReturnTo Access AuditLog Http HttpWp Server Tokens TokensProps Exchange Site Browser BrowserProps AuthorizeEndpoint AuthorizeProps CasEndpoints CasProps LogoutProps CasSound.
Local Open Scope Z_scope.
Local Open Scope string_scope.

#[local] Existing Instances canonical_range ascii_tables plain_mail site_urls.

(** A service that may proxy, and is told of logouts. *)
Definition service_url : string := "https://cas.example/start".
Definition service : Client :=
  {| c_ID := "cas"; c_SystemID := "cas"; c_System := None; c_Name := "Service"; c_Description := ""; c_FaviconURL := "";
     c_LaunchURI := ""; c_ApplicationType := ApplicationPublic; c_TokenEndpointAuthMethod := TokenEndpointAuthNone;
     c_Protocols := [ProtocolCAS]; c_GrantTypes := []; c_RedirectURIs := []; c_PostLogoutRedirectURIs := []; c_BackchannelLogoutURI := "";
     c_BackchannelLogoutSessionRequired := false; c_LoginMethods := [LoginPassword]; c_IdentitySourceIDs := []; c_IntrospectableBy := [];
     c_AllowedScopes := ["roles"]; c_AccessTokenLifetimeSeconds := 900; c_RefreshTokenLifetimeSeconds := 3600; c_CASVersion := CASVersion3;
     c_CASServiceURLs := [service_url]; c_CASProxy := true; c_CASGateway := true; c_CASRenew := true; c_CASSingleLogout := true;
     c_Enabled := true; c_ArchivedAt := None; c_SecretHash := "" |}.

(** The site with the service; the requests that it sends are answered 200. *)
Definition cas_site : World :=
  {| w_now := w_now world; w_random := w_random world; w_outside := set_replies [Ok 200; Ok 200; Ok 200] outside;
     w_clients := {| systems := ∅; systemOrder := []; clients := {["app" := app; "cas" := service]}; order := ["app"; "cas"] |};
     w_users := w_users world; w_sessions := w_sessions world; w_oauth := w_oauth world; w_access := w_access world; w_rate := w_rate world;
     w_signer := w_signer world; w_audit := w_audit world; w_cas := w_cas world; w_mfa := w_mfa world; w_sources := w_sources world; w_admin := w_admin world |}.

Definition signed_browser : gmap string string := {["certus_session" := "cookie"; "certus_csrf" := csrf_token]}.
Definition cas_get (path : string) (query : list (string * string)) (cookies : gmap string string) : HttpRequest :=
  browser "GET" path (form query) None cookies.
Definition sign_in : HttpRequest := cas_get "/cas/login" [("service", service_url)] signed_browser.
Definition ticket_of (r : Reply) : string :=
  match re_Body r with RedirectURI uri [("ticket", ticket)] => if decide (uri = service_url) then ticket else "" | _ => "" end.

(** The service ticket, the world it is in, and its validation with a callback for proxies. *)
Definition with_ticket : World := after (casLogin sign_in) cas_site.
Definition ticket : string := ticket_of (answer (casLogin sign_in) cas_site).
Definition validation (callback : list (string * string)) : HttpRequest :=
  cas_get "/cas/p3/serviceValidate" ([("service", service_url); ("ticket", ticket)] ++ callback)%list ∅.
Definition proxying : HttpRequest := validation [("pgtUrl", "https://cas.example/pgt")].

(** What the service reads. *)
Example validation_read :
  match re_Body (answer (casServiceValidate (validation [])) with_ticket) with
  | TextBody d => tokens d = success_tokens alice true "" [] [] []
  | _ => False
  end.
Proof. vm_compute. reflexivity. Qed.

(** The proxy-granting ticket that the callback received, and a proxy ticket for it. *)
Definition granting_ticket : string :=
  match first_did (λ d, match projT1 d with COutbound _ _ _ => true | _ => false end) [] (calls (casServiceValidate proxying) with_ticket) with
  | Some (_, d, _) => match projT1 d with COutbound _ _ parameters => Get parameters "pgtId" | _ => "" end
  | None => ""
  end.
Definition with_proxy : World := after (casServiceValidate proxying) with_ticket.
Definition proxy_request : HttpRequest := cas_get "/cas/proxy" [("pgt", granting_ticket); ("targetService", service_url)] ∅.
Example proxy_works :
  match re_Body (answer (casProxy proxy_request) with_proxy) with
  | TextBody d => match tokens d with [_; _; Tag "cas:proxySuccess"; Tag "cas:proxyTicket"; Chars t; _; _; _] => HasPrefix t "PT-" | _ => false end
  | _ => false
  end = true.
Proof. vm_compute. reflexivity. Qed.

(** ** The theorems at these instances *)

Definition is_ticket_op (op : CasOp) : bool :=
  match op with CoSaveServiceTicket _ | CoSaveProxyGrantingTicket _ | CoSaveProxyTicket _ _ => true | _ => false end.
Definition saves_ticket (d : Did) : bool := match projT1 d with CCas op => is_ticket_op op | _ => false end.
Lemma saves_ticket_spec d : saves_ticket d = true → ∃ op x, d = did (CCas op) x ∧ is_ticket_op op = true.
Proof. destruct d as [q x]. destruct q; simpl; done || (intros Hop; by eexists _, _). Qed.


Lemma cas_validation_sound_witness :
  match re_Body (answer (casServiceValidate proxying) with_ticket) with TextBody d => yes_document d | _ => false end = true ∧
  sound_reply proxying (calls (casServiceValidate proxying) with_ticket) (answer (casServiceValidate proxying) with_ticket).
Proof.
  split; [evaluated|]. exact (cas_validation_sound cfg eq ECasServiceValidate proxying with_ticket _ _ _ (serves _ _)).
Defined.

(** Two validations of the ticket, their calls interleaved: one of them names the user. *)
Definition both_validations : World * list (@Thread CasEndpoint) :=
  drive (concat (replicate 12 [0; 1]%nat)) (arrive (cas_handler cfg) [(ECasServiceValidate, validation []); (ECasProxyValidate, validation [])] with_ticket).

Lemma cas_ticket_accepted_once_witness :
  length (List.filter (names_user ticket service_url) both_validations.2) = 1%nat ∧
  (length (List.filter (names_user ticket service_url) both_validations.2) ≤ 1)%nat.
Proof.
  split; [evaluated|]. apply (cas_ticket_accepted_once cfg ticket service_url with_ticket both_validations); [evaluated|].
  unfold both_validations. etrans; [apply arrive_steps|apply drive_steps].
Defined.

(** Signing out with CAS: the service is told. *)
Definition sign_out : HttpRequest := cas_get "/cas/logout" [("service", service_url)] signed_browser.

Lemma cas_replies_read_witness :
  tokens (success_document alice true "" [] ["<admin>"] []) = success_tokens alice true "" [] ["<admin>"] [].
Proof. apply cas_replies_read. apply (bool_decide_unpack _). vm_compute. exact I. Defined.

(** A service ticket outlives the session it was issued for: validated after the user
    signed out, it names the user, and its service gets a proxy-granting ticket that
    nothing deletes, and a proxy ticket with it. *)
Definition after_logout : World := after (casLogout cfg sign_out) with_ticket.
Example ticket_outlives_logout :
  let validated := answer (casServiceValidate proxying) after_logout in
  let found := after (casServiceValidate proxying) after_logout in
  SessionIsActive (w_sessions after_logout) "alice" "session" (w_now after_logout) = Ok false ∧
  match re_Body validated with TextBody d => yes_document d | _ => false end = true ∧
  (λ t, (pgt_SessionID t, (pgt_ExpiresAt t - w_now after_logout)%Z)) <$> proxyGrantingTickets (w_cas found) = [("session", 8 * Hour)].
Proof. split_and!; evaluated. Qed.
