(* ===== verification/SignInExamples.v ===== *)
(** Signing in at the example site: a password, a second factor, a directory and an
    identity provider, and the theorems at these instances. *)
From S2P Require Import Prelude GoStrings GoCrypto GoTime Cas Mfa OAuthStore OAuthStoreProps Session RateLimit Identity Passwords Client Federation Authorize GoUrl ReturnTo Access AuditLog Http HttpWp Tokens TokensProps Exchange Site Browser BrowserProps CasEndpoints Services ServicesProps Providers SignIn SignInProps SignInSound.
Local Open Scope Z_scope.
Local Open Scope string_scope.
#[local] Existing Instances canonical_range ascii_tables plain_mail site_urls plain_hosts digest_argon2.

(** Filters with the bytes that have a meaning escaped. *)
Definition filter_byte (b : Z) : list Z := if decide (b ∈ bytes "()*\" ∨ b = 0) then 92 :: bytes (hex [b]) else [b].
Definition escape_filter (s : string) : string := of_bytes (bytes s ≫= filter_byte).

Definition harmless (b : Z) : bool := bool_decide (b ∉ bytes "()*" ∧ b ≠ 0 ∧ is_byte b).
Lemma filter_bytes_harmless : forallb (λ b, forallb harmless (filter_byte b)) (seqZ 0 256) = true.
Proof. vm_compute. reflexivity. Qed.
Lemma escape_filter_safe s b : b ∈ bytes (escape_filter s) → b ∉ bytes "()*" ∧ b ≠ 0.
Proof.
  unfold escape_filter. assert (∀ x, x ∈ bytes s ≫= filter_byte → harmless x = true) as Hall.
  { intros x (b' & Hb' & Hin)%list_elem_of_bind. pose proof (proj1 (forallb_forall _ _) filter_bytes_harmless b') as Hf.
    assert (is_byte b') as Hbyte by (by eapply Forall_forall; [apply bytes_range|]).
    eapply forallb_forall; [apply Hf|by apply list_elem_of_In]. apply list_elem_of_In, elem_of_seqZ. unfold is_byte in Hbyte. lia. }
  rewrite bytes_of_bytes by (apply Forall_forall; intros x Hx; apply Hall, bool_decide_eq_true in Hx; naive_solver).
  intros Hin. apply Hall, bool_decide_eq_true in Hin. naive_solver.
Qed.
#[local] Instance hex_filter : LDAPFilter := {| EscapeFilter := escape_filter; EscapeFilter_safe := escape_filter_safe |}.

(** ** The cast *)

Definition carol : User :=
  {| u_ID := "11111111-1111-4111-8111-111111111111"; u_Username := "carol"; u_DisplayName := "Carol"; u_Email := Some "carol@example";
     u_EmailVerified := true; u_Status := UserActive; u_CreatedAt := 1; u_UpdatedAt := 1 |}.
Definition password : string := "correct horse battery".
Definition accounts : UserRepository := (SetUserPassword (NewUserRepository [alice; carol]) (u_ID carol) password (Some (replicate 16 9))).1.

(** The site with these accounts and second factors. *)
Definition sign_in_site (mfa : MfaRepository) : World :=
  {| w_now := w_now world; w_random := (λ n, Some (replicate 48 (Z.of_nat n))) <$> seq 1 9; w_outside := outside; w_clients := w_clients world;
     w_users := accounts; w_sessions := w_sessions world; w_oauth := w_oauth world; w_access := w_access world; w_rate := w_rate world;
     w_signer := w_signer world; w_audit := w_audit world; w_cas := w_cas world; w_mfa := mfa; w_sources := w_sources world; w_admin := w_admin world |}.

Definition login_form (fields : list (string * string)) (cookies : list (string * string)) : HttpRequest :=
  browser "POST" "/login" ∅ (Some (("csrf_token", csrf_token) :: fields)%list) (list_to_map (("certus_csrf", csrf_token) :: cookies)).
Definition cookie_of (name : string) (r : Reply) : string :=
  default "" (snd <$> (snd <$> list_find (λ c : string * string, c.1 = name) (re_Cookies r))).

(** ** A password *)

Definition with_password : HttpRequest := login_form [("username", " Carol"); ("password", password); ("continue", "/account")] [].
Example password_signs_in :
  answer (loginPassword cfg with_password) (sign_in_site NewMfaRepository) =
  with_cookie sessionCookieName (RawURLEncoding_EncodeToString (replicate 48 1)) (redirect 303 "/login/success?continue=%2Faccount").
Proof. evaluated. Qed.

(** ** A second factor *)

Definition secret : list Z := replicate 20 5.
Definition enrolled : MfaRepository :=
  (EnableCredential (MfaSetup (cfg_MFAService cfg) NewMfaRepository (u_ID carol) "carol" noon
    {| se_secret := Some secret; se_nonce := Some (replicate 12 3); se_codes := λ n, Some (replicate 18 (Z.of_nat n)) |}).1 (u_ID carol) 0 noon).1.
Definition challenged_site : World := after (loginPassword cfg with_password) (sign_in_site enrolled).
Definition challenge : string := cookie_of mfaCookieName (answer (loginPassword cfg with_password) (sign_in_site enrolled)).
Definition with_code : HttpRequest :=
  login_form [("code", generateTOTP secret (Z.quot (Unix (w_now challenged_site)) 30)); ("remember_device", "on")] [("certus_mfa_transaction", challenge)].
Definition trusting_site : World := after (mfaLoginVerify cfg with_code) challenged_site.
Definition device : string := cookie_of trustedDeviceCookieName (answer (mfaLoginVerify cfg with_code) challenged_site).
(** The browser is remembered: the password is enough the next time. *)
Definition with_device : HttpRequest :=
  login_form [("username", "carol"); ("password", password)] [("certus_trusted_device", device)].

(** ** A directory and a provider *)

Definition with_directory : HttpRequest := login_form [("username", "alice"); ("password", "secret")] [].
Definition to_provider : HttpRequest := browser "GET" "/login/oidc" ∅ None ∅.
Definition at_provider : World := after (loginOIDC cfg to_provider) (sign_in_site enrolled).
Definition from_provider : HttpRequest :=
  browser "GET" "/login/oidc/callback" (form [("state", RawURLEncoding_EncodeToString (replicate 48 1)); ("code", "good")]) None
    {["certus_oidc_transaction" := cookie_of externalOIDCCookieName (answer (loginOIDC cfg to_provider) (sign_in_site enrolled))]}.

(** ** The theorems at these instances *)

(** The session that a request creates, or the challenge that it signs, is justified. *)
Definition justifying (d : Did) : bool := match projT1 d with CSessionsCreate _ _ _ _ _ | CSign _ => true | _ => false end.
Definition level_of (q : Call) : string := match q with CSessionsCreate _ _ _ _ level => level | _ => "" end.


Lemma sign_in_opens_created_witness :
  RawURLEncoding_EncodeToString (replicate 48 1) ∈ session_tokens (answer (loginPassword cfg with_password) (sign_in_site NewMfaRepository)) ∧
  opened (calls (loginPassword cfg with_password) (sign_in_site NewMfaRepository)) (RawURLEncoding_EncodeToString (replicate 48 1)).
Proof.
  assert (RawURLEncoding_EncodeToString (replicate 48 1) ∈ session_tokens (answer (loginPassword cfg with_password) (sign_in_site NewMfaRepository))) as Hin by decided.
  split; [exact Hin|]. exact (sign_in_opens_created cfg eq WithPassword with_password _ _ _ _ _ (serves _ _) Hin).
Defined.

Definition password_form : Values := (default (∅, ∅) (ParseForm with_password)).2.
Definition carol_credential : PasswordCredential :=
  match FindPasswordByUsername accounts "carol" with Ok p => p.2 | Err _ => {| pc_UserID := ""; pc_Hash := ""; pc_FailedAttempts := 0; pc_LockedUntil := None |} end.

