(* ===== verification/AccountExamples.v ===== *)
(** The account pages and registration at the example site, and the theorems at these
    instances. *)
From S2P Require Import Prelude GoStrings GoCrypto GoTime Cas Mfa OAuthStore OAuthStoreProps Session RateLimit Identity Passwords Client Federation Authorize GoUrl ReturnTo Access AuditLog Http HttpWp Server JsonBodies Tokens TokensProps Exchange Site Browser BrowserProps CasEndpoints LogoutProps Services ServicesProps Providers SignIn SignInProps SignInSound SignInExamples Account AccountProps Registration.
Local Open Scope Z_scope.
Local Open Scope string_scope.
#[local] Existing Instances canonical_range ascii_tables plain_mail site_urls plain_hosts digest_argon2.

(** A QR code of one row: its first module tells whether the text is one of a key. *)
#[local] Instance one_row : QRCode := {| qr_Bitmap s := Some [[HasPrefix s "otpauth://"; true]] |}.

(** Carol is signed in twice, and an application holds a token for her. *)
Definition carol_session (id : string) : Session :=
  {| s_ID := id; s_UserID := u_ID carol; s_AuthenticatedAt := noon; s_ExpiresAt := noon + Hour; s_LastSeenAt := noon;
     s_IPAddress := ""; s_UserAgent := ""; s_RevokedAt := None; s_AuthMethods := ["pwd"]; s_AssuranceLevel := "urn:certus:aal:1" |}.
Definition carol_token : AccessToken :=
  {| at_Hash := HashToken "token"; at_FamilyID := "f"; at_ClientID := "app"; at_UserID := u_ID carol; at_SessionID := "phone"; at_Scope := ["openid"];
     at_IssuedAt := noon; at_ExpiresAt := noon + Hour |}.
Definition account_site : World :=
  {| w_now := w_now world; w_random := (λ n, Some (replicate 48 (Z.of_nat n))) <$> seq 1 40; w_outside := outside; w_clients := w_clients world;
     w_users := accounts;
     w_sessions := {| sv_repository := {| records :=
       {["desk" := {| mr_Session := carol_session "desk"; mr_hash := HashToken "desk cookie"; mr_revokedAt := None |};
         "phone" := {| mr_Session := carol_session "phone"; mr_hash := HashToken "phone cookie"; mr_revokedAt := None |}]} |}; sv_lifetime := Hour |};
     w_oauth := (run store_step (w_oauth world) [OpSaveAccessToken carol_token]).1; w_access := w_access world; w_rate := w_rate world;
     w_signer := w_signer world; w_audit := w_audit world; w_cas := w_cas world; w_mfa := enrolled; w_sources := w_sources world; w_admin := w_admin world |}.

(** A script of the account page. *)
Definition script (path : string) (members : list (string * string)) : HttpRequest :=
  {| rq_Method := "POST"; rq_ContentType := "application/json"; rq_Authorization := ""; rq_PostForm := None; rq_Query := ∅;
     rq_QueryBad := false; rq_JSON := [JObject ((λ m, (m.1, JString m.2)) <$> members)]; rq_PathValues := {["sessionID" := "phone"]}; rq_Path := path;
     rq_RequestURI := path; rq_CSRFHeader := csrf_token; rq_Cookies := {["certus_session" := "desk cookie"; "certus_csrf" := csrf_token]};
     rq_IPAddress := "10.0.0.2"; rq_UserAgent := "browser"; rq_RequestID := "" |}.

Definition new_password : string := "staple battery horse".
Definition change_request : HttpRequest :=
  script "/account/password" [("current_password", password); ("NEW_password", new_password)].

Example password_changed :
  answer (account_handler cfg ChangePassword change_request) account_site = with_cookies [cleared trustedDeviceCookieName] (reply 204 NoBody).
Proof. evaluated. Qed.

(** ** The theorems at these instances *)

(** The calls that change something. *)
Definition changing (d : Did) : bool := negb (is_plain (projT1 d)).
(** The first change that a request makes is one that its owner may make. *)
Definition first_change (test : Call → bool) (e : AccountEndpoint) (rq : HttpRequest) (w : World) : bool :=
  match first_did changing [] (calls (account_handler cfg e rq) w) with Some (_, d, _) => test (projT1 d) | None => false end.

Definition next_code (w : World) : string := generateTOTP secret (Z.quot (Unix (w_now w)) 30).
Definition disable_request : HttpRequest := script "/account/mfa/disable" [("current_password", password); ("code", next_code account_site)].


Lemma account_sessions_keyed : keyed (table (w_sessions account_site)).
Proof.
  enough (map_Forall (λ id rec, s_ID (mr_Session rec) = id) (table (w_sessions account_site))) as Hall by (intros id rec; apply Hall).
  decided.
Qed.


(** Dave registers for the application. *)
Definition register_request : HttpRequest :=
  login_form [("username", "Dave"); ("display_name", "Dave"); ("email", "dave@example"); ("password", new_password);
              ("password_confirmation", new_password); ("client_id", "app")] [].
Example registers :
  re_Status (answer (register cfg register_request) account_site) = 303 ∧
  is_ok (Authenticate (w_users (after (register cfg register_request) account_site)) "dave" new_password noon None).2 = true.
Proof. split; evaluated. Qed.

