(* ===== verification/AdminExamples.v ===== *)
(** The administration at the example site: its theorem at some of its endpoints, and the
    race in which the last two super administrators deactivate each other. *)
From S2P Require Import Prelude GoStrings GoCrypto GoTime GoUrl ReturnTo Administration Cas Mfa Secrets OAuthStore OAuthStoreProps Session RateLimit Identity Passwords Client Federation Authorize Access AuditLog Http HttpWp Server JsonBodies Tokens TokensProps Site Browser BrowserProps CasEndpoints LogoutProps Services Providers SignIn SignInExamples Account AdminAuth AdminUsers AdminAccess AdminClients AdminSystem AdminRoutes AdminProps.
Local Open Scope Z_scope.
Local Open Scope string_scope.
#[local] Existing Instances canonical_range ascii_tables plain_mail site_urls plain_hosts digest_argon2.

(** Carol and Dana are super administrators, signed in with a second factor; Erin is
    nobody's administrator. *)
Definition user_of (id username : string) : User :=
  {| u_ID := id; u_Username := username; u_DisplayName := username; u_Email := None; u_EmailVerified := false; u_Status := UserActive; u_CreatedAt := 1;
     u_UpdatedAt := 1 |}.
Definition dana : User := user_of "22222222-2222-4222-8222-222222222222" "dana".
Definition erin : User := user_of "33333333-3333-4333-8333-333333333333" "erin".
Definition strong_session (id : string) (user : User) : Session :=
  {| s_ID := id; s_UserID := u_ID user; s_AuthenticatedAt := noon; s_ExpiresAt := noon + Hour; s_LastSeenAt := noon; s_IPAddress := ""; s_UserAgent := "";
     s_RevokedAt := None; s_AuthMethods := ["pwd"; "otp"]; s_AssuranceLevel := "urn:certus:aal:2" |}.
Definition opened (id cookie : string) (user : User) : string * memoryRecord :=
  (id, {| mr_Session := strong_session id user; mr_hash := HashToken cookie; mr_revokedAt := None |}).
Definition super (user : User) : string * list Grant :=
  (u_ID user, [{| gr_UserID := u_ID user; gr_Role := RoleSuperAdmin; gr_GrantedAt := noon; gr_GrantedBy := "emergency_token" |}]).

Definition admin_site : World :=
  {| w_now := w_now world; w_random := (λ n, Some (replicate 48 (Z.of_nat n))) <$> seq 1 40; w_outside := outside; w_clients := w_clients world;
     w_users := NewUserRepository [alice; carol; dana; erin];
     w_sessions := {| sv_repository := {| records := list_to_map [opened "c" "carol cookie" carol; opened "d" "dana cookie" dana; opened "e" "erin cookie" erin] |};
                      sv_lifetime := Hour |};
     w_oauth := w_oauth world; w_access := w_access world; w_rate := w_rate world; w_signer := w_signer world; w_audit := w_audit world; w_cas := w_cas world;
     w_mfa := enrolled; w_sources := w_sources world; w_admin := {| grants := list_to_map [super carol; super dana] |} |}.

(** A script of the administration's pages, sent with the cookie of a session. *)
Definition admin_script (e : AdminEndpoint) (cookie path : string) (values : list (string * string)) (members : list (string * Json)) : HttpRequest :=
  {| rq_Method := admin_method e; rq_ContentType := "application/json"; rq_Authorization := ""; rq_PostForm := None; rq_Query := ∅; rq_QueryBad := false;
     rq_JSON := [JObject members]; rq_PathValues := list_to_map values; rq_Path := path; rq_RequestURI := path; rq_CSRFHeader := csrf_token;
     rq_Cookies := {["certus_session" := cookie; "certus_csrf" := csrf_token]}; rq_IPAddress := "10.0.0.2"; rq_UserAgent := "browser"; rq_RequestID := "" |}.
Definition at_user (e : AdminEndpoint) (cookie : string) (user : User) (suffix : string) (members : list (string * Json)) : HttpRequest :=
  admin_script e cookie ("/api/v1/admin/users/" +:+ u_ID user +:+ suffix) [("userID", u_ID user)] members.
Definition texts_of (l : list string) : Json := JArray (JString <$> l).
Definition disable (cookie : string) (user : User) : HttpRequest :=
  at_user ReplaceUser_ cookie user "" [("display_name", JString "x"); ("status", JString UserDisabled)].
Definition appoint (user : User) (roles : list string) : HttpRequest :=
  at_user ReplaceUserAdministratorRoles "carol cookie" user "/admin-roles" [("roles", texts_of roles)].

(** The paths of the examples are the paths of their endpoints. *)
Example disable_path : match_path (admin_path ReplaceUser_) (rq_Path (disable "" dana)) = Some {["userID" := u_ID dana]}.
Proof. decided. Qed.

Definition status_of (e : AdminEndpoint) (rq : HttpRequest) : Z := re_Status (answer (administer cfg e rq) admin_site).
Example administrators_only :
  status_of ReplaceUser_ (disable "carol cookie" dana) = 200 ∧ status_of ReplaceUser_ (disable "erin cookie" dana) = 403 ∧
  status_of ReplaceUser_ (disable "" dana) = 401 ∧ status_of ReplaceUserAdministratorRoles (appoint erin [RoleAuditor]) = 200 ∧
  status_of GetUser (at_user GetUser "dana cookie" erin "" []) = 200.
Proof. split_and!; evaluated. Qed.

(** ** The theorem at these requests *)


(** ** A race *)

(** The super administrators whose accounts are active. *)
Definition active_supers (w : World) : list string :=
  base.filter (λ u, match FindUser (w_users w) u with Ok user => bool_decide (u_Status user = UserActive) | Err _ => false end = true)
    (match ListRoleUsers (w_admin w) RoleSuperAdmin with Ok l => l | Err _ => [] end).

(** One after the other, the last one is kept. *)
Definition both (schedule : list nat) : World * list (Thread (Endpoint := AdminEndpoint)) :=
  drive schedule (arrive (administer cfg) [(ReplaceUser_, disable "carol cookie" dana); (ReplaceUser_, disable "dana cookie" carol)] admin_site).
Definition statuses (s : World * list (Thread (Endpoint := AdminEndpoint))) : list (option Z) := (λ t, re_Status <$> replied t) <$> s.2.

Example in_turn :
  statuses (both (replicate 40 0%nat ++ replicate 40 1%nat)) = [Some 200; Some 401] ∧
  active_supers (both (replicate 40 0%nat ++ replicate 40 1%nat)).1 = [u_ID carol].
Proof. split; evaluated. Qed.

(** Two super administrators who deactivate each other at the same time each find the
    other active, and both are deactivated: no active super administrator is left, though
    each request checks that one is. *)
Theorem parallel_deactivation_leaves_none :
  let s := both (replicate 9 0%nat ++ replicate 40 1%nat ++ replicate 40 0%nat) in
  length (active_supers admin_site) = 2%nat ∧ statuses s = [Some 200; Some 200] ∧ active_supers s.1 = [].
Proof. split_and!; evaluated. Qed.
